(* ===== verification/_CoqProject ===== *)
-Q . S2P
Prelude.v
PySorted.v
PyStr.v
PyTime.v
PyDecimal.v
Sha256.v
PyJson.v
PyParse.v
Domain.v
Storage.v
Gaps.v
Bars.v
CaptureFeed.v
EventStore.v
Ingestion.v
RunReconciliation.v
Backfill.v
Persistence.v
IbkrPlan.v
IbkrStore.v
IbkrHistory.v
IbkrPacing.v
IbkrExecutor.v
PyFloat.v
PyText.v
Research.v
Foundation.v
FoundationBuild.v
WalkForward.v
PyDecFn.v
Strategy.v
Paper.v
Economics.v
Portfolio.v
PyFloatFn.v
Risk.v
Target.v
Rounding.v
IbkrEvidence.v
IbkrResults.v
IbkrSnapshot.v
