(* ===== verification/Prelude.v ===== *)
(** * A verification library for qtrad

    qtrad captures live market data from IG, turns quotes into one-minute bars,
    acquires historical bars from Interactive Brokers (IBKR), and builds from the stored
    observations causal datasets for walk-forward research. This library models the
    decision logic of those parts as executable functions and proves what makes them
    correct. File names below are under [src/qtrad].

    ** The program, and the files that model it

    Foundations, the part of the Python language and of its standard library in use:
    - this file: exceptions, the result monad [res] ([Raise] is an exception with its class
      and message), [traverse] for loops that may raise, the state-and-exception monad of
      the services, tactics and the hint database;
    - PySorted.v: comparison of tuples, strings and integers, [sorted] and its laws;
    - PyStr.v, PyTime.v, PyDecimal.v, PyFloat.v: [str], [datetime]/[timedelta],
      [decimal.Decimal] in its default context, binary64 [float] with [repr];
    - PyDecFn.v: the powers, square roots and exact sums of decimals research code uses;
    - PyFloatFn.v: [sum], [max] and comparison of floats, and decimals read from their text,
      which may be infinite or not a number;
    - Sha256.v, PyJson.v, PyParse.v, PyText.v: SHA-256, canonical JSON and [to_json_value],
      parsing of times, integers and decimals with their round trips.

    Live path:
    - Domain.v: identifiers, quotes, bars, gaps, event envelopes, run records
      (domain/identifiers.py, market_data.py, events.py, operations.py);
    - Storage.v: the storage port and redaction (ports/storage.py, adapters/postgres/store.py);
    - Gaps.v, Bars.v: gap detector and bar builder (application/gaps.py, bars.py);
    - EventStore.v: raw capture, optimistic appends, projections, rebuild, paged reads
      (adapters/postgres/store.py); the database is a record of tables;
    - Ingestion.v: the service (application/ingestion.py), proved against the class of store
      laws [AuditStoreLaws], of which EventStore.v gives the instance;
    - CaptureFeed.v: feed pages and cursors (ports/capture_feed.py, application/capture_feed.py);
    - Persistence.v: the bounded worker between feed and service (application/persistence.py)
      as a step relation over every interleaving of producer, worker and drain;
    - RunReconciliation.v: runs and abandoned-run plans (application/run_reconciliation.py).

    Historical path:
    - Backfill.v: reviewed IG backfills (domain/historical_coverage.py,
      application/backfill_planning.py, the plan and coverage tables);
    - IbkrPlan.v: frozen IBKR evidence, requests and the planner (domain/ibkr_historical.py,
      application/ibkr_historical.py);
    - IbkrStore.v: the transactions of the durable execution state
      (domain/ibkr_execution.py, adapters/postgres/ibkr_historical.py), and IbkrHistory.v,
      what they promise together: a simulation by the protocol of a single request;
    - IbkrPacing.v: the reservation ledger and the pacer (adapters/ibkr/pacing.py);
    - IbkrExecutor.v: the task group that runs a plan (application/ibkr_execution.py) over
      the store and the pacer, as events of tasks, provider answers and cancellations;
    - IbkrEvidence.v, IbkrResults.v: what a finished execution is evidence for: snapshots of
      its rows, provider payloads read to canonical rows, the result of every request and of
      the plan, its verification, replay and publication (domain/ibkr_results.py,
      application/ibkr_results.py);
    - IbkrSnapshot.v: the snapshot of the execution tables that the verifier reads, and the
      composition of recovery, later transactions, reading and verification.

    Research path:
    - Research.v: observations joined to canonical events, dataset identity, availability
      and revision delays (domain/research.py, application/research_observations.py);
    - Foundation.v, FoundationBuild.v: configuration, panel cells, frozen targets and their
      datasets, and the builders (domain/foundation.py, application/foundation.py);
    - WalkForward.v: folds, forecasts and their builders (domain/folds.py,
      domain/forecasts.py, application/walk_forward.py);
    - Strategy.v: strategies over forecasts and realised outcomes, their metrics and ranking
      (domain/strategy.py, application/strategy_evaluation.py);
    - Paper.v: the shadow-paper execution of a strategy with latency, sessions, slippage and
      costs (domain/paper.py, application/paper_execution.py).

    Portfolio path:
    - Economics.v: costs schedules, currency rates, products, their eligibility and rounding,
      convex cost curves and the expected cost of a transition (domain/economics.py);
    - Portfolio.v: sleeves, horizon intents, netting of opposing changes, transitions and
      their replay (domain/portfolio.py);
    - Risk.v: observations, the Ledoit-Wolf estimate and the ordered risk state with its
      caps (domain/risk.py);
    - Target.v: the inputs of a decision, the independent feasibility check and the seam
      around the solver (domain/portfolio.py, application/r3_portfolio.py);
    - Rounding.v: tradable quantities, the repair of caps and the sleeves of the result
      (domain/r3_rounding.py, application/r3_rounding.py).

    The paths meet in data: bars emitted by Bars.v are events of Ingestion.v stored by
    EventStore.v; Research.v reads the payload of such an event back to the same bar
    ([ingested_bar_observed]); FoundationBuild.v and WalkForward.v run on those datasets
    ([forecasts_total] composes the four builders).

    ** Conventions

    A dataclass is a record with [Class_post_init], its validation; [Class_new] validates
    and returns the value. A method keeps the name of the source. Mutable objects owned by one
    component are passed and returned; a database transaction is a function on its tables
    that leaves them unchanged when it raises. Times are integers of microseconds with a UTC
    offset, durations integers of microseconds, so the year bounds of [datetime] are not
    modelled. A [str] is a Rocq [string] of code points below 256. Decimals are finite.

    ** What the theorems show

    - Invariants over any history: the event store ([store_history_consistent]), the bar
      builder ([bars_run_safe]), coverage of backfills ([coverage_iff_completed]), record
      accounting of the worker ([every_record_accounted]), durable evidence for successful
      requests ([success_has_evidence]).
    - Refinement: execution transactions against the protocol of one request
      ([execution_refines_protocol]); fold building against the walk-forward schedule
      ([folds_follow_schedule]).
    - Totality and termination: ingestion, planning, recovery, executor, drain, panel and
      folds return whenever their inputs are well formed, never only "if they return".
    - Causality as noninterference: what becomes available after a cutoff changes neither
      panel cells ([panel_causal]) nor frozen labels ([targets_frozen]); folds do not leak
      ([folds_do_not_leak]); forecasts are out of fold ([forecasts_out_of_fold]);
      paper fills read only quotes up to their decision's latency ([shadow_paper_causal]);
      risk estimates read only what was available by their cutoff ([risk_state_causal]).
    - Distrust of a component that cannot be read: whatever the solver answers or raises, its
      seam blocks or accepts a position that was checked without it ([solver_untrusted]).
    - Evidence: an artifact that was built verifies, replays and publishes as itself
      ([results_replay]); the accepted rows are valid, inside their request, in order and each
      read from a callback before the selected completion ([accepted_rows_sound]); the eligible
      instruments are those with complete evidence of both kinds ([history_eligible_iff]); and
      one recovery, allowed by the store, after which every later state is refused by the
      verifier ([recovery_blocks_execution]).
    - Failing closed: rounding always returns, with nothing or with a position that can be
      traded and holds every cap ([rounding_fails_closed]).
    - Bounds: request pacing over every window ([pacing_exact]); exactness of the paper
      accounts in the 28-digit context ([paper_accounts_exactly]); rounding never exceeds the
      quantity ([round_quantity_truncates]).
    - Conservation: netting ([netting_exact]) and replay ([replay_exact]) keep every sleeve's
      quantities; expected costs equal the supporting lines of their curves
      ([expected_cost_exact]).
    - Equivalences and round trips: rebuilt projections equal incremental ones, streamed
      identities equal the digest of the canonical document, bars are independent of the order of
      arrival, payloads read back.
    Statements about digests are free of any assumption on SHA-256: equality of digests gives
    equality of contents or an explicit collision.

    ** Fuel

    Loops that are not structural take fuel computed from their input, and the theorems of
    totality show that it is enough: [planned_loop] and [read_page] by the remaining range or
    rows; [grid_loop] one step per grid unit left; [fold_loop] one per validation duration that
    fits before the holdout; [path_loop] one per grid unit of the horizon; [bisect_right] the
    length of its list; [match_loop] the number of buyers and sellers;
    [repair_loop] the limit of its policy, after which the code stops too. [float_repr] searches up to 17 significant digits, which suffice for
    binary64. The executor makes at most 81 events that are not mere waiting per request.

    ** Parameters

    The logarithm of the C library is the variable [math_log] of the target builder; the
    time zone database is the variable [zone] of the sessions; [pow] of the C library is the
    variable [math_pow] of the risk estimator, and the solver (CVXPY) the argument [runner]
    of [solve_continuous_target]; the reader of stored plan bytes ([json.loads]) is the variable
    [json_loads] of the verifier of results, and the size of a stored value (pg_column_size)
    the variable [column_size] of the snapshot read; the clock, server-drawn
    values, the IBKR provider and the order in which tasks are scheduled are arguments or
    steps of the environment.

    ** Not modelled, and why

    - Transports and wire formats (adapters/ig, the socket sessions of adapters/ibkr,
      adapters/parquet, api, __main__, runtime): input and output around the logic above.
    - Statistics over numpy arrays and model fitting (r2 and r3 evaluation, features,
      baselines, holdouts, experiments): results of libraries outside the repository.
    - Market hours: they rest on the time zone database.
    - Provider history, IBKR qualification and foundation promotion: logic that is not
      translated.
    - [IbkrPacingPolicy], the in-memory pacing variant; queries for operators
      (adapters/postgres/queries.py), which read and never write. *)

From Stdlib Require Import ZArith Lia.
From stdpp Require Export base gmap sets strings sorting numbers list.

Open Scope Z_scope.

(** ** Exceptions and fallible code

    A Python function that may raise is a function into [res]; the constructor
    [Raise] carries the class of the exception and its message. *)

Inductive exn_kind : Type :=
| KValueError | KTypeError | KRuntimeError | KKeyError | KIndexError | KArithmeticError
| KIntegrityError | KStreamVersionConflict | KPersistenceWorkerError | KPersistenceBackpressureError
| KIbkrHistoricalIncomplete | KAssertionError
| KEvidenceInvalid | KEvidenceConflict | KEvidenceUnavailable.

Record exn : Type := Exn { exn_class : exn_kind; exn_msg : string }.

Definition ValueError := Exn KValueError.
Definition TypeError := Exn KTypeError.
Definition RuntimeError := Exn KRuntimeError.
Definition KeyError := Exn KKeyError.
Definition IndexError := Exn KIndexError.
Definition IntegrityError := Exn KIntegrityError.
Definition StreamVersionConflict := Exn KStreamVersionConflict.
Definition ArithmeticError := Exn KArithmeticError.
Definition AssertionError := Exn KAssertionError.

#[export] Instance exn_kind_eq_dec : EqDecision exn_kind.
Proof. solve_decision. Defined.
#[export] Instance exn_eq_dec : EqDecision exn.
Proof. solve_decision. Defined.

Inductive res (A : Type) : Type :=
| Ok (a : A)
| Raise (e : exn).
Arguments Ok {A} a.
Arguments Raise {A} e.

#[export] Instance res_ret : MRet res := λ A a, Ok a.
#[export] Instance res_bind : MBind res := λ A B f m,
  match m with Ok a => f a | Raise e => Raise e end.
#[export] Instance res_fmap : FMap res := λ A B f m,
  match m with Ok a => Ok (f a) | Raise e => Raise e end.
#[export] Instance res_eq_dec `{EqDecision A} : EqDecision (res A).
Proof. solve_decision. Defined.

(** [if b: raise e] followed by the rest of the function. *)
Definition raise_if (b : bool) (e : exn) : res unit :=
  if b then Raise e else Ok tt.

Definition is_ok {A} (m : res A) : bool :=
  match m with Ok _ => true | Raise _ => false end.

Definition ok_or {A} (default : A) (r : res A) : A := match r with Ok a => a | Raise _ => default end.

(** A [for] loop whose body may raise, threading an accumulator. *)
Section loops.
Context {A B S : Type}.

Fixpoint for_each (f : S → A → res S) (s : S) (l : list A) : res S :=
  match l with
  | [] => Ok s
  | x :: l => s' ← f s x; for_each f s' l
  end.

(** A list comprehension whose element expression may raise. *)
Definition traverse (f : A → res B) : list A → res (list B) :=
  fix go (l : list A) : res (list B) :=
    match l with
    | [] => Ok []
    | x :: l => y ← f x; ys ← go l; Ok (y :: ys)
    end.

End loops.

Lemma bind_Ok {A B} (m : res A) (f : A → res B) y :
  (m ≫= f) = Ok y ↔ ∃ x, m = Ok x ∧ f x = Ok y.
Proof. destruct m; simpl; naive_solver. Qed.

Lemma bind_Raise {A B} (m : res A) (f : A → res B) e :
  (m ≫= f) = Raise e ↔ m = Raise e ∨ ∃ x, m = Ok x ∧ f x = Raise e.
Proof. destruct m; simpl; naive_solver. Qed.

Lemma raise_if_Ok b e u : raise_if b e = Ok u ↔ b = false.
Proof. destruct b, u; simpl; naive_solver. Qed.

Lemma raise_if_Raise b e e' : raise_if b e = Raise e' ↔ b = true ∧ e' = e.
Proof. destruct b; simpl; naive_solver. Qed.

Lemma is_ok_true {A} (m : res A) : is_ok m = true ↔ ∃ a, m = Ok a.
Proof. destruct m; simpl; naive_solver. Qed.

Lemma for_each_app {A S} (f : S → A → res S) s l1 l2 :
  for_each f s (l1 ++ l2) = (s' ← for_each f s l1; for_each f s' l2).
Proof. revert s. induction l1 as [|x l1 IH]; intros s; [done|]. cbn. destruct (f s x); cbn; auto. Qed.

(** Rule of invariants for a raising loop. *)
Lemma for_each_inv {A S} (f : S → A → res S) (I : S → Prop) l :
  (∀ s x s', x ∈ l → I s → f s x = Ok s' → I s') →
  ∀ s s', I s → for_each f s l = Ok s' → I s'.
Proof.
  induction l as [|x l IH]; intros Hf s s' HI; cbn; [naive_solver|].
  intros (s1 & H1 & H2)%bind_Ok. apply (IH ltac:(set_solver) s1 s'); [|done].
  apply (Hf s x s1); [set_solver|done|done].
Qed.

(** The same rule for an invariant of the elements passed and the accumulator. *)
Lemma for_each_prefix {A S} (f : S → A → res S) (I : list A → S → Prop) l :
  (∀ pre s x s', x ∈ l → I pre s → f s x = Ok s' → I (pre ++ [x]) s') →
  ∀ pre s s', I pre s → for_each f s l = Ok s' → I (pre ++ l) s'.
Proof.
  induction l as [|x l IH]; intros Hf pre s s' HI; cbn.
  { intros [= <-]. by rewrite app_nil_r. }
  intros (s1 & H1 & H2)%bind_Ok. change (x :: l) with ([x] ++ l). rewrite app_assoc.
  apply (IH ltac:(intros; eapply Hf; eauto; set_solver) _ s1); [|done]. apply (Hf pre s x s1); [set_solver|done|done].
Qed.

Lemma traverse_Ok {A B} (f : A → res B) l ys :
  traverse f l = Ok ys ↔ Forall2 (λ x y, f x = Ok y) l ys.
Proof.
  revert ys. induction l as [|x l IH]; intros ys; cbn.
  - split; [intros [= <-]; constructor|]. by inversion 1.
  - rewrite bind_Ok. setoid_rewrite bind_Ok. split.
    + intros (y & Hy & ys' & Hys & [= <-]). constructor; [done|]. by apply IH.
    + inversion 1 as [|? y ? ys']; subst. exists y. split; [done|].
      exists ys'. by rewrite IH.
Qed.

(** A loop that only checks. *)
Lemma for_each_unit {A} (f : A → res unit) l u :
  for_each (λ _ x, f x) tt l = Ok u ↔ ∀ x, x ∈ l → f x = Ok tt.
Proof.
  destruct u. induction l as [|y l IH]; cbn; [split; [set_solver|done]|]. rewrite bind_Ok. split.
  - intros ([] & Hy & H) x [->|Hx]%elem_of_cons; [done|]. by apply IH.
  - intros H. exists tt. split; [apply H; set_solver|]. apply IH. intros; apply H; set_solver.
Qed.

Lemma traverse_total {A B} (f : A → res B) (P : A → B → Prop) l :
  (∀ x, x ∈ l → ∃ y, f x = Ok y ∧ P x y) → ∃ ys, traverse f l = Ok ys ∧ Forall2 P l ys.
Proof.
  induction l as [|x l IH]; intros H; [exists []; split; [done|constructor]|].
  destruct (H x ltac:(set_solver)) as (y & Hy & HP). destruct IH as (ys & Hys & HPs); [intros; apply H; set_solver|].
  exists (y :: ys). split; [cbn; by rewrite Hy, Hys|by constructor].
Qed.
Lemma traverse_returns {A B} (f : A → res B) l : (∀ x, x ∈ l → ∃ y, f x = Ok y) → ∃ ys, traverse f l = Ok ys.
Proof.
  intros H. destruct (traverse_total f (λ _ _, True) l) as (ys & Hys & _); [|by exists ys].
  intros x Hx. destruct (H x Hx) as [y Hy]. by exists y.
Qed.

(** Filters that keep everything, or nothing. *)
Lemma filter_all {A} (f : A → bool) l : (∀ x, x ∈ l → f x = true) → List.filter f l = l.
Proof.
  induction l as [|x l IH]; intros H; [done|]. cbn. rewrite H by set_solver. f_equal. apply IH. set_solver.
Qed.
Lemma filter_none {A} (f : A → bool) l : (∀ x, x ∈ l → f x = false) → List.filter f l = [].
Proof.
  induction l as [|x l IH]; intros H; [done|]. cbn. rewrite H by set_solver. apply IH. set_solver.
Qed.
(** Elements of a list without repeated keys are determined by their key. *)
Lemma NoDup_key_inj {A B} (f : A → B) l x y : NoDup (map f l) → x ∈ l → y ∈ l → f x = f y → x = y.
Proof.
  intros Hn [i Hi]%list_elem_of_lookup [j Hj]%list_elem_of_lookup E.
  assert (i = j) as ->; [|congruence]. eapply (NoDup_lookup (map f l)); [exact Hn|apply list_lookup_fmap_Some; by exists x|].
  apply list_lookup_fmap_Some. by exists y.
Qed.
Lemma filter_keys_NoDup {A B} (key : A → B) (f : A → bool) (l : list A) :
  NoDup (map key l) → NoDup (map key (List.filter f l)).
Proof.
  induction l as [|x l IH]; cbn; [done|]. intros [Hx Hn]%NoDup_cons. destruct (f x); [|auto]. cbn.
  apply NoDup_cons. split; [|auto]. intros (y & E & Hy)%list_elem_of_fmap. apply Hx.
  apply list_elem_of_In, List.filter_In in Hy as [Hy _]. rewrite E. apply list_elem_of_fmap.
  exists y. split; [done|]. by apply list_elem_of_In.
Qed.

(** ** Stateful code

    A method that updates its object and may raise: the state reached is kept
    when it raises. *)

Definition M (S A : Type) : Type := S → S * res A.
#[export] Instance M_ret S : MRet (M S) := λ A a s, (s, Ok a).
#[export] Instance M_bind S : MBind (M S) := λ A B f m s,
  match m s with
  | (s', Ok a) => f a s'
  | (s', Raise e) => (s', Raise e)
  end.

Definition lift {S A} (r : res A) : M S A := λ s, (s, r).
Definition gets {S A} (f : S → A) : M S A := λ s, (s, Ok (f s)).
Definition modify {S} (f : S → S) : M S unit := λ s, (f s, Ok tt).

Fixpoint for_eachM {S A B} (f : A → M S B) (l : list A) : M S (list B) :=
  match l with
  | [] => mret []
  | x :: l => y ← f x; ys ← for_eachM f l; mret (y :: ys)
  end.

(** [m] returns from [s], in a state and with a value that satisfy [Q]. *)
Definition returns {S A} (m : M S A) (s : S) (Q : A → S → Prop) : Prop :=
  ∃ a s', m s = (s', Ok a) ∧ Q a s'.

Lemma returns_ret {S A} (a : A) (s : S) (Q : A → S → Prop) : Q a s → returns (mret a) s Q.
Proof. intros H. by exists a, s. Qed.
Lemma returns_bind {S A B} (m : M S A) (f : A → M S B) s (Q : B → S → Prop) :
  returns m s (λ a s', returns (f a) s' Q) → returns (m ≫= f) s Q.
Proof.
  intros (a & s1 & E & b & s2 & E2 & HQ). exists b, s2. split; [|done].
  unfold mbind, M_bind. by rewrite E.
Qed.
Lemma returns_mono {S A} (m : M S A) s (P Q : A → S → Prop) :
  returns m s P → (∀ a s', P a s' → Q a s') → returns m s Q.
Proof. intros (a & s' & E & H) HPQ. exists a, s'. auto. Qed.
Lemma returns_lift {S A} (r : res A) (s : S) a (Q : A → S → Prop) :
  r = Ok a → Q a s → returns (lift r) s Q.
Proof. intros -> H. by exists a, s. Qed.
Lemma returns_gets {S A} (f : S → A) s (Q : A → S → Prop) : Q (f s) s → returns (gets f) s Q.
Proof. intros H. by exists (f s), s. Qed.
Lemma returns_modify {S} (f : S → S) s (Q : unit → S → Prop) : Q tt (f s) → returns (modify f) s Q.
Proof. intros H. by exists tt, (f s). Qed.
Lemma returns_for_eachM {S A B} (f : A → M S B) (I : S → Prop) l s :
  I s → (∀ x s, x ∈ l → I s → returns (f x) s (λ _, I)) → returns (for_eachM f l) s (λ _, I).
Proof.
  revert s. induction l as [|x l IH]; intros s Hs Hf; cbn; [by apply returns_ret|].
  apply returns_bind. eapply returns_mono; [apply Hf; [set_solver|done]|]. intros y s1 Hs1. cbn in Hs1.
  apply returns_bind. eapply returns_mono; [apply IH; [done|]|].
  - intros z s2 Hz. apply Hf. set_solver.
  - intros ys s2 Hs2. by apply returns_ret.
Qed.

(** ** Proof automation *)

Create HintDb qtrad discriminated.
#[export] Hint Resolve Nat2Z.is_nonneg : qtrad.

(** Invert every [_ = Ok _] hypothesis built from the monad's operations. *)
Ltac res_step :=
  match goal with
  | H : Ok _ = Ok _ |- _ => injection H as H; subst
  | H : Raise _ = Ok _ |- _ => discriminate H
  | H : Ok _ = Raise _ |- _ => discriminate H
  | H : mret _ = Ok _ |- _ => injection H as H; subst
  | H : raise_if _ _ = Ok _ |- _ => apply raise_if_Ok in H
  | H : (_ ≫= _) = Ok _ |- _ =>
      let x := fresh "x" in let H1 := fresh "H" in
      apply bind_Ok in H as (x & H1 & H)
  end.
Ltac res_inv := repeat (res_step; cbv beta in *).

(** Turn boolean tests of the code into propositions. *)
Ltac bool_prop :=
  repeat match goal with
  | H : _ && _ = true |- _ => apply andb_true_iff in H as [? ?]
  | H : _ || _ = false |- _ => apply orb_false_iff in H as [? ?]
  | H : negb _ = true |- _ => apply negb_true_iff in H
  | H : negb _ = false |- _ => apply negb_false_iff in H
  | H : bool_decide _ = true |- _ => apply bool_decide_eq_true_1 in H
  | H : bool_decide _ = false |- _ => apply bool_decide_eq_false_1 in H
  | H : (_ =? _) = true |- _ => apply Z.eqb_eq in H
  | H : (_ =? _) = false |- _ => apply Z.eqb_neq in H
  | H : (_ <=? _) = true |- _ => apply Z.leb_le in H
  | H : (_ <=? _) = false |- _ => apply Z.leb_gt in H
  | H : (_ <? _) = true |- _ => apply Z.ltb_lt in H
  | H : (_ <? _) = false |- _ => apply Z.ltb_ge in H
  end.
