(* ===== verification/PySorted.v ===== *)
(** Python's ordering of tuples, strings and integers, and [sorted]: a stable
    sort by key, with the facts every canonical-order check of the code rests
    on (permutation, sortedness, idempotence, uniqueness of the order). *)

From S2P Require Import Prelude.

(** ** Total orders as the interface between keys and [sorted] *)

Class PyOrder (A : Type) := {
  pycmp : A → A → comparison;
  pycmp_eq x y : pycmp x y = Eq ↔ x = y;
  pycmp_opp x y : pycmp y x = CompOpp (pycmp x y);
  pycmp_trans x y z : pycmp x y = Lt → pycmp y z = Lt → pycmp x z = Lt;
}.

Definition pyle `{PyOrder A} (x y : A) : bool :=
  match pycmp x y with Gt => false | _ => true end.
Definition pylt `{PyOrder A} (x y : A) : bool :=
  match pycmp x y with Lt => true | _ => false end.

#[export] Program Instance Z_order : PyOrder Z := {| pycmp := Z.compare |}.
Next Obligation. intros. apply Z.compare_eq_iff. Qed.
Next Obligation. intros. by rewrite Z.compare_antisym. Qed.
Next Obligation. intros x y z. rewrite !Z.compare_lt_iff. lia. Qed.

Lemma string_compare_trans s1 s2 s3 :
  String.compare s1 s2 = Lt → String.compare s2 s3 = Lt → String.compare s1 s3 = Lt.
Proof.
  revert s2 s3. induction s1 as [|a s1 IH]; intros [|b s2] [|c s3]; cbn; try done.
  destruct (Ascii.compare a b) eqn:Hab; try done;
    destruct (Ascii.compare b c) eqn:Hbc; try done; intros H1 H2.
  - apply Ascii.compare_eq_iff in Hab as ->. rewrite Hbc. eauto.
  - apply Ascii.compare_eq_iff in Hab as ->. by rewrite Hbc.
  - apply Ascii.compare_eq_iff in Hbc as ->. by rewrite Hab.
  - assert (Ascii.compare a c = Lt) as ->; [|done].
    unfold Ascii.compare in *. rewrite N.compare_lt_iff in *. lia.
Qed.

#[export] Program Instance string_order : PyOrder string := {| pycmp := String.compare |}.
Next Obligation.
  intros x y. split; [apply String.compare_eq_iff|]. intros ->.
  induction y as [|c y IH]; cbn; [done|]. unfold Ascii.compare. by rewrite N.compare_refl.
Qed.
Next Obligation. intros. apply String.compare_antisym. Qed.
Next Obligation. intros. by eapply string_compare_trans. Qed.

(** Tuples compare lexicographically. *)
Lemma pycmp_same `{PyOrder A} (x : A) : pycmp x x = Eq.
Proof. by apply pycmp_eq. Qed.

Definition prod_cmp `{PyOrder A, PyOrder B} (x y : A * B) : comparison :=
  match pycmp x.1 y.1 with Eq => pycmp x.2 y.2 | c => c end.

#[export] Program Instance prod_order `{HA : PyOrder A, HB : PyOrder B} : PyOrder (A * B) := {|
  pycmp := prod_cmp |}.
Next Obligation.
  intros A HA B HB [a b] [a' b']. unfold prod_cmp. cbn. destruct (pycmp a a') eqn:E.
  - apply pycmp_eq in E as ->. split.
    + by intros ->%pycmp_eq.
    + intros [= ->]. apply pycmp_same.
  - split; [done|]. intros [= -> ->]. by rewrite pycmp_same in E.
  - split; [done|]. intros [= -> ->]. by rewrite pycmp_same in E.
Qed.
Next Obligation.
  intros A HA B HB [a b] [a' b']; unfold prod_cmp; cbn. rewrite (pycmp_opp a a').
  destruct (pycmp a a'); cbn; [apply pycmp_opp|done|done].
Qed.
Next Obligation.
  intros A HA B HB [a b] [a' b'] [a'' b'']; unfold prod_cmp; cbn.
  destruct (pycmp a a') eqn:E1; try done; destruct (pycmp a' a'') eqn:E2; try done; intros H1 H2.
  - apply pycmp_eq in E1 as ->. apply pycmp_eq in E2 as ->. rewrite pycmp_same.
    eapply pycmp_trans; eauto.
  - apply pycmp_eq in E1 as ->. by rewrite E2.
  - apply pycmp_eq in E2 as ->. by rewrite E1.
  - by rewrite (pycmp_trans _ _ _ E1 E2).
Qed.

Section order_facts.
Context `{PyOrder A}.
Implicit Types x y z : A.

Lemma pycmp_refl x : pycmp x x = Eq.
Proof. by apply pycmp_eq. Qed.
Lemma pyle_refl x : pyle x x = true.
Proof. unfold pyle. by rewrite pycmp_refl. Qed.
Lemma pyle_antisym x y : pyle x y = true → pyle y x = true → x = y.
Proof.
  unfold pyle. rewrite (pycmp_opp x y). destruct (pycmp x y) eqn:E; try done.
  intros _ _. by apply pycmp_eq.
Qed.
Lemma pyle_trans x y z : pyle x y = true → pyle y z = true → pyle x z = true.
Proof.
  unfold pyle. destruct (pycmp x y) eqn:E1; try done; destruct (pycmp y z) eqn:E2; try done; intros _ _.
  - apply pycmp_eq in E1, E2. subst. by rewrite pycmp_refl.
  - apply pycmp_eq in E1. subst. by rewrite E2.
  - apply pycmp_eq in E2. subst. by rewrite E1.
  - by rewrite (pycmp_trans _ _ _ E1 E2).
Qed.
Lemma pyle_total x y : pyle x y = true ∨ pyle y x = true.
Proof. unfold pyle. rewrite (pycmp_opp x y). destruct (pycmp x y); cbn; auto. Qed.
Lemma pyle_false x y : pyle x y = false → pyle y x = true.
Proof. destruct (pyle_total x y); [congruence|done]. Qed.
Lemma pylt_pyle x y : pylt x y = negb (pyle y x).
Proof. unfold pylt, pyle. rewrite (pycmp_opp x y). by destruct (pycmp x y). Qed.
Lemma pylt_irrefl x : pylt x x = false.
Proof. unfold pylt. by rewrite pycmp_refl. Qed.
End order_facts.

Lemma pyle_Z (x y : Z) : pyle x y = (x <=? y).
Proof. unfold pyle, Z.leb. cbn. by destruct (x ?= y). Qed.
Lemma pylt_Z (x y : Z) : pylt x y = (x <? y).
Proof. unfold pylt, Z.ltb. cbn. by destruct (x ?= y). Qed.

(** ** [sorted(xs, key=key)] *)

Section sorted.
Context {A K : Type} `{PyOrder K} (key : A → K).
Implicit Types (x y : A) (l : list A).

Definition key_le x y : Prop := pyle (key x) (key y) = true.

Fixpoint insort x l : list A :=
  match l with
  | [] => [x]
  | y :: l' => if pyle (key x) (key y) then x :: l else y :: insort x l'
  end.

Definition py_sorted l : list A := foldr insort [] l.

Lemma insort_perm x l : insort x l ≡ₚ x :: l.
Proof.
  induction l as [|y l IH]; cbn; [done|]. destruct (pyle _ _); [done|].
  rewrite IH. apply perm_swap.
Qed.

Lemma py_sorted_perm l : py_sorted l ≡ₚ l.
Proof. induction l as [|x l IH]; cbn; [done|]. by rewrite insort_perm, IH. Qed.

Lemma elem_of_py_sorted x l : x ∈ py_sorted l ↔ x ∈ l.
Proof. by rewrite py_sorted_perm. Qed.

Lemma length_py_sorted l : length (py_sorted l) = length l.
Proof. by rewrite py_sorted_perm. Qed.

Lemma insort_sorted x l : StronglySorted key_le l → StronglySorted key_le (insort x l).
Proof.
  induction l as [|y l IH]; cbn; intros Hs; [repeat constructor|].
  apply StronglySorted_inv in Hs as [Hs Hf]. destruct (pyle (key x) (key y)) eqn:E.
  - constructor; [by constructor|]. constructor; [done|].
    eapply Forall_impl; [exact Hf|]. intros z Hz. eapply pyle_trans; eauto.
  - constructor; [auto|]. rewrite insort_perm. constructor; [|done]. by apply pyle_false.
Qed.

Lemma py_sorted_sorted l : StronglySorted key_le (py_sorted l).
Proof. induction l; cbn; [constructor|by apply insort_sorted]. Qed.

(** [tuple(sorted(xs, key=key)) == xs] holds exactly when [xs] is in order. *)
Lemma py_sorted_id l : StronglySorted key_le l → py_sorted l = l.
Proof.
  induction l as [|x l IH]; intros Hs; [done|].
  apply StronglySorted_inv in Hs as [Hs Hf]. change (insort x (py_sorted l) = x :: l). rewrite (IH Hs).
  destruct l as [|y l]; [done|]. apply Forall_cons_1 in Hf as [Hxy _]. cbn.
  unfold key_le in Hxy. by rewrite Hxy.
Qed.

Lemma py_sorted_idemp l : py_sorted (py_sorted l) = py_sorted l.
Proof. apply py_sorted_id, py_sorted_sorted. Qed.

Lemma py_sorted_fixed_iff l : py_sorted l = l ↔ StronglySorted key_le l.
Proof. split; [|apply py_sorted_id]. intros <-. apply py_sorted_sorted. Qed.

(** Two sorted permutations agree when keys identify elements. *)
Lemma sorted_perm_unique l1 l2 :
  (∀ x y, x ∈ l1 → y ∈ l1 → key x = key y → x = y) →
  StronglySorted key_le l1 → StronglySorted key_le l2 → l1 ≡ₚ l2 → l1 = l2.
Proof.
  revert l2. induction l1 as [|x l1 IH]; intros l2 Hk H1 H2 Hp.
  - by apply Permutation_nil in Hp as ->.
  - destruct l2 as [|y l2]; [by symmetry in Hp; apply Permutation_nil in Hp|].
    apply StronglySorted_inv in H1 as [H1 F1]. apply StronglySorted_inv in H2 as [H2 F2].
    assert (x = y) as ->.
    { assert (y ∈ x :: l1) as Hy by (rewrite Hp; set_solver).
      assert (x ∈ y :: l2) as Hx by (rewrite <- Hp; set_solver).
      apply Hk; [set_solver|done|]. rewrite list.Forall_forall in F1, F2.
      apply elem_of_cons in Hy as [->|Hy]; [done|].
      apply elem_of_cons in Hx as [->|Hx]; [done|].
      apply pyle_antisym; [by apply F1|by apply F2]. }
    f_equal. apply IH; auto.
    + intros; apply Hk; set_solver.
    + by apply Permutation_cons_inv in Hp.
Qed.

(** [sorted] forgets the order its input came in. *)
Lemma py_sorted_perm_eq l1 l2 :
  (∀ x y, x ∈ l1 → y ∈ l1 → key x = key y → x = y) →
  l1 ≡ₚ l2 → py_sorted l1 = py_sorted l2.
Proof.
  intros Hk Hp. apply sorted_perm_unique; auto using py_sorted_sorted.
  - intros x y. rewrite !elem_of_py_sorted. auto.
  - by rewrite !py_sorted_perm.
Qed.

Lemma py_sorted_NoDup l : NoDup (py_sorted l) ↔ NoDup l.
Proof. by rewrite py_sorted_perm. Qed.
End sorted.

(** ** Filters *)

Lemma filter_comm {A} (p q : A → bool) l : List.filter p (List.filter q l) = List.filter q (List.filter p l).
Proof.
  induction l as [|x l IH]; [done|]. cbn. destruct (p x) eqn:Ep, (q x) eqn:Eq; cbn; rewrite ?Ep, ?Eq; congruence.
Qed.
Lemma filter_weaken {A} (p q : A → bool) l : (∀ x, p x = true → q x = true) →
  List.filter p (List.filter q l) = List.filter p l.
Proof.
  intros H. induction l as [|x l IH]; [done|]. cbn. destruct (q x) eqn:Eq; cbn; rewrite IH; [done|].
  destruct (p x) eqn:Ep; [|done]. by rewrite (H x Ep) in Eq.
Qed.

(** Sorting commutes with a filter. *)

Section sorted_filter.
Context {A K : Type} `{PyOrder K} (key : A → K) (p : A → bool).

Lemma insort_below x l : Forall (key_le key x) l → insort key x l = x :: l.
Proof. destruct l as [|y l]; [done|]. inversion 1 as [|? ? Hxy]; subst. cbn. unfold key_le in Hxy. by rewrite Hxy. Qed.

Lemma filter_insort x l : StronglySorted (key_le key) l →
  List.filter p (insort key x l) = if p x then insort key x (List.filter p l) else List.filter p l.
Proof.
  induction 1 as [|y l Hl IH Hy]; cbn.
  - by destruct (p x).
  - destruct (pyle (key x) (key y)) eqn:E; cbn.
    + destruct (p x) eqn:Ex; [|done]. destruct (p y) eqn:Ey; cbn; [by rewrite E|].
      symmetry. apply insort_below. rewrite Forall_forall in Hy |- *. intros z Hz.
      apply list_elem_of_In, filter_In in Hz as [Hz%list_elem_of_In _].
      unfold key_le. eapply pyle_trans; [exact E|]. by apply Hy.
    + rewrite IH. destruct (p y), (p x); cbn; rewrite ?E; done.
Qed.

Lemma filter_py_sorted l : List.filter p (py_sorted key l) = py_sorted key (List.filter p l).
Proof.
  induction l as [|x l IH]; [done|].
  change (List.filter p (insort key x (py_sorted key l)) = py_sorted key (List.filter p (x :: l))).
  rewrite filter_insort by apply py_sorted_sorted. rewrite IH. cbn. by destruct (p x).
Qed.
End sorted_filter.

#[export] Hint Resolve py_sorted_sorted py_sorted_perm pyle_refl : qtrad.
