(* ===== verification/PyStr.v ===== *)
(** Python strings as used by the code: length, character classes, lower-case
    SHA-256 text, decimal text of integers, [str.split] on one character, joins.
    A [str] is a Rocq [string] whose characters are the code points 0-255. *)

From S2P Require Import Prelude.
From Stdlib Require Import Ascii.

Definition len (s : string) : Z := Z.of_nat (String.length s).

(** Truth value of a string. *)
Definition nonempty (s : string) : bool := negb (String.eqb s "").

Fixpoint chars (s : string) : list ascii :=
  match s with "" => [] | String c s => c :: chars s end.

Fixpoint of_chars (l : list ascii) : string :=
  match l with [] => "" | c :: l => String c (of_chars l) end.

(** [all(character in allowed for character in value)] *)
Definition all_in (allowed value : string) : bool :=
  forallb (λ c, bool_decide (c ∈ chars allowed)) (chars value).

Definition is_sha256 (value : string) : bool :=
  (len value =? 64) && all_in "0123456789abcdef" value.

Definition in_range (c : ascii) (lo hi : N) : bool :=
  (lo <=? N_of_ascii c)%N && (N_of_ascii c <=? hi)%N.

(** [str.lower] on code points 0-255: A-Z and the Latin-1 capitals. *)
Definition lower_char (c : ascii) : ascii :=
  if in_range c 65 90 || (in_range c 192 222 && negb (N_of_ascii c =? 215)%N)
  then ascii_of_N (N_of_ascii c + 32) else c.

Definition lower (s : string) : string := of_chars (map lower_char (chars s)).

(** [str.isspace] of one character, on code points 0-255. *)
Definition is_space (c : ascii) : bool :=
  in_range c 9 13 || in_range c 28 32
  || (N_of_ascii c =? 133)%N || (N_of_ascii c =? 160)%N.

Definition is_digit (c : ascii) : bool := in_range c 48 57.

(** [value.split(sep)] for a one-character separator. *)
Fixpoint split_chars (sep : ascii) (cur l : list ascii) : list (list ascii) :=
  match l with
  | [] => [rev cur]
  | c :: l => if Ascii.eqb c sep then rev cur :: split_chars sep [] l
              else split_chars sep (c :: cur) l
  end.
Definition split (sep : ascii) (s : string) : list string :=
  map of_chars (split_chars sep [] (chars s)).

(** [value.split(sep, 1)]: the text before the first separator and the text after
    it, when there is one. *)
Fixpoint split1 (sep : ascii) (s : string) : string * option string :=
  match s with
  | "" => ("", None)
  | String c s' =>
      if Ascii.eqb c sep then ("", Some s')
      else let '(a, b) := split1 sep s' in (String c a, b)
  end.

Fixpoint join (sep : string) (l : list string) : string :=
  match l with
  | [] => ""
  | [s] => s
  | s :: l => s +:+ sep +:+ join sep l
  end.

(** ** Decimal text of integers: [str(n)] *)

Definition digit_char (d : Z) : ascii := ascii_of_N (Z.to_N (48 + d)).

Fixpoint digits_fuel (fuel : nat) (n : Z) (acc : string) : string :=
  match fuel with
  | O => acc
  | S fuel =>
      let acc := String (digit_char (n mod 10)) acc in
      if n <? 10 then acc else digits_fuel fuel (n / 10) acc
  end.

(** Digits of a non-negative integer; the number of binary digits is enough fuel. *)
Definition digits (n : Z) : string := digits_fuel (Z.to_nat (Z.log2 n) + 1) n "".

Definition str_Z (n : Z) : string :=
  if n <? 0 then String "-" (digits (- n)) else digits n.

(** Left-padded with zeros to a width. *)
Definition zpad (width : nat) (n : Z) : string :=
  let s := digits n in
  of_chars (replicate (width - String.length s) "0"%char) +:+ s.

(** Value of a string of ASCII digits. *)
Definition char_val (c : ascii) : Z := Z.of_N (N_of_ascii c) - 48.
Definition parse_digits (s : string) : Z :=
  fold_left (λ acc c, acc * 10 + char_val c) (chars s) 0.

Arguments parse_digits : simpl never.
Arguments digits : simpl never.

(** ** Facts *)

Lemma of_chars_chars s : of_chars (chars s) = s.
Proof. induction s; cbn; congruence. Qed.
Lemma chars_of_chars l : chars (of_chars l) = l.
Proof. induction l; cbn; congruence. Qed.
Lemma length_chars s : length (chars s) = String.length s.
Proof. induction s; cbn; congruence. Qed.
Lemma chars_inj s1 s2 : chars s1 = chars s2 → s1 = s2.
Proof. intros H. by rewrite <- (of_chars_chars s1), H, of_chars_chars. Qed.
Lemma chars_app s1 s2 : chars (s1 +:+ s2) = chars s1 ++ chars s2.
Proof. induction s1 as [|c s1 IH]; [done|]. change (c :: chars (s1 +:+ s2) = c :: (chars s1 ++ chars s2)). by f_equal. Qed.
Lemma append_assoc s1 s2 s3 : (s1 +:+ s2) +:+ s3 = s1 +:+ (s2 +:+ s3).
Proof. apply chars_inj. by rewrite !chars_app, app_assoc. Qed.
Lemma nonempty_true s : nonempty s = true ↔ s ≠ "".
Proof. unfold nonempty. rewrite negb_true_iff, String.eqb_neq. done. Qed.
Lemma nonempty_false s : nonempty s = false ↔ s = "".
Proof. unfold nonempty. rewrite negb_false_iff. apply String.eqb_eq. Qed.

Lemma all_in_spec allowed s : all_in allowed s = true ↔ ∀ c, c ∈ chars s → c ∈ chars allowed.
Proof.
  unfold all_in. rewrite forallb_forall. setoid_rewrite bool_decide_eq_true.
  setoid_rewrite list_elem_of_In. done.
Qed.

Lemma join_split_chars sep cur l :
  chars (join (String sep "") (map of_chars (split_chars sep cur l))) = rev cur ++ l.
Proof.
  revert cur. induction l as [|c l IH]; intros cur; cbn.
  - by rewrite chars_of_chars, app_nil_r.
  - destruct (Ascii.eqb_spec c sep) as [->|Hc].
    + cbn. specialize (IH []). cbn in IH.
      destruct (split_chars sep [] l) as [|w ws] eqn:E.
      { destruct l; cbn in E; [done|by destruct (Ascii.eqb _ _)]. }
      cbn in *. rewrite chars_app, chars_of_chars. f_equal.
      rewrite chars_app. cbn. f_equal. exact IH.
    + rewrite IH. cbn. by rewrite <- app_assoc.
Qed.

(** [sep.join(value.split(sep)) == value] *)
Lemma join_split sep s : join (String sep "") (split sep s) = s.
Proof. apply chars_inj. unfold split. by rewrite join_split_chars. Qed.

Lemma char_val_digit_char d : 0 <= d < 10 → char_val (digit_char d) = d.
Proof.
  intros Hd. unfold char_val, digit_char. rewrite N_ascii_embedding by lia. lia.
Qed.

Lemma digits_fuel_app fuel n acc : digits_fuel fuel n acc = digits_fuel fuel n "" +:+ acc.
Proof.
  revert n acc. induction fuel as [|fuel IH]; intros n acc; [done|]. cbn.
  destruct (n <? 10); [done|]. rewrite IH, (IH _ (String _ "")).
  by rewrite append_assoc.
Qed.

Lemma parse_digits_snoc s c : parse_digits (s +:+ String c "") = parse_digits s * 10 + char_val c.
Proof. unfold parse_digits. by rewrite chars_app, fold_left_app. Qed.

Lemma parse_digits_fuel fuel n :
  0 <= n < 2 ^ Z.of_nat fuel → fuel ≠ O → parse_digits (digits_fuel fuel n "") = n.
Proof.
  revert n. induction fuel as [|fuel IH]; intros n Hn Hf; [done|]. cbn.
  pose proof (Z.mod_pos_bound n 10). pose proof (Z_div_mod_eq_full n 10).
  destruct (Z.ltb_spec n 10).
  - unfold parse_digits. cbn. rewrite char_val_digit_char by lia. rewrite Z.mod_small; lia.
  - rewrite digits_fuel_app, parse_digits_snoc, char_val_digit_char by lia.
    destruct fuel as [|fuel]; [change (2 ^ Z.of_nat 1) with 2 in Hn; lia|].
    rewrite Nat2Z.inj_succ, Z.pow_succ_r in Hn by lia.
    rewrite IH; [lia| |done]. split; [apply Z.div_pos; lia|].
    apply Z.div_lt_upper_bound; lia.
Qed.

(** [int(str(n)) == n] for non-negative [n]. *)
Lemma parse_digits_digits n : 0 <= n → parse_digits (digits n) = n.
Proof.
  intros Hn. apply parse_digits_fuel; [|lia]. split; [done|].
  destruct (Z.eq_dec n 0) as [->|]; [cbn; lia|].
  pose proof (Z.log2_spec n ltac:(lia)) as [_ Hl].
  pose proof (Z.log2_nonneg n). replace (Z.of_nat (Z.to_nat (Z.log2 n) + 1)) with (Z.succ (Z.log2 n)); lia.
Qed.

Lemma digits_fuel_digits fuel n acc :
  0 <= n → (∀ c, c ∈ chars acc → is_digit c = true) →
  ∀ c, c ∈ chars (digits_fuel fuel n acc) → is_digit c = true.
Proof.
  revert n acc. induction fuel as [|fuel IH]; intros n acc Hn Hacc; [done|]. cbn.
  assert (∀ c, c ∈ chars (String (digit_char (n mod 10)) acc) → is_digit c = true) as Hacc'.
  { intros c Hc. cbn in Hc. apply elem_of_cons in Hc as [->|Hc]; [|auto].
    pose proof (Z.mod_pos_bound n 10). unfold is_digit, in_range, digit_char.
    rewrite N_ascii_embedding by lia. apply andb_true_iff. split; apply N.leb_le; lia. }
  destruct (n <? 10); [done|]. apply IH; [|done]. apply Z.div_pos; lia.
Qed.

Lemma digits_all_digits n c : 0 <= n → c ∈ chars (digits n) → is_digit c = true.
Proof. intros Hn. apply digits_fuel_digits; [done|]. cbn. set_solver. Qed.

Lemma digits_inj n m : 0 <= n → 0 <= m → digits n = digits m → n = m.
Proof. intros Hn Hm H. by rewrite <- (parse_digits_digits n), H, parse_digits_digits. Qed.

Lemma digits_nonempty n : digits n ≠ "".
Proof.
  unfold digits. rewrite Nat.add_1_r. cbn. destruct (n <? 10); [done|].
  rewrite digits_fuel_app. intros H. apply (f_equal chars) in H. rewrite chars_app in H.
  by apply app_eq_nil in H as [_ ?].
Qed.
