(* ===== verification/PyTime.v ===== *)
(** [datetime] and [timedelta] as the code uses them, and [domain/time.py].

    A [datetime] is its wall-clock reading in microseconds from 1970-01-01 and
    its UTC offset in microseconds ([None] for a naive value); a [timedelta] is a
    number of microseconds. The year bounds 1 and 9999 of Python's type, whose
    crossing raises [OverflowError], are not modelled: instants are unbounded. *)

From S2P Require Import Prelude PySorted PyStr.

Record datetime : Type := DateTime { dt_us : Z; dt_offset : option Z }.
Definition timedelta : Type := Z.

#[export] Instance datetime_eq_dec : EqDecision datetime.
Proof. solve_decision. Defined.
#[export] Program Instance datetime_countable : Countable datetime :=
  inj_countable' (λ d, (dt_us d, dt_offset d)) (λ p, DateTime p.1 p.2) _.
Next Obligation. by intros []. Qed.

Definition utc (us : Z) : datetime := DateTime us (Some 0).

Definition microseconds (n : Z) : timedelta := n.
Definition seconds (n : Z) : timedelta := n * 1000000.
Definition minutes (n : Z) : timedelta := seconds (60 * n).
Definition hours (n : Z) : timedelta := minutes (60 * n).
Definition days (n : Z) : timedelta := hours (24 * n).

(** Comparison and subtraction of aware values go through the UTC instant. *)
Definition instant (d : datetime) : Z := dt_us d - default 0 (dt_offset d).

Definition dt_ltb (a b : datetime) : bool := instant a <? instant b.
Definition dt_leb (a b : datetime) : bool := instant a <=? instant b.
Definition dt_eqb (a b : datetime) : bool := instant a =? instant b.
Definition dt_add (a : datetime) (d : timedelta) : datetime := DateTime (dt_us a + d) (dt_offset a).
Definition dt_sub (a : datetime) (d : timedelta) : datetime := dt_add a (- d).
Definition dt_diff (a b : datetime) : timedelta := instant a - instant b.
(** [min(a, b)] and [max(a, b)] keep the first argument on a tie. *)
Definition dt_min (a b : datetime) : datetime := if dt_ltb b a then b else a.
Definition dt_max (a b : datetime) : datetime := if dt_ltb a b then b else a.

Definition dt_second (d : datetime) : Z := (dt_us d / 1000000) mod 60.
Definition dt_microsecond (d : datetime) : Z := dt_us d mod 1000000.
(** [value.second or value.microsecond] *)
Definition off_minute (d : datetime) : bool :=
  negb (dt_second d =? 0) || negb (dt_microsecond d =? 0).
(** [value.replace(second=0, microsecond=0)] *)
Definition floor_minute (d : datetime) : datetime :=
  DateTime (dt_us d - dt_us d mod 60000000) (dt_offset d).

(** ** [domain/time.py] *)

Definition require_utc (value : datetime) (field_name : string) : res datetime :=
  match dt_offset value with
  | None => Raise (ValueError (field_name +:+ " must be timezone-aware"))
  | Some offset =>
      if offset =? 0 then Ok value
      else Raise (ValueError (field_name +:+ " must be expressed in UTC"))
  end.

Definition require_utc_opt (value : option datetime) (field_name : string) : res unit :=
  match value with
  | None => Ok tt
  | Some v => require_utc v field_name;; Ok tt
  end.

Definition is_utc (d : datetime) : Prop := dt_offset d = Some 0.

(** ** The proleptic Gregorian calendar and ISO text *)

Definition doe_of_civil (yoe mp d : Z) : Z :=
  yoe * 365 + yoe / 4 - yoe / 100 + ((153 * mp + 2) / 5 + d - 1).

(** Year of the 400-year era, month counted from March, and day of the month. *)
Definition civil_of_doe (doe : Z) : Z * Z * Z :=
  let yoe := (doe - doe / 1460 + doe / 36524 - doe / 146096) / 365 in
  let doy := doe - (365 * yoe + yoe / 4 - yoe / 100) in
  let mp := (5 * doy + 2) / 153 in
  (yoe, mp, doy - (153 * mp + 2) / 5 + 1).

(** (year, month, day) of a day number counted from 1970-01-01. *)
Definition civil_from_days (n : Z) : Z * Z * Z :=
  let z := n + 719468 in
  let '(yoe, mp, d) := civil_of_doe (z mod 146097) in
  let m := if mp <? 10 then mp + 3 else mp - 9 in
  (yoe + z / 146097 * 400 + (if m <=? 2 then 1 else 0), m, d).

Definition days_from_civil (y m d : Z) : Z :=
  let y' := if m <=? 2 then y - 1 else y in
  y' / 400 * 146097
  + doe_of_civil (y' mod 400) (if m <=? 2 then m + 9 else m - 3) d - 719468.

(** [date.weekday()]: Monday is 0. *)
Definition weekday_of_days (n : Z) : Z := (n + 3) mod 7.

Definition us_per_day : Z := 86400000000.
Definition dt_date (d : datetime) : Z := dt_us d / us_per_day.
Definition time_of_day (d : datetime) : Z := dt_us d mod us_per_day.

Definition iso_date (n : Z) : string :=
  let '(y, m, d) := civil_from_days n in
  zpad 4 y +:+ "-" +:+ zpad 2 m +:+ "-" +:+ zpad 2 d.

Definition iso_time (us : Z) : string :=
  zpad 2 (us / 3600000000) +:+ ":" +:+ zpad 2 (us / 60000000 mod 60) +:+ ":"
  +:+ zpad 2 (us / 1000000 mod 60)
  +:+ (if us mod 1000000 =? 0 then "" else "." +:+ zpad 6 (us mod 1000000)).

Definition iso_offset (o : Z) : string :=
  let a := Z.abs o in
  (if o <? 0 then "-" else "+")
  +:+ zpad 2 (a / 3600000000) +:+ ":" +:+ zpad 2 (a / 60000000 mod 60)
  +:+ (if a mod 60000000 =? 0 then ""
       else ":" +:+ zpad 2 (a / 1000000 mod 60)
            +:+ (if a mod 1000000 =? 0 then "" else "." +:+ zpad 6 (a mod 1000000))).

Definition isoformat (d : datetime) : string :=
  iso_date (dt_date d) +:+ "T" +:+ iso_time (time_of_day d)
  +:+ match dt_offset d with None => "" | Some o => iso_offset o end.

(** [text.replace(pat, rep)]; the length of the text is enough fuel. *)
Fixpoint strip_prefix (pat l : list Ascii.ascii) : option (list Ascii.ascii) :=
  match pat, l with
  | [], _ => Some l
  | p :: pat, c :: l => if Ascii.eqb p c then strip_prefix pat l else None
  | _ :: _, [] => None
  end.
Fixpoint replace_fuel (fuel : nat) (pat rep l : list Ascii.ascii) : list Ascii.ascii :=
  match fuel, l with
  | S fuel, c :: l' =>
      match strip_prefix pat l with
      | Some l'' => rep ++ replace_fuel fuel pat rep l''
      | None => c :: replace_fuel fuel pat rep l'
      end
  | _, _ => l
  end.
Definition replace (pat rep text : string) : string :=
  of_chars (replace_fuel (String.length text) (chars pat) (chars rep) (chars text)).

(** [value.isoformat().replace("+00:00", "Z")] *)
Definition utc_text (value : datetime) : string := replace "+00:00" "Z" (isoformat value).

Example isoformat_example :
  utc_text (utc 1782907329000123) = "2026-07-01T12:02:09.000123Z".
Proof. reflexivity. Qed.

(** ** Facts *)

Lemma require_utc_Ok v f d : require_utc v f = Ok d ↔ is_utc v ∧ d = v.
Proof.
  unfold require_utc, is_utc. destruct (dt_offset v) as [o|]; [|naive_solver].
  destruct (Z.eqb_spec o 0); naive_solver.
Qed.

Lemma require_utc_opt_Ok v f u :
  require_utc_opt v f = Ok u ↔ (∀ d, v = Some d → is_utc d).
Proof.
  destruct v as [v|], u; cbn; [|naive_solver]. rewrite bind_Ok.
  setoid_rewrite require_utc_Ok. naive_solver.
Qed.

Lemma require_utc_is_utc v f : is_utc v → require_utc v f = Ok v.
Proof. intros. by apply require_utc_Ok. Qed.

Lemma utc_is_utc us : is_utc (utc us).
Proof. done. Qed.

Lemma is_utc_eq a b : is_utc a → is_utc b → instant a = instant b → a = b.
Proof.
  destruct a as [x o], b as [y o']. unfold is_utc, instant. cbn. intros -> ->. cbn.
  intros. f_equal. lia.
Qed.

Lemma is_utc_instant a : is_utc a → instant a = dt_us a.
Proof. unfold is_utc, instant. intros ->. cbn. lia. Qed.

Lemma instant_add a d : instant (dt_add a d) = instant a + d.
Proof. unfold instant, dt_add. cbn. lia. Qed.
Lemma instant_sub a d : instant (dt_sub a d) = instant a - d.
Proof. unfold dt_sub. rewrite instant_add. lia. Qed.
Lemma is_utc_add a d : is_utc a → is_utc (dt_add a d).
Proof. done. Qed.
Lemma is_utc_sub a d : is_utc a → is_utc (dt_sub a d).
Proof. done. Qed.
Lemma is_utc_min a b : is_utc a → is_utc b → is_utc (dt_min a b).
Proof. intros. unfold dt_min. by destruct (dt_ltb _ _). Qed.
Lemma is_utc_max a b : is_utc a → is_utc b → is_utc (dt_max a b).
Proof. intros. unfold dt_max. by destruct (dt_ltb _ _). Qed.
Lemma instant_min a b : instant (dt_min a b) = Z.min (instant a) (instant b).
Proof. unfold dt_min, dt_ltb. destruct (Z.ltb_spec (instant b) (instant a)); lia. Qed.
Lemma instant_max a b : instant (dt_max a b) = Z.max (instant a) (instant b).
Proof. unfold dt_max, dt_ltb. destruct (Z.ltb_spec (instant a) (instant b)); lia. Qed.

Lemma floor_minute_bounds d :
  instant (floor_minute d) <= instant d < instant (floor_minute d) + minutes 1.
Proof.
  unfold instant, floor_minute, minutes, seconds. cbn [dt_us dt_offset].
  pose proof (Z.mod_pos_bound (dt_us d) 60000000 ltac:(done)). lia.
Qed.

Lemma off_minute_false d : off_minute d = false ↔ dt_us d mod 60000000 = 0.
Proof.
  unfold off_minute, dt_second, dt_microsecond.
  rewrite orb_false_iff, !negb_false_iff, !Z.eqb_eq.
  split; intros; Z.div_mod_to_equations; lia.
Qed.

(** The day of an era determines a year and a March-based month in range. *)
Lemma civil_of_doe_range doe : 0 <= doe < 146097 →
  let '(yoe, mp, d) := civil_of_doe doe in
  doe_of_civil yoe mp d = doe ∧ 0 <= yoe < 400 ∧ 0 <= mp < 12.
Proof.
  intros H. unfold civil_of_doe, doe_of_civil.
  set (yoe := (doe - doe / 1460 + doe / 36524 - doe / 146096) / 365).
  assert (0 <= yoe < 400 ∧ 0 <= doe - (365 * yoe + yoe / 4 - yoe / 100) <= 365) as [Hy Hd].
  { subst yoe. Z.div_mod_to_equations. lia. }
  split; [lia|split; [done|]]. clearbody yoe. Z.div_mod_to_equations. lia.
Qed.

Lemma days_civil_roundtrip n :
  let '(y, m, d) := civil_from_days n in days_from_civil y m d = n.
Proof.
  unfold civil_from_days, days_from_civil. set (z := n + 719468).
  pose proof (Z.mod_pos_bound z 146097 ltac:(done)) as Hb.
  pose proof (civil_of_doe_range (z mod 146097) Hb) as H.
  destruct (civil_of_doe (z mod 146097)) as [[yoe mp] dd]. destruct H as (Hd & Hy & Hm).
  pose proof (Z_div_mod_eq_full z 146097).
  destruct (Z.ltb_spec mp 10) as [Hlt|Hge].
  - destruct (Z.leb_spec (mp + 3) 2) as [|_]; [lia|].
    replace (mp + 3 - 3) with mp by lia. rewrite Z.add_0_r.
    rewrite Z.div_add, Z_mod_plus_full, (Z.mod_small yoe), (Z.div_small yoe) by lia. lia.
  - destruct (Z.leb_spec (mp - 9) 2) as [_|]; [|lia].
    replace (mp - 9 + 9) with mp by lia.
    replace (yoe + z / 146097 * 400 + 1 - 1) with (yoe + z / 146097 * 400) by lia.
    rewrite Z.div_add, Z_mod_plus_full, (Z.mod_small yoe), (Z.div_small yoe) by lia. lia.
Qed.

Lemma civil_from_days_inj n m : civil_from_days n = civil_from_days m → n = m.
Proof.
  intros H. pose proof (days_civil_roundtrip n) as Hn. pose proof (days_civil_roundtrip m) as Hm.
  rewrite H in Hn. destruct (civil_from_days m) as [[y mo] d]. congruence.
Qed.

#[export] Hint Resolve utc_is_utc is_utc_add is_utc_sub is_utc_min is_utc_max : qtrad.
#[export] Hint Rewrite instant_add instant_sub instant_min instant_max : qtrad_time.

(** Decide order facts between instants. *)
Ltac time_solve :=
  unfold dt_ltb, dt_leb, dt_eqb in *; bool_prop;
  autorewrite with qtrad_time in *; lia.

Lemma utc_instant_inj a b : is_utc a → is_utc b → instant a = instant b → a = b.
Proof. destruct a as [u o], b as [v o']. unfold is_utc, instant. cbn. intros -> ->. cbn. intros. f_equal. lia. Qed.

Lemma off_minute_instant d : is_utc d → off_minute d = false ↔ instant d mod minutes 1 = 0.
Proof.
  intros Hu. rewrite off_minute_false. unfold instant. rewrite Hu. cbn. by rewrite Z.sub_0_r.
Qed.
