(* ===== verification/PyDecimal.v ===== *)
(** [decimal.Decimal] in the default context: 28 significant digits,
    ROUND_HALF_EVEN. A value is a sign, a coefficient and a power of ten, so that
    representations that compare equal ([Decimal("1")], [Decimal("1.00")]) stay
    distinct, as their text does. Infinities, NaNs and the exponent limits of the
    context (about a million digits either way) are not modelled. *)

From S2P Require Import Prelude PyStr.
From Stdlib Require Import Ascii.

Record Decimal : Type := Dec { dec_neg : bool; dec_coeff : Z; dec_exp : Z }.

#[export] Instance Decimal_eq_dec : EqDecision Decimal.
Proof. solve_decision. Defined.

(** The coefficient of a value Python can build is not negative. *)
Definition dec_wf (d : Decimal) : Prop := 0 <= dec_coeff d.

Definition prec : Z := 28.

(** [Decimal(n)] for an integer, and a literal [c * 10^e]. *)
Definition dec_of_Z (n : Z) : Decimal := Dec (n <? 0) (Z.abs n) 0.
Definition dec_lit (n e : Z) : Decimal := Dec (n <? 0) (Z.abs n) e.

(** Signed coefficient, and its value in units of [10^e] for [e <= dec_exp d]. *)
Definition dec_signed (d : Decimal) : Z := if dec_neg d then - dec_coeff d else dec_coeff d.
Definition scaled (e : Z) (d : Decimal) : Z := dec_signed d * 10 ^ (dec_exp d - e).

(** Number of decimal digits of a non-negative coefficient; zero has one. *)
Fixpoint ndigits_fuel (fuel : nat) (n : Z) : Z :=
  match fuel with
  | O => 1
  | S fuel => if n <? 10 then 1 else 1 + ndigits_fuel fuel (n / 10)
  end.
Definition ndigits (n : Z) : Z := ndigits_fuel (Z.to_nat (Z.log2 n)) n.

(** [Decimal._fix]: round the coefficient to the context's precision. *)
Definition half_even (q r half_twice : Z) : Z :=
  if 2 * r <? half_twice then q
  else if half_twice <? 2 * r then q + 1
  else if Z.even q then q else q + 1.

Definition dec_fix (neg : bool) (c e : Z) : Decimal :=
  let nd := ndigits c in
  if nd <=? prec then Dec neg c e
  else
    let k := nd - prec in
    let p := 10 ^ k in
    let q := half_even (c / p) (c mod p) p in
    if q =? 10 ^ prec then Dec neg (10 ^ (prec - 1)) (e + k + 1) else Dec neg q (e + k).

(** ** Arithmetic *)

(** [a + b]: exact sum at the smaller exponent, then rounded. A zero sum is
    positive unless both operands carry a minus sign. *)
Definition dec_add (a b : Decimal) : Decimal :=
  let e := Z.min (dec_exp a) (dec_exp b) in
  let s := scaled e a + scaled e b in
  let neg := if s =? 0 then dec_neg a && dec_neg b else s <? 0 in
  dec_fix neg (Z.abs s) e.

Definition dec_copy_negate (a : Decimal) : Decimal := Dec (negb (dec_neg a)) (dec_coeff a) (dec_exp a).
Definition dec_sub (a b : Decimal) : Decimal := dec_add a (dec_copy_negate b).

Definition dec_mul (a b : Decimal) : Decimal :=
  dec_fix (xorb (dec_neg a) (dec_neg b)) (dec_coeff a * dec_coeff b) (dec_exp a + dec_exp b).

(** [-a] and [abs(a)] round to the context; a zero loses its sign. *)
Definition dec_opp (a : Decimal) : Decimal :=
  dec_fix (if dec_coeff a =? 0 then false else negb (dec_neg a)) (dec_coeff a) (dec_exp a).
Definition dec_abs (a : Decimal) : Decimal := dec_fix false (dec_coeff a) (dec_exp a).

(** Strip trailing zeros while the exponent is below the ideal one. *)
Fixpoint strip_zeros (fuel : nat) (c e ideal : Z) : Z * Z :=
  match fuel with
  | O => (c, e)
  | S fuel => if (e <? ideal) && (c mod 10 =? 0) then strip_zeros fuel (c / 10) (e + 1) ideal else (c, e)
  end.

(** [a / b]; division by zero raises a subclass of [ArithmeticError]. *)
Definition dec_div (a b : Decimal) : res Decimal :=
  if dec_coeff b =? 0 then Raise (ArithmeticError "division by zero")
  else
    let neg := xorb (dec_neg a) (dec_neg b) in
    let ideal := dec_exp a - dec_exp b in
    if dec_coeff a =? 0 then Ok (dec_fix neg 0 ideal)
    else
      let shift := ndigits (dec_coeff b) - ndigits (dec_coeff a) + prec + 1 in
      let n := if 0 <=? shift then dec_coeff a * 10 ^ shift else dec_coeff a in
      let d := if 0 <=? shift then dec_coeff b else dec_coeff b * 10 ^ (- shift) in
      let q := n / d in
      if n mod d =? 0 then
        let '(c, e) := strip_zeros (Z.to_nat (ideal - (ideal - shift))) q (ideal - shift) ideal in
        Ok (dec_fix neg c e)
      else Ok (dec_fix neg (if q mod 5 =? 0 then q + 1 else q) (ideal - shift)).

(** ** Comparison: exact, on values *)

Definition dec_cmp (a b : Decimal) : comparison :=
  let e := Z.min (dec_exp a) (dec_exp b) in scaled e a ?= scaled e b.
Definition dec_eqb a b := match dec_cmp a b with Eq => true | _ => false end.
Definition dec_ltb a b := match dec_cmp a b with Lt => true | _ => false end.
Definition dec_leb a b := match dec_cmp a b with Gt => false | _ => true end.

Definition dec_zero : Decimal := Dec false 0 0.

(** [max(a, b)], [min(a, b)] and their iterated forms keep the first extremum. *)
Definition dec_max (a b : Decimal) : Decimal := if dec_ltb a b then b else a.
Definition dec_min (a b : Decimal) : Decimal := if dec_ltb b a then b else a.
Definition dec_max_list (x : Decimal) (l : list Decimal) : Decimal := fold_left dec_max l x.
Definition dec_min_list (x : Decimal) (l : list Decimal) : Decimal := fold_left dec_min l x.
(** [sum(values, Decimal("0"))] *)
Definition dec_sum (l : list Decimal) : Decimal := fold_left dec_add l dec_zero.

(** [int(a.to_integral_value(rounding=ROUND_FLOOR))] *)
Definition dec_floor (a : Decimal) : Z :=
  if 0 <=? dec_exp a then dec_signed a * 10 ^ dec_exp a else dec_signed a / 10 ^ (- dec_exp a).
(** [int(a)] truncates towards zero. *)
Definition dec_trunc (a : Decimal) : Z :=
  if 0 <=? dec_exp a then dec_signed a * 10 ^ dec_exp a else Z.quot (dec_signed a) (10 ^ (- dec_exp a)).

(** ** [str(a)] *)

Definition dec_str (a : Decimal) : string :=
  let int := digits (dec_coeff a) in
  let l := len int in
  let leftdigits := dec_exp a + l in
  let dotplace := if (dec_exp a <=? 0) && (-6 <? leftdigits) then leftdigits else 1 in
  let zeros n := of_chars (replicate (Z.to_nat n) "0"%char) in
  let intpart := if dotplace <=? 0 then "0"
                 else if l <=? dotplace then int +:+ zeros (dotplace - l)
                 else of_chars (firstn (Z.to_nat dotplace) (chars int)) in
  let fracpart := if dotplace <=? 0 then "." +:+ zeros (- dotplace) +:+ int
                  else if l <=? dotplace then ""
                  else "." +:+ of_chars (skipn (Z.to_nat dotplace) (chars int)) in
  let x := leftdigits - dotplace in
  let exp := if x =? 0 then "" else "E" +:+ (if x <? 0 then "-" else "+") +:+ digits (Z.abs x) in
  (if dec_neg a then "-" else "") +:+ intpart +:+ fracpart +:+ exp.

(** [format(a, "f")]: positional notation at every exponent; a zero with a positive
    exponent is written at exponent zero. *)
Definition dec_format_f (a : Decimal) : string :=
  let zeros n := of_chars (replicate (Z.to_nat n) "0"%char) in
  let e := if (dec_coeff a =? 0) && (0 <? dec_exp a) then 0 else dec_exp a in
  let int := digits (dec_coeff a) in
  let body :=
    if 0 <=? e then int +:+ zeros e
    else let padded := zeros (1 - e - len int) +:+ int in
         of_chars (firstn (Z.to_nat (len padded + e)) (chars padded)) +:+ "."
         +:+ of_chars (skipn (Z.to_nat (len padded + e)) (chars padded)) in
  (if dec_neg a then "-" else "") +:+ body.

Example dec_format_f_small : dec_format_f (dec_lit 1 (-7)) = "0.0000001". Proof. reflexivity. Qed.
Example dec_format_f_big : dec_format_f (dec_lit 12 2) = "1200". Proof. reflexivity. Qed.
Example dec_format_f_mid : dec_format_f (dec_lit (-1234) (-2)) = "-12.34". Proof. reflexivity. Qed.
Example dec_str_plain : dec_str (dec_lit (-12345) (-2)) = "-123.45". Proof. reflexivity. Qed.
Example dec_str_small : dec_str (dec_lit 1 (-7)) = "1E-7". Proof. reflexivity. Qed.
Example dec_str_zeros : dec_str (dec_lit 5 (-3)) = "0.005". Proof. reflexivity. Qed.
Example dec_div_third : dec_div (dec_of_Z 1) (dec_of_Z 3) = Ok (dec_lit (10 ^ 28 / 3) (-28)).
Proof. vm_compute. reflexivity. Qed.
Example dec_div_half : dec_div (dec_lit 25 (-1)) (dec_of_Z 2) = Ok (dec_lit 125 (-2)).
Proof. vm_compute. reflexivity. Qed.

(** ** Facts: order *)

Lemma scaled_shift e e' d :
  e' <= e <= dec_exp d → scaled e' d = scaled e d * 10 ^ (e - e').
Proof.
  intros. unfold scaled. rewrite <- Z.mul_assoc, <- Z.pow_add_r by lia. do 2 f_equal. lia.
Qed.

(** A comparison may be made at any exponent below both. *)
Lemma dec_cmp_at e a b :
  e <= dec_exp a → e <= dec_exp b → dec_cmp a b = (scaled e a ?= scaled e b).
Proof.
  intros Ha Hb. unfold dec_cmp. set (m := Z.min (dec_exp a) (dec_exp b)).
  rewrite (scaled_shift m e a), (scaled_shift m e b) by lia.
  assert (0 < 10 ^ (m - e)) by (apply Z.pow_pos_nonneg; lia).
  symmetry. destruct (Z.compare_spec (scaled m a) (scaled m b)).
  - apply Z.compare_eq_iff. congruence.
  - apply Z.compare_lt_iff. nia.
  - apply Z.compare_gt_iff. nia.
Qed.

Lemma dec_leb_at e a b :
  e <= dec_exp a → e <= dec_exp b → dec_leb a b = (scaled e a <=? scaled e b).
Proof. intros. unfold dec_leb, Z.leb. by rewrite (dec_cmp_at e). Qed.
Lemma dec_ltb_at e a b :
  e <= dec_exp a → e <= dec_exp b → dec_ltb a b = (scaled e a <? scaled e b).
Proof. intros. unfold dec_ltb, Z.ltb. by rewrite (dec_cmp_at e). Qed.
Lemma dec_eqb_at e a b :
  e <= dec_exp a → e <= dec_exp b → dec_eqb a b = (scaled e a =? scaled e b).
Proof. intros. unfold dec_eqb. by rewrite (dec_cmp_at e), Z.eqb_compare. Qed.

Lemma dec_leb_refl a : dec_leb a a = true.
Proof. rewrite (dec_leb_at (dec_exp a)) by lia. apply Z.leb_refl. Qed.

Lemma dec_leb_trans a b c : dec_leb a b = true → dec_leb b c = true → dec_leb a c = true.
Proof.
  set (e := Z.min (dec_exp a) (Z.min (dec_exp b) (dec_exp c))).
  rewrite (dec_leb_at e a b), (dec_leb_at e b c), (dec_leb_at e a c) by lia.
  rewrite !Z.leb_le. lia.
Qed.

Lemma dec_ltb_leb a b : dec_ltb a b = negb (dec_leb b a).
Proof.
  set (e := Z.min (dec_exp a) (dec_exp b)).
  rewrite (dec_ltb_at e), (dec_leb_at e) by lia. rewrite Z.leb_antisym. by destruct (_ <? _).
Qed.

Lemma dec_leb_total a b : dec_leb a b = false → dec_leb b a = true.
Proof.
  set (e := Z.min (dec_exp a) (dec_exp b)). rewrite (dec_leb_at e a b), (dec_leb_at e b a) by lia.
  rewrite Z.leb_gt, Z.leb_le. lia.
Qed.

Lemma dec_eqb_refl a : dec_eqb a a = true.
Proof. rewrite (dec_eqb_at (dec_exp a)) by lia. apply Z.eqb_refl. Qed.

Lemma dec_max_ub a b : dec_leb a (dec_max a b) = true ∧ dec_leb b (dec_max a b) = true.
Proof.
  unfold dec_max. rewrite dec_ltb_leb. destruct (dec_leb b a) eqn:E; cbn.
  - split; [apply dec_leb_refl|done].
  - split; [by apply dec_leb_total|apply dec_leb_refl].
Qed.
Lemma dec_min_lb a b : dec_leb (dec_min a b) a = true ∧ dec_leb (dec_min a b) b = true.
Proof.
  unfold dec_min. rewrite dec_ltb_leb. destruct (dec_leb a b) eqn:E; cbn.
  - split; [apply dec_leb_refl|done].
  - split; [by apply dec_leb_total|apply dec_leb_refl].
Qed.

Lemma dec_max_list_spec x l :
  dec_max_list x l ∈ x :: l ∧ ∀ y, y ∈ x :: l → dec_leb y (dec_max_list x l) = true.
Proof.
  unfold dec_max_list. revert x. induction l as [|z l IH]; intros x; cbn [fold_left].
  - split; [set_solver|]. intros y ->%list_elem_of_singleton. apply dec_leb_refl.
  - destruct (IH (dec_max x z)) as [Hin Hub]. pose proof (dec_max_ub x z) as [Hx Hz]. split.
    + apply elem_of_cons in Hin as [->|Hin]; [|set_solver].
      unfold dec_max. destruct (dec_ltb x z); set_solver.
    + intros y [->|[->|Hy]%elem_of_cons]%elem_of_cons.
      * eapply dec_leb_trans; [exact Hx|]. apply Hub. set_solver.
      * eapply dec_leb_trans; [exact Hz|]. apply Hub. set_solver.
      * apply Hub. set_solver.
Qed.

Lemma dec_min_list_spec x l :
  dec_min_list x l ∈ x :: l ∧ ∀ y, y ∈ x :: l → dec_leb (dec_min_list x l) y = true.
Proof.
  unfold dec_min_list. revert x. induction l as [|z l IH]; intros x; cbn [fold_left].
  - split; [set_solver|]. intros y ->%list_elem_of_singleton. apply dec_leb_refl.
  - destruct (IH (dec_min x z)) as [Hin Hlb]. pose proof (dec_min_lb x z) as [Hx Hz]. split.
    + apply elem_of_cons in Hin as [->|Hin]; [|set_solver].
      unfold dec_min. destruct (dec_ltb z x); set_solver.
    + intros y [->|[->|Hy]%elem_of_cons]%elem_of_cons.
      * eapply dec_leb_trans; [|exact Hx]. apply Hlb. set_solver.
      * eapply dec_leb_trans; [|exact Hz]. apply Hlb. set_solver.
      * apply Hlb. set_solver.
Qed.

(** ** Facts: exactness within the precision *)

Lemma ndigits_fuel_bound fuel n k :
  0 <= n < 2 ^ Z.of_nat (S fuel) → 1 <= k → n < 10 ^ k → ndigits_fuel fuel n <= k.
Proof.
  revert n k. induction fuel as [|fuel IH]; intros n k Hn Hk Hlt; cbn [ndigits_fuel]; [lia|].
  destruct (Z.ltb_spec n 10); [lia|].
  assert (1 < k). { destruct (Z.eq_dec k 1) as [->|]; [|lia]. change (10 ^ 1) with 10 in Hlt. lia. }
  assert (ndigits_fuel fuel (n / 10) <= k - 1); [|lia].
  apply IH; [|lia|].
  - rewrite Nat2Z.inj_succ, Z.pow_succ_r in Hn by lia. split; [apply Z.div_pos; lia|].
    apply Z.div_lt_upper_bound; lia.
  - apply Z.div_lt_upper_bound; [lia|]. rewrite <- Z.pow_succ_r by lia.
    by replace (Z.succ (k - 1)) with k by lia.
Qed.

Lemma ndigits_bound n k : 0 <= n → 1 <= k → n < 10 ^ k → ndigits n <= k.
Proof.
  intros. apply ndigits_fuel_bound; [|done|done]. split; [done|].
  destruct (Z.eq_dec n 0) as [->|]; [cbn; lia|].
  pose proof (Z.log2_spec n ltac:(lia)) as [_ Hl]. pose proof (Z.log2_nonneg n).
  rewrite Nat2Z.inj_succ, Z2Nat.id by lia. done.
Qed.

Lemma dec_fix_exact neg c e : 0 <= c < 10 ^ prec → dec_fix neg c e = Dec neg c e.
Proof.
  intros [H0 H]. unfold dec_fix.
  pose proof (ndigits_bound c prec H0 ltac:(done) H) as Hb. apply Z.leb_le in Hb. by rewrite Hb.
Qed.

Lemma dec_add_exact a b :
  let e := Z.min (dec_exp a) (dec_exp b) in
  Z.abs (scaled e a + scaled e b) < 10 ^ prec →
  dec_exp (dec_add a b) = e ∧ dec_signed (dec_add a b) = scaled e a + scaled e b.
Proof.
  intros e H. unfold dec_add. fold e. rewrite dec_fix_exact by lia. cbn. split; [done|].
  unfold dec_signed. cbn. destruct (Z.eqb_spec (scaled e a + scaled e b) 0) as [->|].
  - by destruct (_ && _).
  - destruct (Z.ltb_spec (scaled e a + scaled e b) 0); lia.
Qed.

Lemma dec_signed_negate a : dec_signed (dec_copy_negate a) = - dec_signed a.
Proof. destruct a as [[] c e]; unfold dec_signed; cbn; lia. Qed.
Lemma scaled_negate e a : scaled e (dec_copy_negate a) = - scaled e a.
Proof. unfold scaled. rewrite dec_signed_negate. cbn. lia. Qed.

Lemma dec_sub_exact a b :
  let e := Z.min (dec_exp a) (dec_exp b) in
  Z.abs (scaled e a - scaled e b) < 10 ^ prec →
  dec_exp (dec_sub a b) = e ∧ dec_signed (dec_sub a b) = scaled e a - scaled e b.
Proof.
  intros e H. unfold dec_sub. destruct (dec_add_exact a (dec_copy_negate b)) as [H1 H2].
  - cbn. rewrite scaled_negate. fold e. by rewrite <- Z.add_opp_r in H.
  - cbn in H1, H2. rewrite scaled_negate in H2. fold e in H1, H2. split; [done|]. lia.
Qed.
