(* ===== verification/Sha256.v ===== *)
(** [hashlib.sha256(data).hexdigest()]: SHA-256 over bytes, and the shape of its hexadecimal
    digest. Words are the low 32 bits of the kernel's 63-bit integers, whose operations
    compute; no axiom about them is used. *)

From S2P Require Import Prelude PyStr.
From Stdlib Require Import Ascii.
From Stdlib Require Numbers.Cyclic.Int63.PrimInt63.

Module Word.
Import PrimInt63.
Local Open Scope uint63_scope.

Definition word : Type := int.
Definition wadd (x y : word) : word := add x y.
Definition wand (x y : word) : word := land x y.
Definition wxor (x y : word) : word := lxor x y.
Definition w32 (x : word) : word := land x 4294967295.
Definition wnot (x : word) : word := lxor x 4294967295.
Definition shr (n x : word) : word := lsr x n.
Definition rotr (n x : word) : word := lor (lsr x n) (w32 (lsl x (sub 32 n))).

Definition ssig0 (x : word) : word := lxor (lxor (rotr 7 x) (rotr 18 x)) (lsr x 3).
Definition ssig1 (x : word) : word := lxor (lxor (rotr 17 x) (rotr 19 x)) (lsr x 10).
Definition bsig0 (x : word) : word := lxor (lxor (rotr 2 x) (rotr 13 x)) (rotr 22 x).
Definition bsig1 (x : word) : word := lxor (lxor (rotr 6 x) (rotr 11 x)) (rotr 25 x).

(** The word of an integer below 2^32, and the four bits of a word from bit [n]. *)
Fixpoint of_pos (p : positive) : word :=
  match p with
  | xH => 1
  | xO p => lsl (of_pos p) 1
  | xI p => lor (lsl (of_pos p) 1) 1
  end.
Definition of_Z (z : Z) : word := match z with Zpos p => of_pos p | _ => 0 end.
Definition bit (n x : word) : Z := if eqb (land (lsr x n) 1) 1 then 1 else 0.
Definition nibble (n x : word) : Z := bit n x + 2 * bit (add n 1) x + 4 * bit (add n 2) x + 8 * bit (add n 3) x.
Definition nibbles (x : word) : list Z := map (λ n, nibble n x) [28; 24; 20; 16; 12; 8; 4; 0].
(** Four bytes in big-endian order. *)
Definition word_be (l : list Z) : word := fold_left (λ acc b, lor (lsl acc 8) (of_Z b)) l 0.
End Word.
Import Word.

(** The constants are the fractional bits of roots of the first primes. *)
Definition is_prime (n : Z) : bool :=
  forallb (λ d, negb (n mod (Z.of_nat d + 2) =? 0)) (seq 0 (Z.to_nat (n - 2))).

Definition primes : list Z := List.filter is_prime (map Z.of_nat (seq 2 310)).

(** The integer cube root of [n] below [2 ^ bits], bit by bit. *)
Fixpoint cube_root (bits : nat) (n acc : Z) : Z :=
  match bits with
  | O => acc
  | S bits =>
      let next := acc + 2 ^ Z.of_nat bits in
      cube_root bits n (if next * next * next <=? n then next else acc)
  end.

Definition sha_k : list word :=
  Eval vm_compute in map (λ p, of_Z (cube_root 36 (p * 2 ^ 96) 0 mod 2 ^ 32)) primes.

Definition sha_init : list word :=
  Eval vm_compute in map (λ p, of_Z (Z.sqrt (p * 2 ^ 64) mod 2 ^ 32)) (firstn 8 primes).

(** Message schedule, newest word first: [w] holds the last words computed. *)
Fixpoint schedule (n : nat) (w : list word) : list word :=
  match n with
  | O => w
  | S n =>
      let g i := nth i w (of_Z 0) in
      schedule n (w32 (wadd (wadd (ssig1 (g 1%nat)) (g 6%nat)) (wadd (ssig0 (g 14%nat)) (g 15%nat))) :: w)
  end.

Definition sha_round (st : list word) (kw : word * word) : list word :=
  match st with
  | [a; b; c; d; e; f; g; h] =>
      let ch := wxor (wand e f) (wand (wnot e) g) in
      let maj := wxor (wxor (wand a b) (wand a c)) (wand b c) in
      let t1 := wadd (wadd (wadd h (bsig1 e)) ch) (wadd kw.1 kw.2) in
      [w32 (wadd (wadd t1 (bsig0 a)) maj); a; b; c; w32 (wadd d t1); e; f; g]
  | _ => st
  end.

Definition sha_block (st block : list word) : list word :=
  let w := rev (schedule 48 (rev block)) in
  zip_with (λ x y, w32 (wadd x y)) st (fold_left sha_round (zip sha_k w) st).

Definition bytes_be (n : nat) (x : Z) : list Z :=
  map (λ i, Z.shiftr x (8 * Z.of_nat i) mod 256) (rev (seq 0 n)).

Definition sha_pad (msg : list Z) : list Z :=
  let l := Z.of_nat (length msg) in
  msg ++ [128] ++ replicate (Z.to_nat ((55 - l) mod 64)) 0 ++ bytes_be 8 (8 * l).

Fixpoint words_of (n : nat) (l : list Z) : list word :=
  match n with O => [] | S n => word_be (firstn 4 l) :: words_of n (skipn 4 l) end.

(** Fold the compression over the 64-byte blocks; [n] counts the blocks. *)
Fixpoint sha_blocks (n : nat) (st : list word) (msg : list Z) : list word :=
  match n with
  | O => st
  | S n => sha_blocks n (sha_block st (words_of 16 msg)) (skipn 64 msg)
  end.

Definition sha256_words (msg : list Z) : list word :=
  let padded := sha_pad msg in
  sha_blocks (length padded / 64) sha_init padded.

Definition hex_digit (d : Z) : ascii :=
  ascii_of_N (Z.to_N (if d <? 10 then 48 + d else 87 + d)).

Definition hex_word (x : word) : list ascii := map hex_digit (nibbles x).

Definition sha256_hex (data : string) : string :=
  of_chars (flat_map hex_word
    (sha256_words (map (λ c, Z.of_N (N_of_ascii c)) (chars data)))).

Example sha256_abc :
  sha256_hex "abc" = "ba7816bf8f01cfea414140de5dae2223b00361a396177a9cb410ff61f20015ad".
Proof. vm_compute. reflexivity. Qed.

Example sha256_two_blocks :
  sha256_hex "abcdbcdecdefdefgefghfghighijhijkijkljklmklmnlmnomnopnopq"
  = "248d6a61d20638b8e5c026930c3e6039a33ce45964ff2167f6ecedd419db06c1".
Proof. vm_compute. reflexivity. Qed.

(** ** The digest is always lower-case SHA-256 text *)

Lemma sha_round_length st kw : length (sha_round st kw) = length st.
Proof. do 9 (destruct st as [|? st]; try done). Qed.

Lemma sha_rounds_length l st : length (fold_left sha_round l st) = length st.
Proof. revert st. induction l as [|x l IH]; intros st; [done|]. cbn [fold_left]. by rewrite IH, sha_round_length. Qed.

Lemma sha_blocks_length n st msg : length (sha_blocks n st msg) = length st.
Proof.
  revert st msg. induction n as [|n IH]; intros st msg; [done|]. cbn [sha_blocks].
  rewrite IH. unfold sha_block. rewrite length_zip_with, sha_rounds_length. lia.
Qed.

Lemma hex_digit_ok d : 0 <= d < 16 → hex_digit d ∈ chars "0123456789abcdef".
Proof.
  intros Hd. assert (∃ n, (n < 16)%nat ∧ d = Z.of_nat n) as (n & Hn & ->).
  { exists (Z.to_nat d). lia. }
  do 16 (destruct n as [|n]; [apply (bool_decide_unpack _); vm_compute; exact I|]). lia.
Qed.

Lemma nibble_range n x : 0 <= nibble n x < 16.
Proof.
  unfold nibble. assert (∀ i, 0 <= bit i x <= 1) as H by (intros i; unfold bit; case_match; lia).
  repeat match goal with |- context [bit ?i x] => pose proof (H i); generalize dependent (bit i x); intros end. lia.
Qed.
Lemma hex_word_ok x c : c ∈ hex_word x → c ∈ chars "0123456789abcdef".
Proof.
  unfold hex_word. rewrite list_elem_of_In, in_map_iff. intros (d & <- & (n & <- & _)%in_map_iff).
  apply hex_digit_ok, nibble_range.
Qed.

Lemma length_flat_map_const {A B} (f : A → list B) n l :
  (∀ x, length (f x) = n) → length (flat_map f l) = (n * length l)%nat.
Proof. intros Hf. induction l as [|x l IH]; cbn; [lia|]. rewrite length_app, IH, Hf. lia. Qed.

(** A digest passes every [_require_sha256] of the code. *)
Lemma sha256_hex_is_sha256 data : is_sha256 (sha256_hex data) = true.
Proof.
  unfold is_sha256, sha256_hex. apply andb_true_iff. split.
  - unfold len. rewrite <- length_chars, chars_of_chars, (length_flat_map_const _ 8).
    + unfold sha256_words. rewrite sha_blocks_length. done.
    + done.
  - apply all_in_spec. intros c. rewrite chars_of_chars, list_elem_of_In, in_flat_map.
    intros (w & _ & Hc). eapply hex_word_ok, list_elem_of_In, Hc.
Qed.

#[export] Hint Resolve sha256_hex_is_sha256 : qtrad.
#[global] Opaque sha256_hex.
