(* ===== verification/PyJson.v ===== *)
(** JSON values, [json.dumps(value, sort_keys=True, separators=...)], SHA-256
    identities of canonical JSON, and [to_json_value] of [domain/events.py].

    The text is shown to determine the value up to the order of object keys, so
    that equal digests mean equal contents or an explicit SHA-256 collision. *)

From S2P Require Import Prelude PySorted PyStr PyTime PyDecimal Sha256.
From Stdlib Require Import Ascii.

(** ** Values and text *)

Inductive json : Type :=
| JNull
| JBool (b : bool)
| JInt (n : Z)
| JFloat (repr : string)
| JStr (s : string)
| JList (l : list json)
| JObj (kvs : list (string * json)).

Definition json_rect_nested (P : json → Prop)
  (Hnull : P JNull) (Hbool : ∀ b, P (JBool b)) (Hint : ∀ n, P (JInt n))
  (Hfloat : ∀ r, P (JFloat r)) (Hstr : ∀ s, P (JStr s))
  (Hlist : ∀ l, Forall P l → P (JList l))
  (Hobj : ∀ kvs, Forall (λ kv, P kv.2) kvs → P (JObj kvs)) : ∀ j, P j :=
  fix go j :=
    match j with
    | JNull => Hnull
    | JBool b => Hbool b
    | JInt n => Hint n
    | JFloat r => Hfloat r
    | JStr s => Hstr s
    | JList l =>
        Hlist l ((fix go_list l : Forall P l :=
                    match l with
                    | [] => List.Forall_nil _
                    | x :: l => List.Forall_cons _ x l (go x) (go_list l)
                    end) l)
    | JObj kvs =>
        Hobj kvs ((fix go_kvs kvs : Forall (λ kv, P kv.2) kvs :=
                     match kvs with
                     | [] => List.Forall_nil _
                     | kv :: kvs => List.Forall_cons _ kv kvs (go kv.2) (go_kvs kvs)
                     end) kvs)
    end.

#[export] Instance json_eq_dec : EqDecision json.
Proof.
  unfold EqDecision, Decision. fix go 1. intros a b.
  destruct a as [|x|x|x|x|l|l], b as [|y|y|y|y|l'|l']; try (right; discriminate); try (left; reflexivity);
    try (destruct (decide (x = y)) as [->|Hne]; [left; reflexivity|right; congruence]).
  - assert ({l = l'} + {l ≠ l'}) as [->|Hne]; [|left; reflexivity|right; congruence].
    revert l'. induction l as [|x l IH]; intros [|y l']; try (left; reflexivity); try (right; discriminate).
    destruct (go x y) as [->|Hne]; [|right; congruence].
    destruct (IH l') as [->|Hne]; [left; reflexivity|right; congruence].
  - assert ({l = l'} + {l ≠ l'}) as [->|Hne]; [|left; reflexivity|right; congruence].
    revert l'. induction l as [|[k x] l IH]; intros [|[k' y] l']; try (left; reflexivity); try (right; discriminate).
    destruct (decide (k = k')) as [->|Hne]; [|right; congruence].
    destruct (go x y) as [->|Hne]; [|right; congruence].
    destruct (IH l') as [->|Hne]; [left; reflexivity|right; congruence].
Defined.

Definition dquote : ascii := ascii_of_N 34.

(** Escapes of the ASCII encoder. *)
Definition esc_char (c : ascii) : list ascii :=
  let n := Z.of_N (N_of_ascii c) in
  if n =? 34 then ["\"%char; dquote]
  else if n =? 92 then ["\"; "\"]%char
  else if n =? 10 then ["\"; "n"]%char
  else if n =? 13 then ["\"; "r"]%char
  else if n =? 9 then ["\"; "t"]%char
  else if n =? 12 then ["\"; "f"]%char
  else if n =? 8 then ["\"; "b"]%char
  else if (32 <=? n) && (n <=? 126) then [c]
  else ["\"; "u"; "0"; "0"; hex_digit (n / 16); hex_digit (n mod 16)]%char.

Definition json_str (s : string) : string :=
  of_chars (dquote :: flat_map esc_char (chars s) ++ [dquote]).

Section dumps.
Variables item_sep key_sep : string.

Definition member (kt : string * string) : string := json_str kt.1 +:+ key_sep +:+ kt.2.

Fixpoint dumps_with (j : json) : string :=
  match j with
  | JNull => "null"
  | JBool true => "true"
  | JBool false => "false"
  | JInt n => str_Z n
  | JFloat repr => repr
  | JStr s => json_str s
  | JList l => "[" +:+ join item_sep (map dumps_with l) +:+ "]"
  | JObj kvs =>
      "{" +:+ join item_sep
                (map member (py_sorted fst (map (λ kv, (kv.1, dumps_with kv.2)) kvs))) +:+ "}"
  end.
End dumps.

(** [json.dumps(value, sort_keys=True, separators=(",", ":"))] *)
Definition dumps : json → string := dumps_with "," ":".
(** [json.dumps(value, sort_keys=True)] *)
Definition dumps_spaced : json → string := dumps_with ", " ": ".

(** [sha256(json.dumps(value, sort_keys=True, separators=(",", ":")).encode()).hexdigest()] *)
Definition sha256_json (value : json) : string := sha256_hex (dumps value).

(** ** Python values that [to_json_value] accepts, by the branch that handles them.
    A [str] includes members of a [StrEnum], an [int] those of an [IntEnum]. *)
Inductive pyobj : Type :=
| PyNone | PyBool (b : bool) | PyInt (n : Z) | PyFloat (repr : string) | PyStr (s : string)
| PyDecimal (d : Decimal)
| PyDatetime (d : datetime)
| PyUUID (text : string)
| PyEnum (value : pyobj)
| PyId (text : string)
| PyDataclass (fields : list (string * pyobj))
| PyMapping (items : list (string * pyobj))
| PySequence (items : list pyobj)
| PyOther (type_name : string).

Fixpoint to_json_value (value : pyobj) : res json :=
  match value with
  | PyNone => Ok JNull
  | PyBool b => Ok (JBool b)
  | PyInt n => Ok (JInt n)
  | PyFloat r => Ok (JFloat r)
  | PyStr s => Ok (JStr s)
  | PyDecimal d => Ok (JStr (dec_str d))
  | PyDatetime d => require_utc d "serialised datetime";; Ok (JStr (utc_text d))
  | PyUUID s => Ok (JStr s)
  | PyEnum v => to_json_value v
  | PyId s => Ok (JStr s)
  | PyDataclass fields =>
      kvs ← traverse (λ kv : string * pyobj, v ← to_json_value kv.2; Ok (kv.1, v)) fields;
      Ok (JObj kvs)
  | PyMapping items =>
      kvs ← traverse (λ kv : string * pyobj, v ← to_json_value kv.2; Ok (kv.1, v)) items;
      Ok (JObj kvs)
  | PySequence items => l ← traverse to_json_value items; Ok (JList l)
  | PyOther type_name =>
      Raise (TypeError ("cannot serialise " +:+ type_name +:+ " as a canonical JSON value"))
  end.

(** A JSON value seen as a Python value: dicts, lists and scalars. *)
Fixpoint of_json (j : json) : pyobj :=
  match j with
  | JNull => PyNone
  | JBool b => PyBool b
  | JInt n => PyInt n
  | JFloat r => PyFloat r
  | JStr s => PyStr s
  | JList l => PySequence (map of_json l)
  | JObj kvs => PyMapping (map (λ kv, (kv.1, of_json kv.2)) kvs)
  end.

Lemma traverse_map_Ok {A B} (f : A → res B) (g : B → A) l :
  Forall (λ y, f (g y) = Ok y) l → traverse f (map g l) = Ok l.
Proof.
  intros H. apply traverse_Ok. induction H; cbn; constructor; auto.
Qed.

(** Serialising what is already JSON changes nothing. *)
Lemma to_json_value_of_json j : to_json_value (of_json j) = Ok j.
Proof.
  induction j as [| | | | |l IH|kvs IH] using json_rect_nested; try done.
  - cbn [of_json to_json_value]. by rewrite traverse_map_Ok.
  - cbn [of_json to_json_value]. rewrite traverse_map_Ok; [done|].
    eapply Forall_impl; [exact IH|]. intros [k v] Hv. cbn in *. by rewrite Hv.
Qed.

Example dumps_example :
  dumps (JObj [("b", JList [JInt (-3); JNull]); ("a", JStr "x\y")])
  = of_chars (["{"%char; dquote; "a"%char; dquote; ":"%char; dquote; "x"; "\"; "\"; "y"]%char
      ++ [dquote; ","%char; dquote; "b"%char; dquote] ++ chars ":[-3,null]}").
Proof. reflexivity. Qed.

(** ** The text determines the value *)

(** Sort object keys at every level: the content of the text. *)
Fixpoint canon (j : json) : json :=
  match j with
  | JList l => JList (map canon l)
  | JObj kvs => JObj (py_sorted fst (map (λ kv, (kv.1, canon kv.2)) kvs))
  | _ => j
  end.

Fixpoint float_free (j : json) : bool :=
  match j with
  | JFloat _ => false
  | JList l => forallb float_free l
  | JObj kvs => forallb (λ kv, float_free kv.2) kvs
  | _ => true
  end.

(** One step of a decoder of escaped text. *)
Definition unhex (c : ascii) : Z :=
  let n := Z.of_N (N_of_ascii c) in if n <? 58 then n - 48 else n - 87.
Definition unesc (l : list ascii) : option (ascii * list ascii) :=
  match l with
  | c :: r =>
      if Ascii.eqb c dquote then None
      else if Ascii.eqb c "\"%char then
        match r with
        | "n"%char :: r => Some (ascii_of_N 10, r)
        | "r"%char :: r => Some (ascii_of_N 13, r)
        | "t"%char :: r => Some (ascii_of_N 9, r)
        | "f"%char :: r => Some (ascii_of_N 12, r)
        | "b"%char :: r => Some (ascii_of_N 8, r)
        | "u"%char :: _ :: _ :: h :: h' :: r =>
            Some (ascii_of_N (Z.to_N (16 * unhex h + unhex h')), r)
        | d :: r => Some (d, r)
        | [] => None
        end
      else Some (c, r)
  | [] => None
  end.

Lemma unesc_esc c r : unesc (esc_char c ++ r) = Some (c, r).
Proof. destruct c as [[] [] [] [] [] [] [] []]; reflexivity. Qed.

Lemma escaped_inj l l' r r' :
  flat_map esc_char l ++ dquote :: r = flat_map esc_char l' ++ dquote :: r' → l = l' ∧ r = r'.
Proof.
  assert (∀ r, unesc (dquote :: r) = None) as Hq by done.
  revert l'. induction l as [|c l IH]; intros [|c' l']; cbn [flat_map app].
  - naive_solver.
  - rewrite <- app_assoc. intros H%(f_equal unesc). by rewrite unesc_esc, Hq in H.
  - rewrite <- app_assoc. intros H%(f_equal unesc). by rewrite unesc_esc, Hq in H.
  - rewrite <- !app_assoc. intros H%(f_equal unesc). rewrite !unesc_esc in H.
    injection H as -> H. apply IH in H as [-> ->]. done.
Qed.

Lemma json_str_inj s s' r r' :
  chars (json_str s) ++ r = chars (json_str s') ++ r' → s = s' ∧ r = r'.
Proof.
  unfold json_str. rewrite !chars_of_chars. cbn [app]. rewrite <- !app_assoc. cbn [app].
  intros [= H]. apply escaped_inj in H as [H ->]. split; [by apply chars_inj|done].
Qed.

(** What may follow a value: not a digit. *)
Definition stops (r : list ascii) : Prop :=
  match r with [] => True | c :: _ => is_digit c = false end.

Lemma digit_run_inj l l' r r' :
  (∀ c, c ∈ l → is_digit c = true) → (∀ c, c ∈ l' → is_digit c = true) →
  stops r → stops r' → l ++ r = l' ++ r' → l = l' ∧ r = r'.
Proof.
  revert l'. induction l as [|c l IH]; intros [|c' l'] Hl Hl' Hr Hr' H; cbn in H.
  - done.
  - subst r. cbn in Hr. rewrite Hl' in Hr; [done|set_solver].
  - subst r'. cbn in Hr'. rewrite Hl in Hr'; [done|set_solver].
  - injection H as -> H. apply IH in H as [-> ->]; [done|set_solver|set_solver|done|done].
Qed.

Lemma is_digit_minus : is_digit "-" = false.
Proof. done. Qed.

Lemma chars_digits_cons n : 0 <= n → ∃ c l, chars (digits n) = c :: l ∧ is_digit c = true.
Proof.
  intros Hn. destruct (chars (digits n)) as [|c l] eqn:E.
  - exfalso. apply (digits_nonempty n). by apply chars_inj.
  - exists c, l. split; [done|]. apply (digits_all_digits n c Hn). rewrite E. set_solver.
Qed.

Lemma str_Z_inj n m r r' :
  stops r → stops r' → chars (str_Z n) ++ r = chars (str_Z m) ++ r' → n = m ∧ r = r'.
Proof.
  assert (∀ a b, 0 <= a → 0 <= b → stops r → stops r' →
            chars (digits a) ++ r = chars (digits b) ++ r' → a = b ∧ r = r') as Hpos.
  { intros a b Ha Hb Hr Hr' H. apply digit_run_inj in H as [H ->]; try done.
    - split; [|done]. by apply digits_inj, chars_inj.
    - intros c. by apply digits_all_digits.
    - intros c. by apply digits_all_digits. }
  assert (∀ a b, 0 <= a → chars (digits a) ++ r ≠ "-"%char :: b) as Hneg.
  { intros a b Ha H. destruct (chars_digits_cons a Ha) as (c & l & E & Hc).
    rewrite E in H. cbn in H. injection H as -> _. done. }
  intros Hr Hr'. unfold str_Z. destruct (Z.ltb_spec n 0), (Z.ltb_spec m 0); cbn [chars app]; intros Heq.
  - injection Heq as Heq. apply Hpos in Heq as [? ->]; [|lia..|done|done]. split; [lia|done].
  - exfalso. symmetry in Heq. destruct (chars_digits_cons m ltac:(lia)) as (c & l & E & Hc).
    rewrite E in Heq. cbn in Heq. injection Heq as -> _. done.
  - exfalso. by apply Hneg in Heq.
  - apply Hpos in Heq as [? ->]; [done|lia..|done|done].
Qed.

(** Sorting by key commutes with a change of the values. *)
Lemma insort_map {A B K} `{PyOrder K} (key : A → K) (key' : B → K) (f : A → B) x l :
  (∀ a, key' (f a) = key a) → map f (insort key x l) = insort key' (f x) (map f l).
Proof.
  intros Hf. induction l as [|y l IH]; [done|]. cbn. rewrite !Hf. destruct (pyle _ _); cbn; congruence.
Qed.
Lemma py_sorted_map {A B K} `{PyOrder K} (key : A → K) (key' : B → K) (f : A → B) l :
  (∀ a, key' (f a) = key a) → map f (py_sorted key l) = py_sorted key' (map f l).
Proof.
  intros Hf. induction l as [|x l IH]; [done|].
  change (map f (insort key x (py_sorted key l)) = insort key' (f x) (py_sorted key' (map f l))).
  by rewrite (insort_map key key'), IH.
Qed.

Lemma dumps_obj kvs :
  dumps (JObj kvs)
  = "{" +:+ join "," (map (λ kv, member ":" (kv.1, dumps kv.2)) (py_sorted fst kvs)) +:+ "}".
Proof.
  unfold dumps. cbn [dumps_with].
  rewrite <- (py_sorted_map fst fst (λ kv : string * json, (kv.1, dumps_with "," ":" kv.2))) by done.
  by rewrite map_map.
Qed.
Lemma canon_obj kvs :
  canon (JObj kvs) = JObj (map (λ kv, (kv.1, canon kv.2)) (py_sorted fst kvs)).
Proof.
  cbn [canon]. rewrite (py_sorted_map fst fst (λ kv : string * json, (kv.1, canon kv.2))) by done.
  done.
Qed.

(** Separated items between brackets: if each item's text determines it, so does
    the bracketed text. *)
Section join_inj.
Context {T U : Type} (t : T → string) (k : T → U) (ok : T → Prop) (close : ascii).
Hypothesis close_stops : is_digit close = false.
Hypothesis close_comma : close ≠ ","%char.
Hypothesis head : ∀ x, ok x → ∃ h tl, chars (t x) = h :: tl ∧ h ≠ close.

Definition reads (x : T) : Prop := ∀ y r r', ok y → stops r → stops r' →
  chars (t x) ++ r = chars (t y) ++ r' → k x = k y ∧ r = r'.

Lemma join_inj l l' r r' :
  Forall reads l → Forall ok l → Forall ok l' →
  chars (join "," (map t l)) ++ close :: r = chars (join "," (map t l')) ++ close :: r' →
  map k l = map k l' ∧ r = r'.
Proof.
  assert (∀ z zs s, chars (join "," (map t (z :: zs))) ++ close :: s
            = chars (t z) ++ match zs with
                             | [] => close :: s
                             | _ => ","%char :: chars (join "," (map t zs)) ++ close :: s
                             end) as Hjoin.
  { intros z [|z' zs] s; [done|]. cbn [map join].
    change (join "," (t z' :: map t zs)) with (join "," (map t (z' :: zs))).
    rewrite !chars_app. cbn [chars app]. by rewrite <- !app_assoc. }
  revert l'. induction l as [|x l IH]; intros [|y l'] Hl Ho Hl' H.
  - cbn in H. naive_solver.
  - exfalso. destruct (head y (Forall_inv Hl')) as (h & tl & E & Hh). rewrite Hjoin, E in H. cbn in H. congruence.
  - exfalso. destruct (head x (Forall_inv Ho)) as (h & tl & E & Hh). rewrite Hjoin, E in H. cbn in H. congruence.
  - apply Forall_cons_1 in Hl as [Hx Hl]. apply Forall_cons_1 in Hl' as [Hy Hl'].
    apply Forall_cons_1 in Ho as [_ Ho].
    rewrite !Hjoin in H. apply Hx in H as [Hk H]; [|done|by destruct l|by destruct l'].
    destruct l as [|z l], l' as [|z' l']; cbn in H.
    + split; [cbn; congruence|congruence].
    + injection H as H _. congruence.
    + injection H as H _. congruence.
    + injection H as H. destruct (IH (z' :: l') Hl Ho Hl' H) as [Hm ->].
      split; [|done]. cbn [map] in *. congruence.
Qed.
End join_inj.

(** The first character of a text tells the kind of the value. *)
Definition json_kind (j : json) : Z :=
  match j with
  | JNull => 0 | JBool true => 1 | JBool false => 2 | JInt _ => 3
  | JFloat _ => 4 | JStr _ => 5 | JList _ => 6 | JObj _ => 7
  end.
Definition char_kind (c : ascii) : Z :=
  if is_digit c then 3
  else if Ascii.eqb c dquote then 5
  else match c with
       | "n" => 0 | "t" => 1 | "f" => 2 | "-" => 3 | "[" => 6 | "{" => 7 | _ => 8
       end%char.

Lemma dumps_head j : float_free j = true →
  ∃ h tl, chars (dumps j) = h :: tl ∧ char_kind h = json_kind j.
Proof.
  destruct j as [|[]|n| |s|l|kvs]; intros Hf; try done; try (by eexists _, _).
  unfold dumps. cbn [dumps_with]. unfold str_Z. destruct (Z.ltb_spec n 0).
  - by eexists _, _.
  - destruct (chars_digits_cons n ltac:(lia)) as (c & tl & E & Hc). exists c, tl.
    split; [done|]. unfold char_kind. by rewrite Hc.
Qed.

Lemma dumps_kind a b r r' :
  float_free a = true → float_free b = true →
  chars (dumps a) ++ r = chars (dumps b) ++ r' → json_kind a = json_kind b.
Proof.
  intros Ha Hb H. destruct (dumps_head a Ha) as (h & tl & E & <-).
  destruct (dumps_head b Hb) as (h' & tl' & E' & <-). rewrite E, E' in H. cbn in H. congruence.
Qed.

Lemma dumps_not_bracket j c : c = "]"%char ∨ c = "}"%char → float_free j = true →
  ∃ h tl, chars (dumps j) = h :: tl ∧ h ≠ c.
Proof.
  intros Hc Hf. destruct (dumps_head j Hf) as (h & tl & E & Hk). exists h, tl. split; [done|].
  intros ->. destruct Hc as [-> | ->]; destruct j as [|[]| | | | |]; done.
Qed.

(** ** Injectivity *)

Definition json_reads (a : json) : Prop := ∀ b r r',
  float_free a = true → float_free b = true → stops r → stops r' →
  chars (dumps a) ++ r = chars (dumps b) ++ r' → canon a = canon b ∧ r = r'.

Definition member_text (kv : string * json) : string := member ":" (kv.1, dumps kv.2).

Lemma forallb_Forall {A} (f : A → bool) l : forallb f l = true → Forall (λ x, f x = true) l.
Proof. induction l; cbn; intros; bool_prop; constructor; auto. Qed.

Lemma list_reads l : Forall json_reads l → json_reads (JList l).
Proof.
  intros IH b r r' Ha Hb Hr Hr' H. pose proof (dumps_kind _ _ _ _ Ha Hb H) as Hk.
  destruct b as [|[]| | | |l'|]; try done. clear Hk.
  unfold dumps in H. cbn [dumps_with] in H. fold dumps in H.
  rewrite !chars_app in H. cbn [chars app] in H. injection H as H. rewrite <- !app_assoc in H.
  cbn [chars app] in H.
  apply (join_inj dumps canon (λ j, float_free j = true) "]") in H as [Hm ->]; try done.
  - split; [cbn; congruence|done].
  - intros x Hx. apply dumps_not_bracket; auto.
  - apply forallb_Forall in Ha. apply list.Forall_forall. intros x Hx y s s' Hy ? ? ?.
    rewrite list.Forall_forall in IH, Ha. by eapply IH; auto.
  - by apply forallb_Forall.
  - by apply forallb_Forall.
Qed.

Lemma obj_reads kvs : Forall (λ kv, json_reads kv.2) kvs → json_reads (JObj kvs).
Proof.
  intros IH b r r' Ha Hb Hr Hr' H. pose proof (dumps_kind _ _ _ _ Ha Hb H) as Hk.
  destruct b as [|[]| | | | |kvs']; try done. clear Hk.
  rewrite !dumps_obj, !chars_app in H. cbn [chars app] in H. injection H as H.
  rewrite <- !app_assoc in H. cbn [chars app] in H.
  assert (∀ l, float_free (JObj l) = true →
    Forall (λ kv : string * json, float_free kv.2 = true) (py_sorted fst l)) as Hff.
  { intros l Hl%forallb_Forall. apply list.Forall_forall. intros x Hx%elem_of_py_sorted.
    rewrite list.Forall_forall in Hl. auto. }
  rewrite !canon_obj.
  apply (join_inj member_text (λ kv, (kv.1, canon kv.2)) (λ kv, float_free kv.2 = true) "}")
    in H as [Hm ->]; try done; auto.
  - by rewrite Hm.
  - intros [k v] _. exists dquote. eexists. split; [|done].
    unfold member_text, member, json_str. rewrite !chars_app, chars_of_chars. reflexivity.
  - apply list.Forall_forall. intros [k v] Hx [k' v'] s s' Hy Hs Hs' Heq.
    unfold member_text, member in Heq. cbn in *. rewrite !chars_app, <- !app_assoc in Heq.
    apply json_str_inj in Heq as [-> Heq]. cbn in Heq. injection Heq as Heq.
    apply elem_of_py_sorted in Hx as Hx'. rewrite list.Forall_forall in IH.
    specialize (Hff _ Ha). rewrite list.Forall_forall in Hff.
    pose proof (Hff _ Hx) as Hfv. apply (IH _ Hx' v') in Heq as [Hc ->]; auto.
    split; [|done]. cbn in *. by rewrite Hc.
Qed.

Lemma dumps_reads a : json_reads a.
Proof.
  induction a as [|[]|n|f|s|l IH|kvs IH] using json_rect_nested;
    try (by apply list_reads); try (by apply obj_reads);
    intros b r r' Ha Hb Hr Hr' H; pose proof (dumps_kind _ _ _ _ Ha Hb H) as Hk;
    destruct b as [|[]| | | | |]; try done.
  - split; [done|]. by injection H.
  - split; [done|]. by injection H.
  - split; [done|]. by injection H.
  - apply str_Z_inj in H as [-> ->]; done.
  - apply json_str_inj in H as [-> ->]; done.
Qed.

Lemma dumps_inj a b :
  float_free a = true → float_free b = true → dumps a = dumps b → canon a = canon b.
Proof.
  intros Ha Hb H. by apply (dumps_reads a b [] []); rewrite ?H.
Qed.

(** Equal digests: equal content, or two distinct texts with the same SHA-256. *)
Definition sha256_collision (s t : string) : Prop := s ≠ t ∧ sha256_hex s = sha256_hex t.

Lemma sha256_json_inj a b :
  float_free a = true → float_free b = true → sha256_json a = sha256_json b →
  canon a = canon b ∨ sha256_collision (dumps a) (dumps b).
Proof.
  intros Ha Hb H. destruct (decide (dumps a = dumps b)) as [E|E].
  - left. by apply dumps_inj.
  - right. done.
Qed.

Lemma sha256_json_is_sha256 j : is_sha256 (sha256_json j) = true.
Proof. apply sha256_hex_is_sha256. Qed.

(** With the same distinct keys in the same order, canonical objects agree member by member. *)
Lemma perm_assoc_eq {A} (l l' : list (string * A)) : NoDup l.*1 → l.*1 = l'.*1 → l ≡ₚ l' → l = l'.
Proof.
  intros Hn Hk Hp. apply list_eq. intros i.
  assert (∀ j, fst <$> l !! j = fst <$> l' !! j) as Hj by (intros j; by rewrite <- !list_lookup_fmap, Hk).
  destruct (l !! i) as [[k v]|] eqn:E; specialize (Hj i); rewrite E in Hj;
    destruct (l' !! i) as [[k' v']|] eqn:E'; try done. cbn in Hj. injection Hj as <-.
  assert ((k, v) ∈ l') as [j Ej]%list_elem_of_lookup by (rewrite <- Hp; by eapply list_elem_of_lookup_2).
  assert (i = j) as ->.
  { eapply NoDup_lookup; [rewrite Hk in Hn; exact Hn|..]; rewrite list_lookup_fmap, ?E', ?Ej; done. }
  congruence.
Qed.
Lemma canon_obj_inj a b : NoDup a.*1 → a.*1 = b.*1 → canon (JObj a) = canon (JObj b) →
  map (canon ∘ snd) a = map (canon ∘ snd) b.
Proof.
  intros Hn Hk H. rewrite !canon_obj in H. injection H as H.
  set (f := λ kv : string * json, (kv.1, canon kv.2)).
  assert (∀ l, (map f l).*1 = l.*1) as Hf by (intros l; rewrite map_map; done).
  assert (map f a = map f b) as E.
  { apply perm_assoc_eq; rewrite ?Hf; [done|done|].
    rewrite <- (py_sorted_perm fst a), <- (py_sorted_perm fst b) at 1. unfold f. by rewrite H. }
  apply (f_equal (map snd)) in E. by rewrite !map_map in E.
Qed.
