(* ===== verification/PyParse.v ===== *)
(** Reading text back: [datetime.fromisoformat] on extended-format texts and
    [Decimal(text)] on plain numerals, with the round trip of UTC texts.

    Other spellings the interpreter also accepts (week dates, basic format,
    underscores, NaN) are rejected here; nothing modelled produces them. *)

From S2P Require Import Prelude PyStr PyTime PyDecimal.
From Stdlib Require Import Ascii.

(** ** Reading fixed-width digits *)

Definition digits_val (l : list ascii) : Z := fold_left (λ acc c, acc * 10 + char_val c) l 0.

Definition read_digits (n : nat) (l : list ascii) : option (Z * list ascii) :=
  if Nat.eqb (length (firstn n l)) n && forallb is_digit (firstn n l)
  then Some (digits_val (firstn n l), skipn n l) else None.

Definition read_char (c : ascii) (l : list ascii) : option (list ascii) :=
  match l with x :: l => if Ascii.eqb x c then Some l else None | [] => None end.

Definition read_hms (l : list ascii) : option (Z * list ascii) :=
  '(h, l) ← read_digits 2 l; l ← read_char ":" l;
  '(m, l) ← read_digits 2 l; l ← read_char ":" l;
  '(s, l) ← read_digits 2 l;
  if (h <? 24) && (m <? 60) && (s <? 60) then Some ((h * 3600 + m * 60 + s) * 1000000, l) else None.

Definition read_fraction (l : list ascii) : option (Z * list ascii) :=
  match read_char "." l with
  | Some l => read_digits 6 l
  | None => Some (0, l)
  end.

Definition read_offset (l : list ascii) : option (option Z) :=
  match l with
  | [] => Some None
  | c :: l =>
      sign ← (if Ascii.eqb c "+" then Some 1 else if Ascii.eqb c "-" then Some (-1) else None);
      '(h, l) ← read_digits 2 l; l ← read_char ":" l; '(m, l) ← read_digits 2 l;
      match l with
      | [] => if (h <? 24) && (m <? 60) then Some (Some (sign * (h * 3600 + m * 60) * 1000000)) else None
      | _ => None
      end
  end.

Definition read_iso (l : list ascii) : option datetime :=
  '(y, l) ← read_digits 4 l; l ← read_char "-" l;
  '(m, l) ← read_digits 2 l; l ← read_char "-" l;
  '(d, l) ← read_digits 2 l;
  l ← read_char "T" l;
  '(hms, l) ← read_hms l;
  '(us, l) ← read_fraction l;
  o ← read_offset l;
  let n := days_from_civil y m d in
  if bool_decide (civil_from_days n = (y, m, d)) && (1 <=? y)
  then Some (DateTime (n * us_per_day + hms + us) o) else None.

Definition fromisoformat (s : string) : res datetime :=
  match read_iso (chars s) with
  | Some d => Ok d
  | None => Raise (ValueError ("Invalid isoformat string: " +:+ s))
  end.

(** [value.astimezone(UTC)] of an aware value. A naive one is taken in the process's
    local zone, which the deployment's containers run in UTC. *)
Definition astimezone_utc (value : datetime) : datetime := utc (instant value).

(** ** [Decimal(text)] *)

Definition read_unsigned (s : string) : option Z :=
  if nonempty s && forallb is_digit (chars s) then Some (parse_digits s) else None.

Definition read_exponent (s : option string) : option Z :=
  match s with
  | None => Some 0
  | Some s =>
      match chars s with
      | c :: r =>
          if Ascii.eqb c "-" then Z.opp <$> read_unsigned (of_chars r)
          else if Ascii.eqb c "+" then read_unsigned (of_chars r)
          else read_unsigned s
      | [] => None
      end
  end.

Definition read_decimal (s : string) : option Decimal :=
  let '(neg, s) := match chars s with
                   | c :: r => if Ascii.eqb c "-" then (true, of_chars r)
                               else if Ascii.eqb c "+" then (false, of_chars r) else (false, s)
                   | [] => (false, s)
                   end in
  let '(mantissa, e) := split1 "E" s in
  let '(int, frac) := split1 "." mantissa in
  e ← read_exponent e;
  let frac := default "" frac in
  if nonempty (int +:+ frac) && forallb is_digit (chars (int +:+ frac))
  then Some (Dec neg (parse_digits (int +:+ frac)) (e - len frac)) else None.

Definition Decimal_of_str (s : string) : res Decimal :=
  match read_decimal s with
  | Some d => Ok d
  | None => Raise (ArithmeticError "InvalidOperation")
  end.

Example read_decimal_plain : read_decimal "-123.45" = Some (dec_lit (-12345) (-2)).
Proof. reflexivity. Qed.
Example read_decimal_exp : read_decimal "1E-7" = Some (dec_lit 1 (-7)).
Proof. reflexivity. Qed.
Example fromisoformat_example :
  fromisoformat "2026-07-01T12:02:09.000123+00:00" = Ok (utc 1782907329000123).
Proof. reflexivity. Qed.

(** ** Round trip of UTC text *)

Lemma digits_fuel_length fuel n w acc :
  0 <= n < 10 ^ Z.of_nat w → (0 < w)%nat →
  (length (chars (digits_fuel fuel n acc)) <= w + length (chars acc))%nat.
Proof.
  revert n w acc. induction fuel as [|fuel IH]; intros n w acc Hn Hw; cbn [digits_fuel]; [lia|].
  destruct (Z.ltb_spec n 10); [cbn; lia|].
  destruct w as [|[|w]]; [lia|cbn in Hn; lia|].
  assert (0 <= n / 10 < 10 ^ Z.of_nat (S w)) as Hn'.
  { replace (Z.of_nat (S (S w))) with (Z.succ (Z.of_nat (S w))) in Hn by lia.
    rewrite Z.pow_succ_r in Hn by lia. Z.div_mod_to_equations. lia. }
  specialize (IH (n / 10) (S w) (String (digit_char (n mod 10)) acc) Hn' ltac:(lia)).
  cbn [chars length] in IH. lia.
Qed.

Lemma chars_zpad w n : 0 <= n < 10 ^ Z.of_nat w → (0 < w)%nat →
  length (chars (zpad w n)) = w ∧ forallb is_digit (chars (zpad w n)) = true ∧
  digits_val (chars (zpad w n)) = n.
Proof.
  intros Hn Hw. unfold zpad. rewrite chars_app, chars_of_chars.
  pose proof (digits_fuel_length (Z.to_nat (Z.log2 n) + 1) n w "" Hn Hw) as Hl.
  fold (digits n) in Hl. cbn in Hl. rewrite <- length_chars. split_and!.
  - rewrite length_app, length_replicate. lia.
  - rewrite forallb_app. apply andb_true_iff. split.
    + apply forallb_forall. intros c Hc%list_elem_of_In%elem_of_replicate. destruct Hc as [-> _]. done.
    + apply forallb_forall. intros c Hc%list_elem_of_In. apply (digits_all_digits n c); [lia|done].
  - unfold digits_val. rewrite fold_left_app.
    assert (∀ k, fold_left (λ acc c, acc * 10 + char_val c) (replicate k "0"%char) 0 = 0) as ->.
    { induction k as [|k IH]; [done|]. cbn. exact IH. }
    apply parse_digits_digits. lia.
Qed.

Lemma read_digits_zpad w n r : 0 <= n < 10 ^ Z.of_nat w → (0 < w)%nat →
  read_digits w (chars (zpad w n) ++ r) = Some (n, r).
Proof.
  intros Hn Hw. destruct (chars_zpad w n Hn Hw) as (Hl & Hd & Hv). unfold read_digits.
  rewrite firstn_app, skipn_app, Hl, Nat.sub_diag, firstn_0, skipn_0, app_nil_r.
  rewrite firstn_all2, skipn_all2 by lia. rewrite Hl, Nat.eqb_refl, Hd, Hv. done.
Qed.

(** [str.replace] copies text free of the pattern's first character. *)
Lemma replace_fuel_skip p pat rep pre suf fuel :
  p ∉ pre → (length pre <= fuel)%nat →
  replace_fuel fuel (p :: pat) rep (pre ++ suf)
  = pre ++ replace_fuel (fuel - length pre) (p :: pat) rep suf.
Proof.
  revert fuel. induction pre as [|c pre IH]; intros fuel Hp Hf; cbn [app length].
  - by rewrite Nat.sub_0_r.
  - apply not_elem_of_cons in Hp as [Hpc Hp]. cbn in Hf. destruct fuel as [|fuel]; [lia|].
    cbn [replace_fuel strip_prefix Nat.sub]. destruct (Ascii.eqb_spec p c); [done|].
    by rewrite IH by (done || lia).
Qed.

Lemma replace_last p pat rep pre :
  p ∉ chars pre →
  replace (String p pat) rep (pre +:+ String p pat) = pre +:+ rep.
Proof.
  intros Hp. apply chars_inj. unfold replace. rewrite chars_of_chars, !chars_app.
  cbn [chars]. rewrite <- length_chars, chars_app, length_app. cbn [chars length].
  rewrite replace_fuel_skip by (done || lia). f_equal.
  replace (length (chars pre) + S (length (chars pat)) - length (chars pre))%nat
    with (S (length (chars pat))) by lia.
  cbn [replace_fuel strip_prefix]. rewrite Ascii.eqb_refl.
  assert (∀ l, strip_prefix l l = Some []) as H.
  { induction l as [|c l IH]; [done|]. cbn. by rewrite Ascii.eqb_refl. }
  rewrite H. destruct (length (chars pat)); cbn; by rewrite app_nil_r.
Qed.

(** Characters of an ISO text without offset: digits and [-T:.]. *)
Definition iso_char (c : ascii) : bool :=
  is_digit c || Ascii.eqb c "-" || Ascii.eqb c "T" || Ascii.eqb c ":" || Ascii.eqb c ".".

Lemma zpad_iso w n : 0 <= n → forallb iso_char (chars (zpad w n)) = true.
Proof.
  intros Hn. unfold zpad. rewrite chars_app, chars_of_chars, forallb_app. apply andb_true_iff. split.
  - apply forallb_forall. intros c Hc%list_elem_of_In%elem_of_replicate. by destruct Hc as [-> _].
  - apply forallb_forall. intros c Hc%list_elem_of_In. unfold iso_char.
    by rewrite (digits_all_digits n c).
Qed.

Lemma civil_from_days_range n :
  let '(y, m, d) := civil_from_days n in 1 <= m <= 12 ∧ 1 <= d <= 31.
Proof.
  unfold civil_from_days. set (z := n + 719468).
  pose proof (Z.mod_pos_bound z 146097 ltac:(done)) as Hb. clearbody z.
  set (doe := z mod 146097) in *. set (era := z / 146097). clearbody doe era.
  unfold civil_of_doe.
  set (yoe := (doe - doe / 1460 + doe / 36524 - doe / 146096) / 365).
  assert (0 <= doe - (365 * yoe + yoe / 4 - yoe / 100) <= 365) as Hd.
  { subst yoe. Z.div_mod_to_equations. lia. }
  set (doy := doe - (365 * yoe + yoe / 4 - yoe / 100)) in *. clearbody doy.
  set (mp := (5 * doy + 2) / 153).
  assert (0 <= mp < 12 ∧ 1 <= doy - (153 * mp + 2) / 5 + 1 <= 31) as [Hm Hdd].
  { subst mp. Z.div_mod_to_equations. lia. }
  clearbody mp. split; [|done]. destruct (Z.ltb_spec mp 10); lia.
Qed.

Definition iso_base (d : datetime) : string :=
  iso_date (dt_date d) +:+ "T" +:+ iso_time (time_of_day d).

(** Years that ISO text writes with four digits. *)
Definition year_ok (d : datetime) : Prop :=
  let '(y, _, _) := civil_from_days (dt_date d) in 1 <= y <= 9999.

Lemma iso_base_chars d c : year_ok d → c ∈ chars (iso_base d) → iso_char c = true.
Proof.
  intros Hy Hc. assert (forallb iso_char (chars (iso_base d)) = true) as H.
  2:{ rewrite forallb_forall in H. apply H. by apply list_elem_of_In. }
  pose proof (civil_from_days_range (dt_date d)) as Hr.
  unfold iso_base, iso_date, iso_time, year_ok in *.
  destruct (civil_from_days (dt_date d)) as [[y m] dd]. destruct Hr.
  assert (0 <= time_of_day d) as Ht by (apply Z.mod_pos_bound; done).
  destruct (_ =? 0); rewrite ?chars_app, ?forallb_app; cbn [chars forallb andb]; rewrite ?andb_true_r;
    rewrite !zpad_iso by (Z.div_mod_to_equations; lia); done.
Qed.

Lemma utc_text_base d : is_utc d → year_ok d → utc_text d = iso_base d +:+ "Z".
Proof.
  intros Hu Hy. unfold utc_text, isoformat. rewrite Hu. fold (iso_base d).
  change (iso_offset 0) with "+00:00". rewrite <- append_assoc.
  change (iso_date (dt_date d) +:+ "T") with (iso_date (dt_date d) +:+ "T").
  replace ((iso_date (dt_date d) +:+ "T") +:+ iso_time (time_of_day d) +:+ "+00:00")
    with (iso_base d +:+ "+00:00") by (unfold iso_base; by rewrite !append_assoc).
  apply replace_last. intros Hc. by apply (iso_base_chars d) in Hc.
Qed.

Lemma read_iso_base d : is_utc d → year_ok d → read_iso (chars (iso_base d +:+ "+00:00")) = Some d.
Proof.
  intros Hu Hy. pose proof (civil_from_days_range (dt_date d)) as Hr. pose proof (days_civil_roundtrip (dt_date d)) as Hc.
  assert (0 <= time_of_day d < us_per_day) as Ht by (apply Z.mod_pos_bound; done).
  pose proof (Z_div_mod_eq_full (dt_us d) us_per_day) as Hdm. fold (dt_date d) (time_of_day d) in Hdm.
  unfold iso_base, iso_date, iso_time, year_ok, read_iso in *.
  destruct (civil_from_days (dt_date d)) as [[y m] dd] eqn:Ec. destruct Hr as [Hm Hdd].
  set (t := time_of_day d) in *. clearbody t. unfold us_per_day in Ht.
  rewrite !chars_app. rewrite <- !app_assoc.
  rewrite read_digits_zpad by (cbn; lia). cbn [mbind option_bind chars app read_char]. cbn -[read_digits zpad read_hms read_fraction days_from_civil civil_from_days].
  rewrite read_digits_zpad by (cbn; lia). cbn -[read_digits zpad read_hms read_fraction days_from_civil civil_from_days].
  rewrite read_digits_zpad by (cbn; lia). cbn -[read_digits zpad read_hms read_fraction days_from_civil civil_from_days].
  unfold read_hms. rewrite read_digits_zpad by (cbn; Z.div_mod_to_equations; lia).
  cbn -[read_digits zpad read_fraction days_from_civil civil_from_days Z.ltb Z.leb].
  rewrite read_digits_zpad by (cbn; Z.div_mod_to_equations; lia).
  cbn -[read_digits zpad read_fraction days_from_civil civil_from_days Z.ltb Z.leb].
  rewrite read_digits_zpad by (cbn; Z.div_mod_to_equations; lia).
  cbn -[read_digits zpad read_fraction days_from_civil civil_from_days Z.ltb Z.leb].
  replace (t / 3600000000 <? 24) with true by (Z.div_mod_to_equations; lia).
  replace (t / 60000000 mod 60 <? 60) with true by (Z.div_mod_to_equations; lia).
  replace (t / 1000000 mod 60 <? 60) with true by (Z.div_mod_to_equations; lia).
  cbn -[read_digits zpad read_fraction days_from_civil civil_from_days Z.ltb Z.leb].
  assert (∀ us, 0 <= us < 1000000 → us = t mod 1000000 →
    (if bool_decide (civil_from_days (days_from_civil y m dd) = (y, m, dd)) && (1 <=? y)
     then Some (DateTime (days_from_civil y m dd * us_per_day
       + (t / 3600000000 * 3600 + t / 60000000 mod 60 * 60 + t / 1000000 mod 60) * 1000000 + us) (Some 0))
     else None) = Some d) as Hend.
  { intros us Hus Hus'. rewrite Hc, bool_decide_true by done. replace (1 <=? y) with true by lia.
    destruct d as [u o]. unfold is_utc in Hu. cbn in Hu, Hdm |- *. subst o.
    replace u with (86400000000 * dt_date {| dt_us := u; dt_offset := Some 0 |} + t) at 2 by exact (eq_sym Hdm).
    f_equal. f_equal. unfold us_per_day. Z.div_mod_to_equations. lia. }
  destruct (Z.eqb_spec (t mod 1000000) 0) as [E|E].
  - apply (Hend 0); lia.
  - unfold read_fraction. rewrite chars_app, <- app_assoc. cbn [chars app read_char Ascii.eqb].
    cbn -[read_digits zpad days_from_civil civil_from_days Z.ltb Z.leb].
    rewrite read_digits_zpad by (cbn; Z.div_mod_to_equations; lia).
    cbn -[read_digits zpad days_from_civil civil_from_days Z.ltb Z.leb].
    apply Hend; [Z.div_mod_to_equations; lia|done].
Qed.

Lemma fromisoformat_utc_text d : is_utc d → year_ok d →
  fromisoformat (replace "Z" "+00:00" (utc_text d)) = Ok d.
Proof.
  intros Hu Hy. rewrite utc_text_base by done. rewrite replace_last.
  - unfold fromisoformat. by rewrite read_iso_base.
  - intros Hc. by apply (iso_base_chars d) in Hc.
Qed.

(** From 1970 to well before the year 9999. *)
Lemma year_ok_range d : 0 <= dt_us d < 2786860 * us_per_day → year_ok d.
Proof.
  intros H. unfold year_ok, civil_from_days.
  assert (0 <= dt_date d < 2786860) as Hd.
  { unfold dt_date. split; [apply Z.div_pos; [lia|done]|]. apply Z.div_lt_upper_bound; [done|lia]. }
  set (z := dt_date d + 719468). assert (719468 <= z < 3506328) as Hz by lia.
  pose proof (civil_of_doe_range (z mod 146097) (Z.mod_pos_bound z 146097 ltac:(lia))) as Hr.
  destruct (civil_of_doe (z mod 146097)) as [[yoe mp] dd]. destruct Hr as (_ & Hy & Hm).
  assert (4 <= z / 146097 < 24) as Hera.
  { split; [apply Z.div_le_lower_bound; lia|apply Z.div_lt_upper_bound; lia]. }
  destruct (_ <=? 2); lia.
Qed.

Lemma utc_text_inj a b : is_utc a → is_utc b → year_ok a → year_ok b → utc_text a = utc_text b → a = b.
Proof.
  intros Ha Hb Ya Yb H. apply (f_equal (λ t, fromisoformat (replace "Z" "+00:00" t))) in H.
  rewrite !fromisoformat_utc_text in H by done. by injection H.
Qed.
