(* ===== verification/Domain.v ===== *)
(** Canonical values of [src/qtrad/domain]: identifiers, market data, event
    envelopes and operational records.  A dataclass is a record together with
    its [__post_init__], a validation in [res]; constructing one is
    [Class_new], which validates and returns the value. *)

From S2P Require Import Prelude PySorted PyStr PyTime PyDecimal Sha256 PyJson.
From Stdlib Require Import Ascii.

(** A UUID, identified by its canonical lower-case text [str(uuid)]. *)
Record UUID : Type := mkUUID { uuid_text : string }.
#[export] Instance UUID_eq_dec : EqDecision UUID.
Proof. solve_decision. Defined.
#[export] Program Instance UUID_countable : Countable UUID :=
  inj_countable' uuid_text mkUUID _.
Next Obligation. by intros []. Qed.

(** ** domain/identifiers.py *)

Definition InstrumentId : Type := string.

Definition InstrumentId_post_init (value : InstrumentId) : res unit :=
  let parts := match split1 ":" value with (a, Some b) => [a; b] | (a, None) => [a] end in
  raise_if (negb (Nat.eqb (length parts) 2) || negb (forallb nonempty parts)
            || negb (String.eqb value (lower value)))
           (ValueError "instrument ID must be a lower-case '<namespace>:<name>' value").

Record ProviderListingId : Type := mkListing {
  pl_provider : string; pl_environment : string; pl_external_id : string }.
#[export] Instance ProviderListingId_eq_dec : EqDecision ProviderListingId.
Proof. solve_decision. Defined.

Definition ProviderListingId_post_init (l : ProviderListingId) : res unit :=
  raise_if (negb (nonempty (pl_provider l)) || negb (nonempty (pl_environment l))
            || negb (nonempty (pl_external_id l)))
           (ValueError "provider listing fields must be non-empty").

Definition ProviderListingId_str (l : ProviderListingId) : string :=
  pl_provider l +:+ ":" +:+ pl_environment l +:+ ":" +:+ pl_external_id l.

Definition RunId : Type := UUID.

(** ** domain/market_data.py *)

Inductive PriceBasis : Type := BID | ASK | MID.
#[export] Instance PriceBasis_eq_dec : EqDecision PriceBasis.
Proof. solve_decision. Defined.
Definition PriceBasis_code (b : PriceBasis) : nat :=
  match b with BID => 0 | ASK => 1 | MID => 2 end.
Definition PriceBasis_of_code (n : nat) : option PriceBasis :=
  match n with O => Some BID | S O => Some ASK | S (S O) => Some MID | _ => None end.
#[export] Program Instance PriceBasis_countable : Countable PriceBasis :=
  inj_countable PriceBasis_code PriceBasis_of_code _.
Next Obligation. by intros []. Qed.
Definition PriceBasis_str (b : PriceBasis) : string :=
  match b with BID => "BID" | ASK => "ASK" | MID => "MID" end.

Inductive DataQuality : Type := HEALTHY | DELAYED | STALE | GAPPED | PARTIAL | QUARANTINED.
#[export] Instance DataQuality_eq_dec : EqDecision DataQuality.
Proof. solve_decision. Defined.
Definition DataQuality_str (q : DataQuality) : string :=
  match q with
  | HEALTHY => "HEALTHY" | DELAYED => "DELAYED" | STALE => "STALE" | GAPPED => "GAPPED"
  | PARTIAL => "PARTIAL" | QUARANTINED => "QUARANTINED"
  end.

Inductive BarProvenance : Type := QUOTE_DERIVED | IG_HISTORICAL | IBKR_HISTORICAL.
Definition BarProvenance_str (p : BarProvenance) : string :=
  match p with
  | QUOTE_DERIVED => "QUOTE_DERIVED" | IG_HISTORICAL => "IG_HISTORICAL"
  | IBKR_HISTORICAL => "IBKR_HISTORICAL"
  end.

Record MarketQuote : Type := mkQuote {
  q_instrument_id : InstrumentId;
  q_listing_id : ProviderListingId;
  q_event_time : datetime;
  q_received_time : datetime;
  q_bid : option Decimal;
  q_ask : option Decimal;
  q_bid_size : option Decimal;
  q_ask_size : option Decimal;
  q_bid_time : option datetime;
  q_ask_time : option datetime;
  q_quality : DataQuality;
  q_source_sequence : option string;
  q_global_position : option Z }.

(** [x is not None and p(x)] *)
Definition some_and {A} (x : option A) (p : A → bool) : bool :=
  match x with Some a => p a | None => false end.

Definition MarketQuote_post_init (q : MarketQuote) : res unit :=
  require_utc (q_event_time q) "event_time";;
  require_utc (q_received_time q) "received_time";;
  require_utc_opt (q_bid_time q) "bid_time";;
  require_utc_opt (q_ask_time q) "ask_time";;
  raise_if (bool_decide (q_bid q = None) && bool_decide (q_ask q = None))
           (ValueError "a quote must contain a bid or ask");;
  raise_if (some_and (q_bid q) (λ b, dec_leb b dec_zero)) (ValueError "bid must be positive");;
  raise_if (some_and (q_ask q) (λ a, dec_leb a dec_zero)) (ValueError "ask must be positive");;
  raise_if (some_and (q_bid q) (λ b, some_and (q_ask q) (λ a, dec_ltb a b)))
           (ValueError "bid must not exceed ask");;
  for_each (λ _ ns, raise_if (some_and ns.2 (λ s, dec_ltb s dec_zero))
                             (ValueError (ns.1 +:+ " must not be negative")))
           tt [("bid_size", q_bid_size q); ("ask_size", q_ask_size q)];;
  raise_if (some_and (q_global_position q) (λ p, p <=? 0))
           (ValueError "quote global position must be positive").

Definition effective_bid_time (q : MarketQuote) : datetime := default (q_event_time q) (q_bid_time q).
Definition effective_ask_time (q : MarketQuote) : datetime := default (q_event_time q) (q_ask_time q).

Record MarketBar : Type := mkBar {
  b_instrument_id : InstrumentId;
  b_basis : PriceBasis;
  b_interval_start : datetime;
  b_interval_end : datetime;
  b_open : Decimal;
  b_high : Decimal;
  b_low : Decimal;
  b_close : Decimal;
  b_sample_count : Z;
  b_revision : Z;
  b_provenance : BarProvenance;
  b_source_listing_id : ProviderListingId;
  b_quality : DataQuality }.

Definition MarketBar_post_init (b : MarketBar) : res unit :=
  require_utc (b_interval_start b) "interval_start";;
  require_utc (b_interval_end b) "interval_end";;
  raise_if (dt_leb (b_interval_end b) (b_interval_start b))
           (ValueError "bar interval must be positive");;
  raise_if (b_sample_count b <=? 0) (ValueError "bar requires at least one sample");;
  raise_if (b_revision b <=? 0) (ValueError "bar revision must be positive");;
  raise_if (dec_ltb (b_high b) (dec_max (b_open b) (b_close b))
            || dec_ltb (dec_min (b_open b) (b_close b)) (b_low b))
           (ValueError "OHLC values are inconsistent");;
  raise_if (dec_ltb (b_high b) (b_low b)) (ValueError "low must not exceed high").

Definition MarketBar_new (b : MarketBar) : res MarketBar := MarketBar_post_init b;; Ok b.

Record DataGap : Type := mkGap {
  g_instrument_id : InstrumentId;
  g_interval_start : datetime;
  g_interval_end : datetime;
  g_reason : string;
  g_detected_at : datetime;
  g_repaired_at : option datetime }.

Definition DataGap_post_init (g : DataGap) : res unit :=
  require_utc (g_interval_start g) "interval_start";;
  require_utc (g_interval_end g) "interval_end";;
  require_utc (g_detected_at g) "detected_at";;
  require_utc_opt (g_repaired_at g) "repaired_at";;
  raise_if (dt_leb (g_interval_end g) (g_interval_start g))
           (ValueError "gap interval must be positive").

Definition DataGap_new (g : DataGap) : res DataGap := DataGap_post_init g;; Ok g.

(** ** domain/events.py *)

Record EventEnvelope : Type := mkEvent {
  ev_event_id : UUID;
  ev_stream_id : string;
  ev_stream_version : Z;
  ev_event_type : string;
  ev_schema_version : Z;
  ev_event_time : datetime;
  ev_received_time : datetime;
  ev_persisted_time : option datetime;
  ev_correlation_id : UUID;
  ev_causation_id : option UUID;
  ev_producer : string;
  ev_producer_version : string;
  ev_payload : list (string * json);
  ev_global_position : option Z;
  ev_raw_record_id : option Z }.

Definition EventEnvelope_post_init (e : EventEnvelope) : res unit :=
  require_utc (ev_event_time e) "event_time";;
  require_utc (ev_received_time e) "received_time";;
  require_utc_opt (ev_persisted_time e) "persisted_time";;
  raise_if (negb (nonempty (ev_stream_id e)) || (ev_stream_version e <=? 0))
           (ValueError "stream identity and positive version are required");;
  raise_if (negb (nonempty (ev_event_type e)) || (ev_schema_version e <=? 0))
           (ValueError "event type and positive schema version are required");;
  raise_if (negb (nonempty (ev_producer e)) || negb (nonempty (ev_producer_version e)))
           (ValueError "producer identity and version are required").

Definition EventEnvelope_new (e : EventEnvelope) : res EventEnvelope :=
  EventEnvelope_post_init e;; Ok e.

(** [EventEnvelope.create]; [fresh] and [fresh'] are the two [uuid4()] results. *)
Definition EventEnvelope_create (fresh fresh' : UUID) (stream_id : string) (stream_version : Z)
    (event_type : string) (event_time received_time : datetime)
    (producer producer_version : string) (payload : pyobj)
    (correlation_id causation_id : option UUID) (schema_version : Z) : res EventEnvelope :=
  serialised ← to_json_value payload;
  match serialised with
  | JObj kvs =>
      EventEnvelope_new
        (mkEvent fresh stream_id stream_version event_type schema_version event_time
           received_time None (default fresh' correlation_id) causation_id producer
           producer_version kvs None None)
  | _ => Raise (TypeError "event payload must serialise to an object")
  end.

(** ** domain/modes.py, domain/operations.py *)

Inductive BrokerEnvironment : Type := ENV_NONE | IG_DEMO | IG_LIVE | IBKR_PAPER | IBKR_LIVE.
#[export] Instance BrokerEnvironment_eq_dec : EqDecision BrokerEnvironment.
Proof. solve_decision. Defined.
Definition BrokerEnvironment_str (e : BrokerEnvironment) : string :=
  match e with
  | ENV_NONE => "NONE" | IG_DEMO => "IG_DEMO" | IG_LIVE => "IG_LIVE"
  | IBKR_PAPER => "IBKR_PAPER" | IBKR_LIVE => "IBKR_LIVE"
  end.

Inductive RunKind : Type := INGESTION | REPLAY | BACKFILL | EXPORT.
#[export] Instance RunKind_eq_dec : EqDecision RunKind.
Proof. solve_decision. Defined.

Inductive HealthStatus : Type :=
| HS_STARTING | HS_HEALTHY | HS_DEGRADED | HS_DISCONNECTED | HS_STOPPED.
#[export] Instance HealthStatus_eq_dec : EqDecision HealthStatus.
Proof. solve_decision. Defined.

Inductive RecoveryAction : Type := RA_NONE | RA_RESTART_ADAPTER | RA_RESTART_GATEWAY | RA_OPERATOR.

Record AdapterHealth : Type := mkHealth {
  h_adapter_name : string;
  h_environment : BrokerEnvironment;
  h_status : HealthStatus;
  h_observed_at : datetime;
  h_last_message_at : option datetime;
  h_detail : option string;
  h_reason_codes : list string;
  h_recovery_action : RecoveryAction;
  h_attributes : list (string * string) }.

(** [len(set(l)) != len(l)] *)
Definition has_duplicates {A} `{EqDecision A} (l : list A) : bool := negb (bool_decide (NoDup l)).

Definition AdapterHealth_post_init (h : AdapterHealth) : res unit :=
  require_utc (h_observed_at h) "observed_at";;
  require_utc_opt (h_last_message_at h) "last_message_at";;
  raise_if (has_duplicates (h_reason_codes h))
           (ValueError "adapter health reason codes must be unique");;
  raise_if (existsb (λ code, negb (nonempty code) || (80 <? len code)) (h_reason_codes h))
           (ValueError "adapter health reason codes must be bounded");;
  raise_if (existsb (λ kv : string * string,
              negb (nonempty kv.1) || (80 <? len kv.1) || negb (nonempty kv.2) || (200 <? len kv.2))
              (h_attributes h))
           (ValueError "adapter health attributes must be bounded");;
  raise_if (has_duplicates (h_attributes h).*1)
           (ValueError "adapter health attributes must have unique keys").

Definition AdapterHealth_new (h : AdapterHealth) : res AdapterHealth :=
  AdapterHealth_post_init h;; Ok h.

Record DataRun : Type := mkDataRun {
  dr_run_id : RunId;
  dr_kind : RunKind;
  dr_started_at : datetime;
  dr_finished_at : option datetime;
  dr_configuration_hash : string }.

Definition DataRun_post_init (r : DataRun) : res unit :=
  require_utc (dr_started_at r) "started_at";;
  require_utc_opt (dr_finished_at r) "finished_at".

(** ** domain/audit.py *)

Inductive RawPayloadRepresentation : Type :=
| LEGACY_UNCLASSIFIED | MERGED_STATE | CHANGED_FIELDS | FIXTURE.
Definition RawPayloadRepresentation_code (r : RawPayloadRepresentation) : Z :=
  match r with
  | LEGACY_UNCLASSIFIED => 0 | MERGED_STATE => 1 | CHANGED_FIELDS => 2 | FIXTURE => 3
  end.

(** ** Facts *)

Lemma has_duplicates_false {A} `{EqDecision A} (l : list A) : has_duplicates l = false ↔ NoDup l.
Proof.
  unfold has_duplicates. rewrite negb_false_iff. apply bool_decide_eq_true.
Qed.

Lemma PriceBasis_str_inj b b' : PriceBasis_str b = PriceBasis_str b' → b = b'.
Proof. by destruct b, b'. Qed.

Lemma event_valid e :
  is_utc (ev_event_time e) → is_utc (ev_received_time e) → ev_persisted_time e = None →
  nonempty (ev_stream_id e) = true → 0 < ev_stream_version e →
  nonempty (ev_event_type e) = true → 0 < ev_schema_version e →
  nonempty (ev_producer e) = true → nonempty (ev_producer_version e) = true →
  EventEnvelope_post_init e = Ok tt.
Proof.
  intros H1 H2 H3 H4 H5 H6 H7 H8 H9. unfold EventEnvelope_post_init.
  rewrite !require_utc_is_utc, H3, H4, H6, H8, H9 by done. cbn.
  replace (ev_stream_version e <=? 0) with false by lia.
  replace (ev_schema_version e <=? 0) with false by lia. done.
Qed.

(** The OHLC inequalities of a valid bar. *)
Definition ohlc_ok (b : MarketBar) : Prop :=
  dec_leb (b_low b) (b_open b) = true ∧ dec_leb (b_low b) (b_close b) = true ∧
  dec_leb (b_open b) (b_high b) = true ∧ dec_leb (b_close b) (b_high b) = true.

Lemma MarketBar_new_valid b :
  is_utc (b_interval_start b) → is_utc (b_interval_end b) →
  instant (b_interval_start b) < instant (b_interval_end b) →
  0 < b_sample_count b → 0 < b_revision b → ohlc_ok b →
  MarketBar_new b = Ok b.
Proof.
  intros Hs He Hi Hc Hr (Hlo & Hlc & Hoh & Hch). unfold MarketBar_new, MarketBar_post_init.
  rewrite !require_utc_is_utc by done. cbn.
  replace (dt_leb _ _) with false by (symmetry; apply Z.leb_gt; lia).
  replace (b_sample_count b <=? 0) with false by lia. replace (b_revision b <=? 0) with false by lia.
  rewrite !dec_ltb_leb.
  assert (dec_leb (dec_max (b_open b) (b_close b)) (b_high b) = true) as ->.
  { unfold dec_max. by destruct (dec_ltb _ _). }
  assert (dec_leb (b_low b) (dec_min (b_open b) (b_close b)) = true) as ->.
  { unfold dec_min. by destruct (dec_ltb _ _). }
  rewrite (dec_leb_trans (b_low b) (b_open b) (b_high b)) by done. done.
Qed.

(** ** Concrete values used by the instances of the properties *)

Definition sample_listing : ProviderListingId := mkListing "ig" "IG_DEMO" "CS.D.EURUSD".
Definition sample_quote (us : Z) (quality : DataQuality) : MarketQuote :=
  mkQuote "fx:eurusd" sample_listing (utc us) (utc us) (Some (dec_lit 11 (-1))) None None None
          None None quality None None.
