(* ===== verification/Storage.v ===== *)
(** The storage port, [src/qtrad/ports/storage.py], and the redaction of raw
    payloads done before anything is stored ([adapters/postgres/store.py]). *)

From S2P Require Import Prelude PySorted PyStr PyTime PyDecimal PyJson Domain.
From Stdlib Require Import Ascii.

(** A Python dict with string keys, in insertion order. *)
Definition dict : Type := list (string * json).
Definition dict_get (key : string) (d : dict) : option json :=
  snd <$> List.find (λ kv, String.eqb kv.1 key) d.
(** [d[key]] *)
Definition dict_item (key : string) (d : dict) : res json :=
  match dict_get key d with Some v => Ok v | None => Raise (KeyError key) end.
(** [d.get(key)] *)
Definition dict_opt (key : string) (d : dict) : json := default JNull (dict_get key d).

Record RawMessage : Type := mkRaw {
  rm_provider : string;
  rm_environment : string;
  rm_subscription : string;
  rm_deduplication_key : string;
  rm_received_time : datetime;
  rm_payload : dict;
  rm_payload_representation : RawPayloadRepresentation;
  rm_adapter_version : string;
  rm_capture_session_id : option string;
  rm_source_class : option string;
  rm_capture_source_id : option string;
  rm_universe_id : option string;
  rm_configuration_hash : option string;
  rm_connection_generation : option Z;
  rm_arrival_sequence : option Z }.

Record AppendResult : Type := mkAppendResult {
  ar_event : option EventEnvelope;
  ar_raw_record_id : option Z;
  ar_duplicate : bool }.

Record EventPage : Type := mkEventPage {
  ep_events : list EventEnvelope;
  ep_high_water_position : Z }.

(** [sorted(set(positions))] *)
Definition sorted_set (l : list Z) : list Z := py_sorted id (remove_dups l).

Definition EventPage_post_init (p : EventPage) : res unit :=
  raise_if (ep_high_water_position p <? 0)
           (ValueError "event high-water position cannot be negative");;
  positions ← for_each (λ positions event,
      match ev_global_position event, ev_persisted_time event with
      | Some position, Some _ =>
          raise_if (position <=? 0) (ValueError "event page positions must be positive");;
          Ok (positions ++ [position])
      | _, _ => Raise (ValueError "event pages require persisted events")
      end) [] (ep_events p);
  raise_if (negb (bool_decide (positions = sorted_set positions)))
           (ValueError "event page positions must be strictly increasing");;
  raise_if (match list.last positions with Some l => ep_high_water_position p <? l | None => false end)
           (ValueError "event page cannot exceed its high-water position").

Definition EventPage_new (p : EventPage) : res EventPage := EventPage_post_init p;; Ok p.

(** ** Redaction *)

Definition _SENSITIVE_KEY_FRAGMENTS : list string :=
  ["password"; "api_key"; "apikey"; "token"; "secret"; "cst"].

(** [fragment in text] *)
Fixpoint is_prefix (p l : list ascii) : bool :=
  match p, l with
  | [], _ => true
  | c :: p, d :: l => Ascii.eqb c d && is_prefix p l
  | _, [] => false
  end.
Fixpoint contains_chars (fragment l : list ascii) : bool :=
  is_prefix fragment l || match l with [] => false | _ :: l => contains_chars fragment l end.
Definition contains (fragment text : string) : bool := contains_chars (chars fragment) (chars text).

Definition sensitive_key (key : string) : bool :=
  let normalised := replace "-" "_" (lower key) in
  existsb (λ fragment, contains fragment normalised) _SENSITIVE_KEY_FRAGMENTS.

(** [_redact_mapping]: nested objects and objects directly inside a list. *)
Fixpoint redact_object (j : json) : json :=
  match j with
  | JObj kvs =>
      JObj (map (λ kv,
        if sensitive_key kv.1 then (kv.1, JStr "[REDACTED]")
        else (kv.1, match kv.2 with
                    | JObj _ => redact_object kv.2
                    | JList l =>
                        JList (map (λ child, match child with
                                             | JObj _ => redact_object child
                                             | _ => child
                                             end) l)
                    | item => item
                    end)) kvs)
  | _ => j
  end.

Definition _redact_mapping (value : dict) : dict :=
  match redact_object (JObj value) with JObj kvs => kvs | _ => [] end.

(** No sensitive key, at any depth, still carries its value. *)
Fixpoint redacted (j : json) : bool :=
  match j with
  | JObj kvs =>
      forallb (λ kv, (negb (sensitive_key kv.1)
                      || match kv.2 with JStr s => String.eqb s "[REDACTED]" | _ => false end)
                     && redacted kv.2) kvs
  | JList l => forallb redacted l
  | _ => true
  end.

Fixpoint no_list_in_list (j : json) : bool :=
  match j with
  | JObj kvs => forallb (λ kv, no_list_in_list kv.2) kvs
  | JList l => forallb (λ child, match child with JList _ => false | _ => true end
                                 && no_list_in_list child) l
  | _ => true
  end.

Lemma forallb_map {A B} (f : B → bool) (g : A → B) l : forallb f (map g l) = forallb (λ x, f (g x)) l.
Proof. induction l; cbn; congruence. Qed.

Lemma redact_object_spec j : no_list_in_list j = true →
  match j with
  | JList l => forallb (λ child, redacted (match child with JObj _ => redact_object child
                                           | _ => child end)) l = true
  | _ => redacted (redact_object j) = true
  end.
Proof.
  induction j as [|b|n|f|s|l IH|kvs IH] using json_rect_nested; intros Hn; try done.
  - cbn [no_list_in_list] in Hn. apply forallb_forall. intros child Hc. rewrite forallb_forall in Hn.
    specialize (Hn child Hc). rewrite list.Forall_forall in IH.
    specialize (IH child (proj2 (list_elem_of_In _ _) Hc)). bool_prop.
    destruct child; try done. by apply IH.
  - cbn [redact_object redacted no_list_in_list] in *. rewrite forallb_map.
    apply forallb_forall. intros [k v] Hin. rewrite forallb_forall in Hn. specialize (Hn _ Hin).
    rewrite list.Forall_forall in IH. specialize (IH _ (proj2 (list_elem_of_In _ _) Hin)). cbn [fst snd] in *.
    destruct (sensitive_key k) eqn:Ek; cbn [fst snd negb orb andb]; rewrite Ek; cbn [negb orb andb]; [done|].
    specialize (IH Hn). destruct v; try done. cbn [redacted]. by rewrite forallb_map.
Qed.

(** Redaction is complete for payloads that do not put a list directly inside a list: after it, no
    sensitive key at any depth still carries its value. *)
Theorem redact_complete payload :
  no_list_in_list (JObj payload) = true → redacted (JObj (_redact_mapping payload)) = true.
Proof. intros H. exact (redact_object_spec (JObj payload) H). Qed.

(** Redaction does not look inside a list that is itself an item of a list: a sensitive value
    there is stored as it came. *)
Theorem redact_misses_nested_lists key secret :
  sensitive_key key = true → secret ≠ "[REDACTED]" →
  let payload := [("rows", JList [JList [JObj [(key, JStr secret)]]])] in
  _redact_mapping payload = payload ∧ redacted (JObj payload) = false.
Proof.
  intros Hk Hs payload. split; [reflexivity|]. unfold payload.
  cbn [redacted forallb fst snd]. rewrite Hk. apply String.eqb_neq in Hs. rewrite Hs.
  cbn [negb orb andb]. by rewrite andb_false_r.
Qed.

Lemma redact_complete_witness :
  redacted (JObj (_redact_mapping
    [("api-key", JStr "k"); ("rows", JList [JObj [("password", JStr "p"); ("bid", JInt 1)]])])) = true.
Proof. apply redact_complete. reflexivity. Defined.

Lemma redact_misses_nested_lists_witness :
  redacted (JObj [("rows", JList [JList [JObj [("X-CST", JStr "abc")]]])]) = false.
Proof. refine (proj2 (redact_misses_nested_lists "X-CST" "abc" _ _)); [reflexivity|discriminate]. Defined.
