(* ===== verification/Gaps.v ===== *)
(** Gap detection: [src/qtrad/application/gaps.py].

    A detector keeps the last quote of each instrument; [observe] returns the
    new detector beside the result, since the quote is stored even when the
    construction of the gap raises. *)

From S2P Require Import Prelude PySorted PyStr PyTime PyDecimal Domain.

Record GapDetector : Type := mkDetector {
  gd_maximum_silence : timedelta;
  gd_last_quote : gmap string MarketQuote }.

Definition GapDetector_init (maximum_silence : timedelta) : res GapDetector :=
  raise_if (maximum_silence <=? 0) (ValueError "maximum silence must be positive");;
  Ok (mkDetector maximum_silence ∅).

Definition observe (self : GapDetector) (quote : MarketQuote) (detected_at : datetime)
    : GapDetector * res (option DataGap) :=
  let key := q_instrument_id quote in
  let previous := gd_last_quote self !! key in
  let self' := mkDetector (gd_maximum_silence self) (<[key := quote]> (gd_last_quote self)) in
  match previous with
  | None => (self', Ok None)
  | Some previous =>
      if negb (bool_decide (q_quality previous = HEALTHY))
         || negb (bool_decide (q_quality quote = HEALTHY))
         || dt_leb (q_event_time quote) (dt_add (q_event_time previous) (gd_maximum_silence self))
      then (self', Ok None)
      else (self', Some <$> DataGap_new
              (mkGap (q_instrument_id quote) (q_event_time previous) (q_event_time quote)
                 "NO_HEALTHY_QUOTE_DURING_EXPECTED_STREAM" detected_at None))
  end.

(** A stream of observations, each detected at the time given with it. *)
Fixpoint observe_all (self : GapDetector) (quotes : list (MarketQuote * datetime))
    : GapDetector * list (res (option DataGap)) :=
  match quotes with
  | [] => (self, [])
  | (q, t) :: quotes =>
      let '(self, r) := observe self q t in
      let '(self, rs) := observe_all self quotes in (self, r :: rs)
  end.

(** ** What the detector remembers *)

Definition last_of (instrument : InstrumentId) (seen : list MarketQuote) : option MarketQuote :=
  list.last (filter (λ q, q_instrument_id q = instrument) seen).

Definition remembers (self : GapDetector) (seen : list MarketQuote) : Prop :=
  ∀ i, gd_last_quote self !! i = last_of i seen.

Lemma last_of_snoc_same q seen : last_of (q_instrument_id q) (seen ++ [q]) = Some q.
Proof.
  unfold last_of. rewrite list.filter_app. cbn. rewrite decide_True by done. by rewrite list.last_snoc.
Qed.
Lemma last_of_snoc_other q i seen :
  q_instrument_id q ≠ i → last_of i (seen ++ [q]) = last_of i seen.
Proof.
  intros Hi. unfold last_of. rewrite list.filter_app. cbn. rewrite decide_False by done.
  by rewrite app_nil_r.
Qed.

Lemma observe_last self quote t :
  gd_last_quote (observe self quote t).1 = <[q_instrument_id quote := quote]> (gd_last_quote self).
Proof. unfold observe. by repeat case_match. Qed.

Lemma observe_silence self quote t :
  gd_maximum_silence (observe self quote t).1 = gd_maximum_silence self.
Proof. unfold observe. by repeat case_match. Qed.

Lemma observe_remembers self seen quote t :
  remembers self seen → remembers (observe self quote t).1 (seen ++ [quote]).
Proof.
  intros H i. rewrite observe_last. destruct (decide (q_instrument_id quote = i)) as [<-|Hi].
  - by rewrite lookup_insert_eq, last_of_snoc_same.
  - rewrite lookup_insert_ne by done. by rewrite last_of_snoc_other.
Qed.

Lemma observe_all_app self l q t :
  observe_all self (l ++ [(q, t)])
  = let '(s, rs) := observe_all self l in
    ((observe s q t).1, rs ++ [(observe s q t).2]).
Proof.
  revert self. induction l as [|[q' t'] l IH]; intros self; cbn.
  - by destruct (observe self q t).
  - destruct (observe self q' t') as [s1 r1]. rewrite IH.
    by destruct (observe_all s1 l) as [s2 rs].
Qed.

Lemma observe_all_state self l seen :
  remembers self seen →
  remembers (observe_all self l).1 (seen ++ l.*1) ∧
  gd_maximum_silence (observe_all self l).1 = gd_maximum_silence self.
Proof.
  intros H. induction l as [|[q t] l IH] using rev_ind; [by rewrite app_nil_r|].
  rewrite observe_all_app. destruct (observe_all self l) as [s rs] eqn:E. cbn in *.
  destruct IH as [IH1 IH2]. rewrite fmap_app, app_assoc. cbn. split.
  - by apply observe_remembers.
  - by rewrite observe_silence.
Qed.

Lemma last_of_elem i seen q : last_of i seen = Some q → q ∈ seen ∧ q_instrument_id q = i.
Proof.
  intros H%last_Some_elem_of. apply list_elem_of_filter in H. tauto.
Qed.

(** Event times of one instrument never run backwards along the list. *)
Definition times_ordered (seen : list MarketQuote) : Prop :=
  ∀ l1 q l2 q', seen = l1 ++ q :: l2 → q' ∈ l2 → q_instrument_id q' = q_instrument_id q →
    instant (q_event_time q) <= instant (q_event_time q').

Lemma last_of_latest i seen q q' :
  times_ordered seen → last_of i seen = Some q → q' ∈ seen → q_instrument_id q' = i →
  instant (q_event_time q') <= instant (q_event_time q).
Proof.
  intros Ht Hl Hin Hi. unfold last_of in Hl. apply last_Some in Hl as (pre & E).
  apply list_elem_of_split in Hin as (l1 & l2 & ->).
  rewrite list.filter_app, list.filter_cons_True in E by done.
  assert (q = q' ∨ q ∈ filter (λ q0, q_instrument_id q0 = i) l2) as [->|Hq]; [|lia|].
  { destruct (filter (λ q0, q_instrument_id q0 = i) l2) as [|x xs _] using rev_ind.
    - apply app_inj_tail in E as [_ ->]. by left.
    - rewrite app_comm_cons, app_assoc in E. apply app_inj_tail in E as [_ ->].
      right. set_solver. }
  apply list_elem_of_filter in Hq as [Hqi Hq2]. apply (Ht l1 q' l2 q); [done|done|congruence].
Qed.

(** ** Properties *)

(** The gap an observation must report after the quotes [seen]. *)
Definition expected_gap (silence : timedelta) (seen : list MarketQuote) (quote : MarketQuote)
    (detected_at : datetime) : option DataGap :=
  previous ← last_of (q_instrument_id quote) seen;
  if bool_decide (q_quality previous = HEALTHY) && bool_decide (q_quality quote = HEALTHY)
     && (instant (q_event_time previous) + silence <? instant (q_event_time quote))
  then Some (mkGap (q_instrument_id quote) (q_event_time previous) (q_event_time quote)
               "NO_HEALTHY_QUOTE_DURING_EXPECTED_STREAM" detected_at None)
  else None.

Lemma observe_expected self seen quote t :
  0 < gd_maximum_silence self → remembers self seen → is_utc t →
  Forall (λ q, is_utc (q_event_time q)) (quote :: seen) →
  (observe self quote t).2 = Ok (expected_gap (gd_maximum_silence self) seen quote t).
Proof.
  intros Hpos Hr Ht Hu. apply Forall_cons_1 in Hu as [Hq Hu]. unfold observe, expected_gap.
  rewrite Hr. destruct (last_of _ seen) as [p|] eqn:El; cbn; [|done].
  apply last_of_elem in El as [Hp _]. rewrite list.Forall_forall in Hu.
  assert (dt_leb (q_event_time quote) (dt_add (q_event_time p) (gd_maximum_silence self))
     = negb (instant (q_event_time p) + gd_maximum_silence self <? instant (q_event_time quote)))
    as E by (unfold dt_leb; rewrite instant_add; lia).
  rewrite E. destruct (bool_decide (q_quality p = _)), (bool_decide (q_quality quote = _));
    cbn; try done.
  destruct (Z.ltb_spec (instant (q_event_time p) + gd_maximum_silence self)
              (instant (q_event_time quote))); cbn; [|done].
  unfold DataGap_new, DataGap_post_init. cbn. rewrite !require_utc_is_utc by auto. cbn.
  unfold dt_leb. by replace (_ <=? _) with false by lia.
Qed.

(** Along any stream of quotes, the gap reported for a new quote is exactly the one the
    last earlier quote of the same instrument calls for: both healthy and further apart than the
    maximum silence; the detector never raises on UTC times. *)
Theorem gap_reports_exact silence self l quote t :
  GapDetector_init silence = Ok self → is_utc t →
  Forall (λ q, is_utc (q_event_time q)) (quote :: l.*1) →
  (observe (observe_all self l).1 quote t).2 = Ok (expected_gap silence l.*1 quote t).
Proof.
  intros Hi Ht Hu. unfold GapDetector_init in Hi. res_inv. apply Z.leb_gt in H.
  destruct (observe_all_state (mkDetector silence ∅) l []) as [Hr Hs].
  { intros i. cbn. by rewrite lookup_empty. }
  cbn in Hr, Hs. rewrite (observe_expected _ l.*1) by (rewrite ?Hs; done). by rewrite Hs.
Qed.

(** When event times of an instrument do not run backwards, a reported gap is sound: no
    earlier quote of that instrument lies after its start, its length exceeds the maximum silence,
    and it ends at the quote just observed. *)
Theorem gap_reports_sound silence self l quote t g :
  GapDetector_init silence = Ok self → times_ordered l.*1 →
  (observe (observe_all self l).1 quote t).2 = Ok (Some g) →
  g_instrument_id g = q_instrument_id quote ∧
  g_interval_end g = q_event_time quote ∧
  silence < dt_diff (g_interval_end g) (g_interval_start g) ∧
  ∀ q, q ∈ l.*1 → q_instrument_id q = q_instrument_id quote →
    instant (q_event_time q) <= instant (g_interval_start g).
Proof.
  intros Hi Hord Hg. unfold GapDetector_init in Hi. res_inv.
  destruct (observe_all_state (mkDetector silence ∅) l []) as [Hr Hs].
  { intros i. cbn. by rewrite lookup_empty. }
  cbn in Hr, Hs. unfold observe in Hg. rewrite Hr in Hg.
  destruct (last_of _ _) as [p|] eqn:El; [|by cbn in Hg].
  destruct (negb _ || negb _ || _) eqn:Ec; cbn [snd] in Hg; [done|].
  apply orb_false_iff in Ec as [_ Ec]. unfold dt_leb in Ec. rewrite instant_add, Hs in Ec.
  apply Z.leb_gt in Ec. unfold DataGap_new in Hg.
  destruct (DataGap_post_init _); cbn in Hg; [|done]. injection Hg as <-. cbn.
  split_and!; [done|done|unfold dt_diff; lia|].
  intros q Hq Hqi. by eapply last_of_latest.
Qed.

Lemma gap_reports_exact_witness :
  (observe (observe_all (mkDetector (minutes 2) ∅) [(sample_quote 0 HEALTHY, utc 0)]).1
     (sample_quote (minutes 3) HEALTHY) (utc (minutes 3))).2
  = Ok (expected_gap (minutes 2) [sample_quote 0 HEALTHY] (sample_quote (minutes 3) HEALTHY)
          (utc (minutes 3))).
Proof.
  apply (gap_reports_exact (minutes 2) (mkDetector (minutes 2) ∅) [(sample_quote 0 HEALTHY, utc 0)]);
    [reflexivity|reflexivity|repeat constructor].
Defined.

Definition sample_gap : DataGap :=
  mkGap "fx:eurusd" (utc 0) (utc (minutes 3)) "NO_HEALTHY_QUOTE_DURING_EXPECTED_STREAM"
        (utc (minutes 3)) None.

Lemma gap_reports_sound_witness :
  minutes 2 < dt_diff (g_interval_end sample_gap) (g_interval_start sample_gap).
Proof.
  refine (proj1 (proj2 (proj2 (gap_reports_sound (minutes 2) (mkDetector (minutes 2) ∅)
    [(sample_quote 0 HEALTHY, utc 0)] (sample_quote (minutes 3) HEALTHY) (utc (minutes 3))
    sample_gap _ _ _)))); [reflexivity| |reflexivity].
  intros l1 q l2 q' E Hq. exfalso. destruct l1 as [|? [|]]; try discriminate E.
  injection E as _ <-. by apply elem_of_nil in Hq.
Defined.
