(* ===== verification/Bars.v ===== *)
(** One-minute bars: [src/qtrad/application/bars.py].

    The builder owns its buckets, so it is passed as a value; [_build], [on_quote]
    and [advance] return the new builder with the bars they emit. *)

From S2P Require Import Prelude PySorted PyStr PyTime PyDecimal Domain.

Definition bkey : Type := InstrumentId * datetime.

Record Bucket : Type := mkBucket {
  bk_instrument_id : InstrumentId;
  bk_listing_id : ProviderListingId;
  bk_interval_start : datetime;
  bk_samples : gmap PriceBasis (list (datetime * Decimal));
  bk_revisions : gmap PriceBasis Z;
  bk_closed : bool }.

Record OneMinuteBarBuilder : Type := mkBuilder {
  bb_lateness : timedelta;
  bb_correction_retention : timedelta;
  bb_buckets : gmap bkey Bucket;
  bb_open_keys : gset bkey;
  bb_correction_cutoff : option datetime }.

(** Attribute assignments. *)
Definition set_samples (b : Bucket) v :=
  mkBucket (bk_instrument_id b) (bk_listing_id b) (bk_interval_start b) v (bk_revisions b) (bk_closed b).
Definition set_revisions (b : Bucket) v :=
  mkBucket (bk_instrument_id b) (bk_listing_id b) (bk_interval_start b) (bk_samples b) v (bk_closed b).
Definition set_closed (b : Bucket) v :=
  mkBucket (bk_instrument_id b) (bk_listing_id b) (bk_interval_start b) (bk_samples b) (bk_revisions b) v.
Definition put_bucket (s : OneMinuteBarBuilder) (key : bkey) (b : Bucket) :=
  mkBuilder (bb_lateness s) (bb_correction_retention s) (<[key := b]> (bb_buckets s))
            (bb_open_keys s) (bb_correction_cutoff s).
Definition set_open_keys (s : OneMinuteBarBuilder) v :=
  mkBuilder (bb_lateness s) (bb_correction_retention s) (bb_buckets s) v (bb_correction_cutoff s).

Definition interval : timedelta := minutes 1.

Definition OneMinuteBarBuilder_init (lateness correction_retention : timedelta)
    : res OneMinuteBarBuilder :=
  raise_if (lateness <? 0) (ValueError "lateness must not be negative");;
  raise_if (correction_retention <? 0) (ValueError "correction retention must not be negative");;
  Ok (mkBuilder lateness correction_retention ∅ ∅ None).

(** [sample in values]: tuples compare times by instant, prices by value. *)
Definition sample_eqb (a b : datetime * Decimal) : bool := dt_eqb a.1 b.1 && dec_eqb a.2 b.2.

Definition add_sample_to (values : list (datetime * Decimal)) (sample : datetime * Decimal) :=
  if existsb (sample_eqb sample) values then values
  else py_sorted (λ item, instant item.1) (values ++ [sample]).

Definition _add_sample (bucket : Bucket) (basis : PriceBasis) (sample_time : datetime)
    (price : Decimal) : Bucket :=
  let values := default [] (bk_samples bucket !! basis) in
  set_samples bucket (<[basis := add_sample_to values (sample_time, price)]> (bk_samples bucket)).

Definition _build (bucket : Bucket) (basis : PriceBasis) : res (Bucket * MarketBar) :=
  let interval_start := bk_interval_start bucket in
  match bk_samples bucket !! basis with
  | None => Raise (KeyError (PriceBasis_str basis))
  | Some samples =>
      let prices := samples.*2 in
      let revision := default 0 (bk_revisions bucket !! basis) + 1 in
      let bucket := set_revisions bucket (<[basis := revision]> (bk_revisions bucket)) in
      match prices with
      | [] => Raise (IndexError "list index out of range")
      | p :: ps =>
          bar ← MarketBar_new
            (mkBar (bk_instrument_id bucket) basis interval_start (dt_add interval_start interval)
               p (dec_max_list p ps) (dec_min_list p ps) (List.last prices p)
               (Z.of_nat (length prices)) revision QUOTE_DERIVED (bk_listing_id bucket) HEALTHY);
          Ok (bucket, bar)
      end
  end.

(** [self._build(bucket, basis) for basis in ...], in order. *)
Definition build_each (bucket : Bucket) (bases : list PriceBasis) : res (Bucket * list MarketBar) :=
  for_each (λ acc basis, r ← _build acc.1 basis; Ok (r.1, acc.2 ++ [r.2])) (bucket, []) bases.

Definition quote_key (quote : MarketQuote) : bkey :=
  (q_instrument_id quote, floor_minute (q_event_time quote)).

Definition correction_expired (self : OneMinuteBarBuilder) (quote : MarketQuote) : bool :=
  let interval_start := floor_minute (q_event_time quote) in
  let key : bkey := (q_instrument_id quote, interval_start) in
  bool_decide (bb_buckets self !! (key : bkey) = None)
  && some_and (bb_correction_cutoff self) (λ cutoff, dt_leb (dt_add interval_start interval) cutoff).

(** The samples a quote adds, by basis; [lateness] bounds the skew of a midpoint. *)
Definition add_quote (lateness : timedelta) (bucket : Bucket) (quote : MarketQuote)
    : res (Bucket * gset PriceBasis) :=
  let '(bucket, changed) :=
    match q_bid quote with
    | Some bid => (_add_sample bucket BID (effective_bid_time quote) bid, {[ BID ]} : gset PriceBasis)
    | None => (bucket, ∅)
    end in
  let '(bucket, changed) :=
    match q_ask quote with
    | Some ask => (_add_sample bucket ASK (effective_ask_time quote) ask, changed ∪ {[ ASK ]})
    | None => (bucket, changed)
    end in
  match q_bid quote, q_ask quote with
  | Some bid, Some ask =>
      if Z.abs (dt_diff (effective_bid_time quote) (effective_ask_time quote)) <=? lateness then
        midpoint ← dec_div (dec_add bid ask) (dec_of_Z 2);
        Ok (_add_sample bucket MID (q_event_time quote) midpoint, changed ∪ {[ MID ]})
      else Ok (bucket, changed)
  | _, _ => Ok (bucket, changed)
  end.

Definition on_quote (self : OneMinuteBarBuilder) (quote : MarketQuote)
    : res (OneMinuteBarBuilder * list MarketBar) :=
  let interval_start := floor_minute (q_event_time quote) in
  let key : bkey := (q_instrument_id quote, interval_start) in
  let continue self bucket :=
    bc ← add_quote (bb_lateness self) bucket quote;
    let '(bucket, changed) := bc in
    if negb (bk_closed bucket) then Ok (put_bucket self key bucket, [])
    else
      r ← build_each bucket (py_sorted PriceBasis_str (elements changed));
      Ok (put_bucket self key r.1, r.2) in
  match bb_buckets self !! key with
  | Some bucket => continue self bucket
  | None =>
      if correction_expired self quote then Ok (self, [])
      else
        let bucket := mkBucket (q_instrument_id quote) (q_listing_id quote) interval_start ∅ ∅ false in
        continue (set_open_keys (put_bucket self key bucket) (bb_open_keys self ∪ {[ key ]})) bucket
  end.

(** One round of the closing loop of [advance]. *)
Definition close_one (watermark : datetime) (acc : OneMinuteBarBuilder * list MarketBar) (key : bkey)
    : res (OneMinuteBarBuilder * list MarketBar) :=
  let '(self, bars) := acc in
  match bb_buckets self !! key with
  | None => Raise (KeyError "bucket")
  | Some bucket =>
      let interval_start := bk_interval_start bucket in
      if dt_ltb watermark (dt_add (dt_add interval_start interval) (bb_lateness self)) then Ok acc
      else
        let bucket := set_closed bucket true in
        let self := set_open_keys self (bb_open_keys self ∖ {[ key ]}) in
        r ← build_each bucket (py_sorted PriceBasis_str (map_to_list (bk_samples bucket)).*1);
        Ok (put_bucket self key r.1, bars ++ r.2)
  end.

(** The second half of [advance]: raise the cutoff, drop buckets past correction. *)
Definition expire (self : OneMinuteBarBuilder) (watermark : datetime) : OneMinuteBarBuilder :=
  let correction_cutoff := dt_sub watermark (bb_correction_retention self) in
  let cutoff :=
    match bb_correction_cutoff self with
    | None => Some correction_cutoff
    | Some old => if dt_ltb old correction_cutoff then Some correction_cutoff else Some old
    end in
  mkBuilder (bb_lateness self) (bb_correction_retention self)
    (filter (λ kb, bk_closed kb.2 && dt_leb (dt_add (bk_interval_start kb.2) interval) correction_cutoff
                   = false) (bb_buckets self))
    (bb_open_keys self) cutoff.

Definition sort_key (key : bkey) : string * Z := (key.1, instant key.2).

Definition advance (self : OneMinuteBarBuilder) (watermark : datetime)
    : res (OneMinuteBarBuilder * list MarketBar) :=
  require_utc watermark "watermark";;
  r ← for_each (close_one watermark) (self, [])
        (py_sorted sort_key (elements (bb_open_keys self)));
  Ok (expire r.1 watermark, r.2).

Definition buffered_interval_count (self : OneMinuteBarBuilder) : nat := size (bb_buckets self).

(** ** Building *)

Definition samples_of (b : Bucket) (basis : PriceBasis) : list (datetime * Decimal) :=
  default [] (bk_samples b !! basis).

(** The bar a list of samples stands for: first, extreme and last price. *)
Definition ref_bar (b : Bucket) (basis : PriceBasis) (revision : Z) : MarketBar :=
  let prices := (samples_of b basis).*2 in
  let p := hd dec_zero prices in
  mkBar (bk_instrument_id b) basis (bk_interval_start b) (dt_add (bk_interval_start b) interval)
    p (dec_max_list p (tl prices)) (dec_min_list p (tl prices)) (List.last prices p)
    (Z.of_nat (length prices)) revision QUOTE_DERIVED (bk_listing_id b) HEALTHY.

Definition next_revision (b : Bucket) (basis : PriceBasis) : Z :=
  default 0 (bk_revisions b !! basis) + 1.

Definition time_le := key_le (λ item : datetime * Decimal, instant item.1).

(** Samples of a basis: present, in time order. *)
Definition samples_ok (l : list (datetime * Decimal)) : Prop :=
  l ≠ [] ∧ StronglySorted time_le l.

Record bucket_core (key : bkey) (b : Bucket) : Prop := {
  bo_key : key = (bk_instrument_id b, bk_interval_start b);
  bo_utc : is_utc (bk_interval_start b);
  bo_samples : map_Forall (λ _ l, samples_ok l) (bk_samples b);
  bo_revisions : map_Forall (λ _ r, 0 < r) (bk_revisions b) }.

(** Between operations a closed bucket has published every basis it has samples of. *)
Definition bucket_ok (key : bkey) (b : Bucket) : Prop :=
  bucket_core key b ∧ dom (bk_revisions b) = if bk_closed b then dom (bk_samples b) else ∅.

Lemma last_cons_elem {A} (x : A) l d : List.last (x :: l) d ∈ x :: l.
Proof.
  revert x. induction l as [|y l IH]; intros x; [set_solver|].
  change (List.last (y :: l) d ∈ x :: y :: l). specialize (IH y). set_solver.
Qed.

Lemma ref_bar_ohlc b basis r :
  samples_of b basis ≠ [] → ohlc_ok (ref_bar b basis r).
Proof.
  intros Hne. unfold ohlc_ok, ref_bar. cbn. destruct (samples_of b basis) as [|[t p] l]; [done|].
  cbn. destruct (dec_max_list_spec p l.*2) as [_ Hmax]. destruct (dec_min_list_spec p l.*2) as [_ Hmin].
  pose proof (last_cons_elem p l.*2 p). split_and!; (apply Hmax || apply Hmin); set_solver.
Qed.

Lemma samples_of_ne key b basis :
  bucket_core key b → basis ∈ dom (bk_samples b) → samples_of b basis ≠ [].
Proof.
  intros Hok [l Hl]%elem_of_dom. unfold samples_of. rewrite Hl. by apply (bo_samples _ _ Hok) in Hl as [? _].
Qed.

Lemma next_revision_pos key b basis : bucket_core key b → 0 < next_revision b basis.
Proof.
  intros Hok. unfold next_revision. destruct (bk_revisions b !! basis) eqn:E; cbn; [|lia].
  apply (bo_revisions _ _ Hok) in E. lia.
Qed.

Lemma build_Ok b basis :
  is_utc (bk_interval_start b) → samples_of b basis ≠ [] → 0 < next_revision b basis →
  _build b basis = Ok (set_revisions b (<[basis := next_revision b basis]> (bk_revisions b)),
                       ref_bar b basis (next_revision b basis)).
Proof.
  intros Hu Hne Hr. pose proof (ref_bar_ohlc b basis (next_revision b basis) Hne) as Ho.
  unfold _build. revert Hne Ho. unfold samples_of, ref_bar. unfold samples_of.
  destruct (bk_samples b !! basis) as [[|[t p] l]|]; [done| |done]. cbn -[List.last dec_max_list].
  intros _ Ho. rewrite MarketBar_new_valid; [done|..|done]; cbn [b_interval_start b_interval_end
    b_sample_count b_revision]; [done|by apply is_utc_add| |lia|done].
  rewrite instant_add. unfold interval, minutes, seconds. lia.
Qed.

Definition bump (b : Bucket) (bases : list PriceBasis) : Bucket :=
  foldl (λ b basis, set_revisions b (<[basis := next_revision b basis]> (bk_revisions b))) b bases.

Lemma bump_fields b bases :
  bk_samples (bump b bases) = bk_samples b ∧ bk_interval_start (bump b bases) = bk_interval_start b ∧
  bk_instrument_id (bump b bases) = bk_instrument_id b ∧
  bk_listing_id (bump b bases) = bk_listing_id b ∧ bk_closed (bump b bases) = bk_closed b.
Proof.
  unfold bump. revert b. induction bases as [|x l IH]; intros b; cbn; [done|].
  destruct (IH (set_revisions b (<[x:=next_revision b x]> (bk_revisions b)))) as (->&->&->&->&->).
  done.
Qed.

Lemma bump_lookup_ne b bases basis :
  basis ∉ bases → bk_revisions (bump b bases) !! basis = bk_revisions b !! basis.
Proof.
  unfold bump. revert b. induction bases as [|x l IH]; intros b Hin; cbn; [done|].
  apply not_elem_of_cons in Hin as [Hne Hin]. rewrite IH by done. cbn. by rewrite lookup_insert_ne.
Qed.

Lemma bump_lookup b bases basis :
  NoDup bases → basis ∈ bases → bk_revisions (bump b bases) !! basis = Some (next_revision b basis).
Proof.
  revert b. induction bases as [|x l IH]; intros b Hnd Hin; [by apply elem_of_nil in Hin|].
  apply NoDup_cons in Hnd as [Hx Hnd]. change (bump b (x :: l)) with
    (bump (set_revisions b (<[x:=next_revision b x]> (bk_revisions b))) l).
  apply elem_of_cons in Hin as [->|Hin].
  - rewrite bump_lookup_ne by done. cbn. by rewrite lookup_insert_eq.
  - rewrite IH by done. unfold next_revision at 1. cbn.
    rewrite lookup_insert_ne by set_solver. done.
Qed.

Lemma bump_dom b bases :
  dom (bk_revisions (bump b bases)) = dom (bk_revisions b) ∪ list_to_set bases.
Proof.
  unfold bump. revert b. induction bases as [|x l IH]; intros b; cbn; [set_solver|].
  rewrite IH. cbn. rewrite dom_insert_L. set_solver.
Qed.

Lemma for_each_build acc bases :
  NoDup bases → is_utc (bk_interval_start acc.1) →
  (∀ basis, basis ∈ bases → samples_of acc.1 basis ≠ [] ∧ 0 < next_revision acc.1 basis) →
  for_each (λ acc basis, r ← _build acc.1 basis; Ok (r.1, acc.2 ++ [r.2])) acc bases
  = Ok (bump acc.1 bases, acc.2 ++ map (λ basis, ref_bar acc.1 basis (next_revision acc.1 basis)) bases).
Proof.
  revert acc. induction bases as [|x l IH]; intros [b bars] Hnd Hu Hok; cbn [for_each fst snd].
  - cbn. by rewrite app_nil_r.
  - apply NoDup_cons in Hnd as [Hx Hnd]. destruct (Hok x) as [Hne Hr]; [set_solver|]. cbn in *.
    rewrite (build_Ok b x) by done. cbn.
    assert (∀ basis, basis ∈ l → next_revision (set_revisions b (<[x:=next_revision b x]> (bk_revisions b)))
      basis = next_revision b basis) as Hnr.
    { intros y Hy. unfold next_revision. cbn. rewrite lookup_insert_ne by set_solver. done. }
    rewrite IH; cbn [fst snd]; [|done|done|].
    + f_equal. f_equal. rewrite <- app_assoc. f_equal. cbn. f_equal.
      apply map_ext_in. intros y Hy%list_elem_of_In. rewrite Hnr by done. done.
    + intros y Hy. rewrite Hnr by done. apply Hok. set_solver.
Qed.

Lemma build_each_Ok key b bases :
  bucket_core key b → NoDup bases → (∀ basis, basis ∈ bases → basis ∈ dom (bk_samples b)) →
  build_each b bases
  = Ok (bump b bases, map (λ basis, ref_bar b basis (next_revision b basis)) bases).
Proof.
  intros Hok Hnd Hin. unfold build_each. rewrite for_each_build; [done|done|apply Hok|].
  intros basis Hb. cbn. split; [by eapply samples_of_ne; eauto|by eapply next_revision_pos].
Qed.

(** ** Adding a quote *)

(** The samples a quote contributes to a basis. *)
Definition quote_samples (lateness : timedelta) (q : MarketQuote) (basis : PriceBasis)
    : list (datetime * Decimal) :=
  match basis, q_bid q, q_ask q with
  | BID, Some bid, _ => [(effective_bid_time q, bid)]
  | ASK, _, Some ask => [(effective_ask_time q, ask)]
  | MID, Some bid, Some ask =>
      if Z.abs (dt_diff (effective_bid_time q) (effective_ask_time q)) <=? lateness then
        match dec_div (dec_add bid ask) (dec_of_Z 2) with
        | Ok midpoint => [(q_event_time q, midpoint)]
        | Raise _ => []
        end
      else []
  | _, _, _ => []
  end.

Definition with_quote (lateness : timedelta) (b : Bucket) (q : MarketQuote) : Bucket :=
  let add b basis := foldl (λ b x, _add_sample b basis x.1 x.2) b (quote_samples lateness q basis) in
  add (add (add b BID) ASK) MID.

Definition quote_bases (lateness : timedelta) (q : MarketQuote) : gset PriceBasis :=
  let one basis := match quote_samples lateness q basis with [] => ∅ | _ => {[ basis ]} end in
  one BID ∪ one ASK ∪ one MID.

Lemma dec_div_two a : ∃ m, dec_div a (dec_of_Z 2) = Ok m.
Proof.
  unfold dec_div. change (dec_coeff (dec_of_Z 2)) with 2. cbn [Z.eqb].
  destruct (dec_coeff a =? 0); [eauto|]. cbv zeta. destruct (_ =? 0); [|eauto].
  destruct (strip_zeros _ _ _ _). eauto.
Qed.

Lemma add_quote_Ok lateness b q :
  add_quote lateness b q = Ok (with_quote lateness b q, quote_bases lateness q).
Proof.
  unfold add_quote, with_quote, quote_bases, quote_samples.
  destruct (q_bid q) as [bid|], (q_ask q) as [ask|]; cbn [foldl fst snd].
  - destruct (dec_div_two (dec_add bid ask)) as [m ->].
    destruct (_ <=? _); cbn; [done|]. by rewrite (right_id_L ∅ (∪)).
  - cbn. by rewrite !(right_id_L ∅ (∪)).
  - cbn. by rewrite (right_id_L ∅ (∪)).
  - cbn. by rewrite !(right_id_L ∅ (∪)).
Qed.

Lemma elem_of_quote_bases lateness q basis :
  basis ∈ quote_bases lateness q ↔ quote_samples lateness q basis ≠ [].
Proof.
  assert (∀ b' (l : list (datetime * Decimal)),
    basis ∈ (match l with [] => ∅ | _ => {[ b' ]} end : gset PriceBasis) ↔ l ≠ [] ∧ basis = b') as H
    by (intros b' [|x l]; set_solver).
  unfold quote_bases. rewrite !elem_of_union, !H. split.
  - intros [[[? ->]|[? ->]]|[? ->]]; done.
  - destruct basis; intros; auto.
Qed.

Lemma add_sample_to_ok values x : StronglySorted time_le values → samples_ok (add_sample_to values x).
Proof.
  intros Hs. unfold add_sample_to. destruct (existsb _ _) eqn:E.
  - split; [by intros ->|done].
  - split; [|apply py_sorted_sorted]. intros H%(f_equal length).
    rewrite length_py_sorted, length_app in H. cbn in H. lia.
Qed.

Definition same_bucket (b b' : Bucket) : Prop :=
  bk_instrument_id b' = bk_instrument_id b ∧ bk_listing_id b' = bk_listing_id b ∧
  bk_interval_start b' = bk_interval_start b ∧ bk_revisions b' = bk_revisions b ∧
  bk_closed b' = bk_closed b.

Lemma with_quote_same lateness b q : same_bucket b (with_quote lateness b q).
Proof.
  assert (∀ basis l b0, same_bucket b b0 →
    same_bucket b (foldl (λ b x, _add_sample b basis x.1 x.2) b0 l)) as H.
  { intros basis l. induction l as [|x l IH]; intros b0 H0; [done|]. by apply IH. }
  unfold with_quote. auto 6 using H. repeat apply H. by split_and!.
Qed.

Lemma foldl_add_sample basis l b basis' :
  bk_samples (foldl (λ b x, _add_sample b basis x.1 x.2) b l) !! basis'
  = if decide (basis = basis' ∧ l ≠ []) then Some (foldl add_sample_to (samples_of b basis) l)
    else bk_samples b !! basis'.
Proof.
  revert b. induction l as [|x l IH]; intros b; cbn [foldl].
  - rewrite decide_False by naive_solver. done.
  - rewrite IH. unfold samples_of at 1, _add_sample. cbn.
    rewrite lookup_insert_eq. cbn. rewrite <- surjective_pairing.
    destruct (decide (basis = basis')) as [<-|Hne].
    + destruct l; [rewrite decide_False, decide_True by naive_solver; by rewrite lookup_insert_eq|].
      by rewrite !decide_True by naive_solver.
    + rewrite !decide_False by naive_solver. by rewrite lookup_insert_ne.
Qed.

Lemma foldl_add_sample_ne basis l b basis' :
  basis ≠ basis' →
  bk_samples (foldl (λ b x, _add_sample b basis x.1 x.2) b l) !! basis' = bk_samples b !! basis'.
Proof. intros Hne. rewrite foldl_add_sample. rewrite decide_False; naive_solver. Qed.

Lemma with_quote_lookup lateness b q basis :
  bk_samples (with_quote lateness b q) !! basis
  = match quote_samples lateness q basis with
    | [] => bk_samples b !! basis
    | l => Some (foldl add_sample_to (samples_of b basis) l)
    end.
Proof.
  unfold with_quote. destruct basis.
  - rewrite !foldl_add_sample_ne by done. rewrite foldl_add_sample.
    destruct (quote_samples lateness q BID); by case_decide; naive_solver.
  - rewrite foldl_add_sample_ne by done. rewrite foldl_add_sample. unfold samples_of.
    rewrite foldl_add_sample_ne by done.
    destruct (quote_samples lateness q ASK); by case_decide; naive_solver.
  - rewrite foldl_add_sample. unfold samples_of. rewrite !foldl_add_sample_ne by done.
    destruct (quote_samples lateness q MID); by case_decide; naive_solver.
Qed.

Lemma foldl_samples_ok l values :
  StronglySorted time_le values → l ≠ [] → samples_ok (foldl add_sample_to values l).
Proof.
  intros Hs Hl. destruct l as [|x l _] using rev_ind; [done|]. rewrite foldl_snoc.
  apply add_sample_to_ok. clear Hl. induction l as [|y l IH] using rev_ind; [done|].
  rewrite foldl_snoc. by apply add_sample_to_ok.
Qed.

Lemma samples_of_sorted key b basis : bucket_core key b → StronglySorted time_le (samples_of b basis).
Proof.
  intros H. unfold samples_of. destruct (bk_samples b !! basis) eqn:E; [|constructor].
  by apply (bo_samples _ _ H) in E as [_ ?].
Qed.

Lemma with_quote_core lateness key b q : bucket_core key b → bucket_core key (with_quote lateness b q).
Proof.
  intros Hok. destruct (with_quote_same lateness b q) as (E1 & E2 & E3 & E4 & E5).
  split; rewrite ?E1, ?E3, ?E4; try apply Hok. intros basis l Hl.
  rewrite with_quote_lookup in Hl. destruct (quote_samples _ _ _) as [|x xs] eqn:E.
  - by apply (bo_samples _ _ Hok) in Hl.
  - injection Hl as <-. by apply (foldl_samples_ok (x :: xs)); [eapply samples_of_sorted|].
Qed.

Lemma with_quote_dom lateness b q :
  dom (bk_samples (with_quote lateness b q)) = dom (bk_samples b) ∪ quote_bases lateness q.
Proof.
  apply set_eq. intros basis. rewrite elem_of_union, !elem_of_dom, elem_of_quote_bases.
  rewrite with_quote_lookup. destruct (quote_samples _ _ _); [|naive_solver].
  split; [by left|by intros [|]].
Qed.

Arguments with_quote : simpl never.
Arguments quote_bases : simpl never.
Arguments bump : simpl never.
Arguments build_each : simpl never.

(** ** The builder's invariant *)

Record builder_ok (s : OneMinuteBarBuilder) : Prop := {
  bb_ok : map_Forall bucket_ok (bb_buckets s);
  bb_open : ∀ key, key ∈ bb_open_keys s ↔
              ∃ b, bb_buckets s !! key = Some b ∧ bk_closed b = false }.

(** What [on_quote] and [advance] compute on a well-formed builder. *)
Definition target (s : OneMinuteBarBuilder) (q : MarketQuote) : option Bucket :=
  match bb_buckets s !! quote_key q with
  | Some b => Some b
  | None =>
      if correction_expired s q then None
      else Some (mkBucket (q_instrument_id q) (q_listing_id q) (floor_minute (q_event_time q)) ∅ ∅ false)
  end.

Definition quoted (s : OneMinuteBarBuilder) (q : MarketQuote) (b : Bucket)
    : OneMinuteBarBuilder * list MarketBar :=
  let b' := with_quote (bb_lateness s) b q in
  let bases := py_sorted PriceBasis_str (elements (quote_bases (bb_lateness s) q)) in
  if bk_closed b
  then (put_bucket s (quote_key q) (bump b' bases),
        map (λ basis, ref_bar b' basis (next_revision b' basis)) bases)
  else (set_open_keys (put_bucket s (quote_key q) b') (bb_open_keys s ∪ {[ quote_key q ]}), []).

Lemma sorted_bases_NoDup (X : gset PriceBasis) : NoDup (py_sorted PriceBasis_str (elements X)).
Proof. apply py_sorted_NoDup, NoDup_elements. Qed.

Lemma set_open_keys_same s : set_open_keys s (bb_open_keys s) = s.
Proof. by destruct s. Qed.

Lemma target_core s q b :
  builder_ok s → is_utc (q_event_time q) → target s q = Some b → bucket_ok (quote_key q) b.
Proof.
  intros Hs Hu. unfold target. destruct (bb_buckets s !! quote_key q) as [b0|] eqn:E.
  - intros [= <-]. by apply (bb_ok s Hs) in E.
  - destruct (correction_expired s q); intros [= <-].
    split; [split; cbn; [done|done|apply map_Forall_empty..]|]. cbn. by rewrite dom_empty_L.
Qed.

Lemma on_quote_eq s q :
  builder_ok s → is_utc (q_event_time q) →
  on_quote s q = Ok (match target s q with None => (s, []) | Some b => quoted s q b end).
Proof.
  intros Hs Hu. pose proof (target_core s q) as Ht. unfold on_quote, target in *.
  cbv zeta. fold (quote_key q) in *. destruct (bb_buckets s !! quote_key q) as [b|] eqn:E.
  - specialize (Ht b Hs Hu eq_refl) as [Hc Hd]. rewrite add_quote_Ok. cbn.
    destruct (with_quote_same (bb_lateness s) b q) as (_ & _ & _ & _ & Ecl).
    unfold quoted. rewrite Ecl. destruct (bk_closed b) eqn:Eb; cbn.
    + rewrite (build_each_Ok (quote_key q)); cbn; [done|by apply with_quote_core| |].
      * apply sorted_bases_NoDup.
      * intros basis Hb. rewrite elem_of_py_sorted, elem_of_elements in Hb.
        rewrite with_quote_dom. set_solver.
    + assert (quote_key q ∈ bb_open_keys s) as Hin by (apply (bb_open s Hs); eauto).
      replace (bb_open_keys s ∪ {[quote_key q]}) with (bb_open_keys s) by set_solver. done.
  - destruct (correction_expired s q); [done|]. rewrite add_quote_Ok. cbn.
    destruct (with_quote_same (bb_lateness s) (mkBucket (q_instrument_id q) (q_listing_id q)
      (floor_minute (q_event_time q)) ∅ ∅ false) q) as (_ & _ & _ & _ & ->).
    cbn. unfold quoted, put_bucket, set_open_keys. cbn. by rewrite insert_insert_eq.
Qed.

Lemma bump_ok key b bases :
  bucket_core key b → NoDup bases → dom (bk_samples b) = dom (bk_revisions b) ∪ list_to_set bases →
  bk_closed b = true → bucket_ok key (bump b bases).
Proof.
  intros Hc Hnd Hdom Hcl. destruct (bump_fields b bases) as (E1 & E2 & E3 & E4 & E5).
  split; [split|].
  - rewrite E2, E3. apply Hc.
  - rewrite E2. apply Hc.
  - rewrite E1. apply Hc.
  - intros basis r Hr. destruct (decide (basis ∈ bases)).
    + rewrite bump_lookup in Hr by done. injection Hr as <-. by eapply next_revision_pos.
    + rewrite bump_lookup_ne in Hr by done. by apply (bo_revisions _ _ Hc) in Hr.
  - by rewrite E5, Hcl, E1, bump_dom.
Qed.

Lemma quoted_ok s q b :
  builder_ok s → is_utc (q_event_time q) → target s q = Some b → builder_ok (quoted s q b).1.
Proof.
  intros Hs Hu Hb. pose proof (target_core _ _ _ Hs Hu Hb) as [Hc Hd].
  destruct (with_quote_same (bb_lateness s) b q) as (_ & _ & _ & Er & Ecl).
  pose proof (with_quote_core (bb_lateness s) _ _ q Hc) as Hc'. unfold quoted.
  destruct (bk_closed b) eqn:E; split; cbn.
  - apply map_Forall_insert_2; [|apply Hs]. apply bump_ok; [done|apply sorted_bases_NoDup| |done].
    rewrite with_quote_dom, Er, Hd. f_equal. apply set_eq. intros basis.
    by rewrite elem_of_list_to_set, elem_of_py_sorted, elem_of_elements.
  - intros key. rewrite (bb_open s Hs). destruct (decide (key = quote_key q)) as [->|Hne].
    + rewrite lookup_insert_eq. unfold target in Hb.
      destruct (bb_buckets s !! quote_key q) as [b0|] eqn:E0.
      * injection Hb as ->. split; intros (? & [= <-] & Hf); [congruence|].
        destruct (bump_fields (with_quote (bb_lateness s) b q)
          (py_sorted PriceBasis_str (elements (quote_bases (bb_lateness s) q)))) as (_&_&_&_&E5).
        congruence.
      * destruct (correction_expired s q); [done|]. injection Hb as <-. done.
    + by rewrite lookup_insert_ne.
  - apply map_Forall_insert_2; [|apply Hs]. split; [done|]. by rewrite Er, Hd, Ecl.
  - intros key. rewrite elem_of_union, elem_of_singleton, (bb_open s Hs).
    destruct (decide (key = quote_key q)) as [->|Hne].
    + rewrite lookup_insert_eq. split; [intros _|by right]. eexists. split; [done|congruence].
    + rewrite lookup_insert_ne by done. split; [intros [?|]|]; [done|done|by left].
Qed.

(** ** Advancing the watermark *)

Definition all_bases (b : Bucket) : list PriceBasis :=
  py_sorted PriceBasis_str (map_to_list (bk_samples b)).*1.

Definition due (lateness : timedelta) (watermark : datetime) (b : Bucket) : bool :=
  instant (bk_interval_start b) + interval + lateness <=? instant watermark.

Definition closed_bucket (b : Bucket) : Bucket := bump (set_closed b true) (all_bases b).

(** The bars published when a bucket closes: one per basis, all first revisions. *)
Definition closing_bars (b : Bucket) : list MarketBar :=
  map (λ basis, ref_bar b basis 1) (all_bases b).

Definition close_pure (watermark : datetime) (acc : OneMinuteBarBuilder * list MarketBar) (key : bkey)
    : OneMinuteBarBuilder * list MarketBar :=
  match bb_buckets acc.1 !! key with
  | Some b =>
      if due (bb_lateness acc.1) watermark b
      then (set_open_keys (put_bucket acc.1 key (closed_bucket b)) (bb_open_keys acc.1 ∖ {[ key ]}),
            acc.2 ++ closing_bars b)
      else acc
  | None => acc
  end.

Lemma all_bases_NoDup b : NoDup (all_bases b).
Proof. apply py_sorted_NoDup. apply NoDup_fst_map_to_list. Qed.
Lemma elem_of_all_bases b basis : basis ∈ all_bases b ↔ basis ∈ dom (bk_samples b).
Proof.
  unfold all_bases. rewrite elem_of_py_sorted, elem_of_dom, list_elem_of_fmap. split.
  - intros ([x l] & -> & Hx%elem_of_map_to_list). eauto.
  - intros [l Hl]. exists (basis, l). by rewrite elem_of_map_to_list.
Qed.

Lemma due_spec lateness w b :
  dt_ltb w (dt_add (dt_add (bk_interval_start b) interval) lateness) = negb (due lateness w b).
Proof. unfold dt_ltb, due. rewrite !instant_add. lia. Qed.

Lemma open_next_revision key b basis :
  bucket_ok key b → bk_closed b = false → next_revision b basis = 1.
Proof.
  intros [_ Hd] Hcl. rewrite Hcl in Hd. apply dom_empty_iff_L in Hd. unfold next_revision. by rewrite Hd.
Qed.

Lemma close_one_eq w s bars key :
  builder_ok s → key ∈ bb_open_keys s →
  close_one w (s, bars) key = Ok (close_pure w (s, bars) key).
Proof.
  intros Hs Hk. apply (bb_open s Hs) in Hk as (b & Hb & Hcl).
  pose proof (bb_ok s Hs _ _ Hb) as Hok. unfold close_one, close_pure. cbn. rewrite Hb, due_spec.
  destruct (due _ _ _); cbn; [|done]. fold (all_bases b).
  rewrite (build_each_Ok key); cbn.
  - unfold closed_bucket, put_bucket, set_open_keys. cbn. f_equal. f_equal. f_equal.
    unfold closing_bars. apply map_ext. intros basis.
    change (next_revision (set_closed b true) basis) with (next_revision b basis).
    by rewrite (open_next_revision key).
  - destruct Hok as [Hc _]. split; apply Hc.
  - apply all_bases_NoDup.
  - intros basis. by rewrite elem_of_all_bases.
Qed.

Lemma closed_bucket_ok key b :
  bucket_ok key b → bk_closed b = false → bucket_ok key (closed_bucket b).
Proof.
  intros [Hc Hd] Hcl. unfold closed_bucket. apply bump_ok; cbn; [|apply all_bases_NoDup| |done].
  - split; apply Hc.
  - rewrite Hd, Hcl. apply set_eq. intros basis. rewrite elem_of_union, elem_of_list_to_set.
    rewrite elem_of_all_bases. set_solver.
Qed.

Lemma closed_bucket_closed b : bk_closed (closed_bucket b) = true.
Proof. unfold closed_bucket. by destruct (bump_fields (set_closed b true) (all_bases b)) as (_&_&_&_&->). Qed.

Lemma close_pure_ok w acc key :
  builder_ok acc.1 → key ∈ bb_open_keys acc.1 → builder_ok (close_pure w acc key).1.
Proof.
  destruct acc as [s bars]. cbn. intros Hs Hk. apply (bb_open s Hs) in Hk as (b & Hb & Hcl).
  unfold close_pure. cbn. rewrite Hb. destruct (due _ _ _); cbn; [|done]. split; cbn.
  - apply map_Forall_insert_2; [|apply Hs]. apply closed_bucket_ok; [|done]. by apply (bb_ok s Hs).
  - intros key'. rewrite elem_of_difference, elem_of_singleton, (bb_open s Hs).
    destruct (decide (key' = key)) as [->|Hne].
    + rewrite lookup_insert_eq. split; [by intros [_ []]|].
      intros (? & [= <-] & Hf). by rewrite closed_bucket_closed in Hf.
    + rewrite lookup_insert_ne by done. tauto.
Qed.

Lemma close_pure_other w acc key key' :
  key' ≠ key →
  bb_buckets (close_pure w acc key).1 !! key' = bb_buckets acc.1 !! key' ∧
  (key' ∈ bb_open_keys (close_pure w acc key).1 ↔ key' ∈ bb_open_keys acc.1).
Proof.
  intros Hne. unfold close_pure. destruct (bb_buckets acc.1 !! key) as [b|]; [|done].
  destruct (due _ _ _); cbn; [|done]. rewrite lookup_insert_ne by done. set_solver.
Qed.

Lemma close_pure_config w acc key :
  bb_lateness (close_pure w acc key).1 = bb_lateness acc.1 ∧
  bb_correction_retention (close_pure w acc key).1 = bb_correction_retention acc.1 ∧
  bb_correction_cutoff (close_pure w acc key).1 = bb_correction_cutoff acc.1.
Proof. unfold close_pure. destruct (_ !! _) as [b|]; [|done]. by destruct (due _ _ _). Qed.

Lemma close_loop_eq w keys acc :
  builder_ok acc.1 → NoDup keys → (∀ key, key ∈ keys → key ∈ bb_open_keys acc.1) →
  for_each (close_one w) acc keys = Ok (foldl (close_pure w) acc keys) ∧
  builder_ok (foldl (close_pure w) acc keys).1.
Proof.
  revert acc. induction keys as [|key keys IH]; intros [s bars] Hs Hnd Hin; [done|].
  apply NoDup_cons in Hnd as [Hk Hnd]. cbn [for_each foldl].
  rewrite close_one_eq by (cbn in *; try done; apply Hin; set_solver). cbn [mbind res_bind].
  apply IH; [apply close_pure_ok; [done|set_solver]|done|].
  intros key' Hk'. apply close_pure_other; [set_solver|]. set_solver.
Qed.

(** What the closing loop leaves behind, in terms of the builder it started from. *)
Definition closes (s : OneMinuteBarBuilder) (w : datetime) (key : bkey) : bool :=
  some_and (bb_buckets s !! key) (due (bb_lateness s) w).

Lemma close_loop_spec w keys acc :
  NoDup keys →
  let r := foldl (close_pure w) acc keys in
  (∀ key, bb_buckets r.1 !! key =
     if decide (key ∈ keys) then
       (λ b, if due (bb_lateness acc.1) w b then closed_bucket b else b) <$> (bb_buckets acc.1 !! key)
     else bb_buckets acc.1 !! key) ∧
  (∀ key, key ∈ bb_open_keys r.1 ↔
     key ∈ bb_open_keys acc.1 ∧ (key ∈ keys → closes acc.1 w key = false)) ∧
  r.2 = acc.2 ++ flat_map (λ key, match bb_buckets acc.1 !! key with
                                  | Some b => if due (bb_lateness acc.1) w b then closing_bars b else []
                                  | None => []
                                  end) keys ∧
  bb_lateness r.1 = bb_lateness acc.1 ∧
  bb_correction_retention r.1 = bb_correction_retention acc.1 ∧
  bb_correction_cutoff r.1 = bb_correction_cutoff acc.1.
Proof.
  revert acc. induction keys as [|key keys IH]; intros acc Hnd; cbn [foldl].
  - cbv zeta. split_and!; try done; [set_solver|by rewrite app_nil_r].
  - apply NoDup_cons in Hnd as [Hk Hnd]. destruct (IH (close_pure w acc key) Hnd) as (H1&H2&H3&H4&H5&H6).
    destruct (close_pure_config w acc key) as (C1&C2&C3). rewrite C1 in *.
    split_and!; [| | |congruence..].
    + intros key'. rewrite H1. destruct (decide (key' = key)) as [->|Hne].
      * rewrite decide_False, decide_True by set_solver. unfold close_pure.
        destruct (bb_buckets acc.1 !! key) as [b|] eqn:E; cbn; [|done].
        destruct (due _ _ _); cbn; [by rewrite lookup_insert_eq|done].
      * destruct (close_pure_other w acc key key' Hne) as [-> _].
        destruct (decide (key' ∈ keys)); [rewrite decide_True by set_solver|rewrite decide_False by set_solver]; done.
    + intros key'. rewrite H2. unfold closes. rewrite C1. destruct (decide (key' = key)) as [->|Hne].
      * unfold close_pure. destruct (bb_buckets acc.1 !! key) as [b|] eqn:E; cbn.
        -- destruct (due _ _ _) eqn:Ed; cbn; [|set_solver]. split; [set_solver|].
           intros [_ Hf]. discriminate Hf. set_solver.
        -- set_solver.
      * destruct (close_pure_other w acc key key' Hne) as [-> ->]. set_solver.
    + rewrite H3. cbn [flat_map]. rewrite app_assoc. f_equal.
      * unfold close_pure. destruct (bb_buckets acc.1 !! key) as [b|]; [|by rewrite app_nil_r].
        destruct (due _ _ _); cbn; [done|by rewrite app_nil_r].
      * rewrite !flat_map_concat_map. f_equal. apply map_ext_in. intros key' Hk'%list_elem_of_In.
        destruct (close_pure_other w acc key key') as [-> _]; [set_solver|done].
Qed.

Definition open_order (s : OneMinuteBarBuilder) : list bkey := py_sorted sort_key (elements (bb_open_keys s)).

Lemma open_order_spec s : NoDup (open_order s) ∧ ∀ key, key ∈ open_order s ↔ key ∈ bb_open_keys s.
Proof.
  split; [apply py_sorted_NoDup, NoDup_elements|]. intros key.
  unfold open_order. by rewrite elem_of_py_sorted, elem_of_elements.
Qed.

Lemma advance_eq s w :
  builder_ok s → is_utc w →
  let r := foldl (close_pure w) (s, []) (open_order s) in
  advance s w = Ok (expire r.1 w, r.2) ∧ builder_ok r.1.
Proof.
  intros Hs Hw. destruct (open_order_spec s) as [Hnd Hin].
  destruct (close_loop_eq w (open_order s) (s, [])) as [E Hok]; [done|done|intros key; apply Hin|].
  cbn zeta. split; [|done]. unfold advance. rewrite require_utc_is_utc by done. cbn.
  fold (open_order s). by rewrite E.
Qed.

Lemma expire_lookup s w key b :
  bb_buckets (expire s w) !! key = Some b ↔
  bb_buckets s !! key = Some b ∧
  ¬ (bk_closed b = true ∧
     instant (bk_interval_start b) + interval <= instant w - bb_correction_retention s).
Proof.
  unfold expire. cbn. rewrite map_lookup_filter_Some. cbn. unfold dt_leb.
  rewrite instant_sub, instant_add. rewrite andb_false_iff, Z.leb_gt.
  destruct (bk_closed b); [|naive_solver]. split; intros [? H]; (split; [done|]).
  - destruct H; [done|]. intros []. lia.
  - right. destruct (decide (instant w - bb_correction_retention s
      < instant (bk_interval_start b) + interval)); [done|]. exfalso. apply H. split; [done|lia].
Qed.

Lemma expire_ok s w : builder_ok s → builder_ok (expire s w).
Proof.
  intros Hs. split.
  - intros key b [Hb _]%expire_lookup. by apply (bb_ok s Hs).
  - intros key. change (bb_open_keys (expire s w)) with (bb_open_keys s). rewrite (bb_open s Hs).
    setoid_rewrite expire_lookup. split.
    + intros (b & Hb & Hcl). exists b. split; [|done]. split; [done|]. rewrite Hcl. by intros [].
    + intros (b & [Hb _] & Hcl). eauto.
Qed.

(** ** Histories *)

Definition bar_key (b : MarketBar) : bkey := (b_instrument_id b, b_interval_start b).

(** The revisions published for one bar identity, in order of publication. *)
Definition revs (key : bkey) (basis : PriceBasis) (bars : list MarketBar) : list Z :=
  b_revision <$> filter (λ b, bar_key b = key ∧ b_basis b = basis) bars.

Lemma revs_app key basis l1 l2 : revs key basis (l1 ++ l2) = revs key basis l1 ++ revs key basis l2.
Proof. unfold revs. by rewrite filter_app, fmap_app. Qed.

Lemma revs_map key b (f : PriceBasis → Z) bases key' basis' :
  bucket_core key b → NoDup bases →
  revs key' basis' (map (λ basis, ref_bar b basis (f basis)) bases)
  = if decide (key' = key ∧ basis' ∈ bases) then [f basis'] else [].
Proof.
  intros Hc Hnd. pose proof (bo_key _ _ Hc) as Hk. induction bases as [|x l IH]; [by rewrite decide_False by set_solver|].
  apply NoDup_cons in Hnd as [Hx Hnd]. cbn [map]. unfold revs in *. rewrite filter_cons.
  change (bar_key (ref_bar b x (f x))) with (bk_instrument_id b, bk_interval_start b). rewrite <- Hk.
  change (b_basis (ref_bar b x (f x))) with x.
  destruct (decide (key = key' ∧ x = basis')) as [[-> ->]|Hne].
  - rewrite fmap_cons, IH by done. rewrite decide_False by tauto. by rewrite decide_True by set_solver.
  - rewrite IH by done. destruct (decide (key' = key ∧ basis' ∈ l)).
    + rewrite decide_True by set_solver. done.
    + rewrite decide_False; [done|]. set_solver.
Qed.

Definition past_correction (s : OneMinuteBarBuilder) (key : bkey) : Prop :=
  ∃ cutoff, bb_correction_cutoff s = Some cutoff ∧ instant key.2 + interval <= instant cutoff.

Record history_ok (s : OneMinuteBarBuilder) (bars : list MarketBar) : Prop := {
  hist_ok : builder_ok s;
  hist_live : ∀ key b basis, bb_buckets s !! key = Some b →
    revs key basis bars = seqZ 1 (default 0 (bk_revisions b !! basis));
  hist_gone : ∀ key, bb_buckets s !! key = None →
    past_correction s key ∨ ∀ basis, revs key basis bars = [];
  hist_seq : ∀ key basis, ∃ n, revs key basis bars = seqZ 1 n }.

Lemma seqZ_one_snoc n : 0 <= n → seqZ 1 (n + 1) = seqZ 1 n ++ [n + 1].
Proof.
  intros. rewrite seqZ_app by lia. f_equal. rewrite seqZ_cons by lia. cbn. f_equal. lia.
Qed.

(** Publishing the next revisions of some bases of one bucket keeps the history. *)
Lemma history_publish key (b b' : Bucket) bases (s' : OneMinuteBarBuilder) bars buckets :
  bucket_core key b' → NoDup bases → bk_revisions b' = bk_revisions b →
  builder_ok s' → bb_buckets s' = <[key := bump b' bases]> buckets →
  (∀ basis, revs key basis bars = seqZ 1 (default 0 (bk_revisions b !! basis))) →
  (∀ key' b0 basis, key' ≠ key → buckets !! key' = Some b0 →
     revs key' basis bars = seqZ 1 (default 0 (bk_revisions b0 !! basis))) →
  (∀ key', key' ≠ key → buckets !! key' = None →
     past_correction s' key' ∨ ∀ basis, revs key' basis bars = []) →
  (∀ key' basis, ∃ n, revs key' basis bars = seqZ 1 n) →
  history_ok s' (bars ++ map (λ basis, ref_bar b' basis (next_revision b' basis)) bases).
Proof.
  intros Hc Hnd Hr Hs' Hb Hk Hlive Hgone Hseq.
  assert (∀ basis, revs key basis (bars ++ map (λ basis, ref_bar b' basis (next_revision b' basis)) bases)
     = seqZ 1 (default 0 (bk_revisions (bump b' bases) !! basis))) as Hkey.
  { intros basis. rewrite revs_app, (revs_map key), Hk by done. case_decide as Hin.
    - rewrite bump_lookup by tauto. unfold next_revision. rewrite Hr. cbn. rewrite seqZ_one_snoc; [done|].
      destruct (bk_revisions b !! basis) as [r|] eqn:E; cbn; [|lia].
      rewrite <- Hr in E. apply (bo_revisions _ _ Hc) in E. lia.
    - rewrite bump_lookup_ne by tauto. by rewrite Hr, app_nil_r. }
  assert (∀ key' basis, key' ≠ key →
    revs key' basis (bars ++ map (λ basis, ref_bar b' basis (next_revision b' basis)) bases)
    = revs key' basis bars) as Hother.
  { intros key' basis Hne. rewrite revs_app, (revs_map key) by done.
    rewrite decide_False by tauto. by rewrite app_nil_r. }
  split; [done|..].
  - intros key' b0 basis. rewrite Hb. destruct (decide (key' = key)) as [->|Hne].
    + rewrite lookup_insert_eq. by intros [= <-].
    + rewrite lookup_insert_ne by done. rewrite Hother by done. by apply Hlive.
  - intros key'. rewrite Hb. destruct (decide (key' = key)) as [->|Hne]; [by rewrite lookup_insert_eq|].
    rewrite lookup_insert_ne by done. setoid_rewrite Hother; [|done]. by apply Hgone.
  - intros key' basis. destruct (decide (key' = key)) as [->|Hne]; [by eexists|].
    rewrite Hother by done. apply Hseq.
Qed.

Lemma not_expired s q :
  bb_buckets s !! quote_key q = None → correction_expired s q = false → ¬ past_correction s (quote_key q).
Proof.
  unfold correction_expired. fold (quote_key q). intros -> H (c & Hc & Hle).
  rewrite bool_decide_true, Hc in H by done. cbn in H. unfold dt_leb in H.
  rewrite instant_add in H. apply Z.leb_gt in H. cbn in Hle. lia.
Qed.

Lemma history_quote s q b bars :
  history_ok s bars → is_utc (q_event_time q) → target s q = Some b →
  history_ok (quoted s q b).1 (bars ++ (quoted s q b).2).
Proof.
  intros H Hu Hb. pose proof (target_core s q b (hist_ok _ _ H) Hu Hb) as [Hc Hd].
  pose proof (quoted_ok s q b (hist_ok _ _ H) Hu Hb) as Hok.
  destruct (with_quote_same (bb_lateness s) b q) as (_ & _ & _ & Er & Ecl).
  assert (∀ basis, revs (quote_key q) basis bars = seqZ 1 (default 0 (bk_revisions b !! basis))) as Hrev.
  { intros basis. unfold target in Hb. destruct (bb_buckets s !! quote_key q) as [b0|] eqn:E.
    - injection Hb as ->. by apply (hist_live _ _ H).
    - destruct (correction_expired s q) eqn:Ex; [done|]. injection Hb as <-. cbn.
      destruct (hist_gone _ _ H _ E) as [Hp|Hn]; [by apply not_expired in Ex|].
      by rewrite Hn. }
  unfold quoted in *. destruct (bk_closed b) eqn:E.
  - apply (history_publish (quote_key q) b (with_quote (bb_lateness s) b q) _ _ bars (bb_buckets s)); try done.
    + by apply with_quote_core.
    + apply sorted_bases_NoDup.
    + intros key' b0 basis _. apply (hist_live _ _ H).
    + intros key' _. apply (hist_gone _ _ H).
    + apply (hist_seq _ _ H).
  - rewrite app_nil_r. split; [done|..]; cbn.
    + intros key b0 basis. destruct (decide (key = quote_key q)) as [->|Hne].
      * rewrite lookup_insert_eq. intros [= <-]. by rewrite Er.
      * rewrite lookup_insert_ne by done. apply (hist_live _ _ H).
    + intros key. destruct (decide (key = quote_key q)) as [->|Hne]; [by rewrite lookup_insert_eq|].
      rewrite lookup_insert_ne by done. apply (hist_gone _ _ H).
    + apply (hist_seq _ _ H).
Qed.

Lemma history_close w old acc key :
  history_ok acc.1 (old ++ acc.2) → key ∈ bb_open_keys acc.1 →
  history_ok (close_pure w acc key).1 (old ++ (close_pure w acc key).2).
Proof.
  intros H Hk. pose proof (close_pure_ok w acc key (hist_ok _ _ H) Hk) as Hok.
  apply (bb_open _ (hist_ok _ _ H)) in Hk as (b & Hb & Hcl).
  pose proof (bb_ok _ (hist_ok _ _ H) _ _ Hb) as Hbok. unfold close_pure in *. rewrite Hb in *.
  destruct (due _ _ _); cbn in *; [|done]. rewrite app_assoc.
  replace (closing_bars b) with (map (λ basis, ref_bar (set_closed b true) basis
    (next_revision (set_closed b true) basis)) (all_bases b)).
  2:{ unfold closing_bars. apply map_ext. intros basis.
      change (next_revision (set_closed b true) basis) with (next_revision b basis).
      by rewrite (open_next_revision key). }
  apply (history_publish key b (set_closed b true) _ _ _ (bb_buckets acc.1)); try done.
  - destruct Hbok as [Hc _]. split; apply Hc.
  - apply all_bases_NoDup.
  - intros basis. by apply (hist_live _ _ H).
  - intros key' b0 basis _. apply (hist_live _ _ H).
  - intros key' _. apply (hist_gone _ _ H).
  - apply (hist_seq _ _ H).
Qed.

Lemma history_close_loop w old keys acc :
  NoDup keys → (∀ key, key ∈ keys → key ∈ bb_open_keys acc.1) →
  history_ok acc.1 (old ++ acc.2) →
  history_ok (foldl (close_pure w) acc keys).1 (old ++ (foldl (close_pure w) acc keys).2).
Proof.
  revert acc. induction keys as [|key keys IH]; intros acc Hnd Hin H; cbn [foldl]; [done|].
  apply NoDup_cons in Hnd as [Hk Hnd]. apply IH; [done| |apply history_close; [done|set_solver]].
  intros key' Hk'. apply close_pure_other; set_solver.
Qed.

Lemma expire_cutoff s w :
  ∃ c, bb_correction_cutoff (expire s w) = Some c ∧
    instant w - bb_correction_retention s <= instant c ∧
    ∀ c0, bb_correction_cutoff s = Some c0 → instant c0 <= instant c.
Proof.
  unfold expire. cbn. destruct (bb_correction_cutoff s) as [old|].
  - unfold dt_ltb. rewrite instant_sub. destruct (Z.ltb_spec (instant old)
      (instant w - bb_correction_retention s)); eexists; (split; [done|]).
    + rewrite instant_sub. split; [lia|]. intros ? [= <-]. lia.
    + split; [lia|]. intros ? [= <-]. lia.
  - eexists. split; [done|]. rewrite instant_sub. split; [lia|done].
Qed.

Lemma history_expire w s bars : history_ok s bars → history_ok (expire s w) bars.
Proof.
  intros H. destruct (expire_cutoff s w) as (c & Hc & Hw & Hmono). split.
  - apply expire_ok, H.
  - intros key b basis [Hb _]%expire_lookup. by apply (hist_live _ _ H).
  - intros key Hnone. destruct (bb_buckets s !! key) as [b|] eqn:E.
    + left. exists c. split; [done|]. pose proof (bo_key _ _ (proj1 (bb_ok _ (hist_ok _ _ H) _ _ E))) as Hkey. rewrite Hkey. cbn.
      destruct (decide (instant (bk_interval_start b) + interval <= instant w - bb_correction_retention s));
        [lia|]. exfalso.
      assert (bb_buckets (expire s w) !! key = Some b) as E'
        by (apply expire_lookup; split; [done|by intros []]). congruence.
    + destruct (hist_gone _ _ H key E) as [(c0 & Hc0 & Hle)|]; [left|by right].
      exists c. split; [done|]. apply Hmono in Hc0. lia.
  - apply (hist_seq _ _ H).
Qed.

(** ** Runs of the builder *)

Inductive bar_op : Type := OpQuote (q : MarketQuote) | OpAdvance (watermark : datetime).

Definition op_utc (o : bar_op) : Prop :=
  match o with OpQuote q => is_utc (q_event_time q) | OpAdvance w => is_utc w end.

Definition bar_step (acc : OneMinuteBarBuilder * list MarketBar) (o : bar_op)
    : res (OneMinuteBarBuilder * list MarketBar) :=
  r ← match o with OpQuote q => on_quote acc.1 q | OpAdvance w => advance acc.1 w end;
  Ok (r.1, acc.2 ++ r.2).

Definition bar_run (s : OneMinuteBarBuilder) (ops : list bar_op) := for_each bar_step (s, []) ops.

Lemma history_step acc o :
  history_ok acc.1 acc.2 → op_utc o →
  ∃ acc', bar_step acc o = Ok acc' ∧ history_ok acc'.1 acc'.2.
Proof.
  intros H Ho. unfold bar_step. destruct o as [q|w]; cbn in Ho.
  - rewrite on_quote_eq by (try apply H; done). cbn. eexists. split; [done|].
    destruct (target acc.1 q) as [b|] eqn:E; cbn; [by apply history_quote|by rewrite app_nil_r].
  - destruct (advance_eq acc.1 w (hist_ok _ _ H) Ho) as [-> _]. cbn. eexists. split; [done|]. cbn.
    apply history_expire. destruct (open_order_spec acc.1) as [Hnd Hin].
    apply (history_close_loop w acc.2 (open_order acc.1) (acc.1, [])); [done|intros ? ?; by apply Hin|].
    cbn. by rewrite app_nil_r.
Qed.

Lemma history_run ops acc :
  history_ok acc.1 acc.2 → Forall op_utc ops →
  ∃ acc', for_each bar_step acc ops = Ok acc' ∧ history_ok acc'.1 acc'.2.
Proof.
  revert acc. induction ops as [|o ops IH]; intros acc H Ho; [by eexists|].
  apply Forall_cons in Ho as [Ho Hos]. destruct (history_step acc o H Ho) as (acc1 & E & H1).
  cbn. rewrite E. cbn. by apply IH.
Qed.

Lemma init_history lateness retention s :
  OneMinuteBarBuilder_init lateness retention = Ok s → history_ok s [].
Proof.
  intros Hi. unfold OneMinuteBarBuilder_init in Hi. res_inv. split; cbn.
  - split; cbn; [apply map_Forall_empty|]. intros key. split; [by intros ?%elem_of_empty|].
    intros (b & Hb & _). by rewrite lookup_empty in Hb.
  - done.
  - intros key _. by right.
  - intros. by exists 0.
Qed.

(** ** Order independence of a feed *)

(** Two quotes of the same interval that give a basis samples of the same time
    give it the same sample, and a feed has one listing per instrument. *)
Definition consistent (lateness : timedelta) (qs : list MarketQuote) : Prop :=
  ∀ q q', q ∈ qs → q' ∈ qs → quote_key q = quote_key q' →
    q_listing_id q = q_listing_id q' ∧
    ∀ basis x x', x ∈ quote_samples lateness q basis → x' ∈ quote_samples lateness q' basis →
      instant x.1 = instant x'.1 → x = x'.

Definition in_feed (lateness : timedelta) (qs : list MarketQuote) (key : bkey) (basis : PriceBasis)
    (x : datetime * Decimal) : Prop :=
  ∃ q, q ∈ qs ∧ quote_key q = key ∧ x ∈ quote_samples lateness q basis.

(** The builder after the quotes [qs] and no watermark. *)
Record fed (s0 : OneMinuteBarBuilder) (qs : list MarketQuote) (s : OneMinuteBarBuilder) : Prop := {
  fed_ok : builder_ok s;
  fed_conf : s = mkBuilder (bb_lateness s0) (bb_correction_retention s0) (bb_buckets s)
                   (dom (bb_buckets s)) None;
  fed_none : ∀ key, bb_buckets s !! key = None ↔ ∀ q, q ∈ qs → quote_key q ≠ key;
  fed_bucket : ∀ key b, bb_buckets s !! key = Some b →
    bk_closed b = false ∧
    (∀ q, q ∈ qs → quote_key q = key → bk_listing_id b = q_listing_id q) ∧
    ∀ basis, NoDup (samples_of b basis) ∧
      ∀ x, x ∈ samples_of b basis ↔ in_feed (bb_lateness s0) qs key basis x }.

Lemma sample_eqb_refl x : sample_eqb x x = true.
Proof. unfold sample_eqb, dt_eqb. by rewrite Z.eqb_refl, dec_eqb_refl. Qed.

Lemma add_sample_to_elem values x :
  NoDup values → (∀ y, y ∈ values → instant y.1 = instant x.1 → y = x) →
  NoDup (add_sample_to values x) ∧ ∀ y, y ∈ add_sample_to values x ↔ y ∈ values ∨ y = x.
Proof.
  intros Hnd Hc. unfold add_sample_to. destruct (existsb _ _) eqn:E.
  - apply existsb_exists in E as (y & Hy%list_elem_of_In & Heq). split; [done|].
    unfold sample_eqb, dt_eqb in Heq. bool_prop.
    assert (y = x) as -> by (apply Hc; [done|lia]). intros z. split; [by left|].
    intros [?| ->]; done.
  - assert (x ∉ values) as Hx.
    { intros Hin%list_elem_of_In. assert (existsb (sample_eqb x) values = true) as E'.
      { apply existsb_exists. exists x. split; [done|apply sample_eqb_refl]. }
      congruence. }
    split.
    + apply py_sorted_NoDup. rewrite Permutation_app_comm. by constructor.
    + intros y. rewrite elem_of_py_sorted, elem_of_app, list_elem_of_singleton. done.
Qed.

Lemma quote_samples_cases lateness q basis :
  quote_samples lateness q basis = [] ∨ ∃ x, quote_samples lateness q basis = [x].
Proof. unfold quote_samples. repeat case_match; eauto. Qed.

Lemma samples_of_with_quote lateness b q basis :
  samples_of (with_quote lateness b q) basis
  = foldl add_sample_to (samples_of b basis) (quote_samples lateness q basis).
Proof.
  unfold samples_of at 1. rewrite with_quote_lookup.
  destruct (quote_samples lateness q basis) eqn:E; [done|]. done.
Qed.

Lemma in_feed_snoc lateness qs q key basis x :
  in_feed lateness (qs ++ [q]) key basis x ↔
  in_feed lateness qs key basis x ∨ (quote_key q = key ∧ x ∈ quote_samples lateness q basis).
Proof. unfold in_feed. setoid_rewrite elem_of_app. setoid_rewrite list_elem_of_singleton. naive_solver. Qed.

Lemma samples_with_quote lateness qs q b basis :
  consistent lateness (qs ++ [q]) →
  NoDup (samples_of b basis) →
  (∀ x, x ∈ samples_of b basis ↔ in_feed lateness qs (quote_key q) basis x) →
  NoDup (samples_of (with_quote lateness b q) basis) ∧
  ∀ x, x ∈ samples_of (with_quote lateness b q) basis ↔
       in_feed lateness (qs ++ [q]) (quote_key q) basis x.
Proof.
  intros Hc Hnd Hin. rewrite samples_of_with_quote. setoid_rewrite in_feed_snoc.
  destruct (quote_samples_cases lateness q basis) as [E|[x E]]; rewrite E; cbn [foldl].
  - split; [done|]. intros y. rewrite Hin. split; [by left|]. by intros [?|[_ ?%elem_of_nil]].
  - destruct (add_sample_to_elem (samples_of b basis) x Hnd) as [H1 H2].
    + intros y (q' & Hq' & Hk & Hy)%Hin Heq.
      destruct (Hc q' q) as [_ Hs]; [set_solver|set_solver|done|].
      apply (Hs basis); [done|rewrite E; set_solver|done].
    + split; [done|]. intros y. rewrite H2, Hin, list_elem_of_singleton. naive_solver.
Qed.

Lemma fed_step s0 qs q s :
  fed s0 qs s → consistent (bb_lateness s0) (qs ++ [q]) → is_utc (q_event_time q) →
  ∃ s', on_quote s q = Ok (s', []) ∧ fed s0 (qs ++ [q]) s'.
Proof.
  intros H Hc Hu. pose proof (fed_ok _ _ _ H) as Hok. pose proof (fed_conf _ _ _ H) as Hconf.
  rewrite on_quote_eq by done.
  assert (∃ b, target s q = Some b ∧ bk_closed b = false ∧
    (∀ q', q' ∈ qs ++ [q] → quote_key q' = quote_key q → bk_listing_id b = q_listing_id q') ∧
    ∀ basis, NoDup (samples_of b basis) ∧
      ∀ x, x ∈ samples_of b basis ↔ in_feed (bb_lateness s0) qs (quote_key q) basis x)
    as (b & Hb & Hcl & Hlist & Hsam).
  { unfold target. destruct (bb_buckets s !! quote_key q) as [b|] eqn:E.
    - exists b. destruct (fed_bucket _ _ _ H _ _ E) as (H1 & H2 & H3). split_and!; try done.
      intros q' [Hq'|Hq']%elem_of_app Hk; [by apply H2|]. apply list_elem_of_singleton in Hq' as ->.
      destruct (decide (Exists (λ q0, quote_key q0 = quote_key q) qs)) as [He|Hno].
      + apply Exists_exists in He as (q0 & Hq0 & Hk0). rewrite (H2 q0) by done. apply (Hc q0 q); [set_solver|set_solver|done].
      + exfalso. assert (bb_buckets s !! quote_key q = None); [|congruence].
        apply (fed_none _ _ _ H). intros q0 Hq0 Hk0. apply Hno, Exists_exists. eauto.
    - unfold correction_expired. rewrite Hconf. cbn [bb_correction_cutoff some_and]. rewrite andb_false_r.
      eexists. split_and!; [done|done|..]; cbn.
      + intros q' Hq' Hk. apply (Hc q q'); [set_solver|done|done].
      + intros basis. split; [constructor|]. intros x. split; [by intros ?%elem_of_nil|].
        intros (q' & Hq' & Hk & _). by apply (fed_none _ _ _ H _) with (q := q') in E. }
  rewrite Hb. pose proof (quoted_ok s q b Hok Hu Hb) as Hok'. unfold quoted in *. rewrite Hcl in *.
  eexists. split; [done|]. rewrite Hconf in Hok' |- *. cbn in Hok' |- *.
  destruct (with_quote_same (bb_lateness s0) b q) as (_ & El & _ & _ & Ecl).
  split; [done| | |].
  - cbn. unfold set_open_keys, put_bucket. cbn. f_equal. rewrite dom_insert_L. set_solver.
  - intros key. cbn. destruct (decide (key = quote_key q)) as [->|Hne].
    + rewrite lookup_insert_eq. split; [done|]. intros Hq. exfalso. apply (Hq q); [set_solver|done].
    + rewrite lookup_insert_ne by done. rewrite (fed_none _ _ _ H). set_solver.
  - intros key b'. cbn. destruct (decide (key = quote_key q)) as [->|Hne].
    + rewrite lookup_insert_eq. intros [= <-]. split_and!; [congruence| |].
      * intros q' Hq' Hk. rewrite El. by apply Hlist.
      * intros basis. destruct (Hsam basis) as [Hn Hx]. by apply samples_with_quote.
    + rewrite lookup_insert_ne by done. intros Hb'. destruct (fed_bucket _ _ _ H _ _ Hb') as (H1&H2&H3).
      split_and!; [done| |].
      * intros q' [Hq'|Hq'%list_elem_of_singleton]%elem_of_app Hk; [by apply H2|]. congruence.
      * intros basis. destruct (H3 basis) as [Hn Hx]. split; [done|]. intros x.
        rewrite Hx, in_feed_snoc. naive_solver.
Qed.

Lemma fed_run s0 qs :
  fed s0 [] s0 → consistent (bb_lateness s0) qs → Forall (λ q, is_utc (q_event_time q)) qs →
  ∃ s, bar_run s0 (OpQuote <$> qs) = Ok (s, []) ∧ fed s0 qs s.
Proof.
  intros H0. induction qs as [|q qs IH] using rev_ind; intros Hc Hu; [by exists s0|].
  apply Forall_app in Hu as [Hu Hq]. apply Forall_cons in Hq as [Hq _].
  destruct IH as (s & E & Hs); [|done|].
  { intros q1 q2 ? ?. apply Hc; set_solver. }
  destruct (fed_step s0 qs q s Hs Hc Hq) as (s' & E' & Hs'). exists s'. split; [|done].
  unfold bar_run in *. rewrite fmap_app, for_each_app, E. cbn. unfold bar_step. cbn. by rewrite E'.
Qed.

Lemma sorted_samples_unique l l' :
  (∀ x y, x ∈ l → y ∈ l → instant x.1 = instant y.1 → x = y) →
  NoDup l → NoDup l' → StronglySorted time_le l → StronglySorted time_le l' →
  (∀ x, x ∈ l ↔ x ∈ l') → l = l'.
Proof.
  intros Hk Hn Hn' Hs Hs' Heq. apply (sorted_perm_unique (λ item : datetime * Decimal, instant item.1)); [done..|].
  by apply NoDup_Permutation.
Qed.

Lemma fed_unique s0 qs qs' s s' :
  consistent (bb_lateness s0) qs → (∀ q, q ∈ qs ↔ q ∈ qs') →
  fed s0 qs s → fed s0 qs' s' → s = s'.
Proof.
  intros Hc Heq H H'. rewrite (fed_conf _ _ _ H), (fed_conf _ _ _ H').
  assert (∀ key, bb_buckets s !! key = None ↔ bb_buckets s' !! key = None) as Hnone.
  { intros key. rewrite (fed_none _ _ _ H), (fed_none _ _ _ H'). by setoid_rewrite Heq. }
  assert (bb_buckets s = bb_buckets s') as ->; [|done].
  apply map_eq. intros key. destruct (bb_buckets s !! key) as [b|] eqn:E.
  2:{ symmetry. by apply Hnone. }
  destruct (bb_buckets s' !! key) as [b'|] eqn:E'; [|apply Hnone in E'; congruence].
  pose proof (bb_ok _ (fed_ok _ _ _ H) _ _ E) as [Hb Hd].
  pose proof (bb_ok _ (fed_ok _ _ _ H') _ _ E') as [Hb' Hd'].
  destruct (fed_bucket _ _ _ H _ _ E) as (Hcl & Hli & Hsa).
  destruct (fed_bucket _ _ _ H' _ _ E') as (Hcl' & Hli' & Hsa').
  pose proof (bo_key _ _ Hb) as K. pose proof (bo_key _ _ Hb') as K'. rewrite K in K'.
  assert (∃ q, q ∈ qs ∧ quote_key q = key) as (q & Hq & Hk).
  { destruct (decide (Exists (λ q0, quote_key q0 = key) qs)) as [He|Hno].
    - by apply Exists_exists in He.
    - exfalso. assert (bb_buckets s !! key = None); [|congruence].
      apply (fed_none _ _ _ H). intros q0 Hq0 Hk0. apply Hno, Exists_exists. eauto. }
  assert (bk_samples b = bk_samples b') as Hsam.
  { apply map_eq. intros basis. destruct (Hsa basis) as [Hn Hx], (Hsa' basis) as [Hn' Hx'].
    assert (samples_of b basis = samples_of b' basis) as Hs.
    { apply sorted_samples_unique; try done.
      - intros x y (q1 & Hq1 & Hk1 & H1)%Hx (q2 & Hq2 & Hk2 & H2)%Hx.
        apply (Hc q1 q2 Hq1 Hq2 ltac:(congruence)) with basis; done.
      - by eapply samples_of_sorted.
      - by eapply samples_of_sorted.
      - intros x. rewrite Hx, Hx'. unfold in_feed. by setoid_rewrite Heq. }
    unfold samples_of in Hs. destruct (bk_samples b !! basis) eqn:F, (bk_samples b' !! basis) eqn:F';
      cbn in Hs; subst; try done.
    - by apply (bo_samples _ _ Hb) in F as [[] _].
    - by apply (bo_samples _ _ Hb') in F' as [[] _]. }
  rewrite Hcl in Hd. rewrite Hcl' in Hd'. apply dom_empty_iff_L in Hd, Hd'.
  assert (bk_listing_id b = bk_listing_id b') by (rewrite (Hli q), (Hli' q); set_solver).
  destruct b, b'; cbn in *; naive_solver.
Qed.

Lemma init_fed lateness retention s0 :
  OneMinuteBarBuilder_init lateness retention = Ok s0 → fed s0 [] s0.
Proof.
  intros H. pose proof (hist_ok _ _ (init_history _ _ _ H)) as Hok.
  unfold OneMinuteBarBuilder_init in H. res_inv. split; cbn; try done.
  - intros key. split; [|by rewrite lookup_empty]. intros _ q ?%elem_of_nil. done.
Qed.

(** Every bar leaving [_build] satisfies the checks of [MarketBar]. *)
Definition bars_valid (bars : list MarketBar) : Prop := Forall (λ b, MarketBar_post_init b = Ok tt) bars.

Lemma build_each_valid b bases r : build_each b bases = Ok r → bars_valid r.2.
Proof.
  apply (for_each_inv _ (λ acc, bars_valid acc.2)); [|constructor].
  intros [b0 bars] basis r' _ H Hr. cbn in *. apply bind_Ok in Hr as ([b1 bar] & Hb & [= <-]).
  cbn. apply Forall_app. split; [done|]. apply Forall_singleton. unfold _build in Hb.
  destruct (_ !! _) as [[|]|]; try done. apply bind_Ok in Hb as (bar' & Hb & [= <- <-]).
  unfold MarketBar_new in Hb. apply bind_Ok in Hb as ([] & Hb & [= <-]). done.
Qed.

Lemma on_quote_valid s q r : on_quote s q = Ok r → bars_valid r.2.
Proof.
  assert (∀ s' key b, (bc ← add_quote (bb_lateness s') b q; let '(b', changed) := bc in
    if negb (bk_closed b') then Ok (put_bucket s' key b', [])
    else x ← build_each b' (py_sorted PriceBasis_str (elements changed)); Ok (put_bucket s' key x.1, x.2))
    = Ok r → bars_valid r.2) as Hgo.
  { intros s' key b ([b' changed] & _ & H)%bind_Ok. destruct (negb _); [injection H as <-; constructor|].
    apply bind_Ok in H as (x & Hx%build_each_valid & [= <-]). done. }
  unfold on_quote. cbv zeta. destruct (_ !! _); [by apply Hgo|].
  destruct (correction_expired s q); [intros [= <-]; constructor|by apply Hgo].
Qed.

Lemma advance_valid s w r : advance s w = Ok r → bars_valid r.2.
Proof.
  unfold advance. intros (w' & _ & H)%bind_Ok. apply bind_Ok in H as (x & Hx & [= <-]). cbn. revert Hx.
  apply (for_each_inv _ (λ acc, bars_valid acc.2)); [|constructor].
  intros [s0 bars] key acc _ Hb H. unfold close_one in H. destruct (_ !! _) as [b|]; [|done].
  destruct (dt_ltb _ _); [by injection H as <-|].
  apply bind_Ok in H as (y & Hy%build_each_valid & [= <-]). cbn. by apply Forall_app.
Qed.

Lemma bar_run_valid s ops r : bar_run s ops = Ok r → bars_valid r.2.
Proof.
  apply (for_each_inv _ (λ acc, bars_valid acc.2)); [|constructor].
  intros acc o acc' _ Hb H. unfold bar_step in H. apply bind_Ok in H as (x & Hx & [= <-]). cbn.
  apply Forall_app. split; [done|]. destruct o; [by eapply on_quote_valid|by eapply advance_valid].
Qed.

(** ** Properties *)

(** C19: However quotes and watermarks are interleaved, the builder never raises on UTC times,
    keeps its invariant, emits only valid OHLC bars, and numbers the revisions of each bar identity
    (instrument, minute, basis) 1, 2, 3, ... without a gap or a repetition, also across expiry of the
    correction window. *)
Theorem bars_run_safe lateness retention s0 ops :
  OneMinuteBarBuilder_init lateness retention = Ok s0 → Forall op_utc ops →
  ∃ s bars, bar_run s0 ops = Ok (s, bars) ∧ builder_ok s ∧
    Forall (λ b, MarketBar_post_init b = Ok tt) bars ∧
    ∀ key basis, ∃ n, revs key basis bars = seqZ 1 n.
Proof.
  intros Hi%init_history Ho. destruct (history_run ops (s0, []) Hi Ho) as ([s bars] & E & H).
  exists s, bars. split_and!; [done|apply H|by apply (bar_run_valid _ _ _ E)|apply (hist_seq _ _ H)].
Qed.

(** Advancing the watermark publishes exactly the due buckets: their bars come in order of
    instrument and minute, one first revision per basis, each the open/high/low/close of all the
    samples of the bucket; what stays open is not due yet and what stays buffered after closing is
    still within the correction window. *)
Theorem advance_closes_due s w s' bars :
  builder_ok s → advance s w = Ok (s', bars) →
  bars = flat_map (λ key, match bb_buckets s !! key with
                          | Some b => if due (bb_lateness s) w b then closing_bars b else []
                          | None => []
                          end) (py_sorted sort_key (elements (bb_open_keys s))) ∧
  (∀ key b, bb_buckets s' !! key = Some b →
     if bk_closed b
     then instant w - bb_correction_retention s < instant (bk_interval_start b) + interval
     else due (bb_lateness s) w b = false).
Proof.
  intros Hs E. assert (is_utc w) as Hw.
  { unfold advance in E. apply bind_Ok in E as (w' & Hw & _). by apply require_utc_Ok in Hw as [? _]. }
  destruct (advance_eq s w Hs Hw) as [E' Hok]. rewrite E in E'. injection E' as -> ->.
  destruct (open_order_spec s) as [Hnd Hin].
  destruct (close_loop_spec w (open_order s) (s, []) Hnd) as (H1 & H2 & H3 & H4 & H5 & H6).
  split; [by rewrite H3|]. intros key b [Hb Hret]%expire_lookup.
  destruct (bk_closed b) eqn:Ecl.
  - rewrite H5 in Hret. cbn in Hret.
    destruct (decide (instant (bk_interval_start b) + interval <= instant w - bb_correction_retention s));
      [by destruct Hret|lia].
  - assert (key ∈ bb_open_keys (foldl (close_pure w) (s, []) (open_order s)).1) as Ho
      by (apply (bb_open _ Hok); eauto).
    apply H2 in Ho as [Ho Hd]. cbn in Ho, Hd. specialize (Hd (proj2 (Hin key) Ho)).
    rewrite H1, decide_True in Hb by (by apply Hin). cbn in Hb. unfold closes in Hd.
    destruct (bb_buckets s !! key) as [b0|]; [|done]. cbn in Hb, Hd. rewrite Hd in Hb. by injection Hb as <-.
Qed.

(** The bars of a feed do not depend on the order its quotes arrive in: two arrival orders of
    the same quotes leave the same builder, so every later bar and revision is the same. *)
Theorem bars_order_independent lateness retention s0 qs qs' :
  OneMinuteBarBuilder_init lateness retention = Ok s0 →
  Forall (λ q, is_utc (q_event_time q)) qs → consistent lateness qs → qs ≡ₚ qs' →
  ∃ s, bar_run s0 (OpQuote <$> qs) = Ok (s, []) ∧ bar_run s0 (OpQuote <$> qs') = Ok (s, []).
Proof.
  intros Hi Hu Hc Hp. pose proof (init_fed _ _ _ Hi) as Hf.
  assert (bb_lateness s0 = lateness) as El by (unfold OneMinuteBarBuilder_init in Hi; by res_inv).
  rewrite <- El in Hc. destruct (fed_run s0 qs Hf Hc Hu) as (s & E & Hs).
  destruct (fed_run s0 qs' Hf) as (s' & E' & Hs'); [|by rewrite <- Hp|].
  { intros q q'. rewrite <- Hp. apply Hc. }
  assert (s = s') as <-; [|eauto]. eapply fed_unique; [exact Hc| |done|done].
  intros q. by rewrite Hp.
Qed.

(** ** Instances *)

Definition sample_start : OneMinuteBarBuilder := mkBuilder (seconds 5) (hours 1) ∅ ∅ None.
Definition sample_ops : list bar_op :=
  [OpQuote (sample_quote (seconds 10) HEALTHY); OpAdvance (utc (seconds 65));
   OpQuote (sample_quote (seconds 20) HEALTHY); OpAdvance (utc (hours 2));
   OpQuote (sample_quote (seconds 30) HEALTHY)].

Example sample_run_revisions :
  match bar_run sample_start sample_ops with
  | Ok (s, bars) => (b_revision <$> bars, buffered_interval_count s)
  | Raise _ => ([], 0%nat)
  end = ([1; 2], 0%nat).
Proof. vm_compute. reflexivity. Qed.

Lemma bars_run_safe_witness :
  ∃ s bars, bar_run sample_start sample_ops = Ok (s, bars) ∧ builder_ok s ∧
    Forall (λ b, MarketBar_post_init b = Ok tt) bars ∧
    ∀ key basis, ∃ n, revs key basis bars = seqZ 1 n.
Proof.
  apply (bars_run_safe (seconds 5) (hours 1)); [reflexivity|repeat constructor].
Defined.

Definition sample_builder : OneMinuteBarBuilder :=
  match bar_run sample_start [OpQuote (sample_quote (seconds 10) HEALTHY)] with
  | Ok r => r.1
  | Raise _ => sample_start
  end.

Lemma sample_builder_ok : builder_ok sample_builder.
Proof.
  destruct (history_run [OpQuote (sample_quote (seconds 10) HEALTHY)] (sample_start, [])) as (r & E & H).
  - by apply (init_history (seconds 5) (hours 1)).
  - repeat constructor.
  - unfold sample_builder, bar_run. rewrite E. apply H.
Qed.

Definition sample_advance : OneMinuteBarBuilder * list MarketBar :=
  match advance sample_builder (utc (seconds 65)) with Ok r => r | Raise _ => (sample_builder, []) end.

Lemma advance_closes_due_witness :
  sample_advance.2 = flat_map (λ key, match bb_buckets sample_builder !! key with
                          | Some b => if due (bb_lateness sample_builder) (utc (seconds 65)) b
                                      then closing_bars b else []
                          | None => []
                          end) (py_sorted sort_key (elements (bb_open_keys sample_builder))).
Proof.
  refine (proj1 (advance_closes_due sample_builder (utc (seconds 65)) sample_advance.1 sample_advance.2
    sample_builder_ok _)). vm_compute. reflexivity.
Defined.

Lemma bars_order_independent_witness :
  let qs := [sample_quote (seconds 10) HEALTHY; sample_quote (seconds 20) HEALTHY] in
  ∃ s, bar_run sample_start (OpQuote <$> qs) = Ok (s, []) ∧
       bar_run sample_start (OpQuote <$> reverse qs) = Ok (s, []).
Proof.
  apply (bars_order_independent (seconds 5) (hours 1)); [reflexivity|repeat constructor| |].
  - intros q q' Hq Hq' _. rewrite !elem_of_cons, elem_of_nil in Hq, Hq'.
    destruct Hq as [->|[->|[]]], Hq' as [->|[->|[]]]; (split; [reflexivity|]);
      intros [] x x' Hx Hx'; cbn in Hx, Hx'; rewrite ?list_elem_of_singleton, ?elem_of_nil in Hx, Hx';
      subst; cbn; intros; try done; lia.
  - symmetry. apply reverse_Permutation.
Defined.
