(* ===== verification/CaptureFeed.v ===== *)
(** Capture feeds: the identities and pages of [src/qtrad/ports/capture_feed.py]
    and the consumer's cursor of [src/qtrad/application/capture_feed.py]. *)

From S2P Require Import Prelude PySorted PyStr PyTime PyJson Domain Storage.

Inductive MarketDataSourceClass : Type :=
| IG_NATIVE_CAPTURE | IBKR_HISTORICAL_RESEARCH | IBKR_NATIVE_CAPTURE.
#[export] Instance MarketDataSourceClass_eq_dec : EqDecision MarketDataSourceClass.
Proof. solve_decision. Defined.
Definition MarketDataSourceClass_str (c : MarketDataSourceClass) : string :=
  match c with
  | IG_NATIVE_CAPTURE => "IG_NATIVE_CAPTURE"
  | IBKR_HISTORICAL_RESEARCH => "IBKR_HISTORICAL_RESEARCH"
  | IBKR_NATIVE_CAPTURE => "IBKR_NATIVE_CAPTURE"
  end.

Definition slug_alphabet : string := "abcdefghijklmnopqrstuvwxyz0123456789._-".
(** [not value or len(value) > n] *)
Definition out_of_bounds (value : string) (n : Z) : bool := negb (nonempty value) || (n <? len value).

Record CaptureFeedIdentity : Type := mkFeedIdentity {
  fi_feed_schema_version : Z;
  fi_source_id : string;
  fi_universe_name : string;
  fi_configuration_hash : string }.
#[export] Instance CaptureFeedIdentity_eq_dec : EqDecision CaptureFeedIdentity.
Proof. solve_decision. Defined.

Definition CaptureFeedIdentity_post_init (i : CaptureFeedIdentity) : res unit :=
  raise_if (negb (fi_feed_schema_version i =? 1)) (ValueError "unsupported capture feed schema version");;
  raise_if (out_of_bounds (fi_source_id i) 64)
           (ValueError "capture feed source ID must contain between 1 and 64 characters");;
  raise_if (negb (all_in slug_alphabet (fi_source_id i)))
           (ValueError "capture feed source ID contains unsupported characters");;
  raise_if (out_of_bounds (fi_universe_name i) 64)
           (ValueError "capture feed universe name must contain between 1 and 64 characters");;
  raise_if (negb (is_sha256 (fi_configuration_hash i)))
           (ValueError "capture feed configuration hash must be lower-case SHA-256").

Record CaptureIdentity : Type := mkCaptureIdentity {
  ci_provider : string;
  ci_environment : string;
  ci_source_class : MarketDataSourceClass;
  ci_capture_source_id : string;
  ci_universe_id : string;
  ci_configuration_hash : string }.

Definition CaptureIdentity_post_init (i : CaptureIdentity) : res unit :=
  raise_if (out_of_bounds (ci_provider i) 32) (ValueError "capture provider must be bounded and non-empty");;
  raise_if (out_of_bounds (ci_environment i) 32)
           (ValueError "capture environment must be bounded and non-empty");;
  raise_if (bool_decide (ci_source_class i = IBKR_NATIVE_CAPTURE)
            && (negb (String.eqb (ci_provider i) "ibkr") || negb (String.eqb (ci_environment i) "IBKR_PAPER")))
           (ValueError "IBKR native capture identity must use ibkr/IBKR_PAPER");;
  raise_if (bool_decide (ci_source_class i = IBKR_HISTORICAL_RESEARCH) && negb (String.eqb (ci_provider i) "ibkr"))
           (ValueError "IBKR historical identity must use provider ibkr");;
  raise_if (bool_decide (ci_source_class i = IG_NATIVE_CAPTURE) && negb (String.eqb (ci_provider i) "ig"))
           (ValueError "IG native capture identity must use provider ig");;
  for_each (λ _ nv,
      raise_if (out_of_bounds nv.2 64) (ValueError (nv.1 +:+ " must contain between 1 and 64 characters"));;
      raise_if (negb (all_in slug_alphabet nv.2)) (ValueError (nv.1 +:+ " contains unsupported characters")))
    tt [("capture source ID", ci_capture_source_id i); ("capture universe ID", ci_universe_id i)];;
  raise_if (negb (is_sha256 (ci_configuration_hash i)))
           (ValueError "capture configuration hash must be a lower-case SHA-256").

Definition feed_identity (i : CaptureIdentity) : res CaptureFeedIdentity :=
  let f := mkFeedIdentity 1 (ci_capture_source_id i) (ci_universe_id i) (ci_configuration_hash i) in
  CaptureFeedIdentity_post_init f;; Ok f.

Record CaptureFeedPage : Type := mkFeedPage {
  fp_identity : CaptureFeedIdentity;
  fp_after_position : Z;
  fp_high_water_position : Z;
  fp_next_position : Z;
  fp_has_more : bool;
  fp_events : list EventEnvelope }.

Definition CaptureFeedPage_post_init (p : CaptureFeedPage) : res unit :=
  raise_if (fp_after_position p <? 0) (ValueError "capture feed page cursor cannot be negative");;
  raise_if (fp_high_water_position p <? fp_after_position p)
           (ValueError "capture feed high-water position cannot precede its cursor");;
  raise_if (1000 <? Z.of_nat (length (fp_events p))) (ValueError "capture feed page cannot exceed 1000 events");;
  acc ← for_each (λ (acc : list Z * list UUID) event,
      match ev_global_position event, ev_persisted_time event with
      | Some position, Some _ =>
          raise_if (negb ((fp_after_position p <? position) && (position <=? fp_high_water_position p)))
                   (ValueError "capture feed event position is outside the page bounds");;
          raise_if (bool_decide (ev_raw_record_id event ≠ None))
                   (ValueError "capture feed events must not expose raw-record identity");;
          Ok (acc.1 ++ [position], acc.2 ++ [ev_event_id event])
      | _, _ => Raise (ValueError "capture feed pages require persisted events")
      end) ([], []) (fp_events p);
  let '(positions, event_ids) := acc in
  raise_if (negb (bool_decide (positions = sorted_set positions)))
           (ValueError "capture feed event positions must be strictly increasing");;
  raise_if (has_duplicates event_ids) (ValueError "capture feed event IDs must be unique within a page");;
  let expected_next := default (fp_after_position p) (list.last positions) in
  raise_if (negb (fp_next_position p =? expected_next))
           (ValueError "capture feed next position does not match its events");;
  raise_if (negb (Bool.eqb (fp_has_more p) (fp_next_position p <? fp_high_water_position p)))
           (ValueError "capture feed continuation flag contradicts its positions").

(** ** The cursor *)

Record CaptureFeedCursor : Type := mkCursor {
  cu_identity : CaptureFeedIdentity;
  cu_position : Z;
  cu_observed_high_water_position : Z }.

Definition CaptureFeedCursor_post_init (c : CaptureFeedCursor) : res unit :=
  raise_if (cu_position c <? 0) (ValueError "capture feed cursor position cannot be negative");;
  raise_if (cu_observed_high_water_position c <? cu_position c)
           (ValueError "capture feed observed high-water position cannot precede its cursor").

Definition CaptureFeedCursor_new (c : CaptureFeedCursor) : res CaptureFeedCursor :=
  CaptureFeedCursor_post_init c;; Ok c.

Definition CaptureFeedCursor_initial (identity : CaptureFeedIdentity) (after_position : Z)
    : res CaptureFeedCursor :=
  CaptureFeedCursor_new (mkCursor identity after_position after_position).

Definition advance_capture_feed_cursor (cursor : CaptureFeedCursor) (page : CaptureFeedPage)
    : res CaptureFeedCursor :=
  raise_if (negb (bool_decide (fp_identity page = cu_identity cursor)))
           (ValueError "capture feed identity changed");;
  raise_if (negb (fp_after_position page =? cu_position cursor))
           (ValueError "capture feed page does not continue from the current cursor");;
  raise_if (fp_high_water_position page <? cu_observed_high_water_position cursor)
           (ValueError "capture feed high-water position regressed");;
  CaptureFeedCursor_new (mkCursor (cu_identity cursor) (fp_next_position page) (fp_high_water_position page)).

Definition rebind_capture_feed_serving_identity (cursor : CaptureFeedCursor)
    (new_identity : CaptureFeedIdentity) : res CaptureFeedCursor :=
  raise_if (negb (cu_position cursor =? cu_observed_high_water_position cursor))
           (ValueError "capture feed identity cannot change while the consumer is behind");;
  raise_if (negb (fi_feed_schema_version new_identity =? fi_feed_schema_version (cu_identity cursor)))
           (ValueError "capture feed schema changes require a new consumer contract");;
  raise_if (negb (String.eqb (fi_source_id new_identity) (fi_source_id (cu_identity cursor))))
           (ValueError "capture feed source changes require an independent cursor");;
  raise_if (bool_decide (new_identity = cu_identity cursor))
           (ValueError "capture feed serving identity did not change");;
  CaptureFeedCursor_new (mkCursor new_identity (cu_position cursor) (cu_position cursor)).

(** ** Consuming a feed *)

(** The consumer's steps: take the next page, or acknowledge a new serving identity. *)
Inductive feed_step : Type := TakePage (page : CaptureFeedPage) | Rebind (identity : CaptureFeedIdentity).

Definition consume_step (acc : CaptureFeedCursor * list EventEnvelope) (s : feed_step)
    : res (CaptureFeedCursor * list EventEnvelope) :=
  match s with
  | TakePage page =>
      CaptureFeedPage_post_init page;;
      c ← advance_capture_feed_cursor acc.1 page; Ok (c, acc.2 ++ fp_events page)
  | Rebind identity =>
      CaptureFeedIdentity_post_init identity;;
      c ← rebind_capture_feed_serving_identity acc.1 identity; Ok (c, acc.2)
  end.

Definition feed_positions (l : list EventEnvelope) : list (option Z) := map ev_global_position l.

Lemma page_loop_positions after hw l acc out :
  for_each (λ (acc : list Z * list UUID) event,
      match ev_global_position event, ev_persisted_time event with
      | Some position, Some _ =>
          raise_if (negb ((after <? position) && (position <=? hw)))
                   (ValueError "capture feed event position is outside the page bounds");;
          raise_if (bool_decide (ev_raw_record_id event ≠ None))
                   (ValueError "capture feed events must not expose raw-record identity");;
          Ok (acc.1 ++ [position], acc.2 ++ [ev_event_id event])
      | _, _ => Raise (ValueError "capture feed pages require persisted events")
      end) acc l = Ok out →
  ∃ ps, out.1 = acc.1 ++ ps ∧ feed_positions l = map Some ps ∧ Forall (λ p, after < p <= hw) ps.
Proof.
  revert acc. induction l as [|e l IH]; intros acc H; cbn in H.
  - injection H as <-. exists []. by rewrite app_nil_r.
  - apply bind_Ok in H as (acc1 & H1 & H). apply IH in H as (ps & E & Hp & Hf).
    destruct (ev_global_position e) as [p|] eqn:Ep; [|done]. destruct (ev_persisted_time e); [|done].
    res_inv. bool_prop. exists (p :: ps). cbn in E. rewrite E, <- app_assoc. split_and!; [done| |].
    + unfold feed_positions in *. cbn [map]. by rewrite Ep, Hp.
    + constructor; [lia|done].
Qed.

Lemma last_default_le (l : list Z) a b : Forall (λ p, a < p <= b) l → a <= b →
  a <= default a (list.last l) <= b.
Proof.
  intros Hl Hab. destruct (list.last l) as [x|] eqn:E; cbn; [|lia].
  apply last_Some_elem_of in E. rewrite list.Forall_forall in Hl. specialize (Hl x E). lia.
Qed.

Lemma strictly_sorted_set l : l = sorted_set l → StronglySorted Z.lt l.
Proof.
  intros E. assert (NoDup l) as Hn by (rewrite E; apply py_sorted_NoDup, NoDup_remove_dups).
  assert (StronglySorted (key_le id) l) as Hs by (rewrite E; apply py_sorted_sorted).
  clear E. induction Hs as [|x l Hs IH Hf]; [constructor|]. apply NoDup_cons in Hn as [Hx Hn].
  constructor; [auto|]. apply list.Forall_forall. intros y Hy. rewrite list.Forall_forall in Hf.
  specialize (Hf y Hy). unfold key_le in Hf. rewrite pyle_Z in Hf. cbn in Hf.
  assert (x ≠ y) by congruence. lia.
Qed.

(** What a valid page promises. *)
Lemma page_valid p : CaptureFeedPage_post_init p = Ok tt →
  ∃ ps, feed_positions (fp_events p) = map Some ps ∧ StronglySorted Z.lt ps ∧
    Forall (λ x, fp_after_position p < x <= fp_next_position p) ps ∧
    fp_next_position p = default (fp_after_position p) (list.last ps) ∧
    0 <= fp_after_position p <= fp_next_position p ∧ fp_next_position p <= fp_high_water_position p ∧
    fp_has_more p = (fp_next_position p <? fp_high_water_position p).
Proof.
  intros H. unfold CaptureFeedPage_post_init in H.
  apply bind_Ok in H as (u1 & H1 & H). apply raise_if_Ok in H1.
  apply bind_Ok in H as (u2 & H2 & H). apply raise_if_Ok in H2.
  apply bind_Ok in H as (u3 & H3 & H). clear H3.
  apply bind_Ok in H as ([ps ids] & Hl & H). apply page_loop_positions in Hl as (qs & Eq & Hp & Hf).
  cbn in Eq. subst ps. res_inv. bool_prop. exists qs. clear x x0 x1.
  assert (fp_after_position p <= fp_high_water_position p) as Hle by lia.
  pose proof (last_default_le _ _ _ Hf Hle) as Hlast.
  pose proof (strictly_sorted_set _ H0) as Hs.
  split_and!; try done; try lia.
  - apply list.Forall_forall. intros x Hx. rewrite list.Forall_forall in Hf.
    destruct (Hf x Hx). split; [done|]. rewrite H4.
    destruct (list.last qs) as [y|] eqn:Ey; cbn.
    + apply last_Some in Ey as (pre & ->). clear -Hs Hx. apply elem_of_app in Hx as [Hx|Hx%list_elem_of_singleton]; [|lia].
      assert (x < y); [|lia]. induction pre as [|z pre IH]; [by apply elem_of_nil in Hx|].
      cbn in Hs. apply StronglySorted_inv in Hs as [Hs Hf]. apply elem_of_cons in Hx as [->|Hx]; [|auto].
      rewrite list.Forall_forall in Hf. apply Hf. set_solver.
    + apply last_None in Ey. subst. by apply elem_of_nil in Hx.
  - by apply eqb_prop in H.
Qed.

(** What the consumer has received and where its cursor stands. *)
Definition consumed (identity : CaptureFeedIdentity) (start : Z)
    (acc : CaptureFeedCursor * list EventEnvelope) : Prop :=
  ∃ ps, feed_positions acc.2 = map Some ps ∧ StronglySorted Z.lt ps ∧
    Forall (λ x, start < x <= cu_position acc.1) ps ∧
    cu_position acc.1 = default start (list.last ps) ∧
    start <= cu_position acc.1 <= cu_observed_high_water_position acc.1 ∧
    fi_source_id (cu_identity acc.1) = fi_source_id identity ∧
    fi_feed_schema_version (cu_identity acc.1) = fi_feed_schema_version identity.

Lemma strongly_sorted_app_lt ps qs m :
  StronglySorted Z.lt ps → StronglySorted Z.lt qs → Forall (λ x, x <= m) ps → Forall (λ x, m < x) qs →
  StronglySorted Z.lt (ps ++ qs).
Proof.
  intros Hs Hq Hp Hm. induction Hs as [|x l Hs IH Hf]; cbn; [done|].
  apply Forall_cons in Hp as [Hx Hp]. constructor; [auto|]. apply Forall_app. split; [done|].
  eapply Forall_impl; [exact Hm|]. intros y Hy. cbn in Hy. lia.
Qed.

Lemma consume_step_ok identity start acc s acc' :
  consumed identity start acc → consume_step acc s = Ok acc' → consumed identity start acc'.
Proof.
  intros (ps & Hp & Hs & Hf & Hpos & Hb & Hsrc & Hsch) H. destruct acc as [c evs]. cbn in *.
  destruct s as [page|i].
  - apply bind_Ok in H as ([] & Hv & H). apply bind_Ok in H as (c' & Ha & [= <-]).
    apply page_valid in Hv as (qs & Hq & Hqs & Hqf & Hnext & Hafter & Hhw & _).
    unfold advance_capture_feed_cursor, CaptureFeedCursor_new in Ha. res_inv. bool_prop. cbn [fst snd] in *.
    exists (ps ++ qs). cbn. split_and!; try done; try lia.
    + unfold feed_positions in *. by rewrite map_app, Hp, Hq, map_app.
    + apply (strongly_sorted_app_lt _ _ (cu_position c)); [done|done| |].
      * eapply Forall_impl; [exact Hf|]. cbn. lia.
      * eapply Forall_impl; [exact Hqf|]. cbn. lia.
    + apply Forall_app. split; (eapply Forall_impl; [eassumption|]); cbn; lia.
    + rewrite Hnext, H0. destruct (list.last qs) as [y|] eqn:Ey.
      * rewrite list.last_app, Ey. done.
      * apply last_None in Ey. subst qs. rewrite app_nil_r. cbn. done.
  - apply bind_Ok in H as ([] & Hv & H). apply bind_Ok in H as (c' & Ha & [= <-]).
    unfold rebind_capture_feed_serving_identity, CaptureFeedCursor_new in Ha. res_inv. bool_prop. cbn [fst snd] in *.
    apply String.eqb_eq in H1. exists ps. cbn. split_and!; try done; try lia; congruence.
Qed.

(** ** Properties *)

(** A consumer that follows a capture feed, through page boundaries and acknowledged changes of
    serving identity, receives events with strictly increasing positions (none twice, none out of
    order), all after its start and none beyond the cursor; its cursor stands at the last event
    received, never moves back or past the high water mark, and stays on one source and schema. *)
Theorem feed_consumed_once identity start cursor0 steps cursor events :
  CaptureFeedCursor_initial identity start = Ok cursor0 →
  for_each consume_step (cursor0, []) steps = Ok (cursor, events) →
  ∃ ps, map ev_global_position events = map Some ps ∧ StronglySorted Z.lt ps ∧
    Forall (λ x, start < x <= cu_position cursor) ps ∧
    cu_position cursor = default start (list.last ps) ∧
    start <= cu_position cursor <= cu_observed_high_water_position cursor ∧
    fi_source_id (cu_identity cursor) = fi_source_id identity ∧
    fi_feed_schema_version (cu_identity cursor) = fi_feed_schema_version identity.
Proof.
  intros Hi H. change (consumed identity start (cursor, events)). revert H.
  apply (for_each_inv _ (consumed identity start)); [intros ? ? ? _; apply consume_step_ok|].
  unfold CaptureFeedCursor_initial, CaptureFeedCursor_new in Hi. res_inv.
  exists []. cbn. split_and!; try done; try lia. constructor.
Qed.

(** A consumer can only be told a page continues its cursor when it does: a page that starts
    anywhere else (a skipped or repeated range), comes from another feed, or shows a lower high
    water mark is refused, and one that does continue is always accepted. *)
Theorem cursor_accepts_exactly_next cursor page :
  CaptureFeedPage_post_init page = Ok tt →
  is_ok (advance_capture_feed_cursor cursor page) = true ↔
  fp_identity page = cu_identity cursor ∧ fp_after_position page = cu_position cursor ∧
  cu_observed_high_water_position cursor <= fp_high_water_position page.
Proof.
  intros Hv. apply page_valid in Hv as (qs & _ & _ & _ & _ & Hafter & Hhw & _).
  rewrite is_ok_true. split.
  - intros [c H]. unfold advance_capture_feed_cursor, CaptureFeedCursor_new in H. res_inv. bool_prop. done.
  - intros (E1 & E2 & E3). unfold advance_capture_feed_cursor, CaptureFeedCursor_new, CaptureFeedCursor_post_init.
    rewrite bool_decide_true by done. rewrite E2, Z.eqb_refl.
    replace (fp_high_water_position page <? cu_observed_high_water_position cursor) with false by lia. cbn.
    replace (fp_next_position page <? 0) with false by lia.
    replace (fp_high_water_position page <? fp_next_position page) with false by lia. cbn. eauto.
Qed.

(** ** Instances *)

Definition sample_identity : CaptureFeedIdentity :=
  mkFeedIdentity 1 "ig-1" "fx"
    "0000000000000000000000000000000000000000000000000000000000000000".
Definition feed_event (id : string) (position : Z) : EventEnvelope :=
  mkEvent (mkUUID id) "s" 1 "Note" 1 (utc 0) (utc 0) (Some (utc 1)) (mkUUID "c") None "p" "1" []
    (Some position) None.
Definition sample_page : CaptureFeedPage :=
  mkFeedPage sample_identity 0 9 7 true [feed_event "a" 3; feed_event "b" 7].
Definition sample_page2 : CaptureFeedPage :=
  mkFeedPage sample_identity 7 9 9 false [feed_event "c" 9].

Lemma feed_consumed_once_witness :
  ∃ ps, map ev_global_position [feed_event "a" 3; feed_event "b" 7; feed_event "c" 9] = map Some ps ∧
    StronglySorted Z.lt ps.
Proof.
  destruct (feed_consumed_once sample_identity 0 (mkCursor sample_identity 0 0)
    [TakePage sample_page; TakePage sample_page2] (mkCursor sample_identity 9 9)
    [feed_event "a" 3; feed_event "b" 7; feed_event "c" 9]) as (ps & E & Hs & _);
    [reflexivity|vm_compute; reflexivity|].
  exists ps. exact (conj E Hs).
Defined.

Lemma cursor_accepts_exactly_next_witness :
  is_ok (advance_capture_feed_cursor (mkCursor sample_identity 0 5) sample_page) = true.
Proof.
  apply (cursor_accepts_exactly_next (mkCursor sample_identity 0 5) sample_page); [vm_compute; reflexivity|].
  cbn. split; [reflexivity|]. split; [reflexivity|lia].
Defined.
