(* ===== verification/EventStore.v ===== *)
(** The event store: raw capture, optimistic appends, projections, rebuild and
    paged reads of [src/qtrad/adapters/postgres/store.py].

    The database is a record of tables; each SQL statement is a function on the
    tables it names, with the primary keys, unique constraints and ON CONFLICT
    clauses it relies on.  A method runs in one transaction: on [Raise] the
    caller keeps the old database.  Values the server draws (identity columns,
    clock_timestamp()) are arguments. *)

From S2P Require Import Prelude PySorted PyStr PyTime PyDecimal Sha256 PyJson PyParse Domain Storage.
From Stdlib Require Import Ascii.

(** ** Rows *)

(** A row of raw.market_messages: the message with the payload that was stored. *)
Record RawRow : Type := mkRawRow {
  rr_id : Z;
  rr_message : RawMessage;
  rr_payload_sha256 : string }.

Definition with_payload (m : RawMessage) (payload : dict) : RawMessage :=
  mkRaw (rm_provider m) (rm_environment m) (rm_subscription m) (rm_deduplication_key m)
    (rm_received_time m) payload (rm_payload_representation m) (rm_adapter_version m)
    (rm_capture_session_id m) (rm_source_class m) (rm_capture_source_id m) (rm_universe_id m)
    (rm_configuration_hash m) (rm_connection_generation m) (rm_arrival_sequence m).

Inductive ProductType : Type := SPOT_FX | ROLLING_CFD | UNKNOWN.
Definition ProductType_of_str (s : string) : res ProductType :=
  if String.eqb s "SPOT_FX" then Ok SPOT_FX
  else if String.eqb s "ROLLING_CFD" then Ok ROLLING_CFD
  else if String.eqb s "UNKNOWN" then Ok UNKNOWN
  else Raise (ValueError (s +:+ " is not a valid ProductType")).
Definition ProductType_str (p : ProductType) : string :=
  match p with SPOT_FX => "SPOT_FX" | ROLLING_CFD => "ROLLING_CFD" | UNKNOWN => "UNKNOWN" end.

Record ProviderListing : Type := mkProviderListing {
  li_listing_id : ProviderListingId;
  li_instrument_id : InstrumentId;
  li_display_name : string;
  li_product_type : ProductType;
  li_currency : string;
  li_minimum_deal_size : Decimal;
  li_price_increment : option Decimal;
  li_valid_from : datetime;
  li_valid_to : option datetime;
  li_metadata_version : string;
  li_economics : dict }.

Definition ProviderListing_post_init (l : ProviderListing) : res unit :=
  require_utc (li_valid_from l) "valid_from";;
  match li_valid_to l with
  | Some valid_to =>
      require_utc valid_to "valid_to";;
      raise_if (dt_leb valid_to (li_valid_from l))
               (ValueError "valid_to must be later than valid_from")
  | None => Ok tt
  end;;
  raise_if (dec_leb (li_minimum_deal_size l) dec_zero)
           (ValueError "minimum deal size must be positive").

Record ListingRow : Type := mkListingRow {
  lr_listing : ProviderListing; lr_metadata : json; lr_universe_hash : option string }.

(** provider, environment, external_id, valid_from *)
Definition listing_key : Type := string * string * string * datetime.

Record QuoteRow : Type := mkQuoteRow {
  qr_provider : string; qr_environment : string; qr_external_id : string;
  qr_event_time : datetime; qr_received_time : datetime;
  qr_bid : json; qr_ask : json; qr_bid_size : json; qr_ask_size : json;
  qr_quality : string; qr_global_position : option Z }.

Record CaptureQuoteRow : Type := mkCaptureRow {
  cr_capture_source_id : string; cr_universe_id : string; cr_quote : QuoteRow }.

(** source_class, provider, environment, configuration_hash, instrument_id *)
Definition capture_key : Type := string * string * string * string * string.

Record BarRow : Type := mkBarRow {
  br_interval_end : datetime; br_open : json; br_high : json; br_low : json; br_close : json;
  br_sample_count : json; br_quality : string; br_global_position : option Z }.

(** instrument_id, basis, interval_start, revision (as JSON text), provenance,
    source provider, environment and external id *)
Definition bar_row_key : Type := string * string * datetime * string * string * (string * string * string).

Record GapRow : Type := mkGapRow {
  gr_instrument_id : string; gr_interval_start : datetime; gr_interval_end : datetime;
  gr_reason : string; gr_detected_at : datetime; gr_repaired_at : option datetime }.

(** The tables derived from events. *)
Record ReadModels : Type := mkReadModels {
  rm_listings : gmap listing_key ListingRow;
  rm_latest_quotes : gmap string QuoteRow;
  rm_capture_latest_quotes : gmap capture_key CaptureQuoteRow;
  rm_market_bars : gmap bar_row_key BarRow;
  rm_data_gaps : gmap UUID GapRow }.

Definition no_rows : ReadModels := mkReadModels ∅ ∅ ∅ ∅ ∅.
Definition set_listings m v := mkReadModels v (rm_latest_quotes m) (rm_capture_latest_quotes m) (rm_market_bars m) (rm_data_gaps m).
Definition set_latest m v := mkReadModels (rm_listings m) v (rm_capture_latest_quotes m) (rm_market_bars m) (rm_data_gaps m).
Definition set_capture_latest m v := mkReadModels (rm_listings m) (rm_latest_quotes m) v (rm_market_bars m) (rm_data_gaps m).
Definition set_bars m v := mkReadModels (rm_listings m) (rm_latest_quotes m) (rm_capture_latest_quotes m) v (rm_data_gaps m).
Definition set_gaps m v := mkReadModels (rm_listings m) (rm_latest_quotes m) (rm_capture_latest_quotes m) (rm_market_bars m) v.

Record DB : Type := mkDB {
  db_raw : list RawRow;
  db_quarantine : gmap Z (string * string);
  db_events : list EventEnvelope;
  db_read : ReadModels;
  db_checkpoint : option Z }.

Definition empty_db : DB := mkDB [] ∅ [] no_rows None.
Definition set_raw d v := mkDB v (db_quarantine d) (db_events d) (db_read d) (db_checkpoint d).
Definition set_quarantine d v := mkDB (db_raw d) v (db_events d) (db_read d) (db_checkpoint d).
Definition set_events d v := mkDB (db_raw d) (db_quarantine d) v (db_read d) (db_checkpoint d).
Definition set_read d v := mkDB (db_raw d) (db_quarantine d) (db_events d) v (db_checkpoint d).
Definition set_checkpoint d v := mkDB (db_raw d) (db_quarantine d) (db_events d) (db_read d) v.

(** ** Helpers *)

Definition _require_sha256 (value field : string) : res unit :=
  raise_if (negb (is_sha256 value)) (ValueError (field +:+ " must be lower-case SHA-256")).

Definition _parse_datetime (value : json) : res datetime :=
  match value with
  | JStr s => d ← fromisoformat (replace "Z" "+00:00" s); Ok (astimezone_utc d)
  | _ => Raise (TypeError "event datetime payload is not a string")
  end.

Definition _mapping (value : json) : res dict :=
  match value with
  | JObj kvs => Ok kvs
  | _ => Raise (TypeError "event payload value is not an object")
  end.

(** [str(value)] of a payload value; the projected fields are strings and numbers. *)
Definition py_str (value : json) : string :=
  match value with
  | JStr s => s
  | JInt n => str_Z n
  | JFloat r => r
  | JBool true => "True"
  | JBool false => "False"
  | JNull => "None"
  | JList _ | JObj _ => dumps_spaced value
  end.

Definition str_item (key : string) (d : dict) : res string := v ← dict_item key d; Ok (py_str v).
Definition time_item (key : string) (d : dict) : res datetime := v ← dict_item key d; _parse_datetime v.

(** Truth value of a JSON value. *)
Definition truthy (v : json) : bool :=
  match v with
  | JNull => false | JBool b => b | JInt n => negb (n =? 0) | JStr s => nonempty s
  | JFloat r => negb (String.eqb r "0.0") | JList l => negb (Nat.eqb (length l) 0)
  | JObj l => negb (Nat.eqb (length l) 0)
  end.

Definition _provider_listing_from_event (value : dict) : res ProviderListing :=
  listing_id ← (v ← dict_item "listing_id" value; _mapping v);
  price_increment ← dict_item "price_increment" value;
  valid_to ← dict_item "valid_to" value;
  provider ← str_item "provider" listing_id;
  environment ← str_item "environment" listing_id;
  external_id ← str_item "external_id" listing_id;
  ProviderListingId_post_init (mkListing provider environment external_id);;
  instrument ← str_item "instrument_id" value;
  InstrumentId_post_init instrument;;
  display_name ← str_item "display_name" value;
  product_type ← (s ← str_item "product_type" value; ProductType_of_str s);
  currency ← str_item "currency" value;
  minimum ← (s ← str_item "minimum_deal_size" value; Decimal_of_str s);
  increment ← match price_increment with
              | JNull => Ok None
              | v => d ← Decimal_of_str (py_str v); Ok (Some d)
              end;
  valid_from ← time_item "valid_from" value;
  valid_to ← match valid_to with JNull => Ok None | v => d ← _parse_datetime v; Ok (Some d) end;
  metadata_version ← str_item "metadata_version" value;
  economics ← (v ← dict_item "economics" value; _mapping v);
  let listing := mkProviderListing (mkListing provider environment external_id) instrument
                   display_name product_type currency minimum increment valid_from valid_to
                   metadata_version economics in
  ProviderListing_post_init listing;;
  Ok listing.

(** The dataclass [ProviderListing] as [to_json_value] sees it. *)
Definition listing_obj (l : ProviderListing) : pyobj :=
  PyDataclass
    [("listing_id", PyDataclass [("provider", PyStr (pl_provider (li_listing_id l)));
                                 ("environment", PyStr (pl_environment (li_listing_id l)));
                                 ("external_id", PyStr (pl_external_id (li_listing_id l)))]);
     ("instrument_id", PyId (li_instrument_id l));
     ("display_name", PyStr (li_display_name l));
     ("product_type", PyStr (ProductType_str (li_product_type l)));
     ("currency", PyStr (li_currency l));
     ("minimum_deal_size", PyDecimal (li_minimum_deal_size l));
     ("price_increment", from_option PyDecimal PyNone (li_price_increment l));
     ("valid_from", PyDatetime (li_valid_from l));
     ("valid_to", from_option PyDatetime PyNone (li_valid_to l));
     ("metadata_version", PyStr (li_metadata_version l));
     ("economics", of_json (JObj (li_economics l)))].

Definition set_valid_to (l : ProviderListing) (v : option datetime) : ProviderListing :=
  mkProviderListing (li_listing_id l) (li_instrument_id l) (li_display_name l) (li_product_type l)
    (li_currency l) (li_minimum_deal_size l) (li_price_increment l) (li_valid_from l) v
    (li_metadata_version l) (li_economics l).
Definition set_instrument (l : ProviderListing) (v : InstrumentId) : ProviderListing :=
  mkProviderListing (li_listing_id l) v (li_display_name l) (li_product_type l)
    (li_currency l) (li_minimum_deal_size l) (li_price_increment l) (li_valid_from l) (li_valid_to l)
    (li_metadata_version l) (li_economics l).

(** [UPDATE ... SET valid_to = :valid_from WHERE ...] *)
Definition close_earlier (listing : ProviderListing) (row : ListingRow) : ListingRow :=
  let old := lr_listing row in
  if String.eqb (pl_provider (li_listing_id old)) (pl_provider (li_listing_id listing))
     && String.eqb (pl_environment (li_listing_id old)) (pl_environment (li_listing_id listing))
     && String.eqb (li_instrument_id old) (li_instrument_id listing)
     && dt_ltb (li_valid_from old) (li_valid_from listing)
     && match li_valid_to old with None => true | Some t => dt_ltb (li_valid_from listing) t end
  then mkListingRow (set_valid_to old (Some (li_valid_from listing))) (lr_metadata row) (lr_universe_hash row)
  else row.

Definition _upsert_provider_listing_projection (rows : gmap listing_key ListingRow)
    (listing : ProviderListing) (metadata : json) (universe_hash : option string)
    : gmap listing_key ListingRow :=
  let rows := match li_valid_to listing with None => close_earlier listing <$> rows | Some _ => rows end in
  let key : listing_key := (pl_provider (li_listing_id listing), pl_environment (li_listing_id listing),
              pl_external_id (li_listing_id listing), li_valid_from listing) in
  let new := match rows !! key with
             | Some old => set_instrument listing (li_instrument_id (lr_listing old))
             | None => listing
             end in
  <[key := mkListingRow new metadata universe_hash]> rows.

(** ** Projections *)

(** [INSERT ... ON CONFLICT DO UPDATE ... WHERE table.global_position < EXCLUDED.global_position] *)
Definition newer (old new : QuoteRow) : bool :=
  match qr_global_position old, qr_global_position new with
  | Some p, Some p' => p <? p'
  | _, _ => false
  end.

Definition project_listing (m : ReadModels) (event : EventEnvelope) : res ReadModels :=
  let payload := ev_payload event in
  listing ← (v ← dict_item "listing" payload; d ← _mapping v; _provider_listing_from_event d);
  universe_hash ← str_item "universe_hash" payload;
  _require_sha256 universe_hash "provider listing event universe hash";;
  metadata ← to_json_value (listing_obj listing);
  Ok (set_listings m (_upsert_provider_listing_projection (rm_listings m) listing metadata
                        (Some universe_hash))).

Definition quote_row (event : EventEnvelope) (provider environment : string) (listing : dict)
    : res QuoteRow :=
  let payload := ev_payload event in
  external_id ← str_item "external_id" listing;
  event_time ← time_item "event_time" payload;
  received_time ← time_item "received_time" payload;
  quality ← str_item "quality" payload;
  Ok (mkQuoteRow provider environment external_id event_time received_time
        (dict_opt "bid" payload) (dict_opt "ask" payload) (dict_opt "bid_size" payload)
        (dict_opt "ask_size" payload) quality (ev_global_position event)).

Definition project_quote (m : ReadModels) (event : EventEnvelope) : res ReadModels :=
  let payload := ev_payload event in
  listing ← (v ← dict_item "listing_id" payload; _mapping v);
  match dict_opt "capture_source_class" payload with
  | JNull =>
      instrument ← str_item "instrument_id" payload;
      provider ← str_item "provider" listing;
      environment ← str_item "environment" listing;
      row ← quote_row event provider environment listing;
      Ok (set_latest m
            match rm_latest_quotes m !! instrument with
            | Some old => if newer old row then <[instrument := row]> (rm_latest_quotes m)
                          else rm_latest_quotes m
            | None => <[instrument := row]> (rm_latest_quotes m)
            end)
  | source_class =>
      provider ← str_item "capture_provider" payload;
      environment ← str_item "capture_environment" payload;
      source_id ← str_item "capture_source_id" payload;
      universe ← str_item "capture_universe_id" payload;
      configuration ← str_item "capture_configuration_hash" payload;
      instrument ← str_item "instrument_id" payload;
      row ← quote_row event provider environment listing;
      let key : capture_key := (py_str source_class, provider, environment, configuration, instrument) in
      let new := mkCaptureRow source_id universe row in
      Ok (set_capture_latest m
            match rm_capture_latest_quotes m !! key with
            | Some old => if newer (cr_quote old) row then <[key := new]> (rm_capture_latest_quotes m)
                          else rm_capture_latest_quotes m
            | None => <[key := new]> (rm_capture_latest_quotes m)
            end)
  end.

Definition project_bar (m : ReadModels) (event : EventEnvelope) : res ReadModels :=
  let payload := ev_payload event in
  source ← (v ← dict_item "source_listing_id" payload; _mapping v);
  instrument ← str_item "instrument_id" payload;
  basis ← str_item "basis" payload;
  interval_start ← time_item "interval_start" payload;
  interval_end ← time_item "interval_end" payload;
  open ← dict_item "open" payload;
  high ← dict_item "high" payload;
  low ← dict_item "low" payload;
  close ← dict_item "close" payload;
  sample_count ← dict_item "sample_count" payload;
  revision ← dict_item "revision" payload;
  provenance ← str_item "provenance" payload;
  quality ← str_item "quality" payload;
  provider ← str_item "provider" source;
  environment ← str_item "environment" source;
  external_id ← str_item "external_id" source;
  let key : bar_row_key := (instrument, basis, interval_start, dumps revision, provenance,
                            (provider, environment, external_id)) in
  let row := mkBarRow interval_end open high low close sample_count quality (ev_global_position event) in
  Ok (set_bars m match rm_market_bars m !! key with
                 | Some _ => rm_market_bars m
                 | None => <[key := row]> (rm_market_bars m)
                 end).

Definition project_gap (m : ReadModels) (event : EventEnvelope) : res ReadModels :=
  let payload := ev_payload event in
  instrument ← str_item "instrument_id" payload;
  interval_start ← time_item "interval_start" payload;
  interval_end ← time_item "interval_end" payload;
  reason ← str_item "reason" payload;
  detected_at ← time_item "detected_at" payload;
  repaired_at ← (if truthy (dict_opt "repaired_at" payload)
                 then d ← time_item "repaired_at" payload; Ok (Some d) else Ok None);
  let row := mkGapRow instrument interval_start interval_end reason detected_at repaired_at in
  Ok (set_gaps m match rm_data_gaps m !! ev_event_id event with
                 | Some _ => rm_data_gaps m
                 | None => <[ev_event_id event := row]> (rm_data_gaps m)
                 end).

Definition _project (m : ReadModels) (event : EventEnvelope) : res ReadModels :=
  if String.eqb (ev_event_type event) "ProviderListingValidated" then project_listing m event
  else if String.eqb (ev_event_type event) "MarketQuoteObserved" then project_quote m event
  else if String.eqb (ev_event_type event) "MarketBarClosed"
          || String.eqb (ev_event_type event) "MarketBarCorrected" then project_bar m event
  else if String.eqb (ev_event_type event) "MarketDataGapDetected" then project_gap m event
  else Ok m.

(** ** Capture and append *)

Definition same_dedup (a b : RawMessage) : bool :=
  String.eqb (rm_provider a) (rm_provider b) && String.eqb (rm_environment a) (rm_environment b)
  && String.eqb (rm_deduplication_key a) (rm_deduplication_key b).

(** The partial unique index on (session, generation, arrival). *)
Definition same_lineage (a b : RawMessage) : bool :=
  match rm_capture_session_id a, rm_connection_generation a, rm_arrival_sequence a,
        rm_capture_session_id b, rm_connection_generation b, rm_arrival_sequence b with
  | Some s, Some g, Some n, Some s', Some g', Some n' => String.eqb s s' && (g =? g') && (n =? n')
  | _, _, _, _, _, _ => false
  end.

(** [_capture]; [raw_id] is the identity value drawn for a new row. *)
Definition _capture (db : DB) (raw_id : Z) (message : RawMessage) : res (DB * (Z * bool)) :=
  let safe_payload := _redact_mapping (rm_payload message) in
  let payload_text := dumps (JObj safe_payload) in
  let payload_hash := sha256_hex payload_text in
  match List.find (λ r, same_dedup (rr_message r) message) (db_raw db) with
  | Some r => Ok (db, (rr_id r, true))
  | None =>
      raise_if (existsb (λ r, same_lineage (rr_message r) message) (db_raw db))
               (IntegrityError "uq_raw_market_messages_capture_lineage");;
      Ok (set_raw db (db_raw db ++ [mkRawRow raw_id (with_payload message safe_payload) payload_hash]), (raw_id, false))
  end.

Definition stream_events (stream_id : string) (events : list EventEnvelope) : list EventEnvelope :=
  List.filter (λ e, String.eqb (ev_stream_id e) stream_id) events.

(** [SELECT COALESCE(MAX(stream_version), 0) ... WHERE stream_id = :stream_id] *)
Definition max_version (stream_id : string) (events : list EventEnvelope) : Z :=
  foldr Z.max 0 (map ev_stream_version (stream_events stream_id events)).

(** [replace(event, global_position=..., persisted_time=..., raw_record_id=...)] *)
Definition persist (e : EventEnvelope) (position : Z) (persisted_time : datetime) (raw_record_id : option Z)
    : EventEnvelope :=
  mkEvent (ev_event_id e) (ev_stream_id e) (ev_stream_version e) (ev_event_type e) (ev_schema_version e)
    (ev_event_time e) (ev_received_time e) (Some persisted_time) (ev_correlation_id e)
    (ev_causation_id e) (ev_producer e) (ev_producer_version e) (ev_payload e) (Some position)
    raw_record_id.

(** [_append]; [position] and [now] are drawn by the INSERT. *)
Definition _append (db : DB) (position : Z) (now : datetime) (event : EventEnvelope)
    (expected_stream_version : Z) (raw_record_id : option Z) : res (DB * EventEnvelope) :=
  let current := max_version (ev_stream_id event) (db_events db) in
  raise_if (negb (current =? expected_stream_version) || negb (ev_stream_version event =? current + 1))
           (StreamVersionConflict (ev_stream_id event +:+ " expected " +:+ str_Z expected_stream_version
                                   +:+ ", current " +:+ str_Z current));;
  raise_if (existsb (λ e, bool_decide (ev_event_id e = ev_event_id event)) (db_events db))
           (StreamVersionConflict "events_event_id_key");;
  persisted ← EventEnvelope_new (persist event position (astimezone_utc now) raw_record_id);
  let db := set_events db (db_events db ++ [persisted]) in
  read ← _project (db_read db) persisted;
  Ok (set_checkpoint (set_read db read) (Some position), persisted).

Definition capture (db : DB) (raw_id : Z) (message : RawMessage) : res (DB * Z) :=
  r ← _capture db raw_id message; Ok (r.1, r.2.1).

Definition quarantine (db : DB) (raw_id : Z) (message : RawMessage) (reason_code detail : string)
    : res (DB * Z) :=
  '(db, (raw_id, _)) ← _capture db raw_id message;
  let quarantined := match db_quarantine db !! raw_id with
                     | Some _ => db_quarantine db
                     | None => <[raw_id := (reason_code, detail)]> (db_quarantine db)
                     end in
  Ok (set_quarantine db quarantined, raw_id).

Definition latest_stream_version (db : DB) (stream_id : string) : Z := max_version stream_id (db_events db).

Definition append (db : DB) (position : Z) (now : datetime) (event : EventEnvelope)
    (expected_stream_version : Z) : res (DB * EventEnvelope) :=
  _append db position now event expected_stream_version None.

Definition capture_and_append (db : DB) (raw_id position : Z) (now : datetime) (message : RawMessage)
    (event : EventEnvelope) (expected_stream_version : Z) : res (DB * AppendResult) :=
  '(db, (raw_id, duplicate)) ← _capture db raw_id message;
  if (duplicate : bool) then Ok (db, mkAppendResult None (Some raw_id) true)
  else
    p ← _append db position now event expected_stream_version (Some raw_id);
    Ok (p.1, mkAppendResult (Some p.2) (Some raw_id) false).

(** ** Rebuild and reads *)

Definition position_of (e : EventEnvelope) : Z := default 0 (ev_global_position e).

(** [SELECT * FROM canonical.events ... ORDER BY global_position] *)
Definition ordered (events : list EventEnvelope) : list EventEnvelope := py_sorted position_of events.

Definition _event_from_row (row : EventEnvelope) : res EventEnvelope := EventEnvelope_new row.

(** Truncated tables; only listings that came from events are deleted. *)
Definition truncated (m : ReadModels) : ReadModels :=
  mkReadModels (filter (λ kr, lr_universe_hash kr.2 = None) (rm_listings m)) ∅ ∅ ∅ ∅.

Definition rebuild_projections (db : DB) : res (DB * Z) :=
  r ← for_each (λ (acc : ReadModels * Z * Z) row,
        let '(m, count, last_position) := acc in
        event ← _event_from_row row;
        m ← _project m event;
        Ok (m, count + 1,
            match ev_global_position event with
            | Some p => if p =? 0 then last_position else p
            | None => last_position
            end))
      (truncated (db_read db), 0, 0) (ordered (db_events db));
  let '(m, count, last_position) := r in
  Ok (set_checkpoint (set_read db m) (Some last_position), count).

Definition read_all (db : DB) (after_position : Z) : res (list EventEnvelope) :=
  traverse _event_from_row
    (ordered (List.filter (λ e, after_position <? position_of e) (db_events db))).

(** [read_page]; [identity] is the identity filter's test on a payload, if any. *)
Definition identity_filter (source_class provider environment configuration_hash : option string)
    (payload : dict) : bool :=
  let eq key v := match dict_opt key payload, v with
                  | JNull, _ | _, None => false
                  | j, Some v => String.eqb (py_str j) v
                  end in
  if bool_decide (source_class = Some "IBKR_NATIVE_CAPTURE") then
    eq "capture_source_class" source_class && eq "capture_provider" provider
    && eq "capture_environment" environment && eq "capture_configuration_hash" configuration_hash
  else true.

Definition read_page (db : DB) (after_position limit : Z)
    (source_class provider environment configuration_hash : option string) : res EventPage :=
  raise_if (after_position <? 0) (ValueError "event cursor cannot be negative");;
  raise_if (negb ((1 <=? limit) && (limit <=? 1000)))
           (ValueError "event page limit must be between 1 and 1000");;
  let matching := List.filter (λ e, identity_filter source_class provider environment
                                      configuration_hash (ev_payload e)) (db_events db) in
  events ← traverse _event_from_row
    (firstn (Z.to_nat limit)
       (ordered (List.filter (λ e, after_position <? position_of e) matching)));
  let high_water_position := foldr Z.max 0 (map position_of matching) in
  EventPage_new (mkEventPage events high_water_position).

(** ** Serial histories *)

Inductive store_op : Type :=
| SCapture (raw_id : Z) (message : RawMessage)
| SQuarantine (raw_id : Z) (message : RawMessage) (reason detail : string)
| SAppend (position : Z) (now : datetime) (event : EventEnvelope) (expected : Z)
| SCaptureAppend (raw_id position : Z) (now : datetime) (message : RawMessage)
    (event : EventEnvelope) (expected : Z)
| SRebuild.

Definition store_exec (db : DB) (op : store_op) : res DB :=
  match op with
  | SCapture raw_id message => fst <$> capture db raw_id message
  | SQuarantine raw_id message reason detail => fst <$> quarantine db raw_id message reason detail
  | SAppend position now event expected => fst <$> append db position now event expected
  | SCaptureAppend raw_id position now message event expected =>
      fst <$> capture_and_append db raw_id position now message event expected
  | SRebuild => fst <$> rebuild_projections db
  end.

(** A transaction that raises is rolled back. *)
Definition store_step (db : DB) (op : store_op) : DB :=
  match store_exec db op with Ok db' => db' | Raise _ => db end.

(** Identity columns hand out values never used before, events increasing ones. *)
Definition fresh_raw (db : DB) (raw_id : Z) : Prop := raw_id ∉ rr_id <$> db_raw db.
Definition fresh_position (db : DB) (position : Z) : Prop :=
  0 < position ∧ ∀ e, e ∈ db_events db → position_of e < position.

Definition draws_ok (db : DB) (op : store_op) : Prop :=
  match op with
  | SCapture raw_id _ | SQuarantine raw_id _ _ _ => fresh_raw db raw_id
  | SAppend position now _ _ => fresh_position db position ∧ is_Some (dt_offset now)
  | SCaptureAppend raw_id position now _ _ _ =>
      fresh_raw db raw_id ∧ fresh_position db position ∧ is_Some (dt_offset now)
  | SRebuild => True
  end.

Inductive store_reach (db0 : DB) : DB → Prop :=
| reach_refl : store_reach db0 db0
| reach_step db op : store_reach db0 db → draws_ok db op → store_reach db0 (store_step db op).

Record db_ok (db : DB) : Prop := {
  ok_versions : ∀ s, map ev_stream_version (stream_events s (db_events db))
                     = seqZ 1 (Z.of_nat (length (stream_events s (db_events db))));
  ok_event_ids : NoDup (map ev_event_id (db_events db));
  ok_positions : StronglySorted (λ a b, position_of a < position_of b) (db_events db);
  ok_persisted : Forall (λ e, EventEnvelope_post_init e = Ok tt ∧ is_Some (ev_persisted_time e) ∧
                              ∃ p, ev_global_position e = Some p ∧ 0 < p) (db_events db);
  ok_raw_ids : NoDup (map rr_id (db_raw db));
  ok_dedup : ∀ r r', r ∈ db_raw db → r' ∈ db_raw db →
     same_dedup (rr_message r) (rr_message r') = true → r = r';
  ok_links : NoDup (omap ev_raw_record_id (db_events db));
  ok_raw_refs : ∀ e r, e ∈ db_events db → ev_raw_record_id e = Some r → r ∈ map rr_id (db_raw db);
  ok_redacted : ∀ r, r ∈ db_raw db → ∃ m, rr_message r = with_payload m (_redact_mapping (rm_payload m)) ∧
     rr_payload_sha256 r = sha256_json (JObj (_redact_mapping (rm_payload m)));
  ok_read : for_each _project no_rows (db_events db) = Ok (db_read db) }.

(** ** Facts about the parts *)

Arguments stream_events : simpl never.

Lemma stream_events_app s l l' : stream_events s (l ++ l') = stream_events s l ++ stream_events s l'.
Proof. apply List.filter_app. Qed.

Lemma foldr_max_snoc l x : foldr Z.max 0 (l ++ [x]) = Z.max (foldr Z.max 0 l) x.
Proof. induction l as [|y l IH]; cbn; lia. Qed.

Lemma max_seqZ l n : l = seqZ 1 (Z.of_nat n) → foldr Z.max 0 l = Z.of_nat n.
Proof.
  intros ->. induction n as [|n IH]; [done|]. rewrite Nat2Z.inj_succ, <- Z.add_1_r.
  rewrite seqZ_app by lia. rewrite (seqZ_cons (1 + Z.of_nat n)) by lia.
  rewrite (seqZ_nil _ (Z.pred 1)) by lia. rewrite foldr_max_snoc, IH. lia.
Qed.

Lemma max_version_length db s : db_ok db →
  max_version s (db_events db) = Z.of_nat (length (stream_events s (db_events db))).
Proof. intros H. apply max_seqZ, (ok_versions _ H). Qed.

Lemma same_dedup_sym a b : same_dedup a b = same_dedup b a.
Proof. unfold same_dedup. by rewrite (String.eqb_sym (rm_provider a)), (String.eqb_sym (rm_environment a)),
  (String.eqb_sym (rm_deduplication_key a)). Qed.
Lemma same_dedup_trans a b c : same_dedup a b = true → same_dedup b c = true → same_dedup a c = true.
Proof.
  unfold same_dedup. rewrite !andb_true_iff, !String.eqb_eq. intros [[] ?] [[] ?].
  split_and!; congruence.
Qed.
Lemma same_dedup_payload a b p : same_dedup (with_payload a p) b = same_dedup a b.
Proof. done. Qed.

Lemma find_dedup db m :
  match List.find (λ r, same_dedup (rr_message r) m) (db_raw db) with
  | Some r => r ∈ db_raw db ∧ same_dedup (rr_message r) m = true
  | None => ∀ r, r ∈ db_raw db → same_dedup (rr_message r) m = false
  end.
Proof.
  destruct (List.find _ _) as [r|] eqn:E.
  - apply List.find_some in E as [Hin Hr]. by apply list_elem_of_In in Hin.
  - intros r Hin. apply (List.find_none _ _ E). by apply list_elem_of_In.
Qed.

(** What [_capture] does: nothing for a known key, one redacted row otherwise. *)
Lemma capture_spec db raw_id m r :
  _capture db raw_id m = Ok r →
  (∃ row, row ∈ db_raw db ∧ same_dedup (rr_message row) m = true ∧ r = (db, (rr_id row, true))) ∨
  ((∀ row, row ∈ db_raw db → same_dedup (rr_message row) m = false) ∧
   r = (set_raw db (db_raw db ++
          [mkRawRow raw_id (with_payload m (_redact_mapping (rm_payload m)))
             (sha256_json (JObj (_redact_mapping (rm_payload m))))]), (raw_id, false))).
Proof.
  intros H. unfold _capture in H. pose proof (find_dedup db m) as Hf.
  destruct (List.find _ _) as [row|].
  - injection H as <-. left. destruct Hf. eauto.
  - right. split; [done|]. apply bind_Ok in H as (u & _ & H). by injection H as <-.
Qed.

Lemma append_spec db position now event expected raw r :
  _append db position now event expected raw = Ok r →
  let persisted := persist event position (astimezone_utc now) raw in
  expected = max_version (ev_stream_id event) (db_events db) ∧
  ev_stream_version event = expected + 1 ∧
  (∀ e, e ∈ db_events db → ev_event_id e ≠ ev_event_id event) ∧
  EventEnvelope_post_init persisted = Ok tt ∧
  ∃ read, _project (db_read db) persisted = Ok read ∧
    r = (mkDB (db_raw db) (db_quarantine db) (db_events db ++ [persisted]) read (Some position), persisted).
Proof.
  intros H. unfold _append in H. cbv zeta in H. apply bind_Ok in H as (u1 & H1 & H).
  apply raise_if_Ok in H1. bool_prop. apply bind_Ok in H as (u2 & H2 & H). apply raise_if_Ok in H2.
  apply bind_Ok in H as (p & Hp & H). apply bind_Ok in H as (read & Hread & H).
  unfold EventEnvelope_new in Hp. apply bind_Ok in Hp as ([] & Hpost & [= <-]).
  injection H as <-. split_and!; [congruence|lia| |done|eauto].
  intros e He Heq. assert (existsb (λ e, bool_decide (ev_event_id e = ev_event_id event)) (db_events db) = true);
    [|congruence].
  apply existsb_exists. exists e. rewrite <- list_elem_of_In. by rewrite bool_decide_eq_true.
Qed.

(** ** The invariant is kept *)

Lemma raw_ok_preserved db row :
  db_ok db → fresh_raw db (rr_id row) →
  (∀ r, r ∈ db_raw db → same_dedup (rr_message r) (rr_message row) = false) →
  (∃ m, rr_message row = with_payload m (_redact_mapping (rm_payload m)) ∧
        rr_payload_sha256 row = sha256_json (JObj (_redact_mapping (rm_payload m)))) →
  db_ok (set_raw db (db_raw db ++ [row])).
Proof.
  intros H Hf Hd Hr. destruct H. split; cbn; try done.
  - rewrite map_app. apply NoDup_app. split_and!; [done| |by apply NoDup_singleton].
    intros x Hx ->%list_elem_of_singleton. by apply Hf.
  - intros r r' [Hin|Hin%list_elem_of_singleton]%elem_of_app [Hin'|Hin'%list_elem_of_singleton]%elem_of_app Hs;
      subst.
    + by apply ok_dedup0.
    + rewrite Hd in Hs; done.
    + rewrite same_dedup_sym, Hd in Hs; done.
    + done.
  - intros e r He Hr'. rewrite map_app. apply elem_of_app. left. by eapply ok_raw_refs0.
  - intros r [Hin| ->%list_elem_of_singleton]%elem_of_app; [by apply ok_redacted0|done].
Qed.

Lemma capture_ok db raw_id m db' r :
  db_ok db → fresh_raw db raw_id → _capture db raw_id m = Ok (db', r) → db_ok db'.
Proof.
  intros H Hf Hc. destruct (capture_spec _ _ _ _ Hc) as [(row & _ & _ & E)|[Hn E]]; injection E as -> _.
  - done.
  - apply raw_ok_preserved; [done|done| |cbn; eauto]. intros r' Hr'. cbn.
    rewrite same_dedup_sym. cbn. rewrite same_dedup_payload, same_dedup_sym. by apply Hn.
Qed.

Lemma strongly_sorted_snoc {A} (R : A → A → Prop) l x :
  StronglySorted R l → (∀ y, y ∈ l → R y x) → StronglySorted R (l ++ [x]).
Proof.
  induction 1 as [|y l Hs IH Hf]; intros Hx; cbn; [repeat constructor|].
  constructor; [apply IH; intros; apply Hx; set_solver|].
  apply Forall_app. split; [done|]. apply Forall_singleton, Hx. set_solver.
Qed.

Lemma omap_snoc {A B} (f : A → option B) l x : omap f (l ++ [x]) = omap f l ++ omap f [x].
Proof. by rewrite omap_app. Qed.

Lemma append_ok db position now event expected raw db' e :
  db_ok db → fresh_position db position → is_Some (dt_offset now) →
  (∀ r, raw = Some r → r ∈ map rr_id (db_raw db) ∧ r ∉ omap ev_raw_record_id (db_events db)) →
  _append db position now event expected raw = Ok (db', e) → db_ok db'.
Proof.
  intros H [Hpos Hfr] Hnow Hraw Ha. apply append_spec in Ha as (Hexp & Hver & Hid & Hpost & read & Hread & [= -> ->]).
  pose proof (max_version_length db (ev_stream_id event) H) as Hlen.
  set (p := persist event position (astimezone_utc now) raw) in *.
  destruct H. split; cbn; try done.
  - intros s. rewrite stream_events_app, map_app, length_app. unfold stream_events at 2 4. cbn [List.filter].
    destruct (String.eqb_spec (ev_stream_id p) s) as [<-|Hne].
    + rewrite ok_versions0. cbn [map length]. rewrite Nat2Z.inj_add, seqZ_app by lia. f_equal.
      rewrite seqZ_cons by lia. rewrite (seqZ_nil _ (Z.pred _)) by lia. f_equal.
      change (ev_stream_version p) with (ev_stream_version event).
      change (ev_stream_id p) with (ev_stream_id event). lia.
    + cbn. by rewrite app_nil_r, Nat.add_0_r.
  - rewrite map_app. apply NoDup_app. split_and!; [done| |by apply NoDup_singleton].
    intros x (y & -> & Hy)%list_elem_of_fmap Hx%list_elem_of_singleton. by eapply Hid.
  - apply strongly_sorted_snoc; [done|]. intros y Hy. by apply Hfr.
  - apply Forall_app. split; [done|]. apply Forall_singleton. split; [done|]. split; [by eexists|].
    eexists. split; [done|]. done.
  - rewrite omap_snoc. destruct raw as [r|]; cbn; [|by rewrite app_nil_r].
    destruct (Hraw r eq_refl) as [_ Hr]. apply NoDup_app. split_and!; [done| |by apply NoDup_singleton].
    intros x Hx ->%list_elem_of_singleton. done.
  - intros e r [He| ->%list_elem_of_singleton]%elem_of_app Hr; [by eapply ok_raw_refs0|].
    by apply Hraw.
  - rewrite for_each_app, ok_read0. cbn. by rewrite Hread.
Qed.

(** Every listing projected from an event carries its universe hash. *)
Definition listings_hashed (m : ReadModels) : Prop :=
  map_Forall (λ _ r, lr_universe_hash r ≠ None) (rm_listings m).

Lemma upsert_hashed rows listing metadata h :
  map_Forall (λ _ r, lr_universe_hash r ≠ None) rows →
  map_Forall (λ _ r, lr_universe_hash r ≠ None)
    (_upsert_provider_listing_projection rows listing metadata (Some h)).
Proof.
  intros H. unfold _upsert_provider_listing_projection.
  apply map_Forall_insert_2; [done|]. destruct (li_valid_to listing); [done|].
  intros k r (r0 & <- & Hr)%lookup_fmap_Some. unfold close_earlier. specialize (H k r0 Hr).
  by destruct (_ && _).
Qed.

Lemma project_hashed m e m' : listings_hashed m → _project m e = Ok m' → listings_hashed m'.
Proof.
  intros H. unfold _project, listings_hashed.
  destruct (String.eqb _ _).
  { intros Hp. unfold project_listing in Hp. res_inv. by apply upsert_hashed. }
  assert (∀ r : res ReadModels, (∀ m', r = Ok m' → rm_listings m' = rm_listings m) → r = Ok m' →
    map_Forall (λ _ r, lr_universe_hash r ≠ None) (rm_listings m')) as Hsame.
  { intros r Hr E. by rewrite (Hr m' E). }
  destruct (String.eqb _ _).
  { apply Hsame. intros m1 Hp. unfold project_quote in Hp. destruct (dict_item _ _); [|done].
    cbn in Hp. destruct (_mapping _); [|done]. cbn in Hp. destruct (dict_opt _ _); cbn in Hp; by res_inv. }
  destruct (_ || _).
  { apply Hsame. intros m1 Hp. unfold project_bar in Hp. by res_inv. }
  destruct (String.eqb _ _).
  { apply Hsame. intros m1 Hp. unfold project_gap in Hp. by res_inv. }
  by intros [= <-].
Qed.

Lemma read_hashed db : db_ok db → listings_hashed (db_read db).
Proof.
  intros H. pose proof (ok_read _ H) as Hr. revert Hr.
  apply (for_each_inv _ listings_hashed); [|apply map_Forall_empty].
  intros m e m' _. apply project_hashed.
Qed.

Lemma truncated_no_rows m : listings_hashed m → truncated m = no_rows.
Proof.
  intros H. unfold truncated, no_rows. f_equal. apply map_eq. intros k. rewrite lookup_empty.
  apply map_lookup_filter_None. right. intros r Hr. by apply (H k).
Qed.

Lemma ordered_id db : db_ok db → ordered (db_events db) = db_events db.
Proof.
  intros H. apply py_sorted_id. pose proof (ok_positions _ H) as Hs. induction Hs as [|e l Hs IH Hf]; [constructor|].
  constructor; [done|]. eapply Forall_impl; [exact Hf|]. intros e' He. cbn in He.
  unfold key_le. rewrite pyle_Z. lia.
Qed.

Lemma rebuild_loop l m0 m c lp :
  Forall (λ e, EventEnvelope_post_init e = Ok tt ∧ ∃ p, ev_global_position e = Some p ∧ 0 < p) l →
  for_each _project m0 l = Ok m →
  for_each (λ (acc : ReadModels * Z * Z) row,
        let '(m, count, last_position) := acc in
        event ← _event_from_row row;
        m ← _project m event;
        Ok (m, count + 1,
            match ev_global_position event with
            | Some p => if p =? 0 then last_position else p
            | None => last_position
            end)) (m0, c, lp) l
  = Ok (m, c + Z.of_nat (length l), match list.last l with Some e => position_of e | None => lp end).
Proof.
  revert m0 c lp. induction l as [|e l IH]; intros m0 c lp Hl Hm; cbn in *.
  - injection Hm as ->. repeat f_equal. lia.
  - apply Forall_cons in Hl as [(Hpost & p & Hp & Hpos) Hl].
    unfold _event_from_row, EventEnvelope_new. rewrite Hpost. cbn.
    apply bind_Ok in Hm as (m1 & H1 & Hm). rewrite H1. cbn. rewrite (IH m1) by done.
    rewrite Hp. replace (p =? 0) with false by lia. f_equal. f_equal; [f_equal; lia|].
    rewrite list.last_cons. destruct (list.last l); [done|]. unfold position_of. by rewrite Hp.
Qed.

Lemma rebuild_eq db : db_ok db →
  rebuild_projections db
  = Ok (set_checkpoint db (Some match list.last (db_events db) with Some e => position_of e | None => 0 end),
        Z.of_nat (length (db_events db))).
Proof.
  intros H. unfold rebuild_projections. rewrite ordered_id by done.
  rewrite (truncated_no_rows _ (read_hashed _ H)).
  rewrite (rebuild_loop _ _ (db_read db)); [cbn| |apply (ok_read _ H)].
  - done.
  - eapply Forall_impl; [apply (ok_persisted _ H)|]. cbn. naive_solver.
Qed.

Lemma step_ok db op : db_ok db → draws_ok db op → db_ok (store_step db op).
Proof.
  intros H Hd. unfold store_step. destruct (store_exec db op) as [db'|] eqn:E; [|done].
  destruct op as [raw m|raw m reason detail|pos now ev ex|raw pos now m ev ex|]; cbn in E, Hd.
  - unfold capture in E. destruct (_capture db raw m) as [[db1 r]|] eqn:Ec; cbn in E; [|done].
    injection E as <-. by eapply capture_ok.
  - unfold quarantine in E. destruct (_capture db raw m) as [[db1 [r d]]|] eqn:Ec; cbn in E; [|done].
    injection E as <-. apply capture_ok in Ec; [|done..]. destruct Ec. by split.
  - unfold append in E. destruct (_append _ _ _ _ _ _) as [[db1 r]|] eqn:Ea; cbn in E; [|done].
    injection E as <-. eapply append_ok; [exact H|by apply Hd|by apply Hd| |exact Ea]. done.
  - unfold capture_and_append in E. destruct Hd as (Hraw & Hpos & Hnow).
    destruct (_capture db raw m) as [[db1 [r d]]|] eqn:Ec; cbn in E; [|done].
    pose proof (capture_ok _ _ _ _ _ H Hraw Ec) as H1.
    destruct d; cbn in E; [injection E as <-; done|].
    destruct (_append _ _ _ _ _ _) as [[db2 e]|] eqn:Ea; cbn in E; [|done]. injection E as <-.
    destruct (capture_spec _ _ _ _ Ec) as [(row & _ & _ & [=])|[Hn [= E1 E2]]]. subst r db1.
    eapply append_ok; [exact H1|exact Hpos|exact Hnow| |exact Ea].
    intros r [= <-]. cbn. rewrite map_app. split; [set_solver|].
    intros (e' & He' & Hr)%list_elem_of_omap. apply (ok_raw_refs _ H _ _ He') in Hr. by apply Hraw.
  - rewrite rebuild_eq in E by done. cbn in E. injection E as <-. destruct H. by split.
Qed.

Lemma empty_ok : db_ok empty_db.
Proof. split; cbn; try done; try constructor; try (by intros ? ?%elem_of_nil); intros; by apply elem_of_nil in H. Qed.

Lemma reach_ok db0 db : db_ok db0 → store_reach db0 db → db_ok db.
Proof. intros H0. induction 1; [done|by apply step_ok]. Qed.

(** ** What later transactions keep *)

Lemma store_step_grows db op :
  (∀ r, r ∈ db_raw db → r ∈ db_raw (store_step db op)) ∧
  ∃ l, db_events (store_step db op) = db_events db ++ l.
Proof.
  unfold store_step. destruct (store_exec db op) as [db'|] eqn:E; [|split; [done|by exists []; rewrite app_nil_r]].
  assert (∀ raw m db1 x, _capture db raw m = Ok (db1, x) →
    (∀ r, r ∈ db_raw db → r ∈ db_raw db1) ∧ db_events db1 = db_events db) as Hcap.
  { intros raw m db1 x Hc. destruct (capture_spec _ _ _ _ Hc) as [(?&_&_&[= -> _])|[_ [= -> _]]];
      cbn; split; try done. set_solver. }
  destruct op as [raw m|raw m reason detail|pos now ev ex|raw pos now m ev ex|]; cbn in E.
  - unfold capture in E. destruct (_capture db raw m) as [[db1 r]|] eqn:Ec; cbn in E; [|done].
    injection E as <-. destruct (Hcap _ _ _ _ Ec) as [? ->]. split; [done|]. exists []. by rewrite app_nil_r.
  - unfold quarantine in E. destruct (_capture db raw m) as [[db1 [r d]]|] eqn:Ec; cbn in E; [|done].
    injection E as <-. cbn. destruct (Hcap _ _ _ _ Ec) as [? ->]. split; [done|]. exists []. by rewrite app_nil_r.
  - unfold append in E. destruct (_append _ _ _ _ _ _) as [[db1 r]|] eqn:Ea; cbn in E; [|done].
    injection E as <-. apply append_spec in Ea as (_&_&_&_& read & _ & [= -> ->]). cbn. split; [done|eauto].
  - unfold capture_and_append in E. destruct (_capture db raw m) as [[db1 [r d]]|] eqn:Ec; cbn in E; [|done].
    destruct (Hcap _ _ _ _ Ec) as [Hraw Hev]. destruct d; cbn in E.
    + injection E as <-. split; [done|]. exists []. by rewrite app_nil_r.
    + destruct (_append _ _ _ _ _ _) as [[db2 e]|] eqn:Ea; cbn in E; [|done]. injection E as <-.
      apply append_spec in Ea as (_&_&_&_& read & _ & [= -> ->]). cbn. rewrite Hev. split; [done|eauto].
  - destruct (rebuild_projections db) as [[db1 n]|] eqn:Er; cbn in E; [|done]. injection E as <-.
    unfold rebuild_projections in Er. apply bind_Ok in Er as ([[m c] lp] & _ & [= <- _]). cbn.
    split; [done|]. exists []. by rewrite app_nil_r.
Qed.

Lemma store_reach_grows db0 db :
  store_reach db0 db →
  (∀ r, r ∈ db_raw db0 → r ∈ db_raw db) ∧ ∃ l, db_events db = db_events db0 ++ l.
Proof.
  induction 1 as [|db op Hr [IH1 (l & IH2)] Hd]; [split; [done|by exists []; rewrite app_nil_r]|].
  destruct (store_step_grows db op) as [H1 (l' & H2)]. split; [auto|].
  exists (l ++ l'). by rewrite H2, IH2, app_assoc.
Qed.

Lemma reach_trans a b c : store_reach a b → store_reach b c → store_reach a c.
Proof. intros Hab. induction 1; [done|]. by apply reach_step. Qed.

Lemma capture_append_step db raw pos now m ev ex db1 r :
  capture_and_append db raw pos now m ev ex = Ok (db1, r) →
  store_step db (SCaptureAppend raw pos now m ev ex) = db1.
Proof. intros H. unfold store_step. cbn. by rewrite H. Qed.

(** ** Reading pages *)

Definition matching (sc p e c : option string) (db : DB) : list EventEnvelope :=
  List.filter (λ ev, identity_filter sc p e c (ev_payload ev)) (db_events db).
Definition after_cursor (cursor : Z) (l : list EventEnvelope) : list EventEnvelope :=
  List.filter (λ ev, cursor <? position_of ev) l.

Definition increasing : list EventEnvelope → Prop :=
  StronglySorted (λ a b, position_of a < position_of b).

Lemma increasing_filter f l : increasing l → increasing (List.filter f l).
Proof.
  induction 1 as [|e l Hs IH Hf]; cbn; [constructor|]. destruct (f e); [|done]. constructor; [done|].
  apply list.Forall_forall. intros x Hx%list_elem_of_In. apply List.filter_In in Hx as [Hx _].
  rewrite list.Forall_forall in Hf. apply Hf. by apply list_elem_of_In.
Qed.

Lemma increasing_ordered l : increasing l → ordered l = l.
Proof.
  intros Hs. apply py_sorted_id. induction Hs as [|e l Hs IH Hf]; [constructor|].
  constructor; [done|]. eapply Forall_impl; [exact Hf|]. intros e' He. cbn in He.
  unfold key_le. rewrite pyle_Z. lia.
Qed.

Lemma increasing_firstn n l : increasing l → increasing (firstn n l).
Proof.
  intros H. revert n. induction H as [|e l Hs IH Hf]; intros [|n]; cbn; try constructor; [apply IH|].
  apply list.Forall_forall. intros x Hx%elem_of_take. rewrite list.Forall_forall in Hf.
  destruct Hx as (i & Hx & _). apply Hf. by eapply list_elem_of_lookup_2.
Qed.

Definition row_ok (e : EventEnvelope) : Prop :=
  EventEnvelope_post_init e = Ok tt ∧ is_Some (ev_persisted_time e) ∧
  ∃ p, ev_global_position e = Some p ∧ 0 < p.

Lemma traverse_rows l : Forall row_ok l → traverse _event_from_row l = Ok l.
Proof.
  intros H. apply traverse_Ok. induction H as [|e l (Hp & _) Hl IH]; constructor; [|done].
  unfold _event_from_row, EventEnvelope_new. by rewrite Hp.
Qed.

Lemma sorted_set_id l : StronglySorted Z.lt l → sorted_set l = l.
Proof.
  intros H. unfold sorted_set. assert (NoDup l) as Hn.
  { induction H as [|x l Hs IH Hf]; constructor; [|done]. intros Hin. rewrite list.Forall_forall in Hf.
    specialize (Hf x Hin). lia. }
  assert (remove_dups l = l) as ->.
  { clear H. induction Hn as [|x l Hx Hn IH]; [done|]. cbn. destruct (decide_rel _ x l); [done|]. by rewrite IH. }
  apply py_sorted_id. clear Hn. induction H as [|x l Hs IH Hf]; constructor; [done|].
  eapply Forall_impl; [exact Hf|]. intros y Hy. unfold key_le. rewrite pyle_Z. cbn. lia.
Qed.

Lemma page_positions l acc : Forall row_ok l →
  for_each (λ positions event,
      match ev_global_position event, ev_persisted_time event with
      | Some position, Some _ =>
          raise_if (position <=? 0) (ValueError "event page positions must be positive");;
          Ok (positions ++ [position])
      | _, _ => Raise (ValueError "event pages require persisted events")
      end) acc l = Ok (acc ++ map position_of l).
Proof.
  intros H. revert acc. induction H as [|e l (_ & [t Ht] & p & Hp & Hpos) Hl IH]; intros acc; cbn [for_each].
  - by rewrite app_nil_r.
  - rewrite Hp, Ht. replace (p <=? 0) with false by lia. cbn [raise_if mbind res_bind]. rewrite IH.
    cbn [map]. unfold position_of at 2. rewrite Hp. cbn. by rewrite <- app_assoc.
Qed.

Lemma event_page_ok l hw :
  Forall row_ok l → increasing l → (∀ e, e ∈ l → position_of e <= hw) → 0 <= hw →
  EventPage_new (mkEventPage l hw) = Ok (mkEventPage l hw).
Proof.
  intros Hl Hs Hb Hhw. unfold EventPage_new, EventPage_post_init. cbn [ep_events ep_high_water_position].
  replace (hw <? 0) with false by lia. cbn [raise_if mbind res_bind]. rewrite page_positions by done.
  cbn [app mbind res_bind]. rewrite sorted_set_id.
  2:{ clear -Hs. induction Hs as [|e l Hs IH Hf]; cbn; constructor; [done|].
      apply list.Forall_forall. intros x (y & -> & Hy)%list_elem_of_fmap.
      rewrite list.Forall_forall in Hf. by apply Hf. }
  rewrite bool_decide_true by done. cbn [negb raise_if mbind res_bind].
  destruct (list.last (map position_of l)) as [p|] eqn:E; [|done].
  apply last_Some_elem_of in E. apply list_elem_of_fmap in E as (e & -> & He).
  specialize (Hb e He). by replace (hw <? position_of e) with false by lia.
Qed.

Lemma max_position_ub l e : e ∈ l → position_of e <= foldr Z.max 0 (map position_of l).
Proof. induction 1 as [|x y l Hin IH]; cbn; lia. Qed.
Lemma max_position_nonneg l : 0 <= foldr Z.max 0 (map position_of l).
Proof. induction l; cbn; lia. Qed.

Lemma matching_facts db sc p e c : db_ok db →
  increasing (matching sc p e c db) ∧ Forall row_ok (matching sc p e c db).
Proof.
  intros H. split; [apply increasing_filter, (ok_positions _ H)|].
  apply list.Forall_forall. intros x Hx%list_elem_of_In. apply List.filter_In in Hx as [Hx _].
  apply list_elem_of_In in Hx. pose proof (ok_persisted _ H) as Hp. rewrite list.Forall_forall in Hp. by apply Hp.
Qed.

Lemma read_page_eq db cursor limit sc p e c :
  db_ok db → 0 <= cursor → 1 <= limit <= 1000 →
  read_page db cursor limit sc p e c
  = Ok (mkEventPage (firstn (Z.to_nat limit) (after_cursor cursor (matching sc p e c db)))
          (foldr Z.max 0 (map position_of (matching sc p e c db)))).
Proof.
  intros H Hc Hl. unfold read_page. replace (cursor <? 0) with false by lia.
  replace ((1 <=? limit) && (limit <=? 1000)) with true by lia. cbn [raise_if mbind res_bind negb].
  fold (matching sc p e c db). fold (after_cursor cursor (matching sc p e c db)).
  destruct (matching_facts db sc p e c H) as [Hs Hr].
  assert (∀ x, x ∈ firstn (Z.to_nat limit) (after_cursor cursor (matching sc p e c db)) →
    x ∈ matching sc p e c db) as Hsub.
  { intros x (i & Hx & _)%elem_of_take. apply list_elem_of_lookup_2, list_elem_of_In in Hx.
    apply List.filter_In in Hx as [Hx _]. by apply list_elem_of_In. }
  rewrite increasing_ordered by (by apply increasing_filter).
  rewrite traverse_rows. 2:{ apply list.Forall_forall. intros x Hx. rewrite list.Forall_forall in Hr. auto. }
  cbn [mbind res_bind]. apply event_page_ok.
  - apply list.Forall_forall. intros x Hx. rewrite list.Forall_forall in Hr. auto.
  - by apply increasing_firstn, increasing_filter.
  - intros x Hx. by apply max_position_ub, Hsub.
  - apply max_position_nonneg.
Qed.

(** A reader that asks for pages until one comes back empty. *)
Fixpoint read_pages (fuel : nat) (db : DB) (cursor limit : Z) (sc p e c : option string)
    : res (list EventEnvelope) :=
  match fuel with
  | O => Ok []
  | S fuel =>
      page ← read_page db cursor limit sc p e c;
      match list.last (ep_events page) with
      | None => Ok []
      | Some last => rest ← read_pages fuel db (position_of last) limit sc p e c; Ok (ep_events page ++ rest)
      end
  end.

Lemma after_cursor_skip l cursor n x :
  increasing l → list.last (firstn n (after_cursor cursor l)) = Some x →
  after_cursor (position_of x) l = skipn n (after_cursor cursor l) ∧ cursor < position_of x.
Proof.
  intros Hs Hl. set (m := after_cursor cursor l) in *.
  assert (increasing m) as Hm by (by apply increasing_filter).
  assert (cursor < position_of x) as Hcx.
  { apply last_Some_elem_of in Hl. apply elem_of_take in Hl as (i & Hx & _).
    apply list_elem_of_lookup_2, list_elem_of_In in Hx. apply List.filter_In in Hx as [_ Hx]. lia. }
  split; [|done].
  assert (after_cursor (position_of x) l = after_cursor (position_of x) m) as ->.
  { unfold m, after_cursor. clear -Hcx. induction l as [|e l IH]; [done|]. cbn.
    destruct (Z.ltb_spec cursor (position_of e)), (Z.ltb_spec (position_of x) (position_of e)); cbn;
      try (replace (position_of x <? position_of e) with true by lia);
      try (replace (position_of x <? position_of e) with false by lia); rewrite ?IH; lia || done. }
  clearbody m. clear Hs Hcx. apply last_Some in Hl as (pre & Hpre).
  assert (m = pre ++ x :: skipn n m) as Em.
  { transitivity (firstn n m ++ skipn n m); [by rewrite firstn_skipn|]. rewrite Hpre, <- app_assoc. done. }
  set (suf := skipn n m) in *. clearbody suf. subst m. clear Hpre. unfold after_cursor.
  induction pre as [|y pre IH]; cbn in *.
  - rewrite Z.ltb_irrefl. apply StronglySorted_inv in Hm as [_ Hf]. clear -Hf.
    induction Hf as [|z suf Hz Hf IH]; [done|]. cbn. replace (position_of x <? position_of z) with true by lia.
    by rewrite IH.
  - apply StronglySorted_inv in Hm as [Hm Hf]. rewrite list.Forall_forall in Hf.
    specialize (Hf x ltac:(set_solver)). replace (position_of x <? position_of y) with false by lia.
    by apply IH.
Qed.

Lemma read_pages_eq fuel db cursor limit sc p e c :
  db_ok db → 0 <= cursor → 1 <= limit <= 1000 →
  (length (after_cursor cursor (matching sc p e c db)) < fuel)%nat →
  read_pages fuel db cursor limit sc p e c = Ok (after_cursor cursor (matching sc p e c db)).
Proof.
  intros H. revert cursor. induction fuel as [|fuel IH]; intros cursor Hc Hl Hf; [lia|].
  cbn [read_pages]. rewrite read_page_eq by done. cbn [mbind res_bind ep_events].
  destruct (list.last (firstn _ _)) as [x|] eqn:E.
  - destruct (after_cursor_skip _ _ _ _ (proj1 (matching_facts db sc p e c H)) E) as [Es Hx].
    rewrite IH, Es; [|lia|done|].
    + cbn. by rewrite firstn_skipn.
    + rewrite Es, length_skipn. destruct (after_cursor cursor (matching sc p e c db)); cbn in *; [|lia].
      destruct (Z.to_nat limit); done.
  - apply last_None in E. destruct (after_cursor cursor (matching sc p e c db)); [done|].
    destruct (Z.to_nat limit) eqn:El; [lia|done].
Qed.

(** ** Properties *)


(** C26: Capture is idempotent: once a message has been captured, any later delivery with the same
    (provider, environment, deduplication key), whatever was written in between, is answered as a
    duplicate with the first raw id and changes nothing, so no second event is appended. *)
Theorem capture_exactly_once db raw pos now m ev ex db1 r db2 raw' pos' now' m' ev' ex' :
  store_reach empty_db db → draws_ok db (SCaptureAppend raw pos now m ev ex) →
  capture_and_append db raw pos now m ev ex = Ok (db1, r) →
  store_reach db1 db2 → same_dedup m m' = true →
  capture_and_append db2 raw' pos' now' m' ev' ex'
  = Ok (db2, mkAppendResult None (ar_raw_record_id r) true).
Proof.
  intros Hr Hd Hc H12 Hsame.
  assert (store_reach empty_db db1) as H1.
  { rewrite <- (capture_append_step _ _ _ _ _ _ _ _ _ Hc). by apply reach_step. }
  pose proof (reach_ok _ _ empty_ok (reach_trans _ _ _ H1 H12)) as H2.
  assert (∃ row, row ∈ db_raw db1 ∧ same_dedup (rr_message row) m = true ∧
    ar_raw_record_id r = Some (rr_id row)) as (row & Hrow & Hm & Hid).
  { unfold capture_and_append in Hc. apply bind_Ok in Hc as ([db0 [id d]] & Hcap & Hc). cbn in Hc.
    destruct (capture_spec _ _ _ _ Hcap) as [(row & Hrow & Hs & [= -> -> ->])|[_ [= -> -> ->]]].
    - injection Hc as <- <-. eauto.
    - apply bind_Ok in Hc as ([db3 e] & Ha & [= <- <-]).
      apply append_spec in Ha as (_&_&_&_& read & _ & [= -> ->]). cbn.
      eexists. split; [apply elem_of_app; right; apply list_elem_of_singleton; reflexivity|]. cbn.
      split; [|done]. unfold same_dedup. by rewrite !String.eqb_refl. }
  apply (proj1 (store_reach_grows _ _ H12)) in Hrow.
  unfold capture_and_append, _capture. pose proof (find_dedup db2 m') as Hf.
  pose proof (same_dedup_trans _ _ _ Hm Hsame) as Hmm.
  destruct (List.find _ _) as [row'|].
  - destruct Hf as [Hin Hs]. rewrite same_dedup_sym in Hs.
    rewrite <- (ok_dedup _ H2 row row' Hrow Hin (same_dedup_trans _ _ _ Hmm Hs)), Hid. done.
  - by rewrite (Hf row Hrow) in Hmm.
Qed.

(** Optimistic concurrency: after an append against version [v] of a stream succeeded, every other
    append to that stream that still expects [v] is refused with a version conflict, however many
    transactions came between. *)
Theorem append_no_lost_update db pos now ev ex db1 e db2 pos' now' ev' :
  store_reach empty_db db → draws_ok db (SAppend pos now ev ex) →
  append db pos now ev ex = Ok (db1, e) →
  store_reach db1 db2 → ev_stream_id ev' = ev_stream_id ev →
  ∃ msg, append db2 pos' now' ev' ex = Raise (StreamVersionConflict msg).
Proof.
  intros Hr Hd Ha H12 Hs.
  assert (store_step db (SAppend pos now ev ex) = db1) as Estep by (unfold store_step; cbn; by rewrite Ha).
  assert (store_reach empty_db db1) as H1 by (rewrite <- Estep; by apply reach_step).
  pose proof (reach_ok _ _ empty_ok H1) as Hok1.
  pose proof (reach_ok _ _ empty_ok (reach_trans _ _ _ H1 H12)) as Hok2.
  pose proof (reach_ok _ _ empty_ok Hr) as Hok.
  apply append_spec in Ha as (Hex & _ & _ & _ & read & _ & [= E1 E2]).
  rewrite (max_version_length _ _ Hok) in Hex.
  destruct (proj2 (store_reach_grows _ _ H12)) as (l & El).
  assert (ex < max_version (ev_stream_id ev') (db_events db2)) as Hlt.
  { rewrite (max_version_length _ _ Hok2), El, E1, Hs. cbn.
    rewrite !stream_events_app, !length_app. unfold stream_events at 2. cbn.
    rewrite String.eqb_refl. cbn. lia. }
  unfold append, _append. cbv zeta.
  replace (max_version (ev_stream_id ev') (db_events db2) =? ex) with false by lia. cbn. eauto.
Qed.

(** C36: Rebuilding the projections from the event log reproduces the read models the store maintained
    incrementally, counts every event, and never raises on a store it built itself. *)
Theorem rebuild_equals_incremental db :
  store_reach empty_db db →
  ∃ db', rebuild_projections db = Ok (db', Z.of_nat (length (db_events db))) ∧
    db_read db' = db_read db ∧ db_events db' = db_events db ∧ db_raw db' = db_raw db ∧
    (∀ e, list.last (db_events db) = Some e → db_checkpoint db' = ev_global_position e).
Proof.
  intros Hr. pose proof (reach_ok _ _ empty_ok Hr) as H. eexists. split; [by apply rebuild_eq|].
  split_and!; try done. cbn. intros e He. rewrite He.
  apply last_Some_elem_of in He. pose proof (ok_persisted _ H) as Hp. rewrite list.Forall_forall in Hp.
  destruct (Hp e He) as (_ & _ & p & E & _). unfold position_of. by rewrite E.
Qed.

(** A reader that follows pages from a cursor, with any page size the API allows and any identity
    filter, receives exactly the matching events after the cursor, each once and in order of
    position, and terminates; no page it is given breaks the page's own checks. *)
Theorem paged_read_complete db cursor limit sc p e c :
  store_reach empty_db db → 0 <= cursor → 1 <= limit <= 1000 →
  read_pages (S (length (db_events db))) db cursor limit sc p e c
  = Ok (List.filter (λ ev, cursor <? position_of ev)
          (List.filter (λ ev, identity_filter sc p e c (ev_payload ev)) (db_events db))).
Proof.
  intros Hr Hc Hl. apply read_pages_eq; [by eapply reach_ok, Hr; apply empty_ok|done|done|].
  pose proof (List.filter_length_le (λ ev, cursor <? position_of ev) (matching sc p e c db)).
  pose proof (List.filter_length_le (λ ev, identity_filter sc p e c (ev_payload ev)) (db_events db)).
  unfold after_cursor, matching in *. lia.
Qed.

(** A UTC time written into an event payload is read back as the same time, to the microsecond,
    for every year ISO text writes with four digits. *)
Theorem payload_time_roundtrip d :
  is_utc d → year_ok d →
  ∃ j, to_json_value (PyDatetime d) = Ok j ∧ _parse_datetime j = Ok d.
Proof.
  intros Hu Hy. exists (JStr (utc_text d)). cbn. rewrite require_utc_is_utc by done. split; [done|].
  rewrite fromisoformat_utc_text by done. cbn. unfold astimezone_utc. rewrite is_utc_instant by done.
  destruct d as [us o]. unfold is_utc in Hu. cbn in *. by subst.
Qed.

(** ** Instances *)

Definition sample_raw (key : string) : RawMessage :=
  mkRaw "ig" "IG_DEMO" "sub" key (utc 0) [("password", JStr "x")] MERGED_STATE "1" None None None None None
    None None.
Definition sample_event (id stream : string) (version : Z) : EventEnvelope :=
  mkEvent (mkUUID id) stream version "Note" 1 (utc 0) (utc 0) None (mkUUID "c") None "p" "1" [] None None.

Definition sample_db : DB :=
  store_step (store_step empty_db (SCaptureAppend 1 1 (utc 5) (sample_raw "k1") (sample_event "a" "s" 1) 0))
             (SAppend 2 (utc 6) (sample_event "b" "s" 2) 1).

Lemma sample_db_reach : store_reach empty_db sample_db.
Proof.
  unfold sample_db. apply reach_step; [apply reach_step; [apply reach_refl|]|].
  - split_and!; [apply not_elem_of_nil|split; [done|by intros ? ?%elem_of_nil]|by eexists].
  - split; [split; [done|]|by eexists]. intros e He. vm_compute in He.
    apply list_elem_of_singleton in He as ->. reflexivity.
Qed.


Definition sample_capture : DB * AppendResult :=
  match capture_and_append empty_db 1 1 (utc 5) (sample_raw "k1") (sample_event "a" "s" 1) 0 with
  | Ok r => r
  | Raise _ => (empty_db, mkAppendResult None None true)
  end.

Lemma capture_exactly_once_witness :
  ar_duplicate sample_capture.2 = false ∧
  capture_and_append sample_capture.1 2 2 (utc 7) (sample_raw "k1") (sample_event "z" "s" 2) 1
  = Ok (sample_capture.1, mkAppendResult None (ar_raw_record_id sample_capture.2) true).
Proof.
  split; [reflexivity|].
  apply (capture_exactly_once empty_db 1 1 (utc 5) (sample_raw "k1") (sample_event "a" "s" 1) 0
    sample_capture.1 sample_capture.2).
  - apply reach_refl.
  - split_and!; [apply not_elem_of_nil|split; [done|by intros ? ?%elem_of_nil]|by eexists].
  - reflexivity.
  - apply reach_refl.
  - reflexivity.
Defined.

Definition sample_append : DB :=
  match append empty_db 1 (utc 5) (sample_event "a" "s" 1) 0 with Ok (db, _) => db | Raise _ => empty_db end.

Lemma append_no_lost_update_witness :
  ∃ msg, append sample_append 2 (utc 6) (sample_event "b" "s" 1) 0 = Raise (StreamVersionConflict msg).
Proof.
  eapply (append_no_lost_update empty_db 1 (utc 5) (sample_event "a" "s" 1) 0 sample_append).
  - apply reach_refl.
  - split; [split; [done|intros ? ?%elem_of_nil; done]|by eexists].
  - reflexivity.
  - apply reach_refl.
  - reflexivity.
Defined.

Lemma rebuild_equals_incremental_witness :
  ∃ db', rebuild_projections sample_db = Ok (db', 2) ∧ db_read db' = db_read sample_db.
Proof.
  destruct (rebuild_equals_incremental sample_db sample_db_reach) as (db' & E & Hr & _).
  exists db'. exact (conj E Hr).
Defined.

Lemma paged_read_complete_witness :
  read_pages 3 sample_db 0 1 None None None None = Ok (db_events sample_db).
Proof.
  exact (paged_read_complete sample_db 0 1 None None None None sample_db_reach
           ltac:(lia) ltac:(lia)).
Defined.

Lemma payload_time_roundtrip_witness :
  ∃ j, to_json_value (PyDatetime (utc 1782907329000123)) = Ok j ∧
       _parse_datetime j = Ok (utc 1782907329000123).
Proof. apply payload_time_roundtrip; [reflexivity|]. vm_compute. split; discriminate. Defined.
