(* ===== verification/Ingestion.v ===== *)
(** Ingestion: [src/qtrad/application/ingestion.py] over an abstract audit store
    (the Protocol of [ports/storage.py]), and the PostgreSQL store as an instance.

    The service is proved against the laws of [AuditStoreLaws]; [EventStore]
    discharges them. *)

From S2P Require Import Prelude PySorted PyStr PyTime PyDecimal PyJson PyParse Domain Storage.
From S2P Require Import Gaps Bars CaptureFeed EventStore.

(** ** Records *)

Record MarketDataRecord : Type := mkRecord {
  md_provider : string;
  md_environment : string;
  md_subscription : string;
  md_deduplication_key : string;
  md_received_time : datetime;
  md_raw_payload : dict;
  md_payload_representation : RawPayloadRepresentation;
  md_quote : option MarketQuote;
  md_error_code : option string;
  md_error_detail : option string;
  md_connection_generation : option Z;
  md_arrival_sequence : option Z }.

Definition MarketDataRecord_post_init (r : MarketDataRecord) : res unit :=
  raise_if (some_and (md_connection_generation r) (λ g, g <? 1))
           (ValueError "market-data connection generation must be positive");;
  raise_if (some_and (md_arrival_sequence r) (λ n, n <? 1))
           (ValueError "market-data arrival sequence must be positive").

(** Dataclasses as [to_json_value] sees them, fields in order of declaration. *)
Definition opt_obj {A} (f : A → pyobj) (x : option A) : pyobj := from_option f PyNone x.
Definition listing_id_obj (l : ProviderListingId) : pyobj :=
  PyDataclass [("provider", PyStr (pl_provider l)); ("environment", PyStr (pl_environment l));
               ("external_id", PyStr (pl_external_id l))].
Definition quote_obj (q : MarketQuote) : pyobj :=
  PyDataclass
    [("instrument_id", PyId (q_instrument_id q)); ("listing_id", listing_id_obj (q_listing_id q));
     ("event_time", PyDatetime (q_event_time q)); ("received_time", PyDatetime (q_received_time q));
     ("bid", opt_obj PyDecimal (q_bid q)); ("ask", opt_obj PyDecimal (q_ask q));
     ("bid_size", opt_obj PyDecimal (q_bid_size q)); ("ask_size", opt_obj PyDecimal (q_ask_size q));
     ("bid_time", opt_obj PyDatetime (q_bid_time q)); ("ask_time", opt_obj PyDatetime (q_ask_time q));
     ("quality", PyStr (DataQuality_str (q_quality q)));
     ("source_sequence", opt_obj PyStr (q_source_sequence q));
     ("global_position", opt_obj PyInt (q_global_position q))].
Definition bar_obj (b : MarketBar) : pyobj :=
  PyDataclass
    [("instrument_id", PyId (b_instrument_id b)); ("basis", PyStr (PriceBasis_str (b_basis b)));
     ("interval_start", PyDatetime (b_interval_start b)); ("interval_end", PyDatetime (b_interval_end b));
     ("open", PyDecimal (b_open b)); ("high", PyDecimal (b_high b));
     ("low", PyDecimal (b_low b)); ("close", PyDecimal (b_close b));
     ("sample_count", PyInt (b_sample_count b)); ("revision", PyInt (b_revision b));
     ("provenance", PyStr (BarProvenance_str (b_provenance b)));
     ("source_listing_id", listing_id_obj (b_source_listing_id b));
     ("quality", PyStr (DataQuality_str (b_quality b)))].
Definition gap_obj (g : DataGap) : pyobj :=
  PyDataclass
    [("instrument_id", PyId (g_instrument_id g)); ("interval_start", PyDatetime (g_interval_start g));
     ("interval_end", PyDatetime (g_interval_end g)); ("reason", PyStr (g_reason g));
     ("detected_at", PyDatetime (g_detected_at g));
     ("repaired_at", opt_obj PyDatetime (g_repaired_at g))].

(** [{**payload, "k": v, ...}] *)
Definition dict_set (d : dict) (kv : string * json) : dict :=
  if existsb (λ x, String.eqb x.1 kv.1) d
  then map (λ x, if String.eqb x.1 kv.1 then kv else x) d else d ++ [kv].
Definition capture_fields (i : CaptureIdentity) : dict :=
  [("capture_source_class", JStr (MarketDataSourceClass_str (ci_source_class i)));
   ("capture_provider", JStr (ci_provider i)); ("capture_environment", JStr (ci_environment i));
   ("capture_source_id", JStr (ci_capture_source_id i)); ("capture_universe_id", JStr (ci_universe_id i));
   ("capture_configuration_hash", JStr (ci_configuration_hash i))].

(** ** The store's interface *)

(** What one store call draws from outside: uuid4() results, identity values, the clock. *)
Record Draw : Type := mkDraw {
  dr_event_id : UUID; dr_correlation_id : UUID; dr_raw_id : Z; dr_position : Z; dr_now : datetime }.

Class AuditStore (S : Type) := {
  st_latest_stream_version : S → string → Z;
  st_quarantine : S → Draw → RawMessage → string → string → res (S * Z);
  st_append : S → Draw → EventEnvelope → Z → res (S * EventEnvelope);
  st_capture_and_append : S → Draw → RawMessage → EventEnvelope → Z → res (S * AppendResult) }.

(** ** The service *)

Record IngestionService (S : Type) : Type := mkService {
  sv_store : S;
  sv_producer : string;
  sv_producer_version : string;
  sv_bar_builder : OneMinuteBarBuilder;
  sv_gap_detector : GapDetector;
  sv_stream_versions : gmap string Z;
  sv_capture_identity : option CaptureIdentity;
  sv_capture_session_id : option string;
  sv_tick : nat }.
Arguments mkService {S}.
Arguments sv_store {S}.
Arguments sv_producer {S}.
Arguments sv_producer_version {S}.
Arguments sv_bar_builder {S}.
Arguments sv_gap_detector {S}.
Arguments sv_stream_versions {S}.
Arguments sv_capture_identity {S}.
Arguments sv_capture_session_id {S}.
Arguments sv_tick {S}.

Section service.
Context {S : Type} `{AuditStore S}.
(** The values drawn, in order of use. *)
Variable draws : nat → Draw.
Implicit Type s : IngestionService S.

Definition set_store s (v : S) : IngestionService S := mkService v (sv_producer s) (sv_producer_version s) (sv_bar_builder s)
  (sv_gap_detector s) (sv_stream_versions s) (sv_capture_identity s) (sv_capture_session_id s) (sv_tick s).
Definition set_bar_builder s v : IngestionService S := mkService (sv_store s) (sv_producer s) (sv_producer_version s) v
  (sv_gap_detector s) (sv_stream_versions s) (sv_capture_identity s) (sv_capture_session_id s) (sv_tick s).
Definition set_gap_detector s v : IngestionService S := mkService (sv_store s) (sv_producer s) (sv_producer_version s)
  (sv_bar_builder s) v (sv_stream_versions s) (sv_capture_identity s) (sv_capture_session_id s) (sv_tick s).
Definition set_version (stream_id : string) (version : Z) s : IngestionService S :=
  mkService (sv_store s) (sv_producer s) (sv_producer_version s) (sv_bar_builder s)
    (sv_gap_detector s) (<[stream_id := version]> (sv_stream_versions s)) (sv_capture_identity s)
    (sv_capture_session_id s) (sv_tick s).
Definition set_tick s v : IngestionService S := mkService (sv_store s) (sv_producer s) (sv_producer_version s)
  (sv_bar_builder s) (sv_gap_detector s) (sv_stream_versions s) (sv_capture_identity s)
  (sv_capture_session_id s) v.

Definition IngestionService_init (store : S) (producer producer_version : string)
    (bar_builder : OneMinuteBarBuilder) (gap_detector : GapDetector)
    (capture_identity : option CaptureIdentity) (capture_session_id : option string)
    : res (IngestionService S) :=
  raise_if (bool_decide (is_Some capture_identity) && bool_decide (capture_session_id = None))
           (ValueError "capture session identity is required with a capture identity");;
  Ok (mkService store producer producer_version bar_builder gap_detector ∅ capture_identity
        capture_session_id 0).

Definition draw : M (IngestionService S) Draw := λ s, (set_tick s (Datatypes.S (sv_tick s)), Ok (draws (sv_tick s))).

(** A transaction of the store. *)
Definition transact {A} (f : S → res (S * A)) : M (IngestionService S) A := λ s,
  match f (sv_store s) with
  | Ok (store, a) => (set_store s store, Ok a)
  | Raise e => (s, Raise e)
  end.

Definition _stream_version (stream_id : string) : M (IngestionService S) Z :=
  cached ← gets (λ s, sv_stream_versions s !! stream_id);
  match cached with
  | Some version => mret version
  | None =>
      version ← gets (λ s, st_latest_stream_version (sv_store s) stream_id);
      _ ← modify (set_version stream_id version);
      mret version
  end.

Definition append_event (stream_id event_type : string) (event_time received_time : datetime)
    (payload : pyobj) : M (IngestionService S) EventEnvelope :=
  previous_version ← _stream_version stream_id;
  d ← draw;
  producer ← gets sv_producer;
  producer_version ← gets sv_producer_version;
  event ← lift (EventEnvelope_create (dr_event_id d) (dr_correlation_id d) stream_id
                  (previous_version + 1) event_type event_time received_time producer producer_version
                  payload None None 1);
  persisted ← transact (λ store, st_append store d event previous_version);
  _ ← modify (set_version stream_id (ev_stream_version event));
  mret persisted.

Definition _append_bar (bar : MarketBar) (received_time : datetime) : M (IngestionService S) EventEnvelope :=
  append_event ("market-bar:" +:+ b_instrument_id bar +:+ ":" +:+ PriceBasis_str (b_basis bar))
    (if b_revision bar =? 1 then "MarketBarClosed" else "MarketBarCorrected")
    (b_interval_end bar) received_time (bar_obj bar).

Definition _append_gap (gap : DataGap) : M (IngestionService S) EventEnvelope :=
  append_event ("data-gap:" +:+ g_instrument_id gap) "MarketDataGapDetected"
    (g_detected_at gap) (g_detected_at gap) (gap_obj gap).

Definition raw_message s (record : MarketDataRecord) : RawMessage :=
  mkRaw (md_provider record) (md_environment record) (md_subscription record)
    match sv_capture_session_id s with
    | Some session => session +:+ ":" +:+ md_deduplication_key record
    | None => md_deduplication_key record
    end
    (md_received_time record) (md_raw_payload record) (md_payload_representation record)
    (sv_producer_version s) (sv_capture_session_id s)
    ((λ i, MarketDataSourceClass_str (ci_source_class i)) <$> sv_capture_identity s)
    (ci_capture_source_id <$> sv_capture_identity s)
    (ci_universe_id <$> sv_capture_identity s)
    (ci_configuration_hash <$> sv_capture_identity s)
    (md_connection_generation record) (md_arrival_sequence record).

(** [error or default] for strings: empty counts as missing. *)
Definition str_or (x : option string) (d : string) : string :=
  match x with Some s => if nonempty s then s else d | None => d end.

Definition quote_stream_id (identity : option CaptureIdentity) (quote : MarketQuote) : string :=
  match identity with
  | None => "market-quote:" +:+ q_instrument_id quote
  | Some i => "market-quote:" +:+ MarketDataSourceClass_str (ci_source_class i) +:+ ":"
              +:+ ci_provider i +:+ ":" +:+ ci_environment i +:+ ":" +:+ ci_configuration_hash i +:+ ":"
              +:+ q_instrument_id quote
  end.

Definition quote_payload (identity : option CaptureIdentity) (quote : MarketQuote) : res json :=
  payload ← to_json_value (quote_obj quote);
  match identity with
  | None => Ok payload
  | Some i =>
      match payload with
      | JObj kvs => Ok (JObj (foldl dict_set kvs (capture_fields i)))
      | _ => Raise (TypeError "market quote did not serialise to an object")
      end
  end.

Definition native_capture (identity : option CaptureIdentity) : bool :=
  some_and identity (λ i, bool_decide (ci_source_class i = IBKR_NATIVE_CAPTURE)).

(** [self._gap_detector.observe(...)] and [self._bar_builder.on_quote(...)] on the service. *)
Definition observe_gap (quote : MarketQuote) (detected_at : datetime)
    : M (IngestionService S) (option DataGap) := λ s,
  let '(detector, r) := observe (sv_gap_detector s) quote detected_at in (set_gap_detector s detector, r).
Definition builder_call {A} (f : OneMinuteBarBuilder → res (OneMinuteBarBuilder * A))
    : M (IngestionService S) A := λ s,
  match f (sv_bar_builder s) with
  | Ok (builder, a) => (set_bar_builder s builder, Ok a)
  | Raise e => (s, Raise e)
  end.

(** The derived facts of a newly stored quote: gap events and bar events. *)
Definition derive (record : MarketDataRecord) (quote : MarketQuote) : M (IngestionService S) unit :=
  gap ← observe_gap quote (md_received_time record);
  _ ← match gap with Some g => _ ← _append_gap g; mret tt | None => mret tt end;
  expired ← gets (λ s, correction_expired (sv_bar_builder s) quote);
  if (expired : bool) then
    let interval_start := floor_minute (q_event_time quote) in
    g ← lift (DataGap_new (mkGap (q_instrument_id quote) interval_start (dt_add interval_start interval)
                "BAR_CORRECTION_WINDOW_EXPIRED" (md_received_time record) None));
    _ ← _append_gap g; mret tt
  else
    bars ← builder_call (λ b, on_quote b quote);
    _ ← for_eachM (λ bar, _append_bar bar (md_received_time record)) bars;
    mret tt.

Definition process (record : MarketDataRecord) : M (IngestionService S) AppendResult :=
  raw ← gets (λ s, raw_message s record);
  match md_quote record with
  | None =>
      d ← draw;
      raw_id ← transact (λ store, st_quarantine store d raw
                   (str_or (md_error_code record) "NORMALISATION_FAILED")
                   (str_or (md_error_detail record) "adapter did not produce a quote"));
      mret (mkAppendResult None (Some raw_id) false)
  | Some quote =>
      identity ← gets sv_capture_identity;
      let stream_id := quote_stream_id identity quote in
      payload ← lift (quote_payload identity quote);
      previous_version ← _stream_version stream_id;
      d ← draw;
      producer ← gets sv_producer;
      producer_version ← gets sv_producer_version;
      event ← lift (EventEnvelope_create (dr_event_id d) (dr_correlation_id d) stream_id
                      (previous_version + 1) "MarketQuoteObserved" (q_event_time quote)
                      (q_received_time quote) producer producer_version (of_json payload)
                      (Some (dr_correlation_id d)) None 1);
      result ← transact (λ store, st_capture_and_append store d raw event previous_version);
      if negb (ar_duplicate result) then
        _ ← modify (set_version stream_id (ev_stream_version event));
        _ ← (if negb (native_capture identity) then derive record quote else mret tt);
        mret result
      else mret result
  end.

Definition advance_bars (watermark : datetime) : M (IngestionService S) (list EventEnvelope) :=
  identity ← gets sv_capture_identity;
  if native_capture identity then mret []
  else
    bars ← builder_call (λ b, advance b watermark);
    for_eachM (λ bar, _append_bar bar watermark) bars.

End service.

(** ** What the service asks of a store *)

Definition time_ok (d : datetime) : Prop := is_utc d ∧ 0 <= dt_us d < 2786000 * us_per_day.

Definition quote_ok (q : MarketQuote) : Prop :=
  MarketQuote_post_init q = Ok tt ∧ time_ok (q_event_time q) ∧ time_ok (q_received_time q).
Definition bar_times_ok (b : MarketBar) : Prop :=
  time_ok (b_interval_start b) ∧ b_interval_end b = dt_add (b_interval_start b) interval.
Definition gap_times_ok (g : DataGap) : Prop :=
  time_ok (g_interval_start g) ∧
  (time_ok (g_interval_end g) ∨ g_interval_end g = dt_add (g_interval_start g) interval) ∧
  time_ok (g_detected_at g) ∧ g_repaired_at g = None.

(** The three kinds of event ingestion writes. *)
Definition ingest_payload (event_type : string) (payload : dict) : Prop :=
  (event_type = "MarketQuoteObserved" ∧ ∃ i q, quote_ok q ∧ quote_payload i q = Ok (JObj payload)) ∨
  ((event_type = "MarketBarClosed" ∨ event_type = "MarketBarCorrected") ∧
   ∃ b, bar_times_ok b ∧ to_json_value (bar_obj b) = Ok (JObj payload)) ∨
  (event_type = "MarketDataGapDetected" ∧
   ∃ g, gap_times_ok g ∧ to_json_value (gap_obj g) = Ok (JObj payload)).

Definition bumped (latest latest' : string → Z) (e : EventEnvelope) : Prop :=
  ∀ t, latest' t = if decide (t = ev_stream_id e) then ev_stream_version e else latest t.

(** The laws: [st_ok s n] says the store is consistent and has not used any draw from [n] on. *)
Class AuditStoreLaws (S : Type) `{AuditStore S} (draws : nat → Draw) := {
  st_ok : S → nat → Prop;
  st_lineage_free : S → RawMessage → Prop;
  law_tick s n : st_ok s n → st_ok s (Datatypes.S n);
  law_latest s n t : st_ok s n → 0 <= st_latest_stream_version s t;
  law_append s n e :
    st_ok s n → EventEnvelope_post_init e = Ok tt → ingest_payload (ev_event_type e) (ev_payload e) →
    ev_event_id e = dr_event_id (draws n) →
    ev_stream_version e = st_latest_stream_version s (ev_stream_id e) + 1 →
    ∃ s' p, st_append s (draws n) e (st_latest_stream_version s (ev_stream_id e)) = Ok (s', p) ∧
      st_ok s' (Datatypes.S n) ∧ (∀ m, st_lineage_free s m → st_lineage_free s' m) ∧
      bumped (st_latest_stream_version s) (st_latest_stream_version s') e;
  law_capture_and_append s n m e :
    st_ok s n → st_lineage_free s m → EventEnvelope_post_init e = Ok tt →
    ingest_payload (ev_event_type e) (ev_payload e) → ev_event_id e = dr_event_id (draws n) →
    ev_stream_version e = st_latest_stream_version s (ev_stream_id e) + 1 →
    ∃ s' r, st_capture_and_append s (draws n) m e (st_latest_stream_version s (ev_stream_id e)) = Ok (s', r) ∧
      st_ok s' (Datatypes.S n) ∧
      if ar_duplicate r then ∀ t, st_latest_stream_version s' t = st_latest_stream_version s t
      else bumped (st_latest_stream_version s) (st_latest_stream_version s') e;
  law_quarantine s n m reason detail :
    st_ok s n → st_lineage_free s m →
    ∃ s' i, st_quarantine s (draws n) m reason detail = Ok (s', i) ∧ st_ok s' (Datatypes.S n) ∧
      ∀ t, st_latest_stream_version s' t = st_latest_stream_version s t }.

(** ** JSON of the dataclasses *)

Definition jopt {A} (f : A → json) (x : option A) : json := from_option f JNull x.
Definition listing_id_json (l : ProviderListingId) : json :=
  JObj [("provider", JStr (pl_provider l)); ("environment", JStr (pl_environment l));
        ("external_id", JStr (pl_external_id l))].
Definition quote_json (q : MarketQuote) : dict :=
  [("instrument_id", JStr (q_instrument_id q)); ("listing_id", listing_id_json (q_listing_id q));
   ("event_time", JStr (utc_text (q_event_time q))); ("received_time", JStr (utc_text (q_received_time q)));
   ("bid", jopt (JStr ∘ dec_str) (q_bid q)); ("ask", jopt (JStr ∘ dec_str) (q_ask q));
   ("bid_size", jopt (JStr ∘ dec_str) (q_bid_size q)); ("ask_size", jopt (JStr ∘ dec_str) (q_ask_size q));
   ("bid_time", jopt (JStr ∘ utc_text) (q_bid_time q)); ("ask_time", jopt (JStr ∘ utc_text) (q_ask_time q));
   ("quality", JStr (DataQuality_str (q_quality q))); ("source_sequence", jopt JStr (q_source_sequence q));
   ("global_position", jopt JInt (q_global_position q))].

Lemma opt_time_json x f : require_utc_opt x f = Ok tt →
  to_json_value (opt_obj PyDatetime x) = Ok (jopt (JStr ∘ utc_text) x).
Proof.
  intros H. destruct x as [d|]; [|done]. cbn in *. apply bind_Ok in H as (d' & Hd & _).
  apply require_utc_Ok in Hd as [Hu _]. by rewrite require_utc_is_utc.
Qed.
Lemma opt_dec_json x : to_json_value (opt_obj PyDecimal x) = Ok (jopt (JStr ∘ dec_str) x).
Proof. by destruct x. Qed.
Lemma opt_str_json x : to_json_value (opt_obj PyStr x) = Ok (jopt JStr x).
Proof. by destruct x. Qed.
Lemma opt_int_json x : to_json_value (opt_obj PyInt x) = Ok (jopt JInt x).
Proof. by destruct x. Qed.

Arguments opt_obj : simpl never.
Arguments jopt : simpl never.

Lemma quote_to_json q : MarketQuote_post_init q = Ok tt →
  to_json_value (quote_obj q) = Ok (JObj (quote_json q)).
Proof.
  intros Hq. unfold MarketQuote_post_init in Hq. apply bind_Ok in Hq as (d1 & H1 & Hq).
  apply bind_Ok in Hq as (d2 & H2 & Hq). apply bind_Ok in Hq as ([] & H3 & Hq).
  apply bind_Ok in Hq as ([] & H4 & Hq). clear Hq.
  apply require_utc_Ok in H1 as [H1 _]. apply require_utc_Ok in H2 as [H2 _].
  unfold quote_obj. cbn [to_json_value traverse mbind res_bind fst snd].
  rewrite !require_utc_is_utc by done. cbn [to_json_value traverse mbind res_bind fst snd].
  rewrite !opt_dec_json. cbn [to_json_value traverse mbind res_bind fst snd].
  rewrite (opt_time_json _ _ H3), (opt_time_json _ _ H4), opt_str_json, opt_int_json. done.
Qed.

Lemma time_ok_year d : time_ok d → year_ok d.
Proof. intros [_ H]. apply year_ok_range. unfold us_per_day in *. lia. Qed.
Lemma time_ok_end d : time_ok d → is_utc (dt_add d interval) ∧ year_ok (dt_add d interval).
Proof.
  intros [Hu H]. split; [by apply is_utc_add|]. apply year_ok_range.
  unfold dt_add, interval, minutes, seconds, us_per_day in *. cbn [dt_us]. lia.
Qed.
Lemma parse_time d : is_utc d → year_ok d → _parse_datetime (JStr (utc_text d)) = Ok d.
Proof.
  intros Hu Hy. cbn. rewrite fromisoformat_utc_text by done. cbn. unfold astimezone_utc.
  rewrite is_utc_instant by done. destruct d as [us o]. unfold is_utc in Hu. cbn in *. by subst.
Qed.

(** ** Bars out of the builder keep to the buckets' intervals *)

Definition starts_in (P : datetime → Prop) (b : OneMinuteBarBuilder) : Prop :=
  map_Forall (λ _ bk, P (bk_interval_start bk)) (bb_buckets b).
Definition bar_in (P : datetime → Prop) (bar : MarketBar) : Prop :=
  P (b_interval_start bar) ∧ b_interval_end bar = dt_add (b_interval_start bar) interval.

Lemma ref_bars_in (P : datetime → Prop) b (f : PriceBasis → Z) bases :
  P (bk_interval_start b) → Forall (bar_in P) (map (λ basis, ref_bar b basis (f basis)) bases).
Proof. intros Hb. apply list.Forall_forall. intros x (basis & -> & _)%list_elem_of_fmap. done. Qed.

Lemma on_quote_in P b q b' bars :
  builder_ok b → is_utc (q_event_time q) → starts_in P b → P (floor_minute (q_event_time q)) →
  on_quote b q = Ok (b', bars) → builder_ok b' ∧ starts_in P b' ∧ Forall (bar_in P) bars.
Proof.
  intros Hb Hu Hs Hq E. rewrite on_quote_eq in E by done. injection E as E.
  destruct (target b q) as [bk|] eqn:Et; [|injection E as <- <-; auto].
  pose proof (quoted_ok b q bk Hb Hu Et) as Hok. rewrite E in Hok. split; [done|].
  assert (P (bk_interval_start bk)) as Hbk.
  { unfold target in Et. destruct (bb_buckets b !! quote_key q) eqn:El.
    - injection Et as ->. by apply (Hs _ _ El).
    - destruct (correction_expired b q); [done|]. by injection Et as <-. }
  destruct (with_quote_same (bb_lateness b) bk q) as (_ & _ & Est & _).
  unfold quoted in E. destruct (bk_closed bk); injection E as <- <-; split; try done.
  - cbn. apply map_Forall_insert_2; [|done].
    destruct (bump_fields (with_quote (bb_lateness b) bk q)
      (py_sorted PriceBasis_str (elements (quote_bases (bb_lateness b) q)))) as (_ & -> & _). congruence.
  - apply ref_bars_in. congruence.
  - cbn. apply map_Forall_insert_2; [congruence|done].
Qed.

Lemma advance_in P b w b' bars :
  builder_ok b → starts_in P b → advance b w = Ok (b', bars) →
  builder_ok b' ∧ starts_in P b' ∧ Forall (bar_in P) bars.
Proof.
  intros Hb Hs E. assert (is_utc w) as Hw.
  { unfold advance in E. apply bind_Ok in E as (w' & Hw & _). by apply require_utc_Ok in Hw as [? _]. }
  destruct (advance_eq b w Hb Hw) as [E' Hok]. rewrite E in E'. injection E' as -> ->.
  split; [by apply expire_ok|]. destruct (open_order_spec b) as [Hnd _].
  destruct (close_loop_spec w (open_order b) (b, []) Hnd) as (H1 & _ & H3 & _). cbn [fst snd] in *. split.
  - intros key bk [Hk _]%expire_lookup. rewrite H1 in Hk. destruct (decide _); [|by apply (Hs _ _ Hk)].
    apply fmap_Some in Hk as (bk0 & Hk & ->). apply Hs in Hk. destruct (due _ _ _); [|done].
    unfold closed_bucket. by destruct (bump_fields (set_closed bk0 true) (all_bases bk0)) as (_ & -> & _).
  - rewrite H3. cbn. apply list.Forall_forall. intros x Hx%list_elem_of_In%in_flat_map.
    destruct Hx as (key & _ & Hx). destruct (bb_buckets b !! key) as [bk|] eqn:Ek; [|done].
    destruct (due _ _ _); [|done]. apply list_elem_of_In in Hx.
    pose proof (ref_bars_in P bk (λ _, 1) (all_bases bk) (Hs _ _ Ek)) as Hf.
    rewrite list.Forall_forall in Hf. by apply Hf.
Qed.

Lemma time_ok_floor d : time_ok d → time_ok (floor_minute d).
Proof.
  intros [Hu H]. split; [done|]. unfold floor_minute. cbn [dt_us].
  pose proof (Z.mod_le (dt_us d) 60000000 ltac:(lia) ltac:(lia)).
  pose proof (Z.mod_pos_bound (dt_us d) 60000000 ltac:(lia)). lia.
Qed.

(** ** The service over any lawful store *)

Section service_proof.
Context {S : Type} `{AuditStoreLaws S draws}.
Implicit Type s : IngestionService S.

Record service_ok s : Prop := {
  so_store : st_ok (sv_store s) (sv_tick s);
  so_versions : map_Forall (λ t v, st_latest_stream_version (sv_store s) t = v) (sv_stream_versions s);
  so_builder : builder_ok (sv_bar_builder s);
  so_buckets : starts_in time_ok (sv_bar_builder s);
  so_silence : 0 < gd_maximum_silence (sv_gap_detector s);
  so_quotes : map_Forall (λ _ q, time_ok (q_event_time q)) (gd_last_quote (sv_gap_detector s));
  so_producer : nonempty (sv_producer s) = true ∧ nonempty (sv_producer_version s) = true }.

(** Nothing but the store, the caches and the counter changes. *)
Definition same_components s s' : Prop :=
  sv_bar_builder s' = sv_bar_builder s ∧ sv_gap_detector s' = sv_gap_detector s ∧
  sv_capture_identity s' = sv_capture_identity s ∧ sv_producer s' = sv_producer s ∧
  sv_producer_version s' = sv_producer_version s ∧ sv_capture_session_id s' = sv_capture_session_id s.

Lemma stream_version_ok t s :
  service_ok s →
  returns (_stream_version t) s (λ v s', service_ok s' ∧ same_components s s' ∧
    sv_store s' = sv_store s ∧ sv_tick s' = sv_tick s ∧ v = st_latest_stream_version (sv_store s) t).
Proof.
  intros Hs. unfold _stream_version. apply returns_bind, returns_gets.
  destruct (sv_stream_versions s !! t) as [v|] eqn:E.
  - apply returns_ret. split_and!; try done. symmetry. by apply (so_versions _ Hs t).
  - apply returns_bind, returns_gets, returns_bind, returns_modify, returns_ret.
    split_and!; try done. destruct Hs. split; cbn; try done. by apply map_Forall_insert_2.
Qed.

Lemma bumped_versions s store e n :
  service_ok s → st_ok store n → bumped (st_latest_stream_version (sv_store s)) (st_latest_stream_version store) e →
  service_ok (set_version (ev_stream_id e) (ev_stream_version e) (set_tick (set_store s store) n)).
Proof.
  intros Hs Hst Hb. destruct Hs. split; cbn; try done. intros t v Hv.
  rewrite (Hb t). destruct (decide (t = ev_stream_id e)) as [->|Hne].
  - rewrite lookup_insert_eq in Hv. by injection Hv.
  - rewrite lookup_insert_ne in Hv by done. by apply so_versions0.
Qed.

Lemma append_event_ok stream type t t' payload kvs s :
  service_ok s → stream ≠ "" → type ≠ "" → is_utc t → is_utc t' →
  to_json_value payload = Ok (JObj kvs) → ingest_payload type kvs →
  returns (append_event draws stream type t t' payload) s (λ _ s', service_ok s' ∧ same_components s s').
Proof.
  intros Hs Hst Hty Ht Ht' Hj Hp. unfold append_event. apply returns_bind.
  eapply returns_mono; [by apply stream_version_ok|]. intros v s1 (Hs1 & Hc & Hstore & Htick & ->). cbn beta.
  apply returns_bind. eexists _, _. split; [reflexivity|]. apply returns_bind, returns_gets, returns_bind, returns_gets.
  apply returns_bind. cbn [sv_producer sv_producer_version set_tick].
  pose proof (law_latest (sv_store s1) (sv_tick s1) stream (so_store _ Hs1)) as Hnn.
  destruct (so_producer _ Hs1) as [Hpr Hpv]. rewrite <- Hstore.
  set (e := mkEvent (dr_event_id (draws (sv_tick s1))) stream
    (st_latest_stream_version (sv_store s1) stream + 1) type 1 t t' None
    (dr_correlation_id (draws (sv_tick s1))) None (sv_producer s1) (sv_producer_version s1) kvs None None).
  assert (EventEnvelope_post_init e = Ok tt) as Hpost
    by (apply event_valid; cbn; (done || lia || by apply nonempty_true)).
  eapply (returns_lift _ _ e); [unfold EventEnvelope_create; rewrite Hj; change (EventEnvelope_new e = Ok e);
    unfold EventEnvelope_new; by rewrite Hpost|].
  destruct (law_append (sv_store s1) (sv_tick s1) e (so_store _ Hs1) Hpost Hp eq_refl eq_refl)
    as (store' & p & Ea & Hok' & _ & Hb).
  apply returns_bind. exists p, (set_store (set_tick s1 (Datatypes.S (sv_tick s1))) store'). split.
  { unfold transact. cbn [sv_store set_tick]. change (ev_stream_id e) with stream in Ea. by rewrite Ea. }
  apply returns_bind, returns_modify, returns_ret. split.
  - apply (bumped_versions s1 store' e (Datatypes.S (sv_tick s1)) Hs1 Hok' Hb).
  - done.
Qed.

Lemma bar_to_json b : is_utc (b_interval_start b) → is_utc (b_interval_end b) →
  ∃ kvs, to_json_value (bar_obj b) = Ok (JObj kvs).
Proof.
  intros H1 H2. unfold bar_obj. cbn [to_json_value traverse mbind res_bind fst snd].
  rewrite !require_utc_is_utc by done. cbn [to_json_value traverse mbind res_bind fst snd]. eauto.
Qed.

Lemma gap_to_json g : gap_times_ok g → ∃ kvs, to_json_value (gap_obj g) = Ok (JObj kvs).
Proof.
  intros (H1 & H2 & H3 & H4). unfold gap_obj. rewrite H4. cbn [to_json_value traverse mbind res_bind fst snd].
  assert (is_utc (g_interval_end g)) as He by (destruct H2 as [[? _]| ->]; [done|apply is_utc_add, H1]).
  rewrite !require_utc_is_utc by (done || apply H1 || apply H3).
  cbn [to_json_value traverse mbind res_bind fst snd opt_obj from_option]. eauto.
Qed.

Lemma append_bar_ok bar t s :
  service_ok s → bar_in time_ok bar → is_utc t →
  returns (_append_bar draws bar t) s (λ _ s', service_ok s' ∧ same_components s s').
Proof.
  intros Hs [Hb He] Ht. assert (is_utc (b_interval_end bar)) as Hu by (rewrite He; apply is_utc_add, Hb).
  destruct (bar_to_json bar (proj1 Hb) Hu) as [kvs Hj]. unfold _append_bar.
  apply (append_event_ok _ _ _ _ _ kvs); try done.
  - by destruct (b_revision bar =? 1).
  - right. left. split; [destruct (b_revision bar =? 1); auto|]. exists bar. done.
Qed.

Lemma append_gap_ok g s :
  service_ok s → gap_times_ok g →
  returns (_append_gap draws g) s (λ _ s', service_ok s' ∧ same_components s s').
Proof.
  intros Hs Hg. destruct (gap_to_json g Hg) as [kvs Hj]. unfold _append_gap.
  apply (append_event_ok _ _ _ _ _ kvs); try done; try apply Hg. right. right. split; [done|]. by exists g.
Qed.

Lemma same_components_trans s1 s2 s3 :
  same_components s1 s2 → same_components s2 s3 → same_components s1 s3.
Proof. unfold same_components. naive_solver congruence. Qed.

Lemma append_bars_ok bars t s :
  service_ok s → Forall (bar_in time_ok) bars → is_utc t →
  returns (for_eachM (λ bar, _append_bar draws bar t) bars) s (λ _ s', service_ok s' ∧ same_components s s').
Proof.
  intros Hs Hb Ht. apply (returns_for_eachM _ (λ s', service_ok s' ∧ same_components s s')); [done|].
  intros bar s1 Hin [Hs1 Hc1]. rewrite list.Forall_forall in Hb.
  eapply returns_mono; [apply append_bar_ok; auto|]. intros e s2 [Hs2 Hc2].
  split; [done|by eapply same_components_trans].
Qed.

Lemma observe_total gd quote t :
  0 < gd_maximum_silence gd → map_Forall (λ _ q, time_ok (q_event_time q)) (gd_last_quote gd) →
  time_ok (q_event_time quote) → time_ok t →
  ∃ gd' g, observe gd quote t = (gd', Ok g) ∧ 0 < gd_maximum_silence gd' ∧
    map_Forall (λ _ q, time_ok (q_event_time q)) (gd_last_quote gd') ∧
    ∀ g', g = Some g' → gap_times_ok g'.
Proof.
  intros Hpos Hl Hq Ht. unfold observe.
  assert (map_Forall (λ _ q, time_ok (q_event_time q)) (<[q_instrument_id quote := quote]> (gd_last_quote gd)))
    as Hl' by (by apply map_Forall_insert_2).
  destruct (gd_last_quote gd !! q_instrument_id quote) as [p|] eqn:Ep; [|by eexists _, None].
  destruct (negb _ || negb _ || _) eqn:Ec; [by eexists _, None|].
  apply orb_false_iff in Ec as [_ Ec]. unfold dt_leb in Ec. rewrite instant_add in Ec.
  pose proof (Hl _ _ Ep) as Hp. unfold DataGap_new, DataGap_post_init. cbn [g_interval_start g_interval_end
    g_detected_at g_repaired_at require_utc_opt].
  rewrite !require_utc_is_utc by (apply Hp || apply Hq || apply Ht). cbn.
  replace (dt_leb _ _) with false by (unfold dt_leb; lia). cbn.
  eexists _, _. split; [reflexivity|]. split_and!; [done|done|]. intros g' [= <-].
  split_and!; cbn; auto.
Qed.

Lemma derive_ok record quote s :
  service_ok s → quote_ok quote → time_ok (md_received_time record) →
  returns (derive draws record quote) s (λ _ s', service_ok s').
Proof.
  intros Hs (Hpost & Hq & _) Hr. unfold derive. apply returns_bind.
  destruct (observe_total (sv_gap_detector s) quote (md_received_time record)) as (gd & g & E & Hsil & Hlast & Hg);
    [by destruct Hs|by destruct Hs|done|done|].
  exists g, (set_gap_detector s gd). split; [unfold observe_gap; by rewrite E|].
  assert (service_ok (set_gap_detector s gd)) as Hs1 by (destruct Hs; by split).
  apply returns_bind. apply (returns_mono _ _ (λ _ s', service_ok s')).
  { destruct g as [g|]; [|by apply returns_ret]. apply returns_bind.
    eapply returns_mono; [apply append_gap_ok; auto|]. intros e s' [? _]. by apply returns_ret. }
  intros _ s2 Hs2. apply returns_bind, returns_gets. destruct (correction_expired _ _).
  - pose proof (time_ok_floor _ Hq) as Hf. destruct (time_ok_end _ Hf) as [He _]. apply returns_bind.
    eapply returns_lift.
    { unfold DataGap_new, DataGap_post_init. cbn [g_interval_start g_interval_end g_detected_at
        g_repaired_at require_utc_opt].
      rewrite !require_utc_is_utc by (apply Hf || done || apply Hr). cbn.
      replace (dt_leb _ _) with false; [reflexivity|]. symmetry. apply Z.leb_gt. rewrite instant_add.
      unfold interval, minutes, seconds. lia. }
    apply returns_bind. eapply returns_mono; [apply append_gap_ok; [done|split_and!; cbn; auto]|].
    intros e s' [? _]. by apply returns_ret.
  - apply returns_bind. pose proof (on_quote_eq (sv_bar_builder s2) quote (so_builder _ Hs2) (proj1 Hq)) as Eb.
    destruct (match target _ _ with Some _ => _ | None => _ end) as [b' bars].
    destruct (on_quote_in time_ok (sv_bar_builder s2) quote b' bars) as (Hb' & Hst' & Hbars);
      [by destruct Hs2|apply Hq|by destruct Hs2|by apply time_ok_floor|done|].
    exists bars, (set_bar_builder s2 b'). split; [unfold builder_call; by rewrite Eb|].
    apply returns_bind. eapply returns_mono.
    + apply append_bars_ok; [destruct Hs2; by split|done|apply Hr].
    + intros _ s' [? _]. by apply returns_ret.
Qed.

(** A record the adapters may deliver: valid quote or none, sensible times. *)
Definition record_ok (record : MarketDataRecord) : Prop :=
  time_ok (md_received_time record) ∧ (∀ q, md_quote record = Some q → quote_ok q).

Lemma quote_payload_ok i q : MarketQuote_post_init q = Ok tt →
  ∃ kvs, quote_payload i q = Ok (JObj kvs).
Proof. intros Hq. unfold quote_payload. rewrite quote_to_json by done. cbn. destruct i; eauto. Qed.

Lemma quote_stream_nonempty i q : quote_stream_id i q ≠ "".
Proof. by destruct i. Qed.

Lemma process_ok record s :
  service_ok s → record_ok record → st_lineage_free (sv_store s) (raw_message s record) →
  returns (process draws record) s (λ _ s', service_ok s').
Proof.
  intros Hs [Hr Hq] Hlin. unfold process. apply returns_bind, returns_gets.
  destruct (md_quote record) as [q|].
  - destruct (Hq q eq_refl) as (Hpost & Ht & Ht'). clear Hq. apply returns_bind, returns_gets. cbv zeta.
    destruct (quote_payload_ok (sv_capture_identity s) q Hpost) as [kvs Hj].
    apply returns_bind. eapply returns_lift; [exact Hj|]. apply returns_bind.
    eapply returns_mono; [by apply stream_version_ok|]. intros v s1 (Hs1 & Hc & Hstore & Htick & ->). cbn beta.
    set (stream := quote_stream_id (sv_capture_identity s) q).
    apply returns_bind. eexists _, _. split; [reflexivity|].
    apply returns_bind, returns_gets, returns_bind, returns_gets, returns_bind.
    cbn [sv_producer sv_producer_version set_tick].
    pose proof (law_latest (sv_store s1) (sv_tick s1) stream (so_store _ Hs1)) as Hnn.
    destruct (so_producer _ Hs1) as [Hpr Hpv]. rewrite <- Hstore in *.
    set (e := mkEvent (dr_event_id (draws (sv_tick s1))) stream
      (st_latest_stream_version (sv_store s1) stream + 1) "MarketQuoteObserved" 1 (q_event_time q)
      (q_received_time q) None (dr_correlation_id (draws (sv_tick s1))) None (sv_producer s1)
      (sv_producer_version s1) kvs None None).
    assert (EventEnvelope_post_init e = Ok tt) as Hpe.
    { apply event_valid; cbn; try done; try lia; try apply Ht; try apply Ht'.
      apply nonempty_true, quote_stream_nonempty. }
    eapply (returns_lift _ _ e).
    { unfold EventEnvelope_create. rewrite to_json_value_of_json. change (EventEnvelope_new e = Ok e).
      unfold EventEnvelope_new. by rewrite Hpe. }
    assert (ingest_payload (ev_event_type e) (ev_payload e)) as Hip.
    { left. split; [done|]. exists (sv_capture_identity s), q. done. }
    destruct (law_capture_and_append (sv_store s1) (sv_tick s1) (raw_message s record) e
      (so_store _ Hs1) Hlin Hpe Hip eq_refl eq_refl) as (store' & r & Ea & Hok' & Hb).
    apply returns_bind. exists r, (set_store (set_tick s1 (Datatypes.S (sv_tick s1))) store'). split.
    { unfold transact. cbn [sv_store set_tick]. change (ev_stream_id e) with stream in Ea. by rewrite Ea. }
    destruct (ar_duplicate r); cbn [negb].
    + apply returns_ret. destruct Hs1. split; cbn; try done. intros t v Hv. rewrite Hb. by apply so_versions0.
    + apply returns_bind, returns_modify.
      pose proof (bumped_versions s1 store' e (Datatypes.S (sv_tick s1)) Hs1 Hok' Hb) as Hs2.
      apply returns_bind. eapply (returns_mono _ _ (λ _ s', service_ok s')).
      * destruct (native_capture _); cbn [negb]; [by apply returns_ret|]. by apply derive_ok.
      * intros _ s' Hs'. by apply returns_ret.
  - apply returns_bind. eexists _, _. split; [reflexivity|]. apply returns_bind.
    destruct (law_quarantine (sv_store s) (sv_tick s) (raw_message s record)
      (str_or (md_error_code record) "NORMALISATION_FAILED")
      (str_or (md_error_detail record) "adapter did not produce a quote") (so_store _ Hs) Hlin)
      as (store' & i & Ea & Hok' & Hb).
    exists i, (set_store (set_tick s (Datatypes.S (sv_tick s))) store'). split.
    { unfold transact. cbn [sv_store set_tick]. by rewrite Ea. }
    apply returns_ret. destruct Hs. split; cbn; try done. intros t v Hv. rewrite Hb. by apply so_versions0.
Qed.

Lemma advance_bars_ok w s :
  service_ok s → is_utc w → returns (advance_bars draws w) s (λ _ s', service_ok s').
Proof.
  intros Hs Hw. unfold advance_bars. apply returns_bind, returns_gets.
  destruct (native_capture _); [by apply returns_ret|]. apply returns_bind.
  destruct (advance_eq (sv_bar_builder s) w (so_builder _ Hs) Hw) as [Ea _].
  destruct (foldl _ _ _) as [b1 bars]. cbn [fst snd] in Ea.
  destruct (advance_in time_ok _ _ _ _ (so_builder _ Hs) (so_buckets _ Hs) Ea) as (Hb' & Hst' & Hbars).
  eexists bars, (set_bar_builder s _). split; [unfold builder_call; by rewrite Ea|].
  eapply returns_mono; [apply append_bars_ok; [destruct Hs; by split|done|done]|]. by intros _ s' [? _].
Qed.

End service_proof.

(** ** The PostgreSQL store keeps the interface's promises *)

#[export] Instance postgres_store : AuditStore DB := {|
  st_latest_stream_version := latest_stream_version;
  st_quarantine db d m reason detail := quarantine db (dr_raw_id d) m reason detail;
  st_append db d e expected := append db (dr_position d) (dr_now d) e expected;
  st_capture_and_append db d m e expected :=
    capture_and_append db (dr_raw_id d) (dr_position d) (dr_now d) m e expected |}.

(** uuid4() and identity columns do not repeat themselves; the clock is aware. *)
Definition draws_fresh (draws : nat → Draw) : Prop :=
  (∀ n m, (n < m)%nat → dr_event_id (draws n) ≠ dr_event_id (draws m) ∧
     dr_raw_id (draws n) ≠ dr_raw_id (draws m) ∧ dr_position (draws n) < dr_position (draws m)) ∧
  ∀ n, 0 < dr_position (draws n) ∧ is_Some (dt_offset (dr_now (draws n))).

(** The fields a projection reads. *)
Definition has (d : dict) (key : string) : Prop := ∃ v, dict_item key d = Ok v.
Definition has_time (d : dict) (key : string) : Prop := ∃ v t, dict_item key d = Ok v ∧ _parse_datetime v = Ok t.

Lemma str_item_Ok d key : has d key → ∃ v, str_item key d = Ok v.
Proof. intros [v Hv]. unfold str_item. rewrite Hv. by eexists. Qed.
Lemma time_item_Ok d key : has_time d key → ∃ t, time_item key d = Ok t.
Proof. intros (v & t & Hv & Ht). unfold time_item. rewrite Hv. cbn [mbind res_bind]. eauto. Qed.

(** Read the next field of a projection. *)
Ltac read_field :=
  match goal with
  | H : has ?d ?k |- context [str_item ?k ?d] =>
      let v := fresh "v" in destruct (str_item_Ok d k H) as [v ->]; cbn [mbind res_bind]
  | H : has_time ?d ?k |- context [time_item ?k ?d] =>
      let v := fresh "v" in destruct (time_item_Ok d k H) as [v ->]; cbn [mbind res_bind]
  | H : has ?d ?k |- context [dict_item ?k ?d] =>
      let v := fresh "v" in destruct H as [v ->]; cbn [mbind res_bind]
  end.

Lemma project_quote_reads m e listing :
  dict_item "listing_id" (ev_payload e) = Ok (JObj listing) →
  has listing "provider" → has listing "environment" → has listing "external_id" →
  has (ev_payload e) "instrument_id" → has_time (ev_payload e) "event_time" →
  has_time (ev_payload e) "received_time" → has (ev_payload e) "quality" →
  dict_opt "capture_source_class" (ev_payload e) = JNull ∨
  Forall (has (ev_payload e)) ["capture_provider"; "capture_environment"; "capture_source_id";
                               "capture_universe_id"; "capture_configuration_hash"] →
  ∃ m', project_quote m e = Ok m'.
Proof.
  intros Hl H1 H2 H3 H4 H5 H6 H7 Hc. unfold project_quote, quote_row. rewrite Hl. cbn [mbind res_bind _mapping].
  destruct Hc as [->|Hc].
  - repeat read_field. eauto.
  - rewrite !Forall_cons in Hc. destruct Hc as (C1 & C2 & C3 & C4 & C5 & _).
    destruct (dict_opt "capture_source_class" (ev_payload e)); repeat read_field; eauto.
Qed.

Lemma project_quote_total i q payload m e :
  quote_ok q → quote_payload i q = Ok (JObj payload) → ev_payload e = payload →
  ∃ m', project_quote m e = Ok m'.
Proof.
  intros (Hpost & Ht & Ht') Hp He. unfold quote_payload in Hp. rewrite quote_to_json in Hp by done.
  cbn [mbind res_bind] in Hp.
  pose proof (parse_time _ (proj1 Ht) (time_ok_year _ Ht)) as P1.
  pose proof (parse_time _ (proj1 Ht') (time_ok_year _ Ht')) as P2.
  eapply project_quote_reads; rewrite ?He; destruct i as [i|]; injection Hp as <-;
    try (by eexists); try reflexivity; try (eexists _, _; split; [reflexivity|eassumption]).
  - right. repeat constructor; by eexists.
  - by left.
Qed.

Lemma project_bar_total b payload m e :
  bar_times_ok b → to_json_value (bar_obj b) = Ok (JObj payload) → ev_payload e = payload →
  ∃ m', project_bar m e = Ok m'.
Proof.
  intros [Ht Hend] Hp He. destruct (time_ok_end _ Ht) as [Hu Hy]. rewrite <- Hend in Hu, Hy.
  unfold bar_obj in Hp. cbn [to_json_value traverse mbind res_bind fst snd] in Hp.
  rewrite !require_utc_is_utc in Hp by (done || apply Ht).
  cbn [to_json_value traverse mbind res_bind fst snd] in Hp. injection Hp as <-.
  pose proof (parse_time _ (proj1 Ht) (time_ok_year _ Ht)) as P1. pose proof (parse_time _ Hu Hy) as P2.
  assert (Forall (has (ev_payload e)) ["instrument_id"; "basis"; "open"; "high"; "low"; "close";
    "sample_count"; "revision"; "provenance"; "quality"]) as Hf
    by (rewrite He; repeat constructor; by eexists).
  rewrite !Forall_cons in Hf. destruct Hf as (?&?&?&?&?&?&?&?&?&?&_).
  assert (has_time (ev_payload e) "interval_start") by (rewrite He; eexists _, _; split; [reflexivity|eassumption]).
  assert (has_time (ev_payload e) "interval_end") by (rewrite He; eexists _, _; split; [reflexivity|eassumption]).
  unfold project_bar. replace (dict_item "source_listing_id" (ev_payload e))
    with (Ok (listing_id_json (b_source_listing_id b))) by (by rewrite He).
  cbn [mbind res_bind _mapping listing_id_json]. repeat read_field. cbn. eauto.
Qed.

Lemma project_gap_total g payload m e :
  gap_times_ok g → to_json_value (gap_obj g) = Ok (JObj payload) → ev_payload e = payload →
  ∃ m', project_gap m e = Ok m'.
Proof.
  intros (Hs & Hend & Hd & Hr) Hp He.
  assert (is_utc (g_interval_end g) ∧ year_ok (g_interval_end g)) as [Hu Hy].
  { destruct Hend as [Ht|Et]; [split; [apply Ht|by apply time_ok_year]|rewrite Et; by apply time_ok_end]. }
  unfold gap_obj in Hp. rewrite Hr in Hp. cbn [to_json_value traverse mbind res_bind fst snd] in Hp.
  rewrite !require_utc_is_utc in Hp by (done || apply Hs || apply Hd).
  cbn [to_json_value traverse mbind res_bind fst snd opt_obj from_option] in Hp. injection Hp as <-.
  pose proof (parse_time _ (proj1 Hs) (time_ok_year _ Hs)) as P1. pose proof (parse_time _ Hu Hy) as P2.
  pose proof (parse_time _ (proj1 Hd) (time_ok_year _ Hd)) as P3.
  assert (has (ev_payload e) "instrument_id") by (rewrite He; by eexists).
  assert (has (ev_payload e) "reason") by (rewrite He; by eexists).
  assert (has_time (ev_payload e) "interval_start") by (rewrite He; eexists _, _; split; [reflexivity|eassumption]).
  assert (has_time (ev_payload e) "interval_end") by (rewrite He; eexists _, _; split; [reflexivity|eassumption]).
  assert (has_time (ev_payload e) "detected_at") by (rewrite He; eexists _, _; split; [reflexivity|eassumption]).
  unfold project_gap. repeat read_field.
  replace (truthy (dict_opt "repaired_at" (ev_payload e))) with false by (by rewrite He).
  cbn [mbind res_bind]. eauto.
Qed.

Lemma project_total m e : ingest_payload (ev_event_type e) (ev_payload e) → ∃ m', _project m e = Ok m'.
Proof.
  unfold _project. intros [[-> (i & q & Hq & Hp)]|[[[->| ->] (b & Hb & Hp)]|[-> (g & Hg & Hp)]]]; cbn [String.eqb
    Ascii.eqb Bool.eqb orb].
  - by eapply project_quote_total.
  - by eapply project_bar_total.
  - by eapply project_bar_total.
  - by eapply project_gap_total.
Qed.

Lemma persist_valid e p now raw :
  EventEnvelope_post_init e = Ok tt → is_Some (dt_offset now) →
  EventEnvelope_post_init (persist e p (astimezone_utc now) raw) = Ok tt.
Proof.
  unfold EventEnvelope_post_init. intros H _. cbn [persist ev_event_time ev_received_time ev_persisted_time
    ev_stream_id ev_stream_version ev_event_type ev_schema_version ev_producer ev_producer_version].
  apply bind_Ok in H as (d1 & -> & H). apply bind_Ok in H as (d2 & -> & H).
  apply bind_Ok in H as (d3 & _ & H). cbn [mbind res_bind require_utc_opt].
  rewrite require_utc_is_utc by done. cbn [mbind res_bind]. exact H.
Qed.

Section postgres.
Variable draws : nat → Draw.
Hypothesis fresh : draws_fresh draws.

Definition unused (db : DB) (n : nat) : Prop := ∀ k, (n <= k)%nat →
  (∀ e, e ∈ db_events db → ev_event_id e ≠ dr_event_id (draws k) ∧ position_of e < dr_position (draws k)) ∧
  fresh_raw db (dr_raw_id (draws k)).
Definition pg_ok (db : DB) (n : nat) : Prop := db_ok db ∧ unused db n.
Definition lineage_free (db : DB) (m : RawMessage) : Prop :=
  ∀ r, r ∈ db_raw db → same_lineage (rr_message r) m = false.

Lemma max_version_snoc t l e :
  max_version t (l ++ [e])
  = if decide (t = ev_stream_id e) then Z.max (max_version t l) (ev_stream_version e) else max_version t l.
Proof.
  unfold max_version. rewrite stream_events_app, map_app. unfold stream_events at 2. cbn [List.filter].
  destruct (String.eqb_spec (ev_stream_id e) t) as [<-|Hne]; cbn [map].
  - rewrite decide_True by done. apply foldr_max_snoc.
  - rewrite decide_False by done. by rewrite app_nil_r.
Qed.

Lemma unused_S db n : unused db n → unused db (S n).
Proof. intros H k Hk. apply H. lia. Qed.

Lemma pg_append db n e raw :
  db_ok db → unused db n ∨ (∃ row db0, db = set_raw db0 (db_raw db0 ++ [row]) ∧ unused db0 n ∧ rr_id row = dr_raw_id (draws n)) →
  (∀ r, raw = Some r → r ∈ map rr_id (db_raw db) ∧ r ∉ omap ev_raw_record_id (db_events db)) →
  EventEnvelope_post_init e = Ok tt → ingest_payload (ev_event_type e) (ev_payload e) →
  ev_event_id e = dr_event_id (draws n) → ev_stream_version e = latest_stream_version db (ev_stream_id e) + 1 →
  ∃ db' p, _append db (dr_position (draws n)) (dr_now (draws n)) e
             (latest_stream_version db (ev_stream_id e)) raw = Ok (db', p) ∧
    pg_ok db' (S n) ∧ db_raw db' = db_raw db ∧
    bumped (latest_stream_version db) (latest_stream_version db') e.
Proof.
  intros Hok Hun Hraw Hpost Hpay Hid Hver.
  assert (∀ k, (n <= k)%nat → ∀ x, x ∈ db_events db →
    ev_event_id x ≠ dr_event_id (draws k) ∧ position_of x < dr_position (draws k)) as Hev.
  { intros k Hk x Hx. destruct Hun as [H|(row & db0 & -> & H & _)]; by apply (H k Hk). }
  destruct (proj2 fresh n) as [Hpos Hnow].
  set (p := persist e (dr_position (draws n)) (astimezone_utc (dr_now (draws n))) raw).
  destruct (project_total (db_read db) p) as [read Hread]; [done|].
  assert (_append db (dr_position (draws n)) (dr_now (draws n)) e (latest_stream_version db (ev_stream_id e)) raw
    = Ok (mkDB (db_raw db) (db_quarantine db) (db_events db ++ [p]) read (Some (dr_position (draws n))), p)) as E.
  { unfold _append. cbv zeta. unfold latest_stream_version in *. rewrite Z.eqb_refl, Hver, Z.eqb_refl.
    cbn [negb orb raise_if mbind res_bind].
    assert (existsb (λ x, bool_decide (ev_event_id x = ev_event_id e)) (db_events db) = false) as ->.
    { apply not_true_iff_false. intros (x & Hx & Hb)%existsb_exists. apply list_elem_of_In in Hx.
      apply bool_decide_eq_true in Hb. destruct (Hev n ltac:(lia) x Hx) as [Hne _]. congruence. }
    cbn [raise_if mbind res_bind]. fold p. unfold EventEnvelope_new.
    rewrite (persist_valid e _ _ raw Hpost Hnow : EventEnvelope_post_init p = Ok tt).
    cbn [mbind res_bind db_read set_events]. rewrite Hread. done. }
  eexists _, p. split; [exact E|]. split; [split|split; [done|]].
  - eapply append_ok; [exact Hok| |exact Hnow|exact Hraw|exact E]. split; [done|].
    intros x Hx. by apply (Hev n ltac:(lia)).
  - intros k Hk. destruct (proj1 fresh n k ltac:(lia)) as (F1 & F2 & F3). split; cbn.
    + intros x [Hx| ->%list_elem_of_singleton]%elem_of_app; [apply Hev; [lia|done]|].
      split; [cbn; congruence|done].
    + destruct Hun as [H|(row & db0 & -> & H & Hrow)]; [apply (H k ltac:(lia))|].
      unfold fresh_raw. cbn. rewrite fmap_app. intros [Hin|Hin%list_elem_of_singleton]%elem_of_app.
      * by apply (proj2 (H k ltac:(lia))).
      * congruence.
  - intros t. unfold latest_stream_version. cbn [db_events]. rewrite max_version_snoc.
    change (ev_stream_id p) with (ev_stream_id e). change (ev_stream_version p) with (ev_stream_version e).
    destruct (decide (t = ev_stream_id e)) as [->|]; [|done]. rewrite Hver. unfold latest_stream_version. lia.
Qed.

Lemma pg_capture db n m :
  pg_ok db n → lineage_free db m →
  ∃ db' r, _capture db (dr_raw_id (draws n)) m = Ok (db', r) ∧ db_ok db' ∧ unused db' (S n) ∧
    db_events db' = db_events db ∧
    (if (r.2 : bool) then db' = db
     else r.1 = dr_raw_id (draws n) ∧ ∃ row, db' = set_raw db (db_raw db ++ [row]) ∧ rr_id row = dr_raw_id (draws n)).
Proof.
  intros [Hok Hun] Hl. assert (∃ db' r, _capture db (dr_raw_id (draws n)) m = Ok (db', r)) as (db' & r & E).
  { unfold _capture. destruct (List.find _ _); [eauto|].
    assert (existsb (λ r, same_lineage (rr_message r) m) (db_raw db) = false) as ->; [|cbn; eauto].
    apply not_true_iff_false. intros (x & Hx & Hb)%existsb_exists. apply list_elem_of_In, Hl in Hx. congruence. }
  exists db', r. split; [done|].
  assert (fresh_raw db (dr_raw_id (draws n))) as Hf by (by apply (Hun n)).
  split; [by eapply capture_ok|].
  destruct (capture_spec _ _ _ _ E) as [(row & _ & _ & [= -> ->])|[_ [= -> ->]]]; cbn.
  - split_and!; [by apply unused_S|done|done].
  - split; [|split; [done|split; [done|eexists; split; [done|done]]]].
    intros k Hk. split; [apply (Hun k ltac:(lia))|]. unfold fresh_raw. cbn. rewrite fmap_app.
    intros [Hin|Hin%list_elem_of_singleton]%elem_of_app; [by apply (proj2 (Hun k ltac:(lia)))|].
    cbn in Hin. destruct (proj1 fresh n k ltac:(lia)) as (_ & F2 & _). congruence.
Qed.

#[local] Program Instance postgres_laws : AuditStoreLaws DB draws := {|
  st_ok := pg_ok; st_lineage_free := lineage_free |}.
Next Obligation. intros db n [H1 H2]. split; [done|by apply unused_S]. Qed.
Next Obligation.
  intros db n t [H _]. cbn. unfold latest_stream_version. rewrite max_version_length by done. lia.
Qed.
Next Obligation.
  intros db n e [Hok Hun] Hpost Hpay Hid Hver.
  destruct (pg_append db n e None Hok (or_introl Hun) ltac:(done) Hpost Hpay Hid Hver) as (db' & p & E & H & Hr & Hb).
  exists db', p. split; [exact E|]. split; [done|]. split; [|done]. intros m Hm r. rewrite Hr. apply Hm.
Qed.
Next Obligation.
  intros db n m e Hok Hl Hpost Hpay Hid Hver.
  destruct (pg_capture db n m Hok Hl) as (db1 & [rid dup] & Ec & Hok1 & Hun1 & Hev & Hd). cbn in Hd.
  change (st_capture_and_append db (draws n) m e (st_latest_stream_version db (ev_stream_id e)))
    with (capture_and_append db (dr_raw_id (draws n)) (dr_position (draws n)) (dr_now (draws n)) m e
            (latest_stream_version db (ev_stream_id e))).
  unfold capture_and_append. rewrite Ec. cbn [mbind res_bind]. destruct dup.
  - subst db1. eexists db, _. split; [done|]. cbn. split; [by split|done].
  - destruct Hd as (-> & row & -> & Hrow).
    destruct (pg_append (set_raw db (db_raw db ++ [row])) n e (Some (dr_raw_id (draws n)))) as (db' & p & E & H & _ & Hb);
      try done.
    + right. exists row, db. split; [done|]. split; [apply Hok|done].
    + intros r [= <-]. cbn. rewrite map_app, <- Hrow. split; [set_solver|].
      intros (x & Hx & Hr)%list_elem_of_omap. destruct Hok as [Hok Hun].
      apply (ok_raw_refs _ Hok _ _ Hx) in Hr. rewrite Hrow in Hr. by apply (proj2 (Hun n ltac:(lia))).
    + change (latest_stream_version db (ev_stream_id e))
        with (latest_stream_version (set_raw db (db_raw db ++ [row])) (ev_stream_id e)).
      rewrite E. cbn [mbind res_bind]. eexists db', _. split; [done|]. split; [done|]. exact Hb.
Qed.
Next Obligation.
  intros db n m reason detail Hok Hl.
  destruct (pg_capture db n m Hok Hl) as (db1 & [rid dup] & Ec & Hok1 & Hun1 & Hev & _).
  change (st_quarantine db (draws n) m reason detail) with (quarantine db (dr_raw_id (draws n)) m reason detail).
  unfold quarantine. rewrite Ec. cbn [mbind res_bind]. eexists _, rid. split; [reflexivity|]. split.
  - split; [destruct Hok1; by split|]. intros k Hk. apply (Hun1 k Hk).
  - intros t. cbn. unfold latest_stream_version. cbn. by rewrite Hev.
Qed.

End postgres.

(** ** Runs of the service over the PostgreSQL store *)

Inductive ingest_op : Type := IProcess (record : MarketDataRecord) | IAdvance (watermark : datetime).

Definition ingest_exec (draws : nat → Draw) (o : ingest_op) : M (IngestionService DB) unit :=
  match o with
  | IProcess record => _ ← process draws record; mret tt
  | IAdvance w => _ ← advance_bars draws w; mret tt
  end.

(** Adapters that merge updates leave the lineage fields empty. *)
Definition op_ok (o : ingest_op) : Prop :=
  match o with
  | IProcess record => record_ok record ∧ md_connection_generation record = None
  | IAdvance w => is_utc w
  end.

Lemma no_generation_lineage db (s : IngestionService DB) record :
  md_connection_generation record = None → lineage_free db (raw_message s record).
Proof.
  intros Hg r _. unfold same_lineage. cbn. rewrite Hg.
  by repeat match goal with |- context [match ?x with _ => _ end] => destruct x end.
Qed.

Lemma init_service_ok draws (fresh : draws_fresh draws) producer version lateness retention silence
    builder detector identity session s0 :
  OneMinuteBarBuilder_init lateness retention = Ok builder → GapDetector_init silence = Ok detector →
  nonempty producer = true → nonempty version = true →
  IngestionService_init empty_db producer version builder detector identity session = Ok s0 →
  service_ok (H0 := postgres_laws draws fresh) s0.
Proof.
  intros Hb Hg Hp Hv Hi. unfold IngestionService_init in Hi. res_inv. split; cbn; try done.
  - split; [apply empty_ok|]. intros k _. split; [by intros e ?%elem_of_nil|apply not_elem_of_nil].
  - by apply (hist_ok _ _ (init_history _ _ _ Hb)).
  - unfold OneMinuteBarBuilder_init in Hb. res_inv. apply map_Forall_empty.
  - unfold GapDetector_init in Hg. res_inv. cbn. lia.
  - unfold GapDetector_init in Hg. res_inv. apply map_Forall_empty.
Qed.


(** A redelivered record is inert: when its deduplication key is already stored, [process] reports a
    duplicate and leaves the store, the bar builder and the gap detector as they were, so no quote,
    bar or gap is derived from it twice. *)
Theorem duplicate_record_inert draws s record q row :
  db_ok (sv_store s) →
  (∀ t v, sv_stream_versions s !! t = Some v → latest_stream_version (sv_store s) t = v) →
  nonempty (sv_producer s) = true → nonempty (sv_producer_version s) = true →
  md_quote record = Some q → quote_ok q →
  row ∈ db_raw (sv_store s) → same_dedup (rr_message row) (raw_message s record) = true →
  ∃ s' r, process draws record s = (s', Ok r) ∧ ar_duplicate r = true ∧
    sv_store s' = sv_store s ∧ sv_bar_builder s' = sv_bar_builder s ∧
    sv_gap_detector s' = sv_gap_detector s.
Proof.
  intros Hok Hver Hp Hv Hq (Hpost & Ht & Ht') Hrow Hdup. unfold process.
  unfold mbind at 1, M_bind at 1, gets at 1. rewrite Hq.
  unfold mbind at 1, M_bind at 1, gets at 1. cbv zeta.
  destruct (quote_payload_ok (sv_capture_identity s) q Hpost) as [kvs Hj].
  unfold mbind at 1, M_bind at 1, lift at 1. rewrite Hj.
  set (stream := quote_stream_id (sv_capture_identity s) q).
  assert (∃ s1, _stream_version stream s = (s1, Ok (latest_stream_version (sv_store s) stream)) ∧
    sv_store s1 = sv_store s ∧ sv_bar_builder s1 = sv_bar_builder s ∧
    sv_gap_detector s1 = sv_gap_detector s ∧ sv_producer s1 = sv_producer s ∧
    sv_producer_version s1 = sv_producer_version s) as (s1 & E1 & C1 & C2 & C3 & C4 & C5).
  { unfold _stream_version, mbind, M_bind, gets. destruct (sv_stream_versions s !! stream) as [v|] eqn:Ev.
    - rewrite <- (Hver _ _ Ev). by eexists.
    - by eexists. }
  unfold mbind at 1, M_bind at 1. rewrite E1. unfold mbind at 1, M_bind at 1, draw at 1.
  unfold mbind at 1, M_bind at 1, gets at 1. unfold mbind at 1, M_bind at 1, gets at 1.
  unfold mbind at 1, M_bind at 1, lift at 1. cbn [sv_producer sv_producer_version set_tick].
  assert (0 <= latest_stream_version (sv_store s) stream) as Hnn
    by (unfold latest_stream_version; rewrite max_version_length by done; lia).
  unfold EventEnvelope_create. rewrite to_json_value_of_json. cbn [mbind res_bind].
  unfold EventEnvelope_new. rewrite event_valid; cbn; try done; try lia; try apply Ht; try apply Ht';
    try congruence; [|apply nonempty_true, quote_stream_nonempty].
  unfold mbind at 1, M_bind at 1, transact. cbn. rewrite C1.
  unfold capture_and_append, _capture. pose proof (find_dedup (sv_store s) (raw_message s record)) as Hf.
  destruct (List.find _ _) as [row'|]; [|by rewrite (Hf _ Hrow) in Hdup].
  cbn. by eexists _, _.
Qed.

(** ** Instances *)

Definition sample_draws (n : nat) : Draw :=
  mkDraw (mkUUID (digits (Z.of_nat n))) (mkUUID "c") (Z.of_nat n + 1) (Z.of_nat n + 1) (utc 0).

Lemma sample_draws_fresh : draws_fresh sample_draws.
Proof.
  split; [|intros n; cbn; split; [lia|by eexists]]. intros n m Hnm. cbn. split; [|lia].
  intros [= E%digits_inj]; lia.
Qed.

Definition sample_record (us : Z) : MarketDataRecord :=
  mkRecord "ig" "IG_DEMO" "sub" (digits us) (utc us) [("bid", JStr "1.1")] MERGED_STATE
    (Some (sample_quote us HEALTHY)) None None None None.
Definition sample_service : IngestionService DB :=
  mkService empty_db "ingestion" "1" sample_start (mkDetector (minutes 2) ∅) ∅ None None 0.
Definition sample_ingest : list ingest_op :=
  [IProcess (sample_record (seconds 10)); IProcess (sample_record (seconds 10));
   IAdvance (utc (minutes 2)); IProcess (sample_record (minutes 5))].

Lemma sample_record_ok us : 0 <= us < 1000000000 → record_ok (sample_record us).
Proof.
  intros H. assert (time_ok (utc us)) as Ht by (split; [done|unfold us_per_day; cbn; lia]).
  split; [done|]. intros q [= <-]. split; [reflexivity|]. done.
Qed.


(** The same messages, run: one event per new quote, one bar, one gap. *)
Example sample_ingest_events :
  map ev_event_type (db_events (sv_store (for_eachM (ingest_exec sample_draws) sample_ingest sample_service).1))
  = ["MarketQuoteObserved"; "MarketBarClosed"; "MarketQuoteObserved"; "MarketDataGapDetected"].
Proof. vm_compute. reflexivity. Qed.

Definition sample_redelivery : IngestionService DB := set_store sample_service sample_db.
Definition sample_redelivered : MarketDataRecord :=
  mkRecord "ig" "IG_DEMO" "sub" "k1" (utc 0) [] MERGED_STATE (Some (sample_quote 0 HEALTHY)) None None None None.

Lemma duplicate_record_inert_witness :
  ∃ s' r, process sample_draws sample_redelivered sample_redelivery = (s', Ok r) ∧
    ar_duplicate r = true ∧ sv_store s' = sample_db ∧
    sv_bar_builder s' = sv_bar_builder sample_redelivery ∧
    sv_gap_detector s' = sv_gap_detector sample_redelivery.
Proof.
  apply (duplicate_record_inert sample_draws sample_redelivery sample_redelivered (sample_quote 0 HEALTHY)
    (mkRawRow 1 (with_payload (sample_raw "k1") (_redact_mapping (rm_payload (sample_raw "k1"))))
       (sha256_json (JObj (_redact_mapping (rm_payload (sample_raw "k1")))))));
    try reflexivity.
  - exact (reach_ok _ _ empty_ok sample_db_reach).
  - intros t v Hv. discriminate Hv.
  - split; [reflexivity|]. assert (time_ok (utc 0)) by (split; [reflexivity|unfold us_per_day; cbn; lia]). done.
  - apply list_elem_of_singleton. reflexivity.
Defined.
