(* ===== verification/RunReconciliation.v ===== *)
(** Runs and the reconciliation of abandoned ones: the plan of
    [domain/operations.py], its planning and hashing in
    [application/run_reconciliation.py], and the ops.runs table with start,
    finish, stale query and atomic reconciliation of [adapters/postgres/store.py]. *)

From S2P Require Import Prelude PySorted PyStr PyTime PyDecimal Sha256 PyJson PyParse Domain Storage EventStore CaptureFeed.
From Stdlib Require Import Ascii.

(** ** The plan *)

Definition RUN_RECONCILIATION_STATUS : string := "FAILED".
Definition RUN_RECONCILIATION_REASON : string := "PRE_CANDIDATE_PROCESS_INTERRUPTED".
Definition RUN_RECONCILIATION_FINISHED_AT_BASIS : string := "OPERATOR_ASSERTED_CUTOFF_UPPER_BOUND".

Record RunReconciliationTarget : Type := mkTarget { rt_run_id : UUID; rt_started_at : datetime }.
#[export] Instance RunReconciliationTarget_eq_dec : EqDecision RunReconciliationTarget.
Proof. solve_decision. Defined.

Definition RunReconciliationTarget_post_init (t : RunReconciliationTarget) : res unit :=
  require_utc (rt_started_at t) "run reconciliation target started_at";; Ok tt.

Record RunReconciliationPlan : Type := mkRunPlan {
  rp_plan_hash : string;
  rp_created_at : datetime;
  rp_cutoff : datetime;
  rp_capture_source_id : string;
  rp_database_name : string;
  rp_universe_name : string;
  rp_configuration_hash : string;
  rp_application_version : string;
  rp_application_image : string;
  rp_environment : BrokerEnvironment;
  rp_terminal_status : string;
  rp_reason_code : string;
  rp_finished_at_basis : string;
  rp_targets : list RunReconciliationTarget }.

(** [text.rpartition(sep)]: before and after the last occurrence. *)
Fixpoint last_occurrence (pat l : list ascii) : option (list ascii * list ascii) :=
  match l with
  | [] => None
  | c :: l' =>
      match last_occurrence pat l' with
      | Some (a, b) => Some (c :: a, b)
      | None => if is_prefix pat l then Some ([], skipn (length pat) l) else None
      end
  end.
Definition rpartition (sep text : string) : string * string * string :=
  match last_occurrence (chars sep) (chars text) with
  | Some (a, b) => (of_chars a, sep, of_chars b)
  | None => ("", "", text)
  end.

Definition target_key (t : RunReconciliationTarget) : Z * string := (instant (rt_started_at t), uuid_text (rt_run_id t)).

Definition RunReconciliationPlan_post_init (p : RunReconciliationPlan) : res unit :=
  require_utc (rp_created_at p) "run reconciliation created_at";;
  require_utc (rp_cutoff p) "run reconciliation cutoff";;
  raise_if (dt_ltb (rp_created_at p) (rp_cutoff p))
           (ValueError "run reconciliation cannot be created before its cutoff");;
  raise_if (out_of_bounds (rp_capture_source_id p) 64)
           (ValueError "run reconciliation capture source ID is invalid");;
  raise_if (negb (all_in slug_alphabet (rp_capture_source_id p)))
           (ValueError "run reconciliation capture source ID is invalid");;
  raise_if (out_of_bounds (rp_database_name p) 63)
           (ValueError "run reconciliation database name is invalid");;
  raise_if (out_of_bounds (rp_universe_name p) 64)
           (ValueError "run reconciliation universe name is invalid");;
  raise_if (negb (is_sha256 (rp_configuration_hash p)))
           (ValueError "run reconciliation configuration hash must be lower-case SHA-256");;
  raise_if (out_of_bounds (rp_application_version p) 64)
           (ValueError "run reconciliation application version is invalid");;
  let '(repository, separator, digest) := rpartition "@sha256:" (rp_application_image p) in
  raise_if (negb (nonempty repository) || negb (nonempty separator)
            || (500 <? len (rp_application_image p)) || negb (is_sha256 digest))
           (ValueError "run reconciliation application image must be pinned by digest");;
  raise_if (negb (is_sha256 (rp_plan_hash p)))
           (ValueError "run reconciliation plan hash must be lower-case SHA-256");;
  raise_if (negb (String.eqb (rp_terminal_status p) RUN_RECONCILIATION_STATUS))
           (ValueError "run reconciliation terminal status is unsupported");;
  raise_if (negb (String.eqb (rp_reason_code p) RUN_RECONCILIATION_REASON))
           (ValueError "run reconciliation reason code is unsupported");;
  raise_if (negb (String.eqb (rp_finished_at_basis p) RUN_RECONCILIATION_FINISHED_AT_BASIS))
           (ValueError "run reconciliation terminal-time basis is unsupported");;
  raise_if (bool_decide (rp_targets p = []) || (100 <? Z.of_nat (length (rp_targets p))))
           (ValueError "run reconciliation requires between one and 100 targets");;
  raise_if (has_duplicates (map rt_run_id (rp_targets p)))
           (ValueError "run reconciliation target IDs must be unique");;
  raise_if (existsb (λ t, dt_leb (rp_cutoff p) (rt_started_at t)) (rp_targets p))
           (ValueError "run reconciliation targets must start before the cutoff");;
  raise_if (negb (bool_decide (rp_targets p = py_sorted target_key (rp_targets p))))
           (ValueError "run reconciliation targets must use canonical order").

(** ** Planning: [application/run_reconciliation.py] *)

Definition _run_reconciliation_plan_payload (plan_hash : option string) (created_at cutoff : datetime)
    (capture_source_id database_name universe_name configuration_hash application_version
     application_image : string) (environment : BrokerEnvironment)
    (terminal_status reason_code finished_at_basis : string) (targets : list RunReconciliationTarget) : dict :=
  let payload :=
    [("schema_version", JInt 1);
     ("created_at", JStr (utc_text created_at));
     ("cutoff", JStr (utc_text cutoff));
     ("capture_source_id", JStr capture_source_id);
     ("database_name", JStr database_name);
     ("universe_name", JStr universe_name);
     ("configuration_hash", JStr configuration_hash);
     ("application_version", JStr application_version);
     ("application_image", JStr application_image);
     ("environment", JStr (BrokerEnvironment_str environment));
     ("terminal_status", JStr terminal_status);
     ("reason_code", JStr reason_code);
     ("finished_at_basis", JStr finished_at_basis);
     ("targets", JList (map (λ t, JObj [("run_id", JStr (uuid_text (rt_run_id t)));
                                        ("started_at", JStr (utc_text (rt_started_at t)))]) targets))] in
  match plan_hash with
  | Some h => ("plan_hash", JStr h) :: payload
  | None => payload
  end.

Definition run_reconciliation_plan_payload (p : RunReconciliationPlan) : dict :=
  _run_reconciliation_plan_payload (Some (rp_plan_hash p)) (rp_created_at p) (rp_cutoff p)
    (rp_capture_source_id p) (rp_database_name p) (rp_universe_name p) (rp_configuration_hash p)
    (rp_application_version p) (rp_application_image p) (rp_environment p) (rp_terminal_status p)
    (rp_reason_code p) (rp_finished_at_basis p) (rp_targets p).

(** [d.pop(key)] *)
Definition dict_pop (key : string) (d : dict) : res (json * dict) :=
  v ← dict_item key d; Ok (v, List.filter (λ kv, negb (String.eqb kv.1 key)) d).

Definition verify_run_reconciliation_plan_hash (p : RunReconciliationPlan) : res unit :=
  '(observed_hash, payload) ← dict_pop "plan_hash" (run_reconciliation_plan_payload p);
  raise_if (negb (String.eqb (py_str observed_hash) (sha256_json (JObj payload))))
           (ValueError "run reconciliation plan hash does not match its canonical content").

Definition build_run_reconciliation_plan (targets : list RunReconciliationTarget)
    (created_at cutoff : datetime)
    (capture_source_id database_name universe_name configuration_hash application_version
     application_image : string) (environment : BrokerEnvironment) : res RunReconciliationPlan :=
  let ordered := py_sorted target_key targets in
  let unhashed := _run_reconciliation_plan_payload None created_at cutoff capture_source_id
        database_name universe_name configuration_hash application_version application_image
        environment RUN_RECONCILIATION_STATUS RUN_RECONCILIATION_REASON
        RUN_RECONCILIATION_FINISHED_AT_BASIS ordered in
  let p := mkRunPlan (sha256_json (JObj unhashed)) created_at cutoff capture_source_id database_name
        universe_name configuration_hash application_version application_image environment
        RUN_RECONCILIATION_STATUS RUN_RECONCILIATION_REASON RUN_RECONCILIATION_FINISHED_AT_BASIS ordered in
  RunReconciliationPlan_post_init p;; Ok p.

(** ** The ops.runs table *)

Inductive RunStatus : Type := RUNNING | COMPLETED | FAILED | STOPPED.
#[export] Instance RunStatus_eq_dec : EqDecision RunStatus.
Proof. solve_decision. Defined.
Definition RunStatus_of_str (s : string) : option RunStatus :=
  if String.eqb s "COMPLETED" then Some COMPLETED else if String.eqb s "FAILED" then Some FAILED
  else if String.eqb s "STOPPED" then Some STOPPED else if String.eqb s "RUNNING" then Some RUNNING else None.

Record RunRow : Type := mkRunRow {
  ru_kind : RunKind;
  ru_status : RunStatus;
  ru_environment : BrokerEnvironment;
  ru_started_at : datetime;
  ru_finished_at : option datetime;
  ru_configuration_hash : string;
  ru_detail : json }.

Record RunsDB : Type := mkRunsDB { runs_database : string; runs_rows : gmap UUID RunRow }.
Definition set_rows (db : RunsDB) v : RunsDB := mkRunsDB (runs_database db) v.

Definition terminate (row : RunRow) (status : RunStatus) (finished_at : datetime) (detail : json) : RunRow :=
  mkRunRow (ru_kind row) status (ru_environment row) (ru_started_at row) (Some finished_at)
    (ru_configuration_hash row) detail.

(** [start_run]; [run_id] is UUID.new(), whose collision would violate the primary key. *)
Definition start_run (db : RunsDB) (run_id : UUID) (kind : RunKind) (environment : BrokerEnvironment)
    (configuration_hash : string) (started_at : datetime) : res (RunsDB * UUID) :=
  _require_sha256 configuration_hash "run configuration hash";;
  raise_if (bool_decide (is_Some (runs_rows db !! run_id))) (IntegrityError "runs_pkey");;
  Ok (set_rows db (<[run_id := mkRunRow kind RUNNING environment (astimezone_utc started_at) None
                       configuration_hash (JObj [])]> (runs_rows db)), run_id).

Definition finish_run (db : RunsDB) (run_id : UUID) (status : string) (finished_at : datetime)
    (detail : dict) : res RunsDB :=
  match RunStatus_of_str status with
  | Some RUNNING | None => Raise (ValueError "invalid terminal run status")
  | Some st =>
      match runs_rows db !! run_id with
      | Some row =>
          if bool_decide (ru_status row = RUNNING)
          then Ok (set_rows db (<[run_id := terminate row st (astimezone_utc finished_at) (JObj detail)]>
                                  (runs_rows db)))
          else Raise (RuntimeError "run does not exist or is already terminal")
      | None => Raise (RuntimeError "run does not exist or is already terminal")
      end
  end.

(** The WHERE clause shared by the stale query, the locked re-read and the update. *)
Definition stale (environment : BrokerEnvironment) (configuration_hash : string) (cutoff : datetime)
    (row : RunRow) : bool :=
  bool_decide (ru_kind row = INGESTION) && bool_decide (ru_status row = RUNNING)
  && bool_decide (ru_environment row = environment)
  && String.eqb (ru_configuration_hash row) configuration_hash
  && dt_ltb (ru_started_at row) cutoff.

Definition select_stale (db : RunsDB) environment configuration_hash cutoff : list RunReconciliationTarget :=
  py_sorted target_key
    (map (λ kr, mkTarget kr.1 (astimezone_utc (ru_started_at kr.2)))
       (List.filter (λ kr, stale environment configuration_hash cutoff kr.2) (map_to_list (runs_rows db)))).

Definition stale_running_ingestion_runs (db : RunsDB) (cutoff : datetime)
    (environment : BrokerEnvironment) (configuration_hash : string) : res (list RunReconciliationTarget) :=
  require_utc cutoff "run reconciliation cutoff";;
  _require_sha256 configuration_hash "run reconciliation configuration hash";;
  traverse (λ t, RunReconciliationTarget_post_init t;; Ok t)
    (select_stale db environment configuration_hash cutoff).

Definition _utc_text (value : datetime) : res string :=
  require_utc value "database evidence time";; Ok (utc_text value).

(** One UPDATE ... RETURNING of the reconciliation loop. *)
Definition reconcile_one (plan : RunReconciliationPlan) (detail : json) (rows : gmap UUID RunRow)
    (target : RunReconciliationTarget) : res (gmap UUID RunRow) :=
  match rows !! rt_run_id target, RunStatus_of_str (rp_terminal_status plan) with
  | Some row, Some status =>
      if stale (rp_environment plan) (rp_configuration_hash plan) (rp_cutoff plan) row
         && dt_eqb (ru_started_at row) (rt_started_at target)
      then Ok (<[rt_run_id target := terminate row status (rp_cutoff plan) detail]> rows)
      else Raise (RuntimeError "run reconciliation target changed while locked")
  | _, _ => Raise (RuntimeError "run reconciliation target changed while locked")
  end.

Definition reconcile_stale_ingestion_runs (db : RunsDB) (plan : RunReconciliationPlan)
    (reconciled_at : datetime) : res (RunsDB * Z) :=
  verify_run_reconciliation_plan_hash plan;;
  require_utc reconciled_at "run reconciliation execution time";;
  raise_if (dt_ltb reconciled_at (rp_created_at plan))
           (ValueError "run reconciliation execution predates its reviewed plan");;
  reconciled_text ← _utc_text reconciled_at;
  cutoff_text ← _utc_text (rp_cutoff plan);
  let detail := JObj [("previous_status", JStr "RUNNING"); ("reason_code", JStr (rp_reason_code plan));
                      ("reconciliation_plan_hash", JStr (rp_plan_hash plan));
                      ("reconciled_at", JStr reconciled_text);
                      ("finished_at_basis", JStr (rp_finished_at_basis plan));
                      ("cutoff", JStr cutoff_text)] in
  raise_if (negb (String.eqb (runs_database db) (rp_database_name plan)))
           (ValueError "run reconciliation plan targets a different database");;
  observed ← traverse (λ t, RunReconciliationTarget_post_init t;; Ok t)
    (select_stale db (rp_environment plan) (rp_configuration_hash plan) (rp_cutoff plan));
  raise_if (negb (bool_decide (observed = rp_targets plan)))
           (ValueError "run reconciliation target set changed or omitted an eligible stale run");;
  rows ← for_each (reconcile_one plan detail) (runs_rows db) (rp_targets plan);
  Ok (set_rows db rows, Z.of_nat (length (rp_targets plan))).

(** ** Selecting and updating *)

Lemma elem_of_select_stale db env h cutoff t :
  t ∈ select_stale db env h cutoff ↔
  ∃ row, runs_rows db !! rt_run_id t = Some row ∧ stale env h cutoff row = true ∧
         rt_started_at t = astimezone_utc (ru_started_at row).
Proof.
  unfold select_stale. rewrite elem_of_py_sorted, list_elem_of_fmap. split.
  - intros ([id row] & -> & Hin). apply list_elem_of_In, List.filter_In in Hin as [Hin Hs].
    apply list_elem_of_In, elem_of_map_to_list in Hin. eauto.
  - intros (row & Hr & Hs & Ht). exists (rt_run_id t, row). split; [destruct t; cbn in *; by rewrite Ht|].
    apply list_elem_of_In, List.filter_In. split; [|done]. by apply list_elem_of_In, elem_of_map_to_list.
Qed.

Lemma select_stale_NoDup db env h cutoff : NoDup (map rt_run_id (select_stale db env h cutoff)).
Proof.
  assert (map rt_run_id (select_stale db env h cutoff) ≡ₚ
    (List.filter (λ kr, stale env h cutoff kr.2) (map_to_list (runs_rows db))).*1) as ->.
  { unfold select_stale. rewrite py_sorted_perm, map_map. done. }
  apply filter_keys_NoDup, NoDup_fst_map_to_list.
Qed.

Lemma select_targets_valid db env h cutoff :
  traverse (λ t, RunReconciliationTarget_post_init t;; Ok t) (select_stale db env h cutoff)
  = Ok (select_stale db env h cutoff).
Proof.
  apply traverse_Ok.
  assert (∀ l, (∀ t, t ∈ l → is_utc (rt_started_at t)) →
    Forall2 (λ t y, (RunReconciliationTarget_post_init t;; Ok t) = Ok y) l l) as Hl.
  { induction l as [|t l IH]; intros Hu; constructor.
    - unfold RunReconciliationTarget_post_init. rewrite require_utc_is_utc by (apply Hu; set_solver). done.
    - apply IH. intros; apply Hu; set_solver. }
  apply Hl. intros t (row & _ & _ & ->)%elem_of_select_stale. done.
Qed.

Lemma reconcile_loop plan detail targets rows :
  rp_terminal_status plan = RUN_RECONCILIATION_STATUS →
  NoDup (map rt_run_id targets) →
  (∀ t, t ∈ targets → ∃ row, rows !! rt_run_id t = Some row ∧
     stale (rp_environment plan) (rp_configuration_hash plan) (rp_cutoff plan) row = true ∧
     rt_started_at t = astimezone_utc (ru_started_at row)) →
  ∃ rows', for_each (reconcile_one plan detail) rows targets = Ok rows' ∧
    ∀ id, rows' !! id = if decide (id ∈ map rt_run_id targets)
                        then (λ row, terminate row FAILED (rp_cutoff plan) detail) <$> rows !! id
                        else rows !! id.
Proof.
  intros Hst. revert rows. induction targets as [|t l IH]; intros rows Hnd Ht; cbn [for_each].
  - exists rows. split; [done|]. intros id. cbn [map]. rewrite decide_False by set_solver. done.
  - cbn [map] in Hnd. apply NoDup_cons in Hnd as [Hx Hnd].
    destruct (Ht t) as (row & Hr & Hs & Hstart); [set_solver|].
    assert (reconcile_one plan detail rows t
      = Ok (<[rt_run_id t := terminate row FAILED (rp_cutoff plan) detail]> rows)) as ->.
    { unfold reconcile_one. rewrite Hr, Hst, Hs.
      replace (dt_eqb (ru_started_at row) (rt_started_at t)) with true; [done|].
      rewrite Hstart. unfold dt_eqb, astimezone_utc, instant. cbn. lia. }
    cbn [mbind res_bind].
    destruct (IH (<[rt_run_id t := terminate row FAILED (rp_cutoff plan) detail]> rows)) as (rows' & E & Hl).
    + done.
    + intros t' Ht'. destruct (Ht t') as (row' & Hr' & Hrest); [set_solver|]. exists row'.
      rewrite lookup_insert_ne; [done|]. intros Heq. apply Hx. rewrite Heq. apply list_elem_of_fmap. eauto.
    + exists rows'. split; [exact E|]. intros id. rewrite Hl. cbn [map].
      destruct (decide (id = rt_run_id t)) as [->|Hne].
      * rewrite decide_False by done. rewrite decide_True by set_solver.
        rewrite lookup_insert_eq, Hr. done.
      * rewrite lookup_insert_ne by done.
        destruct (decide (id ∈ map rt_run_id l)); [rewrite decide_True by set_solver|rewrite decide_False by set_solver]; done.
Qed.

Definition run_detail (plan : RunReconciliationPlan) (reconciled_at : datetime) : json :=
  JObj [("previous_status", JStr "RUNNING"); ("reason_code", JStr (rp_reason_code plan));
        ("reconciliation_plan_hash", JStr (rp_plan_hash plan));
        ("reconciled_at", JStr (utc_text reconciled_at));
        ("finished_at_basis", JStr (rp_finished_at_basis plan));
        ("cutoff", JStr (utc_text (rp_cutoff plan)))].

Definition plan_stale (plan : RunReconciliationPlan) : RunRow → bool :=
  stale (rp_environment plan) (rp_configuration_hash plan) (rp_cutoff plan).

(** What the plan's own checks establish. *)
Lemma plan_valid p : RunReconciliationPlan_post_init p = Ok tt →
  is_utc (rp_created_at p) ∧ is_utc (rp_cutoff p) ∧ rp_terminal_status p = RUN_RECONCILIATION_STATUS ∧
  rp_targets p ≠ [].
Proof.
  intros H. unfold RunReconciliationPlan_post_init in H. destruct (rpartition _ _) as [[a b] c]. res_inv.
  repeat match goal with H : require_utc _ _ = Ok _ |- _ => apply require_utc_Ok in H as [H _] end.
  repeat match goal with H : negb _ = false |- _ => apply negb_false_iff in H end.
  repeat match goal with H : _ || _ = false |- _ => apply orb_false_iff in H as [? ?] end.
  repeat match goal with H : String.eqb _ _ = true |- _ => apply String.eqb_eq in H end.
  repeat match goal with H : bool_decide _ = false |- _ => apply bool_decide_eq_false in H end.
  done.
Qed.

Lemma reconcile_Ok db plan at_ r :
  RunReconciliationPlan_post_init plan = Ok tt →
  reconcile_stale_ingestion_runs db plan at_ = Ok r →
  r.2 = Z.of_nat (length (rp_targets plan)) ∧ runs_database r.1 = runs_database db ∧
  select_stale db (rp_environment plan) (rp_configuration_hash plan) (rp_cutoff plan) = rp_targets plan ∧
  ∀ id, runs_rows r.1 !! id
        = (λ row, if plan_stale plan row
                  then terminate row FAILED (rp_cutoff plan) (run_detail plan at_) else row)
          <$> runs_rows db !! id.
Proof.
  intros Hv H. destruct (plan_valid _ Hv) as (_ & Hcut & Hst & _).
  unfold reconcile_stale_ingestion_runs in H. apply bind_Ok in H as (u & _ & H).
  apply bind_Ok in H as (d & Hd & H). apply require_utc_Ok in Hd as [Hu _].
  apply bind_Ok in H as (u1 & _ & H). apply bind_Ok in H as (rt & Hrt & H).
  apply bind_Ok in H as (ct & Hct & H). unfold _utc_text in Hrt, Hct.
  rewrite require_utc_is_utc in Hrt, Hct by done. injection Hrt as <-. injection Hct as <-.
  apply bind_Ok in H as (u2 & _ & H). rewrite select_targets_valid in H. cbn [mbind res_bind] in H.
  apply bind_Ok in H as (u3 & H3 & H). apply raise_if_Ok in H3. bool_prop.
  fold (run_detail plan at_) in H. apply bind_Ok in H as (rows & Hl & [= <-]). cbn.
  split_and!; try done. intros id. rewrite <- H3 in Hl.
  destruct (reconcile_loop plan (run_detail plan at_)
    (select_stale db (rp_environment plan) (rp_configuration_hash plan) (rp_cutoff plan)) (runs_rows db))
    as (rows' & E & Hrows); [done|apply select_stale_NoDup|intros t Ht; by apply elem_of_select_stale|].
  rewrite E in Hl. injection Hl as <-. rewrite Hrows.
  destruct (runs_rows db !! id) as [row|] eqn:Er; [|by destruct (decide _)]. cbn. unfold plan_stale.
  destruct (decide _) as [(t & -> & Ht)%list_elem_of_fmap|Hn].
  - apply elem_of_select_stale in Ht as (row' & Hr' & Hs & _). rewrite Er in Hr'. injection Hr' as <-. by rewrite Hs.
  - destruct (stale _ _ _ row) eqn:Es; [|done]. exfalso. apply Hn. apply list_elem_of_fmap.
    exists (mkTarget id (astimezone_utc (ru_started_at row))). split; [done|].
    apply elem_of_select_stale. eauto.
Qed.

(** ** The plan hash *)

Definition plan_content (p : RunReconciliationPlan) : dict :=
  _run_reconciliation_plan_payload None (rp_created_at p) (rp_cutoff p)
    (rp_capture_source_id p) (rp_database_name p) (rp_universe_name p) (rp_configuration_hash p)
    (rp_application_version p) (rp_application_image p) (rp_environment p) (rp_terminal_status p)
    (rp_reason_code p) (rp_finished_at_basis p) (rp_targets p).

Lemma verify_plan_Ok p :
  verify_run_reconciliation_plan_hash p = Ok tt ↔ rp_plan_hash p = sha256_json (JObj (plan_content p)).
Proof.
  unfold verify_run_reconciliation_plan_hash, plan_content.
  assert (dict_pop "plan_hash" (run_reconciliation_plan_payload p)
    = Ok (JStr (rp_plan_hash p), plan_content p)) as -> by reflexivity.
  cbn [mbind res_bind py_str]. rewrite raise_if_Ok, negb_false_iff. apply String.eqb_eq.
Qed.

Lemma build_plan_Ok targets created cutoff src db uni conf ver img env p :
  build_run_reconciliation_plan targets created cutoff src db uni conf ver img env = Ok p →
  RunReconciliationPlan_post_init p = Ok tt ∧ verify_run_reconciliation_plan_hash p = Ok tt ∧
  rp_targets p = py_sorted target_key targets ∧ rp_created_at p = created ∧ rp_cutoff p = cutoff ∧
  rp_environment p = env ∧ rp_configuration_hash p = conf ∧ rp_database_name p = db.
Proof.
  intros H. unfold build_run_reconciliation_plan in H. cbv zeta in H.
  apply bind_Ok in H as ([] & Hv & [= <-]). split_and!; try done. by apply verify_plan_Ok.
Qed.

(** Values as the constructors admit them, with years ISO text writes in four digits. *)
Definition target_ok (t : RunReconciliationTarget) : Prop :=
  RunReconciliationTarget_post_init t = Ok tt ∧ year_ok (rt_started_at t).
Definition plan_ok (p : RunReconciliationPlan) : Prop :=
  RunReconciliationPlan_post_init p = Ok tt ∧ year_ok (rp_created_at p) ∧ year_ok (rp_cutoff p) ∧
  Forall target_ok (rp_targets p).

Lemma target_texts_inj l l' : Forall target_ok l → Forall target_ok l' →
  map (λ t, canon (JObj [("run_id", JStr (uuid_text (rt_run_id t)));
                         ("started_at", JStr (utc_text (rt_started_at t)))])) l
  = map (λ t, canon (JObj [("run_id", JStr (uuid_text (rt_run_id t)));
                           ("started_at", JStr (utc_text (rt_started_at t)))])) l' → l = l'.
Proof.
  assert (∀ t, target_ok t → is_utc (rt_started_at t)) as Hu.
  { intros t [H _]. unfold RunReconciliationTarget_post_init in H. res_inv. by apply require_utc_Ok in H0 as [? _]. }
  intros Hl. revert l'. induction Hl as [|t l Ht Hl IH]; intros [|t' l'] Hl' H; try done.
  apply Forall_cons in Hl' as [Ht' Hl']. injection H as H1 H2 H. f_equal; [|by apply IH].
  destruct t as [[i] s], t' as [[i'] s']. cbn in *. subst. f_equal.
  apply utc_text_inj; try done; [apply (Hu _ Ht)|apply (Hu _ Ht')|apply Ht|apply Ht'].
Qed.

Lemma plan_content_float_free p : float_free (JObj (plan_content p)) = true.
Proof. cbn. rewrite !andb_true_r. induction (rp_targets p) as [|t l IH]; [done|exact IH]. Qed.

Lemma plan_content_inj p q : plan_ok p → plan_ok q → rp_plan_hash p = rp_plan_hash q →
  canon (JObj (plan_content p)) = canon (JObj (plan_content q)) → p = q.
Proof.
  intros (Hp & Hpc & Hpx & Hpt) (Hq & Hqc & Hqx & Hqt) Hh H.
  destruct (plan_valid _ Hp) as (Up & Ux & _), (plan_valid _ Hq) as (Uq & Vx & _).
  apply canon_obj_inj in H; [|by apply (bool_decide_unpack _)|done].
  destruct p, q. cbn [map plan_content _run_reconciliation_plan_payload compose snd canon
    rp_plan_hash rp_created_at rp_cutoff rp_capture_source_id rp_database_name rp_universe_name
    rp_configuration_hash rp_application_version rp_application_image rp_environment rp_terminal_status
    rp_reason_code rp_finished_at_basis rp_targets] in *.
  injection H as Hc Hx -> -> -> -> -> -> He -> -> -> Ht. rewrite !map_map in Ht.
  apply utc_text_inj in Hc; [|done..]. apply utc_text_inj in Hx; [|done..].
  apply target_texts_inj in Ht; [|done..]. subst. f_equal.
  destruct rp_environment0, rp_environment1; done.
Qed.

(** ** Reviewed plans and the life of a run *)

Lemma stale_query_Ok db cutoff env conf targets :
  stale_running_ingestion_runs db cutoff env conf = Ok targets ↔
  is_utc cutoff ∧ is_sha256 conf = true ∧ targets = select_stale db env conf cutoff.
Proof.
  unfold stale_running_ingestion_runs, _require_sha256. rewrite select_targets_valid. split.
  - intros H. apply bind_Ok in H as (d & Hd & H). apply require_utc_Ok in Hd as [Hu _].
    apply bind_Ok in H as (u & Hs & [= <-]). apply raise_if_Ok in Hs. by bool_prop.
  - intros (Hu & Hs & ->). rewrite require_utc_is_utc by done. cbn. by rewrite Hs.
Qed.

(** A verified plan whose targets are the eligible runs of the table executes. *)
Lemma reconcile_returns db plan at_ :
  RunReconciliationPlan_post_init plan = Ok tt → verify_run_reconciliation_plan_hash plan = Ok tt →
  is_utc at_ → dt_leb (rp_created_at plan) at_ = true → runs_database db = rp_database_name plan →
  select_stale db (rp_environment plan) (rp_configuration_hash plan) (rp_cutoff plan) = rp_targets plan →
  ∃ db', reconcile_stale_ingestion_runs db plan at_ = Ok (db', Z.of_nat (length (rp_targets plan))).
Proof.
  intros Hv Hh Hu Hle Hdb Ht. destruct (plan_valid _ Hv) as (_ & Hcut & Hst & _).
  unfold reconcile_stale_ingestion_runs, _utc_text. rewrite Hh, !require_utc_is_utc, select_targets_valid, Ht, Hdb by done.
  cbn [mbind res_bind]. replace (dt_ltb at_ (rp_created_at plan)) with false by (unfold dt_leb, dt_ltb in *; lia).
  rewrite String.eqb_refl. cbn [negb raise_if mbind res_bind]. rewrite bool_decide_true by done.
  cbn [negb raise_if mbind res_bind].
  match goal with |- context [for_each (reconcile_one _ ?d)] =>
    destruct (reconcile_loop plan d (rp_targets plan) (runs_rows db)) as (rows & E & _) end.
  - done.
  - rewrite <- Ht. apply select_stale_NoDup.
  - rewrite <- Ht. intros t. apply elem_of_select_stale.
  - rewrite E. by eexists.
Qed.

Lemma reconciled_not_stale plan env conf cutoff row at_ d :
  stale env conf cutoff (if plan_stale plan row then terminate row FAILED at_ d else row) = true →
  plan_stale plan row = false.
Proof. destruct (plan_stale plan row) eqn:E; [|done]. unfold stale. cbn. by rewrite andb_false_r. Qed.

Lemma reconcile_leaves_none db plan at_ r :
  RunReconciliationPlan_post_init plan = Ok tt → reconcile_stale_ingestion_runs db plan at_ = Ok r →
  select_stale r.1 (rp_environment plan) (rp_configuration_hash plan) (rp_cutoff plan) = [].
Proof.
  intros Hv H. destruct (reconcile_Ok _ _ _ _ Hv H) as (_ & _ & _ & Hr).
  apply elem_of_nil_inv. intros t (row' & Hl & Hs & _)%elem_of_select_stale.
  rewrite Hr in Hl. apply fmap_Some in Hl as (row & _ & ->).
  pose proof (reconciled_not_stale _ _ _ _ _ _ _ Hs) as Hn. rewrite Hn in Hs. unfold plan_stale in Hn. congruence.
Qed.

(** Every transaction on the table. *)
Inductive run_step : RunsDB → RunsDB → Prop :=
| step_start db id kind env conf at_ db' :
    start_run db id kind env conf at_ = Ok (db', id) → run_step db db'
| step_finish db id status at_ detail db' :
    finish_run db id status at_ detail = Ok db' → run_step db db'
| step_reconcile db plan at_ db' n :
    RunReconciliationPlan_post_init plan = Ok tt →
    reconcile_stale_ingestion_runs db plan at_ = Ok (db', n) → run_step db db'.

(** How one row may change: not at all, or once from RUNNING to a terminal status. *)
Definition row_evolves (row row' : RunRow) : Prop :=
  row' = row ∨
  (ru_status row = RUNNING ∧
   ∃ status at_ detail, status ≠ RUNNING ∧ row' = terminate row status at_ detail).

Definition run_row_ok (row : RunRow) : Prop := ru_status row = RUNNING ↔ ru_finished_at row = None.

Lemma finish_run_Ok db id status at_ detail db' :
  finish_run db id status at_ detail = Ok db' →
  ∃ row st, runs_rows db !! id = Some row ∧ ru_status row = RUNNING ∧ st ≠ RUNNING ∧
    db' = set_rows db (<[id := terminate row st (astimezone_utc at_) (JObj detail)]> (runs_rows db)).
Proof.
  unfold finish_run. intros H.
  destruct (RunStatus_of_str status) as [[]|]; try done;
    (destruct (runs_rows db !! id) as [row|]; [|done]);
    (destruct (bool_decide _) eqn:E; [|done]); apply bool_decide_eq_true in E; injection H as <-;
    exists row; eexists; (split; [done|split; [done|split; [|reflexivity]; done]]).
Qed.

Lemma run_step_evolves db db' : run_step db db' →
  ∀ id row, runs_rows db !! id = Some row → ∃ row', runs_rows db' !! id = Some row' ∧ row_evolves row row'.
Proof.
  intros Hs i row Hi. destruct Hs as [db id kind env conf at_ db' H|db id status at_ detail db' H|db plan at_ db' n Hv H].
  - unfold start_run in H. res_inv. bool_prop. exists row. split; [|by left].
    cbn. rewrite lookup_insert_ne; [done|]. intros ->. rewrite Hi in *. by eauto.
  - apply finish_run_Ok in H as (r & st & Hr & Hrun & Hst & ->). cbn. destruct (decide (i = id)) as [->|Hne].
    + rewrite Hi in Hr. injection Hr as <-. rewrite lookup_insert_eq. eexists. split; [done|]. right.
      split; [done|]. by exists st, (astimezone_utc at_), (JObj detail).
    + rewrite lookup_insert_ne by done. exists row. split; [done|by left].
  - destruct (reconcile_Ok _ _ _ _ Hv H) as (_ & _ & _ & Hr). cbn [fst] in Hr. rewrite Hr, Hi. cbn.
    eexists. split; [done|]. destruct (plan_stale plan row) eqn:E; [|by left]. right.
    unfold plan_stale, stale in E. bool_prop. split; [done|]. by exists FAILED, (rp_cutoff plan), (run_detail plan at_).
Qed.

Lemma row_evolves_trans r1 r2 r3 : row_evolves r1 r2 → row_evolves r2 r3 → row_evolves r1 r3.
Proof.
  intros [->|(H1 & st & at_ & d & Hst & ->)] H2; [done|]. right. split; [done|].
  destruct H2 as [->|(Hr & _)]; [by eauto 6|]. cbn in Hr. done.
Qed.

(** ** Theorems *)

(** Every transaction sequence of start, finish and reconciliation leaves a run's identity
    (kind, environment, start, configuration) as it was created, and a run that has ended is
    never changed again; a run is RUNNING exactly while it has no finish time. *)
Theorem run_lifecycle db db' :
  rtc run_step db db' →
  (∀ id row, runs_rows db !! id = Some row →
     ∃ row', runs_rows db' !! id = Some row' ∧
       (ru_kind row', ru_environment row', ru_started_at row', ru_configuration_hash row')
       = (ru_kind row, ru_environment row, ru_started_at row, ru_configuration_hash row) ∧
       (ru_status row ≠ RUNNING → row' = row)) ∧
  (map_Forall (λ _, run_row_ok) (runs_rows db) → map_Forall (λ _, run_row_ok) (runs_rows db')).
Proof.
  intros H. split.
  - intros id row Hid. assert (∃ row', runs_rows db' !! id = Some row' ∧ row_evolves row row') as (row' & Hr & He).
    { revert row Hid. induction H as [|a b c Hab _ IH]; intros row Hid; [exists row; split; [done|by left]|].
      destruct (run_step_evolves _ _ Hab _ _ Hid) as (r & Hr & He). destruct (IH r Hr) as (r' & Hr' & He').
      exists r'. split; [done|]. by eapply row_evolves_trans. }
    exists row'. split; [done|]. destruct He as [->|(Hrun & st & at_ & d & Hst & ->)]; [done|]. by split.
  - induction H as [|a b c Hab _ IH]; intros Ha; [done|]. apply IH. clear IH.
    intros id row' Hl. destruct (runs_rows a !! id) as [row|] eqn:Hid.
    + destruct (run_step_evolves _ _ Hab _ _ Hid) as (r & Hr & He). rewrite Hl in Hr. injection Hr as <-.
      destruct He as [->|(Hrun & st & at_ & d & Hst & ->)]; [by eapply Ha|]. by split.
    + destruct Hab as [a' i kind env conf at_ b' H|a' i status at_ detail b' H|a' plan at_ b' n Hv H].
      * unfold start_run in H. res_inv. cbn in Hl. apply lookup_insert_Some in Hl as [[-> <-]|[_ ?]]; [done|congruence].
      * apply finish_run_Ok in H as (r & st & Hr & _ & _ & ->). cbn in Hl.
        apply lookup_insert_Some in Hl as [[-> <-]|[_ ?]]; congruence.
      * destruct (reconcile_Ok _ _ _ _ Hv H) as (_ & _ & _ & Hr). cbn [fst] in Hr. by rewrite Hr, Hid in Hl.
Qed.

(** A plan built from the stale query executes exactly while that query still returns the
    planned runs: it then marks precisely those runs FAILED with the cutoff as finish time,
    leaves every other row alone and no eligible run behind, so the plan is refused when
    executed again; once the set of eligible runs has changed it is refused. *)
Theorem reviewed_plan_exact db cutoff env conf targets created src uni ver img plan db' at_ :
  stale_running_ingestion_runs db cutoff env conf = Ok targets →
  build_run_reconciliation_plan targets created cutoff src (runs_database db) uni conf ver img env = Ok plan →
  runs_database db' = runs_database db → is_utc at_ → dt_leb created at_ = true →
  if decide (stale_running_ingestion_runs db' cutoff env conf = Ok targets)
  then ∃ db'', reconcile_stale_ingestion_runs db' plan at_ = Ok (db'', Z.of_nat (length targets)) ∧
       (∀ id, runs_rows db'' !! id
              = (λ row, if stale env conf cutoff row
                        then terminate row FAILED cutoff (run_detail plan at_) else row)
                <$> runs_rows db' !! id) ∧
       stale_running_ingestion_runs db'' cutoff env conf = Ok [] ∧
       (∀ at2, ∃ e, reconcile_stale_ingestion_runs db'' plan at2 = Raise e)
  else ∃ e, reconcile_stale_ingestion_runs db' plan at_ = Raise e.
Proof.
  intros (Hu & Hs & ->)%stale_query_Ok Hb Hdb Hat Hle.
  apply build_plan_Ok in Hb as (Hv & Hh & Ht & Hc & Hx & He & Hconf & Hname).
  unfold select_stale in Ht at 1. rewrite py_sorted_idemp in Ht. fold (select_stale db env conf cutoff) in Ht.
  destruct (decide _) as [(_ & _ & Hsame)%stale_query_Ok|Hne].
  - destruct (reconcile_returns db' plan at_) as (db'' & E); try done; [by rewrite Hc|congruence|congruence|].
    pose proof (reconcile_Ok _ _ _ _ Hv E) as (_ & Hdb'' & _ & Hrows).
    pose proof (reconcile_leaves_none _ _ _ _ Hv E) as Hnone. rewrite He, Hconf, Hx in Hnone. cbn in Hnone, Hrows.
    exists db''. split_and!.
    + by rewrite E, Ht.
    + intros id. rewrite Hrows. unfold plan_stale. by rewrite He, Hconf, Hx.
    + by apply stale_query_Ok.
    + intros at2. destruct (reconcile_stale_ingestion_runs db'' plan at2) as [r|e] eqn:E2; [|by eexists].
      destruct (reconcile_Ok _ _ _ _ Hv E2) as (_ & _ & Hsel & _). rewrite He, Hconf, Hx, Hnone in Hsel.
      by destruct (plan_valid _ Hv) as (_ & _ & _ & []).
  - destruct (reconcile_stale_ingestion_runs db' plan at_) as [r|e] eqn:E2; [|by eexists]. exfalso. apply Hne.
    destruct (reconcile_Ok _ _ _ _ Hv E2) as (_ & _ & Hsel & _). rewrite He, Hconf, Hx in Hsel.
    apply stale_query_Ok. split_and!; [done|done|congruence].
Qed.

(** The hash of a reconciliation plan binds every field: two plans that pass verification
    with the same hash are the same plan, or exhibit two texts with the same SHA-256. *)
Theorem plan_hash_binds_content p q :
  plan_ok p → plan_ok q →
  verify_run_reconciliation_plan_hash p = Ok tt → verify_run_reconciliation_plan_hash q = Ok tt →
  rp_plan_hash p = rp_plan_hash q →
  p = q ∨ sha256_collision (dumps (JObj (plan_content p))) (dumps (JObj (plan_content q))).
Proof.
  intros Hp Hq Vp%verify_plan_Ok Vq%verify_plan_Ok Hh.
  destruct (sha256_json_inj (JObj (plan_content p)) (JObj (plan_content q))) as [E|E];
    [apply plan_content_float_free..|congruence| |by right].
  left. by apply plan_content_inj.
Qed.

(** ** Witnesses *)

Definition sample_conf : string := "0123456789abcdef0123456789abcdef0123456789abcdef0123456789abcdef".
Definition sample_run (n : Z) : UUID := mkUUID ("00000000-0000-0000-0000-00000000000" +:+ digits n).
Definition sample_row (started : Z) (status : RunStatus) : RunRow :=
  mkRunRow INGESTION status IG_DEMO (utc started) (if decide (status = RUNNING) then None else Some (utc 9000000))
    sample_conf (JObj []).
Definition sample_runs : RunsDB :=
  mkRunsDB "qtrad" (<[sample_run 1 := sample_row 1000000 RUNNING]>
    (<[sample_run 2 := sample_row 2000000 STOPPED]> {[sample_run 3 := sample_row 8000000 RUNNING]})).
Definition sample_targets : list RunReconciliationTarget :=
  Eval vm_compute in [mkTarget (sample_run 1) (utc 1000000)].
Definition sample_image : string := "ghcr.io/quarrel/q-trad@sha256:" +:+ sample_conf.
Definition sample_plan : RunReconciliationPlan :=
  mkRunPlan (sha256_json (JObj (_run_reconciliation_plan_payload None (utc 6000000) (utc 5000000) "vm-a"
      "qtrad" "fx" sample_conf "1.0" sample_image IG_DEMO RUN_RECONCILIATION_STATUS
      RUN_RECONCILIATION_REASON RUN_RECONCILIATION_FINISHED_AT_BASIS sample_targets)))
    (utc 6000000) (utc 5000000) "vm-a" "qtrad" "fx" sample_conf "1.0" sample_image IG_DEMO
    RUN_RECONCILIATION_STATUS RUN_RECONCILIATION_REASON RUN_RECONCILIATION_FINISHED_AT_BASIS sample_targets.

Lemma run_lifecycle_witness :
  ∃ db', finish_run sample_runs (sample_run 1) "COMPLETED" (utc 7000000) [] = Ok db' ∧
         runs_rows db' !! sample_run 2 = Some (sample_row 2000000 STOPPED).
Proof.
  eexists. split; [vm_compute; reflexivity|].
  match goal with |- runs_rows ?d !! _ = _ => destruct (proj1 (run_lifecycle sample_runs d
    (rtc_once _ _ (step_finish sample_runs (sample_run 1) "COMPLETED" (utc 7000000) [] d eq_refl)))
    (sample_run 2) (sample_row 2000000 STOPPED) eq_refl) as (row' & E & _ & Hrow) end.
  rewrite E. f_equal. apply Hrow. discriminate.
Defined.

(** The checks of the sample for any well-formed digest in place of its hash. *)
Lemma sample_plan_checks h :
  is_sha256 h = true →
  RunReconciliationPlan_post_init
    (mkRunPlan h (utc 6000000) (utc 5000000) "vm-a" "qtrad" "fx" sample_conf "1.0" sample_image IG_DEMO
       RUN_RECONCILIATION_STATUS RUN_RECONCILIATION_REASON RUN_RECONCILIATION_FINISHED_AT_BASIS sample_targets)
  = Ok tt.
Proof. intros Hh. unfold RunReconciliationPlan_post_init. cbn [rp_plan_hash]. rewrite Hh. vm_compute. reflexivity. Qed.

Lemma sample_plan_built :
  build_run_reconciliation_plan sample_targets (utc 6000000) (utc 5000000) "vm-a" "qtrad" "fx" sample_conf "1.0"
    sample_image IG_DEMO = Ok sample_plan.
Proof.
  unfold build_run_reconciliation_plan. change (py_sorted target_key sample_targets) with sample_targets. cbv zeta.
  rewrite (sample_plan_checks _ (sha256_json_is_sha256 _)). reflexivity.
Qed.

Lemma reviewed_plan_exact_witness :
  ∃ db'', reconcile_stale_ingestion_runs sample_runs sample_plan (utc 6500000) = Ok (db'', 1) ∧
          stale_running_ingestion_runs db'' (utc 5000000) IG_DEMO sample_conf = Ok [].
Proof.
  assert (stale_running_ingestion_runs sample_runs (utc 5000000) IG_DEMO sample_conf = Ok sample_targets) as Hq
    by (vm_compute; reflexivity).
  pose proof (reviewed_plan_exact sample_runs (utc 5000000) IG_DEMO sample_conf sample_targets (utc 6000000)
    "vm-a" "fx" "1.0" sample_image sample_plan sample_runs (utc 6500000) Hq
    sample_plan_built eq_refl eq_refl eq_refl) as H.
  rewrite decide_True in H by exact Hq. destruct H as (db'' & E & _ & Hn & _). exists db''. split; [exact E|exact Hn].
Defined.

Lemma plan_hash_binds_content_witness :
  sample_plan = sample_plan ∨
  sha256_collision (dumps (JObj (plan_content sample_plan))) (dumps (JObj (plan_content sample_plan))).
Proof.
  assert (plan_ok sample_plan) as Hok.
  { split_and!; [exact (sample_plan_checks _ (sha256_json_is_sha256 _))|vm_compute; split; discriminate..|].
    repeat constructor; vm_compute; discriminate. }
  apply (plan_hash_binds_content sample_plan sample_plan Hok Hok); [by apply verify_plan_Ok..|reflexivity].
Defined.
