(* ===== verification/Backfill.v ===== *)
(** Reviewed historical backfills: the plan values of [domain/historical_coverage.py],
    planning and expansion into requests of [application/backfill_planning.py], and the
    plan and coverage tables of [adapters/postgres/store.py].

    Interval lengths are computed from minute-aligned times, on which the float of
    [total_seconds() // 60] is exact. The uuid5 primary key of a plan row is a
    function of its hash and is left out. *)

From S2P Require Import Prelude PySorted PyStr PyTime PyDecimal Sha256 PyJson PyParse Domain Storage EventStore CaptureFeed.

(** ** domain/historical_coverage.py *)

Inductive HistoricalResolution : Type := MINUTE.
Definition HistoricalResolution_str (r : HistoricalResolution) : string := match r with MINUTE => "MINUTE" end.

Definition _require_utc (value : datetime) (field : string) : res unit :=
  match dt_offset value with
  | None => Raise (ValueError (field +:+ " must be timezone-aware"))
  | Some offset => raise_if (negb (offset =? 0)) (ValueError (field +:+ " must use UTC"))
  end.

Record BackfillPlanItem : Type := mkPlanItem {
  bi_instrument_id : InstrumentId;
  bi_listing_id : ProviderListingId;
  bi_listing_valid_from : datetime;
  bi_listing_metadata_version : string }.

Definition BackfillPlanItem_post_init (i : BackfillPlanItem) : res unit :=
  _require_utc (bi_listing_valid_from i) "listing valid-from";;
  raise_if (out_of_bounds (bi_listing_metadata_version i) 256)
           (ValueError "listing metadata version must contain between 1 and 256 characters").

Record BackfillQuotaEvidence : Type := mkQuota {
  bq_allowance_name : string;
  bq_remaining_points : Z;
  bq_observed_at : datetime;
  bq_reserve_fraction : Decimal }.

Definition BackfillQuotaEvidence_post_init (q : BackfillQuotaEvidence) : res unit :=
  raise_if (out_of_bounds (bq_allowance_name q) 200)
           (ValueError "backfill quota allowance name is required");;
  raise_if (bq_remaining_points q <=? 0)
           (ValueError "backfill quota remaining points must be positive");;
  _require_utc (bq_observed_at q) "quota observation time";;
  raise_if (negb (dec_leb dec_zero (bq_reserve_fraction q) && dec_ltb (bq_reserve_fraction q) (dec_of_Z 1)))
           (ValueError "backfill quota reserve fraction must be in [0, 1)").

Definition usable_points (q : BackfillQuotaEvidence) : Z :=
  dec_floor (dec_mul (dec_of_Z (bq_remaining_points q)) (dec_sub (dec_of_Z 1) (bq_reserve_fraction q))).

Record BackfillPlan : Type := mkBackfillPlan {
  bp_plan_hash : string;
  bp_universe_name : string;
  bp_universe_hash : string;
  bp_created_at : datetime;
  bp_start : datetime;
  bp_end : datetime;
  bp_resolution : HistoricalResolution;
  bp_request_chunk_points : Z;
  bp_quota : BackfillQuotaEvidence;
  bp_items : list BackfillPlanItem }.

Definition minutes_between (a b : datetime) : Z := dt_diff b a / minutes 1.
Definition points_per_instrument (p : BackfillPlan) : Z := minutes_between (bp_start p) (bp_end p).
Definition requested_points (p : BackfillPlan) : Z := points_per_instrument p * Z.of_nat (length (bp_items p)).

Definition BackfillPlan_post_init (p : BackfillPlan) : res unit :=
  _require_sha256 (bp_plan_hash p) "backfill plan hash";;
  raise_if (out_of_bounds (bp_universe_name p) 64) (ValueError "backfill plan universe name is required");;
  _require_sha256 (bp_universe_hash p) "backfill universe hash";;
  _require_utc (bp_created_at p) "backfill plan creation time";;
  _require_utc (bp_start p) "backfill range start";;
  _require_utc (bp_end p) "backfill range end";;
  raise_if (off_minute (bp_start p) || off_minute (bp_end p))
           (ValueError "backfill range must align to UTC minute boundaries");;
  raise_if (dt_leb (bp_end p) (bp_start p)) (ValueError "backfill range end must follow its start");;
  raise_if (dt_ltb (bp_created_at p) (bq_observed_at (bp_quota p)))
           (ValueError "backfill quota evidence cannot postdate plan creation");;
  raise_if (negb ((1 <=? bp_request_chunk_points p) && (bp_request_chunk_points p <=? 1000)))
           (ValueError "backfill request chunks must contain between 1 and 1000 points");;
  raise_if (Nat.eqb (length (bp_items p)) 0) (ValueError "backfill plan requires explicit instruments");;
  raise_if (100 <? Z.of_nat (length (bp_items p)))
           (ValueError "backfill plan cannot exceed 100 instruments");;
  raise_if (has_duplicates (map bi_instrument_id (bp_items p)))
           (ValueError "backfill plan instrument IDs must be unique");;
  raise_if (has_duplicates (map bi_listing_id (bp_items p)))
           (ValueError "backfill plan listing IDs must be unique");;
  raise_if (existsb (λ i, negb (String.eqb (pl_provider (bi_listing_id i)) "ig")
                          || negb (String.eqb (pl_environment (bi_listing_id i)) "demo")) (bp_items p))
           (ValueError "backfill plans support IG demo listings only");;
  raise_if (usable_points (bp_quota p) <? requested_points p)
           (ValueError "backfill plan exceeds quota after its reserved allowance").

(** ** application/backfill_planning.py *)

Definition _OPERATOR_ALLOWANCE : string := "historical_points_weekly_operator_reported".

Definition _backfill_plan_payload (plan_hash : option string) (universe_name universe_hash : string)
    (created_at start end_ : datetime) (resolution : HistoricalResolution) (request_chunk_points : Z)
    (quota : BackfillQuotaEvidence) (items : list BackfillPlanItem) : dict :=
  let payload :=
    [("schema_version", JInt 1);
     ("universe_name", JStr universe_name);
     ("universe_hash", JStr universe_hash);
     ("created_at", JStr (utc_text created_at));
     ("start", JStr (utc_text start));
     ("end", JStr (utc_text end_));
     ("resolution", JStr (HistoricalResolution_str resolution));
     ("request_chunk_points", JInt request_chunk_points);
     ("quota", JObj [("allowance_name", JStr (bq_allowance_name quota));
                     ("remaining_points", JInt (bq_remaining_points quota));
                     ("observed_at", JStr (utc_text (bq_observed_at quota)));
                     ("reserve_fraction", JStr (dec_format_f (bq_reserve_fraction quota)))]);
     ("items", JList (map (λ i, JObj
        [("instrument_id", JStr (bi_instrument_id i));
         ("listing_id", JStr (ProviderListingId_str (bi_listing_id i)));
         ("listing_valid_from", JStr (utc_text (bi_listing_valid_from i)));
         ("listing_metadata_version", JStr (bi_listing_metadata_version i))]) items))] in
  match plan_hash with
  | Some h => ("plan_hash", JStr h) :: payload
  | None => payload
  end.

Definition backfill_plan_payload (p : BackfillPlan) : dict :=
  _backfill_plan_payload (Some (bp_plan_hash p)) (bp_universe_name p) (bp_universe_hash p)
    (bp_created_at p) (bp_start p) (bp_end p) (bp_resolution p) (bp_request_chunk_points p)
    (bp_quota p) (bp_items p).

Definition verify_backfill_plan_hash (p : BackfillPlan) : res unit :=
  let payload := backfill_plan_payload p in
  observed_hash ← dict_item "plan_hash" payload;
  let rest := List.filter (λ kv, negb (String.eqb kv.1 "plan_hash")) payload in
  raise_if (negb (String.eqb (py_str observed_hash) (sha256_json (JObj rest))))
           (ValueError "backfill plan hash does not match its canonical content").

(** The listings collected for one instrument, in the order given. *)
Definition by_instrument (listings : list ProviderListing) (id : InstrumentId) : list ProviderListing :=
  List.filter (λ l, String.eqb (li_instrument_id l) id) listings.

Definition plan_item (listings : list ProviderListing) (id : InstrumentId) : res BackfillPlanItem :=
  match by_instrument listings id with
  | [] => Raise (IndexError "list index out of range")
  | l :: _ =>
      let item := mkPlanItem id (li_listing_id l) (li_valid_from l) (li_metadata_version l) in
      BackfillPlanItem_post_init item;; Ok item
  end.

(** The counts a message would list are left out of it. *)
Definition build_backfill_plan (universe_name universe_hash : string) (instrument_ids : list InstrumentId)
    (listings : list ProviderListing) (preferred_epics : gmap string string) (start end_ : datetime)
    (remaining_allowance : Z) (quota_observed_at created_at : datetime) (reserve_fraction : Decimal)
    (request_chunk_points : Z) : res BackfillPlan :=
  raise_if (has_duplicates instrument_ids) (ValueError "backfill plan instrument IDs must be unique");;
  for_each (λ _ l, raise_if (negb (bool_decide (li_instrument_id l ∈ instrument_ids)))
                     (ValueError ("unexpected backfill listing for " +:+ li_instrument_id l))) tt listings;;
  raise_if (existsb (λ id, negb (Nat.eqb (length (by_instrument listings id)) 1)) instrument_ids)
           (ValueError "backfill plan requires one active listing per instrument");;
  let missing := List.filter (λ id, bool_decide (preferred_epics !! id = None)) instrument_ids in
  raise_if (negb (bool_decide (missing = [])))
           (ValueError ("backfill plan requires configured provider listings for: "
                        +:+ join ", " (py_sorted id missing)));;
  let mismatches := List.filter (λ id, existsb (λ l, negb (bool_decide
                        (preferred_epics !! id = Some (pl_external_id (li_listing_id l)))))
                        (firstn 1 (by_instrument listings id))) instrument_ids in
  raise_if (negb (bool_decide (mismatches = [])))
           (ValueError ("active listing does not match the selected universe for: "
                        +:+ join ", " (py_sorted id mismatches)));;
  let quota := mkQuota _OPERATOR_ALLOWANCE remaining_allowance quota_observed_at reserve_fraction in
  BackfillQuotaEvidence_post_init quota;;
  items ← traverse (plan_item listings) (py_sorted id instrument_ids);
  let unhashed := _backfill_plan_payload None universe_name universe_hash created_at start end_ MINUTE
                    request_chunk_points quota items in
  let p := mkBackfillPlan (sha256_json (JObj unhashed)) universe_name universe_hash created_at start end_
             MINUTE request_chunk_points quota items in
  BackfillPlan_post_init p;; Ok p.

Record BackfillRequest : Type := mkBackfillRequest {
  br_instrument_id : InstrumentId;
  br_listing : ProviderListing;
  br_start : datetime;
  br_end : datetime;
  br_maximum_points : Z;
  br_resolution : HistoricalResolution }.

(** The [while request_start < plan.end] loop; one unit of fuel per request. *)
Fixpoint chunk_requests (fuel : nat) (p : BackfillPlan) (item : BackfillPlanItem) (listing : ProviderListing)
    (request_start : datetime) : list BackfillRequest :=
  match fuel with
  | O => []
  | S fuel =>
      if dt_ltb request_start (bp_end p) then
        let request_end := dt_min (bp_end p) (dt_add request_start (minutes (bp_request_chunk_points p))) in
        mkBackfillRequest (bi_instrument_id item) listing request_start request_end
          (minutes_between request_start request_end) (bp_resolution p)
        :: chunk_requests fuel p item listing request_end
      else []
  end.

Definition listing_identity (l : ProviderListing) : ProviderListingId * Z :=
  (li_listing_id l, instant (li_valid_from l)).

Definition item_requests (p : BackfillPlan) (listings : list ProviderListing) (item : BackfillPlanItem)
    : res (list BackfillRequest) :=
  match List.find (λ l, bool_decide (listing_identity l
                          = (bi_listing_id item, instant (bi_listing_valid_from item)))) listings with
  | None => Raise (ValueError ("planned listing version was not supplied: "
                               +:+ ProviderListingId_str (bi_listing_id item)))
  | Some l =>
      raise_if (negb (String.eqb (li_instrument_id l) (bi_instrument_id item))
                || negb (String.eqb (li_metadata_version l) (bi_listing_metadata_version item)))
               (ValueError "supplied listing does not match the planned listing version");;
      Ok (chunk_requests (Z.to_nat (points_per_instrument p)) p item l (bp_start p))
  end.

(** The generator: the requests it yields, and how it ends. *)
Fixpoint yield_items (p : BackfillPlan) (listings : list ProviderListing) (items : list BackfillPlanItem)
    : list BackfillRequest * res unit :=
  match items with
  | [] => ([], Ok tt)
  | i :: items =>
      match item_requests p listings i with
      | Raise e => ([], Raise e)
      | Ok reqs => let '(later, r) := yield_items p listings items in (reqs ++ later, r)
      end
  end.
Definition backfill_requests (p : BackfillPlan) (listings : list ProviderListing)
    : list BackfillRequest * res unit :=
  if has_duplicates (map listing_identity listings)
  then ([], Raise (ValueError "planned backfill listings must be unique"))
  else yield_items p listings (bp_items p).

(** ** The tables of adapters/postgres/store.py *)

Inductive PlanStatus : Type := PLANNED | EXECUTING | PLAN_COMPLETED | PLAN_FAILED.
#[export] Instance PlanStatus_eq_dec : EqDecision PlanStatus.
Proof. solve_decision. Defined.
Definition PlanStatus_str (s : PlanStatus) : string :=
  match s with
  | PLANNED => "PLANNED" | EXECUTING => "EXECUTING"
  | PLAN_COMPLETED => "COMPLETED" | PLAN_FAILED => "FAILED"
  end.

Record PlanRow : Type := mkPlanRow {
  pr_universe_hash : string;
  pr_status : PlanStatus;
  pr_plan : json;
  pr_created_at : datetime;
  pr_executed_at : option datetime }.

(** The primary key of read_model.historical_coverage_gaps. *)
Record coverage_key : Type := mkCoverageKey {
  ck_instrument_id : string;
  ck_source_provider : string;
  ck_source_environment : string;
  ck_source_external_id : string;
  ck_source_listing_valid_from : Z;
  ck_source_listing_metadata_version : string;
  ck_provenance : string;
  ck_basis : string;
  ck_resolution : string;
  ck_interval_start : Z;
  ck_interval_end : Z;
  ck_detected_by_plan_hash : string }.
#[export] Instance coverage_key_eq_dec : EqDecision coverage_key.
Proof. solve_decision. Defined.
Definition coverage_key_encode (k : coverage_key) : list string * list Z :=
  ([ck_instrument_id k; ck_source_provider k; ck_source_environment k; ck_source_external_id k;
    ck_source_listing_metadata_version k; ck_provenance k; ck_basis k; ck_resolution k;
    ck_detected_by_plan_hash k],
   [ck_source_listing_valid_from k; ck_interval_start k; ck_interval_end k]).
Definition coverage_key_decode (c : list string * list Z) : option coverage_key :=
  match c with
  | ([a; b; c; d; e; f; g; h; i], [x; y; z]) => Some (mkCoverageKey a b c d x e f g h y z i)
  | _ => None
  end.
#[export] Instance coverage_key_countable : Countable coverage_key.
Proof. apply (inj_countable coverage_key_encode coverage_key_decode). by intros []. Defined.

Record CoverageRow : Type := mkCoverageRow {
  cv_detected_at : datetime;
  cv_request_completed_at : option datetime;
  cv_returned_points : option Z;
  cv_covered_at : option datetime;
  cv_covered_by_plan_hash : option string;
  cv_observed_points : option Z }.

Record BackfillDB : Type := mkBackfillDB {
  bf_plans : gmap string PlanRow;
  bf_coverage : gmap coverage_key CoverageRow }.

Definition _coverage_parameters (p : BackfillPlan) (item : BackfillPlanItem) (basis : PriceBasis) : coverage_key :=
  mkCoverageKey (bi_instrument_id item) (pl_provider (bi_listing_id item)) (pl_environment (bi_listing_id item))
    (pl_external_id (bi_listing_id item)) (instant (bi_listing_valid_from item))
    (bi_listing_metadata_version item) (BarProvenance_str IG_HISTORICAL) (PriceBasis_str basis)
    (HistoricalResolution_str (bp_resolution p)) (instant (bp_start p)) (instant (bp_end p)) (bp_plan_hash p).

(** [for item in plan.items: for basis in (BID, ASK, MID)] *)
Definition plan_cells (p : BackfillPlan) : list (BackfillPlanItem * PriceBasis) :=
  flat_map (λ i, [(i, BID); (i, ASK); (i, MID)]) (bp_items p).

Definition insert_coverage (p : BackfillPlan) (coverage : gmap coverage_key CoverageRow)
    (cell : BackfillPlanItem * PriceBasis) : gmap coverage_key CoverageRow :=
  let key : coverage_key := _coverage_parameters p cell.1 cell.2 in
  match coverage !! key with
  | Some _ => coverage
  | None => <[key := mkCoverageRow (bp_created_at p) None None None None None]> coverage
  end.

Definition register_backfill_plan (db : BackfillDB) (p : BackfillPlan) (payload : dict)
    : res (BackfillDB * string) :=
  '(plans, status) ←
    match bf_plans db !! bp_plan_hash p with
    | None => Ok (<[bp_plan_hash p := mkPlanRow (bp_universe_hash p) PLANNED (JObj payload)
                                        (bp_created_at p) None]> (bf_plans db), "PLANNED")
    | Some existing =>
        raise_if (negb (String.eqb (pr_universe_hash existing) (bp_universe_hash p))
                  || negb (bool_decide (canon (pr_plan existing) = canon (JObj payload))))
                 (RuntimeError "persisted backfill plan content conflicts with its hash");;
        Ok (bf_plans db, PlanStatus_str (pr_status existing))
    end;
  Ok (mkBackfillDB plans (fold_left (insert_coverage p) (plan_cells p) (bf_coverage db)), status).

Definition set_status (row : PlanRow) (status : PlanStatus) (executed_at : option datetime) : PlanRow :=
  mkPlanRow (pr_universe_hash row) status (pr_plan row) (pr_created_at row) executed_at.
Definition set_plan (db : BackfillDB) (h : string) (row : PlanRow) : BackfillDB :=
  mkBackfillDB (<[h := row]> (bf_plans db)) (bf_coverage db).

Definition claim_backfill_plan (db : BackfillDB) (plan_hash : string) : res (BackfillDB * json) :=
  match bf_plans db !! plan_hash with
  | None => Raise (RuntimeError "backfill plan is not registered")
  | Some row =>
      if bool_decide (pr_status row = PLANNED ∨ pr_status row = PLAN_FAILED)
      then Ok (set_plan db plan_hash (set_status row EXECUTING None), pr_plan row)
      else Raise (RuntimeError ("backfill plan cannot execute from status " +:+ PlanStatus_str (pr_status row)))
  end.

Definition fail_backfill_plan (db : BackfillDB) (plan_hash : string) (executed_at : datetime) : res BackfillDB :=
  match bf_plans db !! plan_hash with
  | Some row =>
      if bool_decide (pr_status row = EXECUTING)
      then Ok (set_plan db plan_hash (set_status row PLAN_FAILED (Some executed_at)))
      else Raise (RuntimeError "backfill plan was not executing when failure was recorded")
  | None => Raise (RuntimeError "backfill plan was not executing when failure was recorded")
  end.

(** One UPDATE of a coverage row. *)
Definition complete_coverage (p : BackfillPlan) (observed_points : InstrumentId → PriceBasis → option Z)
    (executed_at : datetime) (allow_empty : bool) (coverage : gmap coverage_key CoverageRow)
    (cell : BackfillPlanItem * PriceBasis) : res (gmap coverage_key CoverageRow) :=
  let key : coverage_key := _coverage_parameters p cell.1 cell.2 in
  match observed_points (bi_instrument_id cell.1) cell.2 with
  | None => Raise (KeyError "observed_points")
  | Some points =>
      raise_if ((points <? 0) || ((points =? 0) && negb allow_empty))
               (ValueError "historical coverage requires observed points for every basis");;
      match coverage !! key with
      | None => Raise (RuntimeError "planned historical coverage row is missing")
      | Some row =>
          Ok (<[key := mkCoverageRow (cv_detected_at row) (Some executed_at) (Some points)
                 (if 0 <? points then Some executed_at else None)
                 (if 0 <? points then Some (bp_plan_hash p) else None)
                 (if 0 <? points then Some points else None)]> coverage)
      end
  end.

Definition complete_backfill_plan (db : BackfillDB) (p : BackfillPlan)
    (observed_points : InstrumentId → PriceBasis → option Z) (executed_at : datetime) (allow_empty : bool)
    : res BackfillDB :=
  coverage ← for_each (complete_coverage p observed_points executed_at allow_empty) (bf_coverage db) (plan_cells p);
  match bf_plans db !! bp_plan_hash p with
  | Some row =>
      if bool_decide (pr_status row = EXECUTING)
      then Ok (mkBackfillDB (<[bp_plan_hash p := set_status row PLAN_COMPLETED (Some executed_at)]> (bf_plans db))
                 coverage)
      else Raise (RuntimeError "backfill plan was not executing at completion")
  | None => Raise (RuntimeError "backfill plan was not executing at completion")
  end.

(** ** Expansion into requests *)

(** Requests that follow one another from [a] to [b], each with its number of minutes. *)
Fixpoint tiles (chunk : Z) (a b : datetime) (l : list BackfillRequest) : Prop :=
  match l with
  | [] => a = b
  | r :: l =>
      br_start r = a ∧ instant a < instant (br_end r) <= instant b ∧
      br_maximum_points r * minutes 1 = instant (br_end r) - instant a ∧ 1 <= br_maximum_points r <= chunk ∧
      tiles chunk (br_end r) b l
  end.

Lemma _require_utc_Ok d f u : _require_utc d f = Ok u → is_utc d.
Proof.
  unfold _require_utc, is_utc. destruct (dt_offset d) as [o|]; [|done]. intros H%raise_if_Ok. bool_prop. by subst.
Qed.

Record plan_facts (p : BackfillPlan) : Prop := {
  pf_start : is_utc (bp_start p);
  pf_end : is_utc (bp_end p);
  pf_start_minute : instant (bp_start p) mod minutes 1 = 0;
  pf_end_minute : instant (bp_end p) mod minutes 1 = 0;
  pf_order : instant (bp_start p) < instant (bp_end p);
  pf_chunk : 1 <= bp_request_chunk_points p <= 1000;
  pf_instruments : NoDup (map bi_instrument_id (bp_items p));
  pf_listings : NoDup (map bi_listing_id (bp_items p));
  pf_quota : requested_points p <= usable_points (bp_quota p) }.

Lemma backfill_plan_valid p : BackfillPlan_post_init p = Ok tt → plan_facts p.
Proof.
  intros H. unfold BackfillPlan_post_init in H. res_inv.
  repeat match goal with H : _require_utc _ _ = Ok _ |- _ => apply _require_utc_Ok in H end. bool_prop.
  repeat match goal with H : has_duplicates _ = false |- _ => apply has_duplicates_false in H end.
  unfold dt_leb in *. bool_prop. split; try done; try lia; by apply off_minute_instant.
Qed.

Lemma minutes_between_eq a b : instant a mod minutes 1 = 0 → instant b mod minutes 1 = 0 →
  minutes_between a b * minutes 1 = instant b - instant a.
Proof. unfold minutes_between, dt_diff, minutes, seconds. intros. Z.div_mod_to_equations. lia. Qed.

Lemma chunk_requests_tile p item l fuel a :
  plan_facts p → is_utc a → instant a mod minutes 1 = 0 → instant a <= instant (bp_end p) →
  instant (bp_end p) - instant a <= Z.of_nat fuel * minutes 1 →
  tiles (bp_request_chunk_points p) a (bp_end p) (chunk_requests fuel p item l a).
Proof.
  intros Hp. revert a. induction fuel as [|fuel IH]; intros a Hu Hm Hle Hf; cbn [chunk_requests tiles].
  - apply utc_instant_inj; [done|apply Hp|]. change (Z.of_nat 0) with 0 in Hf. lia.
  - unfold dt_ltb. destruct (Z.ltb_spec (instant a) (instant (bp_end p))) as [Hlt|Hge]; cbn [tiles].
    2:{ apply utc_instant_inj; [done|apply Hp|lia]. }
    cbn [br_start br_end br_maximum_points].
    set (next := dt_add a (minutes (bp_request_chunk_points p))).
    assert (is_utc next) as Hnu by exact Hu.
    assert (instant next = instant a + bp_request_chunk_points p * minutes 1) as Hni.
    { unfold next, dt_add, instant, minutes, seconds. cbn. lia. }
    pose proof (pf_chunk _ Hp) as Hc. pose proof (pf_end_minute _ Hp) as Hem.
    assert (minutes 1 = 60000000) as Hm1 by reflexivity.
    assert (instant next mod minutes 1 = 0) as Hnm by (rewrite Hni, Z.mod_add, Hm1 in *; lia).
    assert (is_utc (dt_min (bp_end p) next) ∧ instant (dt_min (bp_end p) next) mod minutes 1 = 0 ∧
      instant (dt_min (bp_end p) next) = Z.min (instant (bp_end p)) (instant next)) as (Hru & Hrm & Hri).
    { unfold dt_min, dt_ltb. destruct (Z.ltb_spec (instant next) (instant (bp_end p))); split_and!; try done;
        try apply Hp; lia. }
    pose proof (minutes_between_eq _ _ Hm Hrm) as Hb. rewrite Hri in Hb.
    split_and!; try done; try lia; try (rewrite Hm1 in *; nia).
    apply IH; try done; [lia|]. rewrite Hri. rewrite Nat2Z.inj_succ in Hf. rewrite Hm1 in *. nia.
Qed.

Definition total_points (l : list BackfillRequest) : Z := fold_right Z.add 0 (map br_maximum_points l).

Lemma total_points_app l l' : total_points (l ++ l') = total_points l + total_points l'.
Proof. unfold total_points. induction l as [|r l IH]; cbn; [done|]. unfold total_points in *. lia. Qed.

Lemma tiles_points chunk a b l : tiles chunk a b l → total_points l = minutes_between a b.
Proof.
  intros H. assert (total_points l * minutes 1 = instant b - instant a) as E.
  { revert a H. induction l as [|r l IH]; intros a; cbn [tiles]; [intros ->; cbn; lia|].
    intros (_ & _ & Hr & _ & Hl). apply IH in Hl. unfold total_points in *. cbn [map fold_right]. lia. }
  unfold minutes_between, dt_diff. rewrite <- E. by rewrite Z.div_mul.
Qed.

(** Listings grouped by distinct instruments are the listings. *)
Lemma by_instrument_perm ids listings : NoDup ids → (∀ l, l ∈ listings → li_instrument_id l ∈ ids) →
  flat_map (by_instrument listings) ids ≡ₚ listings.
Proof.
  revert listings. induction ids as [|i ids IH]; intros listings Hn Hin.
  - destruct listings as [|l ls]; [done|]. specialize (Hin l ltac:(set_solver)). set_solver.
  - apply NoDup_cons in Hn as [Hi Hn]. cbn [flat_map].
    set (rest := List.filter (λ l, negb (String.eqb (li_instrument_id l) i)) listings).
    assert (by_instrument listings i ++ rest ≡ₚ listings) as Hp.
    { unfold by_instrument, rest. clear. induction listings as [|l ls IH]; cbn; [done|].
      destruct (String.eqb _ i); cbn; [by rewrite IH|]. by rewrite <- Permutation_middle, IH. }
    etransitivity; [|exact Hp]. apply Permutation_app_head. etransitivity; [|apply (IH rest Hn)].
    + apply reflexive_eq. assert (∀ j, j ∈ ids → by_instrument listings j = by_instrument rest j) as Hj.
      { intros j Hj. unfold by_instrument, rest. clear - Hj Hi. induction listings as [|l ls IH]; cbn; [done|].
        destruct (String.eqb_spec (li_instrument_id l) i) as [->|]; cbn.
        - destruct (String.eqb_spec i j); [by subst|done].
        - destruct (String.eqb _ j); by rewrite IH. }
      clear - Hj. induction ids as [|j ids IH]; cbn; [done|]. rewrite Hj by set_solver. f_equal. apply IH. set_solver.
    + intros l Hl. unfold rest in Hl. apply list_elem_of_In, List.filter_In in Hl as [Hl Hne].
      apply list_elem_of_In, Hin in Hl. apply negb_true_iff, String.eqb_neq in Hne. set_solver.
Qed.

Lemma singles_ext ids listings :
  (∀ id, id ∈ ids → length (by_instrument listings id) = 1%nat) →
  ∃ ls, flat_map (by_instrument listings) ids = ls ∧ Forall2 (λ id l, by_instrument listings id = [l]) ids ls.
Proof.
  induction ids as [|i ids IH]; intros H; [by exists []|].
  destruct IH as (ls & E & Hls); [intros; apply H; set_solver|].
  specialize (H i ltac:(set_solver)). destruct (by_instrument listings i) as [|l [|]] eqn:Ei; try done.
  exists (l :: ls). cbn. rewrite Ei, E. split; [done|by constructor].
Qed.

Lemma by_instrument_in listings id l : l ∈ by_instrument listings id → l ∈ listings ∧ li_instrument_id l = id.
Proof.
  intros H. unfold by_instrument in H. apply list_elem_of_In, List.filter_In in H as [H E].
  split; [by apply list_elem_of_In|by apply String.eqb_eq].
Qed.

(** What building a plan establishes of its items. *)
Lemma plan_items_Ok listings ids ls items :
  Forall2 (λ id l, by_instrument listings id = [l]) ids ls → traverse (plan_item listings) ids = Ok items →
  Forall2 (λ l item, item = mkPlanItem (li_instrument_id l) (li_listing_id l) (li_valid_from l) (li_metadata_version l))
    ls items ∧ map bi_instrument_id items = ids.
Proof.
  intros Hls Ht. apply traverse_Ok in Ht. revert items Ht.
  induction Hls as [|id l ids ls Hid Hls IH]; intros items Ht; inversion Ht as [|? item ? items' Hi Hr]; subst; [by split|].
  destruct (IH _ Hr) as [IH1 IH2]. unfold plan_item in Hi. rewrite Hid in Hi. res_inv.
  assert (li_instrument_id l = id) as <-.
  { assert (l ∈ by_instrument listings id) as Hl by (rewrite Hid; set_solver). by apply by_instrument_in in Hl as [_ ?]. }
  split; [by constructor|]. cbn. by f_equal.
Qed.

Lemma for_each_all {A} (f : A → bool) (e : A → exn) l u :
  for_each (λ _ x, raise_if (f x) (e x)) tt l = Ok u → ∀ x, x ∈ l → f x = false.
Proof.
  induction l as [|y l IH]; cbn; [set_solver|]. intros (v & Hv & H)%bind_Ok x. destruct v.
  apply raise_if_Ok in Hv. rewrite elem_of_cons. intros [->|Hx]; [done|by apply IH].
Qed.

Lemma build_backfill_plan_Ok un uh ids listings epics start end_ remaining observed created reserve chunk p :
  build_backfill_plan un uh ids listings epics start end_ remaining observed created reserve chunk = Ok p →
  BackfillPlan_post_init p = Ok tt ∧ verify_backfill_plan_hash p = Ok tt ∧
  bp_start p = start ∧ bp_end p = end_ ∧ bp_request_chunk_points p = chunk ∧
  bp_quota p = mkQuota _OPERATOR_ALLOWANCE remaining observed reserve ∧
  map bi_instrument_id (bp_items p) = py_sorted id ids ∧
  ∃ ls, ls ≡ₚ listings ∧
    Forall2 (λ l item, item = mkPlanItem (li_instrument_id l) (li_listing_id l) (li_valid_from l) (li_metadata_version l))
      ls (bp_items p).
Proof.
  intros H. unfold build_backfill_plan in H. cbv zeta in H.
  apply bind_Ok in H as (u & Hd & H). apply raise_if_Ok, has_duplicates_false in Hd.
  apply bind_Ok in H as (u1 & Hreq & H). apply bind_Ok in H as (u2 & Hone & H). apply raise_if_Ok in Hone.
  apply bind_Ok in H as (u3 & _ & H). apply bind_Ok in H as (u4 & _ & H). apply bind_Ok in H as (u5 & _ & H).
  apply bind_Ok in H as (items & Hi & H). apply bind_Ok in H as ([] & Hv & [= <-]).
  destruct (singles_ext (py_sorted id ids) listings) as (ls & E & Hls).
  { intros i Hin. apply elem_of_py_sorted in Hin. destruct (Nat.eqb (length (by_instrument listings i)) 1) eqn:En;
      [by apply Nat.eqb_eq|]. exfalso. apply not_true_iff_false in Hone. apply Hone. apply existsb_exists.
    exists i. split; [by apply list_elem_of_In|]. by rewrite En. }
  destruct (plan_items_Ok _ _ _ _ Hls Hi) as [Hit Hids]. cbn [bp_start bp_end bp_request_chunk_points bp_quota bp_items].
  split_and!; try done.
  - assert (∀ h a b c d e f g i q, dict_item "plan_hash" (_backfill_plan_payload (Some h) a b c d e f g i q) = Ok (JStr h))
      as Hdi by reflexivity.
    unfold verify_backfill_plan_hash, backfill_plan_payload. cbv zeta. rewrite Hdi. cbn [mbind res_bind py_str bp_plan_hash].
    apply raise_if_Ok, negb_false_iff, String.eqb_eq. reflexivity.
  - exists ls. split; [|done]. rewrite <- E. apply by_instrument_perm.
    + by apply py_sorted_NoDup.
    + intros l Hl. apply elem_of_py_sorted. apply (for_each_all _ _ _ _ Hreq) in Hl. by bool_prop.
Qed.

Lemma find_unique {A} (f : A → bool) l x :
  x ∈ l → f x = true → (∀ y, y ∈ l → f y = true → y = x) → List.find f l = Some x.
Proof.
  induction l as [|y l IH]; [set_solver|]. intros Hx Hf Hu. cbn. destruct (f y) eqn:E.
  - f_equal. apply Hu; [set_solver|done].
  - apply IH; [|done|intros; apply Hu; set_solver]. apply elem_of_cons in Hx as [->|]; [congruence|done].
Qed.

Lemma chunk_requests_of p i l fuel a :
  Forall (λ r, br_instrument_id r = bi_instrument_id i ∧ br_listing r = l) (chunk_requests fuel p i l a).
Proof.
  revert a. induction fuel as [|n IH]; intros a; cbn; [constructor|].
  destruct (dt_ltb _ _); constructor; [done|]. apply IH.
Qed.

Lemma yield_items_Ok p listings items :
  (∀ i, i ∈ items → ∃ l, item_requests p listings i
      = Ok (chunk_requests (Z.to_nat (points_per_instrument p)) p i l (bp_start p)) ∧ l ∈ listings ∧
        li_listing_id l = bi_listing_id i) →
  plan_facts p →
  ∃ reqs, yield_items p listings items = (concat reqs, Ok tt) ∧
    Forall2 (λ i l, tiles (bp_request_chunk_points p) (bp_start p) (bp_end p) l ∧
       Forall (λ r, br_instrument_id r = bi_instrument_id i ∧ br_listing r ∈ listings ∧
                    li_listing_id (br_listing r) = bi_listing_id i) l) items reqs.
Proof.
  intros Hi Hp. induction items as [|i items IH]; [by exists []|].
  destruct IH as (reqs & E & Hreqs); [intros; apply Hi; set_solver|].
  destruct (Hi i ltac:(set_solver)) as (l & El & Hl & Hid). exists (chunk_requests (Z.to_nat (points_per_instrument p)) p i l (bp_start p) :: reqs).
  cbn. rewrite El, E. split; [done|].
  constructor; [|done]. split.
  - apply chunk_requests_tile; try apply Hp; [destruct Hp; lia|]. unfold points_per_instrument.
    pose proof (minutes_between_eq _ _ (pf_start_minute _ Hp) (pf_end_minute _ Hp)) as Hm.
    assert (minutes 1 = 60000000) as Hm1 by reflexivity. pose proof (pf_order _ Hp). rewrite Hm1 in *.
    rewrite Z2Nat.id; lia.
  - eapply Forall_impl; [apply chunk_requests_of|]. by intros r [? ->].
Qed.

Lemma tiled_total p (Q : BackfillPlanItem → list BackfillRequest → Prop) items reqs :
  Forall2 (λ i l, tiles (bp_request_chunk_points p) (bp_start p) (bp_end p) l ∧ Q i l) items reqs →
  total_points (concat reqs) = points_per_instrument p * Z.of_nat (length items).
Proof.
  induction 1 as [|i l items reqs [Ht _] _ IH]; cbn [concat length]; [cbn; lia|].
  rewrite total_points_app, IH, (tiles_points _ _ _ _ Ht). unfold points_per_instrument. lia.
Qed.

Lemma items_listing_ids ls items :
  Forall2 (λ l item, item = mkPlanItem (li_instrument_id l) (li_listing_id l) (li_valid_from l) (li_metadata_version l))
    ls items → map bi_listing_id items = map li_listing_id ls.
Proof. induction 1 as [|l i ls items -> _ IH]; cbn; [done|]. by f_equal. Qed.

(** ** Theorems: expansion *)

(** A plan built from one active listing per instrument carries its canonical hash and,
    expanded with those listings, yields for every instrument in canonical order consecutive
    requests that tile the planned range exactly, each of between one and [chunk] minutes;
    together they ask for exactly the points the plan declares, which its quota allows. *)
Theorem backfill_requests_tile un uh ids listings epics start end_ remaining observed created reserve chunk p :
  build_backfill_plan un uh ids listings epics start end_ remaining observed created reserve chunk = Ok p →
  verify_backfill_plan_hash p = Ok tt ∧
  map bi_instrument_id (bp_items p) = py_sorted id ids ∧
  ∃ reqs, backfill_requests p listings = (concat reqs, Ok tt) ∧
    Forall2 (λ item l, tiles chunk start end_ l ∧
       Forall (λ r, br_instrument_id r = bi_instrument_id item ∧ br_listing r ∈ listings ∧
                    li_listing_id (br_listing r) = bi_listing_id item) l) (bp_items p) reqs ∧
    total_points (concat reqs) = requested_points p ∧
    requested_points p <= usable_points (mkQuota _OPERATOR_ALLOWANCE remaining observed reserve).
Proof.
  intros (Hv & Hh & Hs & He & Hc & Hq & Hids & ls & Hls & Hit)%build_backfill_plan_Ok.
  apply backfill_plan_valid in Hv as Hp. split_and!; [done|done|].
  assert (NoDup (map li_listing_id listings)) as Hn.
  { rewrite <- Hls, <- (items_listing_ids _ _ Hit). apply Hp. }
  destruct (yield_items_Ok p listings (bp_items p)) as (reqs & E & Hr); [|done|].
  - intros i [k Hk]%list_elem_of_lookup. destruct (Forall2_lookup_r _ _ _ _ _ Hit Hk) as (l & Hl & ->).
    apply list_elem_of_lookup_2 in Hl. rewrite Hls in Hl. exists l. split; [|done]. unfold item_requests.
    rewrite (find_unique _ _ l); cbn; [by rewrite !String.eqb_refl|done|by apply bool_decide_eq_true|].
    intros y Hy Hyl. apply bool_decide_eq_true in Hyl. injection Hyl as Hyl _.
    apply list_elem_of_lookup in Hy as [i Hi], Hl as [j Hj].
    assert (i = j) as -> by (eapply (NoDup_lookup (map li_listing_id listings));
      [done|rewrite list_lookup_fmap, Hi; cbn; done|rewrite list_lookup_fmap, Hj; cbn; by rewrite Hyl]). congruence.
  - exists reqs. split_and!.
    + unfold backfill_requests. replace (has_duplicates (map listing_identity listings)) with false; [done|].
      symmetry. apply has_duplicates_false. apply (NoDup_fmap_1 fst). rewrite <- list_fmap_compose.
      exact Hn.
    + by rewrite <- Hs, <- He, <- Hc.
    + rewrite (tiled_total _ _ _ _ Hr). done.
    + rewrite <- Hq. apply Hp.
Qed.

(** ** The life of a registered plan *)

Definition cell_key (p : BackfillPlan) (cell : BackfillPlanItem * PriceBasis) : coverage_key :=
  _coverage_parameters p cell.1 cell.2.

Definition unanswered (detected_at : datetime) : CoverageRow := mkCoverageRow detected_at None None None None None.
Definition answered (p : BackfillPlan) (detected_at executed_at : datetime) (points : Z) : CoverageRow :=
  mkCoverageRow detected_at (Some executed_at) (Some points)
    (if 0 <? points then Some executed_at else None)
    (if 0 <? points then Some (bp_plan_hash p) else None)
    (if 0 <? points then Some points else None).

Lemma cell_key_hash p q c d : cell_key p c = cell_key q d → bp_plan_hash p = bp_plan_hash q.
Proof. unfold cell_key, _coverage_parameters. by injection 1. Qed.
Lemma cell_key_cell p c d : cell_key p c = cell_key p d → bi_instrument_id c.1 = bi_instrument_id d.1 ∧ c.2 = d.2.
Proof.
  unfold cell_key, _coverage_parameters. injection 1 as H1 H2 H3 H4 H5 H6 H7. split; [done|]. by apply PriceBasis_str_inj.
Qed.

Lemma insert_coverage_spec p cells cov (k : coverage_key) :
  fold_left (insert_coverage p) cells cov !! k
  = match cov !! k with
    | Some r => Some r
    | None => if decide (k ∈ map (cell_key p) cells) then Some (unanswered (bp_created_at p)) else None
    end.
Proof.
  revert cov. induction cells as [|c cells IH]; intros cov; cbn [fold_left map]; [by destruct (cov !! k)|].
  rewrite IH. unfold insert_coverage. fold (cell_key p c). cbv zeta.
  destruct (decide (k = cell_key p c)) as [->|Hne].
  - rewrite (decide_True (P := cell_key p c ∈ _ :: _)) by set_solver.
    destruct (cov !! cell_key p c) eqn:E; [by rewrite E|]. by rewrite lookup_insert_eq.
  - assert ((match cov !! cell_key p c with Some _ => cov
      | None => <[cell_key p c := mkCoverageRow (bp_created_at p) None None None None None]> cov end) !! k = cov !! k) as ->.
    { destruct (cov !! cell_key p c); [done|]. by rewrite lookup_insert_ne. }
    destruct (cov !! k); [done|].
    destruct (decide (k ∈ map (cell_key p) cells)); [rewrite decide_True by set_solver|rewrite decide_False by set_solver]; done.
Qed.

Lemma complete_loop p obs at_ ae cells cov cov' :
  for_each (complete_coverage p obs at_ ae) cov cells = Ok cov' →
  (∀ k, k ∉ map (cell_key p) cells → cov' !! k = cov !! k) ∧
  (∀ c, c ∈ cells → ∃ r n, cov !! cell_key p c = Some r ∧ obs (bi_instrument_id c.1) c.2 = Some n ∧ 0 <= n ∧
     cov' !! cell_key p c = Some (answered p (cv_detected_at r) at_ n)).
Proof.
  revert cov. induction cells as [|c cells IH]; intros cov; cbn [for_each map].
  { intros [= <-]. split; [done|set_solver]. }
  intros (cov1 & H1 & H)%bind_Ok. unfold complete_coverage in H1. fold (cell_key p c) in H1. cbv zeta in H1.
  destruct (obs _ _) as [n|] eqn:En; [|done]. apply bind_Ok in H1 as (u & Hn & H1). apply raise_if_Ok in Hn.
  apply orb_false_iff in Hn as [Hn _]. apply Z.ltb_ge in Hn.
  destruct (cov !! cell_key p c) as [r|] eqn:Er; [|done]. injection H1 as <-.
  fold (answered p (cv_detected_at r) at_ n) in H. apply IH in H as [Hout Hin]. split.
  - intros k [Hk Hk']%not_elem_of_cons. rewrite Hout by done. by apply lookup_insert_ne.
  - intros d Hd. destruct (decide (cell_key p d ∈ map (cell_key p) cells)) as [(e & Ee & He)%list_elem_of_fmap|Hnot].
    + destruct (Hin e He) as (r' & n' & Hr' & Hn' & Hpos & Hf). rewrite <- Ee in Hr', Hf.
      destruct (cell_key_cell _ _ _ Ee) as [Hi Hb]. rewrite <- Hi, <- Hb in Hn'.
      destruct (decide (cell_key p d = cell_key p c)) as [Eq|Hne].
      * rewrite Eq in Hr', Hf |- *. rewrite lookup_insert_eq in Hr'. injection Hr' as <-. exists r, n'. done.
      * rewrite lookup_insert_ne in Hr' by done. by exists r', n'.
    + apply elem_of_cons in Hd as [->|Hd]; [|exfalso; apply Hnot, list_elem_of_fmap; eauto].
      exists r, n. rewrite Hout by done. by rewrite lookup_insert_eq.
Qed.

Section lifecycle.
(** The plans in use; by [verify_backfill_plan_hash] two of them with the same hash
    have the same canonical content. *)
Context (in_use : BackfillPlan → Prop).

Inductive backfill_step : BackfillDB → BackfillDB → Prop :=
| step_register db p db' status : in_use p →
    register_backfill_plan db p (backfill_plan_payload p) = Ok (db', status) → backfill_step db db'
| step_claim db h db' payload : claim_backfill_plan db h = Ok (db', payload) → backfill_step db db'
| step_fail db h at_ db' : fail_backfill_plan db h at_ = Ok db' → backfill_step db db'
| step_complete db p obs at_ allow_empty db' : in_use p →
    complete_backfill_plan db p obs at_ allow_empty = Ok db' → backfill_step db db'.

Definition cell_state (p : BackfillPlan) (row : PlanRow) (cv : CoverageRow) : Prop :=
  if decide (pr_status row = PLAN_COMPLETED)
  then ∃ at_ n, pr_executed_at row = Some at_ ∧ 0 <= n ∧ cv = answered p (cv_detected_at cv) at_ n
  else cv = unanswered (cv_detected_at cv).

Record backfill_ok (db : BackfillDB) : Prop := {
  bo_plans : ∀ h row, bf_plans db !! h = Some row → ∃ p, in_use p ∧ bp_plan_hash p = h;
  bo_keys : ∀ (k : coverage_key) cv, bf_coverage db !! k = Some cv → is_Some (bf_plans db !! ck_detected_by_plan_hash k);
  bo_cells : ∀ p row, in_use p → bf_plans db !! bp_plan_hash p = Some row →
    ∀ c, c ∈ plan_cells p → ∃ cv, bf_coverage db !! cell_key p c = Some cv ∧ cell_state p row cv }.

Hypothesis hash_identifies : ∀ p q, in_use p → in_use q → bp_plan_hash p = bp_plan_hash q → p = q.

Lemma cell_key_snd p c : ck_detected_by_plan_hash (cell_key p c) = bp_plan_hash p.
Proof. done. Qed.

Lemma register_ok db p db' status : backfill_ok db → in_use p →
  register_backfill_plan db p (backfill_plan_payload p) = Ok (db', status) → backfill_ok db'.
Proof.
  intros Hok Hp H. unfold register_backfill_plan in H. destruct (bf_plans db !! bp_plan_hash p) as [ex|] eqn:Ex.
  - apply bind_Ok in H as ([plans st] & H1 & [= <- <-]). apply bind_Ok in H1 as (u & _ & [= <- <-]).
    assert (∀ k : coverage_key, fold_left (insert_coverage p) (plan_cells p) (bf_coverage db) !! k = bf_coverage db !! k) as Hsame.
    { intros k. rewrite insert_coverage_spec. destruct (bf_coverage db !! k) eqn:E; [done|].
      destruct (decide _) as [(c & -> & Hc)%list_elem_of_fmap|]; [|done].
      destruct (bo_cells _ Hok p ex Hp Ex c Hc) as (cv & Hcv & _). congruence. }
    split; cbn.
    + apply Hok.
    + intros k cv. rewrite Hsame. apply Hok.
    + intros q row Hq Hr c Hc. rewrite Hsame. by eapply bo_cells.
  - cbn in H. injection H as <- <-. split; cbn.
    + intros h row Hr. apply lookup_insert_Some in Hr as [[<- _]|[_ Hr]]; [by exists p|by eapply bo_plans].
    + intros k cv Hk. destruct (decide (bp_plan_hash p = ck_detected_by_plan_hash k)) as [->|Hne]; [rewrite lookup_insert_eq; by eexists|].
      rewrite lookup_insert_ne by done. rewrite insert_coverage_spec in Hk.
      destruct (bf_coverage db !! k) eqn:E; [by eapply bo_keys|].
      destruct (decide _) as [(c & -> & Hc)%list_elem_of_fmap|]; [|done]. done.
    + intros q row Hq Hr c Hc. rewrite insert_coverage_spec. destruct (decide (bp_plan_hash q = bp_plan_hash p)) as [E|Hne].
      * apply hash_identifies in E as ->; [|done..]. rewrite lookup_insert_eq in Hr. injection Hr as <-.
        destruct (bf_coverage db !! cell_key p c) as [cv|] eqn:Ec.
        { apply (bo_keys _ Hok) in Ec. rewrite cell_key_snd, Ex in Ec. by destruct Ec. }
        rewrite decide_True by (apply list_elem_of_fmap; eauto). by eexists.
      * rewrite lookup_insert_ne in Hr by done. destruct (bo_cells _ Hok q row Hq Hr c Hc) as (cv & -> & Hs). eauto.
Qed.

(** Updating the row of a plan that is not completed, to another such status. *)
Lemma set_plan_ok db h row row' : backfill_ok db → bf_plans db !! h = Some row →
  pr_status row ≠ PLAN_COMPLETED → pr_status row' ≠ PLAN_COMPLETED → backfill_ok (set_plan db h row').
Proof.
  intros Hok Hr Hs Hs'. split; cbn.
  - intros h' r Hl. apply lookup_insert_Some in Hl as [[<- _]|[_ Hl]]; by eapply bo_plans.
  - intros k cv Hk. destruct (decide (h = ck_detected_by_plan_hash k)) as [->|Hne]; [rewrite lookup_insert_eq; by eexists|].
    rewrite lookup_insert_ne by done. by eapply bo_keys.
  - intros p r Hp Hl c Hc. apply lookup_insert_Some in Hl as [[-> <-]|[_ Hl]]; [|by eapply bo_cells].
    destruct (bo_cells _ Hok p row Hp Hr c Hc) as (cv & Hcv & Hst). exists cv. split; [done|].
    unfold cell_state in *. rewrite decide_False in Hst by done. by rewrite decide_False.
Qed.

Lemma complete_ok db p obs at_ ae db' : backfill_ok db → in_use p →
  complete_backfill_plan db p obs at_ ae = Ok db' → backfill_ok db'.
Proof.
  intros Hok Hp H. unfold complete_backfill_plan in H. apply bind_Ok in H as (cov & Hl & H).
  destruct (bf_plans db !! bp_plan_hash p) as [row|] eqn:Er; [|done].
  destruct (bool_decide _); [|done]. injection H as <-. apply complete_loop in Hl as [Hout Hin]. split; cbn.
  - intros h r Hr. apply lookup_insert_Some in Hr as [[<- _]|[_ Hr]]; [by exists p|by eapply bo_plans].
  - intros k cv Hk. destruct (decide (bp_plan_hash p = ck_detected_by_plan_hash k)) as [->|Hne]; [rewrite lookup_insert_eq; by eexists|].
    rewrite lookup_insert_ne by done. rewrite Hout in Hk; [by eapply bo_keys|].
    intros (c & -> & _)%list_elem_of_fmap. done.
  - intros q r Hq Hr c Hc. destruct (decide (bp_plan_hash q = bp_plan_hash p)) as [E|Hne].
    + apply hash_identifies in E as ->; [|done..]. rewrite lookup_insert_eq in Hr. injection Hr as <-.
      destruct (Hin c Hc) as (cv & n & _ & _ & Hn & Hf). rewrite Hf. eexists. split; [done|].
      unfold cell_state. cbn. rewrite decide_True by done. by exists at_, n.
    + rewrite lookup_insert_ne in Hr by done. rewrite Hout; [by eapply bo_cells|].
      intros (d & E & _)%list_elem_of_fmap. by apply cell_key_hash in E.
Qed.

Lemma backfill_step_ok db db' : backfill_step db db' → backfill_ok db → backfill_ok db'.
Proof.
  intros [a p b s Hp H|a h b j H|a h at_ b H|a p obs at_ ae b Hp H] Hok.
  - by eapply register_ok.
  - unfold claim_backfill_plan in H. destruct (bf_plans a !! h) as [row|] eqn:E; [|done].
    destruct (bool_decide _) eqn:Eb; [|done]. apply bool_decide_eq_true in Eb. injection H as <- _.
    eapply set_plan_ok; [done|done|by destruct Eb as [-> | ->]|done].
  - unfold fail_backfill_plan in H. destruct (bf_plans a !! h) as [row|] eqn:E; [|done].
    destruct (bool_decide _) eqn:Eb; [|done]. apply bool_decide_eq_true in Eb. injection H as <-.
    eapply set_plan_ok; [done|done|by rewrite Eb|done].
  - by eapply complete_ok.
Qed.

(** A completed plan's row and cells are not written again. *)
Lemma backfill_step_final db db' p row : backfill_ok db → backfill_step db db' → in_use p →
  bf_plans db !! bp_plan_hash p = Some row → pr_status row = PLAN_COMPLETED →
  bf_plans db' !! bp_plan_hash p = Some row ∧
  ∀ c, c ∈ plan_cells p → bf_coverage db' !! cell_key p c = bf_coverage db !! cell_key p c.
Proof.
  intros Hok Hst. revert Hok. destruct Hst as [a q b s Hq H|a h b j H|a h at_ b H|a q obs at_ ae b Hq H]; intros Hok Hp Hr Hs.
  - unfold register_backfill_plan in H. apply bind_Ok in H as ([plans st] & H1 & [= <- <-]). cbn. split.
    + destruct (bf_plans a !! bp_plan_hash q) eqn:Eq; [by apply bind_Ok in H1 as (u & _ & [= <- <-])|].
      injection H1 as <- <-. rewrite lookup_insert_ne; [done|congruence].
    + intros c Hc. rewrite insert_coverage_spec.
      by destruct (bo_cells _ Hok p row Hp Hr c Hc) as (cv & -> & _).
  - unfold claim_backfill_plan in H. destruct (bf_plans a !! h) as [r|] eqn:E; [|done].
    destruct (bool_decide _) eqn:Eb; [|done]. apply bool_decide_eq_true in Eb. injection H as <- _. cbn.
    rewrite lookup_insert_ne; [done|]. intros ->. rewrite Hr in E. injection E as <-. rewrite Hs in Eb. by destruct Eb.
  - unfold fail_backfill_plan in H. destruct (bf_plans a !! h) as [r|] eqn:E; [|done].
    destruct (bool_decide _) eqn:Eb; [|done]. apply bool_decide_eq_true in Eb. injection H as <-. cbn.
    rewrite lookup_insert_ne; [done|]. intros ->. rewrite Hr in E. injection E as <-. by rewrite Hs in Eb.
  - unfold complete_backfill_plan in H. apply bind_Ok in H as (cov & Hl & H).
    destruct (bf_plans a !! bp_plan_hash q) as [r|] eqn:Er; [|done].
    destruct (bool_decide _) eqn:Eb; [|done]. apply bool_decide_eq_true in Eb. injection H as <-. cbn.
    assert (bp_plan_hash p ≠ bp_plan_hash q) as Hne.
    { intros E. rewrite <- E, Hr in Er. injection Er as <-. by rewrite Hs in Eb. }
    rewrite lookup_insert_ne by done. split; [done|]. intros c _. apply complete_loop in Hl as [Hout _].
    apply Hout. intros (d & E & _)%list_elem_of_fmap. by apply cell_key_hash in E.
Qed.

End lifecycle.

(** ** Witnesses *)

Definition sample_hash64 : string := "0123456789abcdef0123456789abcdef0123456789abcdef0123456789abcdef".
Definition sample_provider_listing (instrument epic : string) : ProviderListing :=
  mkProviderListing (mkListing "ig" "demo" epic) instrument epic ROLLING_CFD "GBP" (dec_of_Z 1) None
    (utc 0) None "v1" [].
Definition sample_listings : list ProviderListing :=
  [sample_provider_listing "fx:eurusd" "E1"; sample_provider_listing "fx:audusd" "A1"].
Definition sample_epics : gmap string string := {["fx:eurusd" := "E1"; "fx:audusd" := "A1"]}.
Definition sample_build : res BackfillPlan :=
  build_backfill_plan "fx" sample_hash64 ["fx:eurusd"; "fx:audusd"] sample_listings sample_epics
    (utc 0) (utc (minutes 5)) 100 (utc 1) (utc 2) (dec_lit 2 (-1)) 2.
Definition sample_backfill : BackfillPlan :=
  ok_or (mkBackfillPlan "" "" "" (utc 0) (utc 0) (utc 0) MINUTE 1 (mkQuota "" 0 (utc 0) dec_zero) []) sample_build.

Lemma backfill_requests_tile_witness :
  ∃ reqs, backfill_requests sample_backfill sample_listings = (concat reqs, Ok tt) ∧
          total_points (concat reqs) = 10.
Proof.
  assert (sample_build = Ok sample_backfill) as Hb by (vm_compute; reflexivity).
  destruct (backfill_requests_tile _ _ _ _ _ _ _ _ _ _ _ _ _ Hb) as (_ & _ & reqs & E & _ & Ht & _).
  exists reqs. split; [exact E|]. rewrite Ht. vm_compute. reflexivity.
Defined.

Definition sample_registered : BackfillDB :=
  (ok_or (mkBackfillDB ∅ ∅, "")
     (register_backfill_plan (mkBackfillDB ∅ ∅) sample_backfill (backfill_plan_payload sample_backfill))).1.
Definition sample_claimed : BackfillDB :=
  (ok_or (mkBackfillDB ∅ ∅, JNull) (claim_backfill_plan sample_registered (bp_plan_hash sample_backfill))).1.
Definition sample_completed : BackfillDB :=
  ok_or (mkBackfillDB ∅ ∅) (complete_backfill_plan sample_claimed sample_backfill (λ _ _, Some 5) (utc 9) false).

Definition sample_done_row : PlanRow :=
  mkPlanRow sample_hash64 PLAN_COMPLETED (JObj (backfill_plan_payload sample_backfill)) (utc 2) (Some (utc 9)).

Lemma sample_registers :
  register_backfill_plan (mkBackfillDB ∅ ∅) sample_backfill (backfill_plan_payload sample_backfill)
  = Ok (sample_registered, "PLANNED").
Proof. vm_cast_no_check (eq_refl (Ok (sample_registered, "PLANNED"))). Qed.
Lemma sample_claims :
  claim_backfill_plan sample_registered (bp_plan_hash sample_backfill)
  = Ok (sample_claimed, JObj (backfill_plan_payload sample_backfill)).
Proof. vm_cast_no_check (eq_refl (Ok (sample_claimed, JObj (backfill_plan_payload sample_backfill)))). Qed.
Lemma sample_completes :
  complete_backfill_plan sample_claimed sample_backfill (λ _ _, Some 5) (utc 9) false = Ok sample_completed.
Proof. vm_cast_no_check (eq_refl (@Ok BackfillDB sample_completed)). Qed.
Lemma sample_done : bf_plans sample_completed !! bp_plan_hash sample_backfill = Some sample_done_row.
Proof. vm_cast_no_check (eq_refl (Some sample_done_row)). Qed.

