(* ===== verification/Persistence.v ===== *)
(** The bounded persistence worker of [application/persistence.py].

    The worker task, the drain and the producer interleave at the [await]s of the
    source: between two of them the code runs atomically, so each step below is the
    code from one [await] to the next. [asyncio.Queue] is its list of items and its
    count of unfinished tasks; [get] takes an item at once when there is one and is
    otherwise suspended, until an item arrives or the 0.1 s timeout cancels it. The
    service is the environment's: [process] returns or raises at its own time. One
    drain is in progress at a time, and a drained worker is not started again. *)

From S2P Require Import Prelude PySorted PyStr PyTime PyDecimal Sha256 PyJson PyParse Domain Storage EventStore CaptureFeed Gaps Bars Ingestion.

Definition PersistenceWorkerError := Exn KPersistenceWorkerError.
Definition PersistenceBackpressureError := Exn KPersistenceBackpressureError.
(** [type(error).__name__] of the terminal errors. *)
Definition terminal_name (e : exn) : string :=
  match exn_class e with
  | KPersistenceBackpressureError => "PersistenceBackpressureError"
  | _ => "PersistenceWorkerError"
  end.

(** Where the worker task and the drain are suspended. *)
Inductive Task : Type :=
| NotStarted
| AtLoop                                  (** about to test the loop condition *)
| Getting                                 (** suspended in [queue.get()] *)
| Processing (record : MarketDataRecord)  (** awaiting [service.process(record)] *)
| Returned.
Inductive Drain : Type :=
| NotDraining
| AwaitJoin                               (** waiting for the join or the failure event *)
| AwaitTask                               (** awaiting the worker task *)
| Drained.

Record BoundedPersistenceWorker : Type := mkWorker {
  w_queue : list MarketDataRecord;
  w_unfinished : Z;
  w_capacity : Z;
  w_task : Task;
  w_stopping : bool;
  w_records_received : Z;
  w_persisted : Z;
  w_failed : Z;
  w_dropped : Z;
  w_last_persisted_at : option datetime;
  w_last_error : option string;
  w_terminal_error : option exn;
  w_failure_event : bool;
  w_drain : Drain }.

Definition BoundedPersistenceWorker_init (capacity : Z) : res BoundedPersistenceWorker :=
  raise_if (capacity <=? 0) (ValueError "persistence queue capacity must be positive");;
  Ok (mkWorker [] 0 capacity NotStarted false 0 0 0 0 None None None false NotDraining).

Definition set_task (w : BoundedPersistenceWorker) t : BoundedPersistenceWorker :=
  mkWorker (w_queue w) (w_unfinished w) (w_capacity w) t (w_stopping w) (w_records_received w) (w_persisted w)
    (w_failed w) (w_dropped w) (w_last_persisted_at w) (w_last_error w) (w_terminal_error w) (w_failure_event w) (w_drain w).
Definition set_drain (w : BoundedPersistenceWorker) stopping d : BoundedPersistenceWorker :=
  mkWorker (w_queue w) (w_unfinished w) (w_capacity w) (w_task w) stopping (w_records_received w) (w_persisted w)
    (w_failed w) (w_dropped w) (w_last_persisted_at w) (w_last_error w) (w_terminal_error w) (w_failure_event w) d.
Definition set_queue (w : BoundedPersistenceWorker) q unfinished received dropped : BoundedPersistenceWorker :=
  mkWorker q unfinished (w_capacity w) (w_task w) (w_stopping w) received (w_persisted w)
    (w_failed w) dropped (w_last_persisted_at w) (w_last_error w) (w_terminal_error w) (w_failure_event w) (w_drain w).

Definition start (w : BoundedPersistenceWorker) : res BoundedPersistenceWorker :=
  match w_task w with
  | NotStarted => Ok (set_task w AtLoop)
  | _ => Raise (RuntimeError "persistence worker already started")
  end.

Definition _set_terminal_error (w : BoundedPersistenceWorker) (error : exn) : BoundedPersistenceWorker :=
  match w_terminal_error w with
  | None =>
      mkWorker (w_queue w) (w_unfinished w) (w_capacity w) (w_task w) (w_stopping w) (w_records_received w)
        (w_persisted w) (w_failed w) (w_dropped w) (w_last_persisted_at w) (Some (terminal_name error))
        (Some error) true (w_drain w)
  | Some _ => w
  end.

(** [queue.task_done()] raises when called too often. *)
Definition task_done (w : BoundedPersistenceWorker) : res BoundedPersistenceWorker :=
  raise_if (w_unfinished w <=? 0) (ValueError "task_done() called too many times");;
  Ok (set_queue w (w_queue w) (w_unfinished w - 1) (w_records_received w) (w_dropped w)).

Definition submit_nowait (w : BoundedPersistenceWorker) (record : MarketDataRecord)
    : BoundedPersistenceWorker * res bool :=
  if match w_task w with NotStarted => true | _ => false end
     || match w_drain w with Drained => true | _ => false end || w_stopping w
  then (w, Raise (RuntimeError "persistence worker is not accepting records"))
  else match w_terminal_error w with
  | Some e => (w, Raise e)
  | None =>
      if w_capacity w <=? Z.of_nat (length (w_queue w)) then
        let terminal := PersistenceBackpressureError "native capture persistence queue is full; capture must stop" in
        let w1 := set_queue w (w_queue w) (w_unfinished w) (w_records_received w + 1) (w_dropped w + 1) in
        (_set_terminal_error w1 terminal, Raise terminal)
      else (set_queue w (w_queue w ++ [record]) (w_unfinished w + 1) (w_records_received w + 1) (w_dropped w), Ok true)
  end.

(** Each item left in the queue is taken, counted as dropped and marked done. *)
Fixpoint discard_loop (fuel : nat) (w : BoundedPersistenceWorker) : res BoundedPersistenceWorker :=
  match fuel with
  | O => Ok w
  | S fuel =>
      match w_queue w with
      | [] => Ok w
      | _ :: q =>
          w ← task_done (set_queue w q (w_unfinished w) (w_records_received w) (w_dropped w + 1));
          discard_loop fuel w
      end
  end.
Definition _discard_pending (w : BoundedPersistenceWorker) : res BoundedPersistenceWorker :=
  discard_loop (length (w_queue w)) w.

(** ** The worker task *)

(** From the loop head to the next [await]. *)
Definition run_loop (w : BoundedPersistenceWorker) : res BoundedPersistenceWorker :=
  if negb (w_stopping w) || negb (bool_decide (length (w_queue w) = 0%nat)) then
    match w_terminal_error w with
    | Some _ => w ← _discard_pending w; Ok (set_task w Returned)
    | None =>
        match w_queue w with
        | [] => Ok (set_task w Getting)
        | record :: q =>
            Ok (set_task (set_queue w q (w_unfinished w) (w_records_received w) (w_dropped w)) (Processing record))
        end
    end
  else Ok (set_task w Returned).

(** The suspended [get] returns an item, or times out. *)
Definition run_got (w : BoundedPersistenceWorker) : option BoundedPersistenceWorker :=
  match w_queue w with
  | [] => None
  | record :: q =>
      Some (set_task (set_queue w q (w_unfinished w) (w_records_received w) (w_dropped w)) (Processing record))
  end.
Definition run_timeout (w : BoundedPersistenceWorker) : BoundedPersistenceWorker := set_task w AtLoop.

(** [process] returned at [now], or raised an exception of class [name]. *)
Definition run_processed (w : BoundedPersistenceWorker) (now : datetime) : res BoundedPersistenceWorker :=
  let w := mkWorker (w_queue w) (w_unfinished w) (w_capacity w) AtLoop (w_stopping w) (w_records_received w)
             (w_persisted w + 1) (w_failed w) (w_dropped w) (Some now) (w_last_error w)
             (w_terminal_error w) (w_failure_event w) (w_drain w) in
  task_done w.
Definition run_raised (w : BoundedPersistenceWorker) (name : string) : res BoundedPersistenceWorker :=
  let w := mkWorker (w_queue w) (w_unfinished w) (w_capacity w) Returned (w_stopping w) (w_records_received w)
             (w_persisted w) (w_failed w + 1) (w_dropped w) (w_last_persisted_at w) (Some name)
             (w_terminal_error w) (w_failure_event w) (w_drain w) in
  let w := _set_terminal_error w (PersistenceWorkerError ("native capture persistence failed: " +:+ name)) in
  task_done w.

(** ** [drain_and_stop] *)

Definition drain_begin (w : BoundedPersistenceWorker) : res BoundedPersistenceWorker :=
  match w_task w with
  | NotStarted => Ok w
  | _ =>
      match w_terminal_error w with
      | None => Ok (set_drain w true AwaitJoin)
      | Some _ => w ← _discard_pending (set_drain w true (w_drain w)); Ok (set_drain w true AwaitTask)
      end
  end.
(** The join is done when nothing is unfinished; the other task when the event is set. *)
Definition drain_woken (w : BoundedPersistenceWorker) : res BoundedPersistenceWorker :=
  if bool_decide (is_Some (w_terminal_error w)) || w_failure_event w
  then w ← _discard_pending w; Ok (set_drain w true AwaitTask)
  else Ok (set_drain w true AwaitTask).

(** ** Interleavings *)

Inductive label : Type :=
| Submitted (record : MarketDataRecord)   (** accepted into the queue *)
| Rejected (record : MarketDataRecord)    (** counted, and dropped because the queue is full *)
| Persisted (record : MarketDataRecord)
| Failed (record : MarketDataRecord)
| Discarded (records : list MarketDataRecord)
| Silent.

(** Records the worker finished with, accepted, persisted and discarded by a step. *)
Definition finished (l : label) : list MarketDataRecord :=
  match l with Persisted r => [r] | Failed r => [r] | _ => [] end.
Definition accepted (l : label) : list MarketDataRecord := match l with Submitted r => [r] | _ => [] end.
Definition persisted (l : label) : list MarketDataRecord := match l with Persisted r => [r] | _ => [] end.
Definition discarded (l : label) : list MarketDataRecord := match l with Discarded rs => rs | _ => [] end.

Inductive step : BoundedPersistenceWorker → label → BoundedPersistenceWorker → Prop :=
| s_start w w' : start w = Ok w' → step w Silent w'
| s_submit w record w' : submit_nowait w record = (w', Ok true) → step w (Submitted record) w'
| s_reject w record w' e : w_stopping w = false → w_terminal_error w = None →
    submit_nowait w record = (w', Raise e) → w' ≠ w → step w (Rejected record) w'
| s_loop w w' : w_task w = AtLoop → run_loop w = Ok w' →
    step w (match w_terminal_error w with
            | Some _ => if negb (w_stopping w) || negb (bool_decide (length (w_queue w) = 0%nat))
                        then Discarded (w_queue w) else Silent
            | None => Silent
            end) w'
| s_got w w' : w_task w = Getting → run_got w = Some w' → step w Silent w'
| s_timeout w : w_task w = Getting → step w Silent (run_timeout w)
| s_processed w record now w' : w_task w = Processing record → run_processed w now = Ok w' →
    step w (Persisted record) w'
| s_raised w record name w' : w_task w = Processing record → run_raised w name = Ok w' →
    step w (Failed record) w'
| s_drain w w' : w_task w ≠ NotStarted → w_drain w = NotDraining → drain_begin w = Ok w' →
    step w (match w_terminal_error w with Some _ => Discarded (w_queue w) | None => Silent end) w'
| s_woken w w' : w_drain w = AwaitJoin → w_unfinished w = 0 ∨ w_failure_event w = true → drain_woken w = Ok w' →
    step w (match w_terminal_error w with Some _ => Discarded (w_queue w) | None => Silent end) w'
| s_drained w : w_drain w = AwaitTask → w_task w = Returned → step w Silent (set_drain w true Drained).

Inductive run : BoundedPersistenceWorker → list label → BoundedPersistenceWorker → Prop :=
| run_nil w : run w [] w
| run_snoc w tr w1 l w2 : run w tr w1 → step w1 l w2 → run w (tr ++ [l]) w2.

(** ** Invariant *)

Definition in_flight (w : BoundedPersistenceWorker) : list MarketDataRecord :=
  match w_task w with Processing r => [r] | _ => [] end.
Definition queued (w : BoundedPersistenceWorker) : Z := Z.of_nat (length (w_queue w)).
Definition failures (l : label) : list MarketDataRecord := match l with Failed r => [r] | _ => [] end.

Record worker_inv (tr : list label) (w : BoundedPersistenceWorker) : Prop := {
  wi_count : w_records_received w
             = w_persisted w + w_failed w + w_dropped w + queued w + Z.of_nat (length (in_flight w));
  wi_unfinished : w_unfinished w = queued w + Z.of_nat (length (in_flight w));
  wi_capacity : queued w <= w_capacity w;
  wi_fifo : flat_map accepted tr
            = flat_map persisted tr ++ flat_map failures tr ++ in_flight w ++ flat_map discarded tr ++ w_queue w;
  wi_persisted : w_persisted w = Z.of_nat (length (flat_map persisted tr));
  wi_failed : w_failed w = Z.of_nat (length (flat_map failures tr));
  wi_failures : flat_map failures tr = [] ∨ w_task w = Returned;
  wi_discarded : flat_map discarded tr = [] ∨ w_queue w = [];
  wi_terminal : w_terminal_error w = None →
                w_failed w = 0 ∧ w_dropped w = 0 ∧ w_failure_event w = false ∧ flat_map discarded tr = [];
  wi_event : is_Some (w_terminal_error w) → w_failure_event w = true;
  wi_stopping : w_stopping w = false ↔ w_drain w = NotDraining;
  wi_unstarted : w_task w = NotStarted → w_queue w = [] ∧ w_drain w = NotDraining;
  wi_returned : w_task w = Returned →
                is_Some (w_terminal_error w) ∨ (w_stopping w = true ∧ w_queue w = []);
  wi_emptied : w_drain w = AwaitTask ∨ w_drain w = Drained → w_queue w = [];
  wi_drained : w_drain w = Drained → w_task w = Returned }.

Lemma discard_spec w : queued w <= w_unfinished w →
  _discard_pending w
  = Ok (set_queue w [] (w_unfinished w - queued w) (w_records_received w) (w_dropped w + queued w)).
Proof.
  unfold _discard_pending, queued. remember (length (w_queue w)) as n eqn:En. revert w En.
  induction n as [|n IH]; intros w En Hu; cbn [discard_loop].
  - destruct w as [[|]]; try done. unfold set_queue. cbn. do 2 f_equal; lia.
  - destruct (w_queue w) as [|r q] eqn:Eq; [done|]. cbn in En. unfold task_done.
    cbn [w_unfinished set_queue]. replace (w_unfinished w <=? 0) with false by lia.
    cbn [raise_if mbind res_bind]. rewrite IH; cbn; [|lia|lia].
    unfold set_queue. cbn. do 2 f_equal; lia.
Qed.

Lemma task_done_spec w : 0 < w_unfinished w →
  task_done w = Ok (set_queue w (w_queue w) (w_unfinished w - 1) (w_records_received w) (w_dropped w)).
Proof. intros. unfold task_done. by replace (w_unfinished w <=? 0) with false by lia. Qed.

(** Every step computes; its result as an equation. *)
Definition discard_all (w : BoundedPersistenceWorker) : BoundedPersistenceWorker :=
  set_queue w [] (w_unfinished w - queued w) (w_records_received w) (w_dropped w + queued w).

Lemma inv_discard tr w : worker_inv tr w → _discard_pending w = Ok (discard_all w).
Proof. intros Hi. apply discard_spec. rewrite (wi_unfinished _ _ Hi). lia. Qed.

Lemma inv_discard_all tr w : worker_inv tr w → is_Some (w_terminal_error w) →
  worker_inv (tr ++ [Discarded (w_queue w)]) (discard_all w).
Proof.
  intros [] Ht. unfold discard_all, queued, in_flight in *.
  split; unfold queued, in_flight; cbn [set_queue w_queue w_unfinished w_capacity w_task w_stopping w_records_received
    w_persisted w_failed w_dropped w_last_persisted_at w_last_error w_terminal_error w_failure_event w_drain length];
    rewrite ?flat_map_app; cbn [flat_map accepted persisted failures discarded]; rewrite ?app_nil_r; auto; try lia.
  - intros E. rewrite E in Ht. by destruct Ht.
  - intros E. destruct (wi_unstarted0 E). done.
Qed.

(** Project the fields of an updated worker. *)
Ltac worker_simpl :=
  cbn [set_queue set_task set_drain w_queue w_unfinished w_capacity w_task w_stopping w_records_received
    w_persisted w_failed w_dropped w_last_persisted_at w_last_error w_terminal_error w_failure_event w_drain length] in *.
(** One goal per field of the invariant, the immediate ones closed. *)
Ltac inv_fields :=
  split; unfold queued, in_flight in *; worker_simpl;
  rewrite ?flat_map_app in *; cbn [flat_map accepted persisted failures discarded app] in *;
  rewrite ?app_nil_r in *; auto; try done; try (rewrite ?length_app; cbn [length]; lia).

(** Moving between tasks that hold no record. *)
Lemma inv_task tr w t :
  worker_inv tr w → in_flight w = [] → in_flight (set_task w t) = [] → w_task w ≠ Returned →
  (t = NotStarted → False) →
  (t = Returned → is_Some (w_terminal_error w) ∨ (w_stopping w = true ∧ w_queue w = [])) →
  worker_inv (tr ++ [Silent]) (set_task w t).
Proof.
  intros [] H1 H2 Hr Hn Ht. unfold in_flight in H1, H2. worker_simpl.
  destruct wi_failures0 as [Hf|]; [|done].
  inv_fields; rewrite ?H1, ?H2 in *; cbn [length] in *; auto; try done.
  intros Hd. by apply wi_drained0 in Hd.
Qed.

(** Taking the head of the queue. *)
Lemma inv_take tr w r q :
  worker_inv tr w → in_flight w = [] → w_task w ≠ Returned → w_queue w = r :: q →
  worker_inv (tr ++ [Silent])
    (set_task (set_queue w q (w_unfinished w) (w_records_received w) (w_dropped w)) (Processing r)).
Proof.
  intros [] H1 Hr Hq. unfold in_flight in H1. destruct wi_failures0 as [Hf|]; [|done].
  destruct wi_discarded0 as [Hd|]; [|congruence].
  inv_fields; rewrite ?H1, ?Hq, ?Hf, ?Hd in *; cbn [length app] in *; auto; try done; try lia.
  - intros E. by apply wi_emptied0 in E.
  - intros E. by apply wi_drained0 in E.
Qed.

Lemma start_inv tr w w' : worker_inv tr w → start w = Ok w' → worker_inv (tr ++ [Silent]) w'.
Proof.
  intros Hi H. unfold start in H. destruct (w_task w) eqn:E; try done. injection H as <-.
  apply inv_task; try done; unfold in_flight; by rewrite ?E.
Qed.

Lemma submit_inv tr w r w' : worker_inv tr w → submit_nowait w r = (w', Ok true) →
  worker_inv (tr ++ [Submitted r]) w'.
Proof.
  intros Hi H. unfold submit_nowait in H. destruct (_ || _) eqn:Eg; [done|]. apply orb_false_iff in Eg as [Eg Es].
  apply orb_false_iff in Eg as [Et Ed]. destruct (w_terminal_error w) eqn:Ee; [done|].
  destruct (Z.leb_spec (w_capacity w) (Z.of_nat (length (w_queue w)))); [done|]. injection H as <-. destruct Hi.
  destruct (wi_terminal0 Ee) as (Hf & Hdr & He & Hd). apply wi_stopping0 in Es as Hnd.
  inv_fields; rewrite ?Hd; auto.
  - rewrite wi_fifo0, Hd. by rewrite <- !app_assoc.
  - intros E. by rewrite E in Et.
  - intros E. destruct (wi_returned0 E) as [[x Hx]|[Hx _]]; congruence.
  - rewrite Hnd. by intros [].
Qed.

Lemma reject_inv tr w r w' e : worker_inv tr w → w_stopping w = false → w_terminal_error w = None →
  submit_nowait w r = (w', Raise e) → w' ≠ w → worker_inv (tr ++ [Rejected r]) w'.
Proof.
  intros Hi Es Ee H Hne. unfold submit_nowait in H. destruct (_ || _) eqn:Eg; [by injection H as <- _|].
  rewrite Ee in H. destruct (Z.leb_spec (w_capacity w) (Z.of_nat (length (w_queue w)))); [|done].
  injection H as <- _. destruct Hi. destruct (wi_terminal0 Ee) as (Hf & Hdr & He & Hd).
  unfold _set_terminal_error. worker_simpl. rewrite Ee. inv_fields.
Qed.

Lemma loop_inv tr w w' : worker_inv tr w → w_task w = AtLoop → run_loop w = Ok w' →
  worker_inv (tr ++ [match w_terminal_error w with
            | Some _ => if negb (w_stopping w) || negb (bool_decide (length (w_queue w) = 0%nat))
                        then Discarded (w_queue w) else Silent
            | None => Silent
            end]) w'.
Proof.
  intros Hi Ht H. assert (in_flight w = []) as Hfl by (unfold in_flight; by rewrite Ht).
  unfold run_loop in H. destruct (negb _ || negb _) eqn:Ec.
  - destruct (w_terminal_error w) as [e|] eqn:Ee.
    + rewrite (inv_discard _ _ Hi) in H. cbn [mbind res_bind] in H. injection H as <-.
      assert (worker_inv (tr ++ [Discarded (w_queue w)]) (discard_all w)) as Hd by (apply inv_discard_all; [done|by eexists]).
      destruct Hd. unfold discard_all in *. inv_fields; rewrite ?Ht in *; auto.
    + destruct (w_queue w) as [|r q] eqn:Eq; injection H as <-.
      * apply inv_task; try done. by rewrite Ht.
      * apply inv_take; try done. by rewrite Ht.
  - injection H as <-. apply orb_false_iff in Ec as [Es Eq]. bool_prop. apply length_zero_iff_nil in Eq.
    assert (worker_inv (tr ++ [Silent]) (set_task w Returned)) as Hs by (apply inv_task; try done; [by rewrite Ht|auto]).
    by destruct (w_terminal_error w).
Qed.

Lemma processed_inv tr w r now w' : worker_inv tr w → w_task w = Processing r → run_processed w now = Ok w' →
  worker_inv (tr ++ [Persisted r]) w'.
Proof.
  intros Hi Ht H. unfold run_processed in H. destruct Hi. unfold in_flight in *. rewrite Ht in *. cbn [length] in *.
  destruct wi_failures0 as [Hf|]; [|done]. unfold queued in *.
  rewrite task_done_spec in H; worker_simpl; [|lia]. injection H as <-.
  inv_fields; rewrite ?Hf; auto.
  - rewrite wi_fifo0, Hf. by rewrite <- !app_assoc.
  - intros E. by apply wi_drained0 in E.
Qed.

Lemma raised_inv tr w r name w' : worker_inv tr w → w_task w = Processing r → run_raised w name = Ok w' →
  worker_inv (tr ++ [Failed r]) w'.
Proof.
  intros Hi Ht H. unfold run_raised in H. destruct Hi. unfold in_flight in *. rewrite Ht in *. cbn [length] in *.
  destruct wi_failures0 as [Hf|]; [|done]. unfold queued in *. rewrite Hf in *.
  unfold _set_terminal_error in H. worker_simpl.
  destruct (w_terminal_error w) as [e|] eqn:Ee; (rewrite task_done_spec in H; worker_simpl; [|lia]); injection H as <-;
    inv_fields; rewrite ?Hf; auto; try (left; by eexists); try (by rewrite Ee); try (intros E; by rewrite E in Ee);
    try (rewrite Ee; by eexists); cbn [length app] in *; lia.
Qed.

Lemma drain_begin_inv tr w w' : worker_inv tr w → w_task w ≠ NotStarted → w_drain w = NotDraining →
  drain_begin w = Ok w' →
  worker_inv (tr ++ [match w_terminal_error w with Some _ => Discarded (w_queue w) | None => Silent end]) w'.
Proof.
  intros Hi Ht Hd H. unfold drain_begin in H.
  destruct (w_terminal_error w) as [e|] eqn:Ee.
  - assert (w' = set_drain (discard_all w) true AwaitTask) as ->.
    { destruct (w_task w) eqn:E; [done|..]; (rewrite discard_spec in H;
        [|worker_simpl; unfold queued in *; worker_simpl; rewrite (wi_unfinished _ _ Hi); unfold queued; lia]);
        by injection H as <-. }
    assert (worker_inv (tr ++ [Discarded (w_queue w)]) (discard_all w)) as Hda by (apply inv_discard_all; [done|by eexists]).
    destruct Hda. unfold discard_all in *. inv_fields.
  - assert (w' = set_drain w true AwaitJoin) as -> by (by destruct (w_task w); [done|injection H as <-..]).
    destruct Hi. inv_fields.
    + intros E. destruct (wi_returned0 E) as [|[]]; auto.
    + intros []; done.
Qed.

Lemma drain_woken_inv tr w w' : worker_inv tr w → w_drain w = AwaitJoin →
  w_unfinished w = 0 ∨ w_failure_event w = true → drain_woken w = Ok w' →
  worker_inv (tr ++ [match w_terminal_error w with Some _ => Discarded (w_queue w) | None => Silent end]) w'.
Proof.
  intros Hi Hd Hw H. unfold drain_woken in H.
  assert (w_task w ≠ NotStarted) as Hns.
  { intros E. destruct (wi_unstarted _ _ Hi E) as [_ E']. congruence. }
  destruct (w_terminal_error w) as [e|] eqn:Ee.
  - rewrite bool_decide_true in H by (by eexists). cbn [orb] in H. rewrite (inv_discard _ _ Hi) in H.
    injection H as <-.
    assert (worker_inv (tr ++ [Discarded (w_queue w)]) (discard_all w)) as Hda by (apply inv_discard_all; [done|by eexists]).
    destruct Hda. unfold discard_all in *. inv_fields.
  - destruct (wi_terminal _ _ Hi Ee) as (_ & _ & He & _). rewrite He in *.
    rewrite bool_decide_false in H by (by intros []). injection H as <-.
    destruct Hw as [Hu|]; [|done]. pose proof (wi_unfinished _ _ Hi) as Huf. unfold queued in Huf.
    assert (w_queue w = []) as Hq by (apply length_zero_iff_nil; lia).
    destruct Hi. inv_fields.
Qed.

Lemma step_inv tr w l w' : worker_inv tr w → step w l w' → worker_inv (tr ++ [l]) w'.
Proof.
  intros Hi Hs. revert Hi.
  destruct Hs as [w w' H|w r w' H|w r w' e H1 H2 H3 H4|w w' H1 H2|w w' H1 H2|w H1|w r now w' H1 H2|w r name w' H1 H2
    |w w' H1 H2 H3|w w' H1 H2 H3|w H1 H2]; intros Hi.
  - by eapply start_inv.
  - by eapply submit_inv.
  - by eapply reject_inv.
  - by eapply loop_inv.
  - unfold run_got in H2. destruct (w_queue w) as [|r q] eqn:Eq; [done|]. injection H2 as <-.
    apply inv_take; [done|unfold in_flight; by rewrite H1|by rewrite H1|done].
  - apply inv_task; try done; unfold in_flight; by rewrite ?H1.
  - by eapply processed_inv.
  - by eapply raised_inv.
  - by eapply drain_begin_inv.
  - by eapply drain_woken_inv.
  - destruct Hi. inv_fields; rewrite ?H2 in *; auto; done.
Qed.

Lemma init_inv capacity w : BoundedPersistenceWorker_init capacity = Ok w → worker_inv [] w.
Proof.
  intros H. unfold BoundedPersistenceWorker_init in H. res_inv. bool_prop. inv_fields.
Qed.

Lemma run_inv capacity w0 tr w : BoundedPersistenceWorker_init capacity = Ok w0 → run w0 tr w → worker_inv tr w.
Proof. intros H0. induction 1; [by eapply init_inv|]. eapply step_inv; eauto. Qed.

(** ** Termination of the drain *)

Definition task_weight (t : Task) : nat :=
  match t with NotStarted => 4 | Processing _ => 3 | Getting => 2 | AtLoop => 1 | Returned => 0 end.
Definition drain_weight (d : Drain) : nat :=
  match d with NotDraining => 3 | AwaitJoin => 2 | AwaitTask => 1 | Drained => 0 end.
Definition remaining (w : BoundedPersistenceWorker) : nat :=
  4 * length (w_queue w) + task_weight (w_task w) + drain_weight (w_drain w).

(** While draining every step is progress. *)
Lemma step_decreases tr w l w' : worker_inv tr w → w_drain w ≠ NotDraining → step w l w' →
  (remaining w' < remaining w)%nat ∧ w_drain w' ≠ NotDraining.
Proof.
  intros Hi Hd Hs. assert (w_stopping w = true) as Hst.
  { destruct (w_stopping w) eqn:E; [done|]. by apply (wi_stopping _ _ Hi) in E. }
  pose proof (wi_unstarted _ _ Hi) as Hun. pose proof (inv_discard _ _ Hi) as Hdis.
  revert Hd Hst Hun Hdis. clear Hi.
  destruct Hs as [w w' H|w r w' H|w r w' e H1 H2 H3 H4|w w' H1 H2|w w' H1 H2|w H1|w r now w' H1 H2|w r name w' H1 H2
    |w w' H1 H2 H3|w w' H1 H2 H3|w H1 H2]; intros Hd Hst Hun Hdis; unfold remaining.
  - unfold start in H. destruct (w_task w) eqn:E; try done. by destruct (Hun eq_refl).
  - unfold submit_nowait in H. rewrite Hst, orb_true_r in H. done.
  - congruence.
  - unfold run_loop in H2. rewrite Hst in H2. cbn [negb orb] in H2. rewrite H1.
    destruct (bool_decide _) eqn:Eb; cbn [negb] in H2; [injection H2 as <-; cbn; split; [lia|done]|].
    apply bool_decide_eq_false in Eb. destruct (w_terminal_error w).
    + rewrite Hdis in H2. injection H2 as <-. cbn. split; [lia|done].
    + destruct (w_queue w) as [|r q]; [done|]. injection H2 as <-. cbn. split; [lia|done].
  - unfold run_got in H2. rewrite H1. destruct (w_queue w) as [|r q]; [done|]. injection H2 as <-. cbn. split; [lia|done].
  - cbn. rewrite H1. cbn. split; [lia|done].
  - unfold run_processed, task_done in H2. apply bind_Ok in H2 as (u & _ & [= <-]). cbn. rewrite H1. cbn. split; [lia|done].
  - unfold run_raised, task_done in H2. apply bind_Ok in H2 as (u & _ & [= <-]). unfold _set_terminal_error. cbn.
    rewrite H1. destruct (w_terminal_error w); cbn; (split; [lia|done]).
  - done.
  - unfold drain_woken in H3. rewrite H1. destruct (_ || _); [rewrite Hdis in H3|]; injection H3 as <-; cbn; (split; [lia|done]).
  - cbn. rewrite H1, H2. cbn. split; [lia|done].
Qed.

(** While draining some step is possible until the drain has returned. *)
Lemma drain_progress tr w (now : datetime) : worker_inv tr w → w_drain w ≠ NotDraining → w_drain w ≠ Drained →
  ∃ l w', step w l w'.
Proof.
  intros Hi Hd Hn. assert (w_stopping w = true) as Hst.
  { destruct (w_stopping w) eqn:E; [done|]. by apply (wi_stopping _ _ Hi) in E. }
  pose proof (wi_unfinished _ _ Hi) as Hu. unfold queued, in_flight in Hu.
  destruct (w_task w) eqn:Et.
  - by destruct (wi_unstarted _ _ Hi Et).
  - assert (∃ w', run_loop w = Ok w') as [w' E].
    { unfold run_loop. destruct (_ || _); [|by eexists]. destruct (w_terminal_error w).
      - rewrite (inv_discard _ _ Hi). by eexists.
      - destruct (w_queue w); by eexists. }
    eexists _, w'. by apply s_loop.
  - eexists _, _. by apply s_timeout.
  - assert (∃ w', run_processed w now = Ok w') as [w' E].
    { unfold run_processed. rewrite task_done_spec; [by eexists|]. cbn [w_unfinished]. cbn in Hu. lia. }
    eexists _, w'. by eapply s_processed.
  - destruct (w_drain w) eqn:Ed; try done; [|eexists _, _; by apply s_drained].
    assert (∃ w', drain_woken w = Ok w') as [w' E].
    { unfold drain_woken. destruct (_ || _); [|by eexists]. rewrite (inv_discard _ _ Hi). by eexists. }
    eexists _, w'. apply s_woken; [done| |done].
    destruct (wi_returned _ _ Hi Et) as [He|[_ Hq]]; [right; by apply (wi_event _ _ Hi)|].
    left. rewrite Hu, Hq. done.
Qed.

(** ** Health *)

Record PersistenceSnapshot : Type := mkSnapshot {
  sn_records_received : Z;
  sn_persisted : Z;
  sn_failed : Z;
  sn_dropped : Z;
  sn_queue_depth : Z;
  sn_queue_capacity : Z;
  sn_last_persisted_at : option datetime;
  sn_last_error : option string }.

Definition snapshot (w : BoundedPersistenceWorker) : PersistenceSnapshot :=
  mkSnapshot (w_records_received w) (w_persisted w) (w_failed w) (w_dropped w) (queued w) (w_capacity w)
    (w_last_persisted_at w) (w_last_error w).

(** [attributes[key] = value] keeps the place of a key already present. *)
Fixpoint put (key value : string) (attributes : list (string * string)) : list (string * string) :=
  match attributes with
  | [] => [(key, value)]
  | (k, v) :: l => if String.eqb k key then (k, value) :: l else (k, v) :: put key value l
  end.
Definition put_all (kvs attributes : list (string * string)) : list (string * string) :=
  fold_left (λ l kv, put kv.1 kv.2 l) kvs attributes.
Definition add_reason (reason : string) (reasons : list string) : list string :=
  if bool_decide (reason ∈ reasons) then reasons else reason :: reasons.

Definition compose_health (w : BoundedPersistenceWorker) (health : AdapterHealth)
    (identity : option CaptureIdentity) (capture_session_id : option string) : res AdapterHealth :=
  let s := snapshot w in
  let failed := negb (sn_failed s =? 0) in
  let dropped := negb (sn_dropped s =? 0) in
  let reasons := h_reason_codes health in
  let reasons := if failed then add_reason "PERSISTENCE_FAILURE" reasons else reasons in
  let reasons := if dropped then add_reason "PERSISTENCE_RECORDS_DROPPED" reasons else reasons in
  let status := if failed || dropped
                then if decide (h_status health = HS_DISCONNECTED) then HS_DISCONNECTED else HS_DEGRADED
                else h_status health in
  let attributes := put_all
    [("records_received", str_Z (sn_records_received s)); ("persisted", str_Z (sn_persisted s));
     ("failed", str_Z (sn_failed s)); ("dropped", str_Z (sn_dropped s));
     ("queue_depth", str_Z (sn_queue_depth s)); ("queue_capacity", str_Z (sn_queue_capacity s))]
    (h_attributes health) in
  let attributes := match sn_last_persisted_at s with
                    | Some t => put "last_persisted_at" (isoformat t) attributes | None => attributes end in
  let attributes := match sn_last_error s with
                    | Some e => put "last_persistence_error" e attributes | None => attributes end in
  let attributes := match identity with
                    | Some i => put_all [("provider", ci_provider i);
                        ("source_class", MarketDataSourceClass_str (ci_source_class i));
                        ("capture_source_id", ci_capture_source_id i); ("universe_id", ci_universe_id i);
                        ("configuration_hash", ci_configuration_hash i)] attributes
                    | None => attributes end in
  let attributes := match capture_session_id with
                    | Some c => put "capture_session_id" c attributes | None => attributes end in
  AdapterHealth_new (mkHealth (h_adapter_name health) (h_environment health) status (h_observed_at health)
    (h_last_message_at health) (h_detail health) (py_sorted id reasons)
    (if failed || dropped then RA_OPERATOR else h_recovery_action health) attributes).

(** ** Theorems *)

(** C24: At every point of every interleaving of producer, worker and drain, each record offered
    is accounted for exactly once (persisted, failed, dropped, queued or in flight), the queue is
    within its capacity, records reach the service in the order accepted, at most one fails, and
    nothing is lost without a terminal error being raised and the failure event set. *)
Theorem every_record_accounted capacity w0 tr w :
  BoundedPersistenceWorker_init capacity = Ok w0 → run w0 tr w →
  w_records_received w = w_persisted w + w_failed w + w_dropped w + queued w + Z.of_nat (length (in_flight w)) ∧
  queued w <= w_capacity w ∧
  flat_map accepted tr
  = flat_map persisted tr ++ flat_map failures tr ++ in_flight w ++ flat_map discarded tr ++ w_queue w ∧
  w_persisted w = Z.of_nat (length (flat_map persisted tr)) ∧
  (w_failed w ≠ 0 ∨ w_dropped w ≠ 0 → is_Some (w_terminal_error w) ∧ w_failure_event w = true).
Proof.
  intros H0 Hr. pose proof (run_inv _ _ _ _ H0 Hr) as Hi. split_and!; try apply Hi.
  intros Hl. destruct (w_terminal_error w) as [e|] eqn:Ee.
  - split; [by eexists|]. apply (wi_event _ _ Hi). rewrite Ee. by eexists.
  - destruct (wi_terminal _ _ Hi Ee) as (? & ? & _). lia.
Qed.

(** C37: A drain that has begun returns: whatever the schedule it takes at most [remaining] more
    steps, some step is possible until it has returned, and then the queue is empty, nothing is
    in flight, and without a terminal error every record offered has been persisted. *)
Theorem drain_terminates capacity w0 tr w tr' w' :
  BoundedPersistenceWorker_init capacity = Ok w0 → run w0 tr w → w_drain w ≠ NotDraining → run w tr' w' →
  (length tr' + remaining w' <= remaining w)%nat ∧
  (w_drain w' ≠ Drained → ∃ l w'', step w' l w'') ∧
  (w_drain w' = Drained →
     w_queue w' = [] ∧ w_task w' = Returned ∧
     w_records_received w' = w_persisted w' + w_failed w' + w_dropped w' ∧
     (w_terminal_error w' = None → w_records_received w' = w_persisted w')).
Proof.
  intros H0 Hr Hd Hr'. assert (worker_inv (tr ++ tr') w' ∧ w_drain w' ≠ NotDraining ∧
    (length tr' + remaining w' <= remaining w)%nat) as (Hi & Hd' & Hle).
  { induction Hr' as [|w tr' w1 l w2 _ IH Hs].
    - rewrite app_nil_r. split_and!; [by eapply run_inv|done|cbn; lia].
    - destruct (IH Hr Hd) as (Hi & Hd1 & Hle). destruct (step_decreases _ _ _ _ Hi Hd1 Hs) as [Hlt Hd2].
      rewrite app_assoc. split_and!; [by eapply step_inv|done|rewrite length_app; cbn [length]; lia]. }
  split_and!; [done|by apply (drain_progress _ _ (utc 0) Hi)|].
  intros Hdr. pose proof (wi_drained _ _ Hi Hdr) as Ht. pose proof (wi_emptied _ _ Hi (or_intror Hdr)) as Hq.
  pose proof (wi_count _ _ Hi) as Hc. unfold queued, in_flight in Hc. rewrite Ht, Hq in Hc. cbn in Hc.
  split_and!; [done|done|lia|]. intros Hn. destruct (wi_terminal _ _ Hi Hn) as (Hf & Hdp & _). lia.
Qed.

Lemma compose_health_Ok w health identity session h :
  compose_health w health identity session = Ok h →
  (w_failed w ≠ 0 ∨ w_dropped w ≠ 0 →
     (h_status h = HS_DEGRADED ∨ h_status h = HS_DISCONNECTED) ∧ h_recovery_action h = RA_OPERATOR) ∧
  (w_failed w = 0 → w_dropped w = 0 → h_status h = h_status health).
Proof.
  unfold compose_health, AdapterHealth_new. cbv zeta. cbn [snapshot sn_failed sn_dropped].
  intros (u & _ & [= <-])%bind_Ok. cbn [h_status h_recovery_action]. split.
  - intros Hl. destruct (Z.eqb_spec (w_failed w) 0), (Z.eqb_spec (w_dropped w) 0); cbn [negb orb]; [lia|..];
      (split; [destruct (decide _); auto|done]).
  - intros -> ->. done.
Qed.

(** The health reported for the capture never hides a loss: after any run, a report other
    than DEGRADED or DISCONNECTED means that every record offered has been persisted or is still
    queued or in flight, and a loss always asks for the operator. *)
Theorem health_reveals_loss capacity w0 tr w health identity session h :
  BoundedPersistenceWorker_init capacity = Ok w0 → run w0 tr w →
  compose_health w health identity session = Ok h →
  (h_status h ≠ HS_DEGRADED → h_status h ≠ HS_DISCONNECTED →
     w_records_received w = w_persisted w + queued w + Z.of_nat (length (in_flight w))) ∧
  (w_records_received w ≠ w_persisted w + queued w + Z.of_nat (length (in_flight w)) →
     h_recovery_action h = RA_OPERATOR).
Proof.
  intros H0 Hr Hc. pose proof (wi_count _ _ (run_inv _ _ _ _ H0 Hr)) as Hn.
  destruct (compose_health_Ok _ _ _ _ _ Hc) as [Hl _]. split.
  - intros Hd Hx. destruct (decide (w_failed w = 0 ∧ w_dropped w = 0)) as [[E1 E2]|Hne]; [lia|].
    destruct (Hl ltac:(lia)) as [[?|?] _]; done.
  - intros Hne. apply Hl. lia.
Qed.

(** The class of the exception that stopped the worker is not what is reported: when the
    service raises, the last error becomes the name of the terminal error, whatever was raised. *)
Theorem failure_class_overwritten w record name w' :
  w_task w = Processing record → w_terminal_error w = None → run_raised w name = Ok w' →
  w_last_error w' = Some "PersistenceWorkerError".
Proof.
  intros Ht He H. unfold run_raised, task_done, _set_terminal_error in H. cbn in H. rewrite He in H.
  apply bind_Ok in H as (u & _ & [= <-]). done.
Qed.

(** ** Witnesses *)

Definition sample_record (key : string) : MarketDataRecord :=
  mkRecord "ig" "IG_DEMO" "s" key (utc 0) [] FIXTURE None None None None None.

Definition sample_worker : BoundedPersistenceWorker :=
  mkWorker [] 0 1 NotStarted false 0 0 0 0 None None None false NotDraining.
Definition sample_started : BoundedPersistenceWorker := set_task sample_worker AtLoop.
Definition sample_submitted : BoundedPersistenceWorker := (submit_nowait sample_started (sample_record "a")).1.
Definition sample_overflow : BoundedPersistenceWorker := (submit_nowait sample_submitted (sample_record "b")).1.
Definition sample_draining : BoundedPersistenceWorker :=
  set_drain (discard_all sample_overflow) true AwaitTask.

Lemma sample_run_overflow :
  run sample_worker [Silent; Submitted (sample_record "a"); Rejected (sample_record "b")] sample_overflow.
Proof.
  apply (run_snoc _ [Silent; Submitted (sample_record "a")] sample_submitted).
  - apply (run_snoc _ [Silent] sample_started); [|by apply s_submit].
    apply (run_snoc _ [] sample_worker); [constructor|by apply s_start].
  - eapply s_reject; [done|done|reflexivity|discriminate].
Qed.

Lemma every_record_accounted_witness :
  w_records_received sample_overflow = 2 ∧ w_dropped sample_overflow = 1 ∧ w_failure_event sample_overflow = true.
Proof.
  split; [reflexivity|split; [reflexivity|]].
  apply (every_record_accounted 1 sample_worker _ sample_overflow eq_refl sample_run_overflow).
  right. discriminate.
Defined.

Lemma drain_terminates_witness :
  w_drain sample_draining = AwaitTask ∧ ∃ l w'', step sample_draining l w''.
Proof.
  split; [reflexivity|].
  refine (proj1 (proj2 (drain_terminates 1 sample_worker
    ([Silent; Submitted (sample_record "a"); Rejected (sample_record "b")] ++ [Discarded [sample_record "a"]])
    sample_draining [] sample_draining eq_refl _ _ (run_nil _))) _); [|discriminate..].
  eapply run_snoc; [exact sample_run_overflow|].
  apply (s_drain sample_overflow sample_draining); [discriminate|reflexivity|reflexivity].
Defined.

Definition sample_health : AdapterHealth :=
  mkHealth "ig" IG_DEMO HS_HEALTHY (utc 0) None None [] RA_NONE [].

Lemma health_reveals_loss_witness :
  ∃ h, compose_health sample_overflow sample_health None None = Ok h ∧ h_recovery_action h = RA_OPERATOR.
Proof.
  eexists. split; [vm_compute; reflexivity|].
  eapply (health_reveals_loss 1 sample_worker _ sample_overflow sample_health None None _ eq_refl sample_run_overflow);
    [vm_compute; reflexivity|discriminate].
Defined.

Lemma failure_class_overwritten_witness :
  ∃ w', run_raised (set_task sample_submitted (Processing (sample_record "a"))) "OSError" = Ok w' ∧
        w_last_error w' = Some "PersistenceWorkerError".
Proof.
  eexists. split; [vm_compute; reflexivity|].
  eapply (failure_class_overwritten (set_task sample_submitted (Processing (sample_record "a"))) _ "OSError");
    [reflexivity|reflexivity|vm_compute; reflexivity].
Defined.
