(* ===== verification/IbkrPlan.v ===== *)
(** Historical acquisition from IBKR: the frozen evidence and plan values of
    [domain/ibkr_historical.py] and the pure planner of [application/ibkr_historical.py].

    A basename is safe exactly when [PurePosixPath] has it as its only part: not empty,
    no slash, not one of the dot names. The four-digit year of [strftime("%Y")] is the
    zero-padded one, which is what it prints from the year 1000 on. *)

From S2P Require Import Prelude PySorted PyStr PyTime PyDecimal Sha256 PyJson PyParse Domain Storage CaptureFeed.
From Stdlib Require Import Ascii.

Definition CONTRACT_SELECTION_CONTRACT : string := "qtrad-ibkr-contract-selection-v1".
Definition RUNTIME_LOCK_CONTRACT : string := "qtrad-ibkr-acquisition-runtime-v1".
Definition REQUEST_PROFILE_CONTRACT : string := "qtrad-ibkr-historical-request-profile-v1".
Definition HISTORICAL_PLAN_CONTRACT : string := "qtrad-ibkr-historical-plan-v1".
Definition SCHEMA_VERSION : Z := 1.
Definition REQUEST_PROFILE_SCHEMA_VERSION : Z := 2.
Definition MAX_PLANNED_REQUESTS : Z := 20000.
Definition MAX_IBKR_HISTORICAL_COOLDOWN_SECONDS : Z := 3600.

Definition hex_alphabet : string := "0123456789abcdef".
Definition is_hex (n : Z) (value : string) : bool := (len value =? n) && all_in hex_alphabet value.
(** [_COMMIT.fullmatch], [_IMAGE.fullmatch] *)
Definition is_commit (value : string) : bool := is_hex 40 value.
Definition is_image (value : string) : bool :=
  match strip_prefix (chars "sha256:") (chars value) with
  | Some rest => is_hex 64 (of_chars rest)
  | None => false
  end.

Definition _require_sha256_digest (value field_name : string) : res unit :=
  raise_if (negb (is_sha256 value)) (ValueError (field_name +:+ " must be a lower-case SHA-256 digest")).

Definition safe_basename (value : string) : bool :=
  nonempty value && negb (existsb (Ascii.eqb "/"%char) (chars value))
  && negb (String.eqb value ".") && negb (String.eqb value "..").
Definition _require_safe_filename (value field_name : string) : res unit :=
  raise_if (negb (safe_basename value)) (ValueError (field_name +:+ " must be a safe basename")).

Definition artefact_time (value : datetime) : res string :=
  require_utc value "IBKR artefact time";; Ok (utc_text value).

Definition json_opt_str (v : option string) : json := match v with Some s => JStr s | None => JNull end.
Definition json_opt_int (v : option Z) : json := match v with Some n => JInt n | None => JNull end.

Definition has_space (value : string) : bool := existsb is_space (chars value).

(** ** Contract selection *)

Inductive AssetClass : Type := FX | INDEX | COMMODITY | CRYPTO.
#[export] Instance AssetClass_eq_dec : EqDecision AssetClass.
Proof. solve_decision. Defined.
Definition AssetClass_str (a : AssetClass) : string :=
  match a with FX => "FX" | INDEX => "INDEX" | COMMODITY => "COMMODITY" | CRYPTO => "CRYPTO" end.

Inductive IbkrContractDecision : Type := ACCEPTED_EXACT_CONTRACT | CONTRACT_QUARANTINED | CONTRACT_REJECTED.
#[export] Instance IbkrContractDecision_eq_dec : EqDecision IbkrContractDecision.
Proof. solve_decision. Defined.
Definition IbkrContractDecision_str (d : IbkrContractDecision) : string :=
  match d with
  | ACCEPTED_EXACT_CONTRACT => "ACCEPTED_EXACT_CONTRACT"
  | CONTRACT_QUARANTINED => "QUARANTINED"
  | CONTRACT_REJECTED => "REJECTED"
  end.

Record IbkrContractFingerprint : Type := mkFingerprint {
  fp_con_id : Z;
  fp_symbol : string;
  fp_security_type : string;
  fp_currency : string;
  fp_exchange : string;
  fp_primary_exchange : option string;
  fp_local_symbol : string;
  fp_trading_class : option string;
  fp_multiplier : option string;
  fp_underlying_con_id : option Z;
  fp_contract_month : option string }.
#[export] Instance IbkrContractFingerprint_eq_dec : EqDecision IbkrContractFingerprint.
Proof. solve_decision. Defined.

Definition IbkrContractFingerprint_post_init (f : IbkrContractFingerprint) : res unit :=
  raise_if (fp_con_id f <=? 0) (ValueError "IBKR contract fingerprint conId must be positive");;
  for_each (λ _ nv, raise_if (out_of_bounds nv.2 200 || has_space nv.2)
             (ValueError ("IBKR contract fingerprint " +:+ nv.1 +:+ " is bounded and non-empty"))) tt
    [("symbol", fp_symbol f); ("security type", fp_security_type f); ("currency", fp_currency f);
     ("exchange", fp_exchange f); ("local symbol", fp_local_symbol f)];;
  for_each (λ _ nv, match nv.2 with
                    | Some v => raise_if (out_of_bounds v 200)
                        (ValueError ("IBKR contract fingerprint " +:+ nv.1 +:+ " is bounded when present"))
                    | None => Ok tt
                    end) tt
    [("primary exchange", fp_primary_exchange f); ("trading class", fp_trading_class f);
     ("multiplier", fp_multiplier f); ("contract month", fp_contract_month f)];;
  raise_if (match fp_underlying_con_id f with Some n => n <=? 0 | None => false end)
           (ValueError "IBKR underlying conId must be positive when present").

Definition fingerprint_json (f : IbkrContractFingerprint) : json :=
  JObj [("con_id", JInt (fp_con_id f)); ("symbol", JStr (fp_symbol f));
        ("security_type", JStr (fp_security_type f)); ("currency", JStr (fp_currency f));
        ("exchange", JStr (fp_exchange f)); ("primary_exchange", json_opt_str (fp_primary_exchange f));
        ("local_symbol", JStr (fp_local_symbol f)); ("trading_class", json_opt_str (fp_trading_class f));
        ("multiplier", json_opt_str (fp_multiplier f));
        ("underlying_con_id", json_opt_int (fp_underlying_con_id f));
        ("contract_month", json_opt_str (fp_contract_month f))].

Record IbkrContractSelectionDecision : Type := mkDecision {
  cd_instrument_id : InstrumentId;
  cd_decision : IbkrContractDecision;
  cd_acquisition_eligible : bool;
  cd_fingerprint : option IbkrContractFingerprint;
  cd_reason : option string;
  cd_descriptive_metadata : dict }.

Definition IbkrContractSelectionDecision_post_init (d : IbkrContractSelectionDecision) : res unit :=
  (if decide (cd_decision d = ACCEPTED_EXACT_CONTRACT) then
     raise_if (match cd_fingerprint d with None => true | Some _ => false end)
              (ValueError "accepted exact IBKR decisions require a contract fingerprint")
   else
     raise_if (cd_acquisition_eligible d)
              (ValueError "only an accepted exact IBKR contract can be acquisition eligible");;
     raise_if (match cd_reason d with Some r => negb (nonempty r) | None => true end)
              (ValueError "quarantined or rejected IBKR decisions require a reason"));;
  raise_if (negb (nonempty (cd_instrument_id d))) (ValueError "IBKR selection instrument ID is required");;
  raise_if (existsb (λ kv, negb (nonempty kv.1)) (cd_descriptive_metadata d))
           (ValueError "IBKR descriptive metadata keys must be non-empty strings").

Definition decision_json (d : IbkrContractSelectionDecision) : json :=
  JObj [("instrument_id", JStr (cd_instrument_id d));
        ("decision", JStr (IbkrContractDecision_str (cd_decision d)));
        ("acquisition_eligible", JBool (cd_acquisition_eligible d));
        ("fingerprint", match cd_fingerprint d with Some f => fingerprint_json f | None => JNull end);
        ("reason", json_opt_str (cd_reason d));
        ("descriptive_metadata", JObj (cd_descriptive_metadata d))].

Record IbkrContractSelection : Type := mkSelection {
  cs_capability_review_sha256 : string;
  cs_catalogue_name : string;
  cs_catalogue_hash : string;
  cs_probe_spec_name : string;
  cs_probe_spec_hash : string;
  cs_api_version : string;
  cs_api_package_fingerprint : string;
  cs_frozen_by : string;
  cs_frozen_at : datetime;
  cs_decisions : list IbkrContractSelectionDecision;
  cs_selection_sha256 : string }.

Definition selection_payload (s : IbkrContractSelection) : res dict :=
  frozen_at ← artefact_time (cs_frozen_at s);
  Ok [("contract", JStr CONTRACT_SELECTION_CONTRACT); ("schema_version", JInt SCHEMA_VERSION);
      ("capability_review_sha256", JStr (cs_capability_review_sha256 s));
      ("catalogue_name", JStr (cs_catalogue_name s)); ("catalogue_hash", JStr (cs_catalogue_hash s));
      ("probe_spec_name", JStr (cs_probe_spec_name s)); ("probe_spec_hash", JStr (cs_probe_spec_hash s));
      ("api_version", JStr (cs_api_version s));
      ("api_package_fingerprint", JStr (cs_api_package_fingerprint s));
      ("frozen_by", JStr (cs_frozen_by s)); ("frozen_at", JStr frozen_at);
      ("decisions", JList (map decision_json (cs_decisions s)))].

Definition IbkrContractSelection_post_init (s : IbkrContractSelection) : res unit :=
  for_each (λ _ nv, _require_sha256_digest nv.2 nv.1) tt
    [("capability review hash", cs_capability_review_sha256 s); ("catalogue hash", cs_catalogue_hash s);
     ("probe spec hash", cs_probe_spec_hash s); ("API package fingerprint", cs_api_package_fingerprint s);
     ("selection hash", cs_selection_sha256 s)];;
  raise_if (negb (nonempty (cs_catalogue_name s)) || negb (nonempty (cs_probe_spec_name s))
            || negb (nonempty (cs_api_version s)))
           (ValueError "IBKR contract selection source identities are required");;
  raise_if (out_of_bounds (cs_frozen_by s) 200)
           (ValueError "IBKR contract selection frozen_by is required and bounded");;
  require_utc (cs_frozen_at s) "IBKR contract selection frozen_at";;
  raise_if (Nat.eqb (length (cs_decisions s)) 0) (ValueError "IBKR contract selection requires decisions");;
  raise_if (has_duplicates (map cd_instrument_id (cs_decisions s)))
           (ValueError "IBKR contract selection decisions must be unique");;
  payload ← selection_payload s;
  raise_if (negb (String.eqb (cs_selection_sha256 s) (sha256_json (JObj payload))))
           (ValueError "IBKR contract selection hash does not match canonical content").

(** ** Runtime lock *)

Record IbkrArchiveIdentity : Type := mkArchive { ar_filename : string; ar_sha256 : string }.
Definition IbkrArchiveIdentity_post_init (a : IbkrArchiveIdentity) : res unit :=
  raise_if (forallb is_space (chars (ar_filename a))) (ValueError "IBKR runtime archive filename is required");;
  _require_sha256_digest (ar_sha256 a) "IBKR runtime archive hash";;
  raise_if (negb (safe_basename (ar_filename a)))
           (ValueError "IBKR runtime archive filename must be a safe basename").
Definition archive_json (a : IbkrArchiveIdentity) : json :=
  JObj [("filename", JStr (ar_filename a)); ("sha256", JStr (ar_sha256 a))].

Record IbkrAcquisitionRuntime : Type := mkRuntime {
  rt_gateway_version : string;
  rt_gateway_archive : IbkrArchiveIdentity;
  rt_api_version : string;
  rt_api_archive : IbkrArchiveIdentity;
  rt_ibc_version : string;
  rt_ibc_archive : IbkrArchiveIdentity;
  rt_qtrad_commit : string;
  rt_qtrad_image_digest : string;
  rt_python_version : string;
  rt_library_versions : list (string * string);
  rt_gateway_configuration_identity : string;
  rt_paper_account_environment : string;
  rt_api_host : string;
  rt_api_port : Z;
  rt_client_id_policy : string;
  rt_frozen_at : datetime;
  rt_runtime_sha256 : string }.

Definition runtime_payload (r : IbkrAcquisitionRuntime) : res dict :=
  frozen_at ← artefact_time (rt_frozen_at r);
  Ok [("contract", JStr RUNTIME_LOCK_CONTRACT); ("schema_version", JInt SCHEMA_VERSION);
      ("gateway_version", JStr (rt_gateway_version r)); ("gateway_archive", archive_json (rt_gateway_archive r));
      ("api_version", JStr (rt_api_version r)); ("api_archive", archive_json (rt_api_archive r));
      ("ibc_version", JStr (rt_ibc_version r)); ("ibc_archive", archive_json (rt_ibc_archive r));
      ("qtrad_commit", JStr (rt_qtrad_commit r)); ("qtrad_image_digest", JStr (rt_qtrad_image_digest r));
      ("python_version", JStr (rt_python_version r));
      ("library_versions", JObj (map (λ kv, (kv.1, JStr kv.2)) (py_sorted id (rt_library_versions r))));
      ("gateway_configuration_identity", JStr (rt_gateway_configuration_identity r));
      ("paper_account_environment", JStr (rt_paper_account_environment r));
      ("api_host", JStr (rt_api_host r)); ("api_port", JInt (rt_api_port r));
      ("client_id_policy", JStr (rt_client_id_policy r)); ("frozen_at", JStr frozen_at)].

Definition IbkrAcquisitionRuntime_post_init (r : IbkrAcquisitionRuntime) : res unit :=
  raise_if (negb (is_commit (rt_qtrad_commit r)))
           (ValueError "q-trad commit must be a full lower-case Git commit");;
  raise_if (negb (is_image (rt_qtrad_image_digest r)))
           (ValueError "q-trad image must be an immutable sha256 digest");;
  _require_sha256_digest (rt_gateway_configuration_identity r) "Gateway configuration identity";;
  raise_if (negb (nonempty (rt_gateway_version r)) || negb (nonempty (rt_api_version r))
            || negb (nonempty (rt_ibc_version r)))
           (ValueError "IBKR runtime versions are required");;
  raise_if (negb (String.eqb (rt_paper_account_environment r) "paper"))
           (ValueError "IBKR runtime lock supports only the paper environment");;
  raise_if (out_of_bounds (rt_api_host r) 253 || has_space (rt_api_host r))
           (ValueError "IBKR runtime API host is bounded and non-whitespace");;
  raise_if (negb ((1 <=? rt_api_port r) && (rt_api_port r <=? 65535)))
           (ValueError "IBKR runtime API port must be between 1 and 65535");;
  raise_if (negb (String.eqb (rt_client_id_policy r) "DEDICATED_NONZERO_CLIENT_ID"))
           (ValueError "IBKR runtime client-ID policy is unsupported");;
  raise_if (negb (nonempty (rt_python_version r))) (ValueError "Python version is required");;
  raise_if (Nat.eqb (length (rt_library_versions r)) 0
            || existsb (λ kv, negb (nonempty kv.1) || negb (nonempty kv.2)) (rt_library_versions r))
           (ValueError "IBKR runtime library versions are required");;
  require_utc (rt_frozen_at r) "IBKR runtime lock frozen_at";;
  payload ← runtime_payload r;
  raise_if (negb (String.eqb (rt_runtime_sha256 r) (sha256_json (JObj payload))))
           (ValueError "IBKR runtime lock hash does not match canonical content").

(** ** Durations *)

(** The regular expression [[1-9][0-9]? [DW]]: amount and unit. *)
Definition read_duration (value : string) : option (Z * ascii) :=
  match chars value with
  | [a; sp; u] =>
      if is_digit a && negb (Ascii.eqb a "0") && Ascii.eqb sp " " && (Ascii.eqb u "D" || Ascii.eqb u "W")
      then Some (char_val a, u) else None
  | [a; b; sp; u] =>
      if is_digit a && negb (Ascii.eqb a "0") && is_digit b && Ascii.eqb sp " " && (Ascii.eqb u "D" || Ascii.eqb u "W")
      then Some (10 * char_val a + char_val b, u) else None
  | _ => None
  end.

Definition _duration_delta (value : string) : res timedelta :=
  match read_duration value with
  | None => Raise (ValueError "IBKR duration must be a canonical whole-day or whole-week string")
  | Some (amount, unit_) =>
      let n := amount * (if Ascii.eqb unit_ "W" then 7 else 1) in
      raise_if (28 <? n)
        (ValueError "IBKR one-minute duration must not exceed four weeks before canary qualification");;
      Ok (days n)
  end.
Definition duration_timedelta (value : string) : res timedelta := _duration_delta value.

Definition _validate_duration_set (values : list string) (field_name : string) : res unit :=
  raise_if (Nat.eqb (length values) 0) (ValueError (field_name +:+ " are required"));;
  raise_if (has_duplicates values) (ValueError (field_name +:+ " must be unique"));;
  deltas ← traverse _duration_delta values;
  let keyed := zip deltas values in
  raise_if (negb (bool_decide (map snd (py_sorted id keyed) = values)))
           (ValueError (field_name +:+ " must use ascending canonical duration order")).

(** ** Request profile *)

Record IbkrHistoricalPacingPolicy : Type := mkPacing {
  pp_identical_request_cooldown_seconds : Z;
  pp_per_contract_window_seconds : Z;
  pp_max_requests_per_contract_window : Z;
  pp_rolling_window_seconds : Z;
  pp_max_requests_per_rolling_window : Z }.

Definition IbkrHistoricalPacingPolicy_post_init (p : IbkrHistoricalPacingPolicy) : res unit :=
  raise_if (negb ((15 <=? pp_identical_request_cooldown_seconds p)
                  && (pp_identical_request_cooldown_seconds p <=? MAX_IBKR_HISTORICAL_COOLDOWN_SECONDS)))
           (ValueError "IBKR identical-request cooldown must be between 15 and 3600 seconds");;
  raise_if (negb (pp_per_contract_window_seconds p =? 2))
           (ValueError "IBKR per-contract pacing window must be exactly two seconds");;
  raise_if (negb ((1 <=? pp_max_requests_per_contract_window p) && (pp_max_requests_per_contract_window p <=? 5)))
           (ValueError "IBKR per-contract pacing must remain below the provider burst limit");;
  raise_if (negb (pp_rolling_window_seconds p =? 600))
           (ValueError "IBKR rolling pacing window must be exactly ten minutes");;
  raise_if (negb ((1 <=? pp_max_requests_per_rolling_window p) && (pp_max_requests_per_rolling_window p <=? 59)))
           (ValueError "IBKR rolling pacing must remain below the provider limit").

Definition pacing_json (p : IbkrHistoricalPacingPolicy) : json :=
  JObj [("identical_request_cooldown_seconds", JInt (pp_identical_request_cooldown_seconds p));
        ("per_contract_window_seconds", JInt (pp_per_contract_window_seconds p));
        ("max_requests_per_contract_window", JInt (pp_max_requests_per_contract_window p));
        ("rolling_window_seconds", JInt (pp_rolling_window_seconds p));
        ("max_requests_per_rolling_window", JInt (pp_max_requests_per_rolling_window p))].

Record IbkrHistoricalRequestProfile : Type := mkProfile {
  rq_canary_evidence_filename : string;
  rq_canary_evidence_sha256 : string;
  rq_canary_evidence_file_sha256 : string;
  rq_canary_runtime_sha256 : string;
  rq_canary_selection_sha256 : string;
  rq_frozen_by : string;
  rq_frozen_at : datetime;
  rq_permitted_bar_durations : list string;
  rq_permitted_schedule_durations : list string;
  rq_bar_duration_by_asset_class : list (AssetClass * string);
  rq_schedule_duration : string;
  rq_maximum_in_flight_requests : Z;
  rq_request_timeout_seconds : Z;
  rq_retry_count : Z;
  rq_duplicate_request_protection : string;
  rq_pacing_policy : IbkrHistoricalPacingPolicy;
  rq_profile_sha256 : string }.

Definition profile_payload (p : IbkrHistoricalRequestProfile) : res dict :=
  frozen_at ← artefact_time (rq_frozen_at p);
  Ok [("contract", JStr REQUEST_PROFILE_CONTRACT); ("schema_version", JInt REQUEST_PROFILE_SCHEMA_VERSION);
      ("canary_evidence_filename", JStr (rq_canary_evidence_filename p));
      ("canary_evidence_sha256", JStr (rq_canary_evidence_sha256 p));
      ("canary_evidence_file_sha256", JStr (rq_canary_evidence_file_sha256 p));
      ("canary_runtime_sha256", JStr (rq_canary_runtime_sha256 p));
      ("canary_selection_sha256", JStr (rq_canary_selection_sha256 p));
      ("frozen_by", JStr (rq_frozen_by p)); ("frozen_at", JStr frozen_at);
      ("permitted_bar_durations", JList (map JStr (rq_permitted_bar_durations p)));
      ("permitted_schedule_durations", JList (map JStr (rq_permitted_schedule_durations p)));
      ("bar_duration_by_asset_class",
         JObj (py_sorted fst (map (λ kv, (AssetClass_str kv.1, JStr kv.2)) (rq_bar_duration_by_asset_class p))));
      ("schedule_duration", JStr (rq_schedule_duration p));
      ("maximum_in_flight_requests", JInt (rq_maximum_in_flight_requests p));
      ("request_timeout_seconds", JInt (rq_request_timeout_seconds p));
      ("retry_count", JInt (rq_retry_count p));
      ("duplicate_request_protection", JStr (rq_duplicate_request_protection p));
      ("pacing_policy", pacing_json (rq_pacing_policy p))].

Definition supported_asset_classes : list AssetClass := [FX; INDEX; COMMODITY].

Definition IbkrHistoricalRequestProfile_post_init (p : IbkrHistoricalRequestProfile) : res unit :=
  _require_safe_filename (rq_canary_evidence_filename p) "IBKR canary evidence filename";;
  _require_sha256_digest (rq_canary_evidence_sha256 p) "IBKR semantic canary evidence hash";;
  _require_sha256_digest (rq_canary_evidence_file_sha256 p) "IBKR serialized canary evidence file hash";;
  _require_sha256_digest (rq_canary_runtime_sha256 p) "IBKR canary runtime hash";;
  _require_sha256_digest (rq_canary_selection_sha256 p) "IBKR canary selection hash";;
  raise_if (out_of_bounds (rq_frozen_by p) 200)
           (ValueError "IBKR request profile frozen_by is required and bounded");;
  require_utc (rq_frozen_at p) "IBKR request profile frozen_at";;
  raise_if (negb (String.eqb (rq_duplicate_request_protection p) "PLAN_REQUEST_ID_UNIQUE_NO_RERUN"))
           (ValueError "IBKR duplicate-request protection policy is unsupported");;
  _require_sha256_digest (rq_profile_sha256 p) "IBKR request-profile hash";;
  _validate_duration_set (rq_permitted_bar_durations p) "IBKR permitted bar durations";;
  _validate_duration_set (rq_permitted_schedule_durations p) "IBKR permitted schedule durations";;
  raise_if (negb (forallb (λ a, bool_decide (a ∈ (rq_bar_duration_by_asset_class p).*1)) supported_asset_classes
                  && forallb (λ a, bool_decide (a ∈ supported_asset_classes)) (rq_bar_duration_by_asset_class p).*1))
           (ValueError "IBKR request profile requires FX, INDEX and COMMODITY durations exactly");;
  for_each (λ _ kv, raise_if (negb (bool_decide (kv.1 ∈ supported_asset_classes)))
                      (ValueError "IBKR request profile has an unsupported asset class");;
                    raise_if (negb (bool_decide (kv.2 ∈ rq_permitted_bar_durations p)))
                      (ValueError "IBKR product bar duration must be explicitly permitted")) tt
    (rq_bar_duration_by_asset_class p);;
  raise_if (negb (bool_decide (rq_schedule_duration p ∈ rq_permitted_schedule_durations p)))
           (ValueError "IBKR schedule duration must be explicitly permitted");;
  raise_if (negb ((1 <=? rq_maximum_in_flight_requests p) && (rq_maximum_in_flight_requests p <=? 10)))
           (ValueError "IBKR maximum in-flight requests must be between one and ten");;
  raise_if (negb ((1 <=? rq_request_timeout_seconds p) && (rq_request_timeout_seconds p <=? 300)))
           (ValueError "IBKR request timeout must be between one and 300 seconds");;
  raise_if (negb ((0 <=? rq_retry_count p) && (rq_retry_count p <=? 5)))
           (ValueError "IBKR retry count must be between zero and five");;
  payload ← profile_payload p;
  raise_if (negb (String.eqb (rq_profile_sha256 p) (sha256_json (JObj payload))))
           (ValueError "IBKR request-profile hash does not match canonical content").

(** The profile with its hash, from its other fields. *)
Definition build_ibkr_historical_request_profile (unsigned : IbkrHistoricalRequestProfile)
    : res IbkrHistoricalRequestProfile :=
  identity ← profile_payload unsigned;
  let p := mkProfile (rq_canary_evidence_filename unsigned) (rq_canary_evidence_sha256 unsigned)
    (rq_canary_evidence_file_sha256 unsigned) (rq_canary_runtime_sha256 unsigned)
    (rq_canary_selection_sha256 unsigned) (rq_frozen_by unsigned) (rq_frozen_at unsigned)
    (rq_permitted_bar_durations unsigned) (rq_permitted_schedule_durations unsigned)
    (rq_bar_duration_by_asset_class unsigned) (rq_schedule_duration unsigned)
    (rq_maximum_in_flight_requests unsigned) (rq_request_timeout_seconds unsigned) (rq_retry_count unsigned)
    (rq_duplicate_request_protection unsigned) (rq_pacing_policy unsigned) (sha256_json (JObj identity)) in
  IbkrHistoricalRequestProfile_post_init p;; Ok p.

(** ** Requests *)

Inductive IbkrHistoricalRequestKind : Type := MIDPOINT_BARS | SCHEDULE.
#[export] Instance IbkrHistoricalRequestKind_eq_dec : EqDecision IbkrHistoricalRequestKind.
Proof. solve_decision. Defined.
Definition IbkrHistoricalRequestKind_str (k : IbkrHistoricalRequestKind) : string :=
  match k with MIDPOINT_BARS => "MIDPOINT_BARS" | SCHEDULE => "SCHEDULE" end.

Record IbkrPlannedContract : Type := mkPlanned {
  pc_instrument_id : InstrumentId; pc_fingerprint : IbkrContractFingerprint }.
Definition planned_json (c : IbkrPlannedContract) : json :=
  JObj [("instrument_id", JStr (pc_instrument_id c)); ("fingerprint", fingerprint_json (pc_fingerprint c))].

Record IbkrHistoricalRequest : Type := mkRequest {
  hr_instrument_id : InstrumentId;
  hr_fingerprint : IbkrContractFingerprint;
  hr_kind : IbkrHistoricalRequestKind;
  hr_interval_start : datetime;
  hr_interval_end : datetime;
  hr_end_date_time : string;
  hr_duration : string;
  hr_bar_size : option string;
  hr_what_to_show : option string;
  hr_use_rth : bool;
  hr_format_date : option Z;
  hr_keep_up_to_date : bool;
  hr_request_sha256 : string }.

(** [value.strftime("%Y%m%d-%H:%M:%S UTC")] *)
Definition ibkr_end_date_time (value : datetime) : res string :=
  require_utc value "IBKR request endDateTime";;
  raise_if (off_minute value) (ValueError "IBKR request endDateTime must align to UTC minutes");;
  let '(y, m, d) := civil_from_days (dt_date value) in
  let us := time_of_day value in
  Ok (zpad 4 y +:+ zpad 2 m +:+ zpad 2 d +:+ "-" +:+ zpad 2 (us / 3600000000) +:+ ":"
      +:+ zpad 2 (us / 60000000 mod 60) +:+ ":" +:+ zpad 2 (us / 1000000 mod 60) +:+ " UTC").

Definition request_payload (r : IbkrHistoricalRequest) : res dict :=
  interval_start ← artefact_time (hr_interval_start r);
  interval_end ← artefact_time (hr_interval_end r);
  Ok [("instrument_id", JStr (hr_instrument_id r)); ("fingerprint", fingerprint_json (hr_fingerprint r));
      ("kind", JStr (IbkrHistoricalRequestKind_str (hr_kind r)));
      ("interval_start", JStr interval_start); ("interval_end", JStr interval_end);
      ("end_date_time", JStr (hr_end_date_time r)); ("duration", JStr (hr_duration r));
      ("bar_size", json_opt_str (hr_bar_size r)); ("what_to_show", json_opt_str (hr_what_to_show r));
      ("use_rth", JBool (hr_use_rth r)); ("format_date", json_opt_int (hr_format_date r));
      ("keep_up_to_date", JBool (hr_keep_up_to_date r))].
Definition request_json (r : IbkrHistoricalRequest) : res json :=
  payload ← request_payload r; Ok (JObj (payload ++ [("request_sha256", JStr (hr_request_sha256 r))])).

Definition IbkrHistoricalRequest_post_init (r : IbkrHistoricalRequest) : res unit :=
  require_utc (hr_interval_start r) "IBKR request interval start";;
  require_utc (hr_interval_end r) "IBKR request interval end";;
  raise_if (dt_leb (hr_interval_end r) (hr_interval_start r))
           (ValueError "IBKR request interval must be non-empty");;
  raise_if (off_minute (hr_interval_start r) || off_minute (hr_interval_end r))
           (ValueError "IBKR request interval must align to UTC minutes");;
  end_text ← ibkr_end_date_time (hr_interval_end r);
  raise_if (negb (String.eqb (hr_end_date_time r) end_text))
           (ValueError "IBKR request endDateTime must equal the UTC interval end");;
  duration ← _duration_delta (hr_duration r);
  raise_if (duration <? dt_diff (hr_interval_end r) (hr_interval_start r))
           (ValueError "IBKR request ownership interval exceeds its provider duration");;
  match hr_kind r with
  | MIDPOINT_BARS =>
      raise_if (String.eqb (fp_security_type (hr_fingerprint r)) "IND")
               (ValueError "IBKR midpoint bar requests cannot use native IND contracts");;
      raise_if (negb (bool_decide (hr_bar_size r = Some "1 min"))
                || negb (bool_decide (hr_what_to_show r = Some "MIDPOINT")) || hr_use_rth r
                || negb (bool_decide (hr_format_date r = Some 2)) || hr_keep_up_to_date r)
               (ValueError "IBKR one-minute bar request parameters are not the frozen profile")
  | SCHEDULE =>
      raise_if (negb (bool_decide (hr_bar_size r = Some "1 day"))
                || negb (bool_decide (hr_what_to_show r = Some "SCHEDULE")) || hr_use_rth r
                || negb (bool_decide (hr_format_date r = Some 2)) || hr_keep_up_to_date r)
               (ValueError "IBKR schedule request parameters are not the frozen one-day profile")
  end;;
  _require_sha256_digest (hr_request_sha256 r) "IBKR historical request hash";;
  payload ← request_payload r;
  raise_if (negb (String.eqb (hr_request_sha256 r) (sha256_json (JObj payload))))
           (ValueError "IBKR historical request hash does not match canonical content").

Definition _historical_request_sort_key (r : IbkrHistoricalRequest) : string * (string * (Z * string)) :=
  (hr_instrument_id r, (IbkrHistoricalRequestKind_str (hr_kind r),
                        (instant (hr_interval_start r), hr_request_sha256 r))).

(** ** Plans *)

Record IbkrHistoricalPlan : Type := mkHistoricalPlan {
  hp_contract_selection_sha256 : string;
  hp_runtime_sha256 : string;
  hp_request_profile_sha256 : string;
  hp_provider : string;
  hp_environment : string;
  hp_planner_qtrad_commit : string;
  hp_planner_qtrad_image_digest : string;
  hp_start : datetime;
  hp_end : datetime;
  hp_eligible_contracts : list IbkrPlannedContract;
  hp_requests : list IbkrHistoricalRequest;
  hp_plan_sha256 : string }.

Definition plan_payload (p : IbkrHistoricalPlan) : res dict :=
  start ← artefact_time (hp_start p);
  end_ ← artefact_time (hp_end p);
  requests ← traverse request_json (py_sorted _historical_request_sort_key (hp_requests p));
  Ok [("contract", JStr HISTORICAL_PLAN_CONTRACT); ("schema_version", JInt SCHEMA_VERSION);
      ("contract_selection_sha256", JStr (hp_contract_selection_sha256 p));
      ("runtime_sha256", JStr (hp_runtime_sha256 p));
      ("request_profile_sha256", JStr (hp_request_profile_sha256 p));
      ("provider", JStr (hp_provider p)); ("environment", JStr (hp_environment p));
      ("planner_qtrad_commit", JStr (hp_planner_qtrad_commit p));
      ("planner_qtrad_image_digest", JStr (hp_planner_qtrad_image_digest p));
      ("start", JStr start); ("end", JStr end_);
      ("eligible_contracts", JList (map planned_json (py_sorted pc_instrument_id (hp_eligible_contracts p))));
      ("requests", JList requests)].

Definition coverage_step (end_ : datetime) (kind instrument_id : string) (cursor : datetime)
    (r : IbkrHistoricalRequest) : res datetime :=
  raise_if (negb (dt_eqb (hr_interval_start r) cursor))
    (ValueError ("IBKR historical " +:+ kind +:+ " requests do not cover " +:+ instrument_id +:+ " contiguously"));;
  raise_if (dt_ltb end_ (hr_interval_end r))
    (ValueError ("IBKR historical " +:+ kind +:+ " request exceeds the planned range"));;
  Ok (hr_interval_end r).

Definition _verify_request_coverage (requests : list IbkrHistoricalRequest) (start end_ : datetime)
    (instrument_id : InstrumentId) (kind : IbkrHistoricalRequestKind) : res unit :=
  let k := IbkrHistoricalRequestKind_str kind in
  raise_if (Nat.eqb (length requests) 0)
    (ValueError ("IBKR historical plan has no " +:+ k +:+ " request for " +:+ instrument_id));;
  cursor ← for_each (coverage_step end_ k instrument_id) start
             (py_sorted (λ r, instant (hr_interval_start r)) requests);
  raise_if (negb (dt_eqb cursor end_))
    (ValueError ("IBKR historical " +:+ k +:+ " requests do not reach the planned end")).

Definition owned_by (instrument_id : InstrumentId) (kind : IbkrHistoricalRequestKind)
    (r : IbkrHistoricalRequest) : bool :=
  String.eqb (hr_instrument_id r) instrument_id && bool_decide (hr_kind r = kind).

Definition expected_fingerprint (contracts : list IbkrPlannedContract) (id : InstrumentId)
    : option IbkrContractFingerprint :=
  pc_fingerprint <$> List.find (λ c, String.eqb (pc_instrument_id c) id) contracts.

Definition IbkrHistoricalPlan_post_init (p : IbkrHistoricalPlan) : res unit :=
  for_each (λ _ nv, _require_sha256_digest nv.2 ("IBKR historical " +:+ nv.1)) tt
    [("contract selection hash", hp_contract_selection_sha256 p); ("runtime hash", hp_runtime_sha256 p);
     ("request-profile hash", hp_request_profile_sha256 p); ("plan hash", hp_plan_sha256 p)];;
  raise_if (negb (String.eqb (hp_provider p) "ibkr") || negb (String.eqb (hp_environment p) "paper"))
           (ValueError "IBKR historical plan supports only the IBKR paper provider");;
  raise_if (negb (is_commit (hp_planner_qtrad_commit p)))
           (ValueError "IBKR historical planner commit must be a full lower-case Git commit");;
  raise_if (negb (is_image (hp_planner_qtrad_image_digest p)))
           (ValueError "IBKR historical planner image must be an immutable sha256 digest");;
  require_utc (hp_start p) "IBKR historical plan start";;
  require_utc (hp_end p) "IBKR historical plan end";;
  raise_if (dt_leb (hp_end p) (hp_start p)) (ValueError "IBKR historical plan end must follow start");;
  raise_if (off_minute (hp_start p) || off_minute (hp_end p))
           (ValueError "IBKR historical plan range must align to UTC minutes");;
  raise_if (Nat.eqb (length (hp_eligible_contracts p)) 0)
           (ValueError "IBKR historical plan requires at least one eligible contract");;
  let ids := map pc_instrument_id (hp_eligible_contracts p) in
  raise_if (has_duplicates ids) (ValueError "IBKR historical plan eligible contracts must be unique");;
  raise_if (Nat.eqb (length (hp_requests p)) 0) (ValueError "IBKR historical plan requires requests");;
  raise_if (has_duplicates (map hr_request_sha256 (hp_requests p)))
           (ValueError "IBKR historical plan request identities must be unique");;
  raise_if (negb (forallb (λ r, bool_decide (hr_instrument_id r ∈ ids)) (hp_requests p)
                  && forallb (λ id, bool_decide (id ∈ map hr_instrument_id (hp_requests p))) ids))
           (ValueError "IBKR historical plan request contracts do not match its eligible closure");;
  for_each (λ _ r, raise_if (negb (bool_decide
                       (expected_fingerprint (hp_eligible_contracts p) (hr_instrument_id r)
                        = Some (hr_fingerprint r))))
                     (ValueError "IBKR historical request fingerprint differs from its eligible closure")) tt
    (hp_requests p);;
  for_each (λ _ id, for_each (λ _ kind,
      _verify_request_coverage (List.filter (owned_by id kind) (hp_requests p)) (hp_start p) (hp_end p) id kind) tt
      [MIDPOINT_BARS; SCHEDULE]) tt ids;;
  payload ← plan_payload p;
  raise_if (negb (String.eqb (hp_plan_sha256 p) (sha256_json (JObj payload))))
           (ValueError "IBKR historical plan hash does not match canonical content").

(** ** The planner: application/ibkr_historical.py *)

Definition _catalogue_asset_class (instrument_id : InstrumentId) (asset_class_by_instrument : gmap string AssetClass)
    : res AssetClass :=
  match asset_class_by_instrument !! instrument_id with
  | Some a => Ok a
  | None => Raise (ValueError ("IBKR historical plan has no authenticated catalogue asset class for "
                               +:+ instrument_id))
  end.

Definition eligible (d : IbkrContractSelectionDecision) : bool :=
  bool_decide (cd_decision d = ACCEPTED_EXACT_CONTRACT) && cd_acquisition_eligible d.

Definition validate_ibkr_historical_index_selection (selection : IbkrContractSelection)
    (asset_class_by_instrument : gmap string AssetClass) : res unit :=
  for_each (λ _ d,
    if eligible d then
      asset_class ← _catalogue_asset_class (cd_instrument_id d) asset_class_by_instrument;
      raise_if (bool_decide (asset_class = INDEX)
                && match cd_fingerprint d with
                   | None => true
                   | Some f => negb (String.eqb (fp_security_type f) "CFD")
                   end)
               (ValueError "IBKR midpoint historical plans require every acquisition-eligible index contract to be a CFD")
    else Ok tt) tt (cs_decisions selection).

Definition _chunk_count (interval : timedelta) (duration : string) : res Z :=
  step ← duration_timedelta duration;
  Ok (interval / step + (if interval mod step =? 0 then 0 else 1)).

(** [bar_duration_by_asset_class[asset_class]] *)
Definition bar_duration (p : IbkrHistoricalRequestProfile) (a : AssetClass) : res string :=
  match List.find (λ kv, bool_decide (kv.1 = a)) (rq_bar_duration_by_asset_class p) with
  | Some kv => Ok kv.2
  | None => Raise (KeyError (AssetClass_str a))
  end.

Definition planned_request (contract : IbkrPlannedContract) (kind : IbkrHistoricalRequestKind)
    (interval_start interval_end : datetime) (duration : string) : res IbkrHistoricalRequest :=
  end_text ← ibkr_end_date_time interval_end;
  let unsigned sha := mkRequest (pc_instrument_id contract) (pc_fingerprint contract) kind interval_start
        interval_end end_text duration
        (Some (match kind with MIDPOINT_BARS => "1 min" | SCHEDULE => "1 day" end))
        (Some (match kind with MIDPOINT_BARS => "MIDPOINT" | SCHEDULE => "SCHEDULE" end))
        false (Some 2) false sha in
  identity ← request_payload (unsigned "");
  let r := unsigned (sha256_json (JObj identity)) in
  IbkrHistoricalRequest_post_init r;; Ok r.

(** The [while interval_start < end] loop; one unit of fuel per request. *)
Fixpoint planned_loop (fuel : nat) (contract : IbkrPlannedContract) (kind : IbkrHistoricalRequestKind)
    (end_ : datetime) (duration : string) (step : timedelta) (interval_start : datetime)
    : res (list IbkrHistoricalRequest) :=
  match fuel with
  | O => Ok []
  | S fuel =>
      if dt_ltb interval_start end_ then
        let interval_end := dt_min (dt_add interval_start step) end_ in
        r ← planned_request contract kind interval_start interval_end duration;
        rs ← planned_loop fuel contract kind end_ duration step interval_end;
        Ok (r :: rs)
      else Ok []
  end.

Definition _planned_requests (contract : IbkrPlannedContract) (kind : IbkrHistoricalRequestKind)
    (start end_ : datetime) (duration : string) : res (list IbkrHistoricalRequest) :=
  step ← duration_timedelta duration;
  planned_loop (Z.to_nat (dt_diff end_ start / step) + 1) contract kind end_ duration step start.

Definition accepted_contracts (selection : IbkrContractSelection) : list IbkrPlannedContract :=
  py_sorted pc_instrument_id
    (flat_map (λ d, if eligible d
                    then match cd_fingerprint d with
                         | Some f => [mkPlanned (cd_instrument_id d) f]
                         | None => []
                         end
                    else []) (cs_decisions selection)).

(** Requests one contract needs, counted and generated. *)
Definition contract_durations (profile : IbkrHistoricalRequestProfile)
    (asset_class_by_instrument : gmap string AssetClass) (c : IbkrPlannedContract) : res (string * string) :=
  asset_class ← _catalogue_asset_class (pc_instrument_id c) asset_class_by_instrument;
  bar ← bar_duration profile asset_class;
  Ok (bar, rq_schedule_duration profile).

Definition count_contract profile asset_class_by_instrument (interval : timedelta) (n : Z) (c : IbkrPlannedContract)
    : res Z :=
  '(bar, schedule) ← contract_durations profile asset_class_by_instrument c;
  b ← _chunk_count interval bar;
  s ← _chunk_count interval schedule;
  Ok (n + b + s).

Definition plan_contract profile asset_class_by_instrument (start end_ : datetime) (c : IbkrPlannedContract)
    : res (list IbkrHistoricalRequest) :=
  '(bar, schedule) ← contract_durations profile asset_class_by_instrument c;
  bars ← _planned_requests c MIDPOINT_BARS start end_ bar;
  schedules ← _planned_requests c SCHEDULE start end_ schedule;
  Ok (bars ++ schedules).

Definition build_ibkr_historical_plan (selection : IbkrContractSelection) (runtime : IbkrAcquisitionRuntime)
    (request_profile : IbkrHistoricalRequestProfile) (asset_class_by_instrument : gmap string AssetClass)
    (start end_ : datetime) (planner_qtrad_commit planner_qtrad_image_digest : string) : res IbkrHistoricalPlan :=
  require_utc start "IBKR historical plan start";;
  require_utc end_ "IBKR historical plan end";;
  raise_if (dt_leb end_ start) (ValueError "IBKR historical plan end must follow start");;
  raise_if (off_minute start || off_minute end_)
           (ValueError "IBKR historical plan range must align to UTC minutes");;
  validate_ibkr_historical_index_selection selection asset_class_by_instrument;;
  let accepted := accepted_contracts selection in
  raise_if (Nat.eqb (length accepted) 0)
           (ValueError "IBKR historical plan has no acquisition-eligible exact contracts");;
  raise_if (negb (String.eqb planner_qtrad_commit (rt_qtrad_commit runtime)))
           (ValueError "planner q-trad commit must match the authenticated runtime lock");;
  raise_if (negb (String.eqb planner_qtrad_image_digest (rt_qtrad_image_digest runtime)))
           (ValueError "planner image digest must match the authenticated runtime lock");;
  request_counts ← for_each (count_contract request_profile asset_class_by_instrument (dt_diff end_ start)) 0 accepted;
  raise_if (MAX_PLANNED_REQUESTS <? request_counts)
           (ValueError ("IBKR historical plan request count exceeds the bounded planner limit: "
                        +:+ str_Z request_counts +:+ " > " +:+ str_Z MAX_PLANNED_REQUESTS));;
  requests ← traverse (plan_contract request_profile asset_class_by_instrument start end_) accepted;
  let ordered_requests := py_sorted _historical_request_sort_key (concat requests) in
  let unsigned sha := mkHistoricalPlan (cs_selection_sha256 selection) (rt_runtime_sha256 runtime)
        (rq_profile_sha256 request_profile) "ibkr" "paper" planner_qtrad_commit planner_qtrad_image_digest
        start end_ accepted ordered_requests sha in
  identity ← plan_payload (unsigned "");
  let p := unsigned (sha256_json (JObj identity)) in
  IbkrHistoricalPlan_post_init p;; Ok p.

(** ** Contiguous requests *)

(** Requests that follow one another from [a] to [b]. *)
Fixpoint chain (a b : Z) (l : list IbkrHistoricalRequest) : Prop :=
  match l with
  | [] => a = b
  | r :: l => instant (hr_interval_start r) = a ∧ a < instant (hr_interval_end r) ∧
              chain (instant (hr_interval_end r)) b l
  end.

Definition owns (r : IbkrHistoricalRequest) (t : Z) : Prop :=
  instant (hr_interval_start r) <= t < instant (hr_interval_end r).
Definition request_start (r : IbkrHistoricalRequest) : Z := instant (hr_interval_start r).

Lemma chain_le a b l : chain a b l → a <= b.
Proof.
  revert a. induction l as [|r l IH]; intros a; cbn; [lia|]. intros (_ & Hlt & H). apply IH in H. lia.
Qed.
Lemma chain_bounds a b l r : chain a b l → r ∈ l → a <= request_start r ∧ instant (hr_interval_end r) <= b.
Proof.
  revert a. induction l as [|x l IH]; intros a; [set_solver|]. cbn. intros (Hs & Hlt & H) [->|Hr]%elem_of_cons.
  - unfold request_start. apply chain_le in H. lia.
  - apply (IH _ H) in Hr. lia.
Qed.

(** Every instant of the range belongs to exactly one request of the chain. *)
Lemma chain_partition a b l t : chain a b l → a <= t < b →
  ∃ r, r ∈ l ∧ owns r t ∧ ∀ r', r' ∈ l → owns r' t → r' = r.
Proof.
  revert a. induction l as [|x l IH]; intros a; cbn; [lia|]. intros (Hs & Hlt & H) Ht.
  destruct (decide (t < instant (hr_interval_end x))) as [Hin|Hout].
  - exists x. split; [set_solver|]. split; [unfold owns; lia|]. intros r' [->|Hr']%elem_of_cons Ho; [done|].
    apply (chain_bounds _ _ _ _ H) in Hr'. unfold owns, request_start in *. lia.
  - destruct (IH _ H ltac:(lia)) as (r & Hr & Ho & Hu). exists r. split; [set_solver|]. split; [done|].
    intros r' [->|Hr']%elem_of_cons Ho'; [unfold owns in Ho'; lia|by apply Hu].
Qed.

Lemma coverage_loop_chain end_ k i l a c :
  (∀ r, r ∈ l → instant (hr_interval_start r) < instant (hr_interval_end r)) →
  for_each (coverage_step end_ k i) a l = Ok c → chain (instant a) (instant c) l.
Proof.
  revert a. induction l as [|r l IH]; intros a Hl; cbn; [by intros [= ->]|].
  intros (c1 & H1 & H)%bind_Ok. unfold coverage_step in H1. res_inv. bool_prop. unfold dt_eqb in *. bool_prop.
  split_and!; [done| |].
  - specialize (Hl r ltac:(set_solver)). lia.
  - apply IH; [|done]. intros; apply Hl; set_solver.
Qed.

Lemma coverage_Ok requests start end_ id kind u :
  (∀ r, r ∈ requests → instant (hr_interval_start r) < instant (hr_interval_end r)) →
  _verify_request_coverage requests start end_ id kind = Ok u →
  chain (instant start) (instant end_) (py_sorted request_start requests).
Proof.
  intros Hl H. unfold _verify_request_coverage in H. apply bind_Ok in H as (u1 & _ & H).
  apply bind_Ok in H as (c & Hc & H). apply raise_if_Ok in H. bool_prop. unfold dt_eqb in H. bool_prop.
  rewrite <- H. apply coverage_loop_chain in Hc; [done|]. intros r Hr. apply Hl. by apply elem_of_py_sorted in Hr.
Qed.

Lemma owned_by_spec id kind r : owned_by id kind r = true ↔ hr_instrument_id r = id ∧ hr_kind r = kind.
Proof. unfold owned_by. by rewrite andb_true_iff, String.eqb_eq, bool_decide_eq_true. Qed.

Lemma elem_of_filter_bool {A} (f : A → bool) l x : x ∈ List.filter f l ↔ x ∈ l ∧ f x = true.
Proof. by rewrite !list_elem_of_In, List.filter_In. Qed.

Lemma request_valid_order r : IbkrHistoricalRequest_post_init r = Ok tt →
  instant (hr_interval_start r) < instant (hr_interval_end r).
Proof.
  intros H. unfold IbkrHistoricalRequest_post_init in H. do 3 apply bind_Ok in H as (? & ? & H).
  match goal with H : raise_if (dt_leb _ _) _ = Ok _ |- _ => apply raise_if_Ok in H end. unfold dt_leb in *. lia.
Qed.

(** A plan that passes its own checks leaves no hole and no overlap: for every eligible
    contract and both kinds of request, each instant of the planned range is owned by exactly
    one request, which carries the fingerprint of that contract. *)
Theorem plan_partitions_range p c kind t :
  IbkrHistoricalPlan_post_init p = Ok tt →
  (∀ r, r ∈ hp_requests p → IbkrHistoricalRequest_post_init r = Ok tt) →
  c ∈ hp_eligible_contracts p → instant (hp_start p) <= t < instant (hp_end p) →
  ∃ r, (r ∈ hp_requests p ∧ hr_instrument_id r = pc_instrument_id c ∧ hr_kind r = kind ∧ owns r t) ∧
       hr_fingerprint r = pc_fingerprint c ∧
       ∀ r', r' ∈ hp_requests p ∧ hr_instrument_id r' = pc_instrument_id c ∧ hr_kind r' = kind ∧ owns r' t → r' = r.
Proof.
  intros Hp Hr Hc Ht. unfold IbkrHistoricalPlan_post_init in Hp. do 9 apply bind_Ok in Hp as (? & _ & Hp).
  apply bind_Ok in Hp as (? & Hdup & Hp). apply raise_if_Ok, has_duplicates_false in Hdup.
  do 3 apply bind_Ok in Hp as (? & _ & Hp). apply bind_Ok in Hp as (? & Hfp & Hp).
  apply bind_Ok in Hp as (? & Hcov & _). rewrite for_each_unit in Hcov. rewrite for_each_unit in Hfp.
  specialize (Hcov (pc_instrument_id c) ltac:(apply list_elem_of_fmap; eauto)). rewrite for_each_unit in Hcov.
  specialize (Hcov kind ltac:(destruct kind; set_solver)).
  apply coverage_Ok in Hcov.
  2:{ intros r [Hin _]%elem_of_filter_bool. by apply request_valid_order, Hr. }
  destruct (chain_partition _ _ _ _ Hcov Ht) as (r & Hin & Ho & Hu).
  rewrite elem_of_py_sorted, elem_of_filter_bool, owned_by_spec in Hin. destruct Hin as (Hin & Hid & Hk).
  exists r. split_and!; try done.
  - specialize (Hfp r Hin). apply raise_if_Ok in Hfp. bool_prop. unfold expected_fingerprint in Hfp.
    destruct (List.find _ _) as [c'|] eqn:Ef; [|done]. apply List.find_some in Ef as [Hc' Eq].
    apply String.eqb_eq in Eq. rewrite Hid in Eq. injection Hfp as <-. apply list_elem_of_In in Hc'.
    apply list_elem_of_lookup in Hc as [i Hi], Hc' as [j Hj].
    assert (i = j) as -> by (eapply (NoDup_lookup _ _ _ (pc_instrument_id c) Hdup);
      rewrite list_lookup_fmap, ?Hi, ?Hj; cbn; congruence). congruence.
  - intros r' (H1 & H2 & H3 & H4). apply Hu; [|done].
    rewrite elem_of_py_sorted, elem_of_filter_bool, owned_by_spec. done.
Qed.

(** ** The planner's requests *)

Lemma digit_val c : is_digit c = true → 0 <= char_val c <= 9 ∧ (Ascii.eqb c "0" = false → 1 <= char_val c).
Proof.
  unfold is_digit, in_range, char_val. intros H. apply andb_true_iff in H as [H1 H2].
  apply N.leb_le in H1, H2. split; [lia|]. intros Hne. apply Ascii.eqb_neq in Hne.
  assert (N_of_ascii c ≠ 48)%N; [|lia]. intros E. apply Hne.
  by rewrite <- (ascii_N_embedding c), E.
Qed.

Lemma duration_positive value step : duration_timedelta value = Ok step → 0 < step ∧ step mod minutes 1 = 0.
Proof.
  unfold duration_timedelta, _duration_delta. destruct (read_duration value) as [[n u]|] eqn:E; [|done].
  assert (1 <= n) as Hn.
  { unfold read_duration in E. destruct (chars value) as [|a [|b [|c [|d [|]]]]]; try done.
    - destruct (_ && _) eqn:Ec; [|done]. bool_prop. injection E as <- _. by apply digit_val.
    - destruct (_ && _) eqn:Ec; [|done]. bool_prop. injection E as <- _.
      destruct (digit_val a ltac:(done)) as [_ Ha]. destruct (digit_val b ltac:(done)) as [Hb _].
      specialize (Ha ltac:(done)). lia. }
  intros H. apply bind_Ok in H as (? & _ & [= <-]). set (w := if Ascii.eqb u "W" then 7 else 1).
  assert (1 <= w) by (subst w; destruct (Ascii.eqb u "W"); lia).
  unfold days, hours, minutes, seconds. split; [nia|]. apply Z.mod_divide; [lia|].
  exists (n * w * 1440). lia.
Qed.

Definition pair_requests (c : IbkrPlannedContract) (kind : IbkrHistoricalRequestKind)
    (rs : list IbkrHistoricalRequest) : Prop :=
  ∀ r, r ∈ rs → hr_instrument_id r = pc_instrument_id c ∧ hr_fingerprint r = pc_fingerprint c ∧ hr_kind r = kind ∧
                IbkrHistoricalRequest_post_init r = Ok tt.

Lemma artefact_time_utc d : is_utc d → artefact_time d = Ok (utc_text d).
Proof. intros H. unfold artefact_time. by rewrite require_utc_is_utc. Qed.

Lemma end_date_time_Ok d : is_utc d → off_minute d = false → ∃ s, ibkr_end_date_time d = Ok s.
Proof.
  intros Hu Ho. unfold ibkr_end_date_time. rewrite require_utc_is_utc, Ho by done. cbn.
  destruct (civil_from_days (dt_date d)) as [[y m] dd]. by eexists.
Qed.

Lemma planned_request_Ok c kind a b duration step :
  is_utc a → is_utc b → off_minute a = false → off_minute b = false → instant a < instant b →
  _duration_delta duration = Ok step → instant b - instant a <= step →
  (kind = MIDPOINT_BARS → String.eqb (fp_security_type (pc_fingerprint c)) "IND" = false) →
  ∃ r, planned_request c kind a b duration = Ok r ∧ hr_instrument_id r = pc_instrument_id c ∧
       hr_fingerprint r = pc_fingerprint c ∧ hr_kind r = kind ∧ hr_interval_start r = a ∧ hr_interval_end r = b ∧
       IbkrHistoricalRequest_post_init r = Ok tt.
Proof.
  intros Ha Hb Oa Ob Hlt Hd Hs Hk. destruct (end_date_time_Ok b Hb Ob) as [end_ He].
  unfold planned_request. rewrite He. cbn [mbind res_bind]. unfold request_payload at 1.
  cbn [hr_interval_start hr_interval_end]. rewrite !artefact_time_utc by done. cbn [mbind res_bind].
  match goal with |- ∃ r, (IbkrHistoricalRequest_post_init ?q;; _) = _ ∧ _ => set (r := q) end.
  assert (IbkrHistoricalRequest_post_init r = Ok tt) as Hv.
  { unfold IbkrHistoricalRequest_post_init. subst r.
    cbn [hr_interval_start hr_interval_end hr_end_date_time hr_duration hr_kind hr_fingerprint hr_bar_size
      hr_what_to_show hr_use_rth hr_format_date hr_keep_up_to_date hr_request_sha256].
    rewrite !require_utc_is_utc by done. cbn [mbind res_bind].
    replace (dt_leb b a) with false by (unfold dt_leb; lia). rewrite Oa, Ob, He, Hd. cbn [raise_if orb mbind res_bind].
    rewrite String.eqb_refl. replace (step <? dt_diff b a) with false by (unfold dt_diff; lia).
    cbn [raise_if negb mbind res_bind].
    unfold request_payload. cbn [hr_interval_start hr_interval_end]. rewrite !artefact_time_utc by done.
    cbn [mbind res_bind]. unfold _require_sha256_digest. rewrite sha256_json_is_sha256.
    destruct kind; [rewrite Hk by done|]; cbn [raise_if negb mbind res_bind]; rewrite ?String.eqb_refl; done. }
  exists r. rewrite Hv. done.
Qed.

Lemma planned_loop_Ok c kind end_ duration step fuel a :
  _duration_delta duration = Ok step →
  is_utc a → is_utc end_ → off_minute a = false → off_minute end_ = false → instant a <= instant end_ →
  instant end_ - instant a <= Z.of_nat fuel * step →
  (kind = MIDPOINT_BARS → String.eqb (fp_security_type (pc_fingerprint c)) "IND" = false) →
  ∃ rs, planned_loop fuel c kind end_ duration step a = Ok rs ∧ pair_requests c kind rs ∧
        chain (instant a) (instant end_) rs ∧
        Z.of_nat (length rs) = (instant end_ - instant a) / step
                               + (if (instant end_ - instant a) mod step =? 0 then 0 else 1).
Proof.
  intros Hd. destruct (duration_positive _ _ Hd) as [Hpos Hmod]. revert a.
  assert (∀ a, instant a = instant end_ → ∃ rs, Ok [] = Ok rs ∧ pair_requests c kind rs ∧
    chain (instant a) (instant end_) rs ∧
    Z.of_nat (length rs) = (instant end_ - instant a) / step
                           + (if (instant end_ - instant a) mod step =? 0 then 0 else 1)) as Hend.
  { intros a E. exists []. split_and!; [done|by intros r ?%elem_of_nil|done|].
    rewrite E, Z.sub_diag. by rewrite Z.div_0_l, Z.mod_0_l by lia. }
  induction fuel as [|fuel IH]; intros a Ha He Oa Oe Hle Hf Hk; [apply Hend; lia|]. cbn [planned_loop].
  unfold dt_ltb. destruct (Z.ltb_spec (instant a) (instant end_)) as [Hlt|Hge].
  - set (b := dt_min (dt_add a step) end_).
    assert (instant b = Z.min (instant a + step) (instant end_)) as Hbi.
    { unfold b. by rewrite instant_min, instant_add. }
    assert (is_utc b) as Hb by (unfold b; auto with qtrad).
    assert (off_minute b = false) as Ob.
    { apply off_minute_instant in Oa, Oe; try done. apply off_minute_instant; [done|]. rewrite Hbi.
      destruct (Z.min_spec (instant a + step) (instant end_)) as [[_ ->]|[_ ->]]; [|done].
      rewrite Z.add_mod, Oa, Hmod by done. done. }
    destruct (planned_request_Ok c kind a b duration step) as (r & Er & H1 & H2 & H3 & H4 & H5 & H6); try done; [lia..|].
    destruct (IH b) as (rs & Ers & Hp & Hch & Hlen); try done; [lia|nia|].
    rewrite Er. cbn [mbind res_bind]. rewrite Ers. exists (r :: rs). split_and!; [done| | |].
    + intros x [->|Hx]%elem_of_cons; [done|by apply Hp].
    + cbn. rewrite H4, H5. split_and!; [done|lia|done].
    + cbn [length]. rewrite Nat2Z.inj_succ, Hlen, Hbi.
      destruct (Z.le_gt_cases (instant a + step) (instant end_)) as [Hc|Hc].
      * rewrite Z.min_l by lia.
        replace (instant end_ - (instant a + step)) with (instant end_ - instant a + (-1) * step) by lia.
        rewrite Z.div_add, Z.mod_add by lia. lia.
      * rewrite Z.min_r, Z.sub_diag, Z.div_0_l, Z.mod_0_l by lia. cbn.
        rewrite Z.div_small, Z.mod_small by lia. replace (instant end_ - instant a =? 0) with false by lia. done.
  - apply Hend. lia.
Qed.

Lemma planned_requests_Ok c kind start end_ duration n :
  is_utc start → is_utc end_ → off_minute start = false → off_minute end_ = false → instant start <= instant end_ →
  (kind = MIDPOINT_BARS → String.eqb (fp_security_type (pc_fingerprint c)) "IND" = false) →
  _chunk_count (dt_diff end_ start) duration = Ok n →
  ∃ rs, _planned_requests c kind start end_ duration = Ok rs ∧ pair_requests c kind rs ∧
        chain (instant start) (instant end_) rs ∧ Z.of_nat (length rs) = n.
Proof.
  intros Hs He Os Oe Hle Hk H. unfold _chunk_count in H. apply bind_Ok in H as (step & Hd & [= <-]).
  destruct (duration_positive _ _ Hd) as [Hpos _]. unfold dt_diff.
  destruct (planned_loop_Ok c kind end_ duration step (Z.to_nat ((instant end_ - instant start) / step) + 1) start)
    as (rs & E & H); try done.
  { pose proof (Z.mod_pos_bound (instant end_ - instant start) step Hpos).
    pose proof (Z.div_mod (instant end_ - instant start) step ltac:(lia)).
    rewrite Nat2Z.inj_add, Z2Nat.id by (apply Z.div_pos; lia). nia. }
  exists rs. split; [|done]. unfold _planned_requests. rewrite Hd. exact E.
Qed.

(** ** The plan's requests, contract by contract *)

Lemma owned_pair c kind id kind' rs : pair_requests c kind rs →
  List.filter (owned_by id kind') rs
  = if decide (pc_instrument_id c = id ∧ kind = kind') then rs else [].
Proof.
  intros Hp. destruct (decide _) as [[<- <-]|Hn].
  - apply filter_all. intros r Hr. apply owned_by_spec. destruct (Hp r Hr) as (? & _ & ? & _). done.
  - apply filter_none. intros r Hr. destruct (owned_by id kind' r) eqn:E; [|done].
    apply owned_by_spec in E as [E1 E2]. destruct (Hp r Hr) as (? & _ & ? & _). exfalso. apply Hn. split; congruence.
Qed.

Lemma chain_sorted a b rs : chain a b rs → StronglySorted (key_le request_start) rs.
Proof.
  revert a. induction rs as [|r rs IH]; intros a; cbn; [constructor|]. intros (Hs & Hlt & H).
  constructor; [by eapply IH|]. apply Forall_forall. intros x Hx. apply (chain_bounds _ _ _ _ H) in Hx as [Hx _].
  unfold key_le. rewrite pyle_Z. unfold request_start in *. lia.
Qed.
Lemma chain_start_inj a b rs x y : chain a b rs → x ∈ rs → y ∈ rs → request_start x = request_start y → x = y.
Proof.
  revert a. induction rs as [|r rs IH]; intros a; [set_solver|]. cbn. intros (Hs & Hlt & H).
  intros [->|Hx]%elem_of_cons [->|Hy]%elem_of_cons E; [done|..]; [| |by eapply IH].
  - apply (chain_bounds _ _ _ _ H) in Hy as [Hy _]. unfold request_start in *. lia.
  - apply (chain_bounds _ _ _ _ H) in Hx as [Hx _]. unfold request_start in *. lia.
Qed.

Section planner.
Context (profile : IbkrHistoricalRequestProfile) (classes : gmap string AssetClass) (start end_ : datetime).
Hypothesis start_utc : is_utc start.
Hypothesis end_utc : is_utc end_.
Hypothesis start_minute : off_minute start = false.
Hypothesis end_minute : off_minute end_ = false.
Hypothesis range : instant start < instant end_.

Definition contract_requests (c : IbkrPlannedContract) (rs : list IbkrHistoricalRequest) : Prop :=
  ∃ bars schedules, rs = bars ++ schedules ∧
    (pair_requests c MIDPOINT_BARS bars ∧ chain (instant start) (instant end_) bars) ∧
    (pair_requests c SCHEDULE schedules ∧ chain (instant start) (instant end_) schedules).

Definition midpoint_capable (c : IbkrPlannedContract) : Prop := fp_security_type (pc_fingerprint c) ≠ "IND".

Lemma plan_contracts_Ok contracts n0 n :
  for_each (count_contract profile classes (dt_diff end_ start)) n0 contracts = Ok n →
  Forall midpoint_capable contracts →
  ∃ reqs, traverse (plan_contract profile classes start end_) contracts = Ok reqs ∧
    Forall2 contract_requests contracts reqs ∧ n = n0 + Z.of_nat (length (concat reqs)).
Proof.
  revert n0. induction contracts as [|c cs IH]; intros n0; cbn [for_each].
  { intros [= <-] _. exists []. split_and!; [done|constructor|cbn; lia]. }
  intros (n1 & Hc & H)%bind_Ok [Hind Hcs]%Forall_cons. destruct (IH _ H Hcs) as (reqs & Er & Hr & Hn). clear IH H.
  unfold count_contract in Hc. apply bind_Ok in Hc as ([bar schedule] & Hd & Hc).
  apply bind_Ok in Hc as (b & Hb & Hc). apply bind_Ok in Hc as (s & Hs & [= <-]).
  assert (instant start <= instant end_) as Hle by lia. apply String.eqb_neq in Hind.
  destruct (planned_requests_Ok c MIDPOINT_BARS start end_ bar b start_utc end_utc start_minute end_minute Hle
    (λ _, Hind) Hb) as (bars & Eb & Hb1 & Hb2 & Hb3).
  destruct (planned_requests_Ok c SCHEDULE start end_ schedule s start_utc end_utc start_minute end_minute Hle
    ltac:(done) Hs) as (scheds & Es & Hs1 & Hs2 & Hs3).
  exists ((bars ++ scheds) :: reqs). split_and!.
  - apply traverse_Ok. apply traverse_Ok in Er. constructor; [|done].
    unfold plan_contract. rewrite Hd. cbn [mbind res_bind]. rewrite Eb. cbn [mbind res_bind]. by rewrite Es.
  - constructor; [by exists bars, scheds|done].
  - cbn [concat]. rewrite !length_app. lia.
Qed.

(** The requests of one contract and kind are a chain over the range. *)
Lemma owned_chain contracts reqs c kind :
  Forall2 contract_requests contracts reqs → NoDup (map pc_instrument_id contracts) → c ∈ contracts →
  ∃ rs, List.filter (owned_by (pc_instrument_id c) kind) (concat reqs) = rs ∧
        pair_requests c kind rs ∧ chain (instant start) (instant end_) rs.
Proof.
  clear start_utc end_utc start_minute end_minute range.
  induction 1 as [|d rs ds rss Hd Hds IH]; intros Hn Hc; [set_solver|].
  cbn [map] in Hn. apply NoDup_cons in Hn as [Hni Hn]. cbn [concat]. rewrite List.filter_app.
  destruct Hd as (bars & scheds & -> & [Hb1 Hb2] & [Hs1 Hs2]).
  rewrite List.filter_app, (owned_pair _ _ _ _ _ Hb1), (owned_pair _ _ _ _ _ Hs1).
  apply elem_of_cons in Hc as [->|Hc].
  - assert (List.filter (owned_by (pc_instrument_id d) kind) (concat rss) = []) as ->.
    { clear - Hds Hni. induction Hds as [|e rs es rss He Hes IH]; [done|]. cbn [map concat] in *.
      apply not_elem_of_cons in Hni as [Hne Hni]. rewrite List.filter_app, (IH Hni).
      destruct He as (b & s & -> & [Hb _] & [Hs _]). rewrite List.filter_app, (owned_pair _ _ _ _ _ Hb), (owned_pair _ _ _ _ _ Hs).
      by rewrite !decide_False by naive_solver. }
    rewrite app_nil_r. destruct kind.
    + rewrite decide_True by done. rewrite decide_False by (by intros [_ ?]). rewrite app_nil_r. eauto.
    + rewrite decide_False by (by intros [_ ?]). rewrite decide_True by done. eauto.
  - assert (pc_instrument_id d ≠ pc_instrument_id c) as Hne.
    { intros E. apply Hni. rewrite E. apply list_elem_of_fmap. eauto. }
    rewrite !decide_False by naive_solver. cbn [app]. by apply IH.
Qed.

Lemma coverage_loop_Ok k i rs a : chain (instant a) (instant end_) rs →
  ∃ c, for_each (coverage_step end_ k i) a rs = Ok c ∧ instant c = instant end_.
Proof.
  revert a. induction rs as [|r rs IH]; intros a; cbn; [by exists a|]. intros (Hs & Hlt & H).
  assert (coverage_step end_ k i a r = Ok (hr_interval_end r)) as ->.
  { unfold coverage_step. replace (dt_eqb (hr_interval_start r) a) with true by (unfold dt_eqb; lia).
    apply chain_le in H as Hle. by replace (dt_ltb end_ (hr_interval_end r)) with false by (unfold dt_ltb; lia). }
  cbn. by apply IH.
Qed.

Lemma coverage_complete requests rs id kind : requests ≡ₚ rs → chain (instant start) (instant end_) rs →
  _verify_request_coverage requests start end_ id kind = Ok tt.
Proof.
  intros Hp Hch. unfold _verify_request_coverage. cbv zeta.
  assert (py_sorted request_start requests = rs) as Hs.
  { transitivity (py_sorted request_start rs); [|apply py_sorted_id; by eapply chain_sorted].
    apply py_sorted_perm_eq; [|done]. intros x y Hx Hy E. rewrite Hp in Hx, Hy. by eapply chain_start_inj. }
  fold request_start. rewrite Hs.
  destruct (coverage_loop_Ok (IbkrHistoricalRequestKind_str kind) id rs start Hch) as (c & Ec & Hc).
  assert (Nat.eqb (length requests) 0 = false) as ->.
  { rewrite Hp. destruct rs; [cbn in Hch; lia|done]. }
  rewrite Ec. cbn. by replace (dt_eqb c end_) with true by (unfold dt_eqb; lia).
Qed.
End planner.

(** ** Request identities *)

Definition request_ident (r : IbkrHistoricalRequest) : string * IbkrHistoricalRequestKind * Z :=
  (hr_instrument_id r, hr_kind r, request_start r).

Lemma chain_starts_NoDup a b rs : chain a b rs → NoDup (map request_start rs).
Proof.
  revert a. induction rs as [|r rs IH]; intros a; cbn; [constructor|]. intros (Hs & Hlt & H).
  apply NoDup_cons. split; [|by eapply IH]. intros (x & E & Hx)%list_elem_of_fmap.
  apply (chain_bounds _ _ _ _ H) in Hx as [Hx _]. unfold request_start in *. lia.
Qed.

Lemma pair_idents_NoDup c kind a b rs : pair_requests c kind rs → chain a b rs → NoDup (map request_ident rs).
Proof.
  intros Hp Hch. apply (NoDup_fmap_1 snd). rewrite <- list_fmap_compose. exact (chain_starts_NoDup _ _ _ Hch).
Qed.

Lemma elem_of_concat_requests start end_ contracts reqs r : Forall2 (contract_requests start end_) contracts reqs →
  r ∈ concat reqs →
  ∃ c, c ∈ contracts ∧ hr_instrument_id r = pc_instrument_id c ∧ hr_fingerprint r = pc_fingerprint c ∧
    IbkrHistoricalRequest_post_init r = Ok tt ∧ instant start <= request_start r < instant end_.
Proof.
  induction 1 as [|c rs cs rss Hc _ IH]; cbn [concat]; [set_solver|]. intros [Hr|Hr]%elem_of_app.
  - destruct Hc as (bars & scheds & -> & [Hb Hbc] & [Hs Hsc]). exists c. split; [set_solver|].
    apply elem_of_app in Hr as [Hr|Hr].
    + destruct (Hb r Hr) as (? & ? & _ & Hv). apply (chain_bounds _ _ _ _ Hbc) in Hr. apply request_valid_order in Hv as Ho.
      unfold request_start in *. split_and!; try done; lia.
    + destruct (Hs r Hr) as (? & ? & _ & Hv). apply (chain_bounds _ _ _ _ Hsc) in Hr. apply request_valid_order in Hv as Ho.
      unfold request_start in *. split_and!; try done; lia.
  - destruct (IH Hr) as (d & Hd & H). exists d. split; [set_solver|done].
Qed.

Lemma idents_NoDup start end_ contracts reqs : Forall2 (contract_requests start end_) contracts reqs →
  NoDup (map pc_instrument_id contracts) → NoDup (map request_ident (concat reqs)).
Proof.
  induction 1 as [|c rs cs rss Hc Hcs IH]; cbn [concat map]; [constructor|]. intros [Hni Hn]%NoDup_cons.
  rewrite map_app. apply NoDup_app. split_and!; [| |by apply IH].
  - destruct Hc as (bars & scheds & -> & [Hb Hbc] & [Hs Hsc]). rewrite map_app. apply NoDup_app. split_and!.
    + by eapply pair_idents_NoDup.
    + intros x (r & -> & Hr)%list_elem_of_fmap (r' & E & Hr')%list_elem_of_fmap.
      destruct (Hb r Hr) as (_ & _ & Hk & _), (Hs r' Hr') as (_ & _ & Hk' & _). injection E as _ E _. congruence.
    + by eapply pair_idents_NoDup.
  - intros x (r & -> & Hr)%list_elem_of_fmap (r' & E & Hr')%list_elem_of_fmap. apply Hni.
    assert (r ∈ concat [rs]) as Hr1 by (cbn; set_solver).
    apply (elem_of_concat_requests start end_ [c] [rs]) in Hr1 as (c1 & Hc1 & Hi & _); [|by repeat constructor].
    apply (elem_of_concat_requests _ _ _ _ _ Hcs) in Hr' as (c2 & Hc2 & Hi' & _).
    injection E as E _ _. apply list_elem_of_fmap. exists c2. split; [|done].
    apply list_elem_of_singleton in Hc1 as ->. congruence.
Qed.

Lemma request_valid_payload r : IbkrHistoricalRequest_post_init r = Ok tt →
  is_utc (hr_interval_start r) ∧
  ∃ d, request_payload r = Ok d ∧ float_free (JObj d) = true ∧ hr_request_sha256 r = sha256_json (JObj d).
Proof.
  intros H. unfold IbkrHistoricalRequest_post_init in H.
  apply bind_Ok in H as (? & Hs & H). apply require_utc_Ok in Hs as [Hs _].
  apply bind_Ok in H as (? & He & H). apply require_utc_Ok in He as [He _]. split; [done|].
  do 8 apply bind_Ok in H as (? & _ & H). apply bind_Ok in H as (d & Hd & H). apply raise_if_Ok in H. bool_prop.
  apply String.eqb_eq in H. exists d. split_and!; try done.
  unfold request_payload in Hd. rewrite !artefact_time_utc in Hd by done. injection Hd as <-.
  cbn. unfold json_opt_str, json_opt_int. by repeat case_match.
Qed.

Lemma payload_ident r1 r2 d1 d2 :
  IbkrHistoricalRequest_post_init r1 = Ok tt → IbkrHistoricalRequest_post_init r2 = Ok tt →
  year_ok (hr_interval_start r1) → year_ok (hr_interval_start r2) →
  request_payload r1 = Ok d1 → request_payload r2 = Ok d2 → canon (JObj d1) = canon (JObj d2) →
  request_ident r1 = request_ident r2.
Proof.
  intros H1 H2 Y1 Y2 E1 E2 Hc. apply request_valid_payload in H1 as [U1 _], H2 as [U2 _].
  unfold request_payload in E1, E2. rewrite (artefact_time_utc _ U1) in E1. rewrite (artefact_time_utc _ U2) in E2.
  cbn [mbind res_bind] in E1, E2.
  apply bind_Ok in E1 as (t1 & _ & [= <-]), E2 as (t2 & _ & [= <-]).
  apply canon_obj_inj in Hc; [|by apply (bool_decide_unpack _)|done].
  apply (f_equal (λ l : list json, (l !! 0, l !! 2, l !! 3)%nat)) in Hc. cbn [map lookup list_lookup compose snd canon] in Hc.
  injection Hc as Hi Hk Hs. apply utc_text_inj in Hs; [|done..].
  unfold request_ident, request_start. rewrite Hi, Hs. do 2 f_equal. by destruct (hr_kind r1), (hr_kind r2).
Qed.

Lemma NoDup_or_same {A} (f : A → string) (l : list A) :
  NoDup (map f l) ∨ ∃ i j x y, i ≠ j ∧ l !! i = Some x ∧ l !! j = Some y ∧ f x = f y.
Proof.
  induction l as [|x l IH]; [left; constructor|].
  destruct (decide (f x ∈ map f l)) as [(y & E & [j Hj]%list_elem_of_lookup)%list_elem_of_fmap|Hn].
  - right. exists 0%nat, (S j), x, y. done.
  - destruct IH as [IH|(i & j & a & b & Hij & Hi & Hj & E)]; [left; by apply NoDup_cons|].
    right. exists (S i), (S j), a, b. split_and!; [lia|done..].
Qed.

(** The hashes of generated requests are distinct, or two of them collide. *)
Definition requests_collide (rs : list IbkrHistoricalRequest) : Prop :=
  ∃ r1 r2 d1 d2, r1 ∈ rs ∧ r2 ∈ rs ∧ request_payload r1 = Ok d1 ∧ request_payload r2 = Ok d2 ∧
    sha256_collision (dumps (JObj d1)) (dumps (JObj d2)).

Lemma request_hashes_distinct start end_ contracts reqs :
  Forall2 (contract_requests start end_) contracts reqs → NoDup (map pc_instrument_id contracts) →
  0 <= instant start → instant end_ <= 2786860 * us_per_day →
  NoDup (map hr_request_sha256 (concat reqs)) ∨ requests_collide (concat reqs).
Proof.
  intros Hr Hn Hlo Hhi. destruct (NoDup_or_same hr_request_sha256 (concat reqs))
    as [|(i & j & r1 & r2 & Hij & H1 & H2 & E)]; [by left|right].
  pose proof (list_elem_of_lookup_2 _ _ _ H1) as M1. pose proof (list_elem_of_lookup_2 _ _ _ H2) as M2.
  destruct (elem_of_concat_requests _ _ _ _ _ Hr M1) as (_ & _ & _ & _ & V1 & R1).
  destruct (elem_of_concat_requests _ _ _ _ _ Hr M2) as (_ & _ & _ & _ & V2 & R2).
  destruct (request_valid_payload _ V1) as (U1 & d1 & P1 & F1 & S1).
  destruct (request_valid_payload _ V2) as (U2 & d2 & P2 & F2 & S2).
  exists r1, r2, d1, d2. split_and!; try done.
  destruct (sha256_json_inj _ _ F1 F2 ltac:(congruence)) as [Hc|]; [|done]. exfalso.
  assert (request_ident r1 = request_ident r2) as Hid.
  { eapply payload_ident; try done; apply year_ok_range; unfold request_start, instant in *;
      [rewrite U1 in R1|rewrite U2 in R2]; cbn in *; lia. }
  apply Hij. eapply (NoDup_lookup _ _ _ (request_ident r1)); [exact (idents_NoDup _ _ _ _ Hr Hn)|..];
    rewrite list_lookup_fmap, ?H1, ?H2; cbn; congruence.
Qed.

(** ** The plan passes its own checks *)

Lemma bind_intro {A B} (m : res A) (f : A → res B) x y : m = Ok x → f x = Ok y → (m ≫= f) = Ok y.
Proof. by intros ->. Qed.

Lemma accepted_NoDup selection : IbkrContractSelection_post_init selection = Ok tt →
  NoDup (map pc_instrument_id (accepted_contracts selection)).
Proof.
  intros H. unfold IbkrContractSelection_post_init in H. do 5 apply bind_Ok in H as (? & _ & H).
  apply bind_Ok in H as (? & Hd & _). apply raise_if_Ok, has_duplicates_false in Hd. revert Hd.
  unfold accepted_contracts. rewrite py_sorted_perm. generalize (cs_decisions selection) as l. clear.
  induction l as [|d l IH]; cbn; [done|]. intros [Hni Hn]%NoDup_cons. rewrite map_app. apply NoDup_app. split_and!.
  - destruct (eligible d), (cd_fingerprint d); cbn; repeat constructor; set_solver.
  - intros x Hx (c & -> & Hc)%list_elem_of_fmap. apply Hni.
    assert (pc_instrument_id c = cd_instrument_id d) as <-.
    { destruct (eligible d), (cd_fingerprint d); cbn in Hx; set_solver. }
    apply list_elem_of_In, in_flat_map in Hc as (d' & Hd' & Hc). apply list_elem_of_fmap. exists d'.
    rewrite list_elem_of_In. split; [|done].
    destruct (eligible d'), (cd_fingerprint d'); cbn in Hc; try done. by destruct Hc as [<-|[]].
  - by apply IH.
Qed.

Lemma request_json_Ok l : (∀ r, r ∈ l → IbkrHistoricalRequest_post_init r = Ok tt) → ∃ js, traverse request_json l = Ok js.
Proof.
  induction l as [|r l IH]; intros H; [by exists []|]. destruct IH as [js E]; [intros; apply H; set_solver|].
  destruct (request_valid_payload r) as (_ & d & Ed & _); [apply H; set_solver|].
  exists (JObj (d ++ [("request_sha256", JStr (hr_request_sha256 r))]) :: js).
  apply traverse_Ok. apply traverse_Ok in E. constructor; [|done]. unfold request_json. by rewrite Ed.
Qed.

Lemma expected_fingerprint_Ok contracts c : NoDup (map pc_instrument_id contracts) → c ∈ contracts →
  expected_fingerprint contracts (pc_instrument_id c) = Some (pc_fingerprint c).
Proof.
  unfold expected_fingerprint. induction contracts as [|d l IH]; [set_solver|]. cbn. intros [Hni Hn]%NoDup_cons Hc.
  destruct (String.eqb_spec (pc_instrument_id d) (pc_instrument_id c)) as [E|E].
  - apply elem_of_cons in Hc as [->|Hc]; [done|]. exfalso. apply Hni. rewrite E. apply list_elem_of_fmap. eauto.
  - apply elem_of_cons in Hc as [->|Hc]; [done|]. by apply IH.
Qed.

Lemma filter_perm {A} (f : A → bool) l l' : l ≡ₚ l' → List.filter f l ≡ₚ List.filter f l'.
Proof.
  induction 1 as [|x l l' _ IH|x y l|l1 l2 l3 _ IH1 _ IH2]; cbn; [done| | |by etransitivity].
  - destruct (f x); [by rewrite IH|done].
  - destruct (f x), (f y); try done. constructor.
Qed.

Lemma owned_chain_perm start end_ contracts reqs requests c kind :
  Forall2 (contract_requests start end_) contracts reqs → NoDup (map pc_instrument_id contracts) →
  requests ≡ₚ concat reqs → c ∈ contracts →
  ∃ rs, List.filter (owned_by (pc_instrument_id c) kind) requests ≡ₚ rs ∧ pair_requests c kind rs ∧
        chain (instant start) (instant end_) rs.
Proof.
  intros Hr Hn Hperm Hc. destruct (owned_chain _ _ _ _ c kind Hr Hn Hc) as (rs & <- & H).
  exists (List.filter (owned_by (pc_instrument_id c) kind) (concat reqs)). split; [by apply filter_perm|done].
Qed.

(** Every eligible instrument has a request. *)
Lemma closure_covered start end_ contracts reqs requests id :
  Forall2 (contract_requests start end_) contracts reqs → NoDup (map pc_instrument_id contracts) →
  requests ≡ₚ concat reqs → instant start < instant end_ →
  id ∈ map pc_instrument_id contracts → id ∈ map hr_instrument_id requests.
Proof.
  intros Hr Hn Hperm Hlt (c & -> & Hc)%list_elem_of_fmap.
  destruct (owned_chain_perm _ _ _ _ _ c SCHEDULE Hr Hn Hperm Hc) as (rs & Hp & Hpr & Hch).
  destruct rs as [|r rs]; [cbn in Hch; lia|]. destruct (Hpr r ltac:(set_solver)) as (<- & _).
  apply list_elem_of_fmap. exists r. split; [done|].
  assert (r ∈ List.filter (owned_by (pc_instrument_id c) SCHEDULE) requests) as Hin by (rewrite Hp; set_solver).
  by apply elem_of_filter_bool in Hin as [? _].
Qed.

Lemma plan_payload_Ok p : is_utc (hp_start p) → is_utc (hp_end p) →
  (∀ r, r ∈ hp_requests p → IbkrHistoricalRequest_post_init r = Ok tt) → ∃ payload, plan_payload p = Ok payload.
Proof.
  intros Us Ue H. destruct (request_json_Ok (py_sorted _historical_request_sort_key (hp_requests p))) as [js E].
  { intros r Hin%elem_of_py_sorted. by apply H. }
  unfold plan_payload. rewrite !artefact_time_utc, E by done. by eexists.
Qed.

(** The checks of a plan whose requests are the planner's. *)
Lemma plan_checks_Ok p reqs :
  is_sha256 (hp_contract_selection_sha256 p) = true → is_sha256 (hp_runtime_sha256 p) = true →
  is_sha256 (hp_request_profile_sha256 p) = true → hp_provider p = "ibkr" → hp_environment p = "paper" →
  is_commit (hp_planner_qtrad_commit p) = true → is_image (hp_planner_qtrad_image_digest p) = true →
  is_utc (hp_start p) → is_utc (hp_end p) → instant (hp_start p) < instant (hp_end p) →
  off_minute (hp_start p) = false → off_minute (hp_end p) = false →
  hp_eligible_contracts p ≠ [] → NoDup (map pc_instrument_id (hp_eligible_contracts p)) →
  Forall2 (contract_requests (hp_start p) (hp_end p)) (hp_eligible_contracts p) reqs →
  hp_requests p ≡ₚ concat reqs → NoDup (map hr_request_sha256 (concat reqs)) →
  (∀ payload, plan_payload p = Ok payload → hp_plan_sha256 p = sha256_json (JObj payload)) →
  IbkrHistoricalPlan_post_init p = Ok tt.
Proof.
  intros S1 S2 S3 Hprov Henv Hcom Himg Us Ue Hlt Os Oe Hne Hn Hr Hperm Hsha Hh.
  assert (∀ r, r ∈ hp_requests p → ∃ c, c ∈ hp_eligible_contracts p ∧ hr_instrument_id r = pc_instrument_id c ∧
    hr_fingerprint r = pc_fingerprint c ∧ IbkrHistoricalRequest_post_init r = Ok tt) as Hreq.
  { intros r Hin. rewrite Hperm in Hin. destruct (elem_of_concat_requests _ _ _ _ _ Hr Hin) as (c & ? & ? & ? & ? & _). eauto 6. }
  destruct (plan_payload_Ok p Us Ue) as [payload Epay].
  { intros r Hin. by destruct (Hreq r Hin) as (_ & _ & _ & _ & ?). }
  assert (has_duplicates (map hr_request_sha256 (hp_requests p)) = false) as Hdup.
  { apply has_duplicates_false. by rewrite Hperm. }
  assert (hp_requests p ≠ []) as Hnr.
  { destruct (hp_eligible_contracts p) as [|c cs] eqn:Ec; [done|].
    pose proof (closure_covered _ _ _ _ _ (pc_instrument_id c) Hr Hn Hperm Hlt ltac:(cbn; set_solver)) as Hid.
    destruct (hp_requests p); [cbn in Hid; set_solver|done]. }
  unfold IbkrHistoricalPlan_post_init.
  apply (bind_intro _ _ tt); [apply for_each_unit|].
  { intros nv Hin. unfold _require_sha256_digest.
    assert (is_sha256 nv.2 = true) as ->; [|done].
    repeat (apply elem_of_cons in Hin as [->|Hin]; [done || (rewrite (Hh _ Epay); apply sha256_json_is_sha256)|]).
    by apply elem_of_nil in Hin. }
  rewrite Hprov, Henv, Hcom, Himg, !require_utc_is_utc, Os, Oe by done. cbn [String.eqb Ascii.eqb Bool.eqb negb orb raise_if mbind res_bind].
  replace (dt_leb (hp_end p) (hp_start p)) with false by (unfold dt_leb; lia). cbn [raise_if mbind res_bind].
  replace (Nat.eqb (length (hp_eligible_contracts p)) 0) with false by (by destruct (hp_eligible_contracts p)).
  cbn [raise_if mbind res_bind]. cbv zeta.
  replace (has_duplicates (map pc_instrument_id (hp_eligible_contracts p))) with false
    by (symmetry; by apply has_duplicates_false).
  cbn [raise_if mbind res_bind].
  replace (Nat.eqb (length (hp_requests p)) 0) with false by (by destruct (hp_requests p)).
  rewrite Hdup. cbn [raise_if mbind res_bind].
  apply (bind_intro _ _ tt); [apply raise_if_Ok, negb_false_iff, andb_true_iff; split; apply forallb_forall|].
  { intros r Hin%list_elem_of_In. apply bool_decide_eq_true. destruct (Hreq r Hin) as (c & Hc & -> & _).
    apply list_elem_of_fmap. eauto. }
  { intros id Hin%list_elem_of_In. apply bool_decide_eq_true. by eapply closure_covered. }
  apply (bind_intro _ _ tt); [apply for_each_unit|].
  { intros r Hin. destruct (Hreq r Hin) as (c & Hc & -> & -> & _). rewrite expected_fingerprint_Ok by done.
    by rewrite bool_decide_true. }
  apply (bind_intro _ _ tt); [apply for_each_unit|].
  { intros id (c & -> & Hc)%list_elem_of_fmap. apply for_each_unit. intros kind _.
    destruct (owned_chain_perm _ _ _ _ _ c kind Hr Hn Hperm Hc) as (rs & Hp & _ & Hch).
    by eapply coverage_complete. }
  rewrite Epay. cbn [mbind res_bind]. rewrite (Hh _ Epay), String.eqb_refl. done.
Qed.

Lemma selection_sha selection : IbkrContractSelection_post_init selection = Ok tt →
  is_sha256 (cs_selection_sha256 selection) = true.
Proof.
  intros H. unfold IbkrContractSelection_post_init in H. do 6 apply bind_Ok in H as (? & _ & H).
  apply bind_Ok in H as (d & _ & H). apply raise_if_Ok in H. bool_prop. apply String.eqb_eq in H.
  rewrite H. apply sha256_json_is_sha256.
Qed.
Lemma runtime_facts runtime : IbkrAcquisitionRuntime_post_init runtime = Ok tt →
  is_sha256 (rt_runtime_sha256 runtime) = true ∧ is_commit (rt_qtrad_commit runtime) = true ∧
  is_image (rt_qtrad_image_digest runtime) = true.
Proof.
  intros H. unfold IbkrAcquisitionRuntime_post_init in H. apply bind_Ok in H as (? & Hc & H).
  apply bind_Ok in H as (? & Hi & H). do 9 apply bind_Ok in H as (? & _ & H).
  apply bind_Ok in H as (d & _ & H). apply raise_if_Ok in Hc, Hi, H. bool_prop. apply String.eqb_eq in H.
  split_and!; [rewrite H; apply sha256_json_is_sha256|done|done].
Qed.
Lemma profile_sha profile : IbkrHistoricalRequestProfile_post_init profile = Ok tt →
  is_sha256 (rq_profile_sha256 profile) = true.
Proof.
  intros H. unfold IbkrHistoricalRequestProfile_post_init in H. do 8 apply bind_Ok in H as (? & _ & H).
  apply bind_Ok in H as (? & Hs & _). apply raise_if_Ok in Hs. by bool_prop.
Qed.

(** C22: From a valid selection, runtime lock and request profile, a minute-aligned UTC range
    before the year 9600, an index selection that passes its check, at least one eligible
    contract and none of type IND, the planner always returns a plan that passes all of its own
    checks and holds exactly the number of requests counted beforehand - or two of the generated
    requests have different contents with the same SHA-256. *)
Theorem planner_output_valid selection runtime profile classes start end_ n :
  IbkrContractSelection_post_init selection = Ok tt → IbkrAcquisitionRuntime_post_init runtime = Ok tt →
  IbkrHistoricalRequestProfile_post_init profile = Ok tt →
  is_utc start → is_utc end_ → off_minute start = false → off_minute end_ = false →
  0 <= instant start < instant end_ → instant end_ <= 2786860 * us_per_day →
  validate_ibkr_historical_index_selection selection classes = Ok tt →
  accepted_contracts selection ≠ [] → Forall midpoint_capable (accepted_contracts selection) →
  for_each (count_contract profile classes (dt_diff end_ start)) 0 (accepted_contracts selection) = Ok n →
  n <= MAX_PLANNED_REQUESTS →
  (∃ p, build_ibkr_historical_plan selection runtime profile classes start end_
          (rt_qtrad_commit runtime) (rt_qtrad_image_digest runtime) = Ok p ∧
        IbkrHistoricalPlan_post_init p = Ok tt ∧ Z.of_nat (length (hp_requests p)) = n ∧
        hp_start p = start ∧ hp_end p = end_ ∧ hp_eligible_contracts p = accepted_contracts selection) ∨
  (∃ reqs, traverse (plan_contract profile classes start end_) (accepted_contracts selection) = Ok reqs ∧
           requests_collide (concat reqs)).
Proof.
  intros Hsel Hrun Hprof Us Ue Os Oe [Hlo Hlt] Hhi Hidx Hne Hind Hcount Hmax.
  apply accepted_NoDup in Hsel as Hn. destruct (runtime_facts _ Hrun) as (Srun & Hcom & Himg).
  destruct (plan_contracts_Ok profile classes start end_ Us Ue Os Oe Hlt _ _ _ Hcount Hind) as (reqs & Er & Hr & Hlen).
  destruct (request_hashes_distinct _ _ _ _ Hr Hn Hlo Hhi) as [Hd|Hc]; [left|right; by exists reqs].
  unfold build_ibkr_historical_plan. rewrite !require_utc_is_utc, Os, Oe, Hidx by done. cbn [mbind res_bind].
  replace (dt_leb end_ start) with false by (unfold dt_leb; lia). cbn [raise_if orb mbind res_bind]. cbv zeta.
  replace (Nat.eqb (length (accepted_contracts selection)) 0) with false by (by destruct (accepted_contracts selection)).
  rewrite !String.eqb_refl, Hcount. cbn [raise_if negb mbind res_bind].
  replace (MAX_PLANNED_REQUESTS <? n) with false by lia. cbn [raise_if mbind res_bind]. rewrite Er. cbn [mbind res_bind].
  match goal with |- context [plan_payload ?q] => destruct (plan_payload_Ok q) as [payload Epay]; [done..| |] end.
  { intros r Hin. cbn [hp_requests] in Hin. apply elem_of_py_sorted in Hin.
    by destruct (elem_of_concat_requests _ _ _ _ _ Hr Hin) as (_ & _ & _ & _ & ? & _). }
  rewrite Epay. cbn [mbind res_bind].
  match goal with |- ∃ p, (IbkrHistoricalPlan_post_init ?q;; _) = _ ∧ _ => set (p := q) end.
  assert (IbkrHistoricalPlan_post_init p = Ok tt) as Hv.
  { apply (plan_checks_Ok p reqs); try done.
    - by apply selection_sha.
    - by apply profile_sha.
    - apply py_sorted_perm.
    - intros d Hdp. assert (payload = d) as -> by (cut (Ok payload = Ok d); [by intros [= ->]|]; rewrite <- Hdp, <- Epay; done).
      done. }
  exists p. rewrite Hv. split_and!; try done. cbn [p hp_requests]. rewrite length_py_sorted. lia.
Qed.

(** ** Witnesses *)

Definition sample_hash : string := "0123456789abcdef0123456789abcdef0123456789abcdef0123456789abcdef".
Definition sample_fingerprint : IbkrContractFingerprint :=
  mkFingerprint 12087792 "EUR" "CASH" "USD" "IDEALPRO" None "EUR.USD" (Some "EUR.USD") None None None.
Definition sample_selection : IbkrContractSelection :=
  let unsigned sha := mkSelection sample_hash "catalogue" sample_hash "probe" sample_hash "10.30" sample_hash
    "operator" (utc 0) [mkDecision "fx:eurusd" ACCEPTED_EXACT_CONTRACT true (Some sample_fingerprint) None []] sha in
  unsigned (sha256_json (JObj (ok_or [] (selection_payload (unsigned ""))))).
Definition sample_archive : IbkrArchiveIdentity := mkArchive "gateway.zip" sample_hash.
Definition sample_commit : string := "0123456789abcdef0123456789abcdef01234567".
Definition sample_runtime : IbkrAcquisitionRuntime :=
  let unsigned sha := mkRuntime "10.30" sample_archive "10.30" sample_archive "3.20" sample_archive sample_commit
    ("sha256:" +:+ sample_hash) "3.13" [("ibapi", "10.30")] sample_hash "paper" "127.0.0.1" 4002
    "DEDICATED_NONZERO_CLIENT_ID" (utc 0) sha in
  unsigned (sha256_json (JObj (ok_or [] (runtime_payload (unsigned ""))))).
Definition sample_profile : IbkrHistoricalRequestProfile :=
  let unsigned sha := mkProfile "canary.json" sample_hash sample_hash sample_hash sample_hash "operator" (utc 0)
    ["1 D"; "1 W"] ["4 W"] [(FX, "1 D"); (INDEX, "1 W"); (COMMODITY, "1 W")] "4 W" 1 60 2
    "PLAN_REQUEST_ID_UNIQUE_NO_RERUN" (mkPacing 15 2 5 600 59) sha in
  unsigned (sha256_json (JObj (ok_or [] (profile_payload (unsigned ""))))).
Definition sample_classes : gmap string AssetClass := {["fx:eurusd" := FX]}.
Definition sample_end : datetime := utc (hours 36).

Lemma planner_output_valid_witness :
  (∃ p, build_ibkr_historical_plan sample_selection sample_runtime sample_profile sample_classes (utc 0) sample_end
          (rt_qtrad_commit sample_runtime) (rt_qtrad_image_digest sample_runtime) = Ok p ∧
        IbkrHistoricalPlan_post_init p = Ok tt ∧ Z.of_nat (length (hp_requests p)) = 3 ∧
        hp_start p = utc 0 ∧ hp_end p = sample_end ∧
        hp_eligible_contracts p = accepted_contracts sample_selection) ∨
  (∃ reqs, traverse (plan_contract sample_profile sample_classes (utc 0) sample_end)
             (accepted_contracts sample_selection) = Ok reqs ∧ requests_collide (concat reqs)).
Proof.
  apply (planner_output_valid sample_selection sample_runtime sample_profile sample_classes (utc 0) sample_end 3);
    try (vm_compute; reflexivity); try (vm_compute; discriminate).
  { vm_compute. split; [discriminate|reflexivity]. }
  repeat constructor. vm_compute. discriminate.
Defined.

Definition sample_plan : IbkrHistoricalPlan :=
  ok_or (mkHistoricalPlan "" "" "" "" "" "" "" (utc 0) (utc 0) [] [] "")
    (build_ibkr_historical_plan sample_selection sample_runtime sample_profile sample_classes (utc 0) sample_end
       (rt_qtrad_commit sample_runtime) (rt_qtrad_image_digest sample_runtime)).
Definition sample_contract : IbkrPlannedContract := mkPlanned "fx:eurusd" sample_fingerprint.

Lemma sample_plan_checked : IbkrHistoricalPlan_post_init sample_plan = Ok tt.
Proof. vm_compute. reflexivity. Qed.
Lemma sample_plan_requests_checked :
  forallb (λ r, bool_decide (IbkrHistoricalRequest_post_init r = Ok tt)) (hp_requests sample_plan) = true.
Proof. vm_compute. reflexivity. Qed.
Lemma sample_plan_contract : sample_contract ∈ hp_eligible_contracts sample_plan.
Proof. vm_compute. constructor. Qed.
Lemma sample_plan_range : instant (hp_start sample_plan) <= minutes 2000 < instant (hp_end sample_plan).
Proof. vm_compute. split; [discriminate|reflexivity]. Qed.

Lemma plan_partitions_range_witness :
  ∃ r, r ∈ hp_requests sample_plan ∧ hr_kind r = MIDPOINT_BARS ∧ owns r (minutes 2000).
Proof.
  destruct (plan_partitions_range sample_plan sample_contract MIDPOINT_BARS (minutes 2000) sample_plan_checked)
    as (r & (H1 & _ & H2 & H3) & _).
  - intros r Hr. pose proof sample_plan_requests_checked as H. rewrite forallb_forall in H.
    apply list_elem_of_In, H, bool_decide_eq_true in Hr. exact Hr.
  - exact sample_plan_contract.
  - exact sample_plan_range.
  - exists r. exact (conj H1 (conj H2 H3)).
Defined.
