(* ===== verification/IbkrStore.v ===== *)
(** Durable execution state of IBKR historical requests: the values of
    [domain/ibkr_execution.py] and the transactions of [adapters/postgres/ibkr_historical.py].

    A transaction runs atomically (the rows it works on are locked): it is a function into
    [res], and one that raises leaves the database as it was. The columns of the attempt,
    callback and marker tables are the fields of the dataclasses read back from them, so the
    tables hold those records; a dataclass the source constructs after its transaction has
    committed only repeats checks already made, and is constructed before. Identity columns are counted from one. Callback payloads are
    JSON objects already, which [to_json_value] copies. *)

From S2P Require Import Prelude PySorted PyStr PyTime PyDecimal Sha256 PyJson PyParse Domain Storage EventStore CaptureFeed IbkrPlan.
From Stdlib Require Import Ascii.

(** ** domain/ibkr_execution.py *)

Definition MAX_IBKR_PLAN_BYTES : Z := 16 * 1024 * 1024.

Inductive IbkrHistoricalCallbackKind : Type := CB_MIDPOINT_BAR | CB_SCHEDULE | CB_COMPLETION | CB_ERROR.
#[export] Instance IbkrHistoricalCallbackKind_eq_dec : EqDecision IbkrHistoricalCallbackKind.
Proof. solve_decision. Defined.

Inductive IbkrAttemptStatus : Type := STARTED | ATT_SUCCEEDED | RETRYABLE_FAILURE | INVALIDATED | TERMINAL_FAILURE.
#[export] Instance IbkrAttemptStatus_eq_dec : EqDecision IbkrAttemptStatus.
Proof. solve_decision. Defined.

Inductive IbkrRequestStatus : Type := REQ_PENDING | IN_FLIGHT | REQ_SUCCEEDED | TERMINAL.
#[export] Instance IbkrRequestStatus_eq_dec : EqDecision IbkrRequestStatus.
Proof. solve_decision. Defined.

Inductive IbkrTerminalDisposition : Type :=
| TD_SUCCEEDED | CONTRACT_IDENTITY_CHANGED | ENTITLEMENT_UNAVAILABLE | NO_DATA_RETURNED | INVALID_REQUEST
| RETRY_LIMIT_EXHAUSTED | PROVIDER_REJECTED | SESSION_EVIDENCE_UNAVAILABLE | INCOMPLETE_RESPONSE.
#[export] Instance IbkrTerminalDisposition_eq_dec : EqDecision IbkrTerminalDisposition.
Proof. solve_decision. Defined.
Definition IbkrTerminalDisposition_str (d : IbkrTerminalDisposition) : string :=
  match d with
  | TD_SUCCEEDED => "SUCCEEDED" | CONTRACT_IDENTITY_CHANGED => "CONTRACT_IDENTITY_CHANGED"
  | ENTITLEMENT_UNAVAILABLE => "ENTITLEMENT_UNAVAILABLE" | NO_DATA_RETURNED => "NO_DATA_RETURNED"
  | INVALID_REQUEST => "INVALID_REQUEST" | RETRY_LIMIT_EXHAUSTED => "RETRY_LIMIT_EXHAUSTED"
  | PROVIDER_REJECTED => "PROVIDER_REJECTED" | SESSION_EVIDENCE_UNAVAILABLE => "SESSION_EVIDENCE_UNAVAILABLE"
  | INCOMPLETE_RESPONSE => "INCOMPLETE_RESPONSE"
  end.
Definition IbkrTerminalDisposition_of_str (s : string) : option IbkrTerminalDisposition :=
  List.find (λ d, String.eqb (IbkrTerminalDisposition_str d) s)
    [TD_SUCCEEDED; CONTRACT_IDENTITY_CHANGED; ENTITLEMENT_UNAVAILABLE; NO_DATA_RETURNED; INVALID_REQUEST;
     RETRY_LIMIT_EXHAUSTED; PROVIDER_REJECTED; SESSION_EVIDENCE_UNAVAILABLE; INCOMPLETE_RESPONSE].

Inductive IbkrPublicationStatus : Type := PUB_PENDING | PUBLISHED.
#[export] Instance IbkrPublicationStatus_eq_dec : EqDecision IbkrPublicationStatus.
Proof. solve_decision. Defined.
Inductive IbkrPlanRegistrationStatus : Type := REGISTERED | ALREADY_REGISTERED.

Definition zero_uuid : UUID := mkUUID "00000000-0000-0000-0000-000000000000".
Definition _require_sha256 (value field : string) : res unit :=
  raise_if (negb (is_sha256 value)) (ValueError (field +:+ " must be a lower-case SHA-256")).
Definition _require_session_id (value : UUID) (field : string) : res unit :=
  raise_if (bool_decide (value = zero_uuid)) (ValueError (field +:+ " must be a non-zero UUID")).
Definition _require_positive (value : Z) (field : string) : res unit :=
  raise_if (value <=? 0) (ValueError (field +:+ " must be positive")).
Definition _require_maximum_attempts (value : Z) : res unit :=
  raise_if ((value <=? 0) || (6 <? value)) (ValueError "IBKR maximum attempts must be between one and six").
Definition _not_before (value lower_bound : datetime) : datetime := dt_max value lower_bound.

Record IbkrHistoricalConnection : Type := mkConnection {
  hc_connection_session_id : UUID; hc_connection_generation : Z }.
Definition IbkrHistoricalConnection_post_init (c : IbkrHistoricalConnection) : res unit :=
  _require_session_id (hc_connection_session_id c) "IBKR connection session ID";;
  raise_if (hc_connection_generation c <=? 0) (ValueError "IBKR connection generation must be positive").

Record IbkrHistoricalCallback : Type := mkCallback {
  cb_connection_session_id : UUID;
  cb_provider_request_id : Z;
  cb_connection_generation : Z;
  cb_kind : IbkrHistoricalCallbackKind;
  cb_received_at : datetime;
  cb_payload : dict }.
Definition IbkrHistoricalCallback_post_init (c : IbkrHistoricalCallback) : res unit :=
  _require_session_id (cb_connection_session_id c) "IBKR callback session ID";;
  raise_if (cb_provider_request_id c <=? 0) (ValueError "IBKR callback provider request ID must be positive");;
  raise_if (cb_connection_generation c <=? 0)
           (ValueError "IBKR callback connection generation must be positive");;
  require_utc (cb_received_at c) "IBKR callback received_at";; Ok tt.

Record IbkrHistoricalAttempt : Type := mkAttempt {
  at_attempt_id : UUID;
  at_plan_sha256 : string;
  at_request_sha256 : string;
  at_connection_session_id : UUID;
  at_attempt_ordinal : Z;
  at_provider_request_id : Z;
  at_connection_generation : Z;
  at_started_at : datetime;
  at_status : IbkrAttemptStatus;
  at_terminal_at : option datetime;
  at_terminal_disposition : option IbkrTerminalDisposition;
  at_detail : option string }.

Definition IbkrHistoricalAttempt_post_init (a : IbkrHistoricalAttempt) : res unit :=
  raise_if (negb (is_sha256 (at_plan_sha256 a))) (ValueError "IBKR attempt plan hash must be a lower-case SHA-256");;
  raise_if (negb (is_sha256 (at_request_sha256 a)))
           (ValueError "IBKR attempt request hash must be a lower-case SHA-256");;
  _require_session_id (at_connection_session_id a) "IBKR attempt session ID";;
  raise_if (at_attempt_ordinal a <=? 0) (ValueError "IBKR attempt ordinal must be positive");;
  raise_if (at_provider_request_id a <=? 0) (ValueError "IBKR provider request ID must be positive");;
  raise_if (at_connection_generation a <=? 0)
           (ValueError "IBKR attempt connection generation must be positive");;
  require_utc (at_started_at a) "IBKR attempt started_at";;
  match at_terminal_at a with
  | Some t =>
      require_utc t "IBKR attempt terminal_at";;
      raise_if (dt_ltb t (at_started_at a)) (ValueError "IBKR attempt terminal_at cannot precede started_at")
  | None => Ok tt
  end;;
  raise_if (match at_detail a with Some d => out_of_bounds d 2000 | None => false end)
           (ValueError "IBKR attempt detail must be bounded when present");;
  if decide (at_status a = STARTED) then
    raise_if (bool_decide (is_Some (at_terminal_at a)) || bool_decide (is_Some (at_terminal_disposition a)))
             (ValueError "started IBKR attempts cannot have terminal fields")
  else
    raise_if (bool_decide (at_terminal_at a = None)) (ValueError "finished IBKR attempts require terminal_at").

Record IbkrHistoricalCallbackRecord : Type := mkCallbackRecord {
  cr_callback_id : Z;
  cr_attempt_id : UUID;
  cr_connection_session_id : UUID;
  cr_provider_request_id : Z;
  cr_connection_generation : Z;
  cr_sequence : Z;
  cr_kind : IbkrHistoricalCallbackKind;
  cr_received_at : datetime;
  cr_payload : dict;
  cr_closure_eligible : bool }.
Definition IbkrHistoricalCallbackRecord_post_init (c : IbkrHistoricalCallbackRecord) : res unit :=
  raise_if (cr_callback_id c <=? 0) (ValueError "IBKR callback ID must be positive");;
  _require_session_id (cr_connection_session_id c) "IBKR callback record session ID";;
  raise_if (cr_provider_request_id c <=? 0) (ValueError "IBKR callback provider request ID must be positive");;
  raise_if (cr_connection_generation c <=? 0)
           (ValueError "IBKR callback connection generation must be positive");;
  raise_if (cr_sequence c <=? 0) (ValueError "IBKR callback sequence must be positive");;
  require_utc (cr_received_at c) "IBKR callback record received_at";; Ok tt.

Record IbkrHistoricalCompletionMarker : Type := mkMarker {
  cm_marker_id : Z;
  cm_attempt_id : UUID;
  cm_connection_session_id : UUID;
  cm_provider_request_id : Z;
  cm_connection_generation : Z;
  cm_sequence : Z;
  cm_completed_at : datetime;
  cm_raw_midpoint_bar_callback_count : Z;
  cm_raw_schedule_callback_count : Z;
  cm_closure_eligible : bool;
  cm_payload : dict }.

Definition IbkrHistoricalCompletionMarker_post_init (m : IbkrHistoricalCompletionMarker) : res unit :=
  raise_if (cm_marker_id m <=? 0) (ValueError "IBKR completion marker ID must be positive");;
  _require_session_id (cm_connection_session_id m) "IBKR completion marker session ID";;
  raise_if (cm_provider_request_id m <=? 0)
           (ValueError "IBKR completion marker provider request ID must be positive");;
  raise_if ((cm_connection_generation m <=? 0) || (cm_sequence m <=? 0))
           (ValueError "IBKR completion marker identity must be positive");;
  require_utc (cm_completed_at m) "IBKR completion marker completed_at";;
  raise_if ((cm_raw_midpoint_bar_callback_count m <? 0) || (cm_raw_schedule_callback_count m <? 0))
           (ValueError "IBKR completion marker counts cannot be negative").

Record IbkrHistoricalAttemptOutcome : Type := mkOutcome {
  oc_attempt : IbkrHistoricalAttempt;
  oc_request_status : IbkrRequestStatus;
  oc_disposition : option IbkrTerminalDisposition }.
Definition IbkrHistoricalAttemptOutcome_post_init (o : IbkrHistoricalAttemptOutcome) : res unit :=
  match oc_request_status o with
  | REQ_SUCCEEDED =>
      raise_if (negb (bool_decide (oc_disposition o = Some TD_SUCCEEDED)))
               (ValueError "successful IBKR requests require SUCCEEDED disposition")
  | TERMINAL =>
      raise_if (bool_decide (oc_disposition o = None) || bool_decide (oc_disposition o = Some TD_SUCCEEDED))
               (ValueError "terminal IBKR requests require a failure disposition")
  | _ =>
      raise_if (bool_decide (is_Some (oc_disposition o)))
               (ValueError "pending IBKR requests cannot have a terminal disposition")
  end.

Definition IbkrHistoricalIncomplete := Exn KIbkrHistoricalIncomplete.

(** [json.dumps(value, sort_keys=True, indent=2)] *)
Definition newline : string := String (Ascii.ascii_of_N 10) "".
Definition spaces (n : nat) : string := of_chars (replicate n " "%char).
Fixpoint dumps_indent (level : nat) (j : json) : string :=
  match j with
  | JList [] => "[]"
  | JObj [] => "{}"
  | JList l =>
      "[" +:+ newline +:+ spaces (2 * S level)
      +:+ join ("," +:+ newline +:+ spaces (2 * S level)) (map (dumps_indent (S level)) l)
      +:+ newline +:+ spaces (2 * level) +:+ "]"
  | JObj kvs =>
      "{" +:+ newline +:+ spaces (2 * S level)
      +:+ join ("," +:+ newline +:+ spaces (2 * S level))
            (map (λ kt, json_str kt.1 +:+ ": " +:+ kt.2)
               (py_sorted fst (map (λ kv, (kv.1, dumps_indent (S level) kv.2)) kvs)))
      +:+ newline +:+ spaces (2 * level) +:+ "}"
  | _ => dumps j
  end.

Definition plan_json (p : IbkrHistoricalPlan) : res json :=
  payload ← plan_payload p; Ok (JObj (payload ++ [("plan_sha256", JStr (hp_plan_sha256 p))])).
Definition ibkr_historical_plan_bytes (p : IbkrHistoricalPlan) : res string :=
  j ← plan_json p; Ok (dumps_indent 0 j +:+ newline).
Definition ibkr_historical_plan_bytes_sha256 (plan_bytes : string) : res string :=
  raise_if (negb (nonempty plan_bytes)) (ValueError "IBKR historical plan bytes cannot be empty");;
  raise_if (MAX_IBKR_PLAN_BYTES <? len plan_bytes)
           (ValueError "IBKR historical plan bytes exceed their bounded size");;
  Ok (sha256_hex plan_bytes).

(** ** Tables *)

Record PlanRow : Type := mkPlanRow {
  xp_plan_bytes : string;
  xp_plan_bytes_sha256 : string;
  xp_plan_payload : json;
  xp_registered_at : datetime;
  xp_publication_status : IbkrPublicationStatus;
  xp_published_at : option datetime }.

Record RequestRow : Type := mkRequestRow {
  xr_request_payload : json;
  xr_instrument_id : string;
  xr_request_kind : IbkrHistoricalRequestKind;
  xr_interval_start : datetime;
  xr_interval_end : datetime;
  xr_status : IbkrRequestStatus;
  xr_attempt_count : Z;
  xr_selected_attempt_id : option UUID;
  xr_publication_status : IbkrPublicationStatus;
  xr_result_sha256 : option string;
  xr_published_at : option datetime }.

(** Requests are keyed by plan and request hash. *)
Definition request_key : Type := string * string.

Record ExecutionDB : Type := mkExecutionDB {
  x_plans : gmap string PlanRow;
  x_requests : gmap (string * string) RequestRow;
  x_attempts : gmap UUID IbkrHistoricalAttempt;
  x_callbacks : list IbkrHistoricalCallbackRecord;
  x_markers : list IbkrHistoricalCompletionMarker }.

Definition empty_execution : ExecutionDB := mkExecutionDB ∅ ∅ ∅ [] [].
Definition set_plans (db : ExecutionDB) v := mkExecutionDB v (x_requests db) (x_attempts db) (x_callbacks db) (x_markers db).
Definition set_requests (db : ExecutionDB) v := mkExecutionDB (x_plans db) v (x_attempts db) (x_callbacks db) (x_markers db).
Definition set_attempts (db : ExecutionDB) v := mkExecutionDB (x_plans db) (x_requests db) v (x_callbacks db) (x_markers db).
Definition set_evidence (db : ExecutionDB) cbs ms :=
  mkExecutionDB (x_plans db) (x_requests db) (x_attempts db) cbs ms.

Definition request_of (a : IbkrHistoricalAttempt) : string * string := (at_plan_sha256 a, at_request_sha256 a).

Definition requests_of (db : ExecutionDB) (plan_sha256 : string) : list (string * RequestRow) :=
  flat_map (λ kr : string * string * RequestRow, if String.eqb kr.1.1 plan_sha256 then [(kr.1.2, kr.2)] else [])
    (map_to_list (x_requests db)).

(** The attempts of a WHERE clause, in the order of their ordinals and ids. *)
Definition attempts_where (db : ExecutionDB) (f : IbkrHistoricalAttempt → bool) : list IbkrHistoricalAttempt :=
  py_sorted (λ a, (at_attempt_ordinal a, uuid_text (at_attempt_id a)))
    (List.filter f (map snd (map_to_list (x_attempts db)))).

(** ** Registration *)

Section register.
(** [json.loads] of the plan bytes; [None] when it raises. *)
Context (json_loads : string → option json).

Definition insert_request (plan_sha256 : string) (requests : gmap (string * string) RequestRow)
    (r : IbkrHistoricalRequest) : res (gmap (string * string) RequestRow) :=
  payload ← request_json r;
  let key := (plan_sha256, hr_request_sha256 r) in
  raise_if (bool_decide (is_Some (requests !! key))) (IntegrityError "ibkr_historical_requests_pkey");;
  Ok (<[key := mkRequestRow payload (hr_instrument_id r) (hr_kind r) (hr_interval_start r) (hr_interval_end r)
                 REQ_PENDING 0 None PUB_PENDING None None]> requests).

Definition register_ibkr_historical_plan (db : ExecutionDB) (plan : IbkrHistoricalPlan)
    (plan_bytes : option string) (registered_at : datetime) : res (ExecutionDB * IbkrPlanRegistrationStatus) :=
  require_utc registered_at "IBKR historical plan registered_at";;
  encoded ← match plan_bytes with Some b => Ok b | None => ibkr_historical_plan_bytes plan end;
  raise_if (negb (nonempty encoded) || (MAX_IBKR_PLAN_BYTES <? len encoded))
           (ValueError "IBKR historical plan bytes are empty or exceed their bound");;
  parsed ← match json_loads encoded with
           | Some j => Ok j
           | None => Raise (ValueError "IBKR historical plan bytes are not valid JSON")
           end;
  plan_payload ← plan_json plan;
  raise_if (negb (bool_decide (canon parsed = canon plan_payload)))
           (ValueError "IBKR historical plan bytes do not match the authenticated plan");;
  bytes_hash ← ibkr_historical_plan_bytes_sha256 encoded;
  let sha := hp_plan_sha256 plan in
  match x_plans db !! sha with
  | Some existing =>
      raise_if (negb (String.eqb (xp_plan_bytes existing) encoded)
                || negb (String.eqb (xp_plan_bytes_sha256 existing) bytes_hash)
                || negb (bool_decide (canon (xp_plan_payload existing) = canon plan_payload)))
               (RuntimeError "registered IBKR plan identity conflicts with its immutable bytes");;
      raise_if (negb (bool_decide ((list_to_set (map fst (requests_of db sha)) : gset string)
                                   = list_to_set (map hr_request_sha256 (hp_requests plan)))))
               (RuntimeError "registered IBKR plan request closure differs from its immutable plan");;
      Ok (db, ALREADY_REGISTERED)
  | None =>
      requests ← for_each (insert_request sha) (x_requests db) (hp_requests plan);
      Ok (mkExecutionDB
            (<[sha := mkPlanRow encoded bytes_hash plan_payload registered_at PUB_PENDING None]> (x_plans db))
            requests (x_attempts db) (x_callbacks db) (x_markers db), REGISTERED)
  end.
End register.

Definition pending_ibkr_historical_requests (db : ExecutionDB) (plan_sha256 : string) : res (list string) :=
  _require_sha256 plan_sha256 "IBKR pending plan hash";;
  raise_if (bool_decide (x_plans db !! plan_sha256 = None)) (RuntimeError "IBKR historical plan is not registered");;
  Ok (py_sorted id (map fst (List.filter (λ kr, bool_decide (xr_status kr.2 = REQ_PENDING)) (requests_of db plan_sha256)))).

(** ** Attempts *)

Definition request_update (r : RequestRow) status count selected : RequestRow :=
  mkRequestRow (xr_request_payload r) (xr_instrument_id r) (xr_request_kind r) (xr_interval_start r)
    (xr_interval_end r) status count selected (xr_publication_status r) (xr_result_sha256 r) (xr_published_at r).

(** The unique constraints of the attempt table. *)
Definition attempt_conflicts (db : ExecutionDB) (a : IbkrHistoricalAttempt) : bool :=
  bool_decide (is_Some (x_attempts db !! at_attempt_id a))
  || existsb (λ b, (bool_decide (request_of b = request_of a) && (at_attempt_ordinal b =? at_attempt_ordinal a))
                   || (bool_decide (at_connection_session_id b = at_connection_session_id a)
                       && (at_connection_generation b =? at_connection_generation a)
                       && (at_provider_request_id b =? at_provider_request_id a)))
       (map snd (map_to_list (x_attempts db))).

(** [attempt_id] is a fresh uuid4. *)
Definition start_ibkr_historical_attempt (db : ExecutionDB) (attempt_id : UUID) (plan_sha256 request_sha256 : string)
    (connection_session_id : UUID) (connection_generation provider_request_id : Z) (started_at : datetime)
    (maximum_attempts : Z) : res (ExecutionDB * option IbkrHistoricalAttempt) :=
  _require_sha256 plan_sha256 "IBKR attempt plan hash";;
  _require_sha256 request_sha256 "IBKR attempt request hash";;
  _require_session_id connection_session_id "IBKR attempt connection session ID";;
  _require_positive connection_generation "IBKR attempt connection generation";;
  _require_positive provider_request_id "IBKR provider request ID";;
  _require_maximum_attempts maximum_attempts;;
  require_utc started_at "IBKR attempt start time";;
  match x_requests db !! (plan_sha256, request_sha256) with
  | None => Raise (RuntimeError "IBKR planned request is not registered")
  | Some row =>
      if negb (bool_decide (xr_status row = REQ_PENDING)) then Ok (db, None) else
      let attempt_ordinal := xr_attempt_count row + 1 in
      raise_if (maximum_attempts <? attempt_ordinal)
               (RuntimeError "IBKR planned request exceeded its retry budget");;
      let attempt := mkAttempt attempt_id plan_sha256 request_sha256 connection_session_id attempt_ordinal
                       provider_request_id connection_generation started_at STARTED None None None in
      raise_if (attempt_conflicts db attempt) (IntegrityError "ibkr_historical_attempts");;
      IbkrHistoricalAttempt_post_init attempt;;
      Ok (set_requests (set_attempts db (<[attempt_id := attempt]> (x_attempts db)))
            (<[(plan_sha256, request_sha256) :=
                 request_update row IN_FLIGHT attempt_ordinal (xr_selected_attempt_id row)]> (x_requests db)),
          Some attempt)
  end.

(** The attempt joined with its request. *)
Definition _attempt_for_update (db : ExecutionDB) (attempt_id : UUID) : option (IbkrHistoricalAttempt * RequestRow) :=
  a ← x_attempts db !! attempt_id;
  r ← x_requests db !! request_of a;
  Some (a, r).

Definition _attempt_outcome_from_row (row : IbkrHistoricalAttempt * RequestRow) : res IbkrHistoricalAttemptOutcome :=
  let '(attempt, r) := row in
  IbkrHistoricalAttempt_post_init attempt;;
  let outcome_disposition := match xr_status r with
                             | REQ_SUCCEEDED => Some TD_SUCCEEDED
                             | TERMINAL => at_terminal_disposition attempt
                             | _ => None
                             end in
  let o := mkOutcome attempt (xr_status r) outcome_disposition in
  IbkrHistoricalAttemptOutcome_post_init o;; Ok o.

(** ** Callbacks *)

Definition callbacks_of (db : ExecutionDB) (attempt_id : UUID) : list IbkrHistoricalCallbackRecord :=
  List.filter (λ c, bool_decide (cr_attempt_id c = attempt_id)) (x_callbacks db).
(** Eligible callbacks of one kind received before a sequence number. *)
Definition count_before (db : ExecutionDB) (attempt_id : UUID) (sequence : Z) (kind : IbkrHistoricalCallbackKind) : Z :=
  Z.of_nat (length (List.filter (λ c, (cr_sequence c <? sequence) && bool_decide (cr_kind c = kind)
                                      && cr_closure_eligible c) (callbacks_of db attempt_id))).

Definition append_ibkr_historical_callback (db : ExecutionDB) (attempt_id : UUID) (callback : IbkrHistoricalCallback)
    : res (ExecutionDB * IbkrHistoricalCallbackRecord) :=
  match _attempt_for_update db attempt_id with
  | None => Raise (RuntimeError "IBKR callback targets an unknown attempt")
  | Some (attempt, _) =>
      let sequence := fold_right Z.max 0 (map cr_sequence (callbacks_of db attempt_id)) + 1 in
      let closure_eligible :=
        bool_decide (at_status attempt = STARTED)
        && bool_decide (at_connection_session_id attempt = cb_connection_session_id callback)
        && (at_provider_request_id attempt =? cb_provider_request_id callback)
        && (at_connection_generation attempt =? cb_connection_generation callback) in
      let record := mkCallbackRecord (Z.of_nat (length (x_callbacks db)) + 1) attempt_id
            (cb_connection_session_id callback) (cb_provider_request_id callback)
            (cb_connection_generation callback) sequence (cb_kind callback) (cb_received_at callback)
            (cb_payload callback) closure_eligible in
      let callbacks := x_callbacks db ++ [record] in
      let db1 := set_evidence db callbacks (x_markers db) in
      let markers :=
        if decide (cb_kind callback = CB_COMPLETION) then
          x_markers db ++
            [mkMarker (Z.of_nat (length (x_markers db)) + 1) attempt_id (cb_connection_session_id callback)
               (cb_provider_request_id callback) (cb_connection_generation callback) sequence
               (cb_received_at callback) (count_before db1 attempt_id sequence CB_MIDPOINT_BAR)
               (count_before db1 attempt_id sequence CB_SCHEDULE) closure_eligible (cb_payload callback)]
        else x_markers db in
      IbkrHistoricalCallbackRecord_post_init record;;
      Ok (set_evidence db callbacks markers, record)
  end.

(** ** Closing an attempt *)

(** The two UPDATEs of a transition, and the outcome read back. *)
Definition close_attempt (after : string) (db : ExecutionDB) (row : IbkrHistoricalAttempt * RequestRow) (status : IbkrAttemptStatus)
    (terminal_at : datetime) (disposition : option IbkrTerminalDisposition) (detail : option string)
    (request_status : IbkrRequestStatus) (selected : option UUID)
    : res (ExecutionDB * IbkrHistoricalAttemptOutcome) :=
  let '(a, r) := row in
  let a' := mkAttempt (at_attempt_id a) (at_plan_sha256 a) (at_request_sha256 a) (at_connection_session_id a)
              (at_attempt_ordinal a) (at_provider_request_id a) (at_connection_generation a) (at_started_at a)
              status (Some terminal_at) disposition detail in
  let r' := request_update r request_status (xr_attempt_count r) selected in
  let db' := set_requests (set_attempts db (<[at_attempt_id a := a']> (x_attempts db)))
               (<[request_of a := r']> (x_requests db)) in
  match _attempt_for_update db' (at_attempt_id a) with
  | None => Raise (RuntimeError ("IBKR attempt disappeared after " +:+ after +:+ " transition"))
  | Some updated => outcome ← _attempt_outcome_from_row updated; Ok (db', outcome)
  end.

(** The first eligible completion marker of the attempt's own request. *)
Definition eligible_marker (a : IbkrHistoricalAttempt) (m : IbkrHistoricalCompletionMarker) : bool :=
  bool_decide (cm_attempt_id m = at_attempt_id a)
  && bool_decide (cm_connection_session_id m = at_connection_session_id a)
  && (cm_connection_generation m =? at_connection_generation a)
  && (cm_provider_request_id m =? at_provider_request_id a) && cm_closure_eligible m.
Definition first_marker (db : ExecutionDB) (a : IbkrHistoricalAttempt) : option IbkrHistoricalCompletionMarker :=
  head (py_sorted cm_sequence (List.filter (eligible_marker a) (x_markers db))).

Definition _finalize_attempt_locked (db : ExecutionDB) (attempt_id : UUID) (completed_at : datetime)
    : res (ExecutionDB * IbkrHistoricalAttemptOutcome) :=
  match _attempt_for_update db attempt_id with
  | None => Raise (RuntimeError "IBKR completion targets an unknown attempt")
  | Some (a, r) =>
      if negb (bool_decide (at_status a = STARTED)) then o ← _attempt_outcome_from_row (a, r); Ok (db, o) else
      match first_marker db a with
      | None => Raise (IbkrHistoricalIncomplete "IBKR attempt has no eligible completion marker")
      | Some marker =>
          let error_count := count_before db attempt_id (cm_sequence marker) CB_ERROR in
          let terminal_at := _not_before completed_at (at_started_at a) in
          if negb (error_count =? 0) then
            close_attempt "completion" db (a, r) TERMINAL_FAILURE terminal_at (Some PROVIDER_REJECTED)
              (Some "provider emitted an error callback before completion") TERMINAL (Some attempt_id)
          else if bool_decide (xr_request_kind r = SCHEDULE) && (cm_raw_schedule_callback_count marker =? 0) then
            Raise (IbkrHistoricalIncomplete "IBKR schedule attempt has no raw schedule callback")
          else
            close_attempt "completion" db (a, r) ATT_SUCCEEDED terminal_at (Some TD_SUCCEEDED) None REQ_SUCCEEDED (Some attempt_id)
      end
  end.

Definition finalize_ibkr_historical_attempt (db : ExecutionDB) (attempt_id : UUID) (completed_at : datetime)
    : res (ExecutionDB * IbkrHistoricalAttemptOutcome) :=
  require_utc completed_at "IBKR attempt completion time";;
  _finalize_attempt_locked db attempt_id completed_at.

Definition fail_ibkr_historical_attempt (db : ExecutionDB) (attempt_id : UUID) (failed_at : datetime)
    (disposition detail : string) (retryable : bool) (maximum_attempts : Z)
    : res (ExecutionDB * IbkrHistoricalAttemptOutcome) :=
  require_utc failed_at "IBKR attempt failure time";;
  _require_maximum_attempts maximum_attempts;;
  raise_if (out_of_bounds detail 2000) (ValueError "IBKR attempt failure detail must be bounded");;
  match IbkrTerminalDisposition_of_str disposition with
  | None => Raise (ValueError "IBKR attempt failure disposition is unsupported")
  | Some parsed_disposition =>
      raise_if (bool_decide (parsed_disposition = TD_SUCCEEDED))
               (ValueError "IBKR attempt failure cannot use SUCCEEDED disposition");;
      match _attempt_for_update db attempt_id with
      | None => Raise (RuntimeError "IBKR failure targets an unknown attempt")
      | Some (a, r) =>
          if negb (bool_decide (at_status a = STARTED)) then o ← _attempt_outcome_from_row (a, r); Ok (db, o) else
          let retry := retryable && (at_attempt_ordinal a <? maximum_attempts) in
          close_attempt "failure" db (a, r) (if retry then RETRYABLE_FAILURE else TERMINAL_FAILURE)
            (_not_before failed_at (at_started_at a))
            (Some (if retry then parsed_disposition
                   else if retryable then RETRY_LIMIT_EXHAUSTED else parsed_disposition))
            (Some detail) (if retry then REQ_PENDING else TERMINAL)
            (if retry then xr_selected_attempt_id r else Some attempt_id)
      end
  end.

Definition _invalidate_attempt_locked (db : ExecutionDB) (attempt_id : UUID) (invalidated_at : datetime)
    (maximum_attempts : Z) : res (ExecutionDB * IbkrHistoricalAttemptOutcome) :=
  match _attempt_for_update db attempt_id with
  | None => Raise (RuntimeError "IBKR invalidation targets an unknown attempt")
  | Some (a, r) =>
      if negb (bool_decide (at_status a = STARTED)) then o ← _attempt_outcome_from_row (a, r); Ok (db, o) else
      let exhausted := maximum_attempts <=? at_attempt_ordinal a in
      close_attempt "invalidation" db (a, r) (if exhausted then TERMINAL_FAILURE else INVALIDATED)
        (_not_before invalidated_at (at_started_at a)) (if exhausted then Some RETRY_LIMIT_EXHAUSTED else None)
        (Some "connection generation disconnected before attempt completion")
        (if exhausted then TERMINAL else REQ_PENDING)
        (if exhausted then Some attempt_id else xr_selected_attempt_id r)
  end.

(** [try: finalize except IbkrHistoricalIncomplete: invalidate] for each attempt. *)
Definition settle_attempt (at_ : datetime) (maximum_attempts : Z)
    (s : ExecutionDB * list IbkrHistoricalAttemptOutcome) (a : IbkrHistoricalAttempt)
    : res (ExecutionDB * list IbkrHistoricalAttemptOutcome) :=
  let '(db, outcomes) := s in
  '(db', o) ← match _finalize_attempt_locked db (at_attempt_id a) at_ with
              | Raise e =>
                  if decide (exn_class e = KIbkrHistoricalIncomplete)
                  then _invalidate_attempt_locked db (at_attempt_id a) at_ maximum_attempts
                  else Raise e
              | Ok r => Ok r
              end;
  Ok (db', outcomes ++ [o]).

Definition recover_ibkr_historical_execution (db : ExecutionDB) (plan_sha256 : string) (recovered_at : datetime)
    (maximum_attempts : Z) : res (ExecutionDB * list IbkrHistoricalAttemptOutcome) :=
  _require_sha256 plan_sha256 "IBKR recovery plan hash";;
  _require_maximum_attempts maximum_attempts;;
  require_utc recovered_at "IBKR recovery time";;
  for_each (settle_attempt recovered_at maximum_attempts) (db, [])
    (attempts_where db (λ a, String.eqb (at_plan_sha256 a) plan_sha256 && bool_decide (at_status a = STARTED))).

Definition invalidate_ibkr_historical_attempts (db : ExecutionDB) (plan_sha256 : string)
    (connection_session_id : UUID) (connection_generation : Z) (invalidated_at : datetime) (maximum_attempts : Z)
    : res (ExecutionDB * list IbkrHistoricalAttemptOutcome) :=
  _require_sha256 plan_sha256 "IBKR invalidation plan hash";;
  _require_session_id connection_session_id "IBKR invalidation connection session ID";;
  _require_positive connection_generation "IBKR invalidation connection generation";;
  _require_maximum_attempts maximum_attempts;;
  require_utc invalidated_at "IBKR invalidation time";;
  for_each (settle_attempt invalidated_at maximum_attempts) (db, [])
    (attempts_where db (λ a, String.eqb (at_plan_sha256 a) plan_sha256
                             && bool_decide (at_connection_session_id a = connection_session_id)
                             && (at_connection_generation a =? connection_generation)
                             && bool_decide (at_status a = STARTED))).

(** ** Publication *)

(** The selected attempt of the LEFT JOIN. *)
Definition selected_attempt (db : ExecutionDB) (key : string * string) (r : RequestRow) : option IbkrHistoricalAttempt :=
  id ← xr_selected_attempt_id r;
  a ← x_attempts db !! id;
  if decide (request_of a = key) then Some a else None.

Definition publish_request (snapshot : ExecutionDB) (plan_sha256 : string) (published_at : datetime)
    (db : ExecutionDB) (publication : string * string) : res ExecutionDB :=
  let '(request_sha256, result_sha256) := publication in
  let key := (plan_sha256, request_sha256) in
  match x_requests snapshot !! key with
  | None => Raise (RuntimeError "IBKR publication targets an unknown request")
  | Some row =>
      raise_if (negb (bool_decide (xr_status row = REQ_SUCCEEDED)) && negb (bool_decide (xr_status row = TERMINAL)))
               (RuntimeError "IBKR publication requires a terminal request");;
      raise_if (bool_decide (xr_selected_attempt_id row = None))
               (RuntimeError "IBKR publication requires a selected terminal attempt");;
      let selected := selected_attempt snapshot key row in
      let status := at_status <$> selected in
      let disposition := d ← selected; at_terminal_disposition d in
      (if decide (xr_status row = REQ_SUCCEEDED)
       then raise_if (negb (bool_decide (status = Some ATT_SUCCEEDED))
                      || negb (bool_decide (disposition = Some TD_SUCCEEDED)))
              (RuntimeError "successful IBKR publication requires a successful selected attempt")
       else raise_if (negb (bool_decide (status = Some TERMINAL_FAILURE)) || bool_decide (disposition = None)
                      || bool_decide (disposition = Some TD_SUCCEEDED))
              (RuntimeError "terminal IBKR publication requires a non-success selected attempt"));;
      if decide (xr_publication_status row = PUBLISHED) then
        raise_if (negb (bool_decide (xr_result_sha256 row = Some result_sha256)))
                 (RuntimeError "IBKR publication identity conflicts with its immutable result");;
        Ok db
      else
        Ok (set_requests db (<[key := mkRequestRow (xr_request_payload row) (xr_instrument_id row)
              (xr_request_kind row) (xr_interval_start row) (xr_interval_end row) (xr_status row)
              (xr_attempt_count row) (xr_selected_attempt_id row) PUBLISHED (Some result_sha256)
              (Some published_at)]> (x_requests db)))
  end.

Definition mark_ibkr_historical_requests_published (db : ExecutionDB) (plan_sha256 : string)
    (publications : list (string * string)) (published_at : datetime) : res ExecutionDB :=
  _require_sha256 plan_sha256 "IBKR publication plan hash";;
  require_utc published_at "IBKR publication time";;
  raise_if (Nat.eqb (length publications) 0) (ValueError "IBKR publication requires at least one request");;
  for_each (λ seen p,
      _require_sha256 p.1 "IBKR publication request hash";;
      _require_sha256 p.2 "IBKR result hash";;
      raise_if (bool_decide (p.1 ∈ seen)) (ValueError "IBKR publication request identities are duplicated");;
      Ok (seen ++ [p.1])) [] publications;;
  db' ← for_each (publish_request db plan_sha256 published_at) db publications;
  if existsb (λ kr, bool_decide (xr_publication_status kr.2 = PUB_PENDING)) (requests_of db' plan_sha256)
  then Ok db'
  else match x_plans db' !! plan_sha256 with
       | None => Ok db'
       | Some p =>
           Ok (set_plans db' (<[plan_sha256 := mkPlanRow (xp_plan_bytes p) (xp_plan_bytes_sha256 p)
                 (xp_plan_payload p) (xp_registered_at p) PUBLISHED (Some published_at)]> (x_plans db')))
       end.

Definition mark_ibkr_historical_request_published (db : ExecutionDB) (plan_sha256 request_sha256 result_sha256 : string)
    (published_at : datetime) : res ExecutionDB :=
  mark_ibkr_historical_requests_published db plan_sha256 [(request_sha256, result_sha256)] published_at.

(** ** Invariant: attempts and requests *)

Definition quiet (a : IbkrHistoricalAttempt) : Prop :=
  at_status a = RETRYABLE_FAILURE ∨ at_status a = INVALIDATED.

(** The state the last attempt of a request is in. *)
Definition last_ok (r : RequestRow) (a : IbkrHistoricalAttempt) : Prop :=
  match xr_status r with
  | REQ_PENDING => quiet a
  | IN_FLIGHT => at_status a = STARTED
  | REQ_SUCCEEDED => at_status a = ATT_SUCCEEDED ∧ at_terminal_disposition a = Some TD_SUCCEEDED ∧
                     xr_selected_attempt_id r = Some (at_attempt_id a)
  | TERMINAL => at_status a = TERMINAL_FAILURE ∧
                (∃ d, at_terminal_disposition a = Some d ∧ d ≠ TD_SUCCEEDED) ∧
                xr_selected_attempt_id r = Some (at_attempt_id a)
  end.
Definition undecided (r : RequestRow) : Prop := xr_status r = REQ_PENDING ∨ xr_status r = IN_FLIGHT.

Record request_ok (attempts : gmap UUID IbkrHistoricalAttempt) (k : string * string) (r : RequestRow) : Prop := {
  ro_count : 0 <= xr_attempt_count r;
  ro_ordinal : ∀ id a, attempts !! id = Some a → request_of a = k → 1 <= at_attempt_ordinal a <= xr_attempt_count r;
  ro_unique : ∀ id a id' a', attempts !! id = Some a → attempts !! id' = Some a' → request_of a = k → request_of a' = k →
              at_attempt_ordinal a = at_attempt_ordinal a' → id = id';
  ro_total : ∀ n, 1 <= n <= xr_attempt_count r →
             ∃ id a, attempts !! id = Some a ∧ request_of a = k ∧ at_attempt_ordinal a = n;
  ro_earlier : ∀ id a, attempts !! id = Some a → request_of a = k → at_attempt_ordinal a < xr_attempt_count r → quiet a;
  ro_last : ∀ id a, attempts !! id = Some a → request_of a = k → at_attempt_ordinal a = xr_attempt_count r → last_ok r a;
  ro_unattempted : xr_attempt_count r = 0 → xr_status r = REQ_PENDING;
  ro_selected : undecided r → xr_selected_attempt_id r = None }.

Record attempts_inv (db : ExecutionDB) : Prop := {
  ai_attempt : ∀ id a, x_attempts db !! id = Some a →
               at_attempt_id a = id ∧ IbkrHistoricalAttempt_post_init a = Ok tt;
  ai_request : ∀ id a, x_attempts db !! id = Some a → is_Some (x_requests db !! request_of a);
  ai_requests : ∀ k r, x_requests db !! k = Some r → request_ok (x_attempts db) k r }.

(** Evidence: callbacks and completion markers. *)
Definition callback_at (db : ExecutionDB) (m : IbkrHistoricalCompletionMarker) : Prop :=
  ∃ c, c ∈ x_callbacks db ∧ cr_attempt_id c = cm_attempt_id m ∧ cr_sequence c = cm_sequence m ∧
       cr_kind c = CB_COMPLETION ∧ cr_closure_eligible c = cm_closure_eligible m.
Definition counts_ok (db : ExecutionDB) (m : IbkrHistoricalCompletionMarker) : Prop :=
  cm_raw_midpoint_bar_callback_count m = count_before db (cm_attempt_id m) (cm_sequence m) CB_MIDPOINT_BAR ∧
  cm_raw_schedule_callback_count m = count_before db (cm_attempt_id m) (cm_sequence m) CB_SCHEDULE.
(** A completion of the attempt's own request, without an eligible error before it. *)
Definition completed_by (db : ExecutionDB) (kind : IbkrHistoricalRequestKind) (a : IbkrHistoricalAttempt)
    (m : IbkrHistoricalCompletionMarker) : Prop :=
  m ∈ x_markers db ∧ eligible_marker a m = true ∧
  count_before db (at_attempt_id a) (cm_sequence m) CB_ERROR = 0 ∧
  (kind = SCHEDULE → 0 < count_before db (at_attempt_id a) (cm_sequence m) CB_SCHEDULE).

Record evidence_inv (db : ExecutionDB) : Prop := {
  ei_markers : ∀ m, m ∈ x_markers db → callback_at db m ∧ counts_ok db m;
  ei_success : ∀ id a r, x_attempts db !! id = Some a → x_requests db !! request_of a = Some r →
               at_status a = ATT_SUCCEEDED → ∃ m, completed_by db (xr_request_kind r) a m }.

Definition decided (r : RequestRow) : Prop := xr_status r = REQ_SUCCEEDED ∨ xr_status r = TERMINAL.
Record publication_inv (db : ExecutionDB) : Prop := {
  pi_plan : ∀ k r, x_requests db !! k = Some r → is_Some (x_plans db !! k.1);
  pi_published : ∀ k r, x_requests db !! k = Some r → xr_publication_status r = PUBLISHED →
                 decided r ∧ is_Some (xr_result_sha256 r);
  pi_complete : ∀ p row k r, x_plans db !! p = Some row → x_requests db !! k = Some r → k.1 = p →
                xp_publication_status row = PUBLISHED → xr_publication_status r = PUBLISHED }.

Record execution_inv (db : ExecutionDB) : Prop := {
  xi_attempts : attempts_inv db; xi_evidence : evidence_inv db; xi_publication : publication_inv db }.

Lemma attempt_for_update_Some db id a r : attempts_inv db → _attempt_for_update db id = Some (a, r) ↔
  x_attempts db !! id = Some a ∧ x_requests db !! request_of a = Some r.
Proof.
  intros Hi. unfold _attempt_for_update. destruct (x_attempts db !! id) as [b|] eqn:E; cbn; [|naive_solver].
  destruct (ai_request _ Hi _ _ E) as [s Es]. rewrite Es. cbn. naive_solver.
Qed.

(** A started attempt is the last one of a request in flight. *)
Lemma started_in_flight db id a r : attempts_inv db → x_attempts db !! id = Some a →
  x_requests db !! request_of a = Some r → at_status a = STARTED →
  xr_status r = IN_FLIGHT ∧ at_attempt_ordinal a = xr_attempt_count r ∧ xr_selected_attempt_id r = None.
Proof.
  intros Hi Ha Hr Hs. pose proof (ai_requests _ Hi _ _ Hr) as Ho.
  destruct (ro_ordinal _ _ _ Ho _ _ Ha eq_refl) as [_ Hle].
  destruct (decide (at_attempt_ordinal a = xr_attempt_count r)) as [E|Hne].
  - pose proof (ro_last _ _ _ Ho _ _ Ha eq_refl E) as Hl. unfold last_ok in Hl.
    assert (xr_status r = IN_FLIGHT) as Hf.
    { destruct (xr_status r); try done; [destruct Hl; congruence|destruct Hl; congruence|destruct Hl; congruence]. }
    split_and!; [done|done|]. apply Ho. by right.
  - destruct (ro_earlier _ _ _ Ho _ _ Ha eq_refl ltac:(lia)); congruence.
Qed.

(** Replacing the last attempt of a request, with the request's new state. *)
Lemma request_ok_replace attempts k r r' a a' :
  request_ok attempts k r → attempts !! at_attempt_id a = Some a → request_of a = k →
  at_attempt_ordinal a = xr_attempt_count r →
  request_of a' = k → at_attempt_ordinal a' = at_attempt_ordinal a → xr_attempt_count r' = xr_attempt_count r →
  last_ok r' a' → (undecided r' → xr_selected_attempt_id r' = None) →
  request_ok (<[at_attempt_id a := a']> attempts) k r'.
Proof.
  intros [] Ha Hk Ho Hk' Ho' Hc Hl Hs.
  assert (∀ id b, <[at_attempt_id a := a']> attempts !! id = Some b →
    (id = at_attempt_id a ∧ b = a') ∨ (id ≠ at_attempt_id a ∧ attempts !! id = Some b)) as Hcase.
  { intros id b H. apply lookup_insert_Some in H as [[<- <-]|[Hne H]]; [by left|right; done]. }
  assert (1 <= at_attempt_ordinal a) as H1 by (by destruct (ro_ordinal0 _ _ Ha Hk)).
  split; rewrite ?Hc; try done; try lia.
  - intros id b [[-> ->]|[Hne Hb]]%Hcase Hbk; [lia|by eapply ro_ordinal0].
  - intros id b id' b' [[-> ->]|[Hne Hb]]%Hcase [[-> ->]|[Hne' Hb']]%Hcase Hbk Hbk' E; [done|..|by eapply ro_unique0].
    + exfalso. apply Hne'. apply (ro_unique0 _ _ _ _ Hb' Ha); [done..|congruence].
    + exfalso. apply Hne. apply (ro_unique0 _ _ _ _ Hb Ha); [done..|congruence].
  - intros n Hn. destruct (ro_total0 n Hn) as (id & b & Hb & Hbk & Hbo).
    destruct (decide (id = at_attempt_id a)) as [->|Hne].
    + exists (at_attempt_id a), a'. rewrite lookup_insert_eq. split_and!; [done|done|congruence].
    + exists id, b. by rewrite lookup_insert_ne.
  - intros id b [[-> ->]|[Hne Hb]]%Hcase Hbk Hlt; [lia|by eapply ro_earlier0].
  - intros id b [[-> ->]|[Hne Hb]]%Hcase Hbk E; [done|].
    exfalso. apply Hne. apply (ro_unique0 _ _ _ _ Hb Ha); [done..|congruence].
Qed.

(** A change to another request's attempt. *)
Lemma request_ok_other attempts k r id a' :
  request_ok attempts k r → request_of a' ≠ k → (∀ a, attempts !! id = Some a → request_of a ≠ k) →
  request_ok (<[id := a']> attempts) k r.
Proof.
  intros [] Hk Ha. assert (∀ i b, <[id := a']> attempts !! i = Some b → request_of b = k → attempts !! i = Some b) as Hold.
  { intros i b H Hb. apply lookup_insert_Some in H as [[<- <-]|[_ H]]; [done|done]. }
  split; try done.
  - intros i b H Hb. eapply ro_ordinal0; eauto.
  - intros i b i' b' H H' Hb Hb'. eapply ro_unique0; eauto.
  - intros n Hn. destruct (ro_total0 n Hn) as (i & b & Hb & Hbk & Hbo). exists i, b. split; [|done].
    rewrite lookup_insert_ne; [done|]. intros ->. by apply (Ha b).
  - intros i b H Hb. eapply ro_earlier0; eauto.
  - intros i b H Hb. eapply ro_last0; eauto.
Qed.

(** ** Closing preserves the invariant *)

(** The four transitions out of STARTED, with the request's new state. *)
Inductive closing (a : IbkrHistoricalAttempt) (r : RequestRow) :
    IbkrAttemptStatus → option IbkrTerminalDisposition → IbkrRequestStatus → option UUID → Prop :=
| closing_retry d : d ≠ TD_SUCCEEDED →
    closing a r RETRYABLE_FAILURE (Some d) REQ_PENDING (xr_selected_attempt_id r)
| closing_invalidated : closing a r INVALIDATED None REQ_PENDING (xr_selected_attempt_id r)
| closing_terminal d : d ≠ TD_SUCCEEDED →
    closing a r TERMINAL_FAILURE (Some d) TERMINAL (Some (at_attempt_id a))
| closing_succeeded : closing a r ATT_SUCCEEDED (Some TD_SUCCEEDED) REQ_SUCCEEDED (Some (at_attempt_id a)).

Definition closed_attempt (a : IbkrHistoricalAttempt) status t disposition detail : IbkrHistoricalAttempt :=
  mkAttempt (at_attempt_id a) (at_plan_sha256 a) (at_request_sha256 a) (at_connection_session_id a)
    (at_attempt_ordinal a) (at_provider_request_id a) (at_connection_generation a) (at_started_at a)
    status (Some t) disposition detail.
Definition closed_db (db : ExecutionDB) (a : IbkrHistoricalAttempt) (r : RequestRow) status t disposition detail
    rstatus selected : ExecutionDB :=
  set_requests (set_attempts db (<[at_attempt_id a := closed_attempt a status t disposition detail]> (x_attempts db)))
    (<[request_of a := request_update r rstatus (xr_attempt_count r) selected]> (x_requests db)).

Lemma closed_attempt_valid a status t disposition detail :
  IbkrHistoricalAttempt_post_init a = Ok tt → status ≠ STARTED → is_utc t → dt_ltb t (at_started_at a) = false →
  match detail with Some d => out_of_bounds d 2000 = false | None => True end →
  IbkrHistoricalAttempt_post_init (closed_attempt a status t disposition detail) = Ok tt.
Proof.
  intros H Hs Hu Ht Hd. unfold IbkrHistoricalAttempt_post_init in *.
  cbn [closed_attempt at_plan_sha256 at_request_sha256 at_connection_session_id at_attempt_ordinal
    at_provider_request_id at_connection_generation at_started_at at_terminal_at at_detail at_status].
  do 6 (apply bind_Ok in H as ([] & E & H); rewrite E; clear E; cbn [mbind res_bind]).
  apply bind_Ok in H as (? & E & _). rewrite E. cbn [mbind res_bind].
  rewrite require_utc_is_utc by done. cbn [mbind res_bind]. rewrite Ht. cbn [raise_if mbind res_bind].
  replace (match detail with Some d => out_of_bounds d 2000 | None => false end) with false by (by destruct detail).
  cbn [raise_if mbind res_bind]. by rewrite decide_False.
Qed.

Lemma closing_last_ok a r status t disposition detail rstatus selected :
  closing a r status disposition rstatus selected → xr_selected_attempt_id r = None →
  last_ok (request_update r rstatus (xr_attempt_count r) selected) (closed_attempt a status t disposition detail) ∧
  (rstatus = REQ_PENDING → selected = None) ∧ rstatus ≠ IN_FLIGHT ∧ status ≠ STARTED.
Proof. intros H Hn. unfold last_ok, quiet. destruct H; cbn; split_and!; try done; eauto. Qed.

Section close.
Context (db : ExecutionDB) (a : IbkrHistoricalAttempt) (r : RequestRow).
Hypothesis db_inv : execution_inv db.
Hypothesis a_row : x_attempts db !! at_attempt_id a = Some a.
Hypothesis r_row : x_requests db !! request_of a = Some r.
Hypothesis a_started : at_status a = STARTED.
Context (status : IbkrAttemptStatus) (t : datetime) (disposition : option IbkrTerminalDisposition)
        (detail : option string) (rstatus : IbkrRequestStatus) (selected : option UUID).
Hypothesis transition : closing a r status disposition rstatus selected.
Hypothesis t_utc : is_utc t.
Hypothesis t_after : dt_ltb t (at_started_at a) = false.
Hypothesis detail_ok : match detail with Some d => out_of_bounds d 2000 = false | None => True end.
Hypothesis evidence : status = ATT_SUCCEEDED → ∃ m, completed_by db (xr_request_kind r) a m.

Let db' := closed_db db a r status t disposition detail rstatus selected.
Let a' := closed_attempt a status t disposition detail.
Let r' := request_update r rstatus (xr_attempt_count r) selected.

Lemma close_row_cases id b : x_attempts db' !! id = Some b →
  (id = at_attempt_id a ∧ b = a') ∨ (id ≠ at_attempt_id a ∧ x_attempts db !! id = Some b).
Proof. cbn. intros H. apply lookup_insert_Some in H as [[<- <-]|[Hne H]]; [by left|right; done]. Qed.
Lemma close_request_cases k s : x_requests db' !! k = Some s →
  (k = request_of a ∧ s = r') ∨ (k ≠ request_of a ∧ x_requests db !! k = Some s).
Proof. cbn. intros H. apply lookup_insert_Some in H as [[<- <-]|[Hne H]]; [by left|right; done]. Qed.

Lemma close_attempts_inv : attempts_inv db'.
Proof.
  pose proof (xi_attempts _ db_inv) as Hi.
  destruct (started_in_flight _ _ _ _ Hi a_row r_row a_started) as (Hf & Ho & Hsel).
  destruct (closing_last_ok a r status t disposition detail rstatus selected transition Hsel) as (Hl & Hp & Hnf & Hns).
  split.
  - intros id b [[-> ->]|[Hne Hb]]%close_row_cases; [|by apply Hi]. split; [done|].
    apply closed_attempt_valid; try done. by apply (ai_attempt _ Hi _ _ a_row).
  - intros id b Hb. cbn. destruct (decide (request_of a = request_of b)) as [->|Hne]; [by rewrite lookup_insert_eq; eexists|].
    rewrite lookup_insert_ne by done. apply close_row_cases in Hb as [[-> ->]|[_ Hb]]; [by destruct Hne|].
    by apply (ai_request _ Hi _ _ Hb).
  - intros k s [[-> ->]|[Hne Hs]]%close_request_cases.
    + apply (request_ok_replace _ _ r); try done; [by apply Hi|].
      intros [Hu|Hu]; cbn in *; [by apply Hp|done].
    + apply request_ok_other; [by apply Hi|cbn; intros E; by apply Hne|].
      intros b Hb. rewrite a_row in Hb. injection Hb as <-. done.
Qed.

Lemma close_evidence_inv : evidence_inv db'.
Proof.
  destruct (xi_evidence _ db_inv) as [Hm Hs]. split; [exact Hm|].
  intros id b s Hb Hr Hst. apply close_row_cases in Hb as [[-> ->]|[Hne Hb]].
  - cbn in Hst. apply close_request_cases in Hr as [[_ ->]|[Hne _]]; [|by destruct Hne].
    exact (evidence Hst).
  - apply close_request_cases in Hr as [[E ->]|[_ Hr]].
    + refine (Hs id b r Hb _ Hst). by rewrite E.
    + exact (Hs id b s Hb Hr Hst).
Qed.

Lemma close_publication_inv : publication_inv db'.
Proof.
  destruct (xi_publication _ db_inv) as [Hpl Hpub Hc].
  destruct (started_in_flight _ _ _ _ (xi_attempts _ db_inv) a_row r_row a_started) as (Hf & _ & _).
  assert (xr_publication_status r' ≠ PUBLISHED) as Hnp.
  { intros E. destruct (Hpub _ _ r_row E) as [[Hd|Hd] _]; congruence. }
  split.
  - intros k s [[-> ->]|[_ Hs]]%close_request_cases; [by apply (Hpl _ _ r_row)|by eapply Hpl].
  - intros k s [[-> ->]|[_ Hs]]%close_request_cases E; [done|by eapply Hpub].
  - intros p row k s Hp [[-> ->]|[_ Hs]]%close_request_cases Hk E; [|by eapply Hc].
    exfalso. apply Hnp. exact (Hc p row _ r Hp r_row Hk E).
Qed.

(** The transition is taken, and its outcome is one the dataclass accepts. *)
Lemma close_Ok after : ∃ o, close_attempt after db (a, r) status t disposition detail rstatus selected = Ok (db', o) ∧
  oc_attempt o = a' ∧ oc_request_status o = rstatus ∧ execution_inv db'.
Proof.
  pose proof (xi_attempts _ db_inv) as Hi. pose proof close_attempts_inv as Hi'.
  assert (x_attempts db' !! at_attempt_id a = Some a') as Ha' by (cbn; by rewrite lookup_insert_eq).
  assert (_attempt_for_update db' (at_attempt_id a) = Some (a', r')) as E.
  { apply attempt_for_update_Some; [done|]. split; [done|]. cbn. by rewrite lookup_insert_eq. }
  assert (∃ o, _attempt_outcome_from_row (a', r') = Ok o ∧ oc_attempt o = a' ∧ oc_request_status o = rstatus) as (o & Eo & Ho1 & Ho2).
  { unfold _attempt_outcome_from_row. destruct (ai_attempt _ Hi' _ _ Ha') as [_ ->]. cbn [mbind res_bind xr_status r' request_update].
    subst a'. unfold IbkrHistoricalAttemptOutcome_post_init. destruct transition; cbn; rewrite ?bool_decide_false by congruence;
      by eexists. }
  exists o. split_and!; [|done|done|split; [done|apply close_evidence_inv|apply close_publication_inv]].
  transitivity (match _attempt_for_update db' (at_attempt_id a) with
                | None => Raise (RuntimeError ("IBKR attempt disappeared after " +:+ after +:+ " transition"))
                | Some updated => outcome ← _attempt_outcome_from_row updated; Ok (db', outcome)
                end); [reflexivity|]. rewrite E. cbn [mbind res_bind]. by rewrite Eo.
Qed.
End close.
