(* ===== verification/IbkrHistory.v ===== *)
(** What the transactions of IbkrStore.v promise together: every one of them is a sequence of
    elementary changes, which keep the invariant of the execution state and follow the protocol
    of a single request. *)

From S2P Require Import Prelude PySorted PyStr PyTime PyDecimal Sha256 PyJson PyParse Domain Storage EventStore CaptureFeed IbkrPlan IbkrStore.

(** ** Elementary changes *)

Definition started_db (db : ExecutionDB) (a : IbkrHistoricalAttempt) (r : RequestRow) : ExecutionDB :=
  set_requests (set_attempts db (<[at_attempt_id a := a]> (x_attempts db)))
    (<[request_of a := request_update r IN_FLIGHT (at_attempt_ordinal a) (xr_selected_attempt_id r)]> (x_requests db)).
Definition published_row (r : RequestRow) (result : string) (t : datetime) : RequestRow :=
  mkRequestRow (xr_request_payload r) (xr_instrument_id r) (xr_request_kind r) (xr_interval_start r)
    (xr_interval_end r) (xr_status r) (xr_attempt_count r) (xr_selected_attempt_id r) PUBLISHED (Some result) (Some t).
Definition published_plan (p : PlanRow) (t : datetime) : PlanRow :=
  mkPlanRow (xp_plan_bytes p) (xp_plan_bytes_sha256 p) (xp_plan_payload p) (xp_registered_at p) PUBLISHED (Some t).
Definition fresh_request (r : RequestRow) : Prop :=
  xr_status r = REQ_PENDING ∧ xr_attempt_count r = 0 ∧ xr_selected_attempt_id r = None ∧
  xr_publication_status r = PUB_PENDING.

(** The conditions under which an attempt is closed. *)
Record close_cond (db : ExecutionDB) (a : IbkrHistoricalAttempt) (r : RequestRow) status t disposition detail
    rstatus selected : Prop := {
  cc_attempt : x_attempts db !! at_attempt_id a = Some a;
  cc_request : x_requests db !! request_of a = Some r;
  cc_started : at_status a = STARTED;
  cc_closing : closing a r status disposition rstatus selected;
  cc_utc : is_utc t;
  cc_after : dt_ltb t (at_started_at a) = false;
  cc_detail : match detail with Some d => out_of_bounds d 2000 = false | None => True end;
  cc_evidence : status = ATT_SUCCEEDED → ∃ m, completed_by db (xr_request_kind r) a m;
  cc_budget : rstatus = REQ_PENDING → at_attempt_ordinal a < 6 }.

(** The evidence one callback adds. *)
Record evidence_cond (db : ExecutionDB) (c : IbkrHistoricalCallbackRecord)
    (ms : list IbkrHistoricalCompletionMarker) : Prop := {
  ec_attempt : is_Some (x_attempts db !! cr_attempt_id c);
  ec_newest : ∀ d, d ∈ x_callbacks db → cr_attempt_id d = cr_attempt_id c → cr_sequence d < cr_sequence c;
  ec_markers : ∀ m, m ∈ ms → cm_attempt_id m = cr_attempt_id c ∧ cm_sequence m = cr_sequence c ∧
               cr_kind c = CB_COMPLETION ∧ cm_closure_eligible m = cr_closure_eligible c ∧
               cm_raw_midpoint_bar_callback_count m = count_before db (cr_attempt_id c) (cr_sequence c) CB_MIDPOINT_BAR ∧
               cm_raw_schedule_callback_count m = count_before db (cr_attempt_id c) (cr_sequence c) CB_SCHEDULE }.

Inductive change : ExecutionDB → ExecutionDB → Prop :=
| change_register db sha p requests :
    x_plans db !! sha = None → xp_publication_status p = PUB_PENDING →
    (∀ k r, requests !! k = Some r →
       x_requests db !! k = Some r ∨ (x_requests db !! k = None ∧ k.1 = sha ∧ fresh_request r)) →
    (∀ k r, x_requests db !! k = Some r → requests !! k = Some r) →
    change db (set_requests (set_plans db (<[sha := p]> (x_plans db))) requests)
| change_start db a r :
    x_requests db !! request_of a = Some r → xr_status r = REQ_PENDING →
    x_attempts db !! at_attempt_id a = None → at_status a = STARTED →
    at_attempt_ordinal a = xr_attempt_count r + 1 → at_attempt_ordinal a <= 6 →
    IbkrHistoricalAttempt_post_init a = Ok tt →
    change db (started_db db a r)
| change_evidence db c ms :
    evidence_cond db c ms →
    change db (set_evidence db (x_callbacks db ++ [c]) (x_markers db ++ ms))
| change_close db a r status t disposition detail rstatus selected :
    close_cond db a r status t disposition detail rstatus selected →
    change db (closed_db db a r status t disposition detail rstatus selected)
| change_publish db k r result t :
    x_requests db !! k = Some r → decided r → xr_publication_status r = PUB_PENDING →
    change db (set_requests db (<[k := published_row r result t]> (x_requests db)))
| change_publish_plan db sha p t :
    x_plans db !! sha = Some p →
    (∀ k r, x_requests db !! k = Some r → k.1 = sha → xr_publication_status r = PUBLISHED) →
    change db (set_plans db (<[sha := published_plan p t]> (x_plans db))).
#[export] Hint Constructors change : qtrad.

Lemma publication_cases s : s = PUB_PENDING ∨ s = PUBLISHED.
Proof. destruct s; tauto. Qed.

(** ** Each change keeps the invariant *)

Lemma request_ok_fresh attempts k r :
  (∀ id a, attempts !! id = Some a → request_of a ≠ k) → fresh_request r → request_ok attempts k r.
Proof.
  intros Hno (Hs & Hc & Hsel & _).
  split; rewrite ?Hc; try (intros; exfalso; by eapply Hno); try done; intros; lia.
Qed.

(** A request may change in the fields its attempts do not constrain. *)
Lemma request_ok_fields attempts k r r' :
  xr_status r' = xr_status r → xr_attempt_count r' = xr_attempt_count r →
  xr_selected_attempt_id r' = xr_selected_attempt_id r →
  request_ok attempts k r → request_ok attempts k r'.
Proof.
  intros Es Ec Ei Ho. split; rewrite ?Ec, ?Es, ?Ei; try apply Ho.
  - intros id a Ha Hk Hn. pose proof (ro_last _ _ _ Ho id a Ha Hk Hn) as H. unfold last_ok in *. by rewrite Es, Ei.
  - intros Hu. apply Ho. unfold undecided in *. by rewrite <- Es.
Qed.

Lemma register_inv db sha p requests :
  x_plans db !! sha = None → xp_publication_status p = PUB_PENDING →
  (∀ k r, requests !! k = Some r →
     x_requests db !! k = Some r ∨ (x_requests db !! k = None ∧ k.1 = sha ∧ fresh_request r)) →
  (∀ k r, x_requests db !! k = Some r → requests !! k = Some r) →
  execution_inv db → execution_inv (set_requests (set_plans db (<[sha := p]> (x_plans db))) requests).
Proof.
  intros Hp Hpub Hnew Hold [Ha He Hq].
  assert (∀ k r, requests !! k = Some r → k.1 ≠ sha → x_requests db !! k = Some r) as Hother.
  { intros k r [H|(_ & ? & _)]%Hnew Hne; done. }
  assert (∀ k r, x_requests db !! k = Some r → k.1 ≠ sha) as Hne.
  { intros k r Hr E. destruct (pi_plan _ Hq _ _ Hr) as [? ?]. congruence. }
  split.
  - split; cbn; [apply Ha| |].
    + intros id a Hia. destruct (ai_request _ Ha _ _ Hia) as [r Hr]. exists r. by apply Hold.
    + intros k r [Hr|(Hn & Hk & Hf)]%Hnew; [by apply Ha|]. apply request_ok_fresh; [|done].
      intros id a Hia E. destruct (ai_request _ Ha _ _ Hia) as [s Hs]. congruence.
  - destruct He as [Hm Hs]. split; [exact Hm|]. cbn. intros id a r Hia Hr Hst.
    destruct (ai_request _ Ha _ _ Hia) as [s Es]. pose proof (Hold _ _ Es) as Es'.
    assert (r = s) as -> by congruence. by apply (Hs id).
  - destruct Hq as [H1 H2 H3]. split; cbn.
    + intros k r Hr. destruct (decide (sha = k.1)) as [<-|Hn]; [by rewrite lookup_insert_eq|].
      rewrite lookup_insert_ne by done. apply (H1 k r). by apply Hother.
    + intros k r [Hr|(_ & _ & Hf)]%Hnew E; [by eapply H2|]. destruct Hf as (_ & _ & _ & Hf). congruence.
    + intros q row k r Hq Hr Hk E. apply lookup_insert_Some in Hq as [[<- <-]|[Hn Hq]]; [congruence|].
      eapply H3; [done| |done|done]. apply Hother; [done|congruence].
Qed.

Lemma started_inv db a r :
  x_requests db !! request_of a = Some r → xr_status r = REQ_PENDING →
  x_attempts db !! at_attempt_id a = None → at_status a = STARTED →
  at_attempt_ordinal a = xr_attempt_count r + 1 → IbkrHistoricalAttempt_post_init a = Ok tt →
  execution_inv db → execution_inv (started_db db a r).
Proof.
  intros Hr Hs Hno Hst Ho Hv [Ha He Hq]. set (r' := request_update r IN_FLIGHT (at_attempt_ordinal a) (xr_selected_attempt_id r)).
  assert (∀ id b, <[at_attempt_id a := a]> (x_attempts db) !! id = Some b →
    (id = at_attempt_id a ∧ b = a) ∨ (id ≠ at_attempt_id a ∧ x_attempts db !! id = Some b)) as Hcase.
  { intros id b [[<- <-]|[Hne H]]%lookup_insert_Some; [by left|right; done]. }
  pose proof (ai_requests _ Ha _ _ Hr) as Hok.
  assert (request_ok (<[at_attempt_id a := a]> (x_attempts db)) (request_of a) r') as Hok'.
  { pose proof (ro_ordinal _ _ _ Hok) as Hord. split; cbn; rewrite ?Ho.
    - pose proof (ro_count _ _ _ Hok). lia.
    - pose proof (ro_count _ _ _ Hok). intros id b [[-> ->]|[_ Hb]]%Hcase Hk; [lia|]. pose proof (Hord _ _ Hb Hk). lia.
    - intros id b id' b' [[-> ->]|[_ Hb]]%Hcase [[-> ->]|[_ Hb']]%Hcase Hk Hk' E; [done|..|by eapply (ro_unique _ _ _ Hok)].
      + pose proof (Hord _ _ Hb' Hk'). lia.
      + pose proof (Hord _ _ Hb Hk). lia.
    - intros n Hn. destruct (decide (n = xr_attempt_count r + 1)) as [->|Hne].
      + exists (at_attempt_id a), a. by rewrite lookup_insert_eq.
      + destruct (ro_total _ _ _ Hok n ltac:(lia)) as (id & b & Hb & Hk & Hbo). exists id, b.
        rewrite lookup_insert_ne by congruence. done.
    - intros id b [[-> ->]|[_ Hb]]%Hcase Hk Hlt; [lia|].
      destruct (decide (at_attempt_ordinal b = xr_attempt_count r)) as [E|Hne].
      + pose proof (ro_last _ _ _ Hok _ _ Hb Hk E) as Hl. unfold last_ok in Hl. by rewrite Hs in Hl.
      + eapply (ro_earlier _ _ _ Hok); [done|done|lia].
    - intros id b [[-> ->]|[_ Hb]]%Hcase Hk E; [done|]. pose proof (Hord _ _ Hb Hk). lia.
    - pose proof (ro_count _ _ _ Hok). lia.
    - intros _. apply (ro_selected _ _ _ Hok). by left. }
  split.
  - split; cbn.
    + intros id b [[-> ->]|[_ Hb]]%Hcase; [done|by apply Ha].
    + intros id b [[-> ->]|[_ Hb]]%Hcase; [by rewrite lookup_insert_eq|].
      apply lookup_insert_is_Some'. right. by apply (ai_request _ Ha _ _ Hb).
    + intros k s [[<- <-]|[Hne Hk]]%lookup_insert_Some; [done|].
      apply request_ok_other; [by apply Ha|done|]. intros b Hb. congruence.
  - destruct He as [Hm Hsu]. split; [exact Hm|]. cbn. intros id b s [[-> ->]|[_ Hb]]%Hcase Hks Hbs; [congruence|].
    apply lookup_insert_Some in Hks as [[E <-]|[_ Hks]].
    + cbn. apply (Hsu id b r); [done| |done]. by rewrite <- E.
    + by apply (Hsu id b s).
  - destruct Hq as [H1 H2 H3].
    assert (xr_publication_status r ≠ PUBLISHED) as Hnp.
    { intros E. destruct (H2 _ _ Hr E) as [[?|?] _]; congruence. }
    split; cbn.
    + intros k s [[<- <-]|[_ Hk]]%lookup_insert_Some; [by eapply H1|by eapply H1].
    + intros k s [[<- <-]|[_ Hk]]%lookup_insert_Some E; [done|by eapply H2].
    + intros q row k s Hq [[<- <-]|[_ Hk]]%lookup_insert_Some E Ep; [|by eapply H3].
      exfalso. apply Hnp. by eapply H3.
Qed.

(** A callback is the newest of its attempt, so nothing counted before stays behind it. *)
Lemma count_before_app db c ms id n kind :
  (id = cr_attempt_id c → n <= cr_sequence c) →
  count_before (set_evidence db (x_callbacks db ++ [c]) (x_markers db ++ ms)) id n kind = count_before db id n kind.
Proof.
  intros Hn. unfold count_before, callbacks_of. cbn. rewrite !List.filter_app, length_app. cbn.
  destruct (bool_decide (cr_attempt_id c = id)) eqn:E; cbn; [|lia].
  apply bool_decide_eq_true in E. replace (cr_sequence c <? n) with false; [cbn; lia|].
  symmetry. apply Z.ltb_ge. by apply Hn.
Qed.

Lemma evidence_change_inv db c ms :
  evidence_cond db c ms → execution_inv db →
  execution_inv (set_evidence db (x_callbacks db ++ [c]) (x_markers db ++ ms)).
Proof.
  intros Hc [Ha He Hq]. set (db' := set_evidence _ _ _).
  assert (∀ m, m ∈ x_markers db → cm_attempt_id m = cr_attempt_id c → cm_sequence m <= cr_sequence c) as Hle.
  { intros m Hm E. destruct (ei_markers _ He _ Hm) as [(d & Hd & Ed & <- & _) _].
    apply Z.lt_le_incl, (ec_newest _ _ _ Hc); [done|congruence]. }
  assert (∀ m, m ∈ x_markers db → callback_at db' m ∧ counts_ok db' m) as Hold.
  { intros m Hm. destruct (ei_markers _ He _ Hm) as [(d & Hd & Hrest) [C1 C2]]. split.
    - exists d. split; [|done]. cbn. set_solver.
    - subst db'. split; rewrite count_before_app; try done; intros E; by apply Hle. }
  split; [|split|].
  - destruct Ha as [A1 A2 A3]. by split.
  - cbn. intros m [Hm|Hm]%elem_of_app; [by apply Hold|].
    destruct (ec_markers _ _ _ Hc _ Hm) as (E1 & E2 & E3 & E4 & E5 & E6). split.
    + exists c. cbn. split_and!; [set_solver|done..].
    + subst db'. split; rewrite count_before_app, ?E1, ?E2; try done; lia.
  - intros id a r Hid Hr Hst. destruct (ei_success _ He id a r Hid Hr Hst) as (m & Hm & Hel & Herr & Hsch).
    assert (cm_attempt_id m = at_attempt_id a) as Em by (unfold eligible_marker in Hel; bool_prop; done).
    exists m. subst db'. split_and!; [cbn; set_solver|done|..].
    + rewrite count_before_app; [done|]. intros E. apply Hle; congruence.
    + intros Hk. rewrite count_before_app; [by apply Hsch|]. intros E. apply Hle; congruence.
  - destruct Hq as [H1 H2 H3]. by split.
Qed.

Lemma publish_inv db k r result t :
  x_requests db !! k = Some r → decided r →
  execution_inv db → execution_inv (set_requests db (<[k := published_row r result t]> (x_requests db))).
Proof.
  intros Hr Hd [Ha He Hq]. split.
  - destruct Ha as [A1 A2 A3]. split; cbn; [done| |].
    + intros id a Hia. apply lookup_insert_is_Some'. right. by apply (A2 id).
    + intros k' s [[<- <-]|[_ Hs]]%lookup_insert_Some; [|by apply A3]. by apply (request_ok_fields _ _ r); [..|apply A3].
  - destruct He as [Hm Hsu]. split; [exact Hm|]. cbn. intros id a s Hia Hs Hst.
    apply lookup_insert_Some in Hs as [[E <-]|[_ Hs]]; [|by apply (Hsu id a s)].
    cbn. apply (Hsu id a r); [done| |done]. by rewrite <- E.
  - destruct Hq as [H1 H2 H3]. split; cbn.
    + intros k' s [[<- <-]|[_ Hs]]%lookup_insert_Some; by eapply H1.
    + intros k' s [[<- <-]|[_ Hs]]%lookup_insert_Some E; [|by eapply H2]. by split; [|eexists].
    + intros q row k' s Hrow [[<- <-]|[_ Hs]]%lookup_insert_Some E Ep; [done|by eapply H3].
Qed.

Lemma publish_plan_inv db sha p t :
  x_plans db !! sha = Some p →
  (∀ k r, x_requests db !! k = Some r → k.1 = sha → xr_publication_status r = PUBLISHED) →
  execution_inv db → execution_inv (set_plans db (<[sha := published_plan p t]> (x_plans db))).
Proof.
  intros Hp Hall [[A1 A2 A3] [Hm Hsu] [H1 H2 H3]]. split; [by split|by split|]. split; cbn; [|done|].
  - intros k r Hr. apply lookup_insert_is_Some'. right. by eapply H1.
  - intros q row k r [[<- <-]|[_ Hrow]]%lookup_insert_Some Hr E Ep; [by apply (Hall k)|by eapply H3].
Qed.

Lemma change_inv db db' : change db db' → execution_inv db → execution_inv db'.
Proof.
  intros H. destruct H as [db sha p requests|db a r|db c ms|db a r status t d detail rs sel Hc|db k r result t|db sha p t]; intros Hi.
  - by apply register_inv.
  - by apply started_inv.
  - by apply evidence_change_inv.
  - destruct Hc as [C1 C2 C3 C4 C5 C6 C7 C8 _].
    by destruct (close_Ok db a r Hi C1 C2 C3 status t d detail rs sel C4 C5 C6 C7 C8 "") as (_ & _ & _ & _ & ?).
  - by apply publish_inv.
  - by apply publish_plan_inv.
Qed.

Lemma changes_inv db db' : rtc change db db' → execution_inv db → execution_inv db'.
Proof. induction 1 as [|x y z H _ IH]; [done|]. intros Hi. by apply IH, (change_inv x). Qed.

Lemma empty_inv : execution_inv empty_execution.
Proof.
  split; [split; cbn; intros *; rewrite ?lookup_empty; done|split; cbn|split; cbn; intros *; rewrite ?lookup_empty; done].
  - intros m Hm. by apply elem_of_nil in Hm.
  - intros *. by rewrite lookup_empty.
Qed.

(** ** The transactions are sequences of changes *)

Lemma close_change after db a r status t disposition detail rstatus selected :
  execution_inv db → close_cond db a r status t disposition detail rstatus selected →
  ∃ db' o, close_attempt after db (a, r) status t disposition detail rstatus selected = Ok (db', o) ∧
    change db db' ∧ oc_attempt o = closed_attempt a status t disposition detail ∧ oc_request_status o = rstatus ∧
    db' = closed_db db a r status t disposition detail rstatus selected.
Proof.
  intros Hi Hc. destruct (id Hc) as [C1 C2 C3 C4 C5 C6 C7 C8 _].
  destruct (close_Ok db a r Hi C1 C2 C3 status t disposition detail rstatus selected C4 C5 C6 C7 C8 after)
    as (o & Eo & H1 & H2 & _).
  exists (closed_db db a r status t disposition detail rstatus selected), o. split_and!; try done. by constructor.
Qed.

(** An attempt was closed; the other attempts are as they were. *)
Definition closed_by (db : ExecutionDB) (a : IbkrHistoricalAttempt) (db' : ExecutionDB)
    (o : IbkrHistoricalAttemptOutcome) : Prop :=
  ∃ r status t disposition detail rstatus selected,
    close_cond db a r status t disposition detail rstatus selected ∧
    db' = closed_db db a r status t disposition detail rstatus selected ∧ oc_request_status o = rstatus ∧
    oc_attempt o = closed_attempt a status t disposition detail.

Lemma closed_by_change db a db' o : closed_by db a db' o → change db db'.
Proof. intros (r & st & t & d & de & rs & sel & H & -> & _). by constructor. Qed.

Lemma closed_by_other db a db' o id :
  closed_by db a db' o → id ≠ at_attempt_id a → x_attempts db' !! id = x_attempts db !! id.
Proof. intros (r & st & t & d & de & rs & sel & H & -> & _) Hne. cbn. by rewrite lookup_insert_ne. Qed.

(** The request takes the status of the outcome; no other request is touched. *)
Lemma closed_by_request db a db' o :
  closed_by db a db' o → ∃ r, x_requests db' !! request_of a = Some r ∧ xr_status r = oc_request_status o ∧
    xr_status r ≠ IN_FLIGHT.
Proof.
  intros (r & st & t & d & de & rs & sel & H & -> & Eo & _). eexists. cbn. rewrite lookup_insert_eq. split; [done|]. cbn.
  rewrite Eo. split; [done|]. by destruct (cc_closing _ _ _ _ _ _ _ _ _ H).
Qed.
Lemma closed_by_outcome db a db' o : closed_by db a db' o → request_of (oc_attempt o) = request_of a.
Proof. by intros (r & st & t & d & de & rs & sel & H & _ & _ & ->). Qed.
Lemma closed_by_other_request db a db' o k :
  closed_by db a db' o → k ≠ request_of a → x_requests db' !! k = x_requests db !! k.
Proof. intros (r & st & t & d & de & rs & sel & H & -> & _) Hne. cbn. by rewrite lookup_insert_ne. Qed.

Lemma closed_by_self db a db' o :
  closed_by db a db' o → ∃ a', x_attempts db' !! at_attempt_id a = Some a' ∧ at_status a' ≠ STARTED ∧
    request_of a' = request_of a.
Proof.
  intros (r & st & t & d & de & rs & sel & H & -> & _).
  exists (closed_attempt a st t d de). cbn. rewrite lookup_insert_eq. split_and!; [done| |done].
  destruct (cc_closing _ _ _ _ _ _ _ _ _ H); done.
Qed.

Lemma not_before_ok db id a t : execution_inv db → x_attempts db !! id = Some a → is_utc t →
  is_utc (_not_before t (at_started_at a)) ∧ dt_ltb (_not_before t (at_started_at a)) (at_started_at a) = false.
Proof.
  intros [Ha _ _] Hid Ht. destruct (ai_attempt _ Ha _ _ Hid) as [_ Hv]. unfold IbkrHistoricalAttempt_post_init in Hv.
  do 6 (apply bind_Ok in Hv as (? & _ & Hv)). apply bind_Ok in Hv as (? & [Hu _]%require_utc_Ok & _).
  split; [by apply is_utc_max|]. unfold dt_ltb, _not_before. rewrite instant_max. lia.
Qed.

Lemma first_marker_Some db a m : first_marker db a = Some m → m ∈ x_markers db ∧ eligible_marker a m = true.
Proof.
  unfold first_marker. intros H%head_Some_elem_of. apply elem_of_py_sorted in H.
  by apply list_elem_of_In, filter_In in H as [?%list_elem_of_In ?].
Qed.

Section transactions.
Context (db : ExecutionDB) (id : UUID) (a : IbkrHistoricalAttempt) (r : RequestRow) (t : datetime).
Hypothesis db_inv : execution_inv db.
Hypothesis a_row : x_attempts db !! id = Some a.
Hypothesis r_row : x_requests db !! request_of a = Some r.
Hypothesis t_utc : is_utc t.
Hypothesis a_started : at_status a = STARTED.

Lemma locked_row : _attempt_for_update db id = Some (a, r).
Proof. apply attempt_for_update_Some; [apply db_inv|done]. Qed.
Lemma locked_id : at_attempt_id a = id.
Proof. by apply (ai_attempt _ (xi_attempts _ db_inv) _ _ a_row). Qed.

(** Closing with conditions that are met. *)
Lemma close_locked after status disposition detail rstatus selected :
  closing a r status disposition rstatus selected →
  match detail with Some d => out_of_bounds d 2000 = false | None => True end →
  (status = ATT_SUCCEEDED → ∃ m, completed_by db (xr_request_kind r) a m) →
  (rstatus = REQ_PENDING → at_attempt_ordinal a < 6) →
  ∃ db' o, close_attempt after db (a, r) status (_not_before t (at_started_at a)) disposition detail rstatus selected
           = Ok (db', o) ∧ closed_by db a db' o.
Proof.
  intros Hc Hd He Hb. destruct (not_before_ok db id a t db_inv a_row t_utc) as [Hu Hn].
  assert (close_cond db a r status (_not_before t (at_started_at a)) disposition detail rstatus selected) as C.
  { split; rewrite ?locked_id; done. }
  destruct (close_change after _ _ _ _ _ _ _ _ _ db_inv C) as (db' & o & E & _ & Eat & Est & Edb).
  exists db', o. split; [done|].
  exists r, status, (_not_before t (at_started_at a)), disposition, detail, rstatus, selected. done.
Qed.

Lemma finalize_started :
  (∃ db' o, _finalize_attempt_locked db id t = Ok (db', o) ∧ closed_by db a db' o) ∨
  (∃ e, _finalize_attempt_locked db id t = Raise e ∧ exn_class e = KIbkrHistoricalIncomplete).
Proof.
  unfold _finalize_attempt_locked. rewrite locked_row, bool_decide_true by done. cbn [negb].
  destruct (first_marker db a) as [m|] eqn:Em; [|right; by eexists].
  apply first_marker_Some in Em as [Hm Hel].
  assert (closing a r ATT_SUCCEEDED (Some TD_SUCCEEDED) REQ_SUCCEEDED (Some id)) as Hcs
    by (rewrite <- locked_id; constructor).
  destruct (Z.eqb_spec (count_before db id (cm_sequence m) CB_ERROR) 0) as [Herr|Herr]; cbn [negb].
  - destruct (bool_decide _ && _) eqn:Es; [right; by eexists|]. left. apply close_locked; try done.
    intros _. exists m. split_and!; [done|done|by rewrite locked_id|]. intros Hk. rewrite locked_id.
    destruct (ei_markers _ (xi_evidence _ db_inv) _ Hm) as [_ [_ C]].
    assert (cm_attempt_id m = id) as Ei by (rewrite <- locked_id; unfold eligible_marker in Hel; bool_prop; done).
    rewrite Ei in C. rewrite <- C. rewrite bool_decide_true in Es by done. cbn in Es. apply Z.eqb_neq in Es.
    unfold count_before in C. lia.
  - left. apply close_locked; try done. rewrite <- locked_id. by constructor.
Qed.

Lemma invalidate_started maximum_attempts :
  maximum_attempts <= 6 →
  ∃ db' o, _invalidate_attempt_locked db id t maximum_attempts = Ok (db', o) ∧ closed_by db a db' o.
Proof.
  intros Hmax. unfold _invalidate_attempt_locked. rewrite locked_row, bool_decide_true by done. cbn [negb].
  destruct (Z.leb_spec maximum_attempts (at_attempt_ordinal a)); apply close_locked; try done; try lia.
  - rewrite <- locked_id. by constructor.
  - constructor.
Qed.

Lemma fail_started retryable maximum_attempts d detail :
  maximum_attempts <= 6 → d ≠ TD_SUCCEEDED → out_of_bounds detail 2000 = false →
  let retry := retryable && (at_attempt_ordinal a <? maximum_attempts) in
  ∃ db' o, close_attempt "failure" db (a, r) (if retry then RETRYABLE_FAILURE else TERMINAL_FAILURE)
      (_not_before t (at_started_at a))
      (Some (if retry then d else if retryable then RETRY_LIMIT_EXHAUSTED else d)) (Some detail)
      (if retry then REQ_PENDING else TERMINAL) (if retry then xr_selected_attempt_id r else Some id) = Ok (db', o) ∧
    closed_by db a db' o.
Proof.
  intros Hmax Hd Hde retry. apply close_locked; try done; subst retry.
  - rewrite <- locked_id. destruct retryable, (Z.ltb_spec (at_attempt_ordinal a) maximum_attempts); cbn; by constructor.
  - by destruct retryable, (Z.ltb_spec (at_attempt_ordinal a) maximum_attempts).
  - destruct retryable, (Z.ltb_spec (at_attempt_ordinal a) maximum_attempts); cbn; done || lia.
Qed.
End transactions.

Lemma elem_of_attempts_where db f a : attempts_inv db →
  a ∈ attempts_where db f ↔ x_attempts db !! at_attempt_id a = Some a ∧ f a = true.
Proof.
  intros Ha. unfold attempts_where. rewrite elem_of_py_sorted, list_elem_of_In, filter_In, <- list_elem_of_In.
  rewrite list_elem_of_fmap. split.
  - intros [([id b] & -> & Hin%elem_of_map_to_list) Hf]. cbn in *. by destruct (ai_attempt _ Ha _ _ Hin) as [-> _].
  - intros [Hid Hf]. split; [|done]. exists (at_attempt_id a, a). by rewrite elem_of_map_to_list.
Qed.

Lemma NoDup_attempts_where db f : attempts_inv db → NoDup (map at_attempt_id (attempts_where db f)).
Proof.
  intros Ha. unfold attempts_where. rewrite (py_sorted_perm _ (List.filter f _)).
  assert (map at_attempt_id (map snd (map_to_list (x_attempts db))) = map fst (map_to_list (x_attempts db))) as E.
  { rewrite map_map. apply map_ext_in. intros [id b] Hin%list_elem_of_In%elem_of_map_to_list. cbn.
    by destruct (ai_attempt _ Ha _ _ Hin). }
  assert (NoDup (map at_attempt_id (map snd (map_to_list (x_attempts db))))) as Hn
    by (rewrite E; apply NoDup_fst_map_to_list).
  clear E. induction (map snd _) as [|b l IH]; [done|]. cbn in *. apply NoDup_cons in Hn as [Hb Hn].
  destruct (f b); [|by apply IH]. cbn. apply NoDup_cons. split; [|by apply IH].
  rewrite list_elem_of_fmap. intros (c & Ec & [Hc _]%list_elem_of_In%filter_In). apply Hb.
  rewrite Ec. apply list_elem_of_fmap. exists c. by rewrite list_elem_of_In.
Qed.

(** Settling a list of started attempts closes each of them and touches no other. *)
Lemma settle_started t maximum_attempts db os a r :
  is_utc t → maximum_attempts <= 6 → execution_inv db → x_attempts db !! at_attempt_id a = Some a →
  x_requests db !! request_of a = Some r → at_status a = STARTED →
  ∃ db1 o, settle_attempt t maximum_attempts (db, os) a = Ok (db1, os ++ [o]) ∧ closed_by db a db1 o.
Proof.
  intros Ht Hmax Hi Ha Hr Hs. unfold settle_attempt.
  destruct (finalize_started db (at_attempt_id a) a r t Hi Ha Hr Ht Hs) as [(db1 & o & -> & Hc)|(e & -> & He)]; [by exists db1, o|].
  rewrite decide_True by done.
  destruct (invalidate_started db (at_attempt_id a) a r t Hi Ha Hr Ht Hs maximum_attempts Hmax) as (db1 & o & -> & Hc).
  by exists db1, o.
Qed.

Lemma settle_loop t maximum_attempts l db os :
  is_utc t → maximum_attempts <= 6 → execution_inv db → NoDup (map at_attempt_id l) →
  (∀ a, a ∈ l → x_attempts db !! at_attempt_id a = Some a ∧ at_status a = STARTED) →
  ∃ db' os', for_each (settle_attempt t maximum_attempts) (db, os) l = Ok (db', os') ∧
    rtc change db db' ∧ length os' = (length os + length l)%nat ∧
    (∀ a, a ∈ l → ∃ a', x_attempts db' !! at_attempt_id a = Some a' ∧ at_status a' ≠ STARTED) ∧
    (∀ id, id ∉ map at_attempt_id l → x_attempts db' !! id = x_attempts db !! id).
Proof.
  intros Ht Hmax. revert db os. induction l as [|a l IH]; intros db os Hi Hn Hl.
  { exists db, os. split_and!; [done|done|cbn; lia| |done]. intros a Ha. by apply elem_of_nil in Ha. }
  cbn in Hn. apply NoDup_cons in Hn as [Hna Hn]. destruct (Hl a ltac:(set_solver)) as [Ha Hs].
  destruct (ai_request _ (xi_attempts _ Hi) _ _ Ha) as [r Hr].
  destruct (settle_started t maximum_attempts db os a r Ht Hmax Hi Ha Hr Hs) as (db1 & o & Es & Hc).
  pose proof (change_inv _ _ (closed_by_change _ _ _ _ Hc) Hi) as Hi1.
  destruct (IH db1 (os ++ [o]) Hi1 Hn) as (db' & os' & E & Hch & Hlen & Hdone & Hkeep).
  { intros b Hb. rewrite (closed_by_other _ _ _ _ _ Hc); [by apply Hl; set_solver|]. intros Eb. apply Hna.
    rewrite <- Eb. apply list_elem_of_fmap. eauto. }
  exists db', os'. split_and!.
  - cbn [for_each]. rewrite Es. cbn [mbind res_bind]. done.
  - eapply rtc_l; [by eapply closed_by_change|done].
  - rewrite Hlen, length_app. cbn. lia.
  - intros b [->|Hb]%elem_of_cons; [|by apply Hdone]. rewrite (Hkeep _ Hna).
    destruct (closed_by_self _ _ _ _ Hc) as (a' & ? & ? & _). eauto.
  - cbn. intros id [Hne Hid]%not_elem_of_cons. rewrite (Hkeep _ Hid). by apply closed_by_other with a o.
Qed.

(** The two transactions that settle attempts: which attempts they take is their WHERE clause. *)
Lemma settle_where t maximum_attempts db f :
  is_utc t → maximum_attempts <= 6 → execution_inv db → (∀ a, f a = true → at_status a = STARTED) →
  ∃ db' os, for_each (settle_attempt t maximum_attempts) (db, []) (attempts_where db f) = Ok (db', os) ∧
    rtc change db db' ∧ length os = length (attempts_where db f) ∧
    (∀ a, a ∈ attempts_where db f → ∃ a', x_attempts db' !! at_attempt_id a = Some a' ∧ at_status a' ≠ STARTED) ∧
    (∀ id, id ∉ map at_attempt_id (attempts_where db f) → x_attempts db' !! id = x_attempts db !! id).
Proof.
  intros Ht Hmax Hi Hf. apply settle_loop; try done; [apply NoDup_attempts_where, Hi|].
  intros a [Ha Hfa]%elem_of_attempts_where; [|apply Hi]. auto.
Qed.

(** ** Steps of the execution store *)

Inductive execution_step : ExecutionDB → ExecutionDB → Prop :=
| step_register json_loads db plan plan_bytes at_ db' s :
    register_ibkr_historical_plan json_loads db plan plan_bytes at_ = Ok (db', s) → execution_step db db'
| step_start db id plan request session generation provider at_ maximum db' a :
    start_ibkr_historical_attempt db id plan request session generation provider at_ maximum = Ok (db', a) →
    execution_step db db'
| step_append db id callback db' c :
    append_ibkr_historical_callback db id callback = Ok (db', c) → execution_step db db'
| step_finalize db id at_ db' o : finalize_ibkr_historical_attempt db id at_ = Ok (db', o) → execution_step db db'
| step_fail db id at_ disposition detail retryable maximum db' o :
    fail_ibkr_historical_attempt db id at_ disposition detail retryable maximum = Ok (db', o) → execution_step db db'
| step_recover db plan at_ maximum db' os :
    recover_ibkr_historical_execution db plan at_ maximum = Ok (db', os) → execution_step db db'
| step_invalidate db plan session generation at_ maximum db' os :
    invalidate_ibkr_historical_attempts db plan session generation at_ maximum = Ok (db', os) → execution_step db db'
| step_publish db plan publications at_ db' :
    mark_ibkr_historical_requests_published db plan publications at_ = Ok db' → execution_step db db'.

Lemma insert_requests_Ok sha l requests requests' :
  for_each (insert_request sha) requests l = Ok requests' →
  (∀ k r, requests' !! k = Some r → requests !! k = Some r ∨ (requests !! k = None ∧ k.1 = sha ∧ fresh_request r)) ∧
  (∀ k r, requests !! k = Some r → requests' !! k = Some r).
Proof.
  revert requests. induction l as [|q l IH]; intros requests; cbn [for_each]; [intros [= <-]; auto|].
  intros (m & Hm & H)%bind_Ok. apply IH in H as [H1 H2]. unfold insert_request in Hm.
  apply bind_Ok in Hm as (j & _ & Hm). apply bind_Ok in Hm as ([] & Hfree & [= <-]).
  apply raise_if_Ok, bool_decide_eq_false, eq_None_not_Some in Hfree. split.
  - intros k r [Hr|(Hn & Hk & Hf)]%H1.
    + apply lookup_insert_Some in Hr as [[<- <-]|[_ Hr]]; [by right|by left].
    + apply lookup_insert_None in Hn as [Hn _]. by right.
  - intros k r Hr. apply H2. rewrite lookup_insert_ne; [done|]. congruence.
Qed.

Lemma register_changes json_loads db plan plan_bytes at_ db' s :
  register_ibkr_historical_plan json_loads db plan plan_bytes at_ = Ok (db', s) → rtc change db db'.
Proof.
  unfold register_ibkr_historical_plan. intros H. do 7 apply bind_Ok in H as (? & _ & H).
  destruct (x_plans db !! hp_plan_sha256 plan) as [p|] eqn:Ep; [by res_inv|].
  apply bind_Ok in H as (requests & Hr & [= <- <-]). apply insert_requests_Ok in Hr as [H1 H2].
  apply rtc_once. by apply (change_register db (hp_plan_sha256 plan) _ requests).
Qed.

Lemma start_changes db id plan request session generation provider at_ maximum db' a :
  start_ibkr_historical_attempt db id plan request session generation provider at_ maximum = Ok (db', a) →
  rtc change db db'.
Proof.
  unfold start_ibkr_historical_attempt. intros H. do 5 apply bind_Ok in H as (? & _ & H).
  apply bind_Ok in H as (? & Hmax%raise_if_Ok & H). apply bind_Ok in H as (? & _ & H).
  destruct (x_requests db !! (plan, request)) as [r|] eqn:Er; [|done].
  destruct (bool_decide (xr_status r = REQ_PENDING)) eqn:Es; [|by injection H as <- <-]. cbn [negb] in H.
  apply bool_decide_eq_true in Es. apply bind_Ok in H as (? & Hb%raise_if_Ok & H).
  apply bind_Ok in H as (? & Hc%raise_if_Ok & H). apply bind_Ok in H as ([] & Hv & [= <- <-]).
  apply rtc_once. set (b := mkAttempt _ _ _ _ _ _ _ _ _ _ _ _) in *.
  apply (change_start db b r); try done.
  - unfold attempt_conflicts in Hc. bool_prop. apply eq_None_not_Some. done.
  - cbn [b at_attempt_ordinal]. bool_prop. lia.
Qed.

Lemma newest_sequence db id c : c ∈ x_callbacks db → cr_attempt_id c = id →
  cr_sequence c < fold_right Z.max 0 (map cr_sequence (callbacks_of db id)) + 1.
Proof.
  intros Hc E. assert (c ∈ callbacks_of db id) as H.
  { unfold callbacks_of. rewrite list_elem_of_In, filter_In, <- list_elem_of_In. by rewrite bool_decide_true. }
  induction (callbacks_of db id) as [|d l IH]; [by apply elem_of_nil in H|].
  apply elem_of_cons in H as [->|H]; cbn; [lia|]. apply IH in H. lia.
Qed.

Lemma append_changes db id callback db' c :
  execution_inv db → append_ibkr_historical_callback db id callback = Ok (db', c) → rtc change db db'.
Proof.
  intros Hi. unfold append_ibkr_historical_callback.
  destruct (_attempt_for_update db id) as [[a r]|] eqn:Ea; [|done]. cbv zeta.
  apply attempt_for_update_Some in Ea as [Ha _]; [|apply Hi].
  set (sequence := fold_right Z.max 0 (map cr_sequence (callbacks_of db id)) + 1). set (eligible := _ && _).
  set (record := mkCallbackRecord _ _ _ _ _ _ _ _ _ _). intros ([] & _ & [= <- <-])%bind_Ok. apply rtc_once.
  destruct (decide (cb_kind callback = CB_COMPLETION)) as [Hk|Hk].
  - apply (change_evidence db record [_]). split; cbn [record cr_attempt_id cr_sequence].
    + by eexists.
    + intros d. apply newest_sequence.
    + intros m ->%list_elem_of_singleton. cbn. split_and!; [done..| |].
      * rewrite <- (count_before_app db record [] id sequence); [|done]. unfold count_before. by rewrite app_nil_r.
      * rewrite <- (count_before_app db record [] id sequence); [|done]. unfold count_before. by rewrite app_nil_r.
  - rewrite <- (app_nil_r (x_markers db)). apply (change_evidence db record []). split; cbn [record cr_attempt_id cr_sequence].
    + by eexists.
    + intros d. apply newest_sequence.
    + intros m Hm. by apply elem_of_nil in Hm.
Qed.

Lemma finalize_closes db id a r t db' o :
  execution_inv db → x_attempts db !! id = Some a → x_requests db !! request_of a = Some r → at_status a = STARTED →
  finalize_ibkr_historical_attempt db id t = Ok (db', o) → closed_by db a db' o.
Proof.
  intros Hi Ha Hr Hs. unfold finalize_ibkr_historical_attempt. intros (? & [Ht _]%require_utc_Ok & H)%bind_Ok.
  destruct (finalize_started db id a r t Hi Ha Hr Ht Hs) as [(d1 & o1 & E & Hc)|(e & E & _)]; rewrite E in H; [|done].
  by injection H as <- <-.
Qed.

Lemma finalize_changes db id t db' o :
  execution_inv db → finalize_ibkr_historical_attempt db id t = Ok (db', o) → rtc change db db'.
Proof.
  intros Hi H. destruct (_attempt_for_update db id) as [[a r]|] eqn:Ea.
  2:{ unfold finalize_ibkr_historical_attempt, _finalize_attempt_locked in H. rewrite Ea in H. by apply bind_Ok in H as (? & _ & H). }
  apply attempt_for_update_Some in Ea as Hrow; [destruct Hrow as [Ha Hr]|apply Hi].
  destruct (decide (at_status a = STARTED)) as [Hs|Hs].
  - by eapply rtc_once, closed_by_change, finalize_closes.
  - unfold finalize_ibkr_historical_attempt, _finalize_attempt_locked in H. apply bind_Ok in H as (? & _ & H).
    rewrite Ea, bool_decide_false in H by done. cbn [negb] in H. apply bind_Ok in H as (? & _ & [= <- <-]). done.
Qed.

Lemma maximum_bounds m u : _require_maximum_attempts m = Ok u → 0 < m <= 6.
Proof. unfold _require_maximum_attempts. intros H%raise_if_Ok. bool_prop. lia. Qed.

Lemma fail_closes db id a r t disposition detail retryable maximum db' o :
  execution_inv db → x_attempts db !! id = Some a → x_requests db !! request_of a = Some r → at_status a = STARTED →
  fail_ibkr_historical_attempt db id t disposition detail retryable maximum = Ok (db', o) → closed_by db a db' o.
Proof.
  intros Hi Ha Hr Hs. unfold fail_ibkr_historical_attempt. intros (? & [Ht _]%require_utc_Ok & H)%bind_Ok.
  apply bind_Ok in H as (? & Hmax%maximum_bounds & H). apply bind_Ok in H as (? & Hd%raise_if_Ok & H).
  destruct (IbkrTerminalDisposition_of_str disposition) as [d|]; [|done].
  apply bind_Ok in H as (? & Hn%raise_if_Ok & H). apply bool_decide_eq_false in Hn.
  rewrite (proj2 (attempt_for_update_Some db id a r (xi_attempts _ Hi)) (conj Ha Hr)), bool_decide_true in H by done.
  cbn [negb] in H.
  destruct (fail_started db id a r t Hi Ha Hr Ht Hs retryable maximum d detail ltac:(lia) Hn Hd) as (d1 & o1 & E & Hc).
  cbv zeta in H, E. rewrite E in H. by injection H as <- <-.
Qed.

Lemma fail_changes db id t disposition detail retryable maximum db' o :
  execution_inv db → fail_ibkr_historical_attempt db id t disposition detail retryable maximum = Ok (db', o) →
  rtc change db db'.
Proof.
  intros Hi H. destruct (_attempt_for_update db id) as [[a r]|] eqn:Ea.
  - apply attempt_for_update_Some in Ea as Hrow; [destruct Hrow as [Ha Hr]|apply Hi].
    destruct (decide (at_status a = STARTED)) as [Hs|Hs]; [by eapply rtc_once, closed_by_change, fail_closes|].
    unfold fail_ibkr_historical_attempt in H. do 3 apply bind_Ok in H as (? & _ & H).
    destruct (IbkrTerminalDisposition_of_str disposition); [|done]. apply bind_Ok in H as (? & _ & H).
    rewrite Ea, bool_decide_false in H by done. cbn [negb] in H. apply bind_Ok in H as (? & _ & [= <- <-]). done.
  - unfold fail_ibkr_historical_attempt in H. do 3 apply bind_Ok in H as (? & _ & H).
    destruct (IbkrTerminalDisposition_of_str disposition); [|done]. apply bind_Ok in H as (? & _ & H). by rewrite Ea in H.
Qed.

Definition recovered_by (plan_sha256 : string) (a : IbkrHistoricalAttempt) : bool :=
  String.eqb (at_plan_sha256 a) plan_sha256 && bool_decide (at_status a = STARTED).
Lemma recovered_by_true plan a : recovered_by plan a = true ↔ at_plan_sha256 a = plan ∧ at_status a = STARTED.
Proof. unfold recovered_by. by rewrite andb_true_iff, String.eqb_eq, bool_decide_eq_true. Qed.
Definition invalidated_by (plan_sha256 : string) (session : UUID) (generation : Z) (a : IbkrHistoricalAttempt) : bool :=
  String.eqb (at_plan_sha256 a) plan_sha256 && bool_decide (at_connection_session_id a = session)
  && (at_connection_generation a =? generation) && bool_decide (at_status a = STARTED).

Lemma recover_changes db plan t maximum db' os :
  execution_inv db → recover_ibkr_historical_execution db plan t maximum = Ok (db', os) → rtc change db db'.
Proof.
  intros Hi. unfold recover_ibkr_historical_execution. intros (? & _ & H)%bind_Ok.
  apply bind_Ok in H as (? & Hmax%maximum_bounds & H). apply bind_Ok in H as (? & [Ht _]%require_utc_Ok & H).
  destruct (settle_where t maximum db (recovered_by plan) Ht ltac:(lia) Hi) as (d1 & os1 & E & Hc & _).
  { by intros a [_ ?]%recovered_by_true. }
  unfold recovered_by in E. rewrite E in H. by injection H as <- <-.
Qed.

Lemma invalidate_changes db plan session generation t maximum db' os :
  execution_inv db → invalidate_ibkr_historical_attempts db plan session generation t maximum = Ok (db', os) →
  rtc change db db'.
Proof.
  intros Hi. unfold invalidate_ibkr_historical_attempts. intros H. do 3 apply bind_Ok in H as (? & _ & H).
  apply bind_Ok in H as (? & Hmax%maximum_bounds & H). apply bind_Ok in H as (? & [Ht _]%require_utc_Ok & H).
  destruct (settle_where t maximum db (invalidated_by plan session generation) Ht ltac:(lia) Hi) as (d1 & os1 & E & Hc & _).
  { unfold invalidated_by. intros a Ha. bool_prop. done. }
  unfold invalidated_by in E. rewrite E in H. by injection H as <- <-.
Qed.

(** Publication: the requests of one call are distinct, so each reads its own row of the snapshot. *)
Lemma publication_NoDup (l : list (string * string)) seen seen' :
  for_each (λ seen (p : string * string),
      _require_sha256 p.1 "IBKR publication request hash";;
      _require_sha256 p.2 "IBKR result hash";;
      raise_if (bool_decide (p.1 ∈ seen)) (ValueError "IBKR publication request identities are duplicated");;
      Ok (seen ++ [p.1])) seen l = Ok seen' →
  NoDup (map fst l) ∧ ∀ p, p ∈ l → p.1 ∉ seen.
Proof.
  revert seen. induction l as [|p l IH]; intros seen; cbn [for_each]; [by repeat constructor; intros ? ?%elem_of_nil|].
  intros (s & Hs & H)%bind_Ok. do 2 apply bind_Ok in Hs as (? & _ & Hs).
  apply bind_Ok in Hs as (? & Hd%raise_if_Ok & [= <-]). apply bool_decide_eq_false in Hd.
  apply IH in H as [Hn Hl]. split.
  - cbn. apply NoDup_cons. split; [|done]. intros (q & Eq & Hq)%list_elem_of_fmap. apply (Hl q Hq). set_solver.
  - intros q [->|Hq]%elem_of_cons; [done|]. specialize (Hl q Hq). set_solver.
Qed.

Lemma publish_loop snapshot sha t l db db' :
  NoDup (map fst l) → (∀ p, p ∈ l → x_requests db !! (sha, p.1) = x_requests snapshot !! (sha, p.1)) →
  for_each (publish_request snapshot sha t) db l = Ok db' → rtc change db db' ∧ x_plans db' = x_plans db ∧
    (∀ p, p ∈ l → ∃ r, x_requests db' !! (sha, p.1) = Some r ∧ xr_publication_status r = PUBLISHED ∧
                       xr_result_sha256 r = Some p.2) ∧
    (∀ k, (k.1 = sha → k.2 ∉ map fst l) → x_requests db' !! k = x_requests db !! k).
Proof.
  revert db. induction l as [|[q result] l IH]; intros db Hn Hl H.
  { injection H as <-. split_and!; [done|done| |done]. intros p Hp. by apply elem_of_nil in Hp. }
  cbn [map fst] in Hn. apply NoDup_cons in Hn as [Hq Hn]. apply bind_Ok in H as (d1 & H1 & H).
  assert (∀ p, p ∈ l → p.1 ≠ q) as Hne.
  { intros p Hp E. apply Hq. rewrite <- E. apply list_elem_of_fmap. eauto. }
  assert (rtc change db d1 ∧ x_plans d1 = x_plans db ∧
    (∃ r, x_requests d1 !! (sha, q) = Some r ∧ xr_publication_status r = PUBLISHED ∧ xr_result_sha256 r = Some result) ∧
    (∀ k, k ≠ (sha, q) → x_requests d1 !! k = x_requests db !! k)) as (C1 & C2 & C3 & C4).
  { unfold publish_request in H1. destruct (x_requests snapshot !! (sha, q)) as [row|] eqn:Er; [|done].
    pose proof (Hl (q, result) ltac:(set_solver)) as Hrow. cbn in Hrow. rewrite Er in Hrow.
    apply bind_Ok in H1 as (? & Hd%raise_if_Ok & H1). apply bind_Ok in H1 as (? & _ & H1).
    cbv zeta in H1. apply bind_Ok in H1 as (? & _ & H1).
    destruct (decide (xr_publication_status row = PUBLISHED)) as [Hp|Hp].
    - apply bind_Ok in H1 as (? & Hr%raise_if_Ok & [= <-]). bool_prop. split_and!; try done. eauto.
    - injection H1 as <-. cbn. split_and!; [|done| |].
      + apply rtc_once, change_publish; [done| |by destruct (publication_cases (xr_publication_status row))].
        unfold decided. by destruct (xr_status row); [discriminate Hd|discriminate Hd|left|right].
      + rewrite lookup_insert_eq. eauto.
      + intros k Hk. by rewrite lookup_insert_ne. }
  apply IH in H as (D1 & D2 & D3 & D4); [|done|].
  - split_and!; [by trans d1|congruence| |].
    + intros p [->|Hp]%elem_of_cons; [|by apply D3]. cbn. rewrite D4; [done|]. by intros _.
    + intros k Hk. rewrite D4, C4; [done|..].
      * intros ->. by apply Hk; [done|left].
      * intros E Hin. apply (Hk E). cbn. by right.
  - intros p Hp. rewrite C4; [apply Hl; set_solver|]. intros [= E]. by apply (Hne p).
Qed.

Lemma elem_of_requests_of db sha s r : (s, r) ∈ requests_of db sha ↔ x_requests db !! (sha, s) = Some r.
Proof.
  unfold requests_of. rewrite list_elem_of_In, in_flat_map. setoid_rewrite <- list_elem_of_In. split.
  - intros ([[p q] row] & Hin%elem_of_map_to_list & H). cbn in H.
    destruct (String.eqb_spec p sha) as [->|]; [|by apply elem_of_nil in H].
    by apply list_elem_of_singleton in H as [= -> ->].
  - intros H. exists (sha, s, r). rewrite elem_of_map_to_list. cbn. rewrite String.eqb_refl. set_solver.
Qed.

Lemma publish_changes db sha publications t db' :
  mark_ibkr_historical_requests_published db sha publications t = Ok db' → rtc change db db'.
Proof.
  unfold mark_ibkr_historical_requests_published. intros H. do 3 apply bind_Ok in H as (? & _ & H).
  apply bind_Ok in H as (? & [Hn _]%publication_NoDup & H). apply bind_Ok in H as (d1 & Hl & H).
  apply publish_loop in Hl as (Hc & _); [|done|done].
  destruct (existsb _ _) eqn:Ex; [by injection H as <-|].
  destruct (x_plans d1 !! sha) as [p|] eqn:Ep; [|by injection H as <-]. injection H as <-.
  eapply rtc_r; [done|]. apply change_publish_plan; [done|]. intros [k1 k2] r Hr E1. cbn in E1. subst k1.
  destruct (publication_cases (xr_publication_status r)) as [E|E]; [|done]. exfalso.
  apply not_true_iff_false in Ex. apply Ex, existsb_exists. exists (k2, r). split; [|by apply bool_decide_eq_true].
  by apply list_elem_of_In, elem_of_requests_of.
Qed.

Lemma step_changes db db' : execution_step db db' → execution_inv db → rtc change db db'.
Proof.
  intros [] Hi; eauto using register_changes, start_changes, append_changes, finalize_changes, fail_changes,
    recover_changes, invalidate_changes, publish_changes.
Qed.

Definition reachable (db : ExecutionDB) : Prop := rtc execution_step empty_execution db.

Lemma steps_changes db db' : execution_inv db → rtc execution_step db db' → rtc change db db'.
Proof.
  intros Hi H. induction H as [|x y z Hxy _ IH]; [done|]. pose proof (step_changes _ _ Hxy Hi) as Hc.
  trans y; [done|]. by apply IH, (changes_inv x).
Qed.
Lemma reachable_inv db : reachable db → execution_inv db.
Proof. intros H. eapply changes_inv; [by apply steps_changes; [apply empty_inv|]|apply empty_inv]. Qed.

Lemma reachable_steps db db' : reachable db → rtc execution_step db db' → reachable db'.
Proof. unfold reachable. intros H1 H2. by trans db. Qed.

(** ** The protocol of one request *)

(** What a client sees of a request: its status, the attempts made, the outcome selected and
    the result published. *)
Record RequestView : Type := mkView {
  v_status : IbkrRequestStatus;
  v_attempts : Z;
  v_outcome : option IbkrTerminalDisposition;
  v_result : option string }.

Inductive protocol : option RequestView → option RequestView → Prop :=
| proto_register : protocol None (Some (mkView REQ_PENDING 0 None None))
| proto_start n : n < 6 → protocol (Some (mkView REQ_PENDING n None None)) (Some (mkView IN_FLIGHT (n + 1) None None))
| proto_return n : n < 6 → protocol (Some (mkView IN_FLIGHT n None None)) (Some (mkView REQ_PENDING n None None))
| proto_succeed n :
    protocol (Some (mkView IN_FLIGHT n None None)) (Some (mkView REQ_SUCCEEDED n (Some TD_SUCCEEDED) None))
| proto_fail n d : d ≠ TD_SUCCEEDED →
    protocol (Some (mkView IN_FLIGHT n None None)) (Some (mkView TERMINAL n (Some d) None))
| proto_publish st n o result : st = REQ_SUCCEEDED ∨ st = TERMINAL →
    protocol (Some (mkView st n o None)) (Some (mkView st n o (Some result))).
#[export] Hint Constructors protocol : qtrad.

Definition request_view (db : ExecutionDB) (k : string * string) (r : RequestRow) : RequestView :=
  mkView (xr_status r) (xr_attempt_count r) (a ← selected_attempt db k r; at_terminal_disposition a)
    (if decide (xr_publication_status r = PUBLISHED) then xr_result_sha256 r else None).
Definition view (db : ExecutionDB) (k : string * string) : option RequestView :=
  r ← x_requests db !! k; Some (request_view db k r).

Lemma view_Some db k r : x_requests db !! k = Some r → view db k = Some (request_view db k r).
Proof. unfold view. by intros ->. Qed.

(** A request that is not decided shows neither an outcome nor a result. *)
Lemma undecided_view db k r : execution_inv db → x_requests db !! k = Some r → undecided r →
  request_view db k r = mkView (xr_status r) (xr_attempt_count r) None None.
Proof.
  intros [Ha _ Hq] Hr Hu. unfold request_view, selected_attempt.
  rewrite (ro_selected _ _ _ (ai_requests _ Ha _ _ Hr) Hu). cbn. rewrite decide_False; [done|].
  intros E. destruct (pi_published _ Hq _ _ Hr E) as [Hd _]. destruct Hu, Hd; congruence.
Qed.

(** Attempts of other requests do not show. *)
Lemma request_view_other db db' k r id a' :
  x_attempts db' = <[id := a']> (x_attempts db) → request_of a' ≠ k →
  (∀ a, x_attempts db !! id = Some a → request_of a ≠ k) → request_view db' k r = request_view db k r.
Proof.
  intros E Hk Ha. unfold request_view, selected_attempt. destruct (xr_selected_attempt_id r) as [i|]; [|done]. cbn.
  rewrite E. destruct (decide (id = i)) as [<-|Hne]; [|by rewrite lookup_insert_ne].
  rewrite lookup_insert_eq. cbn. rewrite (decide_False (P := request_of a' = k)) by done. destruct (x_attempts db !! id) as [b|]; [|done]. cbn.
  by rewrite (decide_False (P := request_of b = k)) by (by apply Ha).
Qed.

Lemma change_view db db' k : execution_inv db → change db db' →
  view db' k = view db k ∨ protocol (view db k) (view db' k).
Proof.
  intros Hi H. destruct H as [db sha p requests Hp _ Hnew Hold|db a r Hr Hs Hno Hst Ho Hmax Hv|db c ms _
    |db a r status t d detail rs sel [Ha Hr Hs Hc _ _ _ _ Hb]|db k' r result t Hr Hd Hpub|db sha p t _ _].
  - destruct (requests !! k) as [r|] eqn:E.
    + destruct (Hnew _ _ E) as [Hr|(Hr & _ & F1 & F2 & F3 & F4)]; [left|right].
      * unfold view. cbn. by rewrite E, Hr.
      * unfold view. cbn. rewrite E, Hr. cbn. unfold request_view, selected_attempt. rewrite F1, F2, F3, F4. cbn. constructor.
    + left. unfold view. cbn. rewrite E. destruct (x_requests db !! k) as [r|] eqn:Er; [|done].
      apply Hold in Er. congruence.
  - destruct (decide (k = request_of a)) as [->|Hne]; [right|left].
    + rewrite (view_Some _ _ _ Hr), undecided_view by (try done; by left).
      set (r' := request_update r IN_FLIGHT (at_attempt_ordinal a) (xr_selected_attempt_id r)).
      rewrite (view_Some (started_db db a r) (request_of a) r') by (cbn; by rewrite lookup_insert_eq).
      rewrite undecided_view; [rewrite Hs; cbn; rewrite Ho; constructor; lia| | |by right].
      * by apply started_inv.
      * cbn. by rewrite lookup_insert_eq.
    + unfold view. cbn. rewrite lookup_insert_ne by done. destruct (x_requests db !! k) as [s|]; [|done]. cbn.
      f_equal. apply (request_view_other db _ k s (at_attempt_id a) a); [done|congruence|congruence].
  - left. done.
  - pose proof (xi_attempts _ Hi) as Hai. destruct (started_in_flight _ _ _ _ Hai Ha Hr Hs) as (Hf & Ho & Hsel).
    destruct (decide (k = request_of a)) as [->|Hne]; [right|left].
    + rewrite (view_Some _ _ _ Hr), undecided_view by (try done; by right). rewrite Hf.
      erewrite view_Some by (cbn; by rewrite lookup_insert_eq).
      assert (xr_publication_status r ≠ PUBLISHED) as Hnp.
      { intros E. destruct (pi_published _ (xi_publication _ Hi) _ _ Hr E) as [[?|?] _]; congruence. }
      unfold request_view, selected_attempt. cbn. rewrite (decide_False (P := _ = PUBLISHED)) by done.
      destruct Hc; cbn; rewrite ?Hsel; cbn; rewrite ?lookup_insert_eq; cbn; rewrite ?decide_True by done; cbn;
        constructor; first [done|rewrite <- Ho; by apply Hb].
    + unfold view. cbn. rewrite lookup_insert_ne by done. destruct (x_requests db !! k) as [s|]; [|done]. cbn.
      f_equal. eapply (request_view_other db _ k s (at_attempt_id a)); [done|cbn; intros E; by apply Hne|].
      intros b Hb'. rewrite Ha in Hb'. injection Hb' as <-. intros E. by apply Hne.
  - destruct (decide (k = k')) as [->|Hne]; [right|left].
    + rewrite (view_Some _ _ _ Hr). erewrite view_Some by (cbn; by rewrite lookup_insert_eq).
      unfold request_view. cbn. rewrite Hpub. cbn. by constructor.
    + unfold view. cbn. by rewrite lookup_insert_ne.
  - left. done.
Qed.

Lemma changes_view db db' k : execution_inv db → rtc change db db' → rtc protocol (view db k) (view db' k).
Proof.
  intros Hi H. induction H as [|x y z Hxy _ IH]; [done|].
  specialize (IH (change_inv _ _ Hxy Hi)). destruct (change_view _ _ k Hi Hxy) as [<-|Hp]; [done|by eapply rtc_l].
Qed.

(** ** Properties *)

(** What the protocol alone implies. *)
Definition view_ok (v : option RequestView) : Prop :=
  match v with
  | None => True
  | Some v =>
      match v_status v with
      | REQ_PENDING => 0 <= v_attempts v < 6 ∧ v_outcome v = None ∧ v_result v = None
      | IN_FLIGHT => 1 <= v_attempts v <= 6 ∧ v_outcome v = None ∧ v_result v = None
      | REQ_SUCCEEDED => 1 <= v_attempts v <= 6 ∧ v_outcome v = Some TD_SUCCEEDED
      | TERMINAL => 1 <= v_attempts v <= 6 ∧ ∃ d, v_outcome v = Some d ∧ d ≠ TD_SUCCEEDED
      end
  end.
(** Later views of a decided request differ in an added result at most. *)
Definition final_of (v w : RequestView) : Prop :=
  v_status w = v_status v ∧ v_attempts w = v_attempts v ∧ v_outcome w = v_outcome v ∧
  (is_Some (v_result v) → v_result w = v_result v).

Lemma protocol_ok v w : protocol v w → view_ok v → view_ok w.
Proof.
  intros [|n|n|n|n d Hd|st n o result Hst]; cbn; [done|..|]; try (intros; split_and!; eauto; lia).
  by destruct Hst as [-> | ->].
Qed.
Lemma protocols_ok v w : rtc protocol v w → view_ok v → view_ok w.
Proof. induction 1; eauto using protocol_ok. Qed.
Lemma protocol_final v w : protocol (Some v) w → v_status v = REQ_SUCCEEDED ∨ v_status v = TERMINAL →
  ∃ u, w = Some u ∧ final_of v u.
Proof.
  inversion 1; subst; cbn; intros [?|?]; try done; eexists; split; try done; split_and!; try done; by intros [].
Qed.
Lemma protocols_final v w : rtc protocol (Some v) w → v_status v = REQ_SUCCEEDED ∨ v_status v = TERMINAL →
  ∃ u, w = Some u ∧ final_of v u.
Proof.
  intros H. remember (Some v) as x eqn:E. revert v E. induction H as [x|x y z Hxy _ IH]; intros v ->; intros Hv.
  { exists v. by split_and!. }
  destruct (protocol_final _ _ Hxy Hv) as (u & -> & E1 & E2 & E3 & E4).
  destruct (IH u eq_refl) as (t & -> & F1 & F2 & F3 & F4); [by rewrite E1|]. exists t. split; [done|].
  split_and!; try congruence. intros Hr. rewrite F4; [by apply E4|by rewrite (E4 Hr)].
Qed.

Lemma reachable_view_ok db k : reachable db → view_ok (view db k).
Proof.
  intros H. apply (protocols_ok (view empty_execution k)).
  - apply changes_view; [apply empty_inv|]. by apply steps_changes; [apply empty_inv|].
  - unfold view. cbn. by rewrite lookup_empty.
Qed.

(** C4: Every transaction of the execution store is, for each request, a sequence of steps of the
    protocol PENDING - IN_FLIGHT - decided - published, in which an attempt is started only while
    fewer than six were made and an outcome or a result, once set, is never replaced. *)
Theorem execution_refines_protocol db db' k :
  reachable db → execution_step db db' → rtc protocol (view db k) (view db' k).
Proof.
  intros Hr Hs. pose proof (reachable_inv _ Hr) as Hi. apply changes_view; [done|]. by apply step_changes.
Qed.

(** A request is decided once: whatever transactions follow, it keeps its status, its number
    of attempts and its outcome, and a published result is never replaced. *)
Theorem decided_requests_final db db' k r :
  reachable db → rtc execution_step db db' → x_requests db !! k = Some r → decided r →
  ∃ r', x_requests db' !! k = Some r' ∧ final_of (request_view db k r) (request_view db' k r').
Proof.
  intros Hr Hs Hk Hd. pose proof (reachable_inv _ Hr) as Hi.
  pose proof (changes_view _ _ k Hi (steps_changes _ _ Hi Hs)) as Hp. rewrite (view_Some _ _ _ Hk) in Hp.
  destruct (protocols_final _ _ Hp) as (u & Eu & Hf); [exact Hd|]. unfold view in Eu.
  destruct (x_requests db' !! k) as [r'|]; [|done]. cbn in Eu. injection Eu as <-. eauto.
Qed.

(** C20: In every reachable state a request that SUCCEEDED has a selected attempt that succeeded
    and, recorded for that very attempt and connection, a completion before which no eligible
    error callback arrived, and for a schedule at least one schedule callback. *)
Theorem success_has_evidence db k r :
  reachable db → x_requests db !! k = Some r → xr_status r = REQ_SUCCEEDED →
  ∃ a m, selected_attempt db k r = Some a ∧ at_status a = ATT_SUCCEEDED ∧
    at_attempt_ordinal a = xr_attempt_count r ∧ m ∈ x_markers db ∧ eligible_marker a m = true ∧
    count_before db (at_attempt_id a) (cm_sequence m) CB_ERROR = 0 ∧
    (xr_request_kind r = SCHEDULE → 0 < count_before db (at_attempt_id a) (cm_sequence m) CB_SCHEDULE).
Proof.
  intros Hreach Hk Hs. destruct (reachable_inv _ Hreach) as [Ha He _]. pose proof (ai_requests _ Ha _ _ Hk) as Ho.
  assert (xr_attempt_count r ≠ 0) as Hne by (intros E; apply (ro_unattempted _ _ _ Ho) in E; congruence).
  pose proof (ro_count _ _ _ Ho). destruct (ro_total _ _ _ Ho (xr_attempt_count r) ltac:(lia)) as (id & a & Hid & Hka & Hoa).
  pose proof (ro_last _ _ _ Ho _ _ Hid Hka Hoa) as Hl. unfold last_ok in Hl. rewrite Hs in Hl.
  destruct Hl as (Hst & _ & Hsel). destruct (ai_attempt _ Ha _ _ Hid) as [Eid _].
  destruct (ei_success _ He id a r Hid ltac:(by rewrite Hka) Hst) as (m & Hm & Hel & Herr & Hsch).
  exists a, m. split_and!; try done. unfold selected_attempt. rewrite Hsel. cbn. rewrite Eid, Hid. cbn. by rewrite decide_True.
Qed.

(** In every reachable state the attempts of a request carry the ordinals 1 to n, each once,
    with n at most six, and only the last one can still be running, which it is exactly when the
    request is IN_FLIGHT. *)
Theorem attempts_bounded db k r :
  reachable db → x_requests db !! k = Some r →
  0 <= xr_attempt_count r <= 6 ∧
  (∀ n, 1 <= n <= xr_attempt_count r ↔
     ∃ id a, x_attempts db !! id = Some a ∧ request_of a = k ∧ at_attempt_ordinal a = n) ∧
  (∀ id a id' a', x_attempts db !! id = Some a → x_attempts db !! id' = Some a' → request_of a = k →
     request_of a' = k → at_attempt_ordinal a = at_attempt_ordinal a' → id = id') ∧
  (∀ id a, x_attempts db !! id = Some a → request_of a = k →
     at_status a = STARTED ↔ at_attempt_ordinal a = xr_attempt_count r ∧ xr_status r = IN_FLIGHT).
Proof.
  intros Hreach Hk. pose proof (reachable_view_ok _ k Hreach) as Hv. rewrite (view_Some _ _ _ Hk) in Hv. cbn in Hv.
  destruct (reachable_inv _ Hreach) as [Ha _ _]. pose proof (ai_requests _ Ha _ _ Hk) as Ho. split_and!.
  - by apply (ro_count _ _ _ Ho).
  - destruct (xr_status r); lia.
  - intros n. split; [apply Ho|]. intros (id & a & Hid & Hka & <-). by eapply (ro_ordinal _ _ _ Ho).
  - apply Ho.
  - intros id a Hid Hka. split.
    + intros Hst. destruct (started_in_flight db id a r Ha Hid ltac:(by rewrite Hka) Hst) as (? & ? & _). done.
    + intros [Hoa Hf]. pose proof (ro_last _ _ _ Ho _ _ Hid Hka Hoa) as Hl. unfold last_ok in Hl. by rewrite Hf in Hl.
Qed.

(** C30: Recovery after a crash always returns, with one outcome per attempt that was running for
    the plan; afterwards no attempt of the plan runs and no request of it is IN_FLIGHT, every
    other attempt is as it was, and recovering again changes nothing. *)
Theorem recovery_settles db plan t maximum :
  reachable db → is_sha256 plan = true → is_utc t → 1 <= maximum <= 6 →
  ∃ db' os, recover_ibkr_historical_execution db plan t maximum = Ok (db', os) ∧
    length os = length (attempts_where db (recovered_by plan)) ∧
    (∀ id a, x_attempts db' !! id = Some a → at_plan_sha256 a = plan → at_status a ≠ STARTED) ∧
    (∀ k r, x_requests db' !! k = Some r → k.1 = plan → xr_status r ≠ IN_FLIGHT) ∧
    (∀ id a, x_attempts db !! id = Some a → at_plan_sha256 a ≠ plan ∨ at_status a ≠ STARTED →
       x_attempts db' !! id = Some a) ∧
    (∀ t', is_utc t' → recover_ibkr_historical_execution db' plan t' maximum = Ok (db', [])).
Proof.
  intros Hreach Hsha Ht Hmax. pose proof (reachable_inv _ Hreach) as Hi.
  assert (∀ a, recovered_by plan a = true → at_status a = STARTED) as Hf by (by intros a [_ ?]%recovered_by_true).
  destruct (settle_where t maximum db (recovered_by plan) Ht ltac:(lia) Hi Hf) as (db' & os & E & Hc & Hlen & Hdone & Hkeep).
  pose proof (changes_inv _ _ Hc Hi) as Hi'.
  assert (∀ d t, is_utc t → recover_ibkr_historical_execution d plan t maximum
    = for_each (settle_attempt t maximum) (d, []) (attempts_where d (recovered_by plan))) as Erec.
  { intros d t' Ht'. unfold recover_ibkr_historical_execution, _require_sha256, _require_maximum_attempts.
    rewrite Hsha, require_utc_is_utc by done. by replace ((maximum <=? 0) || (6 <? maximum)) with false by lia. }
  assert (∀ id a, x_attempts db' !! id = Some a → at_plan_sha256 a = plan → at_status a ≠ STARTED) as Hnone.
  { intros id a Hid Hp Hs. destruct (decide (id ∈ map at_attempt_id (attempts_where db (recovered_by plan)))) as [Hin|Hin].
    - apply list_elem_of_fmap in Hin as (b & -> & Hb). destruct (Hdone _ Hb) as (b' & Hb' & Hns). congruence.
    - rewrite Hkeep in Hid by done. apply Hin, list_elem_of_fmap. exists a.
      destruct (ai_attempt _ (xi_attempts _ Hi) _ _ Hid) as [<- _]. split; [done|].
      apply elem_of_attempts_where; [apply Hi|]. split; [done|]. by apply recovered_by_true. }
  exists db', os. split_and!; [by rewrite Erec|done|done|..].
  - intros k r Hr Hk Hfl. pose proof (ai_requests _ (xi_attempts _ Hi') _ _ Hr) as Ho. pose proof (ro_count _ _ _ Ho).
    assert (xr_attempt_count r ≠ 0) as Hne by (intros E0; apply (ro_unattempted _ _ _ Ho) in E0; congruence).
    destruct (ro_total _ _ _ Ho (xr_attempt_count r) ltac:(lia)) as (id & a & Hid & Hka & Hoa).
    pose proof (ro_last _ _ _ Ho _ _ Hid Hka Hoa) as Hl. unfold last_ok in Hl. rewrite Hfl in Hl.
    apply (Hnone id a Hid); [|done]. by rewrite <- Hk, <- Hka.
  - intros id a Hid Hother. rewrite Hkeep; [done|]. intros (b & -> & Hb)%list_elem_of_fmap.
    apply elem_of_attempts_where in Hb as [Hb Hr]; [|apply Hi]. rewrite Hid in Hb. injection Hb as <-.
    apply recovered_by_true in Hr as [? ?]. by destruct Hother.
  - intros t' Ht'. rewrite Erec by done. destruct (attempts_where db' (recovered_by plan)) as [|a l] eqn:El; [done|].
    exfalso. assert (a ∈ attempts_where db' (recovered_by plan)) as Hin by (rewrite El; by left).
    apply elem_of_attempts_where in Hin as [Hin Hr]; [|apply Hi']. apply recovered_by_true in Hr as [? ?].
    by apply (Hnone _ _ Hin).
Qed.

(** A publication call marks exactly the requests it names, each decided and with the result
    given for it, and leaves every other request as it was; the plan is PUBLISHED afterwards
    exactly when all of its requests are. *)
Theorem publication_exact db sha publications t db' :
  reachable db → mark_ibkr_historical_requests_published db sha publications t = Ok db' →
  (∀ p, p ∈ publications → ∃ r, x_requests db' !! (sha, p.1) = Some r ∧ decided r ∧
     xr_publication_status r = PUBLISHED ∧ xr_result_sha256 r = Some p.2) ∧
  (∀ k, (k.1 = sha → k.2 ∉ map fst publications) → x_requests db' !! k = x_requests db !! k) ∧
  (∃ row, x_plans db' !! sha = Some row ∧
     (xp_publication_status row = PUBLISHED ↔
      ∀ k r, x_requests db' !! k = Some r → k.1 = sha → xr_publication_status r = PUBLISHED)).
Proof.
  intros Hreach H. pose proof (reachable_inv _ Hreach) as Hi.
  pose proof (changes_inv _ _ (publish_changes _ _ _ _ _ H) Hi) as [_ _ Hq].
  unfold mark_ibkr_historical_requests_published in H. do 2 apply bind_Ok in H as (? & _ & H).
  apply bind_Ok in H as (? & Hne%raise_if_Ok & H).
  apply bind_Ok in H as (? & [Hn _]%publication_NoDup & H). apply bind_Ok in H as (d1 & Hl & H).
  apply publish_loop in Hl as (_ & Hplans & Hpub & Hkeep); [|done|done].
  assert (x_requests db' = x_requests d1) as Er.
  { destruct (existsb _ _); [by injection H as <-|]. destruct (x_plans d1 !! sha); by injection H as <-. }
  rewrite Er in *. split_and!; [|done|].
  - intros p Hp. destruct (Hpub p Hp) as (r & Hr & Hs & Hres). exists r. split_and!; try done.
    destruct Hq as [_ Hq _]. rewrite Er in Hq. by eapply Hq.
  - assert (is_Some (x_plans d1 !! sha)) as [row Hrow].
    { destruct publications as [|p l]; [done|]. destruct (Hpub p ltac:(by left)) as (r & Hr & _).
      destruct Hq as [Hq _ _]. rewrite Er in Hq. destruct (Hq _ _ Hr) as [row Hrow]. cbn in Hrow.
      destruct (x_plans d1 !! sha) as [|] eqn:E1; [by eexists|]. destruct (existsb _ _);
        injection H as <-; congruence. }
    rewrite Hrow in H. destruct (existsb _ _) eqn:Ex.
    + injection H as <-. exists row. split; [done|]. split; [intros Hp k r Hr Hk; destruct Hq as [_ _ Hq]; by eapply Hq|].
      intros Hall. apply existsb_exists in Ex as ([s r] & Hin%list_elem_of_In%elem_of_requests_of & Hs).
      apply bool_decide_eq_true in Hs. cbn in Hs. specialize (Hall _ _ Hin eq_refl). congruence.
    + injection H as <-. eexists. cbn. rewrite lookup_insert_eq. split; [done|]. split; [|done]. intros _ k r Hr Hk.
      destruct Hq as [_ _ Hq]. eapply Hq; [cbn; by rewrite lookup_insert_eq|done|done|done].
Qed.

(** What is recorded of an attempt by its status. *)
Definition shape (a : IbkrHistoricalAttempt) : Prop :=
  match at_status a with
  | STARTED => True
  | INVALIDATED => at_terminal_disposition a = None
  | ATT_SUCCEEDED => at_terminal_disposition a = Some TD_SUCCEEDED
  | _ => ∃ d, at_terminal_disposition a = Some d ∧ d ≠ TD_SUCCEEDED
  end.

Lemma change_shape db db' : change db db' →
  map_Forall (λ _, shape) (x_attempts db) → map_Forall (λ _, shape) (x_attempts db').
Proof.
  intros Hch Hs. destruct Hch as [|d a r _ _ _ Hst _ _ _| |d a r status t di de rs sel [_ _ _ Hc _ _ _ _ _]| |]; try exact Hs; cbn.
  - apply map_Forall_insert_2; [|done]. unfold shape. by rewrite Hst.
  - apply map_Forall_insert_2; [|done]. unfold shape. destruct Hc; cbn; eauto.
Qed.
Lemma reachable_shape db id a : reachable db → x_attempts db !! id = Some a → shape a.
Proof.
  intros H Hid. pose proof (steps_changes _ _ empty_inv H) as Hc.
  assert (map_Forall (λ _, shape) (x_attempts db)) as Hs; [|by eapply Hs].
  assert (map_Forall (λ _, shape) (x_attempts empty_execution)) as H0 by apply map_Forall_empty.
  clear -Hc H0. induction Hc; eauto using change_shape.
Qed.

(** C39: Finalizing an attempt that is already closed changes nothing and reports the recorded
    attempt with the state of its request - except for an attempt that was invalidated and whose
    request was decided TERMINAL by a later one: there it raises ValueError. *)
Theorem finalize_closed_reports db id a r t :
  reachable db → is_utc t → x_attempts db !! id = Some a → x_requests db !! request_of a = Some r →
  at_status a ≠ STARTED →
  if decide (at_status a = INVALIDATED ∧ xr_status r = TERMINAL)
  then finalize_ibkr_historical_attempt db id t
       = Raise (ValueError "terminal IBKR requests require a failure disposition")
  else ∃ o, finalize_ibkr_historical_attempt db id t = Ok (db, o) ∧ oc_attempt o = a ∧
            oc_request_status o = xr_status r.
Proof.
  intros Hreach Ht Hid Hr Hs. pose proof (reachable_inv _ Hreach) as Hi. pose proof (reachable_shape _ _ _ Hreach Hid) as Hsh.
  destruct (ai_attempt _ (xi_attempts _ Hi) _ _ Hid) as [_ Hv].
  pose proof (ai_requests _ (xi_attempts _ Hi) _ _ Hr) as Ho.
  assert (xr_status r = TERMINAL → at_status a ≠ ATT_SUCCEEDED) as Hns.
  { intros E E'. destruct (ro_ordinal _ _ _ Ho _ _ Hid eq_refl) as [_ Hle].
    destruct (decide (at_attempt_ordinal a = xr_attempt_count r)) as [En|Hne].
    - pose proof (ro_last _ _ _ Ho _ _ Hid eq_refl En) as Hl. unfold last_ok in Hl. rewrite E in Hl. destruct Hl. congruence.
    - destruct (ro_earlier _ _ _ Ho _ _ Hid eq_refl ltac:(lia)); congruence. }
  assert (finalize_ibkr_historical_attempt db id t
    = (o ← _attempt_outcome_from_row (a, r); Ok (db, o))) as ->.
  { unfold finalize_ibkr_historical_attempt, _finalize_attempt_locked. rewrite require_utc_is_utc by done. cbn [mbind res_bind].
    rewrite (proj2 (attempt_for_update_Some db id a r (xi_attempts _ Hi)) (conj Hid Hr)), bool_decide_false by done. done. }
  unfold _attempt_outcome_from_row. rewrite Hv. cbn [mbind res_bind]. unfold IbkrHistoricalAttemptOutcome_post_init, shape in *. cbn.
  destruct (xr_status r) eqn:Er; [rewrite decide_False by naive_solver; cbn; by eexists..|].
  destruct (at_status a) eqn:Ea; try done; try (by destruct (Hns eq_refl)).
  - destruct Hsh as (d & -> & Hd). rewrite decide_False by naive_solver. rewrite (bool_decide_false (Some d = Some TD_SUCCEEDED)) by congruence.
    cbn. by eexists.
  - rewrite decide_True by done. by rewrite Hsh.
  - destruct Hsh as (d & -> & Hd). rewrite decide_False by naive_solver. rewrite (bool_decide_false (Some d = Some TD_SUCCEEDED)) by congruence.
    cbn. by eexists.
Qed.

(** ** Witnesses: one request that is attempted, completed and published *)

Definition plan_key : string := "0000000000000000000000000000000000000000000000000000000000000001".
Definition req_key : string := "0000000000000000000000000000000000000000000000000000000000000002".
Definition result_key : string := "0000000000000000000000000000000000000000000000000000000000000003".
Definition session_id : UUID := mkUUID "00000000-0000-0000-0000-000000000009".
Definition attempt_id1 : UUID := mkUUID "00000000-0000-0000-0000-000000000001".
Definition one_request : IbkrHistoricalRequest :=
  mkRequest "fx:eurusd" sample_fingerprint SCHEDULE (utc 0) (utc (hours 24)) "19700102-00:00:00" "4 W" (Some "1 day")
    (Some "SCHEDULE") false (Some 2) false req_key.
Definition one_plan : IbkrHistoricalPlan :=
  mkHistoricalPlan sample_hash sample_hash sample_hash "ibkr" "paper" sample_commit ("sha256:" +:+ sample_hash)
    (utc 0) (utc (hours 24)) [sample_contract] [one_request] plan_key.
Definition one_plan_loads (text : string) : option json := Some (ok_or JNull (plan_json one_plan)).
Definition callback_of (kind : IbkrHistoricalCallbackKind) : IbkrHistoricalCallback :=
  mkCallback session_id 7 1 kind (utc (hours 30)) [].

Definition db1 : ExecutionDB :=
  (ok_or (empty_execution, REGISTERED)
     (register_ibkr_historical_plan one_plan_loads empty_execution one_plan (Some "{}") (utc 0))).1.
Definition db2 : ExecutionDB :=
  (ok_or (empty_execution, None)
     (start_ibkr_historical_attempt db1 attempt_id1 plan_key req_key session_id 1 7 (utc (hours 29)) 3)).1.
Definition no_record : IbkrHistoricalCallbackRecord :=
  mkCallbackRecord 0 zero_uuid zero_uuid 0 0 0 CB_ERROR (utc 0) [] false.
Definition db3 : ExecutionDB :=
  (ok_or (empty_execution, no_record) (append_ibkr_historical_callback db2 attempt_id1 (callback_of CB_SCHEDULE))).1.
Definition db4 : ExecutionDB :=
  (ok_or (empty_execution, no_record) (append_ibkr_historical_callback db3 attempt_id1 (callback_of CB_COMPLETION))).1.
Definition no_outcome : IbkrHistoricalAttemptOutcome :=
  mkOutcome (mkAttempt zero_uuid "" "" zero_uuid 0 0 0 (utc 0) STARTED None None None) REQ_PENDING None.
Definition db5 : ExecutionDB :=
  (ok_or (empty_execution, no_outcome) (finalize_ibkr_historical_attempt db4 attempt_id1 (utc (hours 31)))).1.
Definition db6 : ExecutionDB :=
  ok_or empty_execution (mark_ibkr_historical_requests_published db5 plan_key [(req_key, result_key)] (utc (hours 32))).

(** A computation that returned is its first component with some second one. *)
Lemma ok_or_fst {A B} (d : A * B) (m : res (A * B)) : is_ok m = true → ∃ b, m = Ok ((ok_or d m).1, b).
Proof. destruct m as [[a b]|]; [|done]. by exists b. Qed.

Lemma db1_step : execution_step empty_execution db1.
Proof. edestruct (ok_or_fst (empty_execution, REGISTERED)) as [s E]; [|eapply step_register; exact E]. vm_compute. reflexivity. Qed.
Lemma db2_step : execution_step db1 db2.
Proof. edestruct (ok_or_fst (empty_execution, @None IbkrHistoricalAttempt)) as [s E]; [|eapply step_start; exact E]. vm_compute. reflexivity. Qed.
Lemma db3_step : execution_step db2 db3.
Proof. edestruct (ok_or_fst (empty_execution, no_record)) as [s E]; [|eapply step_append; exact E]. vm_compute. reflexivity. Qed.
Lemma db4_step : execution_step db3 db4.
Proof. edestruct (ok_or_fst (empty_execution, no_record)) as [s E]; [|eapply step_append; exact E]. vm_compute. reflexivity. Qed.
Lemma db5_step : execution_step db4 db5.
Proof. edestruct (ok_or_fst (empty_execution, no_outcome)) as [s E]; [|eapply step_finalize; exact E]. vm_compute. reflexivity. Qed.
Lemma db6_published :
  mark_ibkr_historical_requests_published db5 plan_key [(req_key, result_key)] (utc (hours 32)) = Ok db6.
Proof. unfold db6. destruct (mark_ibkr_historical_requests_published _ _ _ _) eqn:E; [done|]. exfalso.
  assert (is_ok (mark_ibkr_historical_requests_published db5 plan_key [(req_key, result_key)] (utc (hours 32))) = true) as H
    by (vm_compute; reflexivity). by rewrite E in H. Qed.
Lemma db6_step : execution_step db5 db6.
Proof. eapply step_publish, db6_published. Qed.
Lemma db2_reachable : reachable db2.
Proof. eapply rtc_l; [exact db1_step|]. apply rtc_once, db2_step. Qed.
Lemma db4_reachable : reachable db4.
Proof. eapply rtc_r; [|exact db4_step]. eapply rtc_r; [exact db2_reachable|exact db3_step]. Qed.
Lemma db5_reachable : reachable db5.
Proof. eapply rtc_r; [exact db4_reachable|exact db5_step]. Qed.
Definition row5 : RequestRow :=
  mkRequestRow (ok_or JNull (request_json one_request)) "fx:eurusd" SCHEDULE (utc 0) (utc (hours 24)) REQ_SUCCEEDED 1
    (Some attempt_id1) PUB_PENDING None None.
Lemma row5_row : x_requests db5 !! (plan_key, req_key) = Some row5.
Proof. vm_compute. reflexivity. Qed.

Lemma execution_refines_protocol_witness : rtc protocol (view db4 (plan_key, req_key)) (view db5 (plan_key, req_key)).
Proof. exact (execution_refines_protocol db4 db5 (plan_key, req_key) db4_reachable db5_step). Defined.

Lemma decided_requests_final_witness :
  ∃ r', x_requests db6 !! (plan_key, req_key) = Some r' ∧
    final_of (request_view db5 (plan_key, req_key) row5) (request_view db6 (plan_key, req_key) r').
Proof.
  exact (decided_requests_final db5 db6 (plan_key, req_key) row5 db5_reachable (rtc_once _ _ db6_step) row5_row
           (or_introl eq_refl)).
Defined.

Lemma success_has_evidence_witness :
  ∃ a m, selected_attempt db5 (plan_key, req_key) row5 = Some a ∧ at_status a = ATT_SUCCEEDED ∧
    at_attempt_ordinal a = 1 ∧ m ∈ x_markers db5 ∧ eligible_marker a m = true ∧
    count_before db5 (at_attempt_id a) (cm_sequence m) CB_ERROR = 0 ∧
    (SCHEDULE = SCHEDULE → 0 < count_before db5 (at_attempt_id a) (cm_sequence m) CB_SCHEDULE).
Proof. exact (success_has_evidence db5 (plan_key, req_key) row5 db5_reachable row5_row eq_refl). Defined.

Lemma attempts_bounded_witness : 0 <= xr_attempt_count row5 <= 6.
Proof. exact (proj1 (attempts_bounded db5 (plan_key, req_key) row5 db5_reachable row5_row)). Defined.

Lemma recovery_settles_witness :
  ∃ db' os, recover_ibkr_historical_execution db2 plan_key (utc (hours 33)) 3 = Ok (db', os) ∧ length os = 1%nat.
Proof.
  destruct (recovery_settles db2 plan_key (utc (hours 33)) 3 db2_reachable eq_refl eq_refl ltac:(lia))
    as (db' & os & E & Hlen & _).
  exists db', os. split; [exact E|]. rewrite Hlen. vm_compute. reflexivity.
Defined.

Lemma publication_exact_witness :
  ∃ r, x_requests db6 !! (plan_key, req_key) = Some r ∧ decided r ∧ xr_publication_status r = PUBLISHED ∧
       xr_result_sha256 r = Some result_key.
Proof.
  exact (proj1 (publication_exact db5 plan_key [(req_key, result_key)] (utc (hours 32)) db6 db5_reachable db6_published)
           (req_key, result_key) (proj2 (list_elem_of_singleton _ _) eq_refl)).
Defined.

Lemma finalize_closed_reports_witness :
  ∃ o, finalize_ibkr_historical_attempt db5 attempt_id1 (utc (hours 34)) = Ok (db5, o) ∧ oc_request_status o = REQ_SUCCEEDED.
Proof.
  destruct (x_attempts db5 !! attempt_id1) as [a|] eqn:E; [|vm_compute in E; discriminate E].
  assert (request_of a = (plan_key, req_key) ∧ at_status a = ATT_SUCCEEDED) as [Ek Es]
    by (vm_compute in E; injection E as <-; vm_compute; done).
  pose proof (finalize_closed_reports db5 attempt_id1 a row5 (utc (hours 34)) db5_reachable eq_refl E) as H.
  rewrite Ek, Es in H. destruct (H row5_row ltac:(discriminate)) as (o & Eo & _ & Er). exists o. exact (conj Eo Er).
Defined.
