(* ===== verification/IbkrPacing.v ===== *)
(** Request pacing: the reservation ledger of [adapters/postgres/store.py]
    ([reserve_ibkr_request]) and its binding to one request profile in
    [adapters/ibkr/pacing.py].

    The ledger is the table ops.ibkr_request_pacing; an advisory lock serialises its
    transactions, so one call is one function. Delays, floats of seconds in the source, are
    only compared with zero and handed on; they are timedeltas here. *)

From S2P Require Import Prelude PySorted PyStr PyTime PyDecimal Sha256 PyJson PyParse Domain Storage IbkrPlan.

(** ** The ledger *)

Record Reservation : Type := mkReservation {
  rs_requested_at : datetime;
  rs_request_kind : string;
  rs_contract_key : string;
  rs_request_fingerprint : string;
  rs_weight : Z;
  rs_profile_sha256 : string }.

(** [SELECT COALESCE(SUM(weight), 0) ... WHERE f] *)
Definition sum_weight (f : Reservation → bool) (l : list Reservation) : Z :=
  fold_right (λ r n, rs_weight r + n) 0 (List.filter f l).

Definition same_kind (a b : Reservation) : bool := String.eqb (rs_request_kind b) (rs_request_kind a).
Definition same_contract (a b : Reservation) : bool :=
  same_kind a b && String.eqb (rs_contract_key b) (rs_contract_key a).
Definition same_request (a b : Reservation) : bool :=
  same_contract a b && String.eqb (rs_request_fingerprint b) (rs_request_fingerprint a).
Definition after_time (cutoff : datetime) (b : Reservation) : bool := dt_ltb cutoff (rs_requested_at b).

Definition GLOBAL_LIMIT : Z := 45.

Definition retention (p : IbkrHistoricalPacingPolicy) : Z :=
  Z.max (Z.max MAX_IBKR_HISTORICAL_COOLDOWN_SECONDS (pp_identical_request_cooldown_seconds p)) (pp_rolling_window_seconds p).

Definition reserve_ibkr_request (ledger : list Reservation) (requested_at : datetime)
    (request_kind contract_key request_fingerprint : string) (weight : Z) (request_profile_sha256 : string)
    (policy : IbkrHistoricalPacingPolicy) : res (list Reservation * bool) :=
  require_utc requested_at "IBKR pacing requested_at";;
  raise_if (negb (nonempty request_kind) || negb (nonempty contract_key) || negb (nonempty request_fingerprint))
           (ValueError "IBKR pacing identity fields must be non-empty");;
  raise_if (weight <=? 0) (ValueError "IBKR pacing weight must be positive");;
  raise_if (negb (is_sha256 request_profile_sha256))
           (ValueError "IBKR pacing request profile hash must be a lower-case SHA-256");;
  let r := mkReservation requested_at request_kind contract_key request_fingerprint weight request_profile_sha256 in
  let cutoff s := dt_sub requested_at (seconds s) in
  let kept := List.filter (λ b, negb (dt_ltb (rs_requested_at b) (cutoff (retention policy)))) ledger in
  if existsb (λ b, same_request r b && after_time (cutoff (pp_identical_request_cooldown_seconds policy)) b) kept
  then Ok (kept, false)
  else if GLOBAL_LIMIT <? sum_weight (after_time (cutoff 1)) kept + weight
  then Ok (kept, false)
  else if (String.eqb request_kind "historical" || String.eqb request_kind "BID_ASK")
          && (pp_max_requests_per_contract_window policy
              <? sum_weight (λ b, same_contract r b && after_time (cutoff (pp_per_contract_window_seconds policy)) b) kept
                 + weight)
  then Ok (kept, false)
  else if String.eqb request_kind "historical"
          && (pp_max_requests_per_rolling_window policy
              <? sum_weight (λ b, same_kind r b && after_time (cutoff (pp_rolling_window_seconds policy)) b) kept + weight)
  then Ok (kept, false)
  else
    raise_if (existsb (λ b, same_request r b && dt_eqb (rs_requested_at b) requested_at) kept)
             (IntegrityError "ibkr_request_pacing");;
    Ok (kept ++ [r], true).

(** ** The pacer bound to a profile *)

Record IbkrPostgresPacing : Type := mkPacer {
  pc_request_profile_sha256 : string;
  pc_pacing_policy : IbkrHistoricalPacingPolicy;
  pc_retry_seconds : timedelta }.
Definition IbkrPostgresPacing_init (request_profile_sha256 : string) (pacing_policy : IbkrHistoricalPacingPolicy)
    (retry_seconds : timedelta) : res IbkrPostgresPacing :=
  raise_if (negb (is_sha256 request_profile_sha256))
           (ValueError "IBKR pacing request profile hash must be a lower-case SHA-256");;
  raise_if (retry_seconds <=? 0) (ValueError "IBKR pacing retry seconds must be positive");;
  Ok (mkPacer request_profile_sha256 pacing_policy retry_seconds).

#[export] Instance IbkrHistoricalPacingPolicy_eq_dec : EqDecision IbkrHistoricalPacingPolicy.
Proof. solve_decision. Defined.

(** [clock] is what the clock reads at this call. *)
Definition reserve (pacer : IbkrPostgresPacing) (ledger : list Reservation) (clock : datetime)
    (request_kind contract_key request_fingerprint : string) (weight : Z)
    (request_profile_sha256 : option string) (pacing_policy : option IbkrHistoricalPacingPolicy)
    : res (list Reservation * timedelta) :=
  let bound_profile_sha256 := default (pc_request_profile_sha256 pacer) request_profile_sha256 in
  let bound_pacing_policy := default (pc_pacing_policy pacer) pacing_policy in
  raise_if (negb (String.eqb bound_profile_sha256 (pc_request_profile_sha256 pacer)))
           (ValueError "IBKR pacing request profile hash does not match its binding");;
  raise_if (negb (bool_decide (bound_pacing_policy = pc_pacing_policy pacer)))
           (ValueError "IBKR pacing policy does not match its binding");;
  raise_if (bool_decide (dt_offset clock = None)) (ValueError "IBKR pacing clock must return an aware timestamp");;
  '(ledger', reserved) ← reserve_ibkr_request ledger (utc (instant clock)) request_kind contract_key
      request_fingerprint weight bound_profile_sha256 bound_pacing_policy;
  Ok (ledger', if (reserved : bool) then 0 else pc_retry_seconds pacer).

(** ** Sums over windows *)

Definition at_ (r : Reservation) : Z := instant (rs_requested_at r).
(** The reservations of a half-open window of [w] seconds that ends at [t]. *)
Definition in_window (w t : Z) (r : Reservation) : bool := (t - seconds w <? at_ r) && (at_ r <=? t).

Lemma sum_weight_app f l1 l2 : sum_weight f (l1 ++ l2) = sum_weight f l1 + sum_weight f l2.
Proof.
  unfold sum_weight. rewrite List.filter_app, fold_right_app.
  induction (List.filter f l1) as [|r l IH]; cbn; [lia|]. rewrite IH. lia.
Qed.

Lemma sum_weight_nonneg f l : Forall (λ r, 0 < rs_weight r) l → 0 <= sum_weight f l.
Proof.
  unfold sum_weight. induction 1 as [|r l Hr _ IH]; cbn; [lia|]. destruct (f r); cbn; lia.
Qed.

Lemma sum_weight_mono f g l :
  Forall (λ r, 0 < rs_weight r) l → (∀ r, r ∈ l → f r = true → g r = true) → sum_weight f l <= sum_weight g l.
Proof.
  unfold sum_weight. induction 1 as [|r l Hr _ IH]; cbn; intros Hfg; [lia|].
  specialize (IH (λ s Hs, Hfg s ltac:(set_solver))). pose proof (Hfg r ltac:(set_solver)).
  destruct (f r), (g r); cbn; try lia; naive_solver.
Qed.

Lemma sum_weight_ext f g l : (∀ r, r ∈ l → f r = g r) → sum_weight f l = sum_weight g l.
Proof.
  unfold sum_weight. intros Hfg. f_equal. apply filter_ext_in. intros r Hr. apply Hfg. by apply list_elem_of_In.
Qed.

Lemma sum_weight_filter f g l : (∀ r, r ∈ l → f r = true → g r = true) →
  sum_weight f (List.filter g l) = sum_weight f l.
Proof.
  unfold sum_weight. induction l as [|r l IH]; cbn; intros Hfg; [done|].
  specialize (IH (λ s Hs, Hfg s ltac:(set_solver))). pose proof (Hfg r ltac:(set_solver)).
  destruct (g r) eqn:Eg; cbn; destruct (f r) eqn:Ef; cbn; rewrite ?IH; naive_solver.
Qed.

(** ** Accepted reservations stay within every window *)

Record within_limits (p : IbkrHistoricalPacingPolicy) (log : list Reservation) : Prop := {
  wl_global : ∀ t, sum_weight (in_window 1 t) log <= GLOBAL_LIMIT;
  wl_contract : ∀ t r, rs_request_kind r = "historical" ∨ rs_request_kind r = "BID_ASK" →
    sum_weight (λ b, same_contract r b && in_window (pp_per_contract_window_seconds p) t b) log
    <= pp_max_requests_per_contract_window p;
  wl_rolling : ∀ t r, rs_request_kind r = "historical" →
    sum_weight (λ b, same_kind r b && in_window (pp_rolling_window_seconds p) t b) log
    <= pp_max_requests_per_rolling_window p;
  wl_cooldown : ∀ i j a b, log !! i = Some a → log !! j = Some b → (i < j)%nat → same_request a b = true →
    at_ a + seconds (pp_identical_request_cooldown_seconds p) <= at_ b }.

(** What the ledger keeps of the reservations made so far, the clock having read [now] at last. *)
Record ledger_inv (p : IbkrHistoricalPacingPolicy) (now : Z) (ledger log : list Reservation) : Prop := {
  li_kept : ∃ cutoff, ledger = List.filter (λ r, cutoff <=? at_ r) log ∧ cutoff <= now - seconds (retention p);
  li_past : Forall (λ r, at_ r <= now) log;
  li_weight : Forall (λ r, 0 < rs_weight r) log;
  li_limits : within_limits p log }.

Lemma window_grows f w limit log r :
  Forall (λ b, at_ b <= at_ r) log → Forall (λ b, 0 < rs_weight b) log → f r = true →
  (∀ t, sum_weight (λ b, f b && in_window w t b) log <= limit) →
  sum_weight (λ b, f b && (at_ r - seconds w <? at_ b)) log + rs_weight r <= limit →
  ∀ t, sum_weight (λ b, f b && in_window w t b) (log ++ [r]) <= limit.
Proof.
  intros Hpast Hw Hf Hold Hnew t. rewrite sum_weight_app. rewrite Forall_forall in Hpast.
  assert (sum_weight (λ b, f b && in_window w t b) [r] = if in_window w t r then rs_weight r else 0) as ->.
  { unfold sum_weight. cbn. rewrite Hf. cbn. destruct (in_window w t r); cbn; lia. }
  destruct (in_window w t r) eqn:Er; [|specialize (Hold t); lia]. unfold in_window in Er. bool_prop.
  etrans; [|exact Hnew]. apply Z.add_le_mono_r, sum_weight_mono; [done|]. intros b Hb [Hfb Hin]%andb_true_iff.
  apply andb_true_iff. split; [done|]. unfold in_window in Hin. bool_prop. apply Z.ltb_lt. lia.
Qed.

(** What a call did, from its result. *)
Record reserved (ledger ledger' : list Reservation) (r : Reservation) (p : IbkrHistoricalPacingPolicy) (b : bool) : Prop := {
  rv_utc : is_utc (rs_requested_at r);
  rv_weight : 0 < rs_weight r;
  rv_ledger : let kept := List.filter (λ b, at_ r - seconds (retention p) <=? at_ b) ledger in
              ledger' = if b then kept ++ [r] else kept;
  rv_fresh : b = true → ∀ b', b' ∈ ledger → same_request r b' = true →
             at_ b' <= at_ r - seconds (retention p) ∨ at_ b' <= at_ r - seconds (pp_identical_request_cooldown_seconds p);
  rv_global : b = true → sum_weight (λ b, at_ r - seconds 1 <? at_ b)
                (List.filter (λ b, at_ r - seconds (retention p) <=? at_ b) ledger) + rs_weight r <= GLOBAL_LIMIT;
  rv_contract : b = true → rs_request_kind r = "historical" ∨ rs_request_kind r = "BID_ASK" →
    sum_weight (λ b, same_contract r b && (at_ r - seconds (pp_per_contract_window_seconds p) <? at_ b))
      (List.filter (λ b, at_ r - seconds (retention p) <=? at_ b) ledger) + rs_weight r
    <= pp_max_requests_per_contract_window p;
  rv_rolling : b = true → rs_request_kind r = "historical" →
    sum_weight (λ b, same_kind r b && (at_ r - seconds (pp_rolling_window_seconds p) <? at_ b))
      (List.filter (λ b, at_ r - seconds (retention p) <=? at_ b) ledger) + rs_weight r
    <= pp_max_requests_per_rolling_window p }.

Lemma after_cutoff t w b : is_utc t → after_time (dt_sub t w) b = (instant t - w <? at_ b).
Proof.
  intros Ht. unfold after_time, dt_ltb, dt_sub, dt_add, at_, instant, is_utc in *. cbn. rewrite Ht. cbn. f_equal. lia.
Qed.

Lemma kept_cutoff t w l : is_utc t →
  List.filter (λ b, negb (dt_ltb (rs_requested_at b) (dt_sub t w))) l = List.filter (λ b, instant t - w <=? at_ b) l.
Proof.
  intros Ht. apply filter_ext. intros b. unfold dt_ltb, dt_sub, dt_add, at_, instant, is_utc in *. cbn. rewrite Ht. cbn.
  rewrite Z.leb_antisym. do 2 f_equal. lia.
Qed.

Lemma reserve_Ok ledger t kind ck fp w sha p ledger' b :
  reserve_ibkr_request ledger t kind ck fp w sha p = Ok (ledger', b) →
  reserved ledger ledger' (mkReservation t kind ck fp w sha) p b.
Proof.
  unfold reserve_ibkr_request. intros (? & [Ht _]%require_utc_Ok & H)%bind_Ok.
  apply bind_Ok in H as (? & _ & H). apply bind_Ok in H as (? & Hw%raise_if_Ok & H). apply bind_Ok in H as (? & _ & H).
  cbv zeta in H. rewrite (kept_cutoff t _ ledger Ht) in H.
  set (kept := List.filter _ ledger) in H. set (r := mkReservation _ _ _ _ _ _) in *. bool_prop.
  rewrite !(sum_weight_ext (after_time _) _ kept (λ b _, after_cutoff t _ b Ht)) in H.
  rewrite !(sum_weight_ext (λ b, same_contract r b && after_time _ b) _ kept
    (λ b _, f_equal (andb _) (after_cutoff t _ b Ht))) in H.
  rewrite !(sum_weight_ext (λ b, same_kind r b && after_time _ b) _ kept
    (λ b _, f_equal (andb _) (after_cutoff t _ b Ht))) in H.
  destruct (existsb _ kept) eqn:E1 in H; [injection H as <- <-; by split|].
  destruct (GLOBAL_LIMIT <? _) eqn:E2 in H; [injection H as <- <-; by split|].
  destruct ((_ || _) && _) eqn:E3 in H; [injection H as <- <-; by split|].
  destruct (String.eqb kind "historical" && _) eqn:E4 in H; [injection H as <- <-; by split|].
  apply bind_Ok in H as (? & _ & [= <- <-]). apply Z.ltb_ge in E2. split; try done.
  - intros _ b' Hb' Hsame. destruct (decide (at_ r - seconds (retention p) <= at_ b')) as [Hk|Hk]; [right|left; lia].
    apply not_true_iff_false in E1. apply Z.nlt_ge. intros Hlt. apply E1, existsb_exists. exists b'. split.
    + apply filter_In. split; [by apply list_elem_of_In|]. by apply Z.leb_le.
    + rewrite Hsame, after_cutoff by done. apply andb_true_iff. split; [done|]. by apply Z.ltb_lt.
  - intros _ Hk. apply andb_false_iff in E3 as [E3|E3]; [|by apply Z.ltb_ge in E3].
    exfalso. apply orb_false_iff in E3 as [E3 E3']. apply String.eqb_neq in E3, E3'. cbn in Hk. tauto.
  - intros _ Hk. cbn in Hk. subst kind. rewrite String.eqb_refl in E4. by apply Z.ltb_ge in E4.
Qed.

Lemma policy_bounds p : IbkrHistoricalPacingPolicy_post_init p = Ok tt →
  15 <= pp_identical_request_cooldown_seconds p <= 3600 ∧ pp_per_contract_window_seconds p = 2 ∧
  1 <= pp_max_requests_per_contract_window p <= 5 ∧ pp_rolling_window_seconds p = 600 ∧
  1 <= pp_max_requests_per_rolling_window p <= 59.
Proof.
  unfold IbkrHistoricalPacingPolicy_post_init, MAX_IBKR_HISTORICAL_COOLDOWN_SECONDS. intros H.
  do 4 (apply bind_Ok in H as (? & ?%raise_if_Ok & H)). apply raise_if_Ok in H. bool_prop. lia.
Qed.

Lemma retention_valid p : IbkrHistoricalPacingPolicy_post_init p = Ok tt → retention p = 3600.
Proof. intros H%policy_bounds. unfold retention, MAX_IBKR_HISTORICAL_COOLDOWN_SECONDS. lia. Qed.

Lemma same_request_sym a b : same_request a b = true → same_request b a = true.
Proof.
  unfold same_request, same_contract, same_kind. rewrite !andb_true_iff, !String.eqb_eq. intros [[-> ->] ->]. done.
Qed.
Lemma same_kind_refl a : same_kind a a = true.
Proof. unfold same_kind. by rewrite String.eqb_refl. Qed.
Lemma same_contract_refl a : same_contract a a = true.
Proof. unfold same_contract. by rewrite same_kind_refl, String.eqb_refl. Qed.
Lemma same_contract_trans a b c : same_contract a b = true → same_contract a c = same_contract b c.
Proof. unfold same_contract, same_kind. rewrite andb_true_iff, !String.eqb_eq. by intros [-> ->]. Qed.
Lemma same_contract_kind a b : same_contract a b = true → rs_request_kind b = rs_request_kind a.
Proof. unfold same_contract, same_kind. rewrite andb_true_iff, String.eqb_eq. tauto. Qed.

Lemma filter_later (c1 c2 : Z) l :
  List.filter (λ b, c2 <=? at_ b) (List.filter (λ b, c1 <=? at_ b) l) = List.filter (λ b, Z.max c1 c2 <=? at_ b) l.
Proof.
  induction l as [|r l IH]; cbn; [done|]. destruct (Z.leb_spec c1 (at_ r)); cbn; rewrite ?IH;
    destruct (Z.leb_spec (Z.max c1 c2) (at_ r)); try destruct (Z.leb_spec c2 (at_ r)); done || lia.
Qed.

Section step.
Context (p : IbkrHistoricalPacingPolicy) (now : Z) (ledger log : list Reservation) (r : Reservation).
Hypothesis p_valid : IbkrHistoricalPacingPolicy_post_init p = Ok tt.
Hypothesis inv : ledger_inv p now ledger log.
Hypothesis later : now <= at_ r.

Let kept : list Reservation := List.filter (λ b, at_ r - seconds (retention p) <=? at_ b) ledger.

Lemma kept_log : ∃ cutoff, kept = List.filter (λ b, cutoff <=? at_ b) log ∧ cutoff <= at_ r - seconds (retention p).
Proof.
  destruct (li_kept _ _ _ _ inv) as (c & -> & Hc). exists (Z.max c (at_ r - seconds (retention p))).
  unfold kept. split; [apply filter_later|lia].
Qed.

(** The sums the call computes over the ledger are those of all reservations made. *)
Lemma kept_sum f w : w <= 3600 →
  sum_weight (λ b, f b && (at_ r - seconds w <? at_ b)) kept = sum_weight (λ b, f b && (at_ r - seconds w <? at_ b)) log.
Proof.
  intros Hw. destruct kept_log as (c & -> & Hc). apply sum_weight_filter. intros b _ [_ Hb]%andb_true_iff.
  rewrite (retention_valid p p_valid) in Hc. unfold seconds in *. apply Z.ltb_lt in Hb. apply Z.leb_le. lia.
Qed.

(** A window that ends now, over the reservations made. *)
Lemma window_now f w : 0 <= w →
  sum_weight (λ b, f b && in_window w (at_ r) b) log = sum_weight (λ b, f b && (at_ r - seconds w <? at_ b)) log.
Proof.
  intros Hw. apply sum_weight_ext. intros b Hb. f_equal. unfold in_window.
  pose proof (li_past _ _ _ _ inv) as Hp. rewrite Forall_forall in Hp. specialize (Hp _ Hb).
  rewrite (proj2 (Z.leb_le (at_ b) (at_ r))) by lia. by rewrite andb_true_r.
Qed.

Lemma past_now : Forall (λ b, at_ b <= at_ r) log.
Proof. eapply Forall_impl; [exact (li_past _ _ _ _ inv)|]. cbn. intros b. lia. Qed.

Lemma sum_one (f : Reservation → bool) : sum_weight f [r] = if f r then rs_weight r else 0.
Proof. unfold sum_weight. cbn. destruct (f r); cbn; lia. Qed.

(** What one more reservation must not exceed, for the reservations made to stay within limits. *)
Lemma extend_limits :
  0 < rs_weight r →
  (∀ b, b ∈ log → same_request r b = true → at_ b + seconds (pp_identical_request_cooldown_seconds p) <= at_ r) →
  sum_weight (λ b, at_ r - seconds 1 <? at_ b) log + rs_weight r <= GLOBAL_LIMIT →
  (rs_request_kind r = "historical" ∨ rs_request_kind r = "BID_ASK" →
   sum_weight (λ b, same_contract r b && (at_ r - seconds (pp_per_contract_window_seconds p) <? at_ b)) log + rs_weight r
   <= pp_max_requests_per_contract_window p) →
  (rs_request_kind r = "historical" →
   sum_weight (λ b, same_kind r b && (at_ r - seconds (pp_rolling_window_seconds p) <? at_ b)) log + rs_weight r
   <= pp_max_requests_per_rolling_window p) →
  within_limits p (log ++ [r]).
Proof.
  intros Hw Hf Hg Hc Hr.
  destruct (li_limits _ _ _ _ inv) as [Lg Lc Lr Ld]. pose proof (li_weight _ _ _ _ inv) as Hwt.
  split.
  - exact (window_grows (λ _, true) 1 GLOBAL_LIMIT log r past_now Hwt eq_refl Lg Hg).
  - intros t q Hk. destruct (same_contract q r) eqn:Eq.
    + rewrite (sum_weight_ext _ (λ b, same_contract r b && in_window (pp_per_contract_window_seconds p) t b)).
      2:{ intros b _. by rewrite (same_contract_trans q r b Eq). }
      assert (rs_request_kind r = "historical" ∨ rs_request_kind r = "BID_ASK") as Hkr
        by (by rewrite (same_contract_kind q r Eq)).
      revert t. apply window_grows; [apply past_now|done|apply same_contract_refl| |by apply Hc].
      intros t. by apply Lc.
    + rewrite sum_weight_app, sum_one, Eq. cbn. specialize (Lc t q Hk). lia.
  - intros t q Hk. destruct (same_kind q r) eqn:Eq.
    + unfold same_kind in Eq. apply String.eqb_eq in Eq.
      rewrite (sum_weight_ext _ (λ b, same_kind r b && in_window (pp_rolling_window_seconds p) t b)).
      2:{ intros b _. unfold same_kind. by rewrite Eq. }
      revert t. apply window_grows; [apply past_now|done|apply same_kind_refl| |by apply Hr; rewrite Eq].
      intros t. apply Lr. by rewrite Eq.
    + rewrite sum_weight_app, sum_one, Eq. cbn. specialize (Lr t q Hk). lia.
  - intros i j a b Ha Hb Hij Hsame. apply lookup_app_Some in Hb as [Hb|[Hlen Hb]].
    + apply (Ld i j); try done. by rewrite lookup_app_l in Ha by (apply lookup_lt_Some in Hb; lia).
    + apply list_lookup_singleton_Some in Hb as [Hj <-]. rewrite lookup_app_l in Ha by lia.
      apply Hf; [by eapply list_elem_of_lookup_2|by apply same_request_sym].
Qed.

Lemma accepted_limits ledger' : reserved ledger ledger' r p true → within_limits p (log ++ [r]).
Proof.
  intros [_ Hw _ Hf Hg Hc Hr]. destruct (policy_bounds p p_valid) as (Bc & Bw & _ & Br & _).
  apply extend_limits; [done| | | |].
  - intros a Hin Hsame. destruct (li_kept _ _ _ _ inv) as (c & Hl & Hcut).
    rewrite (retention_valid p p_valid) in *. unfold seconds in *.
    destruct (Z.leb_spec c (at_ a)) as [Hk|Hk]; [|lia].
    destruct (Hf eq_refl a) as [H|H]; [|done|lia|lia].
    rewrite Hl. apply list_elem_of_In, filter_In. split; [by apply list_elem_of_In|]. by apply Z.leb_le.
  - pose proof (kept_sum (λ _, true) 1 ltac:(lia)) as E. cbn [andb] in E. rewrite <- E. by apply Hg.
  - intros Hk. rewrite <- kept_sum by lia. by apply Hc.
  - intros Hk. rewrite <- kept_sum by lia. by apply Hr.
Qed.

(** After an hour without calls nothing made before counts. *)
Lemma idle_limits : now + seconds 3600 <= at_ r → rs_weight r = 1 → within_limits p (log ++ [r]).
Proof.
  intros Hidle Hw. destruct (policy_bounds p p_valid) as (Bc & Bw & Bm & Br & Bn).
  pose proof (li_past _ _ _ _ inv) as Hpast. rewrite Forall_forall in Hpast.
  assert (∀ f w, 0 <= w <= 3600 → sum_weight (λ b, f b && (at_ r - seconds w <? at_ b)) log = 0) as Hzero.
  { intros f w Hwb. rewrite (sum_weight_ext _ (λ _, false)).
    - unfold sum_weight. clear. by induction log as [|b l IH].
    - intros b Hb. specialize (Hpast b Hb). cbn in Hpast. unfold seconds in *.
      rewrite (proj2 (Z.ltb_ge (at_ r - w * 1000000) (at_ b))) by lia. apply andb_false_r. }
  apply extend_limits; [lia| | | |].
  - intros b Hb _. specialize (Hpast b Hb). cbn in Hpast. unfold seconds in *. lia.
  - pose proof (Hzero (λ _, true) 1 ltac:(lia)) as E. cbn [andb] in E. rewrite E, Hw. unfold GLOBAL_LIMIT. lia.
  - intros _. rewrite Hzero by lia. lia.
  - intros _. rewrite Hzero by lia. lia.
Qed.

Lemma ledger_step ledger' b : reserved ledger ledger' r p b →
  ledger_inv p (at_ r) ledger' (if b then log ++ [r] else log).
Proof.
  intros Hres. pose proof (rv_ledger _ _ _ _ _ Hres) as Hl. cbn in Hl. fold kept in Hl.
  destruct kept_log as (c & Hk & Hc). rewrite (retention_valid p p_valid) in Hc.
  destruct b; subst ledger'; split.
  - exists c. rewrite (retention_valid p p_valid), List.filter_app, Hk. split; [|done]. f_equal. cbn.
    by rewrite (proj2 (Z.leb_le c (at_ r))) by (unfold seconds in *; lia).
  - apply Forall_app. split; [apply past_now|]. by constructor.
  - apply Forall_app. split; [apply inv|]. constructor; [apply Hres|done].
  - by eapply accepted_limits.
  - exists c. rewrite (retention_valid p p_valid). done.
  - apply past_now.
  - apply inv.
  - apply inv.
Qed.

(** A reservation that keeps the limits passes the checks of the call. *)
Lemma limits_accept : within_limits p (log ++ [r]) →
  existsb (λ b, same_request r b && (at_ r - seconds (pp_identical_request_cooldown_seconds p) <? at_ b)) kept = false ∧
  sum_weight (λ b, at_ r - seconds 1 <? at_ b) kept + rs_weight r <= GLOBAL_LIMIT ∧
  (rs_request_kind r = "historical" ∨ rs_request_kind r = "BID_ASK" →
   sum_weight (λ b, same_contract r b && (at_ r - seconds (pp_per_contract_window_seconds p) <? at_ b)) kept + rs_weight r
   <= pp_max_requests_per_contract_window p) ∧
  (rs_request_kind r = "historical" →
   sum_weight (λ b, same_kind r b && (at_ r - seconds (pp_rolling_window_seconds p) <? at_ b)) kept + rs_weight r
   <= pp_max_requests_per_rolling_window p).
Proof.
  intros [Lg Lc Lr Ld]. destruct (policy_bounds p p_valid) as (Bc & Bw & _ & Br & _).
  assert (∀ w, 0 < w → in_window w (at_ r) r = true) as Hin.
  { intros w Hw. unfold in_window, seconds in *. apply andb_true_iff. rewrite Z.leb_le, Z.ltb_lt. lia. }
  split_and!.
  - apply not_true_iff_false. intros (b & Hb & H)%existsb_exists. apply andb_true_iff in H as [Hsame Ht].
    apply filter_In in Hb as [Hb _]. destruct (li_kept _ _ _ _ inv) as (c & Hl & _). rewrite Hl in Hb.
    apply filter_In in Hb as [[i Hi]%list_elem_of_In%list_elem_of_lookup _]. apply Z.ltb_lt in Ht.
    pose proof (Ld i (length log) b r) as H. rewrite lookup_app_l in H by (by eapply lookup_lt_Some).
    rewrite (list_lookup_middle log [] r (length log) eq_refl) in H.
    specialize (H Hi eq_refl (lookup_lt_Some _ _ _ Hi) (same_request_sym _ _ Hsame)). lia.
  - pose proof (kept_sum (λ _, true) 1 ltac:(lia)) as E. cbn [andb] in E. rewrite E.
    pose proof (window_now (λ _, true) 1 ltac:(lia)) as E'. cbn [andb] in E'. rewrite <- E'.
    specialize (Lg (at_ r)). rewrite sum_weight_app, sum_one, Hin in Lg by lia. done.
  - intros Hk. rewrite kept_sum, <- window_now by lia. specialize (Lc (at_ r) r Hk).
    rewrite sum_weight_app, sum_one, Hin in Lc by lia. by rewrite same_contract_refl in Lc.
  - intros Hk. rewrite kept_sum, <- window_now by lia. specialize (Lr (at_ r) r Hk).
    rewrite sum_weight_app, sum_one, Hin in Lr by lia. by rewrite same_kind_refl in Lr.
Qed.
End step.

(** ** Histories of calls *)

(** Calls under one policy, at times that do not go back: the time of the last call, the table,
    and all the reservations granted so far, oldest first. *)
Inductive pacing_step (p : IbkrHistoricalPacingPolicy) :
    Z * list Reservation * list Reservation → Z * list Reservation * list Reservation → Prop :=
| pacing_call now ledger log t kind ck fp w sha ledger' b :
    now <= instant t → reserve_ibkr_request ledger t kind ck fp w sha p = Ok (ledger', b) →
    pacing_step p (now, ledger, log)
      (instant t, ledger', if (b : bool) then log ++ [mkReservation t kind ck fp w sha] else log).

Lemma empty_ledger_inv p now : IbkrHistoricalPacingPolicy_post_init p = Ok tt → ledger_inv p now [] [].
Proof.
  intros Hp%policy_bounds. split; [|done|done|].
  - exists (now - seconds (retention p)). by split.
  - split; intros; unfold sum_weight, GLOBAL_LIMIT; cbn; try lia. done.
Qed.

Lemma pacing_history_inv p now0 now ledger log :
  IbkrHistoricalPacingPolicy_post_init p = Ok tt →
  rtc (pacing_step p) (now0, [], []) (now, ledger, log) → ledger_inv p now ledger log.
Proof.
  intros Hp H.
  enough (∀ s, rtc (pacing_step p) (now0, [], []) s → ledger_inv p s.1.1 s.1.2 s.2) as Hall by exact (Hall _ H).
  clear H. apply rtc_ind_r; [by apply empty_ledger_inv|].
  intros s s' _ [now1 l1 log1 t kind ck fp w sha l' b Hle Hres] IH. cbn in *. apply reserve_Ok in Hres.
  exact (ledger_step p now1 l1 log1 (mkReservation t kind ck fp w sha) Hp IH Hle l' b Hres).
Qed.

Lemma existsb_pointwise {A} (f g : A → bool) l : (∀ x, f x = g x) → existsb f l = existsb g l.
Proof. intros E. induction l as [|x l IH]; cbn; [done|]. by rewrite E, IH. Qed.

(** A well-formed call returns, and grants a reservation that keeps the limits. *)
Lemma call_returns p now ledger log t kind ck fp w sha :
  IbkrHistoricalPacingPolicy_post_init p = Ok tt → ledger_inv p now ledger log →
  now <= instant t → is_utc t → nonempty kind = true → nonempty ck = true → nonempty fp = true → 0 < w →
  is_sha256 sha = true →
  ∃ ledger' b, reserve_ibkr_request ledger t kind ck fp w sha p = Ok (ledger', b) ∧
    (within_limits p (log ++ [mkReservation t kind ck fp w sha]) → b = true).
Proof.
  intros Hp Hi Hle Ht Hk Hc Hf Hw Hs. set (r := mkReservation t kind ck fp w sha).
  pose proof (limits_accept p now ledger log r Hp Hi Hle) as Hacc.
  unfold reserve_ibkr_request. rewrite require_utc_is_utc, Hk, Hc, Hf, Hs by done.
  replace (w <=? 0) with false by lia. cbn [negb orb raise_if mbind res_bind]. cbv zeta. fold r.
  rewrite kept_cutoff by done. change (instant t) with (at_ r).
  assert (∀ c b, after_time (dt_sub t c) b = (at_ r - c <? at_ b)) as Hat by (intros; by apply after_cutoff).
  set (kept := List.filter _ ledger) in *.
  rewrite (existsb_pointwise _ (λ b, same_request r b && (at_ r - seconds (pp_identical_request_cooldown_seconds p) <? at_ b)))
    by (intros b; by rewrite Hat).
  destruct (existsb _ kept) eqn:E1; [eexists _, _; split; [done|]; intros Hl; by destruct (Hacc Hl) as [? _]|].
  rewrite (sum_weight_ext (after_time _) _ kept (λ b _, Hat _ b)).
  destruct (Z.ltb_spec GLOBAL_LIMIT (sum_weight (λ b, at_ r - seconds 1 <? at_ b) kept + w)) as [E2|_];
    [eexists _, _; split; [done|]; intros Hl; destruct (Hacc Hl) as (_ & H & _); cbn in H; lia|].
  rewrite (sum_weight_ext (λ b, same_contract r b && after_time _ b) _ kept (λ b _, f_equal (andb _) (Hat _ b))).
  destruct ((_ || _) && _) eqn:E3.
  { eexists _, _. split; [done|]. intros Hl. destruct (Hacc Hl) as (_ & _ & H & _). exfalso.
    apply andb_true_iff in E3 as [Ek El]. apply orb_true_iff in Ek. rewrite !String.eqb_eq in Ek. apply Z.ltb_lt in El.
    specialize (H Ek). cbn in H. lia. }
  rewrite (sum_weight_ext (λ b, same_kind r b && after_time _ b) _ kept (λ b _, f_equal (andb _) (Hat _ b))).
  destruct (String.eqb kind "historical" && _) eqn:E4.
  { eexists _, _. split; [done|]. intros Hl. destruct (Hacc Hl) as (_ & _ & _ & H). exfalso.
    apply andb_true_iff in E4 as [Ek El]. apply String.eqb_eq in Ek. apply Z.ltb_lt in El.
    specialize (H Ek). cbn in H. lia. }
  replace (existsb (λ b, same_request r b && dt_eqb (rs_requested_at b) t) kept) with false; [by eexists _, _|].
  symmetry. apply not_true_iff_false. intros (b & Hin & H)%existsb_exists. apply not_true_iff_false in E1.
  apply E1, existsb_exists. exists b. split; [done|]. apply andb_true_iff in H as [-> He]. unfold dt_eqb in He.
  apply Z.eqb_eq in He. apply policy_bounds in Hp. unfold at_, r, seconds in *. cbn. apply Z.ltb_lt. lia.
Qed.


(** ** Witness *)

Definition sample_policy : IbkrHistoricalPacingPolicy := mkPacing 15 2 5 600 59.
Definition call_at (t : Z) (fp : string) : Reservation :=
  mkReservation (utc t) "historical" "12087792" fp 1 sample_hash.
Lemma sample_history :
  rtc (pacing_step sample_policy) (0, [], []) (1000, [call_at 0 "a"; call_at 1000 "b"], [call_at 0 "a"; call_at 1000 "b"]).
Proof.
  eapply rtc_l; [|apply rtc_once].
  - apply (pacing_call sample_policy 0 [] [] (utc 0) "historical" "12087792" "a" 1 sample_hash [call_at 0 "a"] true); [done|].
    vm_compute. reflexivity.
  - apply (pacing_call sample_policy 0 [call_at 0 "a"] [call_at 0 "a"] (utc 1000) "historical" "12087792" "b" 1 sample_hash
      [call_at 0 "a"; call_at 1000 "b"] true); [done|]. vm_compute. reflexivity.
Qed.

