(* ===== verification/IbkrExecutor.v ===== *)
(** The executor of IBKR historical plans, [application/ibkr_execution.py], over the durable
    store of IbkrStore.v and the pacer of IbkrPacing.v.

    Each planned request is a task of an asyncio TaskGroup. A task runs between its awaits
    without interruption, so an execution is a sequence of events: one task resumes, the
    provider answers or delivers a callback, or the group cancels a task after another failed.
    The provider is outside the repository; its calls can end in any way the code tells apart. *)

From S2P Require Import Prelude PySorted PyStr PyTime PyDecimal Sha256 PyJson PyParse Domain Storage EventStore CaptureFeed IbkrPlan IbkrStore IbkrHistory IbkrPacing.

(** ** Reauthentication evidence: [ports/ibkr_historical.py] *)

Record IbkrContractReauthentication : Type := mkReauthentication {
  ra_request_id : Z;
  ra_connection_generation : Z;
  ra_expected : IbkrContractFingerprint;
  ra_observed : list IbkrContractFingerprint;
  ra_status : string;
  ra_error_codes : list Z;
  ra_diagnostics : list string }.

Definition IbkrContractReauthentication_post_init (r : IbkrContractReauthentication) : res unit :=
  raise_if (ra_request_id r <=? 0) (ValueError "IBKR reauthentication request ID must be positive");;
  raise_if (ra_connection_generation r <=? 0) (ValueError "IBKR reauthentication generation must be positive");;
  raise_if (negb (existsb (String.eqb (ra_status r)) ["MATCH"; "MISMATCH"; "TIMEOUT"; "ERROR"]))
           (ValueError "IBKR reauthentication status is unsupported");;
  raise_if (existsb (λ code, code <? 0) (ra_error_codes r))
           (ValueError "IBKR reauthentication error codes must be non-negative");;
  raise_if (existsb (λ value, out_of_bounds value 200) (ra_diagnostics r))
           (ValueError "IBKR reauthentication diagnostics must be bounded").

(** Equality of sets of fingerprints. *)
Definition same_set (a b : list IbkrContractFingerprint) : bool :=
  forallb (λ x, bool_decide (x ∈ b)) a && forallb (λ x, bool_decide (x ∈ a)) b.

Definition _validate_contract_reauthentication (results : list IbkrContractReauthentication)
    (expected : list IbkrContractFingerprint) (connection_generation : Z) : res unit :=
  raise_if (negb (Nat.eqb (length results) (length expected)) || negb (same_set (map ra_expected results) expected))
           (RuntimeError "IBKR contract reauthentication did not cover the exact plan set");;
  raise_if (has_duplicates (map ra_expected results))
           (RuntimeError "IBKR contract reauthentication returned duplicate evidence");;
  for_each (λ _ result,
    raise_if (negb (ra_connection_generation result =? connection_generation)
              || negb (String.eqb (ra_status result) "MATCH")
              || negb (bool_decide (ra_observed result = [ra_expected result])))
      (RuntimeError "IBKR contract reauthentication did not establish a current-generation MATCH")) tt results.

(** ** Tasks *)

(** How the awaited provider call ends: it returns, raises one of the errors the executor
    handles ([PR_retryable] carries [str(error) or type(error).__name__] of a retryable error,
    a timeout or a connection error), or raises another exception. *)
Inductive provider_result : Type :=
| PR_returned
| PR_disconnected
| PR_terminal (disposition : IbkrTerminalDisposition) (detail : string)
| PR_retryable (detail : string)
| PR_raised (e : exn).

Inductive task_error : Type := Disconnected | Raised (e : exn).

(** Where a task is suspended. *)
Inductive task : Type :=
| Queued                               (* for the semaphore *)
| Reserving                            (* for the pacer, or asleep before asking it again *)
| Starting                             (* for start_ibkr_historical_attempt *)
| Requesting (attempt_id : UUID)       (* for the provider *)
| Completing (attempt_id : UUID)       (* for finalize_ibkr_historical_attempt *)
| Failing (attempt_id : UUID) (disposition detail : string) (retryable : bool) (label : string)
                                       (* for fail_ibkr_historical_attempt *)
| Disconnecting                        (* for invalidate_ibkr_historical_attempts *)
| Finished
| Broken (e : task_error)
| Cancelled.

#[export] Instance task_error_eq_dec : EqDecision task_error.
Proof. solve_decision. Defined.
#[export] Instance task_eq_dec : EqDecision task.
Proof. solve_decision. Defined.

Record ExecState : Type := mkExec {
  es_db : ExecutionDB;
  es_ledger : list Reservation;
  es_next_request_id : Z;
  es_tasks : gmap string task;
  es_outcomes : list IbkrHistoricalAttemptOutcome }.

Inductive event : Type :=
| EvAcquire (k : string)
| EvReserve (k : string) (clock : datetime)
| EvStart (k : string) (attempt_id : UUID) (clock : datetime)
| EvProvider (k : string) (result : provider_result)
| EvSettle (k : string) (clock : datetime)
| EvCallback (attempt_id : UUID) (callback : IbkrHistoricalCallback)
| EvCancel (k : string).

Definition active (t : task) : bool :=
  match t with Queued | Finished | Broken _ | Cancelled => false | _ => true end.
Definition final (t : task) : bool := match t with Finished | Broken _ | Cancelled => true | _ => false end.
Definition broken (t : task) : bool := match t with Broken _ => true | _ => false end.

(** [self._now(label)] *)
Definition _now (clock : datetime) (label : string) : res datetime :=
  require_utc clock label;; Ok (utc (instant clock)).

Record IbkrHistoricalExecutionSummary : Type := mkSummary {
  su_plan_sha256 : string;
  su_outcomes : list IbkrHistoricalAttemptOutcome;
  su_connection_generation : option Z }.
Definition IbkrHistoricalExecutionSummary_post_init (s : IbkrHistoricalExecutionSummary) : res unit :=
  _require_sha256 (su_plan_sha256 s) "IBKR execution summary plan hash";;
  raise_if (match su_connection_generation s with Some g => g <=? 0 | None => false end)
           (ValueError "IBKR execution summary connection generation must be positive").

Section executor.
Context (plan : IbkrHistoricalPlan) (request_profile : IbkrHistoricalRequestProfile) (pacer : IbkrPostgresPacing).
Context (connection : IbkrHistoricalConnection).

Let session := hc_connection_session_id connection.
Let generation := hc_connection_generation connection.
Definition maximum_attempts : Z := rq_retry_count request_profile + 1.

(** [request_by_hash]: the last request with the hash. *)
Definition request_by_hash (k : string) : option IbkrHistoricalRequest :=
  List.find (λ r, String.eqb (hr_request_sha256 r) k) (rev (hp_requests plan)).

Definition _validate_profile : res Z :=
  raise_if (negb (String.eqb (hp_request_profile_sha256 plan) (rq_profile_sha256 request_profile)))
           (ValueError "IBKR execution profile does not match the registered plan");;
  raise_if (negb (String.eqb (pc_request_profile_sha256 pacer) (rq_profile_sha256 request_profile)))
           (ValueError "IBKR pacing profile does not match the execution profile");;
  Ok maximum_attempts.

Definition recover (db : ExecutionDB) (clock : datetime) : res (ExecutionDB * list IbkrHistoricalAttemptOutcome) :=
  maximum ← _validate_profile;
  recovered_at ← _now clock "IBKR execution recovery time";
  recover_ibkr_historical_execution db (hp_plan_sha256 plan) recovered_at maximum.

(** [execute_pending] up to its TaskGroup: [None] when nothing is pending. *)
Definition execute_begin (db : ExecutionDB) (recovered : list IbkrHistoricalAttemptOutcome) (ledger : list Reservation)
    (request_id : Z) (reauthentication : list IbkrContractReauthentication) : res (option ExecState) :=
  _validate_profile;;
  pending ← pending_ibkr_historical_requests db (hp_plan_sha256 plan);
  if Nat.eqb (length pending) 0 then Ok None else
  raise_if (existsb (λ k, bool_decide (request_by_hash k = None)) pending)
           (RuntimeError "durable IBKR state contains a request outside the registered plan");;
  let fingerprints := remove_dups (map pc_fingerprint (hp_eligible_contracts plan)) in
  _validate_contract_reauthentication reauthentication fingerprints generation;;
  Ok (Some (mkExec db ledger request_id (list_to_map (map (λ k, (k, Queued)) pending)) recovered)).

(** [execute]: recovery, then the pending requests. *)
Definition execute (db : ExecutionDB) (clock : datetime) (ledger : list Reservation) (request_id : Z)
    (reauthentication : list IbkrContractReauthentication) : res (ExecutionDB * option ExecState) :=
  '(db', recovered) ← recover db clock;
  s ← execute_begin db' recovered ledger request_id reauthentication;
  Ok (db', s).

Definition set_task (s : ExecState) (k : string) (t : task) : ExecState :=
  mkExec (es_db s) (es_ledger s) (es_next_request_id s) (<[k := t]> (es_tasks s)) (es_outcomes s).
Definition set_db (s : ExecState) (db : ExecutionDB) : ExecState :=
  mkExec db (es_ledger s) (es_next_request_id s) (es_tasks s) (es_outcomes s).

(** [if outcome.request_status is not PENDING: return outcome], which [run] appends. *)
Definition after_outcome (s : ExecState) (k : string) (db : ExecutionDB) (o : IbkrHistoricalAttemptOutcome) : ExecState :=
  if decide (oc_request_status o = REQ_PENDING) then set_task (set_db s db) k Reserving
  else mkExec db (es_ledger s) (es_next_request_id s) (<[k := Finished]> (es_tasks s)) (es_outcomes s ++ [o]).

Definition active_count (s : ExecState) : Z :=
  Z.of_nat (length (List.filter (λ kt, active kt.2) (map_to_list (es_tasks s)))).

Definition reserve_step (s : ExecState) (k : string) (r : IbkrHistoricalRequest) (clock : datetime) : ExecState :=
  match reserve pacer (es_ledger s) clock "historical" (str_Z (fp_con_id (hr_fingerprint r))) (hr_request_sha256 r) 1
          (Some (rq_profile_sha256 request_profile)) (Some (rq_pacing_policy request_profile)) with
  | Raise e => set_task s k (Broken (Raised e))
  | Ok (ledger, delay) =>
      mkExec (es_db s) ledger (es_next_request_id s)
        (<[k := if delay =? 0 then Starting else Reserving]> (es_tasks s)) (es_outcomes s)
  end.

Definition start_step (s : ExecState) (k : string) (r : IbkrHistoricalRequest) (attempt_id : UUID) (clock : datetime) : ExecState :=
  let s := mkExec (es_db s) (es_ledger s) (es_next_request_id s + 1) (es_tasks s) (es_outcomes s) in
  match (started_at ← _now clock "IBKR attempt start time";
         start_ibkr_historical_attempt (es_db s) attempt_id (hp_plan_sha256 plan) (hr_request_sha256 r) session
           generation (es_next_request_id s - 1) started_at maximum_attempts) with
  | Raise e => set_task s k (Broken (Raised e))
  | Ok (db, None) => set_task (set_db s db) k Finished
  | Ok (db, Some attempt) => set_task (set_db s db) k (Requesting (at_attempt_id attempt))
  end.

Definition provider_step (s : ExecState) (k : string) (attempt_id : UUID) (result : provider_result) : ExecState :=
  set_task s k
    match result with
    | PR_returned => Completing attempt_id
    | PR_disconnected => Disconnecting
    | PR_terminal disposition detail => Failing attempt_id (IbkrTerminalDisposition_str disposition) detail false "IBKR terminal failure time"
    | PR_retryable detail =>
        Failing attempt_id (IbkrTerminalDisposition_str PROVIDER_REJECTED) (of_chars (firstn 2000 (chars detail))) true
          "IBKR retryable failure time"
    | PR_raised e => Broken (Raised e)
    end.

Definition incomplete_disposition (r : IbkrHistoricalRequest) : IbkrTerminalDisposition :=
  if decide (hr_kind r = SCHEDULE) then SESSION_EVIDENCE_UNAVAILABLE else INCOMPLETE_RESPONSE.

Definition settle_step (s : ExecState) (k : string) (r : IbkrHistoricalRequest) (t : task) (clock : datetime) : option ExecState :=
  match t with
  | Completing attempt_id =>
      Some match (completed_at ← _now clock "IBKR completion time";
                  finalize_ibkr_historical_attempt (es_db s) attempt_id completed_at) with
           | Ok (db, o) => after_outcome s k db o
           | Raise e =>
               if decide (exn_class e = KIbkrHistoricalIncomplete)
               then set_task s k (Failing attempt_id (IbkrTerminalDisposition_str (incomplete_disposition r))
                                    "provider call completed without a valid completion marker" false "IBKR incomplete-response time")
               else set_task s k (Broken (Raised e))
           end
  | Failing attempt_id disposition detail retryable label =>
      Some match (failed_at ← _now clock label;
                  fail_ibkr_historical_attempt (es_db s) attempt_id failed_at disposition detail retryable
                    maximum_attempts) with
           | Ok (db, o) => after_outcome s k db o
           | Raise e => set_task s k (Broken (Raised e))
           end
  | Disconnecting =>
      Some match (at_ ← _now clock "IBKR disconnect time";
                  invalidate_ibkr_historical_attempts (es_db s) (hp_plan_sha256 plan) session generation at_
                    maximum_attempts) with
           | Ok (db, _) => set_task (set_db s db) k (Broken Disconnected)
           | Raise e => set_task s k (Broken (Raised e))
           end
  | _ => None
  end.

(** One event; [None] when it cannot happen in this state. *)
Definition exec_event (s : ExecState) (ev : event) : option ExecState :=
  match ev with
  | EvAcquire k =>
      if decide (es_tasks s !! k = Some Queued ∧ active_count s < rq_maximum_in_flight_requests request_profile)
      then Some (set_task s k Reserving) else None
  | EvReserve k clock =>
      r ← request_by_hash k;
      if decide (es_tasks s !! k = Some Reserving) then Some (reserve_step s k r clock) else None
  | EvStart k attempt_id clock =>
      r ← request_by_hash k;
      if decide (es_tasks s !! k = Some Starting) then Some (start_step s k r attempt_id clock) else None
  | EvProvider k result =>
      match es_tasks s !! k with
      | Some (Requesting attempt_id) => Some (provider_step s k attempt_id result)
      | _ => None
      end
  | EvSettle k clock =>
      r ← request_by_hash k;
      t ← es_tasks s !! k;
      settle_step s k r t clock
  | EvCallback attempt_id callback =>
      match append_ibkr_historical_callback (es_db s) attempt_id callback with
      | Ok (db, _) => Some (set_db s db)
      | Raise _ => Some s
      end
  | EvCancel k =>
      match es_tasks s !! k with
      | Some t => if negb (final t) && existsb (λ kt, broken kt.2) (map_to_list (es_tasks s))
                  then Some (set_task s k Cancelled) else None
      | None => None
      end
  end.

Fixpoint exec_events (s : ExecState) (evs : list event) : option ExecState :=
  match evs with
  | [] => Some s
  | ev :: evs => s' ← exec_event s ev; exec_events s' evs
  end.

(** The [finally] clause, after every task of the group has ended. *)
Definition execute_end (s : ExecState) (clock : datetime) : res ExecutionDB :=
  invalidated_at ← _now clock "IBKR execution disconnect time";
  '(db, _) ← invalidate_ibkr_historical_attempts (es_db s) (hp_plan_sha256 plan) session generation
               invalidated_at maximum_attempts;
  Ok db.

(** What [execute_pending] returns after a group without errors. *)
Definition execute_summary (s : ExecState) : res IbkrHistoricalExecutionSummary :=
  let summary := mkSummary (hp_plan_sha256 plan) (es_outcomes s) (Some generation) in
  IbkrHistoricalExecutionSummary_post_init summary;; Ok summary.
End executor.

(** ** What the store operations do to the request of a task *)

Lemma start_Ok db id plan request session generation provider t maximum db' o :
  start_ibkr_historical_attempt db id plan request session generation provider t maximum = Ok (db', o) →
  ∃ r, x_requests db !! (plan, request) = Some r ∧
    match o with
    | None => xr_status r ≠ REQ_PENDING ∧ db' = db
    | Some a => xr_status r = REQ_PENDING ∧ db' = started_db db a r ∧ request_of a = (plan, request) ∧
                at_attempt_ordinal a = xr_attempt_count r + 1 ∧ at_status a = STARTED ∧
                x_attempts db !! at_attempt_id a = None
    end.
Proof.
  unfold start_ibkr_historical_attempt. intros H. do 7 apply bind_Ok in H as (? & _ & H).
  destruct (x_requests db !! (plan, request)) as [r|] eqn:Er; [|done]. exists r. split; [done|].
  destruct (bool_decide (xr_status r = REQ_PENDING)) eqn:Es; cbn [negb] in H.
  - apply bool_decide_eq_true in Es. apply bind_Ok in H as (? & _ & H). apply bind_Ok in H as (? & Hc%raise_if_Ok & H).
    apply bind_Ok in H as (? & _ & H). injection H as <- <-. unfold attempt_conflicts in Hc.
    apply orb_false_iff in Hc as [Hc%bool_decide_eq_false%eq_None_not_Some _]. done.
  - apply bool_decide_eq_false in Es. by injection H as <- <-.
Qed.

Lemma protocol_attempts v w : protocol (Some v) w → ∃ u, w = Some u ∧ v_attempts v <= v_attempts u.
Proof. inversion 1; subst; eexists; split; try done; cbn; lia. Qed.
Lemma protocols_attempts v w : rtc protocol (Some v) w → ∃ u, w = Some u ∧ v_attempts v <= v_attempts u.
Proof.
  intros H. remember (Some v) as x eqn:E. revert v E. induction H as [x|x y z Hxy _ IH]; intros v ->; [eauto with lia|].
  destruct (protocol_attempts _ _ Hxy) as (u & -> & Hu). destruct (IH u eq_refl) as (w & -> & Hw). exists w. split; [done|lia].
Qed.

(** Attempts a request can still make. *)
Definition attempts_left (db : ExecutionDB) (k : string * string) : Z :=
  6 - match x_requests db !! k with Some r => xr_attempt_count r | None => 0 end.

Lemma attempts_left_nonneg db k : reachable db → 0 <= attempts_left db k <= 6.
Proof.
  intros H. unfold attempts_left. destruct (x_requests db !! k) as [r|] eqn:E; [|lia].
  destruct (attempts_bounded db k r H E) as [? _]. lia.
Qed.

Lemma attempts_left_mono db db' k : execution_inv db → rtc execution_step db db' → attempts_left db' k <= attempts_left db k.
Proof.
  intros Hi Hs. pose proof (changes_view _ _ k Hi (steps_changes _ _ Hi Hs)) as Hp.
  pose proof (changes_inv _ _ (steps_changes _ _ Hi Hs) Hi) as Hi'. unfold attempts_left.
  destruct (x_requests db !! k) as [r|] eqn:E.
  - rewrite (view_Some _ _ _ E) in Hp. apply protocols_attempts in Hp as (u & Eu & Hle). unfold view in Eu.
    destruct (x_requests db' !! k) as [r'|]; [|done]. injection Eu as <-. cbn in Hle. lia.
  - destruct (x_requests db' !! k) as [r'|] eqn:E'; [|lia].
    pose proof (ro_count _ _ _ (ai_requests _ (xi_attempts _ Hi') _ _ E')). lia.
Qed.

(** ** Progress *)

Definition rank (t : task) : Z :=
  match t with
  | Queued => 3 | Reserving => 2 | Starting => 1
  | Requesting _ => 9 | Completing _ => 8 | Failing _ _ _ _ _ => 7
  | Disconnecting => 1
  | Finished | Broken _ | Cancelled => 0
  end.
Definition task_measure (plan_sha256 : string) (db : ExecutionDB) (kt : string * task) : Z :=
  if final kt.2 then 0 else 12 * attempts_left db (plan_sha256, kt.1) + rank kt.2.

Definition sum_list {A} (f : A → Z) (l : list A) : Z := fold_right (λ x n, f x + n) 0 l.
#[export] Instance sum_list_perm {A} (f : A → Z) : Proper (Permutation ==> eq) (sum_list f).
Proof. unfold sum_list. induction 1; cbn; lia. Qed.
Lemma sum_list_le {A} (f g : A → Z) l : (∀ x, x ∈ l → f x <= g x) → sum_list f l <= sum_list g l.
Proof.
  unfold sum_list. induction l as [|x l IH]; cbn; intros H; [lia|]. specialize (IH (λ y Hy, H y ltac:(set_solver))).
  pose proof (H x ltac:(set_solver)). lia.
Qed.
Lemma sum_list_bounds {A} (f : A → Z) b l : (∀ x, 0 <= f x <= b) → 0 <= sum_list f l <= b * Z.of_nat (length l).
Proof. intros H. unfold sum_list. induction l as [|x l IH]; cbn [fold_right length]; [lia|]. specialize (H x). lia. Qed.

(** Replacing the task of one key, everything else not growing. *)
Lemma sum_list_task (f g : string * task → Z) (m : gmap string task) k t t' n :
  m !! k = Some t → (∀ kt, g kt <= f kt) → g (k, t') + n <= f (k, t) →
  sum_list g (map_to_list (<[k := t']> m)) + n <= sum_list f (map_to_list m).
Proof.
  intros Hk Hfg Hn. rewrite <- insert_delete_eq, map_to_list_insert by apply lookup_delete_eq.
  rewrite <- (insert_delete_id m k t Hk) at 2. rewrite (map_to_list_insert (delete k m)) by apply lookup_delete_eq.
  unfold sum_list. cbn [fold_right]. fold (sum_list g (map_to_list (delete k m))). fold (sum_list f (map_to_list (delete k m))).
  pose proof (sum_list_le g f (map_to_list (delete k m)) (λ x _, Hfg x)). lia.
Qed.

Section progress.
Context (plan : IbkrHistoricalPlan) (request_profile : IbkrHistoricalRequestProfile) (pacer : IbkrPostgresPacing).
Context (connection : IbkrHistoricalConnection).
Notation step := (exec_event plan request_profile pacer connection).
Notation plan_sha := (hp_plan_sha256 plan).

Definition measure (s : ExecState) : Z := sum_list (task_measure plan_sha (es_db s)) (map_to_list (es_tasks s)).

(** Events that leave every task where it is: callbacks, and a reservation refused for now. *)
Definition waits (ev : event) (s' : ExecState) : bool :=
  match ev with
  | EvCallback _ _ => true
  | EvReserve k _ => bool_decide (es_tasks s' !! k = Some Reserving)
  | _ => false
  end.

Lemma task_measure_mono db db' kt :
  execution_inv db → rtc execution_step db db' → task_measure plan_sha db' kt <= task_measure plan_sha db kt.
Proof.
  intros Hi Hs. unfold task_measure. destruct (final kt.2); [lia|].
  pose proof (attempts_left_mono db db' (plan_sha, kt.1) Hi Hs). lia.
Qed.

Lemma measure_task s s' k t t' n :
  reachable (es_db s) → rtc execution_step (es_db s) (es_db s') → es_tasks s !! k = Some t →
  es_tasks s' = <[k := t']> (es_tasks s) →
  task_measure plan_sha (es_db s') (k, t') + n <= task_measure plan_sha (es_db s) (k, t) →
  measure s' + n <= measure s.
Proof.
  intros Hr Hs Hk Ht Hn. unfold measure. rewrite Ht. eapply sum_list_task; [done| |done].
  intros kt. apply task_measure_mono; [by apply reachable_inv|done].
Qed.

(** A task that moves on without starting an attempt goes down in rank, or ends. *)
Lemma measure_rank s s' k t t' :
  reachable (es_db s) → rtc execution_step (es_db s) (es_db s') → es_tasks s !! k = Some t →
  es_tasks s' = <[k := t']> (es_tasks s) → final t = false → final t' = true ∨ rank t' < rank t → measure s' + 1 <= measure s.
Proof.
  intros Hr Hs Hk Ht Hf Hrk. eapply measure_task; [done..|].
  pose proof (attempts_left_mono _ _ (plan_sha, k) (reachable_inv _ Hr) Hs).
  pose proof (attempts_left_nonneg _ (plan_sha, k) Hr). unfold task_measure. cbn [fst snd]. rewrite Hf.
  assert (1 <= rank t) by (by destruct t). destruct (final t') eqn:E; [lia|]. destruct Hrk as [|]; [done|lia].
Qed.

Lemma request_by_hash_Some k r : request_by_hash plan k = Some r → hr_request_sha256 r = k.
Proof. unfold request_by_hash. intros [_ H]%find_some. by apply String.eqb_eq in H. Qed.

Lemma after_outcome_eq s k db o :
  after_outcome s k db o = mkExec db (es_ledger s) (es_next_request_id s)
    (<[k := if decide (oc_request_status o = REQ_PENDING) then Reserving else Finished]> (es_tasks s))
    (if decide (oc_request_status o = REQ_PENDING) then es_outcomes s else es_outcomes s ++ [o]).
Proof. unfold after_outcome, set_task, set_db. by destruct (decide _). Qed.

Lemma start_progress s k r id clock :
  reachable (es_db s) → es_tasks s !! k = Some Starting → request_by_hash plan k = Some r →
  let s' := start_step plan request_profile connection s k r id clock in
  rtc execution_step (es_db s) (es_db s') ∧ measure s' + 1 <= measure s.
Proof.
  intros Hreach Hk Hr%request_by_hash_Some. cbv zeta. unfold start_step. cbn [es_db es_ledger es_next_request_id es_tasks es_outcomes].
  destruct (started_at ← _now clock "IBKR attempt start time"; _) as [[db o]|e] eqn:E.
  - apply bind_Ok in E as (t & _ & E).
    assert (rtc execution_step (es_db s) db) as Hs by (eapply rtc_once, step_start; exact E).
    apply start_Ok in E as (row & Hrow & Ho). rewrite Hr in Hrow. destruct o as [a|].
    + destruct Ho as (Hp & Hdb & Ha & Hord & _ & _). split; [done|]. eapply measure_task; [done|done|done|done|].
      unfold task_measure. cbn [fst snd final rank es_db set_task set_db].
      assert (attempts_left db (plan_sha, k) = attempts_left (es_db s) (plan_sha, k) - 1) as ->; [|lia].
      unfold attempts_left. rewrite Hrow, Hdb. cbn. rewrite Ha, Hr, lookup_insert_eq. cbn. lia.
    + split; [done|]. eapply measure_rank; [done|done|done|done|done|by left].
  - split; [done|]. eapply measure_rank; [done|done|done|done|done|by left].
Qed.

Lemma settle_progress s s' k r t clock :
  reachable (es_db s) → es_tasks s !! k = Some t → settle_step plan request_profile connection s k r t clock = Some s' →
  rtc execution_step (es_db s) (es_db s') ∧ measure s' + 1 <= measure s.
Proof.
  intros Hreach Hk Hset.
  assert (∀ db o, rtc execution_step (es_db s) db → final t = false → 2 < rank t →
    rtc execution_step (es_db s) (es_db (after_outcome s k db o)) ∧ measure (after_outcome s k db o) + 1 <= measure s) as Hafter.
  { intros db o Hs Hf Hrk. rewrite after_outcome_eq. split; [done|].
    eapply measure_rank; [done|done|done|done|done|]. destruct (decide _); [right; done|by left]. }
  assert (∀ t', final t = false → final t' = true ∨ rank t' < rank t → rtc execution_step (es_db s) (es_db (set_task s k t')) ∧
    measure (set_task s k t') + 1 <= measure s) as Hset_task.
  { intros t' Hf Ht'. split; [done|]. by eapply measure_rank. }
  destruct t as [| | | |id|id d de re la| | | |]; try done; cbn [settle_step] in Hset; injection Hset as <-.
  - destruct (completed_at ← _now clock "IBKR completion time"; _) as [[db o]|e] eqn:E.
    + apply bind_Ok in E as (u & _ & E). apply Hafter; [eapply rtc_once, step_finalize; exact E|done|done].
    + destruct (decide _); apply Hset_task; try done; [by right|by left].
  - destruct (failed_at ← _now clock la; _) as [[db o]|e] eqn:E.
    + apply bind_Ok in E as (u & _ & E). apply Hafter; [eapply rtc_once, step_fail; exact E|done|done].
    + apply Hset_task; [done|by left].
  - destruct (at_ ← _now clock "IBKR disconnect time"; _) as [[db o]|e] eqn:E.
    + apply bind_Ok in E as (u & _ & E). split; [eapply rtc_once, step_invalidate; exact E|].
      eapply measure_rank; [done|eapply rtc_once, step_invalidate; exact E|done|done|done|by left].
    + apply Hset_task; [done|by left].
Qed.

Lemma reserve_progress s k r clock :
  reachable (es_db s) → es_tasks s !! k = Some Reserving →
  let s' := reserve_step request_profile pacer s k r clock in
  es_db s' = es_db s ∧ measure s' + (if bool_decide (es_tasks s' !! k = Some Reserving) then 0 else 1) <= measure s.
Proof.
  intros Hreach Hk. cbv zeta. unfold reserve_step. destruct (reserve _ _ _ _ _ _ _ _ _) as [[ledger delay]|e].
  - split; [done|]. cbn [es_tasks]. rewrite lookup_insert_eq. destruct (delay =? 0).
    + rewrite bool_decide_false by done. eapply measure_rank; [done|done|done|done|done|by right].
    + rewrite bool_decide_true by done. eapply measure_task; [done|done|done|done|]. cbn. lia.
  - split; [done|]. cbn [es_tasks set_task]. rewrite lookup_insert_eq, bool_decide_false by done.
    eapply measure_rank; [done|done|done|done|done|by left].
Qed.

(** Every event is a history of the store, and every event that does not wait uses up the measure. *)
Lemma event_progress s ev s' :
  reachable (es_db s) → step s ev = Some s' →
  rtc execution_step (es_db s) (es_db s') ∧ measure s' + (if waits ev s' then 0 else 1) <= measure s.
Proof.
  intros Hreach. destruct ev as [k|k clock|k id clock|k result|k clock|id cb|k]; cbn [exec_event waits].
  - destruct (decide _) as [[Hk _]|]; [|done]. intros [= <-]. split; [done|].
    eapply measure_rank; [done|done|done|done|done|by right].
  - destruct (request_by_hash plan k) as [r|]; [|done]. cbn. destruct (decide _) as [Hk|]; [|done]. intros [= <-].
    destruct (reserve_progress s k r clock Hreach Hk) as [-> ?]. done.
  - destruct (request_by_hash plan k) as [r|] eqn:Er; [|done]. cbn. destruct (decide _) as [Hk|]; [|done]. intros [= <-].
    by apply start_progress.
  - destruct (es_tasks s !! k) as [[| | |id| | | | | |]|] eqn:Hk; try done. intros [= <-]. split; [done|].
    eapply measure_rank; [done|done|done|done|done|]. destruct result; cbn; first [by left|right; lia].
  - destruct (request_by_hash plan k) as [r|]; [|done]. destruct (es_tasks s !! k) as [t|] eqn:Hk; [|done]. cbn.
    intros H. by apply settle_progress in H.
  - destruct (append_ibkr_historical_callback _ _ _) as [[db c]|e] eqn:E; intros [= <-]; [|split; [done|lia]].
    assert (rtc execution_step (es_db s) db) as Hs by (eapply rtc_once, step_append; exact E).
    split; [exact Hs|]. unfold measure. cbn [es_tasks es_db set_db]. rewrite Z.add_0_r. apply sum_list_le. intros kt _.
    apply task_measure_mono; [by apply reachable_inv|done].
  - destruct (es_tasks s !! k) as [t|] eqn:Hk; [|done]. destruct (negb (final t) && _) eqn:E; [|done].
    apply andb_true_iff in E as [E%negb_true_iff _]. intros [= <-]. split; [done|].
    eapply measure_rank; [done|done|done|done|done|by left].
Qed.
End progress.

(** ** Termination *)

Section termination.
Context (plan : IbkrHistoricalPlan) (request_profile : IbkrHistoricalRequestProfile) (pacer : IbkrPostgresPacing).
Context (connection : IbkrHistoricalConnection).
Notation step := (exec_event plan request_profile pacer connection).
Notation steps := (exec_events plan request_profile pacer connection).
Notation policy := (rq_pacing_policy request_profile).

(** The events of a run that do not wait. *)
Fixpoint progress (s : ExecState) (evs : list event) : Z :=
  match evs with
  | [] => 0
  | ev :: evs =>
      match step s ev with
      | Some s' => (if waits ev s' then 0 else 1) + progress s' evs
      | None => 0
      end
  end.

Lemma steps_progress s evs s' :
  reachable (es_db s) → steps s evs = Some s' →
  rtc execution_step (es_db s) (es_db s') ∧ measure plan s' + progress s evs <= measure plan s.
Proof.
  revert s. induction evs as [|ev evs IH]; intros s Hr; cbn [exec_events progress]; [intros [= <-]; split; [done|lia]|].
  destruct (step s ev) as [s1|] eqn:E; [|done]. cbn. intros Hs.
  destruct (event_progress plan request_profile pacer connection s ev s1 Hr E) as [H1 H2].
  destruct (IH s1) as [H3 H4]; [by eapply reachable_steps|done|]. split; [by trans (es_db s1)|lia].
Qed.

Lemma measure_bounds s : reachable (es_db s) → 0 <= measure plan s <= 81 * Z.of_nat (size (es_tasks s)).
Proof.
  intros Hr. unfold measure. rewrite <- length_map_to_list. apply sum_list_bounds. intros [k t]. unfold task_measure. cbn.
  pose proof (attempts_left_nonneg (es_db s) (hp_plan_sha256 plan, k) Hr). destruct t; cbn; lia.
Qed.

(** A pause of an hour is enough for the pacer to grant a request. *)
Lemma pacer_grants now ledger log ck fp ledger' delay :
  IbkrHistoricalPacingPolicy_post_init policy = Ok tt → ledger_inv policy now ledger log →
  reserve pacer ledger (utc (now + seconds 3600)) "historical" ck fp 1 (Some (rq_profile_sha256 request_profile))
    (Some policy) = Ok (ledger', delay) →
  delay = 0 ∧ ∃ log', ledger_inv policy (now + seconds 3600) ledger' log'.
Proof.
  intros Hp Hi H. unfold reserve in H. cbn [from_option] in H. unfold id in H. do 3 apply bind_Ok in H as (? & _ & H).
  apply bind_Ok in H as ([l b] & H & [= <- <-]).
  change (utc (instant (utc (now + seconds 3600)))) with (utc (now + seconds 3600 - 0)) in H. rewrite Z.sub_0_r in H.
  set (r := mkReservation (utc (now + seconds 3600)) "historical" ck fp 1 (rq_profile_sha256 request_profile)).
  assert (at_ r = now + seconds 3600) as Hat by (unfold at_, instant; cbn; lia).
  assert (now <= at_ r) as Hle by (rewrite Hat; unfold seconds; lia).
  pose proof (reserve_Ok _ _ _ _ _ _ _ _ _ _ H) as Hres. fold r in Hres.
  assert (b = true) as ->.
  { assert (nonempty ck = true ∧ nonempty fp = true ∧ is_sha256 (rq_profile_sha256 request_profile) = true) as (Hck & Hfp & Hsha).
    { unfold reserve_ibkr_request in H. apply bind_Ok in H as (? & _ & H). apply bind_Ok in H as (? & H1%raise_if_Ok & H).
      apply bind_Ok in H as (? & _ & H). apply bind_Ok in H as (? & H2%raise_if_Ok & _). by bool_prop. }
    destruct (call_returns policy now ledger log (utc (now + seconds 3600)) "historical" ck fp 1
      (rq_profile_sha256 request_profile) Hp Hi Hle eq_refl eq_refl Hck Hfp ltac:(lia) Hsha) as (l1 & b1 & E & Hb).
    rewrite H in E. injection E as <- <-. apply Hb. apply (idle_limits policy now ledger log r Hp Hi Hle); [lia|done]. }
  split; [done|]. exists (log ++ [r]). rewrite <- Hat. exact (ledger_step policy now ledger log r Hp Hi Hle l true Hres).
Qed.

Lemma no_active_count s : ¬ map_Exists (λ _ t, active t = true) (es_tasks s) → active_count s = 0.
Proof.
  intros H. unfold active_count. destruct (List.filter _ _) as [|[k t] l] eqn:E; [done|]. exfalso.
  assert (In (k, t) (List.filter (λ kt : string * task, active kt.2) (map_to_list (es_tasks s)))) as Hin by (rewrite E; by left).
  apply filter_In in Hin as [Hin%list_elem_of_In%elem_of_map_to_list Ha]. apply H. exists k, t. done.
Qed.

Lemma start_frame s k r id clock :
  let s' := start_step plan request_profile connection s k r id clock in
  es_ledger s' = es_ledger s ∧ ∃ t', es_tasks s' = <[k := t']> (es_tasks s).
Proof.
  cbv zeta. unfold start_step. cbn [es_db es_ledger es_next_request_id es_tasks es_outcomes].
  destruct (_ ← _; _) as [[db [a|]]|e]; (split; [done|by eexists]).
Qed.
Lemma settle_frame s k r t clock s' :
  settle_step plan request_profile connection s k r t clock = Some s' →
  es_ledger s' = es_ledger s ∧ ∃ t', es_tasks s' = <[k := t']> (es_tasks s).
Proof.
  destruct t as [| | | |id|id d de re la| | | |]; try done; cbn [settle_step]; intros [= <-];
    destruct (_ ← _; _) as [[db o]|e]; rewrite ?after_outcome_eq; try destruct (decide _); (split; [done|by eexists]).
Qed.

(** While a task is not over, some event can happen that does not wait. *)
Lemma not_stuck s now log :
  IbkrHistoricalPacingPolicy_post_init policy = Ok tt → 0 < rq_maximum_in_flight_requests request_profile →
  ledger_inv policy now (es_ledger s) log →
  (∀ k, is_Some (es_tasks s !! k) → is_Some (request_by_hash plan k)) →
  map_Exists (λ _ t, final t = false) (es_tasks s) →
  ∃ ev s', step s ev = Some s' ∧ waits ev s' = false ∧ (∃ now' log', ledger_inv policy now' (es_ledger s') log') ∧
           (∀ k, is_Some (es_tasks s' !! k) → is_Some (es_tasks s !! k)).
Proof.
  intros Hp Hmax Hi Hkeys (k0 & t0 & Hk0 & Hf0).
  assert (∀ k t t', es_tasks s !! k = Some t → ∀ k', is_Some (<[k := t']> (es_tasks s) !! k') → is_Some (es_tasks s !! k')) as Hins.
  { intros k t t' Hk k' Hk'. destruct (decide (k = k')) as [<-|Hne]; [by eexists|by rewrite lookup_insert_ne in Hk']. }
  assert (∀ k t r, es_tasks s !! k = Some t → request_by_hash plan k = Some r →
    is_Some (settle_step plan request_profile connection s k r t (utc 0)) →
    ∃ ev s', step s ev = Some s' ∧ waits ev s' = false ∧ (∃ now' log', ledger_inv policy now' (es_ledger s') log') ∧
             (∀ k, is_Some (es_tasks s' !! k) → is_Some (es_tasks s !! k))) as settle_event.
  { intros k t r Hk Hr [s' Hs]. exists (EvSettle k (utc 0)), s'. cbn [exec_event waits]. rewrite Hr, Hk. cbn [mbind option_bind].
    split; [done|]. split; [done|]. apply settle_frame in Hs as [-> [t' ->]]. split; [by eexists _, log|by eapply Hins]. }
  destruct (decide (map_Exists (λ _ t, active t = true) (es_tasks s))) as [(k & t & Hk & Ha)|Hnone].
  - destruct (Hkeys k ltac:(by eexists)) as [r Hr].
    destruct t as [| | |id|id|id d de re la| | | |]; try done.
    + exists (EvReserve k (utc (now + seconds 3600))). cbn [exec_event waits]. rewrite Hr. cbn. rewrite decide_True by done.
      eexists. split; [done|]. unfold reserve_step.
      destruct (reserve pacer (es_ledger s) _ _ _ _ _ _ _) as [[ledger delay]|e] eqn:E; cbn [es_tasks es_ledger set_task].
      * destruct (pacer_grants now (es_ledger s) log _ _ _ _ Hp Hi E) as [-> [log' Hl]]. rewrite lookup_insert_eq.
        split_and!; [by rewrite bool_decide_false|by eexists _, log'|by eapply Hins].
      * rewrite lookup_insert_eq. split_and!; [by rewrite bool_decide_false|by eexists _, log|by eapply Hins].
    + exists (EvStart k zero_uuid (utc 0)). cbn [exec_event waits]. rewrite Hr. cbn [mbind option_bind].
      rewrite decide_True by done. eexists. split; [done|]. split; [done|].
      destruct (start_frame s k r zero_uuid (utc 0)) as [-> [t' ->]]. split; [by eexists _, log|by eapply Hins].
    + exists (EvProvider k PR_returned). cbn [exec_event waits]. rewrite Hk. eexists. split_and!; [done|done|by eexists _, log|by eapply Hins].
    + apply (settle_event k _ r Hk Hr). by eexists.
    + apply (settle_event k _ r Hk Hr). by eexists.
    + apply (settle_event k _ r Hk Hr). by eexists.
  - assert (t0 = Queued) as -> by (destruct t0; try done; exfalso; apply Hnone; by exists k0, (ltac:(eassumption) : task) || (eexists _, _; done)).
    exists (EvAcquire k0). cbn [exec_event waits]. rewrite decide_True by (split; [done|]; rewrite no_active_count by done; lia).
    eexists. split_and!; [done|done|by eexists _, log|by eapply Hins].
Qed.

(** C29: An execution ends: of the events that do not wait for the provider's callbacks or the
    pacer at most 81 per request can happen, and as long as a task is not over some such event is
    possible, so that every state leads to one in which all tasks are over. *)
Theorem executor_terminates s now log :
  reachable (es_db s) → IbkrHistoricalPacingPolicy_post_init policy = Ok tt →
  0 < rq_maximum_in_flight_requests request_profile → ledger_inv policy now (es_ledger s) log →
  (∀ k, is_Some (es_tasks s !! k) → is_Some (request_by_hash plan k)) →
  (∀ evs s', steps s evs = Some s' → progress s evs <= 81 * Z.of_nat (size (es_tasks s))) ∧
  (∃ evs s', steps s evs = Some s' ∧ ∀ k t, es_tasks s' !! k = Some t → final t = true).
Proof.
  intros Hreach Hp Hmax Hi Hkeys. split.
  { intros evs s' Hs. pose proof (measure_bounds s Hreach). destruct (steps_progress s evs s' Hreach Hs) as [Hdb Hm].
    pose proof (measure_bounds s' ltac:(by eapply reachable_steps)). lia. }
  remember (Z.to_nat (measure plan s)) as n eqn:Hn.
  revert s now log Hreach Hi Hkeys Hn. induction (lt_wf n) as [n _ IH]. intros s now log Hreach Hi Hkeys Hn.
  destruct (decide (map_Exists (λ _ t, final t = false) (es_tasks s))) as [Hex|Hnone].
  - destruct (not_stuck s now log Hp Hmax Hi Hkeys Hex) as (ev & s1 & E & Hw & (now1 & log1 & Hi1) & Hkeep).
    destruct (event_progress plan request_profile pacer connection s ev s1 Hreach E) as [Hdb Hm]. rewrite Hw in Hm.
    assert (reachable (es_db s1)) as Hr1 by (by eapply reachable_steps).
    pose proof (measure_bounds s1 Hr1).
    destruct (IH (Z.to_nat (measure plan s1)) ltac:(lia) s1 now1 log1 Hr1 Hi1) as (evs & s' & Es & Hf); [by auto|done|].
    exists (ev :: evs), s'. cbn [exec_events]. rewrite E. done.
  - exists [], s. split; [done|]. intros k t Hk. apply not_false_iff_true. intros Hf. apply Hnone. by exists k, t.
Qed.
End termination.

(** ** A group that ends without error has decided every request *)

Definition bad (t : task) : bool := match t with Disconnecting | Broken _ | Cancelled => true | _ => false end.
Definition finished_keys (m : gmap string task) : list string :=
  flat_map (λ kt, match kt.2 with Finished => [kt.1] | _ => [] end) (map_to_list m).

Lemma finished_keys_insert m k t t' : m !! k = Some t → t ≠ Finished →
  finished_keys (<[k := t']> m) ≡ₚ (if decide (t' = Finished) then [k] else []) ++ finished_keys m.
Proof.
  intros Hk Ht. unfold finished_keys. rewrite <- insert_delete_eq, map_to_list_insert by apply lookup_delete_eq.
  rewrite <- (insert_delete_id m k t Hk) at 2. rewrite (map_to_list_insert (delete k m)) by apply lookup_delete_eq.
  cbn [flat_map fst snd]. destruct t; try done; destruct t'; cbn; done.
Qed.

Section completion.
Context (plan : IbkrHistoricalPlan) (request_profile : IbkrHistoricalRequestProfile) (pacer : IbkrPostgresPacing).
Context (connection : IbkrHistoricalConnection) (recovered : list IbkrHistoricalAttemptOutcome).
Notation step := (exec_event plan request_profile pacer connection).
Notation steps := (exec_events plan request_profile pacer connection).
Notation plan_sha := (hp_plan_sha256 plan).

(** What the database says of a request whose task is in some state. *)
Definition task_ok (db : ExecutionDB) (k : string) (t : task) : Prop :=
  match t with
  | Queued | Reserving | Starting => ∃ r, x_requests db !! (plan_sha, k) = Some r ∧ xr_status r = REQ_PENDING
  | Requesting id | Completing id | Failing id _ _ _ _ =>
      ∃ a, x_attempts db !! id = Some a ∧ request_of a = (plan_sha, k) ∧ at_status a = STARTED
  | Finished => ∃ r, x_requests db !! (plan_sha, k) = Some r ∧ decided r
  | _ => True
  end.

Record group_inv (s : ExecState) : Prop := {
  gi_tasks : map_Forall (task_ok (es_db s)) (es_tasks s);
  gi_outcomes : ∃ os, es_outcomes s = recovered ++ os ∧
                map (λ o, at_request_sha256 (oc_attempt o)) os ≡ₚ finished_keys (es_tasks s) }.

(** Events of another request leave a task as it was. *)
Lemma task_ok_other db db' k k' t :
  (∀ k', k' ≠ (plan_sha, k) → x_requests db' !! k' = x_requests db !! k') →
  (∀ id a, x_attempts db !! id = Some a → request_of a ≠ (plan_sha, k) → x_attempts db' !! id = Some a) →
  k' ≠ k → task_ok db k' t → task_ok db' k' t.
Proof.
  intros Hr Ha Hne. assert (x_requests db' !! (plan_sha, k') = x_requests db !! (plan_sha, k')) as E
    by (apply Hr; congruence).
  destruct t; cbn; rewrite ?E; try done; intros (a & Hid & Hk & Hs); exists a; (split; [apply Ha; congruence|done]).
Qed.

Lemma group_task s k t t' s' :
  group_inv s → es_tasks s !! k = Some t → t ≠ Finished → es_tasks s' = <[k := t']> (es_tasks s) →
  (∀ k', k' ≠ (plan_sha, k) → x_requests (es_db s') !! k' = x_requests (es_db s) !! k') →
  (∀ id a, x_attempts (es_db s) !! id = Some a → request_of a ≠ (plan_sha, k) → x_attempts (es_db s') !! id = Some a) →
  task_ok (es_db s') k t' →
  (∃ os, es_outcomes s' = es_outcomes s ++ os ∧ map (λ o, at_request_sha256 (oc_attempt o)) os
         = if decide (t' = Finished) then [k] else []) →
  group_inv s'.
Proof.
  intros [Ht (os & Eo & Hos)] Hk Hnf Et Hr Ha Hok (os' & Eo' & Hos'). split.
  - rewrite Et. intros k' t1 [[<- <-]|[Hne Hk1]]%lookup_insert_Some; [done|].
    eapply task_ok_other; [exact Hr|exact Ha|done|]. by apply Ht.
  - exists (os ++ os'). rewrite Eo', Eo, app_assoc. split; [done|]. rewrite map_app, Et, (finished_keys_insert _ _ t) by done.
    rewrite Hos', Hos. by rewrite Permutation_app_comm.
Qed.

(** Moving on in the same database. *)
Lemma group_move s k t t' s' :
  group_inv s → es_tasks s !! k = Some t → t ≠ Finished → es_tasks s' = <[k := t']> (es_tasks s) → t' ≠ Finished →
  es_db s' = es_db s → es_outcomes s' = es_outcomes s → task_ok (es_db s) k t' → group_inv s'.
Proof.
  intros Hg Hk Hnf Et Hnf' Edb Eo Hok. eapply group_task; [done|done|done|done|by rewrite Edb|by rewrite Edb|by rewrite Edb|].
  exists []. rewrite Eo, app_nil_r, decide_False by done. done.
Qed.

Lemma group_closed s k t a db o :
  reachable (es_db s) → group_inv s → es_tasks s !! k = Some t → t ≠ Finished → request_of a = (plan_sha, k) →
  x_attempts (es_db s) !! at_attempt_id a = Some a → closed_by (es_db s) a db o → group_inv (after_outcome s k db o).
Proof.
  intros Hreach Hg Hk Hnf Ha Hid Hc. rewrite after_outcome_eq. destruct (closed_by_request _ _ _ _ Hc) as (r & Hr & Hst & Hnfl).
  rewrite Ha in Hr. eapply group_task; [exact Hg|exact Hk|exact Hnf|done|..]; cbn [es_db es_outcomes].
  - intros k' Hne. apply (closed_by_other_request _ _ _ _ _ Hc). by rewrite Ha.
  - intros id b Hb Hne. rewrite (closed_by_other _ _ _ _ _ Hc); [done|]. intros ->. rewrite Hid in Hb. injection Hb as <-. done.
  - destruct (decide _) as [E|E]; exists r; (split; [done|]); [congruence|]. unfold decided. destruct (xr_status r); try done; tauto || congruence.
  - destruct (decide (oc_request_status o = REQ_PENDING)).
    + exists []. rewrite app_nil_r, decide_False by done. done.
    + exists [o]. rewrite decide_True by done. split; [done|]. cbn. pose proof (closed_by_outcome _ _ _ _ Hc) as E.
      rewrite Ha in E. unfold request_of in E. congruence.
Qed.

Definition sound (s : ExecState) : Prop := ∀ k t, es_tasks s !! k = Some t → bad t = false.
Lemma sound_task s k t : es_tasks s !! k = Some t → bad t = true → ¬ sound s.
Proof. intros Hk Hb Hs. rewrite (Hs k t Hk) in Hb. done. Qed.
Lemma broken_unsound s k t : bad t = true → ¬ sound (set_task s k t).
Proof. intros Hb. apply (sound_task _ k t); [|done]. cbn. by rewrite lookup_insert_eq. Qed.

Ltac unsound := let H := fresh in intros H; exfalso; eapply broken_unsound; [|exact H]; done.

Lemma start_group s k r id clock :
  reachable (es_db s) → group_inv s → es_tasks s !! k = Some Starting → request_by_hash plan k = Some r →
  sound (start_step plan request_profile connection s k r id clock) →
  group_inv (start_step plan request_profile connection s k r id clock).
Proof.
  intros Hreach Hg Hk Hr%request_by_hash_Some. unfold start_step. cbn [es_db es_ledger es_next_request_id es_tasks es_outcomes].
  destruct (gi_tasks _ Hg _ _ Hk) as (row & Hrow & Hp).
  destruct (_ ← _; _) as [[db [a|]]|e] eqn:E; [| |unsound].
  - intros _. apply bind_Ok in E as (t & _ & E). apply start_Ok in E as (row' & Hrow' & Hp' & -> & Ha & _ & Hst & Hfresh).
    rewrite Hr in Hrow', Ha. eapply group_task; [exact Hg|exact Hk|done|done|..]; cbn.
    + intros k' Hne. by rewrite Ha, lookup_insert_ne.
    + intros id' b Hb Hne. rewrite lookup_insert_ne by congruence. done.
    + exists a. rewrite lookup_insert_eq. done.
    + exists []. by rewrite app_nil_r.
  - apply bind_Ok in E as (t & _ & E). apply start_Ok in E as (row' & Hrow' & Hnp & _). rewrite Hr, Hrow in Hrow'. congruence.
Qed.

Lemma settle_group s s' k r t clock :
  reachable (es_db s) → group_inv s → es_tasks s !! k = Some t →
  settle_step plan request_profile connection s k r t clock = Some s' → sound s' → group_inv s'.
Proof.
  intros Hreach Hg Hk Hset. pose proof (gi_tasks _ Hg _ _ Hk) as Hok. pose proof (reachable_inv _ Hreach) as Hi.
  destruct t as [| | | |id|id d de re la| | | |]; try done; cbn [settle_step] in Hset; injection Hset as <-.
  - destruct Hok as (a & Hid & Hka & Hst). destruct (ai_request _ (xi_attempts _ Hi) _ _ Hid) as [row Hrow].
    destruct (ai_attempt _ (xi_attempts _ Hi) _ _ Hid) as [Eid _].
    destruct (_ ← _; _) as [[db o]|e] eqn:E.
    + intros _. apply bind_Ok in E as (u & _ & E). eapply group_closed; try done; [by rewrite Eid|].
      by eapply finalize_closes.
    + destruct (decide _); [intros _|unsound].
      eapply group_move; [done|done|done|done|done|done|done|]. exists a. done.
  - destruct Hok as (a & Hid & Hka & Hst). destruct (ai_request _ (xi_attempts _ Hi) _ _ Hid) as [row Hrow].
    destruct (ai_attempt _ (xi_attempts _ Hi) _ _ Hid) as [Eid _].
    destruct (_ ← _; _) as [[db o]|e] eqn:E; [|unsound].
    intros _. apply bind_Ok in E as (u & _ & E). eapply group_closed; try done; [by rewrite Eid|]. by eapply fail_closes.
  - destruct (_ ← _; _) as [[db o]|e]; unsound.
Qed.

Lemma append_frame db id cb db' c : append_ibkr_historical_callback db id cb = Ok (db', c) →
  x_attempts db' = x_attempts db ∧ x_requests db' = x_requests db.
Proof.
  unfold append_ibkr_historical_callback. destruct (_attempt_for_update db id) as [[a r]|]; [|done]. cbv zeta.
  by intros ([] & _ & [= <- <-])%bind_Ok.
Qed.

Lemma event_group s ev s' : reachable (es_db s) → group_inv s → step s ev = Some s' → sound s' → group_inv s'.
Proof.
  intros Hreach Hg. destruct ev as [k|k clock|k id clock|k result|k clock|id cb|k]; cbn [exec_event].
  - destruct (decide _) as [[Hk _]|]; [|done]. intros [= <-] _.
    eapply group_move; [done|done|done|done|done|done|done|]. exact (gi_tasks _ Hg _ _ Hk).
  - destruct (request_by_hash plan k) as [r|]; [|done]. cbn. destruct (decide _) as [Hk|]; [|done]. intros [= <-].
    unfold reserve_step. destruct (reserve _ _ _ _ _ _ _ _ _) as [[ledger delay]|e]; [|unsound].
    intros _. pose proof (gi_tasks _ Hg _ _ Hk) as Hok.
    destruct (delay =? 0); (eapply group_move; [done|done|done|done|done|done|done|exact Hok]).
  - destruct (request_by_hash plan k) as [r|] eqn:Er; [|done]. cbn. destruct (decide _) as [Hk|]; [|done]. intros [= <-].
    by apply start_group.
  - destruct (es_tasks s !! k) as [[| | |id| | | | | |]|] eqn:Hk; try done. intros [= <-].
    pose proof (gi_tasks _ Hg _ _ Hk) as Hok. unfold provider_step.
    destruct result; try (unsound); intros _; (eapply group_move; [done|done|done|done|done|done|done|exact Hok]).
  - destruct (request_by_hash plan k) as [r|]; [|done]. destruct (es_tasks s !! k) as [t|] eqn:Hk; [|done]. cbn.
    intros H. by eapply settle_group.
  - destruct (append_ibkr_historical_callback _ _ _) as [[db c]|e] eqn:E; intros [= <-] _; [|done].
    apply append_frame in E as [Ea Er]. destruct Hg as [Ht Ho]. split; [|exact Ho]. cbn. intros k t Hk.
    specialize (Ht k t Hk). cbn in Ht. destruct t; cbn in *; by rewrite ?Ea, ?Er.
  - destruct (es_tasks s !! k) as [t|]; [|done]. destruct (_ && _); [|done]. intros [= <-]. unsound.
Qed.
(** An event moves one task at most, and a task that went wrong stays wrong. *)
Lemma event_tasks s ev s' : step s ev = Some s' →
  es_tasks s' = es_tasks s ∨
  ∃ k t t', es_tasks s !! k = Some t ∧ es_tasks s' = <[k := t']> (es_tasks s) ∧ (bad t = true → bad t' = true).
Proof.
  destruct ev as [k|k clock|k id clock|k result|k clock|id cb|k]; cbn [exec_event].
  - destruct (decide _) as [[Hk _]|]; [|done]. intros [= <-]. right. by exists k, Queued, Reserving.
  - destruct (request_by_hash plan k) as [r|]; [|done]. cbn. destruct (decide _) as [Hk|]; [|done]. intros [= <-].
    right. exists k, Reserving. unfold reserve_step. destruct (reserve _ _ _ _ _ _ _ _ _) as [[ledger delay]|e]; by eexists.
  - destruct (request_by_hash plan k) as [r|]; [|done]. cbn. destruct (decide _) as [Hk|]; [|done]. intros [= <-].
    right. destruct (start_frame plan request_profile connection s k r id clock) as [_ [t' E]]. by exists k, Starting, t'.
  - destruct (es_tasks s !! k) as [[| | |id| | | | | |]|] eqn:Hk; try done. intros [= <-]. right. by eexists k, _, _.
  - destruct (request_by_hash plan k) as [r|]; [|done]. destruct (es_tasks s !! k) as [t|] eqn:Hk; [|done]. cbn. intros H.
    right. pose proof H as E. apply settle_frame in E as [_ [t' E]]. exists k, t, t'. split_and!; [done|done|].
    intros Hb. destruct t; try done. cbn [settle_step] in H. injection H as <-.
    destruct (_ ← _; _) as [[db o]|e] in E; apply (f_equal (.!! k)) in E; cbn in E; rewrite !lookup_insert_eq in E; by injection E as <-.
  - destruct (append_ibkr_historical_callback _ _ _) as [[db c]|e]; intros [= <-]; by left.
  - destruct (es_tasks s !! k) as [t|] eqn:Hk; [|done]. destruct (_ && _); [|done]. intros [= <-]. right. by exists k, t, Cancelled.
Qed.

Lemma event_unsound s ev s' : step s ev = Some s' → sound s' → sound s.
Proof.
  intros [E|(k & t & t' & Hk & E & Hb)]%event_tasks Hs k1 t1 H1; [by apply (Hs k1); rewrite E|].
  destruct (decide (k1 = k)) as [->|Hne]; [|by apply (Hs k1); rewrite E, lookup_insert_ne].
  rewrite Hk in H1. injection H1 as <-. specialize (Hs k t'). rewrite E, lookup_insert_eq in Hs.
  destruct (bad t); [|done]. by rewrite <- (Hs eq_refl), Hb.
Qed.

Lemma steps_dom s evs s' : steps s evs = Some s' → ∀ k, is_Some (es_tasks s' !! k) ↔ is_Some (es_tasks s !! k).
Proof.
  revert s. induction evs as [|ev evs IH]; intros s; cbn [exec_events]; [by intros [= <-]|].
  destruct (step s ev) as [s1|] eqn:E; [|done]. cbn. intros Hs k. rewrite (IH s1 Hs).
  apply event_tasks in E as [->|(k1 & t & t' & Hk & -> & _)]; [done|].
  destruct (decide (k1 = k)) as [->|Hne]; [rewrite lookup_insert_eq, Hk|by rewrite lookup_insert_ne]. split; by eexists.
Qed.

Lemma steps_group s evs s' : reachable (es_db s) → group_inv s → steps s evs = Some s' → sound s' →
  group_inv s' ∧ sound s.
Proof.
  revert s. induction evs as [|ev evs IH]; intros s Hr Hg; cbn [exec_events]; [by intros [= <-]|].
  destruct (step s ev) as [s1|] eqn:E; [|done]. cbn. intros Hs Hsound.
  destruct (event_progress plan request_profile pacer connection s ev s1 Hr E) as [Hdb _].
  assert (reachable (es_db s1)) as Hr1 by (by eapply reachable_steps).
  assert (sound s1) as Hs1.
  { clear IH Hg Hr Hdb Hr1 E. revert s1 Hs. induction evs as [|ev' evs IH']; intros s1; cbn [exec_events]; [by intros [= <-]|].
    destruct (step s1 ev') as [s2|] eqn:E2; [|done]. cbn. intros Hs. eapply event_unsound; [exact E2|]. by apply IH'. }
  pose proof (event_group s ev s1 Hr Hg E Hs1) as Hg1. destruct (IH s1 Hr1 Hg1 Hs Hsound) as [? _].
  split; [done|]. by eapply event_unsound.
Qed.
End completion.

(** The pending requests of a plan, each once. *)
Lemma NoDup_requests_of db sha : NoDup (map fst (requests_of db sha)).
Proof.
  unfold requests_of. pose proof (NoDup_fst_map_to_list (x_requests db)) as Hn.
  induction (map_to_list (x_requests db)) as [|[[p q] r] l IH]; cbn in *; [constructor|].
  apply NoDup_cons in Hn as [Hnot Hn]. specialize (IH Hn).
  destruct (String.eqb_spec p sha) as [->|]; [|done]. cbn. apply NoDup_cons. split; [|done].
  intros ([q' r'] & Eq & Hin)%list_elem_of_fmap. cbn in Eq. subst q'. apply Hnot.
  apply list_elem_of_In, in_flat_map in Hin as ([[p1 q1] r1] & Hin1 & H1). cbn in H1.
  destruct (String.eqb_spec p1 sha) as [->|]; [|done]. destruct H1 as [[= -> ->]|[]].
  apply list_elem_of_fmap. exists (sha, q, r'). split; [done|by apply list_elem_of_In].
Qed.

Lemma pending_Ok db sha l : pending_ibkr_historical_requests db sha = Ok l →
  NoDup l ∧ ∀ k, k ∈ l ↔ ∃ r, x_requests db !! (sha, k) = Some r ∧ xr_status r = REQ_PENDING.
Proof.
  unfold pending_ibkr_historical_requests. intros H. do 2 apply bind_Ok in H as (? & _ & H). injection H as <-. split.
  - rewrite py_sorted_perm. pose proof (NoDup_requests_of db sha) as Hn. induction (requests_of db sha) as [|[k r] m IH]; [constructor|].
    cbn in *. apply NoDup_cons in Hn as [Hk Hn]. destruct (bool_decide _); [|by apply IH]. cbn. apply NoDup_cons.
    split; [|by apply IH]. intros (y & -> & Hy)%list_elem_of_fmap. apply Hk, list_elem_of_fmap. exists y. split; [done|].
    apply list_elem_of_In in Hy. apply list_elem_of_In. by apply filter_In in Hy as [? _].
  - intros k. rewrite elem_of_py_sorted, list_elem_of_fmap. split.
    + intros ([k' r] & -> & Hin). apply list_elem_of_In, filter_In in Hin as [Hin%list_elem_of_In%elem_of_requests_of Hs].
      apply bool_decide_eq_true in Hs. eauto.
    + intros (r & Hr & Hs). exists (k, r). split; [done|]. apply list_elem_of_In, filter_In.
      split; [by apply list_elem_of_In, elem_of_requests_of|by apply bool_decide_eq_true].
Qed.

Lemma finished_all (m : gmap string task) : (∀ k t, m !! k = Some t → t = Finished) →
  finished_keys m = map fst (map_to_list m).
Proof.
  intros H. assert (∀ kt, kt ∈ map_to_list m → kt.2 = Finished) as Hf by (intros [k t] Hk%elem_of_map_to_list; by apply (H k)).
  unfold finished_keys. clear H. induction (map_to_list m) as [|kt l IH]; [done|]. cbn. rewrite (Hf kt) by set_solver.
  rewrite IH; [done|]. intros x Hx. apply Hf. set_solver.
Qed.

(** ** Properties *)

(** C12: When every task of the group finishes - the only way execute_pending returns a summary -
    each request that was pending at its start is decided in the database, and the summary holds
    the recovered outcomes followed by exactly one outcome per request. *)
Theorem executor_completes plan request_profile pacer connection db recovered ledger rid reauthentication s0 evs s :
  reachable db →
  execute_begin plan request_profile pacer connection db recovered ledger rid reauthentication = Ok (Some s0) →
  exec_events plan request_profile pacer connection s0 evs = Some s →
  (∀ k t, es_tasks s !! k = Some t → t = Finished) →
  ∃ pending os, pending_ibkr_historical_requests db (hp_plan_sha256 plan) = Ok pending ∧
    es_outcomes s = recovered ++ os ∧ map (λ o, at_request_sha256 (oc_attempt o)) os ≡ₚ pending ∧
    ∀ k, k ∈ pending → ∃ r, x_requests (es_db s) !! (hp_plan_sha256 plan, k) = Some r ∧ decided r.
Proof.
  intros Hreach Hb Hs Hall. unfold execute_begin in Hb. apply bind_Ok in Hb as (? & _ & Hb).
  apply bind_Ok in Hb as (pending & Hp & Hb). destruct (Nat.eqb _ _); [done|].
  do 2 apply bind_Ok in Hb as (? & _ & Hb). injection Hb as <-. destruct (pending_Ok _ _ _ Hp) as [Hn Hin].
  set (tasks := list_to_map (map (λ k, (k, Queued)) pending) : gmap string task) in *.
  assert (NoDup (map fst (map (λ k, (k, Queued)) pending))) as Hn' by (rewrite map_map; cbn; by rewrite map_id).
  assert (∀ k t, tasks !! k = Some t ↔ k ∈ pending ∧ t = Queued) as Htasks.
  { intros k t. unfold tasks. rewrite <- elem_of_list_to_map by done. rewrite list_elem_of_fmap. naive_solver. }
  assert (group_inv plan recovered (mkExec db ledger rid tasks recovered)) as Hg.
  { split; cbn.
    - intros k t [Hk ->]%Htasks. cbn. by apply Hin.
    - exists []. rewrite app_nil_r. split; [done|]. cbn. unfold finished_keys.
      assert (∀ kt, kt ∈ map_to_list tasks → kt.2 = Queued) as Hq by (intros [k t] H%elem_of_map_to_list%Htasks; by destruct H).
      clear -Hq. induction (map_to_list tasks) as [|kt l IH]; [done|]. cbn. rewrite (Hq kt) by set_solver. apply IH. set_solver. }
  assert (sound s) as Hsound by (intros k t Hk; by rewrite (Hall k t Hk)).
  destruct (steps_group plan request_profile pacer connection recovered (mkExec db ledger rid tasks recovered) evs s
    Hreach Hg Hs Hsound) as [[Ht (os & Eo & Hos)] _].
  assert (∀ k, is_Some (es_tasks s !! k) ↔ k ∈ pending) as Hdom.
  { intros k. rewrite (steps_dom plan request_profile pacer connection _ evs s Hs). cbn. split.
    - by intros [t [Hk _]%Htasks].
    - intros Hk. exists Queued. by apply Htasks. }
  exists pending, os. split_and!; [done|done| |].
  - rewrite Hos. apply NoDup_Permutation; [|done|].
    + rewrite finished_all by done. apply NoDup_fst_map_to_list.
    + intros k. rewrite finished_all, <- Hdom by done. rewrite list_elem_of_fmap. split.
      * intros ([k' t] & -> & Hk%elem_of_map_to_list). by eexists.
      * intros [t Hk]. exists (k, t). by rewrite elem_of_map_to_list.
  - intros k [t Hk]%Hdom. pose proof (Ht k t Hk) as Hok. by rewrite (Hall k t Hk) in Hok.
Qed.

(** However the group ended, the final clause returns, and afterwards no attempt made for the
    plan over this connection is left running. *)
Theorem executor_cleans_up plan request_profile connection s clock :
  reachable (es_db s) → is_sha256 (hp_plan_sha256 plan) = true → IbkrHistoricalConnection_post_init connection = Ok tt →
  0 <= rq_retry_count request_profile <= 5 → is_utc clock →
  ∃ db', execute_end plan request_profile connection s clock = Ok db' ∧ reachable db' ∧
    ∀ id a, x_attempts db' !! id = Some a → at_plan_sha256 a = hp_plan_sha256 plan →
      at_connection_session_id a = hc_connection_session_id connection →
      at_connection_generation a = hc_connection_generation connection → at_status a ≠ STARTED.
Proof.
  intros Hreach Hsha Hconn Hretry Hclock. pose proof (reachable_inv _ Hreach) as Hi.
  unfold IbkrHistoricalConnection_post_init in Hconn. apply bind_Ok in Hconn as ([] & Hsession & Hgen%raise_if_Ok).
  unfold _require_session_id in Hsession. apply raise_if_Ok in Hsession.
  set (f := invalidated_by (hp_plan_sha256 plan) (hc_connection_session_id connection) (hc_connection_generation connection)).
  assert (∀ a, f a = true ↔ at_plan_sha256 a = hp_plan_sha256 plan ∧ at_connection_session_id a = hc_connection_session_id connection ∧
    at_connection_generation a = hc_connection_generation connection ∧ at_status a = STARTED) as Hf.
  { intros a. unfold f, invalidated_by. rewrite !andb_true_iff, String.eqb_eq, !bool_decide_eq_true, Z.eqb_eq. tauto. }
  assert (is_utc (utc (instant clock))) as Hu by done.
  destruct (settle_where (utc (instant clock)) (maximum_attempts request_profile) (es_db s) f Hu
    ltac:(unfold maximum_attempts; lia) Hi) as (db' & os & E & _ & _ & Hdone & Hkeep).
  { intros a Ha. by apply Hf in Ha as (_ & _ & _ & ?). }
  assert (invalidate_ibkr_historical_attempts (es_db s) (hp_plan_sha256 plan) (hc_connection_session_id connection)
    (hc_connection_generation connection) (utc (instant clock)) (maximum_attempts request_profile) = Ok (db', os)) as Einv.
  { unfold invalidate_ibkr_historical_attempts, _require_sha256, _require_session_id, _require_positive, _require_maximum_attempts.
    rewrite Hsha, Hsession, Hgen, require_utc_is_utc by done.
    replace ((maximum_attempts request_profile <=? 0) || (6 <? maximum_attempts request_profile)) with false
      by (unfold maximum_attempts; lia). exact E. }
  exists db'. split_and!.
  - unfold execute_end, _now. rewrite require_utc_is_utc by done. cbn [mbind res_bind]. by rewrite Einv.
  - eapply reachable_steps; [done|]. eapply rtc_once, step_invalidate. exact Einv.
  - intros id a Hid Hp Hse Hge Hst. destruct (decide (id ∈ map at_attempt_id (attempts_where (es_db s) f))) as [Hin|Hin].
    + apply list_elem_of_fmap in Hin as (b & -> & Hb). destruct (Hdone _ Hb) as (b' & Hb' & Hns). congruence.
    + rewrite Hkeep in Hid by done. apply Hin, list_elem_of_fmap. exists a.
      destruct (ai_attempt _ (xi_attempts _ Hi) _ _ Hid) as [<- _]. split; [done|].
      apply elem_of_attempts_where; [apply Hi|]. split; [done|]. by apply Hf.
Qed.

(** ** Witnesses: the one request of [one_plan] *)

Definition exec_profile : IbkrHistoricalRequestProfile :=
  mkProfile "canary.json" sample_hash sample_hash sample_hash sample_hash "operator" (utc 0) ["1 D"] ["4 W"]
    [(FX, "1 D")] "4 W" 1 60 2 "PLAN_REQUEST_ID_UNIQUE_NO_RERUN" sample_policy sample_hash.
Definition exec_pacer : IbkrPostgresPacing := mkPacer sample_hash sample_policy (seconds 1).
Definition exec_connection : IbkrHistoricalConnection := mkConnection session_id 1.
Definition exec_reauthentication : list IbkrContractReauthentication :=
  [mkReauthentication 1 1 sample_fingerprint [sample_fingerprint] "MATCH" [] []].
Definition exec_start : ExecState := mkExec db1 [] 7 {[req_key := Queued]} [].
Definition exec_script : list event :=
  [EvAcquire req_key; EvReserve req_key (utc (hours 25)); EvStart req_key attempt_id1 (utc (hours 25));
   EvCallback attempt_id1 (callback_of CB_SCHEDULE); EvCallback attempt_id1 (callback_of CB_COMPLETION);
   EvProvider req_key PR_returned; EvSettle req_key (utc (hours 31))].
Definition exec_done : ExecState :=
  default exec_start (exec_events one_plan exec_profile exec_pacer exec_connection exec_start exec_script).

Lemma exec_begins :
  execute_begin one_plan exec_profile exec_pacer exec_connection db1 [] [] 7 exec_reauthentication = Ok (Some exec_start).
Proof. vm_compute. reflexivity. Qed.
Lemma exec_runs : exec_events one_plan exec_profile exec_pacer exec_connection exec_start exec_script = Some exec_done.
Proof. vm_compute. reflexivity. Qed.
Lemma db1_reachable : reachable db1.
Proof. apply rtc_once, db1_step. Qed.
Lemma exec_all_finished k t : es_tasks exec_done !! k = Some t → t = Finished.
Proof.
  assert (es_tasks exec_done = {[req_key := Finished]}) as -> by (vm_compute; reflexivity).
  by intros [_ <-]%lookup_singleton_Some.
Qed.

Lemma executor_terminates_witness :
  ∃ evs s', exec_events one_plan exec_profile exec_pacer exec_connection exec_start evs = Some s' ∧
            ∀ k t, es_tasks s' !! k = Some t → final t = true.
Proof.
  refine (proj2 (executor_terminates one_plan exec_profile exec_pacer exec_connection exec_start 0 [] db1_reachable
    eq_refl eq_refl (empty_ledger_inv sample_policy 0 eq_refl) _)).
  intros k [t Hk]. cbn [es_tasks exec_start] in Hk. apply lookup_singleton_Some in Hk as [<- _]. vm_compute. eexists. reflexivity.
Defined.

Lemma executor_completes_witness :
  ∃ pending os, pending_ibkr_historical_requests db1 plan_key = Ok pending ∧ es_outcomes exec_done = [] ++ os ∧
    map (λ o, at_request_sha256 (oc_attempt o)) os ≡ₚ pending ∧
    ∀ k, k ∈ pending → ∃ r, x_requests (es_db exec_done) !! (plan_key, k) = Some r ∧ decided r.
Proof.
  exact (executor_completes one_plan exec_profile exec_pacer exec_connection db1 [] [] 7 exec_reauthentication exec_start
    exec_script exec_done db1_reachable exec_begins exec_runs exec_all_finished).
Defined.

Lemma executor_cleans_up_witness :
  ∃ db', execute_end one_plan exec_profile exec_connection exec_start (utc (hours 40)) = Ok db' ∧ reachable db'.
Proof.
  destruct (executor_cleans_up one_plan exec_profile exec_connection exec_start (utc (hours 40)) db1_reachable eq_refl
    eq_refl ltac:(vm_compute; split; discriminate) eq_refl) as (db' & E & Hr & _).
  exists db'. exact (conj E Hr).
Defined.
