(* ===== verification/PyFloat.v ===== *)
(** Python's [float] where the code uses it: binary64 numbers as the Standard
    Library's [spec_float], the correctly rounded quotient of two integers,
    [timedelta.total_seconds()], [float(Decimal)], and [repr], the shortest text
    that reads back as the same number, as [json.dumps] writes it. *)

From S2P Require Import Prelude PyStr PyTime PyDecimal PyJson.
From Stdlib Require Import Ascii SpecFloat.

Definition pyfloat : Type := spec_float.
Definition f_prec : Z := 53.
Definition f_emax : Z := 1024.

#[export] Instance pyfloat_eq_dec : EqDecision pyfloat.
Proof. intros x y. unfold Decision. decide equality; solve [apply Bool.bool_dec|apply Z.eq_dec|apply Pos.eq_dec]. Defined.

(** ** Arithmetic with one rounding, to nearest with ties to even *)

Definition f_zero : pyfloat := S754_zero false.

(** [n / d] for integers with [d > 0]. *)
Definition float_ratio (n d : Z) : pyfloat :=
  if n =? 0 then f_zero
  else let '(q, e, l) := SFdiv_core_binary f_prec f_emax (Z.abs n) 0 d 0 in
       binary_round_aux f_prec f_emax (n <? 0) q e l.

Definition float_of_Z (n : Z) : pyfloat := float_ratio n 1.
(** [c * 10^e] *)
Definition float_of_scaled (c e : Z) : pyfloat :=
  if 0 <=? e then float_ratio (c * 10 ^ e) 1 else float_ratio c (10 ^ (- e)).

Definition float_of_Decimal (d : Decimal) : pyfloat :=
  if dec_coeff d =? 0 then S754_zero (dec_neg d) else float_of_scaled (dec_signed d) (dec_exp d).

Definition total_seconds (d : timedelta) : pyfloat := float_ratio d 1000000.

Definition f_add : pyfloat → pyfloat → pyfloat := SFadd f_prec f_emax.
Definition f_sub : pyfloat → pyfloat → pyfloat := SFsub f_prec f_emax.
Definition f_mul : pyfloat → pyfloat → pyfloat := SFmul f_prec f_emax.
Definition f_div : pyfloat → pyfloat → pyfloat := SFdiv f_prec f_emax.
Definition f_ltb (x y : pyfloat) : bool := SFltb x y.
Definition f_leb (x y : pyfloat) : bool := SFleb x y.
Definition f_eqb (x y : pyfloat) : bool := SFeqb x y.

(** [math.isfinite(x)] *)
Definition isfinite (x : pyfloat) : bool :=
  match x with S754_zero _ | S754_finite _ _ _ => true | _ => false end.

(** [max] and [min] keep the first argument unless the second compares beyond it. *)
Definition f_max (x y : pyfloat) : pyfloat := if f_ltb x y then y else x.
Definition f_min (x y : pyfloat) : pyfloat := if f_ltb y x then y else x.

(** The exact value of a finite number as a fraction with a positive denominator. *)
Definition float_fraction (x : pyfloat) : option (Z * Z) :=
  match x with
  | S754_zero _ => Some (0, 1)
  | S754_finite s m e =>
      let n := if s then Zneg m else Zpos m in
      Some (if 0 <=? e then (n * 2 ^ e, 1) else (n, 2 ^ (- e)))
  | _ => None
  end.

(** [x % y == 0] for finite [x] and positive finite [y]. *)
Definition float_divides (y x : pyfloat) : bool :=
  match float_fraction x, float_fraction y with
  | Some (a, b), Some (c, d) => (a * d) mod (c * b) =? 0
  | _, _ => false
  end.

(** [math.ceil(x)] and [int(x)]; both raise on infinities and NaNs. *)
Definition f_ceil (x : pyfloat) : option Z := (λ '(n, d), - (- n / d)) <$> float_fraction x.
Definition f_int (x : pyfloat) : option Z := (λ '(n, d), Z.quot n d) <$> float_fraction x.
(** [int(d.total_seconds())] *)
Definition whole_seconds (d : timedelta) : Z := default 0 (f_int (total_seconds d)).

(** ** [repr] *)

(** [floor(log10(n / d))] for positive [n] and [d]. *)
Definition floor_log10 (n d : Z) : Z :=
  if d <=? n then ndigits (n / d) - 1 else - ndigits ((d - 1) / n).

(** The decimal with [k] significant digits closest to [n / d] among the two around
    it that read back as [x], as a coefficient and a power of ten. *)
Definition repr_digits (x : pyfloat) (n d : Z) (k : Z) : option (Z * Z) :=
  let e := floor_log10 n d - k + 1 in
  let '(a, b) := if 0 <=? e then (n, d * 10 ^ e) else (n * 10 ^ (- e), d) in
  let q := a / b in let r := a mod b in
  let reads c := bool_decide (float_of_scaled c e = x) in
  let near := half_even q r b in
  let far := if near =? q then q + 1 else q in
  if reads near then Some (near, e) else if reads far then Some (far, e) else None.

Fixpoint repr_search (x : pyfloat) (n d : Z) (fuel : nat) (k : Z) : Z * Z :=
  match fuel with
  | O => default (0, 0) (repr_digits x n d k)
  | S fuel => match repr_digits x n d k with
              | Some r => r
              | None => repr_search x n d fuel (k + 1)
              end
  end.

Fixpoint drop_zeros (l : list ascii) : list ascii :=
  match l with
  | c :: l' => if Ascii.eqb c "0" then drop_zeros l' else l
  | [] => []
  end.

Definition repr_text (neg : bool) (c e : Z) : string :=
  let all := chars (digits c) in
  let ds := rev (drop_zeros (rev all)) in
  let point := Z.of_nat (length all) + e in
  let zeros n := of_chars (replicate (Z.to_nat n) "0"%char) in
  let n := Z.of_nat (length ds) in
  let body :=
    if (-4 <? point) && (point <=? 16) then
      if point <=? 0 then "0." +:+ zeros (- point) +:+ of_chars ds
      else if n <=? point then of_chars ds +:+ zeros (point - n) +:+ ".0"
      else of_chars (firstn (Z.to_nat point) ds) +:+ "." +:+ of_chars (skipn (Z.to_nat point) ds)
    else
      of_chars (firstn 1 ds)
      +:+ (if n =? 1 then "" else "." +:+ of_chars (skipn 1 ds))
      +:+ "e" +:+ (if point - 1 <? 0 then "-" else "+") +:+ zpad 2 (Z.abs (point - 1)) in
  (if neg then "-" else "") +:+ body.

(** Seventeen significant digits always suffice for binary64. *)
Definition float_repr (x : pyfloat) : string :=
  match x with
  | S754_nan => "nan"
  | S754_infinity s => if s then "-inf" else "inf"
  | S754_zero s => if s then "-0.0" else "0.0"
  | S754_finite s m e =>
      let '(n, d) := if 0 <=? e then (Zpos m * 2 ^ e, 1) else (Zpos m, 2 ^ (- e)) in
      let '(c, k) := repr_search (S754_finite false m e) n d 16 1 in
      repr_text s c k
  end.

(** [json.dumps] spells the values JSON lacks its own way. *)
Definition float_json (x : pyfloat) : json :=
  JFloat match x with
         | S754_nan => "NaN"
         | S754_infinity s => if s then "-Infinity" else "Infinity"
         | _ => float_repr x
         end.
Definition opt_float_json (x : option pyfloat) : json := match x with Some x => float_json x | None => JNull end.

(** ** Examples *)

Example repr_seconds : float_repr (total_seconds (minutes 15)) = "900.0". Proof. vm_compute. reflexivity. Qed.
Example repr_tenth : float_repr (float_ratio 1 10) = "0.1". Proof. vm_compute. reflexivity. Qed.
Example repr_sum : float_repr (f_add (float_ratio 1 10) (float_ratio 2 10)) = "0.30000000000000004".
Proof. vm_compute. reflexivity. Qed.
Example repr_third : float_repr (float_ratio (-1) 3) = "-0.3333333333333333". Proof. vm_compute. reflexivity. Qed.
Example repr_micro : float_repr (total_seconds 5) = "5e-06". Proof. vm_compute. reflexivity. Qed.
Example repr_large : float_repr (float_of_Z (123 * 10 ^ 20)) = "1.23e+22". Proof. vm_compute. reflexivity. Qed.
Example repr_two53 : float_repr (float_of_Z (2 ^ 53 + 1)) = "9007199254740992.0". Proof. vm_compute. reflexivity. Qed.
Example repr_least : float_repr (S754_finite false 1 (-1074)) = "5e-324". Proof. vm_compute. reflexivity. Qed.
Example repr_boundary : float_repr (S754_finite false (2 ^ 52) (-96)) = "5.684341886080802e-14".
Proof. vm_compute. reflexivity. Qed.
