(* ===== verification/PyText.v ===== *)
(** [int(text)], and the round trips of [str] with [int] and [Decimal]: the text
    of an integer or of a finite decimal reads back as the same value, sign and
    exponent included. *)

From S2P Require Import Prelude PyStr PyTime PyDecimal PyParse.
From Stdlib Require Import Ascii.

(** [int(text)]: surrounding blanks, a sign, digits that single underscores may
    separate. *)
Fixpoint strip_left (l : list ascii) : list ascii :=
  match l with c :: l' => if is_space c then strip_left l' else l | [] => [] end.
Definition strip (l : list ascii) : list ascii := rev (strip_left (rev (strip_left l))).
Definition int_groups (l : list ascii) : option Z :=
  let groups := split "_" (of_chars l) in
  if forallb (λ g, nonempty g && forallb is_digit (chars g)) groups
  then Some (parse_digits (join "" groups)) else None.
Definition read_int (s : string) : option Z :=
  match strip (chars s) with
  | c :: r => if Ascii.eqb c "-" then Z.opp <$> int_groups r
              else if Ascii.eqb c "+" then int_groups r else int_groups (c :: r)
  | [] => None
  end.
Definition int_of_str (s : string) : res Z :=
  match read_int s with
  | Some n => Ok n
  | None => Raise (ValueError ("invalid literal for int() with base 10: '" +:+ s +:+ "'"))
  end.


Example read_int_blank : read_int "  -1_000 " = Some (-1000). Proof. reflexivity. Qed.
Example read_int_bad : read_int "1__0" = None. Proof. reflexivity. Qed.

(** ** Texts of digits *)

Definition all_digits (s : string) : Prop := ∀ c, c ∈ chars s → is_digit c = true.

Lemma all_digits_digits n : 0 <= n → all_digits (digits n).
Proof. intros Hn c. by apply digits_all_digits. Qed.
Lemma all_digits_app s t : all_digits s → all_digits t → all_digits (s +:+ t).
Proof. intros Hs Ht c. rewrite chars_app. set_solver. Qed.
Lemma all_digits_zeros n : all_digits (of_chars (replicate n "0"%char)).
Proof. intros c. rewrite chars_of_chars. by intros [-> _]%elem_of_replicate. Qed.
Lemma all_digits_firstn s n : all_digits s → all_digits (of_chars (firstn n (chars s))).
Proof. intros Hs c. rewrite chars_of_chars. intros Hc. apply Hs. rewrite <- (firstn_skipn n (chars s)). set_solver. Qed.
Lemma all_digits_skipn s n : all_digits s → all_digits (of_chars (skipn n (chars s))).
Proof. intros Hs c. rewrite chars_of_chars. intros Hc. apply Hs. rewrite <- (firstn_skipn n (chars s)). set_solver. Qed.
Lemma all_digits_forallb s : all_digits s → forallb is_digit (chars s) = true.
Proof. intros Hs. apply forallb_forall. intros c Hc%list_elem_of_In. auto. Qed.

Lemma parse_digits_zeros n s :
  parse_digits (of_chars (replicate n "0"%char) +:+ s) = parse_digits s.
Proof.
  unfold parse_digits. rewrite chars_app, chars_of_chars, fold_left_app. f_equal.
  induction n as [|n IH]; [done|]. cbn [replicate fold_left]. exact IH.
Qed.

(** A separator that is not a digit does not occur among digits. *)
Lemma split1_none sep s : (∀ c, c ∈ chars s → c ≠ sep) → split1 sep s = (s, None).
Proof.
  induction s as [|c s IH]; intros Hs; [done|]. cbn.
  destruct (Ascii.eqb_spec c sep) as [->|_]; [exfalso; by apply (Hs sep); set_solver|].
  rewrite IH; [done|]. intros c' Hc'. apply Hs. cbn. set_solver.
Qed.
Lemma split1_some sep s t : (∀ c, c ∈ chars s → c ≠ sep) → split1 sep (s +:+ String sep t) = (s, Some t).
Proof.
  induction s as [|c s IH]; intros Hs.
  - change (split1 sep (String sep t) = ("", Some t)). cbn. destruct (Ascii.eqb_spec sep sep); [done|congruence].
  - change (split1 sep (String c (s +:+ String sep t)) = (String c s, Some t)). cbn.
    destruct (Ascii.eqb_spec c sep) as [->|_]; [exfalso; by apply (Hs sep); set_solver|].
    rewrite IH; [done|]. intros c' Hc'. apply Hs. cbn. set_solver.
Qed.
Lemma digits_no s sep : all_digits s → is_digit sep = false → ∀ c, c ∈ chars s → c ≠ sep.
Proof. intros Hs Hsep c Hc ->. by rewrite Hs in Hsep. Qed.

(** ** Decimals *)

Definition exponent_text (x : Z) : string := (if x <? 0 then "-" else "+") +:+ digits (Z.abs x).
Definition decimal_text (neg : bool) (int : string) (frac : option string) (exp : option Z) : string :=
  (if neg then "-" else "") +:+ (int +:+ match frac with Some f => "." +:+ f | None => "" end)
  +:+ match exp with Some x => "E" +:+ exponent_text x | None => "" end.

Lemma read_unsigned_digits s : all_digits s → s ≠ "" → read_unsigned s = Some (parse_digits s).
Proof.
  intros Hs Hne. unfold read_unsigned. apply nonempty_true in Hne as ->. by rewrite all_digits_forallb.
Qed.

Lemma read_exponent_text x : read_exponent (Some (exponent_text x)) = Some x.
Proof.
  unfold exponent_text, read_exponent.
  pose proof (all_digits_digits (Z.abs x) ltac:(lia)) as Hd. pose proof (digits_nonempty (Z.abs x)) as Hn.
  destruct (Z.ltb_spec x 0); rewrite chars_app; cbn; rewrite of_chars_chars, read_unsigned_digits by done; cbn;
    rewrite parse_digits_digits by lia; f_equal; lia.
Qed.

Lemma read_decimal_text neg int frac exp : all_digits int → int ≠ "" →
  all_digits (default "" frac) →
  read_decimal (decimal_text neg int frac exp)
  = Some (Dec neg (parse_digits (int +:+ default "" frac)) (default 0 exp - len (default "" frac))).
Proof.
  intros Hi Hne Hf. unfold read_decimal, decimal_text.
  set (body := int +:+ match frac with Some f => "." +:+ f | None => "" end).
  set (tail := match exp with Some x => "E" +:+ exponent_text x | None => "" end).
  assert (∃ c s, int = String c s ∧ is_digit c = true) as (c & s & Hc & Hdc).
  { destruct int as [|c s]; [done|]. exists c, s. split; [done|]. apply Hi. cbn. set_solver. }
  assert (match chars ((if neg then "-" else "") +:+ body +:+ tail) with
          | c :: r => if Ascii.eqb c "-" then (true, of_chars r)
                      else if Ascii.eqb c "+" then (false, of_chars r)
                      else (false, (if neg then "-" else "") +:+ body +:+ tail)
          | [] => (false, (if neg then "-" else "") +:+ body +:+ tail)
          end = (neg, body +:+ tail)) as ->.
  { destruct neg; rewrite chars_app; cbn [chars app]; [by rewrite of_chars_chars|].
    subst body. rewrite Hc, !chars_app. cbn [chars app].
    destruct (Ascii.eqb_spec c "-") as [->|_]; [done|]. by destruct (Ascii.eqb_spec c "+") as [->|_]. }
  assert (split1 "E" (body +:+ tail) = (body, (λ x, exponent_text x) <$> exp)) as ->.
  { assert (∀ c, c ∈ chars body → c ≠ "E"%char) as Hb.
    { intros c'. subst body. rewrite chars_app, elem_of_app. intros [H|H]; [by apply (digits_no int)|].
      destruct frac as [f|]; [rewrite chars_app in H; cbn in H|set_solver]. apply elem_of_cons in H as [->|H]; [done|].
      by apply (digits_no f). }
    subst tail. destruct exp as [x|]; cbn [fmap option_fmap option_map].
    - by apply split1_some.
    - rewrite split1_none; [|by rewrite chars_app, app_nil_r]. f_equal. apply chars_inj. by rewrite chars_app, app_nil_r. }
  assert (split1 "." body = (int, frac)) as ->.
  { assert (∀ c, c ∈ chars int → c ≠ "."%char) as Hb by by apply digits_no.
    subst body. destruct frac as [f|]; [by apply split1_some|].
    rewrite split1_none; [|by rewrite chars_app, app_nil_r]. f_equal. apply chars_inj. by rewrite chars_app, app_nil_r. }
  assert (read_exponent ((λ x, exponent_text x) <$> exp) = Some (default 0 exp)) as ->.
  { destruct exp as [x|]; [apply read_exponent_text|done]. }
  cbn [mbind option_bind]. rewrite all_digits_forallb by (by apply all_digits_app).
  assert (nonempty (int +:+ default "" frac) = true) as -> by (by rewrite Hc). done.
Qed.

Lemma len_chars s : len s = Z.of_nat (length (chars s)).
Proof. unfold len. by rewrite length_chars. Qed.
Lemma len_of_chars l : len (of_chars l) = Z.of_nat (length l).
Proof. by rewrite len_chars, chars_of_chars. Qed.
Lemma len_app s t : len (s +:+ t) = len s + len t.
Proof. rewrite !len_chars, chars_app, length_app. lia. Qed.
Lemma len_pos s : s ≠ "" → 0 < len s.
Proof. destruct s; [done|]. intros _. unfold len. cbn. lia. Qed.
Lemma append_nil_r s : s +:+ "" = s.
Proof. apply chars_inj. by rewrite chars_app, app_nil_r. Qed.

(** A text split at a place inside it. *)
Lemma split_at (s : string) (k : nat) : of_chars (firstn k (chars s)) +:+ of_chars (skipn k (chars s)) = s.
Proof. apply chars_inj. by rewrite chars_app, !chars_of_chars, firstn_skipn. Qed.
Lemma len_skipn s k : 0 <= k <= len s → len (of_chars (skipn (Z.to_nat k) (chars s))) = len s - k.
Proof. intros Hk. rewrite len_of_chars, length_skipn, len_chars in *. lia. Qed.
Lemma firstn_nonempty s k : s ≠ "" → 0 < k → of_chars (firstn (Z.to_nat k) (chars s)) ≠ "".
Proof.
  intros Hs Hk H. apply (f_equal chars) in H. rewrite chars_of_chars in H.
  destruct s as [|c s]; [done|]. cbn in H. by destruct (Z.to_nat k) eqn:E; [lia|].
Qed.

(** The layouts of [dec_str]: the text, and what it says of coefficient and exponent. *)
Lemma dec_str_text d : dec_wf d → ∃ int frac exp,
  dec_str d = decimal_text (dec_neg d) int frac exp ∧ all_digits int ∧ int ≠ "" ∧
  all_digits (default "" frac) ∧ parse_digits (int +:+ default "" frac) = dec_coeff d ∧
  default 0 exp - len (default "" frac) = dec_exp d.
Proof.
  unfold dec_wf, dec_str. intros Hc. set (int := digits (dec_coeff d)).
  pose proof (all_digits_digits _ Hc) as Hd. pose proof (digits_nonempty (dec_coeff d)) as Hn.
  pose proof (parse_digits_digits _ Hc) as Hp. fold int in Hd, Hn, Hp. pose proof (len_pos _ Hn) as Hl.
  set (left := dec_exp d + len int).
  set (place := if (dec_exp d <=? 0) && (-6 <? left) then left else 1).
  exists (if place <=? 0 then "0"
          else if len int <=? place then int +:+ of_chars (replicate (Z.to_nat (place - len int)) "0"%char)
          else of_chars (firstn (Z.to_nat place) (chars int))).
  exists (if place <=? 0 then Some (of_chars (replicate (Z.to_nat (- place)) "0"%char) +:+ int)
          else if len int <=? place then None
          else Some (of_chars (skipn (Z.to_nat place) (chars int)))).
  exists (if left - place =? 0 then None else Some (left - place)).
  unfold decimal_text, exponent_text.
  assert (place ≤ 0 ∨ len int <= place → place = left ∨ (place = 1 ∧ len int = 1)) as Hplace.
  { subst place left. destruct (Z.leb_spec (dec_exp d) 0), (Z.ltb_spec (-6) (dec_exp d + len int)); cbn; lia. }
  assert (len int <= place → place = len int) as Hfull.
  { subst place left. destruct (Z.leb_spec (dec_exp d) 0), (Z.ltb_spec (-6) (dec_exp d + len int)); cbn; lia. }
  assert (default 0 (if left - place =? 0 then None else Some (left - place)) = left - place) as ->.
  { destruct (Z.eqb_spec (left - place) 0); cbn; lia. }
  split; [|].
  { rewrite append_assoc. f_equal. destruct (left - place =? 0); destruct (place <=? 0); try done;
      destruct (len int <=? place); by rewrite ?append_nil_r. }
  destruct (Z.leb_spec place 0).
  - cbn [default from_option id]. split; [intros c; cbn; set_solver|]. split; [done|].
    split; [apply all_digits_app; [apply all_digits_zeros|done]|].
    split; [change ("0" +:+ ?x) with (of_chars (replicate 1 "0"%char) +:+ x); by rewrite !parse_digits_zeros|].
    rewrite len_app, len_of_chars, length_replicate. subst left. lia.
  - destruct (Z.leb_spec (len int) place).
    + rewrite Hfull, Z.sub_diag by done. cbn [default from_option id].
      change (of_chars (replicate (Z.to_nat 0) "0"%char)) with "". change (len "") with 0.
      rewrite !append_nil_r. split_and!; try done; [intros c; cbn; set_solver|subst left; lia].
    + cbn [default from_option id]. rewrite split_at, len_skipn by lia.
      repeat split; [by apply all_digits_firstn|by apply firstn_nonempty|by apply all_digits_skipn|done|subst left; lia].
Qed.

(** [Decimal(str(d)) == d], sign, coefficient and exponent included. *)
Lemma Decimal_of_str_str d : dec_wf d → Decimal_of_str (dec_str d) = Ok d.
Proof.
  intros Hd. destruct (dec_str_text d Hd) as (int & frac & exp & -> & Hi & Hn & Hf & Hp & He).
  unfold Decimal_of_str. rewrite read_decimal_text, Hp, He by done. by destruct d.
Qed.

(** ** Integers *)

Lemma strip_left_solid c l : is_space c = false → strip_left (c :: l) = c :: l.
Proof. intros Hc. cbn. by rewrite Hc. Qed.
Lemma digit_solid c : is_digit c = true → is_space c = false.
Proof. destruct c as [[] [] [] [] [] [] [] []]; done. Qed.

Lemma strip_solid l : (∀ c, c ∈ l → is_space c = false) → strip l = l.
Proof.
  intros Hl. unfold strip. destruct l as [|c l]; [done|]. rewrite strip_left_solid by (apply Hl; set_solver).
  destruct (rev (c :: l)) as [|c' l'] eqn:E.
  - apply (f_equal (@rev ascii)) in E. rewrite rev_involutive in E. done.
  - rewrite strip_left_solid, <- E; [by rewrite rev_involutive|]. apply Hl. apply list_elem_of_In, in_rev.
    rewrite E. apply list_elem_of_In. set_solver.
Qed.

Lemma int_groups_digits s : all_digits s → s ≠ "" → int_groups (chars s) = Some (parse_digits s).
Proof.
  intros Hs Hn. unfold int_groups. rewrite of_chars_chars.
  assert (split "_" s = [s]) as ->.
  { unfold split. assert (∀ cur l, (∀ c, c ∈ l → c ≠ "_"%char) → split_chars "_" cur l = [rev cur ++ l]) as Hsp.
    { intros cur l. revert cur. induction l as [|c l IH]; intros cur Hl; cbn; [by rewrite app_nil_r|].
      destruct (Ascii.eqb_spec c "_") as [->|_]; [exfalso; apply (Hl "_"%char); set_solver|].
      rewrite IH by set_solver. cbn. by rewrite <- app_assoc. }
    rewrite Hsp by by apply digits_no. cbn. by rewrite of_chars_chars. }
  cbn. apply nonempty_true in Hn as ->. by rewrite all_digits_forallb.
Qed.

(** [int(str(n)) == n]. *)
Lemma int_of_str_str n : int_of_str (str_Z n) = Ok n.
Proof.
  unfold int_of_str, read_int.
  assert (∀ m, 0 <= m → ∃ c s, digits m = String c s ∧ is_digit c = true) as Hcons.
  { intros m Hm. pose proof (digits_nonempty m). pose proof (all_digits_digits m Hm) as Hd.
    destruct (digits m) as [|c s]; [done|]. exists c, s. split; [done|]. apply Hd. cbn. set_solver. }
  unfold str_Z. destruct (Z.ltb_spec n 0) as [Hneg|Hpos]; rewrite strip_solid.
  - cbn. rewrite int_groups_digits; [cbn; rewrite parse_digits_digits; [do 2 f_equal; lia|lia]| |apply digits_nonempty].
    apply all_digits_digits. lia.
  - intros c. cbn. intros [->|Hc]%elem_of_cons; [done|]. eapply digit_solid, all_digits_digits; [|exact Hc]. lia.
  - destruct (Hcons n Hpos) as (c & s & E & Hc). rewrite E. cbn.
    destruct (Ascii.eqb_spec c "-") as [->|_]; [done|]. destruct (Ascii.eqb_spec c "+") as [->|_]; [done|].
    change (c :: chars s) with (chars (String c s)). rewrite <- E, int_groups_digits; [|by apply all_digits_digits|apply digits_nonempty].
    by rewrite parse_digits_digits.
  - intros c Hc. eapply digit_solid, all_digits_digits; [|exact Hc]. lia.
Qed.
