(* ===== verification/Research.v ===== *)
(** Causal research observations ([domain/research.py] and
    [application/research_observations.py]): the join of projected bars with their
    canonical events, the identity of a dataset of bar revisions, and the
    measured availability and revision delays. *)

From S2P Require Import Prelude PySorted PyStr PyTime PyDecimal Sha256 PyJson PyParse Domain Storage Bars EventStore Ingestion PyFloat PyText.
From Stdlib Require Import Ascii.

Definition OBSERVATION_DATASET_CONTRACT : string := "qtrad-research-observations-v1".
Definition OBSERVATION_SCHEMA_VERSION : Z := 1.

(** ** Rows *)

Record ProjectedBar : Type := mkProjected { pb_bar : MarketBar; pb_global_position : Z }.

Definition ProjectedBar_post_init (p : ProjectedBar) : res unit :=
  raise_if (pb_global_position p <=? 0) (ValueError "projected bar global position must be positive").

Record ObservationCandidate : Type := mkCandidate {
  oc_projection : ProjectedBar; oc_event : option EventEnvelope }.

Record ObservationRow : Type := mkObservation {
  ob_event_id : UUID;
  ob_stream_id : string;
  ob_stream_version : Z;
  ob_event_type : string;
  ob_event_time : datetime;
  ob_received_at : datetime;
  ob_persisted_at : datetime;
  ob_global_position : Z;
  ob_instrument_id : string;
  ob_basis : PriceBasis;
  ob_interval_start : datetime;
  ob_interval_end : datetime;
  ob_open : Decimal;
  ob_high : Decimal;
  ob_low : Decimal;
  ob_close : Decimal;
  ob_sample_count : Z;
  ob_revision : Z;
  ob_provenance : BarProvenance;
  ob_quality : DataQuality;
  ob_source_provider : string;
  ob_source_environment : string;
  ob_source_external_id : string }.

Definition bar_event_type (revision : Z) : string :=
  if revision =? 1 then "MarketBarClosed" else "MarketBarCorrected".
Definition bar_stream_id (instrument_id : string) (basis : PriceBasis) : string :=
  "market-bar:" +:+ instrument_id +:+ ":" +:+ PriceBasis_str basis.

Definition ObservationRow_post_init (r : ObservationRow) : res unit :=
  require_utc (ob_event_time r) "observation event_time";;
  require_utc (ob_received_at r) "observation received_at";;
  require_utc (ob_persisted_at r) "observation persisted_at";;
  require_utc (ob_interval_start r) "observation interval_start";;
  require_utc (ob_interval_end r) "observation interval_end";;
  raise_if (ob_global_position r <=? 0) (ValueError "observation global position must be positive");;
  raise_if ((ob_stream_version r <=? 0) || (ob_revision r <=? 0) || (ob_sample_count r <=? 0))
           (ValueError "observation lineage and bar counts must be positive");;
  raise_if (negb (nonempty (ob_instrument_id r)) || negb (nonempty (ob_stream_id r)))
           (ValueError "observation identity must be non-empty");;
  raise_if (dt_leb (ob_interval_end r) (ob_interval_start r))
           (ValueError "observation interval must be positive");;
  raise_if (negb (String.eqb (ob_event_type r) (bar_event_type (ob_revision r))))
           (ValueError "observation event type does not match its bar revision");;
  raise_if (negb (String.eqb (ob_stream_id r) (bar_stream_id (ob_instrument_id r) (ob_basis r))))
           (ValueError "observation stream identity does not match its bar").

Definition ObservationRow_new (r : ObservationRow) : res ObservationRow :=
  ObservationRow_post_init r;; Ok r.

Definition availability_delay (r : ObservationRow) : timedelta :=
  dt_diff (ob_persisted_at r) (ob_interval_end r).

(** Times enter keys by their instant, by which aware datetimes compare and hash. *)
Definition semantic_key (r : ObservationRow) : string * string * Z * string * string * string * Z * Z :=
  (ob_instrument_id r, PriceBasis_str (ob_basis r), instant (ob_interval_start r),
   ob_source_provider r, ob_source_environment r, ob_source_external_id r,
   ob_stream_version r, ob_global_position r).
Definition revision_key (r : ObservationRow) : string * PriceBasis * Z * string * string * string * Z :=
  (ob_instrument_id r, ob_basis r, instant (ob_interval_start r),
   ob_source_provider r, ob_source_environment r, ob_source_external_id r, ob_revision r).

Definition ObservationRow_as_json (r : ObservationRow) : json :=
  JObj [("event_id", JStr (uuid_text (ob_event_id r)));
        ("stream_id", JStr (ob_stream_id r));
        ("stream_version", JInt (ob_stream_version r));
        ("event_type", JStr (ob_event_type r));
        ("event_time", JStr (isoformat (ob_event_time r)));
        ("received_at", JStr (isoformat (ob_received_at r)));
        ("persisted_at", JStr (isoformat (ob_persisted_at r)));
        ("global_position", JInt (ob_global_position r));
        ("instrument_id", JStr (ob_instrument_id r));
        ("basis", JStr (PriceBasis_str (ob_basis r)));
        ("interval_start", JStr (isoformat (ob_interval_start r)));
        ("interval_end", JStr (isoformat (ob_interval_end r)));
        ("open", JStr (dec_str (ob_open r)));
        ("high", JStr (dec_str (ob_high r)));
        ("low", JStr (dec_str (ob_low r)));
        ("close", JStr (dec_str (ob_close r)));
        ("sample_count", JInt (ob_sample_count r));
        ("revision", JInt (ob_revision r));
        ("provenance", JStr (BarProvenance_str (ob_provenance r)));
        ("quality", JStr (DataQuality_str (ob_quality r)));
        ("source_provider", JStr (ob_source_provider r));
        ("source_environment", JStr (ob_source_environment r));
        ("source_external_id", JStr (ob_source_external_id r))].

(** ** Validation of a sequence of rows *)

Definition interval_key (r : ObservationRow) : string * PriceBasis * Z * Z * string * string * string :=
  (ob_instrument_id r, ob_basis r, instant (ob_interval_start r), instant (ob_interval_end r),
   ob_source_provider r, ob_source_environment r, ob_source_external_id r).

Notation revision_sets := (gmap (string * PriceBasis * Z * Z * string * string * string) (gset Z)).
Definition add_revision (m : revision_sets) (r : ObservationRow) : revision_sets :=
  <[interval_key r := default ∅ (m !! interval_key r) ∪ {[ob_revision r]}]> m.
Definition revisions_by_interval (rows : list ObservationRow) : revision_sets := fold_left add_revision rows ∅.

(** [set(range(1, n + 1))] *)
Definition range1 (n : Z) : gset Z := list_to_set (seqZ 1 n).
Definition max_in (s : gset Z) : Z := foldr Z.max 0 (elements s).

Definition _require_contiguous_revisions (rows : list ObservationRow) : res unit :=
  raise_if (existsb (λ kv, negb (bool_decide (kv.2 = range1 (max_in kv.2))))
                    (map_to_list (revisions_by_interval rows)))
           (ValueError "observation interval has missing intermediate revisions").

Record row_scan : Type := mkScan {
  sc_previous : option (string * string * Z * string * string * string * Z * Z);
  sc_semantic : list (string * string * Z * string * string * string * Z * Z);
  sc_revision : list (string * PriceBasis * Z * string * string * string * Z);
  sc_stream : list (string * Z) }.

Definition scan_row (s : row_scan) (row : ObservationRow) : res row_scan :=
  raise_if match sc_previous s with Some p => pylt (semantic_key row) p | None => false end
           (ValueError "observation rows must use canonical semantic ordering");;
  raise_if (bool_decide (semantic_key row ∈ sc_semantic s))
           (ValueError "observation rows must have unique semantic keys");;
  raise_if (bool_decide (revision_key row ∈ sc_revision s))
           (ValueError "observation rows must have unique source revision lineage");;
  raise_if (bool_decide ((ob_stream_id row, ob_stream_version row) ∈ sc_stream s))
           (ValueError "observation rows must have unique canonical stream versions");;
  Ok (mkScan (Some (semantic_key row)) (semantic_key row :: sc_semantic s)
        (revision_key row :: sc_revision s) ((ob_stream_id row, ob_stream_version row) :: sc_stream s)).

Definition _validate_observation_rows (rows : list ObservationRow) : res unit :=
  for_each scan_row (mkScan None [] [] []) rows;;
  _require_contiguous_revisions rows.

(** ** Datasets *)

(** The bytes hashed row by row: the chunks of [_observation_dataset_chunks]. *)
Definition rows_chunks (texts : list string) : list string :=
  imap (λ i t, (if Nat.eqb i 0 then "" else ",") +:+ t) texts.
Definition json_chunk (name : string) (value : json) : list string := [name; dumps value].

Definition _observation_dataset_chunks (rows : list ObservationRow) (configuration : json)
    (source_dataset_ids : list string) (selection_policies : json) : list string :=
  ["{" +:+ json_str "configuration" +:+ ":"; dumps configuration;
   "," +:+ json_str "contract" +:+ ":"; dumps (JStr OBSERVATION_DATASET_CONTRACT);
   "," +:+ json_str "rows" +:+ ":["]
  ++ rows_chunks (map (λ r, dumps (ObservationRow_as_json r)) rows)
  ++ ["]," +:+ json_str "schema_version" +:+ ":"; dumps (JInt OBSERVATION_SCHEMA_VERSION);
      "," +:+ json_str "selection_policies" +:+ ":"; dumps selection_policies;
      "," +:+ json_str "source_dataset_ids" +:+ ":"; dumps (JList (map JStr source_dataset_ids)); "}"].

(** [digest.update] of each chunk, then [hexdigest]. *)
Definition digest_chunks (chunks : list string) : string := sha256_hex (join "" chunks).

Definition _observation_dataset_identity rows configuration source_dataset_ids selection_policies : string :=
  digest_chunks (_observation_dataset_chunks rows configuration source_dataset_ids selection_policies).

Definition observation_dataset_id (rows : list ObservationRow) configuration source_dataset_ids selection_policies :=
  _observation_dataset_identity (py_sorted semantic_key rows) configuration source_dataset_ids selection_policies.

Record ObservationDataset : Type := mkDataset {
  od_rows : list ObservationRow;
  od_configuration : list (string * json);
  od_source_dataset_ids : list string;
  od_selection_policies : list (string * json);
  od_dataset_id : string }.

(** [__post_init__]; [verified] tells that the caller passed the module's token. *)
Definition ObservationDataset_post_init (d : ObservationDataset) (verified : bool) : res unit :=
  if verified then Ok tt
  else
    _validate_observation_rows (od_rows d);;
    raise_if (negb (String.eqb (od_dataset_id d)
                (_observation_dataset_identity (od_rows d) (JObj (od_configuration d))
                   (od_source_dataset_ids d) (JObj (od_selection_policies d)))))
             (ValueError "observation dataset ID does not match its semantic content").

Definition ObservationDataset_create (rows : list ObservationRow) (configuration : list (string * json))
    (source_dataset_ids : list string) (selection_policies : option (list (string * json)))
    : res ObservationDataset :=
  let ordered := py_sorted semantic_key rows in
  let policies := default [] selection_policies in
  _validate_observation_rows ordered;;
  let d := mkDataset ordered configuration source_dataset_ids policies
             (_observation_dataset_identity ordered (JObj configuration) source_dataset_ids (JObj policies)) in
  ObservationDataset_post_init d true;; Ok d.

(** ** Joining projections to canonical events *)

(** Looking a member of a [StrEnum] up by its value. *)
Definition enum_of {A} (members : list A) (str : A → string) (class s : string) : res A :=
  match List.find (λ a, String.eqb (str a) s) members with
  | Some a => Ok a
  | None => Raise (ValueError ("'" +:+ s +:+ "' is not a valid " +:+ class))
  end.
Definition PriceBasis_of_str := enum_of [BID; ASK; MID] PriceBasis_str "PriceBasis".
Definition BarProvenance_of_str :=
  enum_of [QUOTE_DERIVED; IG_HISTORICAL; IBKR_HISTORICAL] BarProvenance_str "BarProvenance".
Definition DataQuality_of_str :=
  enum_of [HEALTHY; DELAYED; STALE; GAPPED; PARTIAL; QUARANTINED] DataQuality_str "DataQuality".

Definition _datetime (value : string) : res datetime :=
  parsed ← fromisoformat (replace "Z" "+00:00" value);
  require_utc parsed "canonical bar payload timestamp".

Definition _market_bar_from_payload (payload : list (string * json)) : res MarketBar :=
  source ← dict_item "source_listing_id" payload;
  match source with
  | JObj source =>
      instrument_id ← str_item "instrument_id" payload;
      InstrumentId_post_init instrument_id;;
      basis ← (s ← str_item "basis" payload; PriceBasis_of_str s);
      interval_start ← (s ← str_item "interval_start" payload; _datetime s);
      interval_end ← (s ← str_item "interval_end" payload; _datetime s);
      open ← (s ← str_item "open" payload; Decimal_of_str s);
      high ← (s ← str_item "high" payload; Decimal_of_str s);
      low ← (s ← str_item "low" payload; Decimal_of_str s);
      close ← (s ← str_item "close" payload; Decimal_of_str s);
      sample_count ← (s ← str_item "sample_count" payload; int_of_str s);
      revision ← (s ← str_item "revision" payload; int_of_str s);
      provenance ← (s ← str_item "provenance" payload; BarProvenance_of_str s);
      quality ← (s ← str_item "quality" payload; DataQuality_of_str s);
      provider ← str_item "provider" source;
      environment ← str_item "environment" source;
      external_id ← str_item "external_id" source;
      ProviderListingId_post_init (mkListing provider environment external_id);;
      MarketBar_new (mkBar instrument_id basis interval_start interval_end open high low close
                       sample_count revision provenance (mkListing provider environment external_id) quality)
  | _ => Raise (ValueError "canonical bar payload source listing is malformed")
  end.

#[export] Instance BarProvenance_eq_dec : EqDecision BarProvenance.
Proof. solve_decision. Defined.

(** Equality of the tuples of [_bar_identity]: decimals by value, times by instant. *)
Definition bar_identity_eqb (a b : MarketBar) : bool :=
  String.eqb (b_instrument_id a) (b_instrument_id b)
  && bool_decide (b_basis a = b_basis b)
  && dt_eqb (b_interval_start a) (b_interval_start b)
  && dt_eqb (b_interval_end a) (b_interval_end b)
  && dec_eqb (b_open a) (b_open b) && dec_eqb (b_high a) (b_high b)
  && dec_eqb (b_low a) (b_low b) && dec_eqb (b_close a) (b_close b)
  && (b_sample_count a =? b_sample_count b) && (b_revision a =? b_revision b)
  && bool_decide (b_provenance a = b_provenance b)
  && bool_decide (b_quality a = b_quality b)
  && bool_decide (b_source_listing_id a = b_source_listing_id b).

(** One candidate, after the check that its position is new. *)
Definition observation_row (candidate : ObservationCandidate) : res ObservationRow :=
  let projection := oc_projection candidate in
  let bar := pb_bar projection in
  raise_if (negb (bool_decide (b_provenance bar = QUOTE_DERIVED)))
           (ValueError "research observations accept only QUOTE_DERIVED bars");;
  match oc_event candidate with
  | None => Raise (ValueError ("projection has no canonical event at global position "
                               +:+ str_Z (pb_global_position projection)))
  | Some event =>
      raise_if (negb (bool_decide (ev_global_position event = Some (pb_global_position projection))))
               (ValueError "projection and canonical event global positions do not match");;
      raise_if (negb (bool_decide (ev_event_type event ∈ ["MarketBarClosed"; "MarketBarCorrected"])))
               (ValueError "projection is linked to a non-bar canonical event");;
      match ev_persisted_time event with
      | None => Raise (ValueError "canonical bar event is not persisted")
      | Some persisted =>
          raise_if (negb (dt_eqb (ev_event_time event) (b_interval_end bar)))
                   (ValueError "canonical bar event time does not match the bar interval end");;
          raise_if (negb (String.eqb (ev_event_type event) (bar_event_type (b_revision bar))))
                   (ValueError "canonical event type does not match the bar revision");;
          raise_if (negb (String.eqb (ev_stream_id event) (bar_stream_id (b_instrument_id bar) (b_basis bar))))
                   (ValueError "canonical bar event has an unexpected stream identity");;
          payload_bar ← _market_bar_from_payload (ev_payload event);
          raise_if (negb (bar_identity_eqb payload_bar bar))
                   (ValueError "projection bar does not match its canonical event payload");;
          let source := b_source_listing_id bar in
          ObservationRow_new
            (mkObservation (ev_event_id event) (ev_stream_id event) (ev_stream_version event)
               (ev_event_type event) (ev_event_time event) (ev_received_time event) persisted
               (pb_global_position projection) (b_instrument_id bar) (b_basis bar)
               (b_interval_start bar) (b_interval_end bar) (b_open bar) (b_high bar) (b_low bar)
               (b_close bar) (b_sample_count bar) (b_revision bar) (b_provenance bar) (b_quality bar)
               (pl_provider source) (pl_environment source) (pl_external_id source))
      end
  end.

(** The loop state: positions seen, newest first, and rows built, newest first. *)
Definition observe_candidate (st : list Z * list ObservationRow) (candidate : ObservationCandidate)
    : res (list Z * list ObservationRow) :=
  let position := pb_global_position (oc_projection candidate) in
  raise_if (bool_decide (position ∈ st.1))
           (ValueError ("multiple projection rows use canonical global position " +:+ str_Z position));;
  row ← observation_row candidate;
  Ok (position :: st.1, row :: st.2).

Definition build_observation_rows (candidates : list ObservationCandidate) : res (list ObservationRow) :=
  st ← for_each observe_candidate ([], []) candidates;
  Ok (py_sorted semantic_key (rev st.2)).

Definition build_observation_dataset (candidates : list ObservationCandidate) configuration
    source_dataset_ids selection_policies : res ObservationDataset :=
  rows ← build_observation_rows candidates;
  ObservationDataset_create rows configuration source_dataset_ids selection_policies.

(** ** Measured delays *)

(** [timedelta(seconds=x)] for a float: whole seconds exactly, the fraction times a
    million rounded to binary64, and the sum to whole microseconds, half to even. *)
Definition timedelta_of_seconds (x : pyfloat) : option timedelta :=
  '(n, d) ← float_fraction x;
  let whole := Z.quot n d in
  '(a, b) ← float_fraction (f_mul (float_ratio (n - whole * d) d) (float_of_Z 1000000));
  let total := whole * 1000000 * b + a in
  Some (half_even (total / b) (total mod b) b).

Definition seconds_of (f : option timedelta) : res timedelta :=
  match f with Some d => Ok d | None => Raise (ValueError "cannot convert float to integer") end.

Definition f_one : pyfloat := float_of_Z 1.
Definition unit_interval (p : pyfloat) : bool := f_leb f_zero p && f_leb p f_one.

Definition _percentile_seconds (values : list timedelta) (percentile : pyfloat) : res pyfloat :=
  raise_if (Nat.eqb (length values) 0)
           (ValueError "cannot calculate availability percentiles without eligible rows");;
  raise_if (negb (unit_interval percentile))
           (ValueError "availability percentile must be between zero and one");;
  let last := Z.of_nat (length values) - 1 in
  let position := f_mul (float_of_Z last) percentile in
  let lower := default 0 (f_int position) in
  let upper := Z.min (lower + 1) last in
  let fraction := f_sub position (float_of_Z lower) in
  let at_ i := total_seconds (nth (Z.to_nat i) values 0) in
  Ok (f_add (at_ lower) (f_mul (f_sub (at_ upper) (at_ lower)) fraction)).

Definition _ceil_duration (value unit_ : timedelta) : timedelta :=
  unit_ * default 0 (f_ceil (f_div (total_seconds value) (total_seconds unit_))).

Record AvailabilityDelayReport : Type := mkAvailability {
  ad_calibration_start : datetime;
  ad_calibration_end : datetime;
  ad_eligible_row_count : Z;
  ad_excluded_row_count : Z;
  ad_delay_percentiles : gmap string pyfloat;
  ad_maximum_delay : option timedelta;
  ad_configured_percentile : pyfloat;
  ad_safety_margin : timedelta;
  ad_selected_lag : timedelta }.

Definition AvailabilityDelayReport_post_init (r : AvailabilityDelayReport) : res unit :=
  require_utc (ad_calibration_start r) "availability calibration_start";;
  require_utc (ad_calibration_end r) "availability calibration_end";;
  raise_if (dt_leb (ad_calibration_end r) (ad_calibration_start r))
           (ValueError "availability calibration interval must be positive");;
  raise_if ((ad_eligible_row_count r <? 0) || (ad_excluded_row_count r <? 0))
           (ValueError "availability row counts must not be negative");;
  raise_if (negb (unit_interval (ad_configured_percentile r)))
           (ValueError "availability percentile must be between zero and one");;
  raise_if ((ad_safety_margin r <? 0) || (ad_selected_lag r <? 0))
           (ValueError "availability durations must not be negative").

Definition in_window (start end_ : datetime) (r : ObservationRow) : bool :=
  dt_leb start (ob_interval_end r) && dt_ltb (ob_interval_end r) end_.
Definition bar_key (r : ObservationRow) : string * PriceBasis * Z * Z :=
  (ob_instrument_id r, ob_basis r, instant (ob_interval_start r), instant (ob_interval_end r)).

Definition initial_eligible (r : ObservationRow) : bool :=
  negb (negb (bool_decide (ob_provenance r = QUOTE_DERIVED))
        || negb (String.eqb (ob_event_type r) "MarketBarClosed")
        || negb (ob_revision r =? 1) || dt_ltb (ob_persisted_at r) (ob_interval_end r)).

Definition initial_delay (m : gmap (string * PriceBasis * Z * Z) timedelta) (r : ObservationRow) :=
  if initial_eligible r then
    match m !! bar_key r with
    | Some previous => if availability_delay r <? previous then <[bar_key r := availability_delay r]> m else m
    | None => <[bar_key r := availability_delay r]> m
    end
  else m.

Definition percentile_map (values : list timedelta) (percentiles : list pyfloat) : res (gmap string pyfloat) :=
  for_each (λ m p, v ← _percentile_seconds values p; Ok (<[float_repr p := v]> m)) ∅ percentiles.

(** [max(values, default=None)] *)
Definition maximum (values : list timedelta) : option timedelta :=
  match values with [] => None | x :: l => Some (fold_left Z.max l x) end.

Definition standard_percentiles : list pyfloat := [float_ratio 1 2; float_ratio 9 10; float_ratio 95 100].

Definition build_availability_delay_report (rows : list ObservationRow)
    (calibration_start calibration_end : datetime) (configured_percentile : pyfloat)
    (safety_margin grid_resolution : timedelta) : res AvailabilityDelayReport :=
  require_utc calibration_start "availability calibration_start";;
  require_utc calibration_end "availability calibration_end";;
  raise_if (dt_leb calibration_end calibration_start)
           (ValueError "availability calibration interval must be positive");;
  raise_if (grid_resolution <=? 0) (ValueError "availability grid resolution must be positive");;
  raise_if (negb (unit_interval configured_percentile))
           (ValueError "availability percentile must be between zero and one");;
  raise_if (safety_margin <? 0) (ValueError "availability safety margin must not be negative");;
  let in_calibration := List.filter (in_window calibration_start calibration_end) rows in
  let interval_keys : gset (string * PriceBasis * Z * Z) := list_to_set (map bar_key in_calibration) in
  let initial_by_interval := fold_left initial_delay in_calibration ∅ in
  let eligible := map snd (map_to_list initial_by_interval) in
  let excluded := Z.of_nat (size interval_keys) - Z.of_nat (length eligible) in
  let ordered := py_sorted id eligible in
  percentiles ← percentile_map ordered (standard_percentiles ++ [configured_percentile; f_one]);
  selected_base ← seconds_of (timedelta_of_seconds
                    (f_add (default f_zero (percentiles !! float_repr configured_percentile))
                           (total_seconds safety_margin)));
  let report := mkAvailability calibration_start calibration_end (Z.of_nat (length eligible)) excluded
                  percentiles (maximum eligible) configured_percentile safety_margin
                  (_ceil_duration selected_base grid_resolution) in
  AvailabilityDelayReport_post_init report;; Ok report.

Record RevisionDelayReport : Type := mkRevisionReport {
  rd_calibration_start : datetime;
  rd_calibration_end : datetime;
  rd_eligible_correction_count : Z;
  rd_excluded_correction_count : Z;
  rd_delay_percentiles : gmap string pyfloat;
  rd_maximum_delay : option timedelta }.

Definition RevisionDelayReport_post_init (r : RevisionDelayReport) : res unit :=
  require_utc (rd_calibration_start r) "revision calibration_start";;
  require_utc (rd_calibration_end r) "revision calibration_end";;
  raise_if (dt_leb (rd_calibration_end r) (rd_calibration_start r))
           (ValueError "revision calibration interval must be positive");;
  raise_if ((rd_eligible_correction_count r <? 0) || (rd_excluded_correction_count r <? 0))
           (ValueError "revision correction counts must not be negative").

Definition is_correction (r : ObservationRow) : bool :=
  (1 <? ob_revision r) || String.eqb (ob_event_type r) "MarketBarCorrected".
Definition eligible_correction (r : ObservationRow) : bool :=
  bool_decide (ob_provenance r = QUOTE_DERIVED) && String.eqb (ob_event_type r) "MarketBarCorrected"
  && (1 <? ob_revision r) && dt_leb (ob_interval_end r) (ob_persisted_at r).

Definition build_revision_delay_report (rows : list ObservationRow)
    (calibration_start calibration_end : datetime) : res RevisionDelayReport :=
  require_utc calibration_start "revision calibration_start";;
  require_utc calibration_end "revision calibration_end";;
  raise_if (dt_leb calibration_end calibration_start)
           (ValueError "revision calibration interval must be positive");;
  let corrections := List.filter (λ r, in_window calibration_start calibration_end r && is_correction r) rows in
  let eligible := py_sorted id (map availability_delay (List.filter eligible_correction corrections)) in
  percentiles ← match eligible with
                | [] => Ok ∅
                | _ => percentile_map eligible (standard_percentiles ++ [f_one])
                end;
  let report := mkRevisionReport calibration_start calibration_end (Z.of_nat (length eligible))
                  (Z.of_nat (length corrections) - Z.of_nat (length eligible)) percentiles (maximum eligible) in
  RevisionDelayReport_post_init report;; Ok report.

(** ** The payload of a bar event decodes to the bar *)

Lemma enum_of_str {A} `{EqDecision A} (members : list A) (str : A → string) class a :
  (∀ x y, str x = str y → x = y) → a ∈ members → enum_of members str class (str a) = Ok a.
Proof.
  intros Hinj Ha. unfold enum_of. induction members as [|x l IH]; [set_solver|]. cbn.
  destruct (String.eqb_spec (str x) (str a)) as [->%Hinj|Hne]; [done|]. apply IH.
  apply elem_of_cons in Ha as [->|]; done.
Qed.

Lemma PriceBasis_of_str_str b : PriceBasis_of_str (PriceBasis_str b) = Ok b.
Proof. by destruct b. Qed.
Lemma BarProvenance_of_str_str p : BarProvenance_of_str (BarProvenance_str p) = Ok p.
Proof. by destruct p. Qed.
Lemma DataQuality_of_str_str q : DataQuality_of_str (DataQuality_str q) = Ok q.
Proof. by destruct q. Qed.

Lemma _datetime_utc_text d : is_utc d → year_ok d → _datetime (utc_text d) = Ok d.
Proof.
  intros Hu Hy. unfold _datetime. rewrite fromisoformat_utc_text by done. cbn. by apply require_utc_is_utc.
Qed.

(** Values whose text Python can read back: years 1 to 9999, non-negative coefficients. *)
Definition bar_values_ok (b : MarketBar) : Prop :=
  year_ok (b_interval_start b) ∧ year_ok (b_interval_end b) ∧
  dec_wf (b_open b) ∧ dec_wf (b_high b) ∧ dec_wf (b_low b) ∧ dec_wf (b_close b).

(** A bar whose parts its constructors accept. *)
Definition bar_valid (b : MarketBar) : Prop :=
  MarketBar_post_init b = Ok tt ∧ InstrumentId_post_init (b_instrument_id b) = Ok tt ∧
  ProviderListingId_post_init (b_source_listing_id b) = Ok tt ∧ bar_values_ok b.

Lemma bar_valid_utc b : bar_valid b → is_utc (b_interval_start b) ∧ is_utc (b_interval_end b).
Proof.
  intros (H & _). unfold MarketBar_post_init in H. res_inv.
  repeat match goal with H : require_utc _ _ = Ok _ |- _ => apply require_utc_Ok in H as [? ->] end. done.
Qed.

Definition bar_payload (b : MarketBar) : list (string * json) :=
  [("instrument_id", JStr (b_instrument_id b)); ("basis", JStr (PriceBasis_str (b_basis b)));
   ("interval_start", JStr (utc_text (b_interval_start b))); ("interval_end", JStr (utc_text (b_interval_end b)));
   ("open", JStr (dec_str (b_open b))); ("high", JStr (dec_str (b_high b)));
   ("low", JStr (dec_str (b_low b))); ("close", JStr (dec_str (b_close b)));
   ("sample_count", JInt (b_sample_count b)); ("revision", JInt (b_revision b));
   ("provenance", JStr (BarProvenance_str (b_provenance b)));
   ("source_listing_id",
    JObj [("provider", JStr (pl_provider (b_source_listing_id b)));
          ("environment", JStr (pl_environment (b_source_listing_id b)));
          ("external_id", JStr (pl_external_id (b_source_listing_id b)))]);
   ("quality", JStr (DataQuality_str (b_quality b)))].

Lemma bar_obj_payload b : bar_valid b → to_json_value (bar_obj b) = Ok (JObj (bar_payload b)).
Proof.
  intros Hb. destruct (bar_valid_utc b Hb) as [H1 H2].
  unfold bar_obj. cbn [to_json_value traverse mbind res_bind fst snd].
  rewrite !require_utc_is_utc by done. done.
Qed.

Lemma payload_decodes b : bar_valid b → _market_bar_from_payload (bar_payload b) = Ok b.
Proof.
  intros Hb. destruct (bar_valid_utc b Hb) as [Hu1 Hu2].
  destruct Hb as (Hpost & Hid & Hlist & Hy1 & Hy2 & Ho & Hh & Hl & Hc).
  unfold _market_bar_from_payload, bar_payload, str_item, dict_item, dict_get.
  cbn [List.find fst snd String.eqb Ascii.eqb Bool.eqb mbind res_bind py_str fmap option_fmap option_map].
  rewrite Hid, PriceBasis_of_str_str, !_datetime_utc_text, !Decimal_of_str_str, !int_of_str_str,
    BarProvenance_of_str_str, DataQuality_of_str_str by done.
  destruct b as [i ba s e o h l c n r p li q]. destruct li. cbn in *.
  rewrite Hlist. unfold MarketBar_new. cbn. by rewrite Hpost.
Qed.

Lemma bar_identity_refl b : bar_identity_eqb b b = true.
Proof.
  unfold bar_identity_eqb, dt_eqb. rewrite String.eqb_refl, !dec_eqb_refl, !Z.eqb_refl.
  by rewrite !bool_decide_eq_true_2.
Qed.

(** The row a candidate gives when nothing is wrong with it. *)
Definition row_of (b : MarketBar) (event : EventEnvelope) (persisted : datetime) (position : Z) : ObservationRow :=
  mkObservation (ev_event_id event) (ev_stream_id event) (ev_stream_version event)
    (ev_event_type event) (ev_event_time event) (ev_received_time event) persisted position
    (b_instrument_id b) (b_basis b) (b_interval_start b) (b_interval_end b) (b_open b) (b_high b)
    (b_low b) (b_close b) (b_sample_count b) (b_revision b) (b_provenance b) (b_quality b)
    (pl_provider (b_source_listing_id b)) (pl_environment (b_source_listing_id b))
    (pl_external_id (b_source_listing_id b)).

Lemma row_of_valid b event persisted position :
  bar_valid b → EventEnvelope_post_init event = Ok tt → ev_persisted_time event = Some persisted →
  0 < position → ev_event_type event = bar_event_type (b_revision b) →
  ev_stream_id event = bar_stream_id (b_instrument_id b) (b_basis b) →
  ObservationRow_post_init (row_of b event persisted position) = Ok tt.
Proof.
  intros Hb He Hp Hpos Ht Hs. destruct (bar_valid_utc b Hb) as [Hu1 Hu2].
  destruct Hb as (Hpost & Hid & _). unfold MarketBar_post_init in Hpost. res_inv.
  unfold EventEnvelope_post_init in He. rewrite Hp in He. cbn in He. res_inv.
  unfold ObservationRow_post_init, row_of. cbn.
  repeat match goal with H : require_utc _ _ = Ok _ |- _ => apply require_utc_Ok in H as [? _] end.
  rewrite !require_utc_is_utc by done. cbn [mbind res_bind].
  rewrite <- Hs, <- Ht, !String.eqb_refl. bool_prop.
  repeat match goal with |- context [?x <=? 0] => replace (x <=? 0) with false by lia end.
  cbn [orb raise_if negb mbind res_bind].
  match goal with H : nonempty (ev_stream_id event) = true |- _ => rewrite H end.
  replace (nonempty (b_instrument_id b)) with true.
  2: { unfold InstrumentId_post_init in Hid. by destruct (b_instrument_id b). }
  cbn. replace (dt_leb _ _) with false by done. done.
Qed.

Lemma observation_row_of b event persisted position :
  bar_valid b → b_provenance b = QUOTE_DERIVED → EventEnvelope_post_init event = Ok tt →
  ev_persisted_time event = Some persisted → ev_global_position event = Some position → 0 < position →
  ev_event_type event = bar_event_type (b_revision b) →
  ev_stream_id event = bar_stream_id (b_instrument_id b) (b_basis b) →
  ev_event_time event = b_interval_end b → ev_payload event = bar_payload b →
  observation_row (mkCandidate (mkProjected b position) (Some event)) = Ok (row_of b event persisted position).
Proof.
  intros Hb Hq He Hp Hg Hpos Ht Hs Htime Hpay. unfold observation_row. cbn [oc_projection oc_event pb_bar pb_global_position].
  rewrite Hq, Hg, Hp, Ht, Htime, Hs, Hpay, payload_decodes, !String.eqb_refl by done.
  unfold dt_eqb. rewrite Z.eqb_refl, !bool_decide_eq_true_2 by (done || (unfold bar_event_type; case_match; set_solver)).
  cbn [negb raise_if mbind res_bind]. rewrite bar_identity_refl.
  cbn [negb raise_if mbind res_bind]. unfold ObservationRow_new.
  match goal with |- (ObservationRow_post_init ?r ≫= _) = _ =>
    replace r with (row_of b event persisted position) by (unfold row_of; rewrite Htime, Ht, Hs, Hq; reflexivity) end.
  rewrite row_of_valid; try done.
Qed.

(** What a candidate's row says about the bar and the event it comes from. *)
Definition traces_to (c : ObservationCandidate) (r : ObservationRow) : Prop :=
  ∃ event persisted payload_bar,
    oc_event c = Some event ∧ ev_persisted_time event = Some persisted ∧
    ev_global_position event = Some (pb_global_position (oc_projection c)) ∧
    _market_bar_from_payload (ev_payload event) = Ok payload_bar ∧
    bar_identity_eqb payload_bar (pb_bar (oc_projection c)) = true ∧
    b_provenance (pb_bar (oc_projection c)) = QUOTE_DERIVED ∧
    r = row_of (pb_bar (oc_projection c)) event persisted (pb_global_position (oc_projection c)) ∧
    instant (ob_event_time r) = instant (ob_interval_end r) ∧
    ObservationRow_post_init r = Ok tt.

Lemma observation_row_Ok c r : observation_row c = Ok r → traces_to c r.
Proof.
  destruct c as [[b position] [event|]]; unfold observation_row; cbn; intros H; res_inv.
  destruct (ev_persisted_time event) as [persisted|] eqn:Hp; res_inv. bool_prop.
  unfold ObservationRow_new in H. res_inv. exists event, persisted.
  eexists. split_and!; try done.
  - by apply Z.eqb_eq.
  - by match goal with H : ObservationRow_post_init _ = Ok ?u |- _ => destruct u end.
Qed.

Lemma observe_loop st cs st' : for_each observe_candidate st cs = Ok st' →
  ∃ rows, Forall2 traces_to cs rows ∧ st'.2 = rev rows ++ st.2 ∧
    (NoDup st.1 → NoDup (map (λ c, pb_global_position (oc_projection c)) cs) ∧
      ∀ c, c ∈ cs → pb_global_position (oc_projection c) ∉ st.1).
Proof.
  revert st. induction cs as [|c cs IH]; intros st; cbn.
  - intros [= <-]. exists []. split; [constructor|]. split; [done|]. intros _. split; [constructor|set_solver].
  - intros (st1 & H1 & H2)%bind_Ok. unfold observe_candidate in H1. res_inv. bool_prop.
    apply observation_row_Ok in H0. destruct (IH _ H2) as (rows & Hr & E & Hnd).
    exists (x0 :: rows). split; [by constructor|]. split; [rewrite E; cbn; by rewrite <- app_assoc|].
    intros Hst. destruct Hnd as [Hnd Hnot]; [by constructor|]. cbn in Hnot. split.
    + constructor; [|done]. rewrite list_elem_of_fmap. intros (c' & Hc' & Hin).
      apply (Hnot c' Hin). cbn. rewrite <- Hc'. set_solver.
    + intros c' [->|Hc']%elem_of_cons; [done|]. intros Hin. apply (Hnot c' Hc'). set_solver.
Qed.

(** ** Well-formed datasets *)

Lemma revisions_lookup (rows : list ObservationRow) (m : revision_sets) k :
  default ∅ (fold_left add_revision rows m !! k)
  = default ∅ (m !! k) ∪ list_to_set (map ob_revision (List.filter (λ r, bool_decide (interval_key r = k)) rows)).
Proof.
  revert m. induction rows as [|r rows IH]; intros m; cbn [fold_left List.filter map list_to_set].
  - set_solver.
  - rewrite IH. unfold add_revision. case_bool_decide as E.
    + rewrite E, lookup_insert_eq. cbn. set_solver.
    + rewrite lookup_insert_ne by done. set_solver.
Qed.

Lemma max_in_ge s n : n ∈ s → n <= max_in s.
Proof.
  rewrite <- elem_of_elements. unfold max_in. induction (elements s) as [|x l IH]; [set_solver|].
  cbn. intros [->|H]%elem_of_cons; [lia|]. apply IH in H. lia.
Qed.

(** Below any revision of a bar every earlier revision is present. *)
Definition contiguous (rows : list ObservationRow) : Prop := ∀ r k,
  r ∈ rows → 1 <= k <= ob_revision r → ∃ r', r' ∈ rows ∧ interval_key r' = interval_key r ∧ ob_revision r' = k.

Lemma contiguous_checked rows u : _require_contiguous_revisions rows = Ok u → contiguous rows.
Proof.
  unfold _require_contiguous_revisions, contiguous. intros H%raise_if_Ok r k Hr Hk.
  pose proof (revisions_lookup rows ∅ (interval_key r)) as Hl. fold (revisions_by_interval rows) in Hl.
  rewrite lookup_empty in Hl. cbn in Hl. rewrite union_empty_l_L in Hl.
  set (revs := List.filter _ rows) in Hl.
  assert (∀ x, x ∈ revs ↔ x ∈ rows ∧ interval_key x = interval_key r) as Hrevs.
  { intros x. unfold revs. by rewrite !list_elem_of_In, filter_In, bool_decide_eq_true. }
  destruct (revisions_by_interval rows !! interval_key r) as [s|] eqn:E; cbn in Hl.
  - assert (s = range1 (max_in s)) as Hs.
    { destruct (decide (s = range1 (max_in s))) as [|Hne]; [done|exfalso].
      apply not_true_iff_false in H. apply H, existsb_exists. exists (interval_key r, s).
      split; [apply list_elem_of_In; by apply elem_of_map_to_list|]. cbn. by rewrite bool_decide_eq_false_2. }
    assert (ob_revision r ∈ s) as Hin.
    { rewrite Hl. apply elem_of_list_to_set, list_elem_of_fmap. exists r. split; [done|]. by apply Hrevs. }
    assert (k ∈ s) as Hks.
    { apply max_in_ge in Hin. rewrite Hs. apply elem_of_list_to_set, elem_of_seqZ. lia. }
    rewrite Hl in Hks. apply elem_of_list_to_set, list_elem_of_fmap in Hks as (r' & -> & Hr').
    apply Hrevs in Hr' as [? ?]. by exists r'.
  - exfalso. assert (ob_revision r ∈ (∅ : gset Z)) as Hin; [|set_solver].
    rewrite Hl. apply elem_of_list_to_set, list_elem_of_fmap. exists r. split; [done|]. by apply Hrevs.
Qed.

Definition stream_key (r : ObservationRow) : string * Z := (ob_stream_id r, ob_stream_version r).

Lemma scan_rows_NoDup rows s s' : for_each scan_row s rows = Ok s' →
  NoDup (map semantic_key rows) ∧ NoDup (map revision_key rows) ∧ NoDup (map stream_key rows) ∧
  (∀ r, r ∈ rows → semantic_key r ∉ sc_semantic s ∧ revision_key r ∉ sc_revision s ∧ stream_key r ∉ sc_stream s).
Proof.
  revert s. induction rows as [|r rows IH]; intros s; cbn.
  - intros _. repeat split; try constructor; set_solver.
  - intros (s1 & H1 & H2)%bind_Ok. unfold scan_row in H1. res_inv. bool_prop.
    destruct (IH _ H2) as (N1 & N2 & N3 & Hd). cbn in Hd.
    assert (∀ {K} (key : ObservationRow → K) (seen : list K), NoDup (map key rows) →
      (∀ r', r' ∈ rows → key r' ∉ key r :: seen) → NoDup (key r :: map key rows)) as Hcons.
    { intros K key seen Hn Hk. constructor; [|done]. rewrite list_elem_of_fmap. intros (r' & E & Hr').
      apply (Hk r' Hr'). rewrite E. left. }
    split; [eapply Hcons; [done|]; intros; by apply Hd|].
    split; [eapply Hcons; [done|]; intros; by apply Hd|].
    split; [eapply Hcons; [done|]; intros; by apply Hd|].
    intros r' [->|Hr']%elem_of_cons; [done|]. destruct (Hd r' Hr') as (D1 & D2 & D3).
    apply not_elem_of_cons in D1 as [_ ?], D2 as [_ ?], D3 as [_ ?]. done.
Qed.

Definition dataset_ok (d : ObservationDataset) : Prop :=
  StronglySorted (key_le semantic_key) (od_rows d) ∧ NoDup (map semantic_key (od_rows d)) ∧
  NoDup (map revision_key (od_rows d)) ∧ NoDup (map stream_key (od_rows d)) ∧ contiguous (od_rows d) ∧
  ObservationDataset_post_init d false = Ok tt.

(** ** The bytes hashed row by row *)

Lemma join_empty_app l l' : join "" (l ++ l') = join "" l +:+ join "" l'.
Proof.
  assert (∀ s l, join "" (s :: l) = s +:+ join "" l) as Hc.
  { intros s [|t k]; [by rewrite append_nil_r|done]. }
  induction l as [|s l IH]; [done|]. change ((s :: l) ++ l') with (s :: (l ++ l')).
  by rewrite !Hc, IH, append_assoc.
Qed.
Lemma join_empty_cons s l : join "" (s :: l) = s +:+ join "" l.
Proof. destruct l; [by rewrite append_nil_r|done]. Qed.

Lemma join_comma l : join "" (map (λ t, "," +:+ t) l) = match l with [] => "" | _ => "," +:+ join "," l end.
Proof.
  induction l as [|t l IH]; [done|]. cbn [map]. rewrite join_empty_cons, IH, append_assoc. f_equal.
  destruct l; [by rewrite append_nil_r|done].
Qed.

Lemma join_rows texts : join "" (rows_chunks texts) = join "," texts.
Proof.
  unfold rows_chunks. destruct texts as [|t l]; [done|]. cbn [imap]. rewrite join_empty_cons.
  rewrite (imap_ext _ (λ _ t, "," +:+ t)) by done.
  replace (imap (λ _ t, "," +:+ t) l) with (map (λ t, "," +:+ t) l) by (by induction l; cbn; f_equal).
  rewrite join_comma. destruct l; [by rewrite append_nil_r|done].
Qed.

(** The monolithic payload that the chunks spell. *)
Definition observation_payload (rows : list ObservationRow) (configuration : json)
    (source_dataset_ids : list string) (selection_policies : json) : json :=
  JObj [("contract", JStr OBSERVATION_DATASET_CONTRACT);
        ("schema_version", JInt OBSERVATION_SCHEMA_VERSION);
        ("configuration", configuration);
        ("source_dataset_ids", JList (map JStr source_dataset_ids));
        ("selection_policies", selection_policies);
        ("rows", JList (map ObservationRow_as_json rows))].

Lemma dumps_list l : dumps (JList l) = "[" +:+ join "," (map dumps l) +:+ "]".
Proof. done. Qed.

Lemma observation_chunks rows configuration ids policies :
  join "" (_observation_dataset_chunks rows configuration ids policies)
  = dumps (observation_payload rows configuration ids policies).
Proof.
  unfold _observation_dataset_chunks, observation_payload. rewrite dumps_obj.
  assert (∀ c v g i p r : json,
    py_sorted fst [("contract", c); ("schema_version", v); ("configuration", g); ("source_dataset_ids", i);
                   ("selection_policies", p); ("rows", r)]
    = [("configuration", g); ("contract", c); ("rows", r); ("schema_version", v);
       ("selection_policies", p); ("source_dataset_ids", i)]) as -> by reflexivity.
  cbn [map]. unfold member. cbn [fst snd].
  rewrite !join_empty_app, !join_empty_cons, join_rows. cbn [join].
  rewrite (dumps_list (map ObservationRow_as_json rows)), map_map.
  change ":[" with (":" +:+ "["). change "]," with ("]" +:+ ","). rewrite !append_assoc. reflexivity.
Qed.

(** ** Properties *)

(** Every research observation has a canonical lineage: the rows built from
    projected bars are, in canonical order, one row per candidate, each backed by
    the persisted event at the same global position, whose payload decodes to the
    projected bar; no position is used twice. *)
Theorem observations_traced candidates rows :
  build_observation_rows candidates = Ok rows →
  StronglySorted (key_le semantic_key) rows ∧
  NoDup (map (λ c, pb_global_position (oc_projection c)) candidates) ∧
  ∃ built, Forall2 traces_to candidates built ∧ rows ≡ₚ built.
Proof.
  unfold build_observation_rows. intros (st & H & [= <-])%bind_Ok.
  apply observe_loop in H as (built & Hb & E & Hnd). rewrite app_nil_r in E. rewrite E, rev_involutive.
  split; [apply py_sorted_sorted|]. split; [by apply Hnd; constructor|].
  exists built. split; [done|]. apply py_sorted_perm.
Qed.

(** C31: the bar an ingestion event carries comes back unchanged: a valid quote-derived
    bar, written into the payload of its closed or corrected event and persisted,
    is read back and becomes an observation row with the bar's values and the
    event's lineage; decimals and times survive their text exactly. *)
Theorem ingested_bar_observed b event persisted position :
  bar_valid b → b_provenance b = QUOTE_DERIVED → EventEnvelope_post_init event = Ok tt →
  ev_persisted_time event = Some persisted → ev_global_position event = Some position → 0 < position →
  ev_event_type event = bar_event_type (b_revision b) →
  ev_stream_id event = bar_stream_id (b_instrument_id b) (b_basis b) →
  ev_event_time event = b_interval_end b →
  to_json_value (bar_obj b) = Ok (JObj (ev_payload event)) →
  _market_bar_from_payload (ev_payload event) = Ok b ∧
  observation_row (mkCandidate (mkProjected b position) (Some event)) = Ok (row_of b event persisted position).
Proof.
  intros Hb Hq He Hp Hg Hpos Ht Hs Htime Hpay. rewrite bar_obj_payload in Hpay by done.
  injection Hpay as Hpay. rewrite <- Hpay. split; [by apply payload_decodes|]. by apply observation_row_of.
Qed.

(** C40: a dataset that [create] accepts is well formed: rows in strict canonical
    order with unique semantic, revision and stream keys, every interval with all
    its revisions from 1, and an identity that the full validation accepts; any
    other order of the same rows gives the same dataset. *)
Theorem dataset_well_formed rows configuration ids policies d :
  ObservationDataset_create rows configuration ids policies = Ok d →
  dataset_ok d ∧ od_rows d ≡ₚ rows ∧
  ∀ rows', rows' ≡ₚ rows → ObservationDataset_create rows' configuration ids policies = Ok d.
Proof.
  unfold ObservationDataset_create. intros H. destruct (_validate_observation_rows _) as [u|] eqn:Hv; [|done].
  cbn in H. injection H as <-. unfold dataset_ok. cbn [od_rows].
  pose proof Hv as Hv'. unfold _validate_observation_rows in Hv'. res_inv.
  destruct (scan_rows_NoDup _ _ _ H) as (N1 & N2 & N3 & _). split; [split_and!; try done|].
  - apply py_sorted_sorted.
  - by eapply contiguous_checked.
  - cbn [ObservationDataset_post_init od_rows od_configuration od_source_dataset_ids od_selection_policies od_dataset_id].
    rewrite Hv. cbn [mbind res_bind]. by rewrite String.eqb_refl.
  - split; [apply py_sorted_perm|]. intros rows' Hp.
    rewrite (py_sorted_perm_eq semantic_key rows' rows); [by rewrite Hv| |done].
    intros r1 r2 Hr1 Hr2. apply (NoDup_key_inj semantic_key (py_sorted semantic_key rows)); [done|..];
      rewrite elem_of_py_sorted; by rewrite <- Hp.
Qed.

(** Hashing a dataset row by row gives the digest of its whole canonical JSON
    document, the identity it had before the rows were streamed. *)
Theorem streamed_identity_canonical rows configuration ids policies :
  observation_dataset_id rows configuration ids policies
  = sha256_json (observation_payload (py_sorted semantic_key rows) configuration ids policies).
Proof.
  unfold observation_dataset_id, _observation_dataset_identity, digest_chunks, sha256_json.
  by rewrite observation_chunks.
Qed.

(** ** A closed bar and its correction *)

Definition sample_bar (revision : Z) (close : Decimal) : MarketBar :=
  mkBar "fx:eurusd" MID (utc 1782907260000000) (utc 1782907320000000)
    (dec_lit 1142 (-3)) (dec_lit 1150 (-3)) (dec_lit 1141 (-3)) close 7 revision QUOTE_DERIVED
    sample_listing HEALTHY.
Definition sample_bar_event (revision : Z) (close : Decimal) (position : Z) : EventEnvelope :=
  mkEvent (mkUUID "0198c5f2-0000-7000-8000-000000000001") "market-bar:fx:eurusd:MID" revision
    (bar_event_type revision) 1 (utc 1782907320000000) (utc 1782907321000000) (Some (utc 1782907321500000))
    (mkUUID "0198c5f2-0000-7000-8000-000000000002") None "ingest" "1"
    (bar_payload (sample_bar revision close)) (Some position) None.
Definition sample_candidate (revision : Z) (close : Decimal) (position : Z) : ObservationCandidate :=
  mkCandidate (mkProjected (sample_bar revision close) position) (Some (sample_bar_event revision close position)).
Definition sample_row (revision : Z) (close : Decimal) (position : Z) : ObservationRow :=
  row_of (sample_bar revision close) (sample_bar_event revision close position) (utc 1782907321500000) position.
Definition first_close : Decimal := dec_lit 1149 (-3).
Definition second_close : Decimal := dec_lit 11485 (-4).
Definition sample_rows : list ObservationRow := [sample_row 2 second_close 9; sample_row 1 first_close 4].

Lemma sample_bar_valid revision close :
  MarketBar_post_init (sample_bar revision close) = Ok tt → dec_wf close → bar_valid (sample_bar revision close).
Proof.
  intros Hpost Hc. split; [done|]. split; [done|]. split; [done|].
  split; [by apply year_ok_range|]. split; [by apply year_ok_range|]. by repeat split.
Qed.

Lemma sample_row_built : observation_row (sample_candidate 1 first_close 4) = Ok (sample_row 1 first_close 4)
  ∧ observation_row (sample_candidate 2 second_close 9) = Ok (sample_row 2 second_close 9).
Proof. split; (apply observation_row_of; [by apply sample_bar_valid|reflexivity..]). Qed.

Lemma sample_rows_built :
  build_observation_rows [sample_candidate 2 second_close 9; sample_candidate 1 first_close 4]
  = Ok [sample_row 1 first_close 4; sample_row 2 second_close 9].
Proof.
  unfold build_observation_rows. cbn [for_each]. unfold observe_candidate.
  destruct sample_row_built as [-> ->]. reflexivity.
Qed.

Lemma observations_traced_witness :
  StronglySorted (key_le semantic_key) [sample_row 1 first_close 4; sample_row 2 second_close 9] ∧
  NoDup (map (λ c, pb_global_position (oc_projection c))
           [sample_candidate 2 second_close 9; sample_candidate 1 first_close 4]) ∧
  ∃ built, Forall2 traces_to [sample_candidate 2 second_close 9; sample_candidate 1 first_close 4] built ∧
           [sample_row 1 first_close 4; sample_row 2 second_close 9] ≡ₚ built.
Proof. apply observations_traced. exact sample_rows_built. Defined.

Lemma ingested_bar_observed_witness :
  _market_bar_from_payload (ev_payload (sample_bar_event 2 second_close 9)) = Ok (sample_bar 2 second_close) ∧
  observation_row (sample_candidate 2 second_close 9) = Ok (sample_row 2 second_close 9).
Proof.
  assert (bar_valid (sample_bar 2 second_close)) as Hb by by apply sample_bar_valid.
  apply (ingested_bar_observed (sample_bar 2 second_close) (sample_bar_event 2 second_close 9)
           (utc 1782907321500000) 9); try reflexivity. exact Hb.
Defined.

Definition sample_dataset : ObservationDataset :=
  mkDataset [sample_row 1 first_close 4; sample_row 2 second_close 9] [] [] []
    (_observation_dataset_identity [sample_row 1 first_close 4; sample_row 2 second_close 9] (JObj []) [] (JObj [])).

Lemma sample_rows_sorted :
  py_sorted semantic_key sample_rows = [sample_row 1 first_close 4; sample_row 2 second_close 9].
Proof. reflexivity. Qed.
Lemma sample_rows_valid :
  _validate_observation_rows [sample_row 1 first_close 4; sample_row 2 second_close 9] = Ok tt.
Proof. vm_compute. reflexivity. Qed.

Lemma dataset_well_formed_witness :
  dataset_ok sample_dataset ∧ od_rows sample_dataset ≡ₚ sample_rows ∧
  ∀ rows', rows' ≡ₚ sample_rows → ObservationDataset_create rows' [] [] None = Ok sample_dataset.
Proof.
  apply (dataset_well_formed sample_rows [] [] None). unfold ObservationDataset_create.
  rewrite sample_rows_sorted, sample_rows_valid. reflexivity.
Defined.
