(* ===== verification/Foundation.v ===== *)
(** Causal research foundation, domain part ([domain/foundation.py]): the
    configuration with its validation and identity, panel cells and frozen
    targets with their constructors, and the identities of their datasets.
    Decimals are finite here, so [is_finite()] holds of every price. *)

From S2P Require Import Prelude PySorted PyStr PyTime PyDecimal Sha256 PyJson Domain Storage PyFloat Research.
From Stdlib Require Import Ascii.

(** ** Enumerations *)

Inductive InstrumentRole : Type := TARGET | CONTEXT.
Definition InstrumentRole_str (r : InstrumentRole) : string :=
  match r with TARGET => "TARGET" | CONTEXT => "CONTEXT" end.

Inductive AvailabilityBasis : Type := RECEIVED_AT | PERSISTED_AT.
Definition AvailabilityBasis_str (b : AvailabilityBasis) : string :=
  match b with RECEIVED_AT => "received_at" | PERSISTED_AT => "persisted_at" end.

Inductive PanelStatus : Type := OBSERVED | MISSING_AS_OF_CUTOFF.
Definition PanelStatus_str (s : PanelStatus) : string :=
  match s with OBSERVED => "OBSERVED" | MISSING_AS_OF_CUTOFF => "MISSING_AS_OF_CUTOFF" end.

Inductive PanelAuditDisposition : Type :=
| EVENTUALLY_OBSERVED_LATE | RECORDED_GAP_KNOWN_BY_CUTOFF | RECORDED_GAP_DETECTED_LATER
| SOURCE_NOT_ACTIVE | NO_NATIVE_EVIDENCE | AMBIGUOUS_OR_INVALID_SOURCE.
Definition PanelAuditDisposition_str (d : PanelAuditDisposition) : string :=
  match d with
  | EVENTUALLY_OBSERVED_LATE => "EVENTUALLY_OBSERVED_LATE"
  | RECORDED_GAP_KNOWN_BY_CUTOFF => "RECORDED_GAP_KNOWN_BY_CUTOFF"
  | RECORDED_GAP_DETECTED_LATER => "RECORDED_GAP_DETECTED_LATER"
  | SOURCE_NOT_ACTIVE => "SOURCE_NOT_ACTIVE"
  | NO_NATIVE_EVIDENCE => "NO_NATIVE_EVIDENCE"
  | AMBIGUOUS_OR_INVALID_SOURCE => "AMBIGUOUS_OR_INVALID_SOURCE"
  end.

Inductive ReturnDisposition : Type :=
| RET_VALID | RET_MISSING_START | RET_MISSING_END | NON_POSITIVE_START | NON_POSITIVE_END
| RET_AMBIGUOUS_SOURCE | UNAVAILABLE_BY_FREEZE.
Definition ReturnDisposition_str (d : ReturnDisposition) : string :=
  match d with
  | RET_VALID => "VALID" | RET_MISSING_START => "MISSING_START" | RET_MISSING_END => "MISSING_END"
  | NON_POSITIVE_START => "NON_POSITIVE_START" | NON_POSITIVE_END => "NON_POSITIVE_END"
  | RET_AMBIGUOUS_SOURCE => "AMBIGUOUS_SOURCE" | UNAVAILABLE_BY_FREEZE => "UNAVAILABLE_BY_FREEZE"
  end.

Inductive ExcursionDisposition : Type :=
| EXC_VALID | INCOMPLETE_PATH | EXC_MISSING_START | EXC_MISSING_END | EXC_AMBIGUOUS_SOURCE.
Definition ExcursionDisposition_str (d : ExcursionDisposition) : string :=
  match d with
  | EXC_VALID => "VALID" | INCOMPLETE_PATH => "INCOMPLETE_PATH" | EXC_MISSING_START => "MISSING_START"
  | EXC_MISSING_END => "MISSING_END" | EXC_AMBIGUOUS_SOURCE => "AMBIGUOUS_SOURCE"
  end.

#[export] Instance InstrumentRole_eq_dec : EqDecision InstrumentRole.
Proof. solve_decision. Defined.
#[export] Instance PanelStatus_eq_dec : EqDecision PanelStatus.
Proof. solve_decision. Defined.
#[export] Instance PanelAuditDisposition_eq_dec : EqDecision PanelAuditDisposition.
Proof. solve_decision. Defined.
#[export] Instance ReturnDisposition_eq_dec : EqDecision ReturnDisposition.
Proof. solve_decision. Defined.
#[export] Instance ExcursionDisposition_eq_dec : EqDecision ExcursionDisposition.
Proof. solve_decision. Defined.

Definition FOUNDATION_CONFIG_CONTRACT : string := "qtrad-research-foundation-config-v1".
Definition PANEL_DATASET_CONTRACT : string := "qtrad-research-panel-v1".
Definition TARGET_DATASET_CONTRACT : string := "qtrad-research-targets-v1".
Definition _MINUTE : timedelta := minutes 1.
Definition _HORIZONS : list timedelta := map minutes [5; 15; 30; 60].

(** ** Configuration *)

Record FoundationConfig : Type := mkConfig {
  fc_name : string;
  fc_schema_version : Z;
  fc_observation_dataset_id : string;
  fc_ordered_instruments : list string;
  fc_instrument_roles : gmap string InstrumentRole;
  fc_range_start : datetime;
  fc_range_end : datetime;
  fc_grid_resolution : timedelta;
  fc_availability_basis : AvailabilityBasis;
  fc_feature_lag_policy : string;
  fc_feature_lag_calibration_range : datetime * datetime;
  fc_feature_lag_percentile : pyfloat;
  fc_feature_lag_safety_margin : timedelta;
  fc_selected_feature_lag : timedelta;
  fc_target_horizons : list timedelta;
  fc_primary_vertical_horizon : timedelta;
  fc_target_revision_delay : timedelta;
  fc_target_revision_policy : string;
  fc_target_revision_policy_reason : option string;
  fc_required_feature_bases : list PriceBasis;
  fc_target_basis : PriceBasis;
  fc_fold_policy : string;
  fc_holdout_range : datetime * datetime;
  fc_embargo : timedelta;
  fc_minimum_training_duration : timedelta;
  fc_minimum_validation_duration : timedelta }.

Definition _require_interval (start end_ : datetime) (field : string) : res unit :=
  require_utc start (field +:+ " start");;
  require_utc end_ (field +:+ " end");;
  raise_if (dt_leb end_ start) (ValueError (field +:+ " must be positive")).

Definition canonical_instrument (i : string) : bool :=
  nonempty i && existsb (Ascii.eqb ":") (chars i) && String.eqb i (lower i).
Definition supported_policy (p : string) : bool := existsb (String.eqb p) ["MEASURED"; "PROVISIONAL_CONSERVATIVE"].
(** [not reason.strip()] *)
Definition blank (reason : string) : bool := forallb is_space (chars reason).
Definition whole_grid_units (value grid : timedelta) : bool :=
  float_divides (total_seconds grid) (total_seconds value).

Definition require_all {A} (test : A → bool) (error : A → exn) (l : list A) : res unit :=
  for_each (λ _ x, raise_if (negb (test x)) (error x)) tt l.

Definition FoundationConfig_post_init (c : FoundationConfig) : res unit :=
  raise_if (negb (nonempty (fc_name c)) || negb (fc_schema_version c =? 1))
           (ValueError "foundation configuration name and schema version are invalid");;
  raise_if (negb (is_sha256 (fc_observation_dataset_id c)))
           (ValueError "observation dataset ID must be a lower-case SHA-256");;
  raise_if (Nat.eqb (length (fc_ordered_instruments c)) 0)
           (ValueError "foundation configuration requires instruments");;
  raise_if (has_duplicates (fc_ordered_instruments c)) (ValueError "foundation instruments must be unique");;
  raise_if (negb (bool_decide (dom (fc_instrument_roles c) = list_to_set (fc_ordered_instruments c) :> gset string)))
           (ValueError "foundation roles must exactly match the instrument universe");;
  require_all canonical_instrument
    (λ _, ValueError "foundation instrument IDs must be canonical lower-case values") (fc_ordered_instruments c);;
  raise_if (bool_decide (fc_instrument_roles c !! "index:volatility" = Some TARGET))
           (ValueError "VIX must remain a CONTEXT instrument");;
  _require_interval (fc_range_start c) (fc_range_end c) "foundation range";;
  raise_if (negb (fc_grid_resolution c =? _MINUTE))
           (ValueError "R1 foundation grid resolution must be one minute");;
  _require_interval (fc_feature_lag_calibration_range c).1 (fc_feature_lag_calibration_range c).2
    "feature lag calibration range";;
  raise_if (dt_ltb (fc_range_start c) (fc_feature_lag_calibration_range c).2)
           (ValueError "feature lag calibration must end by the decision range start");;
  _require_interval (fc_holdout_range c).1 (fc_holdout_range c).2 "holdout range";;
  raise_if (dt_ltb (fc_holdout_range c).1 (fc_range_start c)
            || negb (dt_eqb (fc_holdout_range c).2 (fc_range_end c)))
           (ValueError "locked holdout must be the final interval of the foundation range");;
  raise_if (negb (unit_interval (fc_feature_lag_percentile c)))
           (ValueError "feature lag percentile must be between zero and one");;
  raise_if (negb (supported_policy (fc_feature_lag_policy c))) (ValueError "feature lag policy is unsupported");;
  raise_if (negb (supported_policy (fc_target_revision_policy c)))
           (ValueError "target revision policy is unsupported");;
  raise_if (String.eqb (fc_target_revision_policy c) "MEASURED"
            && negb (bool_decide (fc_target_revision_policy_reason c = None)))
           (ValueError "measured target revision policy cannot have a provisional reason");;
  raise_if (String.eqb (fc_target_revision_policy c) "PROVISIONAL_CONSERVATIVE"
            && match fc_target_revision_policy_reason c with None => true | Some r => blank r end)
           (ValueError "provisional target revision policy requires a reason");;
  require_all (λ vf : timedelta * string, 0 <=? vf.1) (λ vf, ValueError (vf.2 +:+ " must not be negative"))
    [(fc_feature_lag_safety_margin c, "feature lag safety margin");
     (fc_selected_feature_lag c, "selected feature lag");
     (fc_target_revision_delay c, "target revision delay"); (fc_embargo c, "embargo")];;
  require_all (λ vf : timedelta * string, whole_grid_units vf.1 (fc_grid_resolution c))
    (λ vf, ValueError (vf.2 +:+ " must use whole grid units"))
    [(fc_selected_feature_lag c, "selected feature lag"); (fc_target_revision_delay c, "target revision delay")];;
  raise_if (Nat.eqb (length (fc_target_horizons c)) 0
            || negb (forallb (λ h, existsb (Z.eqb h) _HORIZONS) (fc_target_horizons c)))
           (ValueError "target horizons must use the configured 5/15/30/60-minute grid");;
  raise_if (has_duplicates (fc_target_horizons c)) (ValueError "target horizons must be unique");;
  raise_if (negb (bool_decide (fc_target_horizons c = py_sorted id (fc_target_horizons c))))
           (ValueError "target horizons must use canonical ascending order");;
  raise_if (negb (fc_primary_vertical_horizon c =? minutes 15))
           (ValueError "R1.B primary vertical horizon must be 15 minutes");;
  raise_if (negb (existsb (Z.eqb (fc_primary_vertical_horizon c)) (fc_target_horizons c)))
           (ValueError "primary vertical horizon must be configured");;
  raise_if (negb (bool_decide (fc_required_feature_bases c = [MID])) || negb (bool_decide (fc_target_basis c = MID)))
           (ValueError "R1.B requires MID-only features and targets");;
  raise_if (negb (String.eqb (fc_fold_policy c) "EXPANDING_WALK_FORWARD"))
           (ValueError "foundation fold policy is unsupported");;
  raise_if (fc_minimum_training_duration c <=? 0) (ValueError "minimum training duration must be positive");;
  raise_if (fc_minimum_validation_duration c <=? 0) (ValueError "minimum validation duration must be positive").

(** A configuration that its constructor accepted. *)
Definition config_ok (c : FoundationConfig) : Prop := FoundationConfig_post_init c = Ok tt.

Definition seconds_json (d : timedelta) : json := float_json (total_seconds d).
Definition iso (d : datetime) : json := JStr (isoformat d).
Definition opt_json {A} (f : A → json) (x : option A) : json := match x with Some a => f a | None => JNull end.

(** The roles of a valid configuration are those of its instruments. *)
Definition roles_json (c : FoundationConfig) : json :=
  JObj (omap (λ i, r ← fc_instrument_roles c !! i; Some (i, JStr (InstrumentRole_str r))) (fc_ordered_instruments c)).

Definition FoundationConfig_as_json (c : FoundationConfig) : json :=
  JObj [("contract", JStr FOUNDATION_CONFIG_CONTRACT);
        ("schema_version", JInt (fc_schema_version c));
        ("name", JStr (fc_name c));
        ("observation_dataset_id", JStr (fc_observation_dataset_id c));
        ("ordered_instruments", JList (map JStr (fc_ordered_instruments c)));
        ("instrument_roles", roles_json c);
        ("range_start", iso (fc_range_start c));
        ("range_end", iso (fc_range_end c));
        ("grid_resolution_seconds", seconds_json (fc_grid_resolution c));
        ("availability_basis", JStr (AvailabilityBasis_str (fc_availability_basis c)));
        ("feature_lag_policy", JStr (fc_feature_lag_policy c));
        ("feature_lag_calibration_range",
         JList [iso (fc_feature_lag_calibration_range c).1; iso (fc_feature_lag_calibration_range c).2]);
        ("feature_lag_percentile", float_json (fc_feature_lag_percentile c));
        ("feature_lag_safety_margin_seconds", seconds_json (fc_feature_lag_safety_margin c));
        ("selected_feature_lag_seconds", seconds_json (fc_selected_feature_lag c));
        ("target_horizons_seconds", JList (map seconds_json (fc_target_horizons c)));
        ("primary_vertical_horizon_seconds", seconds_json (fc_primary_vertical_horizon c));
        ("target_revision_delay_seconds", seconds_json (fc_target_revision_delay c));
        ("target_revision_policy", JStr (fc_target_revision_policy c));
        ("target_revision_policy_reason", opt_json JStr (fc_target_revision_policy_reason c));
        ("required_feature_bases", JList (map (λ b, JStr (PriceBasis_str b)) (fc_required_feature_bases c)));
        ("target_basis", JStr (PriceBasis_str (fc_target_basis c)));
        ("fold_policy", JStr (fc_fold_policy c));
        ("holdout_range", JList [iso (fc_holdout_range c).1; iso (fc_holdout_range c).2]);
        ("embargo_seconds", seconds_json (fc_embargo c));
        ("minimum_training_duration_seconds", seconds_json (fc_minimum_training_duration c));
        ("minimum_validation_duration_seconds", seconds_json (fc_minimum_validation_duration c))].

Definition configuration_id (c : FoundationConfig) : string := sha256_json (FoundationConfig_as_json c).

Definition required_observation_start (c : FoundationConfig) : datetime :=
  dt_min (fc_feature_lag_calibration_range c).1
         (dt_sub (dt_sub (fc_range_start c) (fc_selected_feature_lag c)) (fc_grid_resolution c)).
(** [max(self.target_horizons)]: a valid configuration has a horizon. *)
Definition max_horizon (c : FoundationConfig) : timedelta := default 0 (maximum (fc_target_horizons c)).
Definition required_observation_end (c : FoundationConfig) : datetime :=
  dt_add (dt_add (fc_range_end c) (max_horizon c)) (fc_target_revision_delay c).

(** ** Panel *)

Record PanelRow : Type := mkPanelRow {
  pr_decision_time : datetime;
  pr_instrument_id : string;
  pr_basis : PriceBasis;
  pr_feature_data_asof : datetime;
  pr_latest_feature_bar_end : datetime;
  pr_status : PanelStatus;
  pr_audit_disposition : option PanelAuditDisposition;
  pr_selected_event_id : option UUID;
  pr_selected_stream_version : option Z;
  pr_selected_global_position : option Z;
  pr_selected_availability_time : option datetime;
  pr_selected_revision : option Z;
  pr_interval_start : option datetime;
  pr_interval_end : option datetime;
  pr_open : option Decimal;
  pr_high : option Decimal;
  pr_low : option Decimal;
  pr_close : option Decimal;
  pr_sample_count : option Z;
  pr_quality : option DataQuality }.

Definition is_none {A} (x : option A) : bool := match x with None => true | Some _ => false end.

Definition PanelRow_post_init (r : PanelRow) : res unit :=
  require_utc (pr_decision_time r) "panel decision_time";;
  require_utc (pr_feature_data_asof r) "panel feature_data_asof";;
  require_utc (pr_latest_feature_bar_end r) "panel latest_feature_bar_end";;
  raise_if (dt_ltb (pr_feature_data_asof r) (pr_latest_feature_bar_end r))
           (ValueError "panel latest bar end cannot follow its feature cutoff");;
  match pr_status r with
  | OBSERVED =>
      raise_if (is_none (pr_selected_event_id r) || is_none (pr_selected_availability_time r))
               (ValueError "observed panel rows require selected lineage");;
      raise_if (match pr_selected_availability_time r with
                | Some t => dt_ltb (pr_feature_data_asof r) t | None => false end
                || negb match pr_interval_end r with
                        | Some t => dt_eqb t (pr_latest_feature_bar_end r) | None => false end)
               (ValueError "observed panel row violates its causal feature cutoff")
  | MISSING_AS_OF_CUTOFF =>
      raise_if (existsb (λ x, negb (is_none x)) [pr_open r; pr_high r; pr_low r; pr_close r])
               (ValueError "missing panel rows cannot contain prices");;
      raise_if (is_none (pr_audit_disposition r))
               (ValueError "missing panel rows require retrospective disposition")
  end.

Definition PanelRow_new (r : PanelRow) : res PanelRow := PanelRow_post_init r;; Ok r.

Definition PanelRow_as_json (r : PanelRow) : json :=
  JObj [("decision_time", iso (pr_decision_time r));
        ("instrument_id", JStr (pr_instrument_id r));
        ("basis", JStr (PriceBasis_str (pr_basis r)));
        ("feature_data_asof", iso (pr_feature_data_asof r));
        ("latest_feature_bar_end", iso (pr_latest_feature_bar_end r));
        ("status", JStr (PanelStatus_str (pr_status r)));
        ("audit_disposition", opt_json (λ d, JStr (PanelAuditDisposition_str d)) (pr_audit_disposition r));
        ("selected_event_id", opt_json (λ u, JStr (uuid_text u)) (pr_selected_event_id r));
        ("selected_stream_version", opt_json JInt (pr_selected_stream_version r));
        ("selected_global_position", opt_json JInt (pr_selected_global_position r));
        ("selected_availability_time", opt_json iso (pr_selected_availability_time r));
        ("selected_revision", opt_json JInt (pr_selected_revision r));
        ("interval_start", opt_json iso (pr_interval_start r));
        ("interval_end", opt_json iso (pr_interval_end r));
        ("open", opt_json (λ d, JStr (dec_str d)) (pr_open r));
        ("high", opt_json (λ d, JStr (dec_str d)) (pr_high r));
        ("low", opt_json (λ d, JStr (dec_str d)) (pr_low r));
        ("close", opt_json (λ d, JStr (dec_str d)) (pr_close r));
        ("sample_count", opt_json JInt (pr_sample_count r));
        ("quality", opt_json (λ q, JStr (DataQuality_str q)) (pr_quality r))].

Definition _panel_key (r : PanelRow) : Z * string * string :=
  (instant (pr_decision_time r), pr_instrument_id r, PriceBasis_str (pr_basis r)).

Definition scan_panel_row (s : option (Z * string * string) * list (Z * string * string)) (row : PanelRow) :=
  raise_if match s.1 with Some p => pylt (_panel_key row) p | None => false end
           (ValueError "panel rows must use deterministic ordering");;
  raise_if (bool_decide (_panel_key row ∈ s.2)) (ValueError "panel rows must have unique semantic keys");;
  Ok (Some (_panel_key row), _panel_key row :: s.2).

Definition _validate_panel_rows (rows : list PanelRow) : res unit :=
  for_each scan_panel_row (None, []) rows;; Ok tt.

(** The chunks both foundation datasets hash. *)
Definition foundation_chunks (contract : string) (rows : list json)
    (observation_dataset_id foundation_configuration_id : string) : list string :=
  ["{" +:+ json_str "contract" +:+ ":"; dumps (JStr contract);
   "," +:+ json_str "foundation_configuration_id" +:+ ":"; dumps (JStr foundation_configuration_id);
   "," +:+ json_str "observation_dataset_id" +:+ ":"; dumps (JStr observation_dataset_id);
   "," +:+ json_str "rows" +:+ ":["]
  ++ rows_chunks (map dumps rows)
  ++ ["]," +:+ json_str "schema_version" +:+ ":"; dumps (JInt 1); "}"].

Definition _panel_dataset_chunks (rows : list PanelRow) : string → string → list string :=
  foundation_chunks PANEL_DATASET_CONTRACT (map PanelRow_as_json rows).
Definition _panel_dataset_identity (rows : list PanelRow) (observation configuration : string) : string :=
  digest_chunks (_panel_dataset_chunks rows observation configuration).

Record PanelDataset : Type := mkPanel {
  pd_rows : list PanelRow;
  pd_observation_dataset_id : string;
  pd_foundation_configuration_id : string;
  pd_dataset_id : string }.

Definition PanelDataset_post_init (p : PanelDataset) (verified : bool) : res unit :=
  if verified then Ok tt
  else
    _validate_panel_rows (pd_rows p);;
    raise_if (negb (String.eqb (pd_dataset_id p)
                (_panel_dataset_identity (pd_rows p) (pd_observation_dataset_id p) (pd_foundation_configuration_id p))))
             (ValueError "panel dataset ID does not match its semantic rows").

Definition PanelDataset_create (rows : list PanelRow) (observation configuration : string) : res PanelDataset :=
  let ordered := py_sorted _panel_key rows in
  _validate_panel_rows ordered;;
  let p := mkPanel ordered observation configuration (_panel_dataset_identity ordered observation configuration) in
  PanelDataset_post_init p true;; Ok p.

(** ** Targets *)

Record TargetRow : Type := mkTarget {
  tg_instrument_id : string;
  tg_decision_time : datetime;
  tg_horizon : timedelta;
  tg_target_basis : PriceBasis;
  tg_target_revision_policy : string;
  tg_target_start_time : datetime;
  tg_target_end_time : datetime;
  tg_target_freeze_at : datetime;
  tg_target_available_at : datetime;
  tg_label_start_close : option Decimal;
  tg_label_end_close : option Decimal;
  tg_log_return : option pyfloat;
  tg_return_disposition : ReturnDisposition;
  tg_start_event_id : option UUID;
  tg_end_event_id : option UUID;
  tg_upper_log_excursion : option pyfloat;
  tg_lower_log_excursion : option pyfloat;
  tg_excursion_disposition : ExcursionDisposition }.

Definition target_identity (instrument_id : string) (decision_time : datetime) (horizon : timedelta)
    (target_basis : PriceBasis) (target_revision_policy : string) : string :=
  sha256_json (JObj [("contract", JStr TARGET_DATASET_CONTRACT);
                     ("instrument_id", JStr instrument_id);
                     ("decision_time", iso decision_time);
                     ("horizon_seconds", seconds_json horizon);
                     ("target_basis", JStr (PriceBasis_str target_basis));
                     ("target_revision_policy", JStr target_revision_policy)]).

(** [_target_id], which [__post_init__] derives from the key of the row. *)
Definition target_id (r : TargetRow) : string :=
  target_identity (tg_instrument_id r) (tg_decision_time r) (tg_horizon r) (tg_target_basis r)
    (tg_target_revision_policy r).

Definition finite_opt (x : option pyfloat) : bool := match x with Some x => isfinite x | None => false end.

Definition TargetRow_post_init (r : TargetRow) : res unit :=
  require_utc (tg_decision_time r) "target decision_time";;
  require_utc (tg_target_start_time r) "target start_time";;
  require_utc (tg_target_end_time r) "target end_time";;
  require_utc (tg_target_freeze_at r) "target freeze_at";;
  require_utc (tg_target_available_at r) "target availability";;
  raise_if ((tg_horizon r <=? 0)
            || negb (dt_eqb (tg_target_end_time r) (dt_add (tg_target_start_time r) (tg_horizon r))))
           (ValueError "target horizon and endpoint interval are inconsistent");;
  raise_if (negb (dt_eqb (tg_target_available_at r) (tg_target_freeze_at r)))
           (ValueError "target availability must equal its freeze time");;
  raise_if (bool_decide (tg_return_disposition r = RET_VALID) && negb (finite_opt (tg_log_return r)))
           (ValueError "valid targets require a finite log return");;
  if bool_decide (tg_excursion_disposition r = EXC_VALID) then
    raise_if (is_none (tg_upper_log_excursion r) || is_none (tg_lower_log_excursion r))
             (ValueError "valid excursions require both path values");;
    raise_if (negb (finite_opt (tg_upper_log_excursion r)) || negb (finite_opt (tg_lower_log_excursion r)))
             (ValueError "excursions must be finite")
  else Ok tt.

Definition TargetRow_new (r : TargetRow) : res TargetRow := TargetRow_post_init r;; Ok r.

Definition TargetRow_as_json (r : TargetRow) : json :=
  JObj [("instrument_id", JStr (tg_instrument_id r));
        ("decision_time", iso (tg_decision_time r));
        ("horizon_seconds", seconds_json (tg_horizon r));
        ("target_basis", JStr (PriceBasis_str (tg_target_basis r)));
        ("target_revision_policy", JStr (tg_target_revision_policy r));
        ("target_start_time", iso (tg_target_start_time r));
        ("target_end_time", iso (tg_target_end_time r));
        ("target_freeze_at", iso (tg_target_freeze_at r));
        ("target_available_at", iso (tg_target_available_at r));
        ("label_start_close", opt_json (λ d, JStr (dec_str d)) (tg_label_start_close r));
        ("label_end_close", opt_json (λ d, JStr (dec_str d)) (tg_label_end_close r));
        ("log_return", opt_json float_json (tg_log_return r));
        ("return_disposition", JStr (ReturnDisposition_str (tg_return_disposition r)));
        ("start_event_id", opt_json (λ u, JStr (uuid_text u)) (tg_start_event_id r));
        ("end_event_id", opt_json (λ u, JStr (uuid_text u)) (tg_end_event_id r));
        ("upper_log_excursion", opt_json float_json (tg_upper_log_excursion r));
        ("lower_log_excursion", opt_json float_json (tg_lower_log_excursion r));
        ("excursion_disposition", JStr (ExcursionDisposition_str (tg_excursion_disposition r)))].

(** Horizons compare by their seconds, as the durations themselves do. *)
Definition _target_key (r : TargetRow) : string * Z * Z * string :=
  (tg_instrument_id r, instant (tg_decision_time r), tg_horizon r, PriceBasis_str (tg_target_basis r)).

Definition _target_dataset_chunks (rows : list TargetRow) : string → string → list string :=
  foundation_chunks TARGET_DATASET_CONTRACT (map TargetRow_as_json rows).
Definition _target_dataset_identity (rows : list TargetRow) (observation configuration : string) : string :=
  digest_chunks (_target_dataset_chunks rows observation configuration).

Record TargetDataset : Type := mkTargets {
  td_rows : list TargetRow;
  td_observation_dataset_id : string;
  td_foundation_configuration_id : string;
  td_dataset_id : string }.

(** [tuple(sorted(rows, key=key)) == rows]: the sort is stable, so the rows are their
    sorted copy exactly when their keys are. *)
Definition sorted_by {A K} `{PyOrder K, EqDecision K} (key : A → K) (rows : list A) : bool :=
  bool_decide (py_sorted id (map key rows) = map key rows).

Definition TargetDataset_post_init (t : TargetDataset) (verified : bool) : res unit :=
  raise_if (negb (sorted_by _target_key (td_rows t))) (ValueError "target rows must use deterministic ordering");;
  if verified then Ok tt
  else raise_if (negb (String.eqb (td_dataset_id t)
                   (_target_dataset_identity (td_rows t) (td_observation_dataset_id t) (td_foundation_configuration_id t))))
                (ValueError "target dataset ID does not match its semantic rows").

Definition TargetDataset_create (rows : list TargetRow) (observation configuration : string) : res TargetDataset :=
  let ordered := py_sorted _target_key rows in
  let t := mkTargets ordered observation configuration (_target_dataset_identity ordered observation configuration) in
  TargetDataset_post_init t true;; Ok t.

Definition TargetDataset_from_verified_rows (rows : list TargetRow) (observation configuration dataset_id : string)
    : res TargetDataset :=
  raise_if (negb (String.eqb dataset_id (_target_dataset_identity rows observation configuration)))
           (ValueError "target dataset ID does not authenticate its rows");;
  let t := mkTargets rows observation configuration dataset_id in
  TargetDataset_post_init t true;; Ok t.

(** ** What a valid configuration guarantees *)

Lemma require_all_Ok {A} (test : A → bool) error l u :
  require_all test error l = Ok u ↔ Forall (λ x, test x = true) l.
Proof.
  unfold require_all. destruct u. induction l as [|x l IH]; cbn; [split; [constructor|done]|].
  rewrite bind_Ok, Forall_cons, <- IH. split.
  - intros ([] & Hx%raise_if_Ok & H). by apply negb_false_iff in Hx.
  - intros [Hx H]. exists tt. by rewrite Hx.
Qed.

Lemma _require_interval_Ok a b f u : _require_interval a b f = Ok u → is_utc a ∧ is_utc b ∧ instant a < instant b.
Proof.
  unfold _require_interval. intros H. res_inv.
  repeat match goal with H : require_utc _ _ = Ok _ |- _ => apply require_utc_Ok in H as [? _] end.
  split; [done|]. split; [done|]. time_solve.
Qed.

Record config_facts (c : FoundationConfig) : Prop := {
  cf_observation_id : is_sha256 (fc_observation_dataset_id c) = true;
  cf_instruments_NoDup : NoDup (fc_ordered_instruments c);
  cf_instruments : ∀ i, i ∈ fc_ordered_instruments c → nonempty i = true;
  cf_start_utc : is_utc (fc_range_start c);
  cf_end_utc : is_utc (fc_range_end c);
  cf_range : instant (fc_range_start c) < instant (fc_range_end c);
  cf_grid : fc_grid_resolution c = minutes 1;
  cf_holdout_utc : is_utc (fc_holdout_range c).1 ∧ is_utc (fc_holdout_range c).2;
  cf_holdout : instant (fc_range_start c) <= instant (fc_holdout_range c).1;
  cf_holdout_positive : instant (fc_holdout_range c).1 < instant (fc_holdout_range c).2;
  cf_holdout_end : instant (fc_holdout_range c).2 = instant (fc_range_end c);
  cf_lag : 0 <= fc_selected_feature_lag c;
  cf_delay : 0 <= fc_target_revision_delay c;
  cf_embargo : 0 <= fc_embargo c;
  cf_horizons : ∀ h, h ∈ fc_target_horizons c → 0 < h;
  cf_primary : fc_primary_vertical_horizon c ∈ fc_target_horizons c;
  cf_bases : fc_required_feature_bases c = [MID];
  cf_basis : fc_target_basis c = MID;
  cf_training : 0 < fc_minimum_training_duration c;
  cf_validation : 0 < fc_minimum_validation_duration c }.

Lemma existsb_eqb (x : Z) l : existsb (Z.eqb x) l = true ↔ x ∈ l.
Proof.
  rewrite existsb_exists. setoid_rewrite Z.eqb_eq. setoid_rewrite <- list_elem_of_In. naive_solver.
Qed.

Lemma config_ok_facts c : config_ok c → config_facts c.
Proof.
  unfold config_ok, FoundationConfig_post_init. intros H. res_inv.
  repeat match goal with
  | H : _require_interval _ _ _ = Ok _ |- _ => apply _require_interval_Ok in H as (? & ? & ?)
  | H : require_all _ _ _ = Ok _ |- _ => apply require_all_Ok in H
  | H : has_duplicates _ = false |- _ => apply has_duplicates_false in H
  end.
  bool_prop.
  repeat match goal with H : Forall _ (_ :: _) |- _ => apply Forall_cons in H as [? ?] end. cbn [fst snd] in *.
  unfold dt_ltb, dt_eqb in *. bool_prop.
  constructor; try done; try lia.
  - intros i Hi. match goal with H : Forall (λ x, canonical_instrument x = true) _ |- _ => rewrite Forall_forall in H; specialize (H i Hi) end.
    unfold canonical_instrument in *. bool_prop. done.
  - intros h Hh. match goal with H : forallb _ _ = true |- _ => rewrite forallb_forall in H; specialize (H h) end.
    match goal with H : In h _ → _ |- _ => rewrite <- list_elem_of_In in H; specialize (H Hh); apply existsb_eqb in H;
      cbn in H end.
    unfold minutes, seconds in *. set_solver by lia.
  - by apply existsb_eqb.
Qed.
