(* ===== verification/FoundationBuild.v ===== *)
(** Builders of the causal panel and of the frozen midpoint targets
    ([application/foundation.py]), and what makes them causal: a cell or a target
    depends on no observation that became available after its cutoff. *)

From S2P Require Import Prelude PySorted PyStr PyTime PyDecimal PyJson PyParse Domain Storage PyFloat Research Foundation.

(** ** Observations by interval end *)

Notation obs_key := (string * PriceBasis * Z)%type.
Definition index_key (r : ObservationRow) : obs_key := (ob_instrument_id r, ob_basis r, instant (ob_interval_end r)).
Definition add_observation (m : gmap obs_key (list ObservationRow)) (r : ObservationRow) :=
  <[index_key r := default [] (m !! index_key r) ++ [r]]> m.
Definition _observation_index (rows : list ObservationRow) : gmap obs_key (list ObservationRow) :=
  fold_left add_observation rows ∅.
(** [index.get((instrument, basis, time), ())] *)
Definition index_get (m : gmap obs_key (list ObservationRow)) (instrument : string) (basis : PriceBasis)
    (time : datetime) : list ObservationRow := default [] (m !! (instrument, basis, instant time)).

Definition observation_availability_time (r : ObservationRow) (basis : AvailabilityBasis) : datetime :=
  match basis with PERSISTED_AT => ob_persisted_at r | RECEIVED_AT => ob_received_at r end.
Definition available_by (basis : AvailabilityBasis) (t : datetime) (r : ObservationRow) : bool :=
  dt_leb (observation_availability_time r basis) t.

Definition _revision_key (r : ObservationRow) : Z * Z := (ob_revision r, ob_global_position r).
Definition _source_key (r : ObservationRow) : string * string * string :=
  (ob_source_provider r, ob_source_environment r, ob_source_external_id r).
(** [len({_source_key(row) for row in rows}) > 1] *)
Definition several_sources (rows : list ObservationRow) : bool :=
  (1 <? size (list_to_set (map _source_key rows) : gset (string * string * string)))%nat.

(** [max(rows, key=_revision_key, default=None)]: the first of the greatest. *)
Definition later_revision (best r : ObservationRow) : ObservationRow :=
  if pylt (_revision_key best) (_revision_key r) then r else best.
Definition latest_revision (rows : list ObservationRow) : option ObservationRow :=
  match rows with [] => None | r :: l => Some (fold_left later_revision l r) end.

(** ** Decision times *)

(** [while current < end: append(current); current += resolution] *)
Fixpoint grid_loop (fuel : nat) (current end_ : datetime) (resolution : timedelta) : list datetime :=
  match fuel with
  | O => []
  | S fuel => if dt_ltb current end_ then current :: grid_loop fuel (dt_add current resolution) end_ resolution
              else []
  end.
Definition grid_fuel (current end_ : datetime) (resolution : timedelta) : nat :=
  Z.to_nat (dt_diff end_ current / resolution + 1).
Definition _grid_times (start end_ : datetime) (resolution : timedelta) : list datetime :=
  grid_loop (grid_fuel start end_ resolution) start end_ resolution.

Notation interval := (datetime * datetime)%type.
Notation intervals_by_instrument := (gmap string (list interval)).

(** The merge of one instrument's intervals; [merged] is kept newest first. *)
Definition merge_interval (merged : list interval) (i : interval) : list interval :=
  if dt_leb i.2 i.1 then merged
  else match merged with
       | previous :: rest =>
           if dt_leb i.1 previous.2 then (previous.1, dt_max previous.2 i.2) :: rest else i :: merged
       | [] => [i]
       end.
Definition interval_order (i : interval) : Z * Z := (instant i.1, instant i.2).
Definition merge_intervals (raw : list interval) : list interval :=
  rev (fold_left merge_interval (py_sorted interval_order raw) []).
Definition _normalise_active_intervals (m : intervals_by_instrument) : intervals_by_instrument :=
  merge_intervals <$> m.

(** Times of one interval on the grid that starts at [start]. *)
Definition interval_grid_times (start end_ : datetime) (resolution : timedelta) (i : interval) : list datetime :=
  let window_start := dt_max start i.1 in
  let window_end := dt_min end_ i.2 in
  if dt_leb window_end window_start then []
  else
    let steps := dt_diff window_start start / resolution in
    let current := dt_add start (steps * resolution) in
    let current := if dt_ltb current window_start then dt_add current resolution else current in
    grid_loop (grid_fuel current window_end resolution) current window_end resolution.

Definition _active_grid_times (m : intervals_by_instrument) (instruments : list string)
    (start end_ : datetime) (resolution : timedelta) : list datetime :=
  let active_times : gset datetime :=
    list_to_set (concat (map (λ i, concat (map (interval_grid_times start end_ resolution) (default [] (m !! i))))
                             instruments)) in
  py_sorted instant (elements active_times).

(** ** Lineage of the inputs *)

Definition _configuration_time (dataset : ObservationDataset) (field : string) : res datetime :=
  value ← dict_item field (od_configuration dataset);
  match value with
  | JStr text =>
      parsed ← fromisoformat (replace "Z" "+00:00" text);
      match dt_offset parsed with
      | None => Raise (ValueError ("observation configuration " +:+ field +:+ " must be timezone-aware"))
      | Some _ => Ok parsed
      end
  | _ => Raise (TypeError ("observation configuration " +:+ field +:+ " must be an ISO-8601 timestamp"))
  end.

Definition as_str (v : json) : option string := match v with JStr s => Some s | _ => None end.

Definition _require_dataset (dataset : ObservationDataset) (config : FoundationConfig) : res unit :=
  raise_if (negb (String.eqb (od_dataset_id dataset) (fc_observation_dataset_id config)))
           (ValueError "observation dataset does not match foundation configuration");;
  raw_instruments ← dict_item "ordered_instruments" (od_configuration dataset);
  match raw_instruments with
  | JList l =>
      match mapM as_str l with
      | Some instruments =>
          raise_if (negb (bool_decide (instruments = fc_ordered_instruments config)))
                   (ValueError "observation instrument universe does not match foundation configuration");;
          source_start ← _configuration_time dataset "interval_start";
          source_end ← _configuration_time dataset "interval_end";
          raise_if (dt_ltb (required_observation_start config) source_start)
                   (ValueError "observation dataset starts after the foundation's required source bound");;
          raise_if (dt_ltb source_end (required_observation_end config))
                   (ValueError "observation dataset ends before the foundation's required source bound")
      | None => Raise (TypeError "observation ordered instruments must be an array of strings")
      end
  | _ => Raise (TypeError "observation ordered instruments must be an array of strings")
  end.

(** ** The panel *)

Definition _missing_panel_row (decision_time : datetime) (instrument_id : string) (basis : PriceBasis)
    (feature_data_asof latest_feature_bar_end : datetime) (audit : PanelAuditDisposition) : PanelRow :=
  mkPanelRow decision_time instrument_id basis feature_data_asof latest_feature_bar_end MISSING_AS_OF_CUTOFF
    (Some audit) None None None None None None None None None None None None None.

Definition _panel_audit_disposition (candidates : list ObservationRow) (instrument_id : string)
    (interval_start interval_end feature_data_asof : datetime) (gaps : list DataGap)
    (active : intervals_by_instrument) : PanelAuditDisposition :=
  if several_sources candidates then AMBIGUOUS_OR_INVALID_SOURCE
  else if negb (Nat.eqb (length candidates) 0) then EVENTUALLY_OBSERVED_LATE
  else
    let matching := List.filter (λ g, String.eqb (g_instrument_id g) instrument_id
                                      && dt_ltb (g_interval_start g) interval_end
                                      && dt_ltb interval_start (g_interval_end g)) gaps in
    if existsb (λ g, dt_leb (g_detected_at g) feature_data_asof) matching then RECORDED_GAP_KNOWN_BY_CUTOFF
    else if negb (Nat.eqb (length matching) 0) then RECORDED_GAP_DETECTED_LATER
    else match active !! instrument_id with
         | Some intervals =>
             if negb (existsb (λ i : interval, dt_leb i.1 interval_start && dt_leb interval_end i.2) intervals)
             then SOURCE_NOT_ACTIVE else NO_NATIVE_EVIDENCE
         | None => NO_NATIVE_EVIDENCE
         end.

Definition observed_panel_row (decision_time : datetime) (instrument_id : string) (basis : PriceBasis)
    (feature_data_asof latest_feature_bar_end : datetime) (availability : AvailabilityBasis)
    (selected : ObservationRow) : PanelRow :=
  mkPanelRow decision_time instrument_id basis feature_data_asof latest_feature_bar_end OBSERVED None
    (Some (ob_event_id selected)) (Some (ob_stream_version selected)) (Some (ob_global_position selected))
    (Some (observation_availability_time selected availability)) (Some (ob_revision selected))
    (Some (ob_interval_start selected)) (Some (ob_interval_end selected))
    (Some (ob_open selected)) (Some (ob_high selected)) (Some (ob_low selected)) (Some (ob_close selected))
    (Some (ob_sample_count selected)) (Some (ob_quality selected)).

(** The body of the three nested loops of [build_asof_panel]. *)
Definition panel_cell (config : FoundationConfig) (index : gmap obs_key (list ObservationRow))
    (gaps : list DataGap) (active : intervals_by_instrument)
    (decision_time : datetime) (instrument_id : string) (basis : PriceBasis) : PanelRow :=
  let feature_data_asof := decision_time in
  let latest_feature_bar_end := dt_sub decision_time (fc_selected_feature_lag config) in
  let interval_start := dt_sub latest_feature_bar_end (fc_grid_resolution config) in
  let candidates := index_get index instrument_id basis latest_feature_bar_end in
  let eligible := List.filter (available_by (fc_availability_basis config) feature_data_asof) candidates in
  let missing := _missing_panel_row decision_time instrument_id basis feature_data_asof latest_feature_bar_end in
  if several_sources eligible then missing AMBIGUOUS_OR_INVALID_SOURCE
  else match latest_revision eligible with
       | Some selected =>
           observed_panel_row decision_time instrument_id basis feature_data_asof latest_feature_bar_end
             (fc_availability_basis config) selected
       | None =>
           missing (_panel_audit_disposition candidates instrument_id interval_start latest_feature_bar_end
                      feature_data_asof gaps active)
       end.

Definition decision_times (config : FoundationConfig) (active : option intervals_by_instrument) : list datetime :=
  match active with
  | None => _grid_times (fc_range_start config) (fc_range_end config) (fc_grid_resolution config)
  | Some active => _active_grid_times active (fc_ordered_instruments config)
                     (fc_range_start config) (fc_range_end config) (fc_grid_resolution config)
  end.

(** Every (decision time, instrument, basis) in the order the loops visit them. *)
Definition panel_keys (config : FoundationConfig) (active : option intervals_by_instrument)
    : list (datetime * string * PriceBasis) :=
  t ← decision_times config active;
  i ← fc_ordered_instruments config;
  b ← fc_required_feature_bases config;
  [(t, i, b)].

Definition build_asof_panel (dataset : ObservationDataset) (config : FoundationConfig) (gaps : list DataGap)
    (source_active_intervals : option intervals_by_instrument) : res PanelDataset :=
  _require_dataset dataset config;;
  let active := _normalise_active_intervals <$> source_active_intervals in
  let index := _observation_index (od_rows dataset) in
  rows ← traverse (λ k : datetime * string * PriceBasis,
                     PanelRow_new (panel_cell config index gaps (default ∅ active) k.1.1 k.1.2 k.2))
                  (panel_keys config active);
  PanelDataset_create rows (od_dataset_id dataset) (configuration_id config).

(** ** The targets *)

Definition _select_target_row (candidates : list ObservationRow) (freeze_at : datetime)
    (availability : AvailabilityBasis) : option ObservationRow * string :=
  let eligible := List.filter (available_by availability freeze_at) candidates in
  if several_sources eligible then (None, "AMBIGUOUS")
  else match latest_revision eligible with
       | Some r => (Some r, "OBSERVED")
       | None => (None, if Nat.eqb (length candidates) 0 then "MISSING" else "UNAVAILABLE")
       end.

Definition _return_disposition (start_row : option ObservationRow) (start_state : string)
    (end_row : option ObservationRow) (end_state : string) : ReturnDisposition :=
  if String.eqb start_state "AMBIGUOUS" || String.eqb end_state "AMBIGUOUS" then RET_AMBIGUOUS_SOURCE
  else match start_row, end_row with
       | None, _ => if String.eqb start_state "UNAVAILABLE" then UNAVAILABLE_BY_FREEZE else RET_MISSING_START
       | Some _, None => if String.eqb end_state "UNAVAILABLE" then UNAVAILABLE_BY_FREEZE else RET_MISSING_END
       | Some s, Some e =>
           if dec_leb (ob_close s) dec_zero then NON_POSITIVE_START
           else if dec_leb (ob_close e) dec_zero then NON_POSITIVE_END
           else RET_VALID
       end.

(** [bisect.bisect_right] on a list that ascends by [key]. *)
Fixpoint bisect_loop (fuel : nat) (l : list datetime) (x : datetime) (lo hi : nat) : nat :=
  match fuel with
  | O => lo
  | S fuel =>
      if (lo <? hi)%nat then
        let mid := Nat.div2 (lo + hi) in
        match l !! mid with
        | Some a => if dt_ltb x a then bisect_loop fuel l x lo mid else bisect_loop fuel l x (S mid) hi
        | None => lo
        end
      else lo
  end.
Definition bisect_right (l : list datetime) (x : datetime) : nat :=
  bisect_loop (length l) l x 0 (length l).

(** Whether the decision time lies in one of the merged active intervals. *)
Definition in_active (intervals : list interval) (decision_time : datetime) : bool :=
  match bisect_right (map fst intervals) decision_time with
  | O => false
  | S i => match intervals !! i with
           | Some iv => dt_leb iv.1 decision_time && dt_ltb decision_time iv.2
           | None => false
           end
  end.

Section targets.
(** The C library's [log], of positive arguments. *)
Variable math_log : pyfloat → pyfloat.

(** [math.log(x)] *)
Definition py_log (x : pyfloat) : res pyfloat :=
  if f_leb x f_zero then Raise (ValueError "expected a positive input") else Ok (math_log x).

Definition _log_ratio (numerator denominator : Decimal) : res pyfloat :=
  raise_if (dec_leb numerator dec_zero || dec_leb denominator dec_zero)
           (ValueError "log return prices must be finite and positive");;
  ratio ← dec_div numerator denominator;
  value ← py_log (float_of_Decimal ratio);
  raise_if (negb (isfinite value)) (ValueError "log return must be finite");;
  Ok value.

Definition _log_return (start end_ : option Decimal) : res pyfloat :=
  match start, end_ with
  | Some s, Some e => _log_ratio e s
  | _, _ => Raise (ValueError "log return requires both endpoint prices")
  end.

(** The path of selected bars, or why there is none. *)
Fixpoint path_loop (fuel : nat) (select : datetime → option ObservationRow * string)
    (current end_time : datetime) (resolution : timedelta) (path : list ObservationRow)
    : list ObservationRow + ExcursionDisposition :=
  match fuel with
  | O => inl (rev path)
  | S fuel =>
      if dt_leb current end_time then
        match select current with
        | (selected, state) =>
            if String.eqb state "AMBIGUOUS" then inr EXC_AMBIGUOUS_SOURCE
            else match selected with
                 | None => inr INCOMPLETE_PATH
                 | Some r => path_loop fuel select (dt_add current resolution) end_time resolution (r :: path)
                 end
        end
      else inl (rev path)
  end.
Definition path_fuel (start_time end_time : datetime) (resolution : timedelta) : nat :=
  Z.to_nat (dt_diff end_time start_time / resolution + 1).

(** [max(generator)] and [min(generator)] over floats; both raise on an empty path. *)
Definition float_extremum (pick : pyfloat → pyfloat → pyfloat) (l : list (res pyfloat)) : res pyfloat :=
  match l with
  | [] => Raise (ValueError "iterable argument is empty")
  | x :: l => x0 ← x; for_each (λ m y, v ← y; Ok (pick m v)) x0 l
  end.

Definition _excursions (index : gmap obs_key (list ObservationRow)) (instrument_id : string) (basis : PriceBasis)
    (start_time end_time freeze_at : datetime) (availability : AvailabilityBasis)
    (start_row end_row : option ObservationRow) (disposition : ReturnDisposition) (grid_resolution : timedelta)
    : option pyfloat * option pyfloat * ExcursionDisposition :=
  if bool_decide (disposition = RET_MISSING_START ∨ disposition = UNAVAILABLE_BY_FREEZE)
  then (None, None, EXC_MISSING_START)
  else if bool_decide (disposition = RET_MISSING_END) then (None, None, EXC_MISSING_END)
  else if bool_decide (disposition = RET_AMBIGUOUS_SOURCE) then (None, None, EXC_AMBIGUOUS_SOURCE)
  else match start_row, end_row with
       | Some s, Some _ =>
           if dec_leb (ob_close s) dec_zero then (None, None, INCOMPLETE_PATH)
           else
             match path_loop (path_fuel start_time end_time grid_resolution)
                     (λ current, _select_target_row (index_get index instrument_id basis current) freeze_at availability)
                     (dt_add start_time grid_resolution) end_time grid_resolution [] with
             | inr d => (None, None, d)
             | inl path =>
                 match float_extremum f_max (map (λ r, _log_ratio (ob_high r) (ob_close s)) path),
                       float_extremum f_min (map (λ r, _log_ratio (ob_low r) (ob_close s)) path) with
                 | Ok upper, Ok lower => (Some upper, Some lower, EXC_VALID)
                 | _, _ => (None, None, INCOMPLETE_PATH)
                 end
             end
       | _, _ => (None, None, INCOMPLETE_PATH)
       end.

(** The row of one instrument, decision time and horizon. *)
Definition target_row (config : FoundationConfig) (index : gmap obs_key (list ObservationRow))
    (instrument_id : string) (decision_time : datetime) (horizon : timedelta) : res TargetRow :=
  let target_end := dt_add decision_time horizon in
  let freeze_at := dt_add target_end (fc_target_revision_delay config) in
  let basis := fc_target_basis config in
  let availability := fc_availability_basis config in
  let '(start_row, start_state) :=
    _select_target_row (index_get index instrument_id basis decision_time) freeze_at availability in
  let '(end_row, end_state) :=
    _select_target_row (index_get index instrument_id basis target_end) freeze_at availability in
  let disposition := _return_disposition start_row start_state end_row end_state in
  let label_start := ob_close <$> start_row in
  let label_end := ob_close <$> end_row in
  log_return ← (if bool_decide (disposition = RET_VALID)
                then v ← _log_return label_start label_end; Ok (Some v) else Ok None);
  let '(upper, lower, excursion) :=
    _excursions index instrument_id basis decision_time target_end freeze_at availability
      start_row end_row disposition (fc_grid_resolution config) in
  TargetRow_new (mkTarget instrument_id decision_time horizon basis (fc_target_revision_policy config)
    decision_time target_end freeze_at freeze_at label_start label_end log_return disposition
    (ob_event_id <$> start_row) (ob_event_id <$> end_row) upper lower excursion).

(** The (instrument, decision time, horizon) triples for which a row is emitted, in loop order. *)
Definition target_keys (config : FoundationConfig) (horizons : list timedelta)
    (active : option intervals_by_instrument) : list (string * datetime * timedelta) :=
  let instruments := List.filter (λ i, bool_decide (fc_instrument_roles config !! i = Some TARGET))
                                 (fc_ordered_instruments config) in
  let start := fc_range_start config in let end_ := fc_range_end config in
  let times i := match active with
                 | None => _grid_times start end_ (fc_grid_resolution config)
                 | Some active => _active_grid_times active [i] start end_ (fc_grid_resolution config)
                 end in
  let emitted i t := match active with
                     | None => true
                     | Some active => in_active (default [] (active !! i)) t
                     end in
  i ← instruments;
  t ← times i;
  h ← (if emitted i t then horizons else []);
  [(i, t, h)].

Definition build_frozen_targets (dataset : ObservationDataset) (config : FoundationConfig)
    (horizons : option (list timedelta)) (source_active_intervals : option intervals_by_instrument)
    : res TargetDataset :=
  _require_dataset dataset config;;
  let selected := default [fc_primary_vertical_horizon config] horizons in
  raise_if (Nat.eqb (length selected) 0
            || existsb (λ h, negb (existsb (Z.eqb h) (fc_target_horizons config))) selected)
           (ValueError "target builder received a horizon absent from the foundation configuration");;
  raise_if (has_duplicates selected) (ValueError "target builder horizons must be unique");;
  let index := _observation_index (od_rows dataset) in
  let active := _normalise_active_intervals <$> source_active_intervals in
  rows ← traverse (λ k : string * datetime * timedelta, target_row config index k.1.1 k.1.2 k.2)
                  (target_keys config selected active);
  TargetDataset_create rows (od_dataset_id dataset) (configuration_id config).

End targets.

(** ** Coverage *)

Record HorizonCoverageSummary : Type := mkCoverage {
  hc_horizon : timedelta;
  hc_total_target_count : Z;
  hc_valid_return_count : Z;
  hc_valid_excursion_count : Z;
  hc_unavailable_by_freeze_count : Z;
  hc_return_coverage : pyfloat;
  hc_excursion_coverage : pyfloat;
  hc_return_disposition_counts : list (string * Z);
  hc_excursion_disposition_counts : list (string * Z) }.

Definition sum_counts (l : list (string * Z)) : Z := foldr (λ p s, p.2 + s) 0 l.

Definition HorizonCoverageSummary_post_init (s : HorizonCoverageSummary) : res unit :=
  raise_if (hc_horizon s <=? 0) (ValueError "coverage horizon must be positive");;
  require_all (λ vf : Z * string, 0 <=? vf.1) (λ vf, ValueError (vf.2 +:+ " must not be negative"))
    [(hc_total_target_count s, "total target count"); (hc_valid_return_count s, "valid return count");
     (hc_valid_excursion_count s, "valid excursion count");
     (hc_unavailable_by_freeze_count s, "unavailable-by-freeze count")];;
  raise_if (hc_total_target_count s <? hc_valid_return_count s)
           (ValueError "valid return count exceeds total target count");;
  raise_if (hc_total_target_count s <? hc_valid_excursion_count s)
           (ValueError "valid excursion count exceeds total target count");;
  require_all (λ vf : pyfloat * string, isfinite vf.1 && unit_interval vf.1)
    (λ vf, ValueError (vf.2 +:+ " must be finite and between zero and one"))
    [(hc_return_coverage s, "return coverage"); (hc_excursion_coverage s, "excursion coverage")];;
  raise_if (negb (sum_counts (hc_return_disposition_counts s) =? hc_total_target_count s))
           (ValueError "return disposition counts do not cover all targets");;
  raise_if (negb (sum_counts (hc_excursion_disposition_counts s) =? hc_total_target_count s))
           (ValueError "excursion disposition counts do not cover all targets").

(** [Counter(names)] and its sorted items. *)
Definition count_of (name : string) (names : list string) : Z :=
  Z.of_nat (length (List.filter (String.eqb name) names)).
Definition counter_items (names : list string) : list (string * Z) :=
  map (λ n, (n, count_of n names)) (py_sorted id (remove_dups names)).

Definition coverage_of (rows : list TargetRow) (horizon : timedelta) : HorizonCoverageSummary :=
  let rows := List.filter (λ r, tg_horizon r =? horizon) rows in
  let returns := map (λ r, ReturnDisposition_str (tg_return_disposition r)) rows in
  let excursions := map (λ r, ExcursionDisposition_str (tg_excursion_disposition r)) rows in
  let total := Z.of_nat (length rows) in
  let valid_returns := count_of "VALID" returns in
  let valid_excursions := count_of "VALID" excursions in
  let share n := if total =? 0 then f_zero else float_ratio n total in
  mkCoverage horizon total valid_returns valid_excursions (count_of "UNAVAILABLE_BY_FREEZE" returns)
    (share valid_returns) (share valid_excursions) (counter_items returns) (counter_items excursions).

Definition summarise_horizon_coverage (dataset : TargetDataset) (config : FoundationConfig)
    (horizons : option (list timedelta)) : res (list HorizonCoverageSummary) :=
  raise_if (negb (String.eqb (td_observation_dataset_id dataset) (fc_observation_dataset_id config)))
           (ValueError "target dataset observation lineage does not match configuration");;
  raise_if (negb (String.eqb (td_foundation_configuration_id dataset) (configuration_id config)))
           (ValueError "target dataset configuration lineage does not match configuration");;
  let selected := default (fc_target_horizons config) horizons in
  raise_if (Nat.eqb (length selected) 0
            || existsb (λ h, negb (existsb (Z.eqb h) (fc_target_horizons config))) selected)
           (ValueError "coverage summary received an unconfigured horizon");;
  raise_if (has_duplicates selected) (ValueError "coverage summary horizons must be unique");;
  traverse (λ h, let s := coverage_of (td_rows dataset) h in HorizonCoverageSummary_post_init s;; Ok s) selected.

(** ** The index gives the rows of a key, in order *)

Lemma index_lookup (rows : list ObservationRow) (m : gmap obs_key (list ObservationRow)) k :
  default [] (fold_left add_observation rows m !! k)
  = default [] (m !! k) ++ List.filter (λ r, bool_decide (index_key r = k)) rows.
Proof.
  revert m. induction rows as [|r rows IH]; intros m; cbn [fold_left List.filter]; [by rewrite app_nil_r|].
  rewrite IH. unfold add_observation. case_bool_decide as E.
  - rewrite E, lookup_insert_eq. cbn. by rewrite <- app_assoc.
  - by rewrite lookup_insert_ne.
Qed.

Lemma index_get_filter rows i b t :
  index_get (_observation_index rows) i b t
  = List.filter (λ r, bool_decide (index_key r = (i, b, instant t))) rows.
Proof. unfold index_get, _observation_index. by rewrite index_lookup, lookup_empty. Qed.

(** What can be known at a time. *)
Definition visible (config : FoundationConfig) (t : datetime) (rows : list ObservationRow) : list ObservationRow :=
  List.filter (available_by (fc_availability_basis config) t) rows.

Lemma available_weaken basis t t' r : instant t <= instant t' → available_by basis t r = true → available_by basis t' r = true.
Proof. unfold available_by. intros. time_solve. Qed.

Lemma visible_earlier config t t' rows rows' : instant t' <= instant t →
  visible config t rows = visible config t rows' → visible config t' rows = visible config t' rows'.
Proof.
  unfold visible. intros Ht H. rewrite <- (filter_weaken _ (available_by (fc_availability_basis config) t) rows),
    <- (filter_weaken _ (available_by (fc_availability_basis config) t) rows'), H; [done|..];
    intros r; by apply available_weaken.
Qed.

(** The eligible candidates of a key depend on the visible rows alone. *)
Lemma eligible_visible config t rows rows' i b u : visible config t rows = visible config t rows' →
  List.filter (available_by (fc_availability_basis config) t) (index_get (_observation_index rows) i b u)
  = List.filter (available_by (fc_availability_basis config) t) (index_get (_observation_index rows') i b u).
Proof. unfold visible. intros H. rewrite !index_get_filter, !(filter_comm (available_by _ _)). by rewrite H. Qed.

(** ** Panel cells *)

(** The same experiment over other observations. *)
Definition with_observations (c : FoundationConfig) (dataset_id : string) : FoundationConfig :=
  mkConfig (fc_name c) (fc_schema_version c) dataset_id (fc_ordered_instruments c) (fc_instrument_roles c)
    (fc_range_start c) (fc_range_end c) (fc_grid_resolution c) (fc_availability_basis c)
    (fc_feature_lag_policy c) (fc_feature_lag_calibration_range c) (fc_feature_lag_percentile c)
    (fc_feature_lag_safety_margin c) (fc_selected_feature_lag c) (fc_target_horizons c)
    (fc_primary_vertical_horizon c) (fc_target_revision_delay c) (fc_target_revision_policy c)
    (fc_target_revision_policy_reason c) (fc_required_feature_bases c) (fc_target_basis c) (fc_fold_policy c)
    (fc_holdout_range c) (fc_embargo c) (fc_minimum_training_duration c) (fc_minimum_validation_duration c).

(** A cell without its retrospective metadata. *)
Definition erase_audit (r : PanelRow) : PanelRow :=
  mkPanelRow (pr_decision_time r) (pr_instrument_id r) (pr_basis r) (pr_feature_data_asof r)
    (pr_latest_feature_bar_end r) (pr_status r) None (pr_selected_event_id r) (pr_selected_stream_version r)
    (pr_selected_global_position r) (pr_selected_availability_time r) (pr_selected_revision r)
    (pr_interval_start r) (pr_interval_end r) (pr_open r) (pr_high r) (pr_low r) (pr_close r)
    (pr_sample_count r) (pr_quality r).

Lemma panel_cell_causal config rows rows' gaps gaps' active dt i b :
  visible config dt rows = visible config dt rows' →
  erase_audit (panel_cell config (_observation_index rows) gaps active dt i b)
  = erase_audit (panel_cell config (_observation_index rows') gaps' active dt i b).
Proof.
  intros H. unfold panel_cell. rewrite (eligible_visible config dt rows rows') by done.
  by repeat case_match.
Qed.

Lemma panel_cell_key config index gaps active dt i b :
  let r := panel_cell config index gaps active dt i b in
  pr_decision_time r = dt ∧ pr_instrument_id r = i ∧ pr_basis r = b.
Proof. unfold panel_cell. cbn zeta. by repeat case_match. Qed.

Lemma traverse_same {A B} (f : A → res B) (g : A → B) l ys :
  (∀ x y, f x = Ok y → y = g x) → traverse f l = Ok ys → ys = map g l.
Proof.
  intros Hf Hys. apply traverse_Ok in Hys. induction Hys as [|x y l ys Hx _ IH]; [done|]. cbn.
  by rewrite (Hf x y Hx), IH.
Qed.

Lemma PanelDataset_create_rows rows o c p : PanelDataset_create rows o c = Ok p → pd_rows p = py_sorted _panel_key rows.
Proof. unfold PanelDataset_create. intros H. res_inv. done. Qed.

Definition cells (config : FoundationConfig) (rows : list ObservationRow) (gaps : list DataGap)
    (active : option intervals_by_instrument) : list PanelRow :=
  map (λ k : datetime * string * PriceBasis,
         panel_cell config (_observation_index rows) gaps (default ∅ active) k.1.1 k.1.2 k.2)
      (panel_keys config active).

(** A panel that is built holds one cell per key, in canonical order. *)
Lemma build_asof_panel_rows dataset config gaps active p :
  build_asof_panel dataset config gaps active = Ok p →
  pd_rows p = py_sorted _panel_key (cells config (od_rows dataset) gaps (_normalise_active_intervals <$> active)).
Proof.
  unfold build_asof_panel. intros H. res_inv. apply PanelDataset_create_rows in H as ->. f_equal.
  eapply traverse_same; [|eassumption]. cbn. intros k y Hy. unfold PanelRow_new in Hy. by res_inv.
Qed.

Definition decided_by (t : datetime) (r : PanelRow) : bool := dt_leb (pr_decision_time r) t.

Lemma decided_cell config index gaps active dt i b t :
  decided_by t (panel_cell config index gaps active dt i b) = dt_leb dt t.
Proof. unfold decided_by. by destruct (panel_cell_key config index gaps active dt i b) as (-> & _). Qed.

Lemma cells_causal config rows rows' gaps gaps' active t :
  visible config t rows = visible config t rows' →
  map erase_audit (List.filter (decided_by t) (cells config rows gaps active))
  = map erase_audit (List.filter (decided_by t) (cells config rows' gaps' active)).
Proof.
  intros H. unfold cells. induction (panel_keys config active) as [|k keys IH]; [done|]. cbn.
  rewrite !decided_cell.
  destruct (dt_leb k.1.1 t) eqn:Ek; [|done]. cbn. f_equal; [|done].
  apply panel_cell_causal. eapply visible_earlier; [|exact H]. time_solve.
Qed.

(** C2: the panel is causal. Two datasets that agree on everything available by a
    time give, under the same settings, the same panel up to that time: status,
    prices and lineage of every cell decided by then; later revisions, late bars
    and gap records only show in the retrospective audit disposition. *)
Theorem panel_causal config id1 id2 d1 d2 gaps1 gaps2 active p1 p2 t :
  build_asof_panel d1 (with_observations config id1) gaps1 active = Ok p1 →
  build_asof_panel d2 (with_observations config id2) gaps2 active = Ok p2 →
  visible config t (od_rows d1) = visible config t (od_rows d2) →
  map erase_audit (List.filter (decided_by t) (pd_rows p1))
  = map erase_audit (List.filter (decided_by t) (pd_rows p2)).
Proof.
  intros H1 H2 Hv. rewrite (build_asof_panel_rows _ _ _ _ _ H1), (build_asof_panel_rows _ _ _ _ _ H2).
  rewrite !filter_py_sorted, !(py_sorted_map _panel_key _panel_key erase_audit) by done. f_equal.
  by apply (cells_causal config).
Qed.

(** ** The grid *)

Lemma grid_loop_spec res end_ : 0 < res → ∀ fuel cur,
  instant end_ - instant cur <= Z.of_nat fuel * res →
  StronglySorted (λ a b, instant a < instant b) (grid_loop fuel cur end_ res) ∧
  ∀ t, t ∈ grid_loop fuel cur end_ res ↔ ∃ n, 0 <= n ∧ t = dt_add cur (n * res) ∧ instant t < instant end_.
Proof.
  intros Hres. induction fuel as [|fuel IH]; intros cur Hf; cbn [grid_loop].
  - split; [constructor|]. intros t. split; [set_solver|]. intros (n & Hn & -> & Ht). time_solve.
  - unfold dt_ltb. destruct (Z.ltb_spec (instant cur) (instant end_)) as [Hlt|Hge].
    + destruct (IH (dt_add cur res)) as [Hs Hin]; [rewrite instant_add; lia|]. split.
      * constructor; [done|]. apply Forall_forall. intros t (n & Hn & -> & _)%Hin. time_solve.
      * intros t. rewrite elem_of_cons, Hin. split.
        -- intros [->|(n & Hn & -> & Ht)].
           ++ exists 0. split; [done|]. split; [by destruct cur; unfold dt_add; cbn; rewrite Z.add_0_r|done].
           ++ exists (n + 1). split; [lia|]. split; [|done]. unfold dt_add. cbn. f_equal. lia.
        -- intros (n & Hn & -> & Ht). destruct (Z.eq_dec n 0) as [->|].
           ++ left. destruct cur. unfold dt_add. cbn. by rewrite Z.add_0_r.
           ++ right. exists (n - 1). split; [lia|]. split; [|done]. unfold dt_add. cbn. f_equal. lia.
    + split; [constructor|]. intros t. split; [set_solver|]. intros (n & Hn & -> & Ht). time_solve.
Qed.

Lemma grid_fuel_enough cur end_ res : 0 < res →
  instant end_ - instant cur <= Z.of_nat (grid_fuel cur end_ res) * res.
Proof.
  intros Hres. unfold grid_fuel, dt_diff. pose proof (Z_div_mod_eq_full (instant end_ - instant cur) res).
  pose proof (Z.mod_pos_bound (instant end_ - instant cur) res Hres).
  destruct (Z.leb_spec 0 ((instant end_ - instant cur) / res + 1)).
  - rewrite Z2Nat.id by done. nia.
  - rewrite Z2Nat.nonpos by lia. nia.
Qed.

(** The times of the loop, in ascending order: every whole step before the end. *)
Lemma grid_times_spec start end_ res : 0 < res →
  StronglySorted (λ a b, instant a < instant b) (_grid_times start end_ res) ∧
  ∀ t, t ∈ _grid_times start end_ res ↔ ∃ n, 0 <= n ∧ t = dt_add start (n * res) ∧ instant t < instant end_.
Proof. intros Hres. apply grid_loop_spec; [done|]. by apply grid_fuel_enough. Qed.

Lemma ascending_NoDup l : StronglySorted (λ a b, instant a < instant b) l → NoDup (map instant l).
Proof.
  induction 1 as [|t l _ IH Ht]; cbn; constructor; [|done].
  rewrite list_elem_of_fmap. intros (t' & E & Ht'). rewrite Forall_forall in Ht. specialize (Ht t' Ht'). lia.
Qed.

Lemma grid_loop_offset fuel cur end_ res t : t ∈ grid_loop fuel cur end_ res → dt_offset t = dt_offset cur.
Proof.
  revert cur. induction fuel as [|fuel IH]; intros cur; cbn; [set_solver|].
  destruct (dt_ltb cur end_); [|set_solver]. intros [->|Ht]%elem_of_cons; [done|]. by apply IH in Ht.
Qed.

Lemma decision_times_ok config active : config_facts config →
  Forall is_utc (decision_times config active) ∧ NoDup (map instant (decision_times config active)).
Proof.
  intros F. pose proof (cf_start_utc _ F) as Hu. unfold decision_times. destruct active as [active|].
  - assert (Forall is_utc (_active_grid_times active (fc_ordered_instruments config) (fc_range_start config)
              (fc_range_end config) (fc_grid_resolution config))) as Hutc.
    { apply Forall_forall. intros t. unfold _active_grid_times.
      rewrite elem_of_py_sorted, elem_of_elements, elem_of_list_to_set, list_elem_of_In.
      intros (l & Hl & Ht)%in_concat. apply in_map_iff in Hl as (i & <- & _).
      apply in_concat in Ht as (l & Hl & Ht). apply in_map_iff in Hl as (iv & <- & _).
      apply list_elem_of_In in Ht. revert Ht. unfold interval_grid_times. case_match; [set_solver|].
      intros Ht%grid_loop_offset. unfold is_utc. rewrite Ht. by case_match. }
    split; [done|]. apply NoDup_fmap_2_strong.
    + intros x y Hx Hy. rewrite Forall_forall in Hutc. apply is_utc_eq; by apply Hutc.
    + unfold _active_grid_times. rewrite py_sorted_NoDup. apply NoDup_elements.
  - destruct (grid_times_spec (fc_range_start config) (fc_range_end config) (fc_grid_resolution config)) as [Hs Hin].
    { by rewrite (cf_grid _ F). }
    split; [|by apply ascending_NoDup]. apply Forall_forall. intros t (n & _ & -> & _)%Hin. by apply is_utc_add.
Qed.

Lemma latest_revision_spec l r : latest_revision l = Some r →
  r ∈ l ∧ ∀ x, x ∈ l → pyle (_revision_key x) (_revision_key r) = true.
Proof.
  destruct l as [|y l]; [done|]. cbn. intros [= <-].
  assert (∀ y, (fold_left later_revision l y ∈ y :: l) ∧
            ∀ x, x ∈ y :: l → pyle (_revision_key x) (_revision_key (fold_left later_revision l y)) = true) as H; [|apply H].
  clear. induction l as [|z l IH]; intros y; cbn [fold_left].
  - split; [set_solver|]. intros x Hx. assert (x = y) as -> by set_solver. apply pyle_refl.
  - destruct (IH (later_revision y z)) as [Hin Hmax].
    assert (pyle (_revision_key y) (_revision_key (later_revision y z)) = true ∧
            pyle (_revision_key z) (_revision_key (later_revision y z)) = true) as [Hy Hz].
    { unfold later_revision. rewrite pylt_pyle. destruct (pyle (_revision_key z) (_revision_key y)) eqn:E; cbn.
      - split; [apply pyle_refl|done].
      - split; [by apply pyle_false|apply pyle_refl]. }
    split.
    + apply elem_of_cons in Hin as [->|Hin]; [|set_solver]. unfold later_revision. case_match; set_solver.
    + intros x [->|[->|Hx]%elem_of_cons]%elem_of_cons.
      * eapply pyle_trans; [exact Hy|]. apply Hmax. set_solver.
      * eapply pyle_trans; [exact Hz|]. apply Hmax. set_solver.
      * apply Hmax. set_solver.
Qed.
Lemma latest_revision_None l : latest_revision l = None → l = [].
Proof. by destruct l. Qed.

(** What the index and the cutoff say of the candidates that survive them. *)
Lemma eligible_spec config rows i b u t r :
  r ∈ List.filter (available_by (fc_availability_basis config) t) (index_get (_observation_index rows) i b u) ↔
  r ∈ rows ∧ ob_instrument_id r = i ∧ ob_basis r = b ∧ instant (ob_interval_end r) = instant u ∧
  instant (observation_availability_time r (fc_availability_basis config)) <= instant t.
Proof.
  rewrite index_get_filter, list_elem_of_In, !filter_In, bool_decide_eq_true, <- list_elem_of_In.
  unfold available_by, dt_leb, index_key. rewrite Z.leb_le. split; [intros [[? [= <- <- ?]] ?]; by repeat split|].
  by intros (? & <- & <- & -> & ?).
Qed.

Lemma panel_cell_valid config rows gaps active dt i b : 0 <= fc_selected_feature_lag config → is_utc dt →
  PanelRow_post_init (panel_cell config (_observation_index rows) gaps active dt i b) = Ok tt.
Proof.
  intros Hlag Hu. unfold panel_cell. cbn zeta.
  assert (is_utc (dt_sub dt (fc_selected_feature_lag config))) as Hu' by done.
  assert (dt_ltb dt (dt_sub dt (fc_selected_feature_lag config)) = false) as Hlt.
  { unfold dt_ltb. apply Z.ltb_ge. rewrite instant_sub. lia. }
  assert (∀ a, PanelRow_post_init (_missing_panel_row dt i b dt (dt_sub dt (fc_selected_feature_lag config)) a) = Ok tt) as Hm.
  { intros a. unfold PanelRow_post_init. cbn. by rewrite !require_utc_is_utc, Hlt. }
  case_match; [apply Hm|]. case_match eqn:Hsel; [|apply Hm].
  apply latest_revision_spec in Hsel as [Hin%eligible_spec _]. destruct Hin as (_ & _ & _ & He & Ha).
  unfold PanelRow_post_init. cbn. rewrite !require_utc_is_utc, Hlt by done. cbn.
  unfold dt_ltb, dt_eqb. rewrite He, Z.eqb_refl. by replace (_ <? _) with false by lia.
Qed.

Lemma scan_panel_total rows : StronglySorted (key_le _panel_key) rows → NoDup (map _panel_key rows) →
  ∀ s, (∀ k r, s.1 = Some k → r ∈ rows → pyle k (_panel_key r) = true) →
  (∀ r, r ∈ rows → _panel_key r ∉ s.2) → ∃ s', for_each scan_panel_row s rows = Ok s'.
Proof.
  induction 1 as [|r rows Hs IH Hr]; intros Hnd s Hprev Hseen; cbn; [eauto|].
  cbn in Hnd. apply NoDup_cons in Hnd as [Hnot Hnd]. unfold scan_panel_row.
  assert (match s.1 with Some p => pylt (_panel_key r) p | None => false end = false) as ->.
  { destruct s as [[k|] seen]; [|done]. cbn. rewrite pylt_pyle. cbn in Hprev. rewrite (Hprev k r); [done|done|set_solver]. }
  rewrite bool_decide_eq_false_2 by (apply Hseen; set_solver). cbn.
  apply IH; [done| |].
  - intros k r' [= <-] Hr'. rewrite Forall_forall in Hr. by apply Hr.
  - intros r' Hr'. cbn. rewrite not_elem_of_cons. split; [|apply Hseen; set_solver].
    intros E. apply Hnot. rewrite <- E. apply list_elem_of_fmap. eauto.
Qed.

Lemma PanelDataset_create_total rows o c : NoDup (map _panel_key rows) →
  ∃ p, PanelDataset_create rows o c = Ok p ∧ pd_rows p = py_sorted _panel_key rows.
Proof.
  intros Hnd. unfold PanelDataset_create, _validate_panel_rows.
  destruct (scan_panel_total (py_sorted _panel_key rows) (py_sorted_sorted _ rows)) with (s := (None : option (Z * string * string), [] : list (Z * string * string))) as [s' ->]; [| |set_solver|eauto].
  - by rewrite (Permutation_map _ (py_sorted_perm _panel_key rows)).
  - intros k r. done.
Qed.

Lemma cell_key_map config rows gaps active keys :
  map _panel_key (map (λ k : datetime * string * PriceBasis,
     panel_cell config (_observation_index rows) gaps active k.1.1 k.1.2 k.2) keys)
  = map (λ k, (instant k.1.1, k.1.2, PriceBasis_str k.2)) keys.
Proof.
  rewrite map_map. apply map_ext. intros [[t i] b]. unfold _panel_key. cbn.
  by destruct (panel_cell_key config (_observation_index rows) gaps active t i b) as (-> & -> & ->).
Qed.

Lemma elem_of_triples {A B C} (l : list A) (m : list B) (n : list C) x :
  x ∈ (a ← l; b ← m; c ← n; [(a, b, c)]) ↔ x.1.1 ∈ l ∧ x.1.2 ∈ m ∧ x.2 ∈ n.
Proof.
  destruct x as [[a b] c]. rewrite list_elem_of_bind. setoid_rewrite list_elem_of_bind.
  setoid_rewrite list_elem_of_bind. setoid_rewrite list_elem_of_singleton. cbn. naive_solver.
Qed.

Lemma panel_keys_NoDup config active : config_facts config →
  NoDup (map (λ k : datetime * string * PriceBasis, (instant k.1.1, k.1.2, PriceBasis_str k.2)) (panel_keys config active)).
Proof.
  intros F. destruct (decision_times_ok config active F) as [_ Ht]. pose proof (cf_instruments_NoDup _ F) as Hi.
  unfold panel_keys. rewrite (cf_bases _ F).
  assert (∀ (k : datetime * string * PriceBasis) (l : list datetime),
    k ∈ (t ← l; i ← fc_ordered_instruments config; b ← [MID]; [(t, i, b)]) → k.1.1 ∈ l) as Hfst.
  { intros k l H. apply elem_of_triples in H. tauto. }
  induction (decision_times config active) as [|t l IH]; [constructor|].
  cbn in Ht. apply NoDup_cons in Ht as [Hnt Ht]. change ((t :: l) ≫= ?f) with (f t ++ (l ≫= f)). rewrite map_app. apply NoDup_app. split_and!.
  - assert (fc_ordered_instruments config ≫= (λ i, [(t, i, MID)]) = map (λ i, (t, i, MID)) (fc_ordered_instruments config)) as E.
    { clear. induction (fc_ordered_instruments config) as [|i l IH]; [done|]. cbn. by f_equal. }
    cbn [mbind list_bind] in E. cbn. rewrite E, map_map. apply NoDup_fmap_2; [|done]. intros i j. by intros [= ->].
  - intros k Hk Hk'. apply list_elem_of_fmap in Hk as ([[t1 i1] b1] & -> & Hk).
    apply list_elem_of_fmap in Hk' as ([[t2 i2] b2] & [= Et _ _] & Hk').
    assert (t1 = t) as ->.
    { specialize (Hfst (t1, i1, b1) [t]). cbn in Hfst. rewrite app_nil_r in Hfst. set_solver. }
    apply Hfst in Hk'. apply Hnt, list_elem_of_fmap. eauto.
  - by apply IH.
Qed.

Lemma panel_cells_built config rows gaps active : config_facts config →
  traverse (λ k : datetime * string * PriceBasis,
    PanelRow_new (panel_cell config (_observation_index rows) gaps (default ∅ active) k.1.1 k.1.2 k.2))
    (panel_keys config active) = Ok (cells config rows gaps active).
Proof.
  intros F. apply traverse_Ok, Forall2_fmap_r, Forall_Forall2_diag, Forall_forall. intros k Hk. unfold PanelRow_new.
  rewrite panel_cell_valid; [done|apply (cf_lag _ F)|].
  destruct (decision_times_ok config active F) as [Hu _]. rewrite Forall_forall in Hu. apply Hu.
  apply elem_of_triples in Hk. tauto.
Qed.

Lemma panel_builds config dataset gaps active :
  config_facts config → _require_dataset dataset config = Ok tt →
  ∃ p, build_asof_panel dataset config gaps active = Ok p ∧
    pd_rows p = py_sorted _panel_key (cells config (od_rows dataset) gaps (_normalise_active_intervals <$> active)).
Proof.
  intros F Hreq. unfold build_asof_panel. rewrite Hreq. cbn [mbind res_bind].
  rewrite panel_cells_built by done. cbn [mbind res_bind].
  apply PanelDataset_create_total. unfold cells. rewrite cell_key_map. by apply panel_keys_NoDup.
Qed.


Lemma several_sources_false l : several_sources l = false ↔ ∀ x y, x ∈ l → y ∈ l → _source_key x = _source_key y.
Proof.
  unfold several_sources. rewrite Nat.ltb_ge. set (s := list_to_set _ : gset (string * string * string)).
  assert (∀ x, x ∈ l → _source_key x ∈ s) as Hin.
  { intros x Hx. apply elem_of_list_to_set, list_elem_of_fmap. eauto. }
  split.
  - intros Hs x y Hx%Hin Hy%Hin. destruct (decide (size s = 1%nat)) as [E|E]; [by apply (size_singleton_inv s)|].
    assert (size s = 0%nat) as E0 by lia. apply size_empty_inv in E0. set_solver.
  - intros H. destruct l as [|x l]; [by apply Nat.le_0_l|].
    assert (s ⊆ {[_source_key x]}) as Hsub.
    { intros k Hk. apply elem_of_list_to_set, list_elem_of_fmap in Hk as (y & -> & Hy).
      rewrite (H y x); set_solver. }
    apply subseteq_size in Hsub. by rewrite size_singleton in Hsub.
Qed.

(** The revisions of the bar a cell looks at that are visible at its decision time. *)
Definition cell_candidates (config : FoundationConfig) (rows : list ObservationRow) (r : PanelRow) : list ObservationRow :=
  List.filter (λ o, bool_decide (index_key o = (pr_instrument_id r, pr_basis r, instant (pr_latest_feature_bar_end r))))
    (visible config (pr_decision_time r) rows).

(** C27: an observed cell shows the latest revision that was visible: of the bar that
    ends one feature lag before the decision time, every revision available by the
    decision time comes from one source and none is later than the one selected,
    whose values and lineage the cell carries; a cell is missing exactly when no
    revision, or revisions of several sources, were visible. *)
Theorem panel_observes_latest config dataset gaps active p r :
  build_asof_panel dataset config gaps active = Ok p → r ∈ pd_rows p →
  let visible_bars := cell_candidates config (od_rows dataset) r in
  pr_feature_data_asof r = pr_decision_time r ∧
  pr_latest_feature_bar_end r = dt_sub (pr_decision_time r) (fc_selected_feature_lag config) ∧
  (pr_status r = MISSING_AS_OF_CUTOFF ↔ visible_bars = [] ∨ several_sources visible_bars = true) ∧
  (pr_status r = OBSERVED → ∃ o, o ∈ od_rows dataset ∧ o ∈ visible_bars ∧
     r = observed_panel_row (pr_decision_time r) (ob_instrument_id o) (ob_basis o) (pr_decision_time r)
           (pr_latest_feature_bar_end r) (fc_availability_basis config) o ∧
     instant (observation_availability_time o (fc_availability_basis config)) <= instant (pr_decision_time r) ∧
     ∀ o', o' ∈ visible_bars → _source_key o' = _source_key o ∧ pyle (_revision_key o') (_revision_key o) = true).
Proof.
  intros H Hr. rewrite (build_asof_panel_rows _ _ _ _ _ H), elem_of_py_sorted in Hr. clear H.
  apply list_elem_of_fmap in Hr as ([[dt i] b] & -> & _). cbn [fst snd].
  set (act := default ∅ _). unfold cell_candidates, visible.
  unfold panel_cell. cbn zeta.
  set (bars := List.filter _ (index_get _ i b _)).
  assert (List.filter (λ o, bool_decide (index_key o = (i, b, instant (dt_sub dt (fc_selected_feature_lag config)))))
            (List.filter (available_by (fc_availability_basis config) dt) (od_rows dataset)) = bars) as Hbars.
  { unfold bars. by rewrite index_get_filter, filter_comm. }
  destruct (several_sources bars) eqn:Hs; [|destruct (latest_revision bars) as [o|] eqn:Ho];
    cbn -[several_sources].
  - rewrite Hbars. split_and!; try done. split; [intros _; by right|done].
  - rewrite Hbars. split_and!; try done.
    + split; [done|]. intros [E|E]; [by rewrite E in Ho|by rewrite Hs in E].
    + intros _. apply latest_revision_spec in Ho as [Hin Hmax]. exists o.
      pose proof Hin as (Hin' & <- & <- & _ & Ha)%eligible_spec. split_and!; try done.
      intros o' Ho'. split; [|by apply Hmax]. rewrite several_sources_false in Hs. by apply Hs.
  - rewrite Hbars. split_and!; try done. split; [intros _; left; by apply latest_revision_None|done].
Qed.

(** ** Frozen targets *)

(** Whether an endpoint is missing or merely late cannot be told from what was
    visible at the freeze: the dispositions that say so are one class. *)
Definition blind_return (d : ReturnDisposition) : ReturnDisposition :=
  match d with UNAVAILABLE_BY_FREEZE | RET_MISSING_START | RET_MISSING_END => RET_MISSING_START | d => d end.
Definition blind_excursion (d : ExcursionDisposition) : ExcursionDisposition :=
  match d with EXC_MISSING_START | EXC_MISSING_END => EXC_MISSING_START | d => d end.
Definition blind (r : TargetRow) : TargetRow :=
  mkTarget (tg_instrument_id r) (tg_decision_time r) (tg_horizon r) (tg_target_basis r)
    (tg_target_revision_policy r) (tg_target_start_time r) (tg_target_end_time r) (tg_target_freeze_at r)
    (tg_target_available_at r) (tg_label_start_close r) (tg_label_end_close r) (tg_log_return r)
    (blind_return (tg_return_disposition r)) (tg_start_event_id r) (tg_end_event_id r)
    (tg_upper_log_excursion r) (tg_lower_log_excursion r) (blind_excursion (tg_excursion_disposition r)).

Definition select_same (a b : option ObservationRow * string) : Prop :=
  a.1 = b.1 ∧ String.eqb a.2 "AMBIGUOUS" = String.eqb b.2 "AMBIGUOUS".

Lemma select_causal config freeze rows rows' i b u : visible config freeze rows = visible config freeze rows' →
  select_same (_select_target_row (index_get (_observation_index rows) i b u) freeze (fc_availability_basis config))
              (_select_target_row (index_get (_observation_index rows') i b u) freeze (fc_availability_basis config)).
Proof.
  intros H. unfold _select_target_row. cbn zeta. rewrite (eligible_visible config freeze rows rows') by done.
  case_match; [done|]. case_match; [done|]. split; [done|]. cbn. by repeat case_match.
Qed.

Lemma return_disposition_blind s st st' e et et' :
  String.eqb st "AMBIGUOUS" = String.eqb st' "AMBIGUOUS" → String.eqb et "AMBIGUOUS" = String.eqb et' "AMBIGUOUS" →
  blind_return (_return_disposition s st e et) = blind_return (_return_disposition s st' e et').
Proof. intros Hs He. unfold _return_disposition. rewrite Hs, He. by repeat case_match. Qed.

Lemma path_loop_same f g fuel cur end_ res path : (∀ t, select_same (f t) (g t)) →
  path_loop fuel f cur end_ res path = path_loop fuel g cur end_ res path.
Proof.
  intros Hfg. revert cur path. induction fuel as [|fuel IH]; intros cur path; [done|]. cbn.
  case_match; [|done]. destruct (Hfg cur) as [E1 E2]. destruct (f cur) as [o s], (g cur) as [o' s']. cbn in *.
  subst o'. rewrite E2. case_match; [done|]. by case_match.
Qed.

Lemma excursions_blind math_log config freeze rows rows' i b s e d d' t u grid :
  visible config freeze rows = visible config freeze rows' → blind_return d = blind_return d' →
  let x := _excursions math_log (_observation_index rows) i b t u freeze (fc_availability_basis config) s e d grid in
  let y := _excursions math_log (_observation_index rows') i b t u freeze (fc_availability_basis config) s e d' grid in
  x.1 = y.1 ∧ blind_excursion x.2 = blind_excursion y.2 ∧ (x.2 = EXC_VALID ↔ y.2 = EXC_VALID).
Proof.
  intros Hv Hd. cbn zeta. unfold _excursions.
  rewrite (path_loop_same _ (λ current, _select_target_row (index_get (_observation_index rows') i b current) freeze
    (fc_availability_basis config)) (path_fuel t u grid) (dt_add t grid) u grid [])
    by (intros t'; by apply select_causal).
  destruct d, d'; try discriminate Hd; cbn; try done; by repeat case_match.
Qed.

Lemma target_row_blind math_log config rows rows' i dt h :
  visible config (dt_add (dt_add dt h) (fc_target_revision_delay config)) rows
  = visible config (dt_add (dt_add dt h) (fc_target_revision_delay config)) rows' →
  blind <$> target_row math_log config (_observation_index rows) i dt h
  = blind <$> target_row math_log config (_observation_index rows') i dt h.
Proof.
  intros Hv. unfold target_row. cbn zeta.
  set (freeze := dt_add (dt_add dt h) _) in *.
  pose proof (select_causal config freeze rows rows' i (fc_target_basis config) dt Hv) as [Es Ea].
  pose proof (select_causal config freeze rows rows' i (fc_target_basis config) (dt_add dt h) Hv) as [Ee Eb].
  destruct (_select_target_row (index_get (_observation_index rows) i (fc_target_basis config) dt) _ _) as [s st].
  destruct (_select_target_row (index_get (_observation_index rows') i (fc_target_basis config) dt) _ _) as [s' st'].
  destruct (_select_target_row (index_get (_observation_index rows) i (fc_target_basis config) (dt_add dt h)) _ _) as [e et].
  destruct (_select_target_row (index_get (_observation_index rows') i (fc_target_basis config) (dt_add dt h)) _ _) as [e' et'].
  cbn in Es, Ea, Ee, Eb. subst s' e'.
  pose proof (return_disposition_blind s st st' e et et' Ea Eb) as Hd.
  set (d := _return_disposition s st e et) in *. set (d' := _return_disposition s st' e et') in *. clearbody d d'.
  assert (bool_decide (d = RET_VALID) = bool_decide (d' = RET_VALID)) as Hvalid by (by destruct d, d').
  pose proof (excursions_blind math_log config freeze rows rows' i (fc_target_basis config) s e d d' dt (dt_add dt h)
    (fc_grid_resolution config) Hv Hd) as (E1 & E2 & E3).
  rewrite Hvalid. destruct (if bool_decide (d' = RET_VALID) then _ else _) as [ret|err]; [|done].
  destruct (_excursions _ _ _ _ _ _ _ _ s e d _) as [[up lo] x].
  destruct (_excursions _ _ _ _ _ _ _ _ s e d' _) as [[up' lo'] x'].
  cbn in E1, E2, E3. injection E1 as <- <-.
  assert (bool_decide (x = EXC_VALID) = bool_decide (x' = EXC_VALID)) as Hx by by apply bool_decide_ext.
  cbn [mbind res_bind]. unfold TargetRow_new, TargetRow_post_init. cbn. rewrite Hvalid, Hx.
  repeat match goal with |- _ <$> (?m ≫= _) = _ <$> (?m ≫= _) => destruct m; [cbn [mbind res_bind]|done] end.
  cbn. unfold blind. cbn. by rewrite Hd, E2.
Qed.

Lemma target_row_key math_log config index i dt h r : target_row math_log config index i dt h = Ok r →
  tg_instrument_id r = i ∧ tg_decision_time r = dt ∧ tg_horizon r = h ∧
  tg_target_freeze_at r = dt_add (dt_add dt h) (fc_target_revision_delay config) ∧
  TargetRow_post_init r = Ok tt.
Proof.
  unfold target_row. cbn zeta. destruct (_select_target_row _ _ _) as [s st], (_select_target_row _ _ _) as [e et].
  intros H. res_inv. destruct (_excursions _ _ _ _ _ _ _ _ _ _ _ _) as [[up lo] excd].
  unfold TargetRow_new in H. res_inv. split_and!; try done.
  by match goal with H : TargetRow_post_init _ = Ok ?u |- _ => destruct u end.
Qed.

Lemma TargetDataset_create_rows rows o c t : TargetDataset_create rows o c = Ok t → td_rows t = py_sorted _target_key rows.
Proof. unfold TargetDataset_create. intros H. by res_inv. Qed.

(** The rows a build emits, before they are sorted. *)
Lemma build_frozen_targets_rows math_log dataset config horizons active t :
  build_frozen_targets math_log dataset config horizons active = Ok t →
  ∃ rows, td_rows t = py_sorted _target_key rows ∧
    td_observation_dataset_id t = od_dataset_id dataset ∧ td_foundation_configuration_id t = configuration_id config ∧
    Forall2 (λ k r, target_row math_log config (_observation_index (od_rows dataset)) k.1.1 k.1.2 k.2 = Ok r)
      (target_keys config (default [fc_primary_vertical_horizon config] horizons) (_normalise_active_intervals <$> active)) rows.
Proof.
  unfold build_frozen_targets. intros H. res_inv. rename H into Hc.
  match goal with H : traverse _ _ = Ok ?rows |- _ => apply traverse_Ok in H; exists rows end.
  rewrite (TargetDataset_create_rows _ _ _ _ Hc). unfold TargetDataset_create in Hc. by res_inv.
Qed.

Definition frozen_by (f : datetime) (r : TargetRow) : bool := dt_leb (tg_target_freeze_at r) f.

Lemma frozen_rows_same math_log config rows rows' f keys l l' :
  visible config f rows = visible config f rows' →
  Forall2 (λ k r, target_row math_log config (_observation_index rows) k.1.1 k.1.2 k.2 = Ok r) keys l →
  Forall2 (λ k r, target_row math_log config (_observation_index rows') k.1.1 k.1.2 k.2 = Ok r) keys l' →
  map blind (List.filter (frozen_by f) l) = map blind (List.filter (frozen_by f) l').
Proof.
  intros Hv H. revert l'. induction H as [|k r keys l Hr _ IH]; intros l'; inversion 1 as [|? r' ? l'' Hr']; subst; [done|].
  cbn. destruct (target_row_key _ _ _ _ _ _ _ Hr) as (_ & _ & _ & E & _).
  destruct (target_row_key _ _ _ _ _ _ _ Hr') as (_ & _ & _ & E' & _). 
  assert (frozen_by f r' = frozen_by f r) as -> by (unfold frozen_by; by rewrite E, E').
  destruct (frozen_by f r) eqn:Hf; [|by apply IH]. cbn. f_equal; [|by apply IH].
  assert (blind <$> Ok r = blind <$> Ok r') as Hb; [|change (Ok (blind r) = Ok (blind r')) in Hb; congruence]. rewrite <- Hr, <- Hr'.
  apply target_row_blind. eapply visible_earlier; [|exact Hv]. unfold frozen_by in Hf. rewrite E in Hf. time_solve.
Qed.

(** C6: targets are frozen. Two datasets that agree on everything available by a time
    give, under the same settings, the same target rows among those whose freeze
    falls by then: labels, returns, excursions and lineage; only the dispositions
    that tell a late endpoint from an absent one may differ. *)
Theorem targets_frozen math_log config id1 id2 d1 d2 horizons active t1 t2 f :
  build_frozen_targets math_log d1 (with_observations config id1) horizons active = Ok t1 →
  build_frozen_targets math_log d2 (with_observations config id2) horizons active = Ok t2 →
  visible config f (od_rows d1) = visible config f (od_rows d2) →
  map blind (List.filter (frozen_by f) (td_rows t1)) = map blind (List.filter (frozen_by f) (td_rows t2)).
Proof.
  intros H1 H2 Hv. destruct (build_frozen_targets_rows _ _ _ _ _ _ H1) as (l1 & -> & _ & _ & F1).
  destruct (build_frozen_targets_rows _ _ _ _ _ _ H2) as (l2 & -> & _ & _ & F2).
  rewrite !filter_py_sorted, !(py_sorted_map _target_key _target_key blind) by done. f_equal.
  by eapply (frozen_rows_same math_log config).
Qed.

(** An observed start bar and an end bar that arrives after the freeze: the excursion
    is reported as missing its start. *)
Lemma late_end_reported_as_missing_start math_log index i b t u freeze availability s e grid :
  _return_disposition (Some s) "OBSERVED" None "UNAVAILABLE" = UNAVAILABLE_BY_FREEZE ∧
  _excursions math_log index i b t u freeze availability (Some s) e UNAVAILABLE_BY_FREEZE grid
  = (None, None, EXC_MISSING_START).
Proof. done. Qed.

(** ** A minute bar and a correction that arrives later *)

Definition sample_id : string := "00000000000000000000000000000000000000000000000000000000000000aa".
Definition other_id : string := "00000000000000000000000000000000000000000000000000000000000000bb".
(** Minutes after 2026-07-01T12:00:00Z. *)
Definition at_minute (m : Z) : datetime := utc (1782907200000000 + minutes m).

Definition sample_config : FoundationConfig :=
  mkConfig "probe" 1 sample_id ["fx:eurusd"] {["fx:eurusd" := TARGET]} (at_minute 0) (at_minute 60) (minutes 1)
    PERSISTED_AT "MEASURED" (at_minute (-120), at_minute (-60)) (float_ratio 95 100) 0 (minutes 1)
    [minutes 15] (minutes 15) (minutes 2) "MEASURED" None [MID] MID "EXPANDING_WALK_FORWARD"
    (at_minute 50, at_minute 60) (minutes 2) (minutes 5) (minutes 10).

Definition minute_row (m revision position : Z) (close : Decimal) (persisted : Z) : ObservationRow :=
  mkObservation (mkUUID ("0198c5f2-0000-7000-8000-00000000000" +:+ str_Z revision)) "market-bar:fx:eurusd:MID"
    position (bar_event_type revision) (at_minute (m + 1)) (at_minute persisted) (at_minute persisted) position
    "fx:eurusd" MID (at_minute m) (at_minute (m + 1)) (dec_lit 1142 (-3)) (dec_lit 1150 (-3)) (dec_lit 1141 (-3))
    close 7 revision QUOTE_DERIVED HEALTHY "ig" "IG_DEMO" "CS.D.EURUSD".

Definition dataset_of (id : string) (rows : list ObservationRow) : ObservationDataset :=
  mkDataset rows [("ordered_instruments", JList [JStr "fx:eurusd"]);
                  ("interval_start", JStr "2026-07-01T09:00:00Z"); ("interval_end", JStr "2026-07-01T14:00:00Z")]
    [] [] id.
Definition early_rows : list ObservationRow := [minute_row 1 1 4 first_close 2; minute_row 16 1 5 first_close 18].
Definition late_rows : list ObservationRow :=
  [minute_row 1 1 4 first_close 2; minute_row 16 1 5 first_close 18; minute_row 1 2 9 second_close 40].

Lemma sample_config_ok : config_ok sample_config.
Proof. vm_compute. reflexivity. Qed.
Lemma with_id_ok id : is_sha256 id = true → config_ok (with_observations sample_config id).
Proof. intros H. unfold config_ok, FoundationConfig_post_init. cbn [with_observations fc_observation_dataset_id]. rewrite H. exact sample_config_ok. Qed.
Lemma sample_dataset_matches id rows : _require_dataset (dataset_of id rows) (with_observations sample_config id) = Ok tt.
Proof. unfold _require_dataset. cbn [od_dataset_id dataset_of fc_observation_dataset_id with_observations]. rewrite String.eqb_refl. vm_compute. reflexivity. Qed.

Lemma panel_causal_witness : ∃ p1 p2,
  build_asof_panel (dataset_of sample_id early_rows) (with_observations sample_config sample_id) [] None = Ok p1 ∧
  build_asof_panel (dataset_of other_id late_rows) (with_observations sample_config other_id) [] None = Ok p2 ∧
  map erase_audit (List.filter (decided_by (at_minute 5)) (pd_rows p1))
  = map erase_audit (List.filter (decided_by (at_minute 5)) (pd_rows p2)).
Proof.
  destruct (panel_builds (with_observations sample_config sample_id) (dataset_of sample_id early_rows) [] None)
    as (p1 & H1 & _); [by apply config_ok_facts, with_id_ok|apply sample_dataset_matches|].
  destruct (panel_builds (with_observations sample_config other_id) (dataset_of other_id late_rows) [] None)
    as (p2 & H2 & _); [by apply config_ok_facts, with_id_ok|apply sample_dataset_matches|].
  exists p1, p2. split; [exact H1|]. split; [exact H2|].
  apply (panel_causal sample_config sample_id other_id _ _ [] [] None p1 p2 (at_minute 5) H1 H2). reflexivity.
Defined.


(** At 12:03 the cell shows the bar that closed at 12:02 as first published; its
    correction arrived at 12:40. *)
Definition sample_cell : PanelRow :=
  panel_cell (with_observations sample_config sample_id) (_observation_index late_rows) [] ∅ (at_minute 3) "fx:eurusd" MID.

Lemma panel_observes_latest_witness : ∃ p,
  build_asof_panel (dataset_of sample_id late_rows) (with_observations sample_config sample_id) [] None = Ok p ∧
  pr_close sample_cell = Some first_close ∧
  (pr_status sample_cell = OBSERVED → ∃ o, o ∈ late_rows ∧
     o ∈ cell_candidates (with_observations sample_config sample_id) late_rows sample_cell ∧
     instant (ob_persisted_at o) <= instant (at_minute 3)).
Proof.
  destruct (panel_builds (with_observations sample_config sample_id) (dataset_of sample_id late_rows) [] None)
    as (p & H & Hp); [by apply config_ok_facts, with_id_ok|apply sample_dataset_matches|].
  assert (sample_cell ∈ pd_rows p) as Hin.
  { rewrite Hp, elem_of_py_sorted. apply list_elem_of_fmap. exists (at_minute 3, "fx:eurusd", MID). split; [reflexivity|].
    apply elem_of_triples. cbn [fst snd]. split; [|split; by left].
    apply grid_times_spec; [reflexivity|]. exists 3. by repeat split. }
  exists p. split; [exact H|]. split; [reflexivity|]. intros Hobs.
  destruct (panel_observes_latest _ _ _ _ p sample_cell H Hin) as (_ & _ & _ & Hsel).
  destruct (Hsel Hobs) as (o & Ho & Hc & _ & Ha & _). exists o. split; [exact Ho|]. split; [exact Hc|exact Ha].
Defined.

Lemma insort_keys {A K} `{PyOrder K} (key : A → K) x l : map key (insort key x l) = insort id (key x) (map key l).
Proof. induction l as [|y l IH]; [done|]. cbn. destruct (pyle (key x) (key y)); cbn; congruence. Qed.
Lemma py_sorted_keys {A K} `{PyOrder K} (key : A → K) l : map key (py_sorted key l) = py_sorted id (map key l).
Proof.
  induction l as [|x l IH]; [done|].
  change (map key (insort key x (py_sorted key l)) = insort id (key x) (py_sorted id (map key l))).
  by rewrite insort_keys, IH.
Qed.
Lemma sorted_by_py_sorted {A K} `{PyOrder K, EqDecision K} (key : A → K) l : sorted_by key (py_sorted key l) = true.
Proof. unfold sorted_by. apply bool_decide_eq_true. by rewrite py_sorted_keys, py_sorted_idemp. Qed.

(** Creating a target dataset never fails. *)
Lemma TargetDataset_create_total rows o c :
  TargetDataset_create rows o c
  = Ok (mkTargets (py_sorted _target_key rows) o c (_target_dataset_identity (py_sorted _target_key rows) o c)).
Proof. unfold TargetDataset_create, TargetDataset_post_init. cbn [td_rows]. by rewrite sorted_by_py_sorted. Qed.

Definition sample_active : intervals_by_instrument := {["fx:eurusd" := [(at_minute 2, at_minute 4)]]}.

(** A stand-in for the logarithm: its tangent at one. *)
Definition sample_log (x : pyfloat) : pyfloat := f_sub x f_one.

Lemma sample_targets_build rows : rows = early_rows ∨ rows = late_rows →
  ∃ t, build_frozen_targets sample_log (dataset_of sample_id rows) (with_observations sample_config sample_id) None (Some sample_active)
       = Ok t.
Proof.
  intros Hrows. unfold build_frozen_targets. rewrite sample_dataset_matches. cbn [mbind res_bind].
  set (found := traverse _ _). assert (is_ok found = true) as [l ->]%is_ok_true.
  { destruct Hrows as [-> | ->]; vm_compute; reflexivity. }
  cbn. rewrite TargetDataset_create_total. eauto.
Qed.

Lemma targets_frozen_witness : ∃ t1 t2,
  build_frozen_targets sample_log (dataset_of sample_id early_rows) (with_observations sample_config sample_id) None (Some sample_active) = Ok t1 ∧
  build_frozen_targets sample_log (dataset_of sample_id late_rows) (with_observations sample_config sample_id) None (Some sample_active) = Ok t2 ∧
  map blind (List.filter (frozen_by (at_minute 30)) (td_rows t1)) = map blind (List.filter (frozen_by (at_minute 30)) (td_rows t2)).
Proof.
  destruct (sample_targets_build early_rows (or_introl eq_refl)) as [t1 H1].
  destruct (sample_targets_build late_rows (or_intror eq_refl)) as [t2 H2].
  exists t1, t2. split; [exact H1|]. split; [exact H2|].
  apply (targets_frozen sample_log sample_config sample_id sample_id _ _ None (Some sample_active) t1 t2 (at_minute 30) H1 H2). reflexivity.
Defined.
