(* ===== verification/WalkForward.v ===== *)
(** Chronological folds and out-of-fold forecasts ([domain/folds.py],
    [domain/forecasts.py], [application/walk_forward.py]): membership by label
    maturity, the embargo between training and validation, the locked holdout,
    and forecasts that use no feature newer than their decision. *)

From S2P Require Import Prelude PySorted PyStr PyTime PyDecimal Sha256 PyJson Domain PyFloat Research Foundation FoundationBuild.

Definition FOLD_DATASET_CONTRACT : string := "qtrad-research-folds-v1".
Definition FORECAST_DATASET_CONTRACT : string := "qtrad-research-forecasts-v1".
Definition ZERO_RETURN_MODEL_CONTRACT : string := "DETERMINISTIC_PROBE".
Definition ZERO_RETURN_MODEL_ID : string := sha256_hex "zero-return-v1".
Definition DEFAULT_PROBE_EXPERIMENT_ID : string := "r1-c-zero-return-probe".

(** [_hash_json] of a value that holds Python objects. *)
Definition _hash_json (value : pyobj) : res string := j ← to_json_value value; Ok (sha256_json j).

(** ** Folds *)

Record Fold : Type := mkFold {
  fd_fold_id : string;
  fd_training_start : datetime;
  fd_training_cutoff : datetime;
  fd_validation_start : datetime;
  fd_validation_end : datetime;
  fd_embargo_end : datetime;
  fd_training_target_ids : list string;
  fd_validation_target_ids : list string;
  fd_holdout_excluded : bool;
  fd_membership_hash : string }.

Definition strs (l : list string) : json := JList (map JStr l).

Definition membership_hash (training validation : list string) : string :=
  sha256_json (JObj [("training_target_ids", strs (py_sorted id training));
                     ("validation_target_ids", strs (py_sorted id validation))]).

Definition Fold_post_init (f : Fold) : res unit :=
  require_utc (fd_training_start f) "fold training_start";;
  require_utc (fd_training_cutoff f) "fold training_cutoff";;
  require_utc (fd_validation_start f) "fold validation_start";;
  require_utc (fd_validation_end f) "fold validation_end";;
  require_utc (fd_embargo_end f) "fold embargo_end";;
  raise_if (negb (nonempty (fd_fold_id f))) (ValueError "fold ID must be non-empty");;
  raise_if (negb (dt_leb (fd_training_start f) (fd_training_cutoff f)
                  && dt_leb (fd_training_cutoff f) (fd_validation_start f)
                  && dt_ltb (fd_validation_start f) (fd_validation_end f)))
           (ValueError "fold chronology is invalid");;
  raise_if (dt_ltb (fd_embargo_end f) (fd_validation_start f) || dt_ltb (fd_validation_end f) (fd_embargo_end f))
           (ValueError "fold embargo end must be within the validation interval");;
  raise_if (negb (fd_holdout_excluded f)) (ValueError "every R1 fold must declare holdout exclusion");;
  raise_if (has_duplicates (fd_training_target_ids f))
           (ValueError "fold training membership contains duplicate targets");;
  raise_if (has_duplicates (fd_validation_target_ids f))
           (ValueError "fold validation membership contains duplicate targets");;
  raise_if (existsb (λ i, existsb (String.eqb i) (fd_validation_target_ids f)) (fd_training_target_ids f))
           (ValueError "fold training and validation memberships must be disjoint");;
  raise_if (negb (String.eqb (fd_membership_hash f)
                    (membership_hash (fd_training_target_ids f) (fd_validation_target_ids f))))
           (ValueError "fold membership hash does not match its rows").

Definition Fold_new (f : Fold) : res Fold := Fold_post_init f;; Ok f.

Definition Fold_as_json (f : Fold) : json :=
  JObj [("fold_id", JStr (fd_fold_id f));
        ("training_start", iso (fd_training_start f));
        ("training_cutoff", iso (fd_training_cutoff f));
        ("validation_start", iso (fd_validation_start f));
        ("validation_end", iso (fd_validation_end f));
        ("embargo_end", iso (fd_embargo_end f));
        ("training_target_ids", strs (py_sorted id (fd_training_target_ids f)));
        ("validation_target_ids", strs (py_sorted id (fd_validation_target_ids f)));
        ("holdout_excluded", JBool (fd_holdout_excluded f));
        ("membership_hash", JStr (fd_membership_hash f))].

Definition fold_dataset_hash (folds : list Fold) (target_dataset_id foundation_configuration_id : string) : string :=
  sha256_json (JObj [("contract", JStr FOLD_DATASET_CONTRACT); ("schema_version", JInt 1);
                     ("target_dataset_id", JStr target_dataset_id);
                     ("foundation_configuration_id", JStr foundation_configuration_id);
                     ("folds", JList (map Fold_as_json folds))]).

Record FoldDataset : Type := mkFolds {
  fs_folds : list Fold;
  fs_target_dataset_id : string;
  fs_foundation_configuration_id : string;
  fs_dataset_id : string }.

Definition fold_start (f : Fold) : Z := instant (fd_validation_start f).

Definition FoldDataset_post_init (d : FoldDataset) : res unit :=
  raise_if (negb (sorted_by fold_start (fs_folds d))) (ValueError "folds must use chronological ordering");;
  raise_if (negb (String.eqb (fs_dataset_id d)
              (fold_dataset_hash (fs_folds d) (fs_target_dataset_id d) (fs_foundation_configuration_id d))))
           (ValueError "fold dataset ID does not match its semantic content").

Definition FoldDataset_create (folds : list Fold) (target_dataset_id foundation_configuration_id : string)
    : res FoldDataset :=
  let ordered := py_sorted fold_start folds in
  let d := mkFolds ordered target_dataset_id foundation_configuration_id
             (fold_dataset_hash ordered target_dataset_id foundation_configuration_id) in
  FoldDataset_post_init d;; Ok d.

(** ** Building folds *)

Definition _in_holdout (decision_time : datetime) (holdout : datetime * datetime) : bool :=
  dt_leb holdout.1 decision_time && dt_ltb decision_time holdout.2.

Definition _require_target_dataset (targets : TargetDataset) (config : FoundationConfig) : res unit :=
  raise_if (negb (String.eqb (td_observation_dataset_id targets) (fc_observation_dataset_id config)))
           (ValueError "target dataset observation lineage does not match configuration");;
  raise_if (negb (String.eqb (td_foundation_configuration_id targets) (configuration_id config)))
           (ValueError "target dataset configuration lineage does not match configuration").

Definition in_training (config : FoundationConfig) (cutoff : datetime) (r : TargetRow) : bool :=
  dt_leb (fc_range_start config) (tg_decision_time r) && dt_ltb (tg_decision_time r) cutoff
  && dt_leb (tg_target_available_at r) cutoff && dt_leb (tg_target_end_time r) cutoff
  && bool_decide (tg_return_disposition r = RET_VALID)
  && negb (_in_holdout (tg_decision_time r) (fc_holdout_range config)).

Definition in_validation (config : FoundationConfig) (start end_ : datetime) (r : TargetRow) : bool :=
  let holdout_start := (fc_holdout_range config).1 in
  dt_leb start (tg_decision_time r) && dt_ltb (tg_decision_time r) end_
  && dt_leb (tg_target_end_time r) holdout_start && dt_leb (tg_target_freeze_at r) holdout_start
  && dt_leb (tg_target_available_at r) holdout_start
  && negb (_in_holdout (tg_decision_time r) (fc_holdout_range config)).

Definition training_ids (config : FoundationConfig) (rows : list TargetRow) (cutoff : datetime) : list string :=
  py_sorted id (map target_id (List.filter (in_training config cutoff) rows)).
Definition validation_ids (config : FoundationConfig) (rows : list TargetRow) (start end_ : datetime) : list string :=
  py_sorted id (map target_id (List.filter (in_validation config start end_) rows)).

(** The fold of one validation window; [None] when either side is empty. *)
Definition window_fold (config : FoundationConfig) (rows : list TargetRow)
    (validation_start validation_end : datetime) : res (option Fold) :=
  let training_cutoff := dt_sub validation_start (fc_embargo config) in
  let training := training_ids config rows training_cutoff in
  let validation := validation_ids config rows validation_start validation_end in
  if negb (Nat.eqb (length training) 0) && negb (Nat.eqb (length validation) 0) then
    let membership := membership_hash training validation in
    fold_id ← _hash_json (PyMapping
      [("contract", PyStr FOLD_DATASET_CONTRACT); ("schema_version", PyInt 1);
       ("training_start", PyDatetime (fc_range_start config));
       ("training_cutoff", PyDatetime training_cutoff);
       ("validation_start", PyDatetime validation_start);
       ("validation_end", PyDatetime validation_end);
       ("embargo_end", PyDatetime validation_start);
       ("membership_hash", PyStr membership)]);
    f ← Fold_new (mkFold fold_id (fc_range_start config) training_cutoff validation_start validation_end
                    validation_start training validation true membership);
    Ok (Some f)
  else Ok None.

(** [while validation_start < holdout_start: ...]; folds are kept newest first. *)
Fixpoint fold_loop (fuel : nat) (config : FoundationConfig) (rows : list TargetRow) (duration : timedelta)
    (validation_start : datetime) (folds : list Fold) : res (list Fold) :=
  match fuel with
  | O => Ok folds
  | S fuel =>
      let holdout_start := (fc_holdout_range config).1 in
      if dt_ltb validation_start holdout_start then
        let validation_end := dt_add validation_start duration in
        if dt_ltb holdout_start validation_end then Ok folds
        else
          f ← window_fold config rows validation_start validation_end;
          fold_loop fuel config rows duration (dt_add validation_end (fc_embargo config))
            (match f with Some f => f :: folds | None => folds end)
      else Ok folds
  end.

Definition first_validation_start (config : FoundationConfig) (horizon : timedelta) : datetime :=
  dt_add (dt_add (dt_add (fc_range_start config) (fc_minimum_training_duration config)) horizon) (fc_embargo config).

(** One iteration per validation duration that fits before the holdout. *)
Definition fold_fuel (config : FoundationConfig) (duration : timedelta) (start : datetime) : nat :=
  Z.to_nat (dt_diff (fc_holdout_range config).1 start / duration + 1).

Definition eligible_targets (config : FoundationConfig) (horizon : timedelta) (targets : TargetDataset) : list TargetRow :=
  List.filter (λ r, (tg_horizon r =? horizon) && bool_decide (tg_target_basis r = fc_target_basis config)) (td_rows targets).

Definition build_expanding_folds (targets : TargetDataset) (config : FoundationConfig)
    (horizon validation_duration : option timedelta) : res FoldDataset :=
  _require_target_dataset targets config;;
  let duration := default (fc_minimum_validation_duration config) validation_duration in
  raise_if (duration <=? 0) (ValueError "validation duration must be positive");;
  raise_if (dt_ltb (fc_holdout_range config).1 (fc_range_start config)
            || negb (dt_eqb (fc_holdout_range config).2 (fc_range_end config)))
           (ValueError "locked holdout must be the final foundation interval");;
  let selected_horizon := default (fc_primary_vertical_horizon config) horizon in
  raise_if (negb (existsb (Z.eqb selected_horizon) (fc_target_horizons config)))
           (ValueError "fold builder received a horizon absent from the foundation configuration");;
  let target_rows := eligible_targets config selected_horizon targets in
  raise_if (has_duplicates (map target_id target_rows))
           (ValueError "target dataset contains duplicate target identities");;
  let start := first_validation_start config selected_horizon in
  folds ← fold_loop (fold_fuel config duration start) config target_rows duration start [];
  raise_if (Nat.eqb (length folds) 0)
           (ValueError "no scientifically valid expanding folds are available");;
  FoldDataset_create (rev folds) (td_dataset_id targets) (configuration_id config).

(** ** Forecasts *)

Inductive ReturnUnit : Type := LOG_RETURN.
Definition ReturnUnit_str (u : ReturnUnit) : string := match u with LOG_RETURN => "LOG_RETURN" end.

Record ForecastRow : Type := mkForecast {
  fr_forecast_id : string;
  fr_instrument_id : string;
  fr_decision_time : datetime;
  fr_horizon : timedelta;
  fr_expected_return : pyfloat;
  fr_return_unit : ReturnUnit;
  fr_feature_data_asof : datetime;
  fr_training_cutoff : datetime;
  fr_observation_dataset_id : string;
  fr_panel_dataset_id : string;
  fr_target_dataset_id : string;
  fr_target_id : string;
  fr_fold_dataset_id : string;
  fr_experiment_id : string;
  fr_fold_id : string;
  fr_model_id : string;
  fr_model_contract : string }.

Definition float_obj (x : pyfloat) : pyobj :=
  match float_json x with JFloat r => PyFloat r | _ => PyNone end.

Definition _forecast_semantic (r : ForecastRow) : pyobj :=
  PyMapping
    [("contract", PyStr FORECAST_DATASET_CONTRACT); ("schema_version", PyInt 1);
     ("instrument_id", PyStr (fr_instrument_id r));
     ("decision_time", PyDatetime (fr_decision_time r));
     ("horizon_seconds", float_obj (total_seconds (fr_horizon r)));
     ("expected_return", float_obj (fr_expected_return r));
     ("return_unit", PyStr (ReturnUnit_str (fr_return_unit r)));
     ("feature_data_asof", PyDatetime (fr_feature_data_asof r));
     ("training_cutoff", PyDatetime (fr_training_cutoff r));
     ("observation_dataset_id", PyStr (fr_observation_dataset_id r));
     ("panel_dataset_id", PyStr (fr_panel_dataset_id r));
     ("target_dataset_id", PyStr (fr_target_dataset_id r));
     ("target_id", PyStr (fr_target_id r));
     ("fold_dataset_id", PyStr (fr_fold_dataset_id r));
     ("experiment_id", PyStr (fr_experiment_id r));
     ("fold_id", PyStr (fr_fold_id r));
     ("model_id", PyStr (fr_model_id r));
     ("model_contract", PyStr (fr_model_contract r))].

(** [__post_init__]; [prevalidated] tells that [create] computed the identity. *)
Definition ForecastRow_post_init (r : ForecastRow) (prevalidated : bool) : res unit :=
  require_utc (fr_decision_time r) "forecast decision_time";;
  require_utc (fr_feature_data_asof r) "forecast feature_data_asof";;
  require_utc (fr_training_cutoff r) "forecast training_cutoff";;
  raise_if (fr_horizon r <=? 0) (ValueError "forecast horizon must be positive");;
  raise_if (negb (isfinite (fr_expected_return r))) (ValueError "forecast expected_return must be finite");;
  raise_if (negb (String.eqb (ReturnUnit_str (fr_return_unit r)) "LOG_RETURN"))
           (ValueError "forecast return_unit must be LOG_RETURN");;
  require_all (λ vf : string * string, nonempty vf.1) (λ vf, ValueError (vf.2 +:+ " must be non-empty"))
    [(fr_forecast_id r, "forecast ID"); (fr_instrument_id r, "forecast instrument ID");
     (fr_observation_dataset_id r, "forecast observation dataset ID");
     (fr_panel_dataset_id r, "forecast panel dataset ID");
     (fr_target_dataset_id r, "forecast target dataset ID"); (fr_target_id r, "forecast target ID");
     (fr_fold_dataset_id r, "forecast fold dataset ID"); (fr_experiment_id r, "forecast experiment ID");
     (fr_fold_id r, "forecast fold ID"); (fr_model_id r, "forecast model ID");
     (fr_model_contract r, "forecast model contract")];;
  if prevalidated then Ok tt
  else expected ← _hash_json (_forecast_semantic r);
       raise_if (negb (String.eqb (fr_forecast_id r) expected))
                (ValueError "forecast ID does not match its semantic content").

(** [repr(value)] of a float, the bytes [_json_scalar] gives it. *)
Definition scalar_float (x : pyfloat) : string := float_repr x.

(** The chunks [_forecast_id_from_values] feeds to its digest. *)
Definition forecast_id_chunks (r : ForecastRow) : list string :=
  let key k := "," +:+ json_str k +:+ ":" in
  ["{" +:+ json_str "contract" +:+ ":"; json_str FORECAST_DATASET_CONTRACT;
   key "decision_time"; json_str (utc_text (fr_decision_time r));
   key "expected_return"; scalar_float (fr_expected_return r);
   key "experiment_id"; json_str (fr_experiment_id r);
   key "feature_data_asof"; json_str (utc_text (fr_feature_data_asof r));
   key "fold_dataset_id"; json_str (fr_fold_dataset_id r);
   key "fold_id"; json_str (fr_fold_id r);
   key "horizon_seconds"; scalar_float (total_seconds (fr_horizon r));
   key "instrument_id"; json_str (fr_instrument_id r);
   key "model_contract"; json_str (fr_model_contract r);
   key "model_id"; json_str (fr_model_id r);
   key "observation_dataset_id"; json_str (fr_observation_dataset_id r);
   key "panel_dataset_id"; json_str (fr_panel_dataset_id r);
   key "return_unit"; json_str (ReturnUnit_str (fr_return_unit r));
   "," +:+ json_str "schema_version" +:+ ":1" +:+ key "target_dataset_id"; json_str (fr_target_dataset_id r);
   key "target_id"; json_str (fr_target_id r);
   key "training_cutoff"; json_str (utc_text (fr_training_cutoff r)); "}"].
Definition _forecast_id_from_values (r : ForecastRow) : string := digest_chunks (forecast_id_chunks r).

(** [ForecastRow.create]: the values of [r], whose identity is computed. *)
Definition set_forecast_id (r : ForecastRow) (id : string) : ForecastRow :=
  mkForecast id (fr_instrument_id r) (fr_decision_time r) (fr_horizon r) (fr_expected_return r) (fr_return_unit r)
    (fr_feature_data_asof r) (fr_training_cutoff r) (fr_observation_dataset_id r) (fr_panel_dataset_id r)
    (fr_target_dataset_id r) (fr_target_id r) (fr_fold_dataset_id r) (fr_experiment_id r) (fr_fold_id r)
    (fr_model_id r) (fr_model_contract r).
Definition ForecastRow_create (values : ForecastRow) : res ForecastRow :=
  let r := set_forecast_id values (_forecast_id_from_values values) in
  ForecastRow_post_init r true;; Ok r.

Definition ForecastRow_as_json (r : ForecastRow) : json :=
  JObj [("forecast_id", JStr (fr_forecast_id r));
        ("instrument_id", JStr (fr_instrument_id r));
        ("decision_time", iso (fr_decision_time r));
        ("horizon_seconds", seconds_json (fr_horizon r));
        ("expected_return", float_json (fr_expected_return r));
        ("return_unit", JStr (ReturnUnit_str (fr_return_unit r)));
        ("feature_data_asof", iso (fr_feature_data_asof r));
        ("training_cutoff", iso (fr_training_cutoff r));
        ("observation_dataset_id", JStr (fr_observation_dataset_id r));
        ("panel_dataset_id", JStr (fr_panel_dataset_id r));
        ("target_dataset_id", JStr (fr_target_dataset_id r));
        ("target_id", JStr (fr_target_id r));
        ("fold_dataset_id", JStr (fr_fold_dataset_id r));
        ("experiment_id", JStr (fr_experiment_id r));
        ("fold_id", JStr (fr_fold_id r));
        ("model_id", JStr (fr_model_id r));
        ("model_contract", JStr (fr_model_contract r))].

Definition forecast_dataset_hash (rows : list ForecastRow)
    (observation_dataset_id panel_dataset_id target_dataset_id fold_dataset_id : string) : string :=
  sha256_json (JObj [("contract", JStr FORECAST_DATASET_CONTRACT); ("schema_version", JInt 1);
                     ("observation_dataset_id", JStr observation_dataset_id);
                     ("panel_dataset_id", JStr panel_dataset_id);
                     ("target_dataset_id", JStr target_dataset_id);
                     ("fold_dataset_id", JStr fold_dataset_id);
                     ("rows", JList (map ForecastRow_as_json rows))]).

Record ForecastDataset : Type := mkForecasts {
  fo_rows : list ForecastRow;
  fo_observation_dataset_id : string;
  fo_panel_dataset_id : string;
  fo_target_dataset_id : string;
  fo_fold_dataset_id : string;
  fo_dataset_id : string }.

Definition forecast_key (r : ForecastRow) : Z * string * string * string :=
  (instant (fr_decision_time r), fr_instrument_id r, fr_target_id r, fr_fold_id r).

Definition same_lineage (d : ForecastDataset) (r : ForecastRow) : bool :=
  String.eqb (fr_observation_dataset_id r) (fo_observation_dataset_id d)
  && String.eqb (fr_panel_dataset_id r) (fo_panel_dataset_id d)
  && String.eqb (fr_target_dataset_id r) (fo_target_dataset_id d)
  && String.eqb (fr_fold_dataset_id r) (fo_fold_dataset_id d).

Definition ForecastDataset_post_init (d : ForecastDataset) : res unit :=
  raise_if (negb (sorted_by forecast_key (fo_rows d)))
           (ValueError "forecast rows must use deterministic ordering");;
  raise_if (negb (String.eqb (fo_dataset_id d)
              (forecast_dataset_hash (fo_rows d) (fo_observation_dataset_id d) (fo_panel_dataset_id d)
                 (fo_target_dataset_id d) (fo_fold_dataset_id d))))
           (ValueError "forecast dataset ID does not match its semantic rows");;
  raise_if (negb (forallb (same_lineage d) (fo_rows d)))
           (ValueError "forecast row lineage does not match its dataset").

Definition ForecastDataset_create (rows : list ForecastRow) (observation panel target fold : string)
    : res ForecastDataset :=
  let ordered := py_sorted forecast_key rows in
  let d := mkForecasts ordered observation panel target fold
             (forecast_dataset_hash ordered observation panel target fold) in
  ForecastDataset_post_init d;; Ok d.

Definition _require_panel_and_targets (panel : PanelDataset) (targets : TargetDataset) (folds : FoldDataset)
    (config : FoundationConfig) : res unit :=
  _require_target_dataset targets config;;
  raise_if (negb (String.eqb (pd_observation_dataset_id panel) (fc_observation_dataset_id config)))
           (ValueError "panel dataset observation lineage does not match configuration");;
  raise_if (negb (String.eqb (pd_foundation_configuration_id panel) (configuration_id config)))
           (ValueError "panel dataset configuration lineage does not match configuration");;
  raise_if (negb (String.eqb (fs_target_dataset_id folds) (td_dataset_id targets)))
           (ValueError "fold dataset target lineage does not match targets");;
  raise_if (negb (String.eqb (fs_foundation_configuration_id folds) (configuration_id config)))
           (ValueError "fold dataset configuration lineage does not match configuration").

(** [{key(x): x for x in xs}]: a later element replaces an earlier one. *)
Definition dict_by {A K} `{Countable K} (key : A → K) (l : list A) : gmap K A :=
  fold_left (λ m x, <[key x := x]> m) l ∅.

Definition panel_index_key (r : PanelRow) : string * Z * PriceBasis :=
  (pr_instrument_id r, instant (pr_decision_time r), pr_basis r).

(** One validation target of one fold: checked, then forecast when its cell is observed. *)
Definition forecast_target (panel : PanelDataset) (targets : TargetDataset) (folds : FoldDataset)
    (config : FoundationConfig) (selected_horizon : timedelta) (experiment_id : string)
    (target_by_id : gmap string TargetRow) (panel_by_key : gmap (string * Z * PriceBasis) PanelRow)
    (fold : Fold) (target_id_ : string) : res (option ForecastRow) :=
  match target_by_id !! target_id_ with
  | None => Raise (ValueError "fold validation references an unknown target")
  | Some target =>
      let holdout_start := (fc_holdout_range config).1 in
      raise_if (negb (dt_leb (fd_validation_start fold) (tg_decision_time target)
                      && dt_ltb (tg_decision_time target) (fd_validation_end fold)))
               (ValueError "fold validation membership is outside its interval");;
      raise_if (_in_holdout (tg_decision_time target) (fc_holdout_range config))
               (ValueError "holdout target entered forecast validation membership");;
      raise_if (dt_ltb holdout_start (tg_target_end_time target)
                || dt_ltb holdout_start (tg_target_freeze_at target)
                || dt_ltb holdout_start (tg_target_available_at target))
               (ValueError "forecast validation target dependency enters the holdout");;
      raise_if (negb (tg_horizon target =? selected_horizon)
                || negb (bool_decide (tg_target_basis target = fc_target_basis config)))
               (ValueError "fold validation contains an unsupported target");;
      match panel_by_key !! (tg_instrument_id target, instant (tg_decision_time target), fc_target_basis config) with
      | Some cell =>
          if bool_decide (pr_status cell = OBSERVED) then
            raise_if (dt_ltb (tg_decision_time target) (pr_feature_data_asof cell))
                     (ValueError "forecast feature cutoff is after the decision time");;
            r ← ForecastRow_create
                  (mkForecast "" (tg_instrument_id target) (tg_decision_time target) (tg_horizon target) f_zero
                     LOG_RETURN (pr_feature_data_asof cell) (fd_training_cutoff fold)
                     (fc_observation_dataset_id config) (pd_dataset_id panel) (td_dataset_id targets)
                     (target_id target) (fs_dataset_id folds) experiment_id (fd_fold_id fold)
                     ZERO_RETURN_MODEL_ID ZERO_RETURN_MODEL_CONTRACT);
            Ok (Some r)
          else Ok None
      | None => Ok None
      end
  end.

Definition build_zero_return_forecasts (panel : PanelDataset) (targets : TargetDataset) (folds : FoldDataset)
    (config : FoundationConfig) (horizon : option timedelta) (experiment_id : string) : res ForecastDataset :=
  _require_panel_and_targets panel targets folds config;;
  let selected_horizon := default (fc_primary_vertical_horizon config) horizon in
  raise_if (negb (existsb (Z.eqb selected_horizon) (fc_target_horizons config)))
           (ValueError "forecast builder received a horizon absent from the foundation configuration");;
  let target_by_id := dict_by target_id (td_rows targets) in
  raise_if (negb (Nat.eqb (size target_by_id) (length (td_rows targets))))
           (ValueError "target dataset contains duplicate target identities");;
  let panel_by_key := dict_by panel_index_key (pd_rows panel) in
  raise_if (negb (Nat.eqb (size panel_by_key) (length (pd_rows panel))))
           (ValueError "panel dataset contains duplicate panel identities");;
  rows ← traverse (λ fi : Fold * string,
                     forecast_target panel targets folds config selected_horizon experiment_id
                       target_by_id panel_by_key fi.1 fi.2)
                  (f ← fs_folds folds; i ← fd_validation_target_ids f; [(f, i)]);
  ForecastDataset_create (omap id rows) (fc_observation_dataset_id config) (pd_dataset_id panel)
    (td_dataset_id targets) (fs_dataset_id folds).

(** ** Windows *)

(** What a fold of the window from [vs] to [ve] holds. *)
Definition fold_of (config : FoundationConfig) (rows : list TargetRow) (vs ve : datetime) (f : Fold) : Prop :=
  fd_training_start f = fc_range_start config ∧
  fd_training_cutoff f = dt_sub vs (fc_embargo config) ∧
  fd_validation_start f = vs ∧ fd_validation_end f = ve ∧
  fd_training_target_ids f = training_ids config rows (dt_sub vs (fc_embargo config)) ∧
  fd_validation_target_ids f = validation_ids config rows vs ve ∧
  fd_training_target_ids f ≠ [] ∧ fd_validation_target_ids f ≠ [] ∧
  Fold_post_init f = Ok tt.

Definition both_sides (config : FoundationConfig) (rows : list TargetRow) (vs ve : datetime) : Prop :=
  training_ids config rows (dt_sub vs (fc_embargo config)) ≠ [] ∧ validation_ids config rows vs ve ≠ [].

Lemma length_nonzero {A} (l : list A) : negb (Nat.eqb (length l) 0) = true ↔ l ≠ [].
Proof. destruct l; cbn; naive_solver. Qed.

Lemma window_fold_Ok config rows vs ve o : window_fold config rows vs ve = Ok o →
  match o with
  | Some f => fold_of config rows vs ve f
  | None => ¬ both_sides config rows vs ve
  end.
Proof.
  unfold window_fold, both_sides. cbn zeta. intros H.
  destruct (negb _ && negb _) eqn:Hb.
  - apply andb_true_iff in Hb as [Ht Hv]. rewrite length_nonzero in Ht, Hv. res_inv.
    match goal with H : Fold_new _ = Ok _ |- _ => unfold Fold_new in H; res_inv end.
    unfold fold_of. cbn. split_and!; try done.
    by match goal with H : Fold_post_init _ = Ok ?u |- _ => destruct u end.
  - res_inv. intros [Ht%length_nonzero Hv%length_nonzero]. by rewrite Ht, Hv in Hb.
Qed.

(** The [k]-th window from a start. *)
Definition window_start (config : FoundationConfig) (duration : timedelta) (start : datetime) (k : Z) : datetime :=
  dt_add start (k * (duration + fc_embargo config)).

Lemma window_start_shift config duration start k :
  window_start config duration (dt_add (dt_add start duration) (fc_embargo config)) k
  = window_start config duration start (k + 1).
Proof. unfold window_start, dt_add. cbn. f_equal. lia. Qed.
Lemma window_start_0 config duration start : window_start config duration start 0 = start.
Proof. unfold window_start, dt_add. destruct start. cbn. f_equal. lia. Qed.

Definition fits (config : FoundationConfig) (duration : timedelta) (vs : datetime) : Prop :=
  instant vs + duration <= instant (fc_holdout_range config).1.

(** The folds the loop adds: those of the windows that fit, in order. *)
Record loop_result (config : FoundationConfig) (rows : list TargetRow) (duration : timedelta) (start : datetime)
    (found : list Fold) : Prop := {
  lr_sound : ∀ f, f ∈ found → ∃ k, 0 <= k ∧ let vs := window_start config duration start k in
    fits config duration vs ∧ fold_of config rows vs (dt_add vs duration) f;
  lr_complete : ∀ k, 0 <= k → let vs := window_start config duration start k in
    fits config duration vs → both_sides config rows vs (dt_add vs duration) →
    ∃ f, f ∈ found ∧ fold_of config rows vs (dt_add vs duration) f;
  lr_ordered : StronglySorted (λ f g, instant (fd_validation_end f) + fc_embargo config <= instant (fd_validation_start g)) found }.

Lemma fold_loop_result config rows duration : 0 < duration → 0 <= fc_embargo config → ∀ fuel start acc folds,
  instant (fc_holdout_range config).1 - instant start < Z.of_nat fuel * duration →
  fold_loop fuel config rows duration start acc = Ok folds →
  ∃ found, folds = rev found ++ acc ∧ loop_result config rows duration start found.
Proof.
  intros Hd He. induction fuel as [|fuel IH]; intros start acc folds Hf; cbn [fold_loop].
  - intros [= <-]. exists []. split; [done|]. split; [set_solver| |constructor].
    cbn zeta. intros k Hk Hfit. unfold fits, window_start in Hfit. rewrite instant_add in Hfit. nia.
  - assert (∀ k, 0 <= k → fits config duration (window_start config duration start k) → fits config duration start) as Hfirst.
    { intros k Hk. unfold fits, window_start. rewrite instant_add. nia. }
    unfold dt_ltb. destruct (Z.ltb_spec (instant start) (instant (fc_holdout_range config).1)) as [Hlt|Hge].
    2: { intros [= <-]. exists []. split; [done|]. split; [set_solver| |constructor].
         cbn zeta. intros k Hk Hfit%Hfirst; [|done]. unfold fits in Hfit. lia. }
    rewrite instant_add. destruct (Z.ltb_spec (instant (fc_holdout_range config).1) (instant start + duration)) as [Hno|Hfit].
    { intros [= <-]. exists []. split; [done|]. split; [set_solver| |constructor].
      cbn zeta. intros k Hk Hfit%Hfirst; [|done]. unfold fits in Hfit. lia. }
    intros (o & Ho%window_fold_Ok & Hrest)%bind_Ok.
    apply IH in Hrest as (found & -> & [Hs Hc Hord]); [|rewrite !instant_add; lia].
    exists (match o with Some f => f :: found | None => found end). split.
    { destruct o as [f|]; [|done]. cbn. by rewrite <- app_assoc. }
    assert (∀ g, g ∈ found → instant start + duration + fc_embargo config <= instant (fd_validation_start g)) as Hlater.
    { intros g Hg. destruct (Hs g Hg) as (k & Hk & _ & (_ & _ & -> & _)).
      unfold window_start. rewrite !instant_add. nia. }
    split.
    + intros f Hf'. assert (f ∈ found ∨ o = Some f) as [Hin| ->] by (destruct o; set_solver).
      * destruct (Hs f Hin) as (k & Hk & Hfits & Hof). cbn zeta in *. rewrite window_start_shift in *.
        exists (k + 1). split; [lia|done].
      * exists 0. cbn zeta. rewrite window_start_0. split; [done|]. by split.
    + cbn zeta. intros k Hk Hfits Hb. destruct (Z.eq_dec k 0) as [->|Hne].
      * rewrite window_start_0 in *. destruct o as [f|]; [|done]. exists f. split; [set_solver|done].
      * destruct (Hc (k - 1)) as (f & Hin & Hof); cbn zeta in *; rewrite ?window_start_shift, ?Z.sub_add in *; [lia|done..|].
        exists f. split; [|done]. destruct o; set_solver.
    + destruct o as [f|]; [|done]. constructor; [done|]. apply Forall_forall. intros g Hg.
      destruct Ho as (_ & _ & _ & -> & _). rewrite instant_add. by apply Hlater.
Qed.

(** ** Membership *)

Lemma in_training_spec config cutoff r : in_training config cutoff r = true ↔
  instant (fc_range_start config) <= instant (tg_decision_time r) < instant cutoff ∧
  instant (tg_target_available_at r) <= instant cutoff ∧ instant (tg_target_end_time r) <= instant cutoff ∧
  tg_return_disposition r = RET_VALID ∧ _in_holdout (tg_decision_time r) (fc_holdout_range config) = false.
Proof.
  unfold in_training, dt_leb, dt_ltb.
  rewrite !andb_true_iff, !Z.leb_le, Z.ltb_lt, bool_decide_eq_true, negb_true_iff. tauto.
Qed.
Lemma in_validation_spec config vs ve r : in_validation config vs ve r = true ↔
  instant vs <= instant (tg_decision_time r) < instant ve ∧
  instant (tg_target_end_time r) <= instant (fc_holdout_range config).1 ∧
  instant (tg_target_freeze_at r) <= instant (fc_holdout_range config).1 ∧
  instant (tg_target_available_at r) <= instant (fc_holdout_range config).1 ∧
  _in_holdout (tg_decision_time r) (fc_holdout_range config) = false.
Proof.
  unfold in_validation, dt_leb, dt_ltb. cbn zeta.
  rewrite !andb_true_iff, !Z.leb_le, Z.ltb_lt, negb_true_iff. tauto.
Qed.

Lemma elem_of_ids (p : TargetRow → bool) rows i :
  i ∈ py_sorted id (map target_id (List.filter p rows)) ↔ ∃ r, r ∈ rows ∧ target_id r = i ∧ p r = true.
Proof.
  rewrite elem_of_py_sorted, list_elem_of_fmap. setoid_rewrite list_elem_of_In. setoid_rewrite filter_In.
  setoid_rewrite <- list_elem_of_In. naive_solver.
Qed.

Lemma filter_ids_NoDup (p : TargetRow → bool) rows : NoDup (map target_id rows) →
  NoDup (py_sorted id (map target_id (List.filter p rows))).
Proof.
  intros H. apply py_sorted_NoDup. induction rows as [|r rows IH]; [constructor|].
  cbn in H. apply NoDup_cons in H as [Hn H]. cbn. destruct (p r); [|by apply IH].
  cbn. constructor; [|by apply IH]. rewrite list_elem_of_fmap. intros (x & E & Hx). apply Hn.
  apply list_elem_of_In, filter_In in Hx as [Hx%list_elem_of_In _]. apply list_elem_of_fmap. eauto.
Qed.

(** No target trains and validates the same fold. *)
Lemma sides_disjoint config rows cutoff vs ve i : NoDup (map target_id rows) → instant cutoff <= instant vs →
  i ∈ training_ids config rows cutoff → i ∉ validation_ids config rows vs ve.
Proof.
  intros Hnd Hc (r & Hr & <- & Ht%in_training_spec)%elem_of_ids (r' & Hr' & E & Hv%in_validation_spec)%elem_of_ids.
  assert (r' = r) as -> by by eapply (NoDup_key_inj target_id rows). lia.
Qed.

Lemma training_ids_mono config rows cutoff cutoff' : instant cutoff <= instant cutoff' →
  training_ids config rows cutoff ⊆ training_ids config rows cutoff'.
Proof.
  intros Hc i. unfold training_ids. rewrite !elem_of_ids. intros (r & Hr & E & H%in_training_spec).
  exists r. split; [done|]. split; [done|]. apply in_training_spec. intuition lia.
Qed.

(** ** A window's fold is always accepted *)

Lemma sha256_json_nonempty j : nonempty (sha256_json j) = true.
Proof. pose proof (sha256_json_is_sha256 j) as H. by destruct (sha256_json j). Qed.

Lemma fold_id_total c t1 t2 t3 t4 t5 m : is_utc t1 → is_utc t2 → is_utc t3 → is_utc t4 → is_utc t5 →
  ∃ fold_id, nonempty fold_id = true ∧ _hash_json (PyMapping
      [("contract", PyStr c); ("schema_version", PyInt 1); ("training_start", PyDatetime t1);
       ("training_cutoff", PyDatetime t2); ("validation_start", PyDatetime t3); ("validation_end", PyDatetime t4);
       ("embargo_end", PyDatetime t5); ("membership_hash", PyStr m)]) = Ok fold_id.
Proof.
  intros H1 H2 H3 H4 H5. unfold _hash_json. cbn [to_json_value traverse mbind res_bind fst snd].
  rewrite !require_utc_is_utc by done. cbn [to_json_value traverse mbind res_bind fst snd].
  eexists. split; [|reflexivity]. apply sha256_json_nonempty.
Qed.

Lemma window_fold_total config rows vs duration :
  is_utc (fc_range_start config) → is_utc vs → 0 < duration → 0 <= fc_embargo config →
  instant (fc_range_start config) + fc_embargo config <= instant vs → NoDup (map target_id rows) →
  ∃ o, window_fold config rows vs (dt_add vs duration) = Ok o.
Proof.
  intros Hu Hv Hd He Hstart Hnd. unfold window_fold. cbn zeta. destruct (_ && _) eqn:Hb; [|eauto].
  match goal with |- context [_hash_json (PyMapping [("contract", PyStr ?c); _; ("training_start", PyDatetime ?t1);
      ("training_cutoff", PyDatetime ?t2); ("validation_start", PyDatetime ?t3); ("validation_end", PyDatetime ?t4);
      ("embargo_end", PyDatetime ?t5); ("membership_hash", PyStr ?m)])] =>
    destruct (fold_id_total c t1 t2 t3 t4 t5 m) as (fold_id & Hid & ->); [auto with qtrad..|] end.
  cbn [mbind res_bind]. unfold Fold_new, Fold_post_init.
  cbn [fd_fold_id fd_training_start fd_training_cutoff fd_validation_start fd_validation_end fd_embargo_end
       fd_training_target_ids fd_validation_target_ids fd_holdout_excluded fd_membership_hash].
  rewrite !require_utc_is_utc by auto with qtrad. cbn [mbind res_bind].
  rewrite Hid, String.eqb_refl. unfold dt_leb, dt_ltb. rewrite instant_sub, instant_add.
  replace (_ <=? _) with true by lia. replace (_ <=? _) with true by lia.
  replace (instant vs <? instant vs + duration) with true by lia.
  replace (instant vs <? instant vs) with false by lia. replace (_ <? _) with false by lia.
  cbn [negb andb orb raise_if mbind res_bind].
  assert (∀ (p : TargetRow → bool), has_duplicates (py_sorted id (map target_id (List.filter p rows))) = false) as Hdup.
  { intros p. by apply has_duplicates_false, filter_ids_NoDup. }
  unfold training_ids, validation_ids. rewrite !Hdup. cbn [raise_if mbind res_bind].
  assert (existsb _ _ = false) as ->; [|by cbn; eauto].
  apply not_true_iff_false. rewrite existsb_exists. intros (i & Hi%list_elem_of_In & Hx).
  apply existsb_exists in Hx as (j & Hj%list_elem_of_In & ->%String.eqb_eq).
  by eapply (sides_disjoint config rows (dt_sub vs (fc_embargo config)) vs); [exact Hnd|rewrite instant_sub; lia|exact Hi|exact Hj].
Qed.

Lemma fold_loop_total config rows duration :
  is_utc (fc_range_start config) → 0 < duration → 0 <= fc_embargo config → NoDup (map target_id rows) →
  ∀ fuel start acc, is_utc start → instant (fc_range_start config) + fc_embargo config <= instant start →
  ∃ folds, fold_loop fuel config rows duration start acc = Ok folds.
Proof.
  intros Hu Hd He Hnd. induction fuel as [|fuel IH]; intros start acc Hs Hle; cbn [fold_loop]; [eauto|].
  case_match; [|eauto]. case_match; [eauto|].
  destruct (window_fold_total config rows start duration) as [o ->]; try done. cbn [mbind res_bind].
  apply IH; [auto with qtrad|]. rewrite !instant_add. lia.
Qed.

Lemma fold_fuel_enough config duration start : 0 < duration →
  instant (fc_holdout_range config).1 - instant start < Z.of_nat (fold_fuel config duration start) * duration.
Proof.
  intros Hd. unfold fold_fuel, dt_diff. set (d := instant _ - instant start).
  pose proof (Z_div_mod_eq_full d duration). pose proof (Z.mod_pos_bound d duration Hd).
  destruct (Z.leb_spec 0 (d / duration + 1)); [rewrite Z2Nat.id by done; nia|rewrite Z2Nat.nonpos by lia; nia].
Qed.

Section built.
Variables (targets : TargetDataset) (config : FoundationConfig) (horizon validation_duration : option timedelta).
Let duration := default (fc_minimum_validation_duration config) validation_duration.
Let selected := default (fc_primary_vertical_horizon config) horizon.
Let rows := eligible_targets config selected targets.
Let start := first_validation_start config selected.

Lemma fold_starts_ordered (folds : list Fold) : loop_result config rows duration start folds → 0 <= fc_embargo config →
  StronglySorted (key_le fold_start) folds.
Proof.
  intros [Hs _ Hord] He. induction Hord as [|f folds _ IH Hf]; constructor.
  - apply IH. intros g Hg. apply Hs. set_solver.
  - rewrite Forall_forall in Hf |- *. intros g Hg. unfold key_le. rewrite pyle_Z. apply Z.leb_le. unfold fold_start.
    specialize (Hf g Hg). destruct (Hs f ltac:(set_solver)) as (k & _ & _ & (_ & _ & Ev & Ee & _ & _ & _ & _ & Hpost)).
    unfold Fold_post_init in Hpost. res_inv. bool_prop. time_solve.
Qed.

Lemma build_folds_Ok ds : config_ok config → build_expanding_folds targets config horizon validation_duration = Ok ds →
  loop_result config rows duration start (fs_folds ds) ∧ fs_folds ds ≠ [] ∧ 0 < duration ∧
  selected ∈ fc_target_horizons config ∧ NoDup (map target_id rows) ∧
  fs_target_dataset_id ds = td_dataset_id targets ∧ fs_foundation_configuration_id ds = configuration_id config.
Proof.
  intros F%config_ok_facts H. unfold build_expanding_folds in H. fold duration selected in H. cbn zeta in H.
  fold rows start in H. res_inv. bool_prop.
  match goal with H : fold_loop _ _ _ _ _ _ = Ok _ |- _ => rename H into Hl end.
  apply fold_loop_result in Hl as (found & -> & Hres); [|lia|apply (cf_embargo _ F)|by apply fold_fuel_enough].
  rewrite app_nil_r in *. rewrite rev_involutive in H.
  assert (found ≠ []) as Hne by (by intros ->).
  unfold FoldDataset_create in H. cbn zeta in H.
  rewrite (py_sorted_id fold_start found) in H by (apply fold_starts_ordered; [done|apply (cf_embargo _ F)]). res_inv.
  cbn [fs_folds fs_target_dataset_id fs_foundation_configuration_id]. split_and!; try done.
  - by apply existsb_eqb.
  - by apply has_duplicates_false.
Qed.

Lemma build_folds_total : config_ok config → _require_target_dataset targets config = Ok tt →
  0 < duration → selected ∈ fc_target_horizons config → NoDup (map target_id rows) →
  (∃ k, 0 <= k ∧ fits config duration (window_start config duration start k) ∧
        both_sides config rows (window_start config duration start k)
                   (dt_add (window_start config duration start k) duration)) →
  ∃ ds, build_expanding_folds targets config horizon validation_duration = Ok ds.
Proof.
  intros F%config_ok_facts Hreq Hd Hsel%existsb_eqb Hnd (k & Hk & Hfit & Hb).
  unfold build_expanding_folds. fold duration selected. cbn zeta. fold rows start. rewrite Hreq. cbn [mbind res_bind].
  replace (duration <=? 0) with false by lia. unfold dt_ltb, dt_eqb.
  pose proof (cf_holdout _ F). rewrite (cf_holdout_end _ F), Z.eqb_refl. replace (_ <? _) with false by lia. rewrite Hsel.
  apply has_duplicates_false in Hnd as Hdup. rewrite Hdup. cbn [raise_if negb orb mbind res_bind].
  pose proof (cf_horizons _ F selected) as Hpos. rewrite existsb_eqb in Hsel. specialize (Hpos Hsel).
  assert (instant (fc_range_start config) + fc_embargo config <= instant start) as Hs.
  { unfold start, first_validation_start. rewrite !instant_add. pose proof (cf_training _ F). lia. }
  destruct (fold_loop_total config rows duration) with (fuel := fold_fuel config duration start) (start := start) (acc := @nil Fold)
    as [folds Hf]; try done; [apply (cf_start_utc _ F)|apply (cf_embargo _ F)| |].
  { unfold start, first_validation_start. pose proof (cf_start_utc _ F). auto with qtrad. }
  rewrite Hf. cbn [mbind res_bind].
  apply fold_loop_result in Hf as (found & -> & [Hsound Hc Hord]); [|done|apply (cf_embargo _ F)|by apply fold_fuel_enough].
  rewrite app_nil_r. destruct (Hc k Hk Hfit Hb) as (f & Hin & _).
  destruct (length (rev found)) eqn:El.
  { rewrite length_rev in El. apply length_zero_iff_nil in El. subst found. set_solver. }
  cbn [Nat.eqb raise_if mbind res_bind]. rewrite rev_involutive. unfold FoldDataset_create, FoldDataset_post_init.
  cbn [fs_folds fs_dataset_id fs_target_dataset_id fs_foundation_configuration_id].
  rewrite sorted_by_py_sorted, String.eqb_refl. cbn. eauto.
Qed.
End built.

(** ** Properties of folds *)

(** C3: folds do not leak. In every fold that is built, each training label was
    final at least one embargo before the validation window opens, hence before the
    decision of every validation target; training and validation share no target;
    neither side holds a decision of the locked holdout, and every validation label
    is final by the time the holdout starts. *)
Theorem folds_do_not_leak targets config horizon validation_duration ds fold :
  config_ok config → build_expanding_folds targets config horizon validation_duration = Ok ds → fold ∈ fs_folds ds →
  (∀ i, i ∈ fd_training_target_ids fold → ∃ r, r ∈ td_rows targets ∧ target_id r = i ∧
     tg_return_disposition r = RET_VALID ∧ _in_holdout (tg_decision_time r) (fc_holdout_range config) = false ∧
     instant (tg_decision_time r) < instant (fd_training_cutoff fold) ∧
     instant (tg_target_available_at r) + fc_embargo config <= instant (fd_validation_start fold) ∧
     instant (tg_target_end_time r) + fc_embargo config <= instant (fd_validation_start fold)) ∧
  (∀ i, i ∈ fd_validation_target_ids fold → ∃ r, r ∈ td_rows targets ∧ target_id r = i ∧
     instant (fd_validation_start fold) <= instant (tg_decision_time r) < instant (fd_validation_end fold) ∧
     _in_holdout (tg_decision_time r) (fc_holdout_range config) = false ∧
     instant (tg_target_available_at r) <= instant (fc_holdout_range config).1) ∧
  (∀ i, i ∈ fd_training_target_ids fold → i ∉ fd_validation_target_ids fold) ∧
  instant (fd_validation_end fold) <= instant (fc_holdout_range config).1.
Proof.
  intros Hok H Hin. destruct (build_folds_Ok _ _ _ _ _ Hok H) as (Hres & _ & Hd & _ & Hnd & _).
  destruct (lr_sound _ _ _ _ _ Hres fold Hin) as (k & Hk & Hfit & Hfold). cbn zeta in *.
  destruct Hfold as (_ & Ec & Ev & Ee & Et & Evi & _ & _ & _).
  pose proof (cf_embargo _ (config_ok_facts _ Hok)) as He.
  rewrite Ec, Ev, Ee, Et, Evi. unfold fits in Hfit. rewrite !instant_sub, !instant_add. split_and!; [| | |done].
  - intros i (r & Hr & E & Hp%in_training_spec)%elem_of_ids. rewrite instant_sub in Hp. exists r.
    apply list_elem_of_In, filter_In in Hr as [Hr%list_elem_of_In _]. intuition lia.
  - intros i (r & Hr & E & Hp%in_validation_spec)%elem_of_ids. rewrite instant_add in Hp. exists r.
    apply list_elem_of_In, filter_In in Hr as [Hr%list_elem_of_In _]. intuition lia.
  - intros i. apply sides_disjoint; [done|]. rewrite instant_sub. lia.
Qed.

(** C23: the fold dataset is exactly the walk-forward schedule: its folds are those of
    the windows of the given duration, one embargo apart, that end by the holdout and
    have targets on both sides; they are in order, each opens at least an embargo
    after the previous one closed, and training sets only grow. *)
Theorem folds_follow_schedule targets config horizon validation_duration ds :
  config_ok config → build_expanding_folds targets config horizon validation_duration = Ok ds →
  let duration := default (fc_minimum_validation_duration config) validation_duration in
  let selected := default (fc_primary_vertical_horizon config) horizon in
  let rows := eligible_targets config selected targets in
  let window k := window_start config duration (first_validation_start config selected) k in
  (∀ f, f ∈ fs_folds ds → ∃ k, 0 <= k ∧ fits config duration (window k) ∧
     fold_of config rows (window k) (dt_add (window k) duration) f) ∧
  (∀ k, 0 <= k → fits config duration (window k) → both_sides config rows (window k) (dt_add (window k) duration) →
     ∃ f, f ∈ fs_folds ds ∧ fold_of config rows (window k) (dt_add (window k) duration) f) ∧
  StronglySorted (λ f g,
    instant (fd_validation_end f) + fc_embargo config <= instant (fd_validation_start g)) (fs_folds ds) ∧
  ∀ f g, f ∈ fs_folds ds → g ∈ fs_folds ds → instant (fd_validation_start f) <= instant (fd_validation_start g) →
    fd_training_target_ids f ⊆ fd_training_target_ids g.
Proof.
  intros Hok H. cbn zeta. destruct (build_folds_Ok _ _ _ _ _ Hok H) as ([Hs Hc Ho] & _ & Hd & _ & Hnd & _).
  cbn zeta in *. split_and!; [done|done|done|]. intros f g Hf Hg Hle.
  destruct (Hs f Hf) as (k & _ & _ & (_ & _ & Ef & _ & -> & _)).
  destruct (Hs g Hg) as (k' & _ & _ & (_ & _ & Eg & _ & -> & _)).
  apply training_ids_mono. rewrite Ef, Eg in Hle. rewrite !instant_sub. lia.
Qed.

(** With a valid configuration and its own targets, building folds terminates
    with a dataset whenever some window that ends by the holdout has targets on both
    sides: no fold it constructs is ever refused. *)
Theorem folds_total targets config horizon validation_duration k :
  config_ok config → _require_target_dataset targets config = Ok tt →
  let duration := default (fc_minimum_validation_duration config) validation_duration in
  let selected := default (fc_primary_vertical_horizon config) horizon in
  let rows := eligible_targets config selected targets in
  let window := window_start config duration (first_validation_start config selected) k in
  0 < duration → selected ∈ fc_target_horizons config → NoDup (map target_id rows) →
  0 <= k → fits config duration window → both_sides config rows window (dt_add window duration) →
  ∃ ds, build_expanding_folds targets config horizon validation_duration = Ok ds.
Proof. intros. apply build_folds_total; try done. eauto. Qed.

(** ** Forecast identities *)

Lemma isfinite_json x : isfinite x = true → float_json x = JFloat (float_repr x).
Proof. by destruct x. Qed.

Lemma forecast_chunks_dumps r j : is_utc (fr_decision_time r) → is_utc (fr_feature_data_asof r) →
  is_utc (fr_training_cutoff r) → isfinite (fr_expected_return r) = true → isfinite (total_seconds (fr_horizon r)) = true →
  to_json_value (_forecast_semantic r) = Ok j → join "" (forecast_id_chunks r) = dumps j.
Proof.
  intros H1 H2 H3 Hf Hh. unfold _forecast_semantic, float_obj. rewrite !isfinite_json by done.
  cbn [to_json_value traverse mbind res_bind fst snd].
  rewrite !require_utc_is_utc by done. cbn [to_json_value traverse mbind res_bind fst snd]. intros [= <-].
  rewrite dumps_obj.
  assert (∀ a b c d e f g h i k l m n o p q s t : json,
    py_sorted fst [("contract", a); ("schema_version", b); ("instrument_id", c); ("decision_time", d);
      ("horizon_seconds", e); ("expected_return", f); ("return_unit", g); ("feature_data_asof", h);
      ("training_cutoff", i); ("observation_dataset_id", k); ("panel_dataset_id", l); ("target_dataset_id", m);
      ("target_id", n); ("fold_dataset_id", o); ("experiment_id", p); ("fold_id", q); ("model_id", s); ("model_contract", t)]
    = [("contract", a); ("decision_time", d); ("expected_return", f); ("experiment_id", p); ("feature_data_asof", h);
       ("fold_dataset_id", o); ("fold_id", q); ("horizon_seconds", e); ("instrument_id", c); ("model_contract", t);
       ("model_id", s); ("observation_dataset_id", k); ("panel_dataset_id", l); ("return_unit", g);
       ("schema_version", b); ("target_dataset_id", m); ("target_id", n); ("training_cutoff", i)]) as -> by reflexivity.
  cbn [map]. unfold member, forecast_id_chunks, scalar_float. cbn [fst snd].
  change (dumps (JStr ?x)) with (json_str x). change (dumps (JFloat ?x)) with x. change (dumps (JInt 1)) with "1".
  cbn zeta. rewrite !join_empty_cons. cbn [join]. change ":1" with (":" +:+ "1"). rewrite !append_assoc. reflexivity.
Qed.

(** The full validation is the prevalidated one, then the identity check. *)
Lemma forecast_full_check r :
  ForecastRow_post_init r false
  = (ForecastRow_post_init r true;; expected ← _hash_json (_forecast_semantic r);
     raise_if (negb (String.eqb (fr_forecast_id r) expected))
              (ValueError "forecast ID does not match its semantic content")).
Proof.
  unfold ForecastRow_post_init.
  repeat match goal with |- (?m ≫= _) = ((?m ≫= _) ≫= _) => destruct m; [cbn [mbind res_bind]|done] end. done.
Qed.

(** The identity [create] computes by streaming is the SHA-256 of the canonical
    JSON of the forecast, so a created forecast passes the full identity check that
    [create] skips. *)
Theorem forecast_identity_canonical values r :
  isfinite (total_seconds (fr_horizon values)) = true → ForecastRow_create values = Ok r →
  _hash_json (_forecast_semantic r) = Ok (fr_forecast_id r) ∧ ForecastRow_post_init r false = Ok tt.
Proof.
  intros Hh H. unfold ForecastRow_create in H. cbn zeta in H. res_inv.
  match goal with H : ForecastRow_post_init _ true = Ok _ |- _ => rename H into Hpost end.
  set (r := set_forecast_id values _) in *.
  assert (_hash_json (_forecast_semantic r) = Ok (fr_forecast_id r)) as Hid.
  { unfold ForecastRow_post_init in Hpost. res_inv.
    repeat match goal with H : require_utc _ _ = Ok _ |- _ => apply require_utc_Ok in H as [? _] end. bool_prop.
    unfold _hash_json. destruct (to_json_value (_forecast_semantic r)) as [j|e] eqn:Ej.
    - cbn [mbind res_bind]. unfold sha256_json. rewrite <- (forecast_chunks_dumps r j) by done. done.
    - exfalso. revert Ej. unfold _forecast_semantic, float_obj. rewrite !isfinite_json by done.
      cbn [to_json_value traverse mbind res_bind fst snd]. rewrite !require_utc_is_utc by done. done. }
  split; [done|]. rewrite forecast_full_check, Hpost. cbn [mbind res_bind]. rewrite Hid. cbn [mbind res_bind].
  by rewrite String.eqb_refl.
Qed.

(** ** Forecasts of built folds *)

Lemma dict_by_Some {A K} `{Countable K} (key : A → K) l k x : dict_by key l !! k = Some x → x ∈ l ∧ key x = k.
Proof.
  unfold dict_by. induction l as [|y l IH] using rev_ind; cbn; [by rewrite lookup_empty|].
  rewrite fold_left_app. cbn. rewrite lookup_insert_Some. intros [[<- <-]|[_ Hx]].
  - set_solver.
  - apply IH in Hx as [Hx ?]. set_solver.
Qed.

Lemma forecast_target_Ok panel targets folds config h experiment tm pm fold i r :
  tm = dict_by target_id (td_rows targets) →
  forecast_target panel targets folds config h experiment tm pm fold i = Ok (Some r) →
  fr_target_id r = i ∧ fr_training_cutoff r = fd_training_cutoff fold ∧ fr_expected_return r = f_zero ∧
  instant (fr_feature_data_asof r) <= instant (fr_decision_time r) ∧
  instant (fd_validation_start fold) <= instant (fr_decision_time r) < instant (fd_validation_end fold) ∧
  ∃ t cell, t ∈ td_rows targets ∧ target_id t = i ∧ fr_decision_time r = tg_decision_time t ∧
    pm !! (tg_instrument_id t, instant (tg_decision_time t), fc_target_basis config) = Some cell ∧
    pr_status cell = OBSERVED ∧ fr_feature_data_asof r = pr_feature_data_asof cell.
Proof.
  intros -> H. unfold forecast_target in H. destruct (dict_by _ _ !! i) as [t|] eqn:Et; [|done].
  apply dict_by_Some in Et as [Ht Eid]. res_inv. bool_prop.
  destruct (pm !! _) as [cell|] eqn:Ecell; [|done]. case_bool_decide as Hobs; [|done]. res_inv. bool_prop.
  match goal with H : ForecastRow_create _ = Ok _ |- _ => unfold ForecastRow_create in H; res_inv end.
  cbn. unfold dt_ltb, dt_leb in *. bool_prop. split_and!; try done; try lia. exists t, cell. done.
Qed.

(** C28: forecasts are out of fold and causal. Every forecast built from a schedule of
    folds uses features no newer than its decision and a training cutoff at least an
    embargo before it; it forecasts a validation target of one fold, which that fold
    does not train on, decided before the locked holdout. *)
Theorem forecasts_out_of_fold panel targets config horizon validation_duration horizon' experiment folds forecasts r :
  config_ok config → build_expanding_folds targets config horizon validation_duration = Ok folds →
  build_zero_return_forecasts panel targets folds config horizon' experiment = Ok forecasts →
  r ∈ fo_rows forecasts →
  instant (fr_feature_data_asof r) <= instant (fr_decision_time r) ∧
  instant (fr_training_cutoff r) + fc_embargo config <= instant (fr_decision_time r) ∧
  instant (fr_decision_time r) < instant (fc_holdout_range config).1 ∧ fr_expected_return r = f_zero ∧
  ∃ fold, fold ∈ fs_folds folds ∧ fr_target_id r ∈ fd_validation_target_ids fold ∧
    fr_target_id r ∉ fd_training_target_ids fold ∧ fr_training_cutoff r = fd_training_cutoff fold.
Proof.
  intros Hok Hfolds H Hr. unfold build_zero_return_forecasts in H. cbn zeta in H. res_inv.
  unfold ForecastDataset_create in H. cbn zeta in H. res_inv. cbn [fo_rows] in Hr. apply elem_of_py_sorted in Hr.
  match goal with H : traverse _ _ = Ok _ |- _ => rename H into Ht end. apply traverse_Ok in Ht.
  apply list_elem_of_omap in Hr as (o & Ho & Eo). cbn in Eo. subst o.
  apply list_elem_of_lookup in Ho as [n Hn]. destruct (Forall2_lookup_r _ _ _ _ _ Ht Hn) as ([fold i] & Hfi & Hfc).
  cbn [fst snd] in Hfc. apply list_elem_of_lookup_2 in Hfi. apply list_elem_of_bind in Hfi as (f & Hfi & Hf).
  apply list_elem_of_bind in Hfi as (i' & Hfi & Hi). apply list_elem_of_singleton in Hfi. injection Hfi as -> ->.
  apply forecast_target_Ok in Hfc as (Eid & Ecut & Ezero & Hasof & Hwin & _); [|done].
  destruct (build_folds_Ok _ _ _ _ _ Hok Hfolds) as (Hres & _ & _ & _ & Hnd & _).
  destruct (lr_sound _ _ _ _ _ Hres f Hf) as (k & Hk & Hfit & (_ & Ec & Ev & Ee & Et & Evi & _)). cbn zeta in *.
  pose proof (cf_embargo _ (config_ok_facts _ Hok)) as He.
  rewrite Ev, Ee in Hwin. rewrite Ecut, Ec. unfold fits in Hfit. rewrite instant_add in Hwin. rewrite instant_sub.
  split_and!; [done|lia|lia|done|]. exists f. rewrite Eid. split_and!; [done|done| |done].
  rewrite Et. rewrite Evi in Hi. intros Hbad. revert Hi. eapply sides_disjoint; [done| |done]. rewrite instant_sub. lia.
Qed.

(** ** Two targets, one on each side of the first window *)

Definition sample_target (minute : Z) : TargetRow :=
  mkTarget "fx:eurusd" (at_minute minute) (minutes 15) MID "MEASURED" (at_minute minute) (at_minute (minute + 15))
    (at_minute (minute + 17)) (at_minute (minute + 17)) (Some first_close) (Some first_close) (Some f_zero) RET_VALID
    None None None None INCOMPLETE_PATH.
Definition sample_targets : TargetDataset :=
  mkTargets [sample_target 1; sample_target 25] sample_id (configuration_id sample_config) "targets".

Lemma sample_ids_differ : target_id (sample_target 1) ≠ target_id (sample_target 25).
Proof. apply String.eqb_neq. vm_compute. reflexivity. Qed.

Lemma elem_of_sample_sides :
  both_sides sample_config (eligible_targets sample_config (minutes 15) sample_targets) (at_minute 22) (at_minute 32).
Proof.
  split; intros E.
  - assert (target_id (sample_target 1) ∈ @nil string) as H; [|by apply not_elem_of_nil in H].
    rewrite <- E. apply elem_of_ids. exists (sample_target 1). split; [by left|]. split; [reflexivity|]. reflexivity.
  - assert (target_id (sample_target 25) ∈ @nil string) as H; [|by apply not_elem_of_nil in H].
    rewrite <- E. apply elem_of_ids. exists (sample_target 25). split; [right; by left|]. split; [reflexivity|]. reflexivity.
Qed.

Lemma sample_targets_match : _require_target_dataset sample_targets sample_config = Ok tt.
Proof. unfold _require_target_dataset. cbn [sample_targets td_observation_dataset_id td_foundation_configuration_id]. by rewrite !String.eqb_refl. Qed.

Lemma sample_ids_NoDup : NoDup (map target_id (eligible_targets sample_config (minutes 15) sample_targets)).
Proof.
  change (NoDup [target_id (sample_target 1); target_id (sample_target 25)]).
  constructor; [|constructor; [|constructor]]; [|by apply not_elem_of_nil].
  intros [H|H%not_elem_of_nil]%elem_of_cons; [by apply sample_ids_differ|done].
Qed.

Lemma sample_folds_build : ∃ ds, build_expanding_folds sample_targets sample_config None None = Ok ds.
Proof.
  apply build_folds_total; [exact sample_config_ok|exact sample_targets_match|reflexivity|by left|exact sample_ids_NoDup|].
  exists 0. split; [lia|]. split; [vm_compute; discriminate|]. exact elem_of_sample_sides.
Qed.

Lemma folds_total_witness : ∃ ds, build_expanding_folds sample_targets sample_config None None = Ok ds.
Proof.
  apply (folds_total sample_targets sample_config None None 0);
    [exact sample_config_ok|exact sample_targets_match|reflexivity|by left|exact sample_ids_NoDup|lia
    |vm_compute; discriminate|exact elem_of_sample_sides].
Defined.

Lemma folds_follow_schedule_witness : ∃ ds, build_expanding_folds sample_targets sample_config None None = Ok ds ∧
  ∃ f, f ∈ fs_folds ds ∧ instant (fd_validation_start f) = instant (at_minute 22).
Proof.
  destruct sample_folds_build as [ds H]. exists ds. split; [exact H|].
  destruct (folds_follow_schedule sample_targets sample_config None None ds sample_config_ok H) as (_ & Hc & _).
  destruct (Hc 0 ltac:(lia) ltac:(vm_compute; discriminate) elem_of_sample_sides) as (f & Hf & (_ & _ & Ev & _)).
  exists f. split; [exact Hf|]. rewrite Ev. reflexivity.
Defined.

Lemma folds_do_not_leak_witness : ∃ ds f, build_expanding_folds sample_targets sample_config None None = Ok ds ∧
  f ∈ fs_folds ds ∧ (∀ i, i ∈ fd_training_target_ids f → i ∉ fd_validation_target_ids f) ∧
  instant (fd_validation_end f) <= instant (at_minute 50).
Proof.
  destruct sample_folds_build as [ds H].
  destruct (build_folds_Ok sample_targets sample_config None None ds sample_config_ok H) as (Hres & _).
  destruct (lr_complete _ _ _ _ _ Hres 0 ltac:(lia) ltac:(vm_compute; discriminate) elem_of_sample_sides) as (f & Hf & _).
  exists ds, f. split; [exact H|]. split; [exact Hf|].
  destruct (folds_do_not_leak sample_targets sample_config None None ds f sample_config_ok H Hf) as (_ & _ & Hd & He).
  split; [exact Hd|exact He].
Defined.

(** ** Forecasts are built *)

Lemma digest_nonempty chunks : nonempty (digest_chunks chunks) = true.
Proof. pose proof (sha256_hex_is_sha256 (join "" chunks)) as H. unfold digest_chunks. by destruct (sha256_hex _). Qed.

Lemma ForecastRow_create_total v :
  is_utc (fr_decision_time v) → is_utc (fr_feature_data_asof v) → is_utc (fr_training_cutoff v) → 0 < fr_horizon v →
  isfinite (fr_expected_return v) = true →
  Forall (λ s, nonempty s = true)
    [fr_instrument_id v; fr_observation_dataset_id v; fr_panel_dataset_id v; fr_target_dataset_id v; fr_target_id v;
     fr_fold_dataset_id v; fr_experiment_id v; fr_fold_id v; fr_model_id v; fr_model_contract v] →
  ForecastRow_create v = Ok (set_forecast_id v (_forecast_id_from_values v)).
Proof.
  intros H1 H2 H3 Hh Hf Hs. unfold ForecastRow_create, ForecastRow_post_init. cbn zeta.
  pose proof (digest_nonempty (forecast_id_chunks v)) as Hid. fold (_forecast_id_from_values v) in Hid.
  destruct v. cbn in *. rewrite !require_utc_is_utc by done. cbn [mbind res_bind].
  replace (_ <=? 0) with false by lia. rewrite Hf. cbn [negb raise_if mbind res_bind].
  assert (String.eqb (ReturnUnit_str fr_return_unit0) "LOG_RETURN" = true) as -> by by destruct fr_return_unit0.
  cbn [negb raise_if mbind res_bind].
  repeat match goal with H : Forall _ (_ :: _) |- _ => apply Forall_cons in H as [? ?] end.
  unfold require_all. cbn [for_each].
  repeat match goal with H : nonempty ?s = true |- context [nonempty ?s] => rewrite H; cbn [negb raise_if mbind res_bind fst] end.
  done.
Qed.

Lemma forecasts_create_total rows o p t f :
  Forall (λ r, fr_observation_dataset_id r = o ∧ fr_panel_dataset_id r = p ∧ fr_target_dataset_id r = t ∧ fr_fold_dataset_id r = f) rows →
  ∃ d, ForecastDataset_create rows o p t f = Ok d ∧ fo_rows d ≡ₚ rows.
Proof.
  intros Hrows. unfold ForecastDataset_create, ForecastDataset_post_init. cbn [fo_rows fo_dataset_id fo_observation_dataset_id fo_panel_dataset_id fo_target_dataset_id fo_fold_dataset_id].
  rewrite sorted_by_py_sorted, String.eqb_refl. cbn [negb raise_if mbind res_bind].
  assert (forallb _ _ = true) as ->.
  { apply forallb_forall. intros r Hr%list_elem_of_In. apply elem_of_py_sorted in Hr. rewrite Forall_forall in Hrows.
    destruct (Hrows r Hr) as (<- & <- & <- & <-). unfold same_lineage. cbn. by rewrite !String.eqb_refl. }
  cbn. eexists. split; [reflexivity|]. cbn. apply py_sorted_perm.
Qed.

Lemma dict_by_lookup {A K} `{Countable K} (key : A → K) l x : NoDup (map key l) → x ∈ l →
  dict_by key l !! key x = Some x.
Proof.
  unfold dict_by. induction l as [|y l IH] using rev_ind; [set_solver|].
  rewrite map_app, fold_left_app. cbn. rewrite NoDup_app. intros (Hnd & Hdis & _) [Hx|Hx]%elem_of_app.
  - rewrite lookup_insert_ne; [by apply IH|]. intros E. apply (Hdis (key x)); [apply list_elem_of_fmap; eauto|].
    rewrite <- E. by left.
  - apply list_elem_of_singleton in Hx as ->. by rewrite lookup_insert_eq.
Qed.

Lemma dict_by_size {A K} `{Countable K} (key : A → K) l : NoDup (map key l) → size (dict_by key l) = length l.
Proof.
  unfold dict_by. induction l as [|y l IH] using rev_ind; [done|].
  rewrite map_app, fold_left_app. cbn. rewrite NoDup_app. intros (Hnd & Hdis & _).
  rewrite map_size_insert_None, IH, length_app; [cbn; lia|done|].
  destruct (_ !! key y) as [x|] eqn:E; [|done]. apply dict_by_Some in E as [Hx E].
  exfalso. apply (Hdis (key x)); [apply list_elem_of_fmap; eauto|]. rewrite E. by left.
Qed.

(** The cell a validation target reads. *)
Definition cell_of (panel : PanelDataset) (config : FoundationConfig) (t : TargetRow) : option PanelRow :=
  dict_by panel_index_key (pd_rows panel) !! (tg_instrument_id t, instant (tg_decision_time t), fc_target_basis config).

Lemma model_id_nonempty : nonempty ZERO_RETURN_MODEL_ID = true.
Proof. pose proof (sha256_hex_is_sha256 "zero-return-v1") as H. unfold ZERO_RETURN_MODEL_ID. by destruct (sha256_hex _). Qed.

Lemma forecast_target_total panel targets folds config h experiment fold t :
  NoDup (map target_id (td_rows targets)) → t ∈ td_rows targets → TargetRow_post_init t = Ok tt →
  Fold_post_init fold = Ok tt → in_validation config (fd_validation_start fold) (fd_validation_end fold) t = true →
  tg_horizon t = h → tg_target_basis t = fc_target_basis config →
  (∀ cell, cell_of panel config t = Some cell →
     PanelRow_post_init cell = Ok tt ∧ instant (pr_feature_data_asof cell) <= instant (tg_decision_time t)) →
  Forall (λ s, nonempty s = true) [tg_instrument_id t; fc_observation_dataset_id config; pd_dataset_id panel;
     td_dataset_id targets; fs_dataset_id folds; experiment] →
  ∃ o, forecast_target panel targets folds config h experiment (dict_by target_id (td_rows targets))
         (dict_by panel_index_key (pd_rows panel)) fold (target_id t) = Ok o ∧
    (o ≠ None ↔ ∃ cell, cell_of panel config t = Some cell ∧ pr_status cell = OBSERVED) ∧
    ∀ r, o = Some r → fr_target_id r = target_id t ∧ fr_observation_dataset_id r = fc_observation_dataset_id config ∧
      fr_panel_dataset_id r = pd_dataset_id panel ∧ fr_target_dataset_id r = td_dataset_id targets ∧
      fr_fold_dataset_id r = fs_dataset_id folds.
Proof.
  intros Hnd Ht Htok Hfok Hv Hh Hb Hcell Hne. unfold forecast_target.
  rewrite (dict_by_lookup target_id) by done. fold (cell_of panel config t).
  apply in_validation_spec in Hv as (Hw & He & Hf & Ha & Hho).
  unfold dt_leb, dt_ltb. replace (_ <=? _) with true by lia. replace (_ <? instant (fd_validation_end fold)) with true by lia.
  rewrite Hho. replace (_ <? instant (tg_target_end_time t)) with false by lia.
  replace (_ <? instant (tg_target_freeze_at t)) with false by lia.
  replace (_ <? instant (tg_target_available_at t)) with false by lia.
  rewrite Hh, Z.eqb_refl, Hb, bool_decide_eq_true_2 by done. cbn [negb andb orb raise_if mbind res_bind].
  destruct (cell_of panel config t) as [cell|] eqn:Ec.
  2: { exists None. split; [done|]. split; [|done]. split; [done|]. intros (cell & Hc & _). done. }
  destruct (Hcell cell eq_refl) as [Hcok Hasof].
  case_bool_decide as Hobs.
  2: { exists None. split; [done|]. split; [|done]. split; [done|]. by intros (cell' & [= <-] & ?). }
  replace (_ <? instant (pr_feature_data_asof cell)) with false by lia. cbn [raise_if mbind res_bind].
  unfold TargetRow_post_init in Htok. unfold PanelRow_post_init in Hcok. unfold Fold_post_init in Hfok. res_inv.
  repeat match goal with H : require_utc _ _ = Ok _ |- _ => apply require_utc_Ok in H as [? _] end. bool_prop.
  repeat match goal with H : Forall _ (_ :: _) |- _ => apply Forall_cons in H as [? ?] end.
  rewrite ForecastRow_create_total; cbn; try done; [|lia|].
  - eexists. split; [reflexivity|]. split; [|by intros r [= <-]]. split; [|done]. intros _. by exists cell.
  - repeat (apply Forall_cons; split); try (apply Forall_nil; exact I);
      match goal with
      | H : nonempty ?s = true |- nonempty ?s = true => exact H
      | |- nonempty (target_id _) = true => apply sha256_json_nonempty
      | |- nonempty ZERO_RETURN_MODEL_ID = true => apply model_id_nonempty
      | |- nonempty ZERO_RETURN_MODEL_CONTRACT = true => reflexivity
      end.
Qed.

(** Everything the builders of one configuration and dataset produce. *)
Record built_foundation (math_log : pyfloat → pyfloat) (config : FoundationConfig) (dataset : ObservationDataset)
    (panel : PanelDataset) (targets : TargetDataset) (horizon : timedelta) (folds : FoldDataset) : Prop := {
  bf_config : config_ok config;
  bf_dataset : _require_dataset dataset config = Ok tt;
  bf_panel : ∃ gaps active, build_asof_panel dataset config gaps active = Ok panel;
  bf_targets : ∃ horizons active, build_frozen_targets math_log dataset config horizons active = Ok targets;
  bf_unique : NoDup (map target_id (td_rows targets));
  bf_folds : ∃ duration, build_expanding_folds targets config (Some horizon) duration = Ok folds }.

Lemma panel_index_NoDup config dataset gaps active panel : config_facts config →
  build_asof_panel dataset config gaps active = Ok panel → NoDup (map panel_index_key (pd_rows panel)).
Proof.
  intros F H. rewrite (build_asof_panel_rows _ _ _ _ _ H).
  assert (NoDup (map _panel_key (py_sorted _panel_key (cells config (od_rows dataset) gaps (_normalise_active_intervals <$> active))))) as Hnd.
  { rewrite (Permutation_map _ (py_sorted_perm _panel_key _)). unfold cells. rewrite cell_key_map. by apply panel_keys_NoDup. }
  revert Hnd. generalize (py_sorted _panel_key (cells config (od_rows dataset) gaps (_normalise_active_intervals <$> active))).
  intros l. induction l as [|r l IH]; [constructor|]. cbn. rewrite !NoDup_cons. intros [Hn Hl]. split; [|by apply IH].
  rewrite list_elem_of_fmap. intros (x & E & Hx). apply Hn, list_elem_of_fmap. exists x. split; [|done].
  unfold panel_index_key, _panel_key in *. injection E as E1 E2 E3. congruence.
Qed.

Lemma built_cells config dataset gaps active panel cell : config_facts config →
  build_asof_panel dataset config gaps active = Ok panel → cell ∈ pd_rows panel →
  PanelRow_post_init cell = Ok tt ∧ pr_feature_data_asof cell = pr_decision_time cell.
Proof.
  intros F H Hc. rewrite (build_asof_panel_rows _ _ _ _ _ H), elem_of_py_sorted in Hc.
  apply list_elem_of_fmap in Hc as ([[dt i] b] & -> & Hk). cbn [fst snd]. apply elem_of_triples in Hk as (Hdt & _ & _).
  destruct (decision_times_ok config (_normalise_active_intervals <$> active) F) as [Hu _]. rewrite Forall_forall in Hu.
  split; [apply panel_cell_valid; [apply (cf_lag _ F)|by apply Hu]|].
  unfold panel_cell. cbn zeta. by repeat case_match.
Qed.

Lemma is_sha256_nonempty s : is_sha256 s = true → nonempty s = true.
Proof. by destruct s. Qed.

Lemma built_ids math_log config dataset panel targets horizon folds :
  built_foundation math_log config dataset panel targets horizon folds →
  nonempty (pd_dataset_id panel) = true ∧ nonempty (td_dataset_id targets) = true ∧ nonempty (fs_dataset_id folds) = true ∧
  _require_panel_and_targets panel targets folds config = Ok tt.
Proof.
  intros [Hc Hd (gaps & active & Hp) (hs & active' & Ht) _ (du & Hf)].
  unfold build_asof_panel in Hp. unfold build_frozen_targets in Ht. unfold build_expanding_folds in Hf.
  rewrite Hd in Hp, Ht. res_inv. unfold PanelDataset_create in Hp. unfold TargetDataset_create in Ht.
  unfold FoldDataset_create in Hf. unfold _require_dataset in Hd. res_inv. bool_prop.
  match goal with H : String.eqb (od_dataset_id dataset) _ = true |- _ => apply String.eqb_eq in H; rename H into Eo end.
  cbn [pd_dataset_id td_dataset_id fs_dataset_id].
  split; [apply digest_nonempty|]. split; [apply digest_nonempty|]. split; [apply sha256_json_nonempty|].
  unfold _require_panel_and_targets, _require_target_dataset.
  cbn [td_observation_dataset_id td_foundation_configuration_id pd_observation_dataset_id pd_foundation_configuration_id
       fs_target_dataset_id fs_foundation_configuration_id td_dataset_id].
  by rewrite Eo, !String.eqb_refl.
Qed.

Lemma built_target math_log config dataset horizons active targets t : config_facts config →
  build_frozen_targets math_log dataset config horizons active = Ok targets → t ∈ td_rows targets →
  TargetRow_post_init t = Ok tt ∧ nonempty (tg_instrument_id t) = true.
Proof.
  intros F H Ht. destruct (build_frozen_targets_rows _ _ _ _ _ _ H) as (rows & E & _ & _ & Hrows).
  rewrite E, elem_of_py_sorted in Ht. apply list_elem_of_lookup in Ht as [n Hn].
  destruct (Forall2_lookup_r _ _ _ _ _ Hrows Hn) as ([[i dt] h] & Hk & Hr).
  apply target_row_key in Hr as (-> & _ & _ & _ & Hpost). split; [done|]. cbn [fst].
  apply (cf_instruments _ F). apply list_elem_of_lookup_2 in Hk. unfold target_keys in Hk.
  apply list_elem_of_bind in Hk as (i' & Hk & Hi'). apply list_elem_of_bind in Hk as (t' & Hk & _).
  apply list_elem_of_bind in Hk as (h' & Hk & _). apply list_elem_of_singleton in Hk. injection Hk as -> _ _.
  apply list_elem_of_In, filter_In in Hi' as [Hi' _]. by apply list_elem_of_In.
Qed.

(** What a pair of a fold and one of its validation identities gives. *)
Definition forecast_outcome (config : FoundationConfig) (panel : PanelDataset) (targets : TargetDataset)
    (folds : FoldDataset) (fi : Fold * string) (o : option ForecastRow) : Prop :=
  ∃ t, t ∈ td_rows targets ∧ target_id t = fi.2 ∧
    (o ≠ None ↔ ∃ cell, cell_of panel config t = Some cell ∧ pr_status cell = OBSERVED) ∧
    ∀ r, o = Some r → fr_target_id r = target_id t ∧ fr_observation_dataset_id r = fc_observation_dataset_id config ∧
      fr_panel_dataset_id r = pd_dataset_id panel ∧ fr_target_dataset_id r = td_dataset_id targets ∧
      fr_fold_dataset_id r = fs_dataset_id folds.

Lemma built_outcome math_log config dataset panel targets horizon folds experiment fold i :
  built_foundation math_log config dataset panel targets horizon folds → nonempty experiment = true →
  fold ∈ fs_folds folds → i ∈ fd_validation_target_ids fold →
  ∃ o, forecast_target panel targets folds config horizon experiment (dict_by target_id (td_rows targets))
         (dict_by panel_index_key (pd_rows panel)) fold i = Ok o ∧
       forecast_outcome config panel targets folds (fold, i) o.
Proof.
  intros Hb He Hfold Hi. destruct (built_ids _ _ _ _ _ _ _ Hb) as (Np & Nt & Nf & _).
  destruct Hb as [Hc Hd (gaps & active & Hp) (hs & active' & Ht) Hu (du & Hf)].
  pose proof (config_ok_facts _ Hc) as F.
  destruct (build_folds_Ok _ _ _ _ _ Hc Hf) as (Hres & _).
  destruct (lr_sound _ _ _ _ _ Hres fold Hfold) as (k & _ & _ & (_ & _ & Ev & Ee & _ & Evi & _ & _ & Hpost)). cbn zeta in *.
  rewrite Evi in Hi. apply elem_of_ids in Hi as (t & Ht' & Eid & Hin). rewrite <- Ee, <- Ev in Hin. subst i.
  apply list_elem_of_In, filter_In in Ht' as [Ht'%list_elem_of_In Hel]. cbn [default from_option id] in Hel. bool_prop.
  destruct (built_target _ _ _ _ _ _ _ F Ht Ht') as [Htok Hn].
  destruct (forecast_target_total panel targets folds config horizon experiment fold t) as (o & Ho & Hout); try done.
  - intros cell Hcell. apply dict_by_Some in Hcell as [Hin' Ekey].
    destruct (built_cells _ _ _ _ _ _ F Hp Hin') as [? ->]. split; [done|]. unfold panel_index_key in Ekey.
    injection Ekey as _ -> _. lia.
  - repeat (apply Forall_cons; split); try done. apply is_sha256_nonempty, (cf_observation_id _ F).
  - exists o. split; [done|]. by exists t.
Qed.

Lemma forecasts_built math_log config dataset panel targets horizon folds experiment :
  built_foundation math_log config dataset panel targets horizon folds → nonempty experiment = true →
  ∃ forecasts, build_zero_return_forecasts panel targets folds config (Some horizon) experiment = Ok forecasts ∧
    ∀ i, i ∈ map fr_target_id (fo_rows forecasts) ↔
      ∃ fold t cell, fold ∈ fs_folds folds ∧ i ∈ fd_validation_target_ids fold ∧ t ∈ td_rows targets ∧ target_id t = i ∧
        cell_of panel config t = Some cell ∧ pr_status cell = OBSERVED.
Proof.
  intros Hb He. destruct (built_ids _ _ _ _ _ _ _ Hb) as (_ & _ & _ & Hreq).
  pose proof Hb as [Hc Hd (gaps & active & Hp) _ Hu (du & Hf)]. pose proof (config_ok_facts _ Hc) as F.
  destruct (build_folds_Ok _ _ _ _ _ Hc Hf) as (_ & _ & _ & Hsel & _). apply existsb_eqb in Hsel. cbn [default from_option id] in Hsel.
  unfold build_zero_return_forecasts. cbn [default from_option id]. rewrite Hreq, Hsel.
  rewrite !dict_by_size, !Nat.eqb_refl by (done || by eapply panel_index_NoDup). cbn [negb raise_if mbind res_bind].
  set (pairs := fs_folds folds ≫= _).
  assert (∀ fi, fi ∈ pairs ↔ fi.1 ∈ fs_folds folds ∧ fi.2 ∈ fd_validation_target_ids fi.1) as Hpairs.
  { intros [f i]. unfold pairs. rewrite list_elem_of_bind. setoid_rewrite list_elem_of_bind.
    setoid_rewrite list_elem_of_singleton. cbn. naive_solver. }
  destruct (traverse_total (λ fi : Fold * string, forecast_target panel targets folds config horizon experiment
    (dict_by target_id (td_rows targets)) (dict_by panel_index_key (pd_rows panel)) fi.1 fi.2)
    (forecast_outcome config panel targets folds) pairs) as (os & -> & Hos).
  { intros [f i] [Hf1 Hi]%Hpairs. by eapply built_outcome. }
  cbn [mbind res_bind].
  destruct (forecasts_create_total (omap id os) (fc_observation_dataset_id config) (pd_dataset_id panel)
    (td_dataset_id targets) (fs_dataset_id folds)) as (d & -> & Hperm).
  { apply Forall_forall. intros r Hr. apply list_elem_of_omap in Hr as (o & Ho & Eo). cbn in Eo. subst o.
    apply list_elem_of_lookup in Ho as [n Hn]. destruct (Forall2_lookup_r _ _ _ _ _ Hos Hn) as (fi & _ & t & _ & _ & _ & Hr).
    by destruct (Hr r eq_refl) as (_ & ?). }
  exists d. split; [done|]. intros i. rewrite (Permutation_map fr_target_id Hperm), list_elem_of_fmap. split.
  - intros (r & -> & Hr). apply list_elem_of_omap in Hr as (o & Ho & Eo). cbn in Eo. subst o.
    apply list_elem_of_lookup in Ho as [n Hn]. destruct (Forall2_lookup_r _ _ _ _ _ Hos Hn) as (fi & Hfi & t & Ht & Eid & Hsome & Hr).
    destruct (proj1 Hsome) as (cell & Hcell & Hobs); [done|]. apply list_elem_of_lookup_2, Hpairs in Hfi as [Hf1 Hi].
    destruct (Hr r eq_refl) as (-> & _). exists fi.1, t, cell. rewrite Eid. by split_and!.
  - intros (fold & t & cell & Hfold & Hi & Ht & <- & Hcell & Hobs).
    assert ((fold, target_id t) ∈ pairs) as Hin by by apply Hpairs.
    apply list_elem_of_lookup in Hin as [n Hn]. destruct (Forall2_lookup_l _ _ _ _ _ Hos Hn) as (o & Ho & t' & Ht' & Eid & Hsome & Hr).
    cbn in Eid. assert (t' = t) as -> by by eapply (NoDup_key_inj target_id (td_rows targets)).
    destruct o as [r|]; [|exfalso; by apply (proj2 Hsome); [exists cell|]].
    destruct (Hr r eq_refl) as (E & _). exists r. split; [done|]. apply list_elem_of_omap.
    exists (Some r). split; [by eapply list_elem_of_lookup_2|done].
Qed.


(** ** One dataset through the whole pipeline *)

Definition sample_forecast : ForecastRow :=
  mkForecast "" "fx:eurusd" (at_minute 25) (minutes 15) f_zero LOG_RETURN (at_minute 25) (at_minute 20)
    sample_id "panel" "targets" "target" "folds" DEFAULT_PROBE_EXPERIMENT_ID "fold" "model" ZERO_RETURN_MODEL_CONTRACT.

Lemma forecast_identity_canonical_witness :
  let r := set_forecast_id sample_forecast (_forecast_id_from_values sample_forecast) in
  _hash_json (_forecast_semantic r) = Ok (fr_forecast_id r) ∧ ForecastRow_post_init r false = Ok tt.
Proof.
  intros r. apply (forecast_identity_canonical sample_forecast r); [reflexivity|].
  apply ForecastRow_create_total; try reflexivity. repeat (apply Forall_cons; split); try reflexivity. apply Forall_nil. exact I.
Defined.

(** Bars that close at 12:01, 12:16 and 12:24; decisions at 12:01 and 12:25. *)
Definition pipeline_rows : list ObservationRow :=
  [minute_row 0 1 3 first_close 1; minute_row 15 1 5 first_close 16; minute_row 23 1 7 first_close 24].
Definition pipeline_dataset : ObservationDataset := dataset_of sample_id pipeline_rows.
Definition pipeline_active : intervals_by_instrument :=
  {["fx:eurusd" := [(at_minute 1, at_minute 2); (at_minute 25, at_minute 26)]]}.

Definition pipeline_target_rows : list TargetRow :=
  Eval vm_compute in ok_or [] (traverse (λ k : string * datetime * timedelta,
    target_row sample_log sample_config (_observation_index pipeline_rows) k.1.1 k.1.2 k.2)
    (target_keys sample_config [minutes 15] (Some (_normalise_active_intervals pipeline_active)))).
Definition pipeline_targets : TargetDataset :=
  mkTargets (py_sorted _target_key pipeline_target_rows) sample_id (configuration_id sample_config)
    (_target_dataset_identity (py_sorted _target_key pipeline_target_rows) sample_id (configuration_id sample_config)).

Lemma pipeline_dataset_matches : _require_dataset pipeline_dataset sample_config = Ok tt.
Proof. exact (sample_dataset_matches sample_id pipeline_rows). Qed.

Lemma pipeline_targets_built :
  build_frozen_targets sample_log pipeline_dataset sample_config None (Some pipeline_active) = Ok pipeline_targets.
Proof.
  unfold build_frozen_targets. rewrite pipeline_dataset_matches. cbn [mbind res_bind].
  set (found := traverse _ _). assert (found = Ok pipeline_target_rows) as -> by (vm_compute; reflexivity).
  cbn [mbind res_bind]. rewrite TargetDataset_create_total. reflexivity.
Qed.

Lemma pipeline_ids : map target_id (td_rows pipeline_targets) = [target_id (sample_target 1); target_id (sample_target 25)].
Proof. reflexivity. Qed.
Lemma pipeline_ids_NoDup : NoDup (map target_id (td_rows pipeline_targets)).
Proof.
  rewrite pipeline_ids. constructor; [|constructor; [|constructor]]; [|by apply not_elem_of_nil].
  intros [H|H%not_elem_of_nil]%elem_of_cons; [by apply sample_ids_differ|done].
Qed.

Lemma pipeline_sides :
  both_sides sample_config (eligible_targets sample_config (minutes 15) pipeline_targets) (at_minute 22) (at_minute 32).
Proof.
  split; intros E.
  - assert (target_id (sample_target 1) ∈ @nil string) as H; [|by apply not_elem_of_nil in H].
    rewrite <- E. apply elem_of_ids. eexists. split; [left|]. split; [reflexivity|]. reflexivity.
  - assert (target_id (sample_target 25) ∈ @nil string) as H; [|by apply not_elem_of_nil in H].
    rewrite <- E. apply elem_of_ids. eexists. split; [right; left|]. split; [reflexivity|]. reflexivity.
Qed.

Lemma pipeline_targets_match : _require_target_dataset pipeline_targets sample_config = Ok tt.
Proof.
  unfold _require_target_dataset. cbn [pipeline_targets td_observation_dataset_id td_foundation_configuration_id].
  by rewrite !String.eqb_refl.
Qed.

Lemma pipeline_built : ∃ panel folds,
  built_foundation sample_log sample_config pipeline_dataset panel pipeline_targets (minutes 15) folds.
Proof.
  destruct (panel_builds sample_config pipeline_dataset [] None) as (panel & Hp & _);
    [apply config_ok_facts, sample_config_ok|exact pipeline_dataset_matches|].
  destruct (build_folds_total pipeline_targets sample_config (Some (minutes 15)) None) as [folds Hf];
    [exact sample_config_ok|exact pipeline_targets_match|reflexivity|by left|exact pipeline_ids_NoDup| |].
  { exists 0. split; [lia|]. split; [vm_compute; discriminate|]. exact pipeline_sides. }
  exists panel, folds. split; [exact sample_config_ok|exact pipeline_dataset_matches|eauto| |exact pipeline_ids_NoDup|eauto].
  exists None, (Some pipeline_active). exact pipeline_targets_built.
Qed.

(** The decision of 12:25 reads the bar that closed at 12:24. *)
Definition pipeline_cell : PanelRow :=
  panel_cell sample_config (_observation_index pipeline_rows) [] ∅ (at_minute 25) "fx:eurusd" MID.

Lemma pipeline_forecast : ∃ panel folds forecasts r,
  build_expanding_folds pipeline_targets sample_config (Some (minutes 15)) None = Ok folds ∧
  build_zero_return_forecasts panel pipeline_targets folds sample_config (Some (minutes 15)) DEFAULT_PROBE_EXPERIMENT_ID
  = Ok forecasts ∧ r ∈ fo_rows forecasts.
Proof.
  destruct (panel_builds sample_config pipeline_dataset [] None) as (panel & Hp & Hrows);
    [apply config_ok_facts, sample_config_ok|exact pipeline_dataset_matches|].
  destruct (build_folds_total pipeline_targets sample_config (Some (minutes 15)) None) as [folds Hf];
    [exact sample_config_ok|exact pipeline_targets_match|reflexivity|by left|exact pipeline_ids_NoDup| |].
  { exists 0. split; [lia|]. split; [vm_compute; discriminate|]. exact pipeline_sides. }
  destruct (forecasts_built sample_log sample_config pipeline_dataset panel pipeline_targets (minutes 15) folds
    DEFAULT_PROBE_EXPERIMENT_ID) as (forecasts & H & Hids); [|reflexivity|].
  { split; [exact sample_config_ok|exact pipeline_dataset_matches|eauto| |exact pipeline_ids_NoDup|eauto].
    exists None, (Some pipeline_active). exact pipeline_targets_built. }
  destruct (build_folds_Ok pipeline_targets sample_config (Some (minutes 15)) None folds sample_config_ok Hf) as (Hres & _).
  destruct (lr_complete _ _ _ _ _ Hres 0 ltac:(lia) ltac:(vm_compute; discriminate) pipeline_sides) as (f & Hin & Hof).
  destruct Hof as (_ & _ & _ & _ & _ & Evi & _).
  assert (target_id (sample_target 25) ∈ map fr_target_id (fo_rows forecasts)) as Hr.
  { apply Hids. eexists f, _, pipeline_cell. split; [exact Hin|]. split.
    - rewrite Evi. apply elem_of_ids. eexists. split; [right; left|]. split; reflexivity.
    - split; [right; left|]. split; [reflexivity|]. split; [|reflexivity].
      unfold cell_of. apply (dict_by_lookup panel_index_key (pd_rows panel) pipeline_cell).
      + by apply (panel_index_NoDup sample_config pipeline_dataset [] None), Hp; apply config_ok_facts, sample_config_ok.
      + rewrite Hrows, elem_of_py_sorted. apply list_elem_of_fmap. exists (at_minute 25, "fx:eurusd", MID). split; [reflexivity|].
        apply elem_of_triples. cbn [fst snd]. split; [|split; by left].
        apply grid_times_spec; [reflexivity|]. exists 25. by repeat split. }
  apply list_elem_of_fmap in Hr as (r & _ & Hr). exists panel, folds, forecasts, r. split; [exact Hf|]. split; [exact H|exact Hr].
Qed.

Lemma forecasts_out_of_fold_witness : ∃ panel folds forecasts r,
  build_zero_return_forecasts panel pipeline_targets folds sample_config (Some (minutes 15)) DEFAULT_PROBE_EXPERIMENT_ID
  = Ok forecasts ∧ r ∈ fo_rows forecasts ∧ instant (fr_training_cutoff r) + minutes 2 <= instant (fr_decision_time r).
Proof.
  destruct pipeline_forecast as (panel & folds & forecasts & r & Hf & H & Hr).
  exists panel, folds, forecasts, r. split; [exact H|]. split; [exact Hr|].
  destruct (forecasts_out_of_fold panel pipeline_targets sample_config (Some (minutes 15)) None (Some (minutes 15))
    DEFAULT_PROBE_EXPERIMENT_ID folds forecasts r sample_config_ok Hf H Hr) as (_ & Hc & _). exact Hc.
Defined.

