(* ===== verification/PyDecFn.v ===== *)
(** More of [decimal.Decimal]: squares ([a ** 2]) and square roots as the interpreter
    computes them, [sorted] on decimals, and the values on a decimal grid on which
    addition, multiplication and halving are exact. *)

From S2P Require Import Prelude PyDecimal.

(** ** Squares and square roots *)

(** [Decimal._fix] for a precision of [p] digits. *)
Definition dec_fix_to (p : Z) (neg : bool) (c e : Z) : Decimal :=
  let nd := ndigits c in
  if nd <=? p then Dec neg c e
  else
    let k := nd - p in
    let q := half_even (c / 10 ^ k) (c mod 10 ^ k) (10 ^ k) in
    if q =? 10 ^ p then Dec neg (10 ^ (p - 1)) (e + k + 1) else Dec neg q (e + k).

(** [a ** 2]: the power is computed with three guard digits, then rounded. *)
Definition dec_square (a : Decimal) : Decimal :=
  let d := dec_fix_to (prec + 3) false (dec_coeff a * dec_coeff a) (2 * dec_exp a) in
  dec_fix false (dec_coeff d) (dec_exp d).

(** [a.sqrt()]: the root of the coefficient scaled to twice one digit more than the
    precision; an inexact root never ends in 0 or 5, so that the final rounding is that
    of the true root. A negative argument is an invalid operation. *)
Definition dec_sqrt (a : Decimal) : res Decimal :=
  if dec_coeff a =? 0 then Ok (Dec (dec_neg a) 0 (dec_exp a / 2))
  else if dec_neg a then Raise (ArithmeticError "invalid operation: square root of a negative number")
  else
    let e := dec_exp a / 2 in
    let odd := Z.odd (dec_exp a) in
    let c := if odd then dec_coeff a * 10 else dec_coeff a in
    let l := if odd then ndigits (dec_coeff a) / 2 + 1 else (ndigits (dec_coeff a) + 1) / 2 in
    let shift := prec + 1 - l in
    let scaled_c := if 0 <=? shift then c * 100 ^ shift else c / 100 ^ (- shift) in
    let exact_c := (0 <=? shift) || (c mod 100 ^ (- shift) =? 0) in
    let n := Z.sqrt scaled_c in
    if exact_c && (n * n =? scaled_c) then
      Ok (dec_fix false (if 0 <=? shift then n / 10 ^ shift else n * 10 ^ (- shift)) e)
    else Ok (dec_fix false (if n mod 5 =? 0 then n + 1 else n) (e - shift)).

Example dec_sqrt_four : dec_sqrt (dec_of_Z 4) = Ok (dec_of_Z 2).
Proof. reflexivity. Qed.
Example dec_sqrt_two : dec_sqrt (dec_of_Z 2) = Ok (dec_lit 1414213562373095048801688724 (-27)).
Proof. reflexivity. Qed.
Example dec_sqrt_quarter : dec_sqrt (dec_lit 625 (-2)) = Ok (dec_lit 25 (-1)).
Proof. reflexivity. Qed.
Example dec_square_half : dec_square (dec_lit (-15) (-1)) = dec_lit 225 (-2).
Proof. reflexivity. Qed.

(** ** [sorted] by a comparison

    A stable sort by a total preorder, for keys that may compare equal without being
    the same value, as decimals do. *)
Section sort_by.
Context {A : Type} (le : A → A → bool).

Fixpoint insert_by (x : A) (l : list A) : list A :=
  match l with
  | [] => [x]
  | y :: l' => if le x y then x :: l else y :: insert_by x l'
  end.
Definition sort_by (l : list A) : list A := foldr insert_by [] l.

Lemma insert_by_perm x l : insert_by x l ≡ₚ x :: l.
Proof.
  induction l as [|y l IH]; [done|]. cbn. destruct (le x y); [done|]. rewrite IH. apply Permutation_swap.
Qed.
Lemma sort_by_perm l : sort_by l ≡ₚ l.
Proof.
  induction l as [|x l IH]; [done|]. change (sort_by (x :: l)) with (insert_by x (sort_by l)).
  by rewrite insert_by_perm, IH.
Qed.

Hypothesis le_total : ∀ x y, le x y = false → le y x = true.
Hypothesis le_trans : ∀ x y z, le x y = true → le y z = true → le x z = true.

Lemma insert_by_sorted x l : StronglySorted (λ a b, le a b = true) l → StronglySorted (λ a b, le a b = true) (insert_by x l).
Proof.
  induction 1 as [|y l Hl IH Hy]; [by repeat constructor|]. cbn. destruct (le x y) eqn:E.
  - constructor; [by constructor|]. constructor; [done|].
    eapply Forall_impl; [exact Hy|]. intros z Hz. by eapply le_trans.
  - constructor; [done|]. rewrite insert_by_perm. constructor; [by apply le_total|done].
Qed.
Lemma sort_by_sorted l : StronglySorted (λ a b, le a b = true) (sort_by l).
Proof.
  induction l as [|x l IH]; [constructor|]. change (sort_by (x :: l)) with (insert_by x (sort_by l)).
  by apply insert_by_sorted.
Qed.
End sort_by.

(** ** Exact arithmetic on a grid

    [on_grid e B a]: [a] is a well-formed multiple of [10^e] of magnitude at most
    [B * 10^e]. *)
Record on_grid (e B : Z) (a : Decimal) : Prop := {
  og_wf : dec_wf a;
  og_exp : e <= dec_exp a;
  og_bound : Z.abs (scaled e a) <= B }.

Lemma abs_signed a : dec_wf a → Z.abs (dec_signed a) = dec_coeff a.
Proof. unfold dec_wf, dec_signed. destruct (dec_neg a); lia. Qed.

Lemma scaled_exact e a : e <= dec_exp a → scaled e a = dec_signed a * 10 ^ (dec_exp a - e).
Proof. done. Qed.

Lemma coeff_le_scaled e B a : on_grid e B a → dec_coeff a <= B.
Proof.
  intros [Hwf He Hb]. rewrite <- (abs_signed a Hwf). unfold scaled in Hb.
  assert (1 <= 10 ^ (dec_exp a - e)) by (apply Z.lt_pred_le, Z.pow_pos_nonneg; lia).
  rewrite Z.abs_mul, (Z.abs_eq (10 ^ _)) in Hb by lia. nia.
Qed.

Lemma dec_wf_fix neg c e : 0 <= c < 10 ^ prec → dec_wf (dec_fix neg c e).
Proof. intros. rewrite dec_fix_exact by done. unfold dec_wf. cbn. lia. Qed.

Lemma on_grid_weaken e B B' a : B <= B' → on_grid e B a → on_grid e B' a.
Proof. intros ? []. constructor; [done|done|lia]. Qed.

Lemma grid_add e A B a b : on_grid e A a → on_grid e B b → A + B < 10 ^ prec →
  on_grid e (A + B) (dec_add a b) ∧ scaled e (dec_add a b) = scaled e a + scaled e b.
Proof.
  intros [Wa Ea Ba] [Wb Eb Bb] Hlt. set (m := Z.min (dec_exp a) (dec_exp b)).
  assert (scaled e a = scaled m a * 10 ^ (m - e)) as Sa by (apply scaled_shift; lia).
  assert (scaled e b = scaled m b * 10 ^ (m - e)) as Sb by (apply scaled_shift; lia).
  assert (1 <= 10 ^ (m - e)) as Hp by (apply Z.lt_pred_le, Z.pow_pos_nonneg; lia).
  assert (Z.abs (scaled m a + scaled m b) <= Z.abs (scaled e a + scaled e b)) as Hm.
  { rewrite Sa, Sb, <- Z.mul_add_distr_r, Z.abs_mul, (Z.abs_eq (10 ^ _)) by lia. nia. }
  destruct (dec_add_exact a b) as [He Hs]; fold m; [lia|]. cbn zeta in *. fold m in He, Hs.
  assert (scaled e (dec_add a b) = scaled e a + scaled e b) as Hsum.
  { unfold scaled at 1. rewrite He, Hs, Sa, Sb. ring. }
  split; [constructor|done].
  - unfold dec_add. fold m. apply dec_wf_fix. lia.
  - lia.
  - rewrite Hsum. lia.
Qed.

Lemma grid_negate e A a : on_grid e A a → on_grid e A (dec_copy_negate a).
Proof. intros [W E B]. constructor; [done|done|]. rewrite scaled_negate. lia. Qed.

Lemma grid_sub e A B a b : on_grid e A a → on_grid e B b → A + B < 10 ^ prec →
  on_grid e (A + B) (dec_sub a b) ∧ scaled e (dec_sub a b) = scaled e a - scaled e b.
Proof.
  intros Ha Hb Hlt. destruct (grid_add e A B a (dec_copy_negate b)) as [G S]; [done|by apply grid_negate|done|].
  unfold dec_sub. split; [done|]. rewrite S, scaled_negate. lia.
Qed.

Lemma dec_signed_mul a b :
  (if xorb (dec_neg a) (dec_neg b) then - (dec_coeff a * dec_coeff b) else dec_coeff a * dec_coeff b)
  = dec_signed a * dec_signed b.
Proof. unfold dec_signed. destruct (dec_neg a), (dec_neg b); cbn; ring. Qed.

Lemma grid_mul e f A B a b : on_grid e A a → on_grid f B b → A * B < 10 ^ prec →
  on_grid (e + f) (A * B) (dec_mul a b) ∧ scaled (e + f) (dec_mul a b) = scaled e a * scaled f b.
Proof.
  intros Ga Gb Hlt. pose proof (coeff_le_scaled _ _ _ Ga). pose proof (coeff_le_scaled _ _ _ Gb).
  destruct Ga as [Wa Ea Ba], Gb as [Wb Eb Bb]. unfold dec_wf in *.
  assert (0 <= dec_coeff a * dec_coeff b < 10 ^ prec) as Hc by nia.
  unfold dec_mul. rewrite dec_fix_exact by done.
  assert (scaled (e + f) (Dec (xorb (dec_neg a) (dec_neg b)) (dec_coeff a * dec_coeff b) (dec_exp a + dec_exp b))
          = scaled e a * scaled f b) as Hs.
  { unfold scaled, dec_signed at 1. cbn [dec_neg dec_coeff dec_exp]. rewrite dec_signed_mul.
    replace (dec_exp a + dec_exp b - (e + f)) with ((dec_exp a - e) + (dec_exp b - f)) by lia.
    rewrite Z.pow_add_r by lia. ring. }
  split; [|done]. constructor; [unfold dec_wf; cbn; lia|cbn; lia|]. rewrite Hs, Z.abs_mul. nia.
Qed.

(** ** Halving *)

Lemma strip_zeros_spec fuel c e ideal c' e' : e <= ideal →
  strip_zeros fuel c e ideal = (c', e') →
  c = c' * 10 ^ (e' - e) ∧ e <= e' <= ideal ∧ (Z.of_nat fuel < ideal - e ∨ e' = ideal ∨ c' mod 10 ≠ 0).
Proof.
  revert c e. induction fuel as [|fuel IH]; intros c e He; cbn [strip_zeros].
  - intros [= <- <-]. rewrite Z.sub_diag. lia.
  - destruct (Z.ltb_spec e ideal); cbn [andb].
    + destruct (Z.eqb_spec (c mod 10) 0) as [Hz|Hz].
      * intros (Hc & Hr & Hd)%IH; [|lia]. split_and!; [|lia..|lia].
        replace (e' - e) with (Z.succ (e' - (e + 1))) by lia. rewrite Z.pow_succ_r by lia.
        pose proof (Z.div_mod c 10 ltac:(lia)). nia.
      * intros [= <- <-]. rewrite Z.sub_diag. lia.
    + intros [= <- <-]. rewrite Z.sub_diag. lia.
Qed.

(** Half of a decimal with room for one more digit is exact. *)
Lemma grid_half e A a : on_grid e A a → 10 * A < 10 ^ prec →
  ∃ m, dec_div a (dec_of_Z 2) = Ok m ∧ on_grid (e - 1) (5 * A) m ∧ scaled (e - 1) m = 5 * scaled e a.
Proof.
  intros Ga Hlt. pose proof (coeff_le_scaled _ _ _ Ga) as Hc. destruct Ga as [Wa Ea Ba]. unfold dec_wf in Wa.
  unfold dec_div. change (dec_coeff (dec_of_Z 2)) with 2. change (dec_exp (dec_of_Z 2)) with 0.
  change (dec_neg (dec_of_Z 2)) with false. rewrite xorb_false_r, Z.sub_0_r. cbn [Z.eqb].
  destruct (Z.eqb_spec (dec_coeff a) 0) as [Hz|Hz].
  { eexists. split; [done|]. rewrite dec_fix_exact by lia.
    assert (scaled e a = 0) as S0 by (unfold scaled, dec_signed; rewrite Hz; by destruct (dec_neg a)).
    assert (scaled (e - 1) (Dec (dec_neg a) 0 (dec_exp a)) = 0) as S1
      by (unfold scaled, dec_signed; cbn; by destruct (dec_neg a)).
    split; [constructor; [unfold dec_wf; cbn; lia|cbn; lia|rewrite S1; lia]|lia]. }
  change (ndigits 2) with 1. set (shift := 1 - ndigits (dec_coeff a) + prec + 1).
  pose proof (ndigits_bound (dec_coeff a) (prec - 1) Wa ltac:(done)) as Hn.
  assert (dec_coeff a < 10 ^ (prec - 1)) as Hc'.
  { change (10 ^ prec) with (10 * 10 ^ (prec - 1)) in Hlt. lia. }
  specialize (Hn Hc'). assert (3 <= shift) as Hs by (unfold shift; lia). clear Hn. clearbody shift.
  rewrite (proj2 (Z.leb_le 0 shift)) by lia.
  assert (10 ^ shift = 2 * (5 * 10 ^ (shift - 1))) as Hp.
  { replace shift with (Z.succ (shift - 1)) at 1 by lia. rewrite Z.pow_succ_r by lia. ring. }
  rewrite Hp. replace (dec_coeff a * (2 * (5 * 10 ^ (shift - 1)))) with (dec_coeff a * 5 * 10 ^ (shift - 1) * 2) by ring.
  rewrite Z.mod_mul, Z.div_mul by lia. cbn [Z.eqb].
  destruct (strip_zeros _ _ _ _) as [c' e'] eqn:Hst.
  apply strip_zeros_spec in Hst as (Hv & Hr & Hd); [|lia].
  assert (dec_exp a - 1 <= e' ∧ 0 <= c') as [He' Hc'0].
  { assert (0 < 10 ^ (e' - (dec_exp a - shift))) by (apply Z.pow_pos_nonneg; lia).
    assert (0 < 10 ^ (shift - 1)) by (apply Z.pow_pos_nonneg; lia).
    split; [|nia]. destruct (Z.le_gt_cases (dec_exp a - 1) e') as [?|Hbad]; [done|exfalso].
    destruct Hd as [?|[?|Hd]]; [lia|lia|]. apply Hd.
    replace (shift - 1) with ((e' - (dec_exp a - shift)) + Z.succ (dec_exp a - 2 - e')) in Hv by lia.
    rewrite Z.pow_add_r, Z.pow_succ_r in Hv by lia.
    assert (c' = dec_coeff a * 5 * 10 ^ (dec_exp a - 2 - e') * 10) as ->.
    { apply (Z.mul_reg_r _ _ (10 ^ (e' - (dec_exp a - shift)))); [lia|]. rewrite <- Hv. ring. }
    by rewrite Z.mod_mul. }
  assert (dec_coeff a * 5 = c' * 10 ^ (e' - (dec_exp a - 1))) as Hv'.
  { assert (0 < 10 ^ (shift - 1)) by (apply Z.pow_pos_nonneg; lia).
    replace (e' - (dec_exp a - shift)) with ((e' - (dec_exp a - 1)) + (shift - 1)) in Hv by lia.
    rewrite Z.pow_add_r in Hv by lia. apply (Z.mul_reg_r _ _ (10 ^ (shift - 1))); [lia|]. rewrite Hv. ring. }
  assert (1 <= 10 ^ (e' - (dec_exp a - 1))) by (apply Z.lt_pred_le, Z.pow_pos_nonneg; lia).
  assert (c' < 10 ^ prec) as Hfit by nia.
  eexists. split; [done|]. rewrite dec_fix_exact by lia.
  assert (scaled (e - 1) (Dec (dec_neg a) c' e') = 5 * scaled e a) as S.
  { unfold scaled, dec_signed. cbn [dec_neg dec_coeff dec_exp].
    replace (e' - (e - 1)) with ((e' - (dec_exp a - 1)) + (dec_exp a - e)) by lia.
    rewrite Z.pow_add_r by lia. destruct (dec_neg a); nia. }
  split; [|done]. constructor; [done|cbn; lia|]. rewrite S. lia.
Qed.

(** ** Sums *)

Lemma grid_sum_from e B l : Forall (on_grid e B) l → ∀ A a, 0 <= B → on_grid e A a →
  A + B * Z.of_nat (length l) < 10 ^ prec →
  on_grid e (A + B * Z.of_nat (length l)) (fold_left dec_add l a)
  ∧ scaled e (fold_left dec_add l a) = scaled e a + foldr Z.add 0 (map (scaled e) l).
Proof.
  induction 1 as [|x l Hx Hl IH]; intros A a HB Ha Hlt; cbn [fold_left map foldr].
  - change (Z.of_nat (length [])) with 0 in *. rewrite Z.mul_0_r, !Z.add_0_r. done.
  - cbn [length] in *. rewrite Nat2Z.inj_succ in *. destruct (grid_add e A B a x) as [G S]; [done|done|nia|].
    destruct (IH (A + B) (dec_add a x)) as [G' S']; [done|done|nia|].
    split; [|rewrite S', S; lia]. replace (A + B * Z.succ (Z.of_nat (length l))) with (A + B + B * Z.of_nat (length l)) by ring. done.
Qed.

Lemma grid_zero e B : e <= 0 → 0 <= B → on_grid e B dec_zero.
Proof. intros. constructor; [done|done|]. change (scaled e dec_zero) with 0. lia. Qed.

Lemma grid_sum e B l : e <= 0 → 0 <= B → Forall (on_grid e B) l → B * Z.of_nat (length l) < 10 ^ prec →
  on_grid e (B * Z.of_nat (length l)) (dec_sum l) ∧ scaled e (dec_sum l) = foldr Z.add 0 (map (scaled e) l).
Proof.
  intros He HB Hl Hlt. destruct (grid_sum_from e B l Hl 0 dec_zero) as [G S]; [done|by apply grid_zero|lia|].
  unfold dec_sum. split; [by rewrite Z.add_0_l in G|]. by rewrite S.
Qed.

Lemma grid_max e A a b : on_grid e A a → on_grid e A b →
  on_grid e A (dec_max a b) ∧ scaled e (dec_max a b) = Z.max (scaled e a) (scaled e b).
Proof.
  intros Ga Gb. unfold dec_max. rewrite (dec_ltb_at e) by apply Ga || apply Gb.
  destruct (Z.ltb_spec (scaled e a) (scaled e b)); split; (done || lia).
Qed.

(** Order and equality on a grid are those of the scaled integers. *)
Lemma grid_leb e A B a b : on_grid e A a → on_grid e B b → dec_leb a b = (scaled e a <=? scaled e b).
Proof. intros [] []. by apply dec_leb_at. Qed.
Lemma grid_ltb e A B a b : on_grid e A a → on_grid e B b → dec_ltb a b = (scaled e a <? scaled e b).
Proof. intros [] []. by apply dec_ltb_at. Qed.
Lemma grid_eqb e A B a b : on_grid e A a → on_grid e B b → dec_eqb a b = (scaled e a =? scaled e b).
Proof. intros [] []. by apply dec_eqb_at. Qed.

(** ** Signs and non-zero results *)

Lemma ndigits_fuel_lower fuel n : 0 < n → 10 ^ (ndigits_fuel fuel n - 1) <= n.
Proof.
  revert n. induction fuel as [|fuel IH]; intros n Hn; cbn [ndigits_fuel]; [change (10 ^ (1 - 1)) with 1; lia|].
  destruct (Z.ltb_spec n 10); [change (10 ^ (1 - 1)) with 1; lia|].
  specialize (IH (n / 10)). pose proof (Z.div_str_pos n 10 ltac:(lia)). pose proof (Z.div_mod n 10 ltac:(lia)).
  pose proof (Z.mod_pos_bound n 10 ltac:(lia)). specialize (IH ltac:(lia)).
  assert (1 <= ndigits_fuel fuel (n / 10)) as Hk.
  { clear. generalize (n / 10). induction fuel as [|fuel IH]; intros k; cbn; [lia|].
    destruct (_ <? _); [lia|]. specialize (IH (k / 10)). lia. }
  replace (1 + ndigits_fuel fuel (n / 10) - 1) with (Z.succ (ndigits_fuel fuel (n / 10) - 1)) by lia.
  rewrite Z.pow_succ_r by lia. lia.
Qed.
Lemma ndigits_lower n : 0 < n → 10 ^ (ndigits n - 1) <= n.
Proof. apply ndigits_fuel_lower. Qed.

Lemma half_even_ge q r h : q <= half_even q r h.
Proof. unfold half_even. destruct (_ <? _); [lia|]. destruct (_ <? _); [lia|]. destruct (Z.even q); lia. Qed.

Lemma dec_fix_neg neg c e : dec_neg (dec_fix neg c e) = neg.
Proof. unfold dec_fix. destruct (_ <=? _); [done|]. cbn zeta. by destruct (_ =? _). Qed.
Lemma dec_fix_wf neg c e : 0 <= c → dec_wf (dec_fix neg c e).
Proof.
  intros Hc. unfold dec_wf, dec_fix. destruct (Z.leb_spec (ndigits c) prec); [done|]. cbn zeta.
  destruct (_ =? _); cbn [dec_coeff]; [done|]. etransitivity; [|apply half_even_ge].
  apply Z.div_pos; [done|]. apply Z.pow_pos_nonneg; lia.
Qed.
Lemma dec_fix_pos neg c e : 0 < c → 0 < dec_coeff (dec_fix neg c e).
Proof.
  intros Hc. unfold dec_fix. destruct (Z.leb_spec (ndigits c) prec); [done|]. cbn zeta.
  destruct (_ =? _); cbn [dec_coeff]; [done|]. eapply Z.lt_le_trans; [|apply half_even_ge].
  apply Z.div_str_pos. split; [apply Z.pow_pos_nonneg; lia|].
  etransitivity; [|by apply ndigits_lower]. apply Z.pow_le_mono_r; unfold prec; lia.
Qed.

Lemma dec_add_wf a b : dec_wf (dec_add a b).
Proof. unfold dec_add. apply dec_fix_wf. lia. Qed.
Lemma dec_signed_nonneg a : dec_wf a → dec_neg a = false → 0 <= dec_signed a.
Proof. unfold dec_wf, dec_signed. by intros ? ->. Qed.
Lemma dec_add_nonneg a b : dec_wf a → dec_wf b → dec_neg a = false → dec_neg b = false → dec_neg (dec_add a b) = false.
Proof.
  intros Wa Wb Na Nb. unfold dec_add. rewrite dec_fix_neg, Na, Nb.
  assert (∀ e d, 0 <= dec_signed d → 0 <= scaled e d) as Hs.
  { intros e d Hd. unfold scaled. apply Z.mul_nonneg_nonneg; [done|]. apply Z.pow_nonneg. lia. }
  set (e := Z.min _ _). pose proof (Hs e a (dec_signed_nonneg a Wa Na)). pose proof (Hs e b (dec_signed_nonneg b Wb Nb)).
  destruct (_ =? 0); [done|]. apply Z.ltb_ge. lia.
Qed.
Lemma dec_sum_nonneg l : Forall (λ a, dec_wf a ∧ dec_neg a = false) l → dec_wf (dec_sum l) ∧ dec_neg (dec_sum l) = false.
Proof.
  unfold dec_sum. assert (dec_wf dec_zero ∧ dec_neg dec_zero = false) as H0 by done. revert H0. generalize dec_zero.
  induction l as [|x l IH]; intros a [Wa Na] Hl; cbn [fold_left]; [done|]. inversion_clear Hl as [|? ? [Wx Nx] Hl'].
  apply IH; [|done]. split; [apply dec_add_wf|by apply dec_add_nonneg].
Qed.
Lemma dec_square_nonneg a : dec_wf (dec_square a) ∧ dec_neg (dec_square a) = false.
Proof.
  unfold dec_square. split; [|apply dec_fix_neg]. apply dec_fix_wf. unfold dec_fix_to.
  pose proof (Z.square_nonneg (dec_coeff a)). destruct (Z.leb_spec (ndigits (dec_coeff a * dec_coeff a)) (prec + 3)); [done|].
  cbn zeta. destruct (_ =? _); cbn [dec_coeff]; [done|]. etransitivity; [|apply half_even_ge].
  apply Z.div_pos; [done|]. apply Z.pow_pos_nonneg; lia.
Qed.

Lemma dec_nonzero a : dec_wf a → dec_eqb a dec_zero = false → 0 < dec_coeff a.
Proof.
  intros W H. destruct (Z.eq_dec (dec_coeff a) 0) as [E|]; [|unfold dec_wf in W; lia].
  rewrite (dec_eqb_at (Z.min (dec_exp a) 0)) in H by (cbn; lia). apply Z.eqb_neq in H. exfalso. apply H.
  unfold scaled, dec_signed. rewrite E. by destruct (dec_neg a).
Qed.

Lemma dec_leb_zero a : dec_leb a dec_zero = (dec_signed a <=? 0).
Proof.
  rewrite (dec_leb_at (Z.min (dec_exp a) 0)) by (cbn; lia). change (scaled _ dec_zero) with 0. unfold scaled.
  assert (0 < 10 ^ (dec_exp a - Z.min (dec_exp a) 0)) by (apply Z.pow_pos_nonneg; lia).
  destruct (Z.leb_spec (dec_signed a) 0), (Z.leb_spec (dec_signed a * 10 ^ (dec_exp a - Z.min (dec_exp a) 0)) 0); nia.
Qed.
Lemma dec_positive a : dec_wf a → dec_leb a dec_zero = false → 0 < dec_coeff a.
Proof. unfold dec_wf. rewrite dec_leb_zero, Z.leb_gt. unfold dec_signed. destruct (dec_neg a); lia. Qed.

Lemma dec_div_total a b : 0 < dec_coeff b → ∃ q, dec_div a b = Ok q.
Proof.
  intros Hb. unfold dec_div. destruct (Z.eqb_spec (dec_coeff b) 0); [lia|]. cbn zeta.
  destruct (_ =? 0); [eauto|]. destruct (_ =? 0); [|eauto]. destruct (strip_zeros _ _ _ _). eauto.
Qed.

Lemma sqrt_scaled_pos c l shift : 0 < c → 1 <= l → 100 ^ (l - 1) <= c → shift = prec + 1 - l →
  0 < (if 0 <=? shift then c * 100 ^ shift else c / 100 ^ (- shift)).
Proof.
  intros Hc Hl Hlow ->. destruct (Z.leb_spec 0 (prec + 1 - l)).
  - apply Z.mul_pos_pos; [done|]. apply Z.pow_pos_nonneg; lia.
  - apply Z.div_str_pos. split; [apply Z.pow_pos_nonneg; lia|]. etransitivity; [|exact Hlow].
    apply Z.pow_le_mono_r; unfold prec; lia.
Qed.

Lemma base100 n : 0 <= n → 100 ^ n = 10 ^ (2 * n).
Proof. intros. by rewrite (Z.pow_mul_r 10 2 n) by lia. Qed.

Lemma dec_sqrt_total a : dec_neg a = false → 0 < dec_coeff a → ∃ r, dec_sqrt a = Ok r ∧ 0 < dec_coeff r.
Proof.
  intros Na Pa. unfold dec_sqrt. destruct (Z.eqb_spec (dec_coeff a) 0); [lia|]. rewrite Na. cbn zeta.
  set (l := if Z.odd _ then ndigits _ / 2 + 1 else _). set (c := if Z.odd _ then dec_coeff a * 10 else _).
  set (shift := prec + 1 - l).
  assert (1 <= ndigits (dec_coeff a)) as Hnd.
  { unfold ndigits. generalize (dec_coeff a). intros k. destruct (Z.to_nat (Z.log2 k)) as [|f]; cbn; [lia|].
    destruct (_ <? _); [lia|]. clear. generalize (k / 10). induction f as [|f IH]; intros m; cbn; [lia|].
    destruct (_ <? _); [lia|]. specialize (IH (m / 10)). lia. }
  pose proof (ndigits_lower (dec_coeff a) Pa) as Hlow.
  assert (0 < c ∧ 1 <= l ∧ 100 ^ (l - 1) <= c) as (Hc & Hl & Hb).
  { unfold c, l. destruct (Z.odd (dec_exp a)).
    - pose proof (Z.div_pos (ndigits (dec_coeff a)) 2 ltac:(lia) ltac:(lia)). split_and!; [lia|lia|].
      rewrite Z.add_simpl_r, base100 by lia.
      transitivity (10 ^ (Z.succ (ndigits (dec_coeff a) - 1))); [|rewrite Z.pow_succ_r by lia; lia].
      apply Z.pow_le_mono_r; [lia|]. pose proof (Z.mul_div_le (ndigits (dec_coeff a)) 2 ltac:(lia)). lia.
    - pose proof (Z.div_le_lower_bound (ndigits (dec_coeff a) + 1) 2 1 ltac:(lia) ltac:(lia)).
      split_and!; [lia|lia|]. rewrite base100 by lia. etransitivity; [|exact Hlow].
      apply Z.pow_le_mono_r; [lia|]. pose proof (Z.mul_div_le (ndigits (dec_coeff a) + 1) 2 ltac:(lia)). lia. }
  pose proof (sqrt_scaled_pos c l shift Hc Hl Hb eq_refl) as Hs. set (sc := if 0 <=? shift then _ else _) in *.
  assert (0 < Z.sqrt sc) as Hn by (by apply Z.sqrt_pos).
  destruct (_ && _) eqn:Hex.
  - eexists. split; [done|]. apply dec_fix_pos. apply andb_true_iff in Hex as [_ Hsq%Z.eqb_eq].
    unfold sc in Hsq, Hn |- *. destruct (Z.leb_spec 0 shift) as [Hsh|Hsh].
    + apply Z.div_str_pos. split; [apply Z.pow_pos_nonneg; lia|]. apply Z.square_le_simpl_nonneg; [lia|].
      rewrite Hsq. change 100 with (10 * 10). rewrite Z.pow_mul_l.
      assert (0 < 10 ^ shift) by (apply Z.pow_pos_nonneg; lia). nia.
    + apply Z.mul_pos_pos; [done|]. apply Z.pow_pos_nonneg; lia.
  - eexists. split; [done|]. apply dec_fix_pos. clearbody sc. destruct (Z.sqrt sc mod 5 =? 0); lia.
Qed.

Lemma ndigits_fuel_upper fuel n : 0 <= n < 2 ^ Z.of_nat (S fuel) → n < 10 ^ ndigits_fuel fuel n.
Proof.
  revert n. induction fuel as [|fuel IH]; intros n Hn; cbn [ndigits_fuel]; [change (2 ^ Z.of_nat 1) with 2 in Hn; change (10 ^ 1) with 10; lia|].
  destruct (Z.ltb_spec n 10); [change (10 ^ 1) with 10; lia|].
  assert (n / 10 < 10 ^ ndigits_fuel fuel (n / 10)) as H10.
  { apply IH. rewrite Nat2Z.inj_succ, Z.pow_succ_r in Hn by lia. split; [apply Z.div_pos; lia|].
    apply Z.div_lt_upper_bound; lia. }
  assert (0 <= ndigits_fuel fuel (n / 10)) as Hk.
  { clear. generalize (n / 10). induction fuel as [|fuel IH]; intros k; cbn; [lia|].
    destruct (_ <? _); [lia|]. specialize (IH (k / 10)). lia. }
  rewrite Z.pow_add_r by lia. pose proof (Z.div_mod n 10 ltac:(lia)). pose proof (Z.mod_pos_bound n 10 ltac:(lia)). lia.
Qed.
Lemma ndigits_upper n : 0 <= n → n < 10 ^ ndigits n.
Proof.
  intros. apply ndigits_fuel_upper. split; [done|]. destruct (Z.eq_dec n 0) as [->|]; [cbn; lia|].
  pose proof (Z.log2_spec n ltac:(lia)) as [_ Hl]. pose proof (Z.log2_nonneg n).
  rewrite Nat2Z.inj_succ, Z2Nat.id by lia. done.
Qed.

(** Results of the context's operations have at most [prec] digits, so negating or
    taking the absolute value of one is exact. *)
Lemma dec_fix_small neg c e : 0 <= c → dec_coeff (dec_fix neg c e) < 10 ^ prec.
Proof.
  intros Hc. pose proof (ndigits_upper c Hc) as Hu. unfold dec_fix. destruct (Z.leb_spec (ndigits c) prec) as [Hle|Hgt].
  - cbn [dec_coeff]. eapply Z.lt_le_trans; [exact Hu|]. by apply Z.pow_le_mono_r.
  - cbn zeta. set (k := ndigits c - prec). set (q := half_even _ _ _).
    assert (q <= 10 ^ prec) as Hq.
    { assert (c / 10 ^ k < 10 ^ prec) as Hd.
      { apply Z.div_lt_upper_bound; [apply Z.pow_pos_nonneg; lia|]. rewrite <- Z.pow_add_r by (unfold prec; lia).
        by replace (k + prec) with (ndigits c) by (unfold k; lia). }
      unfold q, half_even. destruct (_ <? _); [lia|]. destruct (_ <? _); [lia|]. destruct (Z.even _); lia. }
    destruct (Z.eqb_spec q (10 ^ prec)); cbn [dec_coeff]; [reflexivity|lia].
Qed.

Lemma scaled_opp e a : dec_wf a → dec_coeff a < 10 ^ prec → dec_exp (dec_opp a) = dec_exp a ∧ scaled e (dec_opp a) = - scaled e a.
Proof.
  intros W H. unfold dec_opp. rewrite dec_fix_exact by (unfold dec_wf in W; lia). split; [done|].
  unfold scaled, dec_signed. cbn [dec_neg dec_coeff dec_exp]. destruct (Z.eqb_spec (dec_coeff a) 0) as [->|].
  - destruct (dec_neg a); ring.
  - destruct (dec_neg a); cbn [negb]; ring.
Qed.

Lemma dec_leb_opp a b : dec_wf a → dec_coeff a < 10 ^ prec → dec_wf b → dec_coeff b < 10 ^ prec →
  dec_leb (dec_opp a) (dec_opp b) = dec_leb b a.
Proof.
  intros Wa Ca Wb Cb. set (e := Z.min (dec_exp a) (dec_exp b)).
  destruct (scaled_opp e a Wa Ca) as [Ea Sa]. destruct (scaled_opp e b Wb Cb) as [Eb Sb].
  rewrite (dec_leb_at e (dec_opp a)), (dec_leb_at e b a) by (rewrite ?Ea, ?Eb; lia). rewrite Sa, Sb.
  destruct (Z.leb_spec (- scaled e a) (- scaled e b)), (Z.leb_spec (scaled e b) (scaled e a)); lia.
Qed.

Lemma strip_zeros_pos fuel c e ideal : 0 <= c → 0 <= (strip_zeros fuel c e ideal).1.
Proof.
  revert c e. induction fuel as [|fuel IH]; intros c e Hc; cbn [strip_zeros]; [done|].
  destruct (_ && _); [|done]. apply IH. apply Z.div_pos; lia.
Qed.

Lemma dec_div_fixed a b q : dec_wf a → dec_wf b → dec_div a b = Ok q → dec_wf q ∧ dec_coeff q < 10 ^ prec.
Proof.
  unfold dec_wf, dec_div. intros Wa Wb. destruct (Z.eqb_spec (dec_coeff b) 0); [done|]. cbn zeta.
  assert (∀ neg c e, 0 <= c → 0 <= dec_coeff (dec_fix neg c e) ∧ dec_coeff (dec_fix neg c e) < 10 ^ prec) as Hfix.
  { intros. split; [by apply dec_fix_wf|by apply dec_fix_small]. }
  destruct (Z.eqb_spec (dec_coeff a) 0); [intros [= <-]; by apply Hfix|].
  set (shift := _ - _ + _ + _). set (n1 := if 0 <=? shift then _ else dec_coeff a). set (d1 := if 0 <=? shift then dec_coeff b else _).
  assert (0 <= n1 / d1) as Hq.
  { apply Z.div_pos.
    - unfold n1. destruct (Z.leb_spec 0 shift); [|lia]. assert (0 < 10 ^ shift) by (apply Z.pow_pos_nonneg; lia). nia.
    - unfold d1. destruct (Z.leb_spec 0 shift); [lia|]. assert (0 < 10 ^ (- shift)) by (apply Z.pow_pos_nonneg; lia). nia. }
  destruct (n1 mod d1 =? 0).
  - pose proof (strip_zeros_pos (Z.to_nat (dec_exp a - dec_exp b - (dec_exp a - dec_exp b - shift))) (n1 / d1)
      (dec_exp a - dec_exp b - shift) (dec_exp a - dec_exp b) Hq) as Hs.
    destruct (strip_zeros _ _ _ _) as [c' e']. intros [= <-]. by apply Hfix.
  - intros [= <-]. apply Hfix. destruct (_ =? 0); lia.
Qed.

Lemma grid_finer e B a : on_grid e B a → on_grid (e - 1) (10 * B) a ∧ scaled (e - 1) a = 10 * scaled e a.
Proof.
  intros [W E Hb]. assert (scaled (e - 1) a = 10 * scaled e a) as S.
  { rewrite (scaled_shift e (e - 1) a) by lia. replace (e - (e - 1)) with 1 by lia. change (10 ^ 1) with 10. lia. }
  split; [constructor; [done|lia|lia]|done].
Qed.

Lemma grid_sign a : dec_wf a → dec_neg a = false → ∀ e, 0 <= scaled e a.
Proof.
  intros W N e. unfold scaled. apply Z.mul_nonneg_nonneg; [by apply dec_signed_nonneg|]. apply Z.pow_nonneg. lia.
Qed.
Lemma scaled_pos_iff e a : e <= dec_exp a → 0 < scaled e a ↔ 0 < dec_signed a.
Proof. intros He. unfold scaled. assert (0 < 10 ^ (dec_exp a - e)) by (apply Z.pow_pos_nonneg; lia). nia. Qed.
Lemma grid_positive e B a : on_grid e B a → 0 < scaled e a ↔ dec_leb a dec_zero = false.
Proof. intros [_ He _]. by rewrite (scaled_pos_iff e a He), dec_leb_zero, Z.leb_gt. Qed.
Lemma grid_nonneg e B a : on_grid e B a → 0 <= scaled e a ↔ dec_ltb a dec_zero = false.
Proof.
  intros [_ He _]. rewrite dec_ltb_leb, negb_false_iff. 
  rewrite (dec_leb_at (Z.min e 0)) by (cbn; lia). change (scaled (Z.min e 0) dec_zero) with 0.
  rewrite (scaled_shift e (Z.min e 0) a), Z.leb_le by lia.
  assert (0 < 10 ^ (e - Z.min e 0)) by (apply Z.pow_pos_nonneg; lia). nia.
Qed.
Lemma dec_positive_sign a : dec_wf a → dec_leb a dec_zero = false → dec_neg a = false ∧ 0 < dec_coeff a.
Proof. unfold dec_wf. rewrite dec_leb_zero, Z.leb_gt. unfold dec_signed. destruct (dec_neg a); lia. Qed.
Lemma dec_mul_positive a b : dec_neg a = false ∧ 0 < dec_coeff a → dec_neg b = false ∧ 0 < dec_coeff b →
  dec_neg (dec_mul a b) = false ∧ 0 < dec_coeff (dec_mul a b).
Proof.
  intros [Na Pa] [Nb Pb]. unfold dec_mul. rewrite dec_fix_neg, Na, Nb. split; [done|]. apply dec_fix_pos. lia.
Qed.

(** ** Truncated quotients

    Rounding a quotient to the precision of the context keeps its integer part, as long
    as the dividend leaves two digits of room. *)

(** What rounding does: nothing, or a nearest multiple of [10 ^ k] for [k] digits dropped. *)
Lemma dec_fix_cases neg c e : 0 <= c →
  dec_fix neg c e = Dec neg c e ∨
  ∃ k c2 e2, 1 <= k ∧ 10 ^ (prec + k - 1) <= c ∧ dec_fix neg c e = Dec neg c2 e2 ∧ 0 <= c2 ∧ e + k <= e2 ∧
    10 ^ k * (c2 * 10 ^ (e2 - (e + k))) <= c + 10 ^ k / 2 ∧ c - 10 ^ k / 2 <= 10 ^ k * (c2 * 10 ^ (e2 - (e + k))).
Proof.
  intros Hc. unfold dec_fix. destruct (Z.leb_spec (ndigits c) prec) as [Hle|Hgt]; [by left|right].
  set (k := ndigits c - prec). exists k.
  assert (0 < c) as Hpos.
  { destruct (Z.eq_dec c 0) as [->|]; [|lia]. exfalso. revert Hgt. vm_compute. discriminate. }
  assert (10 ^ (prec + k - 1) <= c) as Hlow.
  { pose proof (ndigits_lower c Hpos). replace (prec + k - 1) with (ndigits c - 1) by (unfold k; lia). done. }
  assert (0 < 10 ^ k) as Hp by (apply Z.pow_pos_nonneg; unfold k; lia).
  assert (10 ^ k = 2 * (10 ^ k / 2)) as Heven.
  { replace k with (Z.succ (k - 1)) by lia. rewrite Z.pow_succ_r by (unfold k; lia).
    replace (10 * 10 ^ (k - 1)) with (5 * 10 ^ (k - 1) * 2) by ring. rewrite Z.div_mul by lia. ring. }
  pose proof (Z.div_mod c (10 ^ k) ltac:(lia)) as Hd. pose proof (Z.mod_pos_bound c (10 ^ k) Hp) as Hm.
  assert (0 <= c / 10 ^ k) as Hq by (apply Z.div_pos; lia).
  set (q := half_even _ _ _).
  assert (0 <= q ∧ 10 ^ k * q <= c + 10 ^ k / 2 ∧ c - 10 ^ k / 2 <= 10 ^ k * q) as (Hq0 & Hub & Hlb).
  { unfold q, half_even. clearbody k. set (p := 10 ^ k) in *. clearbody p. set (d := c / p) in *. clearbody d.
    set (m := c mod p) in *. clearbody m.
    destruct (Z.ltb_spec (2 * m) p); [nia|]. destruct (Z.ltb_spec p (2 * m)); [nia|]. destruct (Z.even d); nia. }
  assert (1 <= k) as Hk by (unfold k; lia). clearbody k q.
  destruct (Z.eqb_spec q (10 ^ prec)) as [Heq|].
  - exists (10 ^ (prec - 1)), (e + k + 1). split_and!; [done|done|done|by vm_compute|lia|..];
      (replace (e + k + 1 - (e + k)) with 1 by lia);
      (replace (10 ^ (prec - 1) * 10 ^ 1) with q by (rewrite Heq; by vm_compute)); done.
  - exists q, (e + k). rewrite Z.sub_diag, Z.mul_1_r. split_and!; (done || lia).
Qed.

Lemma pow10_pos n : 0 <= n → 0 < 10 ^ n.
Proof. intros. by apply Z.pow_pos_nonneg. Qed.

(** The integer part of a non-negative decimal. *)
Lemma floor_value c e m n : e <= 0 → 0 <= m →
  n * 10 ^ (- e) <= c * 10 ^ m < (n + 1) * 10 ^ (- e) → dec_floor (Dec false c (e + m)) = n.
Proof.
  intros He Hm Hb. unfold dec_floor, dec_signed. cbn [dec_exp dec_neg dec_coeff].
  destruct (Z.leb_spec 0 (e + m)).
  - replace m with ((e + m) + - e) in Hb by lia. rewrite Z.pow_add_r in Hb by lia.
    pose proof (pow10_pos (- e) ltac:(lia)). pose proof (pow10_pos (e + m) ltac:(lia)). nia.
  - replace (- e) with (- (e + m) + m) in Hb by lia. rewrite Z.pow_add_r in Hb by lia.
    pose proof (pow10_pos m Hm). pose proof (pow10_pos (- (e + m)) ltac:(lia)). symmetry.
    apply (Z.div_unique _ _ n (c - n * 10 ^ (- (e + m)))); [|lia]. left. nia.
Qed.

(** Rounding keeps the integer part when the distance to the next integer is more than
    half of the last digit kept. *)
Lemma floor_fix c e n : 0 <= c → e <= 0 → n * 10 ^ (- e) <= c < (n + 1) * 10 ^ (- e) →
  (∀ k, 1 <= k → 10 ^ (prec + k - 1) <= c → k <= - e ∧ 10 ^ k / 2 < (n + 1) * 10 ^ (- e) - c) →
  dec_floor (dec_fix false c e) = n.
Proof.
  intros Hc He Hb Hgap. destruct (dec_fix_cases false c e Hc) as [->|(k & c2 & e2 & Hk & Hlow & -> & Hc2 & He2 & Hu & Hl)].
  { replace e with (e + 0) at 1 by lia. apply floor_value; [done|done|]. by rewrite Z.mul_1_r. }
  destruct (Hgap k Hk Hlow) as [Hke Hhalf]. set (m := e2 - (e + k)) in *.
  replace e2 with (e + (k + m)) by (unfold m; lia). pose proof (pow10_pos k ltac:(lia)) as Hp.
  apply floor_value; [done|unfold m; lia|]. rewrite Z.pow_add_r by (unfold m; lia).
  replace (c2 * (10 ^ k * 10 ^ m)) with (10 ^ k * (c2 * 10 ^ m)) by ring. split; [|lia].
  replace (- e) with (k + (- e - k)) in Hb |- * by lia. rewrite Z.pow_add_r in Hb |- * by lia.
  pose proof (Z.mul_div_le (10 ^ k) 2 ltac:(lia)) as Hh.
  set (X := 10 ^ k) in *. set (Y := 10 ^ (- e - k)) in *. set (R := c2 * 10 ^ m) in *. clearbody X Y R.
  assert (n * Y <= R) by (apply Znot_gt_le; intros Hgt; assert (X * (R + 1) <= X * (n * Y)) by (apply Z.mul_le_mono_nonneg_l; lia); lia).
  replace (n * (X * Y)) with (X * (n * Y)) by ring. apply Z.mul_le_mono_nonneg_l; lia.
Qed.

(** The integer part of [x / y] survives the rounding of an approximation [c] of
    [x * 10 ^ - e / y] from above. *)
Lemma floor_fix_quotient c e x y t : 0 <= c → e <= 0 → 0 <= x < 10 ^ 26 → 0 < y →
  (x / y) * 10 ^ (- e) <= c → c * y <= x * 10 ^ (- e) + t → 100 * t <= 10 ^ (- e) →
  dec_floor (dec_fix false c e) = x / y.
Proof.
  intros Hc He Hx Hy Hl Hu Ht. pose proof (pow10_pos (- e) ltac:(lia)) as Hd.
  pose proof (Z.div_mod x y ltac:(lia)) as Hdm. pose proof (Z.mod_pos_bound x y Hy) as Hm.
  set (n := x / y) in *. clearbody n. set (D := 10 ^ (- e)) in *.
  assert (x * D + D <= (n + 1) * D * y) as Hnext by nia.
  assert (c < (n + 1) * D) as Hlt by nia. apply floor_fix; [done|done|split; done|].
  intros k Hk Hlow. fold D. change prec with 28 in Hlow.
  replace (28 + k - 1) with (26 + (k + 1)) in Hlow by lia. rewrite Z.pow_add_r in Hlow by lia.
  set (T := 10 ^ 26) in *. assert (0 < T) as HT by (unfold T; lia).
  assert (n + 1 <= T) by nia. assert (T * 10 ^ (k + 1) < T * D) as Hkd by nia.
  apply Z.mul_lt_mono_pos_l in Hkd; [|done]. split.
  - assert (k + 1 < - e) by (apply (Z.pow_lt_mono_r_iff 10); lia). lia.
  - replace (k + 1) with (Z.succ k) in Hlow by lia. rewrite Z.pow_succ_r in Hlow by lia.
    pose proof (pow10_pos k ltac:(lia)). set (X := 10 ^ k) in *. clearbody X D T.
    assert (T * (10 * X * y) <= T * D) as Hs by nia. apply Z.mul_le_mono_pos_l in Hs; [|done].
    assert (X * y < ((n + 1) * D - c) * y) as Hg by nia. apply Z.mul_lt_mono_pos_r in Hg; [|done].
    pose proof (Z.div_le_upper_bound X 2 X ltac:(lia) ltac:(lia)). lia.
Qed.

(** The digits of the scaled dividend. *)
Lemma quotient_digits ca cb : 0 < ca → 0 < cb →
  10 ^ prec * cb <= ca * 10 ^ (ndigits cb - ndigits ca + prec + 1) ∨ ndigits cb + prec + 1 < ndigits ca.
Proof.
  intros Ha Hb. destruct (Z.lt_ge_cases (ndigits cb + prec + 1) (ndigits ca)); [by right|left].
  pose proof (ndigits_lower ca Ha) as La. pose proof (ndigits_upper cb ltac:(lia)) as Ub.
  assert (1 <= ndigits ca) as Hna.
  { destruct (Z.le_gt_cases 1 (ndigits ca)); [done|]. pose proof (ndigits_upper ca ltac:(lia)) as Hu.
    destruct (Z.eq_dec (ndigits ca) 0) as [Hz|]; [rewrite Hz in Hu; cbn in Hu; lia|].
    rewrite Z.pow_neg_r in Hu by lia. lia. }
  set (s := ndigits cb - ndigits ca + prec + 1) in *. pose proof (pow10_pos s ltac:(unfold s; lia)).
  transitivity (10 ^ (ndigits ca - 1) * 10 ^ s); [|nia].
  rewrite <- Z.pow_add_r by (unfold s; lia). replace (ndigits ca - 1 + s) with (prec + ndigits cb) by (unfold s; lia).
  assert (0 <= ndigits cb). { destruct (Z.le_gt_cases 0 (ndigits cb)); [done|]. rewrite Z.pow_neg_r in Ub by lia. lia. }
  rewrite Z.pow_add_r by done. apply Z.mul_le_mono_nonneg_l; [by vm_compute|lia].
Qed.

(** Quotients that divide evenly. *)
Lemma even_quotient_floor fuel Q c' e' E ideal x y : strip_zeros fuel Q E ideal = (c', e') → E <= ideal → E <= 0 →
  0 <= Q → 0 <= x < 10 ^ 26 → 0 < y → x * 10 ^ (- E) = Q * y →
  dec_floor (dec_fix false c' e') = x / y.
Proof.
  intros Hst HE HE0 HQ Hx Hy Hxy. apply strip_zeros_spec in Hst as (Hv & Hr & _); [|done].
  pose proof (pow10_pos (e' - E) ltac:(lia)) as Hp. assert (0 <= c') as Hc' by nia.
  destruct (Z.le_gt_cases e' 0) as [He|He].
  - replace (- E) with (- e' + (e' - E)) in Hxy by lia. rewrite Z.pow_add_r in Hxy by lia.
    assert (x * 10 ^ (- e') = c' * y) as Hxy' by nia. apply (floor_fix_quotient _ _ x y 0); [done|done|done|done| |lia|lia].
    pose proof (Z.mul_div_le x y Hy). pose proof (pow10_pos (- e') ltac:(lia)). nia.
  - replace (e' - E) with (e' + - E) in Hv by lia. rewrite Z.pow_add_r in Hv by lia.
    pose proof (pow10_pos (- E) ltac:(lia)). pose proof (pow10_pos e' ltac:(lia)).
    assert (x = (c' * 10 ^ e') * y) as -> by nia. rewrite Z.div_mul by lia.
    assert (c' < 10 ^ prec) by (apply (Z.lt_trans _ (10 ^ 26)); [nia|reflexivity]).
    rewrite dec_fix_exact by done. unfold dec_floor, dec_signed. cbn [dec_exp dec_neg dec_coeff].
    by rewrite (proj2 (Z.leb_le 0 e')) by lia.
Qed.

(** Quotients rounded up to the sticky digit. *)
Lemma sticky_quotient_floor Q c E x y : Q <= c <= Q + 1 → E <= 0 → 0 <= Q → 0 <= x < 10 ^ 26 → 0 < y →
  Q * y <= x * 10 ^ (- E) < (Q + 1) * y → 100 * y <= 10 ^ (- E) → dec_floor (dec_fix false c E) = x / y.
Proof.
  intros Hc HE HQ Hx Hy Hxy Ht. pose proof (pow10_pos (- E) ltac:(lia)).
  apply (floor_fix_quotient _ _ x y y); [lia|done|done|done| |nia|done].
  pose proof (Z.mul_div_le x y Hy). nia.
Qed.

(** The quotient of decimals [a] and [b] that are [x] and [y] units of the grid. *)
Lemma dec_div_floor e a b : dec_wf a → dec_wf b → e <= dec_exp a → e <= dec_exp b →
  0 <= scaled e a < 10 ^ 26 → 0 < scaled e b → dec_neg a = false → dec_neg b = false →
  ∃ q, dec_div a b = Ok q ∧ dec_floor q = scaled e a / scaled e b.
Proof.
  intros Wa Wb Ea Eb Ha Hb Na Nb. unfold dec_wf in *. unfold scaled, dec_signed in *. rewrite Na, Nb in *.
  set (ca := dec_coeff a) in *. set (cb := dec_coeff b) in *. unfold dec_div. fold ca cb. rewrite Na, Nb. cbn [xorb].
  pose proof (pow10_pos (dec_exp a - e) ltac:(lia)) as Pa. pose proof (pow10_pos (dec_exp b - e) ltac:(lia)) as Pb.
  assert (0 < cb) as Hcb by nia. rewrite (proj2 (Z.eqb_neq cb 0)) by lia.
  destruct (Z.eqb_spec ca 0) as [Hz|Hz].
  { eexists. split; [done|]. rewrite dec_fix_exact, Hz by (split; [lia|reflexivity]). rewrite Z.mul_0_l, Zdiv_0_l.
    unfold dec_floor, dec_signed. cbn [dec_exp dec_neg dec_coeff]. destruct (0 <=? _); [done|by rewrite Zdiv_0_l]. }
  assert (ca < 10 ^ 26) as Hca by nia.
  pose proof (ndigits_bound ca 26 Wa ltac:(done) Hca) as Hna.
  assert (1 <= ndigits cb) as Hnb.
  { pose proof (ndigits_upper cb Wb) as Hu. destruct (Z.le_gt_cases 1 (ndigits cb)); [done|].
    destruct (Z.eq_dec (ndigits cb) 0) as [Hq|]; [rewrite Hq in Hu; cbn in Hu; lia|].
    rewrite Z.pow_neg_r in Hu by lia. lia. }
  destruct (quotient_digits ca cb ltac:(lia) Hcb) as [Hdig|]; [|unfold prec in *; lia].
  set (s := ndigits cb - ndigits ca + prec + 1) in *. assert (0 <= s) as Hs by (unfold s, prec; lia). clearbody s.
  clear Hna Hnb. rewrite (proj2 (Z.leb_le 0 s)) by done.
  set (E := dec_exp a - dec_exp b - s). set (W := ca * 10 ^ s) in *.
  set (x := ca * 10 ^ (dec_exp a - e)) in *. set (y := cb * 10 ^ (dec_exp b - e)) in *.
  assert (E <= 0) as HE.
  { destruct (Z.le_gt_cases E 0); [done|exfalso]. assert (10 ^ 28 * y <= x); [|lia].
    unfold x, y. replace (dec_exp a - e) with (s + (dec_exp b - e) + E) by (unfold E; lia).
    rewrite !Z.pow_add_r by lia. change prec with 28 in Hdig. pose proof (pow10_pos E ltac:(lia)).
    fold W. replace (ca * (10 ^ s * 10 ^ (dec_exp b - e) * 10 ^ E)) with (W * 10 ^ (dec_exp b - e) * 10 ^ E) by (unfold W; ring).
    set (p := 10 ^ (dec_exp b - e)) in *. set (r := 10 ^ E) in *. clearbody W p r.
    assert (10 ^ 28 * cb * p <= W * p) by (apply Z.mul_le_mono_nonneg_r; lia). nia. }
  assert (x * 10 ^ (- E) = W * 10 ^ (dec_exp b - e)) as Hx.
  { unfold x, W. rewrite <- !Z.mul_assoc, <- !Z.pow_add_r by lia. f_equal. f_equal. unfold E. lia. }
  pose proof (Z.div_mod W cb ltac:(lia)) as Hdm. pose proof (Z.mod_pos_bound W cb Hcb) as Hm.
  assert (10 ^ prec <= W / cb) as HQ by (apply Z.div_le_lower_bound; lia).
  assert (0 <= W / cb) by (apply (Z.le_trans _ (10 ^ prec)); [by vm_compute|done]).
  destruct (Z.eqb_spec (W mod cb) 0) as [Hr|Hr].
  - destruct (strip_zeros _ _ _ _) as [c' e'] eqn:Hst. eexists. split; [done|].
    eapply (even_quotient_floor _ _ _ _ E); [exact Hst|unfold E; lia|done|done|done|unfold y; nia|].
    rewrite Hx. unfold y. rewrite Hdm, Hr at 1. ring.
  - eexists. split; [done|].
    assert (W / cb * y <= x * 10 ^ (- E) < (W / cb + 1) * y) as Hb2 by (rewrite Hx; unfold y; nia).
    assert (100 * y <= 10 ^ (- E)) as Hy100.
    { assert (10 ^ 26 * (100 * y) <= 10 ^ 26 * 10 ^ (- E)) as Hc; [|apply Z.mul_le_mono_pos_l in Hc; [done|reflexivity]].
      replace (10 ^ 26 * (100 * y)) with (10 ^ prec * y) by (change (10 ^ prec) with (10 ^ 26 * 100); ring).
      pose proof (pow10_pos (- E) ltac:(lia)). set (T := 10 ^ prec) in *. clearbody T. nia. }
    eapply (sticky_quotient_floor (W / cb)); [|done|done|done|unfold y; nia|done|done].
    destruct (_ mod 5 =? 0); lia.
Qed.

(** [abs(a)] and [-a] of a grid value are exact. *)
Lemma grid_abs e A a : on_grid e A a → A < 10 ^ prec →
  on_grid e A (dec_abs a) ∧ scaled e (dec_abs a) = Z.abs (scaled e a) ∧ dec_neg (dec_abs a) = false.
Proof.
  intros Ga Hlt. pose proof (coeff_le_scaled _ _ _ Ga) as Hc. destruct Ga as [W E B]. unfold dec_wf in W.
  unfold dec_abs. rewrite dec_fix_exact by lia.
  assert (scaled e (Dec false (dec_coeff a) (dec_exp a)) = Z.abs (scaled e a)) as S.
  { rewrite (scaled_exact e a E), Z.abs_mul, (abs_signed a W), (Z.abs_eq (10 ^ _)) by (apply Z.pow_nonneg; lia). done. }
  split_and!; [constructor; [done|done|rewrite S; lia]|done|done].
Qed.

Lemma grid_opp e A a : on_grid e A a → A < 10 ^ prec → on_grid e A (dec_opp a) ∧ scaled e (dec_opp a) = - scaled e a.
Proof.
  intros Ga Hlt. pose proof (coeff_le_scaled _ _ _ Ga) as Hc. destruct Ga as [W E B].
  destruct (scaled_opp e a W ltac:(lia)) as [He Hs]. split; [|done]. constructor; [|by rewrite He|rewrite Hs; lia].
  unfold dec_opp. by apply dec_fix_wf.
Qed.

Lemma grid_of_Z e n : e <= 0 → on_grid e (Z.abs n * 10 ^ (- e)) (dec_of_Z n) ∧ scaled e (dec_of_Z n) = n * 10 ^ (- e).
Proof.
  intros He. pose proof (pow10_pos (- e) ltac:(lia)).
  assert (scaled e (dec_of_Z n) = n * 10 ^ (- e)) as S.
  { unfold scaled, dec_signed, dec_of_Z. change (0 - e) with (- e).
    cbn [dec_neg dec_coeff dec_exp]. rewrite <- (Z.sub_0_l e). destruct (Z.ltb_spec n 0); f_equal; lia. }
  split; [|done]. constructor; [unfold dec_wf; cbn; lia|done|]. rewrite S. nia.
Qed.

Lemma grid_min e A a b : on_grid e A a → on_grid e A b →
  on_grid e A (dec_min a b) ∧ scaled e (dec_min a b) = Z.min (scaled e a) (scaled e b).
Proof.
  intros Ga Gb. unfold dec_min. rewrite (dec_ltb_at e) by apply Ga || apply Gb.
  destruct (Z.ltb_spec (scaled e b) (scaled e a)); split; (done || lia).
Qed.
