(* ===== verification/Strategy.v ===== *)
(** Versioned strategies: the contracts of [domain/strategy.py] and the causal
    forecasting, outcomes, scores and ranking of [application/strategy_evaluation.py]. *)

From S2P Require Import Prelude PySorted PyStr PyTime PyDecimal PyDecFn PyJson PyFloat Domain.

(** ** Contracts *)

Inductive StrategyState : Type := SHADOW | SELECTED.
Definition StrategyState_str (s : StrategyState) : string :=
  match s with SHADOW => "SHADOW" | SELECTED => "SELECTED" end.
Inductive ForecastTarget : Type := MID_CLOSE_RETURN.
Definition ForecastTarget_str (t : ForecastTarget) : string :=
  match t with MID_CLOSE_RETURN => "MID_CLOSE_RETURN" end.


Record ScoreContract : Type := mkScoreContract {
  sc_contract_version : Z;
  sc_minimum_samples : Z;
  sc_horizon : timedelta;
  sc_basis : string;
  sc_sampling : string;
  sc_window : string;
  sc_overlapping_observations : string;
  sc_target : ForecastTarget }.

Definition ScoreContract_post_init (c : ScoreContract) : res unit :=
  raise_if ((sc_contract_version c <=? 0) || (sc_minimum_samples c <=? 1) || (sc_horizon c <=? 0))
           (ValueError "score contract version/horizon must be positive and minimum_samples exceed one");;
  raise_if (negb (String.eqb (sc_basis c) "TIME_SERIES_SPEARMAN")) (ValueError "unsupported score basis");;
  raise_if (negb (nonempty (sc_sampling c)) || negb (nonempty (sc_window c))
            || negb (nonempty (sc_overlapping_observations c)))
           (ValueError "score sampling, window and overlap rules are required").

Definition ScoreContract_configuration_hash (c : ScoreContract) : string :=
  sha256_json (JObj
    [("basis", JStr (sc_basis c)); ("contract_version", JInt (sc_contract_version c));
     ("horizon_seconds", JInt (whole_seconds (sc_horizon c)));
     ("minimum_samples", JInt (sc_minimum_samples c));
     ("overlapping_observations", JStr (sc_overlapping_observations c));
     ("sampling", JStr (sc_sampling c)); ("target", JStr (ForecastTarget_str (sc_target c)));
     ("window", JStr (sc_window c))]).

Record StrategyDefinition : Type := mkDefinition {
  sd_strategy_id : string;
  sd_strategy_version : Z;
  sd_kind : string;
  sd_lookback_bars : Z;
  sd_horizon : timedelta;
  sd_state : StrategyState;
  sd_threshold : Decimal }.

Definition StrategyDefinition_post_init (d : StrategyDefinition) : res unit :=
  raise_if (negb (nonempty (sd_strategy_id d)) || (sd_strategy_version d <=? 0) || negb (nonempty (sd_kind d)))
           (ValueError "strategy identity, version and kind are required");;
  raise_if ((sd_lookback_bars d <=? 0) || (sd_horizon d <=? 0))
           (ValueError "strategy lookback and horizon must be positive");;
  raise_if (dec_ltb (sd_threshold d) dec_zero) (ValueError "strategy threshold must not be negative").

Definition StrategyDefinition_configuration_hash (d : StrategyDefinition) : string :=
  sha256_json (JObj
    [("horizon_seconds", JInt (whole_seconds (sd_horizon d))); ("kind", JStr (sd_kind d));
     ("lookback_bars", JInt (sd_lookback_bars d)); ("strategy_id", JStr (sd_strategy_id d));
     ("strategy_version", JInt (sd_strategy_version d)); ("threshold", JStr (dec_str (sd_threshold d)))]).

Record Forecast : Type := mkForecast {
  sf_forecast_id : string;
  sf_strategy_id : string;
  sf_strategy_version : Z;
  sf_strategy_configuration_hash : string;
  sf_strategy_state : StrategyState;
  sf_instrument_id : InstrumentId;
  sf_observation_end : datetime;
  sf_decision_time : datetime;
  sf_horizon : timedelta;
  sf_target : ForecastTarget;
  sf_strength : Decimal;
  sf_rationale : string }.

Definition Forecast_post_init (f : Forecast) : res unit :=
  require_utc (sf_observation_end f) "forecast observation_end";;
  require_utc (sf_decision_time f) "forecast decision_time";;
  raise_if (negb (len (sf_forecast_id f) =? 64) || negb (len (sf_strategy_configuration_hash f) =? 64))
           (ValueError "forecast and strategy configuration IDs must be SHA-256");;
  raise_if (negb (nonempty (sf_strategy_id f)) || (sf_strategy_version f <=? 0) || negb (nonempty (sf_rationale f)))
           (ValueError "forecast strategy identity and rationale are required");;
  raise_if (dt_ltb (sf_decision_time f) (sf_observation_end f))
           (ValueError "forecast observation must not follow its decision");;
  raise_if (sf_horizon f <=? 0) (ValueError "forecast horizon must be positive");;
  raise_if (dec_ltb (sf_strength f) (dec_of_Z (-1)) || dec_ltb (dec_of_Z 1) (sf_strength f))
           (ValueError "forecast strength must be between -1 and 1").
Definition Forecast_new (f : Forecast) : res Forecast := Forecast_post_init f;; Ok f.

Definition target_time (f : Forecast) : datetime := dt_add (sf_decision_time f) (sf_horizon f).

Record RealisedOutcome : Type := mkOutcome {
  ro_forecast_id : string;
  ro_instrument_id : InstrumentId;
  ro_decision_time : datetime;
  ro_target_time : datetime;
  ro_decision_mid : Decimal;
  ro_realised_mid : Decimal;
  ro_realised_return : Decimal }.

(** [realised / decision - Decimal("1")] *)
Definition simple_return (realised decision : Decimal) : res Decimal :=
  ratio ← dec_div realised decision; Ok (dec_sub ratio (dec_of_Z 1)).

Definition RealisedOutcome_post_init (o : RealisedOutcome) : res unit :=
  require_utc (ro_decision_time o) "outcome decision_time";;
  require_utc (ro_target_time o) "outcome target_time";;
  raise_if (negb (len (ro_forecast_id o) =? 64)) (ValueError "outcome forecast ID must be SHA-256");;
  raise_if (dt_leb (ro_target_time o) (ro_decision_time o))
           (ValueError "outcome must follow its forecast decision");;
  raise_if (dec_leb (ro_decision_mid o) dec_zero || dec_leb (ro_realised_mid o) dec_zero)
           (ValueError "outcome prices must be positive");;
  expected ← simple_return (ro_realised_mid o) (ro_decision_mid o);
  raise_if (negb (dec_eqb (ro_realised_return o) expected))
           (ValueError "outcome return must match its prices").
Definition RealisedOutcome_new (o : RealisedOutcome) : res RealisedOutcome := RealisedOutcome_post_init o;; Ok o.

Definition forecast_identity (definition : StrategyDefinition) (instrument_id : InstrumentId)
    (decision_time : datetime) : res string :=
  require_utc decision_time "forecast identity decision_time";;
  Ok (sha256_json (JObj
    [("configuration_hash", JStr (StrategyDefinition_configuration_hash definition));
     ("decision_time", JStr (isoformat decision_time)); ("instrument_id", JStr instrument_id)])).

(** ** Evaluation *)

Record StrategyScore : Type := mkScore {
  ss_strategy_id : string;
  ss_strategy_configuration_hash : string;
  ss_strategy_state : string;
  ss_forecast_count : Z;
  ss_outcome_count : Z;
  ss_coverage : Decimal;
  ss_rank_ic : option Decimal;
  ss_eligible_for_ranking : bool }.

Record EvaluationResult : Type := mkEvaluation {
  er_forecasts : list Forecast;
  er_outcomes : list RealisedOutcome;
  er_scores : list StrategyScore;
  er_ranking : list string }.

Definition bar_order (b : MarketBar) : string * Z * Z :=
  (b_instrument_id b, instant (b_interval_end b), b_revision b).
(** The keys of the dictionaries of the evaluation: an instrument and an instant. *)
Definition price_key (instrument_id : string) (time : datetime) : string * Z := (instrument_id, instant time).
Definition bar_identity (b : MarketBar) : string * Z := price_key (b_instrument_id b) (b_interval_end b).
Definition eligible_bar (b : MarketBar) : bool :=
  bool_decide (b_basis b = MID) && bool_decide (b_quality b = HEALTHY).

Definition _eligible_midpoint_bars (bars : list MarketBar) : res (list MarketBar) :=
  let eligible := py_sorted bar_order (List.filter eligible_bar bars) in
  raise_if (has_duplicates (map bar_identity eligible))
           (ValueError "evaluation requires one eligible midpoint revision per interval");;
  Ok eligible.

Definition _strategy_strength (definition : StrategyDefinition) (observed_return : Decimal) : res Decimal :=
  if String.eqb (sd_kind definition) "NO_SIGNAL" then Ok dec_zero
  else if negb (existsb (String.eqb (sd_kind definition)) ["PERSISTENCE"; "REVERSAL"])
  then Raise (ValueError ("unsupported strategy kind: " +:+ sd_kind definition))
  else if dec_leb (dec_abs observed_return) (sd_threshold definition) then Ok dec_zero
  else
    let direction := if dec_ltb dec_zero observed_return then dec_of_Z 1 else dec_of_Z (-1) in
    Ok (if String.eqb (sd_kind definition) "PERSISTENCE" then direction else dec_opp direction).

(** The forecast one definition makes at the last bar of a history; [None] while the
    history is no longer than the lookback. *)
Definition definition_forecast (history : list MarketBar) (bar : MarketBar) (definition : StrategyDefinition)
    : res (option Forecast) :=
  if Z.of_nat (length history) <=? sd_lookback_bars definition then Ok None
  else
    match nth_error history (length history - Z.to_nat (sd_lookback_bars definition) - 1) with
    | None => Raise (IndexError "list index out of range")
    | Some prior =>
        observed_return ← simple_return (b_close bar) (b_close prior);
        strength ← _strategy_strength definition observed_return;
        forecast_id ← forecast_identity definition (b_instrument_id bar) (b_interval_end bar);
        f ← Forecast_new
              (mkForecast forecast_id (sd_strategy_id definition) (sd_strategy_version definition)
                 (StrategyDefinition_configuration_hash definition) (sd_state definition)
                 (b_instrument_id bar) (b_interval_end bar) (b_interval_end bar) (sd_horizon definition)
                 MID_CLOSE_RETURN strength
                 (sd_kind definition +:+ ";lookback=" +:+ str_Z (sd_lookback_bars definition)
                  +:+ ";observed_return=" +:+ dec_str observed_return));
        Ok (Some f)
    end.

Definition in_decision_window (decision_start decision_end : option datetime) (bar : MarketBar) : bool :=
  negb (some_and decision_start (λ s, dt_ltb (b_interval_end bar) s))
  && negb (some_and decision_end (λ e, dt_leb e (b_interval_end bar))).

Definition bar_forecasts (definitions : list StrategyDefinition) (decision_start decision_end : option datetime)
    (history : list MarketBar) (bar : MarketBar) : res (list Forecast) :=
  if in_decision_window decision_start decision_end bar then
    fs ← traverse (definition_forecast history bar) definitions; Ok (omap (M:=list) id fs)
  else Ok [].

(** One turn of the loop over bars; each instrument has its history. *)
Definition forecast_step (definitions : list StrategyDefinition) (decision_start decision_end : option datetime)
    (st : gmap string (list MarketBar) * list Forecast) (bar : MarketBar)
    : res (gmap string (list MarketBar) * list Forecast) :=
  let history := default [] (st.1 !! (b_instrument_id bar : string)) ++ [bar] in
  fs ← bar_forecasts definitions decision_start decision_end history bar;
  Ok (<[(b_instrument_id bar : string) := history]> st.1, st.2 ++ fs).

Definition forecast_order (f : Forecast) : Z * string * string :=
  (instant (sf_decision_time f), sf_strategy_id f, sf_instrument_id f).

Definition _forecasts (bars : list MarketBar) (definitions : list StrategyDefinition)
    (decision_start decision_end : option datetime) : res (list Forecast) :=
  st ← for_each (forecast_step definitions decision_start decision_end) (∅, []) bars;
  Ok (py_sorted forecast_order st.2).

Definition close_prices (bars : list MarketBar) : gmap (string * Z) Decimal :=
  fold_left (λ m b, <[bar_identity b := b_close b]> m) bars ∅.

Definition forecast_outcome (prices : gmap (string * Z) Decimal) (forecast : Forecast)
    : res (option RealisedOutcome) :=
  match prices !! price_key (sf_instrument_id forecast) (sf_decision_time forecast) with
  | None => Raise (KeyError "decision price")
  | Some decision_mid =>
      match prices !! price_key (sf_instrument_id forecast) (target_time forecast) with
      | None => Ok None
      | Some realised_mid =>
          realised_return ← simple_return realised_mid decision_mid;
          o ← RealisedOutcome_new
                (mkOutcome (sf_forecast_id forecast) (sf_instrument_id forecast) (sf_decision_time forecast)
                   (target_time forecast) decision_mid realised_mid realised_return);
          Ok (Some o)
      end
  end.

Definition _outcomes (bars : list MarketBar) (forecasts : list Forecast) : res (list RealisedOutcome) :=
  os ← traverse (forecast_outcome (close_prices bars)) forecasts; Ok (omap (M:=list) id os).

(** *** Scores *)

(** [positions[value]] of [_ranks]: the 1-based positions, in the sorted values, of
    those equal to [value], averaged. *)
Definition rank_of (ordered : list Decimal) (value : Decimal) : res Decimal :=
  let positions := omap (M:=list) (λ pv : Z * Decimal, if dec_eqb pv.2 value then Some (dec_of_Z pv.1) else None)
                     (zip (seqZ 1 (Z.of_nat (length ordered))) ordered) in
  dec_div (dec_sum positions) (dec_of_Z (Z.of_nat (length positions))).

Definition _ranks (values : list Decimal) : res (list Decimal) :=
  traverse (rank_of (sort_by dec_leb values)) values.

Definition mean (l : list Decimal) : res Decimal := dec_div (dec_sum l) (dec_of_Z (Z.of_nat (length l))).

Definition _spearman_rank_ic (pairs : list (Decimal * Decimal)) : res (option Decimal) :=
  left ← _ranks (map fst pairs);
  right ← _ranks (map snd pairs);
  left_mean ← mean left;
  right_mean ← mean right;
  let covariance := dec_sum (zip_with (λ l r, dec_mul (dec_sub l left_mean) (dec_sub r right_mean)) left right) in
  let left_variance := dec_sum (map (λ v, dec_square (dec_sub v left_mean)) left) in
  let right_variance := dec_sum (map (λ v, dec_square (dec_sub v right_mean)) right) in
  if dec_eqb left_variance dec_zero || dec_eqb right_variance dec_zero then Ok None
  else
    root ← dec_sqrt (dec_mul left_variance right_variance);
    ic ← dec_div covariance root;
    Ok (Some ic).

Definition outcomes_by_forecast (outcomes : list RealisedOutcome) : gmap string RealisedOutcome :=
  fold_left (λ m o, <[ro_forecast_id o := o]> m) outcomes ∅.

Definition strategy_score (forecasts : list Forecast) (outcome_by_forecast : gmap string RealisedOutcome)
    (minimum_samples : Z) (definition : StrategyDefinition) : res StrategyScore :=
  let strategy_forecasts :=
    List.filter (λ f, String.eqb (sf_strategy_id f) (sd_strategy_id definition)) forecasts in
  let pairs := omap (M:=list) (λ f, (λ o, (sf_strength f, ro_realised_return o)) <$> outcome_by_forecast !! sf_forecast_id f)
                 strategy_forecasts in
  rank_ic ← (if minimum_samples <=? Z.of_nat (length pairs) then _spearman_rank_ic pairs else Ok None);
  coverage ← (if Nat.eqb (length strategy_forecasts) 0 then Ok dec_zero
              else dec_div (dec_of_Z (Z.of_nat (length pairs))) (dec_of_Z (Z.of_nat (length strategy_forecasts))));
  Ok (mkScore (sd_strategy_id definition) (StrategyDefinition_configuration_hash definition)
        (StrategyState_str (sd_state definition)) (Z.of_nat (length strategy_forecasts))
        (Z.of_nat (length pairs)) coverage rank_ic (bool_decide (rank_ic ≠ None))).

Definition _scores (definitions : list StrategyDefinition) (forecasts : list Forecast)
    (outcomes : list RealisedOutcome) (minimum_samples : Z) : res (list StrategyScore) :=
  traverse (strategy_score forecasts (outcomes_by_forecast outcomes) minimum_samples)
    (py_sorted sd_strategy_id definitions).

(** Keys of the ranking compare as tuples of [-rank_ic] and the strategy's name. Only
    scores with a rank IC are ranked, so the infinite default is never used. *)
Definition ranking_le (a b : StrategyScore) : bool :=
  let ka := dec_opp (default dec_zero (ss_rank_ic a)) in
  let kb := dec_opp (default dec_zero (ss_rank_ic b)) in
  if dec_eqb ka kb then pyle (ss_strategy_id a) (ss_strategy_id b) else dec_leb ka kb.

Definition ranking_of (scores : list StrategyScore) : list string :=
  map ss_strategy_id (sort_by ranking_le (List.filter ss_eligible_for_ranking scores)).

Definition evaluate_strategies (bars : list MarketBar) (definitions : list StrategyDefinition)
    (score_contract : ScoreContract) (decision_start decision_end : option datetime) : res EvaluationResult :=
  raise_if (Nat.eqb (length definitions) 0 || has_duplicates (map sd_strategy_id definitions))
           (ValueError "strategy definitions must be non-empty with unique IDs");;
  raise_if (existsb (λ d, negb (sd_horizon d =? sc_horizon score_contract)) definitions)
           (ValueError "strategy horizons must match the score contract");;
  require_utc_opt decision_start "strategy decision_start";;
  require_utc_opt decision_end "strategy decision_end";;
  raise_if (some_and decision_start (λ s, some_and decision_end (λ e, dt_leb e s)))
           (ValueError "strategy decision_end must follow decision_start");;
  midpoint_bars ← _eligible_midpoint_bars bars;
  forecasts ← _forecasts midpoint_bars definitions decision_start decision_end;
  outcomes ← _outcomes midpoint_bars forecasts;
  scores ← _scores definitions forecasts outcomes (sc_minimum_samples score_contract);
  Ok (mkEvaluation forecasts outcomes scores (ranking_of scores)).

(** ** The loop over bars *)

Definition same_instrument (i : string) (b : MarketBar) : bool := String.eqb (b_instrument_id b) i.

(** The forecasts made along [bars] after the bars of [seen]. *)
Fixpoint forecasts_along (definitions : list StrategyDefinition) (decision_start decision_end : option datetime)
    (seen bars : list MarketBar) : res (list Forecast) :=
  match bars with
  | [] => Ok []
  | bar :: bars =>
      fs ← bar_forecasts definitions decision_start decision_end
             (List.filter (same_instrument (b_instrument_id bar)) seen ++ [bar]) bar;
      rest ← forecasts_along definitions decision_start decision_end (seen ++ [bar]) bars;
      Ok (fs ++ rest)
  end.

Lemma filter_snoc {A} (p : A → bool) l x :
  List.filter p (l ++ [x]) = List.filter p l ++ (if p x then [x] else []).
Proof. rewrite List.filter_app. cbn. by destruct (p x). Qed.

Lemma forecast_loop definitions ds de bars : ∀ seen h acc,
  (∀ i, default [] (h !! i) = List.filter (same_instrument i) seen) →
  (snd <$> for_each (forecast_step definitions ds de) (h, acc) bars)
  = (λ l, acc ++ l) <$> forecasts_along definitions ds de seen bars.
Proof.
  induction bars as [|bar bars IH]; intros seen h acc Hh; cbn [for_each forecasts_along].
  - cbn. by rewrite app_nil_r.
  - unfold forecast_step at 2. cbn [fst snd]. cbv zeta.
    rewrite (Hh (b_instrument_id bar)).
    destruct (bar_forecasts _ _ _ _ bar) as [fs|e]; [|done]. cbn [mbind res_bind].
    rewrite (IH (seen ++ [bar])).
    + destruct (forecasts_along _ _ _ _ bars) as [l|e]; [|done]. cbn. by rewrite app_assoc.
    + intros i. rewrite filter_snoc. destruct (String.eqb_spec (b_instrument_id bar) i) as [<-|Hne].
      * rewrite lookup_insert_eq. unfold same_instrument at 3. by rewrite String.eqb_refl.
      * rewrite lookup_insert_ne by done. unfold same_instrument at 2.
        by rewrite (proj2 (String.eqb_neq _ _) Hne), app_nil_r, Hh.
Qed.

Lemma forecasts_eq bars definitions ds de :
  _forecasts bars definitions ds de = py_sorted forecast_order <$> forecasts_along definitions ds de [] bars.
Proof.
  unfold _forecasts. pose proof (forecast_loop definitions ds de bars [] ∅ []) as H. cbn [app] in H.
  destruct (for_each _ _ _) as [st|e], (forecasts_along _ _ _ _ _) as [l|e']; cbn in *;
    specialize (H ltac:(done)); congruence.
Qed.

(** ** Causality *)

Definition closed_by (t : datetime) (b : MarketBar) : bool := dt_leb (b_interval_end b) t.
Definition decided_by (t : datetime) (f : Forecast) : bool := dt_leb (sf_decision_time f) t.
Definition realised_by (t : datetime) (o : RealisedOutcome) : bool := dt_leb (ro_target_time o) t.

Lemma Forall_omap_id {A} (P : A → Prop) (l : list (option A)) :
  (∀ x, Some x ∈ l → P x) → Forall P (omap (M:=list) id l).
Proof. intros H. apply Forall_forall. intros x Hx. apply list_elem_of_omap in Hx as (o & Ho & Eo). cbn in Eo. subst o. auto. Qed.

Lemma definition_forecast_Ok history bar d f : definition_forecast history bar d = Ok (Some f) →
  sf_decision_time f = b_interval_end bar ∧ sf_instrument_id f = b_instrument_id bar ∧
  sf_observation_end f = b_interval_end bar ∧ sf_strategy_id f = sd_strategy_id d ∧ sf_horizon f = sd_horizon d.
Proof.
  unfold definition_forecast. destruct (_ <=? _); [done|]. destruct (nth_error _ _); [|done].
  unfold Forecast_new. intros H. res_inv. done.
Qed.

Lemma bar_forecasts_Ok definitions ds de history bar fs : bar_forecasts definitions ds de history bar = Ok fs →
  Forall (λ f, sf_decision_time f = b_interval_end bar ∧ sf_instrument_id f = b_instrument_id bar ∧
               in_decision_window ds de bar = true ∧
               ∃ d, d ∈ definitions ∧ sf_strategy_id f = sd_strategy_id d ∧ sf_horizon f = sd_horizon d) fs.
Proof.
  unfold bar_forecasts. destruct (in_decision_window ds de bar); [|by intros [= <-]].
  intros (os & Ht & [= <-])%bind_Ok. apply Forall_omap_id. intros f Hf. apply traverse_Ok in Ht.
  apply list_elem_of_lookup in Hf as [n Hn]. destruct (Forall2_lookup_r _ _ _ _ _ Ht Hn) as (d & Hd & E).
  apply definition_forecast_Ok in E as (? & ? & _ & ? & ?). apply list_elem_of_lookup_2 in Hd. eauto 10.
Qed.

(** Earlier bars of an instrument end no later. *)
Lemma pyle_same_first (i : string) (x y r q : Z) : pyle (i, x, r) (i, y, q) = true → x <= y.
Proof.
  unfold pyle. cbn. unfold prod_cmp. cbn. unfold prod_cmp. cbn.
  change (String.compare i i) with (pycmp i i). rewrite pycmp_same. destruct (Z.compare_spec x y); [lia|lia|done].
Qed.

Lemma sorted_bars_earlier bar seen bars b : StronglySorted (key_le bar_order) (seen ++ bar :: bars) →
  b ∈ seen → b_instrument_id b = b_instrument_id bar → instant (b_interval_end b) <= instant (b_interval_end bar).
Proof.
  intros Hs Hb Hi. pose proof (StronglySorted_app_1_elem_of _ _ _ b bar Hs Hb ltac:(by left)) as Hle.
  unfold key_le, bar_order in Hle. rewrite Hi in Hle. by eapply pyle_same_first.
Qed.

Lemma forecasts_along_causal definitions ds de t bars : ∀ seen l,
  StronglySorted (key_le bar_order) (seen ++ bars) →
  forecasts_along definitions ds de seen bars = Ok l →
  forecasts_along definitions ds de (List.filter (closed_by t) seen) (List.filter (closed_by t) bars)
  = Ok (List.filter (decided_by t) l).
Proof.
  induction bars as [|bar bars IH]; intros seen l Hs; cbn [forecasts_along List.filter]; [by intros [= <-]|].
  intros (fs & Hfs & (rest & Hrest & [= <-])%bind_Ok)%bind_Ok. rewrite List.filter_app.
  assert (StronglySorted (key_le bar_order) ((seen ++ [bar]) ++ bars)) as Hs' by (by rewrite <- app_assoc).
  specialize (IH _ _ Hs' Hrest). rewrite filter_snoc in IH. pose proof (bar_forecasts_Ok _ _ _ _ _ _ Hfs) as Hf.
  destruct (closed_by t bar) eqn:Hc.
  - cbn [forecasts_along].
    rewrite (filter_comm (same_instrument _)), (filter_all (closed_by t) (List.filter (same_instrument _) seen)).
    + rewrite Hfs. cbn [mbind res_bind]. rewrite IH. cbn [mbind res_bind]. f_equal. f_equal.
      symmetry. apply filter_all. intros f (E & _)%(proj1 (Forall_forall _ _) Hf). unfold decided_by. by rewrite E.
    + intros b Hb. apply list_elem_of_In, filter_In in Hb as [Hb Hi].
      apply list_elem_of_In in Hb. apply String.eqb_eq in Hi.
      pose proof (sorted_bars_earlier bar seen bars b Hs Hb Hi). unfold closed_by, dt_leb in *.
      apply Z.leb_le in Hc. apply Z.leb_le. lia.
  - rewrite app_nil_r in IH. rewrite IH. f_equal. rewrite (filter_none (decided_by t) fs); [done|].
    intros f (E & _)%(proj1 (Forall_forall _ _) Hf). unfold decided_by. by rewrite E.
Qed.

(** ** Outcomes *)

Lemma close_prices_from t k (bars : list MarketBar) : ∀ m m' : gmap (string * Z) Decimal, k.2 <= instant t → m !! k = m' !! k →
  fold_left (λ m b, <[bar_identity b := b_close b]> m) bars m !! k
  = fold_left (λ m b, <[bar_identity b := b_close b]> m) (List.filter (closed_by t) bars) m' !! k.
Proof.
  induction bars as [|b bars IH]; intros m m' Hk Hm; cbn [fold_left List.filter]; [done|].
  destruct (closed_by t b) eqn:Hc; cbn [fold_left]; apply IH; try done.
  - destruct (decide (bar_identity b = k)) as [<-|Hne]; [by rewrite !lookup_insert_eq|].
    by rewrite !lookup_insert_ne.
  - rewrite lookup_insert_ne; [done|]. intros <-. unfold closed_by, dt_leb in Hc. apply Z.leb_gt in Hc. cbn in Hk. lia.
Qed.
Lemma close_prices_causal t k bars : k.2 <= instant t →
  close_prices bars !! k = close_prices (List.filter (closed_by t) bars) !! k.
Proof. intros. by apply (close_prices_from t). Qed.

Lemma close_prices_lookup k c (bars : list MarketBar) : ∀ m : gmap (string * Z) Decimal, NoDup (map bar_identity bars) →
  (∀ b, b ∈ bars → m !! bar_identity b = None) →
  fold_left (λ m b, <[bar_identity b := b_close b]> m) bars m !! k = Some c ↔
  m !! k = Some c ∨ ∃ b, b ∈ bars ∧ bar_identity b = k ∧ b_close b = c.
Proof.
  induction bars as [|b bars IH]; intros m Hnd Hm; cbn [fold_left].
  - split; [by left|]. intros [?|(b & ?%not_elem_of_nil & _)]; done.
  - cbn [map] in Hnd. apply NoDup_cons in Hnd as [Hni Hnd]. rewrite IH; [|done|].
    + destruct (decide (bar_identity b = k)) as [<-|Hne].
      * rewrite lookup_insert_eq. rewrite (Hm b) by (by left). split.
        -- intros [[= <-]|(b' & Hb' & E & _)]; [right; exists b; split; [by left|done]|].
           exfalso. apply Hni. rewrite <- E. apply list_elem_of_fmap. eauto.
        -- intros [?|(b' & [->|Hb']%elem_of_cons & E & <-)]; [done|by left|].
           exfalso. apply Hni. rewrite <- E. apply list_elem_of_fmap. eauto.
      * rewrite lookup_insert_ne by done. split.
        -- intros [?|(b' & ? & ?)]; [by left|]. right. exists b'. split; [by right|done].
        -- intros [?|(b' & [->|Hb']%elem_of_cons & E & ?)]; [by left|done|]. right. eauto.
    + intros b' Hb'. rewrite lookup_insert_ne; [apply Hm; by right|]. intros E. apply Hni. rewrite E.
      apply list_elem_of_fmap. eauto.
Qed.
Lemma close_prices_spec k c bars : NoDup (map bar_identity bars) →
  close_prices bars !! k = Some c ↔ ∃ b, b ∈ bars ∧ bar_identity b = k ∧ b_close b = c.
Proof.
  intros Hnd. unfold close_prices. rewrite close_prices_lookup by (done || (intros; apply lookup_empty)).
  rewrite lookup_empty. naive_solver.
Qed.

Lemma forecast_outcome_Ok prices f o : forecast_outcome prices f = Ok (Some o) →
  ro_forecast_id o = sf_forecast_id f ∧ ro_instrument_id o = sf_instrument_id f ∧
  ro_decision_time o = sf_decision_time f ∧ ro_target_time o = target_time f ∧
  prices !! price_key (sf_instrument_id f) (sf_decision_time f) = Some (ro_decision_mid o) ∧
  prices !! price_key (sf_instrument_id f) (target_time f) = Some (ro_realised_mid o) ∧
  simple_return (ro_realised_mid o) (ro_decision_mid o) = Ok (ro_realised_return o) ∧
  instant (sf_decision_time f) < instant (target_time f).
Proof.
  unfold forecast_outcome. destruct (prices !! _) as [d|] eqn:Ed; [|done].
  destruct (prices !! price_key _ (target_time f)) as [p|] eqn:Ep; [|done].
  intros (r & Hr & (o' & Ho & [= ->])%bind_Ok)%bind_Ok. unfold RealisedOutcome_new in Ho.
  apply bind_Ok in Ho as (u & Hp & [= <-]). cbn. split_and!; try done.
  unfold RealisedOutcome_post_init in Hp. cbn in Hp. res_inv.
  match goal with H : dt_leb _ _ = false |- _ => unfold dt_leb in H; apply Z.leb_gt in H; exact H end.
Qed.

(** The outcome of a forecast as far as it is known at [t]. *)
Definition known_outcome (prices : gmap (string * Z) Decimal) (t : datetime) (f : Forecast) : option RealisedOutcome :=
  match forecast_outcome prices f with
  | Ok (Some o) => if realised_by t o then Some o else None
  | _ => None
  end.

Lemma outcomes_known prices t fs os : traverse (forecast_outcome prices) fs = Ok os →
  List.filter (realised_by t) (omap (M:=list) id os) = omap (M:=list) (known_outcome prices t) fs.
Proof.
  intros H%traverse_Ok. induction H as [|f o fs os Hf _ IH]; [done|]. cbn. unfold known_outcome at 1. rewrite Hf.
  destruct o as [o|]; cbn; [|exact IH]. destruct (realised_by t o); [by f_equal|exact IH].
Qed.

Lemma known_outcome_undecided prices t f : decided_by t f = false → known_outcome prices t f = None.
Proof.
  intros Hd. unfold known_outcome. destruct (forecast_outcome _ _) as [[o|]|] eqn:E; try done.
  apply forecast_outcome_Ok in E as (_ & _ & _ & Et & _ & _ & _ & Hlt).
  destruct (realised_by t o) eqn:Hr; [|done]. unfold realised_by, decided_by, dt_leb in *. rewrite Et in Hr.
  apply Z.leb_le in Hr. apply Z.leb_gt in Hd. lia.
Qed.

Lemma omap_decided prices t fs :
  omap (M:=list) (known_outcome prices t) fs = omap (M:=list) (known_outcome prices t) (List.filter (decided_by t) fs).
Proof.
  induction fs as [|f fs IH]; [done|]. cbn. destruct (decided_by t f) eqn:E; cbn.
  - by rewrite IH.
  - by rewrite known_outcome_undecided.
Qed.

Lemma known_outcome_causal t bars bars' f : decided_by t f = true →
  List.filter (closed_by t) bars = List.filter (closed_by t) bars' →
  known_outcome (close_prices bars) t f = known_outcome (close_prices bars') t f.
Proof.
  intros Hd Hb. unfold known_outcome, forecast_outcome.
  assert (∀ k : string * Z, k.2 <= instant t → close_prices bars !! k = close_prices bars' !! k) as Hk.
  { intros k Hk. rewrite (close_prices_causal t k bars), (close_prices_causal t k bars') by done. by rewrite Hb. }
  rewrite (Hk (price_key (sf_instrument_id f) (sf_decision_time f))) by (by apply Z.leb_le).
  destruct (close_prices bars' !! _) as [d|]; [|done].
  destruct (Z.le_gt_cases (instant (target_time f)) (instant t)) as [Hle|Hgt].
  - by rewrite (Hk (price_key (sf_instrument_id f) (target_time f))).
  - assert (∀ p : option Decimal, match
      match p with
      | Some realised_mid => realised_return ← simple_return realised_mid d;
          o ← RealisedOutcome_new (mkOutcome (sf_forecast_id f) (sf_instrument_id f) (sf_decision_time f)
                (target_time f) d realised_mid realised_return); Ok (Some o)
      | None => Ok None
      end with Ok (Some o) => if realised_by t o then Some o else None | _ => None end = None) as Hn.
    { intros [p|]; [|done]. destruct (simple_return p d) as [r|]; [|done]. cbn [mbind res_bind]. unfold RealisedOutcome_new.
      destruct (RealisedOutcome_post_init _) as [[]|]; [|done]. cbn [mbind res_bind]. unfold realised_by. cbn [ro_target_time].
      unfold dt_leb. by rewrite (proj2 (Z.leb_gt _ _) Hgt). }
    by rewrite !Hn.
Qed.

(** What [evaluate_strategies] computed, when it returned. *)
Lemma evaluate_Ok bars definitions contract ds de r :
  evaluate_strategies bars definitions contract ds de = Ok r →
  ∃ mids all, mids = py_sorted bar_order (List.filter eligible_bar bars) ∧ NoDup (map bar_identity mids) ∧
    forecasts_along definitions ds de [] mids = Ok all ∧ er_forecasts r = py_sorted forecast_order all ∧
    _outcomes mids (er_forecasts r) = Ok (er_outcomes r) ∧
    _scores definitions (er_forecasts r) (er_outcomes r) (sc_minimum_samples contract) = Ok (er_scores r) ∧
    er_ranking r = ranking_of (er_scores r).
Proof.
  unfold evaluate_strategies, _eligible_midpoint_bars. cbn zeta. intros H. res_inv. cbn.
  match goal with H : _forecasts _ _ _ _ = Ok _ |- _ => rewrite forecasts_eq in H; rename H into Hf end.
  destruct (forecasts_along _ _ _ _ _) as [all|] eqn:E; [|done]. injection Hf as <-.
  eexists _, all. split_and!; try done. match goal with H : has_duplicates _ = false |- _ => rename H into Hd end.
  unfold has_duplicates in Hd. by apply negb_false_iff, bool_decide_eq_true in Hd.
Qed.

Lemma evaluated_causal bars1 bars2 definitions contract ds de r1 r2 t :
  evaluate_strategies bars1 definitions contract ds de = Ok r1 →
  evaluate_strategies bars2 definitions contract ds de = Ok r2 →
  List.filter (closed_by t) bars1 = List.filter (closed_by t) bars2 →
  List.filter (decided_by t) (er_forecasts r1) = List.filter (decided_by t) (er_forecasts r2) ∧
  List.filter (realised_by t) (er_outcomes r1) = List.filter (realised_by t) (er_outcomes r2).
Proof.
  intros (m1 & l1 & E1 & _ & F1 & G1 & O1 & _)%evaluate_Ok (m2 & l2 & E2 & _ & F2 & G2 & O2 & _)%evaluate_Ok Hb.
  assert (List.filter (closed_by t) m1 = List.filter (closed_by t) m2) as Hm.
  { rewrite E1, E2, !filter_py_sorted, !(filter_comm (closed_by t)). by rewrite Hb. }
  assert (List.filter (decided_by t) (er_forecasts r1) = List.filter (decided_by t) (er_forecasts r2)) as Hf.
  { apply (forecasts_along_causal _ _ _ t) in F1; [|rewrite E1; apply py_sorted_sorted].
    apply (forecasts_along_causal _ _ _ t) in F2; [|rewrite E2; apply py_sorted_sorted].
    rewrite Hm, F2 in F1. injection F1 as F1. by rewrite G1, G2, !filter_py_sorted, F1. }
  split; [exact Hf|]. unfold _outcomes in O1, O2.
  apply bind_Ok in O1 as (os1 & T1 & Q1). apply bind_Ok in O2 as (os2 & T2 & Q2).
  injection Q1 as <-. injection Q2 as <-.
  rewrite (outcomes_known _ _ _ _ T1), (outcomes_known _ _ _ _ T2), (omap_decided _ _ (er_forecasts r1)),
    (omap_decided _ _ (er_forecasts r2)), Hf.
  generalize (er_forecasts r2). intros fs. induction fs as [|f fs IH]; [done|]. cbn.
  destruct (decided_by t f) eqn:Hd; [|exact IH]. cbn. by rewrite (known_outcome_causal t m1 m2 f Hd Hm), IH.
Qed.

(** ** Totality *)

Definition supported_kind (d : StrategyDefinition) : bool :=
  existsb (String.eqb (sd_kind d)) ["NO_SIGNAL"; "PERSISTENCE"; "REVERSAL"].

(** A validated bar with a positive close, as prices of instruments are. *)
Definition priced_bar (b : MarketBar) : Prop :=
  is_utc (b_interval_end b) ∧ dec_wf (b_close b) ∧ dec_leb (b_close b) dec_zero = false.

Lemma sha256_json_len j : len (sha256_json j) = 64.
Proof. pose proof (sha256_json_is_sha256 j) as H. unfold is_sha256 in H. by apply andb_true_iff in H as [H%Z.eqb_eq _]. Qed.

Lemma definition_hash_len d : len (StrategyDefinition_configuration_hash d) = 64.
Proof. apply sha256_json_len. Qed.

Lemma simple_return_total a b : dec_wf b → dec_leb b dec_zero = false → ∃ r, simple_return a b = Ok r.
Proof.
  intros W H. unfold simple_return. destruct (dec_div_total a b) as [q ->]; [by apply dec_positive|]. cbn. eauto.
Qed.

Lemma strategy_strength_total d x : supported_kind d = true →
  ∃ s, _strategy_strength d x = Ok s ∧ s ∈ [dec_zero; dec_of_Z 1; dec_of_Z (-1)].
Proof.
  unfold supported_kind, _strategy_strength. cbn [existsb]. rewrite !orb_false_r. intros H.
  destruct (String.eqb_spec (sd_kind d) "NO_SIGNAL"); [eexists; split; [done|set_solver]|]. cbn [orb] in H. rewrite H. cbn [negb].
  destruct (dec_leb _ _); [eexists; split; [done|set_solver]|].
  destruct (dec_ltb dec_zero x), (String.eqb (sd_kind d) "PERSISTENCE"); (eexists; split; [reflexivity|]);
    try change (dec_opp (dec_of_Z 1)) with (dec_of_Z (-1)); try change (dec_opp (dec_of_Z (-1))) with (dec_of_Z 1); set_solver.
Qed.

Lemma nonempty_prefix s t : nonempty s = true → nonempty (s +:+ t) = true.
Proof. by destruct s. Qed.

Lemma definition_forecast_total history bar d : StrategyDefinition_post_init d = Ok tt → supported_kind d = true →
  Forall priced_bar history → is_utc (b_interval_end bar) → ∃ o, definition_forecast history bar d = Ok o.
Proof.
  intros Hd Hk Hh Hu. unfold definition_forecast. destruct (Z.leb_spec (Z.of_nat (length history)) (sd_lookback_bars d)); [eauto|].
  unfold StrategyDefinition_post_init in Hd. res_inv. bool_prop.
  destruct (nth_error _ _) as [prior|] eqn:En; [|apply nth_error_None in En; lia].
  apply nth_error_In, list_elem_of_In in En. rewrite Forall_forall in Hh. destruct (Hh prior En) as (_ & Wp & Pp).
  destruct (simple_return_total (b_close bar) _ Wp Pp) as [observed ->]. cbn [mbind res_bind].
  destruct (strategy_strength_total d observed Hk) as (s & -> & Hs). cbn [mbind res_bind]. unfold forecast_identity.
  rewrite require_utc_is_utc by done. cbn [mbind res_bind]. unfold Forecast_new, Forecast_post_init.
  cbn [sf_observation_end sf_decision_time sf_forecast_id sf_strategy_configuration_hash sf_strategy_id sf_strategy_version
       sf_rationale sf_horizon sf_strength].
  rewrite !require_utc_is_utc by done. cbn [mbind res_bind]. rewrite sha256_json_len, definition_hash_len.
  match goal with H : nonempty (sd_strategy_id d) = true |- _ => rewrite H end.
  rewrite (proj2 (Z.leb_gt (sd_strategy_version d) 0)) by done. rewrite nonempty_prefix by done.
  unfold dt_ltb. rewrite Z.ltb_irrefl. rewrite (proj2 (Z.leb_gt (sd_horizon d) 0)) by done.
  assert (dec_ltb s (dec_of_Z (-1)) || dec_ltb (dec_of_Z 1) s = false) as ->; [|cbn; eauto].
  repeat (apply elem_of_cons in Hs as [->|Hs]; [reflexivity|]). by apply not_elem_of_nil in Hs.
Qed.

Definition usable_definitions (definitions : list StrategyDefinition) : Prop :=
  ∀ d, d ∈ definitions → StrategyDefinition_post_init d = Ok tt ∧ supported_kind d = true.

Lemma forecasts_along_total definitions ds de bars : usable_definitions definitions →
  ∀ seen, Forall priced_bar (seen ++ bars) → ∃ l, forecasts_along definitions ds de seen bars = Ok l.
Proof.
  intros Hdefs. induction bars as [|bar bars IH]; intros seen Hb; cbn [forecasts_along]; [eauto|].
  assert (∃ fs, bar_forecasts definitions ds de (List.filter (same_instrument (b_instrument_id bar)) seen ++ [bar]) bar = Ok fs) as [fs ->].
  { unfold bar_forecasts. destruct (in_decision_window _ _ _); [|eauto].
    destruct (traverse_returns (definition_forecast (List.filter (same_instrument (b_instrument_id bar)) seen ++ [bar]) bar) definitions)
      as [os ->]; [|cbn; eauto].
    intros d [Hd Hk]%Hdefs. apply Forall_app in Hb as [Hs Hb]. apply Forall_cons in Hb as [Hbar _].
    apply definition_forecast_total; [done|done| |by apply Hbar].
    apply Forall_app. split; [|by constructor]. rewrite Forall_forall in Hs |- *. intros b [Hin _]%list_elem_of_In%filter_In.
    by apply Hs, list_elem_of_In. }
  cbn [mbind res_bind]. destruct (IH (seen ++ [bar])) as [rest ->]; [by rewrite <- app_assoc|]. cbn. eauto.
Qed.

(** Forecasts come from the bars, at the close of one of them. *)
Lemma forecasts_along_from definitions ds de bars : ∀ seen l, forecasts_along definitions ds de seen bars = Ok l →
  ∀ f, f ∈ l → ∃ b d, b ∈ bars ∧ d ∈ definitions ∧ sf_decision_time f = b_interval_end b ∧
    sf_instrument_id f = b_instrument_id b ∧ sf_horizon f = sd_horizon d ∧ sf_strategy_id f = sd_strategy_id d ∧
    in_decision_window ds de b = true.
Proof.
  induction bars as [|bar bars IH]; intros seen l; cbn [forecasts_along]; [by intros [= <-] f ?%not_elem_of_nil|].
  intros (fs & Hfs & (rest & Hrest & [= <-])%bind_Ok)%bind_Ok f [Hf|Hf]%elem_of_app.
  - apply bar_forecasts_Ok in Hfs. rewrite Forall_forall in Hfs. destruct (Hfs f Hf) as (? & ? & ? & d & ? & ? & ?).
    exists bar, d. split_and!; try done. by left.
  - destruct (IH _ _ Hrest f Hf) as (b & d & ? & ?). exists b, d. split; [by right|done].
Qed.

Lemma forecasts_valid definitions ds de bars : ∀ seen l, forecasts_along definitions ds de seen bars = Ok l →
  Forall (λ f, Forecast_post_init f = Ok tt) l.
Proof.
  induction bars as [|bar bars IH]; intros seen l; cbn [forecasts_along]; [by intros [= <-]|].
  intros (fs & Hfs & (rest & Hrest & [= <-])%bind_Ok)%bind_Ok. apply Forall_app. split; [|by eapply IH].
  unfold bar_forecasts in Hfs. destruct (in_decision_window _ _ _); [|by injection Hfs as <-].
  apply bind_Ok in Hfs as (os & Ht & [= <-]). apply Forall_omap_id. intros f Hf. apply traverse_Ok in Ht.
  apply list_elem_of_lookup in Hf as [n Hn]. destruct (Forall2_lookup_r _ _ _ _ _ Ht Hn) as (d & _ & E).
  unfold definition_forecast in E. destruct (_ <=? _); [done|]. destruct (nth_error _ _); [|done].
  apply bind_Ok in E as (x & _ & E). apply bind_Ok in E as (s & _ & E). apply bind_Ok in E as (i & _ & E).
  apply bind_Ok in E as (f' & E & [= <-]). unfold Forecast_new in E. apply bind_Ok in E as ([] & E & [= <-]). exact E.
Qed.

Lemma forecast_id_len f : Forecast_post_init f = Ok tt → len (sf_forecast_id f) = 64.
Proof. unfold Forecast_post_init. intros H. res_inv. bool_prop. done. Qed.

Lemma outcomes_total mids fs : NoDup (map bar_identity mids) → Forall priced_bar mids →
  (∀ f, f ∈ fs → len (sf_forecast_id f) = 64 ∧ 0 < sf_horizon f ∧
     ∃ b, b ∈ mids ∧ sf_decision_time f = b_interval_end b ∧ sf_instrument_id f = b_instrument_id b) →
  ∃ os, _outcomes mids fs = Ok os.
Proof.
  intros Hnd Hb Hf. unfold _outcomes. rewrite Forall_forall in Hb.
  destruct (traverse_returns (forecast_outcome (close_prices mids)) fs) as [os ->]; [|cbn; eauto].
  intros f Hin. destruct (Hf f Hin) as (Hid & Hh & b & Hbin & Et & Ei). unfold forecast_outcome.
  destruct (Hb b Hbin) as (Hu & Wb & Pb).
  rewrite (proj2 (close_prices_spec (price_key (sf_instrument_id f) (sf_decision_time f)) (b_close b) mids Hnd))
    by (exists b; unfold bar_identity; by rewrite Et, Ei).
  destruct (close_prices mids !! price_key (sf_instrument_id f) (target_time f)) as [p|] eqn:Ep; [|eauto].
  apply close_prices_spec in Ep as (b' & Hb' & _ & <-); [|done]. destruct (Hb b' Hb') as (_ & _ & Pb').
  destruct (simple_return_total (b_close b') (b_close b) Wb Pb) as [x Hx]. rewrite Hx. cbn [mbind res_bind].
  unfold RealisedOutcome_new, RealisedOutcome_post_init. cbn [ro_decision_time ro_target_time ro_forecast_id ro_decision_mid
    ro_realised_mid ro_realised_return].
  unfold target_time. rewrite Et, !require_utc_is_utc by eauto with qtrad. cbn [mbind res_bind]. rewrite Hid.
  unfold dt_leb. rewrite instant_add, (proj2 (Z.leb_gt _ _)) by lia. rewrite Pb, Pb', Hx. cbn [orb mbind res_bind raise_if negb].
  rewrite dec_eqb_refl. cbn. eauto.
Qed.

(** ** Scores and the ranking *)

Lemma elem_of_sort_by {A} (le : A → A → bool) x l : x ∈ sort_by le l ↔ x ∈ l.
Proof. by rewrite sort_by_perm. Qed.

Lemma rank_of_total ordered v : v ∈ ordered → ∃ r, rank_of ordered v = Ok r.
Proof.
  intros Hv. unfold rank_of. set (ps := omap _ _). apply dec_div_total. cbn [dec_of_Z dec_coeff].
  assert (ps ≠ []) as Hne; [|destruct ps; [done|cbn; lia]].
  apply list_elem_of_lookup in Hv as [n Hn]. intros E. apply (not_elem_of_nil (dec_of_Z (1 + Z.of_nat n))). rewrite <- E.
  apply list_elem_of_omap. exists (1 + Z.of_nat n, v). cbn [fst snd]. rewrite dec_eqb_refl. split; [|done].
  apply list_elem_of_lookup. exists n. apply lookup_zip_with_Some. exists (1 + Z.of_nat n), v. split_and!; [done| |done].
  apply lookup_seqZ. split; [done|]. apply lookup_lt_Some in Hn. lia.
Qed.

Lemma ranks_total values : ∃ rs, _ranks values = Ok rs ∧ length rs = length values.
Proof.
  destruct (traverse_returns (rank_of (sort_by dec_leb values)) values) as [rs E].
  - intros v Hv. apply rank_of_total. by rewrite elem_of_sort_by.
  - exists rs. split; [done|]. apply traverse_Ok in E. by rewrite (Forall2_length _ _ _ E).
Qed.

Lemma mean_total l : l ≠ [] → ∃ m, mean l = Ok m.
Proof. intros H. apply dec_div_total. cbn. destruct l; [done|]. cbn. lia. Qed.

Lemma squares_nonneg m l : dec_wf (dec_sum (map (λ v, dec_square (dec_sub v m)) l))
  ∧ dec_neg (dec_sum (map (λ v, dec_square (dec_sub v m)) l)) = false.
Proof. apply dec_sum_nonneg. apply Forall_forall. intros x (v & -> & _)%list_elem_of_fmap. apply dec_square_nonneg. Qed.

(** A rank IC is a rounded quotient: it has at most 28 digits. *)
Definition context_decimal (a : Decimal) : Prop := dec_wf a ∧ dec_coeff a < 10 ^ prec.

Lemma dec_sum_wf l : dec_wf (dec_sum l).
Proof.
  unfold dec_sum. assert (dec_wf dec_zero) as H0 by done. revert H0. generalize dec_zero.
  induction l as [|x l IH]; intros a Ha; cbn [fold_left]; [done|]. apply IH, dec_add_wf.
Qed.

Lemma spearman_total pairs : pairs ≠ [] → ∃ ic, _spearman_rank_ic pairs = Ok ic ∧ ∀ x, ic = Some x → context_decimal x.
Proof.
  intros Hne. unfold _spearman_rank_ic.
  destruct (ranks_total (map fst pairs)) as (left & -> & Hl). destruct (ranks_total (map snd pairs)) as (right & -> & Hr).
  rewrite length_map in Hl, Hr. cbn [mbind res_bind].
  destruct (mean_total left) as [ml ->]; [destruct pairs, left; done|]. destruct (mean_total right) as [mr ->]; [destruct pairs, right; done|].
  cbn [mbind res_bind]. set (cov := dec_sum (zip_with _ _ _)). set (lv := dec_sum (map _ left)). set (rv := dec_sum (map _ right)).
  destruct (dec_eqb lv dec_zero) eqn:El; cbn [orb]; [by eexists|].
  destruct (dec_eqb rv dec_zero) eqn:Er; cbn [orb]; [by eexists|].
  pose proof (squares_nonneg ml left) as [Wl Nl]. pose proof (squares_nonneg mr right) as [Wr Nr]. fold lv in Wl, Nl. fold rv in Wr, Nr.
  pose proof (dec_nonzero lv Wl El). pose proof (dec_nonzero rv Wr Er).
  destruct (dec_sqrt_total (dec_mul lv rv)) as (root & -> & Hroot).
  { unfold dec_mul. by rewrite dec_fix_neg, Nl, Nr. }
  { unfold dec_mul. apply dec_fix_pos. lia. }
  cbn [mbind res_bind]. destruct (dec_div_total cov root Hroot) as [ic Eic]. rewrite Eic. cbn. eexists. split; [done|].
  intros x [= <-]. eapply dec_div_fixed; [apply dec_sum_wf| |exact Eic]. unfold dec_wf. lia.
Qed.

Definition score_ok (s : StrategyScore) : Prop :=
  ss_eligible_for_ranking s = bool_decide (ss_rank_ic s ≠ None) ∧ ∀ x, ss_rank_ic s = Some x → context_decimal x.

Lemma strategy_score_total forecasts outcomes minimum d : 1 < minimum →
  ∃ s, strategy_score forecasts outcomes minimum d = Ok s ∧ score_ok s.
Proof.
  intros Hm. unfold strategy_score. cbn zeta. set (fs := List.filter _ forecasts). set (pairs := omap _ fs).
  assert (∃ ic, (if minimum <=? Z.of_nat (length pairs) then _spearman_rank_ic pairs else Ok None) = Ok ic
                ∧ ∀ x, ic = Some x → context_decimal x) as (ic & -> & Hic).
  { destruct (Z.leb_spec minimum (Z.of_nat (length pairs))); [|by exists None].
    apply spearman_total. intros E. rewrite E in *. cbn in *. lia. }
  cbn [mbind res_bind].
  assert (∃ c, (if (length fs =? 0)%nat then Ok dec_zero
                else dec_div (dec_of_Z (Z.of_nat (length pairs))) (dec_of_Z (Z.of_nat (length fs)))) = Ok c) as [c ->].
  { destruct (Nat.eqb_spec (length fs) 0); [eauto|]. apply dec_div_total. cbn. lia. }
  cbn. eexists. split; [done|]. split; [done|exact Hic].
Qed.

Lemma scores_total definitions forecasts outcomes minimum : 1 < minimum →
  ∃ ss, _scores definitions forecasts outcomes minimum = Ok ss ∧ Forall score_ok ss.
Proof.
  intros Hm. unfold _scores.
  destruct (traverse_returns (strategy_score forecasts (outcomes_by_forecast outcomes) minimum) (py_sorted sd_strategy_id definitions)) as [ss E].
  { intros d _. destruct (strategy_score_total forecasts (outcomes_by_forecast outcomes) minimum d Hm) as (s & ? & _). eauto. }
  exists ss. split; [done|]. apply traverse_Ok in E. apply Forall_forall. intros s Hs.
  apply list_elem_of_lookup in Hs as [n Hn]. destruct (Forall2_lookup_r _ _ _ _ _ E Hn) as (d & _ & Ed).
  destruct (strategy_score_total forecasts (outcomes_by_forecast outcomes) minimum d Hm) as (s' & E' & Hok). congruence.
Qed.

Lemma dec_eqb_sym a b : dec_eqb a b = dec_eqb b a.
Proof. set (e := Z.min (dec_exp a) (dec_exp b)). rewrite (dec_eqb_at e a b), (dec_eqb_at e b a) by lia. apply Z.eqb_sym. Qed.

Lemma ranking_le_total a b : ranking_le a b = false → ranking_le b a = true.
Proof.
  unfold ranking_le. cbn zeta. rewrite (dec_eqb_sym (dec_opp (default dec_zero (ss_rank_ic b)))).
  destruct (dec_eqb _ _); [apply pyle_false|apply dec_leb_total].
Qed.
Lemma ranking_le_trans a b c : ranking_le a b = true → ranking_le b c = true → ranking_le a c = true.
Proof.
  unfold ranking_le. cbn zeta. set (x := dec_opp _). set (y := dec_opp (default dec_zero (ss_rank_ic b))).
  set (z := dec_opp (default dec_zero (ss_rank_ic c))).
  set (e := Z.min (dec_exp x) (Z.min (dec_exp y) (dec_exp z))).
  rewrite (dec_eqb_at e x y), (dec_eqb_at e y z), (dec_eqb_at e x z), (dec_leb_at e x y), (dec_leb_at e y z), (dec_leb_at e x z) by lia.
  destruct (Z.eqb_spec (scaled e x) (scaled e y)), (Z.eqb_spec (scaled e y) (scaled e z)), (Z.eqb_spec (scaled e x) (scaled e z));
    rewrite ?Z.leb_le; try lia. apply pyle_trans.
Qed.

(** The ranking: strategies with a rank IC, the highest first. *)
Definition ranked (scores : list StrategyScore) (ranking : list string) : Prop :=
  ∃ l, l ≡ₚ List.filter ss_eligible_for_ranking scores ∧ ranking = map ss_strategy_id l ∧
    StronglySorted (λ a b, ∃ x y, ss_rank_ic a = Some x ∧ ss_rank_ic b = Some y ∧ dec_leb y x = true) l.

Lemma ranking_le_ic a b : score_ok a → score_ok b → ss_eligible_for_ranking a = true → ss_eligible_for_ranking b = true →
  ranking_le a b = true → ∃ x y, ss_rank_ic a = Some x ∧ ss_rank_ic b = Some y ∧ dec_leb y x = true.
Proof.
  intros (Ea & Ha) (Eb & Hb) Ta Tb. rewrite Ea in Ta. rewrite Eb in Tb.
  destruct (ss_rank_ic a) as [x|] eqn:Ex; [|done]. destruct (ss_rank_ic b) as [y|] eqn:Ey; [|done].
  unfold ranking_le. rewrite Ex, Ey. cbn [default from_option id]. intros H. exists x, y. split_and!; [done|done|].
  destruct (Ha x eq_refl) as [Wx Cx]. destruct (Hb y eq_refl) as [Wy Cy]. rewrite <- (dec_leb_opp x y) by done.
  destruct (dec_eqb _ _) eqn:E; [|done]. set (e := Z.min (dec_exp (dec_opp x)) (dec_exp (dec_opp y))).
  rewrite (dec_eqb_at e) in E by lia. apply Z.eqb_eq in E. rewrite (dec_leb_at e) by lia. apply Z.leb_le. lia.
Qed.

Lemma ranking_spec scores : Forall score_ok scores → ranked scores (ranking_of scores).
Proof.
  intros Hok. exists (sort_by ranking_le (List.filter ss_eligible_for_ranking scores)).
  split; [apply sort_by_perm|]. split; [done|].
  pose proof (sort_by_sorted ranking_le ranking_le_total ranking_le_trans (List.filter ss_eligible_for_ranking scores)) as Hs.
  assert (Forall (λ s, score_ok s ∧ ss_eligible_for_ranking s = true) (sort_by ranking_le (List.filter ss_eligible_for_ranking scores))) as Hf.
  { rewrite sort_by_perm. apply Forall_forall. intros s [Hs' He]%list_elem_of_In%filter_In. rewrite Forall_forall in Hok.
    split; [|done]. by apply Hok, list_elem_of_In. }
  induction Hs as [|s l Hl IH Hs]; [constructor|]. apply Forall_cons in Hf as [[Hs1 Hs2] Hf]. constructor; [by apply IH|].
  rewrite Forall_forall in Hs, Hf |- *. intros s' Hin. destruct (Hf s' Hin). by apply ranking_le_ic; [..|apply Hs].
Qed.

(** Inputs on which evaluation is meant to work. *)
Record usable_inputs (bars : list MarketBar) (definitions : list StrategyDefinition) (contract : ScoreContract)
    (decision_start decision_end : option datetime) : Prop := {
  ui_bars : Forall priced_bar bars;
  ui_unique : NoDup (map bar_identity (List.filter eligible_bar bars));
  ui_definitions : usable_definitions definitions;
  ui_some : definitions ≠ [];
  ui_ids : NoDup (map sd_strategy_id definitions);
  ui_horizon : ∀ d, d ∈ definitions → sd_horizon d = sc_horizon contract;
  ui_contract : ScoreContract_post_init contract = Ok tt;
  ui_start : require_utc_opt decision_start "strategy decision_start" = Ok tt;
  ui_end : require_utc_opt decision_end "strategy decision_end" = Ok tt;
  ui_window : some_and decision_start (λ s, some_and decision_end (λ e, dt_leb e s)) = false }.

Lemma evaluation_returns bars definitions contract ds de : usable_inputs bars definitions contract ds de →
  ∃ r, evaluate_strategies bars definitions contract ds de = Ok r ∧ Forall score_ok (er_scores r).
Proof.
  intros [Hbars Huniq Hdefs Hsome Hids Hhor Hcon Hs He Hw]. unfold evaluate_strategies.
  assert ((length definitions =? 0)%nat = false) as -> by (apply Nat.eqb_neq; by destruct definitions).
  unfold has_duplicates at 1. rewrite bool_decide_true by done.
  assert (existsb (λ d, negb (sd_horizon d =? sc_horizon contract)) definitions = false) as ->.
  { apply not_true_iff_false. intros (d & Hd & Hn)%existsb_exists. apply list_elem_of_In in Hd.
    rewrite (Hhor d Hd), Z.eqb_refl in Hn. done. }
  rewrite Hs, He, Hw. cbn [orb negb raise_if mbind res_bind]. unfold _eligible_midpoint_bars. cbn zeta.
  set (mids := py_sorted bar_order _).
  assert (NoDup (map bar_identity mids)) as Hnd.
  { unfold mids. by rewrite (Permutation_map _ (py_sorted_perm bar_order _)). }
  unfold has_duplicates. rewrite bool_decide_true by done. cbn [orb negb raise_if mbind res_bind].
  assert (Forall priced_bar mids) as Hmids.
  { unfold mids. rewrite py_sorted_perm. rewrite Forall_forall in Hbars |- *. intros b [Hb _]%list_elem_of_In%filter_In.
    by apply Hbars, list_elem_of_In. }
  rewrite forecasts_eq. destruct (forecasts_along_total definitions ds de mids Hdefs [] Hmids) as [all Hall].
  rewrite Hall. cbn [fmap res_fmap mbind res_bind].
  destruct (outcomes_total mids (py_sorted forecast_order all) Hnd Hmids) as [os ->].
  { intros f Hf%elem_of_py_sorted. pose proof (forecasts_valid _ _ _ _ _ _ Hall) as Hid. rewrite Forall_forall in Hid.
    destruct (forecasts_along_from _ _ _ _ _ _ Hall f Hf) as (b & d & Hb & Hd & Et & Ei & Eh & _).
    split; [by apply forecast_id_len, Hid|]. split; [|by exists b]. rewrite Eh. destruct (Hdefs d Hd) as [Hp _].
    unfold StrategyDefinition_post_init in Hp. res_inv. bool_prop. done. }
  cbn [mbind res_bind].
  assert (1 < sc_minimum_samples contract) as Hm.
  { unfold ScoreContract_post_init in Hcon. res_inv. bool_prop. done. }
  destruct (scores_total definitions (py_sorted forecast_order all) os _ Hm) as (ss & -> & Hok). cbn. eauto.
Qed.


(** ** Four bars and two strategies *)

Definition strategy_bar (minute : Z) (close : Decimal) : MarketBar :=
  mkBar "fx:eurusd" MID (utc (1782907200000000 + minutes (minute - 1))) (utc (1782907200000000 + minutes minute))
    close close close close 1 1 QUOTE_DERIVED (mkListing "ig" "IG_DEMO" "CS.D.EURUSD") HEALTHY.
Definition strategy_bars : list MarketBar :=
  [strategy_bar 2 (dec_lit 11 (-1)); strategy_bar 1 (dec_of_Z 1); strategy_bar 4 (dec_lit 12 (-1)); strategy_bar 3 (dec_lit 105 (-2))].
Definition strategy_definition (name kind : string) : StrategyDefinition :=
  mkDefinition name 1 kind 1 (minutes 1) SHADOW dec_zero.
Definition strategy_definitions : list StrategyDefinition :=
  [strategy_definition "momentum" "PERSISTENCE"; strategy_definition "fade" "REVERSAL"].
Definition score_contract : ScoreContract :=
  mkScoreContract 1 2 (minutes 1) "TIME_SERIES_SPEARMAN" "EVERY_COMPLETED_BAR" "FULL_DATASET" "INCLUDED" MID_CLOSE_RETURN.

Lemma strategy_inputs_usable bars : bars ⊆ strategy_bars → NoDup (map bar_identity (List.filter eligible_bar bars)) →
  usable_inputs bars strategy_definitions score_contract None None.
Proof.
  intros Hsub Hnd. constructor; [| exact Hnd | | discriminate | | | reflexivity | reflexivity | reflexivity | reflexivity].
  - apply Forall_forall. intros b Hb%Hsub. unfold strategy_bars in Hb.
    repeat (apply elem_of_cons in Hb as [->|Hb]; [by repeat split|]). by apply not_elem_of_nil in Hb.
  - intros d Hd. unfold strategy_definitions in Hd.
    repeat (apply elem_of_cons in Hd as [->|Hd]; [by split|]). by apply not_elem_of_nil in Hd.
  - apply NoDup_cons. split; [by intros ?%list_elem_of_singleton|]. apply NoDup_singleton.
  - intros d Hd. unfold strategy_definitions in Hd.
    repeat (apply elem_of_cons in Hd as [->|Hd]; [reflexivity|]). by apply not_elem_of_nil in Hd.
Qed.

Lemma strategy_bars_distinct : NoDup (map bar_identity (List.filter eligible_bar strategy_bars)).
Proof. apply (bool_decide_eq_true_1 _). reflexivity. Qed.

(** Rising, falling, rising: following the last move is always wrong here. *)
Example strategies_ranked :
  (λ r, (map ss_rank_ic (er_scores r), er_ranking r)) <$> evaluate_strategies strategy_bars strategy_definitions score_contract None None
  = Ok ([Some (dec_of_Z 1); Some (dec_of_Z (-1))], ["fade"; "momentum"]).
Proof. vm_compute. reflexivity. Qed.

