(* ===== verification/Paper.v ===== *)
(** Shadow-paper execution: the accounting values of [domain/paper.py] and the causal
    bid/ask fills, ledgers and independent verification of
    [application/paper_execution.py].

    The time zone database is outside the repository: [zone] gives, for the name of a
    zone, its offset from UTC in microseconds at an instant, or [None] when there is no
    such zone. *)

From S2P Require Import Prelude PySorted PyStr PyTime PyDecimal PyDecFn PyJson PyFloat Domain Strategy.

(** ** Values *)

(** [datetime.time]: microseconds from midnight, and whether it carries a zone. *)
Record time : Type := mkTime { tm_us : Z; tm_aware : bool }.

Record PaperSessionProfile : Type := mkSession {
  sp_profile_version : string;
  sp_timezone_name : string;
  sp_local_open : time;
  sp_local_close : time;
  sp_weekdays : list Z;
  sp_holidays : list Z }.

(** [tuple(sorted(set(values))) == values] *)
Definition sorted_set (values : list Z) : bool :=
  bool_decide (py_sorted id (remove_dups values) = values).

Section zone.
Variable zone : string → option (Z → Z).

Definition PaperSessionProfile_post_init (p : PaperSessionProfile) : res unit :=
  raise_if (negb (nonempty (sp_profile_version p)) || negb (nonempty (sp_timezone_name p)))
           (ValueError "paper session profile identity and timezone are required");;
  raise_if (bool_decide (zone (sp_timezone_name p) = None)) (ValueError "paper session timezone is unknown");;
  raise_if (tm_aware (sp_local_open p) || tm_aware (sp_local_close p))
           (ValueError "paper session local times must be timezone-naive");;
  raise_if (tm_us (sp_local_close p) <=? tm_us (sp_local_open p))
           (ValueError "paper session profile does not support overnight sessions");;
  raise_if (Nat.eqb (length (sp_weekdays p)) 0 || negb (sorted_set (sp_weekdays p)))
           (ValueError "paper session weekdays must be unique and sorted");;
  raise_if (existsb (λ day, (day <? 0) || (6 <? day)) (sp_weekdays p))
           (ValueError "paper session weekdays must use datetime weekday values");;
  raise_if (negb (sorted_set (sp_holidays p))) (ValueError "paper session holidays must be unique and sorted").

Definition allows (p : PaperSessionProfile) (received_time : datetime) : res bool :=
  require_utc received_time "paper session received_time";;
  match zone (sp_timezone_name p) with
  | None => Raise (KeyError (sp_timezone_name p))
  | Some offset =>
      let local := instant received_time + offset (instant received_time) in
      let day := local / us_per_day in
      let clock := local mod us_per_day in
      Ok (existsb (Z.eqb (weekday_of_days day)) (sp_weekdays p)
          && negb (existsb (Z.eqb day) (sp_holidays p))
          && (tm_us (sp_local_open p) <=? clock) && (clock <? tm_us (sp_local_close p)))
  end.

Definition session_hash (p : PaperSessionProfile) : string :=
  sha256_json (JObj
    [("holidays", JList (map (λ d, JStr (iso_date d)) (sp_holidays p)));
     ("local_close", JStr (iso_time (tm_us (sp_local_close p))));
     ("local_open", JStr (iso_time (tm_us (sp_local_open p))));
     ("profile_version", JStr (sp_profile_version p)); ("timezone_name", JStr (sp_timezone_name p));
     ("weekdays", JList (map JInt (sp_weekdays p)))]).

Record PaperInstrumentEconomics : Type := mkEconomics {
  pe_instrument_id : InstrumentId;
  pe_quantity : Decimal;
  pe_price_increment : Decimal;
  pe_value_per_price_unit : Decimal;
  pe_quote_currency : string;
  pe_reporting_currency : string;
  pe_quote_to_reporting_rate : Decimal;
  pe_session_profile : PaperSessionProfile }.

Definition PaperInstrumentEconomics_post_init (e : PaperInstrumentEconomics) : res unit :=
  raise_if (dec_leb (pe_quantity e) dec_zero || dec_leb (pe_price_increment e) dec_zero
            || dec_leb (pe_value_per_price_unit e) dec_zero || dec_leb (pe_quote_to_reporting_rate e) dec_zero)
           (ValueError "paper quantity and economics must be positive");;
  raise_if (negb (nonempty (pe_quote_currency e)) || negb (nonempty (pe_reporting_currency e)))
           (ValueError "paper currencies are required").

Definition economics_hash (e : PaperInstrumentEconomics) : string :=
  sha256_json (JObj
    [("instrument_id", JStr (pe_instrument_id e)); ("price_increment", JStr (dec_str (pe_price_increment e)));
     ("quantity", JStr (dec_str (pe_quantity e))); ("quote_currency", JStr (pe_quote_currency e));
     ("quote_to_reporting_rate", JStr (dec_str (pe_quote_to_reporting_rate e)));
     ("reporting_currency", JStr (pe_reporting_currency e));
     ("session_profile_hash", JStr (session_hash (pe_session_profile e)));
     ("value_per_price_unit", JStr (dec_str (pe_value_per_price_unit e)))]).

Record PaperModel : Type := mkModel {
  pm_model_version : Z;
  pm_latency : timedelta;
  pm_adverse_slippage_increments : Z }.

Definition PaperModel_post_init (m : PaperModel) : res unit :=
  raise_if ((pm_model_version m <=? 0) || (pm_latency m <? 0))
           (ValueError "paper model version must be positive and latency non-negative");;
  raise_if (pm_adverse_slippage_increments m <? 0) (ValueError "paper slippage must not be negative").

(** [int(self.latency.total_seconds() * 1_000_000)], in binary floating point *)
Definition latency_microseconds (d : timedelta) : Z :=
  default 0 (f_int (f_mul (total_seconds d) (float_of_Z 1000000))).

Definition model_hash (m : PaperModel) : string :=
  sha256_json (JObj
    [("adverse_slippage_increments", JInt (pm_adverse_slippage_increments m));
     ("latency_microseconds", JInt (latency_microseconds (pm_latency m)));
     ("model_version", JInt (pm_model_version m))]).

Record PaperRoundTrip : Type := mkTrip {
  rt_forecast_id : string;
  rt_strategy_id : string;
  rt_instrument_id : InstrumentId;
  rt_direction : Z;
  rt_entry_received_time : datetime;
  rt_exit_received_time : datetime;
  rt_entry_price : Decimal;
  rt_exit_price : Decimal;
  rt_entry_mid : Decimal;
  rt_exit_mid : Decimal;
  rt_quantity : Decimal;
  rt_gross_mid_pnl : Decimal;
  rt_execution_cost : Decimal;
  rt_net_pnl : Decimal;
  rt_turnover : Decimal;
  rt_reporting_currency : string;
  rt_model_configuration_hash : string;
  rt_economics_configuration_hash : string;
  rt_session_profile_version : string }.

Definition PaperRoundTrip_post_init (r : PaperRoundTrip) : res unit :=
  require_utc (rt_entry_received_time r) "paper entry_received_time";;
  require_utc (rt_exit_received_time r) "paper exit_received_time";;
  raise_if (negb (len (rt_forecast_id r) =? 64) || negb (len (rt_model_configuration_hash r) =? 64)
            || negb (len (rt_economics_configuration_hash r) =? 64))
           (ValueError "paper forecast and model IDs must be SHA-256");;
  raise_if (negb (existsb (Z.eqb (rt_direction r)) [-1; 1])
            || dt_leb (rt_exit_received_time r) (rt_entry_received_time r))
           (ValueError "paper round trip requires a direction and causal entry/exit");;
  raise_if (dec_leb (dec_min_list (rt_entry_price r) [rt_exit_price r; rt_entry_mid r; rt_exit_mid r]) dec_zero)
           (ValueError "paper prices must be positive");;
  raise_if (dec_leb (rt_quantity r) dec_zero || negb (nonempty (rt_reporting_currency r))
            || negb (nonempty (rt_session_profile_version r)))
           (ValueError "paper quantity and reporting currency are required");;
  raise_if (dec_ltb (rt_execution_cost r) dec_zero || dec_leb (rt_turnover r) dec_zero)
           (ValueError "paper execution cost must be non-negative and turnover positive");;
  raise_if (negb (dec_eqb (rt_net_pnl r) (dec_sub (rt_gross_mid_pnl r) (rt_execution_cost r))))
           (ValueError "paper net P&L must equal gross midpoint P&L less execution cost").
Definition PaperRoundTrip_new (r : PaperRoundTrip) : res PaperRoundTrip := PaperRoundTrip_post_init r;; Ok r.

Record StrategyLedger : Type := mkLedger {
  sl_strategy_id : string;
  sl_reporting_currency : string;
  sl_round_trip_count : Z;
  sl_gross_mid_pnl : Decimal;
  sl_execution_cost : Decimal;
  sl_net_pnl : Decimal;
  sl_maximum_drawdown : Decimal;
  sl_turnover : Decimal }.

Definition StrategyLedger_post_init (l : StrategyLedger) : res unit :=
  raise_if (negb (nonempty (sl_strategy_id l)) || negb (nonempty (sl_reporting_currency l)) || (sl_round_trip_count l <? 0))
           (ValueError "ledger identity, currency and non-negative count are required");;
  raise_if (dec_ltb (sl_execution_cost l) dec_zero || dec_ltb (sl_maximum_drawdown l) dec_zero
            || dec_ltb (sl_turnover l) dec_zero)
           (ValueError "ledger costs, drawdown and turnover must not be negative");;
  raise_if (negb (dec_eqb (sl_net_pnl l) (dec_sub (sl_gross_mid_pnl l) (sl_execution_cost l))))
           (ValueError "ledger net P&L must reconcile").
Definition StrategyLedger_new (l : StrategyLedger) : res StrategyLedger := StrategyLedger_post_init l;; Ok l.

(** ** Execution *)

Record PaperEvaluation : Type := mkPaper {
  ev_model : PaperModel;
  ev_economics_hashes : list (string * string);
  ev_round_trips : list PaperRoundTrip;
  ev_ledgers : list StrategyLedger }.

Notation economics_map := (gmap string PaperInstrumentEconomics).

Definition quote_order (q : MarketQuote) : Z * Z * Z * string * string :=
  (instant (q_received_time q), default 0 (q_global_position q), instant (q_event_time q),
   (q_instrument_id q : string), ProviderListingId_str (q_listing_id q)).

(** The guard of the loop over quotes; [and] is lazy, so the session is asked last. *)
Definition usable_quote (economics : economics_map) (q : MarketQuote) : res bool :=
  if bool_decide (q_quality q = HEALTHY) && bool_decide (q_bid q ≠ None) && bool_decide (q_ask q ≠ None) then
    match economics !! (q_instrument_id q : string) with
    | None => Ok false
    | Some e => allows (pe_session_profile e) (q_received_time q)
    end
  else Ok false.

Definition quote_step (economics : economics_map) (m : gmap string (list MarketQuote)) (q : MarketQuote)
    : res (gmap string (list MarketQuote)) :=
  usable ← usable_quote economics q;
  Ok (if (usable : bool) then <[(q_instrument_id q : string) := default [] (m !! (q_instrument_id q : string)) ++ [q]]> m else m).

Definition quotes_by_instrument (economics : economics_map) (quotes : list MarketQuote)
    : res (gmap string (list MarketQuote)) :=
  for_each (quote_step economics) ∅ (py_sorted quote_order quotes).

Definition _direction (strength : Decimal) : Z :=
  if dec_ltb dec_zero strength then 1 else if dec_ltb strength dec_zero then -1 else 0.

Definition entry_quote (model : PaperModel) (f : Forecast) (quotes : list MarketQuote) : option MarketQuote :=
  List.find (λ q, dt_ltb (sf_decision_time f) (q_received_time q)
                  && dt_leb (dt_add (sf_decision_time f) (pm_latency model)) (q_received_time q)
                  && dt_ltb (q_received_time q) (target_time f)) quotes.
Definition exit_quote (f : Forecast) (entry : MarketQuote) (quotes : list MarketQuote) : option MarketQuote :=
  List.find (λ q, dt_leb (target_time f) (q_received_time q)
                  && dt_ltb (q_received_time entry) (q_received_time q)) quotes.

(** [quantity * value_per_price_unit * quote_to_reporting_rate] *)
Definition value_factor (e : PaperInstrumentEconomics) : Decimal :=
  dec_mul (dec_mul (pe_quantity e) (pe_value_per_price_unit e)) (pe_quote_to_reporting_rate e).
(** [Decimal(direction) * (exit - entry) * factor] *)
Definition pnl (direction : Z) (entry exit factor : Decimal) : Decimal :=
  dec_mul (dec_mul (dec_of_Z direction) (dec_sub exit entry)) factor.

Definition _round_trip (f : Forecast) (direction : Z) (entry exit : MarketQuote)
    (e : PaperInstrumentEconomics) (model : PaperModel) : res PaperRoundTrip :=
  match q_bid entry, q_ask entry, q_bid exit, q_ask exit with
  | Some entry_bid, Some entry_ask, Some exit_bid, Some exit_ask =>
      let slippage := dec_mul (pe_price_increment e) (dec_of_Z (pm_adverse_slippage_increments model)) in
      entry_mid ← dec_div (dec_add entry_bid entry_ask) (dec_of_Z 2);
      exit_mid ← dec_div (dec_add exit_bid exit_ask) (dec_of_Z 2);
      let entry_price := if 0 <? direction then dec_add entry_ask slippage else dec_sub entry_bid slippage in
      let exit_price := if 0 <? direction then dec_sub exit_bid slippage else dec_add exit_ask slippage in
      let factor := value_factor e in
      let gross := pnl direction entry_mid exit_mid factor in
      let net := pnl direction entry_price exit_price factor in
      PaperRoundTrip_new
        (mkTrip (sf_forecast_id f) (sf_strategy_id f) (sf_instrument_id f) direction (q_received_time entry)
           (q_received_time exit) entry_price exit_price entry_mid exit_mid (pe_quantity e) gross (dec_sub gross net) net
           (dec_mul (dec_add entry_price exit_price) factor) (pe_reporting_currency e) (model_hash model)
           (economics_hash e) (sp_profile_version (pe_session_profile e)))
  | _, _, _, _ => Raise (ValueError "paper round trip requires complete bid/ask quotes")
  end.

(** The body of the loop over forecasts. *)
Definition forecast_trip (economics : economics_map) (model : PaperModel) (quotes : gmap string (list MarketQuote))
    (f : Forecast) : res (option PaperRoundTrip) :=
  let direction := _direction (sf_strength f) in
  if direction =? 0 then Ok None
  else
    match economics !! (sf_instrument_id f : string) with
    | None => Ok None
    | Some e =>
        let instrument_quotes := default [] (quotes !! (sf_instrument_id f : string)) in
        match entry_quote model f instrument_quotes with
        | None => Ok None
        | Some entry =>
            match exit_quote f entry instrument_quotes with
            | None => Ok None
            | Some exit => trip ← _round_trip f direction entry exit e model; Ok (Some trip)
            end
        end
    end.

(** The running totals of a strategy: cumulative P&L, its peak and the largest fall from it. *)
Definition drawdown_step (s : Decimal * Decimal * Decimal) (trip : PaperRoundTrip) : Decimal * Decimal * Decimal :=
  let '(cumulative, peak, drawdown) := s in
  let cumulative := dec_add cumulative (rt_net_pnl trip) in
  let peak := dec_max peak cumulative in
  (cumulative, peak, dec_max drawdown (dec_sub peak cumulative)).
Definition maximum_drawdown (trips : list PaperRoundTrip) : Decimal :=
  (fold_left drawdown_step trips (dec_zero, dec_zero, dec_zero)).2.

Definition strategy_trips (strategy_id : string) (trips : list PaperRoundTrip) : list PaperRoundTrip :=
  List.filter (λ t, String.eqb (rt_strategy_id t) strategy_id) trips.

Definition strategy_ledger (round_trips : list PaperRoundTrip) (reporting_currency strategy_id : string)
    : res StrategyLedger :=
  let trips := strategy_trips strategy_id round_trips in
  StrategyLedger_new
    (mkLedger strategy_id reporting_currency (Z.of_nat (length trips)) (dec_sum (map rt_gross_mid_pnl trips))
       (dec_sum (map rt_execution_cost trips)) (dec_sum (map rt_net_pnl trips)) (maximum_drawdown trips)
       (dec_sum (map rt_turnover trips))).

Definition _ledgers (forecasts : list Forecast) (round_trips : list PaperRoundTrip) (reporting_currency : string)
    : res (list StrategyLedger) :=
  traverse (strategy_ledger round_trips reporting_currency)
    (py_sorted id (remove_dups (map sf_strategy_id forecasts))).

Definition economics_hashes (economics : economics_map) : list (string * string) :=
  py_sorted id (map (λ kv : string * PaperInstrumentEconomics, (kv.1, economics_hash kv.2)) (map_to_list economics)).

(** The currencies in use; the evaluation needs exactly one. *)
Definition reporting_currencies (economics : economics_map) : list string :=
  remove_dups (map (λ kv : string * PaperInstrumentEconomics, pe_reporting_currency kv.2) (map_to_list economics)).

Definition evaluate_shadow_paper (forecasts : list Forecast) (quotes : list MarketQuote)
    (economics : economics_map) (model : PaperModel) : res PaperEvaluation :=
  raise_if (existsb (λ kv : string * PaperInstrumentEconomics, negb (String.eqb kv.1 (pe_instrument_id kv.2))) (map_to_list economics))
           (ValueError "paper economics mapping keys must match instrument identity");;
  match reporting_currencies economics with
  | [reporting_currency] =>
      by_instrument ← quotes_by_instrument economics quotes;
      trips ← traverse (forecast_trip economics model by_instrument) (py_sorted forecast_order forecasts);
      let round_trips := omap (M:=list) id trips in
      ledgers ← _ledgers forecasts round_trips reporting_currency;
      Ok (mkPaper model (economics_hashes economics) round_trips ledgers)
  | _ => Raise (ValueError "paper evaluation requires one explicit reporting currency")
  end.

(** ** Verification *)

Definition verify_trip (economics : economics_map) (trip : PaperRoundTrip) : res unit :=
  match economics !! (rt_instrument_id trip : string) with
  | None => Raise (KeyError (rt_instrument_id trip))
  | Some e =>
      let factor := value_factor e in
      let expected_gross := pnl (rt_direction trip) (rt_entry_mid trip) (rt_exit_mid trip) factor in
      let expected_net := pnl (rt_direction trip) (rt_entry_price trip) (rt_exit_price trip) factor in
      raise_if (negb (dec_eqb (rt_gross_mid_pnl trip) expected_gross) || negb (dec_eqb (rt_net_pnl trip) expected_net))
               (ValueError "paper round-trip P&L does not independently verify");;
      raise_if (negb (dec_eqb (rt_execution_cost trip) (dec_sub expected_gross expected_net)))
               (ValueError "paper round-trip execution cost does not independently verify");;
      raise_if (negb (dec_eqb (rt_turnover trip) (dec_mul (dec_add (rt_entry_price trip) (rt_exit_price trip)) factor)))
               (ValueError "paper round-trip turnover does not independently verify")
  end.

Definition verify_ledger (round_trips : list PaperRoundTrip) (ledger : StrategyLedger) : res unit :=
  let trips := strategy_trips (sl_strategy_id ledger) round_trips in
  raise_if (negb (sl_round_trip_count ledger =? Z.of_nat (length trips))
            || negb (dec_eqb (sl_gross_mid_pnl ledger) (dec_sum (map rt_gross_mid_pnl trips)))
            || negb (dec_eqb (sl_execution_cost ledger) (dec_sum (map rt_execution_cost trips)))
            || negb (dec_eqb (sl_net_pnl ledger) (dec_sum (map rt_net_pnl trips)))
            || negb (dec_eqb (sl_turnover ledger) (dec_sum (map rt_turnover trips)))
            || negb (dec_eqb (sl_maximum_drawdown ledger) (maximum_drawdown trips)))
           (ValueError "paper strategy ledger does not independently verify").

Definition verify_paper_evaluation (evaluation : PaperEvaluation) (economics : economics_map) : res unit :=
  raise_if (negb (bool_decide (ev_economics_hashes evaluation = economics_hashes economics)))
           (ValueError "paper evaluation economics identity does not verify");;
  for_each (λ _ trip, verify_trip economics trip) tt (ev_round_trips evaluation);;
  raise_if (has_duplicates (map sl_strategy_id (ev_ledgers evaluation)))
           (ValueError "paper evaluation ledger identities are not unique");;
  for_each (λ _ ledger, verify_ledger (ev_round_trips evaluation) ledger) tt (ev_ledgers evaluation).

(** ** Every evaluation verifies *)

Lemma forecast_trip_Ok economics model quotes f trip : forecast_trip economics model quotes f = Ok (Some trip) →
  ∃ e entry exit, economics !! (sf_instrument_id f : string) = Some e ∧ _direction (sf_strength f) ≠ 0 ∧
    entry_quote model f (default [] (quotes !! (sf_instrument_id f : string))) = Some entry ∧
    exit_quote f entry (default [] (quotes !! (sf_instrument_id f : string))) = Some exit ∧
    _round_trip f (_direction (sf_strength f)) entry exit e model = Ok trip.
Proof.
  unfold forecast_trip. cbn zeta. destruct (Z.eqb_spec (_direction (sf_strength f)) 0); [done|].
  destruct (economics !! _) as [e|]; [|done]. destruct (entry_quote _ _ _) as [entry|]; [|done].
  destruct (exit_quote _ _ _) as [exit|] eqn:Ex; [|done]. intros (t & Ht & [= ->])%bind_Ok. exists e, entry, exit. done.
Qed.

Lemma round_trip_Ok f direction entry exit e model trip : _round_trip f direction entry exit e model = Ok trip →
  rt_forecast_id trip = sf_forecast_id f ∧ rt_strategy_id trip = sf_strategy_id f ∧
  rt_instrument_id trip = sf_instrument_id f ∧ rt_direction trip = direction ∧
  rt_entry_received_time trip = q_received_time entry ∧ rt_exit_received_time trip = q_received_time exit ∧
  rt_gross_mid_pnl trip = pnl direction (rt_entry_mid trip) (rt_exit_mid trip) (value_factor e) ∧
  rt_net_pnl trip = pnl direction (rt_entry_price trip) (rt_exit_price trip) (value_factor e) ∧
  rt_execution_cost trip = dec_sub (rt_gross_mid_pnl trip) (rt_net_pnl trip) ∧
  rt_turnover trip = dec_mul (dec_add (rt_entry_price trip) (rt_exit_price trip)) (value_factor e) ∧
  PaperRoundTrip_post_init trip = Ok tt.
Proof.
  unfold _round_trip. destruct (q_bid entry), (q_ask entry), (q_bid exit), (q_ask exit); try done.
  cbn zeta. intros (em & _ & (xm & _ & H)%bind_Ok)%bind_Ok. unfold PaperRoundTrip_new in H.
  apply bind_Ok in H as ([] & Hp & [= <-]). cbn [rt_forecast_id rt_strategy_id rt_instrument_id rt_direction
    rt_entry_received_time rt_exit_received_time rt_gross_mid_pnl rt_net_pnl rt_execution_cost rt_turnover rt_entry_mid
    rt_exit_mid rt_entry_price rt_exit_price]. split_and!; [reflexivity..|exact Hp].
Qed.

Lemma trip_verifies economics model quotes f trip : forecast_trip economics model quotes f = Ok (Some trip) →
  verify_trip economics trip = Ok tt.
Proof.
  intros (e & entry & exit & He & _ & _ & _ & H)%forecast_trip_Ok.
  apply round_trip_Ok in H as (_ & _ & Ei & Ed & _ & _ & Eg & En & Ec & Et & _).
  unfold verify_trip. rewrite Ei, He, Ed. cbn zeta. rewrite <- Eg, <- En, <- Ec, <- Et, !dec_eqb_refl. reflexivity.
Qed.

(** What [evaluate_shadow_paper] computed, when it returned. *)
Lemma paper_Ok forecasts quotes economics model ev : evaluate_shadow_paper forecasts quotes economics model = Ok ev →
  ∃ currency by_instrument trips, reporting_currencies economics = [currency] ∧
    quotes_by_instrument economics quotes = Ok by_instrument ∧
    traverse (forecast_trip economics model by_instrument) (py_sorted forecast_order forecasts) = Ok trips ∧
    ev_round_trips ev = omap (M:=list) id trips ∧ ev_model ev = model ∧ ev_economics_hashes ev = economics_hashes economics ∧
    _ledgers forecasts (ev_round_trips ev) currency = Ok (ev_ledgers ev).
Proof.
  unfold evaluate_shadow_paper. intros (u & _ & H)%bind_Ok. destruct (reporting_currencies economics) as [|c [|]]; try done.
  apply bind_Ok in H as (m & Hm & H). apply bind_Ok in H as (ts & Ht & H). apply bind_Ok in H as (ls & Hl & [= <-]).
  exists c, m, ts. done.
Qed.

Lemma elem_of_trips economics model by_instrument forecasts trips trip :
  traverse (forecast_trip economics model by_instrument) forecasts = Ok trips → trip ∈ omap (M:=list) id trips →
  ∃ f, f ∈ forecasts ∧ forecast_trip economics model by_instrument f = Ok (Some trip).
Proof.
  intros H%traverse_Ok (o & Ho & E)%list_elem_of_omap. cbn in E. subst o. apply list_elem_of_lookup in Ho as [n Hn].
  destruct (Forall2_lookup_r _ _ _ _ _ H Hn) as (f & Hf & Ef). exists f. split; [by eapply list_elem_of_lookup_2|done].
Qed.

Lemma ledgers_Ok forecasts trips currency ledgers : _ledgers forecasts trips currency = Ok ledgers →
  map sl_strategy_id ledgers = py_sorted id (remove_dups (map sf_strategy_id forecasts)) ∧
  ∀ l, l ∈ ledgers → strategy_ledger trips currency (sl_strategy_id l) = Ok l.
Proof.
  unfold _ledgers. intros H%traverse_Ok. revert H. generalize (py_sorted id (remove_dups (map sf_strategy_id forecasts))).
  intros ids H. induction H as [|i l ids ls Hi _ IH]; [split; [done|]; by intros l ?%not_elem_of_nil|].
  assert (sl_strategy_id l = i) as Ei.
  { unfold strategy_ledger, StrategyLedger_new in Hi. cbn zeta in Hi. apply bind_Ok in Hi as ([] & _ & [= <-]). reflexivity. }
  destruct IH as [IH1 IH2]. split; [cbn; by rewrite Ei, IH1|]. intros l' [->|Hl']%elem_of_cons; [by rewrite Ei|by apply IH2].
Qed.

Lemma strategy_ledger_Ok trips currency i l : strategy_ledger trips currency i = Ok l →
  l = mkLedger i currency (Z.of_nat (length (strategy_trips i trips))) (dec_sum (map rt_gross_mid_pnl (strategy_trips i trips)))
        (dec_sum (map rt_execution_cost (strategy_trips i trips))) (dec_sum (map rt_net_pnl (strategy_trips i trips)))
        (maximum_drawdown (strategy_trips i trips)) (dec_sum (map rt_turnover (strategy_trips i trips))).
Proof. unfold strategy_ledger, StrategyLedger_new. cbn zeta. intros (u & _ & [= <-])%bind_Ok. reflexivity. Qed.

Lemma ledger_verifies trips currency l : strategy_ledger trips currency (sl_strategy_id l) = Ok l → verify_ledger trips l = Ok tt.
Proof.
  intros E%strategy_ledger_Ok. unfold verify_ledger. revert E. generalize (sl_strategy_id l). intros i ->.
  cbn [sl_strategy_id sl_round_trip_count sl_gross_mid_pnl sl_execution_cost sl_net_pnl sl_turnover sl_maximum_drawdown].
  cbn zeta. rewrite Z.eqb_refl, !dec_eqb_refl. reflexivity.
Qed.

Lemma paper_verified forecasts quotes economics model ev :
  evaluate_shadow_paper forecasts quotes economics model = Ok ev → verify_paper_evaluation ev economics = Ok tt.
Proof.
  intros (c & m & trips & _ & _ & Ht & Er & _ & Eh & Hl)%paper_Ok. unfold verify_paper_evaluation.
  rewrite Eh, bool_decide_true by done. cbn [negb raise_if mbind res_bind].
  rewrite (proj2 (for_each_unit (verify_trip economics) _ tt)).
  - cbn [mbind res_bind]. apply ledgers_Ok in Hl as [Hids Hl]. unfold has_duplicates.
    rewrite bool_decide_true; [|rewrite Hids, py_sorted_perm; apply NoDup_remove_dups].
    cbn [negb raise_if mbind res_bind]. apply (for_each_unit (verify_ledger (ev_round_trips ev))).
    intros l Hin. by eapply ledger_verifies, Hl.
  - intros trip. rewrite Er. intros Hin. destruct (elem_of_trips _ _ _ _ _ _ Ht Hin) as (f & _ & Hf). by eapply trip_verifies.
Qed.

(** ** Causality *)

Definition received_by (t : datetime) (q : MarketQuote) : bool := dt_leb (q_received_time q) t.
Definition exited_by (t : datetime) (r : PaperRoundTrip) : bool := dt_leb (rt_exit_received_time r) t.

Definition usable_b (economics : economics_map) (i : string) (q : MarketQuote) : bool :=
  String.eqb (q_instrument_id q) i && ok_or false (usable_quote economics q).

Lemma quote_loop economics quotes : ∀ m m', for_each (quote_step economics) m quotes = Ok m' →
  ∀ i, default [] (m' !! i) = default [] (m !! i) ++ List.filter (usable_b economics i) quotes.
Proof.
  induction quotes as [|q quotes IH]; intros m m'; cbn [for_each].
  - intros [= <-] i. by rewrite app_nil_r.
  - unfold quote_step at 1. intros (m1 & (b & Hb & [= <-])%bind_Ok & H)%bind_Ok i. rewrite (IH _ _ H). cbn [List.filter].
    unfold usable_b at 2. rewrite Hb. cbn [ok_or]. destruct b; [|by rewrite andb_false_r].
    rewrite andb_true_r. destruct (String.eqb_spec (q_instrument_id q) i) as [<-|Hne].
    + rewrite lookup_insert_eq. cbn [default from_option id]. by rewrite <- app_assoc.
    + by rewrite lookup_insert_ne.
Qed.

Lemma instrument_quotes economics quotes m i : quotes_by_instrument economics quotes = Ok m →
  default [] (m !! i) = List.filter (usable_b economics i) (py_sorted quote_order quotes).
Proof. unfold quotes_by_instrument. intros H. by rewrite (quote_loop _ _ _ _ H), lookup_empty. Qed.

(** Quotes in the order they were received. *)
Definition by_reception (quotes : list MarketQuote) : Prop :=
  StronglySorted (λ a b, instant (q_received_time a) <= instant (q_received_time b)) quotes.

Lemma pyle_fst {A B} `{PyOrder A, PyOrder B} (x x' : A) (y y' : B) : pyle (x, y) (x', y') = true → pyle x x' = true.
Proof. unfold pyle. cbn. unfold prod_cmp. cbn. by destruct (pycmp x x'). Qed.

Lemma StronglySorted_filter {A} (R : A → A → Prop) (p : A → bool) l : StronglySorted R l → StronglySorted R (List.filter p l).
Proof.
  induction 1 as [|x l Hl IH Hx]; cbn; [constructor|]. destruct (p x); [|done]. constructor; [done|].
  rewrite Forall_forall in Hx |- *. intros y [Hy _]%list_elem_of_In%filter_In. by apply Hx, list_elem_of_In.
Qed.

Lemma sorted_by_reception economics i quotes : by_reception (List.filter (usable_b economics i) (py_sorted quote_order quotes)).
Proof.
  apply StronglySorted_filter. pose proof (py_sorted_sorted quote_order quotes) as H.
  eapply StronglySorted_ind with (3 := H); [constructor|]. intros q l _ IH Hq. constructor; [done|].
  eapply Forall_impl; [exact Hq|]. intros q' Hle. unfold key_le, quote_order in Hle. do 4 apply pyle_fst in Hle.
  rewrite pyle_Z in Hle. by apply Z.leb_le.
Qed.

(** In reception order, a search among the quotes received by [t] finds what the whole
    search finds, if that was received by [t]. *)
Lemma find_received t (p : MarketQuote → bool) quotes : by_reception quotes →
  List.find p (List.filter (received_by t) quotes)
  = match List.find p quotes with Some q => if received_by t q then Some q else None | None => None end.
Proof.
  induction 1 as [|q l Hl IH Hq]; [done|]. cbn. destruct (received_by t q) eqn:Er; cbn.
  - destruct (p q); [by rewrite Er|done].
  - rewrite IH. destruct (p q); [rewrite Er|done]. destruct (List.find p l) as [q'|] eqn:Ef; [|done].
    apply find_some in Ef as [Hin%list_elem_of_In _]. rewrite Forall_forall in Hq. specialize (Hq q' Hin).
    unfold received_by, dt_leb in *. apply Z.leb_gt in Er. destruct (Z.leb_spec (instant (q_received_time q')) (instant t)); [lia|done].
Qed.

Definition known_trip (economics : economics_map) (model : PaperModel) (quotes : gmap string (list MarketQuote))
    (t : datetime) (f : Forecast) : option PaperRoundTrip :=
  match forecast_trip economics model quotes f with
  | Ok (Some trip) => if exited_by t trip then Some trip else None
  | _ => None
  end.

Lemma trips_known economics model quotes t fs trips : traverse (forecast_trip economics model quotes) fs = Ok trips →
  List.filter (exited_by t) (omap (M:=list) id trips) = omap (M:=list) (known_trip economics model quotes t) fs.
Proof.
  intros H%traverse_Ok. induction H as [|f o fs os Hf _ IH]; [done|]. cbn. unfold known_trip at 1. rewrite Hf.
  destruct o as [o|]; cbn; [|exact IH]. destruct (exited_by t o); [by f_equal|exact IH].
Qed.

Lemma entry_quote_Some model f quotes q : entry_quote model f quotes = Some q →
  q ∈ quotes ∧ instant (sf_decision_time f) < instant (q_received_time q) ∧
  instant (sf_decision_time f) + pm_latency model <= instant (q_received_time q) ∧
  instant (q_received_time q) < instant (target_time f).
Proof.
  unfold entry_quote. intros [Hin H]%find_some. unfold dt_ltb, dt_leb in H. rewrite instant_add in H. bool_prop.
  split; [by apply list_elem_of_In|lia].
Qed.
Lemma exit_quote_Some f entry quotes q : exit_quote f entry quotes = Some q →
  q ∈ quotes ∧ instant (target_time f) <= instant (q_received_time q) ∧
  instant (q_received_time entry) < instant (q_received_time q).
Proof.
  unfold exit_quote. intros [Hin H]%find_some. unfold dt_ltb, dt_leb in H. bool_prop. split; [by apply list_elem_of_In|lia].
Qed.

Lemma known_trip_undecided economics model quotes t f : decided_by t f = false → known_trip economics model quotes t f = None.
Proof.
  intros Hd. unfold known_trip. destruct (forecast_trip _ _ _ _) as [[trip|]|] eqn:E; try done.
  apply forecast_trip_Ok in E as (e & entry & exit & _ & _ & Hen & Hex & H).
  apply round_trip_Ok in H as (_ & _ & _ & _ & _ & Et & _). apply entry_quote_Some in Hen as (_ & Hen & _).
  apply exit_quote_Some in Hex as (_ & _ & Hex). unfold exited_by, decided_by, dt_leb in *. rewrite Et. apply Z.leb_gt in Hd.
  destruct (Z.leb_spec (instant (q_received_time exit)) (instant t)); [lia|done].
Qed.

Lemma omap_known_decided economics model quotes t fs :
  omap (M:=list) (known_trip economics model quotes t) fs
  = omap (M:=list) (known_trip economics model quotes t) (List.filter (decided_by t) fs).
Proof.
  induction fs as [|f fs IH]; [done|]. cbn. destruct (decided_by t f) eqn:E; cbn.
  - by rewrite IH.
  - by rewrite known_trip_undecided.
Qed.

(** The part of a search for a round trip that is decided by [t]. *)
Lemma known_trip_prefix economics model quotes t f : by_reception (default [] (quotes !! (sf_instrument_id f : string))) →
  known_trip economics model quotes t f
  = let l := List.filter (received_by t) (default [] (quotes !! (sf_instrument_id f : string))) in
    if _direction (sf_strength f) =? 0 then None
    else match economics !! (sf_instrument_id f : string) with
         | None => None
         | Some e =>
             match entry_quote model f l with
             | None => None
             | Some entry =>
                 match exit_quote f entry l with
                 | None => None
                 | Some exit =>
                     match _round_trip f (_direction (sf_strength f)) entry exit e model with Ok trip => Some trip | _ => None end
                 end
             end
         end.
Proof.
  unfold known_trip, forecast_trip. cbv zeta. generalize (default [] (quotes !! (sf_instrument_id f : string))).
  intros qs Hs. destruct (_direction (sf_strength f) =? 0); [done|]. destruct (economics !! _) as [e|]; [|done].
  assert (entry_quote model f (List.filter (received_by t) qs)
          = match entry_quote model f qs with Some q => if received_by t q then Some q else None | None => None end) as ->
    by (by apply find_received).
  destruct (entry_quote model f qs) as [entry|] eqn:En; [|done].
  assert (exit_quote f entry (List.filter (received_by t) qs)
          = match exit_quote f entry qs with Some q => if received_by t q then Some q else None | None => None end) as Hx
    by (by apply find_received).
  destruct (exit_quote f entry qs) as [exit|] eqn:Ex.
  - apply exit_quote_Some in Ex as (_ & _ & Hlt). destruct (received_by t exit) eqn:Rx.
    + assert (received_by t entry = true) as ->.
      { unfold received_by, dt_leb in *. apply Z.leb_le in Rx. apply Z.leb_le. lia. }
      rewrite Hx. destruct (_round_trip _ _ _ _ _ _) as [trip|] eqn:H; [|done]. cbn.
      apply round_trip_Ok in H as (_ & _ & _ & _ & _ & Et & _). unfold exited_by. rewrite Et. unfold received_by in Rx. by rewrite Rx.
    + destruct (_round_trip _ _ _ _ _ _) as [trip|] eqn:H; cbn; [|destruct (received_by t entry); [by rewrite Hx|done]].
      apply round_trip_Ok in H as (_ & _ & _ & _ & _ & Et & _). unfold exited_by. rewrite Et. unfold received_by in Rx at 1.
      rewrite Rx. destruct (received_by t entry); [by rewrite Hx|done].
  - destruct (received_by t entry); [by rewrite Hx|done].
Qed.

Lemma known_trip_causal economics model q1 q2 m1 m2 t f :
  quotes_by_instrument economics q1 = Ok m1 → quotes_by_instrument economics q2 = Ok m2 →
  List.filter (received_by t) q1 = List.filter (received_by t) q2 →
  known_trip economics model m1 t f = known_trip economics model m2 t f.
Proof.
  intros H1 H2 Hq.
  rewrite !known_trip_prefix by (rewrite (instrument_quotes _ _ _ _ H1) || rewrite (instrument_quotes _ _ _ _ H2); apply sorted_by_reception).
  rewrite (instrument_quotes _ _ _ _ H1), (instrument_quotes _ _ _ _ H2), !(filter_comm (received_by t)), !filter_py_sorted, Hq. done.
Qed.

Lemma paper_known_causal forecasts1 forecasts2 q1 q2 economics model ev1 ev2 t :
  evaluate_shadow_paper forecasts1 q1 economics model = Ok ev1 →
  evaluate_shadow_paper forecasts2 q2 economics model = Ok ev2 →
  List.filter (decided_by t) forecasts1 = List.filter (decided_by t) forecasts2 →
  List.filter (received_by t) q1 = List.filter (received_by t) q2 →
  List.filter (exited_by t) (ev_round_trips ev1) = List.filter (exited_by t) (ev_round_trips ev2).
Proof.
  intros (c1 & m1 & t1 & _ & M1 & T1 & -> & _)%paper_Ok (c2 & m2 & t2 & _ & M2 & T2 & -> & _)%paper_Ok Hf Hq.
  rewrite (trips_known _ _ _ _ _ _ T1), (trips_known _ _ _ _ _ _ T2), !(omap_known_decided _ _ _ t (py_sorted _ _)).
  rewrite !filter_py_sorted, Hf. generalize (py_sorted forecast_order (List.filter (decided_by t) forecasts2)).
  intros fs. induction fs as [|f fs IH]; [done|]. cbn. by rewrite (known_trip_causal economics model q1 q2 m1 m2 t f M1 M2 Hq), IH.
Qed.

(** ** Exact accounting *)

(** The largest fall of the running sums of [l] from an earlier one, the start included. *)
Definition prefix_sum (n : nat) (l : list Z) : Z := foldr Z.add 0 (take n l).
Definition is_drawdown (l : list Z) (d : Z) : Prop :=
  (∀ i j, (i <= j <= length l)%nat → prefix_sum i l - prefix_sum j l <= d) ∧
  ∃ i j, (i <= j <= length l)%nat ∧ prefix_sum i l - prefix_sum j l = d.

Definition drawdown_z (s : Z * Z * Z) (x : Z) : Z * Z * Z :=
  let '(c, p, d) := s in (c + x, Z.max p (c + x), Z.max d (Z.max p (c + x) - (c + x))).

Lemma prefix_snoc n l x : (n <= length l)%nat → prefix_sum n (l ++ [x]) = prefix_sum n l.
Proof. intros. unfold prefix_sum. by rewrite take_app_le. Qed.
Lemma sum_snoc l x : foldr Z.add 0 (l ++ [x]) = foldr Z.add 0 l + x.
Proof. induction l as [|y l IH]; cbn; lia. Qed.
Lemma prefix_full l : prefix_sum (length l) l = foldr Z.add 0 l.
Proof. unfold prefix_sum. by rewrite firstn_all. Qed.

Lemma drawdown_z_spec l c p d : fold_left drawdown_z l (0, 0, 0) = (c, p, d) →
  c = foldr Z.add 0 l ∧ (∀ i, (i <= length l)%nat → prefix_sum i l <= p) ∧
  (∃ i, (i <= length l)%nat ∧ prefix_sum i l = p) ∧ is_drawdown l d.
Proof.
  revert c p d. induction l as [|x l IH] using rev_ind; intros c p d.
  - cbn. intros [= <- <- <-]. split_and!; [done| | |].
    + intros [|i] ?; cbn; lia.
    + by exists 0%nat.
    + split; [intros [|i] [|j] ?; cbn; lia|]. by exists 0%nat, 0%nat.
  - rewrite fold_left_app. cbn [fold_left]. destruct (fold_left drawdown_z l (0, 0, 0)) as [[c0 p0] d0].
    destruct (IH c0 p0 d0 eq_refl) as (Hc & Hp & (ip & Hip & Eip) & Hd & (i0 & j0 & Hij & Eij)). clear IH.
    cbn [drawdown_z]. intros [= <- <- <-]. rewrite sum_snoc.
    assert (prefix_sum (length (l ++ [x])) (l ++ [x]) = c0 + x) as Hlast by (rewrite prefix_full, sum_snoc; lia).
    rewrite length_app in *. cbn [length] in *. replace (length l + 1)%nat with (S (length l)) in * by lia.
    assert (∀ i, (i <= S (length l))%nat → prefix_sum i (l ++ [x]) <= Z.max p0 (c0 + x)) as Hmax.
    { intros i Hi. destruct (decide (i = S (length l))) as [->|]; [lia|]. rewrite prefix_snoc by lia.
      specialize (Hp i ltac:(lia)). lia. }
    split_and!; [lia|done| |].
    + destruct (Z.max_spec p0 (c0 + x)) as [[_ E]|[_ E]]; rewrite E.
      * exists (S (length l)). by split.
      * exists ip. rewrite prefix_snoc by lia. split; [lia|done].
    + split; rewrite length_app; cbn [length]; replace (length l + 1)%nat with (S (length l)) by lia.
      * intros i j Hi. destruct (decide (j = S (length l))) as [->|].
        -- rewrite Hlast. specialize (Hmax i ltac:(lia)). lia.
        -- rewrite !prefix_snoc by lia. specialize (Hd i j ltac:(lia)). lia.
      * destruct (Z.max_spec d0 (Z.max p0 (c0 + x) - (c0 + x))) as [[_ E]|[_ E]]; rewrite E.
        -- destruct (Z.max_spec p0 (c0 + x)) as [[_ E']|[_ E']]; rewrite E'.
           ++ exists (S (length l)), (S (length l)). split; [lia|]. lia.
           ++ exists ip, (S (length l)). rewrite Hlast, prefix_snoc by lia. split; [lia|lia].
        -- exists i0, j0. rewrite !prefix_snoc by lia. split; [lia|done].
Qed.

(** The fold on decimals computes the one on scaled integers while sums stay exact. *)
Lemma drawdown_exact g K trips : ∀ n c p d, 0 <= K → 0 <= n →
  Forall (λ r, on_grid g K (rt_net_pnl r)) trips → on_grid g (K * n) c → on_grid g (K * n) p →
  on_grid g (2 * (K * n)) d → 2 * (K * (n + Z.of_nat (length trips))) < 10 ^ prec →
  ∃ c' p' d', fold_left drawdown_step trips (c, p, d) = (c', p', d') ∧
    on_grid g (2 * (K * (n + Z.of_nat (length trips)))) d' ∧
    fold_left drawdown_z (map (λ r, scaled g (rt_net_pnl r)) trips) (scaled g c, scaled g p, scaled g d)
    = (scaled g c', scaled g p', scaled g d').
Proof.
  induction trips as [|r trips IH]; intros n c p d HK Hn Ht Hc Hp Hd Hlt; cbn [fold_left map].
  - exists c, p, d. cbn [length] in *. change (Z.of_nat 0) with 0 in *. rewrite Z.add_0_r. done.
  - apply Forall_cons in Ht as [Hr Ht]. cbn [length] in *. rewrite Nat2Z.inj_succ in *.
    destruct (grid_add g (K * n) K c (rt_net_pnl r) Hc Hr) as [Gc Sc]; [nia|].
    assert (K * n + K = K * (n + 1)) as En by ring. rewrite En in Gc.
    assert (on_grid g (K * (n + 1)) p) as Hp' by (eapply on_grid_weaken; [|exact Hp]; nia).
    destruct (grid_max g _ p (dec_add c (rt_net_pnl r)) Hp' Gc) as [Gp Sp].
    destruct (grid_sub g _ _ _ _ Gp Gc) as [Gf Sf]; [nia|].
    assert (K * (n + 1) + K * (n + 1) = 2 * (K * (n + 1))) as E2 by ring. rewrite E2 in Gf.
    assert (on_grid g (2 * (K * (n + 1))) d) as Hd' by (eapply on_grid_weaken; [|exact Hd]; nia).
    destruct (grid_max g _ d _ Hd' Gf) as [Gd Sd].
    destruct (IH (n + 1) (dec_add c (rt_net_pnl r)) (dec_max p (dec_add c (rt_net_pnl r)))
                (dec_max d (dec_sub (dec_max p (dec_add c (rt_net_pnl r))) (dec_add c (rt_net_pnl r)))))
      as (c' & p' & d' & H1 & H2 & H3); [done|lia|done|done|done|done| |].
    { replace (n + 1 + Z.of_nat (length trips)) with (n + Z.succ (Z.of_nat (length trips))) by lia. done. }
    exists c', p', d'. split; [exact H1|]. split.
    + replace (n + Z.succ (Z.of_nat (length trips))) with (n + 1 + Z.of_nat (length trips)) by lia. done.
    + rewrite <- H3. cbn [drawdown_z]. rewrite Sd, Sf, Sp, Sc. reflexivity.
Qed.

Lemma maximum_drawdown_exact g K trips : g <= 0 → 0 <= K → Forall (λ r, on_grid g K (rt_net_pnl r)) trips →
  2 * (K * Z.of_nat (length trips)) < 10 ^ prec →
  on_grid g (2 * (K * Z.of_nat (length trips))) (maximum_drawdown trips) ∧
  is_drawdown (map (λ r, scaled g (rt_net_pnl r)) trips) (scaled g (maximum_drawdown trips)).
Proof.
  intros Hg HK Ht Hlt. unfold maximum_drawdown.
  assert (∀ B, 0 <= B → on_grid g B dec_zero) as H0 by (intros; by apply grid_zero).
  destruct (drawdown_exact g K trips 0 dec_zero dec_zero dec_zero) as (c & p & d & E & Gd & Ez); [done|done|done|apply H0; lia..|done|].
  rewrite E. cbn [snd]. rewrite Z.add_0_l in Gd. split; [done|].
  change (scaled g dec_zero) with 0 in Ez. by apply drawdown_z_spec in Ez as (_ & _ & _ & Hd).
Qed.

(** Room for exact accounting: prices and slippage are multiples of [10^p], at most [P]
    and [S] of them, the value of a price unit is a multiple of [10^g] of at most [F]
    of them, and the sums over all forecasts stay within 28 digits. Every price exceeds
    the slippage, so that no fill is at a negative price. *)
Record accounting_room := mkRoom { ar_p : Z; ar_P : Z; ar_S : Z; ar_g : Z; ar_F : Z }.
Definition cent (a : accounting_room) : Z := ar_p a - 1 + ar_g a.
Definition largest (a : accounting_room) : Z := 20 * (2 * ar_P a + ar_S a) * ar_F a.

Definition slippage (e : PaperInstrumentEconomics) (model : PaperModel) : Decimal :=
  dec_mul (pe_price_increment e) (dec_of_Z (pm_adverse_slippage_increments model)).

Definition price_fits (a : accounting_room) (x : Decimal) : Prop :=
  on_grid (ar_p a) (ar_P a) x ∧ ar_S a < scaled (ar_p a) x.
Definition quote_fits (a : accounting_room) (q : MarketQuote) : Prop :=
  MarketQuote_post_init q = Ok tt ∧ (∀ x, q_bid q = Some x → price_fits a x) ∧ (∀ x, q_ask q = Some x → price_fits a x).
Definition economics_fits (a : accounting_room) (model : PaperModel) (e : PaperInstrumentEconomics) : Prop :=
  PaperInstrumentEconomics_post_init e = Ok tt ∧ PaperSessionProfile_post_init (pe_session_profile e) = Ok tt ∧
  dec_wf (pe_quantity e) ∧ dec_wf (pe_price_increment e) ∧ dec_wf (pe_value_per_price_unit e) ∧
  dec_wf (pe_quote_to_reporting_rate e) ∧
  on_grid (ar_p a) (ar_S a) (slippage e model) ∧ on_grid (ar_g a) (ar_F a) (value_factor e).
Definition room_for (a : accounting_room) (n : nat) : Prop :=
  cent a <= 0 ∧ 2 * (largest a * (Z.of_nat n + 1)) < 10 ^ prec.

(** A round trip whose amounts are exact. *)
Record exact_trip (a : accounting_room) (r : PaperRoundTrip) : Prop := {
  et_gross : on_grid (cent a) (largest a) (rt_gross_mid_pnl r);
  et_net : on_grid (cent a) (largest a) (rt_net_pnl r);
  et_cost : on_grid (cent a) (largest a) (rt_execution_cost r);
  et_turnover : on_grid (cent a) (largest a) (rt_turnover r);
  et_identity : scaled (cent a) (rt_execution_cost r) = scaled (cent a) (rt_gross_mid_pnl r) - scaled (cent a) (rt_net_pnl r);
  et_cost_nonneg : 0 <= scaled (cent a) (rt_execution_cost r);
  et_turnover_pos : 0 < scaled (cent a) (rt_turnover r) }.

Lemma grid_direction d : d = 1 ∨ d = -1 → on_grid 0 1 (dec_of_Z d) ∧ scaled 0 (dec_of_Z d) = d.
Proof. intros [->| ->]; (split; [by constructor|done]). Qed.

(** [pnl] is exact, and so is its value. *)
Lemma pnl_exact e g B F d entry exit factor : d = 1 ∨ d = -1 → 0 <= B → 0 <= F → on_grid e B entry → on_grid e B exit →
  on_grid g F factor → 2 * B * F < 10 ^ prec → 2 * B < 10 ^ prec →
  on_grid (e + g) (2 * B * F) (pnl d entry exit factor) ∧
  scaled (e + g) (pnl d entry exit factor) = d * (scaled e exit - scaled e entry) * scaled g factor.
Proof.
  intros Hd HB HF Gen Gex Gf Hlt Hlt2. destruct (grid_sub e B B exit entry Gex Gen) as [Gs Ss]; [lia|].
  destruct (grid_direction d Hd) as [Gd Sd]. destruct (grid_mul 0 e 1 (B + B) _ _ Gd Gs) as [Gm Sm]; [lia|].
  rewrite Z.add_0_l in Gm, Sm. destruct (grid_mul e g _ F _ factor Gm Gf) as [G S]; [nia|]. unfold pnl.
  split; [|rewrite S, Sm, Sd, Ss; ring]. replace (2 * B * F) with (1 * (B + B) * F) by ring. done.
Qed.

Lemma value_factor_positive a model e : economics_fits a model e → 0 < scaled (ar_g a) (value_factor e).
Proof.
  intros (Hp & _ & Wq & _ & Wv & Wr & _ & Gf). unfold PaperInstrumentEconomics_post_init in Hp. res_inv. bool_prop.
  assert (dec_neg (value_factor e) = false ∧ 0 < dec_coeff (value_factor e)) as [N C].
  { unfold value_factor. by repeat apply dec_mul_positive; apply dec_positive_sign. }
  apply (scaled_pos_iff (ar_g a)); [by apply Gf|]. unfold dec_signed. by rewrite N.
Qed.

Lemma slippage_nonneg a model e : PaperModel_post_init model = Ok tt → economics_fits a model e →
  0 <= scaled (ar_p a) (slippage e model).
Proof.
  intros Hm (Hp & _ & _ & Wi & _ & _ & Gs & _). unfold PaperInstrumentEconomics_post_init in Hp.
  unfold PaperModel_post_init in Hm. res_inv. bool_prop. apply grid_sign; [apply Gs|]. unfold slippage, dec_mul.
  rewrite dec_fix_neg. destruct (dec_positive_sign (pe_price_increment e)) as [-> _]; [done|done|].
  unfold dec_of_Z. cbn. by rewrite (proj2 (Z.ltb_ge _ _)).
Qed.

Lemma quote_prices a q bid ask : quote_fits a q → q_bid q = Some bid → q_ask q = Some ask →
  price_fits a bid ∧ price_fits a ask ∧ scaled (ar_p a) bid <= scaled (ar_p a) ask ∧ is_utc (q_received_time q).
Proof.
  intros (Hp & Hb & Ha) Eb Ea. destruct (Hb bid Eb) as [Gb Pb]. destruct (Ha ask Ea) as [Ga Pa].
  unfold MarketQuote_post_init in Hp. rewrite Eb, Ea in Hp. cbn [some_and] in Hp. res_inv.
  split; [by split|]. split; [by split|]. split.
  - match goal with H : dec_ltb ask bid = false |- _ => rewrite (grid_ltb _ _ _ _ _ Ga Gb) in H; by apply Z.ltb_ge in H end.
  - match goal with H : require_utc (q_received_time q) _ = Ok _ |- _ => by apply require_utc_Ok in H as [? _] end.
Qed.

Lemma dec_min_list_positive e B x l : Forall (λ y, on_grid e B y ∧ 0 < scaled e y) (x :: l) →
  dec_leb (dec_min_list x l) dec_zero = false.
Proof.
  intros H. destruct (dec_min_list_spec x l) as [Hin _]. rewrite Forall_forall in H. destruct (H _ Hin) as [G P].
  by apply (grid_positive e B).
Qed.

Lemma model_hash_len m : len (model_hash m) = 64.
Proof. apply sha256_json_len. Qed.
Lemma economics_hash_len e : len (economics_hash e) = 64.
Proof. apply sha256_json_len. Qed.

Lemma half_price a x y : 1 <= ar_F a → 0 <= ar_S a → 2 * (largest a * 1) < 10 ^ prec → price_fits a x → price_fits a y →
  ∃ m, dec_div (dec_add x y) (dec_of_Z 2) = Ok m ∧ on_grid (ar_p a - 1) (10 * ar_P a) m ∧
    scaled (ar_p a - 1) m = 5 * (scaled (ar_p a) x + scaled (ar_p a) y).
Proof.
  intros HF HS Hlt [Gx Px] [Gy Py]. unfold largest in Hlt. assert (0 <= ar_P a) by (destruct Gx; lia).
  destruct (grid_add _ _ _ _ _ Gx Gy) as [Gs Ss]; [nia|].
  destruct (grid_half _ _ _ Gs) as (m & E & Gm & Sm); [nia|]. exists m. split; [done|].
  replace (10 * ar_P a) with (5 * (ar_P a + ar_P a)) by ring. split; [done|]. by rewrite Sm, Ss.
Qed.

(** The two prices of a fill, on either side. *)
Lemma fill_prices a slip x : 0 <= ar_S a → ar_P a + ar_S a < 10 ^ prec → on_grid (ar_p a) (ar_S a) slip → 0 <= scaled (ar_p a) slip → price_fits a x →
  (on_grid (ar_p a) (ar_P a + ar_S a) (dec_add x slip) ∧ scaled (ar_p a) (dec_add x slip) = scaled (ar_p a) x + scaled (ar_p a) slip
   ∧ 0 < scaled (ar_p a) (dec_add x slip)) ∧
  (on_grid (ar_p a) (ar_P a + ar_S a) (dec_sub x slip) ∧ scaled (ar_p a) (dec_sub x slip) = scaled (ar_p a) x - scaled (ar_p a) slip
   ∧ 0 < scaled (ar_p a) (dec_sub x slip)).
Proof.
  intros HS Hlt Gs Ps [Gx Px]. destruct (grid_add _ _ _ _ _ Gx Gs) as [Ga Sa]; [done|].
  destruct (grid_sub _ _ _ _ _ Gx Gs) as [Gb Sb]; [done|]. destruct Gs as [_ _ Bs].
  rewrite Sa, Sb. split; (split; [done|]; split; [done|lia]).
Qed.

(** Amounts of a fill: exact, on the grid of [cent], and the spread is never negative. *)
Lemma amounts_exact a factor d ep xp em xm : 2 * (largest a * 1) < 10 ^ prec → d = 1 ∨ d = -1 → 0 <= ar_P a → 0 <= ar_S a →
  on_grid (ar_g a) (ar_F a) factor → 0 < scaled (ar_g a) factor →
  on_grid (ar_p a) (ar_P a + ar_S a) ep → on_grid (ar_p a) (ar_P a + ar_S a) xp →
  0 < scaled (ar_p a) ep → 0 < scaled (ar_p a) xp →
  on_grid (ar_p a - 1) (10 * ar_P a) em → on_grid (ar_p a - 1) (10 * ar_P a) xm →
  0 <= d * (scaled (ar_p a - 1) xm - scaled (ar_p a - 1) em) - d * (10 * scaled (ar_p a) xp - 10 * scaled (ar_p a) ep) →
  let gross := pnl d em xm factor in
  let net := pnl d ep xp factor in
  let turnover := dec_mul (dec_add ep xp) factor in
  (on_grid (cent a) (largest a) gross ∧ on_grid (cent a) (largest a) net ∧ on_grid (cent a) (largest a) (dec_sub gross net)
   ∧ on_grid (cent a) (largest a) turnover) ∧
  scaled (cent a) (dec_sub gross net) = scaled (cent a) gross - scaled (cent a) net ∧
  0 <= scaled (cent a) (dec_sub gross net) ∧ 0 < scaled (cent a) turnover.
Proof.
  intros Hroom Hd HP HS Gf Pf Gep Gxp Pep Pxp Gem Gxm Hsp. cbn zeta. unfold largest in *.
  assert (1 <= ar_F a) as HF by (destruct Gf; lia).
  assert (20 * (2 * ar_P a + ar_S a) <= 20 * (2 * ar_P a + ar_S a) * ar_F a) as HK by nia.
  destruct (pnl_exact (ar_p a - 1) (ar_g a) (10 * ar_P a) (ar_F a) d em xm factor) as [Gg Sg]; [done|lia|lia|done|done|done|nia|lia|].
  destruct (pnl_exact (ar_p a) (ar_g a) (ar_P a + ar_S a) (ar_F a) d ep xp factor) as [Gn Sn]; [done|lia|lia|done|done|done|nia|lia|].
  apply grid_finer in Gn as [Gn Sn']. replace (ar_p a + ar_g a - 1) with (cent a) in Gn, Sn' by (unfold cent; lia).
  replace (ar_p a - 1 + ar_g a) with (cent a) in Gg, Sg by (unfold cent; lia).
  destruct (grid_add _ _ _ _ _ Gep Gxp) as [Ga Sa]; [lia|].
  destruct (grid_mul _ _ _ _ _ factor Ga Gf) as [Gt St]; [nia|].
  apply grid_finer in Gt as [Gt St']. replace (ar_p a + ar_g a - 1) with (cent a) in Gt, St' by (unfold cent; lia).
  destruct (grid_sub _ _ _ _ _ Gg Gn) as [Gc Sc]; [nia|].
  split; [split_and!; (eapply on_grid_weaken; [|eassumption]; nia)|]. split; [done|]. rewrite Sc, Sg, Sn', Sn, St', St, Sa.
  split; nia.
Qed.

Lemma round_trip_total a model f e entry exit d :
  PaperModel_post_init model = Ok tt → room_for a 0 → economics_fits a model e → quote_fits a entry → quote_fits a exit →
  q_bid entry ≠ None → q_ask entry ≠ None → q_bid exit ≠ None → q_ask exit ≠ None → d = 1 ∨ d = -1 →
  instant (q_received_time entry) < instant (q_received_time exit) → len (sf_forecast_id f) = 64 →
  ∃ trip, _round_trip f d entry exit e model = Ok trip ∧ exact_trip a trip.
Proof.
  intros Hm [_ Hroom] He Hen Hex N1 N2 N3 N4 Hd Htime Hid. change (Z.of_nat 0 + 1) with 1 in Hroom.
  pose proof (value_factor_positive _ _ _ He) as HF. pose proof (slippage_nonneg _ _ _ Hm He) as Hs.
  pose proof He as (Hpost & Hsess & Wq & _ & _ & _ & Gslip & Gf).
  unfold _round_trip. destruct (q_bid entry) as [eb|] eqn:Eeb; [|done]. destruct (q_ask entry) as [ea|] eqn:Eea; [|done].
  destruct (q_bid exit) as [xb|] eqn:Exb; [|done]. destruct (q_ask exit) as [xa|] eqn:Exa; [|done].
  destruct (quote_prices _ _ _ _ Hen Eeb Eea) as (Feb & Fea & Le & Ue).
  destruct (quote_prices _ _ _ _ Hex Exb Exa) as (Fxb & Fxa & Lx & Ux).
  assert (1 <= ar_F a) as HF1 by (destruct Gf; lia). assert (0 <= ar_S a) as HS0 by (destruct Gslip; lia).
  assert (0 <= ar_P a) as HP0 by (destruct Feb as [[] _]; lia).
  destruct (half_price a eb ea HF1 HS0 Hroom Feb Fea) as (em & -> & Gem & Sem).
  destruct (half_price a xb xa HF1 HS0 Hroom Fxb Fxa) as (xm & -> & Gxm & Sxm). cbn [mbind res_bind]. cbn zeta.
  fold (slippage e model). pose proof Hroom as Hlargest. unfold largest in Hroom.
  assert (20 * (2 * ar_P a + ar_S a) <= 20 * (2 * ar_P a + ar_S a) * ar_F a) as HK by nia.
  assert (ar_P a + ar_S a < 10 ^ prec) as HPS by lia.
  destruct (fill_prices a (slippage e model) ea HS0 HPS Gslip Hs Fea) as [Bea _].
  destruct (fill_prices a (slippage e model) eb HS0 HPS Gslip Hs Feb) as [_ Beb].
  destruct (fill_prices a (slippage e model) xa HS0 HPS Gslip Hs Fxa) as [Bxa _].
  destruct (fill_prices a (slippage e model) xb HS0 HPS Gslip Hs Fxb) as [_ Bxb].
  set (ep := if 0 <? d then dec_add ea _ else _). set (xp := if 0 <? d then dec_sub xb _ else _).
  assert (on_grid (ar_p a) (ar_P a + ar_S a) ep ∧ 0 < scaled (ar_p a) ep) as [Gep Pep]
    by (unfold ep; destruct (0 <? d); [destruct Bea as (? & ? & ?)|destruct Beb as (? & ? & ?)]; done).
  assert (on_grid (ar_p a) (ar_P a + ar_S a) xp ∧ 0 < scaled (ar_p a) xp) as [Gxp Pxp]
    by (unfold xp; destruct (0 <? d); [destruct Bxb as (? & ? & ?)|destruct Bxa as (? & ? & ?)]; done).
  assert (d * (5 * (scaled (ar_p a) xb + scaled (ar_p a) xa) - 5 * (scaled (ar_p a) eb + scaled (ar_p a) ea))
          - d * (10 * scaled (ar_p a) xp - 10 * scaled (ar_p a) ep) >= 0) as Hspread.
  { unfold xp, ep. destruct Bea as (_ & Sea & _), Beb as (_ & Seb & _), Bxa as (_ & Sxa & _), Bxb as (_ & Sxb & _).
    destruct Hd as [->| ->]; cbn [Z.ltb Z.compare]; rewrite ?Sea, ?Seb, ?Sxa, ?Sxb; lia. }
  clearbody ep xp. clear Bea Beb Bxa Bxb.
  assert (0 < scaled (ar_p a - 1) em ∧ 0 < scaled (ar_p a - 1) xm) as [Pem Pxm].
  { rewrite Sem, Sxm. destruct Feb, Fea, Fxb, Fxa. lia. }
  destruct (amounts_exact a (value_factor e) d ep xp em xm) as ((Gg & Gn & Gc & Gt) & Sc & Pc & Pt); [done..| |].
  { rewrite Sem, Sxm. lia. }
  set (gross := pnl d em xm (value_factor e)) in *. set (net := pnl d ep xp (value_factor e)) in *.
  match goal with |- ∃ t, PaperRoundTrip_new ?r = _ ∧ _ => exists r end.
  split; [|constructor; cbn [rt_gross_mid_pnl rt_net_pnl rt_execution_cost rt_turnover]; done].
  unfold PaperRoundTrip_new, PaperRoundTrip_post_init. cbn [rt_entry_received_time rt_exit_received_time rt_forecast_id
    rt_model_configuration_hash rt_economics_configuration_hash rt_direction rt_entry_price rt_exit_price rt_entry_mid rt_exit_mid
    rt_quantity rt_reporting_currency rt_session_profile_version rt_execution_cost rt_turnover rt_net_pnl rt_gross_mid_pnl].
  rewrite !require_utc_is_utc, Hid, model_hash_len, economics_hash_len by done.
  assert (existsb (Z.eqb d) [-1; 1] = true) as -> by (by destruct Hd as [->| ->]).
  unfold dt_leb. rewrite (proj2 (Z.leb_gt _ _)) by done.
  rewrite (dec_min_list_positive (ar_p a - 1) (10 * (ar_P a + ar_S a))).
  2: { destruct (grid_finer _ _ _ Gep) as [Gep' Sep']. destruct (grid_finer _ _ _ Gxp) as [Gxp' Sxp'].
       assert (∀ m, on_grid (ar_p a - 1) (10 * ar_P a) m → on_grid (ar_p a - 1) (10 * (ar_P a + ar_S a)) m) as Hw
         by (intros m Gm; eapply on_grid_weaken; [|exact Gm]; lia).
       constructor; [split; [exact Gep'|lia]|]. constructor; [split; [exact Gxp'|lia]|].
       constructor; [split; [by apply Hw|done]|]. constructor; [split; [by apply Hw|done]|constructor]. }
  unfold PaperInstrumentEconomics_post_init in Hpost. unfold PaperSessionProfile_post_init in Hsess. res_inv. bool_prop.
  repeat match goal with H : nonempty _ = true |- _ => rewrite H end.
  match goal with H : dec_leb (pe_quantity e) dec_zero = false |- _ => rewrite H end.
  rewrite (proj1 (grid_nonneg (cent a) (largest a) _ Gc) Pc), (proj1 (grid_positive (cent a) (largest a) _ Gt) Pt).
  assert (dec_eqb net (dec_sub gross (dec_sub gross net)) = true) as ->; [|reflexivity].
  destruct (grid_sub _ _ _ _ _ Gg Gc) as [Gd Sd]; [lia|]. rewrite (grid_eqb _ _ _ _ _ Gn Gd). apply Z.eqb_eq. lia.
Qed.

(** *** Ledgers *)

Notation cents a field trips := (map (λ r : PaperRoundTrip, scaled (cent a) (field r)) trips).

(** A ledger that is exact: every total is the sum of its trips, the net the gross less
    the cost, the drawdown the largest fall of the running net. *)
Record exact_ledger (a : accounting_room) (trips : list PaperRoundTrip) (l : StrategyLedger) : Prop := {
  el_count : sl_round_trip_count l = Z.of_nat (length trips);
  el_gross : scaled (cent a) (sl_gross_mid_pnl l) = foldr Z.add 0 (cents a rt_gross_mid_pnl trips);
  el_cost : scaled (cent a) (sl_execution_cost l) = foldr Z.add 0 (cents a rt_execution_cost trips);
  el_net : scaled (cent a) (sl_net_pnl l) = foldr Z.add 0 (cents a rt_net_pnl trips);
  el_turnover : scaled (cent a) (sl_turnover l) = foldr Z.add 0 (cents a rt_turnover trips);
  el_identity : scaled (cent a) (sl_net_pnl l) = scaled (cent a) (sl_gross_mid_pnl l) - scaled (cent a) (sl_execution_cost l);
  el_drawdown : is_drawdown (cents a rt_net_pnl trips) (scaled (cent a) (sl_maximum_drawdown l)) }.

Lemma exact_sums a trips : Forall (exact_trip a) trips →
  foldr Z.add 0 (cents a rt_net_pnl trips)
  = foldr Z.add 0 (cents a rt_gross_mid_pnl trips) - foldr Z.add 0 (cents a rt_execution_cost trips) ∧
  0 <= foldr Z.add 0 (cents a rt_execution_cost trips) ∧ 0 <= foldr Z.add 0 (cents a rt_turnover trips).
Proof. induction 1 as [|r trips Hr _ IH]; cbn; [lia|]. destruct Hr. lia. Qed.

Lemma room_smaller a n m : (m <= n)%nat → 0 <= largest a → room_for a n → 2 * (largest a * Z.of_nat m) < 10 ^ prec ∧ room_for a m.
Proof. intros Hm HL [Hc Hr]. split; [|split; [done|]]; nia. Qed.

Lemma strategy_ledger_total a n trips currency i : nonempty i = true → nonempty currency = true → 0 <= largest a → room_for a n →
  Forall (exact_trip a) trips → (length trips <= n)%nat →
  ∃ l, strategy_ledger trips currency i = Ok l ∧ sl_strategy_id l = i ∧ exact_ledger a (strategy_trips i trips) l.
Proof.
  intros Hi Hc HL Hroom Hex Hlen. unfold strategy_ledger. cbn zeta. set (ts := strategy_trips i trips).
  assert (Forall (exact_trip a) ts) as Hts.
  { rewrite Forall_forall in Hex |- *. intros r [Hr _]%list_elem_of_In%filter_In. by apply Hex, list_elem_of_In. }
  assert (length ts <= n)%nat as Hn by (etransitivity; [apply filter_length_le|done]).
  destruct (room_smaller a n (length ts) Hn HL Hroom) as [Hfit _].
  destruct Hroom as [Hg _].
  assert (∀ (field : PaperRoundTrip → Decimal), Forall (on_grid (cent a) (largest a)) (map field ts) →
    on_grid (cent a) (largest a * Z.of_nat (length ts)) (dec_sum (map field ts)) ∧
    scaled (cent a) (dec_sum (map field ts)) = foldr Z.add 0 (cents a field ts)) as Hsum.
  { intros field Hf. destruct (grid_sum (cent a) (largest a) (map field ts)) as [G S]; [done|done|done|rewrite length_map; lia|].
    rewrite length_map in G. split; [done|]. by rewrite S, map_map. }
  assert (∀ (field : PaperRoundTrip → Decimal), (∀ r, exact_trip a r → on_grid (cent a) (largest a) (field r)) →
    Forall (on_grid (cent a) (largest a)) (map field ts)) as Hgrid.
  { intros field Hf. apply List.Forall_map. eapply Forall_impl; [exact Hts|done]. }
  destruct (Hsum rt_gross_mid_pnl) as [Gg Sg]; [apply Hgrid; apply et_gross|].
  destruct (Hsum rt_execution_cost) as [Gc Sc]; [apply Hgrid; apply et_cost|].
  destruct (Hsum rt_net_pnl) as [Gn Sn]; [apply Hgrid; apply et_net|].
  destruct (Hsum rt_turnover) as [Gt St]; [apply Hgrid; apply et_turnover|].
  destruct (exact_sums a ts Hts) as (Eid & Pc & Pt).
  destruct (maximum_drawdown_exact (cent a) (largest a) ts) as [Gd Hd]; [done|done| |lia|].
  { eapply Forall_impl; [exact Hts|]. apply et_net. }
  assert (0 <= scaled (cent a) (maximum_drawdown ts)) as Pd.
  { destruct Hd as [Hall _]. specialize (Hall 0%nat 0%nat ltac:(lia)). unfold prefix_sum in Hall. cbn in Hall. lia. }
  match goal with |- ∃ l, StrategyLedger_new ?r = _ ∧ _ => exists r end.
  split; [|split; [reflexivity|constructor; cbn [sl_round_trip_count sl_gross_mid_pnl sl_execution_cost sl_net_pnl sl_turnover sl_maximum_drawdown];
    [reflexivity|exact Sg|exact Sc|exact Sn|exact St|lia|exact Hd]]].
  unfold StrategyLedger_new, StrategyLedger_post_init. cbn [sl_strategy_id sl_reporting_currency sl_round_trip_count sl_gross_mid_pnl
    sl_execution_cost sl_net_pnl sl_turnover sl_maximum_drawdown].
  rewrite Hi, Hc, (proj2 (Z.ltb_ge _ _)) by lia.
  rewrite (proj1 (grid_nonneg _ _ _ Gc)), (proj1 (grid_nonneg _ _ _ Gd)), (proj1 (grid_nonneg _ _ _ Gt)) by lia.
  assert (dec_eqb (dec_sum (map rt_net_pnl ts)) (dec_sub (dec_sum (map rt_gross_mid_pnl ts)) (dec_sum (map rt_execution_cost ts))) = true)
    as ->; [|reflexivity].
  destruct (grid_sub _ _ _ _ _ Gg Gc) as [Gs Ss]; [lia|]. rewrite (grid_eqb _ _ _ _ _ Gn Gs). apply Z.eqb_eq. lia.
Qed.

(** *** The whole evaluation *)

Definition economics_ok (a : accounting_room) (model : PaperModel) (economics : economics_map) : Prop :=
  ∀ k e, economics !! k = Some e → pe_instrument_id e = k ∧ economics_fits a model e.

Lemma usable_quote_total a model economics q : economics_ok a model economics → quote_fits a q → ∃ b, usable_quote economics q = Ok b ∧
  (b = true → q_bid q ≠ None ∧ q_ask q ≠ None).
Proof.
  intros He (Hq & _). unfold usable_quote. destruct (_ && _) eqn:Hb; [|by eexists].
  apply andb_true_iff in Hb as [[_ H1%bool_decide_eq_true]%andb_true_iff H2%bool_decide_eq_true].
  destruct (economics !! _) as [e|] eqn:E; [|by eexists]. destruct (He _ _ E) as (_ & _ & Hs & _).
  unfold MarketQuote_post_init in Hq. unfold PaperSessionProfile_post_init in Hs. res_inv. bool_prop. unfold allows.
  match goal with H : require_utc (q_received_time q) _ = Ok _ |- _ => apply require_utc_Ok in H as [Hu _] end.
  rewrite require_utc_is_utc by done. cbn [mbind res_bind].
  destruct (zone _) as [offset|]; [|done]. cbn zeta. by eexists.
Qed.

Lemma quotes_total a model economics quotes : economics_ok a model economics → (∀ q, q ∈ quotes → quote_fits a q) →
  ∃ m, quotes_by_instrument economics quotes = Ok m ∧
    ∀ i q, q ∈ default [] (m !! i) → quote_fits a q ∧ q_bid q ≠ None ∧ q_ask q ≠ None.
Proof.
  intros He Hq.
  assert (∀ l m, (∀ q, q ∈ l → quote_fits a q) → ∃ m', for_each (quote_step economics) m l = Ok m') as Hloop.
  { induction l as [|q l IH]; intros m Hl; cbn [for_each]; [eauto|]. unfold quote_step at 2.
    destruct (usable_quote_total a model economics q He) as (b & -> & _); [apply Hl; by left|]. cbn [mbind res_bind].
    apply IH. intros q' Hq'. apply Hl. by right. }
  destruct (Hloop (py_sorted quote_order quotes) ∅) as [m Hm]; [by intros q ?%elem_of_py_sorted; apply Hq|].
  exists m. split; [exact Hm|]. intros i q. rewrite (instrument_quotes economics quotes m i Hm).
  intros [Hin Hu]%list_elem_of_In%filter_In. apply list_elem_of_In, elem_of_py_sorted, Hq in Hin. split; [done|].
  unfold usable_b in Hu. apply andb_true_iff in Hu as [_ Hu].
  destruct (usable_quote_total a model economics q He Hin) as (b & E & Hb). rewrite E in Hu. by apply Hb.
Qed.

Lemma forecast_trip_total a model economics m f : PaperModel_post_init model = Ok tt → room_for a 0 → economics_ok a model economics →
  (∀ i q, q ∈ default [] (m !! i) → quote_fits a q ∧ q_bid q ≠ None ∧ q_ask q ≠ None) → Forecast_post_init f = Ok tt →
  ∃ o, forecast_trip economics model m f = Ok o ∧ ∀ r, o = Some r → exact_trip a r.
Proof.
  intros Hm Hr He Hq Hf. unfold forecast_trip. cbn zeta. destruct (Z.eqb_spec (_direction (sf_strength f)) 0) as [|Hd]; [by eexists|].
  destruct (economics !! _) as [e|] eqn:Ee; [|by eexists]. destruct (entry_quote _ _ _) as [entry|] eqn:En; [|by eexists].
  destruct (exit_quote _ _ _) as [exit|] eqn:Ex; [|by eexists].
  apply entry_quote_Some in En as [Hen _]. apply exit_quote_Some in Ex as (Hex & _ & Hlt).
  destruct (Hq _ _ Hen) as (Fen & ? & ?). destruct (Hq _ _ Hex) as (Fex & ? & ?). destruct (He _ _ Ee) as [_ Fe].
  destruct (round_trip_total a model f e entry exit (_direction (sf_strength f))) as (trip & -> & Ht); try done.
  - unfold _direction in *. destruct (dec_ltb _ _); [by left|]. destruct (dec_ltb _ _); [by right|done].
  - unfold Forecast_post_init in Hf. res_inv. bool_prop. done.
  - cbn. eexists. split; [done|]. by intros r [= <-].
Qed.

Lemma omap_length {A B} (f : A → option B) l : (length (omap (M:=list) f l) <= length l)%nat.
Proof. induction l as [|x l IH]; cbn; [done|]. destruct (f x); cbn; lia. Qed.

Lemma reporting_currency_nonempty a model economics c : economics_ok a model economics → reporting_currencies economics = [c] → nonempty c = true.
Proof.
  intros He Hc. assert (c ∈ reporting_currencies economics) as Hin by (rewrite Hc; by left).
  unfold reporting_currencies in Hin. apply elem_of_remove_dups, list_elem_of_fmap in Hin as ([k e] & -> & Hin).
  apply elem_of_map_to_list in Hin. destruct (He _ _ Hin) as (_ & Hp & _). cbn [snd].
  unfold PaperInstrumentEconomics_post_init in Hp. res_inv. bool_prop. done.
Qed.

(** Inputs whose amounts have room to be exact. *)
Record paper_inputs (a : accounting_room) (forecasts : list Forecast) (quotes : list MarketQuote)
    (economics : economics_map) (model : PaperModel) : Prop := {
  pi_model : PaperModel_post_init model = Ok tt;
  pi_room : room_for a (length forecasts);
  pi_bounds : 0 <= ar_P a ∧ 0 <= ar_S a ∧ 0 <= ar_F a;
  pi_quotes : ∀ q, q ∈ quotes → quote_fits a q;
  pi_economics : economics_ok a model economics;
  pi_forecasts : ∀ f, f ∈ forecasts → Forecast_post_init f = Ok tt;
  pi_currency : ∃ c, reporting_currencies economics = [c] }.

Lemma paper_returns a forecasts quotes economics model : paper_inputs a forecasts quotes economics model →
  ∃ ev, evaluate_shadow_paper forecasts quotes economics model = Ok ev ∧ Forall (exact_trip a) (ev_round_trips ev) ∧
    ∀ l, l ∈ ev_ledgers ev → exact_ledger a (strategy_trips (sl_strategy_id l) (ev_round_trips ev)) l.
Proof.
  intros [Hm Hroom (HP & HS & HF) Hq He Hf [c Hc]]. unfold evaluate_shadow_paper.
  assert (0 <= largest a) as HL by (unfold largest; nia).
  assert (existsb (λ kv : string * PaperInstrumentEconomics, negb (String.eqb kv.1 (pe_instrument_id kv.2))) (map_to_list economics) = false) as ->.
  { apply not_true_iff_false. intros ([k e] & Hin & Hne)%existsb_exists. apply list_elem_of_In, elem_of_map_to_list in Hin.
    destruct (He _ _ Hin) as [E _]. cbn in Hne. by rewrite E, String.eqb_refl in Hne. }
  rewrite Hc. cbn [raise_if mbind res_bind]. destruct (quotes_total a model economics quotes He Hq) as (m & -> & Hin). cbn [mbind res_bind].
  assert (∀ f, f ∈ py_sorted forecast_order forecasts → ∃ o, forecast_trip economics model m f = Ok o ∧ ∀ r, o = Some r → exact_trip a r) as Htrip.
  { intros f Hfin%elem_of_py_sorted. apply forecast_trip_total; try done; [|by apply Hf].
    eapply room_smaller; [|done|exact Hroom]. lia. }
  destruct (traverse_returns (forecast_trip economics model m) (py_sorted forecast_order forecasts)) as [trips Ht].
  { intros f Hfin. destruct (Htrip f Hfin) as (o & ? & _). eauto. }
  rewrite Ht. cbn [mbind res_bind].
  assert (Forall (exact_trip a) (omap (M:=list) id trips)) as Hex.
  { apply Forall_forall. intros r Hr. destruct (elem_of_trips _ _ _ _ _ _ Ht Hr) as (f & Hfin & Ef).
    destruct (Htrip f Hfin) as (o & Eo & Ho). rewrite Ef in Eo. injection Eo as <-. by apply Ho. }
  assert (length (omap (M:=list) id trips) <= length forecasts)%nat as Hlen.
  { etransitivity; [apply omap_length|]. apply traverse_Ok in Ht. rewrite <- (Forall2_length _ _ _ Ht), length_py_sorted. done. }
  pose proof (reporting_currency_nonempty a model economics c He Hc) as Hnc.
  assert (∀ i, i ∈ py_sorted id (remove_dups (map sf_strategy_id forecasts)) → ∃ l, strategy_ledger (omap (M:=list) id trips) c i = Ok l ∧
    sl_strategy_id l = i ∧ exact_ledger a (strategy_trips i (omap (M:=list) id trips)) l) as Hled.
  { intros i Hi. apply elem_of_py_sorted, elem_of_remove_dups, list_elem_of_fmap in Hi as (f & -> & Hfin).
    apply (strategy_ledger_total a (length forecasts)); try done. specialize (Hf f Hfin). unfold Forecast_post_init in Hf. res_inv. bool_prop. done. }
  unfold _ledgers. destruct (traverse_returns (strategy_ledger (omap (M:=list) id trips) c) (py_sorted id (remove_dups (map sf_strategy_id forecasts)))) as [ls Hls].
  { intros i Hi. destruct (Hled i Hi) as (l & ? & _). eauto. }
  rewrite Hls. cbn [mbind res_bind]. eexists. split; [reflexivity|]. cbn [ev_round_trips ev_ledgers]. split; [exact Hex|].
  intros l Hl. apply traverse_Ok in Hls. apply list_elem_of_lookup in Hl as [n Hn].
  destruct (Forall2_lookup_r _ _ _ _ _ Hls Hn) as (i & Hi & El). destruct (Hled i) as (l' & El' & Ei & Hok); [by eapply list_elem_of_lookup_2|].
  rewrite El in El'. injection El' as <-. by rewrite Ei.
Qed.

End zone.
Notation economics_map := (gmap string PaperInstrumentEconomics).

(** ** Properties *)

(** C7: shadow trading is causal from bars to fills. With bars that agree up to a time,
    quotes that agree up to it and the same strategies, economics and model, the round
    trips closed by then are the same; and every round trip enters after its decision
    plus the latency and before its target, and leaves at or after the target. *)
Theorem shadow_paper_causal zone bars1 bars2 definitions contract ds de r1 r2 quotes1 quotes2 economics model ev1 ev2 t :
  evaluate_strategies bars1 definitions contract ds de = Ok r1 →
  evaluate_strategies bars2 definitions contract ds de = Ok r2 →
  evaluate_shadow_paper zone (er_forecasts r1) quotes1 economics model = Ok ev1 →
  evaluate_shadow_paper zone (er_forecasts r2) quotes2 economics model = Ok ev2 →
  List.filter (closed_by t) bars1 = List.filter (closed_by t) bars2 →
  List.filter (received_by t) quotes1 = List.filter (received_by t) quotes2 →
  List.filter (exited_by t) (ev_round_trips ev1) = List.filter (exited_by t) (ev_round_trips ev2) ∧
  ∀ trip, trip ∈ ev_round_trips ev1 → ∃ f, f ∈ er_forecasts r1 ∧ rt_forecast_id trip = sf_forecast_id f ∧
    instant (sf_decision_time f) < instant (rt_entry_received_time trip) ∧
    instant (sf_decision_time f) + pm_latency model <= instant (rt_entry_received_time trip) ∧
    instant (rt_entry_received_time trip) < instant (target_time f) <= instant (rt_exit_received_time trip).
Proof.
  intros R1 R2 E1 E2 Hb Hq. split.
  - destruct (evaluated_causal _ _ _ _ _ _ _ _ t R1 R2 Hb) as [Hf _]. by eapply (paper_known_causal zone _ _ quotes1 quotes2).
  - intros trip Hin. apply paper_Ok in E1 as (c & m & trips & _ & _ & Ht & Er & _). rewrite Er in Hin.
    destruct (elem_of_trips _ _ _ _ _ _ Ht Hin) as (f & Hfin%elem_of_py_sorted & Ef). exists f. split; [done|].
    apply forecast_trip_Ok in Ef as (e & entry & exit & _ & _ & Hen & Hex & H).
    apply round_trip_Ok in H as (-> & _ & _ & _ & -> & -> & _). apply entry_quote_Some in Hen. apply exit_quote_Some in Hex.
    split; [reflexivity|lia].
Qed.


(** The identity of a model is computed from a product of binary floats that is then
    truncated: two different latencies can have one identity. *)
Lemma latency_identity_collides : ∃ m m', PaperModel_post_init m = Ok tt ∧ PaperModel_post_init m' = Ok tt ∧
  pm_latency m ≠ pm_latency m' ∧ model_hash m = model_hash m'.
Proof.
  exists (mkModel 1 248 0), (mkModel 1 249 0). split_and!; [reflexivity|reflexivity|discriminate|].
  unfold model_hash. cbn [pm_latency pm_adverse_slippage_increments pm_model_version].
  assert (latency_microseconds 249 = latency_microseconds 248) as -> by (vm_compute; reflexivity). reflexivity.
Qed.

(** ** One instrument, traded on the four bars of the sample strategies *)

Definition utc_zone (name : string) : option (Z → Z) := if String.eqb name "UTC" then Some (λ _, 0) else None.
Definition all_week : PaperSessionProfile :=
  mkSession "v1" "UTC" (mkTime 0 false) (mkTime (hours 23) false) [0; 1; 2; 3; 4; 5; 6] [].
Definition paper_economics : PaperInstrumentEconomics :=
  mkEconomics "fx:eurusd" (dec_of_Z 10000) (dec_lit 1 (-4)) (dec_of_Z 1) "USD" "GBP" (dec_lit 8 (-1)) all_week.
Definition paper_economics_map : economics_map := {["fx:eurusd" := paper_economics]}.
Definition paper_model : PaperModel := mkModel 1 (seconds 2) 1.
Definition paper_quote (us : Z) (bid ask : Z) : MarketQuote :=
  mkQuote "fx:eurusd" (mkListing "ig" "IG_DEMO" "CS.D.EURUSD") (utc (1782907200000000 + us)) (utc (1782907200000000 + us))
    (Some (dec_lit bid (-4))) (Some (dec_lit ask (-4))) None None None None HEALTHY None None.
Definition paper_quotes : list MarketQuote :=
  [paper_quote (minutes 2 + seconds 1) 11000 11002; paper_quote (minutes 2 + seconds 3) 11001 11003;
   paper_quote (minutes 3) 10500 10501; paper_quote (minutes 3 + seconds 10) 10510 10512; paper_quote (minutes 4 + seconds 1) 12000 12002].
Definition paper_room : accounting_room := mkRoom (-4) 20000 1 (-1) 80000.

Lemma paper_quotes_fit qs : qs ⊆ paper_quotes → ∀ q, q ∈ qs → quote_fits paper_room q.
Proof.
  intros Hsub q Hq%Hsub. unfold paper_quotes in Hq.
  repeat (apply elem_of_cons in Hq as [->|Hq];
    [split; [reflexivity|]; split; intros x [= <-]; (split; [constructor; done|reflexivity])|]).
  by apply not_elem_of_nil in Hq.
Qed.
Lemma paper_economics_ok : economics_ok utc_zone paper_room paper_model paper_economics_map.
Proof.
  intros k e Hk. unfold paper_economics_map in Hk. apply lookup_singleton_Some in Hk as [<- <-]. split; [reflexivity|]. split_and!; try reflexivity; try done; by constructor.
Qed.

Lemma sample_paper_inputs bars quotes r : bars ⊆ strategy_bars → quotes ⊆ paper_quotes →
  evaluate_strategies bars strategy_definitions score_contract None None = Ok r → (length (er_forecasts r) <= 10)%nat →
  paper_inputs utc_zone paper_room (er_forecasts r) quotes paper_economics_map paper_model.
Proof.
  intros Hb Hq Hr Hlen. constructor.
  - reflexivity.
  - split; [done|]. change (largest paper_room) with 64001600000. change (10 ^ prec) with 10000000000000000000000000000. lia.
  - done.
  - by apply paper_quotes_fit.
  - apply paper_economics_ok.
  - intros f Hf. apply evaluate_Ok in Hr as (mids & all & _ & _ & Hall & Ef & _). rewrite Ef in Hf. apply elem_of_py_sorted in Hf.
    apply forecasts_valid in Hall. rewrite Forall_forall in Hall. by apply Hall.
  - by exists "GBP".
Qed.

Example sample_forecast_counts :
  (λ r, length (er_forecasts r)) <$> evaluate_strategies strategy_bars strategy_definitions score_contract None None = Ok 6%nat ∧
  (λ r, length (er_forecasts r)) <$> evaluate_strategies (take 2 strategy_bars) strategy_definitions score_contract None None = Ok 2%nat.
Proof. split; vm_compute; reflexivity. Qed.

Lemma fmap_Ok_inv {A B} (f : A → B) (m : res A) b : f <$> m = Ok b → ∃ a, m = Ok a ∧ f a = b.
Proof. destruct m; [|done]. intros [= <-]. eauto. Qed.

Lemma sample_evaluations : ∃ r1 r2,
  evaluate_strategies strategy_bars strategy_definitions score_contract None None = Ok r1 ∧
  evaluate_strategies (take 2 strategy_bars) strategy_definitions score_contract None None = Ok r2 ∧
  paper_inputs utc_zone paper_room (er_forecasts r1) paper_quotes paper_economics_map paper_model ∧
  paper_inputs utc_zone paper_room (er_forecasts r2) (take 2 paper_quotes) paper_economics_map paper_model.
Proof.
  destruct sample_forecast_counts as [(r1 & E1 & C1)%fmap_Ok_inv (r2 & E2 & C2)%fmap_Ok_inv].
  exists r1, r2. split; [exact E1|]. split; [exact E2|]. split.
  - eapply sample_paper_inputs; [|done|exact E1|lia]. done.
  - eapply sample_paper_inputs; [apply subseteq_take|apply subseteq_take|exact E2|lia].
Qed.


Lemma shadow_paper_causal_witness : ∃ ev1 ev2,
  List.filter (exited_by (utc (1782907200000000 + minutes 2 + seconds 10))) (ev_round_trips ev1)
  = List.filter (exited_by (utc (1782907200000000 + minutes 2 + seconds 10))) (ev_round_trips ev2).
Proof.
  destruct sample_evaluations as (r1 & r2 & E1 & E2 & I1 & I2).
  destruct (paper_returns utc_zone _ _ _ _ _ I1) as (ev1 & P1 & _). destruct (paper_returns utc_zone _ _ _ _ _ I2) as (ev2 & P2 & _).
  exists ev1, ev2.
  destruct (shadow_paper_causal utc_zone _ _ _ _ _ _ r1 r2 _ _ _ _ ev1 ev2 (utc (1782907200000000 + minutes 2 + seconds 10)) E1 E2 P1 P2)
    as [H _]; [reflexivity|reflexivity|exact H].
Defined.

(** The momentum strategy buys at 1.1004 after the rise and sells at 1.0499 at the target,
    then sells at 1.0509 after the fall and buys back at 1.2003: one increment of slippage
    each time. The fade strategy takes the other side and pays the same spreads. *)
Example sample_paper :
  (r ← evaluate_strategies strategy_bars strategy_definitions score_contract None None;
   ev ← evaluate_shadow_paper utc_zone (er_forecasts r) paper_quotes paper_economics_map paper_model;
   Ok (map (λ l, (sl_strategy_id l, sl_round_trip_count l, dec_str (sl_net_pnl l))) (ev_ledgers ev)))
  = Ok [("fade", 2, "1587.20000"); ("momentum", 2, "-1599.20000")].
Proof. vm_compute. reflexivity. Qed.
