(* ===== verification/Economics.v ===== *)
(** Provider-neutral product economics and expected costs: the schedules, conversion
    rates, product states, cost components, forecasts, solver policy and continuous cost
    curves of [domain/economics.py].

    A [type(value) is Enum] test always holds of the typed values of the model and is
    left out, as are tests that a decimal is finite. *)

From S2P Require Import Prelude PySorted PyStr PyTime PyDecimal PyDecFn Sha256 PyJson PyFloat Domain CaptureFeed.
From Stdlib Require Import Ascii.

(** ** Enumerations *)

Inductive EvidencePurpose : Type :=
| FIXTURE_IMPLEMENTATION | HISTORICAL_EXPLORATORY | FUTURE_NATIVE_DECISION_GRADE.
#[export] Instance EvidencePurpose_eq_dec : EqDecision EvidencePurpose.
Proof. solve_decision. Defined.
Definition EvidencePurpose_str (p : EvidencePurpose) : string :=
  match p with
  | FIXTURE_IMPLEMENTATION => "FIXTURE_IMPLEMENTATION"
  | HISTORICAL_EXPLORATORY => "HISTORICAL_EXPLORATORY"
  | FUTURE_NATIVE_DECISION_GRADE => "FUTURE_NATIVE_DECISION_GRADE"
  end.

Inductive InputStatus : Type := IS_AVAILABLE | IS_DOCUMENTED_ZERO | IS_MISSING | IS_UNSUPPORTED.
#[export] Instance InputStatus_eq_dec : EqDecision InputStatus.
Proof. solve_decision. Defined.
Definition InputStatus_str (s : InputStatus) : string :=
  match s with
  | IS_AVAILABLE => "AVAILABLE" | IS_DOCUMENTED_ZERO => "DOCUMENTED_ZERO"
  | IS_MISSING => "MISSING" | IS_UNSUPPORTED => "UNSUPPORTED"
  end.

Inductive ImpactDisposition : Type := SUPPORTED_MODEL | CAPPED_NO_IMPACT_RANGE | UNSUPPORTED_BLOCKING.
#[export] Instance ImpactDisposition_eq_dec : EqDecision ImpactDisposition.
Proof. solve_decision. Defined.
Definition ImpactDisposition_str (d : ImpactDisposition) : string :=
  match d with
  | SUPPORTED_MODEL => "SUPPORTED_MODEL"
  | CAPPED_NO_IMPACT_RANGE => "CAPPED_NO_IMPACT_RANGE"
  | UNSUPPORTED_BLOCKING => "UNSUPPORTED_BLOCKING"
  end.

Inductive CostComponentKind : Type :=
| SPREAD | LATENCY_MOVEMENT | ADVERSE_SLIPPAGE | COMMISSION | FINANCING | IMPACT.
#[export] Instance CostComponentKind_eq_dec : EqDecision CostComponentKind.
Proof. solve_decision. Defined.
Definition CostComponentKind_str (k : CostComponentKind) : string :=
  match k with
  | SPREAD => "SPREAD" | LATENCY_MOVEMENT => "LATENCY_MOVEMENT" | ADVERSE_SLIPPAGE => "ADVERSE_SLIPPAGE"
  | COMMISSION => "COMMISSION" | FINANCING => "FINANCING" | IMPACT => "IMPACT"
  end.

Inductive CostBasis : Type := PHYSICAL_DELTA | PHYSICAL_HOLDING | INTERNAL_CROSS.
#[export] Instance CostBasis_eq_dec : EqDecision CostBasis.
Proof. solve_decision. Defined.
Definition CostBasis_str (b : CostBasis) : string :=
  match b with
  | PHYSICAL_DELTA => "PHYSICAL_DELTA" | PHYSICAL_HOLDING => "PHYSICAL_HOLDING" | INTERNAL_CROSS => "INTERNAL_CROSS"
  end.

Inductive SessionState : Type := SS_ELIGIBLE | SS_CLOSED | SS_UNKNOWN.
#[export] Instance SessionState_eq_dec : EqDecision SessionState.
Proof. solve_decision. Defined.
Definition SessionState_str (s : SessionState) : string :=
  match s with SS_ELIGIBLE => "ELIGIBLE" | SS_CLOSED => "CLOSED" | SS_UNKNOWN => "UNKNOWN" end.

(** ** Validation helpers *)

Definition CONFIGURED_HORIZONS : list timedelta := [minutes 5; minutes 15; minutes 30; minutes 60].

Definition require_configured_horizon (value : timedelta) (name : string) : res timedelta :=
  raise_if (negb (existsb (Z.eqb value) CONFIGURED_HORIZONS))
    (ValueError (name +:+ " must be one of the configured 5m, 15m, 30m or 60m horizons"));;
  Ok value.

(** A letter that [str.upper] leaves unchanged, among the code points below 256. *)
Definition upper_letter (c : ascii) : bool :=
  in_range c 65 90 || in_range c 192 214 || in_range c 216 222 || in_range c 170 170 || in_range c 186 186.

Definition _require_currency (value field_name : string) : res unit :=
  raise_if (negb (len value =? 3) || negb (forallb upper_letter (chars value)))
    (ValueError (field_name +:+ " must be an ISO-like upper-case currency code")).

Definition _require_positive (value : Decimal) (field_name : string) : res unit :=
  raise_if (dec_leb value dec_zero) (ValueError (field_name +:+ " must be positive")).

Definition _require_nonnegative (value : Decimal) (field_name : string) : res unit :=
  raise_if (dec_ltb value dec_zero) (ValueError (field_name +:+ " must be non-negative")).

Definition _require_identity (value name : string) : res unit :=
  raise_if (negb (is_sha256 value)) (ValueError (name +:+ " must be a SHA-256 hex digest")).

(** Checks of an optional value, and the truth of an optional text. *)
Definition when_some {A} (x : option A) (check : A → res unit) : res unit :=
  match x with Some a => check a | None => Ok tt end.
Definition present {A} (x : option A) : bool := match x with Some _ => true | None => false end.
Definition text_given (x : option string) : bool := match x with Some s => nonempty s | None => false end.

Definition dec_one : Decimal := dec_of_Z 1.
Definition status_absent (s : InputStatus) : bool := bool_decide (s = IS_MISSING) || bool_decide (s = IS_UNSUPPORTED).

(** ** Identities *)

Definition opt_str (x : option string) : json := match x with Some s => JStr s | None => JNull end.
Definition dec_json (d : Decimal) : json := JStr (dec_str d).
Definition opt_dec (x : option Decimal) : json := match x with Some d => dec_json d | None => JNull end.
(** [value.total_seconds()] *)
Definition span_json (d : timedelta) : json := float_json (total_seconds d).

(** The [datetime] case of [_continuous_json]. *)
Definition time_json (value : datetime) : res json :=
  require_utc value "continuous identity datetime";; Ok (JStr (utc_text value)).

(** ** Charge schedules *)

Record CostSchedule : Type := mkSchedule {
  cs_status : InputStatus;
  cs_currency : option string;
  cs_per_quantity : option Decimal;
  cs_minimum : option Decimal;
  cs_basis : CostBasis;
  cs_version : string;
  cs_provenance : string;
  cs_reason : option string }.

Definition CostSchedule_post_init (s : CostSchedule) : res unit :=
  when_some (cs_currency s) (λ c, _require_currency c "cost schedule currency");;
  raise_if (negb (nonempty (cs_version s)) || negb (nonempty (cs_provenance s)))
    (ValueError "cost schedule version and provenance are required");;
  if status_absent (cs_status s) then
    raise_if (present (cs_per_quantity s) || present (cs_minimum s))
      (ValueError "missing or unsupported schedule cannot carry an amount");;
    raise_if (negb (text_given (cs_reason s))) (ValueError "missing or unsupported schedule requires a reason")
  else
    match cs_currency s, cs_per_quantity s, cs_minimum s with
    | Some _, Some per_quantity, Some minimum =>
        _require_nonnegative per_quantity "cost schedule per_quantity";;
        _require_nonnegative minimum "cost schedule minimum";;
        raise_if (bool_decide (cs_status s = IS_DOCUMENTED_ZERO)
                  && (negb (dec_eqb per_quantity dec_zero) || negb (dec_eqb minimum dec_zero)))
          (ValueError "documented-zero schedule must have zero amounts")
    | _, _, _ => Raise (ValueError "available schedule requires currency and amounts")
    end.

Definition CostSchedule_new (s : CostSchedule) : res CostSchedule := CostSchedule_post_init s;; Ok s.

Definition CostSchedule_available (currency : string) (per_quantity minimum : Decimal) (basis : CostBasis)
    (version provenance : string) : res CostSchedule :=
  CostSchedule_new (mkSchedule IS_AVAILABLE (Some currency) (Some per_quantity) (Some minimum) basis version provenance None).

Definition CostSchedule_documented_zero (currency : string) (basis : CostBasis) (version provenance : string)
    : res CostSchedule :=
  CostSchedule_new (mkSchedule IS_DOCUMENTED_ZERO (Some currency) (Some dec_zero) (Some dec_zero) basis version provenance None).

Definition CostSchedule_missing (basis : CostBasis) (version provenance reason : string) (currency : option string)
    : res CostSchedule :=
  CostSchedule_new (mkSchedule IS_MISSING currency None None basis version provenance (Some reason)).

Definition CostSchedule_unsupported (basis : CostBasis) (version provenance reason : string) (currency : option string)
    : res CostSchedule :=
  CostSchedule_new (mkSchedule IS_UNSUPPORTED currency None None basis version provenance (Some reason)).

Definition schedule_is_available (s : CostSchedule) : bool :=
  bool_decide (cs_status s = IS_AVAILABLE) || bool_decide (cs_status s = IS_DOCUMENTED_ZERO).

Definition amount_for (s : CostSchedule) (quantity : Decimal) : res (option Decimal) :=
  _require_nonnegative quantity "cost schedule quantity";;
  if negb (schedule_is_available s) then Ok None
  else if dec_eqb quantity dec_zero then Ok (Some dec_zero)
  else match cs_per_quantity s, cs_minimum s with
       | Some per_quantity, Some minimum => Ok (Some (dec_max minimum (dec_mul quantity per_quantity)))
       | _, _ => Raise (AssertionError "")
       end.

Definition _schedule_identity_payload (s : CostSchedule) : json :=
  JObj [("status", JStr (InputStatus_str (cs_status s))); ("currency", opt_str (cs_currency s));
        ("per_quantity", opt_dec (cs_per_quantity s)); ("minimum", opt_dec (cs_minimum s));
        ("basis", JStr (CostBasis_str (cs_basis s))); ("version", JStr (cs_version s));
        ("provenance", JStr (cs_provenance s)); ("reason", opt_str (cs_reason s))].

(** ** Conversion rates *)

Record FXRate : Type := mkFX {
  fx_base_currency : string;
  fx_quote_currency : string;
  fx_rate : option Decimal;
  fx_observed_at : datetime;
  fx_max_age : timedelta;
  fx_status : InputStatus;
  fx_source : string;
  fx_version : string;
  fx_healthy : bool;
  fx_reason : option string }.

Definition FXRate_post_init (x : FXRate) : res unit :=
  _require_currency (fx_base_currency x) "FX base currency";;
  _require_currency (fx_quote_currency x) "FX quote currency";;
  require_utc (fx_observed_at x) "FX observed_at";;
  raise_if (fx_max_age x <=? 0) (ValueError "FX max_age must be positive");;
  raise_if (negb (nonempty (fx_source x)) || negb (nonempty (fx_version x)))
    (ValueError "FX source and version are required");;
  if status_absent (fx_status x) then
    raise_if (present (fx_rate x) || negb (text_given (fx_reason x)))
      (ValueError "missing or unsupported FX requires a reason and no rate")
  else
    raise_if (match fx_rate x with None => true | Some rate => dec_leb rate dec_zero end)
      (ValueError "available FX rate must be finite and positive");;
    raise_if (String.eqb (fx_base_currency x) (fx_quote_currency x)
              && match fx_rate x with None => true | Some rate => negb (dec_eqb rate dec_one) end)
      (ValueError "identity FX rate must equal one").

Definition FXRate_new (x : FXRate) : res FXRate := FXRate_post_init x;; Ok x.

Definition FXRate_identity (currency : string) (observed_at : datetime) (max_age : timedelta) (source version : string)
    : res FXRate :=
  FXRate_new (mkFX currency currency (Some dec_one) observed_at max_age IS_AVAILABLE source version true None).

Definition FXRate_missing (base_currency quote_currency : string) (observed_at : datetime) (max_age : timedelta)
    (source version reason : string) : res FXRate :=
  FXRate_new (mkFX base_currency quote_currency None observed_at max_age IS_MISSING source version true (Some reason)).

Definition FXRate_unsupported (base_currency quote_currency : string) (observed_at : datetime) (max_age : timedelta)
    (source version reason : string) : res FXRate :=
  FXRate_new (mkFX base_currency quote_currency None observed_at max_age IS_UNSUPPORTED source version true (Some reason)).

Definition is_current (x : FXRate) (at_ : datetime) : res bool :=
  require_utc at_ "FX decision time";;
  Ok (bool_decide (fx_status x = IS_AVAILABLE) && fx_healthy x
      && dt_leb (fx_observed_at x) at_ && dt_leb at_ (dt_add (fx_observed_at x) (fx_max_age x))).

Definition covers (x : FXRate) (from_currency to_currency : string) (at_ : datetime) : res bool :=
  _require_currency from_currency "FX from currency";;
  _require_currency to_currency "FX to currency";;
  if String.eqb from_currency to_currency then Ok true
  else
    current ← is_current x at_;
    Ok (current
        && ((String.eqb (fx_base_currency x) from_currency && String.eqb (fx_quote_currency x) to_currency)
            || (String.eqb (fx_base_currency x) to_currency && String.eqb (fx_quote_currency x) from_currency))).

Definition factor_to (x : FXRate) (currency : string) (at_ : datetime) : res (option Decimal) :=
  _require_currency currency "FX conversion currency";;
  current ← is_current x at_;
  Ok match fx_rate x with
     | Some rate =>
         if negb current then None
         else if String.eqb currency (fx_base_currency x) then Some dec_one
         else if String.eqb currency (fx_quote_currency x) then Some rate
         else None
     | None => None
     end.

Definition convert (x : FXRate) (amount : Decimal) (from_currency to_currency : string) (at_ : datetime)
    : res (option Decimal) :=
  _require_currency from_currency "FX from currency";;
  _require_currency to_currency "FX to currency";;
  if String.eqb from_currency to_currency then Ok (Some amount)
  else
    current ← is_current x at_;
    match fx_rate x with
    | Some rate =>
        if negb current then Ok None
        else if String.eqb from_currency (fx_base_currency x) && String.eqb to_currency (fx_quote_currency x)
        then Ok (Some (dec_mul amount rate))
        else if String.eqb from_currency (fx_quote_currency x) && String.eqb to_currency (fx_base_currency x)
        then Some <$> dec_div amount rate
        else Ok None
    | None => Ok None
    end.

Definition _fx_identity_payload (fx : option FXRate) : res json :=
  match fx with
  | None => Ok JNull
  | Some x =>
      observed_at ← time_json (fx_observed_at x);
      Ok (JObj [("base_currency", JStr (fx_base_currency x)); ("quote_currency", JStr (fx_quote_currency x));
                ("rate", opt_dec (fx_rate x)); ("observed_at", observed_at); ("max_age", span_json (fx_max_age x));
                ("status", JStr (InputStatus_str (fx_status x))); ("source", JStr (fx_source x));
                ("version", JStr (fx_version x)); ("healthy", JBool (fx_healthy x)); ("reason", opt_str (fx_reason x))])
  end.

(** ** Products *)

Record Eligibility : Type := mkEligibility { el_eligible : bool; el_reasons : list string }.

Definition Eligibility_new (eligible : bool) (reasons : list string) : res Eligibility :=
  raise_if (eligible && negb (Nat.eqb (length reasons) 0)) (ValueError "eligible result cannot contain denial reasons");;
  raise_if (negb eligible && Nat.eqb (length reasons) 0) (ValueError "ineligible result requires a reason");;
  Ok (mkEligibility eligible reasons).

Record ProductEconomics : Type := mkProduct {
  pe_asset_id : string;
  pe_source_class : MarketDataSourceClass;
  pe_evidence_purpose : EvidencePurpose;
  pe_source_product_id : string;
  pe_price_currency : string;
  pe_settlement_currency : string;
  pe_reporting_currency : string;
  pe_contract_size : Decimal;
  pe_value_per_price_unit : Decimal;
  pe_minimum_quantity : Decimal;
  pe_quantity_increment : Decimal;
  pe_tick_size : Decimal;
  pe_tick_value : Decimal;
  pe_commission : CostSchedule;
  pe_financing : CostSchedule;
  pe_impact_disposition : ImpactDisposition;
  pe_session_state : SessionState;
  pe_session_version : string;
  pe_effective_from : datetime;
  pe_observed_at : datetime;
  pe_economics_max_age : timedelta;
  pe_version : string;
  pe_provenance : string;
  pe_fx_price_to_settlement : option FXRate;
  pe_fx_settlement_to_reporting : option FXRate;
  pe_impact_version : option string;
  pe_impact_max_quantity : option Decimal;
  pe_impact_reason : option string }.

(** [value % 1 != 0]; an integer part beyond the precision is an invalid operation. *)
Definition fractional (value : Decimal) : res bool :=
  if 10 ^ prec <=? Z.abs (dec_trunc value) then Raise (ArithmeticError "[<class 'decimal.DivisionImpossible'>]")
  else Ok (if 0 <=? dec_exp value then false else negb (dec_coeff value mod 10 ^ (- dec_exp value) =? 0)).

Definition check_conversion (label : string) (c : string * string * option FXRate) : res unit :=
  match c with
  | (_, _, None) => Ok tt
  | (source, target, Some fx) =>
      if String.eqb source target then
        raise_if (negb (String.eqb (fx_base_currency fx) source) || negb (String.eqb (fx_quote_currency fx) target)
                  || match fx_rate fx with Some rate => negb (dec_eqb rate dec_one) | None => true end)
          (ValueError (label +:+ " must be an identity conversion"))
      else
        raise_if (negb ((String.eqb (fx_base_currency fx) source && String.eqb (fx_quote_currency fx) target)
                        || (String.eqb (fx_base_currency fx) target && String.eqb (fx_quote_currency fx) source)))
          (ValueError (label +:+ " does not cover the required currency pair"))
  end.

Definition ProductEconomics_post_init (e : ProductEconomics) : res unit :=
  _require_currency (pe_price_currency e) "price currency";;
  _require_currency (pe_settlement_currency e) "settlement currency";;
  _require_currency (pe_reporting_currency e) "reporting currency";;
  _require_positive (pe_contract_size e) "contract size";;
  _require_positive (pe_value_per_price_unit e) "value per price unit";;
  _require_positive (pe_minimum_quantity e) "minimum quantity";;
  _require_positive (pe_quantity_increment e) "quantity increment";;
  _require_positive (pe_tick_size e) "tick size";;
  _require_positive (pe_tick_value e) "tick value";;
  raise_if (negb (nonempty (pe_asset_id e)) || negb (nonempty (pe_source_product_id e)))
    (ValueError "asset and source product identity are required");;
  raise_if (negb (nonempty (pe_session_version e)) || negb (nonempty (pe_version e)) || negb (nonempty (pe_provenance e)))
    (ValueError "economics version, session version and provenance are required");;
  require_utc (pe_effective_from e) "economics effective_from";;
  require_utc (pe_observed_at e) "economics observed_at";;
  raise_if (dt_ltb (pe_observed_at e) (pe_effective_from e))
    (ValueError "economics observation cannot precede effective_from");;
  raise_if (pe_economics_max_age e <=? 0) (ValueError "economics max age must be positive");;
  raise_if (negb (bool_decide (cs_basis (pe_commission e) = PHYSICAL_DELTA)))
    (ValueError "commission must bind the physical delta");;
  raise_if (negb (bool_decide (cs_basis (pe_financing e) = PHYSICAL_HOLDING)))
    (ValueError "financing must bind the physical holding");;
  ratio ← dec_div (pe_minimum_quantity e) (pe_quantity_increment e);
  uneven ← fractional ratio;
  raise_if uneven (ValueError "minimum quantity must be a quantity-increment multiple");;
  raise_if (bool_decide (pe_impact_disposition e = SUPPORTED_MODEL) && negb (text_given (pe_impact_version e)))
    (ValueError "supported impact requires a model version");;
  (if bool_decide (pe_impact_disposition e = CAPPED_NO_IMPACT_RANGE) then
     raise_if (match pe_impact_max_quantity e with None => true | Some q => dec_leb q dec_zero end)
       (ValueError "capped impact requires a positive maximum quantity");;
     raise_if (negb (text_given (pe_impact_version e))) (ValueError "capped impact requires a version")
   else Ok tt);;
  raise_if (bool_decide (pe_impact_disposition e = UNSUPPORTED_BLOCKING) && negb (text_given (pe_impact_reason e)))
    (ValueError "unsupported impact requires a reason");;
  when_some (pe_impact_max_quantity e) (λ q, _require_positive q "impact maximum quantity");;
  check_conversion "price FX" (pe_price_currency e, pe_settlement_currency e, pe_fx_price_to_settlement e);;
  check_conversion "settlement FX" (pe_settlement_currency e, pe_reporting_currency e, pe_fx_settlement_to_reporting e).

Definition ProductEconomics_new (e : ProductEconomics) : res ProductEconomics := ProductEconomics_post_init e;; Ok e.

Definition ECONOMICS_CONTRACT : string := "qtrad-r3-economics-v1".

Definition economics_semantic_identity (e : ProductEconomics) : res string :=
  effective_from ← time_json (pe_effective_from e);
  observed_at ← time_json (pe_observed_at e);
  price ← _fx_identity_payload (pe_fx_price_to_settlement e);
  settlement ← _fx_identity_payload (pe_fx_settlement_to_reporting e);
  Ok (sha256_json (JObj
    [("contract", JStr ECONOMICS_CONTRACT); ("asset_id", JStr (pe_asset_id e));
     ("source_class", JStr (MarketDataSourceClass_str (pe_source_class e)));
     ("evidence_purpose", JStr (EvidencePurpose_str (pe_evidence_purpose e)));
     ("source_product_id", JStr (pe_source_product_id e)); ("price_currency", JStr (pe_price_currency e));
     ("settlement_currency", JStr (pe_settlement_currency e)); ("reporting_currency", JStr (pe_reporting_currency e));
     ("contract_size", dec_json (pe_contract_size e)); ("value_per_price_unit", dec_json (pe_value_per_price_unit e));
     ("minimum_quantity", dec_json (pe_minimum_quantity e)); ("quantity_increment", dec_json (pe_quantity_increment e));
     ("tick_size", dec_json (pe_tick_size e)); ("tick_value", dec_json (pe_tick_value e));
     ("commission", _schedule_identity_payload (pe_commission e)); ("financing", _schedule_identity_payload (pe_financing e));
     ("impact_disposition", JStr (ImpactDisposition_str (pe_impact_disposition e)));
     ("impact_version", opt_str (pe_impact_version e)); ("impact_max_quantity", opt_dec (pe_impact_max_quantity e));
     ("impact_reason", opt_str (pe_impact_reason e)); ("session_state", JStr (SessionState_str (pe_session_state e)));
     ("session_version", JStr (pe_session_version e)); ("effective_from", effective_from); ("observed_at", observed_at);
     ("economics_max_age", span_json (pe_economics_max_age e)); ("version", JStr (pe_version e));
     ("provenance", JStr (pe_provenance e)); ("fx_price_to_settlement", price);
     ("fx_settlement_to_reporting", settlement)])).

(** The denial a conversion adds, if any. *)
Definition conversion_reason (decision_time : datetime) (label : string) (c : string * string * option FXRate)
    : res (list string) :=
  let '(source, target, fx) := c in
  if String.eqb source target then Ok []
  else match fx with
       | None => Ok [label +:+ "_MISSING"]
       | Some x =>
           covered ← covers x source target decision_time;
           Ok (if covered : bool then [] else [label +:+ "_UNAVAILABLE_OR_STALE"])
       end.

Definition when (b : bool) (reason : string) : list string := if b then [reason] else [].

Definition eligibility (e : ProductEconomics) (decision_time : datetime) (proposed_quantity : option Decimal)
    : res Eligibility :=
  require_utc decision_time "economics decision_time";;
  when_some proposed_quantity (λ q, _require_nonnegative q "proposed quantity");;
  price ← conversion_reason decision_time "PRICE_FX"
            (pe_price_currency e, pe_settlement_currency e, pe_fx_price_to_settlement e);
  settlement ← conversion_reason decision_time "SETTLEMENT_FX"
            (pe_settlement_currency e, pe_reporting_currency e, pe_fx_settlement_to_reporting e);
  let reasons :=
    when (dt_ltb decision_time (pe_effective_from e)) "ECONOMICS_NOT_EFFECTIVE"
    ++ (if dt_ltb decision_time (pe_observed_at e) then ["ECONOMICS_OBSERVED_IN_FUTURE"]
        else when (dt_ltb (dt_add (pe_observed_at e) (pe_economics_max_age e)) decision_time) "ECONOMICS_OBSERVATION_STALE")
    ++ when (negb (bool_decide (pe_session_state e = SS_ELIGIBLE))) "SESSION_NOT_ELIGIBLE"
    ++ when (negb (schedule_is_available (pe_commission e))) ("COMMISSION_" +:+ InputStatus_str (cs_status (pe_commission e)))
    ++ when (negb (schedule_is_available (pe_financing e))) ("FINANCING_" +:+ InputStatus_str (cs_status (pe_financing e)))
    ++ price ++ settlement
    ++ match pe_impact_disposition e with
       | UNSUPPORTED_BLOCKING => ["IMPACT_UNSUPPORTED"]
       | CAPPED_NO_IMPACT_RANGE =>
           match proposed_quantity, pe_impact_max_quantity e with
           | None, _ => ["IMPACT_QUANTITY_REQUIRED"]
           | Some q, Some cap => when (dec_ltb cap q) "IMPACT_QUANTITY_EXCEEDS_CAP"
           | Some _, None => []
           end
       | SUPPORTED_MODEL => []
       end in
  Eligibility_new (Nat.eqb (length reasons) 0) reasons.

Definition round_quantity (e : ProductEconomics) (quantity : Decimal) : res Decimal :=
  if dec_eqb quantity dec_zero then Ok dec_zero
  else
    let magnitude := dec_abs quantity in
    ratio ← dec_div magnitude (pe_quantity_increment e);
    let increments := dec_floor ratio in
    let rounded := dec_mul (pe_quantity_increment e) (dec_of_Z increments) in
    if dec_ltb rounded (pe_minimum_quantity e) then Ok dec_zero
    else Ok (if dec_ltb dec_zero quantity then rounded else dec_opp rounded).

(** ** Expected costs *)

Record ComponentCost : Type := mkComponentCost {
  cc_component : CostComponentKind;
  cc_status : InputStatus;
  cc_basis : CostBasis;
  cc_native_amount : option Decimal;
  cc_native_currency : option string;
  cc_reporting_amount : option Decimal;
  cc_reporting_currency : string;
  cc_quantity_basis : option Decimal;
  cc_holding_interval : option timedelta;
  cc_version : string;
  cc_provenance : string;
  cc_reason : option string;
  cc_conversion_rate : option Decimal;
  cc_conversion_source : option string;
  cc_conversion_version : option string }.

Definition absent_component (c : ComponentCost) : res unit :=
  raise_if (present (cc_native_amount c) || present (cc_native_currency c))
    (ValueError "missing or unsupported component cannot carry native money");;
  raise_if (present (cc_reporting_amount c)) (ValueError "missing or unsupported component cannot carry an amount");;
  raise_if (present (cc_conversion_rate c) || text_given (cc_conversion_source c) || text_given (cc_conversion_version c))
    (ValueError "missing or unsupported component cannot carry conversion evidence");;
  raise_if (negb (text_given (cc_reason c))) (ValueError "missing or unsupported component requires a reason").

Definition available_component (c : ComponentCost) : res unit :=
  let unbound := ValueError "available component requires conversion-bound native and reporting amounts" in
  match cc_native_amount c, cc_native_currency c, cc_reporting_amount c, cc_conversion_rate c with
  | Some native, Some currency, Some reporting, Some rate =>
      raise_if (negb (text_given (cc_conversion_source c)) || negb (text_given (cc_conversion_version c))) unbound;;
      _require_positive rate "component conversion rate";;
      raise_if (String.eqb currency (cc_reporting_currency c) && negb (dec_eqb rate dec_one))
        (ValueError "identity component conversion rate must equal one");;
      raise_if (negb (dec_eqb (dec_mul native rate) reporting))
        (ValueError "component conversion evidence does not reconcile amounts");;
      raise_if (bool_decide (cc_status c = IS_DOCUMENTED_ZERO)
                && (negb (dec_eqb native dec_zero) || negb (dec_eqb reporting dec_zero)))
        (ValueError "documented-zero component must have zero amounts")
  | _, _, _, _ => Raise unbound
  end.

(** [value not in {None, Decimal("0")}] *)
Definition charged (value : option Decimal) : bool :=
  match value with Some v => negb (dec_eqb v dec_zero) | None => false end.

Definition component_basis (c : ComponentCost) : res unit :=
  match cc_basis c with
  | PHYSICAL_DELTA =>
      raise_if (match cc_quantity_basis c with None => true | Some q => dec_ltb q dec_zero end)
        (ValueError "physical-delta component requires non-negative quantity basis");;
      raise_if (present (cc_holding_interval c)) (ValueError "physical-delta component cannot carry a holding interval")
  | PHYSICAL_HOLDING =>
      raise_if (match cc_holding_interval c with None => true | Some d => d <? 0 end)
        (ValueError "physical-holding component requires an interval");;
      raise_if (present (cc_quantity_basis c)) (ValueError "physical-holding component cannot carry quantity basis")
  | INTERNAL_CROSS =>
      raise_if (charged (cc_native_amount c) || charged (cc_reporting_amount c))
        (ValueError "internal-cross component must be zero cost")
  end.

Definition ComponentCost_post_init (c : ComponentCost) : res unit :=
  raise_if (negb (nonempty (cc_reporting_currency c)) || negb (nonempty (cc_version c)) || negb (nonempty (cc_provenance c)))
    (ValueError "component cost reporting currency, version and provenance are required");;
  _require_currency (cc_reporting_currency c) "component reporting currency";;
  when_some (cc_native_currency c) (λ v : string, _require_currency v "component native currency");;
  when_some (cc_native_amount c) (λ v, _require_nonnegative v "component native amount");;
  when_some (cc_reporting_amount c) (λ v, _require_nonnegative v "component reporting amount");;
  when_some (cc_quantity_basis c) (λ v, _require_nonnegative v "component quantity basis");;
  (if status_absent (cc_status c) then absent_component c else available_component c);;
  component_basis c.

Definition ComponentCost_new (c : ComponentCost) : res ComponentCost := ComponentCost_post_init c;; Ok c.

Definition ComponentCost_supported (component : CostComponentKind) (basis : CostBasis) (native_amount : Decimal)
    (native_currency : string) (reporting_amount : Decimal) (reporting_currency version provenance : string)
    (conversion_rate : Decimal) (conversion_source conversion_version : string)
    (quantity_basis : option Decimal) (holding_interval : option timedelta) : res ComponentCost :=
  ComponentCost_new (mkComponentCost component IS_AVAILABLE basis (Some native_amount) (Some native_currency)
    (Some reporting_amount) reporting_currency quantity_basis holding_interval version provenance None
    (Some conversion_rate) (Some conversion_source) (Some conversion_version)).

Definition ComponentCost_documented_zero (component : CostComponentKind) (basis : CostBasis)
    (currency reporting_currency version provenance : string)
    (conversion_rate : Decimal) (conversion_source conversion_version : string)
    (quantity_basis : option Decimal) (holding_interval : option timedelta) : res ComponentCost :=
  ComponentCost_new (mkComponentCost component IS_DOCUMENTED_ZERO basis (Some dec_zero) (Some currency)
    (Some dec_zero) reporting_currency quantity_basis holding_interval version provenance None
    (Some conversion_rate) (Some conversion_source) (Some conversion_version)).

Definition ComponentCost_missing (component : CostComponentKind) (basis : CostBasis)
    (reporting_currency version provenance reason : string)
    (quantity_basis : option Decimal) (holding_interval : option timedelta) : res ComponentCost :=
  ComponentCost_new (mkComponentCost component IS_MISSING basis None None None reporting_currency quantity_basis
    holding_interval version provenance (Some reason) None None None).

Definition ComponentCost_unsupported (component : CostComponentKind) (basis : CostBasis)
    (reporting_currency version provenance reason : string)
    (quantity_basis : option Decimal) (holding_interval : option timedelta) : res ComponentCost :=
  ComponentCost_new (mkComponentCost component IS_UNSUPPORTED basis None None None reporting_currency quantity_basis
    holding_interval version provenance (Some reason) None None None).

Definition _COMPONENT_ORDER : list CostComponentKind :=
  [SPREAD; LATENCY_MOVEMENT; ADVERSE_SLIPPAGE; COMMISSION; FINANCING; IMPACT].

Record ExpectedCostState : Type := mkCostState {
  es_decision_time : datetime;
  es_current_quantity : Decimal;
  es_target_quantity : Decimal;
  es_holding_interval : timedelta;
  es_reporting_currency : string;
  es_components : list ComponentCost;
  es_version : string;
  es_provenance : string;
  es_internal_cross_quantity : Decimal }.

Definition check_component (s : ExpectedCostState) (delta : Decimal) (c : ComponentCost) : res unit :=
  raise_if (negb (String.eqb (cc_reporting_currency c) (es_reporting_currency s)))
    (ValueError "all expected cost components must use reporting currency");;
  if bool_decide (cc_component c = FINANCING) then
    raise_if (negb (bool_decide (cc_basis c = PHYSICAL_HOLDING)))
      (ValueError "financing must be charged on physical holding");;
    raise_if (negb (bool_decide (cc_holding_interval c = Some (es_holding_interval s))))
      (ValueError "financing must bind the physical holding interval")
  else
    raise_if (negb (bool_decide (cc_basis c = PHYSICAL_DELTA)))
      (ValueError "non-financing cost must bind the physical delta");;
    match cc_quantity_basis c with
    | None => Raise (AssertionError "")
    | Some q => raise_if (negb (dec_eqb q delta)) (ValueError "transaction cost must bind the final physical delta")
    end.

Definition ExpectedCostState_post_init (s : ExpectedCostState) : res unit :=
  require_utc (es_decision_time s) "expected cost decision_time";;
  raise_if (es_holding_interval s <? 0) (ValueError "expected cost holding interval cannot be negative");;
  _require_currency (es_reporting_currency s) "expected cost reporting currency";;
  raise_if (negb (nonempty (es_version s)) || negb (nonempty (es_provenance s)))
    (ValueError "expected cost version and provenance are required");;
  _require_nonnegative (es_internal_cross_quantity s) "internal cross quantity";;
  let delta := dec_abs (dec_sub (es_target_quantity s) (es_current_quantity s)) in
  raise_if (negb (bool_decide (map cc_component (es_components s) = _COMPONENT_ORDER)))
    (ValueError "expected cost components must use canonical component order");;
  for_each (λ _, check_component s delta) tt (es_components s).

Definition ExpectedCostState_new (s : ExpectedCostState) : res ExpectedCostState := ExpectedCostState_post_init s;; Ok s.

Definition es_physical_delta (s : ExpectedCostState) : Decimal := dec_sub (es_target_quantity s) (es_current_quantity s).

Definition complete (s : ExpectedCostState) : bool :=
  forallb (λ c, bool_decide (cc_status c = IS_AVAILABLE) || bool_decide (cc_status c = IS_DOCUMENTED_ZERO)) (es_components s).

(** [component.reporting_amount or Decimal("0")] *)
Definition amount_or_zero (x : option Decimal) : Decimal :=
  match x with Some a => if dec_eqb a dec_zero then dec_zero else a | None => dec_zero end.

Definition expected_total_reporting (s : ExpectedCostState) : option Decimal :=
  if negb (complete s) then None else Some (dec_sum (map (λ c, amount_or_zero (cc_reporting_amount c)) (es_components s))).

Definition require_total_reporting (s : ExpectedCostState) : res Decimal :=
  match expected_total_reporting s with
  | None => Raise (ValueError "expected cost is incomplete; refusing a silent zero")
  | Some total => Ok total
  end.

(** ** Forecasts and expected net returns *)

Definition COST_ADJUSTED_RETURN_UNIT : string := "REPORTING_RETURN".

Record GrossForecast : Type := mkGross {
  gf_expected_return : Decimal;
  gf_horizon : timedelta;
  gf_return_unit : string;
  gf_model_identity : string }.

Definition GrossForecast_post_init (f : GrossForecast) : res unit :=
  raise_if (gf_horizon f <=? 0) (ValueError "gross forecast horizon must be positive");;
  raise_if (negb (nonempty (gf_return_unit f)) || negb (nonempty (gf_model_identity f)))
    (ValueError "gross forecast unit and model identity are required").

Record ExpectedNet : Type := mkNet {
  en_gross_forecast : GrossForecast;
  en_gross_contribution : Decimal;
  en_physical_notional : Decimal;
  en_physical_notional_currency : string;
  en_expected_cost : ExpectedCostState;
  en_expected_net_contribution : Decimal;
  en_expected_net_return : Decimal }.

Definition ExpectedNet_post_init (n : ExpectedNet) : res unit :=
  _require_positive (en_physical_notional n) "physical notional";;
  _require_currency (en_physical_notional_currency n) "physical notional currency";;
  raise_if (negb (String.eqb (gf_return_unit (en_gross_forecast n)) COST_ADJUSTED_RETURN_UNIT))
    (ValueError "gross forecast return unit must be reporting-return compatible");;
  raise_if (negb (String.eqb (es_reporting_currency (en_expected_cost n)) (en_physical_notional_currency n)))
    (ValueError "physical notional and expected cost currencies must match");;
  match expected_total_reporting (en_expected_cost n) with
  | None => Raise (ValueError "cannot derive expected net from incomplete costs")
  | Some expected_cost =>
      raise_if (negb (dec_eqb (en_expected_net_contribution n) (dec_sub (en_gross_contribution n) expected_cost)))
        (ValueError "expected net contribution must reconcile from gross and costs");;
      rate ← dec_div expected_cost (en_physical_notional n);
      raise_if (negb (dec_eqb (en_expected_net_return n) (dec_sub (gf_expected_return (en_gross_forecast n)) rate)))
        (ValueError "expected net return must be recomputed from gross and costs")
  end.

(** [ExpectedNet.derive], and [derive_expected_net] *)
Definition derive_expected_net (gross_forecast : GrossForecast) (gross_contribution physical_notional : Decimal)
    (physical_notional_currency : string) (expected_cost : ExpectedCostState) : res ExpectedNet :=
  total ← require_total_reporting expected_cost;
  rate ← dec_div total physical_notional;
  let n := mkNet gross_forecast gross_contribution physical_notional physical_notional_currency expected_cost
             (dec_sub gross_contribution total) (dec_sub (gf_expected_return gross_forecast) rate) in
  ExpectedNet_post_init n;; Ok n.

(** ** Solver policy *)

Record SolverPolicy : Type := mkSolver {
  so_policy_version : string;
  so_python_version : string;
  so_library : string;
  so_library_version : string;
  so_backend : string;
  so_backend_version : string;
  so_licence : string;
  so_objective_scaling : Decimal;
  so_absolute_tolerance : Decimal;
  so_relative_tolerance : Decimal;
  so_max_iterations : Z;
  so_variable_order : list string;
  so_accepted_statuses : list string;
  so_warm_start : bool }.

Definition SolverPolicy_post_init (p : SolverPolicy) : res unit :=
  raise_if (negb (forallb nonempty (so_variable_order p ++ so_accepted_statuses p)))
    (ValueError "solver policy sequence elements must be non-empty strings");;
  raise_if (negb (forallb nonempty [so_policy_version p; so_python_version p; so_library p; so_library_version p;
                                    so_backend p; so_backend_version p; so_licence p]))
    (ValueError "solver policy identity and version fields are required");;
  raise_if (negb (String.eqb (so_python_version p) "3.13")) (ValueError "R3 solver policy must target Python 3.13");;
  raise_if (negb (String.eqb (lower (so_library p)) "cvxpy"))
    (ValueError "R3.A freezes CVXPY as the candidate convex modelling library");;
  raise_if (dec_leb (so_objective_scaling p) dec_zero) (ValueError "solver objective scaling must be positive");;
  raise_if (dec_leb (so_absolute_tolerance p) dec_zero || dec_leb (so_relative_tolerance p) dec_zero)
    (ValueError "solver tolerances must be positive");;
  raise_if ((so_max_iterations p <=? 0) || bool_decide (so_variable_order p = []) || bool_decide (so_accepted_statuses p = []))
    (ValueError "solver policy requires bounds, variable order and statuses");;
  raise_if (negb (bool_decide (head (so_variable_order p) = Some "physical_target")))
    (ValueError "solver variable order must begin with physical_target");;
  raise_if (negb (bool_decide (so_accepted_statuses p = ["optimal"])))
    (ValueError "solver policy accepts only the optimal status");;
  raise_if (so_warm_start p) (ValueError "R3 deterministic policy requires warm-start disabled").

Definition solver_semantic_identity (p : SolverPolicy) : string :=
  sha256_json (JObj
    [("contract", JStr "qtrad-r3-solver-policy-v1"); ("policy_version", JStr (so_policy_version p));
     ("python_version", JStr (so_python_version p)); ("library", JStr (so_library p));
     ("library_version", JStr (so_library_version p)); ("backend", JStr (so_backend p));
     ("backend_version", JStr (so_backend_version p)); ("licence", JStr (so_licence p));
     ("objective_scaling", dec_json (so_objective_scaling p)); ("absolute_tolerance", dec_json (so_absolute_tolerance p));
     ("relative_tolerance", dec_json (so_relative_tolerance p)); ("max_iterations", JInt (so_max_iterations p));
     ("variable_order", JList (map JStr (so_variable_order p)));
     ("accepted_statuses", JList (map JStr (so_accepted_statuses p))); ("warm_start", JBool (so_warm_start p))]).

Definition DEFAULT_SOLVER_POLICY : SolverPolicy :=
  mkSolver "r3-convex-15m-v1" "3.13" "cvxpy" "1.7.3" "CLARABEL" "0.11.1" "Apache-2.0" dec_one
    (dec_lit 1 (-8)) (dec_lit 1 (-8)) 1000 ["physical_target"] ["optimal"] false.

(** ** Continuous costs *)

Record ContinuousCostComponent : Type := mkCurve {
  cu_component : CostComponentKind;
  cu_basis : CostBasis;
  cu_native_currency : string;
  cu_reporting_currency : string;
  cu_conversion_rate : Decimal;
  cu_conversion_source : string;
  cu_conversion_version : string;
  cu_slopes : list Decimal;
  cu_breakpoints : list Decimal;
  cu_form : string;
  cu_version : string;
  cu_provenance : string;
  cu_status : InputStatus;
  cu_reason : option string }.

Definition check_breakpoint (previous breakpoint : Decimal) : res Decimal :=
  raise_if (dec_leb breakpoint previous) (ValueError "continuous breakpoints must increase");; Ok breakpoint.

Definition check_slope (previous_slope slope : Decimal) : res Decimal :=
  raise_if (dec_ltb slope dec_zero || dec_ltb slope previous_slope)
    (ValueError "continuous slopes must be non-negative and convex");; Ok slope.

Definition ContinuousCostComponent_post_init (c : ContinuousCostComponent) : res unit :=
  raise_if (bool_decide (cu_basis c = INTERNAL_CROSS))
    (ValueError "continuous costs support only physical delta or holding basis");;
  _require_currency (cu_native_currency c) "continuous native currency";;
  _require_currency (cu_reporting_currency c) "continuous reporting currency";;
  raise_if (negb (nonempty (cu_conversion_source c)) || negb (nonempty (cu_conversion_version c)))
    (ValueError "continuous conversion source and version are required");;
  raise_if (negb (nonempty (cu_version c)) || negb (nonempty (cu_provenance c)))
    (ValueError "continuous cost version and provenance are required");;
  raise_if (dec_leb (cu_conversion_rate c) dec_zero) (ValueError "continuous conversion rate must be positive");;
  raise_if (bool_decide (cu_slopes c = [])) (ValueError "continuous cost slopes are required");;
  raise_if (negb (String.eqb (cu_form c) "LINEAR" || String.eqb (cu_form c) "PIECEWISE_LINEAR"))
    (ValueError ("unsupported continuous cost form: " +:+ cu_form c));;
  raise_if (String.eqb (cu_form c) "LINEAR"
            && (negb (bool_decide (cu_breakpoints c = [])) || negb (Nat.eqb (length (cu_slopes c)) 1)))
    (ValueError "linear cost form requires one slope and no breakpoints");;
  raise_if (negb (Nat.eqb (length (cu_slopes c)) (length (cu_breakpoints c) + 1)))
    (ValueError "piecewise slopes must have one terminal slope");;
  for_each check_breakpoint dec_zero (cu_breakpoints c);;
  for_each check_slope dec_zero (cu_slopes c);;
  raise_if (status_absent (cu_status c) && negb (text_given (cu_reason c)))
    (ValueError "missing or unsupported continuous cost requires a reason");;
  raise_if (bool_decide (cu_status c = IS_DOCUMENTED_ZERO) && existsb (λ s, negb (dec_eqb s dec_zero)) (cu_slopes c))
    (ValueError "documented-zero continuous cost must have zero slopes").

Definition curve_semantic_identity (c : ContinuousCostComponent) : string :=
  sha256_json (JObj
    [("component", JStr (CostComponentKind_str (cu_component c))); ("basis", JStr (CostBasis_str (cu_basis c)));
     ("native_currency", JStr (cu_native_currency c)); ("reporting_currency", JStr (cu_reporting_currency c));
     ("conversion_rate", dec_json (cu_conversion_rate c)); ("conversion_source", JStr (cu_conversion_source c));
     ("conversion_version", JStr (cu_conversion_version c)); ("slopes", JList (map dec_json (cu_slopes c)));
     ("breakpoints", JList (map dec_json (cu_breakpoints c))); ("form", JStr (cu_form c));
     ("version", JStr (cu_version c)); ("provenance", JStr (cu_provenance c));
     ("status", JStr (InputStatus_str (cu_status c))); ("reason", opt_str (cu_reason c))]).

(** The loop over [zip(breakpoints, slopes[:-1], strict=True)] and the terminal slope.
    Lists that do not fit raise where the zip or the index does. *)
Fixpoint cost_along (remaining lower total : Decimal) (breakpoints slopes : list Decimal) : res Decimal :=
  match breakpoints, slopes with
  | [], [slope] => Ok (dec_add total (dec_mul (dec_max (dec_sub remaining lower) dec_zero) slope))
  | upper :: breakpoints, slope :: ((_ :: _) as slopes) =>
      let width := dec_min (dec_max (dec_sub remaining lower) dec_zero) (dec_sub upper lower) in
      cost_along remaining upper (dec_add total (dec_mul width slope)) breakpoints slopes
  | [], [] => Raise (IndexError "tuple index out of range")
  | [], _ => Raise (ValueError "zip() argument 2 is longer than argument 1")
  | _, _ => Raise (ValueError "zip() argument 2 is shorter than argument 1")
  end.

Definition curve_evaluate (c : ContinuousCostComponent) (quantity : Decimal) : res Decimal :=
  raise_if (dec_ltb quantity dec_zero) (ValueError "continuous cost quantity must be non-negative");;
  cost_along quantity dec_zero dec_zero (cu_breakpoints c) (cu_slopes c).

Record ContinuousCostModel : Type := mkCostModel {
  cm_asset_id : string;
  cm_horizon : timedelta;
  cm_reporting_currency : string;
  cm_components : list ContinuousCostComponent;
  cm_economics_identity : string;
  cm_commission_version : string;
  cm_commission_provenance : string;
  cm_financing_version : string;
  cm_financing_provenance : string;
  cm_impact_version : string;
  cm_impact_disposition : ImpactDisposition;
  cm_impact_status : InputStatus;
  cm_version : string;
  cm_provenance : string }.

Definition component (m : ContinuousCostModel) (kind : CostComponentKind) : res ContinuousCostComponent :=
  match List.find (λ c, bool_decide (cu_component c = kind)) (cm_components m) with
  | Some c => Ok c
  | None => Raise (ValueError ("continuous cost component missing: " +:+ CostComponentKind_str kind))
  end.

Definition check_curve (m : ContinuousCostModel) (c : ContinuousCostComponent) : res unit :=
  raise_if (negb (String.eqb (cu_reporting_currency c) (cm_reporting_currency m)))
    (ValueError "continuous component reporting currency mismatch");;
  raise_if (negb (bool_decide (cu_basis c = if bool_decide (cu_component c = FINANCING) then PHYSICAL_HOLDING else PHYSICAL_DELTA)))
    (ValueError "continuous component basis does not match canonical semantics").

Definition ContinuousCostModel_post_init (m : ContinuousCostModel) : res unit :=
  raise_if (negb (nonempty (cm_asset_id m)) || (cm_horizon m <=? 0))
    (ValueError "continuous cost asset and horizon are required");;
  _require_currency (cm_reporting_currency m) "continuous cost reporting currency";;
  raise_if (negb (nonempty (cm_version m)) || negb (nonempty (cm_provenance m)))
    (ValueError "continuous cost model version and provenance are required");;
  _require_identity (cm_economics_identity m) "continuous cost economics identity";;
  raise_if (negb (forallb nonempty [cm_commission_version m; cm_commission_provenance m; cm_financing_version m;
                                    cm_financing_provenance m; cm_impact_version m]))
    (ValueError "continuous cost schedule and impact authority fields are required");;
  raise_if (negb (bool_decide (cm_impact_disposition m = SUPPORTED_MODEL)))
    (ValueError "continuous costs require a supported impact model");;
  raise_if (status_absent (cm_impact_status m)) (ValueError "continuous costs require supported impact status");;
  require_configured_horizon (cm_horizon m) "continuous cost horizon";;
  raise_if (negb (bool_decide (map cu_component (cm_components m) = _COMPONENT_ORDER)))
    (ValueError "continuous costs must contain all six components canonically");;
  raise_if (has_duplicates (map cu_component (cm_components m)))
    (ValueError "continuous cost components must be unique");;
  for_each (λ _, check_curve m) tt (cm_components m);;
  impact ← component m IMPACT;
  raise_if (negb (bool_decide (cu_status impact = cm_impact_status m)) || negb (String.eqb (cu_version impact) (cm_impact_version m)))
    (ValueError "continuous impact component authority mismatch");;
  commission ← component m COMMISSION;
  raise_if (negb (String.eqb (cu_version commission) (cm_commission_version m))
            || negb (String.eqb (cu_provenance commission) (cm_commission_provenance m)))
    (ValueError "continuous commission component authority mismatch");;
  financing ← component m FINANCING;
  raise_if (negb (String.eqb (cu_version financing) (cm_financing_version m))
            || negb (String.eqb (cu_provenance financing) (cm_financing_provenance m)))
    (ValueError "continuous financing component authority mismatch").

Definition model_semantic_identity (m : ContinuousCostModel) : string :=
  sha256_json (JObj
    [("asset_id", JStr (cm_asset_id m)); ("horizon", span_json (cm_horizon m));
     ("reporting_currency", JStr (cm_reporting_currency m));
     ("components", JList (map (λ c, JStr (curve_semantic_identity c)) (cm_components m)));
     ("economics_identity", JStr (cm_economics_identity m)); ("commission_version", JStr (cm_commission_version m));
     ("commission_provenance", JStr (cm_commission_provenance m)); ("financing_version", JStr (cm_financing_version m));
     ("financing_provenance", JStr (cm_financing_provenance m)); ("impact_version", JStr (cm_impact_version m));
     ("impact_disposition", JStr (ImpactDisposition_str (cm_impact_disposition m)));
     ("impact_status", JStr (InputStatus_str (cm_impact_status m))); ("version", JStr (cm_version m));
     ("provenance", JStr (cm_provenance m))]).

(** [Decimal(x)] of a float: its exact value; infinities and NaNs do not occur. *)
Definition Decimal_of_float (x : pyfloat) : Decimal :=
  match float_fraction x with
  | Some (n, d) =>
      let g := Z.gcd n d in
      let k := Z.log2 (d / g) in
      Dec (n <? 0) (Z.abs (n / g) * 5 ^ k) (- k)
  | None => dec_zero
  end.

(** One iteration of the loop of [ContinuousCostModel.evaluate]. *)
Definition component_cost (m : ContinuousCostModel) (delta held : Decimal) (interval : timedelta)
    (holding_interval : option timedelta) (kind : CostComponentKind) : res ComponentCost :=
  model ← component m kind;
  let on_delta := bool_decide (cu_basis model = PHYSICAL_DELTA) in
  let quantity := if on_delta then delta else held in
  unscaled ← curve_evaluate model quantity;
  native_amount ←
    (if bool_decide (kind = FINANCING) && present holding_interval && (0 <? cm_horizon m) then
       ratio ← dec_div (Decimal_of_float (total_seconds interval)) (Decimal_of_float (total_seconds (cm_horizon m)));
       Ok (dec_mul unscaled ratio)
     else Ok unscaled);
  let reporting_amount := dec_mul native_amount (cu_conversion_rate model) in
  let quantity_basis := if on_delta then Some quantity else None in
  let holding := if bool_decide (cu_basis model = PHYSICAL_HOLDING) then Some interval else None in
  if bool_decide (cu_status model = IS_DOCUMENTED_ZERO) then
    ComponentCost_documented_zero kind (cu_basis model) (cu_native_currency model) (cu_reporting_currency model)
      (cu_version model) (cu_provenance model) (cu_conversion_rate model) (cu_conversion_source model)
      (cu_conversion_version model) quantity_basis holding
  else
    ComponentCost_supported kind (cu_basis model) native_amount (cu_native_currency model) reporting_amount
      (cu_reporting_currency model) (cu_version model) (cu_provenance model) (cu_conversion_rate model)
      (cu_conversion_source model) (cu_conversion_version model) quantity_basis holding.

Definition model_evaluate (m : ContinuousCostModel) (current_quantity target_quantity : Decimal)
    (decision_time : datetime) (internal_cross_quantity : Decimal) (holding_interval : option timedelta)
    : res ExpectedCostState :=
  raise_if (dec_ltb internal_cross_quantity dec_zero)
    (ValueError "continuous internal cross quantity must be non-negative");;
  require_utc decision_time "continuous cost decision time";;
  let interval := default (cm_horizon m) holding_interval in
  raise_if (interval <? 0) (ValueError "continuous holding interval must be a non-negative timedelta");;
  raise_if (existsb (λ c, status_absent (cu_status c)) (cm_components m))
    (ValueError "continuous cost model has missing or unsupported input");;
  let delta := dec_abs (dec_sub target_quantity current_quantity) in
  costs ← traverse (component_cost m delta (dec_abs target_quantity) interval holding_interval) _COMPONENT_ORDER;
  ExpectedCostState_new (mkCostState decision_time current_quantity target_quantity interval
    (cm_reporting_currency m) costs (cm_version m) (cm_provenance m) internal_cross_quantity).

(** ** Validated values *)

Lemma require_positive_Ok v f u : _require_positive v f = Ok u ↔ dec_leb v dec_zero = false.
Proof. apply raise_if_Ok. Qed.
Lemma require_nonnegative_Ok v f u : _require_nonnegative v f = Ok u ↔ dec_ltb v dec_zero = false.
Proof. apply raise_if_Ok. Qed.

Lemma positive_ok v f : dec_leb v dec_zero = false → _require_positive v f = Ok tt.
Proof. unfold _require_positive. by intros ->. Qed.
Lemma nonnegative_ok v f : dec_ltb v dec_zero = false → _require_nonnegative v f = Ok tt.
Proof. unfold _require_nonnegative. by intros ->. Qed.

Record product_positive (e : ProductEconomics) : Prop := {
  pp_minimum : dec_leb (pe_minimum_quantity e) dec_zero = false;
  pp_increment : dec_leb (pe_quantity_increment e) dec_zero = false }.

Lemma product_post_init e : ProductEconomics_post_init e = Ok tt → product_positive e.
Proof.
  intros H. unfold ProductEconomics_post_init in H. res_inv.
  repeat match goal with H : _require_positive _ _ = Ok _ |- _ => apply require_positive_Ok in H end. by constructor.
Qed.

(** ** Quantities *)

(** The result of [round_quantity] in units of the grid. *)
Definition lots_of (increment minimum quantity : Z) : Z :=
  let whole := Z.abs quantity / increment * increment in
  if whole <? minimum then 0 else Z.sgn quantity * whole.

Lemma lots_of_idemp increment minimum quantity : 0 < increment →
  lots_of increment minimum (lots_of increment minimum quantity) = lots_of increment minimum quantity.
Proof.
  intros Hi. unfold lots_of. destruct (Z.ltb_spec (Z.abs quantity / increment * increment) minimum) as [Hlt|Hge].
  - cbn [Z.abs Z.sgn]. rewrite Zdiv_0_l. by destruct (_ <? _).
  - set (w := Z.abs quantity / increment) in *. assert (0 <= w) by (apply Z.div_pos; lia).
    destruct (Z.eq_dec quantity 0) as [->|Hq].
    { unfold w. cbn [Z.abs Z.sgn]. rewrite Zdiv_0_l. by destruct (_ <? _). }
    assert (Z.abs (Z.sgn quantity * (w * increment)) = w * increment) as Ha by (rewrite Z.abs_mul; nia).
    rewrite Ha, Z.div_mul by lia. rewrite (proj2 (Z.ltb_ge _ _)) by done.
    destruct (Z.eq_dec w 0) as [->|]; [by rewrite !Z.mul_0_r|].
    rewrite Z.sgn_mul, (Z.sgn_pos (w * increment)) by nia. rewrite Z.mul_1_r. f_equal. by destruct quantity.
Qed.

Lemma lots_of_bound increment minimum quantity : 0 < increment →
  Z.abs (lots_of increment minimum quantity) <= Z.abs quantity.
Proof.
  intros Hi. unfold lots_of. destruct (_ <? minimum); [lia|].
  pose proof (Z.mul_div_le (Z.abs quantity) increment Hi). pose proof (Z.div_pos (Z.abs quantity) increment ltac:(lia) Hi).
  rewrite Z.abs_mul. destruct quantity; cbn [Z.sgn Z.abs] in *; nia.
Qed.

Section rounding.
Context (e B : Z) (Hexp : e <= 0) (Hroom : B < 10 ^ 26).

Lemma room_prec : B < 10 ^ prec.
Proof. apply (Z.lt_trans _ (10 ^ 26)); [done|reflexivity]. Qed.

Lemma round_quantity_grid economics q : product_positive economics →
  on_grid e B (pe_quantity_increment economics) → on_grid e B (pe_minimum_quantity economics) → on_grid e B q →
  ∃ r, round_quantity economics q = Ok r ∧ on_grid e B r ∧
    scaled e r = lots_of (scaled e (pe_quantity_increment economics)) (scaled e (pe_minimum_quantity economics)) (scaled e q).
Proof.
  intros [Hmin Hinc] Gi Gm Gq. pose proof room_prec as HB. unfold round_quantity.
  pose proof (og_bound _ _ _ Gq) as Hq. assert (on_grid e B dec_zero) as G0 by (apply grid_zero; lia).
  rewrite (grid_eqb e B B) by done. change (scaled e dec_zero) with 0.
  apply (grid_positive _ _ _ Gi) in Hinc as Pi. apply (grid_positive _ _ _ Gm) in Hmin as Pm.
  destruct (Z.eqb_spec (scaled e q) 0) as [Hz|Hz].
  { exists dec_zero. split_and!; [done|done|]. rewrite Hz. unfold lots_of. cbn [Z.abs Z.sgn]. rewrite Zdiv_0_l. by destruct (_ <? _). }
  destruct (grid_abs e B q Gq HB) as (Ga & Sa & Na). destruct (dec_positive_sign _ (og_wf _ _ _ Gi) Hinc) as [Ni _].
  destruct (dec_div_floor e (dec_abs q) (pe_quantity_increment economics)) as (ratio & -> & Hfl);
    [apply Ga|apply Gi|apply Ga|apply Gi|lia|done|done|done|].
  cbn [mbind res_bind]. rewrite Hfl, Sa. set (i := scaled e (pe_quantity_increment economics)) in *.
  set (w := Z.abs (scaled e q) / i). assert (0 <= w) as Hw by (apply Z.div_pos; lia).
  pose proof (Z.mul_div_le (Z.abs (scaled e q)) i Pi) as Hwi. fold w in Hwi.
  destruct (grid_mul e 0 i w (pe_quantity_increment economics) (dec_of_Z w)) as [Gr Sr].
  { constructor; [apply Gi|apply Gi|]. fold i. lia. }
  { destruct (grid_of_Z 0 w ltac:(lia)) as [G _]. by rewrite Z.abs_eq, Z.mul_1_r in G by lia. }
  { lia. }
  rewrite Z.add_0_r in Gr, Sr. fold i in Sr. destruct (grid_of_Z 0 w ltac:(lia)) as [_ Sw].
  rewrite Sw in Sr. change (10 ^ (- 0)) with 1 in Sr. rewrite Z.mul_1_r, (Z.mul_comm i w) in Sr.
  apply (on_grid_weaken e (i * w) B) in Gr; [|lia].
  rewrite (grid_ltb e B B) by done. rewrite Sr. unfold lots_of. fold w.
  destruct (Z.ltb_spec (w * i) (scaled e (pe_minimum_quantity economics))); [by exists dec_zero|].
  eexists. split; [reflexivity|]. rewrite (grid_ltb e B B) by done. change (scaled e dec_zero) with 0.
  destruct (Z.ltb_spec 0 (scaled e q)).
  - split; [done|]. rewrite Sr, Z.sgn_pos by lia. lia.
  - destruct (grid_opp e B _ Gr HB) as [Go So]. split; [done|]. rewrite So, Sr, Z.sgn_neg by lia. lia.
Qed.
End rounding.

(** ** Cost curves

    A convex piecewise-linear cost is the largest of its supporting lines. The reference
    works on integers: breakpoints in units of one grid, slopes in units of another. *)

Definition line_at (l : Z * Z) (q : Z) : Z := l.1 + l.2 * q.

Fixpoint supporting (lower total : Z) (breakpoints slopes : list Z) : list (Z * Z) :=
  match slopes with
  | [] => []
  | slope :: slopes =>
      (total - slope * lower, slope)
      :: match breakpoints with
         | [] => []
         | upper :: breakpoints => supporting upper (total + (upper - lower) * slope) breakpoints slopes
         end
  end.

(** The loop of [evaluate] on integers. *)
Fixpoint accrued (q lower total : Z) (breakpoints slopes : list Z) : Z :=
  match slopes with
  | [] => total
  | slope :: slopes =>
      match breakpoints with
      | [] => total + Z.max (q - lower) 0 * slope
      | upper :: breakpoints =>
          accrued q upper (total + Z.min (Z.max (q - lower) 0) (upper - lower) * slope) breakpoints slopes
      end
  end.

Fixpoint increasing (lower : Z) (breakpoints : list Z) : Prop :=
  match breakpoints with [] => True | upper :: breakpoints => lower < upper ∧ increasing upper breakpoints end.
Fixpoint nondecreasing (slope : Z) (slopes : list Z) : Prop :=
  match slopes with [] => True | s :: slopes => slope <= s ∧ nondecreasing s slopes end.

Lemma supporting_below q bs : ∀ ss lower total slope, q <= lower → increasing lower bs → nondecreasing slope ss →
  Forall (λ l, line_at l q <= total + slope * (q - lower)) (supporting lower total bs ss).
Proof.
  induction bs as [|u bs IH]; intros [|s ss] lower total slope Hq Hb Hs; cbn [supporting]; [constructor| |constructor|];
    destruct Hs as [Hs Hss].
  - repeat constructor. unfold line_at. cbn [fst snd]. nia.
  - destruct Hb as [Hu Hb]. constructor; [unfold line_at; cbn [fst snd]; nia|].
    eapply Forall_impl; [apply (IH ss u _ s); [lia|done|done]|]. intros l Hl. cbn beta in Hl. nia.
Qed.

Lemma accrued_below q bs : ∀ ss lower total, q <= lower → increasing lower bs → accrued q lower total bs ss = total.
Proof.
  induction bs as [|u bs IH]; intros [|s ss] lower total Hq Hb; cbn [accrued];
    [done|rewrite Z.max_r by lia; lia|done|].
  destruct Hb as [Hu Hb]. rewrite IH by (done || lia). rewrite Z.max_r, Z.min_l by lia. lia.
Qed.

(** The accrued cost is the largest supporting line. *)
Lemma accrued_is_largest q bs : ∀ ss lower total slope, length ss = S (length bs) →
  lower <= q → increasing lower bs → nondecreasing slope ss →
  Forall (λ l, line_at l q <= accrued q lower total bs ss) (supporting lower total bs ss) ∧
  Exists (λ l, line_at l q = accrued q lower total bs ss) (supporting lower total bs ss).
Proof.
  induction bs as [|u bs IH]; intros [|s ss] lower total slope Hlen Hq Hb Hs; try discriminate Hlen;
    cbn [supporting accrued].
  - destruct ss; [|discriminate Hlen]. rewrite Forall_singleton, Exists_cons. unfold line_at. cbn [fst snd].
    rewrite (Z.max_l (q - lower) 0) by lia. split; [|left]; nia.
  - destruct Hb as [Hu Hb], Hs as [Hs Hss]. injection Hlen as Hlen.
    destruct (Z.le_gt_cases q u) as [Hqu|Hqu].
    + rewrite (accrued_below q bs) by done. replace (Z.min (Z.max (q - lower) 0) (u - lower)) with (q - lower) by lia. split.
      * constructor; [unfold line_at; cbn [fst snd]; nia|].
        eapply Forall_impl; [apply (supporting_below q bs ss u _ s); done|]. intros l Hl. cbn beta in Hl. nia.
      * left. unfold line_at. cbn [fst snd]. nia.
    + replace (Z.min (Z.max (q - lower) 0) (u - lower)) with (u - lower) by lia.
      destruct (IH ss u (total + (u - lower) * s) s Hlen) as [Hf He]; [lia|done|done|].
      split; [|by right]. constructor; [|done]. destruct ss as [|s' ss]; [discriminate Hlen|].
      destruct Hss as [Hss _]. assert (∀ b, ∃ r, supporting u b bs (s' :: ss) = (b - s' * u, s') :: r) as Hhd by (destruct bs; eauto).
      destruct (Hhd (total + (u - lower) * s)) as [r E]. rewrite E in Hf. apply Forall_cons_1 in Hf as [Hf _].
      unfold line_at in *. cbn [fst snd] in *. nia.
Qed.

Lemma accrued_nonneg q bs : ∀ ss lower total, 0 <= total → Forall (λ s, 0 <= s) ss → increasing lower bs →
  total <= accrued q lower total bs ss.
Proof.
  induction bs as [|u bs IH]; intros [|s ss] lower total Ht Hs Hb; cbn [accrued]; [lia| |lia|];
    apply Forall_cons_1 in Hs as [Hs Hss]; [pose proof (Z.le_max_r (q - lower) 0); nia|]. destruct Hb as [Hu Hb].
  assert (0 <= Z.min (Z.max (q - lower) 0) (u - lower)) as Hw by lia.
  etransitivity; [|apply IH; [nia|done|done]]. nia.
Qed.

Lemma accrued_zero q bs : ∀ ss lower total, Forall (λ s, s = 0) ss → accrued q lower total bs ss = total.
Proof.
  induction bs as [|u bs IH]; intros [|s ss] lower total Hs; cbn [accrued]; [done| |done|];
    apply Forall_cons_1 in Hs as [-> Hss]; [lia|]. rewrite IH by done. lia.
Qed.

(** A largest line is convex in the quantity. *)
Lemma largest_convex (lines : list (Z * Z)) q1 q2 q w1 w2 v1 v2 v : 0 <= w1 → 0 <= w2 →
  (w1 + w2) * q = w1 * q1 + w2 * q2 →
  Forall (λ l, line_at l q1 <= v1) lines → Forall (λ l, line_at l q2 <= v2) lines →
  Exists (λ l, line_at l q = v) lines → (w1 + w2) * v <= w1 * v1 + w2 * v2.
Proof.
  intros H1 H2 Hq F1 F2 (l & Hl & <-)%Exists_exists. rewrite Forall_forall in F1, F2.
  specialize (F1 l Hl). specialize (F2 l Hl). unfold line_at in *.
  transitivity (w1 * (l.1 + l.2 * q1) + w2 * (l.1 + l.2 * q2)); [|nia].
  replace ((w1 + w2) * (l.1 + l.2 * q)) with ((w1 + w2) * l.1 + l.2 * ((w1 + w2) * q)) by ring. rewrite Hq. apply Z.eq_le_incl. ring.
Qed.

(** *** From decimals to integers *)

Section curve.
Context (e f A S : Z) (Hexp : e <= 0) (HA : 0 <= A) (HS : 0 <= S) (HA2 : 2 * A < 10 ^ prec).

Lemma cost_step slope n T total width :
  on_grid e (2 * A) width → on_grid f S slope → on_grid (e + f) T total →
  T + (1 + n) * (2 * A * S) < 10 ^ prec → 0 <= n → 0 <= T →
  on_grid (e + f) (T + 2 * A * S) (dec_add total (dec_mul width slope)) ∧
  scaled (e + f) (dec_add total (dec_mul width slope)) = scaled (e + f) total + scaled e width * scaled f slope.
Proof using HA HS.
  intros G Gs Gt Hroom Hn HT.
  destruct (grid_mul e f (2 * A) S width slope G Gs) as [Gm Sm]; [nia|].
  destruct (grid_add (e + f) T (2 * A * S) total _ Gt Gm) as [Ga Sa]; [nia|]. split; [done|]. by rewrite Sa, Sm.
Qed.

Lemma cost_along_exact bs : ∀ ss remaining lower total T, length ss = Datatypes.S (length bs) →
  Forall (on_grid e A) bs → Forall (on_grid f S) ss → on_grid e A remaining → on_grid e A lower →
  on_grid (e + f) T total → 0 <= T → T + Z.of_nat (length ss) * (2 * A * S) < 10 ^ prec →
  ∃ v, cost_along remaining lower total bs ss = Ok v ∧
    on_grid (e + f) (T + Z.of_nat (length ss) * (2 * A * S)) v ∧
    scaled (e + f) v = accrued (scaled e remaining) (scaled e lower) (scaled (e + f) total) (map (scaled e) bs) (map (scaled f) ss).
Proof using Hexp HA HS HA2.
  induction bs as [|u bs IH]; intros [|s ss] remaining lower total T Hlen Hb Hs Gr Gl Gt HT Hroom; try discriminate Hlen;
    injection Hlen as Hlen; apply Forall_cons_1 in Hs as [Gs Hs];
    destruct (grid_sub e A A remaining lower Gr Gl) as [Gd Sd]; try lia;
    replace (A + A) with (2 * A) in Gd by lia;
    destruct (grid_max e (2 * A) (dec_sub remaining lower) dec_zero Gd (grid_zero e (2 * A) Hexp ltac:(lia))) as [Gx Sx];
    change (scaled e dec_zero) with 0 in Sx; rewrite Sd in Sx; cbn [length] in Hroom |- *; rewrite Nat2Z.inj_succ in Hroom |- *.
  - destruct ss; [|discriminate Hlen]. cbn [cost_along length map accrued] in *.
    destruct (cost_step s 0 T total (dec_max (dec_sub remaining lower) dec_zero)) as [G E]; [done|done|done|lia|lia|done|].
    eexists. split; [done|]. split; [eapply on_grid_weaken; [|exact G]; lia|]. by rewrite E, Sx.
  - apply Forall_cons_1 in Hb as [Gu Hb]. destruct ss as [|s' ss]; [discriminate Hlen|]. cbn [cost_along].
    destruct (grid_sub e A A u lower Gu Gl) as [Gv Sv]; [lia|]. replace (A + A) with (2 * A) in Gv by lia.
    destruct (grid_min e (2 * A) _ _ Gx Gv) as [Gw Sw]. rewrite Sx, Sv in Sw.
    set (width := dec_min _ _) in *. set (n := Z.of_nat (length (s' :: ss))) in *. assert (0 <= n) by lia.
    destruct (cost_step s n T total width) as [G E]; [done|done|done|lia|done|done|].
    destruct (IH (s' :: ss) remaining u (dec_add total (dec_mul width s)) (T + 2 * A * S)) as (v & Hv & Gf & Ef);
      [done|done|done|done|done|done|nia|fold n; lia|].
    exists v. split; [exact Hv|]. fold n in Gf. split; [eapply on_grid_weaken; [|exact Gf]; lia|]. rewrite Ef, E, Sw. done.
Qed.
End curve.

(** *** Valid curves *)

Record curve_on_grid (e f g A S R : Z) (N : nat) (c : ContinuousCostComponent) : Prop := {
  cg_breakpoints : Forall (on_grid e A) (cu_breakpoints c);
  cg_slopes : Forall (on_grid f S) (cu_slopes c);
  cg_rate : on_grid g R (cu_conversion_rate c);
  cg_segments : (length (cu_slopes c) <= N)%nat }.

Record curve_shape (e f : Z) (c : ContinuousCostComponent) : Prop := {
  sh_length : length (cu_slopes c) = S (length (cu_breakpoints c));
  sh_increasing : increasing 0 (map (scaled e) (cu_breakpoints c));
  sh_nondecreasing : nondecreasing 0 (map (scaled f) (cu_slopes c));
  sh_nonneg : Forall (λ s, 0 <= s) (map (scaled f) (cu_slopes c));
  sh_rate : dec_leb (cu_conversion_rate c) dec_zero = false;
  sh_zero : cu_status c = IS_DOCUMENTED_ZERO → Forall (λ s, s = 0) (map (scaled f) (cu_slopes c)) }.

Lemma breakpoints_increasing e A bs : ∀ p q, Forall (on_grid e A) bs → on_grid e A p →
  for_each check_breakpoint p bs = Ok q → increasing (scaled e p) (map (scaled e) bs).
Proof.
  induction bs as [|b bs IH]; intros p q Hb Gp; [done|]. apply Forall_cons_1 in Hb as [Gb Hb]. cbn [for_each map increasing].
  intros (p' & Hp & Hr)%bind_Ok. unfold check_breakpoint in Hp. res_inv.
  match goal with H : dec_leb _ _ = false |- _ => rewrite (grid_leb e A A) in H by done; apply Z.leb_gt in H end.
  split; [lia|]. eapply IH; [done|exact Gb|exact Hr].
Qed.

Lemma slopes_nondecreasing f S ss : ∀ p q, Forall (on_grid f S) ss → on_grid f S p → f <= 0 → 0 <= S →
  for_each check_slope p ss = Ok q →
  nondecreasing (scaled f p) (map (scaled f) ss) ∧ Forall (λ s, 0 <= s) (map (scaled f) ss).
Proof.
  induction ss as [|s ss IH]; intros p q Hs Gp Hf HS; [split; [done|constructor]|]. apply Forall_cons_1 in Hs as [Gs Hs].
  cbn [for_each map nondecreasing]. intros (p' & Hp & Hr)%bind_Ok. unfold check_slope in Hp. res_inv.
  match goal with H : _ || _ = false |- _ => apply orb_false_iff in H as [H0 H1] end.
  rewrite (grid_ltb f S S) in H0, H1 by (done || by apply grid_zero). change (scaled f dec_zero) with 0 in H0.
  apply Z.ltb_ge in H0, H1. destruct (IH p' q) as [Hn Hp]; [done|exact Gs|done|done|exact Hr|].
  split; [split; [lia|exact Hn]|]. constructor; [lia|exact Hp].
Qed.

Lemma curve_valid e f g A S R N c : e <= 0 → f <= 0 → 0 <= A → 0 <= S →
  curve_on_grid e f g A S R N c → ContinuousCostComponent_post_init c = Ok tt → curve_shape e f c.
Proof.
  intros He Hf HA HS [Gb Gs Gr _] H. unfold ContinuousCostComponent_post_init in H. res_inv.
  repeat match goal with H : negb _ = false |- _ => apply negb_false_iff in H end.
  match goal with H : for_each check_breakpoint _ _ = Ok _ |- _ => pose proof (breakpoints_increasing e A _ _ _ Gb (grid_zero e A He HA) H) as Hb end.
  match goal with H : for_each check_slope _ _ = Ok _ |- _ =>
    destruct (slopes_nondecreasing f S _ _ _ Gs (grid_zero f S Hf HS) Hf HS H) as [Hn Hp] end.
  change (scaled e dec_zero) with 0 in Hb. change (scaled f dec_zero) with 0 in Hn.
  constructor; [|exact Hb|exact Hn|exact Hp|assumption|].
  - match goal with H : Nat.eqb _ (_ + 1) = true |- _ => apply Nat.eqb_eq in H; lia end.
  - intros Hz. match goal with H : bool_decide (cu_status c = IS_DOCUMENTED_ZERO) && _ = false |- _ =>
      rewrite bool_decide_true in H by exact Hz; cbn [andb] in H end.
    apply Forall_map, Forall_forall. intros s Hs. cbn.
    destruct (scaled f s =? 0) eqn:E; [by apply Z.eqb_eq|exfalso].
    match goal with H : existsb _ _ = false |- _ => apply not_true_iff_false in H; apply H; apply existsb_exists end.
    exists s. split; [by apply list_elem_of_In|].
    rewrite (grid_eqb f S S); [change (scaled f dec_zero) with 0; by rewrite E|by rewrite Forall_forall in Gs; apply Gs|by apply grid_zero].
Qed.

(** The cost of a quantity in units of the two grids: the largest supporting line. *)
Definition largest_line (lines : list (Z * Z)) (q : Z) : Z :=
  match lines with [] => 0 | l :: lines => foldr (λ l', Z.max (line_at l' q)) (line_at l q) lines end.
Definition curve_lines (e f : Z) (c : ContinuousCostComponent) : list (Z * Z) :=
  supporting 0 0 (map (scaled e) (cu_breakpoints c)) (map (scaled f) (cu_slopes c)).
Definition curve_cost (e f : Z) (c : ContinuousCostComponent) (q : Z) : Z := largest_line (curve_lines e f c) q.

Lemma largest_line_bounds lines q : lines ≠ [] →
  Forall (λ l, line_at l q <= largest_line lines q) lines ∧ Exists (λ l, line_at l q = largest_line lines q) lines.
Proof.
  destruct lines as [|l lines]; [done|]. intros _. cbn [largest_line].
  induction lines as [|l' lines [Hf He]]; cbn [foldr]; [split; repeat constructor; lia|].
  inversion Hf as [|? ? Hl Hr]; subst. split.
  - repeat constructor; [lia|lia|]. eapply Forall_impl; [exact Hr|]. intros x Hx. cbn beta in *. lia.
  - destruct (Z.max_dec (line_at l' q) (foldr (λ l', Z.max (line_at l' q)) (line_at l q) lines)) as [-> | ->].
    + right. by left.
    + inversion He; subst; [by left|]. right. by right.
Qed.

Lemma largest_line_unique lines q v : Forall (λ l, line_at l q <= v) lines → Exists (λ l, line_at l q = v) lines →
  largest_line lines q = v.
Proof.
  intros Hf He. assert (lines ≠ []) as Hne by (intros ->; inversion He).
  destruct (largest_line_bounds lines q Hne) as [Hf' He'].
  apply Exists_exists in He as (l & Hl & Hv), He' as (l' & Hl' & Hv'). rewrite Forall_forall in Hf, Hf'.
  specialize (Hf l' Hl'). specialize (Hf' l Hl). lia.
Qed.

Lemma curve_cost_accrued e f c q : curve_shape e f c → 0 <= q →
  curve_cost e f c q = accrued q 0 0 (map (scaled e) (cu_breakpoints c)) (map (scaled f) (cu_slopes c)).
Proof.
  intros [Hlen Hb Hs _ _ _] Hq. apply largest_line_unique; eapply accrued_is_largest; by rewrite ?length_map.
Qed.

Lemma curve_evaluate_exact e f g A S R N c q : e <= 0 → f <= 0 → 0 <= A → 0 <= S → 2 * A < 10 ^ prec →
  Z.of_nat N * (2 * A * S) < 10 ^ prec →
  curve_on_grid e f g A S R N c → curve_shape e f c → on_grid e A q → 0 <= scaled e q →
  ∃ v, curve_evaluate c q = Ok v ∧ on_grid (e + f) (Z.of_nat N * (2 * A * S)) v ∧
    scaled (e + f) v = curve_cost e f c (scaled e q) ∧ 0 <= scaled (e + f) v.
Proof.
  intros He Hf HA HS HA2 HN G Hshape Gq Hq. unfold curve_evaluate.
  assert (dec_ltb q dec_zero = false) as -> by (by apply (grid_nonneg _ _ _ Gq)). cbn [raise_if mbind res_bind].
  pose proof (cg_segments _ _ _ _ _ _ _ _ G) as Hseg.
  assert (Z.of_nat (length (cu_slopes c)) * (2 * A * S) <= Z.of_nat N * (2 * A * S)) as Hle
    by (apply Z.mul_le_mono_nonneg_r; nia).
  destruct (cost_along_exact e f A S He HA HS HA2 (cu_breakpoints c) (cu_slopes c) q dec_zero dec_zero 0) as (v & Hv & Gv & Sv);
    [apply Hshape|apply G|apply G|done|by apply grid_zero|apply grid_zero; lia|done|lia|].
  exists v. split; [done|]. split; [eapply on_grid_weaken; [|exact Gv]; lia|].
  rewrite (curve_cost_accrued e f c) by done. split; [done|]. rewrite Sv.
  apply (accrued_nonneg _ _ _ 0 0); [done|apply Hshape|apply Hshape].
Qed.

Lemma curve_lines_nonempty e f c : curve_shape e f c → curve_lines e f c ≠ [].
Proof. intros [Hlen _ _ _ _ _]. unfold curve_lines. destruct (cu_slopes c); [done|]. by destruct (cu_breakpoints c). Qed.

Lemma curve_cost_convex e f c q1 q2 q w1 w2 : curve_shape e f c → 0 <= w1 → 0 <= w2 →
  (w1 + w2) * q = w1 * q1 + w2 * q2 →
  (w1 + w2) * curve_cost e f c q <= w1 * curve_cost e f c q1 + w2 * curve_cost e f c q2.
Proof.
  intros Hc%curve_lines_nonempty Hw1 Hw2 Hq.
  eapply largest_convex; [done|done|exact Hq|..]; by eapply (proj1 (largest_line_bounds _ _ Hc)) || by eapply largest_line_bounds.
Qed.

(** ** Expected cost of a transition *)

(** A model whose inputs are valid, supported and within the precision of the context. *)
Record priced (e f g A S R : Z) (N : nat) (m : ContinuousCostModel) : Prop := {
  pr_units : e <= 0 ∧ f <= 0 ∧ g <= 0 ∧ 0 <= A ∧ 0 <= S ∧ 0 <= R;
  pr_room : 2 * A < 10 ^ prec ∧ Z.of_nat N * (2 * A * S) < 10 ^ prec ∧
            Z.of_nat N * (2 * A * S) * R * 6 < 10 ^ prec;
  pr_valid : ContinuousCostModel_post_init m = Ok tt;
  pr_curves : ∀ c, c ∈ cm_components m → ContinuousCostComponent_post_init c = Ok tt ∧
    status_absent (cu_status c) = false ∧ curve_on_grid e f g A S R N c ∧
    (cu_native_currency c = cu_reporting_currency c → dec_eqb (cu_conversion_rate c) dec_one = true) }.

(** The cost of a component in units of the reporting grid, from its supporting lines. *)
Definition kind_cost (e f g : Z) (m : ContinuousCostModel) (moved held : Z) (k : CostComponentKind) : Z :=
  match component m k with
  | Ok c => curve_cost e f c (if bool_decide (k = FINANCING) then held else moved) * scaled g (cu_conversion_rate c)
  | Raise _ => 0
  end.

Record model_shape (m : ContinuousCostModel) : Prop := {
  ms_kinds : map cu_component (cm_components m) = _COMPONENT_ORDER;
  ms_currency : _require_currency (cm_reporting_currency m) "" = Ok tt;
  ms_texts : nonempty (cm_version m) = true ∧ nonempty (cm_provenance m) = true;
  ms_horizon : 0 < cm_horizon m;
  ms_curves : ∀ c, c ∈ cm_components m → cu_reporting_currency c = cm_reporting_currency m ∧
    cu_basis c = if bool_decide (cu_component c = FINANCING) then PHYSICAL_HOLDING else PHYSICAL_DELTA }.

Lemma currency_Ok v f u : _require_currency v f = Ok u → ∀ f', _require_currency v f' = Ok tt.
Proof. unfold _require_currency. intros H%raise_if_Ok f'. by rewrite H. Qed.

Lemma model_valid m : ContinuousCostModel_post_init m = Ok tt → model_shape m.
Proof.
  intros H. unfold ContinuousCostModel_post_init in H. res_inv. bool_prop. constructor.
  - assumption.
  - by eapply currency_Ok.
  - by split.
  - assumption.
  - intros c Hc. match goal with H : for_each _ _ (cm_components m) = Ok _ |- _ => rename H into Hall end.
    apply (for_each_unit (check_curve m)) with (x := c) in Hall; [|exact Hc]. unfold check_curve in Hall. res_inv. bool_prop.
    split; [by apply String.eqb_eq|assumption].
Qed.

Lemma component_found m k : model_shape m → ∃ c, component m k = Ok c ∧ c ∈ cm_components m ∧ cu_component c = k.
Proof.
  intros [Hk _ _ _ _]. unfold component. destruct (List.find _ _) as [c|] eqn:E.
  - apply List.find_some in E as [Hin Hc]. apply bool_decide_eq_true_1 in Hc. exists c. by rewrite list_elem_of_In.
  - exfalso. assert (k ∈ map cu_component (cm_components m)) as Hin by (rewrite Hk; destruct k; set_solver).
    apply list_elem_of_fmap in Hin as (c & Hc & Hin). apply list_elem_of_In in Hin.
    apply (List.find_none _ _ E) in Hin. by rewrite bool_decide_eq_false in Hin.
Qed.

(** What the evaluation makes of one component. *)
Record component_exact (e f g : Z) (B : Z) (m : ContinuousCostModel) (delta : Decimal) (moved held : Z) (interval : timedelta)
    (k : CostComponentKind) (cost : ComponentCost) : Prop := {
  ce_component : cc_component cost = k;
  ce_status : cc_status cost = IS_AVAILABLE ∨ cc_status cost = IS_DOCUMENTED_ZERO;
  ce_currency : cc_reporting_currency cost = cm_reporting_currency m;
  ce_basis : if bool_decide (k = FINANCING) then cc_basis cost = PHYSICAL_HOLDING ∧ cc_holding_interval cost = Some interval
             else cc_basis cost = PHYSICAL_DELTA ∧ cc_quantity_basis cost = Some delta;
  ce_amount : ∃ v, cc_reporting_amount cost = Some v ∧ on_grid (e + f + g) B v ∧
    scaled (e + f + g) v = kind_cost e f g m moved held k }.

Lemma currency_nonempty v f u : _require_currency v f = Ok u → nonempty v = true.
Proof.
  unfold _require_currency. intros [H _]%raise_if_Ok%orb_false_iff. apply negb_false_iff, Z.eqb_eq in H.
  destruct v; [discriminate H|done].
Qed.

(** The texts of a valid curve. *)
Record curve_texts (c : ContinuousCostComponent) : Prop := {
  ct_native : _require_currency (cu_native_currency c) "component native currency" = Ok tt;
  ct_reporting : _require_currency (cu_reporting_currency c) "component reporting currency" = Ok tt;
  ct_version : nonempty (cu_version c) = true;
  ct_provenance : nonempty (cu_provenance c) = true;
  ct_source : nonempty (cu_conversion_source c) = true;
  ct_conversion : nonempty (cu_conversion_version c) = true;
  ct_positive : dec_leb (cu_conversion_rate c) dec_zero = false }.

Lemma curve_texts_valid c : ContinuousCostComponent_post_init c = Ok tt → curve_texts c.
Proof.
  intros H. unfold ContinuousCostComponent_post_init in H. res_inv. bool_prop.
  constructor; (assumption || by eapply currency_Ok).
Qed.

Lemma component_accepted c status native reporting qb hi :
  curve_texts c → status = IS_AVAILABLE ∨ (status = IS_DOCUMENTED_ZERO ∧ dec_eqb native dec_zero = true ∧ dec_eqb reporting dec_zero = true) →
  (cu_native_currency c = cu_reporting_currency c → dec_eqb (cu_conversion_rate c) dec_one = true) →
  dec_ltb native dec_zero = false → dec_ltb reporting dec_zero = false →
  dec_eqb (dec_mul native (cu_conversion_rate c)) reporting = true →
  (cu_basis c = PHYSICAL_DELTA ∧ hi = None ∧ ∃ q, qb = Some q ∧ dec_ltb q dec_zero = false) ∨
  (cu_basis c = PHYSICAL_HOLDING ∧ qb = None ∧ ∃ d : timedelta, hi = Some d ∧ 0 <= d) →
  ComponentCost_post_init (mkComponentCost (cu_component c) status (cu_basis c) (Some native) (Some (cu_native_currency c))
    (Some reporting) (cu_reporting_currency c) qb hi (cu_version c) (cu_provenance c) None
    (Some (cu_conversion_rate c)) (Some (cu_conversion_source c)) (Some (cu_conversion_version c))) = Ok tt.
Proof.
  intros [Cn Cr Cv Cp Cs Cc Cq] Hstatus Hid Hn Hr Hm Hbasis. unfold ComponentCost_post_init.
  cbn [cc_reporting_currency cc_version cc_provenance cc_native_currency cc_native_amount cc_reporting_amount cc_quantity_basis cc_status when_some].
  rewrite (currency_nonempty _ _ _ Cr), Cv, Cp, Cr, Cn. cbn [negb orb raise_if mbind res_bind].
  rewrite !nonnegative_ok by done. cbn [mbind res_bind].
  assert (when_some qb (λ v, _require_nonnegative v "component quantity basis") = Ok tt) as ->.
  { destruct Hbasis as [(_ & _ & q & -> & Hq)|(_ & -> & _)]; [|done]. cbn. by apply nonnegative_ok. }
  assert (status_absent status = false) as -> by (destruct Hstatus as [->|[-> _]]; reflexivity). cbn [mbind res_bind].
  unfold available_component. cbn [cc_native_amount cc_native_currency cc_reporting_amount cc_conversion_rate cc_conversion_source
    cc_conversion_version cc_reporting_currency cc_status text_given]. rewrite Cs, Cc. cbn [negb orb raise_if mbind res_bind].
  rewrite positive_ok, Hm by done. cbn [raise_if mbind res_bind negb].
  assert (String.eqb (cu_native_currency c) (cu_reporting_currency c) && negb (dec_eqb (cu_conversion_rate c) dec_one) = false) as ->.
  { destruct (String.eqb_spec (cu_native_currency c) (cu_reporting_currency c)) as [E|]; [by rewrite Hid|done]. }
  assert (bool_decide (status = IS_DOCUMENTED_ZERO) && (negb (dec_eqb native dec_zero) || negb (dec_eqb reporting dec_zero)) = false) as ->.
  { destruct Hstatus as [->|(-> & -> & ->)]; reflexivity. }
  cbn [raise_if mbind res_bind]. unfold component_basis. cbn [cc_basis cc_quantity_basis cc_holding_interval].
  destruct Hbasis as [(-> & -> & q & -> & ->)|(-> & -> & d & -> & Hd)]; [done|]. by rewrite (proj2 (Z.ltb_ge d 0)).
Qed.

Section evaluation.
Context (e f g A S R : Z) (N : nat) (m : ContinuousCostModel) (P : priced e f g A S R N m).

Lemma component_cost_exact delta held (interval : timedelta) k : on_grid e A delta → 0 <= scaled e delta → on_grid e A held →
  0 <= scaled e held → 0 <= interval →
  ∃ cost, component_cost m delta held interval None k = Ok cost ∧
    component_exact e f g (Z.of_nat N * (2 * A * S) * R) m delta (scaled e delta) (scaled e held) interval k cost.
Proof using P.
  intros Gd Hd Gh Hh Hi. destruct P as [(He & Hf & Hg & HA & HS & HR) (HA2 & HN & HN6) Hm Hcurves].
  apply model_valid in Hm as Hshape. destruct (component_found m k Hshape) as (c & Hc & Hin & <-).
  destruct (Hcurves c Hin) as (Hv & Hsup & G & Hid). destruct (ms_curves _ Hshape c Hin) as [Hcur Hbasis].
  pose proof (curve_valid e f g A S R N c He Hf HA HS G Hv) as Hcs.
  set (q := if bool_decide (cu_component c = FINANCING) then held else delta).
  assert (on_grid e A q ∧ 0 <= scaled e q) as [Gq Hq] by (unfold q; destruct (bool_decide _); done).
  destruct (curve_evaluate_exact e f g A S R N c q He Hf HA HS HA2 HN G Hcs Gq Hq) as (v & Ev & Gv & Sv & Pv).
  pose proof (cg_rate _ _ _ _ _ _ _ _ G) as Gr. set (B := Z.of_nat N * (2 * A * S)) in *.
  assert (0 <= B) as HB by (unfold B; nia). set (rate := cu_conversion_rate c) in *.
  destruct (grid_mul (e + f) g B R v rate Gv Gr) as [Gm Sm]; [nia|].
  assert (kind_cost e f g m (scaled e delta) (scaled e held) (cu_component c) = scaled (e + f) v * scaled g rate) as Hkc.
  { unfold kind_cost. rewrite Hc, Sv. fold rate. unfold q. by destruct (bool_decide (cu_component c = FINANCING)). }
  apply (grid_nonneg _ _ _ Gv) in Pv as Nv. pose proof (sh_rate _ _ _ Hcs) as Hrate.
  apply (grid_positive _ _ _ Gr) in Hrate as Prate. apply (grid_nonneg _ _ _ Gq) in Hq as Nq.
  assert (dec_ltb (dec_mul v rate) dec_zero = false) as Nr by (apply (grid_nonneg _ _ _ Gm); rewrite Sm; nia).
  set (qb := if bool_decide (cu_basis c = PHYSICAL_DELTA) then Some q else None).
  set (hi := if bool_decide (cu_basis c = PHYSICAL_HOLDING) then Some interval else None).
  assert ((cu_basis c = PHYSICAL_DELTA ∧ hi = None ∧ ∃ q, qb = Some q ∧ dec_ltb q dec_zero = false) ∨
          (cu_basis c = PHYSICAL_HOLDING ∧ qb = None ∧ ∃ d : timedelta, hi = Some d ∧ 0 <= d)) as Hqh.
  { unfold qb, hi. rewrite Hbasis. destruct (bool_decide (cu_component c = FINANCING)); cbn; [right|left]; eauto 10. }
  assert (if bool_decide (cu_component c = FINANCING) then cu_basis c = PHYSICAL_HOLDING ∧ hi = Some interval
          else cu_basis c = PHYSICAL_DELTA ∧ qb = Some delta) as Hbind.
  { unfold qb, hi, q. rewrite Hbasis. by destruct (bool_decide (cu_component c = FINANCING)). }
  unfold component_cost. rewrite Hc. cbn [mbind res_bind present]. rewrite andb_false_r. cbn [andb].
  replace (if bool_decide (cu_basis c = PHYSICAL_DELTA) then delta else held) with q
    by (unfold q; rewrite Hbasis; by destruct (bool_decide (cu_component c = FINANCING))).
  rewrite Ev. cbn [mbind res_bind]. fold qb hi rate. clearbody qb hi. destruct (bool_decide (cu_status c = IS_DOCUMENTED_ZERO)) eqn:Hz.
  - apply bool_decide_eq_true_1 in Hz. pose proof (sh_zero _ _ _ Hcs Hz) as Hzero.
    assert (scaled (e + f) v = 0) as Z0 by (rewrite Sv, (curve_cost_accrued e f c _ Hcs Hq); by apply accrued_zero).
    assert (on_grid (e + f + g) (B * R) dec_zero) as G0 by (apply grid_zero; nia).
    unfold ComponentCost_documented_zero, ComponentCost_new. unfold rate in *.
    rewrite component_accepted; [|by apply curve_texts_valid|by right|done|done|done| |done].
    + eexists. split; [reflexivity|]. constructor; [done|by right|done|done|]. eexists. split; [reflexivity|]. split; [done|].
      rewrite Hkc, Z0. reflexivity.
    + destruct (grid_mul 0 g 0 R dec_zero (cu_conversion_rate c) ltac:(by apply grid_zero) Gr) as [Gz Sz]; [reflexivity|].
      rewrite Z.add_0_l in Gz, Sz. rewrite (grid_eqb g (0 * R) 0), Sz; [reflexivity|done|by apply grid_zero].
  - unfold ComponentCost_supported, ComponentCost_new. unfold rate in *.
    rewrite component_accepted; [|by apply curve_texts_valid|by left|done|done|done|apply dec_eqb_refl|done].
    eexists. split; [reflexivity|]. constructor; [done|by left|done|done|]. eexists. split; [reflexivity|]. split; [done|].
    by rewrite Hkc.
Qed.

Notation cost_bound := (Z.of_nat N * (2 * A * S) * R).

Lemma components_checked st (delta : Decimal) moved held costs :
  es_reporting_currency st = cm_reporting_currency m → es_components st = costs →
  Forall2 (component_exact e f g cost_bound m delta moved held (es_holding_interval st)) _COMPONENT_ORDER costs →
  map cc_component costs = _COMPONENT_ORDER ∧ for_each (λ _, check_component st delta) tt costs = Ok tt ∧ complete st = true.
Proof using.
  intros Hcur Hcosts Hall. split_and!.
  - clear Hcosts. induction Hall as [|k cost ks costs Hk _ IH]; [done|]. cbn [map]. by rewrite IH, (ce_component _ _ _ _ _ _ _ _ _ _ _ Hk).
  - apply (for_each_unit (check_component st delta)). intros cost Hin.
    apply list_elem_of_lookup in Hin as [n Hn]. destruct (Forall2_lookup_r _ _ _ _ _ Hall Hn) as (k & _ & [Ck _ Cc Cb _]).
    unfold check_component. rewrite Cc, Hcur, String.eqb_refl, Ck. cbn [negb raise_if mbind res_bind].
    destruct (bool_decide (k = FINANCING)); destruct Cb as [-> ->].
    + rewrite !bool_decide_true by reflexivity. reflexivity.
    + rewrite bool_decide_true by reflexivity. by rewrite dec_eqb_refl.
  - unfold complete. apply forallb_forall. rewrite Hcosts. intros cost Hin. apply list_elem_of_In, list_elem_of_lookup in Hin as [n Hn].
    destruct (Forall2_lookup_r _ _ _ _ _ Hall Hn) as (k & _ & [_ [-> | ->] _ _ _]); reflexivity.
Qed.

Lemma components_total delta moved held interval costs : 0 <= cost_bound → e + f + g <= 0 → cost_bound * 6 < 10 ^ prec →
  Forall2 (component_exact e f g cost_bound m delta moved held interval) _COMPONENT_ORDER costs →
  let total := dec_sum (map (λ c, amount_or_zero (cc_reporting_amount c)) costs) in
  on_grid (e + f + g) (cost_bound * 6) total ∧
  scaled (e + f + g) total = foldr Z.add 0 (map (kind_cost e f g m moved held) _COMPONENT_ORDER).
Proof using.
  intros HB He Hroom Hall total. pose proof (Forall2_length _ _ _ Hall) as Hlen.
  assert (Forall2 (λ k c, on_grid (e + f + g) cost_bound (amount_or_zero (cc_reporting_amount c)) ∧
    scaled (e + f + g) (amount_or_zero (cc_reporting_amount c)) = kind_cost e f g m moved held k) _COMPONENT_ORDER costs) as Hamounts.
  { eapply Forall2_impl; [exact Hall|]. intros k c [_ _ _ _ (v & -> & Gv & <-)]. cbn [amount_or_zero].
    rewrite (grid_eqb (e + f + g) cost_bound cost_bound v dec_zero) by (done || by apply grid_zero).
    change (scaled (e + f + g) dec_zero) with 0. destruct (Z.eqb_spec (scaled (e + f + g) v) 0) as [->|]; [|done].
    split; [by apply grid_zero|reflexivity]. }
  destruct (grid_sum (e + f + g) cost_bound (map (λ c, amount_or_zero (cc_reporting_amount c)) costs)) as [G S'];
    [done|done| |rewrite length_map, <- Hlen; done|].
  { apply Forall_map, Forall_forall. intros c Hin. apply list_elem_of_lookup in Hin as [n Hn].
    by destruct (Forall2_lookup_r _ _ _ _ _ Hamounts Hn) as (k & _ & ? & _). }
  rewrite length_map, <- Hlen in G. split; [exact G|]. unfold total. rewrite S'. clear -Hamounts. f_equal.
  induction Hamounts as [|k c ks costs [_ E] _ IH]; [done|]. cbn [map]. by rewrite IH, E.
Qed.

Lemma evaluated current target decision_time cross H : is_utc decision_time →
  on_grid e H current → on_grid e H target → 2 * H <= A → dec_ltb cross dec_zero = false →
  ∃ st, model_evaluate m current target decision_time cross None = Ok st ∧ complete st = true ∧
    es_internal_cross_quantity st = cross ∧
    ∃ total, require_total_reporting st = Ok total ∧
      scaled (e + f + g) total = foldr Z.add 0
        (map (kind_cost e f g m (Z.abs (scaled e target - scaled e current)) (Z.abs (scaled e target))) _COMPONENT_ORDER).
Proof using P.
  intros Hutc Gc Gt HH Hcross. pose proof P as [(He & Hf & Hg & HA & HS & HR) (HA2 & HN & HN6) Hm Hcurves].
  apply model_valid in Hm as [Hk Hcur [Hv Hp] Hpos _]. pose proof (og_bound _ _ _ Gc) as Hcb.
  destruct (grid_sub e H H target current Gt Gc) as [Gs Ss]; [lia|].
  destruct (grid_abs e (H + H) _ Gs) as (Gd & Sd & _); [lia|]. destruct (grid_abs e H target Gt) as (Ga & Sa & _); [lia|].
  rewrite Ss in Sd. unfold model_evaluate. rewrite Hcross, (require_utc_is_utc _ _ Hutc). cbn [raise_if mbind res_bind default].
  rewrite (proj2 (Z.ltb_ge (cm_horizon m) 0)) by lia. cbn [raise_if mbind res_bind].
  assert (existsb (λ c, status_absent (cu_status c)) (cm_components m) = false) as ->.
  { apply not_true_iff_false. intros (c & Hin & Hc)%existsb_exists. apply list_elem_of_In, Hcurves in Hin as (_ & E & _). congruence. }
  cbn [raise_if mbind res_bind]. set (delta := dec_abs (dec_sub target current)) in *. set (held := dec_abs target) in *.
  destruct (traverse_total (component_cost m delta held (cm_horizon m) None)
    (component_exact e f g cost_bound m delta (scaled e delta) (scaled e held) (cm_horizon m)) _COMPONENT_ORDER) as (costs & -> & Hall).
  { intros k _. apply component_cost_exact; [|lia| |lia|lia]; (eapply on_grid_weaken; [|eassumption]; lia). }
  cbn [mbind res_bind].
  match goal with |- context [ExpectedCostState_new ?r] => set (st := r) end.
  destruct (components_checked st delta (scaled e delta) (scaled e held) costs) as (Hc1 & Hc2 & Hc3); [done|done|exact Hall|].
  destruct (components_total delta (scaled e delta) (scaled e held) (cm_horizon m) costs) as [_ Htot]; [nia|lia|done|exact Hall|].
  assert (ExpectedCostState_new st = Ok st) as ->.
  { unfold ExpectedCostState_new, ExpectedCostState_post_init.
    change (es_decision_time st) with decision_time. rewrite (require_utc_is_utc _ _ Hutc). cbn [mbind res_bind].
    change (es_holding_interval st) with (cm_horizon m). rewrite (proj2 (Z.ltb_ge (cm_horizon m) 0)) by lia.
    change (es_reporting_currency st) with (cm_reporting_currency m). rewrite (currency_Ok _ _ _ Hcur).
    change (es_version st) with (cm_version m). change (es_provenance st) with (cm_provenance m). rewrite Hv, Hp.
    cbn [raise_if mbind res_bind negb orb]. rewrite nonnegative_ok by done. cbn [mbind res_bind].
    change (es_components st) with costs. rewrite bool_decide_true by done. cbn [raise_if mbind res_bind negb].
    change (dec_abs (dec_sub (es_target_quantity st) (es_current_quantity st))) with delta. rewrite Hc2. reflexivity. }
  exists st. split; [reflexivity|]. split; [done|]. split; [reflexivity|].
  unfold require_total_reporting, expected_total_reporting. rewrite Hc3. cbn [negb]. eexists. split; [reflexivity|].
  change (es_components st) with costs. cbn zeta in Htot. rewrite Htot, Sd, Sa. reflexivity.
Qed.
End evaluation.

(** A position that does not move pays financing only. *)
Lemma kind_cost_unmoved e f g A S R N m held k : priced e f g A S R N m → k ≠ FINANCING →
  kind_cost e f g m 0 held k = 0.
Proof.
  intros [(He & Hf & _ & HA & HS & _) _ Hm Hcurves] Hk. apply model_valid in Hm.
  destruct (component_found m k Hm) as (c & Hc & Hin & _). destruct (Hcurves c Hin) as (Hv & _ & G & _).
  pose proof (curve_valid e f g A S R N c He Hf HA HS G Hv) as Hcs. unfold kind_cost. rewrite Hc, bool_decide_false by done.
  rewrite (curve_cost_accrued e f c 0 Hcs) by done. rewrite accrued_below; [done|done|apply Hcs].
Qed.

(** ** Properties *)

(** C33: rounding a quantity is conservative. When quantity, increment and minimum are
    multiples of one power of ten with 26 digits of room, the result is exactly the whole
    number of increments within the quantity, towards zero and with its sign, or zero when
    that is below the minimum; it never exceeds the quantity, and rounding again changes
    nothing. *)
Theorem round_quantity_truncates e B economics q :
  e <= 0 → B < 10 ^ 26 → ProductEconomics_post_init economics = Ok tt →
  on_grid e B (pe_quantity_increment economics) → on_grid e B (pe_minimum_quantity economics) → on_grid e B q →
  ∃ r, round_quantity economics q = Ok r ∧
    scaled e r = lots_of (scaled e (pe_quantity_increment economics)) (scaled e (pe_minimum_quantity economics)) (scaled e q) ∧
    dec_leb (dec_abs r) (dec_abs q) = true ∧
    ∃ r', round_quantity economics r = Ok r' ∧ dec_eqb r' r = true.
Proof.
  intros He HB Hp%product_post_init Gi Gm Gq.
  destruct (round_quantity_grid e B He HB economics q Hp Gi Gm Gq) as (r & Er & Gr & Sr).
  destruct (round_quantity_grid e B He HB economics r Hp Gi Gm Gr) as (r' & Er' & Gr' & Sr').
  pose proof (room_prec B HB) as HB'. destruct (grid_abs e B q Gq HB') as (Ga & Sa & _), (grid_abs e B r Gr HB') as (Gb & Sb & _).
  assert (0 < scaled e (pe_quantity_increment economics)) as Hi by (apply (grid_positive _ _ _ Gi), Hp).
  exists r. split; [done|]. split; [done|]. split.
  - rewrite (grid_leb e B B), Sa, Sb, Sr by done. apply Z.leb_le. by apply lots_of_bound.
  - exists r'. split; [done|]. rewrite (grid_eqb e B B), Sr', Sr by done. apply Z.eqb_eq. by apply lots_of_idemp.
Qed.


(** ** Examples *)

Definition sample_time : datetime := utc 1767225600000000.
Definition sample_charge (basis : CostBasis) : CostSchedule :=
  mkSchedule IS_AVAILABLE (Some "EUR") (Some (dec_lit 2 (-2))) (Some dec_zero) basis "v1" "reviewed" None.
Definition sample_economics (increment minimum : Decimal) : ProductEconomics :=
  mkProduct "EURUSD" IG_NATIVE_CAPTURE FIXTURE_IMPLEMENTATION "CS.D.EURUSD" "EUR" "EUR" "EUR" dec_one dec_one minimum increment
    (dec_lit 1 (-4)) dec_one (sample_charge PHYSICAL_DELTA) (sample_charge PHYSICAL_HOLDING) SUPPORTED_MODEL SS_ELIGIBLE "s1"
    sample_time sample_time (days 1) "v1" "reviewed" None None (Some "impact-v1") None None.

Definition sample_curve (k : CostComponentKind) (bps slopes : list Decimal) : ContinuousCostComponent :=
  mkCurve k (if bool_decide (k = FINANCING) then PHYSICAL_HOLDING else PHYSICAL_DELTA) "EUR" "EUR" dec_one "identity" "v1"
    slopes bps (if bool_decide (bps = []) then "LINEAR" else "PIECEWISE_LINEAR") "v1" "reviewed" IS_AVAILABLE None.
Definition sample_model : ContinuousCostModel :=
  mkCostModel "EURUSD" (minutes 15) "EUR"
    [sample_curve SPREAD [] [dec_lit 5 (-2)]; sample_curve LATENCY_MOVEMENT [] [dec_lit 1 (-2)];
     sample_curve ADVERSE_SLIPPAGE [] [dec_zero]; sample_curve COMMISSION [] [dec_lit 2 (-2)];
     sample_curve FINANCING [] [dec_lit 1 (-2)]; sample_curve IMPACT [dec_lit 10 0] [dec_lit 1 (-2); dec_lit 3 (-2)]]
    (sha256_hex "economics") "v1" "reviewed" "v1" "reviewed" "v1" SUPPORTED_MODEL IS_AVAILABLE "v1" "reviewed".

Lemma sample_curve_grid k bps slopes :
  forallb (λ b, (0 <=? dec_coeff b) && (-2 <=? dec_exp b) && (Z.abs (scaled (-2) b) <=? 10000)) bps = true →
  forallb (λ b, (0 <=? dec_coeff b) && (-2 <=? dec_exp b) && (Z.abs (scaled (-2) b) <=? 100)) slopes = true →
  (length slopes <= 2)%nat → curve_on_grid (-2) (-2) 0 10000 100 1 2 (sample_curve k bps slopes).
Proof.
  intros Hb Hs Hn. constructor; [..|by constructor|done];
    apply Forall_forall; intros x Hx%list_elem_of_In; eapply forallb_forall in Hx; try eassumption; cbn beta in Hx; bool_prop; by constructor.
Qed.

Lemma sample_priced : priced (-2) (-2) 0 10000 100 1 2 sample_model.
Proof.
  constructor; [lia|split_and!; reflexivity|vm_compute; reflexivity|].
  intros c Hc. cbn [cm_components sample_model] in Hc.
  repeat (apply elem_of_cons in Hc as [->|Hc];
    [split; [vm_compute; reflexivity|split; [reflexivity|split; [apply sample_curve_grid; try reflexivity; cbn; lia|reflexivity]]]|]).
  by apply elem_of_nil in Hc.
Qed.

Lemma sample_grid B q : (0 <=? dec_coeff q) && (-2 <=? dec_exp q) && (Z.abs (scaled (-2) q) <=? B) = true → on_grid (-2) B q.
Proof. intros H. bool_prop. by constructor. Qed.

Lemma round_quantity_truncates_witness : ∃ r,
  round_quantity (sample_economics (dec_lit 25 (-2)) (dec_lit 50 (-2))) (dec_lit (-137) (-2)) = Ok r ∧
  scaled (-2) r = -125.
Proof.
  destruct (round_quantity_truncates (-2) 1000 (sample_economics (dec_lit 25 (-2)) (dec_lit 50 (-2))) (dec_lit (-137) (-2)))
    as (r & E & S & _); [lia|reflexivity|vm_compute; reflexivity|by apply sample_grid|by apply sample_grid|by apply sample_grid|].
  exists r. split; [exact E|]. rewrite S. reflexivity.
Defined.


(** Outside that room rounding is not conservative: the quotient of 0.8999...9 (28 nines
    and digits) by 0.3 rounds up to 3, and the rounded quantity exceeds the one given. *)
Lemma round_quantity_exceeds :
  let q := dec_lit 8999999999999999999999999999 (-28) in
  let economics := sample_economics (dec_lit 3 (-1)) (dec_lit 3 (-1)) in
  ProductEconomics_post_init economics = Ok tt ∧
  ∃ r, round_quantity economics q = Ok r ∧ dec_ltb q r = true.
Proof. cbn zeta. split; [vm_compute; reflexivity|]. exists (Dec false 9 (-1)). split; vm_compute; reflexivity. Qed.
