(* ===== verification/Portfolio.v ===== *)
(** The one-horizon portfolio: sleeve keys and horizon lifecycles, virtual positions,
    intents, the netting of opposing changes inside an asset, and the replay of position
    transitions ([domain/portfolio.py]).

    A [type(value) is Class] test always holds of the typed values of the model and is
    left out, as are tests that a decimal is finite. *)

From S2P Require Import Prelude PySorted PyStr PyTime PyDecimal PyDecFn Sha256 PyJson PyFloat Domain CaptureFeed Economics.
From Stdlib Require Import Ascii.

(** ** Canonical identities *)

(** [json.dumps(..., ensure_ascii=False)] then UTF-8: escapes of control characters only,
    and two bytes for code points above 127. *)
Definition utf8_char (c : ascii) : list ascii :=
  let n := Z.of_N (N_of_ascii c) in
  if n =? 34 then ["\"%char; dquote]
  else if n =? 92 then ["\"; "\"]%char
  else if n =? 10 then ["\"; "n"]%char
  else if n =? 13 then ["\"; "r"]%char
  else if n =? 9 then ["\"; "t"]%char
  else if n =? 12 then ["\"; "f"]%char
  else if n =? 8 then ["\"; "b"]%char
  else if n <? 32 then ["\"; "u"; "0"; "0"; hex_digit (n / 16); hex_digit (n mod 16)]%char
  else if n <? 128 then [c]
  else [ascii_of_N (Z.to_N (192 + n / 64)); ascii_of_N (Z.to_N (128 + n mod 64))].

Definition utf8_str (s : string) : string := of_chars (dquote :: flat_map utf8_char (chars s) ++ [dquote]).

(** [canonical_json_bytes] of a value already made of JSON values. *)
Fixpoint canonical_json_bytes (j : json) : string :=
  match j with
  | JStr s => utf8_str s
  | JList l => "[" +:+ join "," (map canonical_json_bytes l) +:+ "]"
  | JObj kvs =>
      "{" +:+ join "," (map (λ kt, utf8_str kt.1 +:+ ":" +:+ kt.2)
                            (py_sorted fst (map (λ kv, (kv.1, canonical_json_bytes kv.2)) kvs))) +:+ "}"
  | _ => dumps j
  end.

(** [_utc_json] *)
Definition utc_json (value : datetime) : res json :=
  require_utc value "canonical identity datetime";; Ok (JStr (utc_text value)).

Definition _identity (value : json) : string := sha256_hex (canonical_json_bytes value).

Definition PORTFOLIO_CONTRACT : string := "qtrad-r3-one-horizon-portfolio-v2".
Definition ONE_HORIZON : timedelta := minutes 15.

(** ** Sleeves *)

Record SleeveKey : Type := mkSleeve {
  sk_source_class : MarketDataSourceClass;
  sk_evidence_purpose : EvidencePurpose;
  sk_experiment_id : string;
  sk_configuration_id : string;
  sk_asset_id : string;
  sk_horizon : timedelta }.
#[export] Instance SleeveKey_eq_dec : EqDecision SleeveKey.
Proof. solve_decision. Defined.

Definition class_code (c : MarketDataSourceClass) : nat :=
  match c with IG_NATIVE_CAPTURE => 0 | IBKR_HISTORICAL_RESEARCH => 1 | IBKR_NATIVE_CAPTURE => 2 end%nat.
Definition class_of_code (n : nat) : MarketDataSourceClass :=
  match n with 0 => IG_NATIVE_CAPTURE | 1 => IBKR_HISTORICAL_RESEARCH | _ => IBKR_NATIVE_CAPTURE end%nat.
Definition purpose_code (p : EvidencePurpose) : nat :=
  match p with FIXTURE_IMPLEMENTATION => 0 | HISTORICAL_EXPLORATORY => 1 | FUTURE_NATIVE_DECISION_GRADE => 2 end%nat.
Definition purpose_of_code (n : nat) : EvidencePurpose :=
  match n with 0 => FIXTURE_IMPLEMENTATION | 1 => HISTORICAL_EXPLORATORY | _ => FUTURE_NATIVE_DECISION_GRADE end%nat.

Definition sleeve_code (k : SleeveKey) : nat * nat * string * string * string * Z :=
  (class_code (sk_source_class k), purpose_code (sk_evidence_purpose k), sk_experiment_id k, sk_configuration_id k,
   sk_asset_id k, sk_horizon k).
Definition sleeve_of_code (c : nat * nat * string * string * string * Z) : SleeveKey :=
  let '(s, p, e, g, a, h) := c in mkSleeve (class_of_code s) (purpose_of_code p) e g a h.
#[export] Program Instance SleeveKey_countable : Countable SleeveKey := inj_countable' sleeve_code sleeve_of_code _.
Next Obligation. by intros [[] [] ? ? ? ?]. Qed.

Definition SleeveKey_post_init (k : SleeveKey) : res unit :=
  raise_if (negb (forallb nonempty [sk_experiment_id k; sk_configuration_id k; sk_asset_id k]))
    (ValueError "sleeve identity fields are required");;
  require_configured_horizon (sk_horizon k) "sleeve horizon";; Ok tt.

Definition canonical_tuple (k : SleeveKey) : string * string * string * string * string * Z :=
  (MarketDataSourceClass_str (sk_source_class k), EvidencePurpose_str (sk_evidence_purpose k), sk_experiment_id k,
   sk_configuration_id k, sk_asset_id k, whole_seconds (sk_horizon k)).

Definition key_json (k : SleeveKey) : json :=
  JObj [("source_class", JStr (MarketDataSourceClass_str (sk_source_class k)));
        ("evidence_purpose", JStr (EvidencePurpose_str (sk_evidence_purpose k)));
        ("experiment_id", JStr (sk_experiment_id k)); ("configuration_id", JStr (sk_configuration_id k));
        ("asset_id", JStr (sk_asset_id k)); ("horizon_seconds", JInt (whole_seconds (sk_horizon k)))].

Definition position_json (key : SleeveKey) (quantity : Decimal) : json :=
  JObj [("contract", JStr PORTFOLIO_CONTRACT); ("key", key_json key); ("quantity", dec_json quantity)].
Definition _position_identity (key : SleeveKey) (quantity : Decimal) : string := _identity (position_json key quantity).

(** [_zero_forecast_blocks] *)
Definition _zero_forecast_blocks (prior proposed : Decimal) : bool :=
  let nonzero d := negb (dec_eqb d dec_zero) in
  let increases := dec_ltb (dec_abs prior) (dec_abs proposed) in
  let reverses := nonzero prior && nonzero proposed
                  && negb (Bool.eqb (dec_ltb dec_zero prior) (dec_ltb dec_zero proposed)) in
  let opens := dec_eqb prior dec_zero && nonzero proposed in
  increases || reverses || opens.

(** ** Horizon lifecycle *)

Record HorizonState : Type := mkHorizon {
  hs_key : SleeveKey;
  hs_decision_time : datetime;
  hs_expiry_time : datetime;
  hs_review_identity : string;
  hs_model_identity : string;
  hs_configuration_identity : string;
  hs_forecast_identity : string }.

Definition HorizonState_post_init (s : HorizonState) : res unit :=
  require_utc (hs_decision_time s) "horizon state decision time";;
  require_utc (hs_expiry_time s) "horizon state expiry time";;
  raise_if (dt_leb (hs_expiry_time s) (hs_decision_time s)) (ValueError "horizon state expiry must follow decision time");;
  raise_if (negb (dt_diff (hs_expiry_time s) (hs_decision_time s) =? sk_horizon (hs_key s)))
    (ValueError "horizon state expiry must match sleeve horizon");;
  raise_if (negb (forallb nonempty [hs_review_identity s; hs_model_identity s; hs_configuration_identity s;
                                    hs_forecast_identity s]))
    (ValueError "horizon state identities are required").

Definition horizon_payload (s : HorizonState) : res json :=
  decision_time ← utc_json (hs_decision_time s);
  expiry_time ← utc_json (hs_expiry_time s);
  Ok (JObj [("key", key_json (hs_key s)); ("decision_time", decision_time); ("expiry_time", expiry_time);
            ("review_identity", JStr (hs_review_identity s)); ("model_identity", JStr (hs_model_identity s));
            ("configuration_identity", JStr (hs_configuration_identity s));
            ("forecast_identity", JStr (hs_forecast_identity s))]).

Definition horizon_semantic_identity (s : HorizonState) : res string := _identity <$> horizon_payload s.

Definition horizon_closure_identity (s : HorizonState) : res string :=
  semantic ← horizon_semantic_identity s;
  payload ← horizon_payload s;
  Ok (_identity (JObj [("semantic_identity", JStr semantic); ("closure", payload)])).

(** ** Virtual positions and intents *)

Record VirtualPosition : Type := mkPosition {
  vp_key : SleeveKey;
  vp_quantity : Decimal;
  vp_state_identity : string }.
#[export] Instance VirtualPosition_eq_dec : EqDecision VirtualPosition.
Proof. solve_decision. Defined.

Definition VirtualPosition_new (key : SleeveKey) (quantity : Decimal) (state_identity : string) : res VirtualPosition :=
  let expected_identity := _position_identity key quantity in
  let state_identity := if nonempty state_identity then state_identity else expected_identity in
  _require_identity state_identity "virtual state identity";;
  raise_if (negb (String.eqb state_identity expected_identity))
    (ValueError "virtual state identity does not match key and quantity");;
  Ok (mkPosition key quantity state_identity).

Record HorizonIntent : Type := mkIntent {
  hi_key : SleeveKey;
  hi_prior_quantity : Decimal;
  hi_requested_quantity : Decimal;
  hi_gross_forecast : GrossForecast;
  hi_gross_sleeve_value : Decimal;
  hi_decision_time : datetime;
  hi_expiry_time : datetime;
  hi_model_identity : string;
  hi_reason_codes : list string }.

Definition HorizonIntent_post_init (i : HorizonIntent) : res unit :=
  _require_nonnegative (hi_gross_sleeve_value i) "gross sleeve value";;
  require_utc (hi_decision_time i) "intent decision time";;
  require_utc (hi_expiry_time i) "intent expiry time";;
  let terminal := dt_eqb (hi_expiry_time i) (hi_decision_time i)
                  && existsb (String.eqb "TERMINAL_EVENT") (hi_reason_codes i) in
  raise_if (dt_leb (hi_expiry_time i) (hi_decision_time i) && negb terminal)
    (ValueError "intent expiry must follow decision time");;
  raise_if (negb (gf_horizon (hi_gross_forecast i) =? sk_horizon (hi_key i)))
    (ValueError "intent forecast horizon must match sleeve horizon");;
  raise_if (negb (String.eqb (gf_model_identity (hi_gross_forecast i)) (hi_model_identity i)))
    (ValueError "intent model identity must match gross forecast").

Definition intent_requested_delta (i : HorizonIntent) : Decimal := dec_sub (hi_requested_quantity i) (hi_prior_quantity i).
Definition intent_tuple (i : HorizonIntent) : string * string * string * string * string * Z := canonical_tuple (hi_key i).

Definition ZERO_BLOCKED : string := "ZERO_FORECAST_NEW_EXPOSURE_BLOCKED".

Definition construct_horizon_intent (position : VirtualPosition) (gross_forecast : GrossForecast)
    (requested_quantity gross_sleeve_value : Decimal) (decision_time expiry_time : datetime) (reason_codes : list string)
    : res HorizonIntent :=
  let blocks := dec_eqb (gf_expected_return gross_forecast) dec_zero
                && _zero_forecast_blocks (vp_quantity position) requested_quantity in
  let requested := if blocks then vp_quantity position else requested_quantity in
  let reasons := if blocks && negb (existsb (String.eqb ZERO_BLOCKED) reason_codes)
                 then reason_codes ++ [ZERO_BLOCKED] else reason_codes in
  let i := mkIntent (vp_key position) (vp_quantity position) requested gross_forecast gross_sleeve_value
             decision_time expiry_time (gf_model_identity gross_forecast) reasons in
  HorizonIntent_post_init i;; Ok i.

Definition forecast_json (f : GrossForecast) (horizon : string * json) : json :=
  JObj [("expected_return", dec_json (gf_expected_return f)); horizon; ("return_unit", JStr (gf_return_unit f));
        ("model_identity", JStr (gf_model_identity f))].

Definition intent_json (i : HorizonIntent) : res json :=
  decision_time ← utc_json (hi_decision_time i);
  expiry_time ← utc_json (hi_expiry_time i);
  Ok (JObj [("key", key_json (hi_key i)); ("prior_quantity", dec_json (hi_prior_quantity i));
            ("requested_quantity", dec_json (hi_requested_quantity i));
            ("gross_forecast", forecast_json (hi_gross_forecast i)
               ("horizon_seconds", JInt (whole_seconds (gf_horizon (hi_gross_forecast i)))));
            ("gross_sleeve_value", dec_json (hi_gross_sleeve_value i)); ("decision_time", decision_time);
            ("expiry_time", expiry_time); ("model_identity", JStr (hi_model_identity i));
            ("reason_codes", JList (map JStr (hi_reason_codes i)))]).

(** ** Netting *)

Record SleeveAttribution : Type := mkAttribution {
  sa_key : SleeveKey;
  sa_requested_delta : Decimal;
  sa_internal_cross_quantity : Decimal;
  sa_external_delta_share : Decimal }.
#[export] Instance SleeveAttribution_eq_dec : EqDecision SleeveAttribution.
Proof. solve_decision. Defined.

Definition SleeveAttribution_new (key : SleeveKey) (requested_delta internal_cross_quantity external_delta_share : Decimal)
    : res SleeveAttribution :=
  _require_nonnegative internal_cross_quantity "attribution internal cross quantity";;
  raise_if (negb (dec_eqb (dec_add (dec_abs external_delta_share) internal_cross_quantity) (dec_abs requested_delta)))
    (ValueError "sleeve attribution does not reconcile requested delta");;
  Ok (mkAttribution key requested_delta internal_cross_quantity external_delta_share).

Record AssetNetting : Type := mkAssetNetting {
  an_asset_id : string;
  an_requested_delta : Decimal;
  an_external_delta : Decimal;
  an_internal_cross_quantity : Decimal;
  an_attributions : list SleeveAttribution }.
#[export] Instance AssetNetting_eq_dec : EqDecision AssetNetting.
Proof. solve_decision. Defined.

Definition dec_two : Decimal := dec_of_Z 2.
Definition attribution_order (a : SleeveAttribution) : string * string * string * string * string * Z := canonical_tuple (sa_key a).
Definition AssetNetting_post_init (a : AssetNetting) : res unit :=
  _require_nonnegative (an_internal_cross_quantity a) "asset internal cross quantity";;
  raise_if (negb (dec_eqb (an_external_delta a) (an_requested_delta a)))
    (ValueError "internal crosses must not change physical delta");;
  raise_if (negb (dec_eqb (dec_sum (map sa_external_delta_share (an_attributions a))) (an_external_delta a)))
    (ValueError "asset external attribution does not reconcile");;
  raise_if (negb (dec_eqb (dec_sum (map sa_internal_cross_quantity (an_attributions a)))
                          (dec_mul (an_internal_cross_quantity a) dec_two)))
    (ValueError "asset internal attribution does not reconcile");;
  raise_if (negb (bool_decide (py_sorted attribution_order (an_attributions a) = an_attributions a))) (ValueError "asset attributions must be canonical");;
  raise_if (has_duplicates (map sa_key (an_attributions a))) (ValueError "asset attributions must be unique");;
  raise_if (existsb (λ x, negb (String.eqb (sk_asset_id (sa_key x)) (an_asset_id a))) (an_attributions a))
    (ValueError "asset attribution asset mismatch").

Record NettingResult : Type := mkNetting {
  nr_source_class : MarketDataSourceClass;
  nr_evidence_purpose : EvidencePurpose;
  nr_assets : list AssetNetting;
  nr_sleeves : list SleeveAttribution }.

(** Equality of attributions compares decimals by value. *)
Definition attribution_eqb (a b : SleeveAttribution) : bool :=
  bool_decide (sa_key a = sa_key b) && dec_eqb (sa_requested_delta a) (sa_requested_delta b)
  && dec_eqb (sa_internal_cross_quantity a) (sa_internal_cross_quantity b)
  && dec_eqb (sa_external_delta_share a) (sa_external_delta_share b).
Fixpoint eqb_list {A} (eqb : A → A → bool) (l l' : list A) : bool :=
  match l, l' with
  | [], [] => true
  | x :: l, y :: l' => eqb x y && eqb_list eqb l l'
  | _, _ => false
  end.

Lemma attribution_eqb_refl a : attribution_eqb a a = true.
Proof. unfold attribution_eqb. by rewrite bool_decide_true, !dec_eqb_refl. Qed.
Lemma eqb_list_refl {A} (eqb : A → A → bool) l : (∀ x, eqb x x = true) → eqb_list eqb l l = true.
Proof. intros H. induction l as [|x l IH]; [done|]. cbn. by rewrite H, IH. Qed.

Definition NettingResult_post_init (r : NettingResult) : res unit :=
  raise_if (bool_decide (nr_assets r = [])) (ValueError "netting must contain at least one asset");;
  raise_if (negb (bool_decide (py_sorted an_asset_id (nr_assets r) = nr_assets r))) (ValueError "netting assets must be canonical");;
  raise_if (has_duplicates (map an_asset_id (nr_assets r))) (ValueError "netting assets must be unique");;
  raise_if (negb (bool_decide (py_sorted attribution_order (nr_sleeves r) = nr_sleeves r))) (ValueError "netting sleeves must be canonical");;
  raise_if (has_duplicates (map sa_key (nr_sleeves r))) (ValueError "netting sleeves must be unique");;
  raise_if (existsb (λ x, negb (bool_decide (sk_source_class (sa_key x) = nr_source_class r))
                          || negb (bool_decide (sk_evidence_purpose (sa_key x) = nr_evidence_purpose r))) (nr_sleeves r))
    (ValueError "netting sleeve source and evidence purpose mismatch");;
  raise_if (negb (eqb_list attribution_eqb (flat_map an_attributions (nr_assets r)) (nr_sleeves r)))
    (ValueError "netting sleeve attributions must reconcile").

Definition asset_order (r : NettingResult) : list string := map an_asset_id (nr_assets r).
Definition external_deltas (r : NettingResult) : list Decimal := map an_external_delta (nr_assets r).
Definition netting_internal_cross (r : NettingResult) : Decimal := dec_sum (map an_internal_cross_quantity (nr_assets r)).

Definition netting_json (r : NettingResult) : json :=
  JObj [("contract", JStr PORTFOLIO_CONTRACT); ("source_class", JStr (MarketDataSourceClass_str (nr_source_class r)));
        ("evidence_purpose", JStr (EvidencePurpose_str (nr_evidence_purpose r)));
        ("assets", JList (map (λ a, JObj
           [("asset_id", JStr (an_asset_id a)); ("requested_delta", dec_json (an_requested_delta a));
            ("external_delta", dec_json (an_external_delta a));
            ("internal_cross_quantity", dec_json (an_internal_cross_quantity a));
            ("attributions", JList (map (λ x, JObj
               [("key", key_json (sa_key x)); ("requested_delta", dec_json (sa_requested_delta x));
                ("internal_cross_quantity", dec_json (sa_internal_cross_quantity x));
                ("external_delta_share", dec_json (sa_external_delta_share x))]) (an_attributions a)))]) (nr_assets r)))].
Definition netting_semantic_identity (r : NettingResult) : string := _identity (netting_json r).

(** *** Matching *)

Notation quantities := (gmap SleeveKey Decimal).

(** [d[k]] *)
Definition item (d : quantities) (k : SleeveKey) : res Decimal :=
  match d !! k with Some v => Ok v | None => Raise (KeyError "") end.

(** One iteration of the [while] loop: the amounts crossed by the current buyer and
    seller, and the updates of the two dictionaries. *)
Definition cross_step (deltas crosses : quantities) (buyer seller : SleeveKey) : res (quantities * quantities) :=
  bought ← item deltas buyer;
  sold ← item deltas seller;
  let amount := dec_min bought (dec_opp sold) in
  buyer_crosses ← item crosses buyer;
  let crosses := <[buyer := dec_add buyer_crosses amount]> crosses in
  seller_crosses ← item crosses seller;
  let crosses := <[seller := dec_add seller_crosses amount]> crosses in
  let deltas := <[buyer := dec_sub bought amount]> deltas in
  sold ← item deltas seller;
  Ok (<[seller := dec_add sold amount]> deltas, crosses).

(** The loop over the buyers and sellers not yet exhausted. *)
Fixpoint match_loop (fuel : nat) (buyers sellers : list SleeveKey) (deltas crosses : quantities) : res (quantities * quantities) :=
  match buyers, sellers with
  | buyer :: buyers', seller :: sellers' =>
      match fuel with
      | O => Raise (RuntimeError "the matching loop did not end")
      | S fuel =>
          '(deltas, crosses) ← cross_step deltas crosses buyer seller;
          bought ← item deltas buyer;
          sold ← item deltas seller;
          match_loop fuel (if dec_eqb bought dec_zero then buyers' else buyers)
                          (if dec_eqb sold dec_zero then sellers' else sellers) deltas crosses
      end
  | _, _ => Ok (deltas, crosses)
  end.

Definition attribute (crosses : quantities) (i : HorizonIntent) : res SleeveAttribution :=
  crossed ← item crosses (hi_key i);
  let requested := intent_requested_delta i in
  let sign := if dec_leb dec_zero requested then dec_one else dec_of_Z (-1) in
  SleeveAttribution_new (hi_key i) requested crossed (dec_mul sign (dec_sub (dec_abs requested) crossed)).

Definition net_asset (asset_id : string) (sleeves : list HorizonIntent) : res AssetNetting :=
  let deltas : quantities := list_to_map (map (λ i, (hi_key i, intent_requested_delta i)) sleeves) in
  let crosses : quantities := list_to_map (map (λ i, (hi_key i, dec_zero)) sleeves) in
  let buyers := List.filter (λ i, dec_ltb dec_zero (intent_requested_delta i)) sleeves in
  let sellers := List.filter (λ i, dec_ltb (intent_requested_delta i) dec_zero) sleeves in
  '(_, crosses) ← match_loop (length buyers + length sellers) (map hi_key buyers) (map hi_key sellers) deltas crosses;
  attributions ← traverse (attribute crosses) sleeves;
  internal_cross ← dec_div (dec_sum (map sa_internal_cross_quantity attributions)) dec_two;
  let asset := mkAssetNetting asset_id (dec_sum (map intent_requested_delta sleeves))
                 (dec_sum (map sa_external_delta_share attributions)) internal_cross attributions in
  AssetNetting_post_init asset;; Ok asset.

Definition of_asset (asset_id : string) (i : HorizonIntent) : bool := String.eqb (sk_asset_id (hi_key i)) asset_id.

Definition match_internal_opposing_changes (intents : list HorizonIntent) : res NettingResult :=
  match py_sorted intent_tuple intents with
  | [] => Raise (ValueError "netting requires at least one sleeve intent")
  | (first :: _) as ordered =>
      raise_if (has_duplicates (map hi_key ordered)) (ValueError "duplicate sleeve intent is not deterministic");;
      let source_class := sk_source_class (hi_key first) in
      let evidence_purpose := sk_evidence_purpose (hi_key first) in
      raise_if (existsb (λ i, negb (bool_decide (sk_source_class (hi_key i) = source_class))
                              || negb (bool_decide (sk_evidence_purpose (hi_key i) = evidence_purpose))) ordered)
        (ValueError "mixed sleeve source class or evidence purpose is not allowed");;
      let by_asset := py_sorted id (remove_dups (map (λ i, sk_asset_id (hi_key i)) ordered)) in
      assets ← traverse (λ asset_id, net_asset asset_id (List.filter (of_asset asset_id) ordered)) by_asset;
      let r := mkNetting source_class evidence_purpose assets (flat_map an_attributions assets) in
      NettingResult_post_init r;; Ok r
  end.

(** ** Transitions and replay *)

Inductive DecisionDisposition : Type := ACCEPTED | BLOCKED.
#[export] Instance DecisionDisposition_eq_dec : EqDecision DecisionDisposition.
Proof. solve_decision. Defined.
Definition DecisionDisposition_str (d : DecisionDisposition) : string :=
  match d with ACCEPTED => "ACCEPTED" | BLOCKED => "BLOCKED" end.

Record VirtualPositionTransition : Type := mkTransition {
  vt_key : SleeveKey;
  vt_prior_quantity : Decimal;
  vt_next_quantity : Decimal;
  vt_gross_forecast : GrossForecast;
  vt_decision_time : datetime;
  vt_expiry_time : datetime;
  vt_model_identity : string;
  vt_risk_policy_identity : string;
  vt_cost_policy_identity : string;
  vt_prior_state_identity : string;
  vt_successor_state_identity : string;
  vt_disposition : DecisionDisposition;
  vt_accepted_physical_quantity : Decimal;
  vt_external_delta_share : Decimal;
  vt_internal_cross_quantity : Decimal;
  vt_reason_codes : list string }.

Definition transition_requested_delta (t : VirtualPositionTransition) : Decimal := dec_sub (vt_next_quantity t) (vt_prior_quantity t).

Definition VirtualPositionTransition_post_init (t : VirtualPositionTransition) : res unit :=
  _require_nonnegative (vt_internal_cross_quantity t) "transition internal cross quantity";;
  require_utc (vt_decision_time t) "transition decision time";;
  require_utc (vt_expiry_time t) "transition expiry time";;
  raise_if (dt_leb (vt_expiry_time t) (vt_decision_time t)) (ValueError "transition expiry must follow decision time");;
  raise_if (negb (dt_diff (vt_expiry_time t) (vt_decision_time t) =? gf_horizon (vt_gross_forecast t)))
    (ValueError "transition expiry must match gross forecast horizon");;
  raise_if (negb (gf_horizon (vt_gross_forecast t) =? sk_horizon (vt_key t)))
    (ValueError "transition forecast horizon must match sleeve horizon");;
  raise_if (negb (String.eqb (gf_model_identity (vt_gross_forecast t)) (vt_model_identity t)))
    (ValueError "transition model identity must match gross forecast");;
  raise_if (dec_eqb (gf_expected_return (vt_gross_forecast t)) dec_zero
            && _zero_forecast_blocks (vt_prior_quantity t) (vt_next_quantity t))
    (ValueError "zero forecast cannot create new exposure");;
  raise_if (negb (dec_eqb (dec_add (dec_abs (vt_external_delta_share t)) (vt_internal_cross_quantity t))
                          (dec_abs (transition_requested_delta t))))
    (ValueError "transition attribution does not reconcile requested delta");;
  _require_identity (vt_prior_state_identity t) "transition prior state identity";;
  _require_identity (vt_successor_state_identity t) "transition successor state identity";;
  raise_if (negb (String.eqb (vt_successor_state_identity t) (_position_identity (vt_key t) (vt_next_quantity t))))
    (ValueError "transition successor state identity does not match next quantity");;
  raise_if (bool_decide (vt_disposition t = BLOCKED)
            && (negb (dec_eqb (vt_next_quantity t) (vt_prior_quantity t))
                || negb (String.eqb (vt_successor_state_identity t) (_position_identity (vt_key t) (vt_prior_quantity t)))))
    (ValueError "blocked transition must preserve the prior position");;
  raise_if (negb (nonempty (vt_model_identity t)) || negb (nonempty (vt_risk_policy_identity t))
            || negb (nonempty (vt_cost_policy_identity t)))
    (ValueError "transition policy and model identities are required").

Definition transition_order (t : VirtualPositionTransition) : string * string * string * string * string * Z * Z :=
  (canonical_tuple (vt_key t), instant (vt_decision_time t)).

Definition transition_json (t : VirtualPositionTransition) : res json :=
  decision_time ← utc_json (vt_decision_time t);
  expiry_time ← utc_json (vt_expiry_time t);
  Ok (JObj [("key", key_json (vt_key t)); ("prior_quantity", dec_json (vt_prior_quantity t));
            ("next_quantity", dec_json (vt_next_quantity t));
            ("gross_forecast", forecast_json (vt_gross_forecast t) ("horizon", span_json (gf_horizon (vt_gross_forecast t))));
            ("decision_time", decision_time); ("expiry_time", expiry_time); ("model_identity", JStr (vt_model_identity t));
            ("risk_policy_identity", JStr (vt_risk_policy_identity t));
            ("cost_policy_identity", JStr (vt_cost_policy_identity t));
            ("prior_state_identity", JStr (vt_prior_state_identity t));
            ("successor_state_identity", JStr (vt_successor_state_identity t));
            ("disposition", JStr (DecisionDisposition_str (vt_disposition t)));
            ("accepted_physical_quantity", dec_json (vt_accepted_physical_quantity t));
            ("external_delta_share", dec_json (vt_external_delta_share t));
            ("internal_cross_quantity", dec_json (vt_internal_cross_quantity t));
            ("reason_codes", JList (map JStr (vt_reason_codes t)))]).

Definition transition_identity (t : VirtualPositionTransition) : res string :=
  transition ← transition_json t;
  Ok (_identity (JObj [("contract", JStr PORTFOLIO_CONTRACT); ("transition", transition)])).

Record VirtualReplay : Type := mkReplay {
  rp_positions : list VirtualPosition;
  rp_transition_count : Z;
  rp_transition_identities : list string }.

Definition position_order (p : VirtualPosition) : string * string * string * string * string * Z := canonical_tuple (vp_key p).

Definition VirtualReplay_post_init (r : VirtualReplay) : res unit :=
  raise_if (rp_transition_count r <? 0) (ValueError "replay transition count must be non-negative");;
  raise_if (negb (bool_decide (py_sorted position_order (rp_positions r) = rp_positions r)))
    (ValueError "replay positions must be canonical");;
  raise_if (has_duplicates (map vp_key (rp_positions r))) (ValueError "replay positions must have unique sleeves");;
  for_each (λ _ p, _require_identity (vp_state_identity p) "replay position state identity") tt (rp_positions r);;
  raise_if (negb (Z.of_nat (length (rp_transition_identities r)) =? rp_transition_count r))
    (ValueError "replay transition identities must match transition count");;
  for_each (λ _ i, _require_identity i "replay transition identity") tt (rp_transition_identities r).

Definition replay_json (r : VirtualReplay) : json :=
  JObj [("contract", JStr PORTFOLIO_CONTRACT); ("transition_count", JInt (rp_transition_count r));
        ("transition_identities", JList (map JStr (rp_transition_identities r)));
        ("positions", JList (map (λ p, JObj
           [("key", key_json (vp_key p)); ("quantity", dec_json (vp_quantity p));
            ("state_identity", JStr (vp_state_identity p))]) (rp_positions r)))].
Definition replay_semantic_identity (r : VirtualReplay) : string := _identity (replay_json r).

Notation positions := (gmap SleeveKey VirtualPosition).

(** An initial position is given as a position or as a bare quantity. *)
Definition initial_position (current : positions) (kv : SleeveKey * (VirtualPosition + Decimal)) : res positions :=
  position ← match kv.2 with inl p => Ok p | inr q => VirtualPosition_new kv.1 q "" end;
  raise_if (negb (bool_decide (vp_key position = kv.1))) (ValueError "initial virtual position key mismatch");;
  Ok (<[kv.1 := position]> current).

Definition apply_transition (current : positions) (t : VirtualPositionTransition) : res positions :=
  let previous_quantity := match current !! vt_key t with Some p => vp_quantity p | None => dec_zero end in
  let previous_identity := match current !! vt_key t with
                           | Some p => vp_state_identity p
                           | None => _position_identity (vt_key t) dec_zero end in
  raise_if (negb (dec_eqb previous_quantity (vt_prior_quantity t)))
    (ValueError "virtual transition prior quantity does not match replay state");;
  raise_if (negb (String.eqb previous_identity (vt_prior_state_identity t)))
    (ValueError "virtual transition prior state identity does not match replay state");;
  raise_if (dec_eqb (gf_expected_return (vt_gross_forecast t)) dec_zero
            && _zero_forecast_blocks previous_quantity (vt_next_quantity t))
    (ValueError "zero forecast cannot create new exposure during replay");;
  position ← VirtualPosition_new (vt_key t) (vt_next_quantity t) (vt_successor_state_identity t);
  Ok (<[vt_key t := position]> current).

Definition replay_virtual_transitions (initial_positions : list (SleeveKey * (VirtualPosition + Decimal)))
    (transitions : list VirtualPositionTransition) : res VirtualReplay :=
  current ← for_each initial_position ∅ initial_positions;
  let ordered := py_sorted transition_order transitions in
  raise_if (has_duplicates (map (λ t, (vt_key t, instant (vt_decision_time t))) ordered))
    (ValueError "duplicate sleeve transition is not deterministic");;
  current ← for_each apply_transition current ordered;
  identities ← traverse transition_identity ordered;
  let sorted_positions := omap (M:=list) (λ k, current !! k) (py_sorted canonical_tuple (elements (dom current))) in
  let r := mkReplay sorted_positions (Z.of_nat (length ordered)) identities in
  VirtualReplay_post_init r;; Ok r.

(** ** The matching loop *)

Lemma grid_tighten e A B a : on_grid e A a → Z.abs (scaled e a) <= B → on_grid e B a.
Proof. intros [] ?. by constructor. Qed.

Section matching.
Context (e D : Z) (Hexp : e <= 0) (HD : 2 * D < 10 ^ prec).
Context (requested : SleeveKey → Z) (Hreq : ∀ k, Z.abs (requested k) <= D).

(** The value of an entry, in units of the grid. *)
Definition val (m : quantities) (k : SleeveKey) : Z := from_option (scaled e) 0 (m !! k).
Definition total (m : quantities) (ks : list SleeveKey) : Z := foldr Z.add 0 (map (val m) ks).

Lemma item_val m k v : m !! k = Some v → item m k = Ok v ∧ val m k = scaled e v.
Proof. unfold item, val. by intros ->. Qed.

Lemma item_insert_ne (m : quantities) k v k' : k ≠ k' → item (<[k := v]> m) k' = item m k'.
Proof. intros. unfold item. by rewrite lookup_insert_ne. Qed.

Lemma val_insert m k v k' : val (<[k := v]> m) k' = if decide (k = k') then scaled e v else val m k'.
Proof. unfold val. destruct (decide (k = k')) as [->|]; by rewrite ?lookup_insert_eq, ?lookup_insert_ne. Qed.

Lemma total_insert m k v ks : NoDup ks →
  total (<[k := v]> m) ks = total m ks + if decide (k ∈ ks) then scaled e v - val m k else 0.
Proof.
  induction 1 as [|k' ks Hni Hnd IH]; [done|]. unfold total in *. cbn [map foldr]. rewrite val_insert, IH.
  destruct (decide (k = k')) as [->|Hne].
  - rewrite (decide_False (P := k' ∈ ks)), (decide_True (P := k' ∈ k' :: ks)) by (done || by left). lia.
  - destruct (decide (k ∈ ks)); [rewrite decide_True by (by right)|rewrite decide_False by set_solver]; lia.
Qed.

(** Where a sleeve stands: what it asked for is what is left and what was crossed. *)
Record buying (ds cs : quantities) (k : SleeveKey) : Prop := {
  by_entry : ∃ d c, ds !! k = Some d ∧ cs !! k = Some c ∧ on_grid e D d ∧ on_grid e D c;
  by_signs : 0 <= val ds k ∧ 0 <= val cs k ∧ val ds k + val cs k = requested k }.
Record selling (ds cs : quantities) (k : SleeveKey) : Prop := {
  se_entry : ∃ d c, ds !! k = Some d ∧ cs !! k = Some c ∧ on_grid e D d ∧ on_grid e D c;
  se_signs : val ds k <= 0 ∧ 0 <= val cs k ∧ val ds k - val cs k = requested k }.

Context (all_buyers all_sellers : list SleeveKey) (HB : NoDup all_buyers) (HS : NoDup all_sellers)
        (Hdisj : ∀ k, k ∈ all_buyers → k ∉ all_sellers).

Record matching (cs0 : quantities) (buyers sellers : list SleeveKey) (ds cs : quantities) : Prop := {
  mt_buying : ∀ k, k ∈ all_buyers → buying ds cs k;
  mt_selling : ∀ k, k ∈ all_sellers → selling ds cs k;
  mt_balanced : total cs all_buyers = total cs all_sellers;
  mt_buyers : ∀ k, k ∈ buyers → k ∈ all_buyers ∧ 0 < val ds k;
  mt_sellers : ∀ k, k ∈ sellers → k ∈ all_sellers ∧ val ds k < 0;
  mt_bought : ∀ k, k ∈ all_buyers → k ∉ buyers → val ds k = 0;
  mt_sold : ∀ k, k ∈ all_sellers → k ∉ sellers → val ds k = 0;
  mt_unique : NoDup buyers ∧ NoDup sellers;
  mt_others : ∀ k, k ∉ all_buyers → k ∉ all_sellers → cs !! k = cs0 !! k }.

Lemma cross_amount bought sold : on_grid e D bought → on_grid e D sold → 0 < scaled e bought → scaled e sold < 0 →
  let amount := dec_min bought (dec_opp sold) in
  on_grid e D amount ∧ scaled e amount = Z.min (scaled e bought) (- scaled e sold).
Proof using HD.
  intros Gb Gs Hb Hs. pose proof (og_bound _ _ _ Gb). destruct (grid_opp e D sold Gs) as [Go So]; [lia|].
  cbn zeta. rewrite <- So. by apply grid_min.
Qed.

(** Adding or subtracting within the bound of the grid. *)
Lemma grid_add_within a b : on_grid e D a → on_grid e D b → Z.abs (scaled e a + scaled e b) <= D →
  on_grid e D (dec_add a b) ∧ scaled e (dec_add a b) = scaled e a + scaled e b.
Proof using HD.
  intros Ga Gb Hle. destruct (grid_add e D D a b Ga Gb) as [G S]; [lia|]. split; [|done]. eapply grid_tighten; [exact G|by rewrite S].
Qed.
Lemma grid_sub_within a b : on_grid e D a → on_grid e D b → Z.abs (scaled e a - scaled e b) <= D →
  on_grid e D (dec_sub a b) ∧ scaled e (dec_sub a b) = scaled e a - scaled e b.
Proof using HD.
  intros Ga Gb Hle. destruct (grid_sub e D D a b Ga Gb) as [G S]; [lia|]. split; [|done]. eapply grid_tighten; [exact G|by rewrite S].
Qed.

(** One iteration moves the smaller amount from what is left to what is crossed. *)
Lemma cross_step_spec ds cs b s : buying ds cs b → selling ds cs s → b ≠ s → 0 < val ds b → val ds s < 0 →
  let a := Z.min (val ds b) (- val ds s) in
  ∃ db cb dse cse, cross_step ds cs b s = Ok (<[s := dse]> (<[b := db]> ds), <[s := cse]> (<[b := cb]> cs)) ∧
    on_grid e D db ∧ on_grid e D cb ∧ on_grid e D dse ∧ on_grid e D cse ∧
    scaled e db = val ds b - a ∧ scaled e cb = val cs b + a ∧ scaled e dse = val ds s + a ∧ scaled e cse = val cs s + a.
Proof using HD Hreq.
  intros [(d & c & Hd & Hc & Gd & Gc) Sb] [(d' & c' & Hd' & Hc' & Gd' & Gc') Ss] Hne Pb Ps a.
  destruct (item_val ds b d Hd) as [Id Vd], (item_val cs b c Hc) as [Ic Vc], (item_val ds s d' Hd') as [Id' Vd'], (item_val cs s c' Hc') as [Ic' Vc'].
  pose proof (Hreq b). pose proof (Hreq s). unfold a. rewrite Vd, Vd', Vc, Vc' in *.
  destruct (cross_amount d d' Gd Gd' Pb Ps) as [Ga Sa]. set (amount := dec_min d (dec_opp d')) in *. cbn zeta in Ga, Sa.
  destruct (grid_sub_within d amount Gd Ga) as [G1 S1]; [lia|]. destruct (grid_add_within c amount Gc Ga) as [G2 S2]; [lia|].
  destruct (grid_add_within d' amount Gd' Ga) as [G3 S3]; [lia|]. destruct (grid_add_within c' amount Gc' Ga) as [G4 S4]; [lia|].
  exists (dec_sub d amount), (dec_add c amount), (dec_add d' amount), (dec_add c' amount).
  split; [|split_and!; (done || lia)]. unfold cross_step. rewrite Id, Id'. cbn [mbind res_bind]. fold amount.
  rewrite Ic. cbn [mbind res_bind]. rewrite !item_insert_ne by done. rewrite Ic'. cbn [mbind res_bind].
  by rewrite Id'.
Qed.

(** The entries of a sleeve that an iteration does not touch. *)
Lemma buying_frame ds cs ds' cs' k : ds' !! k = ds !! k → cs' !! k = cs !! k → buying ds cs k → buying ds' cs' k.
Proof using. intros E1 E2 [(d & c & ? & ? & ? & ?) Hsigns]. unfold val in *. constructor; [|by unfold val; rewrite E1, E2]. exists d, c. by rewrite E1, E2. Qed.
Lemma selling_frame ds cs ds' cs' k : ds' !! k = ds !! k → cs' !! k = cs !! k → selling ds cs k → selling ds' cs' k.
Proof using. intros E1 E2 [(d & c & ? & ? & ? & ?) Hsigns]. unfold val in *. constructor; [|by unfold val; rewrite E1, E2]. exists d, c. by rewrite E1, E2. Qed.

(** The list left after an iteration: its head stays while something is left of it. *)
Definition remaining (v : Decimal) (k : SleeveKey) (ks : list SleeveKey) : list SleeveKey :=
  if dec_eqb v dec_zero then ks else k :: ks.

Lemma remaining_spec (ds ds' : quantities) (P : Z → Prop) v k ks (all : list SleeveKey) : on_grid e D v → ds' !! k = Some v →
  (∀ k', k' ∈ ks → ds' !! k' = ds !! k') → (scaled e v ≠ 0 → P (scaled e v)) → NoDup (k :: ks) →
  (∀ k', k' ∈ k :: ks → k' ∈ all ∧ P (val ds k')) →
  (∀ k', k' ∈ remaining v k ks → k' ∈ all ∧ P (val ds' k')) ∧ NoDup (remaining v k ks) ∧
  (k ∉ remaining v k ks → val ds' k = 0) ∧ (∀ k', k' ≠ k → k' ∉ remaining v k ks → k' ∉ k :: ks).
Proof using All.
  intros G Hk Hframe Hv Hnd Hks. unfold remaining. pose proof (og_bound _ _ _ G).
  rewrite (grid_eqb e D D) by (done || apply grid_zero; lia). change (scaled e dec_zero) with 0.
  assert (val ds' k = scaled e v) as Vk by (unfold val; by rewrite Hk).
  assert (∀ k', k' ∈ ks → k' ∈ all ∧ P (val ds' k')) as Htl.
  { intros k' Hin. unfold val. rewrite Hframe by done. apply Hks. by right. }
  destruct (Z.eqb_spec (scaled e v) 0) as [Hz|Hz].
  - split_and!; [exact Htl|by apply NoDup_cons_1_2 in Hnd|by rewrite Vk|set_solver].
  - split_and!; [|done|intros Hn; exfalso; apply Hn; by left|done].
    intros k' [->|Hin]%elem_of_cons; [|by apply Htl]. split; [apply Hks; by left|]. rewrite Vk. by apply Hv.
Qed.

Lemma matching_step cs0 b bs s ss ds cs : matching cs0 (b :: bs) (s :: ss) ds cs →
  ∃ ds' cs' db dse, cross_step ds cs b s = Ok (ds', cs') ∧ item ds' b = Ok db ∧ item ds' s = Ok dse ∧
    matching cs0 (remaining db b bs) (remaining dse s ss) ds' cs' ∧
    (dec_eqb db dec_zero = true ∨ dec_eqb dse dec_zero = true).
Proof using All.
  intros [Mb Ms Mbal Mbs Mss Mbz Msz [Ub Us] Mo].
  destruct (Mbs b ltac:(by left)) as [Inb Pb], (Mss s ltac:(by left)) as [Ins Ps].
  assert (b ≠ s) as Hne by (intros ->; by apply (Hdisj s)).
  destruct (cross_step_spec ds cs b s (Mb b Inb) (Ms s Ins) Hne Pb Ps) as (db & cb & dse & cse & Hstep & G1 & G2 & G3 & G4 & S1 & S2 & S3 & S4).
  cbn zeta in *. set (a := Z.min (val ds b) (- val ds s)) in *.
  set (ds' := <[s := dse]> (<[b := db]> ds)) in *. set (cs' := <[s := cse]> (<[b := cb]> cs)) in *.
  assert (ds' !! b = Some db) as Lb by (unfold ds'; by rewrite lookup_insert_ne, lookup_insert_eq).
  assert (ds' !! s = Some dse) as Ls by (unfold ds'; by rewrite lookup_insert_eq).
  assert (cs' !! b = Some cb) as Kb by (unfold cs'; by rewrite lookup_insert_ne, lookup_insert_eq).
  assert (cs' !! s = Some cse) as Ks by (unfold cs'; by rewrite lookup_insert_eq).
  assert (∀ k, k ≠ b → k ≠ s → ds' !! k = ds !! k ∧ cs' !! k = cs !! k) as Hframe
    by (intros k H1 H2; unfold ds', cs'; by rewrite !lookup_insert_ne by congruence).
  apply NoDup_cons in Ub as Ub'. apply NoDup_cons in Us as Us'. destruct Ub' as [Nb Ub'], Us' as [Ns Us'].
  exists ds', cs', db, dse. split; [exact Hstep|]. split; [apply item_val, Lb|]. split; [apply item_val, Ls|].
  destruct (remaining_spec ds ds' (λ z, 0 < z) db b bs all_buyers G1 Lb) as (R1 & R2 & R3 & R4);
    [|lia|done|exact Mbs|].
  { intros k Hk. apply Hframe; [intros ->; done|intros ->]. apply (Hdisj s); [|done]. apply Mbs. by right. }
  destruct (remaining_spec ds ds' (λ z, z < 0) dse s ss all_sellers G3 Ls) as (T1 & T2 & T3 & T4);
    [|lia|done|exact Mss|].
  { intros k Hk. apply Hframe; [intros ->|intros ->; done]. apply (Hdisj b); [done|]. apply Mss. by right. }
  split.
  - constructor.
    + intros k Hk. destruct (decide (k = b)) as [->|].
      * destruct (Mb b Inb) as [_ Hs]. constructor; [by exists db, cb|]. unfold val at 1 2 3 4. rewrite Lb, Kb. cbn. lia.
      * assert (k ≠ s) by (intros ->; by apply (Hdisj s)). eapply buying_frame; [by apply Hframe..|by apply Mb].
    + intros k Hk. destruct (decide (k = s)) as [->|].
      * destruct (Ms s Ins) as [_ Hs]. constructor; [by exists dse, cse|]. unfold val at 1 2 3 4. rewrite Ls, Ks. cbn. lia.
      * assert (k ≠ b) by (intros ->; by apply (Hdisj b)). eapply selling_frame; [by apply Hframe..|by apply Ms].
    + unfold cs'. rewrite !total_insert, !val_insert by done. rewrite (decide_False (P := b = s)) by done.
      rewrite (decide_True (P := b ∈ all_buyers)), (decide_True (P := s ∈ all_sellers)) by done.
      rewrite (decide_False (P := s ∈ all_buyers)), (decide_False (P := b ∈ all_sellers)) by (intros ?; by eapply Hdisj). lia.
    + exact R1.
    + exact T1.
    + intros k Hk Hn. destruct (decide (k = b)) as [->|]; [by apply R3|].
      unfold val. rewrite (proj1 (Hframe k ltac:(done) ltac:(intros ->; by apply (Hdisj s)))). apply Mbz; [done|by apply R4].
    + intros k Hk Hn. destruct (decide (k = s)) as [->|]; [by apply T3|].
      unfold val. rewrite (proj1 (Hframe k ltac:(intros ->; by apply (Hdisj b)) ltac:(done))). apply Msz; [done|by apply T4].
    + by split.
    + intros k H1 H2. rewrite (proj2 (Hframe k ltac:(intros ->; done) ltac:(intros ->; done))). by apply Mo.
  - pose proof (og_bound _ _ _ G1). rewrite !(grid_eqb e D D) by (done || apply grid_zero; lia).
    change (scaled e dec_zero) with 0. rewrite !Z.eqb_eq. unfold a in *. lia.
Qed.

(** The loop ends within its fuel, with the buyers or the sellers exhausted. *)
Lemma match_loop_ends cs0 fuel : ∀ buyers sellers ds cs, matching cs0 buyers sellers ds cs →
  (length buyers + length sellers <= fuel)%nat →
  ∃ ds' cs' buyers' sellers', match_loop fuel buyers sellers ds cs = Ok (ds', cs') ∧
    matching cs0 buyers' sellers' ds' cs' ∧ (buyers' = [] ∨ sellers' = []).
Proof using All.
  induction fuel as [|fuel IH]; intros [|b bs] [|s ss] ds cs M Hfuel; cbn in Hfuel; try lia;
    try (eexists _, _, _, _; split; [reflexivity|split; [exact M|tauto]]).
  destruct (matching_step cs0 b bs s ss ds cs M) as (ds' & cs' & db & dse & Hstep & Ib & Is & M' & Hz).
  cbn [match_loop]. rewrite Hstep. cbn [mbind res_bind]. rewrite Ib, Is. cbn [mbind res_bind].
  apply IH; [exact M'|]. unfold remaining. destruct Hz as [-> | ->]; [destruct (dec_eqb dse _)|destruct (dec_eqb db _)]; cbn; lia.
Qed.
End matching.

(** ** Netting an asset *)

Lemma asset_accepted a :
  dec_ltb (an_internal_cross_quantity a) dec_zero = false →
  dec_eqb (an_external_delta a) (an_requested_delta a) = true →
  dec_eqb (dec_sum (map sa_external_delta_share (an_attributions a))) (an_external_delta a) = true →
  dec_eqb (dec_sum (map sa_internal_cross_quantity (an_attributions a))) (dec_mul (an_internal_cross_quantity a) dec_two) = true →
  StronglySorted (key_le attribution_order) (an_attributions a) → NoDup (map sa_key (an_attributions a)) →
  (∀ x, x ∈ an_attributions a → sk_asset_id (sa_key x) = an_asset_id a) → AssetNetting_post_init a = Ok tt.
Proof.
  intros H1 H2 H3 H4 H5 H6 H7. unfold AssetNetting_post_init. rewrite nonnegative_ok, H2, H3, H4 by done.
  rewrite bool_decide_true by (by apply py_sorted_id). rewrite (proj2 (has_duplicates_false _) H6).
  assert (existsb (λ x, negb (String.eqb (sk_asset_id (sa_key x)) (an_asset_id a))) (an_attributions a) = false) as ->; [|done].
  apply not_true_iff_false. intros (x & Hx & Hn)%existsb_exists. apply list_elem_of_In, H7 in Hx. by rewrite Hx, String.eqb_refl in Hn.
Qed.

(** Lists with the same keys are sorted alike. *)
Lemma sorted_by_keys {A B K} `{PyOrder K} (f : A → K) (g : B → K) l : ∀ l', map f l = map g l' →
  StronglySorted (key_le f) l → StronglySorted (key_le g) l'.
Proof.
  induction l as [|x l IH]; intros [|y l'] E Hs; try discriminate E; [constructor|]. injection E as Exy E.
  inversion Hs as [|? ? Hs' Hf]; subst. constructor; [by apply IH|]. apply Forall_forall. intros z Hz.
  assert (g z ∈ map f l) as Hin by (rewrite E; apply list_elem_of_fmap; by exists z).
  apply list_elem_of_fmap in Hin as (w & Ew & Hw). rewrite Forall_forall in Hf. specialize (Hf w Hw).
  unfold key_le in *. by rewrite <- Exy, Ew.
Qed.

Definition zsum (l : list Z) : Z := foldr Z.add 0 l.
Lemma zsum_zero {A} (l : list A) : zsum (map (λ _, 0) l) = 0.
Proof. unfold zsum. induction l as [|x l IH]; [done|]. cbn [map foldr]. by rewrite IH. Qed.

Lemma signed_rest r c : 0 <= c <= Z.abs r → Z.abs (Z.sgn r * (Z.abs r - c)) = Z.abs r - c.
Proof. intros H. rewrite Z.abs_mul. destruct r; cbn [Z.sgn Z.abs] in *; lia. Qed.
Lemma sign_of_request r c : 0 <= r → 0 <= c <= Z.abs r → 1 * (Z.abs r - c) = Z.sgn r * (Z.abs r - c).
Proof. intros Hr H. destruct r; cbn [Z.sgn Z.abs] in *; lia. Qed.

Lemma attribution_accepted k r c s : dec_ltb c dec_zero = false → dec_eqb (dec_add (dec_abs s) c) (dec_abs r) = true →
  SleeveAttribution_new k r c s = Ok (mkAttribution k r c s).
Proof. intros Hc Hs. unfold SleeveAttribution_new. rewrite nonnegative_ok by done. by rewrite Hs. Qed.

Section asset.
Context (e D : Z) (Hexp : e <= 0) (HD0 : 0 <= D).

(** What a sleeve asked for, in units of the grid. *)
Definition asked (i : HorizonIntent) : Z := scaled e (intent_requested_delta i).
Definition buys (i : HorizonIntent) : bool := dec_ltb dec_zero (intent_requested_delta i).
Definition sells (i : HorizonIntent) : bool := dec_ltb (intent_requested_delta i) dec_zero.

(** The attribution of a sleeve: its request, less what was crossed inside the asset. *)
Record attributed (i : HorizonIntent) (a : SleeveAttribution) : Prop := {
  at_key : sa_key a = hi_key i;
  at_requested : sa_requested_delta a = intent_requested_delta i;
  at_crossed : on_grid e D (sa_internal_cross_quantity a) ∧ 0 <= scaled e (sa_internal_cross_quantity a) <= Z.abs (asked i);
  at_share : on_grid e D (sa_external_delta_share a) ∧
    scaled e (sa_external_delta_share a) = Z.sgn (asked i) * (Z.abs (asked i) - scaled e (sa_internal_cross_quantity a)) }.

Lemma asked_signs i : on_grid e D (intent_requested_delta i) → buys i = (0 <? asked i) ∧ sells i = (asked i <? 0).
Proof using Hexp HD0.
  intros G. unfold buys, sells, asked. rewrite !(grid_ltb e D D) by (done || by apply grid_zero). done.
Qed.

Lemma request_sign i : on_grid e D (intent_requested_delta i) →
  let sign := if dec_leb dec_zero (intent_requested_delta i) then dec_one else dec_of_Z (-1) in
  on_grid 0 1 sign ∧ ∀ c, 0 <= c <= Z.abs (asked i) → scaled 0 sign * (Z.abs (asked i) - c) = Z.sgn (asked i) * (Z.abs (asked i) - c).
Proof using Hexp HD0.
  intros G. rewrite (grid_leb e D D) by (done || by apply grid_zero). change (scaled e dec_zero) with 0. fold (asked i).
  destruct (Z.leb_spec 0 (asked i)); cbn zeta; (split; [by constructor|]); intros c Hc.
  - change (scaled 0 dec_one) with 1. by apply sign_of_request.
  - change (scaled 0 (dec_of_Z (-1))) with (-1). by rewrite Z.sgn_neg.
Qed.

(** The share left for the market. *)
Lemma share_spec i c : 2 * D < 10 ^ prec → on_grid e D (intent_requested_delta i) → on_grid e D c →
  0 <= scaled e c <= Z.abs (asked i) →
  let sign := if dec_leb dec_zero (intent_requested_delta i) then dec_one else dec_of_Z (-1) in
  let share := dec_mul sign (dec_sub (dec_abs (intent_requested_delta i)) c) in
  on_grid e D share ∧ scaled e share = Z.sgn (asked i) * (Z.abs (asked i) - scaled e c).
Proof using Hexp HD0.
  intros HD G Gc Hle. destruct (request_sign i G) as [Gsg Ssg]. cbn zeta in *. set (sign := if dec_leb _ _ then _ else _) in *. clearbody sign.
  pose proof (og_bound _ _ _ G) as Hb. fold (asked i) in Hb. destruct (grid_abs e D _ G) as (Ga & Sa & _); [lia|]. fold (asked i) in Sa.
  destruct (grid_sub e D D _ c Ga Gc) as [Gs Ss]; [lia|]. rewrite Sa in Ss. set (rest := dec_sub _ c) in *. clearbody rest.
  assert (on_grid e D rest) as Gr by (eapply grid_tighten; [exact Gs|lia]).
  destruct (grid_mul 0 e 1 D sign rest Gsg Gr) as [Gm Sm]; [lia|]. rewrite Z.add_0_l in Gm, Sm. rewrite Z.mul_1_l in Gm.
  split; [exact Gm|]. rewrite Sm, Ss. by apply Ssg.
Qed.

Lemma attribute_spec crosses i c : 2 * D < 10 ^ prec → on_grid e D (intent_requested_delta i) → crosses !! hi_key i = Some c →
  on_grid e D c → 0 <= scaled e c <= Z.abs (asked i) →
  ∃ a, attribute crosses i = Ok a ∧ attributed i a ∧ sa_internal_cross_quantity a = c.
Proof using Hexp HD0.
  intros HD G Hc Gc Hle. destruct (share_spec i c HD G Gc Hle) as [Gm Sm]. cbn zeta in Gm, Sm.
  unfold attribute. rewrite (proj1 (item_val e crosses _ c Hc)). cbn [mbind res_bind]. set (share := dec_mul _ _) in *. clearbody share. destruct (grid_abs e D _ G) as (Ga & Sa & _); [lia|]. fold (asked i) in Sa.
  destruct (grid_abs e D share Gm) as (Gp & Sp & _); [lia|]. destruct (grid_add e D D _ c Gp Gc) as [Gq Sq]; [lia|].
  rewrite Sm, signed_rest in Sp by done. rewrite attribution_accepted; cycle 1.
  { apply (grid_nonneg _ _ _ Gc). lia. }
  { by rewrite (grid_eqb e (D + D) D), Sq, Sp, Sa, Z.sub_add, Z.eqb_refl by done. }
  eexists. split; [reflexivity|]. split; [|reflexivity]. constructor; [reflexivity|reflexivity|done|done].
Qed.

Context (sleeves : list HorizonIntent) (Hnd : NoDup (map hi_key sleeves))
        (Hgrid : ∀ i, i ∈ sleeves → on_grid e D (intent_requested_delta i)).

Let deltas0 : quantities := list_to_map (map (λ i, (hi_key i, intent_requested_delta i)) sleeves).
Let crosses0 : quantities := list_to_map (map (λ i, (hi_key i, dec_zero)) sleeves).
Let buyers : list SleeveKey := map hi_key (List.filter buys sleeves).
Let sellers : list SleeveKey := map hi_key (List.filter sells sleeves).

Lemma keyed_lookup {V} (f : HorizonIntent → V) i : i ∈ sleeves →
  (list_to_map (map (λ i, (hi_key i, f i)) sleeves) : gmap SleeveKey V) !! hi_key i = Some (f i).
Proof using Hnd.
  intros Hi. apply elem_of_list_to_map_1; [by rewrite map_map|]. apply list_elem_of_fmap. by exists i.
Qed.


Lemma elem_of_filter_key (p : HorizonIntent → bool) k :
  k ∈ map hi_key (List.filter p sleeves) ↔ ∃ i, i ∈ sleeves ∧ p i = true ∧ hi_key i = k.
Proof using.
  rewrite list_elem_of_fmap. split; [intros (i & -> & Hi)|intros (i & Hi & Hp & <-)]; exists i;
    [apply list_elem_of_In, filter_In in Hi; rewrite list_elem_of_In; tauto|split; [done|]; apply list_elem_of_In, filter_In; by rewrite <- list_elem_of_In].
Qed.

Lemma crosses0_zero k : val e crosses0 k = 0.
Proof using.
  unfold val, crosses0. destruct (list_to_map _ !! k) as [v|] eqn:E; [|done]. cbn.
  apply elem_of_list_to_map_2, list_elem_of_fmap in E as (i & [= -> ->] & _). done.
Qed.
Lemma crosses0_total ks : total e crosses0 ks = 0.
Proof using. induction ks as [|k ks IH]; [done|]. unfold total in *. cbn [map foldr]. by rewrite crosses0_zero, IH. Qed.

(** The keys of different sleeves differ. *)
Lemma sleeve_of_key i j : i ∈ sleeves → j ∈ sleeves → hi_key i = hi_key j → i = j.
Proof using Hnd.
  intros [n Hi]%list_elem_of_lookup [m Hj]%list_elem_of_lookup E. assert (n = m) as ->; [|congruence].
  apply (NoDup_lookup (map hi_key sleeves) n m (hi_key i) Hnd); rewrite list_lookup_fmap; [by rewrite Hi|rewrite Hj; cbn; by rewrite E].
Qed.

Lemma initial_matching : matching e D (val e deltas0) buyers sellers crosses0 buyers sellers deltas0 crosses0.
Proof using Hexp HD0 Hnd Hgrid.
  assert (∀ i, i ∈ sleeves → val e deltas0 (hi_key i) = asked i) as Hval
    by (intros i Hi; unfold val, deltas0; by rewrite (keyed_lookup intent_requested_delta)).
  assert (∀ i, i ∈ sleeves → ∃ d c, deltas0 !! hi_key i = Some d ∧ crosses0 !! hi_key i = Some c ∧ on_grid e D d ∧ on_grid e D c) as Hent.
  { intros i Hi. exists (intent_requested_delta i), dec_zero. unfold deltas0, crosses0.
    rewrite (keyed_lookup intent_requested_delta i Hi), (keyed_lookup (λ _, dec_zero) i Hi).
    split_and!; [done|done|by apply Hgrid|by apply grid_zero]. }
  assert (∀ k, k ∈ buyers ↔ ∃ i, i ∈ sleeves ∧ 0 < asked i ∧ hi_key i = k) as Hbuy.
  { intros k. unfold buyers. rewrite elem_of_filter_key. split; intros (i & Hi & Hp & <-); exists i; split_and!; try done;
      destruct (asked_signs i (Hgrid i Hi)) as [E _]; [rewrite E in Hp; by apply Z.ltb_lt|rewrite E; by apply Z.ltb_lt]. }
  assert (∀ k, k ∈ sellers ↔ ∃ i, i ∈ sleeves ∧ asked i < 0 ∧ hi_key i = k) as Hsell.
  { intros k. unfold sellers. rewrite elem_of_filter_key. split; intros (i & Hi & Hp & <-); exists i; split_and!; try done;
      destruct (asked_signs i (Hgrid i Hi)) as [_ E]; [rewrite E in Hp; by apply Z.ltb_lt|rewrite E; by apply Z.ltb_lt]. }
  constructor.
  - intros k (i & Hi & Hp & <-)%Hbuy. constructor; [by apply Hent|]. rewrite Hval, crosses0_zero by done. lia.
  - intros k (i & Hi & Hp & <-)%Hsell. constructor; [by apply Hent|]. rewrite Hval, crosses0_zero by done. lia.
  - by rewrite !crosses0_total.
  - intros k Hk. split; [done|]. apply Hbuy in Hk as (i & Hi & Hp & <-). by rewrite Hval.
  - intros k Hk. split; [done|]. apply Hsell in Hk as (i & Hi & Hp & <-). by rewrite Hval.
  - done.
  - done.
  - split; by apply filter_keys_NoDup.
  - done.
Qed.

(** What is left of every sleeve after the loop. *)
Lemma loop_result : 2 * D < 10 ^ prec →
  ∃ ds cs, match_loop (length (List.filter buys sleeves) + length (List.filter sells sleeves)) buyers sellers deltas0 crosses0 = Ok (ds, cs) ∧
    (∀ i, i ∈ sleeves → ∃ c, cs !! hi_key i = Some c ∧ on_grid e D c ∧ 0 <= scaled e c <= Z.abs (asked i)) ∧
    total e cs buyers = total e cs sellers ∧
    ((∀ i, i ∈ sleeves → buys i = true → val e cs (hi_key i) = asked i) ∨
     (∀ i, i ∈ sleeves → sells i = true → val e cs (hi_key i) = - asked i)).
Proof using Hexp HD0 Hnd Hgrid.
  intros HD. assert (∀ i, i ∈ sleeves → val e deltas0 (hi_key i) = asked i) as Hval
    by (intros i Hi; unfold val, deltas0; by rewrite (keyed_lookup intent_requested_delta)).
  assert (∀ i, i ∈ sleeves → buys i = true → hi_key i ∈ buyers) as Hbuy by (intros i Hi Hb; apply elem_of_filter_key; by exists i).
  assert (∀ i, i ∈ sleeves → sells i = true → hi_key i ∈ sellers) as Hsell by (intros i Hi Hb; apply elem_of_filter_key; by exists i).
  destruct (match_loop_ends e D Hexp HD (val e deltas0)) with (all_buyers := buyers) (all_sellers := sellers) (cs0 := crosses0)
    (buyers := buyers) (sellers := sellers) (ds := deltas0) (cs := crosses0)
    (fuel := (length (List.filter buys sleeves) + length (List.filter sells sleeves))%nat)
    as (ds & cs & bs & ss & Hloop & [Mb Ms Mbal _ _ Mbz Msz _ Mo] & Hend).
  - intros k. unfold val. destruct (deltas0 !! k) as [d|] eqn:E; [|cbn; lia]. cbn.
    apply elem_of_list_to_map_2, list_elem_of_fmap in E as (i & [= -> ->] & Hi). by apply Hgrid.
  - by apply filter_keys_NoDup.
  - by apply filter_keys_NoDup.
  - intros k (i & Hi & Hp & <-)%elem_of_filter_key (j & Hj & Hq & E)%elem_of_filter_key.
    apply sleeve_of_key in E as ->; [|done..]. destruct (asked_signs i (Hgrid i Hi)) as [E1 E2]. rewrite E1 in Hp. rewrite E2 in Hq.
    apply Z.ltb_lt in Hp, Hq. lia.
  - apply initial_matching.
  - unfold buyers, sellers. by rewrite !length_map.
  - exists ds, cs. split; [exact Hloop|]. split; [|split; [exact Mbal|]].
    + intros i Hi. destruct (asked_signs i (Hgrid i Hi)) as [E1 E2]. destruct (Z.lt_trichotomy (asked i) 0) as [Hlt|[Hz|Hgt]].
      * destruct (Ms (hi_key i)) as [(d & c & _ & Hc & _ & Gc) Hs]; [apply Hsell; [done|]; by rewrite E2, Z.ltb_lt|].
        rewrite Hval, (proj2 (item_val e cs _ c Hc)) in Hs by done. exists c. split_and!; (done || lia).
      * exists dec_zero. rewrite Mo.
        -- unfold crosses0. rewrite (keyed_lookup (λ _, dec_zero) i Hi). split_and!; [done|by apply grid_zero|done|change (scaled e dec_zero) with 0; lia].
        -- intros (j & Hj & Hp & E)%elem_of_filter_key. apply sleeve_of_key in E as ->; [|done..]. rewrite E1, Hz in Hp. done.
        -- intros (j & Hj & Hp & E)%elem_of_filter_key. apply sleeve_of_key in E as ->; [|done..]. rewrite E2, Hz in Hp. done.
      * destruct (Mb (hi_key i)) as [(d & c & _ & Hc & _ & Gc) Hs]; [apply Hbuy; [done|]; by rewrite E1, Z.ltb_lt|].
        rewrite Hval, (proj2 (item_val e cs _ c Hc)) in Hs by done. exists c. split_and!; (done || lia).
    + destruct Hend as [-> | ->]; [left|right]; intros i Hi Hp.
      * destruct (Mb (hi_key i) (Hbuy i Hi Hp)) as [_ Hs]. rewrite Hval, (Mbz (hi_key i) (Hbuy i Hi Hp)) in Hs by (done || set_solver). lia.
      * destruct (Ms (hi_key i) (Hsell i Hi Hp)) as [_ Hs]. rewrite Hval, (Msz (hi_key i) (Hsell i Hi Hp)) in Hs by (done || set_solver). lia.
Qed.

(** What netting an asset promises: every sleeve is attributed; the physical delta is the
    sum of the requests; the shares left for the market all point the same way; and the
    quantity crossed is all that can be, the smaller of what is bought and sold. *)
Definition bought_by (l : list HorizonIntent) : Z := zsum (map asked (List.filter (λ i, 0 <? asked i) l)).
Definition sold_by (l : list HorizonIntent) : Z := zsum (map (λ i, - asked i) (List.filter (λ i, asked i <? 0) l)).

Record netted (l : list HorizonIntent) (asset : AssetNetting) : Prop := {
  nt_attributions : Forall2 attributed l (an_attributions asset);
  nt_conserved : scaled e (an_external_delta asset) = zsum (map asked l) ∧ scaled e (an_requested_delta asset) = zsum (map asked l);
  nt_one_sided : Forall (λ a, 0 <= scaled e (sa_external_delta_share a)) (an_attributions asset) ∨
                 Forall (λ a, scaled e (sa_external_delta_share a) <= 0) (an_attributions asset);
  nt_crossed : scaled (e - 1) (an_internal_cross_quantity asset) = 10 * Z.min (bought_by l) (sold_by l) }.

(** Sums over the sleeves of what [x] crosses. *)
Lemma crossed_sums (x : HorizonIntent → Z) l : (∀ i, i ∈ l → asked i = 0 → x i = 0) →
  zsum (map (λ i, Z.sgn (asked i) * (Z.abs (asked i) - x i)) l) + zsum (map x (List.filter (λ i, 0 <? asked i) l))
    = zsum (map asked l) + zsum (map x (List.filter (λ i, asked i <? 0) l)) ∧
  zsum (map x l) = zsum (map x (List.filter (λ i, 0 <? asked i) l)) + zsum (map x (List.filter (λ i, asked i <? 0) l)).
Proof using.
  induction l as [|i l IH]; intros Hz; [done|]. destruct IH as [IH1 IH2]; [intros; apply Hz; [by right|done]|].
  cbn [map List.filter]. specialize (Hz i ltac:(by left)). unfold zsum in *.
  destruct (Z.ltb_spec 0 (asked i)), (Z.ltb_spec (asked i) 0); cbn [map foldr]; [lia|rewrite Z.sgn_pos by lia; lia|rewrite Z.sgn_neg by lia; lia|].
  rewrite Hz by lia. assert (asked i = 0) as -> by lia. cbn [Z.sgn Z.abs]. lia.
Qed.

Lemma zsum_le (f g : HorizonIntent → Z) l : (∀ i, i ∈ l → f i <= g i) → zsum (map f l) <= zsum (map g l).
Proof using.
  induction l as [|i l IH]; intros H; [done|]. unfold zsum in *. cbn [map foldr].
  pose proof (H i ltac:(by left)). specialize (IH ltac:(intros; apply H; by right)). lia.
Qed.

Lemma zsum_ext (f g : HorizonIntent → Z) l : (∀ i, i ∈ l → f i = g i) → zsum (map f l) = zsum (map g l).
Proof using. intros H. apply Z.le_antisymm; apply zsum_le; intros i Hi; rewrite H by done; lia. Qed.

(** Crosses that balance and exhaust one side are the smaller side. *)
Lemma crossed_smaller (x : HorizonIntent → Z) l : (∀ i, i ∈ l → 0 <= x i <= Z.abs (asked i)) →
  let p := λ i, 0 <? asked i in let q := λ i, asked i <? 0 in
  zsum (map x (List.filter p l)) = zsum (map x (List.filter q l)) →
  (∀ i, i ∈ l → p i = true → x i = asked i) ∨ (∀ i, i ∈ l → q i = true → x i = - asked i) →
  zsum (map x (List.filter p l)) = Z.min (bought_by l) (sold_by l).
Proof using.
  intros Hx p q Hbal Hend.
  assert (∀ r i, i ∈ List.filter r l → i ∈ l ∧ r i = true) as Hin by (intros r i Hi; by apply list_elem_of_In, filter_In in Hi as [?%list_elem_of_In ?]).
  assert (zsum (map x (List.filter p l)) <= bought_by l) as H1.
  { apply zsum_le. intros i [Hi Hp]%Hin. specialize (Hx i Hi). apply Z.ltb_lt in Hp. lia. }
  assert (zsum (map x (List.filter q l)) <= sold_by l) as H2.
  { apply zsum_le. intros i [Hi Hp]%Hin. specialize (Hx i Hi). apply Z.ltb_lt in Hp. lia. }
  destruct Hend as [Hend|Hend].
  - assert (zsum (map x (List.filter p l)) = bought_by l) by (apply zsum_ext; intros i [Hi Hp]%Hin; by apply Hend). lia.
  - assert (zsum (map x (List.filter q l)) = sold_by l) by (apply zsum_ext; intros i [Hi Hp]%Hin; by apply Hend). lia.
Qed.

Lemma attributions_of crosses l : (∀ i, i ∈ l → ∃ a, attribute crosses i = Ok a ∧ attributed i a ∧
    scaled e (sa_internal_cross_quantity a) = val e crosses (hi_key i)) →
  ∃ ats, traverse (attribute crosses) l = Ok ats ∧ Forall2 attributed l ats ∧
    map (λ a, scaled e (sa_internal_cross_quantity a)) ats = map (λ i, val e crosses (hi_key i)) l.
Proof using.
  intros H. destruct (traverse_total (attribute crosses) (λ i a, attributed i a ∧
    scaled e (sa_internal_cross_quantity a) = val e crosses (hi_key i)) l) as (ats & E & Hall).
  { intros i Hi. destruct (H i Hi) as (a & ? & ? & ?). by exists a. }
  exists ats. split; [exact E|]. clear E H. induction Hall as [|i a l' ats [Ha Hc] _ [IH1 IH2]]; [done|].
  split; [by constructor|]. cbn [map]. by rewrite Hc, IH2.
Qed.

Lemma attributed_keys l ats : Forall2 attributed l ats →
  map sa_key ats = map hi_key l ∧ map attribution_order ats = map intent_tuple l ∧
  map (λ a, scaled e (sa_external_delta_share a)) ats
    = map (λ p, Z.sgn (asked p.1) * (Z.abs (asked p.1) - scaled e (sa_internal_cross_quantity p.2))) (zip l ats) ∧
  Forall (on_grid e D) (map sa_external_delta_share ats) ∧ Forall (on_grid e D) (map sa_internal_cross_quantity ats).
Proof using.
  induction 1 as [|i a l' ats [Hk _ [Gc _] [Gs Hs]] _ (IH1 & IH2 & IH3 & IH4 & IH5)]; [done|]. cbn [map zip_with].
  unfold attribution_order at 1, intent_tuple at 1. rewrite Hk, IH1, IH2, IH3, Hs. split_and!; (done || by constructor).
Qed.

Lemma zip_map_crosses (x : HorizonIntent → Z) l : ∀ ats, map (λ a, scaled e (sa_internal_cross_quantity a)) ats = map x l →
  map (λ p, Z.sgn (asked p.1) * (Z.abs (asked p.1) - scaled e (sa_internal_cross_quantity p.2))) (zip l ats)
  = map (λ i, Z.sgn (asked i) * (Z.abs (asked i) - x i)) l.
Proof using.
  induction l as [|i l IH]; intros [|a ats] E; try discriminate E; [done|]. injection E as Ea E. cbn [map zip_with fst snd].
  by rewrite Ea, IH.
Qed.

(** Once a side is exhausted the shares of the other all point the same way. *)
Lemma one_sided (x : HorizonIntent → Z) l ats : Forall2 attributed l ats →
  map (λ a, scaled e (sa_internal_cross_quantity a)) ats = map x l → (∀ i, i ∈ l → 0 <= x i <= Z.abs (asked i)) →
  (∀ i, i ∈ l → (0 <? asked i) = true → x i = asked i) ∨ (∀ i, i ∈ l → (asked i <? 0) = true → x i = - asked i) →
  Forall (λ a, 0 <= scaled e (sa_external_delta_share a)) ats ∨ Forall (λ a, scaled e (sa_external_delta_share a) <= 0) ats.
Proof using.
  intros Hall E Hx Hend.
  assert (∀ a, a ∈ ats → ∃ i, i ∈ l ∧ scaled e (sa_external_delta_share a) = Z.sgn (asked i) * (Z.abs (asked i) - x i)) as Hshare.
  { clear Hx Hend. revert E. induction Hall as [|i a l ats [_ _ _ [_ Hs]] _ IH]; intros E; [by intros a ?%elem_of_nil|]. injection E as Ea E.
    intros b [->|Hb]%elem_of_cons; [exists i; split; [by left|by rewrite Hs, Ea]|].
    destruct (IH E b Hb) as (j & Hj & Ej). exists j. split; [by right|done]. }
  destruct Hend as [Hend|Hend]; [right|left]; apply Forall_forall; intros a (i & Hi & ->)%Hshare; specialize (Hx i Hi); specialize (Hend i Hi);
    rewrite Z.ltb_lt in Hend; destruct (asked i); cbn [Z.sgn Z.abs] in *; lia.
Qed.

(** Everything an asset's crosses determine, for crosses that balance and exhaust a side. *)
Lemma netted_from (id : string) ats (x : HorizonIntent → Z) :
  sleeves ≠ [] → 10 * (D * Z.of_nat (length sleeves)) < 10 ^ prec →
  StronglySorted (key_le intent_tuple) sleeves → (∀ i, i ∈ sleeves → sk_asset_id (hi_key i) = id) →
  Forall2 attributed sleeves ats → map (λ a, scaled e (sa_internal_cross_quantity a)) ats = map x sleeves →
  (∀ i, i ∈ sleeves → 0 <= x i <= Z.abs (asked i)) →
  zsum (map x (List.filter (λ i, 0 <? asked i) sleeves)) = zsum (map x (List.filter (λ i, asked i <? 0) sleeves)) →
  (∀ i, i ∈ sleeves → (0 <? asked i) = true → x i = asked i) ∨ (∀ i, i ∈ sleeves → (asked i <? 0) = true → x i = - asked i) →
  ∃ cross, dec_div (dec_sum (map sa_internal_cross_quantity ats)) dec_two = Ok cross ∧
    let asset := mkAssetNetting id (dec_sum (map intent_requested_delta sleeves)) (dec_sum (map sa_external_delta_share ats)) cross ats in
    AssetNetting_post_init asset = Ok tt ∧ netted sleeves asset.
Proof using Hexp HD0 Hnd Hgrid.
  intros Hne Hroom Hsorted Hid Hats Hcx Hx Hbal Hend.
  destruct (attributed_keys _ _ Hats) as (Hkeys & Horder & Hshares & Gsh & Gcr).
  rewrite (zip_map_crosses x _ _ Hcx) in Hshares. set (n := Z.of_nat (length sleeves)) in *.
  assert (1 <= n) as Hn by (unfold n; destruct sleeves; [done|cbn [length]; lia]).
  assert (length ats = length sleeves) as Hlen by (symmetry; by eapply Forall2_length).
  assert (D * n < 10 ^ prec) as Hroom1 by nia.
  destruct (grid_sum e D (map intent_requested_delta sleeves)) as [Gr Sr]; [done|done| |by rewrite length_map|].
  { apply Forall_map, Forall_forall. intros i Hi. by apply Hgrid. }
  destruct (grid_sum e D _ Hexp HD0 Gsh) as [Gx Sx]; [by rewrite length_map, Hlen|].
  destruct (grid_sum e D _ Hexp HD0 Gcr) as [Gc Sc]; [by rewrite length_map, Hlen|].
  rewrite !length_map in *. rewrite Hlen in *. fold n in Gr, Gx, Gc. rewrite !map_map in *.
  change (foldr Z.add 0 ?l) with (zsum l) in Sr, Sx, Sc. rewrite Hshares in Sx. rewrite Hcx in Sc.
  destruct (crossed_sums x sleeves) as [E1 E2]; [intros i Hi Hz; specialize (Hx i Hi); lia|].
  pose proof (crossed_smaller x sleeves Hx Hbal Hend) as Hmin. cbn zeta in Hmin.
  set (X := zsum (map x (List.filter (λ i, 0 <? asked i) sleeves))) in *.
  assert (zsum (map (λ i, Z.sgn (asked i) * (Z.abs (asked i) - x i)) sleeves) = zsum (map asked sleeves)) as Hcons by lia.
  assert (zsum (map x sleeves) = 2 * X) as Htwo by lia.
  assert (0 <= X) as HX. { pose proof (zsum_le (λ _, 0) x sleeves (λ i Hi, proj1 (Hx i Hi))) as Hz.
    assert (zsum (map (λ _ : HorizonIntent, 0) sleeves) = 0) as Hz0 by apply zsum_zero. lia. }
  destruct (grid_half e (D * n) _ Gc Hroom) as (cross & Ec & Gm & Sm). rewrite Sc, Htwo in Sm.
  exists cross. split; [exact Ec|]. cbn zeta.
  set (asset := mkAssetNetting _ _ _ _ _). split.
  - apply asset_accepted.
    + apply (grid_nonneg _ _ _ Gm). rewrite Sm. lia.
    + cbn [asset an_external_delta an_requested_delta]. rewrite (grid_eqb e _ _ _ _ Gx Gr), Sx, Sr, Hcons. apply Z.eqb_refl.
    + apply dec_eqb_refl.
    + destruct (grid_mul (e - 1) 0 (5 * (D * n)) 2 cross dec_two Gm) as [Gt St]; [by constructor|lia|].
      destruct (grid_finer e _ _ Gc) as [Gf Sf]. rewrite Z.add_0_r in Gt, St.
      cbn [asset an_attributions an_internal_cross_quantity].
      rewrite (grid_eqb (e - 1) _ _ _ _ Gf Gt), Sf, St, Sm, Sc, Htwo. change (scaled 0 dec_two) with 2. apply Z.eqb_eq. lia.
    + eapply sorted_by_keys; [symmetry; exact Horder|done].
    + cbn [asset an_attributions]. by rewrite Hkeys.
    + intros a Ha. change (an_attributions asset) with ats in Ha. change (an_asset_id asset) with id.
      assert (sa_key a ∈ map hi_key sleeves) as Hin by (rewrite <- Hkeys; apply list_elem_of_fmap; by exists a).
      apply list_elem_of_fmap in Hin as (i & -> & Hi). by apply Hid.
  - constructor.
    + exact Hats.
    + cbn [asset an_external_delta an_requested_delta]. rewrite Sx, Sr, Hcons. done.
    + by apply (one_sided x sleeves).
    + cbn [asset an_internal_cross_quantity]. rewrite Sm, <- Hmin. lia.
Qed.

Lemma net_asset_spec id : sleeves ≠ [] → 10 * (D * Z.of_nat (length sleeves)) < 10 ^ prec →
  StronglySorted (key_le intent_tuple) sleeves → (∀ i, i ∈ sleeves → sk_asset_id (hi_key i) = id) →
  ∃ asset, net_asset id sleeves = Ok asset ∧ an_asset_id asset = id ∧ netted sleeves asset.
Proof using Hexp HD0 Hnd Hgrid.
  intros Hne Hroom Hsorted Hid.
  assert (2 * D < 10 ^ prec) as HD by (destruct sleeves; [done|cbn [length] in Hroom; nia]).
  destruct (loop_result HD) as (ds & cs & Hloop & Hc & Hbal & Hend).
  destruct (attributions_of cs sleeves) as (ats & Hats & Hall & Hcx).
  { intros i Hi. destruct (Hc i Hi) as (c & E & Gc & Hle).
    destruct (attribute_spec cs i c HD (Hgrid i Hi) E Gc Hle) as (a & ? & ? & Ea). exists a. split; [done|]. split; [done|].
    rewrite Ea. symmetry. by apply item_val. }
  set (x := λ i, val e cs (hi_key i)) in *.
  assert (∀ i, i ∈ sleeves → 0 <= x i <= Z.abs (asked i)) as Hx.
  { intros i Hi. destruct (Hc i Hi) as (c & E & _ & Hle). unfold x. by rewrite (proj2 (item_val e cs _ c E)). }
  assert (∀ i, i ∈ sleeves → buys i = (0 <? asked i) ∧ sells i = (asked i <? 0)) as Hsides by (intros; by apply asked_signs, Hgrid).
  assert (List.filter buys sleeves = List.filter (λ i, 0 <? asked i) sleeves ∧
          List.filter sells sleeves = List.filter (λ i, asked i <? 0) sleeves) as [Eb Es].
  { split; apply List.filter_ext_in; intros i Hi%list_elem_of_In; by apply Hsides. }
  destruct (netted_from id ats x Hne Hroom Hsorted Hid Hall Hcx Hx) as (cross & Ecross & Hok & Hnet).
  { unfold total, buyers, sellers in Hbal. rewrite !map_map, Eb, Es in Hbal. exact Hbal. }
  { destruct Hend as [Hend|Hend]; [left|right]; intros i Hi Hp; apply Hend; (done || by rewrite (proj1 (Hsides i Hi)) || by rewrite (proj2 (Hsides i Hi))). }
  eexists. unfold net_asset. fold buys sells. split; [|split; [|exact Hnet]].
  - change (match_loop _ _ _ _ _) with
      (match_loop (length (List.filter buys sleeves) + length (List.filter sells sleeves)) buyers sellers deltas0 crosses0).
    rewrite Hloop. cbn [mbind res_bind]. rewrite Hats. cbn [mbind res_bind]. rewrite Ecross. cbn [mbind res_bind]. cbn zeta in Hok.
    rewrite Hok. reflexivity.
  - reflexivity.
Qed.
End asset.

(** ** Netting a portfolio *)

Definition intent_asset (i : HorizonIntent) : string := sk_asset_id (hi_key i).

(** Whether the order by asset agrees with the canonical order of sleeves. *)
Definition aligned (intents : list HorizonIntent) : bool :=
  forallb (λ i, forallb (λ j, negb (pylt (intent_asset i) (intent_asset j)) || pyle (intent_tuple i) (intent_tuple j)) intents) intents.

Lemma aligned_spec intents : aligned intents = true ↔
  ∀ i j, i ∈ intents → j ∈ intents → pylt (intent_asset i) (intent_asset j) = true → key_le intent_tuple i j.
Proof.
  unfold aligned, key_le. rewrite forallb_forall. setoid_rewrite forallb_forall. setoid_rewrite <- list_elem_of_In. split.
  - intros H i j Hi Hj Hlt. specialize (H i Hi j Hj). rewrite Hlt in H. done.
  - intros H i Hi j Hj. destruct (pylt (intent_asset i) (intent_asset j)) eqn:E; [|done]. by apply H.
Qed.

(** The sleeves asset by asset, as the result lists them. *)
Definition by_assets (l : list HorizonIntent) (ids : list string) : list HorizonIntent :=
  flat_map (λ id, List.filter (of_asset id) l) ids.

Lemma elem_of_asset l id i : i ∈ List.filter (of_asset id) l ↔ i ∈ l ∧ intent_asset i = id.
Proof. rewrite list_elem_of_In, filter_In, <- list_elem_of_In. unfold of_asset, intent_asset. by rewrite String.eqb_eq. Qed.

Lemma elem_of_by_assets l ids i : i ∈ by_assets l ids ↔ i ∈ l ∧ intent_asset i ∈ ids.
Proof.
  unfold by_assets. rewrite list_elem_of_In, in_flat_map. split.
  - intros (id & Hid & Hi). apply list_elem_of_In, elem_of_asset in Hi as [Hi <-]. split; [done|by apply list_elem_of_In].
  - intros [Hi Hid]. exists (intent_asset i). split; [by apply list_elem_of_In|]. by apply list_elem_of_In, elem_of_asset.
Qed.

Lemma filter_sorted {A K} `{PyOrder K} (key : A → K) (p : A → bool) l :
  StronglySorted (key_le key) l → StronglySorted (key_le key) (List.filter p l).
Proof. intros Hs%py_sorted_id. rewrite <- Hs, filter_py_sorted. apply py_sorted_sorted. Qed.

(** Identifiers sorted without repetition increase strictly. *)
Lemma sorted_strict (ids : list string) : NoDup ids → StronglySorted (key_le id) ids → StronglySorted (λ a b, pylt a b = true) ids.
Proof.
  induction 2 as [|a ids Hs IH Hf]; [constructor|]. apply NoDup_cons in H as [Hn Hnd]. constructor; [by apply IH|].
  apply Forall_forall. intros b Hb. rewrite Forall_forall in Hf. specialize (Hf b Hb). rewrite pylt_pyle.
  destruct (pyle b a) eqn:E; [|done]. assert (a = b) as -> by (by apply pyle_antisym). done.
Qed.

Lemma by_assets_sorted l ids : StronglySorted (key_le intent_tuple) l → StronglySorted (λ a b, pylt a b = true) ids →
  StronglySorted (key_le intent_tuple) (by_assets l ids) ↔
  ∀ i j, i ∈ l → j ∈ l → intent_asset i ∈ ids → intent_asset j ∈ ids →
    pylt (intent_asset i) (intent_asset j) = true → key_le intent_tuple i j.
Proof.
  intros Hl. induction 1 as [|a ids Hs IH Hf]; [split; [set_solver|constructor]|].
  change (by_assets l (a :: ids)) with (List.filter (of_asset a) l ++ by_assets l ids). rewrite StronglySorted_app, IH.
  rewrite Forall_forall in Hf. split.
  - intros (Hcross & _ & Hrest) i j Hi Hj Ei Ej Hlt. apply elem_of_cons in Ei, Ej.
    destruct Ei as [Ei|Ei], Ej as [Ej|Ej].
    + rewrite Ei, Ej, pylt_irrefl in Hlt. done.
    + apply Hcross; [by apply elem_of_asset|by apply elem_of_by_assets].
    + rewrite Ej, pylt_pyle in Hlt. specialize (Hf _ Ei). rewrite pylt_pyle in Hf.
      apply negb_true_iff in Hlt, Hf. by destruct (pyle_total (intent_asset i) a) as [E|E]; rewrite E in *.
    + by apply Hrest.
  - intros H. split_and!.
    + intros i j [Hi Ei]%elem_of_asset [Hj Ej]%elem_of_by_assets. apply H; [done|done|rewrite Ei; by left|by right|]. rewrite Ei. by apply Hf.
    + by apply filter_sorted.
    + intros i j Hi Hj Ei Ej. apply H; [done|done|by right|by right].
Qed.

Lemma by_assets_NoDup l ids : NoDup (map hi_key l) → NoDup ids → NoDup (map hi_key (by_assets l ids)).
Proof.
  intros Hl. induction 1 as [|a ids Hn Hnd IH]; [constructor|].
  change (by_assets l (a :: ids)) with (List.filter (of_asset a) l ++ by_assets l ids). rewrite map_app. apply NoDup_app.
  split_and!; [by apply filter_keys_NoDup| |exact IH].
  intros k (i & -> & Hi)%list_elem_of_fmap (j & E & Hj)%list_elem_of_fmap.
  apply elem_of_asset in Hi as [Hi Ei]. apply elem_of_by_assets in Hj as [Hj Ej].
  apply Hn. rewrite <- Ei. unfold intent_asset in *. by rewrite E.
Qed.

(** The result of netting, checked. *)
Lemma netting_checks l ids cls purpose assets e D :
  NoDup (map hi_key l) → NoDup ids → StronglySorted (key_le id) ids → ids ≠ [] →
  (∀ i, i ∈ l → sk_source_class (hi_key i) = cls ∧ sk_evidence_purpose (hi_key i) = purpose) →
  Forall2 (λ id a, an_asset_id a = id ∧ netted e D (List.filter (of_asset id) l) a) ids assets →
  let r := mkNetting cls purpose assets (flat_map an_attributions assets) in
  (StronglySorted (key_le intent_tuple) (by_assets l ids) → NettingResult_post_init r = Ok tt) ∧
  (¬ StronglySorted (key_le intent_tuple) (by_assets l ids) →
     NettingResult_post_init r = Raise (ValueError "netting sleeves must be canonical")).
Proof.
  intros Hnd Hids Hsorted Hne Hsame Hall r.
  assert (map an_asset_id assets = ids) as Hnames.
  { clear -Hall. induction Hall as [|id a ids assets [E _] _ IH]; [done|]. cbn [map]. by rewrite E, IH. }
  assert (assets ≠ []) as Hassets by (intros E; apply Hne; by rewrite <- Hnames, E).
  assert (Forall2 (attributed e D) (by_assets l ids) (flat_map an_attributions assets)) as Hat.
  { clear -Hall. induction Hall as [|id a ids assets [_ [Ha _ _ _]] _ IH]; [constructor|]. unfold by_assets in *. cbn [flat_map].
    apply Forall2_app; [exact Ha|exact IH]. }
  destruct (attributed_keys e D _ _ Hat) as (Hkeys & Horder & _).
  assert (StronglySorted (key_le attribution_order) (nr_sleeves r) ↔ StronglySorted (key_le intent_tuple) (by_assets l ids)) as Hiff.
  { split; apply sorted_by_keys; [exact Horder|symmetry; exact Horder]. }
  unfold NettingResult_post_init. cbn [nr_assets nr_sleeves nr_source_class nr_evidence_purpose r] in *.
  rewrite (bool_decide_false (assets = [])) by done. cbn [raise_if mbind res_bind].
  rewrite (bool_decide_true (py_sorted an_asset_id assets = assets))
    by (apply py_sorted_id; apply (sorted_by_keys (id : string → string) an_asset_id ids assets); [by rewrite Hnames, map_id|exact Hsorted]).
  rewrite Hnames, (proj2 (has_duplicates_false _) Hids). cbn [negb raise_if mbind res_bind]. split.
  - intros Hs%Hiff. rewrite bool_decide_true by (by apply py_sorted_id). cbn [negb raise_if mbind res_bind].
    rewrite Hkeys, (proj2 (has_duplicates_false _) (by_assets_NoDup l ids Hnd Hids)). cbn [negb raise_if mbind res_bind].
    assert (existsb (λ x, negb (bool_decide (sk_source_class (sa_key x) = cls)) || negb (bool_decide (sk_evidence_purpose (sa_key x) = purpose)))
              (flat_map an_attributions assets) = false) as ->.
    { apply not_true_iff_false. intros (x & Hx & Hn)%existsb_exists. apply list_elem_of_In in Hx.
      assert (sa_key x ∈ map hi_key (by_assets l ids)) as Hin by (rewrite <- Hkeys; apply list_elem_of_fmap; by exists x).
      apply list_elem_of_fmap in Hin as (i & Ei & [Hi _]%elem_of_by_assets). destruct (Hsame i Hi) as [E1 E2].
      rewrite Ei, E1, E2, !bool_decide_true in Hn by done. done. }
    cbn [raise_if mbind res_bind]. by rewrite eqb_list_refl by apply attribution_eqb_refl.
  - intros Hs. rewrite bool_decide_false; [reflexivity|]. intros E%py_sorted_fixed_iff%Hiff. done.
Qed.

Lemma canonical_tuple_inj k k' : SleeveKey_post_init k = Ok tt → SleeveKey_post_init k' = Ok tt →
  canonical_tuple k = canonical_tuple k' → k = k'.
Proof.
  assert (∀ k, SleeveKey_post_init k = Ok tt → sk_horizon k ∈ CONFIGURED_HORIZONS) as Hh.
  { intros k0 H. unfold SleeveKey_post_init, require_configured_horizon in H. res_inv. bool_prop.
    match goal with H : existsb _ _ = true |- _ => apply existsb_exists in H as (h & Hin & E) end.
    apply Z.eqb_eq in E as ->. by apply list_elem_of_In. }
  intros H%Hh H'%Hh. destruct k as [c p e g a h], k' as [c' p' e' g' a' h']. cbn [sk_horizon] in *. unfold canonical_tuple. cbn.
  intros [= Ec Ep -> -> -> Ew]. assert (c = c') as -> by (destruct c, c'; done). assert (p = p') as -> by (destruct p, p'; done).
  assert (h = h') as ->; [|done]. unfold CONFIGURED_HORIZONS in *.
  repeat (apply elem_of_cons in H as [->|H]); repeat (apply elem_of_cons in H' as [->|H']);
    try reflexivity; try (by apply elem_of_nil in H); try (by apply elem_of_nil in H'); exfalso; revert Ew; vm_compute; discriminate.
Qed.

(** Intents that can be netted within the precision of the context. *)
Record nettable (e D : Z) (cls : MarketDataSourceClass) (purpose : EvidencePurpose) (intents : list HorizonIntent) : Prop := {
  nb_units : e <= 0 ∧ 0 <= D;
  nb_valid : ∀ i, i ∈ intents → SleeveKey_post_init (hi_key i) = Ok tt ∧ sk_source_class (hi_key i) = cls ∧
    sk_evidence_purpose (hi_key i) = purpose ∧ on_grid e D (intent_requested_delta i);
  nb_unique : NoDup (map hi_key intents);
  nb_some : intents ≠ [];
  nb_room : 10 * (D * Z.of_nat (length intents)) < 10 ^ prec }.

Lemma nettable_perm e D cls purpose l l' : l ≡ₚ l' → nettable e D cls purpose l → nettable e D cls purpose l'.
Proof.
  intros Hp [Hu Hv Hn Hs Hr]. constructor; [done|intros i Hi; apply Hv; by rewrite Hp| | |].
  - by rewrite <- Hp.
  - intros ->. apply Hs. by apply Permutation_nil_r.
  - by rewrite <- Hp.
Qed.

Lemma nettable_order e D cls purpose l l' : nettable e D cls purpose l → l ≡ₚ l' →
  py_sorted intent_tuple l = py_sorted intent_tuple l'.
Proof.
  intros [_ Hv Hn _ _] Hp. apply py_sorted_perm_eq; [|done]. intros i j Hi Hj E.
  apply (sleeve_of_key l Hn i j Hi Hj). apply canonical_tuple_inj; [by apply Hv|by apply Hv|exact E].
Qed.

(** The assets of the intents, in order. *)
Definition assets_of (intents : list HorizonIntent) : list string :=
  py_sorted id (remove_dups (map intent_asset (py_sorted intent_tuple intents))).

Lemma netting_result e D cls purpose intents : nettable e D cls purpose intents →
  ∃ assets,
    Forall2 (λ id a, an_asset_id a = id ∧ netted e D (List.filter (of_asset id) (py_sorted intent_tuple intents)) a)
            (assets_of intents) assets ∧
    match_internal_opposing_changes intents =
      if aligned intents then Ok (mkNetting cls purpose assets (flat_map an_attributions assets))
      else Raise (ValueError "netting sleeves must be canonical").
Proof.
  intros N. set (l := py_sorted intent_tuple intents). assert (intents ≡ₚ l) as Hp by (symmetry; apply py_sorted_perm).
  pose proof (nettable_perm _ _ _ _ _ _ Hp N) as [[He HD] Hv Hn Hs Hr]. set (ids := assets_of intents).
  assert (NoDup ids) as Hids by (apply py_sorted_NoDup, NoDup_remove_dups).
  assert (∀ id, id ∈ ids ↔ ∃ i, i ∈ l ∧ intent_asset i = id) as Hin.
  { intros id. unfold ids, assets_of. fold l. rewrite elem_of_py_sorted, elem_of_remove_dups, list_elem_of_fmap. naive_solver. }
  assert (StronglySorted (key_le intent_tuple) l) as Hl by apply py_sorted_sorted.
  assert (StronglySorted (key_le id) ids) as Hsorted by apply py_sorted_sorted.
  destruct (traverse_total (λ id, net_asset id (List.filter (of_asset id) l))
    (λ id a, an_asset_id a = id ∧ netted e D (List.filter (of_asset id) l) a) ids) as (assets & Hassets & Hall).
  { intros id [i [Hi Ei]]%Hin.
    destruct (net_asset_spec e D He HD (List.filter (of_asset id) l)) with (id := id) as (a & Ea & Eid & Hnet).
    - by apply filter_keys_NoDup.
    - intros j [Hj _]%elem_of_asset. by apply Hv.
    - intros E. assert (i ∈ List.filter (of_asset id) l) as Hx by (by apply elem_of_asset). rewrite E in Hx. by apply elem_of_nil in Hx.
    - pose proof (List.filter_length_le (of_asset id) l). nia.
    - by apply filter_sorted.
    - by intros j [_ Hj]%elem_of_asset.
    - exists a. done. }
  exists assets. split; [exact Hall|].
  assert (ids ≠ []) as Hne.
  { destruct l as [|i l'] eqn:E; [done|]. intros Hz. assert (intent_asset i ∈ ids) as Hx by (apply Hin; exists i; split; [by left|done]).
    rewrite Hz in Hx. by apply elem_of_nil in Hx. }
  destruct (netting_checks l ids cls purpose assets e D Hn Hids Hsorted Hne) as [Hok Hbad]; [intros i Hi; by destruct (Hv i Hi) as (_ & ? & ? & _)|exact Hall|].
  assert (aligned intents = true ↔ StronglySorted (key_le intent_tuple) (by_assets l ids)) as Hal.
  { rewrite aligned_spec, by_assets_sorted by (done || by apply sorted_strict). setoid_rewrite Hp. split; [naive_solver|].
    intros H i j Hi Hj. apply H; [done|done|apply Hin; by exists i|apply Hin; by exists j]. }
  unfold match_internal_opposing_changes. fold l. destruct l as [|first rest] eqn:El; [done|]. rewrite <- El in *.
  rewrite (proj2 (has_duplicates_false _) Hn). cbn [raise_if mbind res_bind].
  destruct (Hv first ltac:(rewrite El; by left)) as (_ & -> & -> & _).
  assert (existsb (λ i, negb (bool_decide (sk_source_class (hi_key i) = cls)) || negb (bool_decide (sk_evidence_purpose (hi_key i) = purpose))) l = false) as ->.
  { apply not_true_iff_false. intros (i & Hi & Hb)%existsb_exists. apply list_elem_of_In in Hi. destruct (Hv i Hi) as (_ & E1 & E2 & _).
    rewrite E1, E2, !bool_decide_true in Hb by done. done. }
  cbn [raise_if mbind res_bind].
  change (py_sorted id (remove_dups (map (λ i, sk_asset_id (hi_key i)) l))) with ids. rewrite Hassets. cbn [mbind res_bind].
  destruct (aligned intents) eqn:Ea.
  - rewrite Hok by (by apply Hal). reflexivity.
  - rewrite Hbad by (rewrite <- Hal; done). reflexivity.
Qed.

(** ** Replay *)

(** Where a sleeve stands: its quantity and state identity; nothing recorded is zero. *)
Definition standing (current : positions) (k : SleeveKey) : Decimal * string :=
  match current !! k with
  | Some p => (vp_quantity p, vp_state_identity p)
  | None => (dec_zero, _position_identity k dec_zero)
  end.

Definition zero_forecast (t : VirtualPositionTransition) : bool := dec_eqb (gf_expected_return (vt_gross_forecast t)) dec_zero.

(** The transitions of one sleeve lead from one standing to another: each starts where the
    one before ended, and none with a zero forecast adds exposure. *)
Fixpoint follows (from : Decimal * string) (ts : list VirtualPositionTransition) (to : Decimal * string) : Prop :=
  match ts with
  | [] => to = from
  | t :: ts =>
      dec_eqb from.1 (vt_prior_quantity t) = true ∧ from.2 = vt_prior_state_identity t ∧
      (zero_forecast t = true → _zero_forecast_blocks from.1 (vt_next_quantity t) = false) ∧
      follows (vt_next_quantity t, _position_identity (vt_key t) (vt_next_quantity t)) ts to
  end.

Definition of_sleeve (k : SleeveKey) (t : VirtualPositionTransition) : bool := bool_decide (vt_key t = k).

Lemma VirtualPosition_new_Ok k q i p : VirtualPosition_new k q i = Ok p → p = mkPosition k q (_position_identity k q).
Proof.
  unfold VirtualPosition_new. intros H. res_inv. bool_prop.
  match goal with H : String.eqb _ _ = true |- _ => apply String.eqb_eq in H as -> end. done.
Qed.

Lemma standing_insert current k p k' : standing (<[k := p]> current) k' =
  if decide (k = k') then (vp_quantity p, vp_state_identity p) else standing current k'.
Proof. unfold standing. destruct (decide (k = k')) as [->|]; by rewrite ?lookup_insert_eq, ?lookup_insert_ne. Qed.

Lemma apply_transition_Ok current t current' : apply_transition current t = Ok current' →
  let k := vt_key t in
  current' = <[k := mkPosition k (vt_next_quantity t) (_position_identity k (vt_next_quantity t))]> current ∧
  dec_eqb (standing current k).1 (vt_prior_quantity t) = true ∧ (standing current k).2 = vt_prior_state_identity t ∧
  (zero_forecast t = true → _zero_forecast_blocks (standing current k).1 (vt_next_quantity t) = false).
Proof.
  unfold apply_transition, standing. destruct (current !! vt_key t) as [p|] eqn:E; cbn [fst snd]; intros H; res_inv; bool_prop;
    match goal with H : VirtualPosition_new _ _ _ = Ok _ |- _ => apply VirtualPosition_new_Ok in H as -> end;
    match goal with H : String.eqb _ _ = true |- _ => apply String.eqb_eq in H end;
    (split; [reflexivity|split; [assumption|split; [assumption|]]]); intros Hz; unfold zero_forecast in Hz;
    match goal with H : _ && _ = false |- _ => by rewrite Hz in H end.
Qed.

Lemma replay_follows ts : ∀ current current', for_each apply_transition current ts = Ok current' →
  ∀ k, follows (standing current k) (List.filter (of_sleeve k) ts) (standing current' k).
Proof.
  induction ts as [|t ts IH]; intros current current' H k; cbn [for_each List.filter] in *; [by injection H as <-|].
  apply bind_Ok in H as (mid & Ht & H). apply apply_transition_Ok in Ht as (-> & Hq & Hi & Hz). specialize (IH _ _ H k).
  unfold of_sleeve at 1. rewrite standing_insert in IH. destruct (decide (vt_key t = k)) as [<-|Hne].
  - rewrite bool_decide_true by done. cbn [follows]. done.
  - by rewrite bool_decide_false.
Qed.

(** Positions are filed under their own key. *)
Definition filed (current : positions) : Prop := ∀ k p, current !! k = Some p → vp_key p = k.

Lemma initial_filed initial current : for_each initial_position ∅ initial = Ok current → filed current.
Proof.
  apply (for_each_inv initial_position filed); [|intros k p; by rewrite lookup_empty].
  intros cur [k v] cur' _ Hf H. unfold initial_position in H. cbn [fst snd] in H. apply bind_Ok in H as (p & _ & H). res_inv. bool_prop.
  intros k' p'. destruct (decide (k = k')) as [->|]; [rewrite lookup_insert_eq; by intros [= ->]|rewrite lookup_insert_ne by done; apply Hf].
Qed.

Lemma replay_filed ts current current' : for_each apply_transition current ts = Ok current' → filed current → filed current'.
Proof.
  intros H Hf. revert H. apply (for_each_inv apply_transition filed); [|done]. intros cur t cur' _ Hc Ht.
  apply apply_transition_Ok in Ht as (-> & _). intros k p. destruct (decide (vt_key t = k)) as [->|]; [rewrite lookup_insert_eq; by intros [= <-]|].
  rewrite lookup_insert_ne by done. apply Hc.
Qed.

Lemma replay_Ok initial ts r : replay_virtual_transitions initial ts = Ok r →
  ∃ start current, for_each initial_position ∅ initial = Ok start ∧
    for_each apply_transition start (py_sorted transition_order ts) = Ok current ∧
    rp_positions r = omap (M:=list) (λ k, current !! k) (py_sorted canonical_tuple (elements (dom current))) ∧
    rp_transition_count r = Z.of_nat (length ts).
Proof.
  unfold replay_virtual_transitions. intros (start & Hs & H)%bind_Ok. apply bind_Ok in H as ([] & _ & H).
  apply bind_Ok in H as (current & Hc & H). apply bind_Ok in H as (ids & _ & H). apply bind_Ok in H as ([] & _ & [= <-]).
  exists start, current. split_and!; [exact Hs|exact Hc|reflexivity|]. cbn [rp_transition_count]. by rewrite length_py_sorted.
Qed.

(** A final position is where its sleeve stands. *)
Lemma final_standing current p : filed current →
  p ∈ omap (M:=list) (λ k, current !! k) (py_sorted canonical_tuple (elements (dom current))) →
  standing current (vp_key p) = (vp_quantity p, vp_state_identity p).
Proof.
  intros Hf (k & _ & Hk)%list_elem_of_omap. unfold standing. by rewrite (Hf k p Hk), Hk.
Qed.

(** Zero forecasts along a path of one sleeve. *)
Definition same_side (a b : Decimal) : Prop := dec_eqb b dec_zero = true ∨ (dec_eqb a dec_zero = false ∧ dec_ltb dec_zero a = dec_ltb dec_zero b).

Lemma blocks_false prior next : _zero_forecast_blocks prior next = false →
  dec_leb (dec_abs next) (dec_abs prior) = true ∧ same_side prior next.
Proof.
  unfold _zero_forecast_blocks. intros [[Hi Hr]%orb_false_iff Ho]%orb_false_iff. split.
  - rewrite dec_ltb_leb in Hi. by apply negb_false_iff in Hi.
  - unfold same_side. destruct (dec_eqb next dec_zero); [by left|right]. cbn [negb] in *. rewrite andb_true_r in Ho. split; [done|].
    rewrite Ho in Hr. cbn in Hr. apply negb_false_iff in Hr. by apply eqb_prop in Hr.
Qed.

Lemma same_side_trans a b c : same_side a b → same_side b c → same_side a c.
Proof.
  intros Hab [Hc|[Hb Hbc]]; [by left|]. destruct Hab as [Hz|[Ha E]]; [congruence|]. right. split; [done|congruence].
Qed.

Lemma zero_path ts : ∀ from to, follows from ts to → (∀ t, t ∈ ts → zero_forecast t = true) → ts ≠ [] →
  dec_leb (dec_abs to.1) (dec_abs from.1) = true ∧ same_side from.1 to.1.
Proof.
  induction ts as [|t ts IH]; [done|]. intros from to (_ & _ & Hz & H) Hall _.
  destruct (blocks_false _ _ (Hz (Hall t ltac:(by left)))) as [Hle Hs]. destruct ts as [|t' ts]; [by cbn in H; subst to|].
  destruct (IH _ _ H) as [Hle' Hs']; [intros; apply Hall; by right|done|].
  split; [by eapply dec_leb_trans|by eapply same_side_trans].
Qed.

(** The order of transitions is a total one once no sleeve repeats a decision time. *)
Lemma transitions_sorted_alike ts ts' : ts ≡ₚ ts' → (∀ t, t ∈ ts → SleeveKey_post_init (vt_key t) = Ok tt) →
  NoDup (map (λ t, (vt_key t, instant (vt_decision_time t))) ts) →
  py_sorted transition_order ts = py_sorted transition_order ts'.
Proof.
  intros Hp Hv Hn. apply py_sorted_perm_eq; [|done]. intros t u [n Ht]%list_elem_of_lookup [m Hu]%list_elem_of_lookup E.
  unfold transition_order in E. apply (f_equal fst) in E as Ek. apply (f_equal snd) in E as Et. cbn [fst snd] in Ek, Et.
  apply canonical_tuple_inj in Ek; [|by eapply Hv, list_elem_of_lookup_2|by eapply Hv, list_elem_of_lookup_2].
  set (marker t := (vt_key t, instant (vt_decision_time t))) in *.
  assert (n = m) as ->; [|congruence]. apply (NoDup_lookup (map marker ts) n m (marker t) Hn); rewrite list_lookup_fmap; [by rewrite Ht|].
  rewrite Hu. cbn. unfold marker. by rewrite Ek, Et.
Qed.

Lemma replay_permuted initial ts ts' : (∀ t, t ∈ ts → SleeveKey_post_init (vt_key t) = Ok tt) → ts' ≡ₚ ts →
  replay_virtual_transitions initial ts' = replay_virtual_transitions initial ts.
Proof.
  intros Hv Hp. unfold replay_virtual_transitions. destruct (for_each initial_position ∅ initial) as [start|err]; [|done]. cbn [mbind res_bind].
  set (marker t := (vt_key t, instant (vt_decision_time t))).
  destruct (decide (NoDup (map marker ts))) as [Hn|Hn].
  - by rewrite (transitions_sorted_alike ts ts').
  - assert (∀ us, us ≡ₚ ts → has_duplicates (map marker (py_sorted transition_order us)) = true) as Hdup.
    { intros us Hu. unfold has_duplicates. rewrite bool_decide_false; [done|]. by rewrite (py_sorted_perm transition_order us), Hu. }
    by rewrite !Hdup.
Qed.

(** ** Properties *)


(** C18: replay is deterministic and faithful. Replaying valid transitions in any order
    gives the same outcome, errors included; when it succeeds, every final position is
    reached from its sleeve's initial one by that sleeve's own transitions in time order,
    each starting exactly at the quantity and state the previous one left; and a sleeve
    whose forecasts are all zero never ends larger or on the other side. *)
Theorem replay_exact initial ts ts' : (∀ t, t ∈ ts → SleeveKey_post_init (vt_key t) = Ok tt) → ts' ≡ₚ ts →
  replay_virtual_transitions initial ts' = replay_virtual_transitions initial ts ∧
  ∀ r, replay_virtual_transitions initial ts = Ok r →
    ∃ start, for_each initial_position ∅ initial = Ok start ∧
      ∀ p, p ∈ rp_positions r →
        let path := List.filter (of_sleeve (vp_key p)) (py_sorted transition_order ts) in
        follows (standing start (vp_key p)) path (vp_quantity p, vp_state_identity p) ∧
        (path ≠ [] → Forall (λ t, zero_forecast t = true) path →
           dec_leb (dec_abs (vp_quantity p)) (dec_abs (standing start (vp_key p)).1) = true ∧
           same_side (standing start (vp_key p)).1 (vp_quantity p)).
Proof.
  intros Hv Hp. split; [by apply replay_permuted|]. intros r (start & current & Hs & Hc & Hr & _)%replay_Ok.
  exists start. split; [exact Hs|]. intros p. rewrite Hr. intros Hin path.
  assert (filed current) as Hf by (eapply replay_filed; [exact Hc|by eapply initial_filed]).
  pose proof (replay_follows _ _ _ Hc (vp_key p)) as Hpath. rewrite (final_standing current p Hf Hin) in Hpath. fold path in Hpath.
  split; [exact Hpath|]. intros Hne Hz. rewrite Forall_forall in Hz. by apply (zero_path path _ _ Hpath).
Qed.

(** ** Examples *)

Definition sample_sleeve (experiment asset : string) : SleeveKey :=
  mkSleeve IG_NATIVE_CAPTURE FIXTURE_IMPLEMENTATION experiment "config" asset ONE_HORIZON.
Definition sample_forecast (r : Decimal) : GrossForecast := mkGross r ONE_HORIZON "REPORTING_RETURN" "model".
Definition sample_intent (experiment asset : string) (prior requested : Z) : HorizonIntent :=
  mkIntent (sample_sleeve experiment asset) (dec_of_Z prior) (dec_of_Z requested) (sample_forecast dec_one) (dec_of_Z 1000)
    sample_time (dt_add sample_time ONE_HORIZON) "model" [].

Lemma sample_nettable intents : NoDup (map hi_key intents) → intents ≠ [] → (length intents <= 8)%nat →
  (∀ i, i ∈ intents → ∃ x a p r, i = sample_intent x a p r ∧ nonempty x = true ∧ nonempty a = true ∧
     on_grid 0 100 (intent_requested_delta (sample_intent x a p r))) →
  nettable 0 100 IG_NATIVE_CAPTURE FIXTURE_IMPLEMENTATION intents.
Proof.
  intros Hn Hs Hl Hv. constructor; [lia| |done|done|change (10 ^ prec) with 10000000000000000000000000000; lia].
  intros i Hi. destruct (Hv i Hi) as (x & a & p & r & -> & Hx & Ha & G). split_and!; [|done|done|exact G].
  unfold SleeveKey_post_init. cbn [sk_experiment_id sk_configuration_id sk_asset_id sample_intent hi_key sample_sleeve forallb].
  by rewrite Hx, Ha.
Qed.

Definition sample_intents : list HorizonIntent :=
  [sample_intent "e2" "EURUSD" 3 0; sample_intent "e1" "EURUSD" 0 5; sample_intent "e3" "EURUSD" 1 0].


(** Two experiments that each hold a sleeve in two assets are refused, although nothing is
    wrong with their intents: the result lists sleeves by asset and then requires them in
    the canonical order, where the experiment comes before the asset. *)
Lemma netting_rejects_interleaved :
  let intents := [sample_intent "e1" "EURUSD" 0 5; sample_intent "e2" "EURUSD" 0 (-3);
                  sample_intent "e1" "GBPUSD" 0 2; sample_intent "e2" "GBPUSD" 0 4] in
  Forall (λ i, HorizonIntent_post_init i = Ok tt ∧ SleeveKey_post_init (hi_key i) = Ok tt) intents ∧
  match_internal_opposing_changes intents = Raise (ValueError "netting sleeves must be canonical").
Proof. cbn zeta. split; [repeat constructor|vm_compute; reflexivity]. Qed.

Definition sample_transition (prior next : Z) (forecast : Decimal) (minute : Z) : VirtualPositionTransition :=
  let k := sample_sleeve "e1" "EURUSD" in
  let at_ := dt_add sample_time (minutes minute) in
  mkTransition k (dec_of_Z prior) (dec_of_Z next) (sample_forecast forecast) at_ (dt_add at_ ONE_HORIZON) "model" "risk" "cost"
    (_position_identity k (dec_of_Z prior)) (_position_identity k (dec_of_Z next)) ACCEPTED dec_zero
    (dec_of_Z (next - prior)) dec_zero [].
Definition sample_transitions : list VirtualPositionTransition :=
  [sample_transition 3 2 dec_zero 30; sample_transition 0 3 dec_one 0; sample_transition 2 0 dec_zero 45].

Lemma replay_exact_witness :
  replay_virtual_transitions [] (rev sample_transitions) = replay_virtual_transitions [] sample_transitions ∧
  ∃ r start, replay_virtual_transitions [] sample_transitions = Ok r ∧ for_each initial_position ∅ [] = Ok start ∧
    ∀ p, p ∈ rp_positions r → follows (standing start (vp_key p))
      (List.filter (of_sleeve (vp_key p)) (py_sorted transition_order sample_transitions)) (vp_quantity p, vp_state_identity p).
Proof.
  destruct (replay_exact [] sample_transitions (rev sample_transitions)) as [Hperm Hr].
  - intros t Ht. unfold sample_transitions in Ht. repeat (apply elem_of_cons in Ht as [->|Ht]; [reflexivity|]). by apply elem_of_nil in Ht.
  - symmetry. apply Permutation_rev.
  - split; [exact Hperm|]. assert (is_ok (replay_virtual_transitions [] sample_transitions) = true) as Hok by (vm_compute; reflexivity).
    apply is_ok_true in Hok as [r Hok]. destruct (Hr r Hok) as (start & Hs & Hp). exists r, start. split; [exact Hok|]. split; [exact Hs|].
    intros p Hin. apply (Hp p Hin).
Defined.
