(* ===== verification/PyFloatFn.v ===== *)
(** Further operations on Python's [float]: absolute value, square root, comparison of
    tuples, the compensated [sum] of the builtin, [max] of a sequence, and decimals read
    back from the text of a float. *)

From S2P Require Import Prelude PyStr PyTime PyDecimal PyDecFn PyJson PyParse PyFloat.
From Stdlib Require Import Ascii SpecFloat.

Definition f_one : pyfloat := float_of_Z 1.
Definition f_two : pyfloat := float_of_Z 2.

Definition f_abs : pyfloat → pyfloat := SFabs.
Definition f_opp : pyfloat → pyfloat := SFopp.
(** [math.sqrt(x)] for [x >= 0], where it does not raise. *)
Definition f_sqrt : pyfloat → pyfloat := SFsqrt f_prec f_emax.

(** ** [sum] *)

(** One step of the compensated summation of Neumaier: the running sum and the low
    order part lost so far. *)
Definition sum_step (acc : pyfloat * pyfloat) (x : pyfloat) : pyfloat * pyfloat :=
  let '(total, c) := acc in
  let t := f_add total x in
  let lost := if f_leb (f_abs x) (f_abs total) then f_add (f_sub total t) x else f_add (f_sub x t) total in
  (t, f_add c lost).

Definition sum_end (acc : pyfloat * pyfloat) : pyfloat :=
  let '(total, c) := acc in
  if negb (f_eqb c f_zero) && isfinite c then f_add total c else total.

(** The builtin starts from the integer 0, to which the first float is added. *)
Definition float_sum (l : list pyfloat) : pyfloat :=
  match l with
  | [] => f_zero
  | x :: l => sum_end (fold_left sum_step l (f_add f_zero x, f_zero))
  end.

(** [max(values, default=0.0)] *)
Definition float_max (l : list pyfloat) : pyfloat :=
  match l with [] => f_zero | x :: l => fold_left f_max l x end.

(** [a < b] on tuples of floats. *)
Fixpoint floats_ltb (a b : list pyfloat) : bool :=
  match a, b with
  | x :: a, y :: b => if f_eqb x y then floats_ltb a b else f_ltb x y
  | [], _ :: _ => true
  | _, [] => false
  end.

(** [a == b] on tuples of floats. *)
Fixpoint floats_eqb (a b : list pyfloat) : bool :=
  match a, b with
  | x :: a, y :: b => f_eqb x y && floats_eqb a b
  | [], [] => true
  | _, _ => false
  end.

(** ** Decimals that may be infinite or not a number *)

Inductive xdecimal : Type := Fin (d : Decimal) | PosInf | NegInf | NotANumber.

(** The decimal that the text [repr_text neg c e] denotes: its digits without trailing
    zeros, and the place of the point; a whole number below 10^16 is written with one
    decimal, [".0"]. *)
Definition repr_decimal (neg : bool) (c e : Z) : Decimal :=
  let all := chars (digits c) in
  let ds := rev (drop_zeros (rev all)) in
  let point := Z.of_nat (length all) + e in
  let n := Z.of_nat (length ds) in
  let coefficient := parse_digits (of_chars ds) in
  if (0 <? point) && (point <=? 16) && (n <=? point)
  then Dec neg (coefficient * 10 ^ (point - n + 1)) (-1)
  else Dec neg coefficient (point - n).

(** [Decimal(str(x))] *)
Definition Decimal_of_text (x : pyfloat) : xdecimal :=
  match x with
  | S754_nan => NotANumber
  | S754_infinity s => if s then NegInf else PosInf
  | S754_zero s => Fin (Dec s 0 (-1))
  | S754_finite s m e =>
      let '(n, d) := if 0 <=? e then (Zpos m * 2 ^ e, 1) else (Zpos m, 2 ^ (- e)) in
      let '(c, k) := repr_search (S754_finite false m e) n d 16 1 in
      Fin (repr_decimal s c k)
  end.

(** The value of a comparison; comparing with a NaN signals an invalid operation. *)
Definition xdec_cmp (a b : xdecimal) : option comparison :=
  match a, b with
  | NotANumber, _ | _, NotANumber => None
  | Fin a, Fin b => Some (dec_cmp a b)
  | PosInf, PosInf | NegInf, NegInf => Some Eq
  | PosInf, _ | _, NegInf => Some Gt
  | NegInf, _ | _, PosInf => Some Lt
  end.

Definition invalid_operation : exn := ArithmeticError "[<class 'decimal.InvalidOperation'>]".

(** [a < b] *)
Definition xdec_lt (a b : xdecimal) : res bool :=
  match xdec_cmp a b with
  | Some c => Ok (match c with Lt => true | _ => false end)
  | None => Raise invalid_operation
  end.

(** [a + b]; opposite infinities are an invalid operation. *)
Definition xdec_add (a b : xdecimal) : res xdecimal :=
  match a, b with
  | NotANumber, _ | _, NotANumber => Ok NotANumber
  | Fin a, Fin b => Ok (Fin (dec_add a b))
  | PosInf, NegInf | NegInf, PosInf => Raise invalid_operation
  | PosInf, _ | _, PosInf => Ok PosInf
  | NegInf, _ | _, NegInf => Ok NegInf
  end.

(** [max(a, b)] keeps [a] unless [b] is greater. *)
Definition xdec_max (a b : xdecimal) : res xdecimal := greater ← xdec_lt a b; Ok (if greater : bool then b else a).

Definition xdec_sum (l : list xdecimal) : res xdecimal := for_each xdec_add (Fin dec_zero) l.

(** ** Signs and symmetry of the arithmetic *)

Lemma f_mul_comm x y : f_mul x y = f_mul y x.
Proof.
  destruct x as [s|s| |s m e], y as [s'|s'| |s' m' e']; cbn; try reflexivity; try (by rewrite xorb_comm).
  by rewrite xorb_comm, Pos.mul_comm, Z.add_comm.
Qed.

(** A number with the given sign, or not a number at all. *)
Definition has_sign (s : bool) (x : pyfloat) : Prop :=
  match x with S754_zero s' | S754_infinity s' | S754_finite s' _ _ => s' = s | S754_nan => True end.

Lemma round_sign s m e l : has_sign s (binary_round_aux f_prec f_emax s m e l).
Proof.
  unfold binary_round_aux. destruct (shr_fexp _ _ m e l) as [mrs e']. cbv zeta beta.
  destruct (shr_fexp _ _ _ e' loc_Exact) as [mrs' e'']. destruct (shr_m mrs'); cbn; [done| |done].
  by destruct (e'' <=? f_emax - f_prec).
Qed.

Lemma positive_sign x : f_ltb f_zero x = true → has_sign false x ∧ x ≠ S754_zero false.
Proof. destruct x as [s|[]| |[] m e]; cbn; intros H; try discriminate H; by split. Qed.

Lemma f_div_sign x y : has_sign false x → has_sign false y → has_sign false (f_div x y).
Proof.
  destruct x as [s|s| |s m e], y as [s'|s'| |s' m' e']; cbn -[SFdiv_core_binary binary_round_aux]; intros; subst; try done.
  destruct (SFdiv_core_binary _ _ _ _ _ _) as [[mz ez] lz]. apply (round_sign false).
Qed.

Lemma f_leb_zero x : has_sign false x → x ≠ S754_nan → f_leb f_zero x = true.
Proof. destruct x as [s|s| |s m e]; cbn; intros; subst; done. Qed.

Lemma parse_digits_nonneg l : (∀ c, c ∈ l → is_digit c = true) → 0 <= parse_digits (of_chars l).
Proof.
  unfold parse_digits. rewrite chars_of_chars. assert (∀ acc, 0 <= acc → (∀ c, c ∈ l → is_digit c = true) →
    0 <= fold_left (λ acc c, acc * 10 + char_val c) l acc) as H; [|by apply H].
  induction l as [|c l IH]; intros acc Hacc Hl; [done|]. cbn. apply IH; [|set_solver].
  assert (0 <= char_val c); [|lia]. pose proof (Hl c ltac:(set_solver)) as Hc.
  unfold is_digit, in_range in Hc. apply andb_true_iff in Hc as [Hlo _]. apply N.leb_le in Hlo.
  unfold char_val. lia.
Qed.

Lemma drop_zeros_sub l c : c ∈ drop_zeros l → c ∈ l.
Proof. induction l as [|x l IH]; [done|]. cbn. destruct (Ascii.eqb x "0"); set_solver. Qed.

Lemma digit_char_digit d : 0 <= d < 10 → is_digit (digit_char d) = true.
Proof. intros Hd. assert (d ∈ map Z.of_nat (seq 0 10)) as Hin; [|by repeat (apply elem_of_cons in Hin as [->|Hin]; [done|]); apply elem_of_nil in Hin].
  apply list_elem_of_fmap. exists (Z.to_nat d). split; [lia|]. apply elem_of_seq. lia. Qed.
Lemma digits_are_digits fuel : ∀ n acc, (∀ c, c ∈ chars acc → is_digit c = true) →
  ∀ c, c ∈ chars (digits_fuel fuel n acc) → is_digit c = true.
Proof.
  induction fuel as [|fuel IH]; intros n acc Hacc c; [apply Hacc|]. cbn [digits_fuel].
  assert (∀ c', c' ∈ chars (String (digit_char (n mod 10)) acc) → is_digit c' = true) as Hacc'.
  { intros c' [-> | Hc]%elem_of_cons; [|by apply Hacc]. apply digit_char_digit, Z.mod_pos_bound. lia. }
  destruct (n <? 10); [apply Hacc'|]. by apply IH.
Qed.

Lemma repr_decimal_wf neg c e : dec_wf (repr_decimal neg c e) ∧ dec_neg (repr_decimal neg c e) = neg.
Proof.
  unfold repr_decimal. cbv zeta. set (ds := rev _). set (point := Z.of_nat (length (chars (digits c))) + e).
  assert (0 <= parse_digits (of_chars ds)) as Hp.
  { apply parse_digits_nonneg. intros x Hx%list_elem_of_In%in_rev%list_elem_of_In%drop_zeros_sub.
    apply (digits_are_digits (Z.to_nat (Z.log2 c) + 1) c ""); [cbn; set_solver|].
    apply list_elem_of_In, in_rev. by apply list_elem_of_In. }
  destruct (_ && _); (split; [|done]); unfold dec_wf; cbn; [|done].
  apply Z.mul_nonneg_nonneg; [done|]. by apply Z.pow_nonneg.
Qed.

Lemma dec_not_negative d : dec_wf d → dec_neg d = false ∨ dec_coeff d = 0 → dec_ltb d dec_zero = false.
Proof.
  unfold dec_wf. intros Hw Hd. rewrite (dec_ltb_at (Z.min (dec_exp d) 0)) by (cbn; lia).
  change (scaled _ dec_zero) with 0. apply Z.ltb_ge. unfold scaled, dec_signed.
  assert (0 < 10 ^ (dec_exp d - Z.min (dec_exp d) 0)) by (apply Z.pow_pos_nonneg; lia).
  destruct Hd as [-> | ->]; [nia|]. by destruct (dec_neg d).
Qed.

(** Reading the text of a finite number gives a decimal, negative only for a negative one. *)
Lemma Decimal_of_text_nonneg x : isfinite x = true → f_ltb x f_zero = false →
  ∃ d, Decimal_of_text x = Fin d ∧ dec_wf d ∧ dec_ltb d dec_zero = false.
Proof.
  destruct x as [s|s| |[] m e]; try discriminate; intros _ Hx; [by destruct s; eexists|].
  unfold Decimal_of_text. destruct (if 0 <=? e then _ else _) as [n d]. destruct (repr_search _ _ _ _ _) as [c k].
  pose proof (repr_decimal_wf false c k) as [Hw Hs].
  eexists. split; [done|]. split; [done|]. apply dec_not_negative; [done|]. by left.
Qed.

(** ** Examples *)

Example sum_tenths : float_repr (float_sum (repeat (float_ratio 1 10) 10)) = "1.0".
Proof. vm_compute. reflexivity. Qed.
Example sum_cancels : float_repr (float_sum [float_of_Z (10 ^ 16); f_one; float_of_Z (- 10 ^ 16)]) = "1.0".
Proof. vm_compute. reflexivity. Qed.
Example sqrt_two : float_repr (f_sqrt f_two) = "1.4142135623730951". Proof. vm_compute. reflexivity. Qed.
Definition upper_e (c : ascii) : ascii := if Ascii.eqb c "e" then "E"%char else c.
(** [Decimal_of_text] reads what [repr] writes. *)
Example text_is_repr : forallb (λ x, match Decimal_of_text x, read_decimal (of_chars (map upper_e (chars (float_repr x)))) with
    | Fin a, Some b => bool_decide (a = b) | _, _ => false end)
  [f_zero; f_one; float_ratio (-1) 10; float_ratio 1 3; float_ratio 123 100000; float_ratio 7 1000000; float_of_Z 1000;
   float_of_Z (10 ^ 15 + 1); float_of_Z (10 ^ 16); float_of_Z (123 * 10 ^ 20); float_ratio 2500 1; float_ratio 5 2; S754_finite false 1 (-1074)] = true.
Proof. vm_compute. reflexivity. Qed.
Example text_small : Decimal_of_text (float_ratio 1 100000) = Fin (dec_lit 1 (-5)). Proof. vm_compute. reflexivity. Qed.
Example text_tenths : Decimal_of_text (float_ratio (-3) 10) = Fin (dec_lit (-3) (-1)). Proof. vm_compute. reflexivity. Qed.
