(* ===== verification/Risk.v ===== *)
(** The ordered portfolio risk state ([domain/risk.py]): observations and their causal
    selection, the Ledoit-Wolf covariance over binary64 numbers, the validation of a
    state with its identities, and the exposures and caps of a position.

    A matrix is a list of rows. The C library's [pow], behind [x ** 2], is the parameter
    [math_pow]. *)

From S2P Require Import Prelude PySorted PyStr PyTime PyDecFn Sha256 PyJson PyFloat PyFloatFn Domain CaptureFeed Economics.
From Stdlib Require Import SpecFloat.

Definition RISK_STATE_CONTRACT : string := "qtrad-ordered-risk-state-v1".
Definition SUPPORTED_ESTIMATOR : string := "LEDOIT_WOLF".
Definition DEFAULT_ESTIMATOR_VERSION : string := "qtrad-ledoit-wolf-pure-python-v1".

Notation vector := (list pyfloat).
Notation FloatMatrix := (list (list pyfloat)).

(** [not isfinite(value) or value < 0] *)
Definition unusable (value : pyfloat) : bool := negb (isfinite value) || f_ltb value f_zero.

Definition canonical_asset_order (asset_ids : list string) : res (list string) :=
  let ordered := py_sorted id asset_ids in
  raise_if (Nat.eqb (length ordered) 0 || existsb (λ a, negb (nonempty a)) ordered)
    (ValueError "risk asset order must contain non-empty identifiers");;
  raise_if (has_duplicates ordered) (ValueError "risk asset order must contain unique identifiers");;
  Ok ordered.

(** ** Observations and configuration *)

Record RiskObservation : Type := mkRiskObservation {
  ro_observed_at : datetime;
  ro_values : list (option pyfloat);
  ro_available_at : option datetime }.

Definition RiskObservation_post_init (o : RiskObservation) : res unit :=
  require_utc (ro_observed_at o) "risk observation observed_at";;
  when_some (ro_available_at o) (λ available : datetime,
    require_utc available "risk observation available_at";;
    raise_if (dt_ltb available (ro_observed_at o)) (ValueError "risk observation available_at precedes observed_at"));;
  raise_if (Nat.eqb (length (ro_values o)) 0) (ValueError "risk observation values must be non-empty");;
  raise_if (existsb (λ v, match v with Some x => negb (isfinite x) | None => false end) (ro_values o))
    (ValueError "risk observation values must be finite or None").

Definition availability_time (o : RiskObservation) : datetime := default (ro_observed_at o) (ro_available_at o).

Definition from_mapping (observed_at : datetime) (values : gmap string (option pyfloat)) (asset_order : list string)
    (available_at : option datetime) : res RiskObservation :=
  ordered ← canonical_asset_order asset_order;
  raise_if (negb (bool_decide (dom values = (list_to_set ordered : gset string)))
            || negb (Nat.eqb (size values) (length ordered)))
    (ValueError "risk observation mapping keys do not match canonical asset order");;
  row ← traverse (λ asset, match values !! asset with Some v => Ok v | None => Raise (KeyError asset) end) ordered;
  let o := mkRiskObservation observed_at row available_at in
  RiskObservation_post_init o;; Ok o.

Record RiskEstimatorConfig : Type := mkRiskConfig {
  rc_horizon : timedelta;
  rc_lookback : timedelta;
  rc_maximum_age : timedelta;
  rc_estimator : string;
  rc_estimator_version : string;
  rc_return_unit : string;
  rc_availability_policy : string;
  rc_minimum_observations : Z;
  rc_symmetry_tolerance : pyfloat;
  rc_psd_tolerance : pyfloat;
  rc_finite_tolerance : pyfloat }.

Definition check_tolerance (vn : pyfloat * string) : res unit :=
  raise_if (unusable vn.1) (ValueError (vn.2 +:+ " must be finite and non-negative")).

Definition RiskEstimatorConfig_post_init (c : RiskEstimatorConfig) : res unit :=
  raise_if (rc_horizon c <=? 0) (ValueError "risk horizon must be positive");;
  raise_if (rc_lookback c <=? 0) (ValueError "risk lookback must be positive");;
  raise_if (rc_maximum_age c <=? 0) (ValueError "risk maximum_age must be positive");;
  raise_if (negb (String.eqb (rc_estimator c) SUPPORTED_ESTIMATOR)) (ValueError "unsupported risk estimator");;
  raise_if (negb (String.eqb (rc_estimator_version c) DEFAULT_ESTIMATOR_VERSION))
    (ValueError "unsupported risk estimator version");;
  raise_if (negb (String.eqb (rc_return_unit c) "LOG_RETURN")) (ValueError "risk return_unit must be LOG_RETURN");;
  raise_if (negb (String.eqb (rc_availability_policy c) "AVAILABLE_BY_CUTOFF"))
    (ValueError "unsupported risk availability policy");;
  raise_if (rc_minimum_observations c <? 2) (ValueError "risk minimum_observations must be at least two");;
  for_each (λ _, check_tolerance) tt
    [(rc_symmetry_tolerance c, "risk symmetry_tolerance"); (rc_psd_tolerance c, "risk psd_tolerance");
     (rc_finite_tolerance c, "risk finite_tolerance")].

Record RiskCaps : Type := mkCaps {
  ca_asset_caps : vector;
  ca_gross_cap : pyfloat;
  ca_net_cap : pyfloat;
  ca_concentration_cap : pyfloat;
  ca_portfolio_risk_cap : pyfloat;
  ca_group_caps : vector;
  ca_currency_caps : vector }.

Definition check_cap (vn : pyfloat * string) : res unit :=
  raise_if (unusable vn.1) (ValueError ("risk " +:+ vn.2 +:+ " must be finite and non-negative")).

Definition RiskCaps_post_init (c : RiskCaps) : res unit :=
  raise_if (Nat.eqb (length (ca_asset_caps c)) 0) (ValueError "risk asset caps must be explicit and non-empty");;
  for_each (λ _, check_cap) tt
    ([(ca_gross_cap c, "gross_cap"); (ca_net_cap c, "net_cap"); (ca_concentration_cap c, "concentration_cap");
      (ca_portfolio_risk_cap c, "portfolio_risk_cap")]
     ++ map (λ cap, (cap, "asset cap")) (ca_asset_caps c)
     ++ map (λ cap, (cap, "group cap")) (ca_group_caps c)
     ++ map (λ cap, (cap, "currency cap")) (ca_currency_caps c));;
  raise_if (f_ltb f_one (ca_concentration_cap c)) (ValueError "risk concentration_cap must not exceed one").

Definition floats_json (l : vector) : json := JList (map float_json l).
Definition matrix_json (m : FloatMatrix) : json := JList (map floats_json m).

Definition caps_json (c : RiskCaps) : json :=
  JObj [("asset_caps", floats_json (ca_asset_caps c)); ("gross_cap", float_json (ca_gross_cap c));
        ("net_cap", float_json (ca_net_cap c)); ("concentration_cap", float_json (ca_concentration_cap c));
        ("portfolio_risk_cap", float_json (ca_portfolio_risk_cap c)); ("group_caps", floats_json (ca_group_caps c));
        ("currency_caps", floats_json (ca_currency_caps c))].

(** ** Exposure mappings and matrices *)

Definition check_row (label : string) (width : option nat) (row : vector) : res unit :=
  raise_if (match width with Some w => negb (Nat.eqb (length row) w) | None => true end)
    (ValueError (label +:+ " exposure matrix has inconsistent width"));;
  raise_if (existsb (λ v, negb (isfinite v)) row) (ValueError (label +:+ " exposure matrix must be finite")).

Definition _validate_mapping (keys : list string) (matrix : FloatMatrix) (caps : vector) (label : string)
    (asset_count : option nat) : res unit :=
  raise_if (negb (bool_decide (py_sorted id keys = keys)) || has_duplicates keys || existsb (λ k, negb (nonempty k)) keys)
    (ValueError (label +:+ " keys must be unique and canonical"));;
  raise_if (negb (Nat.eqb (length matrix) (length keys)) || negb (Nat.eqb (length caps) (length keys)))
    (ValueError (label +:+ " mapping and caps must have matching lengths"));;
  let width := match asset_count with
               | Some n => Some n
               | None => match matrix with row :: _ => Some (length row) | [] => None end end in
  for_each (λ _, check_row label width) tt matrix;;
  for_each (λ _ cap, raise_if (unusable cap) (ValueError (label +:+ " caps must be finite and non-negative"))) tt caps.

Record ExposureMapping : Type := mkExposure {
  em_group_keys : list string;
  em_group_exposure_matrix : FloatMatrix;
  em_group_caps : vector;
  em_currency_keys : list string;
  em_currency_exposure_matrix : FloatMatrix;
  em_currency_caps : vector }.

Definition ExposureMapping_post_init (e : ExposureMapping) : res unit :=
  _validate_mapping (em_group_keys e) (em_group_exposure_matrix e) (em_group_caps e) "group" None;;
  _validate_mapping (em_currency_keys e) (em_currency_exposure_matrix e) (em_currency_caps e) "currency" None.

(** [matrix[row][column]] of a matrix whose shape was checked. *)
Definition entry (m : FloatMatrix) (row column : nat) : pyfloat := nth column (nth row m []) f_zero.

(** The factor's entry at ([row], [column]), given the rows above and the part of the row
    already computed; [None] when the matrix is rejected. *)
Definition factor_entry (matrix : FloatMatrix) (tolerance : pyfloat) (above : FloatMatrix) (row : nat) (part : vector)
    : option pyfloat :=
  let column := length part in
  let other := if Nat.eqb row column then part else nth column above [] in
  let residual := f_sub (entry matrix row column) (float_sum (zip_with f_mul part other)) in
  if Nat.eqb row column then
    if f_ltb residual (f_opp tolerance) then None else Some (f_sqrt (f_max residual f_zero))
  else
    let pivot := nth column other f_zero in
    if f_ltb tolerance pivot then Some (f_div residual pivot)
    else if f_ltb tolerance (f_abs residual) then None
    else Some f_zero.

Definition factor_row (matrix : FloatMatrix) (tolerance : pyfloat) (above : FloatMatrix) (row : nat) : option vector :=
  fold_left (λ part _, p ← part; x ← factor_entry matrix tolerance above row p; Some (p ++ [x]))
    (seq 0 (S row)) (Some []).

Definition _is_positive_semidefinite (matrix : FloatMatrix) (tolerance : pyfloat) : bool :=
  match fold_left (λ above row, a ← above; r ← factor_row matrix tolerance a row; Some (a ++ [r]))
          (seq 0 (length matrix)) (Some []) with
  | Some _ => true
  | None => false
  end.

Definition _validate_square_matrix (matrix : FloatMatrix) (size : nat) (label : string)
    (symmetry_tolerance psd_tolerance : pyfloat) : res unit :=
  raise_if (negb (Nat.eqb (length matrix) size) || existsb (λ row, negb (Nat.eqb (length row) size)) matrix)
    (ValueError (label +:+ " shape does not match asset order"));;
  raise_if (existsb (λ row, existsb (λ v, negb (isfinite v)) row) matrix) (ValueError (label +:+ " must be finite"));;
  raise_if (existsb (λ row, existsb (λ column,
              f_ltb symmetry_tolerance (f_abs (f_sub (entry matrix row column) (entry matrix column row))))
              (seq 0 size)) (seq 0 size))
    (ValueError (label +:+ " is not symmetric within tolerance"));;
  raise_if (negb (_is_positive_semidefinite matrix psd_tolerance))
    (ValueError (label +:+ " is not positive semidefinite within tolerance")).

(** ** The state *)

Record RiskState : Type := mkRiskState {
  rs_asset_order : list string;
  rs_horizon : timedelta;
  rs_as_of : datetime;
  rs_observation_cutoff : datetime;
  rs_lookback : timedelta;
  rs_maximum_age : timedelta;
  rs_availability_policy : string;
  rs_return_unit : string;
  rs_estimator : string;
  rs_estimator_version : string;
  rs_shrinkage : pyfloat;
  rs_covariance : FloatMatrix;
  rs_sample_count : Z;
  rs_raw_observation_count : Z;
  rs_missing_observation_count : Z;
  rs_excluded_observation_count : Z;
  rs_effective_observations : Z;
  rs_symmetry_tolerance : pyfloat;
  rs_psd_tolerance : pyfloat;
  rs_finite_tolerance : pyfloat;
  rs_group_keys : list string;
  rs_group_exposure_matrix : FloatMatrix;
  rs_group_caps : vector;
  rs_currency_keys : list string;
  rs_currency_exposure_matrix : FloatMatrix;
  rs_currency_caps : vector;
  rs_caps : RiskCaps;
  rs_source_class : MarketDataSourceClass;
  rs_evidence_purpose : EvidencePurpose;
  rs_provenance : string;
  rs_semantic_identity : option string;
  rs_closure_identity : option string;
  rs_provenance_identity : option string;
  rs_horizon_state_identities : list string }.

Definition _hash_json (value : json) : string := sha256_json value.
Definition risk_time (value : datetime) : res json :=
  require_utc value "risk identity datetime";; Ok (JStr (utc_text value)).
Definition strs_json (l : list string) : json := JList (map JStr l).

Definition _semantic_payload (s : RiskState) : res json :=
  as_of ← risk_time (rs_as_of s);
  cutoff ← risk_time (rs_observation_cutoff s);
  Ok (JObj ([("contract", JStr RISK_STATE_CONTRACT); ("schema_version", JInt 1);
    ("source_class", JStr (MarketDataSourceClass_str (rs_source_class s)));
    ("evidence_purpose", JStr (EvidencePurpose_str (rs_evidence_purpose s)));
    ("asset_order", strs_json (rs_asset_order s)); ("horizon_seconds", span_json (rs_horizon s));
    ("as_of", as_of); ("observation_cutoff", cutoff); ("lookback_seconds", span_json (rs_lookback s));
    ("maximum_age_seconds", span_json (rs_maximum_age s)); ("availability_policy", JStr (rs_availability_policy s));
    ("return_unit", JStr (rs_return_unit s)); ("estimator", JStr (rs_estimator s));
    ("estimator_version", JStr (rs_estimator_version s)); ("shrinkage", float_json (rs_shrinkage s));
    ("covariance", matrix_json (rs_covariance s)); ("sample_count", JInt (rs_sample_count s));
    ("raw_observation_count", JInt (rs_raw_observation_count s));
    ("missing_observation_count", JInt (rs_missing_observation_count s));
    ("excluded_observation_count", JInt (rs_excluded_observation_count s));
    ("effective_observations", JInt (rs_effective_observations s));
    ("symmetry_tolerance", float_json (rs_symmetry_tolerance s)); ("psd_tolerance", float_json (rs_psd_tolerance s));
    ("finite_tolerance", float_json (rs_finite_tolerance s)); ("group_keys", strs_json (rs_group_keys s));
    ("group_exposure_matrix", matrix_json (rs_group_exposure_matrix s)); ("group_caps", floats_json (rs_group_caps s));
    ("currency_keys", strs_json (rs_currency_keys s));
    ("currency_exposure_matrix", matrix_json (rs_currency_exposure_matrix s));
    ("currency_caps", floats_json (rs_currency_caps s)); ("caps", caps_json (rs_caps s))]
    ++ (match rs_horizon_state_identities s with [] => [] | ids => [("horizon_state_identities", strs_json ids)] end))).

Definition _closure_payload (s : RiskState) : res json :=
  payload ← _semantic_payload s;
  Ok (JObj [("semantic_payload", payload); ("provenance", JStr (rs_provenance s))]).

Definition check_identity (c : option string * string * string) : res unit :=
  let '(provided, expected, name) := c in
  raise_if (match provided with Some p => negb (String.eqb p expected) | None => false end)
    (ValueError ("risk " +:+ name +:+ " identity does not match its content")).

(** The identities a state is given once its fields are validated. *)
Definition identified (s : RiskState) (semantic closure provenance : string) : RiskState :=
  mkRiskState (rs_asset_order s) (rs_horizon s) (rs_as_of s) (rs_observation_cutoff s) (rs_lookback s)
    (rs_maximum_age s) (rs_availability_policy s) (rs_return_unit s) (rs_estimator s) (rs_estimator_version s)
    (rs_shrinkage s) (rs_covariance s) (rs_sample_count s) (rs_raw_observation_count s)
    (rs_missing_observation_count s) (rs_excluded_observation_count s) (rs_effective_observations s)
    (rs_symmetry_tolerance s) (rs_psd_tolerance s) (rs_finite_tolerance s) (rs_group_keys s)
    (rs_group_exposure_matrix s) (rs_group_caps s) (rs_currency_keys s) (rs_currency_exposure_matrix s)
    (rs_currency_caps s) (rs_caps s) (rs_source_class s) (rs_evidence_purpose s) (rs_provenance s)
    (Some semantic) (Some closure) (Some provenance) (rs_horizon_state_identities s).

(** The checks of [RiskState.__post_init__] before the identities. *)
Definition RiskState_checks (s : RiskState) : res unit :=
  raise_if (has_duplicates (rs_horizon_state_identities s)) (ValueError "risk horizon state identities must be unique");;
  raise_if (existsb (λ v, negb (is_sha256 v)) (rs_horizon_state_identities s))
    (ValueError "risk horizon state identity is invalid");;
  ordered ← canonical_asset_order (rs_asset_order s);
  raise_if (negb (bool_decide (ordered = rs_asset_order s))) (ValueError "risk asset_order is not canonical");;
  require_utc (rs_as_of s) "risk as_of";;
  require_utc (rs_observation_cutoff s) "risk observation_cutoff";;
  raise_if (dt_ltb (rs_as_of s) (rs_observation_cutoff s)) (ValueError "risk observation_cutoff is after as_of");;
  raise_if ((rs_horizon s <=? 0) || (rs_lookback s <=? 0) || (rs_maximum_age s <=? 0))
    (ValueError "risk horizon, lookback and maximum_age must be positive");;
  raise_if (rs_maximum_age s <? dt_diff (rs_as_of s) (rs_observation_cutoff s))
    (ValueError "risk observation cutoff exceeds maximum age");;
  for_each (λ _, check_tolerance) tt
    [(rs_shrinkage s, "risk shrinkage"); (rs_symmetry_tolerance s, "risk symmetry_tolerance");
     (rs_psd_tolerance s, "risk psd_tolerance"); (rs_finite_tolerance s, "risk finite_tolerance")];;
  raise_if (negb (String.eqb (rs_estimator s) SUPPORTED_ESTIMATOR)) (ValueError "unsupported risk estimator");;
  raise_if (negb (String.eqb (rs_estimator_version s) DEFAULT_ESTIMATOR_VERSION))
    (ValueError "unsupported risk estimator version");;
  raise_if (negb (String.eqb (rs_availability_policy s) "AVAILABLE_BY_CUTOFF"))
    (ValueError "unsupported risk availability policy");;
  raise_if (negb (String.eqb (rs_return_unit s) "LOG_RETURN")) (ValueError "risk return_unit must be LOG_RETURN");;
  let n := length (rs_asset_order s) in
  _validate_square_matrix (rs_covariance s) n "risk covariance" (rs_symmetry_tolerance s) (rs_psd_tolerance s);;
  _validate_mapping (rs_group_keys s) (rs_group_exposure_matrix s) (rs_group_caps s) "group" (Some n);;
  _validate_mapping (rs_currency_keys s) (rs_currency_exposure_matrix s) (rs_currency_caps s) "currency" (Some n);;
  raise_if (negb (Nat.eqb (length (ca_asset_caps (rs_caps s))) n)) (ValueError "risk asset caps do not match asset order");;
  raise_if (negb (floats_eqb (ca_group_caps (rs_caps s)) (rs_group_caps s))
            || negb (floats_eqb (ca_currency_caps (rs_caps s)) (rs_currency_caps s)))
    (ValueError "risk caps do not match exposure mapping caps");;
  raise_if ((rs_sample_count s <? 2) || negb (rs_effective_observations s =? rs_sample_count s))
    (ValueError "risk state has insufficient or inconsistent observations");;
  raise_if (rs_raw_observation_count s <? rs_sample_count s)
    (ValueError "risk raw observation count is below sample count");;
  raise_if ((rs_missing_observation_count s <? 0) || (rs_excluded_observation_count s <? 0)
            || (rs_raw_observation_count s <? rs_missing_observation_count s + rs_sample_count s))
    (ValueError "risk observation exclusion metadata is inconsistent");;
  raise_if (negb (nonempty (rs_provenance s))) (ValueError "risk provenance is required").

Definition RiskState_post_init (s : RiskState) : res RiskState :=
  RiskState_checks s;;
  payload ← _semantic_payload s;
  let expected_semantic := _hash_json payload in
  closure ← _closure_payload s;
  let expected_closure := _hash_json (JObj [("contract", JStr RISK_STATE_CONTRACT);
                                            ("semantic_identity", JStr expected_semantic); ("closure", closure)]) in
  let expected_provenance := _hash_json (JObj [("contract", JStr RISK_STATE_CONTRACT);
                                               ("provenance", JStr (rs_provenance s));
                                               ("estimator_version", JStr (rs_estimator_version s))]) in
  for_each (λ _, check_identity) tt
    [(rs_semantic_identity s, expected_semantic, "semantic"); (rs_closure_identity s, expected_closure, "closure");
     (rs_provenance_identity s, expected_provenance, "provenance")];;
  Ok (identified s expected_semantic expected_closure expected_provenance).

Definition semantic_id (s : RiskState) : string := default "" (rs_semantic_identity s).

(** ** Exposures and caps of a position *)

Definition _position (s : RiskState) (position : vector) : res vector :=
  raise_if (negb (Nat.eqb (length position) (length (rs_asset_order s))))
    (ValueError "position length does not match risk asset order");;
  raise_if (existsb (λ v, negb (isfinite v)) position) (ValueError "position must contain finite values");;
  Ok position.

Definition dot (row values : vector) : pyfloat := float_sum (zip_with f_mul row values).

Definition exposure (label : string) (matrix : FloatMatrix) (s : RiskState) (position : vector) : res vector :=
  values ← _position s position;
  let exposures := map (λ row, dot row values) matrix in
  raise_if (existsb (λ v, negb (isfinite v)) exposures) (ValueError (label +:+ " exposure produced a non-finite result"));;
  Ok exposures.

Definition group_exposure (s : RiskState) : vector → res vector := exposure "group" (rs_group_exposure_matrix s) s.
Definition currency_exposure (s : RiskState) : vector → res vector := exposure "currency" (rs_currency_exposure_matrix s) s.

(** [if not isfinite(value): raise ValueError(...)] *)
Definition finite_or (message : string) (value : pyfloat) : res pyfloat :=
  raise_if (negb (isfinite value)) (ValueError message);; Ok value.

Definition portfolio_variance (s : RiskState) (position : vector) : res pyfloat :=
  values ← _position s position;
  let indices := seq 0 (length values) in
  finite_or "portfolio variance produced a non-finite result"
    (float_sum (flat_map (λ row, map (λ column,
       f_mul (f_mul (nth row values f_zero) (entry (rs_covariance s) row column)) (nth column values f_zero)) indices) indices)).

Definition portfolio_risk (s : RiskState) (position : vector) : res pyfloat :=
  variance ← portfolio_variance s position;
  raise_if (f_ltb variance (f_opp (rs_psd_tolerance s)))
    (ValueError "risk covariance produced a materially negative variance");;
  finite_or "portfolio risk produced a non-finite result" (f_sqrt (f_max variance f_zero)).

Definition gross_exposure (s : RiskState) (position : vector) : res pyfloat :=
  values ← _position s position;
  finite_or "gross exposure produced a non-finite result" (float_sum (map f_abs values)).

Definition net_exposure (s : RiskState) (position : vector) : res pyfloat :=
  values ← _position s position;
  finite_or "net exposure produced a non-finite result" (f_abs (float_sum values)).

Definition concentration (s : RiskState) (position : vector) : res pyfloat :=
  values ← _position s position;
  gross ← finite_or "concentration produced a non-finite gross exposure" (float_sum (map f_abs values));
  finite_or "concentration produced a non-finite result"
    (if f_eqb gross f_zero then f_zero else f_div (float_max (map f_abs values)) gross).

(** [any(abs(value) > cap + tolerance for value, cap in zip(values, caps, strict=True))] *)
Fixpoint exceeds (tolerance : pyfloat) (values caps : vector) : res bool :=
  match values, caps with
  | [], [] => Ok false
  | value :: values, cap :: caps =>
      if f_ltb (f_add cap tolerance) (f_abs value) then Ok true else exceeds tolerance values caps
  | [], _ => Raise (ValueError "zip() argument 2 is longer than argument 1")
  | _, [] => Raise (ValueError "zip() argument 2 is shorter than argument 1")
  end.

Definition validate_position (s : RiskState) (position : vector) : res unit :=
  values ← _position s position;
  let tolerance := rs_finite_tolerance s in
  let caps := rs_caps s in
  over ← exceeds tolerance values (ca_asset_caps caps);
  raise_if over (ValueError "position exceeds an asset cap");;
  gross ← gross_exposure s values;
  raise_if (f_ltb (f_add (ca_gross_cap caps) tolerance) gross) (ValueError "position exceeds gross cap");;
  net ← net_exposure s values;
  raise_if (f_ltb (f_add (ca_net_cap caps) tolerance) net) (ValueError "position exceeds net cap");;
  share ← concentration s values;
  raise_if (f_ltb (f_add (ca_concentration_cap caps) tolerance) share) (ValueError "position exceeds concentration cap");;
  groups ← group_exposure s values;
  over ← exceeds tolerance groups (rs_group_caps s);
  raise_if over (ValueError "position exceeds group cap");;
  currencies ← currency_exposure s values;
  over ← exceeds tolerance currencies (rs_currency_caps s);
  raise_if over (ValueError "position exceeds currency cap");;
  risk ← portfolio_risk s values;
  raise_if (f_ltb (f_add (ca_portfolio_risk_cap caps) tolerance) risk) (ValueError "position exceeds portfolio risk cap").

Definition position_is_valid (s : RiskState) (position : vector) : bool := is_ok (validate_position s position).

(** ** Estimation *)

Definition column (m : FloatMatrix) (i : nat) : vector := map (λ row, nth i row f_zero) m.

(** [matrix] of the given shape with its entries computed by position. *)
Definition tabulate (n : nat) (f : nat → nat → pyfloat) : FloatMatrix :=
  map (λ row, map (λ column, f row column) (seq 0 n)) (seq 0 n).

(** [key=lambda item: (item.availability_time, item.observed_at, item.values)] and [<] *)
Definition known_values (o : RiskObservation) : vector := omap id (ro_values o).
Definition observation_lt (a b : RiskObservation) : bool :=
  if dt_eqb (availability_time a) (availability_time b) then
    if dt_eqb (ro_observed_at a) (ro_observed_at b) then floats_ltb (known_values a) (known_values b)
    else dt_ltb (ro_observed_at a) (ro_observed_at b)
  else dt_ltb (availability_time a) (availability_time b).
Definition observation_le (a b : RiskObservation) : bool := negb (observation_lt b a).

Section estimator.
Variable math_pow : pyfloat → pyfloat → pyfloat.

(** [x ** 2]: an overflow of a finite number raises. *)
Definition squared_float (x : pyfloat) : res pyfloat :=
  let r := math_pow x f_two in
  raise_if (isfinite x && match r with S754_infinity _ => true | _ => false end)
    (ArithmeticError "(34, 'Numerical result out of range')");;
  Ok r.

Definition _ledoit_wolf (matrix : FloatMatrix) : res (FloatMatrix * pyfloat) :=
  let sample_count := Z.of_nat (length matrix) in
  raise_if (sample_count <? 2) (ValueError "risk estimator requires at least two observations");;
  let features := length (nth 0 matrix []) in
  let feature_count := Z.of_nat features in
  raise_if ((feature_count =? 0) || existsb (λ row, negb (Nat.eqb (length row) features)) matrix)
    (ValueError "risk estimator matrix has invalid shape");;
  let samples := float_of_Z sample_count in
  let indices := seq 0 features in
  let means := map (λ i, f_div (float_sum (column matrix i)) samples) indices in
  let centered := map (λ row, zip_with f_sub row means) matrix in
  let empirical := tabulate features (λ i j,
    f_div (float_sum (zip_with f_mul (column centered i) (column centered j))) samples) in
  if feature_count =? 1 then Ok (empirical, f_zero)
  else
    let squared := map (map (λ v, f_mul v v)) centered in
    let trace_by_feature := map (λ i, f_div (float_sum (column squared i)) samples) indices in
    let mu := f_div (float_sum trace_by_feature) (float_of_Z feature_count) in
    let beta_sum := float_sum (flat_map (λ row, flat_map (λ i, map (λ j,
                      f_mul (nth i row f_zero) (nth j row f_zero)) indices) indices) squared) in
    grams ← traverse (λ ij : nat * nat, squared_float (float_sum (zip_with f_mul (column centered ij.1) (column centered ij.2))))
              (flat_map (λ i, map (pair i) indices) indices);
    let delta_estimate := f_div (float_sum grams) (float_of_Z (sample_count * sample_count)) in
    let beta := f_div (f_sub (f_div beta_sum samples) delta_estimate) (float_of_Z (feature_count * sample_count)) in
    let beta := f_min beta delta_estimate in
    let delta := f_div (f_add (f_sub delta_estimate (f_mul (f_mul f_two mu) (float_sum trace_by_feature)))
                              (f_mul (f_mul (float_of_Z feature_count) mu) mu)) (float_of_Z feature_count) in
    let shrinkage := if f_leb beta f_zero || f_leb delta f_zero then f_zero else f_min f_one (f_div beta delta) in
    let covariance := tabulate features (λ i j,
      f_add (f_mul (f_sub f_one shrinkage) (entry empirical i j)) (if Nat.eqb i j then f_mul shrinkage mu else f_zero)) in
    raise_if (existsb (existsb (λ v, negb (isfinite v))) covariance || negb (isfinite shrinkage))
      (ValueError "risk estimator produced an invalid covariance");;
    Ok (covariance, shrinkage).

(** The loop over the observations: those consumed, and how many were incomplete. *)
Definition select_step (n : nat) (cutoff : datetime) (lookback : timedelta) (acc : list RiskObservation * Z)
    (o : RiskObservation) : res (list RiskObservation * Z) :=
  let '(selected, missing) := acc in
  raise_if (negb (Nat.eqb (length (ro_values o)) n)) (ValueError "risk observation width does not match asset order");;
  Ok (if dt_ltb cutoff (ro_observed_at o) || dt_ltb cutoff (availability_time o) then acc
      else if dt_ltb (ro_observed_at o) (dt_sub cutoff lookback) then acc
      else if existsb (λ v, bool_decide (v = None)) (ro_values o) then (selected, missing + 1)
      else (selected ++ [o], missing)).

Definition estimate_ordered_risk_state (asset_order : list string) (observations : list RiskObservation)
    (as_of observation_cutoff : datetime) (config : RiskEstimatorConfig) (exposure_mapping : ExposureMapping)
    (caps : RiskCaps) (source_class : MarketDataSourceClass) (evidence_purpose : EvidencePurpose)
    (provenance : string) : res RiskState :=
  ordered ← canonical_asset_order asset_order;
  raise_if (negb (bool_decide (ordered = asset_order))) (ValueError "risk asset_order must be canonical");;
  require_utc as_of "risk as_of";;
  require_utc observation_cutoff "risk observation_cutoff";;
  raise_if (dt_ltb as_of observation_cutoff) (ValueError "risk observation_cutoff is after as_of");;
  raise_if (rc_maximum_age config <? dt_diff as_of observation_cutoff)
    (ValueError "risk observation cutoff exceeds maximum age");;
  let n := length asset_order in
  '(selected, missing_count) ← for_each (select_step n observation_cutoff (rc_lookback config)) ([], 0) observations;
  let selected := sort_by observation_le selected in
  let count := Z.of_nat (length selected) in
  raise_if (count <? rc_minimum_observations config)
    (ValueError "risk state has insufficient complete observations at the causal cutoff");;
  let matrix := map known_values selected in
  raise_if (existsb (λ row, negb (Nat.eqb (length row) n) || existsb (λ v, negb (isfinite v)) row) matrix)
    (ValueError "risk observations produce a non-finite numerical matrix");;
  '(covariance, shrinkage) ← _ledoit_wolf matrix;
  RiskState_post_init (mkRiskState asset_order (rc_horizon config) as_of observation_cutoff (rc_lookback config)
    (rc_maximum_age config) (rc_availability_policy config) (rc_return_unit config) (rc_estimator config)
    (rc_estimator_version config) shrinkage covariance count (Z.of_nat (length observations)) missing_count
    (Z.of_nat (length observations) - count) count (rc_symmetry_tolerance config) (rc_psd_tolerance config)
    (rc_finite_tolerance config) (em_group_keys exposure_mapping) (em_group_exposure_matrix exposure_mapping)
    (em_group_caps exposure_mapping) (em_currency_keys exposure_mapping) (em_currency_exposure_matrix exposure_mapping)
    (em_currency_caps exposure_mapping) caps source_class evidence_purpose provenance None None None []).
End estimator.

(** ** The selection *)

Section selection.
Context (n : nat) (cutoff : datetime) (lookback : timedelta).

(** What was observed inside the lookback and available by the cutoff. *)
Definition known (o : RiskObservation) : bool :=
  negb (dt_ltb cutoff (ro_observed_at o) || dt_ltb cutoff (availability_time o))
  && negb (dt_ltb (ro_observed_at o) (dt_sub cutoff lookback)).
Definition incomplete (o : RiskObservation) : bool := existsb (λ v, bool_decide (v = None)) (ro_values o).
Definition usable (o : RiskObservation) : bool := known o && negb (incomplete o).
Definition missed (o : RiskObservation) : bool := known o && incomplete o.

Lemma select_step_spec o sel m :
  select_step n cutoff lookback (sel, m) o =
    if Nat.eqb (length (ro_values o)) n
    then Ok (sel ++ (if usable o then [o] else []), m + (if missed o then 1 else 0))
    else Raise (ValueError "risk observation width does not match asset order").
Proof.
  unfold select_step, usable, missed, known, incomplete. destruct (Nat.eqb _ _); [|done]. cbn [negb raise_if mbind res_bind].
  destruct (dt_ltb cutoff (ro_observed_at o) || dt_ltb cutoff (availability_time o)); cbn; [by rewrite app_nil_r, Z.add_0_r|].
  destruct (dt_ltb (ro_observed_at o) (dt_sub cutoff lookback)); cbn; [by rewrite app_nil_r, Z.add_0_r|].
  destruct (existsb _ (ro_values o)); cbn; by rewrite ?app_nil_r, ?Z.add_0_r.
Qed.

Lemma selection_spec obs : ∀ sel m,
  for_each (select_step n cutoff lookback) (sel, m) obs =
    if forallb (λ o, Nat.eqb (length (ro_values o)) n) obs
    then Ok (sel ++ List.filter usable obs, m + Z.of_nat (length (List.filter missed obs)))
    else Raise (ValueError "risk observation width does not match asset order").
Proof.
  induction obs as [|o obs IH]; intros sel m; cbn [for_each forallb List.filter]; [by rewrite app_nil_r, Z.add_0_r|].
  rewrite select_step_spec. destruct (Nat.eqb _ _); [|done]. cbn [andb]. unfold mbind, res_bind. rewrite IH.
  destruct (forallb _ obs); [|done]. f_equal. f_equal.
  - rewrite <- app_assoc. by destruct (usable o).
  - destruct (missed o); cbn [length]; lia.
Qed.

Lemma filter_and {A} (p q : A → bool) l : List.filter (λ x, p x && q x) l = List.filter q (List.filter p l).
Proof. induction l as [|x l IH]; [done|]. cbn. destruct (p x); cbn; [|done]. destruct (q x); by rewrite IH. Qed.

Lemma selected_perm p obs obs' : List.filter known obs' ≡ₚ List.filter known obs →
  List.filter (λ o, known o && p o) obs' ≡ₚ List.filter (λ o, known o && p o) obs.
Proof.
  rewrite !filter_and. generalize (List.filter known obs') (List.filter known obs). intros l' l Hp.
  induction Hp as [|x a b Hab IH|x y a|a b c Hab IH Hbc IH']; cbn; [done| | |by rewrite IH].
  - destruct (p x); by rewrite ?IH.
  - destruct (p x), (p y); try done. apply Permutation_swap.
Qed.
End selection.

(** When the times of the observations differ, their order in time decides the sort. *)
Definition time_key (o : RiskObservation) : Z * Z := (instant (availability_time o), instant (ro_observed_at o)).

Lemma observation_le_key a b : time_key a ≠ time_key b → observation_le a b = pyle (time_key a) (time_key b).
Proof.
  intros Hne. unfold observation_le, observation_lt, dt_eqb, dt_ltb, pyle, time_key in *. cbn [pycmp].
  cbn. unfold prod_cmp. cbn.
  destruct (Z.compare_spec (instant (availability_time a)) (instant (availability_time b))) as [E|E|E];
    destruct (Z.eqb_spec (instant (availability_time b)) (instant (availability_time a))); try lia.
  - destruct (Z.compare_spec (instant (ro_observed_at a)) (instant (ro_observed_at b)));
      destruct (Z.eqb_spec (instant (ro_observed_at b)) (instant (ro_observed_at a))); try lia; try congruence;
      destruct (Z.ltb_spec (instant (ro_observed_at b)) (instant (ro_observed_at a))); try lia; done.
Qed.

Lemma insert_by_key x l : time_key x ∉ map time_key l → insert_by observation_le x l = insort time_key x l.
Proof.
  induction l as [|y l IH]; intros Hx; [done|]. cbn [map] in Hx.
  apply not_elem_of_cons in Hx as [Hxy Hx]. cbn. rewrite observation_le_key by done.
  destruct (pyle _ _); [done|]. f_equal. by apply IH.
Qed.
Lemma sort_by_key l : NoDup (map time_key l) → sort_by observation_le l = py_sorted time_key l.
Proof.
  induction l as [|x l IH]; [done|]. cbn [map]. intros [Hx Hl]%NoDup_cons.
  change (insert_by observation_le x (sort_by observation_le l) = insort time_key x (py_sorted time_key l)).
  rewrite (IH Hl). apply insert_by_key.
  intros Hin. apply Hx. apply list_elem_of_fmap in Hin as (y & E & Hy%elem_of_py_sorted). rewrite E.
  by apply list_elem_of_fmap_2.
Qed.
Lemma NoDup_keys {A B} (key : A → B) l x y : NoDup (map key l) → x ∈ l → y ∈ l → key x = key y → x = y.
Proof.
  induction l as [|z l IH]; [set_solver|]. cbn. intros [Hz Hl]%NoDup_cons [-> | Hx]%elem_of_cons [-> | Hy]%elem_of_cons E; auto.
  - destruct Hz. rewrite E. by apply list_elem_of_fmap_2.
  - destruct Hz. rewrite <- E. by apply list_elem_of_fmap_2.
Qed.
Lemma sort_by_perm_eq l l' : NoDup (map time_key l) → l' ≡ₚ l → sort_by observation_le l' = sort_by observation_le l.
Proof.
  intros Hl Hp. rewrite !sort_by_key; [|done|by rewrite Hp]. symmetry. apply py_sorted_perm_eq; [|by symmetry].
  intros x y Hx Hy E. by apply (NoDup_keys time_key l).
Qed.

(** ** The covariance *)

Lemma entry_tabulate n f i j :
  entry (tabulate n f) i j = if Nat.ltb i n && Nat.ltb j n then f i j else f_zero.
Proof.
  unfold entry, tabulate. destruct (Nat.ltb_spec i n) as [Hi|Hi]; cbn [andb].
  - rewrite (nth_indep _ [] (map (λ column, f 0%nat column) (seq 0 n))) by (by rewrite length_map, length_seq).
    rewrite (map_nth (λ row, map (λ column, f row column) (seq 0 n)) (seq 0 n) 0%nat i), seq_nth by done. cbn [Nat.add].
    destruct (Nat.ltb_spec j n) as [Hj|Hj].
    + rewrite (nth_indep _ f_zero (f i 0%nat)) by (by rewrite length_map, length_seq).
      by rewrite (map_nth (f i)), seq_nth.
    + apply nth_overflow. by rewrite length_map, length_seq.
  - rewrite (nth_overflow (map _ (seq 0 n)) []) by (by rewrite length_map, length_seq). by destruct j.
Qed.

Definition symmetric (m : FloatMatrix) : Prop := ∀ i j, entry m i j = entry m j i.

Lemma tabulate_symmetric n f : (∀ i j, f i j = f j i) → symmetric (tabulate n f).
Proof. intros Hf i j. rewrite !entry_tabulate, andb_comm. destruct (_ && _); auto. Qed.

Lemma products_comm a : ∀ b, zip_with f_mul a b = zip_with f_mul b a.
Proof. induction a as [|x a IH]; intros [|y b]; cbn; try done. by rewrite f_mul_comm, IH. Qed.

Definition unit_range (x : pyfloat) : Prop := f_leb f_zero x = true ∧ f_leb x f_one = true.

Lemma positive_or_nan x : f_leb x f_zero = false → has_sign false x.
Proof. destruct x as [s|[]| |[] m e]; cbn; intros H; done. Qed.

Lemma f_ltb_leb x y : f_ltb x y = true → f_leb x y = true ∧ x ≠ S754_nan.
Proof.
  unfold f_ltb, f_leb, SFltb, SFleb. intros H. destruct x as [| | |]; [..|discriminate H|];
    (split; [|done]); destruct (SFcompare _ _) as [[]|]; done.
Qed.

Lemma shrinkage_unit beta delta :
  unit_range (if f_leb beta f_zero || f_leb delta f_zero then f_zero else f_min f_one (f_div beta delta)).
Proof.
  destruct (f_leb beta f_zero) eqn:Eb; [done|]. destruct (f_leb delta f_zero) eqn:Ed; [done|]. cbn [orb].
  unfold f_min. destruct (f_ltb (f_div beta delta) f_one) eqn:E; [|done].
  apply f_ltb_leb in E as [Hle Hn]. split; [|done]. apply f_leb_zero; [|done].
  by apply f_div_sign; apply positive_or_nan.
Qed.

Lemma ledoit_wolf_shape math_pow matrix covariance shrinkage :
  _ledoit_wolf math_pow matrix = Ok (covariance, shrinkage) → symmetric covariance ∧ unit_range shrinkage.
Proof.
  unfold _ledoit_wolf. intros H. apply bind_Ok in H as (u0 & _ & H). cbv zeta in H. apply bind_Ok in H as (u1 & _ & H).
  set (centered := map _ matrix) in H. set (n := length (nth 0 matrix [])) in H. 
  set (empirical := tabulate _ _) in H.
  assert (symmetric empirical) as Hs by (apply tabulate_symmetric; intros i j; by rewrite products_comm).
  destruct (Z.of_nat n =? 1); [injection H as <- <-; by split|].
  apply bind_Ok in H as (grams & _ & H). apply bind_Ok in H as (u & _ & H). injection H as <- <-. split; [|apply shrinkage_unit].
  apply tabulate_symmetric. intros i j. by rewrite Hs, Nat.eqb_sym.
Qed.

(** ** Validation of the estimate *)

Definition recounted (s : RiskState) (raw excluded : Z) : RiskState :=
  mkRiskState (rs_asset_order s) (rs_horizon s) (rs_as_of s) (rs_observation_cutoff s) (rs_lookback s)
    (rs_maximum_age s) (rs_availability_policy s) (rs_return_unit s) (rs_estimator s) (rs_estimator_version s)
    (rs_shrinkage s) (rs_covariance s) (rs_sample_count s) raw
    (rs_missing_observation_count s) excluded (rs_effective_observations s)
    (rs_symmetry_tolerance s) (rs_psd_tolerance s) (rs_finite_tolerance s) (rs_group_keys s)
    (rs_group_exposure_matrix s) (rs_group_caps s) (rs_currency_keys s) (rs_currency_exposure_matrix s)
    (rs_currency_caps s) (rs_caps s) (rs_source_class s) (rs_evidence_purpose s) (rs_provenance s)
    (rs_semantic_identity s) (rs_closure_identity s) (rs_provenance_identity s) (rs_horizon_state_identities s).

(** Both sides run the same check first. *)
Ltac same_check :=
  match goal with
  | H : (?m ≫= _) = Ok _ |- (?m ≫= _) = Ok _ => destruct m; [cbn [mbind res_bind] in H |- *|discriminate H]
  end.

Lemma checks_recounted s raw excluded : RiskState_checks s = Ok tt →
  rs_missing_observation_count s + rs_sample_count s <= raw → 0 <= excluded →
  RiskState_checks (recounted s raw excluded) = Ok tt.
Proof.
  intros H Hraw Hexc. unfold RiskState_checks in *. cbv zeta in *. destruct s. cbn in Hraw.
  cbn -[canonical_asset_order for_each _validate_square_matrix _validate_mapping dt_ltb dt_diff floats_eqb] in H |- *.
  do 20 same_check.
  apply bind_Ok in H as (u & _ & H). apply bind_Ok in H as (u' & Hm & H). apply raise_if_Ok in Hm.
  apply orb_false_iff in Hm as [[Hm He]%orb_false_iff _].
  assert (rs_missing_observation_count0 <? 0 = false) as Hm' by done. apply Z.ltb_ge in Hm.
  assert (raw <? rs_sample_count0 = false) as -> by (apply Z.ltb_ge; lia).
  assert (raw <? rs_missing_observation_count0 + rs_sample_count0 = false) as -> by (apply Z.ltb_ge; lia).
  assert (excluded <? 0 = false) as -> by (by apply Z.ltb_ge). rewrite Hm'. exact H.
Qed.

(** What the checks establish, as the rest of the program uses it. *)
Record valid_state (s : RiskState) : Prop := {
  vs_order : py_sorted id (rs_asset_order s) = rs_asset_order s;
  vs_as_of : is_utc (rs_as_of s);
  vs_cutoff : is_utc (rs_observation_cutoff s);
  vs_causal : dt_ltb (rs_as_of s) (rs_observation_cutoff s) = false;
  vs_finite : isfinite (rs_finite_tolerance s) = true;
  vs_psd : _is_positive_semidefinite (rs_covariance s) (rs_psd_tolerance s) = true;
  vs_caps : length (ca_asset_caps (rs_caps s)) = length (rs_asset_order s);
  vs_groups : length (rs_group_exposure_matrix s) = length (rs_group_caps s);
  vs_currencies : length (rs_currency_exposure_matrix s) = length (rs_currency_caps s) }.

Lemma mapping_lengths keys matrix caps label n u :
  _validate_mapping keys matrix caps label n = Ok u → length matrix = length caps.
Proof.
  unfold _validate_mapping. intros H. repeat res_step. 
  match goal with H : (_ || _) = false |- _ => apply orb_false_iff in H as [Hm Hc] end.
  apply negb_false_iff, Nat.eqb_eq in Hm, Hc. lia.
Qed.

Lemma canonical_asset_order_Ok l ordered : canonical_asset_order l = Ok ordered → ordered = py_sorted id l.
Proof. unfold canonical_asset_order. cbv zeta. intros H. by repeat res_step. Qed.

Lemma square_psd matrix size label sym psd u :
  _validate_square_matrix matrix size label sym psd = Ok u → _is_positive_semidefinite matrix psd = true.
Proof.
  unfold _validate_square_matrix. intros H. do 3 (apply bind_Ok in H as (? & _ & H)).
  by apply raise_if_Ok, negb_false_iff in H.
Qed.

Lemma checks_valid s : RiskState_checks s = Ok tt → valid_state s.
Proof.
  unfold RiskState_checks. cbv zeta. intros H. repeat (apply bind_Ok in H as (? & ? & H)).
  repeat match goal with
  | H : raise_if _ _ = Ok _ |- _ => apply raise_if_Ok in H
  | H : _validate_mapping _ _ _ _ _ = Ok _ |- _ => apply mapping_lengths in H
  | H : require_utc _ _ = Ok _ |- _ => apply require_utc_Ok in H as [? ?]
  end.
  constructor; try done.
  - match goal with H : canonical_asset_order _ = Ok _ |- _ => apply canonical_asset_order_Ok in H; subst end.
    match goal with H : negb (bool_decide (py_sorted id _ = _)) = false |- _ =>
      by apply negb_false_iff, bool_decide_eq_true in H end.
  - match goal with H : for_each _ _ _ = Ok _ |- _ => cbn [for_each] in H; do 3 (apply bind_Ok in H as (? & _ & H)) end.
    match goal with H : (_ ≫= _) = Ok _ |- _ => apply bind_Ok in H as (? & H & _) end.
    match goal with H : check_tolerance _ = Ok _ |- _ => apply raise_if_Ok, orb_false_iff in H as [H _]; by apply negb_false_iff in H end.
  - match goal with H : _validate_square_matrix _ _ _ _ _ = Ok _ |- _ => exact (square_psd _ _ _ _ _ _ H) end.
  - match goal with H : negb (Nat.eqb (length (ca_asset_caps _)) _) = false |- _ =>
      by apply negb_false_iff, Nat.eqb_eq in H end.
Qed.

Lemma semantic_payload_Ok s : valid_state s → ∃ j, _semantic_payload s = Ok j.
Proof.
  intros []. unfold _semantic_payload, risk_time. rewrite !require_utc_is_utc by done. cbn. by eexists.
Qed.

(** A checked state without identities is given its own. *)
Lemma post_init_Ok s : RiskState_checks s = Ok tt →
  rs_semantic_identity s = None → rs_closure_identity s = None → rs_provenance_identity s = None →
  ∃ a b c, RiskState_post_init s = Ok (identified s a b c) ∧ is_sha256 a = true.
Proof.
  intros Hc H1 H2 H3. unfold RiskState_post_init. rewrite Hc. cbn [mbind res_bind].
  destruct (semantic_payload_Ok s (checks_valid s Hc)) as [j Hj]. unfold _closure_payload. rewrite Hj. cbn [mbind res_bind].
  rewrite H1, H2, H3. cbn. do 3 eexists. split; [done|]. apply sha256_json_is_sha256.
Qed.
Lemma post_init_checks s s' : RiskState_post_init s = Ok s' → RiskState_checks s = Ok tt ∧ ∃ a b c, s' = identified s a b c.
Proof.
  unfold RiskState_post_init. cbv zeta. intros H. apply bind_Ok in H as ([] & Hc & H). split; [done|].
  apply bind_Ok in H as (j & _ & H). apply bind_Ok in H as (k & _ & H). apply bind_Ok in H as (u & _ & H).
  injection H as <-. by do 3 eexists.
Qed.

(** ** The estimate depends on what was known *)

Section estimate.
Context (math_pow : pyfloat → pyfloat → pyfloat) (asset_order : list string) (as_of cutoff : datetime)
  (config : RiskEstimatorConfig) (em : ExposureMapping) (caps : RiskCaps) (cls : MarketDataSourceClass)
  (purpose : EvidencePurpose) (provenance : string).

Let estimate obs := estimate_ordered_risk_state math_pow asset_order obs as_of cutoff config em caps cls purpose provenance.
Let used obs := List.filter (usable cutoff (rc_lookback config)) obs.
Let unused obs := List.filter (missed cutoff (rc_lookback config)) obs.

(** The state before validation, of the observations used and the counts of all. *)
Definition estimated (covariance : FloatMatrix) (shrinkage : pyfloat) (count raw missing : Z) : RiskState :=
  mkRiskState asset_order (rc_horizon config) as_of cutoff (rc_lookback config)
    (rc_maximum_age config) (rc_availability_policy config) (rc_return_unit config) (rc_estimator config)
    (rc_estimator_version config) shrinkage covariance count raw missing (raw - count) count
    (rc_symmetry_tolerance config) (rc_psd_tolerance config) (rc_finite_tolerance config) (em_group_keys em)
    (em_group_exposure_matrix em) (em_group_caps em) (em_currency_keys em) (em_currency_exposure_matrix em)
    (em_currency_caps em) caps cls purpose provenance None None None [].

(** Everything before validation, as a function of the observations used. *)
Definition fitted (selected : list RiskObservation) : res (FloatMatrix * pyfloat) :=
  ordered ← canonical_asset_order asset_order;
  raise_if (negb (bool_decide (ordered = asset_order))) (ValueError "risk asset_order must be canonical");;
  require_utc as_of "risk as_of";;
  require_utc cutoff "risk observation_cutoff";;
  raise_if (dt_ltb as_of cutoff) (ValueError "risk observation_cutoff is after as_of");;
  raise_if (rc_maximum_age config <? dt_diff as_of cutoff) (ValueError "risk observation cutoff exceeds maximum age");;
  let selected := sort_by observation_le selected in
  raise_if (Z.of_nat (length selected) <? rc_minimum_observations config)
    (ValueError "risk state has insufficient complete observations at the causal cutoff");;
  let matrix := map known_values selected in
  raise_if (existsb (λ row, negb (Nat.eqb (length row) (length asset_order)) || existsb (λ v, negb (isfinite v)) row) matrix)
    (ValueError "risk observations produce a non-finite numerical matrix");;
  _ledoit_wolf math_pow matrix.

Ltac no_estimate :=
  split; [intros H; discriminate H|intros (H1 & c & h & H2 & H3); first [discriminate H1|discriminate H2]].

Ltac head_check :=
  match goal with
  | |- (raise_if ?b ?e ≫= _) = _ ↔ _ => destruct (raise_if b e) as [[]|]; cbn [mbind res_bind]; [|no_estimate]
  end.

Lemma estimate_Ok obs s : estimate obs = Ok s ↔
  forallb (λ o, Nat.eqb (length (ro_values o)) (length asset_order)) obs = true ∧
  ∃ covariance shrinkage, fitted (used obs) = Ok (covariance, shrinkage) ∧
    RiskState_post_init (estimated covariance shrinkage (Z.of_nat (length (used obs))) (Z.of_nat (length obs))
                                   (Z.of_nat (length (unused obs)))) = Ok s.
Proof.
  subst estimate. cbv beta. unfold estimate_ordered_risk_state, fitted. cbv zeta.
  destruct (canonical_asset_order asset_order) as [ordered|e]; cbn [mbind res_bind]; [|no_estimate].
  head_check.
  destruct (require_utc as_of _) as [u|e]; cbn [mbind res_bind]; [|no_estimate].
  destruct (require_utc cutoff _) as [u'|e]; cbn [mbind res_bind]; [|no_estimate].
  head_check.
  head_check.
  rewrite selection_spec. destruct (forallb _ obs); cbn [mbind res_bind]; [|no_estimate].
  rewrite app_nil_l, Z.add_0_l. fold (used obs) (unused obs).
  assert (length (sort_by observation_le (used obs)) = length (used obs)) as -> by (by rewrite sort_by_perm).
  head_check.
  head_check.
  destruct (_ledoit_wolf _ _) as [[cov sh]|e]; cbn [mbind res_bind]; [|no_estimate].
  split; [intros H; split; [done|]; by exists cov, sh|]. by intros (_ & c & h & [= <- <-] & H).
Qed.

(** What a state is made of when it was estimated. *)
Definition same_estimate (s s' : RiskState) : Prop :=
  rs_covariance s' = rs_covariance s ∧ rs_shrinkage s' = rs_shrinkage s ∧ rs_sample_count s' = rs_sample_count s ∧
  rs_missing_observation_count s' = rs_missing_observation_count s.

Lemma count_bound obs :
  (length (used obs) + length (unused obs) <= length obs)%nat.
Proof.
  subst used unused. cbv beta. induction obs as [|o obs IH]; cbn; [done|].
  unfold usable, missed. destruct (known cutoff (rc_lookback config) o), (incomplete o); cbn; 
    unfold usable, missed in IH; lia.
Qed.

Lemma fitted_perm l l' : NoDup (map time_key l) → l' ≡ₚ l → fitted l' = fitted l.
Proof. intros Hl Hp. unfold fitted. by rewrite (sort_by_perm_eq l l'). Qed.

(** Estimates agree when the same is known, whatever else was observed. *)
Lemma estimate_known obs obs' s :
  List.filter (known cutoff (rc_lookback config)) obs' ≡ₚ List.filter (known cutoff (rc_lookback config)) obs →
  NoDup (map time_key (used obs)) →
  Forall (λ o, length (ro_values o) = length asset_order) obs' →
  estimate obs = Ok s → ∃ s', estimate obs' = Ok s' ∧ same_estimate s s' ∧ (length obs' = length obs → s' = s).
Proof.
  intros Hp Hnd Hw. rewrite estimate_Ok. intros (_ & cov & sh & Hf & Hs).
  pose proof (selected_perm cutoff (rc_lookback config) (λ o, negb (incomplete o)) obs obs' Hp) as Hu.
  pose proof (selected_perm cutoff (rc_lookback config) incomplete obs obs' Hp) as Hm.
  fold (usable cutoff (rc_lookback config)) (missed cutoff (rc_lookback config)) in Hu, Hm.
  assert (used obs' ≡ₚ used obs) as Hu' by exact Hu. assert (unused obs' ≡ₚ unused obs) as Hm' by exact Hm.
  apply Permutation_length in Hm' as Hlm. apply Permutation_length in Hu' as Hlu.
  apply post_init_checks in Hs as Hcs. destruct Hcs as (Hc & a & b & c & ->).
  pose proof (count_bound obs') as Hb.
  apply (checks_recounted _ (Z.of_nat (length obs')) (Z.of_nat (length obs') - Z.of_nat (length (used obs)))) in Hc;
    [|cbn; lia|lia].
  apply post_init_Ok in Hc as (a' & b' & c' & Hs' & _); [|done..].
  match type of Hs' with _ = Ok ?r => exists r end. split; [|split; [done|]].
  - apply estimate_Ok. split; [apply forallb_forall; intros o Ho; apply Nat.eqb_eq; rewrite Forall_forall in Hw; apply Hw; by apply list_elem_of_In|].
    exists cov, sh. rewrite (fitted_perm (used obs) (used obs')) by done. split; [done|]. rewrite Hlu, Hlm. exact Hs'.
  - intros Hlen. rewrite Hlen in Hs'.
    assert (Ok (identified (estimated cov sh (Z.of_nat (length (used obs))) (Z.of_nat (length obs)) (Z.of_nat (length (unused obs)))) a b c)
      = Ok (identified (recounted (estimated cov sh (Z.of_nat (length (used obs))) (Z.of_nat (length obs)) (Z.of_nat (length (unused obs))))
             (Z.of_nat (length obs)) (Z.of_nat (length obs) - Z.of_nat (length (used obs)))) a' b' c')) as [=-> -> ->];
      [rewrite <- Hs, <- Hs'; reflexivity|]. by rewrite Hlen.
Qed.
End estimate.

(** ** Claims *)


(** ** A concrete estimate *)

Definition sample_pow (x _ : pyfloat) : pyfloat := f_mul x x.
Definition sample_risk_config : RiskEstimatorConfig :=
  mkRiskConfig (minutes 15) (days 1) (hours 1) SUPPORTED_ESTIMATOR DEFAULT_ESTIMATOR_VERSION "LOG_RETURN"
    "AVAILABLE_BY_CUTOFF" 2 (float_ratio 1 (10 ^ 12)) (float_ratio 1 (10 ^ 12)) f_zero.
Definition sample_exposure : ExposureMapping :=
  mkExposure ["index"] [[f_one; f_one]] [float_of_Z 10] [] [] [].
Definition sample_caps : RiskCaps :=
  mkCaps [float_of_Z 5; float_of_Z 5] (float_of_Z 8) (float_of_Z 8) f_one f_one [float_of_Z 10] [].
Definition sample_cutoff : datetime := dt_add sample_time (hours 1).
Definition sample_observation (minute a b : Z) : RiskObservation :=
  mkRiskObservation (dt_add sample_time (minutes minute)) [Some (float_ratio a 1000); Some (float_ratio b 1000)] None.
Definition sample_observations : list RiskObservation :=
  [sample_observation 15 3 1; sample_observation 30 (-2) 1; sample_observation 45 1 (-4)].
(** An observation made in time that becomes available only after the cutoff. *)
Definition late_observation : RiskObservation :=
  mkRiskObservation (dt_add sample_time (minutes 50)) [Some f_one; None] (Some (dt_add sample_time (minutes 90))).

Definition sample_estimate (obs : list RiskObservation) : res RiskState :=
  estimate_ordered_risk_state sample_pow ["ASX"; "DAX"] obs sample_cutoff sample_cutoff sample_risk_config sample_exposure
    sample_caps IBKR_HISTORICAL_RESEARCH FIXTURE_IMPLEMENTATION "sample".
Example sample_estimates : is_ok (sample_estimate sample_observations) = true.
Proof. vm_compute. reflexivity. Qed.

