(* ===== verification/Target.v ===== *)
(** The continuous target ([domain/portfolio.py] from [ContinuousTargetInputs] on, and
    [application/r3_portfolio.py]): the validated inputs of one decision, the feasibility
    check that is independent of the solver, and the seam that turns a solver's answer
    into an accepted or a blocked target.

    The solver is the argument [runner], a [SolverRunner] of the code, whose default calls
    CVXPY; it may answer anything or raise. *)

From S2P Require Import Prelude PySorted PyStr PyTime PyDecimal PyDecFn Sha256 PyJson PyFloat PyFloatFn Domain CaptureFeed Economics Portfolio Risk.
From Stdlib Require Import Ascii SpecFloat.

Definition TARGET_CONTRACT : string := "qtrad-r3-continuous-target-v1".

(** ** Tuples *)

(** [list(zip(a, b, strict=True))] *)
Fixpoint zip_strict {A B} (a : list A) (b : list B) : res (list (A * B)) :=
  match a, b with
  | [], [] => Ok []
  | x :: a, y :: b => l ← zip_strict a b; Ok ((x, y) :: l)
  | [], _ => Raise (ValueError "zip() argument 2 is longer than argument 1")
  | _, [] => Raise (ValueError "zip() argument 2 is shorter than argument 1")
  end.

(** [tuple(dict.fromkeys(values))]: the first occurrence of each value. *)
Fixpoint unique (seen : gset string) (l : list string) : list string :=
  match l with
  | [] => []
  | x :: l => if bool_decide (x ∈ seen) then unique seen l else x :: unique ({[x]} ∪ seen) l
  end.

(** [str(values)] of a tuple of plain strings. *)
Definition tuple_text (l : list string) : string :=
  "(" +:+ join ", " (map (λ s, "'" +:+ s +:+ "'") l) +:+ (if Nat.eqb (length l) 1 then ",)" else ")").

(** [mapping[key]] *)
Definition get {A} (m : gmap string A) (key : string) : res A :=
  match m !! key with Some v => Ok v | None => Raise (KeyError key) end.

Definition decs_eqb : list Decimal → list Decimal → bool := eqb_list dec_eqb.
Definition decs_json (l : list Decimal) : json := JList (map dec_json l).

(** ** Inputs *)

Record ContinuousTargetInputs : Type := mkInputs {
  ti_source_class : MarketDataSourceClass;
  ti_evidence_purpose : EvidencePurpose;
  ti_asset_order : list string;
  ti_current_position : list Decimal;
  ti_requested_target : list Decimal;
  ti_alpha_return : list Decimal;
  ti_gross_sleeve_value : Decimal;
  ti_decision_time : datetime;
  ti_economics : gmap string ProductEconomics;
  ti_continuous_costs : gmap string ContinuousCostModel;
  ti_risk : RiskState;
  ti_solver_policy : SolverPolicy;
  ti_netting : NettingResult }.

Definition minimum_charge (asset : string) (c : CostSchedule * string) : res unit :=
  raise_if (bool_decide (cs_status c.1 = IS_AVAILABLE) && negb match cs_minimum c.1 with Some m => dec_eqb m dec_zero | None => false end)
    (ValueError (asset +:+ " " +:+ c.2 +:+ " minimum charge is unsupported for R3.C")).

(** The checks of one asset. *)
Definition check_asset (i : ContinuousTargetInputs) (asset : string) : res unit :=
  let fail what := ValueError ("asset " +:+ asset +:+ " " +:+ what) in
  economics ← get (ti_economics i) asset;
  model ← get (ti_continuous_costs i) asset;
  eligible ← eligibility economics (ti_decision_time i) None;
  raise_if (negb (el_eligible eligible)) (fail ("economics are not eligible: " +:+ tuple_text (el_reasons eligible)));;
  for_each (λ _, minimum_charge asset) tt [(pe_commission economics, "commission"); (pe_financing economics, "financing")];;
  raise_if (negb (String.eqb (pe_asset_id economics) asset)) (fail "economics identity mismatch");;
  raise_if (negb (String.eqb (cm_asset_id model) asset)) (fail "continuous model identity mismatch");;
  raise_if (negb (String.eqb (cm_reporting_currency model) (pe_reporting_currency economics)))
    (fail "cost reporting currency mismatch");;
  raise_if (negb (cm_horizon model =? rs_horizon (ti_risk i))) (fail "continuous cost horizon mismatch");;
  require_configured_horizon (cm_horizon model) ("asset " +:+ asset +:+ " cost horizon");;
  identity ← economics_semantic_identity economics;
  raise_if (negb (String.eqb (cm_economics_identity model) identity)) (fail "economics authority mismatch");;
  commission ← component model COMMISSION;
  financing ← component model FINANCING;
  raise_if (negb (bool_decide (cs_basis (pe_commission economics) = PHYSICAL_DELTA))
            || negb (bool_decide (cu_basis commission = cs_basis (pe_commission economics)))
            || negb (bool_decide (cs_basis (pe_financing economics) = PHYSICAL_HOLDING))
            || negb (bool_decide (cu_basis financing = cs_basis (pe_financing economics))))
    (fail "cost basis authority mismatch");;
  raise_if (negb (String.eqb (cm_commission_version model) (cs_version (pe_commission economics)))
            || negb (String.eqb (cm_commission_provenance model) (cs_provenance (pe_commission economics)))
            || negb (String.eqb (cm_financing_version model) (cs_version (pe_financing economics)))
            || negb (String.eqb (cm_financing_provenance model) (cs_provenance (pe_financing economics))))
    (fail "schedule authority mismatch");;
  raise_if (negb (bool_decide (pe_impact_disposition economics = SUPPORTED_MODEL)))
    (fail "impact authority is unsupported for R3.C");;
  raise_if (negb (bool_decide (cm_impact_disposition model = pe_impact_disposition economics))
            || negb (bool_decide (Some (cm_impact_version model) = pe_impact_version economics)))
    (fail "impact authority mismatch");;
  impact ← component model IMPACT;
  raise_if (negb (bool_decide (cu_status impact = cm_impact_status model))) (fail "impact status mismatch").

Definition keys_match {A} (m : gmap string A) (order : list string) : bool :=
  bool_decide (dom m = (list_to_set order : gset string)).

(** [tuple(a - b for a, b in zip(left, right, strict=True))] *)
Definition differences (left right : list Decimal) : res (list Decimal) :=
  l ← zip_strict left right; Ok (map (λ ab, dec_sub ab.1 ab.2) l).

Definition ContinuousTargetInputs_post_init (i : ContinuousTargetInputs) : res unit :=
  let ordered := py_sorted id (ti_asset_order i) in
  raise_if (bool_decide (ordered = []) || has_duplicates ordered || negb (bool_decide (ordered = ti_asset_order i)))
    (ValueError "target asset order must be non-empty, unique and canonical");;
  let n := length ordered in
  raise_if (negb (Nat.eqb (length (ti_current_position i)) n) || negb (Nat.eqb (length (ti_requested_target i)) n)
            || negb (Nat.eqb (length (ti_alpha_return i)) n))
    (ValueError "target vectors must match asset order");;
  raise_if (dec_ltb (ti_gross_sleeve_value i) dec_zero) (ValueError "gross sleeve value must be non-negative");;
  require_utc (ti_decision_time i) "target decision time";;
  raise_if (negb (bool_decide (rs_asset_order (ti_risk i) = ti_asset_order i)))
    (ValueError "target risk state order does not match target assets");;
  raise_if (negb (bool_decide (rs_source_class (ti_risk i) = ti_source_class i))
            || negb (bool_decide (rs_evidence_purpose (ti_risk i) = ti_evidence_purpose i)))
    (ValueError "target risk source or evidence purpose mismatch");;
  raise_if (negb (keys_match (ti_economics i) (ti_asset_order i)))
    (ValueError "target economics keys do not match asset order");;
  raise_if (negb (keys_match (ti_continuous_costs i) (ti_asset_order i)))
    (ValueError "target continuous-cost keys do not match asset order");;
  raise_if (existsb (λ kv, negb (bool_decide (pe_source_class kv.2 = ti_source_class i))
                           || negb (bool_decide (pe_evidence_purpose kv.2 = ti_evidence_purpose i)))
              (map_to_list (ti_economics i)))
    (ValueError "target economics source or evidence purpose mismatch");;
  raise_if (negb (bool_decide (nr_source_class (ti_netting i) = ti_source_class i))
            || negb (bool_decide (nr_evidence_purpose (ti_netting i) = ti_evidence_purpose i)))
    (ValueError "target netting source or evidence purpose mismatch");;
  raise_if (negb (bool_decide (asset_order (ti_netting i) = ti_asset_order i)))
    (ValueError "target netting order does not match asset order");;
  expected_external ← differences (ti_requested_target i) (ti_current_position i);
  raise_if (negb (decs_eqb (external_deltas (ti_netting i)) expected_external))
    (ValueError "target netting external deltas do not match request");;
  _require_identity (solver_semantic_identity (ti_solver_policy i)) "solver policy identity";;
  _require_identity (semantic_id (ti_risk i)) "risk state identity";;
  for_each (λ _, check_asset i) tt (ti_asset_order i).

Definition decision_input_identity (i : ContinuousTargetInputs) : res string :=
  economics ← traverse (λ asset, e ← get (ti_economics i) asset; identity ← economics_semantic_identity e;
                                 Ok (JList [JStr asset; JStr identity])) (ti_asset_order i);
  costs ← traverse (λ asset, m ← get (ti_continuous_costs i) asset;
                             Ok (JList [JStr asset; JStr (model_semantic_identity m)])) (ti_asset_order i);
  decision_time ← utc_json (ti_decision_time i);
  Ok (_identity (JObj
    [("contract", JStr TARGET_CONTRACT); ("asset_order", strs_json (ti_asset_order i)); ("economics", JList economics);
     ("continuous_costs", JList costs); ("risk_identity", JStr (semantic_id (ti_risk i)));
     ("solver_policy_identity", JStr (solver_semantic_identity (ti_solver_policy i)));
     ("current_position", decs_json (ti_current_position i)); ("requested_target", decs_json (ti_requested_target i));
     ("alpha_return", decs_json (ti_alpha_return i)); ("gross_sleeve_value", dec_json (ti_gross_sleeve_value i));
     ("decision_time", decision_time); ("source_class", JStr (MarketDataSourceClass_str (ti_source_class i)));
     ("evidence_purpose", JStr (EvidencePurpose_str (ti_evidence_purpose i)));
     ("netting", JStr (netting_semantic_identity (ti_netting i)))])).

(** ** The target *)

Definition cost_component_json (c : ComponentCost) : json :=
  JObj [("component", JStr (CostComponentKind_str (cc_component c))); ("status", JStr (InputStatus_str (cc_status c)));
        ("basis", JStr (CostBasis_str (cc_basis c))); ("native_amount", opt_dec (cc_native_amount c));
        ("native_currency", opt_str (cc_native_currency c)); ("reporting_amount", opt_dec (cc_reporting_amount c));
        ("reporting_currency", JStr (cc_reporting_currency c)); ("quantity_basis", opt_dec (cc_quantity_basis c));
        ("holding_interval", match cc_holding_interval c with Some d => span_json d | None => JNull end);
        ("version", JStr (cc_version c)); ("provenance", JStr (cc_provenance c)); ("reason", opt_str (cc_reason c));
        ("conversion_rate", opt_dec (cc_conversion_rate c)); ("conversion_source", opt_str (cc_conversion_source c));
        ("conversion_version", opt_str (cc_conversion_version c))].

Definition _cost_state_payload (s : ExpectedCostState) : res json :=
  decision_time ← utc_json (es_decision_time s);
  Ok (JObj [("decision_time", decision_time); ("current_quantity", dec_json (es_current_quantity s));
            ("target_quantity", dec_json (es_target_quantity s)); ("holding_interval", span_json (es_holding_interval s));
            ("reporting_currency", JStr (es_reporting_currency s));
            ("internal_cross_quantity", dec_json (es_internal_cross_quantity s)); ("version", JStr (es_version s));
            ("provenance", JStr (es_provenance s)); ("components", JList (map cost_component_json (es_components s)))]).

Record ContinuousTarget : Type := mkTarget {
  ct_source_class : MarketDataSourceClass;
  ct_evidence_purpose : EvidencePurpose;
  ct_asset_order : list string;
  ct_current_position : list Decimal;
  ct_target_position : list Decimal;
  ct_physical_delta : list Decimal;
  ct_expected_cost_reporting : Decimal;
  ct_expected_financing_reporting : Decimal;
  ct_solver_status : string;
  ct_feasibility_residual : xdecimal;
  ct_solver_policy_identity : string;
  ct_decision_input_identity : string;
  ct_expected_costs : gmap string ExpectedCostState;
  ct_requested_position : list Decimal;
  ct_decision_time : datetime;
  ct_cost_model_identities : gmap string string;
  ct_reporting_currencies : gmap string string;
  ct_netting : NettingResult;
  ct_disposition : DecisionDisposition;
  ct_reason_codes : list string }.

(** [next(c for c in components if c.component is FINANCING)] and its amount. A
    [StopIteration] is of a class no handler names, as an [IndexError] is. *)
Definition financing_amount (s : ExpectedCostState) (error : exn) : res Decimal :=
  match List.find (λ c, bool_decide (cc_component c = FINANCING)) (es_components s) with
  | Some c => match cc_reporting_amount c with Some a => Ok a | None => Raise error end
  | None => Raise (IndexError "StopIteration")
  end.

(** One asset of an accepted target; [acc] holds the totals without and of financing. *)
Definition reconcile_asset (t : ContinuousTarget) (acc : Decimal * Decimal) (x : string * (Decimal * Decimal)) : res (Decimal * Decimal) :=
  let '(asset, (current, target)) := x in
  state ← get (ct_expected_costs t) asset;
  raise_if (negb (complete state)) (ValueError "accepted target requires complete cost states");;
  currency ← get (ct_reporting_currencies t) asset;
  raise_if (negb (dt_eqb (es_decision_time state) (ct_decision_time t))
            || negb (dec_eqb (es_current_quantity state) current) || negb (dec_eqb (es_target_quantity state) target)
            || (es_holding_interval state <? 0) || negb (String.eqb (es_reporting_currency state) currency))
    (ValueError "accepted target cost state binding mismatch");;
  raise_if (negb (nonempty currency)) (ValueError "accepted target reporting currency is required");;
  total ← require_total_reporting state;
  finance ← financing_amount state (ValueError "accepted target financing amount is required");
  let financing := dec_add acc.2 finance in
  let non_financing := dec_add acc.1 (dec_sub total finance) in
  netted ← match List.find (λ a, String.eqb (an_asset_id a) asset) (rev (nr_assets (ct_netting t))) with
           | Some a => Ok a | None => Raise (KeyError asset) end;
  raise_if (negb (dec_eqb (es_internal_cross_quantity state) (an_internal_cross_quantity netted)))
    (ValueError "accepted target internal crossing mismatch");;
  Ok (non_financing, financing).

(** The repeated tests of the netting, which the caller has made, are left out. *)
Definition accepted_checks (t : ContinuousTarget) : res unit :=
  let n := length (ct_asset_order t) in
  raise_if (negb (String.eqb (ct_solver_status t) "optimal")) (ValueError "accepted target requires exact optimal status");;
  residual ← match ct_feasibility_residual t with
             | Fin r => Ok r
             | _ => Raise (ValueError "target feasibility residual must be a finite Decimal") end;
  raise_if (negb (Nat.eqb (length (ct_current_position t)) n) || negb (Nat.eqb (length (ct_requested_position t)) n)
            || negb (Nat.eqb (length (ct_target_position t)) n) || negb (Nat.eqb (length (ct_physical_delta t)) n))
    (ValueError "accepted target vectors must have matching lengths");;
  deltas ← differences (ct_target_position t) (ct_current_position t);
  raise_if (negb (decs_eqb deltas (ct_physical_delta t))) (ValueError "physical target delta does not reconcile");;
  raise_if (negb (keys_match (ct_expected_costs t) (ct_asset_order t)))
    (ValueError "accepted target cost states must cover every asset");;
  positions ← zip_strict (ct_current_position t) (ct_target_position t);
  assets ← zip_strict (ct_asset_order t) positions;
  '(non_financing, financing) ← for_each (reconcile_asset t) (dec_zero, dec_zero) assets;
  raise_if (negb (dec_eqb non_financing (ct_expected_cost_reporting t)))
    (ValueError "accepted target cost total does not reconcile");;
  raise_if (negb (dec_eqb financing (ct_expected_financing_reporting t)))
    (ValueError "accepted target financing total does not reconcile");;
  raise_if (dec_ltb residual dec_zero) (ValueError "target feasibility residual must be finite and non-negative");;
  raise_if (negb (bool_decide (ct_reason_codes t = []))) (ValueError "accepted target cannot carry reason codes").

Definition blocked_checks (t : ContinuousTarget) : res unit :=
  raise_if (negb (bool_decide (ct_target_position t = [])) || negb (bool_decide (ct_physical_delta t = []))
            || negb (bool_decide (ct_expected_costs t = ∅)))
    (ValueError "blocked target cannot carry partial output");;
  raise_if (negb (dec_eqb (ct_expected_cost_reporting t) dec_zero)
            || negb (dec_eqb (ct_expected_financing_reporting t) dec_zero)
            || match ct_feasibility_residual t with Fin r => negb (dec_eqb r dec_zero) | _ => true end)
    (ValueError "blocked target totals and residual must be zero");;
  raise_if (bool_decide (ct_reason_codes t = [])) (ValueError "blocked target requires reason codes").

Definition ContinuousTarget_post_init (t : ContinuousTarget) : res unit :=
  let ordered := py_sorted id (ct_asset_order t) in
  raise_if (bool_decide (ordered = []) || has_duplicates (ct_asset_order t) || negb (bool_decide (ordered = ct_asset_order t)))
    (ValueError "target asset order must be non-empty and canonical");;
  let n := length (ct_asset_order t) in
  raise_if (negb (Nat.eqb (length (ct_current_position t)) n) || negb (Nat.eqb (length (ct_requested_position t)) n))
    (ValueError "target current and requested vectors must match asset order");;
  require_utc (ct_decision_time t) "target decision time";;
  raise_if (negb (nonempty (ct_solver_status t))) (ValueError "target solver status is required");;
  _require_identity (ct_solver_policy_identity t) "solver policy identity";;
  _require_identity (ct_decision_input_identity t) "decision input identity";;
  raise_if (negb (keys_match (ct_cost_model_identities t) (ct_asset_order t)))
    (ValueError "target model identities must cover every asset");;
  raise_if (negb (keys_match (ct_reporting_currencies t) (ct_asset_order t)))
    (ValueError "target currencies must cover every asset");;
  for_each (λ _ kv, _require_identity kv.2 (kv.1 +:+ " cost model identity")) tt (map_to_list (ct_cost_model_identities t));;
  raise_if (existsb (λ kv, negb (nonempty kv.2)) (map_to_list (ct_reporting_currencies t)))
    (ValueError "target reporting currencies must be non-empty strings");;
  raise_if (existsb (λ r, negb (nonempty r)) (ct_reason_codes t)) (ValueError "target reason codes must be non-empty strings");;
  raise_if (negb (bool_decide (nr_source_class (ct_netting t) = ct_source_class t))
            || negb (bool_decide (nr_evidence_purpose (ct_netting t) = ct_evidence_purpose t)))
    (ValueError "target netting source or evidence purpose mismatch");;
  raise_if (negb (bool_decide (asset_order (ct_netting t) = ct_asset_order t)))
    (ValueError "target netting order does not match asset order");;
  expected_external ← differences (ct_requested_position t) (ct_current_position t);
  raise_if (negb (decs_eqb (external_deltas (ct_netting t)) expected_external))
    (ValueError "target netting external deltas do not match request");;
  match ct_disposition t with
  | ACCEPTED => accepted_checks t
  | BLOCKED => blocked_checks t
  end.

Definition xdec_json (x : xdecimal) : json :=
  JStr match x with Fin d => dec_str d | PosInf => "Infinity" | NegInf => "-Infinity" | NotANumber => "NaN" end.

(** [((asset, value) for asset in order if asset in mapping)] *)
Definition listed (order : list string) {A} (m : gmap string A) : list (string * A) :=
  omap (M:=list) (λ asset, pair asset <$> m !! asset) order.

Definition target_json (t : ContinuousTarget) : res json :=
  decision_time ← utc_json (ct_decision_time t);
  costs ← traverse (λ kv : string * ExpectedCostState, payload ← _cost_state_payload kv.2; Ok (JList [JStr kv.1; payload]))
            (listed (ct_asset_order t) (ct_expected_costs t));
  let texts m := JList (map (λ kv, JList [JStr kv.1; JStr kv.2]) (listed (ct_asset_order t) m)) in
  Ok (JObj [("contract", JStr TARGET_CONTRACT); ("source_class", JStr (MarketDataSourceClass_str (ct_source_class t)));
    ("evidence_purpose", JStr (EvidencePurpose_str (ct_evidence_purpose t))); ("asset_order", strs_json (ct_asset_order t));
    ("current_position", decs_json (ct_current_position t)); ("requested_position", decs_json (ct_requested_position t));
    ("target_position", decs_json (ct_target_position t)); ("physical_delta", decs_json (ct_physical_delta t));
    ("expected_cost_reporting", dec_json (ct_expected_cost_reporting t));
    ("expected_financing_reporting", dec_json (ct_expected_financing_reporting t));
    ("solver_status", JStr (ct_solver_status t)); ("feasibility_residual", xdec_json (ct_feasibility_residual t));
    ("solver_policy_identity", JStr (ct_solver_policy_identity t));
    ("decision_input_identity", JStr (ct_decision_input_identity t)); ("decision_time", decision_time);
    ("cost_model_identities", texts (ct_cost_model_identities t));
    ("reporting_currencies", texts (ct_reporting_currencies t)); ("expected_costs", JList costs);
    ("netting", JStr (netting_semantic_identity (ct_netting t)));
    ("disposition", JStr (DecisionDisposition_str (ct_disposition t))); ("reason_codes", strs_json (ct_reason_codes t))]).

Definition target_semantic_identity (t : ContinuousTarget) : res string := _identity <$> target_json t.

(** ** Independent feasibility *)

(** [Decimal(str(max(x, 0.0)))] *)
Definition violation (x : pyfloat) : xdecimal := Decimal_of_text (f_max x f_zero).

Definition feasibility_tolerance (i : ContinuousTargetInputs) : pyfloat :=
  f_max (rs_finite_tolerance (ti_risk i)) (float_of_Decimal (so_absolute_tolerance (ti_solver_policy i))).

(** The excess over each cap that holds for the position as a whole. *)
Definition cap_checks (i : ContinuousTargetInputs) (floats : list pyfloat) : res (list (pyfloat * string)) :=
  let caps := rs_caps (ti_risk i) in
  capped ← zip_strict floats (ca_asset_caps caps);
  let gross := float_sum (map f_abs floats) in
  Ok [(float_max (map (λ vc, f_sub (f_abs vc.1) vc.2) capped), "ASSET_CAP");
      (f_sub gross (ca_gross_cap caps), "GROSS_CAP");
      (f_sub (f_abs (float_sum floats)) (ca_net_cap caps), "NET_CAP");
      (float_max (map (λ v, f_sub (f_abs v) (f_mul (ca_concentration_cap caps) gross)) floats), "CONCENTRATION_CAP")].

(** The excess of each exposure over its limit. *)
Definition exposure_checks (exposures limits : list pyfloat) (name : string) : res (list (pyfloat * string)) :=
  l ← zip_strict exposures limits; Ok (map (λ xl, (f_max (f_sub (f_abs xl.1) xl.2) f_zero, name)) l).

(** The changes a zero forecast does not allow. *)
Definition blocked_changes (l : list (Decimal * (Decimal * Decimal))) : list Decimal :=
  omap (M:=list) (λ x, let '(value, (current, alpha)) := x in
    if dec_eqb alpha dec_zero && _zero_forecast_blocks current value
    then Some (dec_abs (dec_sub value current)) else None) l.

Definition independent_continuous_feasibility (position : list Decimal) (i : ContinuousTargetInputs)
    : res (bool * xdecimal * list string) :=
  if negb (Nat.eqb (length position) (length (ti_asset_order i))) then Ok (false, PosInf, ["POSITION_WIDTH_INVALID"])
  else
    let floats := map float_of_Decimal position in
    if existsb (λ v, negb (isfinite v)) floats then Ok (false, PosInf, ["POSITION_NONFINITE"])
    else
      let tolerance := feasibility_tolerance i in
      checks ← cap_checks i floats;
      groups ← group_exposure (ti_risk i) floats;
      currencies ← currency_exposure (ti_risk i) floats;
      group_checks ← exposure_checks groups (rs_group_caps (ti_risk i)) "GROUP_CAP";
      currency_checks ← exposure_checks currencies (rs_currency_caps (ti_risk i)) "CURRENCY_CAP";
      risk ← portfolio_risk (ti_risk i) floats;
      let risk_violation := f_max (f_sub risk (ca_portfolio_risk_cap (rs_caps (ti_risk i)))) f_zero in
      let all := checks ++ group_checks ++ currency_checks ++ [(risk_violation, "PORTFOLIO_RISK_CAP")] in
      pairs ← zip_strict (ti_current_position i) (ti_alpha_return i);
      triples ← zip_strict position pairs;
      let blocked := blocked_changes triples in
      let violations := map (λ c, violation c.1) all ++ map Fin blocked in
      let reasons := map snd (List.filter (λ c, f_ltb tolerance c.1) all) ++ map (λ _, "ZERO_FORECAST_NEW_EXPOSURE") blocked in
      residual ← match violations with [] => Ok (Fin dec_zero) | x :: l => for_each xdec_max x l end;
      Ok (bool_decide (reasons = []), residual, unique ∅ reasons).

(** ** The solver seam *)

Definition SolverRunner : Type := ContinuousTargetInputs → res (string * option (list pyfloat)).

(** [except (ArithmeticError, RuntimeError, TypeError, ValueError)]; an overflow is an arithmetic error. *)
Definition solver_errors : list exn_kind := [KArithmeticError; KRuntimeError; KTypeError; KValueError].
Definition caught (kinds : list exn_kind) (e : exn) : bool := bool_decide (exn_class e ∈ kinds).

(** One element of [_normalise_target]. *)
Definition normalise_value (tolerance : Decimal) (x : pyfloat * (Decimal * Decimal)) : res Decimal :=
  let '(value, (current, requested)) := x in
  candidate ← match Decimal_of_text value with
              | Fin d => Ok d
              | _ => Raise (ValueError "solver target is non-finite") end;
  let scale := dec_max (dec_max dec_one (dec_abs current)) (dec_abs requested) in
  let threshold := dec_mul tolerance scale in
  Ok (if dec_leb (dec_abs candidate) threshold then dec_zero
      else if dec_leb (dec_abs (dec_sub candidate current)) threshold then current
      else if dec_leb (dec_abs (dec_sub candidate requested)) threshold then requested
      else candidate).

Definition _normalise_target (values : list pyfloat) (i : ContinuousTargetInputs) : res (list Decimal) :=
  let tolerance := dec_max (so_absolute_tolerance (ti_solver_policy i)) (so_relative_tolerance (ti_solver_policy i)) in
  pairs ← zip_strict (ti_current_position i) (ti_requested_target i);
  triples ← zip_strict values pairs;
  traverse (normalise_value tolerance) triples.

(** One asset of [_evaluate_costs]; the totals are of all costs and of financing. *)
Definition cost_of_asset (i : ContinuousTargetInputs) (acc : gmap string ExpectedCostState * Decimal * Decimal)
    (x : string * (Decimal * Decimal)) : res (gmap string ExpectedCostState * Decimal * Decimal) :=
  let '(states, total, financing) := acc in
  let '(asset, (current, target)) := x in
  netted ← match List.find (λ a, String.eqb (an_asset_id a) asset) (nr_assets (ti_netting i)) with
           | Some a => Ok a | None => Raise (IndexError "StopIteration") end;
  model ← get (ti_continuous_costs i) asset;
  state ← model_evaluate model current target (ti_decision_time i) (an_internal_cross_quantity netted) None;
  raise_if (negb (dec_eqb (es_current_quantity state) current) || negb (dec_eqb (es_target_quantity state) target)
            || negb (dt_eqb (es_decision_time state) (ti_decision_time i))
            || negb (es_holding_interval state =? rs_horizon (ti_risk i)) || negb (complete state))
    (ValueError "continuous model returned a mismatched or incomplete point state");;
  expected ← require_total_reporting state;
  amount ← financing_amount state (ValueError "financing cost reporting amount is required");
  Ok (<[asset := state]> states, dec_add total expected, dec_add financing amount).

Definition _evaluate_costs (target : list Decimal) (i : ContinuousTargetInputs)
    : res (gmap string ExpectedCostState * Decimal * Decimal) :=
  positions ← zip_strict (ti_current_position i) target;
  assets ← zip_strict (ti_asset_order i) positions;
  '(states, total, financing) ← for_each (cost_of_asset i) (∅, dec_zero, dec_zero) assets;
  Ok (states, dec_sub total financing, financing).

(** [{asset: f(inputs.continuous_costs[asset]) for asset in inputs.asset_order}] *)
Definition of_models (f : ContinuousCostModel → string) (i : ContinuousTargetInputs) : res (gmap string string) :=
  kvs ← traverse (λ asset, m ← get (ti_continuous_costs i) asset; Ok (asset, f m)) (ti_asset_order i);
  Ok (list_to_map kvs).

(** The constructor shared by the two outcomes. *)
Definition target_of (i : ContinuousTargetInputs) (target delta : list Decimal) (cost financing : Decimal) (status : string)
    (residual : xdecimal) (states : gmap string ExpectedCostState) (disposition : DecisionDisposition) (reasons : list string)
    : res ContinuousTarget :=
  identity ← decision_input_identity i;
  models ← of_models model_semantic_identity i;
  currencies ← of_models cm_reporting_currency i;
  let t := mkTarget (ti_source_class i) (ti_evidence_purpose i) (ti_asset_order i) (ti_current_position i) target delta
             cost financing status residual (solver_semantic_identity (ti_solver_policy i)) identity states
             (ti_requested_target i) (ti_decision_time i) models currencies (ti_netting i) disposition reasons in
  ContinuousTarget_post_init t;; Ok t.

Definition _blocked (i : ContinuousTargetInputs) (status : string) (reasons : list string) : res ContinuousTarget :=
  target_of i [] [] dec_zero dec_zero status (Fin dec_zero) ∅ BLOCKED reasons.

(** [needle in text] *)
Fixpoint contains_chars (needle l : list ascii) : bool :=
  match strip_prefix needle l with
  | Some _ => true
  | None => match l with [] => false | _ :: l => contains_chars needle l end
  end.
Definition contains (needle text : string) : bool := contains_chars (chars needle) (chars text).

Definition status_reason (status : string) : string :=
  if contains "inaccurate" status then "SOLVER_INACCURATE"
  else if contains "infeasible" status then "SOLVER_INFEASIBLE"
  else if String.eqb status "error" || String.eqb status "solver_error" then "SOLVER_ERROR"
  else "SOLVER_NON_OPTIMAL".

(** The checks made of an optimal answer: a target with its residual and costs, or the
    reasons for which it is refused. *)
Definition examine (i : ContinuousTargetInputs) (values : list pyfloat)
    : res (list string + list Decimal * xdecimal * (gmap string ExpectedCostState * Decimal * Decimal)) :=
  target ← _normalise_target values i;
  '(feasible, residual, reasons) ← independent_continuous_feasibility target i;
  if feasible : bool then costs ← _evaluate_costs target i; Ok (inr (target, residual, costs))
  else Ok (inl ("SOLVER_RESULT_INVALID" :: reasons)).

Definition solve_continuous_target (runner : SolverRunner) (i : ContinuousTargetInputs) : res ContinuousTarget :=
  match runner i with
  | Raise e => if caught solver_errors e then _blocked i "error" ["SOLVER_ERROR"] else Raise e
  | Ok (status, values) =>
      let normalised_status := lower status in
      if negb (String.eqb normalised_status "optimal") then _blocked i status [status_reason normalised_status]
      else match values with
           | None => _blocked i status ["SOLVER_RESULT_INVALID"]
           | Some values =>
               if negb (Nat.eqb (length values) (length (ti_asset_order i))) then _blocked i status ["SOLVER_RESULT_INVALID"]
               else match examine i values with
                    | Raise e => if caught solver_errors e then _blocked i status ["SOLVER_RESULT_INVALID"] else Raise e
                    | Ok (inl reasons) => _blocked i status reasons
                    | Ok (inr (target, residual, (states, cost, financing))) =>
                        delta ← differences target (ti_current_position i);
                        target_of i target delta cost financing "optimal" residual states ACCEPTED []
                    end
           end
  end.

(** ** Which exceptions can occur *)

Definition raises_in {A} (kinds : list exn_kind) (m : res A) : Prop := ∀ e, m = Raise e → exn_class e ∈ kinds.

Section raises.
Context {A B S : Type} (kinds : list exn_kind).

Lemma raises_Ok (a : A) : raises_in kinds (Ok a).
Proof. intros e [=]. Qed.
Lemma raises_Raise e : exn_class e ∈ kinds → raises_in kinds (Raise (A:=A) e).
Proof. intros H e' [= <-]. exact H. Qed.
Lemma raises_bind (m : res A) (f : A → res B) :
  raises_in kinds m → (∀ a, m = Ok a → raises_in kinds (f a)) → raises_in kinds (m ≫= f).
Proof. intros Hm Hf e [H | (a & Ha & H)]%bind_Raise; [by apply Hm|by apply (Hf a)]. Qed.
Lemma raises_if b e : exn_class e ∈ kinds → raises_in kinds (raise_if b e).
Proof. intros H e' [_ ->]%raise_if_Raise. exact H. Qed.
Lemma raises_traverse (f : A → res B) l : (∀ x, x ∈ l → raises_in kinds (f x)) → raises_in kinds (traverse f l).
Proof.
  induction l as [|x l IH]; intros Hf; [by intros e [=]|]. cbn. intros e [H | (y & _ & H)]%bind_Raise.
  - by apply (Hf x ltac:(set_solver)).
  - apply bind_Raise in H as [H | (ys & _ & [=])]. apply IH in H; [done|]. intros z Hz. apply Hf. set_solver.
Qed.
Lemma raises_for_each (f : S → A → res S) l : (∀ s x, x ∈ l → raises_in kinds (f s x)) → ∀ s, raises_in kinds (for_each f s l).
Proof.
  induction l as [|x l IH]; intros Hf s; [by intros e [=]|]. cbn. intros e [H | (s' & _ & H)]%bind_Raise.
  - by apply (Hf s x ltac:(set_solver)).
  - apply IH in H; [done|]. intros s1 z Hz. apply Hf. set_solver.
Qed.
Lemma raises_weaken (kinds' : list exn_kind) (m : res A) : kinds' ⊆ kinds → raises_in kinds' m → raises_in kinds m.
Proof. intros Hs Hm e He. by apply Hs, Hm. Qed.
End raises.

(** Follow the control flow down to the raises. *)
Ltac raises_step :=
  match goal with
  | |- raises_in _ (Ok _) => apply raises_Ok
  | |- raises_in _ (mret _) => apply raises_Ok
  | |- raises_in _ (Raise _) => apply raises_Raise; cbn; set_solver
  | |- raises_in _ (raise_if _ _) => apply raises_if; cbn; set_solver
  | |- raises_in _ (_ ≫= _) => apply raises_bind; [|intros]
  | |- raises_in _ (if ?b then _ else _) => destruct b
  | |- raises_in _ (let '(_, _) := ?x in _) => destruct x
  | |- raises_in _ (match ?x with _ => _ end) => destruct x
  end.
Ltac raises := repeat raises_step.

Definition data_errors : list exn_kind := [KArithmeticError; KValueError].

Lemma dec_div_raises a b : raises_in data_errors (dec_div a b).
Proof. unfold dec_div, data_errors. raises. Qed.
Lemma require_utc_raises v f : raises_in data_errors (require_utc v f).
Proof. unfold require_utc, data_errors. raises. Qed.
Lemma component_raises m k : raises_in data_errors (component m k).
Proof. unfold component, data_errors. raises. Qed.
Lemma zip_raises {A B} (a : list A) : ∀ b : list B, raises_in data_errors (zip_strict a b).
Proof. unfold data_errors. induction a as [|x a IH]; intros [|y b]; cbn; raises. apply IH. Qed.

Lemma cost_along_total bs : ∀ ss remaining lower total, length ss = S (length bs) →
  ∃ v, cost_along remaining lower total bs ss = Ok v.
Proof.
  induction bs as [|b bs IH]; intros [|s ss] remaining lower total Hl; try discriminate Hl.
  - destruct ss; [by eexists|discriminate Hl].
  - cbn in Hl. destruct ss as [|s' ss]; [discriminate Hl|]. cbn [cost_along]. apply IH. cbn in *. lia.
Qed.

Lemma component_new_raises c : raises_in data_errors (ComponentCost_new c).
Proof.
  unfold ComponentCost_new, ComponentCost_post_init, data_errors, when_some, _require_currency, _require_nonnegative.
  raises; try (unfold absent_component, available_component, component_basis, _require_positive; cbv zeta; raises).
Qed.

(** A curve with one slope more than it has breakpoints, as validation demands. *)
Definition curve_fits (c : ContinuousCostComponent) : Prop := length (cu_slopes c) = S (length (cu_breakpoints c)).

Lemma component_cost_raises m delta held interval hi k : Forall curve_fits (cm_components m) →
  raises_in data_errors (component_cost m delta held interval hi k).
Proof.
  intros Hm. unfold component_cost. apply raises_bind; [apply component_raises|]. intros c Hc. cbv zeta.
  assert (curve_fits c) as Hf.
  { rewrite Forall_forall in Hm. apply Hm. unfold component in Hc. destruct (List.find _ _) as [c'|] eqn:E; [|discriminate].
    injection Hc as <-. apply find_some in E as [E _]. by apply list_elem_of_In. }
  apply raises_bind; [|intros unscaled _].
  - unfold curve_evaluate. apply raises_bind; [apply raises_if; cbn; set_solver|]. intros _ _ e He.
    destruct (cost_along_total (cu_breakpoints c) (cu_slopes c) (if bool_decide (cu_basis c = PHYSICAL_DELTA) then delta else held)
      dec_zero dec_zero Hf) as [v Hv]. congruence.
  - apply raises_bind; [raises; apply dec_div_raises|]. intros native _.
    destruct (bool_decide _); apply component_new_raises.
Qed.

Lemma component_cost_checked m delta held interval hi k c : component_cost m delta held interval hi k = Ok c →
  ComponentCost_post_init c = Ok tt.
Proof.
  unfold component_cost. intros H. apply bind_Ok in H as (cu & _ & H). apply bind_Ok in H as (u & _ & H).
  apply bind_Ok in H as (v & _ & H). destruct (bool_decide (cu_status cu = _)); apply bind_Ok in H as ([] & Hc & H);
    by injection H as <-.
Qed.

Lemma checked_quantity c : ComponentCost_post_init c = Ok tt → cc_basis c = PHYSICAL_DELTA → cc_quantity_basis c ≠ None.
Proof.
  unfold ComponentCost_post_init. intros H Hb Hq. repeat (apply bind_Ok in H as (? & _ & H)).
  unfold component_basis in H. rewrite Hb, Hq in H. discriminate H.
Qed.

Lemma evaluate_raises m current target t cross hi : Forall curve_fits (cm_components m) →
  raises_in data_errors (model_evaluate m current target t cross hi).
Proof.
  intros Hm. unfold model_evaluate. apply raises_bind; [apply raises_if; cbn; set_solver|]. intros _ _.
  apply raises_bind; [apply require_utc_raises|]. intros _ _. cbv zeta.
  apply raises_bind; [apply raises_if; cbn; set_solver|]. intros _ _.
  apply raises_bind; [apply raises_if; cbn; set_solver|]. intros _ _.
  apply raises_bind; [apply raises_traverse; intros; by apply component_cost_raises|]. intros costs Hcosts.
  unfold ExpectedCostState_new. apply raises_bind; [|intros; apply raises_Ok].
  unfold ExpectedCostState_post_init, _require_currency, _require_nonnegative. cbv zeta.
  raises; try apply require_utc_raises. apply raises_for_each. intros _ c Hc.
  cbn [es_components] in Hc. assert (ComponentCost_post_init c = Ok tt) as Hck.
  { apply traverse_Ok in Hcosts. apply list_elem_of_lookup in Hc as [k Hk].
    destruct (Forall2_lookup_r _ _ _ _ _ Hcosts Hk) as (kind & _ & He). by apply component_cost_checked in He. }
  unfold check_component. apply raises_bind; [apply raises_if; cbn; set_solver|]. intros _ _.
  destruct (bool_decide (cc_component c = FINANCING)); [raises|].
  apply raises_bind; [apply raises_if; cbn; set_solver|]. intros u Hu. apply raise_if_Ok, negb_false_iff, bool_decide_eq_true in Hu.
  apply checked_quantity in Hck; [|done]. destruct (cc_quantity_basis c); [apply raises_if; cbn; set_solver|done].
Qed.

(** ** Valid inputs *)

(** Inputs as the constructors of their parts and of the whole accept them, with solver
    tolerances that are binary64 numbers. *)
Record valid_inputs (i : ContinuousTargetInputs) : Prop := {
  vi_checked : ContinuousTargetInputs_post_init i = Ok tt;
  vi_models : ∀ asset m, ti_continuous_costs i !! asset = Some m →
    ContinuousCostModel_post_init m = Ok tt ∧ Forall (λ c, ContinuousCostComponent_post_init c = Ok tt) (cm_components m);
  vi_risk : RiskState_checks (ti_risk i) = Ok tt;
  vi_tolerance : isfinite (float_of_Decimal (so_absolute_tolerance (ti_solver_policy i))) = true }.

Record asset_facts (i : ContinuousTargetInputs) (asset : string) (e : ProductEconomics) (m : ContinuousCostModel) : Prop := {
  af_economics : ti_economics i !! asset = Some e;
  af_model : ti_continuous_costs i !! asset = Some m;
  af_identity : economics_semantic_identity e = Ok (cm_economics_identity m);
  af_horizon : cm_horizon m = rs_horizon (ti_risk i);
  af_shape : model_shape m;
  af_curves : Forall curve_fits (cm_components m) }.

Record input_facts (i : ContinuousTargetInputs) : Prop := {
  if_nonempty : ti_asset_order i ≠ [];
  if_sorted : py_sorted id (ti_asset_order i) = ti_asset_order i;
  if_distinct : NoDup (ti_asset_order i);
  if_current : length (ti_current_position i) = length (ti_asset_order i);
  if_requested : length (ti_requested_target i) = length (ti_asset_order i);
  if_alpha : length (ti_alpha_return i) = length (ti_asset_order i);
  if_utc : is_utc (ti_decision_time i);
  if_risk_order : rs_asset_order (ti_risk i) = ti_asset_order i;
  if_netting_class : nr_source_class (ti_netting i) = ti_source_class i ∧ nr_evidence_purpose (ti_netting i) = ti_evidence_purpose i;
  if_netting_order : asset_order (ti_netting i) = ti_asset_order i;
  if_external : ∃ l, differences (ti_requested_target i) (ti_current_position i) = Ok l ∧ decs_eqb (external_deltas (ti_netting i)) l = true;
  if_assets : ∀ asset, asset ∈ ti_asset_order i → ∃ e m, asset_facts i asset e m }.

Lemma get_Ok {A} (m : gmap string A) k v : get m k = Ok v ↔ m !! k = Some v.
Proof. unfold get. destruct (m !! k); split; intros H; inversion H; done. Qed.

Lemma curve_fits_valid c : ContinuousCostComponent_post_init c = Ok tt → curve_fits c.
Proof.
  intros H. unfold ContinuousCostComponent_post_init in H. do 9 (apply bind_Ok in H as (? & _ & H)).
  apply bind_Ok in H as (? & Hl & _). apply raise_if_Ok, negb_false_iff, Nat.eqb_eq in Hl. unfold curve_fits. lia.
Qed.

Lemma check_asset_facts i asset : valid_inputs i → check_asset i asset = Ok tt → ∃ e m, asset_facts i asset e m.
Proof.
  intros V H. unfold check_asset in H. cbv zeta in H.
  apply bind_Ok in H as (e & He%get_Ok & H). apply bind_Ok in H as (m & Hm%get_Ok & H).
  do 6 (apply bind_Ok in H as (? & _ & H)). apply bind_Ok in H as (? & Hh & H). apply bind_Ok in H as (? & _ & H).
  apply bind_Ok in H as (identity & Hi & H). apply bind_Ok in H as (? & Hq & _).
  apply raise_if_Ok, negb_false_iff in Hh, Hq. apply Z.eqb_eq in Hh. apply String.eqb_eq in Hq.
  destruct (vi_models i V asset m Hm) as [Hpost Hcurves]. exists e, m. constructor; try done.
  - by rewrite Hq.
  - by apply model_valid.
  - eapply Forall_impl; [exact Hcurves|]. apply curve_fits_valid.
Qed.

Lemma inputs_valid i : valid_inputs i → input_facts i.
Proof.
  intros V. pose proof (vi_checked i V) as H. unfold ContinuousTargetInputs_post_init in H. cbv zeta in H.
  apply bind_Ok in H as (? & Ho & H). apply raise_if_Ok in Ho. apply orb_false_iff in Ho as [[Hn Hd]%orb_false_iff Hs].
  apply bool_decide_eq_false in Hn. apply has_duplicates_false in Hd. apply negb_false_iff, bool_decide_eq_true in Hs.
  rewrite Hs in Hn, Hd, H. apply bind_Ok in H as (? & Hl & H). apply raise_if_Ok in Hl.
  apply orb_false_iff in Hl as [[Hc Hr]%orb_false_iff Ha]. apply negb_false_iff, Nat.eqb_eq in Hc, Hr, Ha.
  apply bind_Ok in H as (? & _ & H). apply bind_Ok in H as (? & Hu & H). apply require_utc_Ok in Hu as [Hu _].
  apply bind_Ok in H as (? & Hro & H). apply raise_if_Ok, negb_false_iff, bool_decide_eq_true in Hro.
  do 4 (apply bind_Ok in H as (? & _ & H)). apply bind_Ok in H as (? & Hnc & H). apply raise_if_Ok in Hnc.
  apply orb_false_iff in Hnc as [Hn1 Hn2]. apply negb_false_iff, bool_decide_eq_true in Hn1, Hn2.
  apply bind_Ok in H as (? & Hno & H). apply raise_if_Ok, negb_false_iff, bool_decide_eq_true in Hno.
  apply bind_Ok in H as (ext & Hext & H). apply bind_Ok in H as (? & Hee & H). apply raise_if_Ok, negb_false_iff in Hee.
  do 2 (apply bind_Ok in H as (? & _ & H)). constructor; try done; [by exists ext|].
  intros asset Hin. apply (for_each_unit (check_asset i)) with (x := asset) in H; [|done]. by apply check_asset_facts.
Qed.

Lemma is_sha_identity j : is_sha256 (_identity j) = true.
Proof. apply sha256_hex_is_sha256. Qed.

Lemma require_identity_ok v name : is_sha256 v = true → _require_identity v name = Ok tt.
Proof. unfold _require_identity. by intros ->. Qed.

(** ** The constructor *)

Section constructor.
Context (i : ContinuousTargetInputs) (V : valid_inputs i).
Let F : input_facts i := inputs_valid i V.

Lemma identity_total : ∃ identity, decision_input_identity i = Ok identity ∧ is_sha256 identity = true.
Proof using V.
  unfold decision_input_identity.
  destruct (traverse_returns (λ asset, e ← get (ti_economics i) asset; identity ← economics_semantic_identity e;
    Ok (JList [JStr asset; JStr identity])) (ti_asset_order i)) as [ys ->].
  { intros asset Hin. destruct (if_assets i F asset Hin) as (e & m & A). rewrite (proj2 (get_Ok _ _ _) (af_economics _ _ _ _ A)).
    cbn [mbind res_bind]. rewrite (af_identity _ _ _ _ A). by eexists. }
  destruct (traverse_returns (λ asset, m ← get (ti_continuous_costs i) asset;
    Ok (JList [JStr asset; JStr (model_semantic_identity m)])) (ti_asset_order i)) as [zs ->].
  { intros asset Hin. destruct (if_assets i F asset Hin) as (e & m & A). rewrite (proj2 (get_Ok _ _ _) (af_model _ _ _ _ A)).
    by eexists. }
  cbn [mbind res_bind]. unfold utc_json. rewrite (require_utc_is_utc _ _ (if_utc i F)). cbn [mbind res_bind].
  eexists. split; [done|]. apply is_sha_identity.
Qed.

(** The text [f] gives of the model of every asset. *)
Definition describes (f : ContinuousCostModel → string) (texts : gmap string string) : Prop :=
  keys_match texts (ti_asset_order i) = true ∧
  ∀ asset text, texts !! asset = Some text → ∃ m, ti_continuous_costs i !! asset = Some m ∧ text = f m.

Lemma of_models_total f : ∃ texts, of_models f i = Ok texts ∧ describes f texts.
Proof using V.
  unfold of_models.
  destruct (traverse_total (λ asset, m ← get (ti_continuous_costs i) asset; Ok (asset, f m))
    (λ asset kv, ∃ m, ti_continuous_costs i !! asset = Some m ∧ kv = (asset, f m)) (ti_asset_order i)) as (kvs & -> & Hk).
  { intros asset Hin. destruct (if_assets i F asset Hin) as (e & m & A). pose proof (af_model _ _ _ _ A) as Hm.
    rewrite (proj2 (get_Ok _ _ _) Hm). eexists. split; [done|]. by exists m. }
  eexists. split; [done|]. split.
  - apply bool_decide_eq_true. rewrite dom_list_to_map_L. f_equal. clear F V. induction Hk as [|a kv l kvs (m & _ & ->) _ IH]; [done|].
    cbn. by rewrite IH.
  - intros asset text Ht. apply elem_of_list_to_map_2 in Ht. apply list_elem_of_lookup in Ht as [k Ht].
    destruct (Forall2_lookup_r _ _ _ _ _ Hk Ht) as (a & _ & m & Hm & [= -> ->]). by exists m.
Qed.

(** The record the constructor is given. *)
Definition draft (target delta : list Decimal) (cost financing : Decimal) (status : string) (residual : xdecimal)
    (states : gmap string ExpectedCostState) (disposition : DecisionDisposition) (reasons : list string)
    (identity : string) (models currencies : gmap string string) : ContinuousTarget :=
  mkTarget (ti_source_class i) (ti_evidence_purpose i) (ti_asset_order i) (ti_current_position i) target delta
    cost financing status residual (solver_semantic_identity (ti_solver_policy i)) identity states
    (ti_requested_target i) (ti_decision_time i) models currencies (ti_netting i) disposition reasons.

Lemma target_of_checks target delta cost financing status residual states disposition reasons :
  nonempty status = true → Forall (λ r, nonempty r = true) reasons →
  ∃ identity models currencies, decision_input_identity i = Ok identity ∧ is_sha256 identity = true ∧
    describes model_semantic_identity models ∧ describes cm_reporting_currency currencies ∧
    let t := draft target delta cost financing status residual states disposition reasons identity models currencies in
    ContinuousTarget_post_init t = match disposition with ACCEPTED => accepted_checks t | BLOCKED => blocked_checks t end ∧
    target_of i target delta cost financing status residual states disposition reasons
    = (ContinuousTarget_post_init t;; Ok t).
Proof using V.
  intros Hst Hre. destruct identity_total as (identity & Hid & Hsha).
  destruct (of_models_total model_semantic_identity) as (models & Hmo & Hdm).
  destruct (of_models_total cm_reporting_currency) as (currencies & Hcu & Hdc).
  exists identity, models, currencies. split; [done|]. split; [done|]. split; [done|]. split; [done|]. cbv zeta.
  split; [|unfold target_of; rewrite Hid; cbn [mbind res_bind]; rewrite Hmo; cbn [mbind res_bind]; rewrite Hcu; done].
  destruct F as [F1 F2 F3 F4 F5 F6 F7 F8 [F9 F9'] F10 (ext & F11 & F12) F13].
  unfold ContinuousTarget_post_init, draft.
  cbn [ct_asset_order ct_current_position ct_requested_position ct_decision_time ct_solver_status ct_solver_policy_identity
    ct_decision_input_identity ct_cost_model_identities ct_reporting_currencies ct_reason_codes ct_netting ct_source_class
    ct_evidence_purpose ct_disposition]. cbv zeta.
  rewrite F2, (bool_decide_eq_false_2 (ti_asset_order i = [])), (proj2 (has_duplicates_false (ti_asset_order i))),
    (bool_decide_eq_true_2 (ti_asset_order i = ti_asset_order i)) by done. cbn [orb negb raise_if mbind res_bind].
  rewrite F4, F5, !Nat.eqb_refl. cbn [orb negb raise_if mbind res_bind].
  rewrite (require_utc_is_utc _ _ F7). cbn [mbind res_bind]. rewrite Hst. cbn [negb raise_if mbind res_bind].
  rewrite (require_identity_ok (solver_semantic_identity _) _ (sha256_json_is_sha256 _)), (require_identity_ok _ _ Hsha). cbn [mbind res_bind].
  rewrite (proj1 Hdm), (proj1 Hdc). cbn [negb raise_if mbind res_bind].
  assert (for_each (λ _ kv, _require_identity kv.2 (kv.1 +:+ " cost model identity")) tt (map_to_list models) = Ok tt) as ->.
  { apply for_each_unit. intros [asset text] Hin. apply elem_of_map_to_list in Hin.
    destruct (proj2 Hdm asset text Hin) as (m & _ & ->). apply require_identity_ok, sha256_json_is_sha256. }
  cbn [mbind res_bind].
  assert (existsb (λ kv, negb (nonempty kv.2)) (map_to_list currencies) = false) as ->.
  { apply not_true_is_false. intros ((asset & text) & Hin & Hne)%existsb_exists. apply list_elem_of_In, elem_of_map_to_list in Hin.
    destruct (proj2 Hdc asset text Hin) as (m & Hm & ->). destruct (vi_models i V asset m Hm) as [Hm' _].
    apply model_valid in Hm' as [_ Hcur _ _ _]. apply currency_nonempty in Hcur. cbn in Hne. by rewrite Hcur in Hne. }
  cbn [negb raise_if mbind res_bind].
  assert (existsb (λ r, negb (nonempty r)) reasons = false) as ->.
  { apply not_true_is_false. intros (r & Hin%list_elem_of_In & Hne)%existsb_exists. rewrite Forall_forall in Hre.
    by rewrite (Hre r Hin) in Hne. }
  cbn [raise_if mbind res_bind]. rewrite !bool_decide_eq_true_2 by done. cbn [negb orb raise_if mbind res_bind].
  rewrite F11. cbn [mbind res_bind]. rewrite F12. cbn [negb raise_if mbind res_bind]. done.
Qed.

(** ** Blocked targets *)

Record blocked_target (t : ContinuousTarget) : Prop := {
  bt_disposition : ct_disposition t = BLOCKED;
  bt_position : ct_target_position t = [] ∧ ct_physical_delta t = [] ∧ ct_expected_costs t = ∅;
  bt_totals : ct_expected_cost_reporting t = dec_zero ∧ ct_expected_financing_reporting t = dec_zero;
  bt_reasons : ct_reason_codes t ≠ [];
  bt_identity : decision_input_identity i = Ok (ct_decision_input_identity t);
  bt_checked : ContinuousTarget_post_init t = Ok tt }.

Lemma blocked_total status reasons : nonempty status = true → Forall (λ r, nonempty r = true) reasons → reasons ≠ [] →
  ∃ t, _blocked i status reasons = Ok t ∧ blocked_target t ∧ ct_reason_codes t = reasons.
Proof using V.
  intros Hst Hre Hne. unfold _blocked.
  destruct (target_of_checks [] [] dec_zero dec_zero status (Fin dec_zero) ∅ BLOCKED reasons Hst Hre)
    as (identity & models & currencies & Hid & _ & _ & _ & Hpost & ->).
  set (t := draft _ _ _ _ _ _ _ _ _ _ _ _) in *.
  assert (ContinuousTarget_post_init t = Ok tt) as Hok.
  { rewrite Hpost. unfold blocked_checks. subst t. cbn -[bool_decide dec_eqb].
    rewrite (bool_decide_eq_false_2 (reasons = [])) by done. by rewrite !bool_decide_eq_true_2, !dec_eqb_refl by done. }
  rewrite Hok. exists t. split; [done|]. split; [|done]. by constructor.
Qed.
End constructor.

(** ** Feasible positions *)

Lemma zip_strict_lookup {A B} (a : list A) : ∀ (b : list B) l, zip_strict a b = Ok l →
  ∀ k x y, a !! k = Some x → b !! k = Some y → l !! k = Some (x, y).
Proof.
  induction a as [|x a IH]; intros [|y b] l Hl k u v Hu Hv; try discriminate Hu; try discriminate Hl.
  cbn in Hl. apply bind_Ok in Hl as (l' & Hl' & [= <-]). destruct k as [|k]; [by injection Hu as ->; injection Hv as ->|].
  exact (IH b l' Hl' k u v Hu Hv).
Qed.
Lemma zip_strict_Ok {A B} (a : list A) : ∀ b : list B, length a = length b → zip_strict a b = Ok (zip a b).
Proof. induction a as [|x a IH]; intros [|y b] Hl; try discriminate Hl; [done|]. cbn in *. by rewrite IH by lia. Qed.

Lemma xdec_max_Ok a b r : xdec_max a b = Ok r → (r = a ∨ r = b) ∧ a ≠ NotANumber ∧ b ≠ NotANumber.
Proof.
  unfold xdec_max, xdec_lt. destruct (xdec_cmp a b) as [c|] eqn:E; [|by intros [=]]. cbn. intros [= <-].
  split; [destruct c; auto|]. by destruct a, b.
Qed.
Lemma xdec_maximum l : ∀ x r, for_each xdec_max x l = Ok r → r ∈ x :: l ∧ (l ≠ [] → r ≠ NotANumber).
Proof.
  induction l as [|y l IH]; intros x r; cbn; [intros [= <-]; split; [set_solver|done]|].
  intros (z & Hz & Hr)%bind_Ok. apply xdec_max_Ok in Hz as (Hz & Hx & Hy). apply IH in Hr as [Hin Hn]. split.
  - destruct Hz as [-> | ->]; set_solver.
  - intros _. destruct l; [|by apply Hn]. apply list_elem_of_singleton in Hin as ->. by destruct Hz as [-> | ->].
Qed.

Lemma f_max_cases x : f_max x f_zero = x ∨ f_max x f_zero = f_zero.
Proof. unfold f_max. destruct (f_ltb x f_zero); auto. Qed.
Lemma f_max_not_negative x : f_ltb (f_max x f_zero) f_zero = false.
Proof. unfold f_max. by destruct (f_ltb x f_zero) eqn:E. Qed.

Lemma finite_below_infinity x : isfinite x = true → f_ltb x (S754_infinity false) = true.
Proof. destruct x as [s|s| |[] m e]; done. Qed.

(** An excess that is tolerated is a decimal that is not negative. *)
Lemma tolerated tolerance x : isfinite tolerance = true → f_ltb tolerance x = false → violation x ≠ NotANumber →
  ∃ d, violation x = Fin d ∧ dec_ltb d dec_zero = false.
Proof.
  intros Ht Hx Hn. unfold violation in *. pose proof (f_max_not_negative x) as Hneg.
  destruct (isfinite (f_max x f_zero)) eqn:Hf.
  - destruct (Decimal_of_text_nonneg _ Hf Hneg) as (d & Hd & _ & Hd0). by exists d.
  - destruct (f_max_cases x) as [E|E]; rewrite E in *; [|discriminate Hf].
    destruct x as [s|[]| |s m e]; try discriminate Hf; [discriminate Hneg| |done].
    by rewrite finite_below_infinity in Hx.
Qed.

(** The caps of the risk state and of the exposures, up to the tolerance. *)
Record within_caps (i : ContinuousTargetInputs) (position : list Decimal) (tolerance : pyfloat) : Prop := {
  wc_finite : Forall (λ d, isfinite (float_of_Decimal d) = true) position;
  wc_caps : ∃ checks, cap_checks i (map float_of_Decimal position) = Ok checks ∧ Forall (λ c, f_ltb tolerance c.1 = false) checks;
  wc_groups : ∃ exposures checks, group_exposure (ti_risk i) (map float_of_Decimal position) = Ok exposures ∧
    exposure_checks exposures (rs_group_caps (ti_risk i)) "GROUP_CAP" = Ok checks ∧ Forall (λ c, f_ltb tolerance c.1 = false) checks;
  wc_currencies : ∃ exposures checks, currency_exposure (ti_risk i) (map float_of_Decimal position) = Ok exposures ∧
    exposure_checks exposures (rs_currency_caps (ti_risk i)) "CURRENCY_CAP" = Ok checks ∧ Forall (λ c, f_ltb tolerance c.1 = false) checks;
  wc_risk : ∃ risk, portfolio_risk (ti_risk i) (map float_of_Decimal position) = Ok risk ∧
    f_ltb tolerance (f_max (f_sub risk (ca_portfolio_risk_cap (rs_caps (ti_risk i)))) f_zero) = false }.

(** A zero forecast neither opens, nor enlarges, nor reverses a position. *)
Definition respects_zero_forecasts (current alpha position : list Decimal) : Prop :=
  ∀ k value c a, position !! k = Some value → current !! k = Some c → alpha !! k = Some a →
    dec_eqb a dec_zero = true → _zero_forecast_blocks c value = false.

Lemma omap_nil {A B} (f : A → option B) (l : list A) : omap (M:=list) f l = [] → ∀ x, x ∈ l → f x = None.
Proof.
  induction l as [|y l IH]; [set_solver|]. cbn. destruct (f y) eqn:E; [done|]. intros H x [-> | Hx]%elem_of_cons; auto.
Qed.

Lemma unique_nil l : ∀ seen, unique seen l = [] → ∀ x, x ∈ l → x ∈ seen.
Proof.
  induction l as [|y l IH]; intros seen H x Hx; [set_solver|]. cbn in H. destruct (bool_decide (y ∈ seen)) eqn:E; [|discriminate H].
  apply bool_decide_eq_true in E. apply elem_of_cons in Hx as [-> | Hx]; [done|]. by apply (IH seen).
Qed.

Lemma feasible_position i position residual reasons : RiskState_checks (ti_risk i) = Ok tt →
  isfinite (float_of_Decimal (so_absolute_tolerance (ti_solver_policy i))) = true →
  independent_continuous_feasibility position i = Ok (true, residual, reasons) →
  reasons = [] ∧ (∃ r, residual = Fin r ∧ dec_ltb r dec_zero = false) ∧ length position = length (ti_asset_order i) ∧
  within_caps i position (feasibility_tolerance i) ∧
  respects_zero_forecasts (ti_current_position i) (ti_alpha_return i) position.
Proof.
  intros Hrisk Htol H. unfold independent_continuous_feasibility in H.
  destruct (Nat.eqb_spec (length position) (length (ti_asset_order i))) as [Hlen|]; [|discriminate H]. cbn [negb] in H.
  destruct (existsb (λ v, negb (isfinite v)) (map float_of_Decimal position)) eqn:Hfin; [discriminate H|].
  cbv zeta in H. apply bind_Ok in H as (checks & Hchecks & H). apply bind_Ok in H as (groups & Hgroups & H).
  apply bind_Ok in H as (currencies & Hcur & H). apply bind_Ok in H as (gc & Hgc & H). apply bind_Ok in H as (cc & Hcc & H).
  apply bind_Ok in H as (risk & Hr & H). apply bind_Ok in H as (pairs & Hpairs & H). apply bind_Ok in H as (triples & Htr & H).
  apply bind_Ok in H as (r & Hres & H). injection H as Hok <- <-. apply bool_decide_eq_true in Hok.
  apply app_eq_nil in Hok as [Hcaps Hblocked]. apply map_eq_nil in Hcaps, Hblocked. rewrite Hcaps, Hblocked. cbn [map app unique].
  split; [done|]. set (tolerance := feasibility_tolerance i) in *.
  set (rv := f_max (f_sub risk (ca_portfolio_risk_cap (rs_caps (ti_risk i)))) f_zero) in *.
  assert (isfinite tolerance = true) as Ht.
  { subst tolerance. unfold feasibility_tolerance, f_max. destruct (f_ltb _ _); [done|]. by apply vs_finite, checks_valid. }
  assert (Forall (λ c, f_ltb tolerance c.1 = false) (checks ++ gc ++ cc ++ [(rv, "PORTFOLIO_RISK_CAP")])) as Hall.
  { apply Forall_forall. intros c Hc%list_elem_of_In. apply not_true_is_false. intros Hlt.
    assert (c ∈ @nil (pyfloat * string)) as Hin; [|by apply elem_of_nil in Hin].
    rewrite <- Hcaps. apply list_elem_of_In, filter_In. by split. }
  split; [|split; [done|split]].
  - rewrite Hblocked in Hres. cbn [map] in Hres. rewrite app_nil_r in Hres.
    assert (∃ a b l, checks = a :: b :: l) as (a & b & l & E).
    { unfold cap_checks in Hchecks. apply bind_Ok in Hchecks as (? & _ & [= <-]). by do 3 eexists. }
    rewrite E in Hres. cbn [map app] in Hres. apply xdec_maximum in Hres as [Hin Hn]. specialize (Hn ltac:(done)).
    change (r ∈ map (λ c, violation c.1) (a :: b :: l ++ gc ++ cc ++ [(rv, "PORTFOLIO_RISK_CAP")])) in Hin.
    apply list_elem_of_fmap in Hin as (c & -> & Hc). apply tolerated with (tolerance := tolerance); [done| |done].
    rewrite Forall_forall in Hall. apply Hall. rewrite E. exact Hc.
  - apply Forall_app in Hall as [H1 Hall]. apply Forall_app in Hall as [H2 Hall]. apply Forall_app in Hall as [H3 Hall].
    apply Forall_cons_1 in Hall as [H4 _].
    constructor; [|by exists checks|by exists groups, gc|by exists currencies, cc|by exists risk].
    apply Forall_forall. intros d Hd. apply not_false_is_true. intros Hf. apply not_true_iff_false in Hfin. apply Hfin.
    apply existsb_exists. exists (float_of_Decimal d). split; [by apply in_map, list_elem_of_In|by rewrite Hf].
  - intros k value c a Hk Hc Ha Hz. apply not_true_is_false. intros Hb.
    assert (pairs !! k = Some (c, a)) as Hp by by eapply zip_strict_lookup.
    assert (triples !! k = Some (value, (c, a))) as Ht3 by by eapply zip_strict_lookup.
    apply list_elem_of_lookup_2 in Ht3. apply (omap_nil _ _ Hblocked) in Ht3. by rewrite Hz, Hb in Ht3.
Qed.

(** ** Costs of a feasible position *)

Lemma evaluated_fields m current target t cross st : model_evaluate m current target t cross None = Ok st →
  es_decision_time st = t ∧ es_current_quantity st = current ∧ es_target_quantity st = target ∧
  es_holding_interval st = cm_horizon m ∧ 0 <= cm_horizon m ∧ es_reporting_currency st = cm_reporting_currency m ∧
  es_internal_cross_quantity st = cross.
Proof.
  unfold model_evaluate. intros H. cbv zeta in H. apply bind_Ok in H as (? & _ & H). apply bind_Ok in H as (? & _ & H).
  apply bind_Ok in H as (? & Hh & H). apply raise_if_Ok, Z.ltb_ge in Hh. apply bind_Ok in H as (? & _ & H).
  apply bind_Ok in H as (costs & _ & H). unfold ExpectedCostState_new in H. apply bind_Ok in H as (? & _ & [= <-]).
  cbn in *. by split_and!.
Qed.

Notation asset_move := (string * (Decimal * Decimal))%type.

(** The cost state of one asset with its totals, of all costs and of financing. *)
Record asset_cost (i : ContinuousTargetInputs) (x : asset_move) (c : ExpectedCostState * Decimal * Decimal) : Prop := {
  ac_evaluated : ∃ m a, ti_continuous_costs i !! x.1 = Some m ∧
    List.find (λ a, String.eqb (an_asset_id a) x.1) (nr_assets (ti_netting i)) = Some a ∧
    model_evaluate m x.2.1 x.2.2 (ti_decision_time i) (an_internal_cross_quantity a) None = Ok c.1.1;
  ac_complete : complete c.1.1 = true;
  ac_total : require_total_reporting c.1.1 = Ok c.1.2;
  ac_financing : ∀ e, financing_amount c.1.1 e = Ok c.2 }.

Lemma cost_of_asset_Ok i acc x r : cost_of_asset i acc x = Ok r →
  ∃ c, asset_cost i x c ∧ r = (<[x.1 := c.1.1]> acc.1.1, dec_add acc.1.2 c.1.2, dec_add acc.2 c.2).
Proof.
  destruct acc as [[states total] financing], x as [asset [current target]]. unfold cost_of_asset.
  destruct (List.find _ _) as [a|] eqn:Ea; [|discriminate]. cbn [mbind res_bind]. intros H.
  apply bind_Ok in H as (m & Hm%get_Ok & H). apply bind_Ok in H as (st & Hst & H).
  apply bind_Ok in H as (? & Hc & H). apply raise_if_Ok in Hc. apply orb_false_iff in Hc as [_ Hc]. apply negb_false_iff in Hc.
  apply bind_Ok in H as (expected & He & H). apply bind_Ok in H as (amount & Ha & [= <-]).
  exists (st, expected, amount). split; [|done]. constructor; cbn; try done; [by exists m, a|].
  intros e. unfold financing_amount in *. destruct (List.find _ (es_components st)) as [c|]; [|done].
  by destruct (cc_reporting_amount c).
Qed.

Definition add_all (total : Decimal) (l : list Decimal) : Decimal := fold_left dec_add l total.

Lemma cost_loop i l : ∀ acc r, for_each (cost_of_asset i) acc l = Ok r → NoDup l.*1 →
  ∃ cs, Forall2 (asset_cost i) l cs ∧ r.1.2 = add_all acc.1.2 (map (λ c, c.1.2) cs) ∧ r.2 = add_all acc.2 (map snd cs) ∧
    dom r.1.1 = list_to_set l.*1 ∪ dom acc.1.1 ∧
    (∀ k, k ∉ l.*1 → r.1.1 !! k = acc.1.1 !! k) ∧ Forall2 (λ x c, r.1.1 !! x.1 = Some c.1.1) l cs.
Proof.
  induction l as [|x l IH]; intros acc r H Hnd.
  - injection H as <-. exists []. split_and!; try done. cbn. set_solver.
  - cbn in H. apply bind_Ok in H as (acc' & Hacc & H). apply cost_of_asset_Ok in Hacc as (c & Hc & ->).
    cbn [fmap list_fmap] in Hnd. apply NoDup_cons in Hnd as [Hx Hnd].
    destruct (IH _ _ H Hnd) as (cs & Hcs & Ht & Hf & Hd & Hk & Hs). exists (c :: cs).
    split_and!; [by constructor|exact Ht|exact Hf| | |].
    + rewrite Hd. cbn. rewrite dom_insert_L. set_solver.
    + intros k Hk'. cbn in Hk'. rewrite Hk by set_solver. cbn. apply lookup_insert_ne. set_solver.
    + constructor; [|done]. rewrite Hk by done. cbn. apply lookup_insert_eq.
Qed.

(** The checks of an accepted target repeat the sums. *)
Lemma reconcile_asset_Ok i t acc x c currency a :
  asset_cost i x c → ct_expected_costs t !! x.1 = Some c.1.1 → ct_reporting_currencies t !! x.1 = Some currency →
  es_reporting_currency c.1.1 = currency → nonempty currency = true → ct_decision_time t = ti_decision_time i →
  List.find (λ a, String.eqb (an_asset_id a) x.1) (nr_assets (ti_netting i)) = Some a →
  List.find (λ a, String.eqb (an_asset_id a) x.1) (rev (nr_assets (ct_netting t))) = Some a →
  reconcile_asset t acc x = Ok (dec_add acc.1 (dec_sub c.1.2 c.2), dec_add acc.2 c.2).
Proof.
  intros [(m & a' & Hm & Ha' & Hst) Hc Ht Hf] Hs Hcur Hes Hne Htime Ha Hra. destruct x as [asset [current target]]. cbn in *.
  rewrite Ha in Ha'. injection Ha' as <-. apply evaluated_fields in Hst as (E1 & E2 & E3 & E4 & E5 & E6 & E7).
  rewrite (proj2 (get_Ok _ _ _) Hs). cbn [mbind res_bind]. rewrite Hc. cbn [negb raise_if mbind res_bind].
  rewrite (proj2 (get_Ok _ _ _) Hcur). cbn [mbind res_bind].
  rewrite E1, E2, E3, E4, Hes, Htime, !dec_eqb_refl, String.eqb_refl. unfold dt_eqb. rewrite Z.eqb_refl.
  rewrite (proj2 (Z.ltb_ge (cm_horizon m) 0)) by done. cbn [negb orb raise_if mbind res_bind]. rewrite Hne. cbn [negb raise_if mbind res_bind].
  rewrite Ht. cbn [mbind res_bind]. rewrite Hf. cbn [mbind res_bind]. rewrite Hra. cbn [mbind res_bind].
  rewrite E7, dec_eqb_refl. done.
Qed.

Lemma found_unique {A} (p : A → bool) l a : List.find p l = Some a → (∀ x y, x ∈ l → y ∈ l → p x = true → p y = true → x = y) →
  List.find p (rev l) = Some a.
Proof.
  intros Ha Hu. apply find_some in Ha as [Hin Hp]. destruct (List.find p (rev l)) as [b|] eqn:E.
  - apply find_some in E as [Hb Hpb]. f_equal. apply Hu; try done; apply list_elem_of_In; [by apply in_rev|done].
  - apply in_rev in Hin. by rewrite (find_none _ _ E a Hin) in Hp.
Qed.

Section acceptance.
Context (i : ContinuousTargetInputs) (V : valid_inputs i).
Let F : input_facts i := inputs_valid i V.

(** The moves of the assets from their current to their target quantities. *)
Definition moves (target : list Decimal) : list asset_move := zip (ti_asset_order i) (zip (ti_current_position i) target).

Lemma moves_assets target : length target = length (ti_asset_order i) → (moves target).*1 = ti_asset_order i.
Proof using V.
  intros Hl. unfold moves. apply fst_zip. rewrite length_zip_with, (if_current i F), Hl, Nat.min_id. done.
Qed.

Lemma moves_zipped target : length target = length (ti_asset_order i) →
  ∃ positions, zip_strict (ti_current_position i) target = Ok positions ∧ zip_strict (ti_asset_order i) positions = Ok (moves target).
Proof using V.
  intros Hl. exists (zip (ti_current_position i) target). rewrite zip_strict_Ok by (by rewrite (if_current i F)). split; [done|].
  apply zip_strict_Ok. rewrite length_zip_with, (if_current i F), Hl, Nat.min_id. done.
Qed.

Lemma differences_total target : length target = length (ti_asset_order i) →
  ∃ delta, differences target (ti_current_position i) = Ok delta ∧ length delta = length (ti_asset_order i).
Proof using V.
  intros Hl. unfold differences. rewrite zip_strict_Ok by (by rewrite (if_current i F)). eexists. split; [done|].
  rewrite length_map, length_zip_with, (if_current i F), Hl, Nat.min_id. done.
Qed.

Lemma netted_unique asset x y : x ∈ nr_assets (ti_netting i) → y ∈ nr_assets (ti_netting i) →
  String.eqb (an_asset_id x) asset = true → String.eqb (an_asset_id y) asset = true → x = y.
Proof using V.
  intros Hx Hy Ex%String.eqb_eq Ey%String.eqb_eq. apply (NoDup_keys an_asset_id (nr_assets (ti_netting i))); try done; [|congruence].
  change (NoDup (asset_order (ti_netting i))). rewrite (if_netting_order i F). apply (if_distinct i F).
Qed.

(** The total without financing as the constructor recomputes it, asset by asset. *)
Definition recomputed (cs : list (ExpectedCostState * Decimal * Decimal)) : Decimal :=
  add_all dec_zero (map (λ c, dec_sub c.1.2 c.2) cs).

Lemma reconciled_loop t l : ∀ cs nf fin, Forall2 (asset_cost i) l cs →
  Forall2 (λ x c, ct_expected_costs t !! x.1 = Some c.1.1) l cs →
  describes i cm_reporting_currency (ct_reporting_currencies t) → (∀ x, x ∈ l → x.1 ∈ ti_asset_order i) →
  ct_decision_time t = ti_decision_time i → ct_netting t = ti_netting i →
  for_each (reconcile_asset t) (nf, fin) l = Ok (add_all nf (map (λ c, dec_sub c.1.2 c.2) cs), add_all fin (map snd cs)).
Proof using V.
  induction l as [|x l IH]; intros cs nf fin Hcs Hst Hcur Hin Ht Hn; [by apply Forall2_nil_inv_l in Hcs as ->|].
  apply Forall2_cons_inv_l in Hcs as (c & cs' & Hc & Hcs & ->). apply Forall2_cons_1 in Hst as [Hs Hst].
  cbn [for_each map]. destruct (ac_evaluated _ _ _ Hc) as (m & a & Hm & Ha & He). apply evaluated_fields in He as (_ & _ & _ & _ & _ & E6 & _).
  pose proof (proj1 Hcur) as Hkeys. apply bool_decide_eq_true in Hkeys.
  assert (∃ text, ct_reporting_currencies t !! x.1 = Some text) as [text Htext].
  { apply elem_of_dom. rewrite Hkeys. apply elem_of_list_to_set. apply Hin. set_solver. }
  destruct (proj2 Hcur _ _ Htext) as (m' & Hm' & ->). rewrite Hm in Hm'. injection Hm' as <-.
  rewrite (reconcile_asset_Ok i t (nf, fin) x c (cm_reporting_currency m) a); try done.
  - cbn [mbind res_bind]. apply IH; try done. intros y Hy. apply Hin. set_solver.
  - destruct (vi_models i V _ m Hm) as [Hp _]. apply model_valid in Hp as [_ Hc' _ _ _]. by eapply currency_nonempty.
  - rewrite Hn. apply found_unique; [done|]. intros y z. by apply netted_unique.
Qed.

Record accepted_target (t : ContinuousTarget) : Prop := {
  at_disposition : ct_disposition t = ACCEPTED ∧ ct_reason_codes t = [] ∧ ct_solver_status t = "optimal";
  at_identity : decision_input_identity i = Ok (ct_decision_input_identity t);
  at_position : length (ct_target_position t) = length (ti_asset_order i) ∧ ct_current_position t = ti_current_position i;
  at_delta : differences (ct_target_position t) (ti_current_position i) = Ok (ct_physical_delta t);
  at_feasible : ∃ r, independent_continuous_feasibility (ct_target_position t) i = Ok (true, Fin r, []) ∧
    ct_feasibility_residual t = Fin r ∧ dec_ltb r dec_zero = false;
  at_caps : within_caps i (ct_target_position t) (feasibility_tolerance i);
  at_zero : respects_zero_forecasts (ti_current_position i) (ti_alpha_return i) (ct_target_position t);
  at_costs : ∃ cs, Forall2 (asset_cost i) (moves (ct_target_position t)) cs ∧
    Forall2 (λ x c, ct_expected_costs t !! x.1 = Some c.1.1) (moves (ct_target_position t)) cs ∧
    ct_expected_financing_reporting t = add_all dec_zero (map snd cs);
  at_checked : ContinuousTarget_post_init t = Ok tt }.

Definition not_reconciled : exn := ValueError "accepted target cost total does not reconcile".

(** Feasible positions are accepted, unless adding the costs of the assets up in another
    order rounds to another total. *)
Lemma accepted_total target residual states cost financing :
  independent_continuous_feasibility target i = Ok (true, residual, []) →
  _evaluate_costs target i = Ok (states, cost, financing) →
  ∃ delta cs, differences target (ti_current_position i) = Ok delta ∧ Forall2 (asset_cost i) (moves target) cs ∧
    cost = dec_sub (add_all dec_zero (map (λ c, c.1.2) cs)) (add_all dec_zero (map snd cs)) ∧
    if dec_eqb (recomputed cs) cost
    then ∃ t, target_of i target delta cost financing "optimal" residual states ACCEPTED [] = Ok t ∧ accepted_target t
    else target_of i target delta cost financing "optimal" residual states ACCEPTED [] = Raise not_reconciled.
Proof using V.
  intros Hfeas Hcosts. destruct (feasible_position i target residual [] (vi_risk i V) (vi_tolerance i V) Hfeas)
    as (_ & (r & -> & Hr) & Hlen & Hcaps & Hzero).
  destruct (differences_total target Hlen) as (delta & Hdelta & Hdlen).
  destruct (moves_zipped target Hlen) as (positions & Hz1 & Hz2). pose proof (moves_assets target Hlen) as Hassets.
  unfold _evaluate_costs in Hcosts. rewrite Hz1 in Hcosts. cbn [mbind res_bind] in Hcosts. rewrite Hz2 in Hcosts. cbn [mbind res_bind] in Hcosts.
  apply bind_Ok in Hcosts as ([[states' total'] financing'] & Hloop & [= -> <- ->]).
  apply cost_loop in Hloop as (cs & Hcs & Ht & Hf & Hdom & _ & Hst); [|rewrite Hassets; apply (if_distinct i F)].
  cbn in Ht, Hf, Hdom, Hst. rewrite dom_empty_L, union_empty_r_L, Hassets in Hdom.
  exists delta, cs. split; [done|]. split; [done|]. rewrite Ht, Hf. split; [done|].
  set (cost := dec_sub _ _). 
  destruct (target_of_checks i V target delta cost (add_all dec_zero (map snd cs)) "optimal" (Fin r) states ACCEPTED [] eq_refl ltac:(constructor))
    as (identity & models & currencies & Hid & _ & _ & Hcur & Hpost & ->).
  set (t := draft _ _ _ _ _ _ _ _ _ _ _ _ _) in *.
  assert (ContinuousTarget_post_init t = raise_if (negb (dec_eqb (recomputed cs) cost)) not_reconciled) as Hchecked.
  { rewrite Hpost. unfold accepted_checks. cbn [t draft ct_asset_order ct_solver_status ct_feasibility_residual ct_current_position
      ct_requested_position ct_target_position ct_physical_delta ct_expected_costs ct_expected_cost_reporting
      ct_expected_financing_reporting ct_reason_codes]. cbv zeta. cbn [mbind res_bind].
    rewrite (if_current i F), (if_requested i F), Hlen, Hdlen, !Nat.eqb_refl. cbn [negb orb String.eqb Ascii.eqb Bool.eqb raise_if mbind res_bind].
    rewrite Hdelta. cbn [mbind res_bind]. unfold decs_eqb. rewrite eqb_list_refl by apply dec_eqb_refl. cbn [negb raise_if mbind res_bind].
    unfold keys_match. rewrite (bool_decide_eq_true_2 (dom states = list_to_set (ti_asset_order i))) by exact Hdom.
    cbn [negb raise_if mbind res_bind]. rewrite Hz1. cbn [mbind res_bind]. rewrite Hz2. cbn [mbind res_bind].
    rewrite (reconciled_loop t (moves target) cs dec_zero dec_zero); try done;
      [|intros x Hx; rewrite <- Hassets; by apply list_elem_of_fmap_2].
    cbn [mbind res_bind]. change (add_all dec_zero (map (λ c, dec_sub c.1.2 c.2) cs)) with (recomputed cs).
    destruct (dec_eqb (recomputed cs) cost); [|reflexivity]. cbn [negb raise_if mbind res_bind].
    rewrite dec_eqb_refl, Hr. done. }
  rewrite Hchecked. destruct (dec_eqb (recomputed cs) cost); [|done]. exists t. split; [done|].
  constructor; try done; [by exists r|by exists cs].
Qed.

(** ** The seam never leaks an exception *)

Lemma evaluated_components m current target t cross st : model_evaluate m current target t cross None = Ok st →
  map cc_component (es_components st) = _COMPONENT_ORDER.
Proof using Type.
  clear. unfold model_evaluate. intros H. cbv zeta in H. do 4 (apply bind_Ok in H as (? & _ & H)).
  apply bind_Ok in H as (costs & _ & H). unfold ExpectedCostState_new in H. apply bind_Ok in H as ([] & Hp & [= <-]).
  unfold ExpectedCostState_post_init in Hp. cbv zeta in Hp. do 5 (apply bind_Ok in Hp as (? & _ & Hp)).
  apply bind_Ok in Hp as (? & Hp & _). by apply raise_if_Ok, negb_false_iff, bool_decide_eq_true in Hp.
Qed.

Lemma financing_raises st e : map cc_component (es_components st) = _COMPONENT_ORDER →
  exn_class e = KValueError → raises_in data_errors (financing_amount st e).
Proof using Type.
  clear. intros Hst He. unfold financing_amount.
  destruct (List.find _ _) as [c|] eqn:E.
  - destruct (cc_reporting_amount c); [apply raises_Ok|]. apply raises_Raise. rewrite He. unfold data_errors. set_solver.
  - exfalso. assert (FINANCING ∈ map cc_component (es_components st)) as Hin by (rewrite Hst; unfold _COMPONENT_ORDER; set_solver).
    apply list_elem_of_fmap in Hin as (c & Hc & Hin). apply list_elem_of_In in Hin. apply (find_none _ _ E) in Hin.
    by apply bool_decide_eq_false in Hin.
Qed.

Lemma cost_of_asset_raises acc x : x.1 ∈ ti_asset_order i → raises_in data_errors (cost_of_asset i acc x).
Proof using V.
  destruct acc as [[states total] financing], x as [asset [current target]]. cbn [fst]. intros Hin. unfold cost_of_asset.
  destruct (List.find _ _) as [a|] eqn:Ea.
  - cbn [mbind res_bind]. destruct (if_assets i F asset Hin) as (e & m & A). rewrite (proj2 (get_Ok _ _ _) (af_model _ _ _ _ A)).
    cbn [mbind res_bind]. apply raises_bind; [apply evaluate_raises, (af_curves _ _ _ _ A)|]. intros st Hst.
    apply raises_bind; [apply raises_if; cbn; unfold data_errors; set_solver|]. intros _ _.
    apply raises_bind; [unfold require_total_reporting, data_errors; raises|]. intros expected _.
    apply raises_bind; [by apply financing_raises; [eapply evaluated_components|]|]. intros amount _. apply raises_Ok.
  - exfalso. rewrite <- (if_netting_order i F) in Hin. apply list_elem_of_fmap in Hin as (a & -> & Ha).
    apply list_elem_of_In in Ha. apply (find_none _ _ Ea) in Ha. by rewrite String.eqb_refl in Ha.
Qed.

Lemma costs_raise target : length target = length (ti_asset_order i) → raises_in data_errors (_evaluate_costs target i).
Proof using V.
  intros Hl. unfold _evaluate_costs. destruct (moves_zipped target Hl) as (positions & -> & Hz). cbn [mbind res_bind].
  rewrite Hz. cbn [mbind res_bind]. apply raises_bind.
  - apply raises_for_each. intros acc x Hx. apply cost_of_asset_raises. rewrite <- (moves_assets target Hl). by apply list_elem_of_fmap_2.
  - intros [[states total] financing] _. apply raises_Ok.
Qed.

Lemma feasibility_raises position : raises_in data_errors (independent_continuous_feasibility position i).
Proof using Type.
  clear. unfold independent_continuous_feasibility. destruct (negb _); [apply raises_Ok|]. destruct (existsb _ _); [apply raises_Ok|].
  cbv zeta. assert (∀ p, raises_in data_errors (_position (ti_risk i) p)) as Hp by (intros p; unfold _position, data_errors; raises).
  apply raises_bind; [unfold cap_checks; apply raises_bind; [apply zip_raises|intros; apply raises_Ok]|]. intros checks _.
  apply raises_bind; [unfold group_exposure, exposure, data_errors; raises; apply Hp|]. intros groups _.
  apply raises_bind; [unfold currency_exposure, exposure, data_errors; raises; apply Hp|]. intros currencies _.
  apply raises_bind; [unfold exposure_checks; apply raises_bind; [apply zip_raises|intros; apply raises_Ok]|]. intros gc _.
  apply raises_bind; [unfold exposure_checks; apply raises_bind; [apply zip_raises|intros; apply raises_Ok]|]. intros cc _.
  apply raises_bind; [unfold portfolio_risk, portfolio_variance, finite_or, data_errors; raises; apply Hp|]. intros risk _.
  apply raises_bind; [apply zip_raises|]. intros pairs _. apply raises_bind; [apply zip_raises|]. intros triples _.
  apply raises_bind; [|intros; apply raises_Ok]. destruct (_ ++ _) as [|x l]; [apply raises_Ok|].
  apply raises_for_each. intros a b _. unfold xdec_max, xdec_lt, invalid_operation, data_errors. raises.
Qed.

Lemma normalise_raises values : raises_in data_errors (_normalise_target values i).
Proof using Type.
  clear. unfold _normalise_target. cbv zeta. apply raises_bind; [apply zip_raises|]. intros pairs _.
  apply raises_bind; [apply zip_raises|]. intros triples _. apply raises_traverse. intros [value [current requested]] _.
  unfold normalise_value, data_errors. raises.
Qed.

Lemma examine_raises values : raises_in data_errors (examine i values).
Proof using V.
  unfold examine. apply raises_bind; [apply normalise_raises|]. intros target _.
  apply raises_bind; [apply feasibility_raises|]. intros [[feasible residual] reasons] Hf. destruct feasible; [|apply raises_Ok].
  apply raises_bind; [|intros; apply raises_Ok]. apply costs_raise.
  destruct (feasible_position i target residual reasons (vi_risk i V) (vi_tolerance i V) Hf) as (_ & _ & Hl & _). exact Hl.
Qed.

Lemma caught_data e : exn_class e ∈ data_errors → caught solver_errors e = true.
Proof using Type. clear. intros H. apply bool_decide_eq_true. unfold data_errors, solver_errors in *. set_solver. Qed.

(** A solver that answers with a status, or raises what a numerical library raises. *)
Definition answers (runner : SolverRunner) : Prop :=
  match runner i with
  | Ok (status, _) => nonempty status = true
  | Raise e => exn_class e ∈ solver_errors
  end.

(** Every reason for which a solution can be refused is a text. *)
Lemma unique_reasons l : ∀ seen, Forall (λ r, nonempty r = true) l → Forall (λ r, nonempty r = true) (unique seen l).
Proof using Type.
  clear. induction l as [|x l IH]; intros seen; [constructor|]. intros [Hx Hl]%Forall_cons_1. cbn.
  destruct (bool_decide (x ∈ seen)); [by apply IH|]. constructor; [done|by apply IH].
Qed.

Lemma feasibility_reasons position b r reasons : independent_continuous_feasibility position i = Ok (b, r, reasons) →
  Forall (λ r, nonempty r = true) reasons.
Proof using Type.
  clear. unfold independent_continuous_feasibility. destruct (negb _); [intros [= _ _ <-]; repeat constructor|].
  destruct (existsb _ _); [intros [= _ _ <-]; repeat constructor|]. cbv zeta. intros H.
  apply bind_Ok in H as (checks & Hc & H). apply bind_Ok in H as (groups & _ & H). apply bind_Ok in H as (currencies & _ & H).
  apply bind_Ok in H as (gc & Hg & H). apply bind_Ok in H as (cc & Hcc & H). do 4 (apply bind_Ok in H as (? & _ & H)).
  injection H as _ _ <-. apply unique_reasons. apply Forall_app. split; [|by apply Forall_map, Forall_true].
  assert (∀ l lim name cs, exposure_checks l lim name = Ok cs → nonempty name = true → Forall (λ c : pyfloat * string, nonempty c.2 = true) cs) as Hexp.
  { intros l lim name cs Hcs Hname. unfold exposure_checks in Hcs. apply bind_Ok in Hcs as (z & _ & [= <-]).
    apply Forall_map. by apply Forall_true. }
  assert (Forall (λ c : pyfloat * string, nonempty c.2 = true) (checks ++ gc ++ cc ++ [(f_zero, "PORTFOLIO_RISK_CAP")])) as Hall.
  { apply Forall_app. split; [|apply Forall_app; split; [by eapply Hexp|apply Forall_app; split; [by eapply Hexp|by repeat constructor]]].
    unfold cap_checks in Hc. apply bind_Ok in Hc as (z & _ & [= <-]). by repeat constructor. }
  apply Forall_forall. intros name (c & -> & Hin)%list_elem_of_fmap. apply list_elem_of_In, filter_In in Hin as [Hin%list_elem_of_In _].
  rewrite !elem_of_app in Hin. rewrite Forall_forall in Hall. destruct Hin as [Hin|[Hin|[Hin| ->%list_elem_of_singleton]]]; [| | |done];
    apply Hall; set_solver.
Qed.
End acceptance.

(** ** Claims *)


(** ** A concrete decision *)

Definition solver_product (asset : string) : ProductEconomics :=
  mkProduct asset IG_NATIVE_CAPTURE FIXTURE_IMPLEMENTATION ("CS.D." +:+ asset) "EUR" "EUR" "EUR" dec_one dec_one dec_one dec_one
    (dec_lit 1 (-4)) dec_one (sample_charge PHYSICAL_DELTA) (sample_charge PHYSICAL_HOLDING) SUPPORTED_MODEL SS_ELIGIBLE "s1"
    sample_time sample_time (days 1) "v1" "reviewed" None None (Some "v1") None None.
Definition solver_model (spread financing : Decimal) (asset : string) : ContinuousCostModel :=
  mkCostModel asset (minutes 15) "EUR"
    [sample_curve SPREAD [] [spread]; sample_curve LATENCY_MOVEMENT [] [dec_zero];
     sample_curve ADVERSE_SLIPPAGE [] [dec_zero]; sample_curve COMMISSION [] [dec_lit 2 (-2)];
     sample_curve FINANCING [] [financing]; sample_curve IMPACT [dec_lit 10 0] [dec_lit 1 (-2); dec_lit 3 (-2)]]
    match economics_semantic_identity (solver_product asset) with Ok identity => identity | Raise _ => "" end
    "v1" "reviewed" "v1" "reviewed" "v1" SUPPORTED_MODEL IS_AVAILABLE "v1" "reviewed".
Definition solver_policy : SolverPolicy :=
  mkSolver "v1" "3.13" "cvxpy" "1.6" "clarabel" "0.10" "Apache-2.0" dec_one (dec_lit 1 (-8)) (dec_lit 1 (-8)) 100 ["EURUSD"; "GBPUSD"]
    ["optimal"] false.
Definition solver_assets : list string := ["EURUSD"; "GBPUSD"].
Definition solver_risk_result : res RiskState :=
  estimate_ordered_risk_state sample_pow solver_assets sample_observations sample_cutoff sample_cutoff sample_risk_config
    sample_exposure sample_caps IG_NATIVE_CAPTURE FIXTURE_IMPLEMENTATION "sample".
Definition solver_risk : RiskState :=
  ltac:(let r := eval vm_compute in solver_risk_result in match r with Ok ?s => exact s end).
Definition solver_netting : NettingResult :=
  ltac:(let r := eval vm_compute in (match_internal_opposing_changes [sample_intent "e1" "EURUSD" 0 2; sample_intent "e1" "GBPUSD" 1 1]) in
        match r with Ok ?s => exact s end).
Definition solver_inputs (model : string → ContinuousCostModel) : ContinuousTargetInputs :=
  mkInputs IG_NATIVE_CAPTURE FIXTURE_IMPLEMENTATION solver_assets [dec_zero; dec_one] [dec_of_Z 2; dec_one] [dec_one; dec_zero]
    (dec_of_Z 1000) sample_time (list_to_map (map (λ a, (a, solver_product a)) solver_assets))
    (list_to_map (map (λ a, (a, model a)) solver_assets)) solver_risk solver_policy solver_netting.
Definition solver_answer : SolverRunner := λ _, Ok ("OPTIMAL", Some [float_of_Z 2; float_of_Z 1]).

Lemma solver_inputs_valid model :
  ContinuousTargetInputs_post_init (solver_inputs model) = Ok tt →
  Forall (λ m, ContinuousCostModel_post_init m = Ok tt ∧ Forall (λ c, ContinuousCostComponent_post_init c = Ok tt) (cm_components m))
    (map model solver_assets) →
  valid_inputs (solver_inputs model).
Proof.
  intros Hc Hm. rewrite Forall_forall in Hm. constructor; [exact Hc| |vm_compute; reflexivity|vm_compute; reflexivity].
  intros asset m Hl. apply Hm. cbn [ti_continuous_costs solver_inputs] in Hl. apply elem_of_list_to_map_2 in Hl.
  apply list_elem_of_fmap in Hl as (a & [= -> ->] & Ha). by apply list_elem_of_fmap_2.
Qed.


(** The refusal occurs: with slopes of 28 digits the total less the financing and the sum
    over the assets round differently, and an error that no handler catches leaves the
    function although the solver's answer is feasible. *)
Lemma solve_raises_on_rounding :
  let model asset :=
    if String.eqb asset "EURUSD" then solver_model (dec_lit 3333333333333333333333333333 (-28)) (dec_lit 1666666666666666666666666667 (-28)) asset
    else solver_model dec_one (dec_lit 7777777777777777777777777777 (-28)) asset in
  valid_inputs (solver_inputs model) ∧
  is_ok (independent_continuous_feasibility [dec_of_Z 2; dec_one] (solver_inputs model)) = true ∧
  solve_continuous_target solver_answer (solver_inputs model) = Raise not_reconciled.
Proof.
  cbv zeta. split; [apply solver_inputs_valid; [vm_compute; reflexivity|];
    repeat (constructor; [split; [vm_compute; reflexivity|repeat constructor]|]); constructor|].
  split; vm_compute; reflexivity.
Qed.
