(* ===== verification/Rounding.v ===== *)
(** From a continuous target to tradable quantities ([domain/r3_rounding.py],
    [application/r3_rounding.py]): rounding to the increments of each product, repair of
    violated caps by removing one increment at a time, attribution of the result to the
    sleeves, and the boundary that blocks whatever cannot be made valid.

    The set of reasons that the functions of the source share and update in place is the
    state of the monad [M Reasons]: it survives the exceptions that are handled. *)

From S2P Require Import Prelude PySorted PyStr PyTime PyDecimal PyDecFn Sha256 PyJson PyFloat PyFloatFn Domain CaptureFeed Economics Portfolio Risk Target.
From Stdlib Require Import Ascii SpecFloat.

Definition ROUNDING_CONTRACT : string := "qtrad-r3-rounding-repair-v1".
Definition REASON_CODE_VERSION : string := "qtrad-r3-reason-codes-v1".

(** ** Reason codes *)

Inductive RoundingDisposition : Type := RD_ACCEPTED | RD_PROJECTED | RD_BLOCKED.
#[export] Instance RoundingDisposition_eq_dec : EqDecision RoundingDisposition.
Proof. solve_decision. Defined.
Definition RoundingDisposition_str (d : RoundingDisposition) : string :=
  match d with RD_ACCEPTED => "ACCEPTED" | RD_PROJECTED => "PROJECTED" | RD_BLOCKED => "BLOCKED" end.

(** The values of [RoundingReasonCode], in their order. *)
Definition REASON_CODE_ORDER : list string :=
  ["INPUT_ECONOMICS_MISSING"; "INPUT_FX_MISSING"; "INPUT_COST_INVALID"; "INPUT_RISK_INVALID";
   "ZERO_FORECAST_NEW_EXPOSURE_BLOCKED"; "ASSET_PAPER_INELIGIBLE"; "SOLVER_ERROR"; "SOLVER_NON_OPTIMAL";
   "SOLVER_INFEASIBLE"; "SOLVER_RESULT_INVALID"; "QUANTITY_ROUNDED"; "MINIMUM_QUANTITY_NOT_MET"; "ASSET_CAP_REPAIR";
   "GROSS_CAP_REPAIR"; "NET_CAP_REPAIR"; "CONCENTRATION_CAP_REPAIR"; "GROUP_CAP_REPAIR"; "CURRENCY_CAP_REPAIR";
   "PORTFOLIO_RISK_REPAIR"; "CURRENT_POSITION_PROJECTED"; "NEW_ALPHA_EXPOSURE_BLOCKED"; "ATTRIBUTION_RESIDUAL_REPAIRED";
   "DECISION_BLOCKED"].

(** [_REASON_PRIORITY.get(value, len(REASON_CODE_ORDER))] *)
Fixpoint place (l : list string) (value : string) : Z :=
  match l with [] => 0 | x :: l => if String.eqb x value then 0 else 1 + place l value end.
Definition reason_priority : string → Z := place REASON_CODE_ORDER.
Definition is_reason_code (code : string) : bool := existsb (String.eqb code) REASON_CODE_ORDER.

Definition order_reason_codes (codes : list string) : list string :=
  py_sorted (λ value, (reason_priority value, value)) (unique ∅ codes).

(** ** Identities *)

Definition rounding_identity (value : json) : string := sha256_json value.

Definition cost_component_tuple (c : ComponentCost) : json :=
  JList [JStr (CostComponentKind_str (cc_component c)); JStr (InputStatus_str (cc_status c)); JStr (CostBasis_str (cc_basis c));
         opt_dec (cc_native_amount c); opt_str (cc_native_currency c); opt_dec (cc_reporting_amount c);
         JStr (cc_reporting_currency c); opt_dec (cc_quantity_basis c);
         match cc_holding_interval c with Some d => span_json d | None => JNull end;
         JStr (cc_version c); JStr (cc_provenance c); opt_str (cc_reason c); opt_dec (cc_conversion_rate c);
         opt_str (cc_conversion_source c); opt_str (cc_conversion_version c)].

Definition _cost_state_payload (s : ExpectedCostState) : json :=
  JObj [("decision_time", JStr (isoformat (es_decision_time s))); ("current_quantity", dec_json (es_current_quantity s));
        ("target_quantity", dec_json (es_target_quantity s)); ("holding_interval", span_json (es_holding_interval s));
        ("reporting_currency", JStr (es_reporting_currency s)); ("version", JStr (es_version s));
        ("provenance", JStr (es_provenance s)); ("internal_cross_quantity", dec_json (es_internal_cross_quantity s));
        ("components", JList (map cost_component_tuple (es_components s)))].

Definition cost_states_identity (costs : gmap string ExpectedCostState) : string :=
  rounding_identity (JList (map (λ kv, JList [JStr kv.1; _cost_state_payload kv.2]) (py_sorted fst (map_to_list costs)))).

(** ** Policy *)

Record RoundingPolicy : Type := mkRoundingPolicy {
  rp_version : string;
  rp_reason_code_version : string;
  rp_max_repair_steps : Z }.
Definition DEFAULT_ROUNDING_POLICY : RoundingPolicy := mkRoundingPolicy ROUNDING_CONTRACT REASON_CODE_VERSION 100000.

Definition RoundingPolicy_post_init (p : RoundingPolicy) : res unit :=
  raise_if (negb (nonempty (rp_version p)) || negb (nonempty (rp_reason_code_version p)))
    (ValueError "rounding policy versions are required");;
  raise_if (rp_max_repair_steps p <=? 0) (ValueError "rounding policy max_repair_steps must be positive").

Definition policy_semantic_identity (p : RoundingPolicy) : string :=
  rounding_identity (JObj [("contract", JStr ROUNDING_CONTRACT); ("version", JStr (rp_version p));
    ("reason_code_version", JStr (rp_reason_code_version p)); ("max_repair_steps", JInt (rp_max_repair_steps p));
    ("reason_code_order", strs_json REASON_CODE_ORDER)]).

(** ** Attributions *)

Record RepairedSleeveAttribution : Type := mkRepaired {
  ra_key : SleeveKey;
  ra_requested_delta : Decimal;
  ra_internal_cross_quantity : Decimal;
  ra_external_delta_share : Decimal;
  ra_reason_codes : list string;
  ra_repair_delta : Decimal }.

Definition RepairedSleeveAttribution_new (key : SleeveKey) (requested_delta internal_cross_quantity external_delta_share : Decimal)
    (reason_codes : list string) (repair_delta : Decimal) : res RepairedSleeveAttribution :=
  raise_if (dec_ltb internal_cross_quantity dec_zero) (ValueError "attribution internal cross quantity must be non-negative");;
  let original_external := dec_sub external_delta_share repair_delta in
  raise_if (negb (dec_eqb (dec_add (dec_abs original_external) internal_cross_quantity) (dec_abs requested_delta)))
    (ValueError "repaired sleeve attribution does not reconcile requested delta");;
  let codes := order_reason_codes reason_codes in
  raise_if (negb (forallb is_reason_code codes)) (ValueError "repaired sleeve attribution reason code is unknown");;
  Ok (mkRepaired key requested_delta internal_cross_quantity external_delta_share codes repair_delta).

(** Equality of dataclasses: decimals by value. *)
Definition repaired_eqb (a b : RepairedSleeveAttribution) : bool :=
  bool_decide (ra_key a = ra_key b) && dec_eqb (ra_requested_delta a) (ra_requested_delta b)
  && dec_eqb (ra_internal_cross_quantity a) (ra_internal_cross_quantity b)
  && dec_eqb (ra_external_delta_share a) (ra_external_delta_share b)
  && bool_decide (ra_reason_codes a = ra_reason_codes b) && dec_eqb (ra_repair_delta a) (ra_repair_delta b).

Definition repaired_order (a : RepairedSleeveAttribution) : string * string * string * string * string * Z :=
  canonical_tuple (ra_key a).

(** ** The rounded target *)

Record RoundedTarget : Type := mkRounded {
  rt_source_class : MarketDataSourceClass;
  rt_evidence_purpose : EvidencePurpose;
  rt_asset_order : list string;
  rt_current_position : list Decimal;
  rt_continuous_target : list Decimal;
  rt_target_position : list Decimal;
  rt_physical_delta : list Decimal;
  rt_disposition : RoundingDisposition;
  rt_reason_codes : list string;
  rt_expected_costs : gmap string ExpectedCostState;
  rt_expected_cost_reporting : Decimal;
  rt_expected_financing_reporting : Decimal;
  rt_netting : NettingResult;
  rt_attributions : list RepairedSleeveAttribution;
  rt_policy_identity : string;
  rt_decision_input_identity : string;
  rt_continuous_target_identity : string;
  rt_cost_state_identity : string;
  rt_attribution_residual : Decimal;
  rt_horizon_state_identities : list (string * string) }.

(** [l[i] for i, _ in enumerate(m)], put next to the elements of [m]. *)
Fixpoint beside {A B} (m : list A) (l : list B) : res (list (A * B)) :=
  match m, l with
  | [], _ => Ok []
  | x :: m, y :: l => r ← beside m l; Ok ((x, y) :: r)
  | _ :: _, [] => Raise (IndexError "tuple index out of range")
  end.

(** One attribution against the sleeve of the netting it comes from. *)
Definition check_parent (n : NettingResult) (a : RepairedSleeveAttribution) : res unit :=
  match List.find (λ s, bool_decide (sa_key s = ra_key a)) (rev (nr_sleeves n)) with
  | None => Raise (ValueError "rounded target attribution key is not in parent netting")
  | Some parent =>
      raise_if (negb (dec_eqb (ra_requested_delta a) (sa_requested_delta parent))
                || negb (dec_eqb (ra_internal_cross_quantity a) (sa_internal_cross_quantity parent))
                || negb (dec_eqb (dec_sub (ra_external_delta_share a) (ra_repair_delta a)) (sa_external_delta_share parent)))
        (ValueError "rounded target attribution does not preserve parent netting")
  end.

(** The sleeves of one asset; [x] is the asset with its physical delta and its netting. *)
Definition check_sleeves (t : RoundedTarget) (x : string * (Decimal * AssetNetting)) : res unit :=
  let '(asset, (delta, netted)) := x in
  let own := List.filter (λ a, String.eqb (sk_asset_id (ra_key a)) asset) (rt_attributions t) in
  raise_if (negb (dec_eqb (dec_sum (map ra_external_delta_share own)) delta))
    (ValueError "rounded target sleeve attribution does not reconcile physical delta");;
  raise_if (negb (dec_eqb (dec_sum (map ra_requested_delta own)) (an_requested_delta netted)))
    (ValueError "rounded target sleeve requests do not reconcile");;
  raise_if (negb (dec_eqb (dec_sum (map ra_internal_cross_quantity own)) (dec_mul (an_internal_cross_quantity netted) dec_two)))
    (ValueError "rounded target internal cross does not reconcile");;
  for_each (λ _, check_parent (rt_netting t)) tt own.

Definition check_attributions (t : RoundedTarget) : res unit :=
  raise_if (negb (eqb_list repaired_eqb (py_sorted repaired_order (rt_attributions t)) (rt_attributions t)))
    (ValueError "rounded target attributions must be canonical");;
  raise_if (has_duplicates (map ra_key (rt_attributions t))) (ValueError "rounded target attributions must be unique");;
  netted ← beside (rt_physical_delta t) (nr_assets (rt_netting t));
  assets ← beside (rt_asset_order t) netted;
  for_each (λ _, check_sleeves t) tt assets.

(** One asset of the costs; [x] is the asset with its quantities and its netting. *)
Definition check_cost (t : RoundedTarget) (acc : Decimal * Decimal) (x : string * (Decimal * (Decimal * AssetNetting)))
    : res (Decimal * Decimal) :=
  let '(asset, (current, (target, netted))) := x in
  state ← get (rt_expected_costs t) asset;
  raise_if (negb (complete state)) (ValueError "rounded target requires complete costs");;
  raise_if (negb (dec_eqb (es_current_quantity state) current) || negb (dec_eqb (es_target_quantity state) target)
            || negb (dec_eqb (es_internal_cross_quantity state) (an_internal_cross_quantity netted)))
    (ValueError "rounded target cost state binding mismatch");;
  total ← require_total_reporting state;
  finance ← financing_amount state (ValueError "rounded target financing amount is required");
  Ok (dec_add acc.1 (dec_sub total finance), dec_add acc.2 finance).

Definition check_costs (t : RoundedTarget) : res unit :=
  raise_if (negb (keys_match (rt_expected_costs t) (rt_asset_order t)))
    (ValueError "accepted rounded target costs must cover every asset");;
  netted ← beside (rt_target_position t) (nr_assets (rt_netting t));
  positions ← beside (rt_current_position t) netted;
  assets ← beside (rt_asset_order t) positions;
  '(non_financing, financing) ← for_each (check_cost t) (dec_zero, dec_zero) assets;
  raise_if (negb (dec_eqb non_financing (rt_expected_cost_reporting t))
            || negb (dec_eqb financing (rt_expected_financing_reporting t)))
    (ValueError "rounded target costs do not reconcile");;
  raise_if (negb (String.eqb (rt_cost_state_identity t) (cost_states_identity (rt_expected_costs t))))
    (ValueError "rounded target cost state identity mismatch").

Definition is_blocked (t : RoundedTarget) : bool := bool_decide (rt_disposition t = RD_BLOCKED).
Definition no_output (t : RoundedTarget) : bool :=
  bool_decide (rt_target_position t = []) && bool_decide (rt_physical_delta t = []).

(** The vectors and attributions of a target that carries output. *)
Definition check_vectors (t : RoundedTarget) : res unit :=
  let n := length (rt_asset_order t) in
  raise_if (existsb (λ l, negb (Nat.eqb (length l) n))
              [rt_current_position t; rt_continuous_target t; rt_target_position t; rt_physical_delta t])
    (ValueError "rounded target vectors must match asset order");;
  deltas ← differences (rt_target_position t) (rt_current_position t);
  raise_if (negb (decs_eqb deltas (rt_physical_delta t))) (ValueError "rounded target physical delta does not reconcile").

Definition identity_pair (label : string) (value : string) : res unit :=
  raise_if (negb (is_sha256 value)) (ValueError ("rounded target horizon " +:+ label +:+ " identity is invalid")).

Definition ordered_reasons (t : RoundedTarget) : RoundedTarget :=
  mkRounded (rt_source_class t) (rt_evidence_purpose t) (rt_asset_order t) (rt_current_position t) (rt_continuous_target t)
    (rt_target_position t) (rt_physical_delta t) (rt_disposition t) (order_reason_codes (rt_reason_codes t))
    (rt_expected_costs t) (rt_expected_cost_reporting t) (rt_expected_financing_reporting t) (rt_netting t)
    (rt_attributions t) (rt_policy_identity t) (rt_decision_input_identity t) (rt_continuous_target_identity t)
    (rt_cost_state_identity t) (rt_attribution_residual t) (rt_horizon_state_identities t).

Definition RoundedTarget_post_init (t : RoundedTarget) : res RoundedTarget :=
  let blocked_empty := is_blocked t && no_output t in
  raise_if (bool_decide (rt_asset_order t = []) || negb (bool_decide (py_sorted id (rt_asset_order t) = rt_asset_order t))
            || has_duplicates (rt_asset_order t))
    (ValueError "rounded target asset order must be canonical and unique");;
  (if blocked_empty then Ok tt else check_vectors t);;
  raise_if (negb (bool_decide (asset_order (rt_netting t) = rt_asset_order t)))
    (ValueError "rounded target netting does not match asset order");;
  raise_if (negb blocked_empty && bool_decide (external_deltas (rt_netting t) = []))
    (ValueError "rounded target netting has no external delta vector");;
  raise_if (blocked_empty && negb (bool_decide (map ra_key (rt_attributions t) = [])))
    (ValueError "blocked rounded target cannot carry attributions");;
  (if blocked_empty then Ok tt else check_attributions t);;
  let t := ordered_reasons t in
  raise_if (negb (forallb is_reason_code (rt_reason_codes t))) (ValueError "rounded target reason code is unknown");;
  raise_if (has_duplicates (map fst (rt_horizon_state_identities t)))
    (ValueError "rounded target horizon state identities must be unique");;
  for_each (λ _ pair, identity_pair "semantic" pair.1;; identity_pair "closure" pair.2) tt (rt_horizon_state_identities t);;
  raise_if (dec_ltb (rt_attribution_residual t) dec_zero) (ValueError "rounded target attribution residual must be non-negative");;
  raise_if (negb (is_blocked t) && negb (dec_eqb (rt_attribution_residual t) dec_zero))
    (ValueError "accepted rounded target attribution residual must be zero");;
  for_each (λ _ il, raise_if (negb (is_sha256 il.1)) (ValueError ("rounded target " +:+ il.2 +:+ " must be a SHA-256 hex digest")))
    tt [(rt_policy_identity t, "policy identity"); (rt_decision_input_identity t, "decision input identity");
        (rt_continuous_target_identity t, "continuous target identity")];;
  (if is_blocked t then
     raise_if (negb (no_output t) || negb (bool_decide (rt_expected_costs t = ∅)))
       (ValueError "blocked rounded target cannot carry partial output");;
     raise_if (negb (dec_eqb (rt_expected_cost_reporting t) dec_zero)
               || negb (dec_eqb (rt_expected_financing_reporting t) dec_zero))
       (ValueError "blocked rounded target costs must be zero");;
     raise_if (bool_decide (rt_reason_codes t = [])) (ValueError "blocked rounded target requires reason codes")
   else check_costs t);;
  Ok t.

Definition rounded_json (t : RoundedTarget) : res json :=
  costs ← traverse (λ kv : string * ExpectedCostState, total ← require_total_reporting kv.2; Ok (JList [JStr kv.1; dec_json total]))
            (listed (rt_asset_order t) (rt_expected_costs t));
  let horizons := JList (map (λ p, JList [JStr p.1; JStr p.2]) (rt_horizon_state_identities t)) in
  Ok (JObj ([("contract", JStr ROUNDING_CONTRACT); ("source_class", JStr (MarketDataSourceClass_str (rt_source_class t)));
    ("evidence_purpose", JStr (EvidencePurpose_str (rt_evidence_purpose t))); ("asset_order", strs_json (rt_asset_order t));
    ("current_position", decs_json (rt_current_position t)); ("continuous_target", decs_json (rt_continuous_target t));
    ("target_position", decs_json (rt_target_position t)); ("physical_delta", decs_json (rt_physical_delta t));
    ("disposition", JStr (RoundingDisposition_str (rt_disposition t))); ("reason_codes", strs_json (rt_reason_codes t));
    ("expected_costs", JList costs); ("expected_cost_reporting", dec_json (rt_expected_cost_reporting t));
    ("expected_financing_reporting", dec_json (rt_expected_financing_reporting t));
    ("netting", JStr (netting_semantic_identity (rt_netting t)));
    ("attributions", JList (map (λ a, JList [key_json (ra_key a); dec_json (ra_requested_delta a);
       dec_json (ra_internal_cross_quantity a); dec_json (ra_external_delta_share a); dec_json (ra_repair_delta a);
       strs_json (ra_reason_codes a)]) (rt_attributions t)));
    ("policy_identity", JStr (rt_policy_identity t)); ("decision_input_identity", JStr (rt_decision_input_identity t));
    ("continuous_target_identity", JStr (rt_continuous_target_identity t));
    ("cost_state_identity", JStr (rt_cost_state_identity t)); ("attribution_residual", dec_json (rt_attribution_residual t))]
    ++ (if bool_decide (rt_horizon_state_identities t = []) then [] else [("horizon_state_identities", horizons)]))).

Definition rounded_semantic_identity (t : RoundedTarget) : res string :=
  (λ j, sha256_hex (canonical_json_bytes j)) <$> rounded_json t.

(** ** Reasons shared between the functions *)

Notation Reasons := (gset string).

Definition add (reason : string) : M Reasons unit := modify (λ s, {[reason]} ∪ s).
Definition update (codes : list string) : M Reasons unit := modify (λ s, list_to_set codes ∪ s).
Definition add_if (b : bool) (reason : string) : M Reasons unit := if b then add reason else mret tt.

(** [try: m except kinds as e: handler e] *)
Definition try_except {A} (kinds : list exn_kind) (m : M Reasons A) (handler : exn → M Reasons A) : M Reasons A := λ s,
  match m s with
  | (s', Raise e) => if caught kinds e then handler e s' else (s', Raise e)
  | r => r
  end.

(** A block that returns from the function, [inl], or goes on with a value, [inr]. *)
Definition or_return {A B} (m : M Reasons (B + A)) (k : A → M Reasons B) : M Reasons B :=
  x ← m; match x with inl r => mret r | inr a => k a end.

(** The same inside a block that may itself return from the function. *)
Definition or_stop {A B C} (m : M Reasons (B + A)) (k : A → M Reasons (B + C)) : M Reasons (B + C) :=
  x ← m; match x with inl r => mret (inl r) | inr a => k a end.

(** [str.upper] on code points below 256; the two letters whose capital lies beyond are kept. *)
Definition upper_char (c : ascii) : list ascii :=
  if in_range c 223 223 then ["S"; "S"]%char
  else if in_range c 97 122 || in_range c 224 246 || in_range c 248 254 then [ascii_of_N (N_of_ascii c - 32)]
  else [c].
Definition upper (s : string) : string := of_chars (flat_map upper_char (chars s)).

Definition reason_names : list (string * string) :=
  [("ZERO_FORECAST_NEW_EXPOSURE", "ZERO_FORECAST_NEW_EXPOSURE_BLOCKED"); ("SOLVER_INACCURATE", "SOLVER_NON_OPTIMAL");
   ("SOLVER_NON_OPTIMAL", "SOLVER_NON_OPTIMAL"); ("SOLVER_ERROR", "SOLVER_ERROR"); ("SOLVER_INFEASIBLE", "SOLVER_INFEASIBLE");
   ("SOLVER_RESULT_INVALID", "SOLVER_RESULT_INVALID"); ("ASSET_CAP", "ASSET_CAP_REPAIR"); ("GROSS_CAP", "GROSS_CAP_REPAIR");
   ("NET_CAP", "NET_CAP_REPAIR"); ("CONCENTRATION_CAP", "CONCENTRATION_CAP_REPAIR"); ("GROUP_CAP", "GROUP_CAP_REPAIR");
   ("CURRENCY_CAP", "CURRENCY_CAP_REPAIR"); ("PORTFOLIO_RISK_CAP", "PORTFOLIO_RISK_REPAIR")].
Definition _normalise_reason (reason : string) : string :=
  let value := upper reason in
  match List.find (λ kv, String.eqb kv.1 value) reason_names with
  | Some kv => kv.2
  | None => if is_reason_code value then value else "DECISION_BLOCKED"
  end.

Definition _reason_for_input (reason : string) : string :=
  let text := upper reason in
  if contains "FX" text || contains "CURRENCY" text then "INPUT_FX_MISSING"
  else if existsb (λ token, contains token text) ["COMMISSION"; "FINANCING"; "IMPACT"; "COST"] then "INPUT_COST_INVALID"
  else "ASSET_PAPER_INELIGIBLE".

(** Rounding raises arithmetic errors only, which the source handles. *)
Definition _quantity_valid (quantity : Decimal) (economics : ProductEconomics) : bool :=
  match round_quantity economics quantity with Ok r => dec_eqb r quantity | Raise _ => false end.

(** ** Residuals of the caps *)

Inductive Cap : Type := ASSET | GROSS | NET | CONCENTRATION | GROUP | CURRENCY | RISK.
(** [_REASON_CAPS_BY_NAME] *)
Definition cap_reason (c : Cap) : string :=
  match c with
  | ASSET => "ASSET_CAP_REPAIR" | GROSS => "GROSS_CAP_REPAIR" | NET => "NET_CAP_REPAIR"
  | CONCENTRATION => "CONCENTRATION_CAP_REPAIR" | GROUP => "GROUP_CAP_REPAIR" | CURRENCY => "CURRENCY_CAP_REPAIR"
  | RISK => "PORTFOLIO_RISK_REPAIR"
  end.

(** [max((abs(value) - cap for value, cap in zip(values, caps, strict=True)), default=0.0)] *)
Definition largest_excess (values caps : list pyfloat) : res pyfloat :=
  l ← zip_strict values caps; Ok (float_max (map (λ vc, f_sub (f_abs vc.1) vc.2) l)).

Definition keep_positive (acc : list (Cap * xdecimal)) (r : Cap * xdecimal) : res (list (Cap * xdecimal)) :=
  positive ← xdec_lt (Fin dec_zero) r.2; Ok (if positive : bool then acc ++ [r] else acc).

Definition cap_residuals (values : list Decimal) (i : ContinuousTargetInputs) : res (list (Cap * xdecimal)) :=
  let risk := ti_risk i in
  let caps := rs_caps risk in
  let floats := map float_of_Decimal values in
  asset_residual ← largest_excess floats (ca_asset_caps caps);
  let gross := float_sum (map f_abs floats) in
  let concentration := if f_eqb gross f_zero then f_zero else f_div (float_max (map f_abs floats)) gross in
  groups ← group_exposure risk floats;
  currencies ← currency_exposure risk floats;
  group_residual ← largest_excess groups (rs_group_caps risk);
  currency_residual ← largest_excess currencies (rs_currency_caps risk);
  risk_value ← portfolio_risk risk floats;
  for_each keep_positive []
    [(ASSET, violation asset_residual); (GROSS, violation (f_sub gross (ca_gross_cap caps)));
     (NET, violation (f_sub (f_abs (float_sum floats)) (ca_net_cap caps)));
     (CONCENTRATION, violation (f_sub concentration (ca_concentration_cap caps)));
     (GROUP, Decimal_of_text group_residual); (CURRENCY, Decimal_of_text currency_residual);
     (RISK, violation (f_sub risk_value (ca_portfolio_risk_cap caps)))].

Definition risk_errors : list exn_kind := [KArithmeticError; KTypeError; KValueError].
Definition _violations (values : list Decimal) (i : ContinuousTargetInputs) : res (list (Cap * xdecimal)) :=
  match cap_residuals values i with
  | Raise e => if caught risk_errors e then Raise (ValueError "risk validation failed") else Raise e
  | r => r
  end.

(** ** Repair *)

Definition _reduce_one (value increment : Decimal) : Decimal :=
  let magnitude := dec_abs value in
  if dec_leb magnitude increment then dec_zero
  else
    let result := dec_sub magnitude increment in
    if dec_ltb dec_zero value then result else dec_opp result.

Record candidate : Type := mkCandidate { cd_score : xdecimal * xdecimal; cd_index : nat; cd_trial : list Decimal }.

(** One position reduced by its increment; [acc] holds the candidates and [quantity_blocked]. *)
Definition try_reduction (i : ContinuousTargetInputs) (values : list Decimal) (acc : list candidate * bool)
    (x : nat * (Decimal * string)) : res (list candidate * bool) :=
  let '(candidates, quantity_blocked) := acc in
  let '(index, (value, asset)) := x in
  if dec_eqb value dec_zero then Ok acc
  else
    economics ← get (ti_economics i) asset;
    let reduced := _reduce_one value (pe_quantity_increment economics) in
    let trial := <[index := reduced]> values in
    if negb (_quantity_valid reduced economics) then Ok (candidates, true)
    else match _violations trial i with
         | Raise e => if caught [KValueError] e then Ok acc else Raise e
         | Ok trial_violations =>
             total ← xdec_sum (map snd trial_violations);
             let gross := Decimal_of_text (float_sum (map (λ d, f_abs (float_of_Decimal d)) trial)) in
             Ok (candidates ++ [mkCandidate (total, gross) index trial], quantity_blocked)
         end.

(** [a < b] on the keys [(score, index)]. *)
Definition xdec_eqb (a b : xdecimal) : bool := match xdec_cmp a b with Some Eq => true | _ => false end.
Definition better (a b : candidate) : res bool :=
  if negb (xdec_eqb (cd_score a).1 (cd_score b).1) then xdec_lt (cd_score a).1 (cd_score b).1
  else if negb (xdec_eqb (cd_score a).2 (cd_score b).2) then xdec_lt (cd_score a).2 (cd_score b).2
  else Ok (Nat.ltb (cd_index a) (cd_index b)).
Definition keep_best (best c : candidate) : res candidate :=
  smaller ← better c best; Ok (if smaller : bool then c else best).

Fixpoint repair_loop (i : ContinuousTargetInputs) (fuel : nat) (values : list Decimal) (repaired : bool)
    : M Reasons (list Decimal * bool) :=
  match fuel with
  | O => mret (values, repaired)
  | S fuel =>
      violations ← lift (_violations values i);
      match violations with
      | [] => mret (values, repaired)
      | _ =>
          update (map (λ v, cap_reason v.1) violations);;
          assets ← lift (beside values (ti_asset_order i));
          '(candidates, quantity_blocked) ← lift (for_each (try_reduction i values) ([], false) (imap pair assets));
          match candidates with
          | [] => add_if quantity_blocked "MINIMUM_QUANTITY_NOT_MET";; mret (values, repaired)
          | c :: candidates => best ← lift (for_each keep_best c candidates); repair_loop i fuel (cd_trial best) true
          end
      end
  end.
Definition _repair (values : list Decimal) (i : ContinuousTargetInputs) (p : RoundingPolicy) : M Reasons (list Decimal * bool) :=
  repair_loop i (Z.to_nat (rp_max_repair_steps p)) values false.

(** ** Attribution of the repaired change *)

Notation units := (gmap SleeveKey Z).

(** [d[k]] *)
Definition entry_of {A} (d : gmap SleeveKey A) (k : SleeveKey) : res A :=
  match d !! k with Some v => Ok v | None => Raise (KeyError "") end.

(** The whole units of a sleeve and the remainder of its share. *)
Definition share_units (total_units : Z) (total_weight : Decimal) (acc : units * gmap SleeveKey Decimal) (a : SleeveAttribution)
    : res (units * gmap SleeveKey Decimal) :=
  exact ← dec_div (dec_mul (dec_of_Z total_units) (dec_abs (sa_external_delta_share a))) total_weight;
  let base := dec_trunc exact in
  Ok (<[sa_key a := base]> acc.1, <[sa_key a := dec_sub exact (dec_of_Z base)]> acc.2).

(** [ranked[:n]] *)
Definition take_front {A} (n : Z) (l : list A) : list A :=
  take (Z.to_nat (if n <? 0 then Z.of_nat (length l) + n else n)) l.

(** [sorted(candidates, key=lambda item: (-remainders[item.key], item.key.canonical_tuple))] *)
Definition ranked_le (remainders : gmap SleeveKey Decimal) (a b : SleeveAttribution) : bool :=
  let remainder x := dec_opp (default dec_zero (remainders !! sa_key x)) in
  if dec_eqb (remainder a) (remainder b) then
    match pycmp (attribution_order a) (attribution_order b) with Gt => false | _ => true end
  else dec_ltb (remainder a) (remainder b).

Definition one_more (u : units) (a : SleeveAttribution) : res units :=
  base ← entry_of u (sa_key a); Ok (<[sa_key a := base + 1]> u).

(** The shares of [final], in whole increments by the largest remainders. *)
Definition allocate (candidates : list SleeveAttribution) (final increment direction : Decimal) : res (gmap SleeveKey Decimal) :=
  let total_weight := dec_sum (map (λ a, dec_abs (sa_external_delta_share a)) candidates) in
  quotient ← dec_div (dec_abs final) increment;
  let total_units := dec_trunc quotient in
  '(base_units, remainders) ← for_each (share_units total_units total_weight) (∅, ∅) candidates;
  let remaining := total_units - foldr Z.add 0 (map snd (map_to_list base_units)) in
  let ranked := sort_by (ranked_le remainders) candidates in
  base_units ← for_each one_more base_units (take_front remaining ranked);
  for_each (λ allocated a, base ← entry_of base_units (sa_key a);
              Ok (<[sa_key a := dec_mul (dec_mul direction increment) (dec_of_Z base)]> allocated)) ∅ candidates.

Definition RESIDUAL_REPAIRED : string := "ATTRIBUTION_RESIDUAL_REPAIRED".

(** The sleeves of one asset that moves by [final], and what no sleeve can carry. *)
Definition repaired_asset (economics : gmap string ProductEconomics) (x : AssetNetting * Decimal)
    : M Reasons (list RepairedSleeveAttribution * Decimal) :=
  let '(netted, final) := x in
  let original := an_attributions netted in
  if Nat.eqb (length original) 0 then mret ([], dec_abs final)
  else
    let parent_external := dec_sum (map sa_external_delta_share original) in
    let changed := negb (dec_eqb final parent_external) in
    '(allocated, residual) ← (if changed then
        add RESIDUAL_REPAIRED;;
        product ← lift (get economics (an_asset_id netted));
        let increment := pe_quantity_increment product in
        let direction := if dec_ltb dec_zero final then dec_one else dec_of_Z (-1) in
        let candidates := List.filter (λ a, dec_ltb dec_zero (dec_mul (sa_external_delta_share a) direction)) original in
        if dec_eqb final dec_zero then mret (∅, dec_zero)
        else if Nat.eqb (length candidates) 0 then mret (∅, dec_abs final)
        else allocated ← lift (allocate candidates final increment direction); mret (allocated, dec_zero)
      else mret (∅, dec_zero));
    attributions ← lift (traverse (λ a,
        let external := if changed then default dec_zero ((allocated : gmap SleeveKey Decimal) !! sa_key a)
                        else sa_external_delta_share a in
        RepairedSleeveAttribution_new (sa_key a) (sa_requested_delta a) (sa_internal_cross_quantity a) external
          (if changed then [RESIDUAL_REPAIRED] else []) (dec_sub external (sa_external_delta_share a))) original);
    mret (attributions, residual).

(** [residual += r] for every asset; an exact zero adds nothing. *)
Definition _repaired_attributions (netting : NettingResult) (final_delta : list Decimal) (economics : gmap string ProductEconomics)
    : M Reasons (list RepairedSleeveAttribution * Decimal) :=
  assets ← lift (beside (nr_assets netting) final_delta);
  parts ← for_eachM (repaired_asset economics) assets;
  let residual := dec_sum (map snd parts) in
  let ordered := py_sorted repaired_order (concat (map fst parts)) in
  let expected := dec_sum final_delta in
  let actual := dec_sum (map ra_external_delta_share ordered) in
  let residual := dec_add residual (dec_abs (dec_sub expected actual)) in
  add_if (negb (dec_eqb residual dec_zero)) RESIDUAL_REPAIRED;;
  mret (ordered, residual).

(** ** The boundary *)

Section boundary.
Variable target : ContinuousTarget.
Variable i : ContinuousTargetInputs.
Variable p : RoundingPolicy.

Definition _blocked : M Reasons RoundedTarget :=
  add "DECISION_BLOCKED";;
  decision_input_identity ← try_except [KKeyError; KTypeError; KValueError] (lift (decision_input_identity i))
                              (λ _, mret (ct_decision_input_identity target));
  reasons ← gets id;
  continuous_target_identity ← lift (target_semantic_identity target);
  lift (RoundedTarget_post_init (mkRounded (ti_source_class i) (ti_evidence_purpose i) (ti_asset_order i)
    (ti_current_position i) (ti_current_position i) [] [] RD_BLOCKED (order_reason_codes (elements reasons)) ∅
    dec_zero dec_zero (ti_netting i) [] (policy_semantic_identity p) decision_input_identity continuous_target_identity
    "" dec_zero [])).

(** [reasons.add(reason); return _blocked(...)] *)
Definition block (reason : string) : M Reasons RoundedTarget := add reason;; _blocked.
Definition block_early {A} (reason : string) : M Reasons (RoundedTarget + A) := r ← block reason; mret (inl r).

Definition economics_errors : list exn_kind := [KArithmeticError; KKeyError; KTypeError; KValueError].

(** Eligibility of one asset at a quantity, or the target that blocks it. *)
Definition eligible_at (x : string * Decimal) : M Reasons (RoundedTarget + ProductEconomics) :=
  let '(asset, quantity) := x in
  economics ← lift (get (ti_economics i) asset);
  eligible ← lift (eligibility economics (ti_decision_time i) (Some (dec_abs quantity)));
  if el_eligible eligible then mret (inr economics)
  else update (map _reason_for_input (el_reasons eligible));; block_early "ASSET_PAPER_INELIGIBLE".

(** The current position on the increments of each product, and whether it moved. *)
Fixpoint project_current (l : list (string * Decimal)) : M Reasons (RoundedTarget + (list Decimal * bool)) :=
  match l with
  | [] => mret (inr ([], false))
  | x :: l =>
      or_stop (eligible_at x) (λ economics,
        '(quantity, moved) ← (if _quantity_valid x.2 economics then mret (x.2, false)
          else rounded ← lift (round_quantity economics x.2);
               update ["CURRENT_POSITION_PROJECTED"; "QUANTITY_ROUNDED"];;
               add_if (dec_eqb rounded dec_zero) "MINIMUM_QUANTITY_NOT_MET";;
               mret (rounded, true));
        or_stop (project_current l) (λ rest, mret (inr (quantity :: rest.1, moved || rest.2))))
  end.

(** [abs(rounded) > abs(prior) or (prior != 0 and rounded != 0 and (prior > 0) != (rounded > 0))] *)
Definition enlarges_or_reverses (prior rounded : Decimal) : bool :=
  dec_ltb (dec_abs prior) (dec_abs rounded)
  || (negb (dec_eqb prior dec_zero) && negb (dec_eqb rounded dec_zero)
      && negb (Bool.eqb (dec_ltb dec_zero prior) (dec_ltb dec_zero rounded))).

(** One quantity of the target; [x] is its asset with the continuous value, the forecast
    and the projected position. *)
Definition round_value (x : string * (Decimal * (Decimal * Decimal))) : M Reasons (Decimal * bool) :=
  let '(asset, (continuous, (alpha, prior))) := x in
  economics ← lift (get (ti_economics i) asset);
  rounded ← lift (round_quantity economics continuous);
  add_if (negb (dec_eqb rounded continuous)) "QUANTITY_ROUNDED";;
  add_if (negb (dec_eqb continuous dec_zero) && dec_eqb rounded dec_zero) "MINIMUM_QUANTITY_NOT_MET";;
  if dec_eqb alpha dec_zero && enlarges_or_reverses prior rounded
  then update ["ZERO_FORECAST_NEW_EXPOSURE_BLOCKED"; "NEW_ALPHA_EXPOSURE_BLOCKED"];; mret (prior, true)
  else mret (rounded, false).

(** Repair, and the checks of its result. *)
Definition repair_and_check (values : list Decimal) : M Reasons (RoundedTarget + (list Decimal * bool)) :=
  '(values, repaired) ← _repair values i p;
  quantities ← lift (beside (ti_asset_order i) values);
  valid ← lift (traverse (λ x, economics ← get (ti_economics i) x.1; Ok (_quantity_valid x.2 economics)) quantities);
  if negb (forallb id valid) then block_early "MINIMUM_QUANTITY_NOT_MET"
  else
    violations ← lift (_violations values i);
    if negb (Nat.eqb (length violations) 0)
    then update (map (λ v, cap_reason v.1) violations);; block_early "DECISION_BLOCKED"
    else lift (validate_position (ti_risk i) (map float_of_Decimal values));; mret (inr (values, repaired)).

Fixpoint all_eligible (l : list (string * Decimal)) : M Reasons (RoundedTarget + unit) :=
  match l with
  | [] => mret (inr tt)
  | x :: l => or_stop (eligible_at x) (λ _, all_eligible l)
  end.

(** The cost of one asset; [x] is the asset with its quantities and its netting. *)
Definition rounded_cost (acc : gmap string ExpectedCostState * Decimal * Decimal)
    (x : string * (Decimal * (Decimal * AssetNetting))) : res (gmap string ExpectedCostState * Decimal * Decimal) :=
  let '(states, cost, financing) := acc in
  let '(asset, (current, (final, netted))) := x in
  model ← get (ti_continuous_costs i) asset;
  state ← model_evaluate model current final (ti_decision_time i) (an_internal_cross_quantity netted) None;
  raise_if (negb (complete state)) (ValueError "cost state is incomplete");;
  total ← require_total_reporting state;
  finance ← financing_amount state (ValueError "financing reporting amount is missing");
  Ok (<[asset := state]> states, dec_add cost (dec_sub total finance), dec_add financing finance).

Definition accepted : bool := bool_decide (ct_disposition target = ACCEPTED).

(** The costs of the final quantities and the target made of them. *)
Definition conclude (continuous current values : list Decimal) (projected : bool) (attributions : list RepairedSleeveAttribution)
    : M Reasons RoundedTarget :=
  netted ← lift (beside values (nr_assets (ti_netting i)));
  positions ← lift (beside current netted);
  assets ← lift (beside (ti_asset_order i) positions);
  '(states, cost, financing) ← lift (for_each rounded_cost (∅, dec_zero, dec_zero) assets);
  physical_delta ← lift (differences values current);
  reasons ← gets id;
  identity ← lift (decision_input_identity i);
  target_identity ← lift (target_semantic_identity target);
  lift (RoundedTarget_post_init (mkRounded (ti_source_class i) (ti_evidence_purpose i) (ti_asset_order i) current continuous
    values physical_delta (if projected then RD_PROJECTED else RD_ACCEPTED) (order_reason_codes (elements reasons)) states
    cost financing (ti_netting i) attributions (policy_semantic_identity p) identity target_identity
    (cost_states_identity states) dec_zero [])).

(** What follows once the current position is on the increments. *)
Definition round_from (continuous current : list Decimal) (moved : bool) : M Reasons RoundedTarget :=
  priors ← lift (beside (ti_alpha_return i) current);
  candidates ← lift (beside continuous priors);
  assets ← lift (beside (ti_asset_order i) candidates);
  rounded ← for_eachM round_value assets;
  let held := existsb snd rounded in
  add_if (negb accepted) "CURRENT_POSITION_PROJECTED";;
  or_return (try_except risk_errors (repair_and_check (map fst rounded)) (λ _, block_early "INPUT_RISK_INVALID"))
    (λ '(values, repaired),
  or_return (try_except economics_errors (l ← lift (beside (ti_asset_order i) values); all_eligible l)
               (λ _, block_early "INPUT_ECONOMICS_MISSING")) (λ _,
  or_return (try_except economics_errors
               (delta ← lift (differences values current);
                r ← _repaired_attributions (ti_netting i) delta (ti_economics i); mret (inr r))
               (λ _, add RESIDUAL_REPAIRED;; block_early "DECISION_BLOCKED")) (λ '(attributions, residual),
  if negb (dec_eqb residual dec_zero) then _blocked
  else conclude continuous current values (negb accepted || moved || held || repaired) attributions))).

(** The body of the outer [try]. *)
Definition round_valid : M Reasons RoundedTarget :=
  lift (raise_if (negb (bool_decide (ct_asset_order target = ti_asset_order i))) (ValueError "target and input asset order mismatch"));;
  lift (raise_if (negb (bool_decide (ct_source_class target = ti_source_class i))
                  || negb (bool_decide (ct_evidence_purpose target = ti_evidence_purpose i)))
    (ValueError "target and input source boundary mismatch"));;
  let continuous := if accepted && Nat.eqb (length (ct_target_position target)) (length (ti_asset_order i))
                    then ct_target_position target else ti_current_position i in
  or_return (try_except economics_errors (l ← lift (beside (ti_asset_order i) (ti_current_position i)); project_current l)
               (λ _, block_early "INPUT_ECONOMICS_MISSING")) (λ '(current, moved), round_from continuous current moved).

(** [str(exc)] of a key error is not looked at. *)
Definition input_failure (e : exn) : M Reasons RoundedTarget :=
  if caught [KKeyError] e then block "INPUT_ECONOMICS_MISSING"
  else block (if contains "FX" (upper (exn_msg e)) then "INPUT_FX_MISSING" else "INPUT_COST_INVALID").

Definition round_body : M Reasons RoundedTarget :=
  or_return (try_except [KKeyError; KTypeError; KValueError]
               (identity ← lift (decision_input_identity i);
                if negb (String.eqb (ct_decision_input_identity target) identity) then block_early "DECISION_BLOCKED"
                else mret (inr tt))
               (λ _, block_early "INPUT_ECONOMICS_MISSING")) (λ _,
  reasons ← gets id;
  if bool_decide ("DECISION_BLOCKED" ∈ reasons) then _blocked
  else try_except (KKeyError :: solver_errors) round_valid input_failure).

Definition round_and_repair_target : res RoundedTarget :=
  (round_body (list_to_set (map _normalise_reason (ct_reason_codes target)))).2.
End boundary.

(** ** Rounding is monotonic *)

(** The exact absolute value. *)
Definition mag (d : Decimal) : Decimal := Dec false (dec_coeff d) (dec_exp d).
Definition fits (d : Decimal) : Prop := dec_wf d ∧ dec_coeff d < 10 ^ prec.

Lemma nearest_multiple P X Y M q : 0 < P → Y = P * q → 2 * Y <= 2 * X + P → 2 * X - P <= 2 * Y → 10 ^ 27 * P <= X →
  (∃ j, M = P * j) ∨ M < 10 ^ 27 * P → (X <= M → Y <= M) ∧ (M <= X → M <= Y).
Proof.
  intros HP -> Hup Hlow HX [[j ->]|HM].
  - split; intros H; [assert (q <= j)|assert (j <= q)]; nia.
  - split; intros H; [nia|]. assert (10 ^ 27 <= q); nia.
Qed.

Lemma fix_bounds c e m : 0 <= c → fits m → dec_neg m = false →
  (dec_leb (Dec false c e) m = true → dec_leb (dec_fix false c e) m = true) ∧
  (dec_leb m (Dec false c e) = true → dec_leb m (dec_fix false c e) = true).
Proof.
  intros Hc [Wm Cm] Nm. destruct (dec_fix_cases false c e Hc) as [->|(k & c2 & e2 & Hk & Hlow & -> & Hc2 & He2 & Hup & Hdown)]; [done|].
  set (f := Z.min e (dec_exp m)).
  rewrite !(dec_leb_at f _ m), !(dec_leb_at f m) by (cbn [dec_exp]; lia). rewrite !Z.leb_le.
  set (P := 10 ^ (e + k - f)). set (g := 10 ^ (e - f)).
  assert (0 < g) as Hg by (apply pow10_pos; lia). assert (P = 10 ^ k * g) as HPg by (unfold P, g; rewrite <- Z.pow_add_r by lia; f_equal; lia).
  assert (0 < 10 ^ k) as Hpk by (apply pow10_pos; lia).
  assert (scaled f (Dec false c e) = c * g) as -> by done.
  assert (scaled f (Dec false c2 e2) = P * (c2 * 10 ^ (e2 - (e + k)))) as Hy.
  { unfold scaled, dec_signed. cbn [dec_neg dec_coeff dec_exp]. unfold P.
    rewrite (Z.mul_comm (10 ^ _)), <- Z.mul_assoc, <- Z.pow_add_r by lia. do 2 f_equal. lia. }
  pose proof (Z.mul_div_le (10 ^ k) 2 ltac:(lia)) as Hhalf.
  apply (nearest_multiple P _ _ _ (c2 * 10 ^ (e2 - (e + k)))); [nia|done|rewrite Hy; nia|rewrite Hy; nia| |].
  - replace (10 ^ 27 * P) with (10 ^ (prec + k - 1) * g); [nia|]. rewrite HPg, Z.mul_assoc, <- Z.pow_add_r by lia. do 2 f_equal. unfold prec. lia.
  - destruct (Z.le_gt_cases (e + k) (dec_exp m)) as [Hm|Hm].
    + left. exists (dec_signed m * 10 ^ (dec_exp m - (e + k))). unfold scaled, P.
      rewrite (Z.mul_comm (10 ^ _)), <- Z.mul_assoc, <- Z.pow_add_r by lia. do 2 f_equal. lia.
    + right. unfold scaled, dec_signed. rewrite Nm. eapply Z.lt_le_trans with (10 ^ prec * 10 ^ (dec_exp m - f)).
      { apply Z.mul_lt_mono_pos_r; [apply pow10_pos; lia|done]. }
      unfold P. rewrite <- !Z.pow_add_r by (unfold prec; lia). apply Z.pow_le_mono_r; unfold prec; lia.
Qed.

Lemma fix_fits neg c e : 0 <= c → fits (dec_fix neg c e).
Proof. intros H. split; [by apply dec_fix_wf|by apply dec_fix_small]. Qed.

Lemma leb_antisym a b : dec_leb a b = true → dec_leb b a = true → dec_eqb a b = true.
Proof.
  set (e := Z.min (dec_exp a) (dec_exp b)). rewrite (dec_leb_at e a), (dec_leb_at e b), (dec_eqb_at e) by lia. lia.
Qed.
Lemma eqb_leb a b : dec_eqb a b = true → dec_leb a b = true ∧ dec_leb b a = true.
Proof.
  set (e := Z.min (dec_exp a) (dec_exp b)). rewrite (dec_leb_at e a), (dec_leb_at e b), (dec_eqb_at e) by lia. lia.
Qed.

(** A decimal equal in value to one of the context; its [abs] is exact. *)
Definition representable (d : Decimal) : Prop := dec_wf d ∧ ∃ m, fits m ∧ dec_neg m = false ∧ dec_eqb m (mag d) = true.

Lemma fits_representable d : fits d → representable d.
Proof. intros [W C]. split; [done|]. exists (mag d). split; [done|]. split; [done|]. apply dec_eqb_refl. Qed.

Lemma abs_exact d : representable d → dec_eqb (dec_abs d) (mag d) = true ∧ fits (dec_abs d).
Proof.
  intros [W (m & Hm & Nm & [H1 H2]%eqb_leb)]. unfold dec_wf in W. split; [|by apply fix_fits].
  destruct (fix_bounds (dec_coeff d) (dec_exp d) m W Hm Nm) as [Hl Hg].
  apply leb_antisym; unfold dec_abs.
  - eapply dec_leb_trans; [apply Hl, H2|done].
  - eapply dec_leb_trans; [exact H2|apply Hg, H1].
Qed.

(** Being equal in value to a representable decimal. *)
Lemma scaled_mag e d : dec_wf d → e <= dec_exp d → scaled e (mag d) = Z.abs (scaled e d).
Proof.
  unfold dec_wf. intros W He. unfold scaled, mag, dec_signed. cbn [dec_neg dec_coeff dec_exp].
  pose proof (pow10_pos (dec_exp d - e) ltac:(lia)). rewrite Z.abs_mul. destruct (dec_neg d); nia.
Qed.

Lemma equal_representable r d : fits r → dec_wf d → dec_eqb r d = true → representable d.
Proof.
  intros [Wr Cr] Wd H. split; [done|]. exists (mag r). split; [done|]. split; [done|].
  set (e := Z.min (dec_exp r) (dec_exp d)). rewrite (dec_eqb_at e) in H by lia. rewrite (dec_eqb_at e) by (cbn; lia).
  rewrite !scaled_mag by (done || lia). lia.
Qed.

(** ** Staying within a position *)

(** [v] lies between zero and [prior]. *)
Definition within (prior v : Decimal) : Prop :=
  dec_leb (mag v) (mag prior) = true ∧ (dec_coeff v = 0 ∨ dec_neg v = dec_neg prior).

Lemma within_refl v : within v v.
Proof. split; [apply dec_leb_refl|by right]. Qed.

Lemma mag_zero v : dec_wf v → dec_leb (mag v) dec_zero = true → dec_coeff v = 0.
Proof.
  unfold dec_wf. intros W. rewrite dec_leb_zero. unfold dec_signed. cbn. lia.
Qed.

Lemma within_trans a b c : dec_wf b → dec_wf c → within a b → within b c → within a c.
Proof.
  intros Wb Wc [H1 S1] [H2 S2]. split; [by eapply dec_leb_trans|]. destruct S2 as [|S2]; [by left|]. destruct S1 as [Hb|S1]; [|right; congruence].
  left. apply mag_zero; [done|]. eapply dec_leb_trans; [exact H2|]. rewrite dec_leb_zero. unfold dec_signed. cbn. lia.
Qed.

Lemma dec_eqb_zero v : dec_wf v → dec_eqb v dec_zero = (dec_coeff v =? 0).
Proof.
  unfold dec_wf. intros W. set (e := Z.min (dec_exp v) 0). rewrite (dec_eqb_at e) by (cbn; lia).
  change (scaled e dec_zero) with 0. pose proof (pow10_pos (dec_exp v - e) ltac:(lia)). unfold scaled, dec_signed.
  destruct (dec_neg v); destruct (Z.eqb_spec (dec_coeff v) 0) as [->|]; try lia; apply Z.eqb_neq; nia.
Qed.
Lemma dec_positive_test v : dec_wf v → dec_ltb dec_zero v = negb (dec_coeff v =? 0) && negb (dec_neg v).
Proof.
  unfold dec_wf. intros W. rewrite dec_ltb_leb, dec_leb_zero. unfold dec_signed.
  destruct (dec_neg v), (Z.eqb_spec (dec_coeff v) 0); cbn [negb andb]; rewrite ?negb_true_iff, ?negb_false_iff; lia.
Qed.

Lemma dec_eqb_sym_leb a b c : dec_eqb a b = true → dec_leb a c = dec_leb b c ∧ dec_leb c a = dec_leb c b.
Proof.
  intros [H1 H2]%eqb_leb. split; apply eq_true_iff_eq; split; intros H; by (eapply dec_leb_trans; [|eassumption]) || by (eapply dec_leb_trans; [eassumption|]).
Qed.

Lemma unrounded_within prior v : representable prior → representable v → enlarges_or_reverses prior v = false → within prior v.
Proof.
  intros Rp Rv. unfold enlarges_or_reverses. intros [Hl Hs]%orb_false_iff.
  destruct (abs_exact prior Rp) as [Ep _], (abs_exact v Rv) as [Ev _]. destruct Rp as [Wp _], Rv as [Wv _].
  rewrite dec_ltb_leb, negb_false_iff in Hl.
  assert (dec_leb (mag v) (mag prior) = true) as Hm.
  { destruct (dec_eqb_sym_leb _ _ (mag prior) Ev) as [<- _]. by destruct (dec_eqb_sym_leb _ _ (dec_abs v) Ep) as [_ <-]. }
  split; [done|]. rewrite !dec_eqb_zero, !dec_positive_test in Hs by done.
  destruct (Z.eqb_spec (dec_coeff v) 0) as [|Hv]; [by left|]. destruct (Z.eqb_spec (dec_coeff prior) 0) as [Hp|Hp].
  - left. apply mag_zero; [done|]. eapply dec_leb_trans; [exact Hm|]. rewrite dec_leb_zero. unfold dec_signed. cbn. lia.
  - right. cbn in Hs. by destruct (dec_neg prior), (dec_neg v).
Qed.

Lemma reduce_within v increment : representable v → dec_wf increment → dec_leb increment dec_zero = false → dec_eqb v dec_zero = false →
  within v (_reduce_one v increment) ∧ fits (_reduce_one v increment).
Proof.
  intros Rv Wi Pi Hv. destruct (abs_exact v Rv) as [Ea Fa]. destruct Rv as [Wv _]. unfold _reduce_one.
  destruct (dec_leb (dec_abs v) increment) eqn:El.
  { split; [|split; [done|reflexivity]]. split; [|by left]. cbn [dec_coeff dec_exp mag dec_zero].
    rewrite (dec_leb_at (Z.min 0 (dec_exp v))) by (cbn; lia). rewrite (scaled_mag _ v) by (done || lia).
    change (scaled _ (mag dec_zero)) with 0. apply Z.leb_le. lia. }
  set (m := dec_abs v) in *. set (e := Z.min (dec_exp m) (dec_exp increment)).
  assert (0 < scaled e m - scaled e increment) as Hpos by (rewrite (dec_leb_at e) in El by lia; lia).
  assert (0 < scaled e increment) as Hi.
  { rewrite dec_leb_zero in Pi. apply scaled_pos_iff; lia. }
  assert (dec_sub m increment = dec_fix false (scaled e m - scaled e increment) e) as Hsub.
  { unfold dec_sub, dec_add. cbn [dec_exp dec_copy_negate]. fold e. rewrite scaled_negate, Z.add_opp_r.
    rewrite (proj2 (Z.eqb_neq _ _)) by lia. rewrite (proj2 (Z.ltb_ge _ _)), Z.abs_eq by lia. done. }
  rewrite Hsub. set (d := scaled e m - scaled e increment) in *.
  assert (dec_leb (dec_fix false d e) m = true) as Hle.
  { apply (fix_bounds d e m ltac:(lia) Fa (dec_fix_neg _ _ _)). rewrite (dec_leb_at e) by (cbn [dec_exp]; lia).
    apply Z.leb_le. unfold scaled at 1, dec_signed. cbn [dec_neg dec_coeff dec_exp]. rewrite Z.sub_diag, Z.mul_1_r. lia. }
  assert (dec_leb (mag (dec_fix false d e)) (mag v) = true) as Hm.
  { destruct (dec_eqb_sym_leb _ _ (mag (dec_fix false d e)) Ea) as [_ <-]. revert Hle.
    pose proof (dec_fix_neg false d e) as Hn. by destruct (dec_fix false d e) as [[] c' e']. }
  pose proof (fix_fits false d e ltac:(lia)) as [Wf Cf]. pose proof (dec_fix_pos false d e ltac:(lia)) as Pf.
  rewrite dec_eqb_zero in Hv by done. rewrite dec_positive_test, Hv by done. cbn [negb andb].
  destruct (dec_neg v) eqn:Nv; cbn [negb].
  - unfold dec_opp. unfold dec_wf in Wf. rewrite dec_fix_exact by lia. rewrite (proj2 (Z.eqb_neq _ _)), dec_fix_neg by lia.
    split; [|split; [done|exact Cf]]. split; [exact Hm|]. right. by rewrite Nv.
  - split; [|by split]. split; [exact Hm|]. right. by rewrite dec_fix_neg.
Qed.

(** ** Reasoning about the boundary *)

Definition known (s : Reasons) : Prop := ∀ c, c ∈ s → is_reason_code c = true.

(** From known reasons, [m] reaches known reasons, and raises only exceptions of [kinds]
    or returns a value that satisfies [Q]. *)
Definition safe {A} (kinds : list exn_kind) (m : M Reasons A) (Q : A → Prop) : Prop := ∀ s, known s →
  known (m s).1 ∧ match (m s).2 with Ok a => Q a | Raise e => exn_class e ∈ kinds end.

Lemma known_union s s' : known s → known s' → known (s ∪ s').
Proof. intros H H' c [Hc|Hc]%elem_of_union; auto. Qed.

Section safety.
Context {A B : Type} (kinds : list exn_kind).

Lemma safe_ret (a : A) (Q : A → Prop) : Q a → safe kinds (mret a) Q.
Proof. intros HQ s Hs. by split. Qed.
Lemma safe_bind (m : M Reasons A) (f : A → M Reasons B) (P : A → Prop) (Q : B → Prop) :
  safe kinds m P → (∀ a, P a → safe kinds (f a) Q) → safe kinds (m ≫= f) Q.
Proof.
  intros Hm Hf s Hs. destruct (Hm s Hs) as [H1 H2]. unfold mbind, M_bind. destruct (m s) as [s' [a|e]]; [|done].
  by apply (Hf a H2).
Qed.
Lemma safe_lift (r : res A) (Q : A → Prop) : raises_in kinds r → (∀ a, r = Ok a → Q a) → safe kinds (lift r) Q.
Proof. intros Hr HQ s Hs. split; [done|]. cbn. destruct r as [a|e]; [by apply HQ|by apply Hr]. Qed.
Lemma safe_mono (m : M Reasons A) (P Q : A → Prop) : safe kinds m P → (∀ a, P a → Q a) → safe kinds m Q.
Proof. intros Hm HPQ s Hs. destruct (Hm s Hs) as [H1 H2]. split; [done|]. destruct (m s).2; auto. Qed.
Lemma safe_kinds (kinds' : list exn_kind) (m : M Reasons A) (Q : A → Prop) : kinds' ⊆ kinds → safe kinds' m Q → safe kinds m Q.
Proof. intros Hk Hm s Hs. destruct (Hm s Hs) as [H1 H2]. split; [done|]. destruct (m s).2; auto. Qed.
Lemma safe_reasons (k : Reasons → M Reasons A) (Q : A → Prop) : (∀ r, safe kinds (k r) Q) → safe kinds (r ← gets id; k r) Q.
Proof. intros H s Hs. by apply H. Qed.

Lemma safe_value (a : A) (f : A → M Reasons B) (Q : B → Prop) : safe kinds (f a) Q → safe kinds (lift (Ok a) ≫= f) Q.
Proof. done. Qed.

(** A handler for every exception the block can raise. *)
Lemma safe_try (kinds' : list exn_kind) (m : M Reasons A) (h : exn → M Reasons A) (Q : A → Prop) :
  safe kinds' m Q → (∀ e, safe kinds (h e) Q) → safe kinds (try_except kinds' m h) Q.
Proof.
  intros Hm Hh s Hs. destruct (Hm s Hs) as [H1 H2]. unfold try_except. destruct (m s) as [s' [a|e]]; [done|].
  unfold caught. rewrite bool_decide_eq_true_2 by exact H2. by apply Hh.
Qed.
End safety.

Lemma safe_or_return {A B} kinds (m : M Reasons (B + A)) (k : A → M Reasons B) (P : A → Prop) (Q : B → Prop) :
  safe kinds m (λ x, match x with inl r => Q r | inr a => P a end) → (∀ a, P a → safe kinds (k a) Q) → safe kinds (or_return m k) Q.
Proof. intros Hm Hk. unfold or_return. eapply safe_bind; [exact Hm|]. intros [r|a] H; [by apply safe_ret|by apply Hk]. Qed.

Lemma safe_or_stop {A B C} kinds (m : M Reasons (B + A)) (k : A → M Reasons (B + C)) (P : A → Prop) (R : B → Prop) (Q : C → Prop) :
  safe kinds m (λ x, match x with inl r => R r | inr a => P a end) →
  (∀ a, P a → safe kinds (k a) (λ x, match x with inl r => R r | inr c => Q c end)) →
  safe kinds (or_stop m k) (λ x, match x with inl r => R r | inr c => Q c end).
Proof. intros Hm Hk. unfold or_stop. eapply safe_bind; [exact Hm|]. intros [r|a] H; [by apply safe_ret|by apply Hk]. Qed.

Lemma safe_update kinds codes : forallb is_reason_code codes = true → safe kinds (update codes) (λ _, True).
Proof.
  intros H s Hs. split; [|done]. apply known_union; [|done]. intros c Hc%elem_of_list_to_set%list_elem_of_In.
  by eapply forallb_forall in H.
Qed.
Lemma safe_add kinds code : is_reason_code code = true → safe kinds (add code) (λ _, True).
Proof. intros H s Hs. split; [|done]. apply known_union; [|done]. by intros c ->%elem_of_singleton. Qed.
Lemma safe_add_if kinds b code : is_reason_code code = true → safe kinds (add_if b code) (λ _, True).
Proof. intros H. destruct b; [by apply safe_add|by apply safe_ret]. Qed.

Lemma safe_for_eachM {A B} kinds (f : A → M Reasons B) (P : A → B → Prop) l :
  (∀ x, x ∈ l → safe kinds (f x) (P x)) → safe kinds (for_eachM f l) (Forall2 P l).
Proof.
  induction l as [|x l IH]; intros H; [by apply safe_ret; constructor|]. cbn.
  eapply safe_bind; [apply H; set_solver|]. intros y Hy. eapply safe_bind; [apply IH; intros z Hz; apply H; set_solver|].
  intros ys Hys. apply safe_ret. by constructor.
Qed.

(** ** Reasons *)

Lemma unique_elem x l : ∀ seen, x ∈ unique seen l ↔ x ∈ l ∧ x ∉ seen.
Proof.
  induction l as [|y l IH]; intros seen; cbn; [set_solver|]. destruct (bool_decide (y ∈ seen)) eqn:E.
  - apply bool_decide_eq_true in E. rewrite IH. set_solver.
  - apply bool_decide_eq_false in E. rewrite elem_of_cons, IH. destruct (decide (x = y)); set_solver.
Qed.
Lemma order_elem x l : x ∈ order_reason_codes l ↔ x ∈ l.
Proof. unfold order_reason_codes. rewrite py_sorted_perm, unique_elem. set_solver. Qed.

Lemma known_codes s l : known s → (∀ x, x ∈ l → x ∈ s) → forallb is_reason_code (order_reason_codes l) = true.
Proof. intros Hs Hl. apply forallb_forall. intros x Hx. apply list_elem_of_In in Hx. apply (proj1 (order_elem x l)) in Hx. exact (Hs x (Hl x Hx)). Qed.

Lemma normalised_known reason : is_reason_code (_normalise_reason reason) = true.
Proof.
  unfold _normalise_reason. destruct (List.find _ _) as [kv|] eqn:E; [|by destruct (is_reason_code (upper reason)) eqn:Er].
  apply find_some in E as [Hin _]. cbn in Hin. by repeat (destruct Hin as [<-|Hin]; [reflexivity|]).
Qed.
Lemma input_reason_known reason : is_reason_code (_reason_for_input reason) = true.
Proof. unfold _reason_for_input. by repeat case_match. Qed.

(** ** Valid arguments *)

(** The inputs and the target as their constructors accept them, with the states and
    products that they hold. *)
Record valid_rounding (target : ContinuousTarget) (i : ContinuousTargetInputs) : Prop := {
  vr_inputs : valid_inputs i;
  vr_target : ContinuousTarget_post_init target = Ok tt;
  vr_times : ∀ asset st, ct_expected_costs target !! asset = Some st → is_utc (es_decision_time st);
  vr_products : ∀ asset e, ti_economics i !! asset = Some e →
    ProductEconomics_post_init e = Ok tt ∧ dec_wf (pe_quantity_increment e);
  vr_decimals : Forall dec_wf (ti_current_position i) }.

Lemma target_identities target : ContinuousTarget_post_init target = Ok tt →
  is_utc (ct_decision_time target) ∧ is_sha256 (ct_decision_input_identity target) = true.
Proof.
  intros H. unfold ContinuousTarget_post_init in H. cbv zeta in H. do 2 (apply bind_Ok in H as (? & _ & H)).
  apply bind_Ok in H as (? & Hu & H). apply require_utc_Ok in Hu as [Hu _]. do 2 (apply bind_Ok in H as (? & _ & H)).
  apply bind_Ok in H as (? & Hi & _). split; [done|]. unfold _require_identity in Hi. by apply raise_if_Ok, negb_false_iff in Hi.
Qed.

Lemma target_json_total target : ContinuousTarget_post_init target = Ok tt →
  (∀ asset st, ct_expected_costs target !! asset = Some st → is_utc (es_decision_time st)) →
  ∃ identity, target_semantic_identity target = Ok identity ∧ is_sha256 identity = true.
Proof.
  intros [Hu _]%target_identities Ht. unfold target_semantic_identity, target_json, utc_json.
  rewrite (require_utc_is_utc _ _ Hu). cbn [mbind res_bind].
  destruct (traverse_returns (λ kv : string * ExpectedCostState, payload ← Target._cost_state_payload kv.2; Ok (JList [JStr kv.1; payload]))
    (listed (ct_asset_order target) (ct_expected_costs target))) as [costs ->].
  - intros [asset st] Hin. unfold listed in Hin. apply list_elem_of_omap in Hin as (a & _ & Hst).
    destruct (ct_expected_costs target !! a) as [st'|] eqn:E; [|discriminate]. injection Hst as -> ->.
    unfold Target._cost_state_payload, utc_json. rewrite (require_utc_is_utc _ _ (Ht _ _ E)). by eexists.
  - cbn. eexists. split; [done|]. apply is_sha_identity.
Qed.

(** ** Blocking *)

Section blocking.
Context (target : ContinuousTarget) (i : ContinuousTargetInputs) (p : RoundingPolicy) (V : valid_rounding target i).
Let F : input_facts i := inputs_valid i (vr_inputs _ _ V).

(** Nothing is carried out, and the reasons say so. *)
Record blocked_rounding (r : RoundedTarget) : Prop := {
  br_disposition : rt_disposition r = RD_BLOCKED;
  br_output : rt_target_position r = [] ∧ rt_physical_delta r = [] ∧ rt_attributions r = [] ∧ rt_expected_costs r = ∅;
  br_reasons : "DECISION_BLOCKED" ∈ rt_reason_codes r;
  br_known : forallb is_reason_code (rt_reason_codes r) = true }.

Lemma order_checks : bool_decide (ti_asset_order i = []) || negb (bool_decide (py_sorted id (ti_asset_order i) = ti_asset_order i))
  || has_duplicates (ti_asset_order i) = false.
Proof using F.
  rewrite bool_decide_eq_false_2 by apply (if_nonempty i F). rewrite bool_decide_eq_true_2 by apply (if_sorted i F).
  cbn. apply has_duplicates_false, (if_distinct i F).
Qed.

Lemma safe_blocked : safe [] (_blocked target i p) blocked_rounding.
Proof using V.
  intros s Hs. unfold _blocked.
  destruct (identity_total i (vr_inputs _ _ V)) as (identity & Hid & Hsha).
  destruct (target_json_total target (vr_target _ _ V) (vr_times _ _ V)) as (tid & Htid & Htsha).
  unfold mbind, M_bind, add, modify, try_except, lift, gets. rewrite Hid, Htid. cbn [id].
  set (s' := {["DECISION_BLOCKED"]} ∪ s).
  assert (known s') as Hk by (apply known_union; [by intros c ->%elem_of_singleton|done]). cbn [fst snd]. split; [done|].
  set (codes := order_reason_codes (elements s')).
  assert (forallb is_reason_code (order_reason_codes codes) = true) as Hcodes.
  { apply (known_codes s'); [done|]. intros x Hx. unfold codes in Hx. by apply (proj1 (order_elem _ _)), elem_of_elements in Hx. }
  assert ("DECISION_BLOCKED" ∈ order_reason_codes codes) as Hdb.
  { apply order_elem. unfold codes. apply order_elem, elem_of_elements. set_solver. }
  unfold RoundedTarget_post_init. cbv zeta. unfold is_blocked, no_output, ordered_reasons.
  cbn [rt_asset_order rt_disposition rt_target_position rt_physical_delta rt_netting rt_attributions rt_reason_codes
    rt_horizon_state_identities rt_attribution_residual rt_policy_identity rt_decision_input_identity
    rt_continuous_target_identity rt_expected_costs rt_expected_cost_reporting rt_expected_financing_reporting map].
  rewrite order_checks. rewrite (bool_decide_eq_true_2 (RD_BLOCKED = RD_BLOCKED)) by done.
  rewrite (bool_decide_eq_true_2 (asset_order (ti_netting i) = ti_asset_order i)) by apply (if_netting_order i F).
  rewrite Hcodes. cbn [for_each fst snd]. unfold policy_semantic_identity, rounding_identity, sha256_json.
  rewrite sha256_hex_is_sha256, Hsha, Htsha.
  rewrite (bool_decide_eq_false_2 (order_reason_codes codes = [])) by (intros E; rewrite E in Hdb; set_solver).
  rewrite (bool_decide_eq_true_2 ((∅ : gmap string ExpectedCostState) = ∅)) by done.
  cbn. constructor; done.
Qed.

Lemma safe_block kinds reason : is_reason_code reason = true → safe kinds (block target i p reason) blocked_rounding.
Proof using V.
  intros H. eapply safe_bind; [by apply safe_add|]. intros _ _. eapply safe_kinds, safe_blocked. set_solver.
Qed.

(** Early returns: a blocked target, or a value that satisfies [Q]. *)
Definition settled {A} (Q : A → Prop) (x : RoundedTarget + A) : Prop := match x with inl r => blocked_rounding r | inr a => Q a end.

Lemma safe_block_early {A} kinds reason (Q : A → Prop) : is_reason_code reason = true →
  safe kinds (block_early target i p reason) (settled Q).
Proof using V. intros H. eapply safe_bind; [by apply safe_block|]. intros r Hr. by apply safe_ret. Qed.
End blocking.

(** ** Which exceptions the parts raise *)

Lemma round_quantity_raises e q : raises_in data_errors (round_quantity e q).
Proof.
  unfold round_quantity. destruct (dec_eqb q dec_zero); [apply raises_Ok|]. cbv zeta.
  apply raises_bind; [apply dec_div_raises|]. intros ratio _. unfold data_errors. raises.
Qed.

Lemma round_quantity_fits e q r : dec_wf (pe_quantity_increment e) → round_quantity e q = Ok r → fits r.
Proof.
  intros W. unfold round_quantity. destruct (dec_eqb q dec_zero); [by intros [= <-]|]. cbv zeta.
  intros H. apply bind_Ok in H as (ratio & _ & H). set (m := dec_mul _ _) in *.
  assert (fits m) as Hm by (apply fix_fits; unfold dec_wf in W; cbn; lia).
  destruct (dec_ltb m _); injection H as <-; [done|]. destruct (dec_ltb dec_zero q); [done|].
  destruct Hm as [Wm _]. by apply fix_fits.
Qed.

Lemma valid_representable e q : dec_wf (pe_quantity_increment e) → dec_wf q → _quantity_valid q e = true → representable q.
Proof.
  intros We Wq. unfold _quantity_valid. destruct (round_quantity e q) as [r|] eqn:E; [|discriminate].
  apply equal_representable; [by eapply round_quantity_fits|done].
Qed.

Lemma eligibility_raises e t q : raises_in data_errors (eligibility e t q).
Proof.
  unfold eligibility. apply raises_bind; [apply require_utc_raises|]. intros _ _.
  apply raises_bind; [unfold when_some, _require_nonnegative, data_errors; raises|]. intros _ _.
  assert (∀ l c, raises_in data_errors (conversion_reason t l c)) as Hc.
  { intros l [[a b] fx]. unfold conversion_reason. destruct (String.eqb a b); [apply raises_Ok|]. destruct fx as [x|]; [|apply raises_Ok].
    apply raises_bind; [|intros; apply raises_Ok]. unfold covers, _require_currency, is_current.
    unfold data_errors; raises; apply require_utc_raises. }
  apply raises_bind; [apply Hc|]. intros l1 _. apply raises_bind; [apply Hc|]. intros l2 _. cbv zeta.
  unfold Eligibility_new, data_errors. raises.
Qed.

Lemma excess_raises l caps : raises_in data_errors (largest_excess l caps).
Proof. unfold largest_excess. apply raises_bind; [apply zip_raises|]. intros; apply raises_Ok. Qed.

Lemma xdec_lt_raises a b : raises_in data_errors (xdec_lt a b).
Proof. unfold xdec_lt, invalid_operation, data_errors. raises. Qed.

Lemma position_raises s v : raises_in data_errors (_position s v).
Proof. unfold _position, data_errors. raises. Qed.

Lemma portfolio_risk_raises s v : raises_in data_errors (portfolio_risk s v).
Proof. unfold portfolio_risk, portfolio_variance, finite_or, data_errors. raises; apply position_raises. Qed.

Lemma exposure_raises label m s v : raises_in data_errors (exposure label m s v).
Proof. unfold exposure, data_errors. raises. apply position_raises. Qed.

Lemma cap_residuals_raises values i : raises_in data_errors (cap_residuals values i).
Proof.
  unfold cap_residuals. cbv zeta. apply raises_bind; [apply excess_raises|]. intros a _.
  apply raises_bind; [apply exposure_raises|]. intros g _. apply raises_bind; [apply exposure_raises|]. intros c _.
  apply raises_bind; [apply excess_raises|]. intros ge _. apply raises_bind; [apply excess_raises|]. intros ce _.
  apply raises_bind; [apply portfolio_risk_raises|]. intros r _. apply raises_for_each. intros acc x _.
  unfold keep_positive. apply raises_bind; [apply xdec_lt_raises|]. intros; apply raises_Ok.
Qed.

Lemma violations_raises values i : raises_in [KValueError] (_violations values i).
Proof.
  unfold _violations. destruct (cap_residuals values i) as [l|e] eqn:E; [apply raises_Ok|].
  apply cap_residuals_raises in E. unfold caught. rewrite bool_decide_eq_true_2; [apply raises_Raise; cbn; set_solver|].
  unfold data_errors, risk_errors in *. set_solver.
Qed.

Lemma exceeds_raises tol values : ∀ caps, raises_in data_errors (exceeds tol values caps).
Proof.
  unfold data_errors. induction values as [|x l IH]; intros [|c caps]; cbn; raises. apply IH.
Qed.

Lemma validate_raises s v : raises_in data_errors (validate_position s v).
Proof.
  unfold validate_position, gross_exposure, net_exposure, concentration, finite_or, group_exposure, currency_exposure. cbv zeta.
  repeat first
    [apply raises_Ok | apply position_raises | apply exceeds_raises | apply exposure_raises | apply portfolio_risk_raises
    |apply raises_if; cbn; unfold data_errors; set_solver | apply raises_bind; [|intros]].
Qed.

Lemma beside_zip {A B} (m : list A) : ∀ l : list B, (length m <= length l)%nat → beside m l = Ok (zip m l).
Proof.
  induction m as [|x m IH]; intros [|y l] H; cbn in *; try done; [lia|]. by rewrite IH by lia.
Qed.

(** ** Rounding and repair *)

Section parts.
Context (target : ContinuousTarget) (i : ContinuousTargetInputs) (p : RoundingPolicy) (V : valid_rounding target i).
Let F : input_facts i := inputs_valid i (vr_inputs _ _ V).

(** The product of an asset, eligible to be held at a quantity. *)
Definition eligible_product (x : string * Decimal) (e : ProductEconomics) : Prop :=
  ti_economics i !! x.1 = Some e ∧
  ∃ el, eligibility e (ti_decision_time i) (Some (dec_abs x.2)) = Ok el ∧ el_eligible el = true.

Lemma product_of asset : asset ∈ ti_asset_order i → ∃ e, get (ti_economics i) asset = Ok e ∧ ti_economics i !! asset = Some e ∧
  dec_wf (pe_quantity_increment e) ∧ dec_leb (pe_quantity_increment e) dec_zero = false.
Proof using V.
  intros Hin. destruct (if_assets i F asset Hin) as (e & m & A). pose proof (af_economics _ _ _ _ A) as He.
  exists e. split; [by apply get_Ok|]. split; [done|]. destruct (vr_products _ _ V _ _ He) as [Hp Hw]. split; [done|].
  apply product_post_init in Hp. apply Hp.
Qed.

Lemma safe_eligible x : x.1 ∈ ti_asset_order i → safe data_errors (eligible_at target i p x) (settled (eligible_product x)).
Proof using V.
  destruct x as [asset q]. cbn [fst]. intros Hin. unfold eligible_at. destruct (product_of asset Hin) as (e & -> & He & _).
  apply safe_value.
  eapply safe_bind; [apply (safe_lift _ _ (λ el, eligibility e (ti_decision_time i) (Some (dec_abs q)) = Ok el)); [apply eligibility_raises|done]|].
  intros el Hel. destruct (el_eligible el) eqn:E; [apply safe_ret; split; [done|by exists el]|].
  eapply safe_bind; [apply safe_update, forallb_forall|].
  { intros c Hc. apply in_map_iff in Hc as (r & <- & _). apply input_reason_known. }
  intros _ _. by apply (safe_block_early _ _ _ V).
Qed.

(** A current position, and what it becomes on the increments of its product. *)
Definition projected (x : string * Decimal) (c : Decimal) : Prop := ∃ e, eligible_product x e ∧
  if _quantity_valid x.2 e then c = x.2 else round_quantity e x.2 = Ok c.

Lemma safe_project l : (∀ x, x ∈ l → x.1 ∈ ti_asset_order i) →
  safe data_errors (project_current target i p l) (settled (λ c, Forall2 projected l c.1)).
Proof using V.
  induction l as [|x l IH]; intros Hl; [apply safe_ret; constructor|]. cbn [project_current].
  apply (safe_or_stop _ _ _ (eligible_product x)); [apply safe_eligible, Hl; set_solver|]. intros e He.
  apply (safe_bind _ _ _ (λ c, if _quantity_valid x.2 e then c.1 = x.2 else round_quantity e x.2 = Ok c.1)).
  - destruct (_quantity_valid x.2 e) eqn:Ev; [by apply safe_ret|].
    eapply safe_bind; [apply (safe_lift _ _ (λ r, round_quantity e x.2 = Ok r)); [apply round_quantity_raises|done]|]. intros r Hr.
    eapply safe_bind; [by apply safe_update|]. intros _ _. eapply safe_bind; [by apply safe_add_if|]. intros _ _. by apply safe_ret.
  - intros [c moved] Hc. cbn [fst] in Hc.
    apply (safe_or_stop _ _ _ (λ c, Forall2 projected l c.1)); [apply IH; intros y Hy; apply Hl; set_solver|].
    intros rest Hrest. apply safe_ret. cbn. constructor; [by exists e|done].
Qed.

Lemma projected_representable x c : x.1 ∈ ti_asset_order i → dec_wf x.2 → projected x c → representable c.
Proof using V.
  intros Hin W (e & [He _] & Hc). destruct (vr_products _ _ V _ _ He) as [_ We].
  destruct (_quantity_valid x.2 e) eqn:Ev; [subst c; by eapply valid_representable|].
  by eapply fits_representable, round_quantity_fits.
Qed.

(** A quantity of the target: no larger than the position held where the forecast is zero. *)
Definition started (x : string * (Decimal * (Decimal * Decimal))) (v : Decimal * bool) : Prop :=
  representable v.1 ∧ (dec_eqb x.2.2.1 dec_zero = true → within x.2.2.2 v.1).

Lemma safe_round_value x : x.1 ∈ ti_asset_order i → representable x.2.2.2 → safe data_errors (round_value i x) (started x).
Proof using V.
  destruct x as [asset [continuous [alpha prior]]]. cbn [fst snd]. intros Hin Rp. unfold round_value.
  destruct (product_of asset Hin) as (e & -> & He & We & _).
  apply safe_value.
  eapply safe_bind; [apply (safe_lift _ _ (λ r, round_quantity e continuous = Ok r)); [apply round_quantity_raises|done]|]. intros r Hr.
  apply round_quantity_fits, fits_representable in Hr; [|done].
  eapply safe_bind; [by apply safe_add_if|]. intros _ _. eapply safe_bind; [by apply safe_add_if|]. intros _ _.
  destruct (dec_eqb alpha dec_zero && enlarges_or_reverses prior r) eqn:E.
  - eapply safe_bind; [by apply safe_update|]. intros _ _. apply safe_ret. split; [done|]. intros _. apply within_refl.
  - apply safe_ret. split; [done|]. cbn [fst snd]. intros Ha. rewrite Ha in E. by apply unrounded_within.
Qed.

(** *** Repair only reduces *)

Definition reduced (a b : Decimal) : Prop := within a b ∧ representable b.

Lemma reduced_all_refl l : Forall representable l → Forall2 reduced l l.
Proof using Type. clear. induction 1; constructor; [split; [apply within_refl|done]|done]. Qed.
Lemma reduced_all_trans a b c : Forall2 reduced a b → Forall2 reduced b c → Forall2 reduced a c.
Proof using Type.
  clear. intros Hab. revert c. induction Hab as [|x y a b [W1 R1] Hab IH]; intros c Hbc; inversion Hbc as [|? z ? ? [W2 R2] Htl]; subst; constructor; [|by apply IH].
  split; [|done]. eapply within_trans; [apply R1|apply R2|done|done].
Qed.
Lemma reduced_representable a b : Forall2 reduced a b → Forall representable b.
Proof using Type. clear. induction 1 as [|x y a b [_ R] _ IH]; by constructor. Qed.

Definition sound_candidate (values : list Decimal) (c : candidate) : Prop := Forall2 reduced values (cd_trial c).

Lemma reduction_sound values k value v' : Forall representable values → values !! k = Some value → reduced value v' →
  Forall2 reduced values (<[k := v']> values).
Proof using Type.
  clear. intros R. revert k. induction R as [|x l Rx R IH]; intros [|k] Hk Hv; [done|done| |]; cbn in *.
  - injection Hk as ->. constructor; [done|by apply reduced_all_refl].
  - constructor; [split; [apply within_refl|done]|by apply IH].
Qed.

Definition position_of (values : list Decimal) (x : nat * (Decimal * string)) : Prop :=
  values !! x.1 = Some x.2.1 ∧ x.2.2 ∈ ti_asset_order i.

Lemma try_reduction_sound values acc x acc' : Forall representable values → position_of values x →
  Forall (sound_candidate values) acc.1 → try_reduction i values acc x = Ok acc' → Forall (sound_candidate values) acc'.1.
Proof using V.
  destruct acc as [cs blocked], x as [k [value asset]]. intros R [Hk Hin] Hcs. cbn [fst snd] in *. unfold try_reduction.
  destruct (dec_eqb value dec_zero) eqn:Ez; [by intros [= <-]|]. destruct (product_of asset Hin) as (e & -> & _ & We & Pe).
  cbn [mbind res_bind]. cbv zeta. destruct (negb _); [by intros [= <-]|].
  destruct (_violations _ i) as [vs|ex]; [|destruct (caught _ ex); [by intros [= <-]|done]].
  intros H. apply bind_Ok in H as (total & _ & [= <-]). cbn. apply Forall_app. split; [done|]. constructor; [|done].
  unfold sound_candidate. cbn. eapply reduction_sound; [done|exact Hk|]. eapply Forall_lookup_1 in R; [|exact Hk].
  destruct (reduce_within value (pe_quantity_increment e) R We Pe Ez) as [Hw Hf]. split; [done|]. by apply fits_representable.
Qed.

Lemma try_reduction_raises values acc x : x.2.2 ∈ ti_asset_order i → raises_in data_errors (try_reduction i values acc x).
Proof using V.
  destruct acc as [cs blocked], x as [k [value asset]]. cbn [fst snd]. intros Hin. unfold try_reduction.
  destruct (dec_eqb value dec_zero); [apply raises_Ok|]. destruct (product_of asset Hin) as (e & -> & _).
  cbn [mbind res_bind]. cbv zeta. destruct (negb _); [apply raises_Ok|].
  destruct (_violations _ i) as [vs|ex] eqn:Ev.
  - apply raises_bind; [|intros; apply raises_Ok]. apply raises_for_each. intros a b _. unfold xdec_add, invalid_operation, data_errors. raises.
  - apply violations_raises in Ev. unfold caught. rewrite bool_decide_eq_true_2 by done. apply raises_Ok.
Qed.

Lemma keep_best_raises a c : raises_in data_errors (keep_best a c).
Proof using Type.
  clear. unfold keep_best, better. apply raises_bind; [|intros; apply raises_Ok].
  destruct (negb _); [apply xdec_lt_raises|]. destruct (negb _); [apply xdec_lt_raises|]. apply raises_Ok.
Qed.

Lemma imap_positions values : length values = length (ti_asset_order i) →
  ∀ x, x ∈ imap pair (zip values (ti_asset_order i)) → position_of values x.
Proof using Type.
  clear. intros Hl [k [v a]] Hin. apply elem_of_lookup_imap in Hin as (j & y & [= -> <-] & Hj).
  apply lookup_zip_Some in Hj as [Hv Ha]. split; [done|]. by eapply list_elem_of_lookup_2.
Qed.

Lemma safe_repair_loop fuel : ∀ values repaired, length values = length (ti_asset_order i) → Forall representable values →
  safe data_errors (repair_loop i fuel values repaired) (λ r, Forall2 reduced values r.1).
Proof using V.
  induction fuel as [|fuel IH]; intros values repaired Hl R; [by apply safe_ret, reduced_all_refl|]. cbn [repair_loop].
  eapply safe_bind; [apply (safe_lift _ _ (λ _, True)); [eapply raises_weaken, violations_raises; unfold data_errors; set_solver|done]|].
  intros vs _. destruct vs as [|v vs]; [by apply safe_ret, reduced_all_refl|].
  eapply safe_bind; [apply safe_update, forallb_forall|].
  { intros c Hc. apply in_map_iff in Hc as ([cap r] & <- & _). by destruct cap. }
  intros _ _. rewrite beside_zip by lia.
  apply safe_value.
  pose proof (imap_positions values Hl) as Hpos.
  apply (safe_bind _ _ _ (λ r, Forall (sound_candidate values) r.1)).
  { apply safe_lift.
    - apply raises_for_each. intros acc x Hx. apply try_reduction_raises, (Hpos x Hx).
    - intros r. apply (for_each_inv _ (λ acc, Forall (sound_candidate values) acc.1)); [|by constructor].
      intros acc x acc' Hx Hacc. apply try_reduction_sound; [done|by apply Hpos|done]. }
  intros [cs blocked] Hcs. cbn [fst] in Hcs. destruct cs as [|c cs].
  { eapply safe_bind; [by apply safe_add_if|]. intros _ _. by apply safe_ret, reduced_all_refl. }
  apply Forall_cons in Hcs as [Hc Hcs].
  apply (safe_bind _ _ _ (sound_candidate values)).
  { apply safe_lift; [apply raises_for_each; intros; apply keep_best_raises|]. intros best. rewrite Forall_forall in Hcs.
    apply (for_each_inv _ (sound_candidate values)); [|done]. intros a x a' Hx Ha Hb. unfold keep_best in Hb.
    apply bind_Ok in Hb as (b & _ & [= <-]). destruct b; [by apply Hcs|done]. }
  intros best Hbest. eapply safe_mono.
  - apply IH; [by rewrite <- (Forall2_length _ _ _ Hbest)|by eapply reduced_representable].
  - intros r. cbv beta. by apply reduced_all_trans.
Qed.
End parts.

(** *** Attribution raises only what is handled *)

Lemma dec_div_handled a b : raises_in economics_errors (dec_div a b).
Proof. eapply raises_weaken, dec_div_raises. unfold data_errors, economics_errors. set_solver. Qed.

Lemma entry_raises {A} (d : gmap SleeveKey A) k : raises_in economics_errors (entry_of d k).
Proof. unfold entry_of, economics_errors. raises. Qed.

Lemma allocate_raises cs final increment direction : raises_in economics_errors (allocate cs final increment direction).
Proof.
  unfold allocate. cbv zeta. apply raises_bind; [apply dec_div_handled|]. intros quotient _. apply raises_bind.
  - apply raises_for_each. intros acc a _. unfold share_units. apply raises_bind; [apply dec_div_handled|]. intros; apply raises_Ok.
  - intros [base remainders] _. apply raises_bind.
    + apply raises_for_each. intros u a _. unfold one_more. apply raises_bind; [apply entry_raises|]. intros; apply raises_Ok.
    + intros units _. apply raises_for_each. intros acc a _. apply raises_bind; [apply entry_raises|]. intros; apply raises_Ok.
Qed.

Lemma repaired_new_raises k r c s codes d : raises_in economics_errors (RepairedSleeveAttribution_new k r c s codes d).
Proof.
  unfold RepairedSleeveAttribution_new, economics_errors. cbv zeta.
  repeat (apply raises_bind; [apply raises_if; cbn; set_solver|]; intros _ _). apply raises_Ok.
Qed.

Lemma get_raises {A} (m : gmap string A) k : raises_in economics_errors (get m k).
Proof. unfold get, economics_errors. raises. Qed.

Lemma safe_any {A} kinds (r : res A) : raises_in kinds r → safe kinds (lift r) (λ _, True).
Proof. intros H. by apply safe_lift. Qed.

Lemma safe_repaired_asset economics x : safe economics_errors (repaired_asset economics x) (λ _, True).
Proof.
  destruct x as [netted final]. unfold repaired_asset. cbv zeta. destruct (Nat.eqb _ 0); [by apply safe_ret|].
  apply (safe_bind _ _ _ (λ _, True)).
  - destruct (negb _); [|by apply safe_ret]. eapply safe_bind; [by apply safe_add|]. intros _ _.
    eapply safe_bind; [apply safe_any, get_raises|]. intros product _. destruct (dec_eqb final dec_zero); [by apply safe_ret|].
    destruct (Nat.eqb _ 0); [by apply safe_ret|]. eapply safe_bind; [apply safe_any, allocate_raises|]. intros; by apply safe_ret.
  - intros [allocated residual] _. eapply safe_bind; [apply safe_any, raises_traverse; intros; apply repaired_new_raises|].
    intros; by apply safe_ret.
Qed.

Lemma safe_attributions netting delta economics : (length (nr_assets netting) <= length delta)%nat →
  safe economics_errors (_repaired_attributions netting delta economics) (λ _, True).
Proof.
  intros H. unfold _repaired_attributions. rewrite beside_zip by done.
  eapply safe_bind; [apply safe_any, raises_Ok|]. intros assets _.
  eapply safe_bind; [apply (safe_for_eachM _ _ (λ _ _, True)); intros; apply safe_repaired_asset|]. intros parts _. cbv zeta.
  eapply safe_bind; [by apply safe_add_if|]. intros _ _. by apply safe_ret.
Qed.

(** *** The constructor *)

Lemma parent_raises n a : raises_in [KKeyError; KArithmeticError; KValueError] (check_parent n a).
Proof. unfold check_parent. raises. Qed.

Definition construction_errors : list exn_kind := [KKeyError; KArithmeticError; KValueError].

Lemma data_construction {A} (m : res A) : raises_in data_errors m → raises_in construction_errors m.
Proof. apply raises_weaken. unfold data_errors, construction_errors. set_solver. Qed.

Section constructed.
Context (t : RoundedTarget).
Context (Hcurrent : length (rt_current_position t) = length (rt_asset_order t))
  (Htarget : length (rt_target_position t) = length (rt_asset_order t))
  (Hdelta : length (rt_physical_delta t) = length (rt_asset_order t))
  (Hnetting : length (nr_assets (rt_netting t)) = length (rt_asset_order t))
  (Hstates : ∀ asset st, rt_expected_costs t !! asset = Some st → map cc_component (es_components st) = _COMPONENT_ORDER).

Lemma check_attributions_raises : raises_in construction_errors (check_attributions t).
Proof using Hdelta Hnetting.
  clear Hstates Hcurrent Htarget. unfold check_attributions. apply raises_bind; [apply raises_if; cbn; set_solver|]. intros _ _.
  apply raises_bind; [apply raises_if; cbn; set_solver|]. intros _ _. rewrite beside_zip by lia. cbn [mbind res_bind].
  rewrite beside_zip by (rewrite length_zip; lia). cbn [mbind res_bind]. apply raises_for_each. intros _ [asset [delta netted]] _.
  unfold check_sleeves, construction_errors. cbv zeta.
  do 3 (apply raises_bind; [apply raises_if; cbn; set_solver|]; intros _ _). apply raises_for_each. intros; apply parent_raises.
Qed.

Lemma check_costs_raises : raises_in construction_errors (check_costs t).
Proof using All.
  unfold check_costs. apply raises_bind; [apply raises_if; cbn; set_solver|]. intros _ _. rewrite beside_zip by lia. cbn [mbind res_bind].
  rewrite beside_zip by (rewrite length_zip; lia). cbn [mbind res_bind]. rewrite beside_zip by (rewrite !length_zip; lia). cbn [mbind res_bind].
  apply raises_bind; [|intros [nf fin] _; unfold construction_errors; raises].
  apply raises_for_each. intros acc [asset [current [v netted]]] _. unfold check_cost.
  unfold get. destruct (rt_expected_costs t !! asset) as [st|] eqn:E; [cbn [mbind res_bind]|apply raises_Raise; cbn; set_solver].
  apply raises_bind; [apply raises_if; cbn; set_solver|]. intros _ _. apply raises_bind; [apply raises_if; cbn; set_solver|]. intros _ _.
  apply raises_bind; [unfold require_total_reporting, construction_errors; raises|]. intros total _.
  apply raises_bind; [|intros; apply raises_Ok]. apply data_construction. by apply financing_raises; [eapply Hstates|].
Qed.

Lemma constructed_raises : raises_in construction_errors (RoundedTarget_post_init t).
Proof using All.
  unfold RoundedTarget_post_init. cbv zeta. apply raises_bind; [apply raises_if; cbn; set_solver|]. intros _ _.
  apply raises_bind.
  { destruct (_ && _); [apply raises_Ok|]. unfold check_vectors. cbv zeta. apply raises_bind; [apply raises_if; cbn; set_solver|]. intros _ _.
    apply raises_bind; [|intros; apply raises_if; cbn; set_solver]. apply data_construction. unfold differences.
    apply raises_bind; [apply zip_raises|intros; apply raises_Ok]. }
  intros _ _. do 3 (apply raises_bind; [apply raises_if; cbn; set_solver|]; intros _ _).
  apply raises_bind; [destruct (_ && _); [apply raises_Ok|apply check_attributions_raises]|]. intros _ _.
  do 2 (apply raises_bind; [apply raises_if; cbn; set_solver|]; intros _ _).
  apply raises_bind; [apply raises_for_each; intros; unfold identity_pair, construction_errors; raises|]. intros _ _.
  do 2 (apply raises_bind; [apply raises_if; cbn; set_solver|]; intros _ _).
  apply raises_bind; [apply raises_for_each; intros; unfold construction_errors; raises|]. intros _ _.
  apply raises_bind; [|intros; apply raises_Ok]. destruct (is_blocked _); [unfold construction_errors; raises|].
  change (check_costs (ordered_reasons t)) with (check_costs t). apply check_costs_raises.
Qed.

Lemma constructed_facts r : is_blocked t = false → RoundedTarget_post_init t = Ok r →
  r = ordered_reasons t ∧ forallb is_reason_code (rt_reason_codes r) = true ∧ check_vectors t = Ok tt ∧ check_attributions t = Ok tt.
Proof using Type.
  clear. intros Hb H. unfold RoundedTarget_post_init in H. cbv zeta in H. rewrite Hb in H. cbn [andb] in H.
  apply bind_Ok in H as (? & _ & H). apply bind_Ok in H as ([] & Hv & H). do 3 (apply bind_Ok in H as (? & _ & H)).
  apply bind_Ok in H as ([] & Ha & H). apply bind_Ok in H as (? & Hk & H). apply raise_if_Ok, negb_false_iff in Hk.
  do 6 (apply bind_Ok in H as (? & _ & H)). by injection H as <-.
Qed.
End constructed.

(** *** The result *)

Section result.
Context (target : ContinuousTarget) (i : ContinuousTargetInputs) (p : RoundingPolicy) (V : valid_rounding target i).
Let F : input_facts i := inputs_valid i (vr_inputs _ _ V).

Definition tradable_quantity (x : string * Decimal) : Prop := ∃ e, ti_economics i !! x.1 = Some e ∧ _quantity_valid x.2 e = true.
Definition caps_hold (values : list Decimal) : Prop :=
  _violations values i = Ok [] ∧ validate_position (ti_risk i) (map float_of_Decimal values) = Ok tt.

Definition repaired_from (before after : list Decimal) : Prop :=
  Forall2 reduced before after ∧ Forall tradable_quantity (zip (ti_asset_order i) after) ∧ caps_hold after.

Lemma zip_fst {A B} (m : list A) (l : list B) x : x ∈ zip m l → x.1 ∈ m.
Proof using Type. clear. intros (k & Hk)%list_elem_of_lookup. destruct x as [a b]. apply lookup_zip_Some in Hk as [Ha _]. by eapply list_elem_of_lookup_2. Qed.

Lemma data_risk : data_errors ⊆ risk_errors.
Proof using Type. clear. unfold data_errors, risk_errors. set_solver. Qed.

Lemma safe_repair_and_check values : length values = length (ti_asset_order i) → Forall representable values →
  safe risk_errors (repair_and_check target i p values) (settled (λ r, repaired_from values r.1)).
Proof using V.
  intros Hl R. unfold repair_and_check.
  eapply safe_bind; [eapply safe_kinds, (safe_repair_loop _ _ V); [apply data_risk|done|done]|]. intros [final repaired] Hf. cbn [fst] in Hf.
  pose proof (Forall2_length _ _ _ Hf) as Hfl. rewrite beside_zip by lia.
  apply safe_value.
  eapply safe_bind; [apply safe_lift; [|intros v Hv; exact Hv]|].
  { apply raises_traverse. intros x Hx. destruct (product_of _ _ V x.1 (zip_fst _ _ _ Hx)) as (e & -> & _). apply raises_Ok. }
  intros valid Hvalid. destruct (forallb id valid) eqn:Ev; cbn [negb]; [|by apply (safe_block_early _ _ _ V)].
  eapply safe_bind; [apply safe_lift; [|intros v Hv; exact Hv]|].
  { eapply raises_weaken, violations_raises. unfold risk_errors. set_solver. }
  intros vs Hvs. destruct vs as [|v vs]; cbn [length Nat.eqb negb].
  - eapply safe_bind; [apply safe_lift; [eapply raises_weaken, validate_raises; apply data_risk|intros v Hv; exact Hv]|].
    intros [] Hc. apply safe_ret. split; [done|]. split; [|by split]. apply traverse_Ok in Hvalid. rewrite forallb_forall in Ev.
    apply Forall_lookup. intros k x Hx. destruct (Forall2_lookup_l _ _ _ _ _ Hvalid Hx) as (b & Hb & He).
    apply list_elem_of_lookup_2, list_elem_of_In, Ev in Hb. unfold id in Hb. subst b.
    apply bind_Ok in He as (e & He%get_Ok & [= He2]). by exists e.
  - eapply safe_bind; [apply safe_update, forallb_forall|].
    { intros c Hc. apply in_map_iff in Hc as ([cap r] & <- & _). by destruct cap. }
    intros _ _. by apply (safe_block_early _ _ _ V).
Qed.

Lemma safe_all_eligible l : (∀ x, x ∈ l → x.1 ∈ ti_asset_order i) →
  safe data_errors (all_eligible target i p l) (settled (λ _, ∀ x, x ∈ l → ∃ e, eligible_product i x e)).
Proof using V.
  induction l as [|x l IH]; intros Hl; [apply safe_ret; intros x; set_solver|]. cbn [all_eligible].
  apply (safe_or_stop _ _ _ (eligible_product i x)); [apply (safe_eligible _ _ _ V), Hl; set_solver|]. intros e He.
  eapply safe_mono; [apply IH; intros y Hy; apply Hl; set_solver|]. intros [r|[]] H; [done|]. cbn in *.
  intros y [->|Hy]%elem_of_cons; [by exists e|by apply H].
Qed.

(** The cost state of one asset is the one of its model, for this very move. *)
Definition priced_by (states : gmap string ExpectedCostState) (x : string * (Decimal * (Decimal * AssetNetting))) : Prop :=
  let '(asset, (current, (final, netted))) := x in
  ∃ m st, ti_continuous_costs i !! asset = Some m ∧ states !! asset = Some st ∧
    model_evaluate m current final (ti_decision_time i) (an_internal_cross_quantity netted) None = Ok st.

Lemma rounded_cost_Ok acc x acc' : rounded_cost i acc x = Ok acc' → ∃ m st, ti_continuous_costs i !! x.1 = Some m ∧
  acc'.1.1 = <[x.1 := st]> acc.1.1 ∧
  model_evaluate m x.2.1 x.2.2.1 (ti_decision_time i) (an_internal_cross_quantity x.2.2.2) None = Ok st.
Proof using Type.
  clear F V. destruct acc as [[states cost] fin], x as [asset [current [final netted]]]. unfold rounded_cost. intros H.
  apply bind_Ok in H as (m & Hm%get_Ok & H). apply bind_Ok in H as (st & Hst & H). do 3 (apply bind_Ok in H as (? & _ & H)).
  injection H as <-. by exists m, st.
Qed.

Lemma rounded_costs_priced l : ∀ acc acc', NoDup (map fst l) → for_each (rounded_cost i) acc l = Ok acc' →
  Forall (priced_by acc'.1.1) l ∧ ∀ asset, asset ∉ map fst l → acc'.1.1 !! asset = acc.1.1 !! asset.
Proof using Type.
  clear F V. induction l as [|x l IH]; intros acc acc' Hnd H; [injection H as <-; by split; [constructor|]|].
  cbn in Hnd. apply NoDup_cons in Hnd as [Hx Hnd]. cbn in H. apply bind_Ok in H as (acc1 & H1 & H).
  apply rounded_cost_Ok in H1 as (m & st & Hm & Hacc & Hst). destruct (IH _ _ Hnd H) as [IH1 IH2]. split.
  - constructor; [|done]. destruct x as [asset [current [final netted]]]. exists m, st. split; [done|]. split; [|done].
    rewrite IH2 by done. rewrite Hacc. cbn. by rewrite lookup_insert_eq.
  - intros asset Ha. rewrite IH2 by set_solver. rewrite Hacc. rewrite lookup_insert_ne; set_solver.
Qed.

Definition composed (states : gmap string ExpectedCostState) : Prop :=
  ∀ asset st, states !! asset = Some st → map cc_component (es_components st) = _COMPONENT_ORDER.

Lemma rounded_costs_composed l acc' : for_each (rounded_cost i) (∅, dec_zero, dec_zero) l = Ok acc' → composed acc'.1.1.
Proof using Type.
  clear F V. apply (for_each_inv _ (λ acc, composed acc.1.1)).
  - intros acc x acc1 _ Hacc H. apply rounded_cost_Ok in H as (m & st & _ & -> & Hst). intros asset st'.
    destruct (decide (asset = x.1)) as [->|Hne]; [rewrite lookup_insert_eq; intros [= <-]; by eapply evaluated_components|].
    rewrite lookup_insert_ne by done. apply Hacc.
  - intros asset st. cbn. by rewrite lookup_empty.
Qed.

Lemma rounded_cost_raises acc x : x.1 ∈ ti_asset_order i → raises_in data_errors (rounded_cost i acc x).
Proof using V.
  destruct acc as [[states cost] fin], x as [asset [current [final netted]]]. cbn [fst]. intros Hin. unfold rounded_cost.
  destruct (if_assets i F asset Hin) as (e & m & A). rewrite (proj2 (get_Ok _ _ _) (af_model _ _ _ _ A)). cbn [mbind res_bind].
  apply raises_bind; [apply evaluate_raises, (af_curves _ _ _ _ A)|]. intros st Hst%evaluated_components.
  apply raises_bind; [apply raises_if; cbn; unfold data_errors; set_solver|]. intros _ _.
  apply raises_bind; [unfold require_total_reporting, data_errors; raises|]. intros total _.
  apply raises_bind; [by apply financing_raises|]. intros; apply raises_Ok.
Qed.

(** A target that can be traded. *)
Record tradable (r : RoundedTarget) : Prop := {
  tr_disposition : rt_disposition r ≠ RD_BLOCKED;
  tr_inputs : decision_input_identity i = Ok (rt_decision_input_identity r);
  tr_current : Forall2 (projected i) (zip (ti_asset_order i) (ti_current_position i)) (rt_current_position r);
  tr_length : length (rt_target_position r) = length (ti_asset_order i);
  tr_quantities : Forall tradable_quantity (zip (ti_asset_order i) (rt_target_position r));
  tr_eligible : ∀ x, x ∈ zip (ti_asset_order i) (rt_target_position r) → ∃ e, eligible_product i x e;
  tr_caps : caps_hold (rt_target_position r);
  tr_zero : ∀ k alpha prior v, ti_alpha_return i !! k = Some alpha → rt_current_position r !! k = Some prior →
    rt_target_position r !! k = Some v → dec_eqb alpha dec_zero = true → within prior v;
  tr_delta : differences (rt_target_position r) (rt_current_position r) = Ok (rt_physical_delta r);
  tr_costs : Forall (priced_by (rt_expected_costs r))
    (zip (ti_asset_order i) (zip (rt_current_position r) (zip (rt_target_position r) (nr_assets (ti_netting i)))));
  tr_sleeves : check_attributions r = Ok tt;
  tr_known : forallb is_reason_code (rt_reason_codes r) = true }.

Lemma differences_Ok a : ∀ b, length a = length b → ∃ d, differences a b = Ok d ∧ length d = length a.
Proof using Type.
  clear. unfold differences. induction a as [|x a IH]; intros [|y b] H; try discriminate H; [by exists []|].
  destruct (IH b ltac:(cbn in H; lia)) as (d & Hd & Hl). apply bind_Ok in Hd as (z & Hz & [= <-]). cbn. rewrite Hz. cbn.
  eexists. split; [done|]. cbn in *. lia.
Qed.

Lemma netting_length : length (nr_assets (ti_netting i)) = length (ti_asset_order i).
Proof using F. rewrite <- (if_netting_order i F). unfold asset_order. by rewrite length_map. Qed.

Lemma safe_conclude continuous current values moved attributions :
  length continuous = length (ti_asset_order i) →
  Forall2 (projected i) (zip (ti_asset_order i) (ti_current_position i)) current →
  length values = length (ti_asset_order i) →
  Forall tradable_quantity (zip (ti_asset_order i) values) →
  (∀ x, x ∈ zip (ti_asset_order i) values → ∃ e, eligible_product i x e) →
  caps_hold values →
  (∀ k alpha prior v, ti_alpha_return i !! k = Some alpha → current !! k = Some prior → values !! k = Some v →
    dec_eqb alpha dec_zero = true → within prior v) →
  safe construction_errors (conclude target i p continuous current values moved attributions) tradable.
Proof using V.
  intros Hcl Hcur Hvl Hq Hel Hcaps Hzero. unfold conclude.
  assert (length current = length (ti_asset_order i)) as Hkl.
  { rewrite <- (Forall2_length _ _ _ Hcur), length_zip, (if_current i F). lia. }
  pose proof netting_length as Hnl.
  rewrite (beside_zip values) by lia. apply safe_value.
  rewrite (beside_zip current) by (rewrite length_zip; lia). apply safe_value.
  rewrite (beside_zip (ti_asset_order i)) by (rewrite !length_zip; lia). set (assets := zip (ti_asset_order i) _).
  apply safe_value.
  eapply safe_bind; [apply safe_lift; [apply data_construction, raises_for_each; intros acc x Hx; apply rounded_cost_raises; by eapply zip_fst|intros c Hc; exact Hc]|].
  intros [[states cost] fin] Hcosts. destruct (differences_Ok values current ltac:(lia)) as (delta & Hd & Hdl). rewrite Hd.
  apply safe_value.
  apply safe_reasons. intros reasons. destruct (identity_total i (vr_inputs _ _ V)) as (identity & Hid & _). rewrite Hid.
  apply safe_value.
  destruct (target_json_total target (vr_target _ _ V) (vr_times _ _ V)) as (tid & -> & _).
  apply safe_value.
  set (t := mkRounded _ _ _ _ _ _ _ _ _ _ _ _ _ _ _ _ _ _ _ _).
  assert (is_blocked t = false) as Hb by (unfold is_blocked, t; by destruct moved).
  pose proof (rounded_costs_composed _ _ Hcosts) as Hcomp.
  assert (NoDup (map fst assets)) as Hnd.
  { unfold assets. rewrite fst_zip by (rewrite !length_zip; lia). apply (if_distinct i F). }
  apply rounded_costs_priced in Hcosts as [Hpriced _]; [|done].
  apply safe_lift; [apply constructed_raises; try done; cbn; lia|]. intros r Hr.
  apply (constructed_facts t r Hb) in Hr as (-> & Hk & _ & Hat).
  constructor; try done. cbn. by destruct moved.
Qed.
End result.

(** *** The whole function *)

Section whole.
Context (target : ContinuousTarget) (i : ContinuousTargetInputs) (p : RoundingPolicy) (V : valid_rounding target i).
Let F : input_facts i := inputs_valid i (vr_inputs _ _ V).

Definition outcome (r : RoundedTarget) : Prop := blocked_rounding r ∨ tradable i r.

Lemma safe_outcome {A} kinds (m : M Reasons (RoundedTarget + A)) (Q : A → Prop) :
  safe kinds m (settled Q) → safe kinds m (λ x, match x with inl r => outcome r | inr a => Q a end).
Proof using Type. clear F V. intros H. eapply safe_mono; [exact H|]. intros [r|a] Hx; [by left|done]. Qed.

Definition held_back (alpha prior : list Decimal) (values : list Decimal) : Prop := ∀ k a q v,
  alpha !! k = Some a → prior !! k = Some q → values !! k = Some v → dec_eqb a dec_zero = true → within q v.

Lemma started_held_back continuous current rounded final :
  length continuous = length (ti_asset_order i) → length current = length (ti_asset_order i) →
  Forall2 started (zip (ti_asset_order i) (zip continuous (zip (ti_alpha_return i) current))) rounded →
  Forall2 reduced (map fst rounded) final → held_back (ti_alpha_return i) current final.
Proof using F.
  intros Hc Hk Hs Hr k a q v Ha Hq Hv Hz. destruct (Forall2_lookup_r _ _ _ _ _ Hr Hv) as (v0 & Hv0 & Hw & Rv).
  apply list_lookup_fmap_Some in Hv0 as ([v1 moved] & -> & Hv1). cbn [fst] in *.
  destruct (Forall2_lookup_r _ _ _ _ _ Hs Hv1) as ([asset [c [a1 q1]]] & Hx & [Rv0 Hin]).
  apply lookup_zip_Some in Hx as [_ Hx]. apply lookup_zip_Some in Hx as [_ Hx]. apply lookup_zip_Some in Hx as [Ha1 Hq1].
  cbn [fst snd] in *. assert (a1 = a) as -> by congruence. assert (q1 = q) as -> by congruence.
  eapply within_trans; [apply Rv0|apply Rv|by apply Hin|done].
Qed.

Lemma construction_handled : construction_errors ⊆ KKeyError :: solver_errors.
Proof using Type. clear F V. unfold construction_errors, solver_errors. set_solver. Qed.
Lemma value_handled : KValueError ∈ KKeyError :: solver_errors.
Proof using Type. clear F V. unfold solver_errors. set_solver. Qed.
Lemma data_economics : data_errors ⊆ economics_errors.
Proof using Type. clear F V. unfold data_errors, economics_errors. set_solver. Qed.

Lemma zip_members {A} (l : list A) x : x ∈ zip (ti_asset_order i) l → x.1 ∈ ti_asset_order i.
Proof using Type. clear F V. apply zip_fst. Qed.

(** Everything after the current position has been projected. *)
Lemma safe_continue continuous current moved : length continuous = length (ti_asset_order i) →
  Forall2 (projected i) (zip (ti_asset_order i) (ti_current_position i)) current →
  safe (KKeyError :: solver_errors) (round_from target i p continuous current moved) outcome.
Proof using V.
  intros Hcl Hcur. unfold round_from.
  assert (length current = length (ti_asset_order i)) as Hkl.
  { rewrite <- (Forall2_length _ _ _ Hcur), length_zip, (if_current i F). lia. }
  assert (Forall representable current) as Rc.
  { apply Forall_lookup. intros k c Hc. destruct (Forall2_lookup_r _ _ _ _ _ Hcur Hc) as (x & Hx & Hp).
    eapply (projected_representable _ _ V); [| |exact Hp]; destruct x as [asset q]; apply lookup_zip_Some in Hx as [Ha Hq];
      [by eapply list_elem_of_lookup_2|]. eapply Forall_lookup_1; [apply (vr_decimals _ _ V)|exact Hq]. }
  pose proof (if_alpha i F) as Hal.
  rewrite (beside_zip (ti_alpha_return i)) by lia. apply safe_value.
  rewrite (beside_zip continuous) by (rewrite length_zip; lia). apply safe_value.
  rewrite (beside_zip (ti_asset_order i)) by (rewrite !length_zip; lia). apply safe_value.
  set (assets := zip (ti_asset_order i) _).
  eapply safe_bind.
  { apply (safe_for_eachM _ _ started). intros x Hx. eapply safe_kinds; [|apply (safe_round_value _ _ V); [by eapply zip_members|]].
    - unfold data_errors, solver_errors. set_solver.
    - apply list_elem_of_lookup in Hx as [k Hx]. destruct x as [asset [c [a q]]]. do 3 (apply lookup_zip_Some in Hx as [_ Hx]).
      eapply Forall_lookup_1; [exact Rc|exact Hx]. }
  intros rounded Hs. cbv zeta. eapply safe_bind; [by apply safe_add_if|]. intros _ _.
  assert (length (map fst rounded) = length (ti_asset_order i)) as Hml.
  { rewrite length_map, <- (Forall2_length _ _ _ Hs). unfold assets. rewrite !length_zip. lia. }
  apply (safe_or_return _ _ _ (λ r, repaired_from i (map fst rounded) r.1)).
  { apply safe_outcome, safe_try; [|intros e; by apply (safe_block_early _ _ _ V)].
    apply (safe_repair_and_check _ _ _ V); [done|]. apply Forall_map, Forall_lookup. intros k v Hv.
    destruct (Forall2_lookup_r _ _ _ _ _ Hs Hv) as (x & _ & R & _). exact R. }
  intros [values repaired] (Hred & Hq & Hcaps). cbn [fst] in *.
  assert (length values = length (ti_asset_order i)) as Hvl by (rewrite <- (Forall2_length _ _ _ Hred); done).
  apply (safe_or_return _ _ _ (λ _, ∀ x, x ∈ zip (ti_asset_order i) values → ∃ e, eligible_product i x e)).
  { apply safe_outcome, safe_try; [|intros e; by apply (safe_block_early _ _ _ V)]. rewrite beside_zip by lia. apply safe_value.
    eapply safe_kinds; [apply data_economics|]. apply (safe_all_eligible _ _ _ V), zip_members. }
  intros [] Hel. apply (safe_or_return _ _ _ (λ _, True)).
  { apply safe_outcome, safe_try; [|intros e; eapply safe_bind; [by apply safe_add|]; intros _ _; by apply (safe_block_early _ _ _ V)].
    destruct (differences_Ok values current ltac:(lia)) as (delta & -> & Hdl). apply safe_value.
    eapply safe_bind; [apply safe_attributions; rewrite (netting_length _ _ V); lia|]. intros r _. by apply safe_ret. }
  intros [attributions residual] _. destruct (negb _).
  - eapply safe_mono; [eapply safe_kinds, (safe_blocked _ _ _ V); set_solver|]. intros r Hr. by left.
  - eapply safe_mono; [eapply safe_kinds, (safe_conclude _ _ _ V); try done; [apply construction_handled|]|intros r Hr; by right].
    exact (started_held_back continuous current rounded values Hcl Hkl Hs Hred).
Qed.

Lemma safe_round_valid : safe (KKeyError :: solver_errors) (round_valid target i p) outcome.
Proof using V.
  unfold round_valid.
  eapply safe_bind; [apply safe_any, raises_if, value_handled|]. intros _ _.
  eapply safe_bind; [apply safe_any, raises_if, value_handled|]. intros _ _. cbv zeta.
  apply (safe_or_return _ _ _ (λ c, Forall2 (projected i) (zip (ti_asset_order i) (ti_current_position i)) c.1)).
  { apply safe_outcome, safe_try; [|intros e; by apply (safe_block_early _ _ _ V)].
    rewrite beside_zip by (rewrite (if_current i F); lia). apply safe_value. eapply safe_kinds; [apply data_economics|].
    apply (safe_project _ _ _ V), zip_members. }
  intros [current moved] Hcur. apply safe_continue; [|exact Hcur].
  destruct (accepted target && _) eqn:E; [|apply (if_current i F)]. apply andb_true_iff in E as [_ E]. by apply Nat.eqb_eq in E.
Qed.

Lemma safe_round_body : safe [] (round_body target i p) outcome.
Proof using V.
  unfold round_body. apply (safe_or_return _ _ _ (λ _, True)).
  { apply safe_outcome, safe_try; [|intros e; by apply (safe_block_early _ _ _ V)].
    destruct (identity_total i (vr_inputs _ _ V)) as (identity & -> & _). apply safe_value.
    destruct (negb _); [by apply (safe_block_early _ _ _ V)|by apply safe_ret]. }
  intros _ _. apply safe_reasons. intros reasons. destruct (bool_decide _).
  - eapply safe_mono; [apply (safe_blocked _ _ _ V)|]. intros r Hr. by left.
  - apply safe_try; [apply safe_round_valid|]. intros e. unfold input_failure.
    destruct (caught _ e); [|destruct (contains _ _)]; (eapply safe_mono; [by apply (safe_block _ _ _ V)|]; intros r Hr; by left).
Qed.
End whole.

(** ** Claims *)

(** C14: rounding fails closed. For any valid decision and target the function returns:
    either a blocked target without any output, or one whose quantities are tradable and
    eligible, hold every cap, leave a zero forecast with a position between zero and the one
    held, and carry the costs of their models and sleeves that add up to them. *)
Theorem rounding_fails_closed target i p : valid_rounding target i →
  ∃ r, round_and_repair_target target i p = Ok r ∧ (blocked_rounding r ∨ tradable i r).
Proof.
  intros V. unfold round_and_repair_target.
  destruct (safe_round_body target i p V (list_to_set (map _normalise_reason (ct_reason_codes target)))) as [_ H].
  { intros c Hc%elem_of_list_to_set. apply list_elem_of_fmap in Hc as (r & -> & _). apply normalised_known. }
  destruct (round_body target i p _).2 as [r|e]; [by exists r|]. by apply elem_of_nil in H.
Qed.

(** ** A concrete target *)

Definition rounding_inputs : ContinuousTargetInputs := solver_inputs (solver_model (dec_lit 5 (-2)) (dec_lit 1 (-2))).
(** The solver asks for four and a half units of an asset with whole increments. *)
Definition fractional_answer : SolverRunner := λ _, Ok ("OPTIMAL", Some [float_ratio 9 2; float_of_Z 1]).

Definition sound_target (t : ContinuousTarget) : bool :=
  is_ok (ContinuousTarget_post_init t)
  && forallb (λ kv, bool_decide (dt_offset (es_decision_time kv.2) = Some 0)) (map_to_list (ct_expected_costs t))
  && match round_and_repair_target t rounding_inputs DEFAULT_ROUNDING_POLICY with
     | Ok r => negb (is_blocked r) && decs_eqb (rt_target_position r) [dec_of_Z 4; dec_one]
     | Raise _ => false
     end.

Lemma sound_target_valid t : sound_target t = true → valid_rounding t rounding_inputs.
Proof.
  intros [[H1 H2]%andb_true_iff _]%andb_true_iff. constructor.
  - apply solver_inputs_valid; [vm_compute; reflexivity|].
    repeat (constructor; [split; [vm_compute; reflexivity|repeat constructor]|]). constructor.
  - apply is_ok_true in H1 as [[] H1]. exact H1.
  - intros asset st Hst. rewrite forallb_forall in H2. specialize (H2 (asset, st)). eapply bool_decide_eq_true, H2.
    apply list_elem_of_In. by apply elem_of_map_to_list.
  - intros asset e He. apply elem_of_list_to_map_2, list_elem_of_fmap in He as (a & [= -> ->] & Ha).
    split; [|done]. unfold solver_assets in Ha.
    repeat (apply elem_of_cons in Ha as [->|Ha]; [vm_compute; reflexivity|]). by apply elem_of_nil in Ha.
  - repeat constructor; done.
Qed.

Lemma rounding_fails_closed_witness : ∃ t r, solve_continuous_target fractional_answer rounding_inputs = Ok t ∧
  round_and_repair_target t rounding_inputs DEFAULT_ROUNDING_POLICY = Ok r ∧ tradable rounding_inputs r ∧
  decs_eqb (rt_target_position r) [dec_of_Z 4; dec_one] = true.
Proof.
  assert (match solve_continuous_target fractional_answer rounding_inputs with Ok t => sound_target t | Raise _ => false end = true)
    as Hs by (vm_compute; reflexivity).
  destruct (solve_continuous_target fractional_answer rounding_inputs) as [t|e] eqn:Et; [|discriminate Hs].
  destruct (rounding_fails_closed t rounding_inputs DEFAULT_ROUNDING_POLICY) as (r & Hr & Ho); [by apply sound_target_valid|].
  apply andb_true_iff in Hs as [_ Hs]. rewrite Hr in Hs. apply andb_true_iff in Hs as [Hb Hv].
  exists t, r. split; [reflexivity|]. split; [exact Hr|]. split; [|exact Hv]. destruct Ho as [Ho|Ho]; [|exact Ho].
  exfalso. unfold is_blocked in Hb. rewrite (br_disposition _ Ho) in Hb. discriminate Hb.
Defined.
