(* ===== verification/IbkrEvidence.v ===== *)
(** Evidence of IBKR historical results: the values of [domain/ibkr_results.py], and the
    reading of provider payloads that [application/ibkr_results.py] derives accepted bars and
    sessions with.

    The evidence classes of attempts, callbacks and completion markers copy the records of the
    execution store field by field: they are those records, with validations of their own.
    Session times are read in the extended ISO format, in which the adapter writes them
    ([_schedule_time] of adapters/ibkr/historical.py); other spellings are rejected. *)

From S2P Require Import Prelude PySorted PyStr PyTime PyDecimal Sha256 PyJson PyParse PyText PyFloat PyFloatFn Domain Storage EventStore CaptureFeed IbkrPlan IbkrStore.
From Stdlib Require Import Ascii.

(** ** Comparison of JSON values with [==]

    Booleans and integral floats equal integers; dicts compare without regard to order. A
    float is kept as its [repr], which determines it. *)

Definition float_value (repr : string) : option pyfloat :=
  float_of_Decimal <$> read_decimal (of_chars (map upper_e (chars repr))).
Definition integral (repr : string) : option Z :=
  match x ← float_value repr; float_fraction x with
  | Some (n, d) => if n mod d =? 0 then Some (n / d) else None
  | None => None
  end.
Fixpoint norm (j : json) : json :=
  match j with
  | JBool b => JInt (if b then 1 else 0)
  | JFloat r => match integral r with Some n => JInt n | None => JFloat r end
  | JList l => JList (map norm l)
  | JObj kvs => JObj (py_sorted fst (map (λ kv, (kv.1, norm kv.2)) kvs))
  | _ => j
  end.
Definition json_eqb (a b : json) : bool := bool_decide (norm a = norm b).
Definition json_neqb (a b : json) : bool := negb (json_eqb a b).
Definition dicts_eqb (a b : list dict) : bool := json_eqb (JList (map JObj a)) (JList (map JObj b)).

Example json_eqb_numbers :
  json_eqb (JObj [("a", JInt 1); ("b", JFloat "2.0")]) (JObj [("b", JInt 2); ("a", JBool true)]) = true.
Proof. vm_compute. reflexivity. Qed.

(** ** domain/ibkr_results.py *)

Definition REQUEST_RESULT_CONTRACT : string := "qtrad-ibkr-historical-request-result-v2".
Definition HISTORICAL_RESULT_CONTRACT : string := "qtrad-ibkr-historical-result-v3".
Definition HISTORICAL_RESULT_VERIFICATION_RECEIPT_CONTRACT : string := "qtrad-ibkr-historical-result-verification-v1".
Definition RESULT_SCHEMA_VERSION : Z := 3.
Definition REQUEST_RESULT_SCHEMA_VERSION : Z := 2.
Definition MAX_IBKR_RESULT_BYTES : Z := 8 * 1024 * 1024.
Definition MAX_IBKR_RESULT_CHILDREN : Z := 20000.
Definition MAX_IBKR_RESULT_ATTEMPTS : Z := 20000.
Definition MAX_IBKR_RESULT_CALLBACKS : Z := 100000.
Definition MAX_IBKR_RESULT_COMPLETION_MARKERS : Z := 20000.

Inductive IbkrHistoricalEvidenceDisposition : Type :=
| ED_SUCCEEDED | ED_CONTRACT_IDENTITY_CHANGED | ED_ENTITLEMENT_UNAVAILABLE | ED_NO_DATA_RETURNED | ED_INVALID_REQUEST
| ED_RETRY_LIMIT_EXHAUSTED | ED_PROVIDER_REJECTED | ED_SESSION_EVIDENCE_UNAVAILABLE | ED_INCOMPLETE_RESPONSE
| INVALID_CALLBACK_EVIDENCE | CONFLICTING_CALLBACK_EVIDENCE.
#[export] Instance IbkrHistoricalEvidenceDisposition_eq_dec : EqDecision IbkrHistoricalEvidenceDisposition.
Proof. solve_decision. Defined.
Definition IbkrHistoricalEvidenceDisposition_str (d : IbkrHistoricalEvidenceDisposition) : string :=
  match d with
  | ED_SUCCEEDED => "SUCCEEDED" | ED_CONTRACT_IDENTITY_CHANGED => "CONTRACT_IDENTITY_CHANGED"
  | ED_ENTITLEMENT_UNAVAILABLE => "ENTITLEMENT_UNAVAILABLE" | ED_NO_DATA_RETURNED => "NO_DATA_RETURNED"
  | ED_INVALID_REQUEST => "INVALID_REQUEST" | ED_RETRY_LIMIT_EXHAUSTED => "RETRY_LIMIT_EXHAUSTED"
  | ED_PROVIDER_REJECTED => "PROVIDER_REJECTED" | ED_SESSION_EVIDENCE_UNAVAILABLE => "SESSION_EVIDENCE_UNAVAILABLE"
  | ED_INCOMPLETE_RESPONSE => "INCOMPLETE_RESPONSE" | INVALID_CALLBACK_EVIDENCE => "INVALID_CALLBACK_EVIDENCE"
  | CONFLICTING_CALLBACK_EVIDENCE => "CONFLICTING_CALLBACK_EVIDENCE"
  end.
Definition IbkrHistoricalEvidenceDisposition_of_str (s : string) : res IbkrHistoricalEvidenceDisposition :=
  match List.find (λ d, String.eqb (IbkrHistoricalEvidenceDisposition_str d) s)
    [ED_SUCCEEDED; ED_CONTRACT_IDENTITY_CHANGED; ED_ENTITLEMENT_UNAVAILABLE; ED_NO_DATA_RETURNED; ED_INVALID_REQUEST;
     ED_RETRY_LIMIT_EXHAUSTED; ED_PROVIDER_REJECTED; ED_SESSION_EVIDENCE_UNAVAILABLE; ED_INCOMPLETE_RESPONSE;
     INVALID_CALLBACK_EVIDENCE; CONFLICTING_CALLBACK_EVIDENCE] with
  | Some d => Ok d
  | None => Raise (ValueError ("'" +:+ s +:+ "' is not a valid IbkrHistoricalEvidenceDisposition"))
  end.

Definition IbkrAttemptStatus_str (s : IbkrAttemptStatus) : string :=
  match s with
  | STARTED => "STARTED" | ATT_SUCCEEDED => "SUCCEEDED" | RETRYABLE_FAILURE => "RETRYABLE_FAILURE"
  | INVALIDATED => "INVALIDATED" | TERMINAL_FAILURE => "TERMINAL_FAILURE"
  end.
Definition IbkrRequestStatus_str (s : IbkrRequestStatus) : string :=
  match s with
  | REQ_PENDING => "PENDING" | IN_FLIGHT => "IN_FLIGHT" | REQ_SUCCEEDED => "SUCCEEDED" | TERMINAL => "TERMINAL"
  end.
Definition IbkrHistoricalCallbackKind_str (k : IbkrHistoricalCallbackKind) : string :=
  match k with
  | CB_MIDPOINT_BAR => "MIDPOINT_BAR" | CB_SCHEDULE => "SCHEDULE" | CB_COMPLETION => "COMPLETION" | CB_ERROR => "ERROR"
  end.

Definition _require_sha256 (value field : string) : res unit :=
  raise_if (negb (is_sha256 value)) (ValueError (field +:+ " must be a lower-case SHA-256")).
Definition sha256_bytes (value : string) : res string :=
  raise_if (negb (nonempty value)) (ValueError "IBKR evidence bytes cannot be empty");;
  Ok (sha256_hex value).
Definition canonical_json_bytes (value : json) : string := dumps_indent 0 value +:+ newline.
Definition _json_object (value : dict) (field : string) : res json :=
  encoded ← to_json_value (of_json (JObj value));
  match encoded with
  | JObj _ => Ok encoded
  | _ => Raise (TypeError (field +:+ " must serialise to an object"))
  end.

(** [PurePosixPath(value).parts] without the root: empty and dot parts are dropped. *)
Definition path_parts (value : string) : list string :=
  List.filter (λ p, nonempty p && negb (String.eqb p ".")) (split "/" value).
Definition is_absolute (value : string) : bool :=
  match chars value with c :: _ => Ascii.eqb c "/" | [] => false end.
Definition _require_safe_relative_path (value field : string) : res unit :=
  raise_if (negb (nonempty value) || is_absolute value
            || existsb (λ p, negb (nonempty p) || String.eqb p "." || String.eqb p "..") (path_parts value)
            || (240 <? len value))
           (ValueError (field +:+ " must be a safe relative path")).

(** *** Snapshots *)

Record IbkrHistoricalPlanSnapshot : Type := mkPlanSnapshot {
  ps_plan_sha256 : string;
  ps_plan_bytes : string;
  ps_plan_bytes_sha256 : string;
  ps_plan_payload : dict;
  ps_registered_at : datetime;
  ps_publication_status : IbkrPublicationStatus }.
Definition IbkrHistoricalPlanSnapshot_post_init (s : IbkrHistoricalPlanSnapshot) : res unit :=
  _require_sha256 (ps_plan_sha256 s) "IBKR snapshot plan hash";;
  _require_sha256 (ps_plan_bytes_sha256 s) "IBKR snapshot plan-bytes hash";;
  require_utc (ps_registered_at s) "IBKR snapshot plan registered_at";;
  raise_if (negb (nonempty (ps_plan_bytes s))) (ValueError "IBKR snapshot plan bytes cannot be empty");;
  hash ← sha256_bytes (ps_plan_bytes s);
  raise_if (negb (String.eqb hash (ps_plan_bytes_sha256 s)))
           (ValueError "IBKR snapshot plan-bytes hash does not match its bytes").

Record IbkrHistoricalRequestSnapshot : Type := mkRequestSnapshot {
  rs_plan_sha256 : string;
  rs_request_sha256 : string;
  rs_request_payload : dict;
  rs_instrument_id : string;
  rs_request_kind : string;
  rs_interval_start : datetime;
  rs_interval_end : datetime;
  rs_status : IbkrRequestStatus;
  rs_attempt_count : Z;
  rs_selected_attempt_id : option UUID;
  rs_publication_status : IbkrPublicationStatus;
  rs_result_sha256 : option string;
  rs_published_at : option datetime }.
Definition IbkrHistoricalRequestSnapshot_post_init (s : IbkrHistoricalRequestSnapshot) : res unit :=
  _require_sha256 (rs_plan_sha256 s) "IBKR snapshot request plan hash";;
  _require_sha256 (rs_request_sha256 s) "IBKR snapshot request hash";;
  raise_if (negb (nonempty (rs_instrument_id s)) || negb (nonempty (rs_request_kind s)))
           (ValueError "IBKR snapshot request identity is required");;
  require_utc (rs_interval_start s) "IBKR snapshot request interval_start";;
  require_utc (rs_interval_end s) "IBKR snapshot request interval_end";;
  raise_if (dt_leb (rs_interval_end s) (rs_interval_start s))
           (ValueError "IBKR snapshot request interval must be non-empty");;
  raise_if (rs_attempt_count s <? 0) (ValueError "IBKR snapshot request attempt_count cannot be negative");;
  match rs_result_sha256 s with
  | Some h => _require_sha256 h "IBKR snapshot request result hash"
  | None => Ok tt
  end;;
  require_utc_opt (rs_published_at s) "IBKR snapshot request published_at".

(** *** Copied evidence *)

Definition uuid_zero (u : UUID) : bool := bool_decide (u = zero_uuid).

Notation IbkrHistoricalAttemptEvidence := IbkrHistoricalAttempt.
Definition IbkrHistoricalAttemptEvidence_post_init (a : IbkrHistoricalAttemptEvidence) : res unit :=
  raise_if (uuid_zero (at_attempt_id a) || uuid_zero (at_connection_session_id a))
           (ValueError "IBKR attempt evidence UUIDs must be non-zero");;
  _require_sha256 (at_plan_sha256 a) "IBKR attempt evidence plan hash";;
  _require_sha256 (at_request_sha256 a) "IBKR attempt evidence request hash";;
  raise_if (at_attempt_ordinal a <=? 0) (ValueError "IBKR attempt evidence ordinal must be positive");;
  raise_if ((at_provider_request_id a <=? 0) || (at_connection_generation a <=? 0))
           (ValueError "IBKR attempt evidence provider identity must be positive");;
  require_utc (at_started_at a) "IBKR attempt evidence started_at";;
  match at_terminal_at a with
  | Some t =>
      require_utc t "IBKR attempt evidence terminal_at";;
      raise_if (dt_ltb t (at_started_at a)) (ValueError "IBKR attempt evidence terminal_at precedes started_at")
  | None => Ok tt
  end;;
  raise_if (match at_detail a with Some d => out_of_bounds d 2000 | None => false end)
           (ValueError "IBKR attempt evidence detail is unbounded");;
  if decide (at_status a = STARTED) then
    raise_if (bool_decide (is_Some (at_terminal_at a)) || bool_decide (is_Some (at_terminal_disposition a)))
             (ValueError "started attempt evidence cannot have terminal fields")
  else
    raise_if (bool_decide (at_terminal_at a = None)) (ValueError "finished attempt evidence requires terminal_at").

Definition opt_json {A} (f : A → res json) (v : option A) : res json :=
  match v with Some a => f a | None => Ok JNull end.

Definition attempt_evidence_json (a : IbkrHistoricalAttemptEvidence) : res json :=
  started_at ← artefact_time (at_started_at a);
  terminal_at ← opt_json (λ t, s ← artefact_time t; Ok (JStr s)) (at_terminal_at a);
  Ok (JObj [("attempt_id", JStr (uuid_text (at_attempt_id a)));
            ("plan_sha256", JStr (at_plan_sha256 a)); ("request_sha256", JStr (at_request_sha256 a));
            ("attempt_ordinal", JInt (at_attempt_ordinal a));
            ("connection_session_id", JStr (uuid_text (at_connection_session_id a)));
            ("provider_request_id", JInt (at_provider_request_id a));
            ("connection_generation", JInt (at_connection_generation a));
            ("started_at", JStr started_at); ("status", JStr (IbkrAttemptStatus_str (at_status a)));
            ("terminal_at", terminal_at);
            ("terminal_disposition", json_opt_str (IbkrTerminalDisposition_str <$> at_terminal_disposition a));
            ("detail", json_opt_str (at_detail a))]).

Notation IbkrHistoricalCallbackEvidence := IbkrHistoricalCallbackRecord.
Definition IbkrHistoricalCallbackEvidence_post_init (c : IbkrHistoricalCallbackEvidence) : res unit :=
  raise_if ((cr_callback_id c <=? 0) || uuid_zero (cr_attempt_id c))
           (ValueError "IBKR callback evidence identity must be positive");;
  raise_if (uuid_zero (cr_connection_session_id c))
           (ValueError "IBKR callback evidence session ID must be non-zero");;
  raise_if ((cr_provider_request_id c <=? 0) || (cr_connection_generation c <=? 0) || (cr_sequence c <=? 0))
           (ValueError "IBKR callback evidence transport identity must be positive");;
  require_utc (cr_received_at c) "IBKR callback evidence received_at";; Ok tt.

Definition callback_evidence_json (c : IbkrHistoricalCallbackEvidence) : res json :=
  received_at ← artefact_time (cr_received_at c);
  payload ← _json_object (cr_payload c) "callback payload";
  Ok (JObj [("callback_id", JInt (cr_callback_id c)); ("attempt_id", JStr (uuid_text (cr_attempt_id c)));
            ("connection_session_id", JStr (uuid_text (cr_connection_session_id c)));
            ("provider_request_id", JInt (cr_provider_request_id c));
            ("connection_generation", JInt (cr_connection_generation c)); ("sequence", JInt (cr_sequence c));
            ("kind", JStr (IbkrHistoricalCallbackKind_str (cr_kind c))); ("received_at", JStr received_at);
            ("payload", payload); ("closure_eligible", JBool (cr_closure_eligible c))]).

Notation IbkrHistoricalCompletionEvidence := IbkrHistoricalCompletionMarker.
Definition IbkrHistoricalCompletionEvidence_post_init (m : IbkrHistoricalCompletionEvidence) : res unit :=
  raise_if ((cm_marker_id m <=? 0) || uuid_zero (cm_attempt_id m))
           (ValueError "IBKR completion evidence identity must be positive");;
  raise_if (uuid_zero (cm_connection_session_id m))
           (ValueError "IBKR completion evidence session ID must be non-zero");;
  raise_if ((cm_provider_request_id m <=? 0) || (cm_connection_generation m <=? 0) || (cm_sequence m <=? 0))
           (ValueError "IBKR completion evidence transport identity must be positive");;
  require_utc (cm_completed_at m) "IBKR completion evidence completed_at";;
  raise_if ((cm_raw_midpoint_bar_callback_count m <? 0) || (cm_raw_schedule_callback_count m <? 0))
           (ValueError "IBKR completion evidence callback counts cannot be negative").

Definition completion_evidence_json (m : IbkrHistoricalCompletionEvidence) : res json :=
  completed_at ← artefact_time (cm_completed_at m);
  payload ← _json_object (cm_payload m) "completion payload";
  Ok (JObj [("marker_id", JInt (cm_marker_id m)); ("attempt_id", JStr (uuid_text (cm_attempt_id m)));
            ("connection_session_id", JStr (uuid_text (cm_connection_session_id m)));
            ("provider_request_id", JInt (cm_provider_request_id m));
            ("connection_generation", JInt (cm_connection_generation m)); ("sequence", JInt (cm_sequence m));
            ("completed_at", JStr completed_at);
            ("raw_midpoint_bar_callback_count", JInt (cm_raw_midpoint_bar_callback_count m));
            ("raw_schedule_callback_count", JInt (cm_raw_schedule_callback_count m));
            ("closure_eligible", JBool (cm_closure_eligible m)); ("payload", payload)]).

Record IbkrHistoricalExecutionSnapshot : Type := mkSnapshot {
  sn_plan : IbkrHistoricalPlanSnapshot;
  sn_requests : list IbkrHistoricalRequestSnapshot;
  sn_attempts : list IbkrHistoricalAttemptEvidence;
  sn_callbacks : list IbkrHistoricalCallbackEvidence;
  sn_completion_markers : list IbkrHistoricalCompletionEvidence }.
Definition IbkrHistoricalExecutionSnapshot_post_init (s : IbkrHistoricalExecutionSnapshot) : res unit :=
  raise_if (has_duplicates (map (λ r, (rs_plan_sha256 r, rs_request_sha256 r)) (sn_requests s)))
           (ValueError "IBKR execution snapshot request identities must be unique");;
  raise_if (has_duplicates (map at_attempt_id (sn_attempts s)))
           (ValueError "IBKR execution snapshot attempt identities must be unique");;
  raise_if (has_duplicates (map cr_callback_id (sn_callbacks s)))
           (ValueError "IBKR execution snapshot callback identities must be unique");;
  raise_if (has_duplicates (map cm_marker_id (sn_completion_markers s)))
           (ValueError "IBKR execution snapshot completion identities must be unique");;
  raise_if (existsb (λ r, negb (String.eqb (rs_plan_sha256 r) (ps_plan_sha256 (sn_plan s)))) (sn_requests s))
           (ValueError "IBKR execution snapshot contains a request from another plan");;
  raise_if (existsb (λ a, negb (String.eqb (at_plan_sha256 a) (ps_plan_sha256 (sn_plan s)))) (sn_attempts s))
           (ValueError "IBKR execution snapshot contains an attempt from another plan");;
  raise_if (existsb (λ a, negb (bool_decide (at_request_sha256 a ∈ map rs_request_sha256 (sn_requests s)))) (sn_attempts s))
           (ValueError "IBKR execution snapshot contains an orphan attempt");;
  raise_if (existsb (λ c, negb (bool_decide (cr_attempt_id c ∈ map at_attempt_id (sn_attempts s)))) (sn_callbacks s))
           (ValueError "IBKR execution snapshot contains an orphan callback");;
  raise_if (existsb (λ m, negb (bool_decide (cm_attempt_id m ∈ map at_attempt_id (sn_attempts s)))) (sn_completion_markers s))
           (ValueError "IBKR execution snapshot contains an orphan completion marker").

(** *** Published results *)

Record IbkrHistoricalChildReference : Type := mkChildReference {
  cf_path : string; cf_contract : string; cf_semantic_sha256 : string; cf_bytes_sha256 : string }.
Definition IbkrHistoricalChildReference_post_init (r : IbkrHistoricalChildReference) : res unit :=
  _require_safe_relative_path (cf_path r) "IBKR result child path";;
  raise_if (negb (nonempty (cf_contract r))) (ValueError "IBKR result child contract is required");;
  _require_sha256 (cf_semantic_sha256 r) "IBKR result child semantic hash";;
  _require_sha256 (cf_bytes_sha256 r) "IBKR result child bytes hash".
Definition IbkrHistoricalChildReference_new (r : IbkrHistoricalChildReference) : res IbkrHistoricalChildReference :=
  IbkrHistoricalChildReference_post_init r;; Ok r.
Definition child_reference_json (r : IbkrHistoricalChildReference) : json :=
  JObj [("path", JStr (cf_path r)); ("contract", JStr (cf_contract r));
        ("semantic_sha256", JStr (cf_semantic_sha256 r)); ("bytes_sha256", JStr (cf_bytes_sha256 r))].

Record IbkrHistoricalRequestResult : Type := mkRequestResult {
  rr_plan_sha256 : string;
  rr_request_sha256 : string;
  rr_request_payload : dict;
  rr_request_status : IbkrRequestStatus;
  rr_terminal_disposition : IbkrTerminalDisposition;
  rr_evidence_disposition : IbkrHistoricalEvidenceDisposition;
  rr_selected_attempt_id : UUID;
  rr_attempts : list IbkrHistoricalAttemptEvidence;
  rr_callbacks : list IbkrHistoricalCallbackEvidence;
  rr_completion_markers : list IbkrHistoricalCompletionEvidence;
  rr_accepted_rows : list dict;
  rr_sessions : list dict;
  rr_session_state : option string;
  rr_acquisition_started_at : datetime;
  rr_acquisition_completed_at : datetime;
  rr_retry_history : list dict;
  rr_error_classification : option dict;
  rr_result_sha256 : string }.

Definition request_result_payload (r : IbkrHistoricalRequestResult) : res dict :=
  request_payload ← _json_object (rr_request_payload r) "request payload";
  attempts ← traverse attempt_evidence_json (rr_attempts r);
  callbacks ← traverse callback_evidence_json (rr_callbacks r);
  completion_markers ← traverse completion_evidence_json (rr_completion_markers r);
  accepted_rows ← traverse (λ d, _json_object d "accepted row") (rr_accepted_rows r);
  sessions ← traverse (λ d, _json_object d "session") (rr_sessions r);
  acquisition_started_at ← artefact_time (rr_acquisition_started_at r);
  acquisition_completed_at ← artefact_time (rr_acquisition_completed_at r);
  retry_history ← traverse (λ d, _json_object d "retry history") (rr_retry_history r);
  error_classification ← opt_json (λ d, _json_object d "error classification") (rr_error_classification r);
  Ok [("contract", JStr REQUEST_RESULT_CONTRACT); ("schema_version", JInt REQUEST_RESULT_SCHEMA_VERSION);
      ("plan_sha256", JStr (rr_plan_sha256 r)); ("request_sha256", JStr (rr_request_sha256 r));
      ("request_payload", request_payload);
      ("request_status", JStr (IbkrRequestStatus_str (rr_request_status r)));
      ("terminal_disposition", JStr (IbkrTerminalDisposition_str (rr_terminal_disposition r)));
      ("evidence_disposition", JStr (IbkrHistoricalEvidenceDisposition_str (rr_evidence_disposition r)));
      ("selected_attempt_id", JStr (uuid_text (rr_selected_attempt_id r)));
      ("attempts", JList attempts); ("callbacks", JList callbacks);
      ("completion_markers", JList completion_markers);
      ("accepted_rows", JList accepted_rows); ("sessions", JList sessions);
      ("session_state", json_opt_str (rr_session_state r));
      ("acquisition_started_at", JStr acquisition_started_at);
      ("acquisition_completed_at", JStr acquisition_completed_at);
      ("retry_history", JList retry_history); ("error_classification", error_classification)].
Definition request_result_json (r : IbkrHistoricalRequestResult) : res json :=
  payload ← request_result_payload r; Ok (JObj (payload ++ [("result_sha256", JStr (rr_result_sha256 r))])).

Definition IbkrHistoricalRequestResult_post_init (r : IbkrHistoricalRequestResult) : res unit :=
  _require_sha256 (rr_plan_sha256 r) "IBKR request result plan hash";;
  _require_sha256 (rr_request_sha256 r) "IBKR request result request hash";;
  raise_if (negb (bool_decide (rr_request_status r ∈ [REQ_SUCCEEDED; TERMINAL])))
           (ValueError "IBKR request result must be terminal");;
  (if decide (rr_request_status r = REQ_SUCCEEDED)
   then raise_if (negb (bool_decide (rr_terminal_disposition r = TD_SUCCEEDED)))
          (ValueError "successful IBKR request result requires SUCCEEDED disposition")
   else raise_if (bool_decide (rr_terminal_disposition r = TD_SUCCEEDED))
          (ValueError "terminal IBKR request result cannot have SUCCEEDED disposition"));;
  raise_if (bool_decide (rr_request_status r = TERMINAL) && bool_decide (rr_evidence_disposition r = ED_SUCCEEDED))
           (ValueError "terminal IBKR request result cannot have successful evidence");;
  raise_if (uuid_zero (rr_selected_attempt_id r))
           (ValueError "IBKR request result selected attempt must be non-zero");;
  raise_if (Nat.eqb (length (rr_attempts r)) 0) (ValueError "IBKR request result requires attempt evidence");;
  raise_if (MAX_IBKR_RESULT_ATTEMPTS <? Z.of_nat (length (rr_attempts r)))
           (ValueError "IBKR request result attempts exceed their bound");;
  raise_if (MAX_IBKR_RESULT_CALLBACKS <? Z.of_nat (length (rr_callbacks r)))
           (ValueError "IBKR request result callbacks exceed their bound");;
  raise_if (MAX_IBKR_RESULT_COMPLETION_MARKERS <? Z.of_nat (length (rr_completion_markers r)))
           (ValueError "IBKR request result completion markers exceed their bound");;
  raise_if (existsb (λ a, negb (String.eqb (at_plan_sha256 a) (rr_plan_sha256 r))) (rr_attempts r))
           (ValueError "IBKR request result attempt plan identity differs");;
  raise_if (existsb (λ a, negb (String.eqb (at_request_sha256 a) (rr_request_sha256 r))) (rr_attempts r))
           (ValueError "IBKR request result attempt request identity differs");;
  raise_if (negb (bool_decide (rr_selected_attempt_id r ∈ map at_attempt_id (rr_attempts r))))
           (ValueError "IBKR request result selected attempt is absent");;
  raise_if (negb (bool_decide (rr_session_state r ∈ [None; Some "ACTIVE"; Some "INACTIVE"; Some "UNKNOWN"])))
           (ValueError "IBKR request result session state is unsupported");;
  require_utc (rr_acquisition_started_at r) "IBKR request result acquisition start";;
  require_utc (rr_acquisition_completed_at r) "IBKR request result acquisition completion";;
  raise_if (dt_ltb (rr_acquisition_completed_at r) (rr_acquisition_started_at r))
           (ValueError "IBKR request result acquisition completion precedes start");;
  _require_sha256 (rr_result_sha256 r) "IBKR request result hash";;
  payload ← request_result_payload r;
  raise_if (negb (String.eqb (rr_result_sha256 r) (sha256_json (JObj payload))))
           (ValueError "IBKR request result hash does not match canonical content").

Record IbkrHistoricalAggregateResult : Type := mkAggregateResult {
  ag_plan : IbkrHistoricalChildReference;
  ag_runtime_sha256 : string;
  ag_request_results : list IbkrHistoricalChildReference;
  ag_coverage_summary : dict;
  ag_entitlement_summary : dict;
  ag_result_id : string;
  ag_closure_id : string;
  ag_publication_status : string }.

Definition semantic_identity_payload (g : IbkrHistoricalAggregateResult) : res dict :=
  coverage_summary ← _json_object (ag_coverage_summary g) "coverage summary";
  entitlement_summary ← _json_object (ag_entitlement_summary g) "entitlement summary";
  Ok [("contract", JStr HISTORICAL_RESULT_CONTRACT); ("schema_version", JInt RESULT_SCHEMA_VERSION);
      ("plan_semantic_id", JStr (cf_semantic_sha256 (ag_plan g)));
      ("request_result_semantic_ids", JList (map (JStr ∘ cf_semantic_sha256) (ag_request_results g)));
      ("coverage_summary", coverage_summary); ("entitlement_summary", entitlement_summary)].
Definition closure_identity_payload (g : IbkrHistoricalAggregateResult) : res dict :=
  semantic ← semantic_identity_payload g;
  Ok (semantic ++
      [("result_id", JStr (ag_result_id g)); ("plan", child_reference_json (ag_plan g));
       ("runtime_sha256", JStr (ag_runtime_sha256 g));
       ("request_results", JList (map child_reference_json (ag_request_results g)));
       ("publication_status", JStr (ag_publication_status g))]).
Definition aggregate_json (g : IbkrHistoricalAggregateResult) : res json :=
  closure ← closure_identity_payload g; Ok (JObj (closure ++ [("closure_id", JStr (ag_closure_id g))])).

Definition IbkrHistoricalAggregateResult_post_init (g : IbkrHistoricalAggregateResult) : res unit :=
  _require_sha256 (ag_runtime_sha256 g) "IBKR aggregate runtime hash";;
  raise_if (negb (String.eqb (cf_contract (ag_plan g)) HISTORICAL_PLAN_CONTRACT))
           (ValueError "IBKR aggregate plan child has an unsupported contract");;
  raise_if (Nat.eqb (length (ag_request_results g)) 0)
           (ValueError "IBKR aggregate result requires request-result children");;
  raise_if (MAX_IBKR_RESULT_CHILDREN <? Z.of_nat (length (ag_request_results g)))
           (ValueError "IBKR aggregate result children exceed their bound");;
  raise_if (has_duplicates (map cf_path (ag_request_results g)))
           (ValueError "IBKR aggregate request-result child paths must be unique");;
  raise_if (has_duplicates (map cf_semantic_sha256 (ag_request_results g)))
           (ValueError "IBKR aggregate request-result child identities must be unique");;
  raise_if (negb (String.eqb (ag_publication_status g) "PUBLISHED_UNVERIFIED"))
           (ValueError "IBKR aggregate publication status is unsupported");;
  _require_sha256 (ag_result_id g) "IBKR aggregate result identity";;
  semantic ← semantic_identity_payload g;
  raise_if (negb (String.eqb (ag_result_id g) (sha256_json (JObj semantic))))
           (ValueError "IBKR aggregate result identity does not match semantic content");;
  _require_sha256 (ag_closure_id g) "IBKR aggregate closure identity";;
  closure ← closure_identity_payload g;
  raise_if (negb (String.eqb (ag_closure_id g) (sha256_json (JObj closure))))
           (ValueError "IBKR aggregate closure identity does not match physical content").

Record IbkrHistoricalResultVerificationReceipt : Type := mkReceipt {
  vr_result_id : string;
  vr_closure_id : string;
  vr_result_contract : string;
  vr_result_schema_version : Z;
  vr_manifest_sha256 : string;
  vr_plan_semantic_id : string;
  vr_verifier_contract : string;
  vr_verifier_version : string;
  vr_completed_checks : list string;
  vr_verifier_identity : string;
  vr_verification_id : string }.

Definition verifier_identity_payload (r : IbkrHistoricalResultVerificationReceipt) : dict :=
  [("contract", JStr (vr_verifier_contract r)); ("version", JStr (vr_verifier_version r));
   ("completed_checks", JList (map JStr (vr_completed_checks r)))].
Definition receipt_payload (r : IbkrHistoricalResultVerificationReceipt) : dict :=
  [("contract", JStr HISTORICAL_RESULT_VERIFICATION_RECEIPT_CONTRACT);
   ("result_contract", JStr (vr_result_contract r)); ("result_schema_version", JInt (vr_result_schema_version r));
   ("result_id", JStr (vr_result_id r)); ("closure_id", JStr (vr_closure_id r));
   ("manifest_sha256", JStr (vr_manifest_sha256 r)); ("plan_semantic_id", JStr (vr_plan_semantic_id r));
   ("verifier_contract", JStr (vr_verifier_contract r)); ("verifier_version", JStr (vr_verifier_version r));
   ("completed_checks", JList (map JStr (vr_completed_checks r)));
   ("verifier_identity", JStr (vr_verifier_identity r))].
Definition receipt_json (r : IbkrHistoricalResultVerificationReceipt) : json :=
  JObj (receipt_payload r ++ [("verification_id", JStr (vr_verification_id r))]).

Definition IbkrHistoricalResultVerificationReceipt_post_init (r : IbkrHistoricalResultVerificationReceipt) : res unit :=
  raise_if (negb (String.eqb (vr_result_contract r) HISTORICAL_RESULT_CONTRACT)
            || negb (vr_result_schema_version r =? RESULT_SCHEMA_VERSION))
           (ValueError "IBKR result receipt Stage 6 contract or schema is unsupported");;
  for_each (λ _ vf, _require_sha256 vf.1 vf.2) tt
    [(vr_result_id r, "receipt result identity"); (vr_closure_id r, "receipt closure identity");
     (vr_manifest_sha256 r, "receipt manifest hash"); (vr_plan_semantic_id r, "receipt plan identity");
     (vr_verifier_identity r, "receipt verifier identity"); (vr_verification_id r, "receipt identity")];;
  raise_if (negb (String.eqb (vr_verifier_contract r) HISTORICAL_RESULT_VERIFICATION_RECEIPT_CONTRACT)
            || negb (nonempty (vr_verifier_version r)))
           (ValueError "IBKR result receipt verifier contract is unsupported");;
  raise_if (Nat.eqb (length (vr_completed_checks r)) 0 || has_duplicates (vr_completed_checks r))
           (ValueError "IBKR result receipt completed checks are invalid");;
  raise_if (negb (String.eqb (vr_verifier_identity r) (sha256_json (JObj (verifier_identity_payload r)))))
           (ValueError "IBKR result receipt verifier identity changed");;
  raise_if (negb (String.eqb (vr_verification_id r) (sha256_json (JObj (receipt_payload r)))))
           (ValueError "IBKR result receipt identity changed").

Record IbkrHistoricalResultArtifact : Type := mkArtifact {
  ra_plan : IbkrHistoricalPlan;
  ra_plan_bytes : string;
  ra_request_results : list IbkrHistoricalRequestResult;
  ra_aggregate : IbkrHistoricalAggregateResult }.
Definition same_hashes (a b : list string) : bool :=
  bool_decide ((list_to_set a : gset string) = list_to_set b).
Definition IbkrHistoricalResultArtifact_post_init (a : IbkrHistoricalResultArtifact) : res unit :=
  raise_if (negb (nonempty (ra_plan_bytes a))) (ValueError "IBKR result artifact plan bytes cannot be empty");;
  raise_if (negb (same_hashes (map rr_request_sha256 (ra_request_results a))
                    (map hr_request_sha256 (hp_requests (ra_plan a)))))
           (ValueError "IBKR result artifact request closure differs from its plan");;
  raise_if (negb (String.eqb (ag_runtime_sha256 (ra_aggregate a)) (hp_runtime_sha256 (ra_plan a))))
           (ValueError "IBKR result artifact runtime identity differs from its plan").

(** ** Reading provider payloads (application/ibkr_results.py) *)

(** The private subclasses of [ValueError]. *)
Definition EvidenceInvalid := Exn KEvidenceInvalid.
Definition EvidenceConflict := Exn KEvidenceConflict.
Definition EvidenceUnavailable := Exn KEvidenceUnavailable.
(** [except ValueError] *)
Definition is_value_error (e : exn) : bool :=
  bool_decide (exn_class e ∈ [KValueError; KEvidenceInvalid; KEvidenceConflict; KEvidenceUnavailable]).

Definition _MINUTE : timedelta := minutes 1.
Definition _EPOCH_KEYS : list string := ["date"; "time"; "timestamp"].
Definition _OHLC_KEYS : list string := ["open"; "high"; "low"; "close"].
Definition _SESSION_START_KEYS : list string := ["startDateTime"; "start"; "start_time"; "interval_start"].
Definition _SESSION_END_KEYS : list string := ["endDateTime"; "end"; "end_time"; "interval_end"].
Definition _SESSION_ACTIVE_KEYS : list string := ["isOpen"; "is_open"; "active"].

Definition has_key (key : string) (d : dict) : bool := bool_decide (is_Some (dict_get key d)).
(** [None] when no key is present, and when the first present one holds null. *)
Definition _first_present (payload : dict) (keys : list string) : json :=
  match List.find (λ k, has_key k payload) keys with
  | Some k => dict_opt k payload
  | None => JNull
  end.

(** [str.isdigit] accepts superscript digits, which [int] refuses; [int] also refuses more
    than 4300 digits. *)
Definition superscript (c : ascii) : bool := bool_decide (N_of_ascii c ∈ [178; 179; 185]%N).
Definition isdigit (s : string) : bool := nonempty s && forallb (λ c, is_digit c || superscript c) (chars s).
Definition int_of_digits (s : string) : res Z :=
  raise_if (existsb superscript (chars s)) (ValueError ("invalid literal for int() with base 10: '" +:+ s +:+ "'"));;
  raise_if (4300 <? len s)
    (ValueError ("Exceeds the limit (4300 digits) for integer string conversion: value has " +:+ str_Z (len s)
                 +:+ " digits; use sys.set_int_max_str_digits() to increase the limit"));;
  Ok (parse_digits s).

(** [datetime.fromtimestamp(epoch, tz=UTC)]: the years 1 to 9999. *)
Definition from_epoch (epoch : Z) (field : string) : res datetime :=
  raise_if ((epoch <? -62135596800) || (253402300799 <? epoch))
           (ValueError (field +:+ " is outside the UTC timestamp range"));;
  Ok (utc (seconds epoch)).

Definition _provider_epoch (payload : dict) (field : string) : res datetime :=
  match _first_present payload _EPOCH_KEYS with
  | JNull => Raise (ValueError (field +:+ " is missing"))
  | JBool _ => Raise (ValueError (field +:+ " must be an epoch value"))
  | JInt epoch => from_epoch epoch field
  | JStr value =>
      if isdigit value then epoch ← int_of_digits value; from_epoch epoch field
      else Raise (ValueError (field +:+ " must be an integer epoch value"))
  | _ => Raise (ValueError (field +:+ " must be an integer epoch value"))
  end.

Definition _provider_datetime (value : json) (field : string) : res datetime :=
  match value with
  | JInt epoch => from_epoch epoch field
  | JStr value =>
      if isdigit value then epoch ← int_of_digits value; from_epoch epoch field else
      match fromisoformat (replace "Z" "+00:00" value) with
      | Raise _ => Raise (ValueError (field +:+ " must be UTC epoch or ISO-8601"))
      | Ok parsed =>
          raise_if (negb (bool_decide (dt_offset parsed = Some 0))) (ValueError (field +:+ " must use UTC"));;
          Ok parsed
      end
  | _ => Raise (ValueError (field +:+ " must be UTC epoch or ISO-8601"))
  end.

(** [str(value)] of what [Decimal] may accept, and [Decimal(text)] for finite numerals:
    blanks around the numeral and underscores in it are ignored. *)
Definition numeral (value : json) : option string :=
  match value with
  | JInt n => if 4300 <? len (digits (Z.abs n)) then None else Some (str_Z n)
  | JFloat r => Some r
  | JStr s => Some s
  | _ => None
  end.
Definition read_numeral (s : string) : option Decimal :=
  read_decimal (of_chars (map upper_e (List.filter (λ c, negb (Ascii.eqb c "_")) (strip (chars s))))).

(** [text.rstrip(c)] *)
Fixpoint drop_char (c : ascii) (l : list ascii) : list ascii :=
  match l with x :: l' => if Ascii.eqb x c then drop_char c l' else l | [] => [] end.
Definition rstrip (c : ascii) (s : string) : string := of_chars (rev (drop_char c (rev (chars s)))).

(** The text of a finite decimal without trailing zeros. *)
Definition plain_text (d : Decimal) : string :=
  let text := dec_format_f d in
  let text := if existsb (Ascii.eqb "."%char) (chars text) then rstrip "." (rstrip "0" text) else text in
  if bool_decide (text ∈ [""; "-0"]) then "0" else text.
Definition _canonical_decimal (value : json) (field : string) : res string :=
  match s ← numeral value; read_numeral s with
  | Some parsed => Ok (plain_text parsed)
  | None => Raise (EvidenceInvalid (field +:+ " must be a finite decimal"))
  end.

Definition _bool_value (value : json) (field : string) : res bool :=
  match value with
  | JBool b => Ok b
  | JInt n => if bool_decide (n ∈ [0; 1]) then Ok (negb (n =? 0))
              else Raise (ValueError (field +:+ " must be boolean or zero/one"))
  | _ => Raise (ValueError (field +:+ " must be boolean or zero/one"))
  end.
Definition _optional_bool (payload : dict) (keys : list string) : res (option bool) :=
  match _first_present payload keys with
  | JNull => Ok None
  | value => b ← _bool_value value "schedule activity"; Ok (Some b)
  end.

(** *** Bars *)

Definition without (key : string) (d : dict) : dict := List.filter (λ kv, negb (String.eqb kv.1 key)) d.
Definition by_start_get (t : datetime) (l : list (datetime * dict)) : option dict :=
  snd <$> List.find (λ kv, dt_eqb kv.1 t) l.

Definition bar_row (request : IbkrHistoricalRequest) (c : IbkrHistoricalCallbackEvidence) (timestamp : datetime)
    (open high low close : string) : dict :=
  [("bar_start", JStr (utc_text timestamp));
   ("bar_end", JStr (utc_text (dt_min (dt_add timestamp _MINUTE) (hr_interval_end request))));
   ("open", JStr open); ("high", JStr high); ("low", JStr low); ("close", JStr close);
   ("volume", dict_opt "volume" (cr_payload c)); ("wap", dict_opt "wap" (cr_payload c));
   ("count", dict_opt "count" (cr_payload c)); ("callback_sequence", JInt (cr_sequence c))].

Definition bar_decimal (c : IbkrHistoricalCallbackEvidence) (key : string) : res string :=
  _canonical_decimal (dict_opt key (cr_payload c)) ("historical bar " +:+ key).
Definition invalid_ohlc (open high low close : Decimal) : bool :=
  dec_ltb low dec_zero || dec_ltb high low || dec_ltb open low || dec_ltb close low
  || dec_ltb high open || dec_ltb high close.

Definition bar_callback (request : IbkrHistoricalRequest) (by_start : list (datetime * dict))
    (c : IbkrHistoricalCallbackEvidence) : res (list (datetime * dict)) :=
  if negb (bool_decide (cr_kind c = CB_MIDPOINT_BAR)) then Ok by_start else
  timestamp ← _provider_epoch (cr_payload c) "historical bar timestamp";
  if dt_ltb timestamp (hr_interval_start request) || dt_leb (hr_interval_end request) timestamp then Ok by_start else
  raise_if (off_minute timestamp) (EvidenceInvalid "IBKR historical bar timestamp is not minute-aligned");;
  let missing := List.filter (λ k, negb (has_key k (cr_payload c))) _OHLC_KEYS in
  raise_if (negb (Nat.eqb (length missing) 0))
           (EvidenceInvalid ("IBKR historical callback is missing OHLC: " +:+ join ", " missing));;
  open ← bar_decimal c "open"; high ← bar_decimal c "high"; low ← bar_decimal c "low"; close ← bar_decimal c "close";
  open_value ← Decimal_of_str open; high_value ← Decimal_of_str high;
  low_value ← Decimal_of_str low; close_value ← Decimal_of_str close;
  raise_if (invalid_ohlc open_value high_value low_value close_value)
           (EvidenceInvalid "IBKR historical callback contains invalid OHLC");;
  let row := bar_row request c timestamp open high low close in
  match by_start_get timestamp by_start with
  | Some previous =>
      raise_if (json_neqb (JObj (without "callback_sequence" previous)) (JObj (without "callback_sequence" row)))
               (EvidenceConflict "IBKR historical callback contains conflicting duplicate OHLC");;
      Ok by_start
  | None => Ok (by_start ++ [(timestamp, row)])
  end.
Definition _normalise_bars (request : IbkrHistoricalRequest) (callbacks : list IbkrHistoricalCallbackEvidence)
    : res (list dict) :=
  by_start ← for_each (bar_callback request) [] callbacks;
  Ok (map snd (py_sorted (λ kv, instant kv.1) by_start)).

(** *** Sessions *)

(** A value of [sessions_by_interval], whose key is its interval. *)
Record ScheduleSession : Type := mkSession {
  ss_start : datetime; ss_end : datetime; ss_active : bool; ss_sequence : Z; ss_provider : dict }.
Definition session_dict (s : ScheduleSession) : dict :=
  [("interval_start", JStr (utc_text (ss_start s))); ("interval_end", JStr (utc_text (ss_end s)));
   ("active", JBool (ss_active s)); ("callback_sequence", JInt (ss_sequence s));
   ("provider_session", JObj (ss_provider s))].

Record ScheduleState : Type := mkScheduleState {
  sc_sessions : list ScheduleSession;
  sc_activity : list bool;
  sc_saw_nonempty : bool;
  sc_saw_callback : bool }.

(** [except ValueError as error: raise _EvidenceUnavailable(str(error))] *)
Definition or_unavailable {A} (r : res A) : res A :=
  match r with
  | Raise e => if is_value_error e then Raise (EvidenceUnavailable (exn_msg e)) else Raise e
  | Ok a => Ok a
  end.

Definition activity_conflict : exn := EvidenceConflict "IBKR schedule activity declarations conflict".
Definition add_activity (active : bool) (activity : list bool) : list bool :=
  if bool_decide (active ∈ activity) then activity else activity ++ [active].
(** [activity_declarations and active not in activity_declarations] *)
Definition contradicts (active : bool) (activity : list bool) : bool :=
  negb (Nat.eqb (length activity) 0) && negb (bool_decide (active ∈ activity)).

Definition schedule_session (request : IbkrHistoricalRequest) (sequence : Z) (activity : list bool)
    (sessions : list ScheduleSession) (raw : json) : res (list ScheduleSession) :=
  match raw with
  | JObj session =>
      let start_value := _first_present session _SESSION_START_KEYS in
      let end_value := _first_present session _SESSION_END_KEYS in
      let active_value := _first_present session _SESSION_ACTIVE_KEYS in
      raise_if (bool_decide (start_value = JNull) || bool_decide (end_value = JNull) || bool_decide (active_value = JNull))
               (EvidenceUnavailable "IBKR schedule session lacks required fields");;
      '(start, end_, active) ← or_unavailable (
        start ← _provider_datetime start_value "schedule session start";
        end_ ← _provider_datetime end_value "schedule session end";
        active ← _bool_value active_value "schedule session active";
        Ok (start, end_, active));
      raise_if (dt_leb end_ start) (EvidenceUnavailable "IBKR schedule session interval is invalid");;
      let clipped_start := dt_max start (hr_interval_start request) in
      let clipped_end := dt_min end_ (hr_interval_end request) in
      if dt_leb clipped_end clipped_start then Ok sessions else
      raise_if (existsb (λ e, dt_ltb clipped_start (ss_end e) && dt_ltb (ss_start e) clipped_end
                              && negb (Bool.eqb (ss_active e) active)) sessions)
               (EvidenceConflict "IBKR schedule declarations overlap with conflicting activity");;
      match List.find (λ e, dt_eqb (ss_start e) clipped_start && dt_eqb (ss_end e) clipped_end) sessions with
      | Some existing =>
          raise_if (negb (Bool.eqb (ss_active existing) active))
                   (EvidenceConflict "IBKR schedule declarations conflict for one interval");;
          Ok sessions
      | None =>
          raise_if (contradicts active activity) activity_conflict;;
          Ok (sessions ++ [mkSession clipped_start clipped_end active sequence session])
      end
  | _ => Raise (EvidenceUnavailable "IBKR schedule session must be an object")
  end.

Definition schedule_callback (request : IbkrHistoricalRequest) (s : ScheduleState)
    (c : IbkrHistoricalCallbackEvidence) : res ScheduleState :=
  if negb (bool_decide (cr_kind c = CB_SCHEDULE)) then Ok s else
  match dict_opt "sessions" (cr_payload c) with
  | JNull =>
      active ← or_unavailable (_optional_bool (cr_payload c) _SESSION_ACTIVE_KEYS);
      match active with
      | None => Raise (EvidenceUnavailable "IBKR schedule callback has no structural session evidence")
      | Some active =>
          raise_if (contradicts active (sc_activity s)) activity_conflict;;
          Ok (mkScheduleState (sc_sessions s) (add_activity active (sc_activity s)) (sc_saw_nonempty s) true)
      end
  | JList [] =>
      raise_if (bool_decide (true ∈ sc_activity s)) activity_conflict;;
      Ok (mkScheduleState (sc_sessions s) (add_activity false (sc_activity s)) (sc_saw_nonempty s) true)
  | JList session_values =>
      sessions ← for_each (schedule_session request (cr_sequence c) (sc_activity s)) (sc_sessions s) session_values;
      Ok (mkScheduleState sessions (sc_activity s) true true)
  | _ => Raise (EvidenceUnavailable "IBKR schedule sessions must be an array")
  end.

Definition _normalise_schedule (request : IbkrHistoricalRequest) (callbacks : list IbkrHistoricalCallbackEvidence)
    : res (list dict * string) :=
  s ← for_each (schedule_callback request) (mkScheduleState [] [] false false) callbacks;
  let undeclared := Nat.eqb (length (sc_activity s)) 0 in
  let empty := Nat.eqb (length (sc_sessions s)) 0 in
  raise_if (negb (sc_saw_callback s))
           (EvidenceUnavailable "successful IBKR schedule request has no schedule callback");;
  raise_if (sc_saw_nonempty s && empty && undeclared)
           (EvidenceUnavailable "IBKR schedule sessions do not overlap the requested interval");;
  raise_if (undeclared && empty) (EvidenceUnavailable "IBKR schedule callback has no declared activity");;
  let structured_activity_values := fold_left (λ l e, add_activity (ss_active e) l) (sc_sessions s) [] in
  let activity_values := fold_left (λ l a, add_activity a l) structured_activity_values (sc_activity s) in
  raise_if (negb undeclared && negb (Nat.eqb (length structured_activity_values) 0)
            && (1 <? Z.of_nat (length activity_values)))
           (EvidenceConflict "IBKR schedule activity declarations conflict with structured sessions");;
  raise_if ((1 <? Z.of_nat (length activity_values)) && empty) activity_conflict;;
  let state := if existsb id activity_values then "ACTIVE" else "INACTIVE" in
  Ok (map session_dict (py_sorted (λ e, (utc_text (ss_start e), ss_sequence e)) (sc_sessions s)), state).
