(* ===== verification/IbkrResults.v ===== *)
(** Results of IBKR historical acquisition, [application/ibkr_results.py]: the evidence of a
    request derived from its raw callbacks, the construction of request and aggregate results
    from a snapshot of the execution store, their independent replay, and the verification of
    a snapshot before execution goes on.

    [json.loads] of the stored plan bytes is the variable [json_loads], [None] when it raises,
    as in IbkrStore.v. *)

From S2P Require Import Prelude PySorted PyStr PyTime PyDecimal Sha256 PyJson PyParse Domain Storage EventStore CaptureFeed IbkrPlan IbkrStore IbkrEvidence.

(** ** Dictionaries *)

(** [{key(x): x for x in values}]: a repeated key keeps its place and takes the last value. *)
Fixpoint assoc_set {A} (k : string) (v : A) (d : list (string * A)) : list (string * A) :=
  match d with
  | [] => [(k, v)]
  | (k', v') :: d => if String.eqb k' k then (k', v) :: d else (k', v') :: assoc_set k v d
  end.
Definition dict_by {A} (key : A → string) (values : list A) : list (string * A) :=
  fold_left (λ d x, assoc_set (key x) x d) values [].
Definition assoc_get {A} (k : string) (d : list (string * A)) : option A :=
  snd <$> List.find (λ kv, String.eqb kv.1 k) d.
(** [d[key]] *)
Definition assoc_item {A} (k : string) (d : list (string * A)) : res A :=
  match assoc_get k d with Some v => Ok v | None => Raise (KeyError k) end.

Definition _group_by {K T} `{Countable K} (key : T → K) (values : list T) : gmap K (list T) :=
  fold_left (λ g v, <[key v := default [] (g !! key v) ++ [v]]> g) values ∅.
(** [groups.get(key, ())] *)
Definition group_get {K T} `{Countable K} (k : K) (g : gmap K (list T)) : list T := default [] (g !! k).

(** The number of [True] answers. *)
Definition count_by {T} (f : T → bool) (l : list T) : Z := Z.of_nat (length (List.filter f l)).

(** ** Closure of an attempt *)

Definition _callback_matches_attempt (c : IbkrHistoricalCallbackEvidence) (a : IbkrHistoricalAttemptEvidence) : bool :=
  bool_decide (cr_connection_session_id c = at_connection_session_id a)
  && (cr_provider_request_id c =? at_provider_request_id a)
  && (cr_connection_generation c =? at_connection_generation a).
Definition _completion_matches_attempt (m : IbkrHistoricalCompletionEvidence) (a : IbkrHistoricalAttemptEvidence) : bool :=
  bool_decide (cm_connection_session_id m = at_connection_session_id a)
  && (cm_provider_request_id m =? at_provider_request_id a)
  && (cm_connection_generation m =? at_connection_generation a).

(** The records of an attempt. *)
Definition of_attempt (a : IbkrHistoricalAttemptEvidence) (c : IbkrHistoricalCallbackEvidence) : bool :=
  bool_decide (cr_attempt_id c = at_attempt_id a).
Definition marks_attempt (a : IbkrHistoricalAttemptEvidence) (m : IbkrHistoricalCompletionEvidence) : bool :=
  bool_decide (cm_attempt_id m = at_attempt_id a).

(** [tuple(range(1, n + 1))] *)
Definition ordinals (n : nat) : list Z := map Z.of_nat (seq 1 n).

Definition check_transition (previous : option IbkrHistoricalAttemptEvidence) (attempt : IbkrHistoricalAttemptEvidence)
    : res (option IbkrHistoricalAttemptEvidence) :=
  raise_if (bool_decide (at_status attempt = STARTED) || bool_decide (at_terminal_at attempt = None))
           (ValueError "published IBKR attempt is not a completed state transition");;
  match at_status attempt with
  | INVALIDATED =>
      raise_if (bool_decide (is_Some (at_terminal_disposition attempt)))
               (ValueError "invalidated IBKR attempt has a terminal disposition")
  | ATT_SUCCEEDED =>
      raise_if (negb (bool_decide (at_terminal_disposition attempt = Some TD_SUCCEEDED)))
               (ValueError "successful IBKR attempt has a failure disposition")
  | RETRYABLE_FAILURE | TERMINAL_FAILURE =>
      raise_if (bool_decide (at_terminal_disposition attempt = None)
                || bool_decide (at_terminal_disposition attempt = Some TD_SUCCEEDED))
               (ValueError "failed IBKR attempt has an invalid disposition")
  | STARTED => Raise (ValueError "published IBKR attempt has an unknown status")
  end;;
  match previous with
  | None => Ok tt
  | Some previous =>
      match at_terminal_at previous with
      | None => Raise (ValueError "previous IBKR attempt transition is unfinished")
      | Some previous_terminal_at =>
          raise_if (dt_ltb (at_started_at attempt) previous_terminal_at)
                   (ValueError "IBKR attempt transitions overlap or are out of order")
      end
  end;;
  Ok (Some attempt).
Definition _validate_attempt_sequence (attempts : list IbkrHistoricalAttemptEvidence) : res unit :=
  raise_if (Nat.eqb (length attempts) 0) (ValueError "IBKR request-result requires attempt evidence");;
  raise_if (negb (bool_decide (map at_attempt_ordinal attempts = ordinals (length attempts))))
           (ValueError "IBKR request-result attempt ordinals are not contiguous");;
  raise_if (has_duplicates (map at_attempt_id attempts))
           (ValueError "IBKR request-result attempt identities are duplicated");;
  for_each check_transition None attempts;;
  Ok tt.

(** [any(previous.received_at > current.received_at for previous, current in pairwise(callbacks))] *)
Definition received_backwards (callbacks : list IbkrHistoricalCallbackEvidence) : bool :=
  existsb (λ pc, dt_ltb (cr_received_at pc.2) (cr_received_at pc.1)) (zip callbacks (tail callbacks)).
Definition marker_matches_callback (m : IbkrHistoricalCompletionEvidence) (c : IbkrHistoricalCallbackEvidence) : bool :=
  bool_decide (cm_attempt_id m = cr_attempt_id c)
  && bool_decide (cm_connection_session_id m = cr_connection_session_id c)
  && (cm_provider_request_id m =? cr_provider_request_id c)
  && (cm_connection_generation m =? cr_connection_generation c)
  && (cm_sequence m =? cr_sequence c) && dt_eqb (cm_completed_at m) (cr_received_at c)
  && json_eqb (JObj (cm_payload m)) (JObj (cr_payload c))
  && Bool.eqb (cm_closure_eligible m) (cr_closure_eligible c).

Section closure.
Context (allow_recoverable_started : bool).

Definition expected_completion (attempt : IbkrHistoricalAttemptEvidence) (marker : IbkrHistoricalCompletionEvidence) : bool :=
  _completion_matches_attempt marker attempt
  && match at_terminal_at attempt with
     | Some t => dt_leb (cm_completed_at marker) t
     | None => allow_recoverable_started
     end.
Definition check_completion (attempt : IbkrHistoricalAttemptEvidence)
    (attempt_markers matching : list IbkrHistoricalCompletionEvidence) (c : IbkrHistoricalCallbackEvidence)
    : res (list IbkrHistoricalCompletionEvidence) :=
  match List.filter (λ m, cm_sequence m =? cr_sequence c) attempt_markers with
  | [marker] =>
      raise_if (negb (marker_matches_callback marker c))
               (ValueError "IBKR completion marker does not match its raw completion callback");;
      raise_if (negb (Bool.eqb (cm_closure_eligible marker) (expected_completion attempt marker)))
               (ValueError "IBKR completion marker eligibility does not replay");;
      Ok (if cm_closure_eligible marker then matching ++ [marker] else matching)
  | _ => Raise (ValueError "IBKR completion callbacks and markers are not one-to-one")
  end.
Definition expected_callback (attempt : IbkrHistoricalAttemptEvidence) (completion : option IbkrHistoricalCompletionEvidence)
    (c : IbkrHistoricalCallbackEvidence) : bool :=
  _callback_matches_attempt c attempt
  && match completion with
     | Some m => (cr_sequence c <=? cm_sequence m) && dt_leb (cr_received_at c) (cm_completed_at m)
     | None => match at_terminal_at attempt with Some t => dt_leb (cr_received_at c) t | None => true end
     end.
(** Eligible callbacks of one kind before the marker. *)
Definition counted_before (callbacks : list IbkrHistoricalCallbackEvidence) (sequence : Z)
    (kind : IbkrHistoricalCallbackKind) : Z :=
  count_by (λ c, cr_closure_eligible c && (cr_sequence c <? sequence) && bool_decide (cr_kind c = kind)) callbacks.

Definition attempt_closure (callbacks : list IbkrHistoricalCallbackEvidence)
    (markers : list IbkrHistoricalCompletionEvidence) (attempt : IbkrHistoricalAttemptEvidence) : res unit :=
  let attempt_callbacks := List.filter (of_attempt attempt) callbacks in
  raise_if (negb (bool_decide (map cr_sequence attempt_callbacks = ordinals (length attempt_callbacks))))
           (ValueError "IBKR callback sequences are not unique and monotonic");;
  raise_if (received_backwards attempt_callbacks) (ValueError "IBKR callback received times are not monotonic");;
  let attempt_markers := List.filter (marks_attempt attempt) markers in
  let completion_callbacks := List.filter (λ c, bool_decide (cr_kind c = CB_COMPLETION)) attempt_callbacks in
  raise_if (negb (Nat.eqb (length completion_callbacks) (length attempt_markers)))
           (ValueError "IBKR completion callbacks and markers are not one-to-one");;
  matching_markers ← for_each (check_completion attempt attempt_markers) [] completion_callbacks;
  raise_if (1 <? Z.of_nat (length matching_markers))
           (ValueError "IBKR attempt has multiple eligible completion markers");;
  for_each (λ _ c, raise_if (negb (Bool.eqb (cr_closure_eligible c) (expected_callback attempt (head matching_markers) c)))
                     (ValueError "IBKR callback eligibility does not replay")) tt attempt_callbacks;;
  for_each (λ _ m,
      raise_if (negb (cm_raw_midpoint_bar_callback_count m
                      =? counted_before attempt_callbacks (cm_sequence m) CB_MIDPOINT_BAR))
               (ValueError "IBKR completion midpoint count does not replay");;
      raise_if (negb (cm_raw_schedule_callback_count m =? counted_before attempt_callbacks (cm_sequence m) CB_SCHEDULE))
               (ValueError "IBKR completion schedule count does not replay")) tt attempt_markers.
Definition _validate_callback_closure (attempts : list IbkrHistoricalAttemptEvidence)
    (callbacks : list IbkrHistoricalCallbackEvidence) (markers : list IbkrHistoricalCompletionEvidence) : res unit :=
  for_each (λ _ a, attempt_closure callbacks markers a) tt attempts.

Definition _eligible_markers_for_evidence (markers : list IbkrHistoricalCompletionEvidence)
    (selected : IbkrHistoricalAttemptEvidence) : list IbkrHistoricalCompletionEvidence :=
  List.filter (λ m, marks_attempt selected m && cm_closure_eligible m
                    && _completion_matches_attempt m selected) markers.

Definition attempt_outcome (request : IbkrHistoricalRequest) (callbacks : list IbkrHistoricalCallbackEvidence)
    (markers : list IbkrHistoricalCompletionEvidence) (attempt : IbkrHistoricalAttemptEvidence) : res unit :=
  let eligible_markers := _eligible_markers_for_evidence markers attempt in
  raise_if (1 <? Z.of_nat (length eligible_markers))
           (ValueError "IBKR attempt has multiple eligible completion markers");;
  if decide (at_status attempt = STARTED) then
    raise_if (negb allow_recoverable_started) (ValueError "IBKR started attempt has an eligible completion marker")
  else
    raise_if (bool_decide (at_status attempt = ATT_SUCCEEDED) && negb (Nat.eqb (length eligible_markers) 1))
             (ValueError "successful IBKR attempt requires exactly one eligible completion marker");;
    match eligible_markers with
    | [] => Ok tt
    | marker :: _ =>
        let eligible_callbacks :=
          List.filter (λ c, of_attempt attempt c && cr_closure_eligible c
                            && _callback_matches_attempt c attempt && (cr_sequence c <? cm_sequence marker)) callbacks in
        let '(expected_status, expected_disposition) :=
          if existsb (λ c, bool_decide (cr_kind c = CB_ERROR)) eligible_callbacks
          then (TERMINAL_FAILURE, PROVIDER_REJECTED)
          else if bool_decide (hr_kind request = SCHEDULE) && (cm_raw_schedule_callback_count marker =? 0)
          then (TERMINAL_FAILURE, SESSION_EVIDENCE_UNAVAILABLE)
          else (ATT_SUCCEEDED, TD_SUCCEEDED) in
        raise_if (negb (bool_decide (at_status attempt = expected_status))
                  || negb (bool_decide (at_terminal_disposition attempt = Some expected_disposition)))
                 (ValueError "IBKR attempt status/disposition does not match its eligible closure")
    end.
Definition _validate_attempt_outcomes (request : IbkrHistoricalRequest) (attempts : list IbkrHistoricalAttemptEvidence)
    (callbacks : list IbkrHistoricalCallbackEvidence) (markers : list IbkrHistoricalCompletionEvidence) : res unit :=
  for_each (λ _ a, attempt_outcome request callbacks markers a) tt attempts.
End closure.

(** ** Evidence of a request *)

Record _DerivedRequestEvidence : Type := mkDerived {
  de_selected : IbkrHistoricalAttemptEvidence;
  de_terminal_disposition : IbkrTerminalDisposition;
  de_evidence_disposition : IbkrHistoricalEvidenceDisposition;
  de_callbacks : list IbkrHistoricalCallbackEvidence;
  de_completion_markers : list IbkrHistoricalCompletionEvidence;
  de_accepted_rows : list dict;
  de_sessions : list dict;
  de_session_state : option string;
  de_error_classification : option dict }.

Definition callback_order (c : IbkrHistoricalCallbackEvidence) : string * (Z * Z) :=
  (uuid_text (cr_attempt_id c), (cr_sequence c, cr_callback_id c)).
Definition marker_order (m : IbkrHistoricalCompletionEvidence) : string * (Z * Z) :=
  (uuid_text (cm_attempt_id m), (cm_sequence m, cm_marker_id m)).

Definition _empty_result_values (request : IbkrHistoricalRequest) : list dict * list dict * option string :=
  match hr_kind request with MIDPOINT_BARS => ([], [], None) | SCHEDULE => ([], [], Some "UNKNOWN") end.
Definition _evidence_for_terminal (disposition : IbkrTerminalDisposition) : res IbkrHistoricalEvidenceDisposition :=
  raise_if (bool_decide (disposition = TD_SUCCEEDED)) (ValueError "terminal request cannot have SUCCEEDED disposition");;
  IbkrHistoricalEvidenceDisposition_of_str (IbkrTerminalDisposition_str disposition).
Definition _accepted_callbacks (callbacks : list IbkrHistoricalCallbackEvidence) (selected : IbkrHistoricalAttemptEvidence)
    (completion : option IbkrHistoricalCompletionEvidence) : list IbkrHistoricalCallbackEvidence :=
  List.filter (λ c, of_attempt selected c && cr_closure_eligible c
                    && _callback_matches_attempt c selected
                    && match completion with Some m => cr_sequence c <=? cm_sequence m | None => true end) callbacks.
Definition _error_classification (evidence_disposition : IbkrHistoricalEvidenceDisposition)
    (selected : IbkrHistoricalAttemptEvidence) (detail : option string) : option dict :=
  if bool_decide (evidence_disposition ∈ [ED_SUCCEEDED; ED_NO_DATA_RETURNED]) then None
  else Some [("disposition", JStr (IbkrHistoricalEvidenceDisposition_str evidence_disposition));
             ("detail", json_opt_str (match detail with Some d => Some d | None => at_detail selected end))].

(** The attempt a terminal request selects, with its disposition. *)
Definition select_attempt (request_status : IbkrRequestStatus) (ordered_attempts : list IbkrHistoricalAttemptEvidence)
    : res (IbkrHistoricalAttemptEvidence * IbkrTerminalDisposition) :=
  match List.filter (λ a, bool_decide (at_status a = ATT_SUCCEEDED)
                          && bool_decide (at_terminal_disposition a = Some TD_SUCCEEDED)) ordered_attempts with
  | selected :: _ =>
      raise_if (negb (bool_decide (request_status = REQ_SUCCEEDED)))
               (ValueError "successful attempt is inconsistent with terminal request status");;
      raise_if (existsb (λ a, at_attempt_ordinal selected <? at_attempt_ordinal a) ordered_attempts)
               (ValueError "IBKR attempt sequence continues after the first successful attempt");;
      Ok (selected, TD_SUCCEEDED)
  | [] =>
      raise_if (negb (bool_decide (request_status = TERMINAL)))
               (ValueError "terminal request has no terminal failure attempt");;
      match list.last ordered_attempts with
      | None => Raise (IndexError "tuple index out of range")
      | Some selected =>
          raise_if (negb (bool_decide (at_status selected = TERMINAL_FAILURE)))
                   (ValueError "terminal request does not select its final terminal failure attempt");;
          match at_terminal_disposition selected with
          | None | Some TD_SUCCEEDED => Raise (ValueError "terminal request selected attempt has no failure disposition")
          | Some d => Ok (selected, d)
          end
      end
  end.

Definition evidence_values : Type :=
  IbkrHistoricalEvidenceDisposition * (list dict * list dict * option string) * option string.

(** The [try] around the normalisation of a completed request, and its handlers. *)
Definition normalised (request : IbkrHistoricalRequest) (eligible_callbacks : list IbkrHistoricalCallbackEvidence)
    : res evidence_values :=
  let r : res evidence_values :=
    match hr_kind request with
    | MIDPOINT_BARS =>
        rows ← _normalise_bars request eligible_callbacks;
        Ok (if Nat.eqb (length rows) 0 then ED_NO_DATA_RETURNED else ED_SUCCEEDED, (rows, [], None), None)
    | SCHEDULE =>
        '(sessions, session_state) ← _normalise_schedule request eligible_callbacks;
        Ok (ED_SUCCEEDED, ([], sessions, Some session_state), None)
    end in
  match r with
  | Ok v => Ok v
  | Raise e =>
      let handled d : res evidence_values := Ok (d, _empty_result_values request, Some (exn_msg e)) in
      match exn_class e with
      | KEvidenceConflict => handled CONFLICTING_CALLBACK_EVIDENCE
      | KEvidenceUnavailable => handled ED_SESSION_EVIDENCE_UNAVAILABLE
      | KEvidenceInvalid | KValueError => handled INVALID_CALLBACK_EVIDENCE
      | _ => Raise e
      end
  end.

Definition request_evidence (request : IbkrHistoricalRequest) (request_status : IbkrRequestStatus)
    (terminal_disposition : IbkrTerminalDisposition) (selected : IbkrHistoricalAttemptEvidence)
    (completion : option IbkrHistoricalCompletionEvidence) (eligible_callbacks : list IbkrHistoricalCallbackEvidence)
    : res evidence_values :=
  if decide (request_status = TERMINAL) then
    evidence_disposition ← _evidence_for_terminal terminal_disposition;
    Ok (evidence_disposition, _empty_result_values request, at_detail selected)
  else if existsb (λ c, bool_decide (cr_kind c = CB_ERROR)) eligible_callbacks then
    Ok (ED_PROVIDER_REJECTED, _empty_result_values request,
        Some "provider emitted an error callback before completion")
  else if decide (completion = None) then
    Ok (ED_INCOMPLETE_RESPONSE, _empty_result_values request,
        Some "successful request has no independently eligible completion marker")
  else normalised request eligible_callbacks.

Definition _derive_request_evidence (request : IbkrHistoricalRequest) (request_status : IbkrRequestStatus)
    (selected_attempt_id : UUID) (attempts : list IbkrHistoricalAttemptEvidence)
    (callbacks : list IbkrHistoricalCallbackEvidence) (completion_markers : list IbkrHistoricalCompletionEvidence)
    : res _DerivedRequestEvidence :=
  let ordered_attempts := py_sorted at_attempt_ordinal attempts in
  _validate_attempt_sequence ordered_attempts;;
  let attempt_ids := map at_attempt_id ordered_attempts in
  let ordered_callbacks := py_sorted callback_order callbacks in
  let ordered_markers := py_sorted marker_order completion_markers in
  raise_if (existsb (λ c, negb (bool_decide (cr_attempt_id c ∈ attempt_ids))) ordered_callbacks)
           (ValueError "IBKR request-result contains an orphan callback");;
  raise_if (existsb (λ m, negb (bool_decide (cm_attempt_id m ∈ attempt_ids))) ordered_markers)
           (ValueError "IBKR request-result contains an orphan completion marker");;
  _validate_callback_closure false ordered_attempts ordered_callbacks ordered_markers;;
  _validate_attempt_outcomes false request ordered_attempts ordered_callbacks ordered_markers;;
  '(selected, terminal_disposition) ← select_attempt request_status ordered_attempts;
  raise_if (negb (bool_decide (at_attempt_id selected = selected_attempt_id)))
           (ValueError "IBKR request-result selected attempt is not the first valid terminal outcome");;
  let eligible_markers := _eligible_markers_for_evidence ordered_markers selected in
  raise_if (1 <? Z.of_nat (length eligible_markers))
           (ValueError "IBKR request-result has multiple eligible completion markers");;
  let completion := head eligible_markers in
  let eligible_callbacks := _accepted_callbacks ordered_callbacks selected completion in
  '(evidence_disposition, (rows, sessions, session_state), error_detail) ←
    request_evidence request request_status terminal_disposition selected completion eligible_callbacks;
  Ok (mkDerived selected terminal_disposition evidence_disposition ordered_callbacks ordered_markers rows sessions
        session_state (_error_classification evidence_disposition selected error_detail)).

Definition _retry_history (attempts : list IbkrHistoricalAttemptEvidence) : list dict :=
  map (λ a, [("attempt_id", JStr (uuid_text (at_attempt_id a))); ("attempt_ordinal", JInt (at_attempt_ordinal a));
             ("status", JStr (IbkrAttemptStatus_str (at_status a)));
             ("terminal_at", json_opt_str (utc_text <$> at_terminal_at a));
             ("terminal_disposition", json_opt_str (IbkrTerminalDisposition_str <$> at_terminal_disposition a))])
    (py_sorted at_attempt_ordinal attempts).

(** ** Request results *)

(** [min(item.started_at for item in attempts)] *)
Definition first_start (attempts : list IbkrHistoricalAttemptEvidence) : res datetime :=
  match attempts with
  | [] => Raise (ValueError "min() iterable argument is empty")
  | a :: attempts => Ok (fold_left dt_min (map at_started_at attempts) (at_started_at a))
  end.

Definition _utc_text (value : datetime) : res string :=
  raise_if (negb (bool_decide (dt_offset value = Some 0))) (ValueError "IBKR result timestamp must be UTC");;
  Ok (utc_text value).

(** The keyword arguments are the fields of a result that has no hash yet. *)
Definition _request_identity (r : IbkrHistoricalRequestResult) : res dict :=
  attempts ← traverse attempt_evidence_json (rr_attempts r);
  callbacks ← traverse callback_evidence_json (rr_callbacks r);
  completion_markers ← traverse completion_evidence_json (rr_completion_markers r);
  acquisition_started_at ← _utc_text (rr_acquisition_started_at r);
  acquisition_completed_at ← _utc_text (rr_acquisition_completed_at r);
  Ok [("contract", JStr REQUEST_RESULT_CONTRACT); ("schema_version", JInt REQUEST_RESULT_SCHEMA_VERSION);
      ("plan_sha256", JStr (rr_plan_sha256 r)); ("request_sha256", JStr (rr_request_sha256 r));
      ("request_payload", JObj (rr_request_payload r));
      ("request_status", JStr (IbkrRequestStatus_str (rr_request_status r)));
      ("terminal_disposition", JStr (IbkrTerminalDisposition_str (rr_terminal_disposition r)));
      ("evidence_disposition", JStr (IbkrHistoricalEvidenceDisposition_str (rr_evidence_disposition r)));
      ("selected_attempt_id", JStr (uuid_text (rr_selected_attempt_id r)));
      ("attempts", JList attempts); ("callbacks", JList callbacks);
      ("completion_markers", JList completion_markers);
      ("accepted_rows", JList (map JObj (rr_accepted_rows r))); ("sessions", JList (map JObj (rr_sessions r)));
      ("session_state", json_opt_str (rr_session_state r));
      ("acquisition_started_at", JStr acquisition_started_at);
      ("acquisition_completed_at", JStr acquisition_completed_at);
      ("retry_history", JList (map JObj (rr_retry_history r)));
      ("error_classification", match rr_error_classification r with Some d => JObj d | None => JNull end)].

Definition _build_request_result (request : IbkrHistoricalRequest) (request_snapshot : IbkrHistoricalRequestSnapshot)
    (attempts : list IbkrHistoricalAttemptEvidence) (callbacks_by_attempt : gmap UUID (list IbkrHistoricalCallbackEvidence))
    (markers_by_attempt : gmap UUID (list IbkrHistoricalCompletionEvidence)) : res IbkrHistoricalRequestResult :=
  raise_if (negb (bool_decide (rs_status request_snapshot ∈ [REQ_SUCCEEDED; TERMINAL])))
           (ValueError "IBKR result publication requires a terminal request");;
  let attempts := py_sorted at_attempt_ordinal attempts in
  raise_if (negb (Z.of_nat (length attempts) =? rs_attempt_count request_snapshot))
           (ValueError "IBKR request attempt count differs from its snapshot");;
  match rs_selected_attempt_id request_snapshot with
  | None => Raise (ValueError "IBKR terminal request has no selected attempt")
  | Some selected_id =>
      let callbacks := py_sorted callback_order
        (flat_map (λ a, group_get (at_attempt_id a) callbacks_by_attempt) attempts) in
      let markers := py_sorted marker_order
        (flat_map (λ a, group_get (at_attempt_id a) markers_by_attempt) attempts) in
      derived ← _derive_request_evidence request (rs_status request_snapshot) selected_id attempts callbacks markers;
      match at_terminal_at (de_selected derived) with
      | None => Raise (ValueError "IBKR selected attempt is unfinished")
      | Some selected_terminal_at =>
          start ← first_start attempts;
          let unsigned sha := mkRequestResult (rs_plan_sha256 request_snapshot) (rs_request_sha256 request_snapshot)
            (rs_request_payload request_snapshot) (rs_status request_snapshot) (de_terminal_disposition derived)
            (de_evidence_disposition derived) selected_id attempts callbacks markers (de_accepted_rows derived)
            (de_sessions derived) (de_session_state derived) start selected_terminal_at (_retry_history attempts)
            (de_error_classification derived) sha in
          identity ← _request_identity (unsigned "");
          let result := unsigned (sha256_json (JObj identity)) in
          IbkrHistoricalRequestResult_post_init result;;
          Ok result
      end
  end.

(** ** The aggregate *)

(** The counters of one kind of request for an instrument; the keys of the source carry the
    prefix [bar_] or [schedule_]. *)
Record KindCoverage : Type := mkKindCoverage {
  kc_planned : Z; kc_terminal : Z; kc_successful : Z; kc_no_data : Z; kc_failed : Z; kc_items : Z }.
Record InstrumentCoverage : Type := mkInstrumentCoverage { ic_bar : KindCoverage; ic_schedule : KindCoverage }.
Definition no_coverage : KindCoverage := mkKindCoverage 0 0 0 0 0 0.
Definition kind_coverage_dict (prefix items : string) (k : KindCoverage) : dict :=
  [(prefix +:+ "_planned_request_count", JInt (kc_planned k)); (prefix +:+ "_terminal_request_count", JInt (kc_terminal k));
   (prefix +:+ "_successful_request_count", JInt (kc_successful k)); (prefix +:+ "_no_data_request_count", JInt (kc_no_data k));
   (prefix +:+ "_failed_request_count", JInt (kc_failed k)); (items, JInt (kc_items k))].
Definition instrument_coverage_dict (c : InstrumentCoverage) : dict :=
  kind_coverage_dict "bar" "bar_rows" (ic_bar c) ++ kind_coverage_dict "schedule" "schedule_sessions" (ic_schedule c).

Definition is_published_status (s : IbkrRequestStatus) : bool := bool_decide (s ∈ [REQ_SUCCEEDED; TERMINAL]).
Definition evidence_is (d : IbkrHistoricalEvidenceDisposition) (r : IbkrHistoricalRequestResult) : bool :=
  bool_decide (rr_evidence_disposition r = d).
Definition evidence_failed (r : IbkrHistoricalRequestResult) : bool :=
  negb (evidence_is ED_SUCCEEDED r) && negb (evidence_is ED_NO_DATA_RETURNED r).
Definition one_if (b : bool) : Z := if b then 1 else 0.

Definition cover_kind (items : Z) (r : IbkrHistoricalRequestResult) (k : KindCoverage) : KindCoverage :=
  mkKindCoverage (kc_planned k + 1) (kc_terminal k + one_if (is_published_status (rr_request_status r)))
    (kc_successful k + one_if (evidence_is ED_SUCCEEDED r)) (kc_no_data k + one_if (evidence_is ED_NO_DATA_RETURNED r))
    (kc_failed k + one_if (evidence_failed r)) (kc_items k + items).
Definition cover (request : IbkrHistoricalRequest) (r : IbkrHistoricalRequestResult) (c : InstrumentCoverage)
    : InstrumentCoverage :=
  match hr_kind request with
  | MIDPOINT_BARS => mkInstrumentCoverage (cover_kind (Z.of_nat (length (rr_accepted_rows r))) r (ic_bar c)) (ic_schedule c)
  | SCHEDULE => mkInstrumentCoverage (ic_bar c) (cover_kind (Z.of_nat (length (rr_sessions r))) r (ic_schedule c))
  end.
(** [counts[key] += 1] of a [defaultdict(int)] *)
Definition bump (k : string) (d : list (string * Z)) : list (string * Z) := assoc_set k (default 0 (assoc_get k d) + 1) d.

Record Summaries : Type := mkSummaries {
  sm_per_instrument : list (string * InstrumentCoverage);
  sm_evidence_disposition_counts : list (string * Z);
  sm_operational_disposition_counts : list (string * Z) }.

Definition summarise (result_by_hash : list (string * IbkrHistoricalRequestResult)) (s : Summaries)
    (request : IbkrHistoricalRequest) : res Summaries :=
  result ← assoc_item (hr_request_sha256 request) result_by_hash;
  let instrument := hr_instrument_id request in
  let entry := default (mkInstrumentCoverage no_coverage no_coverage) (assoc_get instrument (sm_per_instrument s)) in
  Ok (mkSummaries (assoc_set instrument (cover request result entry) (sm_per_instrument s))
        (bump (IbkrHistoricalEvidenceDisposition_str (rr_evidence_disposition result)) (sm_evidence_disposition_counts s))
        (bump (IbkrTerminalDisposition_str (rr_terminal_disposition result)) (sm_operational_disposition_counts s))).

Definition history_eligible (c : InstrumentCoverage) : bool :=
  (0 <? kc_planned (ic_bar c)) && (0 <? kc_planned (ic_schedule c))
  && (kc_terminal (ic_bar c) =? kc_planned (ic_bar c)) && (kc_terminal (ic_schedule c) =? kc_planned (ic_schedule c))
  && (kc_successful (ic_bar c) =? kc_planned (ic_bar c)) && (kc_successful (ic_schedule c) =? kc_planned (ic_schedule c))
  && (0 <? kc_items (ic_bar c)).

Definition counts_json (d : list (string * Z)) : json := JObj (map (λ kv, (kv.1, JInt kv.2)) (py_sorted fst d)).
Definition total (f : IbkrHistoricalRequestResult → nat) (results : list IbkrHistoricalRequestResult) : Z :=
  Z.of_nat (sum_list (map f results)).

Definition _aggregate_summaries (plan : IbkrHistoricalPlan) (results : list IbkrHistoricalRequestResult)
    : res (dict * dict) :=
  let result_by_hash := dict_by rr_request_sha256 results in
  s ← for_each (summarise result_by_hash) (mkSummaries [] [] []) (hp_requests plan);
  let per_instrument := py_sorted fst (sm_per_instrument s) in
  let eligible := map fst (List.filter (λ ie, history_eligible ie.2) per_instrument) in
  Ok ([("planned_request_count", JInt (Z.of_nat (length (hp_requests plan))));
       ("terminal_request_count", JInt (Z.of_nat (length results)));
       ("operational_successful_request_count",
          JInt (count_by (λ r, bool_decide (rr_request_status r = REQ_SUCCEEDED)) results));
       ("successful_request_count", JInt (count_by (evidence_is ED_SUCCEEDED) results));
       ("no_data_request_count", JInt (count_by (evidence_is ED_NO_DATA_RETURNED) results));
       ("failed_request_count", JInt (count_by evidence_failed results));
       ("accepted_bar_row_count", JInt (total (λ r, length (rr_accepted_rows r)) results));
       ("provider_session_count", JInt (total (λ r, length (rr_sessions r)) results));
       ("by_instrument", JObj (map (λ ie, (ie.1, JObj (instrument_coverage_dict ie.2))) per_instrument))],
      [("disposition_counts", counts_json (sm_evidence_disposition_counts s));
       ("operational_disposition_counts", counts_json (sm_operational_disposition_counts s));
       ("provider_history_eligible_instruments", JList (map JStr eligible))]).

Definition _validate_request_result_record_identities (r : IbkrHistoricalRequestResult) : res unit :=
  raise_if (has_duplicates (map at_attempt_id (rr_attempts r)))
           (ValueError "IBKR request-result attempt identities are duplicated");;
  raise_if (has_duplicates (map cr_callback_id (rr_callbacks r)))
           (ValueError "IBKR request-result callback identities are duplicated");;
  raise_if (has_duplicates (map cm_marker_id (rr_completion_markers r)))
           (ValueError "IBKR request-result completion marker identities are duplicated").

Record RecordIdentities : Type := mkIdentities {
  id_attempts : list UUID; id_callbacks : list Z; id_markers : list Z; id_provider_requests : list (UUID * Z * Z) }.
Definition provider_request_identity (a : IbkrHistoricalAttemptEvidence) : UUID * Z * Z :=
  (at_connection_session_id a, at_connection_generation a, at_provider_request_id a).
Definition identify_attempt (s : RecordIdentities) (a : IbkrHistoricalAttemptEvidence) : res RecordIdentities :=
  raise_if (bool_decide (at_attempt_id a ∈ id_attempts s)) (ValueError "IBKR aggregate attempt identities are duplicated");;
  raise_if (bool_decide (provider_request_identity a ∈ id_provider_requests s))
           (ValueError "IBKR aggregate provider request identities are duplicated");;
  Ok (mkIdentities (at_attempt_id a :: id_attempts s) (id_callbacks s) (id_markers s)
        (provider_request_identity a :: id_provider_requests s)).
Definition identify_callback (s : RecordIdentities) (c : IbkrHistoricalCallbackEvidence) : res RecordIdentities :=
  raise_if (bool_decide (cr_callback_id c ∈ id_callbacks s)) (ValueError "IBKR aggregate callback identities are duplicated");;
  Ok (mkIdentities (id_attempts s) (cr_callback_id c :: id_callbacks s) (id_markers s) (id_provider_requests s)).
Definition identify_marker (s : RecordIdentities) (m : IbkrHistoricalCompletionEvidence) : res RecordIdentities :=
  raise_if (bool_decide (cm_marker_id m ∈ id_markers s))
           (ValueError "IBKR aggregate completion marker identities are duplicated");;
  Ok (mkIdentities (id_attempts s) (id_callbacks s) (cm_marker_id m :: id_markers s) (id_provider_requests s)).
Definition identify_result (s : RecordIdentities) (r : IbkrHistoricalRequestResult) : res RecordIdentities :=
  _validate_request_result_record_identities r;;
  s ← for_each identify_attempt s (rr_attempts r);
  s ← for_each identify_callback s (rr_callbacks r);
  for_each identify_marker s (rr_completion_markers r).
Definition _validate_aggregate_result_record_identities (results : list IbkrHistoricalRequestResult) : res unit :=
  for_each identify_result (mkIdentities [] [] [] []) results;; Ok tt.

Definition result_reference (r : IbkrHistoricalRequestResult) : res IbkrHistoricalChildReference :=
  j ← request_result_json r;
  bytes_sha256 ← sha256_bytes (canonical_json_bytes j);
  IbkrHistoricalChildReference_new
    (mkChildReference ("requests/" +:+ rr_request_sha256 r +:+ ".json") REQUEST_RESULT_CONTRACT (rr_result_sha256 r) bytes_sha256).

Definition build_ibkr_historical_aggregate_result (plan : IbkrHistoricalPlan) (plan_bytes : string)
    (request_results : list IbkrHistoricalRequestResult) : res IbkrHistoricalAggregateResult :=
  raise_if (negb (Nat.eqb (length request_results) (length (hp_requests plan))))
           (ValueError "IBKR aggregate result count differs from the plan");;
  let results_by_hash := dict_by rr_request_sha256 request_results in
  raise_if (negb (same_hashes (map fst results_by_hash) (map hr_request_sha256 (hp_requests plan))))
           (ValueError "IBKR aggregate result identities differ from the plan");;
  _validate_aggregate_result_record_identities request_results;;
  plan_sha256 ← sha256_bytes plan_bytes;
  plan_ref ← IbkrHistoricalChildReference_new
    (mkChildReference "plan.json" HISTORICAL_PLAN_CONTRACT (hp_plan_sha256 plan) plan_sha256);
  child_refs ← traverse result_reference (py_sorted rr_request_sha256 request_results);
  '(coverage, entitlement) ← _aggregate_summaries plan (map snd results_by_hash);
  let semantic_identity :=
    [("contract", JStr HISTORICAL_RESULT_CONTRACT); ("schema_version", JInt RESULT_SCHEMA_VERSION);
     ("plan_semantic_id", JStr (hp_plan_sha256 plan));
     ("request_result_semantic_ids", JList (map (JStr ∘ cf_semantic_sha256) child_refs));
     ("coverage_summary", JObj coverage); ("entitlement_summary", JObj entitlement)] in
  let result_id := sha256_json (JObj semantic_identity) in
  let closure_identity := semantic_identity ++
    [("result_id", JStr result_id); ("plan", child_reference_json plan_ref);
     ("runtime_sha256", JStr (hp_runtime_sha256 plan)); ("request_results", JList (map child_reference_json child_refs));
     ("publication_status", JStr "PUBLISHED_UNVERIFIED")] in
  let aggregate := mkAggregateResult plan_ref (hp_runtime_sha256 plan) child_refs coverage entitlement result_id
    (sha256_json (JObj closure_identity)) "PUBLISHED_UNVERIFIED" in
  IbkrHistoricalAggregateResult_post_init aggregate;;
  Ok aggregate.

(** ** Building and replaying *)

Section plan_bytes.
Context (json_loads : string → option json).

Definition _validate_snapshot_plan (plan : IbkrHistoricalPlan) (snapshot : IbkrHistoricalExecutionSnapshot) : res unit :=
  let p := sn_plan snapshot in
  raise_if (negb (String.eqb (ps_plan_sha256 p) (hp_plan_sha256 plan)))
           (ValueError "IBKR publication snapshot plan identity differs");;
  match json_loads (ps_plan_bytes p) with
  | None => Raise (ValueError "IBKR stored plan bytes are not valid JSON")
  | Some stored_payload =>
      expected ← plan_json plan;
      raise_if (json_neqb stored_payload expected || json_neqb (JObj (ps_plan_payload p)) stored_payload)
               (ValueError "IBKR stored plan bytes do not match the authenticated plan");;
      bytes_sha256 ← sha256_bytes (ps_plan_bytes p);
      raise_if (negb (String.eqb (ps_plan_bytes_sha256 p) bytes_sha256))
               (ValueError "IBKR stored plan bytes digest does not replay");;
      raise_if (json_neqb (dict_opt "plan_sha256" (ps_plan_payload p)) (JStr (hp_plan_sha256 plan)))
               (ValueError "IBKR stored plan payload has an invalid identity")
  end.

Definition build_ibkr_historical_result_artifact (plan : IbkrHistoricalPlan) (snapshot : IbkrHistoricalExecutionSnapshot)
    : res IbkrHistoricalResultArtifact :=
  _validate_snapshot_plan plan snapshot;;
  let request_by_hash := dict_by rs_request_sha256 (sn_requests snapshot) in
  raise_if (negb (same_hashes (map fst request_by_hash) (map hr_request_sha256 (hp_requests plan))))
           (ValueError "IBKR publication snapshot request closure differs from the plan");;
  let attempts_by_request := _group_by at_request_sha256 (sn_attempts snapshot) in
  let callbacks_by_attempt := _group_by cr_attempt_id (sn_callbacks snapshot) in
  let markers_by_attempt := _group_by cm_attempt_id (sn_completion_markers snapshot) in
  results ← traverse (λ request,
      request_snapshot ← assoc_item (hr_request_sha256 request) request_by_hash;
      expected ← request_json request;
      raise_if (json_neqb (JObj (rs_request_payload request_snapshot)) expected)
               (ValueError "IBKR stored request payload differs from the authenticated plan");;
      _build_request_result request request_snapshot (group_get (hr_request_sha256 request) attempts_by_request)
        callbacks_by_attempt markers_by_attempt)
    (py_sorted hr_request_sha256 (hp_requests plan));
  aggregate ← build_ibkr_historical_aggregate_result plan (ps_plan_bytes (sn_plan snapshot)) results;
  let artifact := mkArtifact plan (ps_plan_bytes (sn_plan snapshot)) results aggregate in
  IbkrHistoricalResultArtifact_post_init artifact;;
  Ok artifact.

(** The state of a request against its attempts. *)
Definition request_relationship (stored : IbkrHistoricalRequestSnapshot) (attempts : list IbkrHistoricalAttemptEvidence)
    (selected : option IbkrHistoricalAttemptEvidence) (markers_by_attempt : gmap UUID (list IbkrHistoricalCompletionEvidence))
    : res unit :=
  let latest id := match list.last attempts with Some a => bool_decide (at_attempt_id a = id) | None => false end in
  match rs_status stored with
  | REQ_PENDING =>
      raise_if (bool_decide (is_Some selected)
                || existsb (λ a, negb (bool_decide (at_status a ∈ [RETRYABLE_FAILURE; INVALIDATED]))) attempts)
               (ValueError "pending IBKR request has an invalid attempt relationship")
  | IN_FLIGHT =>
      let started := List.filter (λ a, bool_decide (at_status a = STARTED)) attempts in
      raise_if (bool_decide (is_Some selected)
                || negb (match started with [s] => latest (at_attempt_id s) | _ => false end)
                || existsb (λ a, bool_decide (at_status a ∈ [ATT_SUCCEEDED; TERMINAL_FAILURE])) attempts)
               (ValueError "in-flight IBKR request has an invalid attempt relationship")
  | REQ_SUCCEEDED =>
      raise_if (negb match selected with
                     | None => false
                     | Some s =>
                         bool_decide (at_status s = ATT_SUCCEEDED)
                         && bool_decide (at_terminal_disposition s = Some TD_SUCCEEDED) && latest (at_attempt_id s)
                         && (count_by cm_closure_eligible (group_get (at_attempt_id s) markers_by_attempt) =? 1)
                     end)
               (ValueError "successful IBKR request has invalid terminal evidence")
  | TERMINAL =>
      raise_if (negb match selected with
                     | None => false
                     | Some s =>
                         bool_decide (at_status s = TERMINAL_FAILURE)
                         && bool_decide (is_Some (at_terminal_disposition s))
                         && negb (bool_decide (at_terminal_disposition s = Some TD_SUCCEEDED)) && latest (at_attempt_id s)
                         && negb (existsb (λ a, bool_decide (at_status a = STARTED)) attempts)
                     end)
               (ValueError "terminal IBKR request has invalid terminal evidence")
  end.

Definition verify_request (maximum_attempts : Z) (allow_recoverable_started : bool)
    (request_by_hash : list (string * IbkrHistoricalRequestSnapshot))
    (attempts_by_request : gmap string (list IbkrHistoricalAttemptEvidence))
    (callbacks_by_attempt : gmap UUID (list IbkrHistoricalCallbackEvidence))
    (markers_by_attempt : gmap UUID (list IbkrHistoricalCompletionEvidence)) (request : IbkrHistoricalRequest) : res unit :=
  stored ← assoc_item (hr_request_sha256 request) request_by_hash;
  expected ← request_json request;
  raise_if (json_neqb (JObj (rs_request_payload stored)) expected
            || negb (String.eqb (rs_instrument_id stored) (hr_instrument_id request))
            || negb (String.eqb (rs_request_kind stored) (IbkrHistoricalRequestKind_str (hr_kind request)))
            || negb (dt_eqb (rs_interval_start stored) (hr_interval_start request))
            || negb (dt_eqb (rs_interval_end stored) (hr_interval_end request)))
           (ValueError "IBKR stored request payload or canonical columns differ from the plan");;
  let attempts := py_sorted at_attempt_ordinal (group_get (hr_request_sha256 request) attempts_by_request) in
  raise_if (negb (Z.of_nat (length attempts) =? rs_attempt_count stored))
           (ValueError "IBKR stored attempt count does not match its attempt closure");;
  raise_if (maximum_attempts <? Z.of_nat (length attempts))
           (ValueError "IBKR stored attempts exceed the frozen retry policy");;
  raise_if (negb (bool_decide (map at_attempt_ordinal attempts = ordinals (length attempts))))
           (ValueError "IBKR stored attempt ordinals are not contiguous");;
  for_each (λ _ a,
      let callbacks := group_get (at_attempt_id a) callbacks_by_attempt in
      let markers := group_get (at_attempt_id a) markers_by_attempt in
      _validate_callback_closure allow_recoverable_started [a] callbacks markers;;
      _validate_attempt_outcomes allow_recoverable_started request [a] callbacks markers) tt attempts;;
  selected ← match rs_selected_attempt_id stored with
             | None => Ok None
             | Some id =>
                 match List.find (λ a, bool_decide (at_attempt_id a = id)) attempts with
                 | None => Raise (ValueError "IBKR stored selected attempt is absent from its attempt closure")
                 | Some a => Ok (Some a)
                 end
             end;
  (if decide (rs_publication_status stored = PUBLISHED)
   then raise_if (bool_decide (rs_result_sha256 stored = None) || bool_decide (rs_published_at stored = None))
          (ValueError "published IBKR request lacks publication evidence")
   else raise_if (bool_decide (is_Some (rs_result_sha256 stored)) || bool_decide (is_Some (rs_published_at stored)))
          (ValueError "unpublished IBKR request contains publication evidence"));;
  request_relationship stored attempts selected markers_by_attempt.

Definition verify_ibkr_historical_execution_snapshot (plan : IbkrHistoricalPlan) (snapshot : IbkrHistoricalExecutionSnapshot)
    (maximum_attempts : Z) (allow_recoverable_started : bool) : res unit :=
  raise_if (maximum_attempts <=? 0) (ValueError "IBKR execution maximum attempts must be positive");;
  _validate_snapshot_plan plan snapshot;;
  raise_if (negb allow_recoverable_started && existsb (λ a, bool_decide (at_status a = STARTED)) (sn_attempts snapshot))
           (ValueError "IBKR execution snapshot contains unrecovered STARTED attempts");;
  let expected_by_hash := dict_by hr_request_sha256 (hp_requests plan) in
  raise_if (negb (Nat.eqb (length (sn_requests snapshot)) (length expected_by_hash))
            || negb (same_hashes (map rs_request_sha256 (sn_requests snapshot)) (map fst expected_by_hash)))
           (ValueError "IBKR execution snapshot request closure differs from the plan");;
  let request_by_hash := dict_by rs_request_sha256 (sn_requests snapshot) in
  let attempts_by_request := _group_by at_request_sha256 (sn_attempts snapshot) in
  let callbacks_by_attempt := _group_by cr_attempt_id (sn_callbacks snapshot) in
  let markers_by_attempt := _group_by cm_attempt_id (sn_completion_markers snapshot) in
  for_each (λ _ r, verify_request maximum_attempts allow_recoverable_started request_by_hash attempts_by_request
                     callbacks_by_attempt markers_by_attempt r) tt (hp_requests plan).
End plan_bytes.

Definition replay_ibkr_historical_request_result (request : IbkrHistoricalRequest) (result : IbkrHistoricalRequestResult)
    : res unit :=
  raise_if (String.eqb (rr_plan_sha256 result) "" || negb (String.eqb (rr_request_sha256 result) (hr_request_sha256 request)))
           (ValueError "IBKR request-result identity does not match its plan request");;
  expected ← request_json request;
  raise_if (json_neqb (JObj (rr_request_payload result)) expected)
           (ValueError "IBKR request-result request payload differs from its plan request");;
  _validate_request_result_record_identities result;;
  derived ← _derive_request_evidence request (rr_request_status result) (rr_selected_attempt_id result)
              (rr_attempts result) (rr_callbacks result) (rr_completion_markers result);
  raise_if (negb (bool_decide (rr_terminal_disposition result = de_terminal_disposition derived)))
           (ValueError "IBKR request-result operational disposition does not replay");;
  raise_if (negb (bool_decide (rr_evidence_disposition result = de_evidence_disposition derived)))
           (ValueError "IBKR request-result evidence disposition does not replay");;
  raise_if (negb (dicts_eqb (rr_accepted_rows result) (de_accepted_rows derived)))
           (ValueError "IBKR request-result accepted rows do not replay");;
  raise_if (negb (dicts_eqb (rr_sessions result) (de_sessions derived)))
           (ValueError "IBKR request-result sessions do not replay");;
  raise_if (negb (bool_decide (rr_session_state result = de_session_state derived)))
           (ValueError "IBKR request-result session state does not replay");;
  expected_start ← first_start (rr_attempts result);
  raise_if (negb (dt_eqb (rr_acquisition_started_at result) expected_start))
           (ValueError "IBKR request-result acquisition start does not replay");;
  raise_if (negb match at_terminal_at (de_selected derived) with
                 | Some t => dt_eqb (rr_acquisition_completed_at result) t
                 | None => false
                 end)
           (ValueError "IBKR request-result acquisition completion does not replay");;
  raise_if (negb (dicts_eqb (rr_retry_history result) (_retry_history (rr_attempts result))))
           (ValueError "IBKR request-result retry history does not replay");;
  raise_if (match rr_error_classification result, de_error_classification derived with
            | None, None => false
            | Some a, Some b => json_neqb (JObj a) (JObj b)
            | _, _ => true
            end)
           (ValueError "IBKR request-result error classification does not replay").

Definition replay_ibkr_historical_aggregate_result (plan : IbkrHistoricalPlan) (plan_bytes : string)
    (request_results : list IbkrHistoricalRequestResult) (aggregate : IbkrHistoricalAggregateResult) : res unit :=
  let expected_requests := py_sorted hr_request_sha256 (hp_requests plan) in
  let actual_results := py_sorted rr_request_sha256 request_results in
  raise_if (negb (Nat.eqb (length actual_results) (length expected_requests))
            || negb (same_hashes (map rr_request_sha256 actual_results) (map hr_request_sha256 expected_requests)))
           (ValueError "IBKR aggregate replay request closure differs from the plan");;
  for_each (λ _ rr, replay_ibkr_historical_request_result rr.1 rr.2) tt (zip expected_requests actual_results);;
  _validate_aggregate_result_record_identities actual_results;;
  expected ← build_ibkr_historical_aggregate_result plan plan_bytes request_results;
  expected_json ← aggregate_json expected;
  actual_json ← aggregate_json aggregate;
  raise_if (json_neqb expected_json actual_json)
           (ValueError "IBKR aggregate result does not replay from its children").

(** [store.read_ibkr_historical_execution] is the argument [read]. *)
Definition publish_ibkr_historical_results (plan : IbkrHistoricalPlan)
    (read : string → res IbkrHistoricalExecutionSnapshot) (published_at : datetime)
    : res IbkrHistoricalExecutionSnapshot :=
  snapshot ← read (hp_plan_sha256 plan);
  raise_if (negb (String.eqb (ps_plan_sha256 (sn_plan snapshot)) (hp_plan_sha256 plan)))
           (ValueError "IBKR publication snapshot plan identity differs");;
  raise_if (negb (bool_decide (dt_offset published_at = Some 0))) (ValueError "IBKR publication time must be UTC");;
  Ok snapshot.

(** ** Facts: dictionaries *)

Lemma json_neqb_refl a : json_neqb a a = false.
Proof. unfold json_neqb, json_eqb. by rewrite bool_decide_true. Qed.
Lemma dicts_eqb_refl l : dicts_eqb l l = true.
Proof. unfold dicts_eqb, json_eqb. by apply bool_decide_true. Qed.
#[export] Hint Rewrite json_neqb_refl dicts_eqb_refl : ibkr_results.

Lemma elem_of_assoc_set {A} (k k' : string) (v v' : A) d :
  (k', v') ∈ assoc_set k v d → (k' = k ∧ v' = v) ∨ (k', v') ∈ d.
Proof.
  induction d as [|[k0 v0] d IH]; cbn; [set_solver|].
  destruct (String.eqb_spec k0 k) as [->|]; set_solver.
Qed.
Lemma assoc_get_elem {A} (k : string) (d : list (string * A)) v : assoc_get k d = Some v → (k, v) ∈ d.
Proof.
  unfold assoc_get. destruct (List.find _ d) as [[k' v']|] eqn:E; [|done]. intros [= <-].
  apply find_some in E as [Hin Hk]. cbn in Hk. apply String.eqb_eq in Hk as ->. by apply list_elem_of_In.
Qed.
Lemma assoc_get_set {A} (k k' : string) (v : A) d :
  assoc_get k' (assoc_set k v d) = if String.eqb k k' then Some v else assoc_get k' d.
Proof.
  unfold assoc_get. induction d as [|[k0 v0] d IH]; cbn; [by destruct (String.eqb_spec k k')|].
  destruct (String.eqb_spec k0 k) as [->|Hne]; cbn; [by destruct (String.eqb_spec k k')|].
  destruct (String.eqb_spec k0 k') as [->|]; [|exact IH]. by destruct (String.eqb_spec k k').
Qed.
Lemma assoc_set_keys {A} (k : string) (v : A) d :
  map fst (assoc_set k v d) = if bool_decide (k ∈ map fst d) then map fst d else map fst d ++ [k].
Proof.
  induction d as [|[k0 v0] d IH]; cbn; [done|]. destruct (String.eqb_spec k0 k) as [->|Hne]; cbn.
  - rewrite bool_decide_true; [done|set_solver].
  - rewrite IH. case_bool_decide; case_bool_decide; try done; set_solver.
Qed.

Lemma dict_by_elem {A} (key : A → string) (l : list A) k v : (k, v) ∈ dict_by key l → key v = k ∧ v ∈ l.
Proof.
  unfold dict_by. assert (∀ d, (k, v) ∈ fold_left (λ d x, assoc_set (key x) x d) l d →
    (k, v) ∈ d ∨ (key v = k ∧ v ∈ l)) as H; [|intros E; apply H in E; set_solver].
  induction l as [|x l IH]; intros d; cbn; [auto|]. intros E. apply IH in E as [E|[E1 E2]]; [|set_solver].
  apply elem_of_assoc_set in E as [[-> ->]|E]; set_solver.
Qed.
Lemma assoc_item_by {A} (key : A → string) (l : list A) k v :
  assoc_item k (dict_by key l) = Ok v → key v = k ∧ v ∈ l.
Proof.
  unfold assoc_item. destruct (assoc_get k (dict_by key l)) eqn:E; [|done]. intros [= ->].
  by apply dict_by_elem, assoc_get_elem.
Qed.

(** ** What is published replays *)

Definition replays (request : IbkrHistoricalRequest) (r : IbkrHistoricalRequestResult) : Prop :=
  replay_ibkr_historical_request_result request r = Ok tt.

Lemma is_sha256_not_empty s : is_sha256 s = true → String.eqb s "" = false.
Proof. destruct s; [discriminate|done]. Qed.

(** A result that was built derives again from its own records, to the same values. *)
Lemma built_derives request rs attempts cbs ms r :
  _build_request_result request rs attempts cbs ms = Ok r →
  rr_plan_sha256 r = rs_plan_sha256 rs ∧ rr_request_sha256 r = rs_request_sha256 rs ∧
  rr_request_payload r = rs_request_payload rs ∧ is_sha256 (rr_plan_sha256 r) = true ∧
  rr_retry_history r = _retry_history (rr_attempts r) ∧ first_start (rr_attempts r) = Ok (rr_acquisition_started_at r) ∧
  ∃ d, _derive_request_evidence request (rr_request_status r) (rr_selected_attempt_id r) (rr_attempts r)
         (rr_callbacks r) (rr_completion_markers r) = Ok d ∧
       rr_terminal_disposition r = de_terminal_disposition d ∧ rr_evidence_disposition r = de_evidence_disposition d ∧
       rr_accepted_rows r = de_accepted_rows d ∧ rr_sessions r = de_sessions d ∧
       rr_session_state r = de_session_state d ∧ rr_error_classification r = de_error_classification d ∧
       at_terminal_at (de_selected d) = Some (rr_acquisition_completed_at r).
Proof.
  intros H. unfold _build_request_result in H. do 2 apply bind_Ok in H as (_ & _ & H).
  destruct (rs_selected_attempt_id rs) as [id|]; [|done]. apply bind_Ok in H as (d & Hd & H).
  destruct (at_terminal_at (de_selected d)) as [t|] eqn:Et; [|done].
  apply bind_Ok in H as (start & Hs & H). apply bind_Ok in H as (identity & _ & H).
  apply bind_Ok in H as ([] & Hp & H). injection H as <-. cbn [rr_plan_sha256] in *.
  apply bind_Ok in Hp as (? & Hp & _). apply raise_if_Ok, negb_false_iff in Hp.
  split_and!; try done. exists d. by split_and!.
Qed.

Lemma built_replays request rs attempts cbs ms r expected :
  _build_request_result request rs attempts cbs ms = Ok r → rs_request_sha256 rs = hr_request_sha256 request →
  request_json request = Ok expected → json_neqb (JObj (rs_request_payload rs)) expected = false →
  _validate_request_result_record_identities r = Ok tt → replays request r.
Proof.
  intros Hb Hsha Hj Hpay Hid.
  destruct (built_derives _ _ _ _ _ _ Hb) as (_ & Hr & Hrp & Hp & Hh & Hs & d & Hd & H1 & H2 & H3 & H4 & H5 & H6 & H7).
  unfold replays, replay_ibkr_historical_request_result.
  rewrite Hr, Hsha, String.eqb_refl, (is_sha256_not_empty _ Hp). cbn [orb negb raise_if mbind res_bind].
  rewrite Hj. cbn [mbind res_bind]. rewrite Hrp, Hpay. cbn [raise_if mbind res_bind]. rewrite Hid. cbn [mbind res_bind].
  rewrite Hd. cbn [mbind res_bind]. rewrite H1, H2, H3, H4, H5, H6, Hh, Hs, H7.
  rewrite !bool_decide_true by done. autorewrite with ibkr_results. cbn [negb raise_if mbind res_bind].
  unfold dt_eqb. rewrite !Z.eqb_refl. cbn [negb raise_if mbind res_bind].
  by destruct (de_error_classification d); [rewrite json_neqb_refl|].
Qed.

Lemma identities_each results : _validate_aggregate_result_record_identities results = Ok tt →
  ∀ r, r ∈ results → _validate_request_result_record_identities r = Ok tt.
Proof.
  intros H. apply bind_Ok in H as (s' & H & _). revert s' H. generalize (mkIdentities [] [] [] []).
  induction results as [|r results IH]; intros s s' H x Hx; [set_solver|]. cbn in H.
  apply bind_Ok in H as (s1 & H1 & H). apply elem_of_cons in Hx as [->|Hx]; [|by eapply IH].
  by apply bind_Ok in H1 as ([] & H1 & _).
Qed.

Lemma sorted_map {A B} (f : A → string) (g : B → string) (l : list A) (l' : list B) :
  map f l = map g l' → StronglySorted (key_le f) l → StronglySorted (key_le g) l'.
Proof.
  revert l'. induction l as [|x l IH]; intros [|y l'] E Hs; try done; [constructor|].
  injection E as Ex El. apply StronglySorted_inv in Hs as [Hs Hf]. constructor; [by apply (IH l')|].
  apply list.Forall_forall. intros z Hz. rewrite list.Forall_forall in Hf.
  assert (g z ∈ map f l) as Hm by (rewrite El; apply list_elem_of_fmap; by exists z).
  apply list_elem_of_fmap in Hm as (w & Hw & Hin). unfold key_le in *. rewrite <- Ex, Hw. by apply Hf.
Qed.

Lemma for_each_zip {A B} (f : A * B → res unit) (l : list A) (l' : list B) :
  Forall2 (λ x y, f (x, y) = Ok tt) l l' → for_each (λ _ xy, f xy) tt (zip l l') = Ok tt.
Proof. induction 1 as [|x y l l' H _ IH]; [done|]. cbn. rewrite H. exact IH. Qed.

Lemma built_aggregate_valid plan plan_bytes results g :
  build_ibkr_historical_aggregate_result plan plan_bytes results = Ok g → IbkrHistoricalAggregateResult_post_init g = Ok tt.
Proof.
  intros H. unfold build_ibkr_historical_aggregate_result in H. do 3 apply bind_Ok in H as (_ & _ & H).
  do 3 apply bind_Ok in H as (? & _ & H). apply bind_Ok in H as ([coverage entitlement] & _ & H).
  apply bind_Ok in H as ([] & Hp & H). by injection H as <-.
Qed.
Lemma aggregate_json_Ok g : IbkrHistoricalAggregateResult_post_init g = Ok tt → ∃ j, aggregate_json g = Ok j.
Proof.
  intros H. unfold IbkrHistoricalAggregateResult_post_init in H. do 8 apply bind_Ok in H as (_ & _ & H).
  apply bind_Ok in H as (? & _ & H). do 2 apply bind_Ok in H as (_ & _ & H). apply bind_Ok in H as (c & E & _).
  eexists. unfold aggregate_json. by rewrite E.
Qed.

(** ** Closures *)

(** The marker of a completion callback. *)
Definition closes (allow : bool) (a : IbkrHistoricalAttemptEvidence) (markers : list IbkrHistoricalCompletionEvidence)
    (c : IbkrHistoricalCallbackEvidence) (m : IbkrHistoricalCompletionEvidence) : Prop :=
  m ∈ markers ∧ cm_sequence m = cr_sequence c ∧ marker_matches_callback m c = true ∧
  cm_closure_eligible m = expected_completion allow a m.

Lemma check_completions_Ok allow a markers cbs acc out :
  for_each (check_completion allow a markers) acc cbs = Ok out →
  ∃ ms, Forall2 (closes allow a markers) cbs ms ∧ out = acc ++ List.filter cm_closure_eligible ms.
Proof.
  revert acc. induction cbs as [|c cbs IH]; intros acc H; cbn in H.
  { injection H as ->. exists []. split; [constructor|by rewrite app_nil_r]. }
  apply bind_Ok in H as (acc' & Hc & H). unfold check_completion in Hc.
  destruct (List.filter (λ m, cm_sequence m =? cr_sequence c) markers) as [|m [|]] eqn:Ef; [done| |done].
  assert (m ∈ List.filter (λ m, cm_sequence m =? cr_sequence c) markers) as Hm by (rewrite Ef; set_solver).
  apply elem_of_filter_bool in Hm as [Hm Hs]. apply Z.eqb_eq in Hs.
  apply bind_Ok in Hc as ([] & H1 & Hc). apply bind_Ok in Hc as ([] & H2 & Hc).
  apply raise_if_Ok, negb_false_iff in H1, H2. apply eqb_prop in H2. injection Hc as <-.
  apply IH in H as (ms & Hms & ->). exists (m :: ms). split; [by constructor|]. cbn.
  destruct (cm_closure_eligible m); [by rewrite <- app_assoc|done].
Qed.

Lemma closing_markers_all allow a markers cbs ms :
  NoDup (map cr_sequence cbs) → length cbs = length markers → Forall2 (closes allow a markers) cbs ms → ms ≡ₚ markers.
Proof.
  intros Hn Hl Hc. assert (map cm_sequence ms = map cr_sequence cbs) as E.
  { clear -Hc. induction Hc as [|c m cbs ms (_ & E & _) _ IH]; [done|]. cbn. by rewrite E, IH. }
  assert (NoDup ms) as Hm.
  { apply (NoDup_fmap_1 cm_sequence). change (NoDup (map cm_sequence ms)). by rewrite E. }
  apply submseteq_length_Permutation.
  - apply NoDup_submseteq; [done|]. intros m Hin. clear -Hc Hin. induction Hc as [|c m' cbs ms (Hm & _) _ IH]; set_solver.
  - rewrite <- Hl. apply Forall2_length in Hc. lia.
Qed.

Lemma ordinals_NoDup n : NoDup (ordinals n).
Proof. unfold ordinals. apply (NoDup_fmap_2 Z.of_nat), NoDup_seq. Qed.
Lemma short_perm {A} (l l' : list A) : l ≡ₚ l' → (length l <= 1)%nat → l = l'.
Proof.
  intros H Hl. pose proof (Permutation_length H) as E. destruct l as [|x [|]], l' as [|y [|]]; cbn in *; try done; try lia.
  apply Permutation_singleton_inj in H. by subst.
Qed.

(** A closure that validates: eligibility of its markers and callbacks is what the attempt
    implies, and at most one marker is eligible. *)
Record closure_ok (allow : bool) (cbs : list IbkrHistoricalCallbackEvidence) (ms : list IbkrHistoricalCompletionEvidence)
    (a : IbkrHistoricalAttemptEvidence) : Prop := {
  co_sequences : map cr_sequence (List.filter (of_attempt a) cbs) = ordinals (length (List.filter (of_attempt a) cbs));
  co_markers : ∀ m, m ∈ ms → marks_attempt a m = true →
    cm_closure_eligible m = expected_completion allow a m ∧
    ∃ c, c ∈ cbs ∧ of_attempt a c = true ∧ cr_kind c = CB_COMPLETION ∧ marker_matches_callback m c = true;
  co_single : (length (List.filter cm_closure_eligible (List.filter (marks_attempt a) ms)) <= 1)%nat;
  co_callbacks : ∀ c, c ∈ cbs → of_attempt a c = true →
    cr_closure_eligible c
    = expected_callback a (head (List.filter cm_closure_eligible (List.filter (marks_attempt a) ms))) c }.

Lemma attempt_closure_ok allow cbs ms a u : attempt_closure allow cbs ms a = Ok u → closure_ok allow cbs ms a.
Proof.
  intros H. unfold attempt_closure in H. apply bind_Ok in H as ([] & Hs & H).
  apply raise_if_Ok, negb_false_iff, bool_decide_eq_true in Hs.
  apply bind_Ok in H as (_ & _ & H). apply bind_Ok in H as ([] & Hl & H). apply raise_if_Ok, negb_false_iff, Nat.eqb_eq in Hl.
  apply bind_Ok in H as (matching & Hm & H). apply check_completions_Ok in Hm as (found & Hf & ->).
  apply bind_Ok in H as ([] & H1 & H). apply raise_if_Ok, Z.ltb_ge in H1.
  apply bind_Ok in H as ([] & Hc & _). pose proof (proj1 (for_each_unit _ _ _) Hc) as Hc'. clear Hc.
  set (acb := List.filter (of_attempt a) cbs) in *. set (amk := List.filter (marks_attempt a) ms) in *.
  set (ccb := List.filter (λ c, bool_decide (cr_kind c = CB_COMPLETION)) acb) in *.
  assert (found ≡ₚ amk) as Hp.
  { apply (closing_markers_all allow a amk ccb); [|done|done]. apply filter_keys_NoDup. rewrite Hs. apply ordinals_NoDup. }
  assert (List.filter cm_closure_eligible found = List.filter cm_closure_eligible amk) as E.
  { apply short_perm; [by apply filter_perm|]. cbn in H1. lia. }
  cbn [app] in *. split; [done| | |].
  - intros m Hin Ha. assert (m ∈ found) as Hfm by (rewrite Hp; by apply elem_of_filter_bool).
    apply list_elem_of_lookup in Hfm as [i Hi]. destruct (Forall2_lookup_r _ _ _ _ _ Hf Hi) as (c & Hci & _ & _ & Hmc & He).
    split; [done|]. apply list_elem_of_lookup_2, elem_of_filter_bool in Hci as [Hci Hk].
    apply elem_of_filter_bool in Hci as [Hci Hca]. exists c. split_and!; try done. by apply bool_decide_eq_true in Hk.
  - fold amk. rewrite <- E. lia.
  - fold amk. intros c Hin Ha. rewrite <- E. assert (c ∈ acb) as Hca by (by apply elem_of_filter_bool).
    specialize (Hc' c Hca). apply raise_if_Ok, negb_false_iff, eqb_prop in Hc'. done.
Qed.

(** ** Bars *)

Definition inside (request : IbkrHistoricalRequest) (t : datetime) : Prop :=
  instant (hr_interval_start request) <= instant t < instant (hr_interval_end request).

(** [row] is the bar a callback reports at [t]: minute aligned, inside the interval of the
    request, with consistent prices. *)
Definition bar_of (request : IbkrHistoricalRequest) (c : IbkrHistoricalCallbackEvidence) (t : datetime) (row : dict) : Prop :=
  _provider_epoch (cr_payload c) "historical bar timestamp" = Ok t ∧ inside request t ∧ off_minute t = false ∧
  ∃ open high low close o h l cl,
    bar_decimal c "open" = Ok open ∧ bar_decimal c "high" = Ok high ∧ bar_decimal c "low" = Ok low ∧
    bar_decimal c "close" = Ok close ∧ Decimal_of_str open = Ok o ∧ Decimal_of_str high = Ok h ∧
    Decimal_of_str low = Ok l ∧ Decimal_of_str close = Ok cl ∧
    dec_leb dec_zero l = true ∧ dec_leb l o = true ∧ dec_leb o h = true ∧ dec_leb l cl = true ∧ dec_leb cl h = true ∧
    row = bar_row request c t open high low close.

(** The callback's bar is outside the interval, or it is among the rows, up to the number of
    the callback it was taken from. *)
Definition same_bar (row row' : dict) : bool :=
  json_eqb (JObj (without "callback_sequence" row)) (JObj (without "callback_sequence" row')).
Definition represented (request : IbkrHistoricalRequest) (entries : list (datetime * dict))
    (c : IbkrHistoricalCallbackEvidence) : Prop :=
  ∃ t, _provider_epoch (cr_payload c) "historical bar timestamp" = Ok t ∧
    (¬ inside request t ∨ ∃ row row', (t, row) ∈ entries ∧ bar_of request c t row' ∧ same_bar row row' = true).

Record bars_inv (request : IbkrHistoricalRequest) (pre : list IbkrHistoricalCallbackEvidence)
    (by_start : list (datetime * dict)) : Prop := {
  bi_keys : NoDup (map (λ kv, instant kv.1) by_start);
  bi_rows : ∀ t row, (t, row) ∈ by_start → ∃ c, c ∈ pre ∧ cr_kind c = CB_MIDPOINT_BAR ∧ bar_of request c t row;
  bi_all : ∀ c, c ∈ pre → cr_kind c = CB_MIDPOINT_BAR → represented request by_start c }.

Lemma dec_ltb_false_leb a b : dec_ltb a b = false → dec_leb b a = true.
Proof. rewrite dec_ltb_leb. apply negb_false_iff. Qed.

Lemma epoch_utc payload field t : _provider_epoch payload field = Ok t → t = utc (instant t).
Proof.
  assert (∀ e, from_epoch e field = Ok t → t = utc (instant t)) as H.
  { intros e He. apply bind_Ok in He as (_ & _ & He). injection He as <-. unfold instant, utc. cbn. f_equal. lia. }
  unfold _provider_epoch. destruct (_first_present _ _); try done; [apply H|].
  destruct (isdigit s); [|done]. intros (e & _ & He)%bind_Ok. by eapply H.
Qed.

Lemma represented_more request entries e c : represented request entries c → represented request (entries ++ [e]) c.
Proof. intros (t & Ht & [Ho|(row & row' & Hin & H)]); exists t; (split; [done|]); [by left|right]. exists row, row'. set_solver. Qed.

Lemma by_start_get_Some t l row : by_start_get t l = Some row → ∃ t', (t', row) ∈ l ∧ instant t' = instant t.
Proof.
  unfold by_start_get. destruct (List.find _ l) as [[t' r]|] eqn:E; [|done]. intros [= ->].
  apply find_some in E as [Hin Ht]. exists t'. split; [by apply list_elem_of_In|]. by apply Z.eqb_eq in Ht.
Qed.
Lemma by_start_get_None t l : by_start_get t l = None → instant t ∉ map (λ kv : datetime * dict, instant kv.1) l.
Proof.
  unfold by_start_get. destruct (List.find _ l) eqn:E; [done|]. intros _ (kv & Hk & Hin)%list_elem_of_fmap.
  pose proof (find_none _ _ E kv (proj1 (list_elem_of_In _ _) Hin)) as Hf. cbn in Hf. unfold dt_eqb in Hf.
  apply Z.eqb_neq in Hf. by rewrite Hk in Hf.
Qed.

Lemma bar_callback_inv request pre by_start c by_start' :
  bars_inv request pre by_start → bar_callback request by_start c = Ok by_start' → bars_inv request (pre ++ [c]) by_start'.
Proof.
  intros [Hk Hr Ha] H. unfold bar_callback in H.
  assert (by_start' = by_start → (cr_kind c = CB_MIDPOINT_BAR → represented request by_start c) →
          bars_inv request (pre ++ [c]) by_start') as Hsame.
  { intros -> Hc. split; [done| |].
    - intros t row Hin. destruct (Hr t row Hin) as (x & ? & ?). exists x. set_solver.
    - intros x [Hx|Hx%list_elem_of_singleton]%elem_of_app; [auto|by subst]. }
  case_bool_decide as Hkind; cbn [negb] in H; [|injection H as <-; by apply Hsame].
  apply bind_Ok in H as (t & Ht & H).
  destruct (dt_ltb t (hr_interval_start request) || dt_leb (hr_interval_end request) t) eqn:Eo.
  { injection H as <-. apply Hsame; [done|]. intros _. exists t. split; [done|left]. unfold inside.
    apply orb_true_iff in Eo as [Eo|Eo]; [apply Z.ltb_lt in Eo|apply Z.leb_le in Eo]; lia. }
  apply orb_false_iff in Eo as [Eo1 Eo2]. apply Z.ltb_ge in Eo1. apply Z.leb_gt in Eo2.
  apply bind_Ok in H as ([] & Hm & H). apply raise_if_Ok in Hm. apply bind_Ok in H as (_ & _ & H).
  apply bind_Ok in H as (open & H1 & H). apply bind_Ok in H as (high & H2 & H). apply bind_Ok in H as (low & H3 & H).
  apply bind_Ok in H as (close & H4 & H). apply bind_Ok in H as (o & H5 & H). apply bind_Ok in H as (h & H6 & H).
  apply bind_Ok in H as (l & H7 & H). apply bind_Ok in H as (cl & H8 & H). apply bind_Ok in H as ([] & Hv & H).
  apply raise_if_Ok in Hv. unfold invalid_ohlc in Hv. do 5 apply orb_false_iff in Hv as [Hv ?].
  assert (bar_of request c t (bar_row request c t open high low close)) as Hb.
  { split; [done|]. split; [by unfold inside|]. split; [done|]. exists open, high, low, close, o, h, l, cl.
    split_and!; auto using dec_ltb_false_leb. }
  destruct (by_start_get t by_start) as [previous|] eqn:Eg.
  - apply bind_Ok in H as ([] & He & H). injection H as <-. apply raise_if_Ok, negb_false_iff in He.
    apply by_start_get_Some in Eg as (t' & Hin & Et). destruct (Hr _ _ Hin) as (c' & _ & _ & Hep & _).
    rewrite (epoch_utc _ _ _ Hep), Et, <- (epoch_utc _ _ _ Ht) in Hin.
    apply Hsame; [done|]. intros _. exists t. split; [done|right]. by eexists _, _.
  - injection H as <-. apply by_start_get_None in Eg. split.
    + rewrite map_app. apply NoDup_app. split_and!; [done| |apply NoDup_singleton]. cbn. set_solver.
    + intros t' row [Hin|Hin%list_elem_of_singleton]%elem_of_app.
      * destruct (Hr _ _ Hin) as (x & ? & ?). exists x. set_solver.
      * injection Hin as -> ->. exists c. set_solver.
    + intros x [Hx|Hx%list_elem_of_singleton]%elem_of_app Hxk; [by apply represented_more, Ha|]. subst x.
      exists t. split; [done|right]. exists (bar_row request c t open high low close), (bar_row request c t open high low close).
      split; [set_solver|]. split; [exact Hb|].
      unfold same_bar, json_eqb. by apply bool_decide_true.
Qed.

(** Rows in strictly increasing order of time, each the bar of a callback, every callback's
    bar among them. *)
Record bars_of (request : IbkrHistoricalRequest) (cbs : list IbkrHistoricalCallbackEvidence)
    (entries : list (datetime * dict)) : Prop := {
  bo_sorted : StronglySorted (λ x y, instant x.1 < instant y.1) entries;
  bo_sound : ∀ t row, (t, row) ∈ entries → ∃ c, c ∈ cbs ∧ cr_kind c = CB_MIDPOINT_BAR ∧ bar_of request c t row;
  bo_complete : ∀ c, c ∈ cbs → cr_kind c = CB_MIDPOINT_BAR → represented request entries c }.

Lemma sorted_lt {A} (key : A → Z) l :
  StronglySorted (key_le key) l → NoDup (map key l) → StronglySorted (λ x y, key x < key y) l.
Proof.
  induction 1 as [|x l Hs IH Hf]; intros Hn; [constructor|]. apply NoDup_cons in Hn as [Hx Hn]. constructor; [auto|].
  apply list.Forall_forall. intros y Hy. rewrite list.Forall_forall in Hf. specialize (Hf y Hy).
  unfold key_le in Hf. rewrite pyle_Z in Hf. apply Z.leb_le in Hf.
  assert (key x ≠ key y) by (intros E; apply Hx; rewrite E; apply list_elem_of_fmap; by exists y). lia.
Qed.

Lemma normalise_bars_Ok request cbs rows : _normalise_bars request cbs = Ok rows →
  ∃ entries, rows = map snd entries ∧ bars_of request cbs entries.
Proof.
  intros H. apply bind_Ok in H as (by_start & H & E). injection E as <-.
  exists (py_sorted (λ kv, instant kv.1) by_start). split; [done|].
  pose proof (for_each_prefix _ (bars_inv request) cbs (λ pre s c s' _, bar_callback_inv request pre s c s') [] [] by_start) as Hi.
  destruct Hi as [Hk Hr Ha]; [split; [constructor|set_solver|set_solver]|exact H|]. cbn [app] in *. split.
  - apply sorted_lt; [apply (py_sorted_sorted (λ kv : datetime * dict, instant kv.1))|].
    by rewrite (py_sorted_perm (λ kv : datetime * dict, instant kv.1)).
  - intros t row Hin. apply Hr. by apply elem_of_py_sorted in Hin.
  - intros c Hc Hkind. destruct (Ha c Hc Hkind) as (t & Ht & [Ho|(row & row' & Hin & ?)]); exists t; (split; [done|]); [by left|right].
    exists row, row'. split; [by apply elem_of_py_sorted|done].
Qed.

(** ** Derivations *)

(** The eligible completion marker of an attempt, and the callbacks up to it. *)
Definition completes (a : IbkrHistoricalAttemptEvidence) (m : IbkrHistoricalCompletionEvidence) : Prop :=
  cm_attempt_id m = at_attempt_id a ∧ cm_closure_eligible m = true ∧ _completion_matches_attempt m a = true ∧
  ∃ t, at_terminal_at a = Some t ∧ instant (cm_completed_at m) <= instant t.
Definition up_to (a : IbkrHistoricalAttemptEvidence) (m : IbkrHistoricalCompletionEvidence)
    (c : IbkrHistoricalCallbackEvidence) : Prop :=
  cr_attempt_id c = at_attempt_id a ∧ cr_closure_eligible c = true ∧ _callback_matches_attempt c a = true ∧
  cr_sequence c <= cm_sequence m ∧ instant (cr_received_at c) <= instant (cm_completed_at m).

Record derivation (request : IbkrHistoricalRequest) (status : IbkrRequestStatus)
    (attempts : list IbkrHistoricalAttemptEvidence) (cbs : list IbkrHistoricalCallbackEvidence)
    (ms : list IbkrHistoricalCompletionEvidence) (d : _DerivedRequestEvidence) : Prop := {
  dv_sequence : _validate_attempt_sequence (py_sorted at_attempt_ordinal attempts) = Ok tt;
  dv_closures : ∀ a, a ∈ attempts → closure_ok false (py_sorted callback_order cbs) (py_sorted marker_order ms) a;
  dv_outcomes : ∀ a, a ∈ attempts →
    attempt_outcome false request (py_sorted callback_order cbs) (py_sorted marker_order ms) a = Ok tt;
  dv_select : select_attempt status (py_sorted at_attempt_ordinal attempts) = Ok (de_selected d, de_terminal_disposition d);
  dv_evidence : ∃ detail,
    let completion := head (_eligible_markers_for_evidence (py_sorted marker_order ms) (de_selected d)) in
    request_evidence request status (de_terminal_disposition d) (de_selected d) completion
      (_accepted_callbacks (py_sorted callback_order cbs) (de_selected d) completion)
    = Ok (de_evidence_disposition d, (de_accepted_rows d, de_sessions d, de_session_state d), detail) }.

Lemma derive_Ok request status id attempts cbs ms d :
  _derive_request_evidence request status id attempts cbs ms = Ok d → derivation request status attempts cbs ms d.
Proof.
  intros H. unfold _derive_request_evidence in H. apply bind_Ok in H as ([] & Hs & H).
  do 2 apply bind_Ok in H as (_ & _ & H). apply bind_Ok in H as ([] & Hc & H). apply bind_Ok in H as ([] & Ho & H).
  apply bind_Ok in H as ([selected disposition] & Hsel & H). do 2 apply bind_Ok in H as (_ & _ & H).
  apply bind_Ok in H as ([[evidence [[rows sessions] state]] detail] & He & H). injection H as <-.
  pose proof (proj1 (for_each_unit _ _ _) Hc) as Hc'. pose proof (proj1 (for_each_unit _ _ _) Ho) as Ho'.
  split; cbn; try done.
  - intros a Ha. eapply attempt_closure_ok, Hc'. by apply elem_of_py_sorted.
  - intros a Ha. apply Ho'. by apply elem_of_py_sorted.
  - by exists detail.
Qed.

Lemma select_elem status l a d : select_attempt status l = Ok (a, d) → a ∈ l.
Proof.
  unfold select_attempt. destruct (List.filter _ l) as [|s ss] eqn:E.
  - intros (_ & _ & H)%bind_Ok. destruct (list.last l) as [s|] eqn:El; [|done]. apply bind_Ok in H as (_ & _ & H).
    assert (s = a) as <- by (destruct (at_terminal_disposition s) as [[]|]; congruence). by apply last_Some_elem_of.
  - intros (_ & _ & H)%bind_Ok. apply bind_Ok in H as (_ & _ & H). injection H as -> _.
    assert (a ∈ a :: ss) as Hin by set_solver. rewrite <- E in Hin. by apply elem_of_filter_bool in Hin as [? _].
Qed.

Lemma filter_filter_bool {A} (f g h : A → bool) l : (∀ x, x ∈ l → h x = g x && f x) →
  List.filter f (List.filter g l) = List.filter h l.
Proof.
  induction l as [|x l IH]; intros H; [done|]. cbn. rewrite (H x) by set_solver.
  destruct (g x); cbn; [destruct (f x)|]; rewrite IH; try done; set_solver.
Qed.

(** What a validated closure allows is decided by the recorded eligibility. *)
Lemma eligible_markers_same cbs ms a : closure_ok false cbs ms a →
  List.filter cm_closure_eligible (List.filter (marks_attempt a) ms) = _eligible_markers_for_evidence ms a.
Proof.
  intros Hc. apply filter_filter_bool. intros m Hm. destruct (marks_attempt a m) eqn:Ea; [|done]. cbn.
  destruct (co_markers _ _ _ _ Hc m Hm Ea) as [E _]. destruct (cm_closure_eligible m); [|done].
  symmetry in E. unfold expected_completion in E. by apply andb_true_iff in E as [-> _].
Qed.
Lemma eligible_marker_completes cbs ms a m : closure_ok false cbs ms a →
  head (_eligible_markers_for_evidence ms a) = Some m → m ∈ ms ∧ completes a m.
Proof.
  intros Hc H. assert (m ∈ _eligible_markers_for_evidence ms a) as Hm.
  { destruct (_eligible_markers_for_evidence ms a); [done|]. injection H as ->. set_solver. }
  apply elem_of_filter_bool in Hm as [Hin Hm]. apply andb_true_iff in Hm as [Hm H2]. apply andb_true_iff in Hm as [H1 He].
  split; [done|]. destruct (co_markers _ _ _ _ Hc m Hin H1) as [E _]. rewrite He in E. symmetry in E.
  unfold expected_completion in E. apply andb_true_iff in E as [_ E]. apply bool_decide_eq_true in H1. split_and!; try done.
  destruct (at_terminal_at a) as [t|]; [|done]. exists t. split; [done|]. by apply Z.leb_le in E.
Qed.
Lemma accepted_iff cbs ms a m c : closure_ok false cbs ms a → head (_eligible_markers_for_evidence ms a) = Some m →
  c ∈ _accepted_callbacks cbs a (Some m) ↔ c ∈ cbs ∧ up_to a m c.
Proof.
  intros Hc Hm. unfold _accepted_callbacks, up_to. rewrite elem_of_filter_bool, !andb_true_iff, Z.leb_le.
  split.
  - intros (Hin & ((Ha & He) & Hmat) & Hs). split; [done|]. pose proof (co_callbacks _ _ _ _ Hc c Hin Ha) as E.
    rewrite (eligible_markers_same _ _ _ Hc), Hm, He in E. symmetry in E. unfold expected_callback in E.
    apply andb_true_iff in E as [_ E]. apply andb_true_iff in E as [_ E]. apply Z.leb_le in E.
    apply bool_decide_eq_true in Ha. by split_and!.
  - intros (Hin & Ha & He & Hmat & Hs & _). split_and!; try done. by apply bool_decide_eq_true.
Qed.

(** A successful derivation of bars went through [_normalise_bars]. *)
Lemma successful_bars request terminal a completion accepted rows sessions state detail :
  hr_kind request = MIDPOINT_BARS →
  request_evidence request REQ_SUCCEEDED terminal a completion accepted = Ok (ED_SUCCEEDED, (rows, sessions, state), detail) →
  is_Some completion ∧ existsb (λ c, bool_decide (cr_kind c = CB_ERROR)) accepted = false ∧
  _normalise_bars request accepted = Ok rows ∧ rows ≠ [].
Proof.
  intros Hk H. unfold request_evidence in H. rewrite decide_False in H by done.
  destruct (existsb _ accepted) eqn:Ee; [done|]. case_decide as Hc; [done|].
  split; [by destruct completion; [eexists|]|]. split; [done|].
  unfold normalised in H. rewrite Hk in H. destruct (_normalise_bars request accepted) as [r|e] eqn:En; cbn in H.
  - destruct (Nat.eqb_spec (length r) 0) as [|Hr]; [done|]. injection H as -> _ _ _. split; [done|]. by intros ->.
  - by destruct (exn_class e).
Qed.

(** C15: published rows are sound and complete. When bars are derived as successful, the selected
    attempt has an eligible completion before its end; the rows are in strictly increasing order
    of time; each row is the minute-aligned bar, inside the interval of the request and with
    consistent prices, of an eligible callback of that attempt and its connection, received up to
    the completion; no such callback reports an error; and the bar of every such callback is
    outside the interval or among the rows. *)
Theorem accepted_rows_sound request id attempts cbs ms d :
  _derive_request_evidence request REQ_SUCCEEDED id attempts cbs ms = Ok d →
  hr_kind request = MIDPOINT_BARS → de_evidence_disposition d = ED_SUCCEEDED →
  ∃ m entries, m ∈ ms ∧ completes (de_selected d) m ∧ entries ≠ [] ∧ de_accepted_rows d = map snd entries ∧
    (∀ c, c ∈ cbs → up_to (de_selected d) m c → cr_kind c ≠ CB_ERROR) ∧
    StronglySorted (λ x y, instant x.1 < instant y.1) entries ∧
    (∀ t row, (t, row) ∈ entries →
      ∃ c, c ∈ cbs ∧ up_to (de_selected d) m c ∧ cr_kind c = CB_MIDPOINT_BAR ∧ bar_of request c t row) ∧
    (∀ c, c ∈ cbs → up_to (de_selected d) m c → cr_kind c = CB_MIDPOINT_BAR → represented request entries c).
Proof.
  intros H Hk He. apply derive_Ok in H as [_ Hclo _ Hsel (detail & Hev)]. cbv zeta in Hev. rewrite He in Hev.
  apply successful_bars in Hev as ([m Hm] & Herr & Hrows & Hne); [|done]. rewrite Hm in *.
  assert (closure_ok false (py_sorted callback_order cbs) (py_sorted marker_order ms) (de_selected d)) as Hc.
  { apply Hclo. apply select_elem in Hsel. by apply elem_of_py_sorted in Hsel. }
  assert (∀ c, c ∈ _accepted_callbacks (py_sorted callback_order cbs) (de_selected d) (Some m)
               ↔ c ∈ cbs ∧ up_to (de_selected d) m c) as Hacc.
  { intros c. rewrite (accepted_iff _ _ _ _ _ Hc Hm). by rewrite elem_of_py_sorted. }
  destruct (eligible_marker_completes _ _ _ _ Hc Hm) as [Hin Hcm]. apply elem_of_py_sorted in Hin.
  apply normalise_bars_Ok in Hrows as (entries & Er & [Hs Hsound Hall]).
  exists m, entries. split_and!; try done.
  - intros ->. by apply Hne.
  - intros c Hcin Hu Hce. assert (c ∈ _accepted_callbacks (py_sorted callback_order cbs) (de_selected d) (Some m)) as Ha by (by apply Hacc).
    assert (existsb (λ c, bool_decide (cr_kind c = CB_ERROR)) (_accepted_callbacks (py_sorted callback_order cbs) (de_selected d) (Some m)) = true)
      as E; [|congruence]. apply existsb_exists. exists c. split; [by apply list_elem_of_In|by apply bool_decide_true].
  - intros t row Ht. destruct (Hsound t row Ht) as (c & Hca & Hck & Hb). apply Hacc in Hca as [? ?]. by exists c.
  - intros c Hcin Hu. apply Hall, Hacc. done.
Qed.

(** ** Coverage *)

Definition is_bar (q : IbkrHistoricalRequest) : bool := bool_decide (hr_kind q = MIDPOINT_BARS).

(** A planned request with its result. *)
Notation paired := (IbkrHistoricalRequest * IbkrHistoricalRequestResult)%type.
Definition for_instrument (i : string) (p : paired) : bool := String.eqb (hr_instrument_id p.1) i.
Definition coverage_of (i : string) (ps : list paired) : InstrumentCoverage :=
  fold_left (λ c p, cover p.1 p.2 c) (List.filter (for_instrument i) ps) (mkInstrumentCoverage no_coverage no_coverage).

Record kind_counts (of_kind : paired → bool) (items : paired → Z) (ps : list paired) (k k' : KindCoverage) : Prop := {
  kn_planned : kc_planned k' = kc_planned k + count_by of_kind ps;
  kn_terminal : kc_terminal k' = kc_terminal k + count_by (λ p, of_kind p && is_published_status (rr_request_status p.2)) ps;
  kn_successful : kc_successful k' = kc_successful k + count_by (λ p, of_kind p && evidence_is ED_SUCCEEDED p.2) ps;
  kn_items : 0 <= kc_items k → (0 < kc_items k' ↔ 0 < kc_items k ∨ ∃ p, p ∈ ps ∧ of_kind p = true ∧ 0 < items p);
  kn_items_nonneg : 0 <= kc_items k → 0 <= kc_items k' }.

Lemma count_by_cons {T} (f : T → bool) x l : count_by f (x :: l) = one_if (f x) + count_by f l.
Proof. unfold count_by, one_if. cbn. destruct (f x); cbn [length]; lia. Qed.

Lemma kind_counts_skip of_kind items p ps k k' : of_kind p = false →
  kind_counts of_kind items ps k k' → kind_counts of_kind items (p :: ps) k k'.
Proof.
  intros Hp []. split; rewrite ?count_by_cons, ?Hp; cbn [andb one_if]; try lia.
  intros Hk. rewrite kn_items0 by done. split.
  - intros [|(x & ? & ?)]; [by left|right; exists x; set_solver].
  - intros [|(x & [->|]%elem_of_cons & ? & ?)]; [by left|congruence|right; by exists x].
Qed.
Lemma kind_counts_step of_kind items p ps k k' : of_kind p = true → 0 <= items p →
  kind_counts of_kind items ps (cover_kind (items p) p.2 k) k' → kind_counts of_kind items (p :: ps) k k'.
Proof.
  intros Hp Hi [H1 H2 H3 H4 H5]. cbn [cover_kind kc_planned kc_terminal kc_successful kc_items] in *.
  split; rewrite ?count_by_cons, ?Hp; cbn [andb one_if]; try lia.
  intros Hk. rewrite H4 by lia. split.
  - intros [H|(x & Hx & ?)]; [|right; exists x; set_solver]. destruct (decide (0 < kc_items k)); [by left|].
    right. exists p. split_and!; [set_solver|done|lia].
  - intros [H|(x & [->|Hx]%elem_of_cons & Hk' & ?)]; [left; lia|left; lia|right; by exists x].
Qed.

Lemma cover_counts ps c :
  kind_counts (λ p, is_bar p.1) (λ p, Z.of_nat (length (rr_accepted_rows p.2))) ps (ic_bar c)
    (ic_bar (fold_left (λ c p, cover p.1 p.2 c) ps c)) ∧
  kind_counts (λ p, negb (is_bar p.1)) (λ p, Z.of_nat (length (rr_sessions p.2))) ps (ic_schedule c)
    (ic_schedule (fold_left (λ c p, cover p.1 p.2 c) ps c)).
Proof.
  revert c. induction ps as [|p ps IH]; intros c; cbn [fold_left].
  { assert (∀ f g k, kind_counts f g [] k k) as H; [|by split].
    intros f g k. split; unfold count_by; cbn; try lia. intros _. split; [by left|]. intros [|(? & ? & _)]; [done|set_solver]. }
  destruct (IH (cover p.1 p.2 c)) as [H1 H2]. unfold cover, is_bar in *.
  destruct (hr_kind p.1) eqn:E; cbn [ic_bar ic_schedule] in *; split.
  - apply kind_counts_step; [by rewrite E|lia|exact H1].
  - apply kind_counts_skip; [by rewrite E|exact H2].
  - apply kind_counts_skip; [by rewrite E|exact H1].
  - apply kind_counts_step; [by rewrite E|lia|exact H2].
Qed.

Lemma count_by_pos {T} (f : T → bool) l : 0 < count_by f l ↔ ∃ x, x ∈ l ∧ f x = true.
Proof.
  unfold count_by. split.
  - destruct (List.filter f l) as [|x r] eqn:E; cbn; [lia|]. intros _. exists x.
    apply elem_of_filter_bool. rewrite E. set_solver.
  - intros (x & Hx). apply elem_of_filter_bool in Hx. destruct (List.filter f l); [set_solver|cbn; lia].
Qed.
Lemma count_by_all {T} (f g : T → bool) l :
  count_by (λ x, f x && g x) l = count_by f l ↔ ∀ x, x ∈ l → f x = true → g x = true.
Proof.
  assert (∀ l, count_by (λ x, f x && g x) l <= count_by f l) as Hle.
  { clear l. intros l. induction l as [|x l IH]; [done|]. rewrite !count_by_cons. destruct (f x), (g x); cbn [andb one_if]; lia. }
  induction l as [|x l IH]; [set_solver|]. rewrite !count_by_cons. specialize (Hle l). split.
  - intros E. destruct (f x) eqn:Ef, (g x) eqn:Eg; cbn [andb one_if] in E; try lia; intros y [->|Hy]%elem_of_cons ?; try congruence;
      apply IH; auto; lia.
  - intros H. rewrite (proj2 IH) by (intros; apply H; set_solver). destruct (f x) eqn:Ef; [|done].
    by rewrite (H x) by set_solver.
Qed.

Lemma evidence_is_true d r : evidence_is d r = true ↔ rr_evidence_disposition r = d.
Proof. apply bool_decide_eq_true. Qed.

Lemma coverage_eligible i ps : history_eligible (coverage_of i ps) = true ↔
  (∀ p, p ∈ ps → hr_instrument_id p.1 = i → is_published_status (rr_request_status p.2) = true ∧ rr_evidence_disposition p.2 = ED_SUCCEEDED) ∧
  (∃ p, p ∈ ps ∧ hr_instrument_id p.1 = i ∧ is_bar p.1 = true ∧ rr_accepted_rows p.2 ≠ []) ∧
  (∃ p, p ∈ ps ∧ hr_instrument_id p.1 = i ∧ is_bar p.1 = false).
Proof.
  unfold coverage_of, history_eligible. set (qs := List.filter (for_instrument i) ps).
  assert (∀ p, p ∈ qs ↔ p ∈ ps ∧ hr_instrument_id p.1 = i) as Hq.
  { intros p. unfold qs, for_instrument. by rewrite elem_of_filter_bool, String.eqb_eq. }
  destruct (cover_counts qs (mkInstrumentCoverage no_coverage no_coverage)) as [[B1 B2 B3 B4 _] [S1 S2 S3 _ _]].
  cbn [ic_bar ic_schedule no_coverage kc_planned kc_terminal kc_successful kc_items] in *.
  rewrite !andb_true_iff, !Z.ltb_lt, !Z.eqb_eq, B1, B2, B3, S1, S2, S3, !Z.add_0_l, !count_by_pos, !count_by_all, B4 by lia.
  setoid_rewrite Hq. setoid_rewrite evidence_is_true. setoid_rewrite negb_true_iff. split.
  - intros ((((((_ & Hs) & Tb) & Ts) & Eb) & Es) & [?|(p & (Hp & Hi) & Hb & Hn)]); [lia|]. split_and!.
    + intros q Hin Hqi. destruct (is_bar q.1) eqn:E; split; auto.
    + exists p. split_and!; try done. intros E. rewrite E in Hn. cbn in Hn. lia.
    + destruct Hs as (q & (? & ?) & ?). by exists q.
  - intros (Hall & (p & Hp & Hi & Hb & Hn) & (q & Hqp & Hqi & Hqb)). split_and!.
    + by exists p.
    + by exists q.
    + intros x [Hx Hxi] _. by apply Hall.
    + intros x [Hx Hxi] _. by apply Hall.
    + intros x [Hx Hxi] _. by apply Hall.
    + intros x [Hx Hxi] _. by apply Hall.
    + right. exists p. split_and!; try done. destruct (rr_accepted_rows p.2); [done|cbn; lia].
Qed.

Lemma coverage_of_app i ps p :
  coverage_of i (ps ++ [p]) = if for_instrument i p then cover p.1 p.2 (coverage_of i ps) else coverage_of i ps.
Proof.
  unfold coverage_of. rewrite List.filter_app. cbn. destruct (for_instrument i p); rewrite fold_left_app; [done|].
  reflexivity.
Qed.
Lemma coverage_of_none i ps : existsb (for_instrument i) ps = false → coverage_of i ps = mkInstrumentCoverage no_coverage no_coverage.
Proof.
  intros H. unfold coverage_of. rewrite filter_none; [done|]. intros p Hp. destruct (for_instrument i p) eqn:E; [|done].
  assert (existsb (for_instrument i) ps = true); [|congruence]. apply existsb_exists. exists p. split; [by apply list_elem_of_In|done].
Qed.

(** The coverage of an instrument is that of its requests, in the order of the plan. *)
Record summarised (byh : list (string * IbkrHistoricalRequestResult)) (qs : list IbkrHistoricalRequest) (s : Summaries) : Prop := {
  sd_ex : ∃ ps : list paired, map fst ps = qs ∧ (∀ p, p ∈ ps → assoc_get (hr_request_sha256 p.1) byh = Some p.2) ∧
          ∀ i, assoc_get i (sm_per_instrument s) = if existsb (for_instrument i) ps then Some (coverage_of i ps) else None;
  sd_keys : NoDup (map fst (sm_per_instrument s)) }.

Lemma summarise_step byh pre s q s' : summarised byh pre s → summarise byh s q = Ok s' → summarised byh (pre ++ [q]) s'.
Proof.
  intros [(ps & Hps & Hget & Hper) Hn] H. apply bind_Ok in H as (r & Hr & H). injection H as <-. split; cbn [sm_per_instrument].
  - exists (ps ++ [(q, r)]). split_and!.
    + by rewrite map_app, Hps.
    + intros p [Hp|Hp%list_elem_of_singleton]%elem_of_app; [auto|]. subst. cbn. unfold assoc_item in Hr.
      destruct (assoc_get (hr_request_sha256 q) byh); [congruence|done].
    + intros i. rewrite assoc_get_set, existsb_app, coverage_of_app. cbn [existsb].
      unfold for_instrument at 2 3. cbn [fst snd]. destruct (String.eqb_spec (hr_instrument_id q) i) as [<-|Hne].
      * rewrite orb_true_r. do 2 f_equal. rewrite Hper. destruct (existsb _ ps) eqn:E; [done|]. cbn.
        by rewrite coverage_of_none.
      * by rewrite Hper, !orb_false_r.
  - rewrite assoc_set_keys. case_bool_decide; [done|]. apply NoDup_app. split_and!; [done|set_solver|apply NoDup_singleton].
Qed.
Lemma summarise_all byh qs s : for_each (summarise byh) (mkSummaries [] [] []) qs = Ok s → summarised byh qs s.
Proof.
  apply (for_each_prefix (summarise byh) (summarised byh) qs (λ pre s q s' _, summarise_step byh pre s q s') []).
  split; [|constructor]. exists []. split_and!; [done|set_solver|done].
Qed.

Lemma assoc_get_In {A} (k : string) (v : A) d : NoDup (map fst d) → (k, v) ∈ d → assoc_get k d = Some v.
Proof.
  unfold assoc_get. induction d as [|[k0 v0] d IH]; [set_solver|]. intros [Hk Hn]%NoDup_cons [E|Hin]%elem_of_cons; cbn.
  - injection E as <- <-. by rewrite String.eqb_refl.
  - destruct (String.eqb_spec k0 k) as [->|]; [|by apply IH]. exfalso. apply Hk. apply list_elem_of_fmap. by exists (k, v).
Qed.
(** The instruments listed, from the pairs of requests and results. *)
Lemma summaries_eligible plan results coverage entitlement :
  _aggregate_summaries plan results = Ok (coverage, entitlement) →
  ∃ (ps : list paired) eligible, map fst ps = hp_requests plan ∧
    (∀ p, p ∈ ps → p.2 ∈ results ∧ rr_request_sha256 p.2 = hr_request_sha256 p.1) ∧
    dict_get "provider_history_eligible_instruments" entitlement = Some (JList (map JStr eligible)) ∧ NoDup eligible ∧
    ∀ i, i ∈ eligible ↔ history_eligible (coverage_of i ps) = true.
Proof.
  intros H. apply bind_Ok in H as (s & Hs & H). injection H as _ <-. apply summarise_all in Hs as [(ps & Hps & Hget & Hper) Hn].
  exists ps. eexists. split; [done|]. split.
  { intros p Hp%Hget%assoc_get_elem. by apply dict_by_elem in Hp as [? ?]. }
  split; [reflexivity|].
  assert (NoDup (map fst (py_sorted fst (sm_per_instrument s)))) as Hn' by (by rewrite (py_sorted_perm fst)).
  split; [by apply filter_keys_NoDup|]. intros i. rewrite list_elem_of_fmap. split.
  - intros ([k c] & -> & Hin). apply elem_of_filter_bool in Hin as [Hin He]. apply elem_of_py_sorted in Hin.
    apply (assoc_get_In _ _ _ Hn) in Hin. rewrite Hper in Hin. cbn in *. destruct (existsb _ ps); [|done]. congruence.
  - intros He. assert (assoc_get i (sm_per_instrument s) = Some (coverage_of i ps)) as Hg.
    { rewrite Hper. destruct (existsb (for_instrument i) ps) eqn:E; [done|]. rewrite coverage_of_none in He by done. done. }
    apply assoc_get_elem in Hg. exists (i, coverage_of i ps). split; [done|]. apply elem_of_filter_bool. split; [|done].
    by apply elem_of_py_sorted.
Qed.

Lemma built_status request rs attempts cbs ms r :
  _build_request_result request rs attempts cbs ms = Ok r → is_published_status (rr_request_status r) = true.
Proof.
  intros H. unfold _build_request_result in H. apply bind_Ok in H as ([] & H0 & H). apply bind_Ok in H as (_ & _ & H).
  destruct (rs_selected_attempt_id rs) as [id|]; [|done]. apply bind_Ok in H as (d & Hd & H).
  destruct (at_terminal_at (de_selected d)) as [t|] eqn:Et; [|done].
  do 2 apply bind_Ok in H as (? & _ & H). apply bind_Ok in H as ([] & _ & H). injection H as <-.
  apply raise_if_Ok, negb_false_iff in H0. exact H0.
Qed.

Lemma aggregate_hashes plan plan_bytes results g :
  build_ibkr_historical_aggregate_result plan plan_bytes results = Ok g →
  NoDup (map rr_request_sha256 results) ∧
  ∃ coverage, _aggregate_summaries plan (map snd (dict_by rr_request_sha256 results)) = Ok (coverage, ag_entitlement_summary g).
Proof.
  intros H. pose proof (built_aggregate_valid _ _ _ _ H) as Hv.
  unfold build_ibkr_historical_aggregate_result in H. do 3 apply bind_Ok in H as (_ & _ & H).
  do 2 apply bind_Ok in H as (? & _ & H). apply bind_Ok in H as (refs & Hr & H).
  apply bind_Ok in H as ([coverage entitlement] & Hs & H). apply bind_Ok in H as (_ & _ & H). injection H as <-.
  split; [|by exists coverage].
  unfold IbkrHistoricalAggregateResult_post_init in Hv. do 4 apply bind_Ok in Hv as (_ & _ & Hv).
  apply bind_Ok in Hv as ([] & Hp & _). apply raise_if_Ok in Hp. unfold has_duplicates in Hp.
  apply negb_false_iff, bool_decide_eq_true in Hp. cbn [ag_request_results] in Hp. apply traverse_Ok in Hr.
  rewrite <- (py_sorted_perm rr_request_sha256 results).
  apply (NoDup_fmap_1 (λ h, "requests/" +:+ h +:+ ".json")). rewrite <- list_fmap_compose.
  replace (_ <$> _) with (map cf_path refs); [done|]. clear -Hr.
  induction Hr as [|r f rs fs Hf _ IH]; [done|]. cbn. f_equal; [|exact IH].
  apply bind_Ok in Hf as (? & _ & Hf). apply bind_Ok in Hf as (? & _ & Hf). apply bind_Ok in Hf as (_ & _ & Hf).
  by injection Hf as <-.
Qed.

(** C32: the instruments an artifact declares eligible for provider history are, each once, exactly
    those with bars and schedules planned, with successful evidence for every planned request, and
    with at least one accepted bar row. *)
Theorem history_eligible_iff json_loads plan snapshot a :
  build_ibkr_historical_result_artifact json_loads plan snapshot = Ok a →
  ∃ eligible,
    dict_get "provider_history_eligible_instruments" (ag_entitlement_summary (ra_aggregate a)) = Some (JList (map JStr eligible)) ∧
    NoDup eligible ∧
    ∀ i, i ∈ eligible ↔
      (∀ q, q ∈ hp_requests plan → hr_instrument_id q = i →
         ∃ r, r ∈ ra_request_results a ∧ rr_request_sha256 r = hr_request_sha256 q ∧ rr_evidence_disposition r = ED_SUCCEEDED) ∧
      (∃ q r, q ∈ hp_requests plan ∧ hr_instrument_id q = i ∧ hr_kind q = MIDPOINT_BARS ∧ r ∈ ra_request_results a ∧
         rr_request_sha256 r = hr_request_sha256 q ∧ rr_accepted_rows r ≠ []) ∧
      (∃ q, q ∈ hp_requests plan ∧ hr_instrument_id q = i ∧ hr_kind q = SCHEDULE).
Proof.
  intros H. unfold build_ibkr_historical_result_artifact in H. do 2 apply bind_Ok in H as (_ & _ & H).
  apply bind_Ok in H as (results & Hr & H). apply bind_Ok in H as (aggregate & Ha & H).
  apply bind_Ok in H as (_ & _ & H). injection H as <-. cbn [ra_aggregate ra_request_results].
  destruct (aggregate_hashes _ _ _ _ Ha) as (Hn & coverage & Hs). apply summaries_eligible in Hs as (ps & eligible & Hps & Hr' & Hd & Hne & Hi).
  assert (∀ r, r ∈ results → is_published_status (rr_request_status r) = true) as Hst.
  { apply traverse_Ok in Hr. intros r Hin. apply list_elem_of_lookup in Hin as [n Hl].
    destruct (Forall2_lookup_r _ _ _ _ _ Hr Hl) as (q & _ & Hq). do 2 apply bind_Ok in Hq as (? & _ & Hq).
    apply bind_Ok in Hq as (_ & _ & Hq). by eapply built_status. }
  assert (∀ p, p ∈ ps → p.1 ∈ hp_requests plan ∧ p.2 ∈ results ∧ rr_request_sha256 p.2 = hr_request_sha256 p.1) as Hp.
  { intros p Hin. split; [rewrite <- Hps; apply list_elem_of_fmap; by exists p|]. destruct (Hr' p Hin) as [Hv ?]. split; [|done].
    apply list_elem_of_fmap in Hv as ([k v] & -> & Hv). by apply dict_by_elem in Hv as [_ ?]. }
  assert (∀ q, q ∈ hp_requests plan → ∃ r, (q, r) ∈ ps) as Hq.
  { intros q Hin. rewrite <- Hps in Hin. apply list_elem_of_fmap in Hin as ([q' r] & -> & ?). by exists r. }
  exists eligible. split; [exact Hd|]. split; [done|]. intros i. rewrite Hi, coverage_eligible. split.
  - intros (Hall & (p & Hin & Hpi & Hb & Hrows) & (p' & Hin' & Hpi' & Hb')). split_and!.
    + intros q Hqin Hqi. destruct (Hq q Hqin) as [r Hqr]. destruct (Hp _ Hqr) as (_ & ? & ?), (Hall _ Hqr Hqi) as [_ ?]. by exists r.
    + destruct (Hp p Hin) as (? & ? & ?). exists p.1, p.2. apply bool_decide_eq_true in Hb. by split_and!.
    + destruct (Hp p' Hin') as (? & _). exists p'.1. apply bool_decide_eq_false in Hb'. destruct (hr_kind p'.1) eqn:E; [done|by split_and!].
  - intros (Hall & (q & r & Hqin & Hqi & Hk & Hrin & Hrs & Hrows) & (q' & Hqin' & Hqi' & Hk')). split_and!.
    + intros p Hin Hpi. destruct (Hp p Hin) as (Hpin & Hp2 & Hps2). split; [by apply Hst|].
      destruct (Hall p.1 Hpin Hpi) as (r' & Hr1 & Hr2 & Hr3). rewrite (NoDup_key_inj rr_request_sha256 results p.2 r'); try done. congruence.
    + destruct (Hq q Hqin) as [r' Hqr]. destruct (Hp _ Hqr) as (_ & Hp2 & Hps2). cbn in *. exists (q, r').
      rewrite (NoDup_key_inj rr_request_sha256 results r r') in Hrows; try done; [|congruence].
      split_and!; try done. by apply bool_decide_eq_true.
    + destruct (Hq q' Hqin') as [r' Hqr]. exists (q', r'). split_and!; try done. apply bool_decide_eq_false. cbn. congruence.
Qed.

(** C16: what is published replays. Every artifact that publication builds from a snapshot of the
    execution store is accepted by the independent replay of its own children: each request
    result derives again from its raw attempts, callbacks and markers to the same dispositions,
    rows, sessions, times and classification, and the aggregate is the one its children give. *)
Theorem results_replay json_loads plan snapshot a :
  build_ibkr_historical_result_artifact json_loads plan snapshot = Ok a →
  replay_ibkr_historical_aggregate_result (ra_plan a) (ra_plan_bytes a) (ra_request_results a) (ra_aggregate a) = Ok tt.
Proof.
  intros H. unfold build_ibkr_historical_result_artifact in H. do 2 apply bind_Ok in H as (_ & _ & H).
  apply bind_Ok in H as (results & Hr & H). apply bind_Ok in H as (aggregate & Ha & H).
  apply bind_Ok in H as (_ & _ & H). injection H as <-. cbn [ra_plan ra_plan_bytes ra_request_results ra_aggregate].
  assert (_validate_aggregate_result_record_identities results = Ok tt) as Hids.
  { unfold build_ibkr_historical_aggregate_result in Ha. do 2 apply bind_Ok in Ha as (_ & _ & Ha).
    by apply bind_Ok in Ha as ([] & ? & _). }
  apply traverse_Ok in Hr.
  assert (Forall2 (λ q r, rr_request_sha256 r = hr_request_sha256 q ∧ replays q r)
            (py_sorted hr_request_sha256 (hp_requests plan)) results) as Hall.
  { pose proof (identities_each _ Hids) as Hid. clear Ha Hids.
    induction Hr as [|q r qs rs Hq _ IH]; constructor; [|apply IH; intros; apply Hid; set_solver].
    apply bind_Ok in Hq as (s & Hs & Hq). apply assoc_item_by in Hs as [Hs _].
    apply bind_Ok in Hq as (expected & Hj & Hq). apply bind_Ok in Hq as ([] & Hp & Hq). apply raise_if_Ok in Hp.
    split; [|eapply built_replays; eauto; apply Hid; set_solver].
    apply built_derives in Hq as (_ & -> & _). exact Hs. }
  assert (map rr_request_sha256 results = map hr_request_sha256 (py_sorted hr_request_sha256 (hp_requests plan))) as Hk.
  { clear -Hall. induction Hall as [|q r qs rs [E _] _ IH]; [done|]. cbn. by rewrite E, IH. }
  unfold replay_ibkr_historical_aggregate_result.
  rewrite (py_sorted_id rr_request_sha256 results) by (eapply sorted_map; [by symmetry|apply py_sorted_sorted]).
  rewrite Hk. unfold same_hashes. rewrite bool_decide_true by done.
  rewrite <- (Forall2_length _ _ _ Hall), Nat.eqb_refl. cbn [negb orb raise_if mbind res_bind].
  rewrite for_each_zip by (eapply Forall2_impl; [exact Hall|]; by intros ? ? [_ ?]). cbn [mbind res_bind].
  rewrite Hids. cbn [mbind res_bind]. rewrite Ha. cbn [mbind res_bind].
  destruct (aggregate_json_Ok _ (built_aggregate_valid _ _ _ _ Ha)) as [j ->]. cbn [mbind res_bind].
  by rewrite json_neqb_refl.
Qed.

(** ** Witnesses *)

Definition as_dict (j : json) : dict := match j with JObj d => d | _ => [] end.
Definition sample_payload : dict := as_dict (ok_or JNull (plan_json sample_plan)).
Definition sample_plan_bytes : string := ok_or "" (ibkr_historical_plan_bytes sample_plan).
(** [json.loads] where it is used. *)
Definition sample_loads (s : string) : option json :=
  if String.eqb s sample_plan_bytes then Some (JObj sample_payload) else None.
Definition sample_uuid (n : Z) : UUID := mkUUID ("00000000-0000-0000-0000-00000000001" +:+ digits n).
Definition sample_attempt (n : Z) (r : IbkrHistoricalRequest) : IbkrHistoricalAttemptEvidence :=
  mkAttempt (sample_uuid n) (hp_plan_sha256 sample_plan) (hr_request_sha256 r) (sample_uuid 9) 1 n 1 (utc (seconds n))
    ATT_SUCCEEDED (Some (utc (seconds (n + 10)))) (Some TD_SUCCEEDED) None.
Definition sample_data (r : IbkrHistoricalRequest) : IbkrHistoricalCallbackKind * dict :=
  match hr_kind r with
  | MIDPOINT_BARS =>
      (CB_MIDPOINT_BAR,
       [("date", JInt (instant (hr_interval_start r) / 1000000 + 60)); ("open", JStr "1.1000"); ("high", JStr "1.1010");
        ("low", JFloat "1.099"); ("close", JStr "1.1005"); ("volume", JInt 7); ("wap", JStr "1.1001"); ("count", JInt 3)])
  | SCHEDULE =>
      (CB_SCHEDULE,
       [("sessions", JList [JObj [("start", JStr (utc_text (hr_interval_start r))); ("end", JStr (utc_text (hr_interval_end r)));
                                  ("active", JBool true)]])])
  end.
Definition sample_callbacks (n : Z) (r : IbkrHistoricalRequest) : list IbkrHistoricalCallbackEvidence :=
  [mkCallbackRecord (2 * n) (sample_uuid n) (sample_uuid 9) n 1 1 (sample_data r).1 (utc (seconds (n + 1))) (sample_data r).2 true;
   mkCallbackRecord (2 * n + 1) (sample_uuid n) (sample_uuid 9) n 1 2 CB_COMPLETION (utc (seconds (n + 2))) [] true].
Definition sample_marker (n : Z) (r : IbkrHistoricalRequest) : IbkrHistoricalCompletionEvidence :=
  mkMarker n (sample_uuid n) (sample_uuid 9) n 1 2 (utc (seconds (n + 2))) (one_if (is_bar r)) (one_if (negb (is_bar r))) true [].
Definition sample_request_snapshot (n : Z) (r : IbkrHistoricalRequest) : IbkrHistoricalRequestSnapshot :=
  mkRequestSnapshot (hp_plan_sha256 sample_plan) (hr_request_sha256 r)
    (as_dict (ok_or JNull (request_json r))) (hr_instrument_id r)
    (IbkrHistoricalRequestKind_str (hr_kind r)) (hr_interval_start r) (hr_interval_end r) REQ_SUCCEEDED 1
    (Some (sample_uuid n)) PUB_PENDING None None.
Definition numbered {A} (f : Z → IbkrHistoricalRequest → A) : list A :=
  imap (λ i r, f (Z.of_nat i + 1) r) (hp_requests sample_plan).
Definition sample_snapshot : IbkrHistoricalExecutionSnapshot :=
  mkSnapshot (mkPlanSnapshot (hp_plan_sha256 sample_plan) sample_plan_bytes (sha256_hex sample_plan_bytes) sample_payload
                (utc 0) PUB_PENDING)
    (numbered sample_request_snapshot) (numbered sample_attempt) (concat (numbered sample_callbacks)) (numbered sample_marker).
Definition sample_artifact : IbkrHistoricalResultArtifact :=
  ok_or (mkArtifact sample_plan "" [] (mkAggregateResult (mkChildReference "" "" "" "") "" [] [] [] "" "" ""))
    (build_ibkr_historical_result_artifact sample_loads sample_plan sample_snapshot).

Lemma sample_snapshot_valid : IbkrHistoricalExecutionSnapshot_post_init sample_snapshot = Ok tt ∧
  IbkrHistoricalPlanSnapshot_post_init (sn_plan sample_snapshot) = Ok tt ∧
  forallb (λ r, is_ok (IbkrHistoricalRequestSnapshot_post_init r)) (sn_requests sample_snapshot) = true ∧
  forallb (λ r, is_ok (IbkrHistoricalAttemptEvidence_post_init r)) (sn_attempts sample_snapshot) = true ∧
  forallb (λ r, is_ok (IbkrHistoricalCallbackEvidence_post_init r)) (sn_callbacks sample_snapshot) = true ∧
  forallb (λ r, is_ok (IbkrHistoricalCompletionEvidence_post_init r)) (sn_completion_markers sample_snapshot) = true.
Proof. vm_compute. done. Qed.
Lemma sample_built : build_ibkr_historical_result_artifact sample_loads sample_plan sample_snapshot = Ok sample_artifact.
Proof.
  assert (is_ok (build_ibkr_historical_result_artifact sample_loads sample_plan sample_snapshot) = true) as H by (vm_compute; reflexivity).
  unfold sample_artifact. revert H. generalize (build_ibkr_historical_result_artifact sample_loads sample_plan sample_snapshot).
  by intros [a|e].
Qed.
Lemma sample_verified : verify_ibkr_historical_execution_snapshot sample_loads sample_plan sample_snapshot 3 false = Ok tt.
Proof. vm_compute. reflexivity. Qed.

Lemma results_replay_witness :
  build_ibkr_historical_result_artifact sample_loads sample_plan sample_snapshot = Ok sample_artifact ∧
  replay_ibkr_historical_aggregate_result (ra_plan sample_artifact) (ra_plan_bytes sample_artifact)
    (ra_request_results sample_artifact) (ra_aggregate sample_artifact) = Ok tt.
Proof. split; [exact sample_built|exact (results_replay _ _ _ _ sample_built)]. Defined.

Definition sample_bars : IbkrHistoricalRequest := hd (mkRequest "" sample_fingerprint MIDPOINT_BARS (utc 0) (utc 0) "" "" None None false None false "")
  (hp_requests sample_plan).
Definition sample_derived : res _DerivedRequestEvidence :=
  _derive_request_evidence sample_bars REQ_SUCCEEDED (sample_uuid 1) [sample_attempt 1 sample_bars]
    (sample_callbacks 1 sample_bars) [sample_marker 1 sample_bars].

Lemma accepted_rows_sound_witness : ∃ d, sample_derived = Ok d ∧
  ∃ m entries, m ∈ [sample_marker 1 sample_bars] ∧ completes (de_selected d) m ∧ entries ≠ [] ∧
    de_accepted_rows d = map snd entries ∧
    (∀ t row, (t, row) ∈ entries → ∃ c, c ∈ sample_callbacks 1 sample_bars ∧ bar_of sample_bars c t row).
Proof.
  pose (d := ok_or (mkDerived (sample_attempt 1 sample_bars) TD_SUCCEEDED ED_SUCCEEDED [] [] [] [] None None) sample_derived).
  assert (sample_derived = Ok d) as H by (vm_compute; reflexivity). exists d. split; [exact H|].
  destruct (accepted_rows_sound sample_bars (sample_uuid 1) [sample_attempt 1 sample_bars] (sample_callbacks 1 sample_bars)
              [sample_marker 1 sample_bars] d H) as (m & entries & H1 & H2 & H3 & H4 & _ & _ & H5 & _);
    [vm_compute; reflexivity|vm_compute; reflexivity|].
  exists m, entries. split; [exact H1|]. split; [exact H2|]. split; [exact H3|]. split; [exact H4|].
  intros t row Hin. destruct (H5 t row Hin) as (c & Hc & _ & _ & Hb). exists c. exact (conj Hc Hb).
Defined.

Lemma history_eligible_iff_witness : ∃ eligible,
  dict_get "provider_history_eligible_instruments" (ag_entitlement_summary (ra_aggregate sample_artifact))
    = Some (JList (map JStr eligible)) ∧ NoDup eligible.
Proof.
  destruct (history_eligible_iff sample_loads sample_plan sample_snapshot sample_artifact sample_built) as (e & H1 & H2 & _).
  exists e. exact (conj H1 H2).
Defined.
