(* ===== verification/IbkrSnapshot.v ===== *)
(** Snapshots of the execution store, [read_ibkr_historical_execution] of
    [adapters/postgres/ibkr_historical.py], and its composition with recovery and with the
    verifier of results: a recovery that the store allows leaves what the verifier refuses.

    [pg_column_size], the size PostgreSQL stores a value with, is the variable [column_size]. *)

From S2P Require Import Prelude PySorted PyStr PyTime PyDecimal Sha256 PyJson PyParse Domain Storage EventStore CaptureFeed IbkrPlan IbkrStore IbkrHistory IbkrEvidence IbkrResults.

(** ** Reading *)

Definition markers_of (db : ExecutionDB) (attempt_id : UUID) : list IbkrHistoricalCompletionMarker :=
  List.filter (λ m, bool_decide (cm_attempt_id m = attempt_id)) (x_markers db).

(** [WHERE plan_sha256 = :plan_sha256 ORDER BY request_sha256, attempt_ordinal, attempt_id] *)
Definition plan_attempts (db : ExecutionDB) (plan_sha256 : string) : list IbkrHistoricalAttempt :=
  py_sorted (λ a, (at_request_sha256 a, (at_attempt_ordinal a, uuid_text (at_attempt_id a))))
    (List.filter (λ a, String.eqb (at_plan_sha256 a) plan_sha256) (map snd (map_to_list (x_attempts db)))).
(** The rows joined with an attempt of the plan. *)
Definition of_plan (db : ExecutionDB) (plan_sha256 : string) (attempt_id : UUID) : bool :=
  match x_attempts db !! attempt_id with Some a => String.eqb (at_plan_sha256 a) plan_sha256 | None => false end.
Definition plan_callbacks (db : ExecutionDB) (plan_sha256 : string) : list IbkrHistoricalCallbackRecord :=
  py_sorted callback_order (List.filter (λ c, of_plan db plan_sha256 (cr_attempt_id c)) (x_callbacks db)).
Definition plan_markers (db : ExecutionDB) (plan_sha256 : string) : list IbkrHistoricalCompletionMarker :=
  py_sorted marker_order (List.filter (λ m, of_plan db plan_sha256 (cm_attempt_id m)) (x_markers db)).
Definition plan_requests (db : ExecutionDB) (plan_sha256 : string) : list (string * RequestRow) :=
  py_sorted fst (requests_of db plan_sha256).

Definition row_payload (value : json) (field : string) : res dict :=
  match value with JObj d => Ok d | _ => Raise (TypeError (field +:+ " must be a JSON object")) end.
Definition _request_snapshot_from_row (plan_sha256 : string) (row : string * RequestRow) : res IbkrHistoricalRequestSnapshot :=
  let '(request_sha256, r) := row in
  payload ← row_payload (xr_request_payload r) "stored IBKR request payload";
  let s := mkRequestSnapshot plan_sha256 request_sha256 payload (xr_instrument_id r)
    (IbkrHistoricalRequestKind_str (xr_request_kind r)) (xr_interval_start r) (xr_interval_end r) (xr_status r)
    (xr_attempt_count r) (xr_selected_attempt_id r) (xr_publication_status r) (xr_result_sha256 r) (xr_published_at r) in
  IbkrHistoricalRequestSnapshot_post_init s;; Ok s.
Definition _attempt_evidence_from_row (a : IbkrHistoricalAttempt) : res IbkrHistoricalAttemptEvidence :=
  IbkrHistoricalAttemptEvidence_post_init a;; Ok a.
Definition _callback_evidence_from_row (c : IbkrHistoricalCallbackRecord) : res IbkrHistoricalCallbackEvidence :=
  IbkrHistoricalCallbackEvidence_post_init c;; Ok c.
Definition _completion_evidence_from_row (m : IbkrHistoricalCompletionMarker) : res IbkrHistoricalCompletionEvidence :=
  IbkrHistoricalCompletionEvidence_post_init m;; Ok m.

Section read.
Context (column_size : json → Z).

Definition sum_sizes (l : list dict) : Z := fold_right Z.add 0 (map (λ d, column_size (JObj d)) l).
Definition maximum (l : list Z) : Z := fold_right Z.max 0 l.
(** The bytes of a request's payloads: its own, and those of its attempts' callbacks and markers. *)
Definition request_bytes (db : ExecutionDB) (plan_sha256 : string) (row : string * RequestRow) : Z :=
  let attempts := List.filter (λ a, String.eqb (at_request_sha256 a) row.1) (plan_attempts db plan_sha256) in
  column_size (xr_request_payload row.2)
  + fold_right Z.add 0 (map (λ a, sum_sizes (map cr_payload (callbacks_of db (at_attempt_id a)))) attempts)
  + fold_right Z.add 0 (map (λ a, sum_sizes (map cm_payload (markers_of db (at_attempt_id a)))) attempts).

Definition read_ibkr_historical_execution (db : ExecutionDB) (plan_sha256 : string) : res IbkrHistoricalExecutionSnapshot :=
  _require_sha256 plan_sha256 "IBKR publication snapshot plan hash";;
  match x_plans db !! plan_sha256 with
  | None => Raise (RuntimeError "IBKR publication snapshot targets an unknown plan")
  | Some plan_row =>
      let requests := plan_requests db plan_sha256 in
      let attempts := plan_attempts db plan_sha256 in
      let callbacks := plan_callbacks db plan_sha256 in
      let markers := plan_markers db plan_sha256 in
      for_each (λ _ lcm, let '(label, count, limit) := lcm in
          raise_if (limit <? count)
                   (ValueError ("IBKR publication snapshot " +:+ label +:+ " count exceeds its bound"))) tt
        [("request", Z.of_nat (length requests), MAX_IBKR_RESULT_CHILDREN);
         ("attempt", Z.of_nat (length attempts), MAX_IBKR_RESULT_ATTEMPTS);
         ("callback", maximum (map (λ a, Z.of_nat (length (callbacks_of db (at_attempt_id a)))) attempts),
            MAX_IBKR_RESULT_CALLBACKS);
         ("completion marker", Z.of_nat (length markers), MAX_IBKR_RESULT_COMPLETION_MARKERS)];;
      raise_if (MAX_IBKR_RESULT_BYTES <? maximum (map (request_bytes db plan_sha256) requests))
               (ValueError "IBKR publication snapshot payloads exceed their bound");;
      plan_payload ← row_payload (xp_plan_payload plan_row) "stored IBKR plan payload";
      let plan := mkPlanSnapshot plan_sha256 (xp_plan_bytes plan_row) (xp_plan_bytes_sha256 plan_row) plan_payload
        (xp_registered_at plan_row) (xp_publication_status plan_row) in
      IbkrHistoricalPlanSnapshot_post_init plan;;
      requests ← traverse (_request_snapshot_from_row plan_sha256) requests;
      attempts ← traverse _attempt_evidence_from_row attempts;
      callbacks ← traverse _callback_evidence_from_row callbacks;
      markers ← traverse _completion_evidence_from_row markers;
      let snapshot := mkSnapshot plan requests attempts callbacks markers in
      IbkrHistoricalExecutionSnapshot_post_init snapshot;;
      Ok snapshot
  end.
End read.

(** ** Reading: what a snapshot holds *)

Lemma group_get_filter {K T} `{Countable K} (key : T → K) k (l : list T) :
  group_get k (_group_by key l) = List.filter (λ x, bool_decide (key x = k)) l.
Proof.
  unfold group_get, _group_by. induction l as [|x l IH] using rev_ind; [done|].
  rewrite fold_left_app, List.filter_app, <- IH. cbn. destruct (decide (key x = k)) as [<-|Hne].
  - by rewrite lookup_insert_eq, bool_decide_true.
  - by rewrite lookup_insert_ne, bool_decide_false, app_nil_r.
Qed.

Section read_facts.
Context (column_size : json → Z) (db : ExecutionDB) (sha : string) (s : IbkrHistoricalExecutionSnapshot).
Hypothesis s_read : read_ibkr_historical_execution column_size db sha = Ok s.

Lemma map_traverse {A B C} (f : A → res B) (g : B → C) (h : A → C) l ys :
  (∀ x y, f x = Ok y → g y = h x) → traverse f l = Ok ys → map g ys = map h l.
Proof.
  intros Hf Hl%traverse_Ok. induction Hl as [|x y l ys Hx _ IH]; [done|]. cbn. by rewrite (Hf _ _ Hx), IH.
Qed.

(** The rows of the plan, as they are stored. *)
Lemma read_rows : map rs_request_sha256 (sn_requests s) = map fst (plan_requests db sha) ∧
  sn_attempts s = plan_attempts db sha ∧ sn_callbacks s = plan_callbacks db sha ∧
  sn_completion_markers s = plan_markers db sha ∧ ps_plan_sha256 (sn_plan s) = sha.
Proof.
  assert (∀ A (f : A → res unit) l ys, traverse (λ x, f x;; Ok x) l = Ok ys → ys = l) as Hsame.
  { intros A f l ys Hl. rewrite <- (map_id ys), <- (map_id l). eapply map_traverse; [|exact Hl].
    intros x y (? & _ & [= ->])%bind_Ok. done. }
  revert s_read. unfold read_ibkr_historical_execution. intros (? & _ & H)%bind_Ok.
  destruct (x_plans db !! sha) as [row|]; [|done]. do 3 apply bind_Ok in H as (? & _ & H). apply bind_Ok in H as (? & _ & H).
  apply bind_Ok in H as (rs & Hrs & H). apply bind_Ok in H as (ats & Ha & H). apply bind_Ok in H as (cs & Hc & H).
  apply bind_Ok in H as (ms & Hm & H). apply bind_Ok in H as (? & _ & [= <-]). cbn. split_and!; try done; try (by eapply Hsame).
  eapply map_traverse; [|exact Hrs]. intros [k row'] y (? & _ & (? & _ & [= <-])%bind_Ok)%bind_Ok. done.
Qed.
End read_facts.

(** ** What the verifier never accepts *)

(** A closed attempt that has an eligible completion marker, but whose outcome no marker explains. *)
Definition unexplained (a : IbkrHistoricalAttempt) : Prop :=
  at_status a ≠ STARTED ∧ at_status a ≠ ATT_SUCCEEDED ∧
  (at_status a = TERMINAL_FAILURE →
     at_terminal_disposition a ≠ Some PROVIDER_REJECTED ∧ at_terminal_disposition a ≠ Some SESSION_EVIDENCE_UNAVAILABLE).
Definition contradicted (db : ExecutionDB) (sha : string) (id : UUID) : Prop :=
  ∃ a m, x_attempts db !! id = Some a ∧ at_plan_sha256 a = sha ∧ unexplained a ∧
         m ∈ x_markers db ∧ eligible_marker a m = true.

Lemma eligible_marker_iff a m : eligible_marker a m = marks_attempt a m && cm_closure_eligible m && _completion_matches_attempt m a.
Proof.
  unfold eligible_marker, marks_attempt, _completion_matches_attempt.
  destruct (bool_decide (cm_attempt_id m = _)), (bool_decide (cm_connection_session_id m = _)),
    (cm_connection_generation m =? _), (cm_provider_request_id m =? _), (cm_closure_eligible m); done.
Qed.

Lemma unexplained_refused allow request callbacks markers a m u :
  unexplained a → m ∈ markers → eligible_marker a m = true →
  attempt_outcome allow request callbacks markers a ≠ Ok u.
Proof.
  intros (Hs & Hok & Ht) Hm He. unfold attempt_outcome. intros (? & _ & H)%bind_Ok. rewrite decide_False in H by done.
  apply bind_Ok in H as (? & _ & H).
  assert (m ∈ _eligible_markers_for_evidence markers a) as Hin.
  { unfold _eligible_markers_for_evidence. apply elem_of_filter_bool. split; [done|]. by rewrite <- eligible_marker_iff. }
  destruct (_eligible_markers_for_evidence markers a) as [|m' ms]; [by apply elem_of_nil in Hin|].
  assert (∀ st d, (st ≠ ATT_SUCCEEDED → st = TERMINAL_FAILURE ∧ (d = PROVIDER_REJECTED ∨ d = SESSION_EVIDENCE_UNAVAILABLE)) →
    ¬ (at_status a = st ∧ at_terminal_disposition a = Some d)) as Hno.
  { intros st d Hst [<- E]. destruct (Hst Hok) as [E' Hd]. destruct (Ht E'). naive_solver. }
  revert H. destruct (existsb _ _); [|destruct (bool_decide (hr_kind request = SCHEDULE) && _)]; intros H%raise_if_Ok;
    apply orb_false_iff in H as [H1%negb_false_iff%bool_decide_eq_true H2%negb_false_iff%bool_decide_eq_true];
    eapply Hno; [|by split| |by split| |by split]; naive_solver.
Qed.

(** The plan row's requests are registered before their attempts, so the verifier looks at them all. *)
Lemma contradicted_refused column_size json_loads db plan id s maximum_attempts allow u :
  attempts_inv db → contradicted db (hp_plan_sha256 plan) id →
  read_ibkr_historical_execution column_size db (hp_plan_sha256 plan) = Ok s →
  verify_ibkr_historical_execution_snapshot json_loads plan s maximum_attempts allow ≠ Ok u.
Proof.
  intros Hi (a & m & Ha & Hp & Hun & Hm & He) Hs.
  destruct (read_rows _ _ _ _ Hs) as (Er & Ea & _ & Em & _).
  unfold verify_ibkr_historical_execution_snapshot. intros (? & _ & H)%bind_Ok. do 2 apply bind_Ok in H as (? & _ & H).
  apply bind_Ok in H as (? & Hclosed%raise_if_Ok & H).
  destruct (ai_attempt _ Hi _ _ Ha) as [Eid _]. destruct (ai_request _ Hi _ _ Ha) as [row Hrow].
  assert (at_request_sha256 a ∈ map hr_request_sha256 (hp_requests plan)) as (r & Ehr & Hr)%list_elem_of_fmap.
  { apply orb_false_iff in Hclosed as [_ Hsame%negb_false_iff]. apply bool_decide_eq_true in Hsame.
    assert (at_request_sha256 a ∈ (list_to_set (map rs_request_sha256 (sn_requests s)) : gset string)) as Hin.
    { apply elem_of_list_to_set. rewrite Er. apply list_elem_of_fmap. exists (at_request_sha256 a, row). split; [done|].
      unfold plan_requests. apply elem_of_py_sorted, elem_of_requests_of. by rewrite <- Hp. }
    rewrite Hsame in Hin. apply elem_of_list_to_set, list_elem_of_fmap in Hin as ([k r] & -> & Hin). cbn.
    apply dict_by_elem in Hin as [<- Hin]. apply list_elem_of_fmap. eauto. }
  specialize (proj1 (for_each_unit _ _ _) H r Hr) as Hv. unfold verify_request in Hv.
  apply bind_Ok in Hv as (stored & _ & Hv). apply bind_Ok in Hv as (? & _ & Hv). do 4 apply bind_Ok in Hv as (? & _ & Hv).
  apply bind_Ok in Hv as (? & Hloop & _). pose proof (proj1 (for_each_unit _ _ _) Hloop a) as Hat. cbv beta in Hat.
  rewrite bind_Ok in Hat. destruct Hat as (? & _ & Hat).
  { apply elem_of_py_sorted. rewrite group_get_filter, Ea. apply elem_of_filter_bool.
    split; [|by apply bool_decide_true].
    unfold plan_attempts. apply elem_of_py_sorted, elem_of_filter_bool. split; [|by apply String.eqb_eq].
    apply list_elem_of_fmap. exists (id, a). split; [done|]. by apply elem_of_map_to_list. }
  unfold _validate_attempt_outcomes in Hat. specialize (proj1 (for_each_unit _ _ _) Hat a ltac:(set_solver)) as Hone.
  revert Hone. eapply unexplained_refused; [done| |exact He]. rewrite group_get_filter, Em. apply elem_of_filter_bool.
  assert (cm_attempt_id m = at_attempt_id a) as Ema by (unfold eligible_marker in He; bool_prop; tauto).
  split; [|by apply bool_decide_true]. unfold plan_markers. apply elem_of_py_sorted, elem_of_filter_bool.
  split; [done|]. unfold of_plan. rewrite Ema, Eid, Ha. by apply String.eqb_eq.
Qed.

(** Nothing the store does later helps. *)
Lemma contradicted_change db db' sha id : change db db' → contradicted db sha id → contradicted db' sha id.
Proof.
  intros H (a & m & Ha & Hp & Hun & Hm & He).
  destruct H as [|db b r _ _ Hno _ _ _ _|db c ms _|db b r status t d de rs sel Hc| |]; try (by exists a, m).
  - assert (at_attempt_id b ≠ id) by congruence. exists a, m. split_and!; try done. cbn. by rewrite lookup_insert_ne.
  - exists a, m. split_and!; try done. cbn. apply elem_of_app. by left.
  - assert (at_attempt_id b ≠ id).
    { intros <-. destruct Hc as [C1 _ C3]. rewrite C1 in Ha. simplify_eq. by destruct Hun. }
    exists a, m. split_and!; try done. cbn. by rewrite lookup_insert_ne.
Qed.
Lemma contradicted_changes db db' sha id : rtc change db db' → contradicted db sha id → contradicted db' sha id.
Proof. induction 1 as [|x y z H _ IH]; [done|]. intros Hc. by apply IH, (contradicted_change x). Qed.

(** A schedule attempt that was completed without schedule data and not failed before the process stopped. *)
Definition unfinished_schedule (db : ExecutionDB) (a : IbkrHistoricalAttempt) : Prop :=
  x_attempts db !! at_attempt_id a = Some a ∧ at_status a = STARTED ∧
  (∃ r, x_requests db !! request_of a = Some r ∧ xr_request_kind r = SCHEDULE) ∧
  ∃ m, first_marker db a = Some m ∧ count_before db (at_attempt_id a) (cm_sequence m) CB_ERROR = 0 ∧
       cm_raw_schedule_callback_count m = 0.

Lemma unfinished_other db b db' o a :
  closed_by db b db' o → at_attempt_id b ≠ at_attempt_id a → unfinished_schedule db a → unfinished_schedule db' a.
Proof.
  intros Hc Hne (Ha & Hs & (r & Hr & Hk) & m & Hm & He & Hz).
  split_and!; [by rewrite (closed_by_other _ _ _ _ _ Hc)|done| |].
  - destruct (decide (request_of a = request_of b)) as [E|E].
    + destruct Hc as (rb & st & t & d & de & rs & sel & C & -> & _). eexists. cbn. rewrite E, lookup_insert_eq.
      split; [done|]. cbn. destruct C as [_ C2 _]. congruence.
    + exists r. by rewrite (closed_by_other_request _ _ _ _ _ Hc).
  - destruct Hc as (rb & st & t & d & de & rs & sel & C & -> & _). by exists m.
Qed.

(** What closing an attempt writes. *)
Lemma close_attempt_writes after db a r status t disposition detail rstatus selected db' o :
  close_attempt after db (a, r) status t disposition detail rstatus selected = Ok (db', o) →
  x_attempts db' !! at_attempt_id a = Some (closed_attempt a status t disposition detail) ∧ x_markers db' = x_markers db.
Proof.
  unfold close_attempt. destruct (_attempt_for_update _ _); [|done]. intros (? & _ & [= <- _])%bind_Ok. cbn.
  by rewrite lookup_insert_eq.
Qed.

Section settling.
Context (t : datetime) (maximum_attempts : Z).
Hypothesis t_utc : is_utc t.
Hypothesis maximum_bound : maximum_attempts <= 6.

Lemma settle_unfinished db os a db' os' :
  execution_inv db → unfinished_schedule db a → settle_attempt t maximum_attempts (db, os) a = Ok (db', os') →
  contradicted db' (at_plan_sha256 a) (at_attempt_id a).
Proof.
  intros Hi (Ha & Hs & (r & Hr & Hk) & m & Hm & He & Hz). unfold settle_attempt, _finalize_attempt_locked, _invalidate_attempt_locked.
  assert (_attempt_for_update db (at_attempt_id a) = Some (a, r)) as -> by (by apply attempt_for_update_Some; [apply Hi|]).
  rewrite (bool_decide_true (at_status a = STARTED)), Hm, He, Hk, Hz by done. cbn [negb Z.eqb andb bool_decide exn_class].
  rewrite (bool_decide_true (SCHEDULE = SCHEDULE)) by done. cbn [andb]. rewrite decide_True by done.
  intros ([db1 o] & Hclose%close_attempt_writes & [= <- _])%bind_Ok. destruct Hclose as [Hrow Hms].
  eexists _, m. split_and!; [exact Hrow|done| |rewrite Hms; by apply first_marker_Some in Hm as [??]|].
  - destruct (Z.leb_spec maximum_attempts (at_attempt_ordinal a)); split_and!; cbn; done.
  - apply first_marker_Some in Hm as [_ Hel]. exact Hel.
Qed.

Lemma settle_loop_contradicts l db os db' os' a :
  execution_inv db → NoDup (map at_attempt_id l) →
  (∀ b, b ∈ l → x_attempts db !! at_attempt_id b = Some b ∧ at_status b = STARTED) →
  a ∈ l → unfinished_schedule db a → for_each (settle_attempt t maximum_attempts) (db, os) l = Ok (db', os') →
  contradicted db' (at_plan_sha256 a) (at_attempt_id a).
Proof.
  revert db os. induction l as [|b l IH]; intros db os Hi Hn Hl Hin Hu H; [by apply elem_of_nil in Hin|].
  cbn in Hn. apply NoDup_cons in Hn as [Hnb Hn]. destruct (Hl b ltac:(set_solver)) as [Hb Hs].
  destruct (ai_request _ (xi_attempts _ Hi) _ _ Hb) as [r Hr].
  destruct (settle_started t maximum_attempts db os b r t_utc maximum_bound Hi Hb Hr Hs) as (db1 & o & Es & Hc).
  cbn [for_each] in H. rewrite Es in H. cbn [mbind res_bind] in H.
  pose proof (change_inv _ _ (closed_by_change _ _ _ _ Hc) Hi) as Hi1.
  assert (∀ c, c ∈ l → x_attempts db1 !! at_attempt_id c = Some c ∧ at_status c = STARTED) as Hl1.
  { intros c Hcl. rewrite (closed_by_other _ _ _ _ _ Hc); [by apply Hl; set_solver|]. intros E. apply Hnb. rewrite <- E.
    apply list_elem_of_fmap; by eauto. }
  apply elem_of_cons in Hin as [->|Hin].
  - destruct (settle_loop t maximum_attempts l db1 (os ++ [o]) t_utc maximum_bound Hi1 Hn Hl1) as (d & os2 & E & Hch & _).
    rewrite E in H. simplify_eq. eapply contradicted_changes; [exact Hch|]. exact (settle_unfinished db os b _ _ Hi Hu Es).
  - eapply (IH db1); try done. eapply unfinished_other; [done| |done]. intros E. apply Hnb. rewrite E. apply list_elem_of_fmap; by eauto.
Qed.
End settling.

(** C38: Recovery can leave a plan that no later run gets past. If the process stopped between the
    completion of a schedule attempt without schedule data and the failure of that attempt, then recovery
    of the plan returns, and every later state of the store reads as a snapshot that the verifier
    refuses, whatever is done and whichever settings the verifier is given. *)
Theorem recovery_blocks_execution column_size json_loads db db' plan a t maximum_attempts os :
  reachable db → unfinished_schedule db a → at_plan_sha256 a = hp_plan_sha256 plan →
  recover_ibkr_historical_execution db (hp_plan_sha256 plan) t maximum_attempts = Ok (db', os) →
  ∀ db'' s maximum_attempts' allow, rtc execution_step db' db'' →
    read_ibkr_historical_execution column_size db'' (hp_plan_sha256 plan) = Ok s →
    is_ok (verify_ibkr_historical_execution_snapshot json_loads plan s maximum_attempts' allow) = false.
Proof.
  intros Hre Hu Hp Hrec db'' s maximum' allow Hsteps Hs. pose proof (reachable_inv _ Hre) as Hi.
  assert (execution_inv db') as Hi' by (eapply changes_inv; [by eapply recover_changes|done]).
  revert Hrec. unfold recover_ibkr_historical_execution. intros (? & _ & H)%bind_Ok.
  apply bind_Ok in H as (? & Hmax%maximum_bounds & H). apply bind_Ok in H as (? & [Ht _]%require_utc_Ok & H).
  apply (settle_loop_contradicts t maximum_attempts Ht ltac:(lia) _ _ _ _ _ a) in H; [|done|apply NoDup_attempts_where, Hi| | |done].
  - rewrite Hp in H. eapply contradicted_changes in H; [|by apply steps_changes].
    destruct (verify_ibkr_historical_execution_snapshot _ _ _ _ _) eqn:E; [|done]. exfalso. eapply contradicted_refused in E; [done| |done|done].
    apply xi_attempts. eapply changes_inv; [by apply steps_changes|done].
  - intros b [Hb Hf]%elem_of_attempts_where; [|apply Hi]. bool_prop. tauto.
  - destruct Hu as (Ha & Hst & _). apply elem_of_attempts_where; [apply Hi|]. split; [done|].
    by rewrite Hp, String.eqb_refl, bool_decide_true.
Qed.

(** ** Witness: a process that stops before it fails a schedule attempt *)

Definition sample_schedule : IbkrHistoricalRequest :=
  default sample_bars (List.find (λ r, negb (is_bar r)) (hp_requests sample_plan)).
Definition sample_size (j : json) : Z := len (dumps j).
Definition registered : ExecutionDB :=
  (ok_or (empty_execution, REGISTERED)
     (register_ibkr_historical_plan sample_loads empty_execution sample_plan None (utc 0))).1.
Definition running : ExecutionDB :=
  (ok_or (registered, None)
     (start_ibkr_historical_attempt registered (sample_uuid 1) (hp_plan_sha256 sample_plan) (hr_request_sha256 sample_schedule)
        (sample_uuid 9) 1 1 (utc (seconds 1)) 3)).1.
Definition completion : IbkrHistoricalCallback := mkCallback (sample_uuid 9) 1 1 CB_COMPLETION (utc (seconds 2)) [].
Definition stopped : ExecutionDB :=
  (ok_or (running, no_record) (append_ibkr_historical_callback running (sample_uuid 1) completion)).1.
Definition recovered : ExecutionDB :=
  (ok_or (stopped, []) (recover_ibkr_historical_execution stopped (hp_plan_sha256 sample_plan) (utc (seconds 3)) 3)).1.
Definition verify_read (plan : IbkrHistoricalPlan) (allow : bool) (r : res IbkrHistoricalExecutionSnapshot) : res unit :=
  s ← r; verify_ibkr_historical_execution_snapshot sample_loads plan s 3 allow.
Definition verified (db : ExecutionDB) (allow : bool) : res unit :=
  verify_read sample_plan allow (read_ibkr_historical_execution sample_size db (hp_plan_sha256 sample_plan)).
Definition sample_running : IbkrHistoricalAttempt :=
  mkAttempt (sample_uuid 1) (hp_plan_sha256 sample_plan) (hr_request_sha256 sample_schedule) (sample_uuid 9) 1 1 1
    (utc (seconds 1)) STARTED None None None.

(** Checked before recovery; refused after it. *)
Example stopped_verified : verified stopped true = Ok tt.
Proof. vm_compute. reflexivity. Qed.
Example recovered_refused : verified recovered false =
  Raise (ValueError "IBKR attempt status/disposition does not match its eligible closure").
Proof. vm_compute. reflexivity. Qed.

Lemma registered_step : execution_step empty_execution registered.
Proof. edestruct (ok_or_fst (empty_execution, REGISTERED)) as [s E]; [|eapply step_register; exact E]. vm_compute. reflexivity. Qed.
Lemma running_step : execution_step registered running.
Proof. edestruct (ok_or_fst (registered, @None IbkrHistoricalAttempt)) as [s E]; [|eapply step_start; exact E]. vm_compute. reflexivity. Qed.
Lemma stopped_step : execution_step running stopped.
Proof. edestruct (ok_or_fst (running, no_record)) as [s E]; [|eapply step_append; exact E]. vm_compute. reflexivity. Qed.
Lemma stopped_reachable : reachable stopped.
Proof. eapply rtc_l; [exact registered_step|]. eapply rtc_l; [exact running_step|]. apply rtc_once, stopped_step. Qed.
Definition running_row : RequestRow :=
  mkRequestRow (ok_or JNull (request_json sample_schedule)) (hr_instrument_id sample_schedule) SCHEDULE
    (hr_interval_start sample_schedule) (hr_interval_end sample_schedule) IN_FLIGHT 1 None PUB_PENDING None None.
Definition empty_completion : IbkrHistoricalCompletionMarker :=
  mkMarker 1 (sample_uuid 1) (sample_uuid 9) 1 1 1 (utc (seconds 2)) 0 0 true [].
Lemma stopped_unfinished : unfinished_schedule stopped sample_running.
Proof.
  assert (x_requests stopped !! request_of sample_running = Some running_row) as Hr by (vm_compute; reflexivity).
  assert (first_marker stopped sample_running = Some empty_completion) as Hm by (vm_compute; reflexivity).
  assert (x_attempts stopped !! at_attempt_id sample_running = Some sample_running) as Ha by (vm_compute; reflexivity).
  assert (count_before stopped (at_attempt_id sample_running) (cm_sequence empty_completion) CB_ERROR = 0) as Hc
    by (vm_compute; reflexivity).
  exact (conj Ha (conj eq_refl (conj (ex_intro _ running_row (conj Hr eq_refl))
    (ex_intro _ empty_completion (conj Hm (conj Hc eq_refl)))))).
Qed.
Lemma recovered_by_recovery : ∃ os,
  recover_ibkr_historical_execution stopped (hp_plan_sha256 sample_plan) (utc (seconds 3)) 3 = Ok (recovered, os).
Proof. edestruct (ok_or_fst (stopped, @nil IbkrHistoricalAttemptOutcome)) as [os E]; [|exists os; exact E]. vm_compute. reflexivity. Qed.
Lemma recovered_read : ∃ s,
  read_ibkr_historical_execution sample_size recovered (hp_plan_sha256 sample_plan) = Ok s.
Proof. apply is_ok_true. vm_compute. reflexivity. Qed.

Lemma recovery_blocks_execution_witness : ∃ s,
  read_ibkr_historical_execution sample_size recovered (hp_plan_sha256 sample_plan) = Ok s ∧
  is_ok (verify_ibkr_historical_execution_snapshot sample_loads sample_plan s 3 false) = false.
Proof.
  destruct recovered_by_recovery as [os Hrec]. destruct recovered_read as [s Hs]. exists s. split; [exact Hs|].
  exact (recovery_blocks_execution sample_size sample_loads stopped recovered sample_plan sample_running (utc (seconds 3)) 3 os
           stopped_reachable stopped_unfinished eq_refl Hrec recovered s 3 false (rtc_refl _ _) Hs).
Defined.
